(* ===== verification/_CoqProject ===== *)
-Q . S2P
Prelude.v
Uthash.v
Errors.v
Machine.v
Reference.v
KernelBase.v
KernelMemory.v
Cache.v
CacheMap.v
UthashLinks.v
Words.v
CacheGlobal.v
Symbol.v
Template.v
Atomic.v
HexDump.v
Elf.v
Itab.v
Ud.v
Decode.v
DecodeLogic.v
DecodeSafe.v
Syn.v
Udis86.v
FunctionHook.v
HookList.v
SystemCall.v
HookHandler.v
HookChain.v
HookClone.v
HookBuild.v
HookUndo.v
CallBuild.v
Assembly.v
Ranges.v
HookDestroy.v
FunctionHandler.v
HookCall.v
HookEntry.v
CallEntry.v
RegisterStack.v
Socket.v
KernelExecute.v
UserProcess.v
UserMemory.v
UserIo.v
