(* ===== verification/Prelude.v ===== *)
(** * ps4sdk: a verification library

    ps4sdk is a C library for programs that run on a PlayStation 4, in user
    processes and inside its FreeBSD based kernel. Its core patches running
    kernel code: it finds the kernel's ELF image and resolves symbols in it,
    allocates executable memory, measures instructions with a disassembler,
    writes small code templates over kernel functions and system call entries,
    and runs hooks around what it replaced. Names are shared between copies of
    the library through a cache in the kernel. Around that core lie kernel
    sockets, calls from user processes into the kernel, and the user library's
    memory and I/O. This development models these parts function by function
    and proves what they promise. Paths below are relative to src/.

    ** How the code is modelled

    A C function is a function of [ST S A] ([bind], [let!], [do!] below): it
    takes a state and returns a result and a state, or [None] for a fault (an
    unmapped or read-only access, a bad free, a kernel panic, an endless loop
    whose fuel ran out). Integers are [Z], wrapped with [wrap] and [signed]
    where the C code converts or can overflow. The kernel's state is [machine]
    (Machine.v): byte-addressed memory, the addresses that are read-only text
    while CR0.WP is set, heap blocks, registers, static variables by name, held
    mutexes. A user's state is [process] (UserProcess.v): a machine with
    descriptors, mappings, shared objects, files and output. Structures are
    read and written field by field through memory, at the offsets of their
    definitions, except the hash tables of the caches, which are typed values
    named by their address (Uthash.v, Cache.v): their linked lists are Rocq
    lists there, and UthashLinks.v has the macros on the pointers themselves
    and a simulation between the two. Out parameters are [out]
    arguments (null or not) with the value in the result, unless the code
    passes them on as addresses.

    What the sources only call is a parameter: [KernelAllocator] (malloc) with
    [KernelAllocatorLaws] and [KernelRoom], [KernelDlSym] (the resolver; Elf.v
    defines the library's own, [elf_dlsym]) and [KernelSymbols] (what symbol.c
    relies on: a settled resolver gives each name one address and changes
    nothing. Elf.v does not instantiate it, since its resolver keeps that
    promise only once the kernel's image is mapped and has been found; Elf.v
    has a theorem of its own about the first lookup), [KernelSysctl] (the sysctl tree), [KernelStructs]
    (offsets in proc and ucred), [PayloadImage], [HookImage], [SystemCallImage]
    and [ExecuteImage] (addresses and bytes the linker places), [KernelCode]
    (code called by address from C), [AbiCode] (code called by address from
    assembly, which follows the calling convention), [KernelSockets] (the
    socket layer; [stream_socket] is the contract of one that receives: a byte
    is stored and leaves the front of what the peer has sent), [SystemTrap]
    (the instruction that enters the kernel), and [UserSystem] with
    [UserSystemLaws] and [UserReallocLaws] (addresses and handles a user gets,
    and which requests fail). Each has a concrete instance in the witnesses;
    Reference.v and the end of UserProcess.v hold the shared ones.

    ** The files

    - Prelude, Errors: machine integers, byte strings, the state monad; the
      codes of include/ps4/error.h and the macros of expression.h, exception.h.
    - Machine, Reference, Words: the state, its services, arrays of words.
    - KernelBase, KernelMemory: base.c, protection.c, register.c, thread.c and
      memory.c of common/kernel/source/kernel. Copies go through read-only text
      and restore protection; swaps, comparisons and allocations.
    - Uthash, Cache, CacheMap, CacheGlobal: uthash.h, cache.c, cache_global.c.
      A cache refines a finite map from names to values ([CacheMap]); deleting
      and destroying free exactly the blocks they should, names excepted; the
      global cache is found again by another copy of the library.
    - UthashLinks: the pointers of uthash.h (hh_prev, hh_next, prev, next, the
      buckets' heads, the table's tail). What the macros do to them is what
      Uthash.v does to its lists, at every addition and every deletion.
    - Symbol: symbol.c, uart.c, privilege.c. Memoised lookup under a mutex.
    - Elf: seek.c, dlsym.c, kern.c. The image search and the linear symbol
      lookup, from nothing cached to the symbol's address.
    - Template, Atomic: payload/template.c and the assembly of the templates,
      with the instructions they consist of as a step function; atomic.c and
      atomic.s, with the locks as interleavings of threads. The prologue's lock
      is exclusive and lets every thread through, the copy of the hook's
      structure being one step of its holder; the spin lock of atomic.s admits
      any number of threads at once.
    - Itab, Ud, Decode, DecodeLogic, DecodeSafe, Syn, Udis86: the disassembler
      in common/generic/source/third_party/udis86, which measures the
      instructions a hook displaces, and machine_instruction.c over it. The
      decoder is total and stays inside its tables ([DecodeLogic] is a program
      logic for it), leaves a well-formed object, depends on the instruction's
      bytes only, and the search for an instruction boundary finds the first
      one.
    - FunctionHook, HookList: function.c. A hook structure stands for a list of
      hooks; adding appends to it, removing leaves the types behind.
    - SystemCall, HookHandler, HookChain: system_call.c, the C part of
      payload/function_hook_handler.c, system_call_hook_handler.c and
      system_call_generic.c. Patching an entry changes exactly that entry; the
      handler of a hooked call is the chain of its hooks around the call.
    - HookClone: the copy of its structure each call of a hooked function works
      on, and its end (payload/function_hook_handler.c). The copy stands for
      the same list of hooks; making and destroying it leaves no trace.
      HookDestroy: behind whatever the hooks did, its end frees its blocks and
      nothing else.
    - HookBuild, HookUndo, CallBuild: making a hook and destroying it
      (function.c and system_call.c). A hooked function enters the prologue,
      the prologue knows the structure, the bridge has the displaced
      instructions and the way back; a hooked system call's entry is the
      prologue. Destroying the hook gives the machine back as it was. The
      construction is followed by a relation ([under_way]) that says which
      blocks it has made so far and that nothing else changed.
    - Assembly, FunctionHandler, HookCall, HookEntry: the instructions the
      payload's assembly uses, payload/function_hook_handler.s and
      payload/template/function_hook_prologue.s as lists of them, and what a
      call of a hooked function does: from a structure that stands for a list
      of hooks, the prologue reaches the handler with a copy of it, the handler
      performs the list around the function and always ends, and the caller
      gets its registers and its stack back and the copy is freed. What is
      asked of the hooks and of the function is a record of its own
      ([loop_calls]). Ranges holds what these proofs share about loads, stores
      and ranges of memory.
    - CallEntry: payload/template/system_call_hook_prologue.s as instructions,
      with the copy of system_call_hook_handler.c. A hooked system call reaches
      its handler where HookChain's theorem about the chain applies.
    - RegisterStack: base/assembler_register_parameter, as instructions. Pushing
      and popping the parameter registers are inverse.
    - HexDump, Socket: socket.c and descriptor.c. Lines received, mutexes of an
      accept, the estimate of format arguments; a hex dump is a table of rows.
    - KernelExecute: kernel_call.c, both kernel_execute.c, and the user and
      adaptive stub resolvers. A kernel function called from a user process
      gets its arguments and returns its result through the installed call.
    - UserProcess, UserMemory, UserIo: common/user/source. Protected memory is
      made and destroyed without a trace, files are read whole, redirection
      replaces exactly the three standard streams, the hex dump of mapped
      memory is the table.

    Each theorem that is a claim has an id C<n> in its comment and, where it
    has hypotheses, a witness,
    [<name>_witness], that applies it to concrete data. Several claims are of
    the kind that the code does not do what it means to: they state what it
    does instead.

    ** Fuel

    Loops that are not structural have fuel, and the theorems give enough of
    it: the prefix loop of the decoder 16 (an instruction has at most 15
    prefixes before it is an error), extension tables 8 and opcode tables 4
    deep (checked over all tables), a seek one more than its offset (each
    instruction is at least a byte), the padding loop of a hex dump 16 (a row's
    length). Loops over the length of a list, the bytes of a file or a line
    take their fuel as an argument, and the theorems ask for more than that
    length. Assembly runs with fuel that counts the jumps taken; the theorems
    about the handler prove that some amount is enough for its list of hooks.
    Waiting loops (spin locks, an accept, draining a hook) end only when
    another thread acts; their theorems are about the case that they end, or
    about interleavings of steps. For the lock of the hook prologue, every
    thread gets through in every run that leaves no thread out for ever.

    ** Not modelled

    The system call trampolines, crt0.s and the
    generated stubs only move registers. exploit.c races a defect of the
    console's kernel whose behaviour the sources do not give. ud_set_input_file
    is standard I/O. Of uthash, only what cache.c expands. The kernel's own
    headers (include/sys and others) declare interfaces; the constants and
    offsets used are definitions here.

    Modelled without a theorem of its own: opening and closing shared memory;
    the first initialisation of the hooks' static variables, which the theorems
    about hooks take as done. A local variable the code leaves uninitialised on
    a failing path (the handles of protected memory) is an argument of the
    model, and the theorems say which values they are about. *)

From stdpp Require Import base gmap list strings numbers.
From Stdlib Require Import ZArith Lia.
From Stdlib Require Ascii String.

#[global] Open Scope Z_scope.

(** ** Machine integers *)

(** A [w]-bit unsigned integer is a [Z] in [0, 2^w); conversion to it wraps. *)
Definition wrap (w z : Z) : Z := z mod 2 ^ w.

(** Conversion to a [w]-bit two's complement integer. *)
Definition signed (w z : Z) : Z :=
  if wrap w z <? 2 ^ (w - 1) then wrap w z else wrap w z - 2 ^ w.

Definition is_byte (b : Z) : Prop := 0 <= b < 256.

Lemma wrap_small w z : 0 <= z < 2 ^ w -> wrap w z = z.
Proof. apply Z.mod_small. Qed.

Lemma wrap_bound w z : 0 <= w -> 0 <= wrap w z < 2 ^ w.
Proof. intros Hw. apply Z.mod_pos_bound, Z.pow_pos_nonneg; lia. Qed.

Lemma wrap_narrow v w z : 0 <= v <= w -> wrap w z < 2 ^ v -> wrap v z = wrap w z.
Proof.
  intros Hv Hz. unfold wrap in *. rewrite <- (Z.mod_small (z mod 2 ^ w) (2 ^ v)).
  - symmetry. apply Z.mod_mod_divide. exists (2 ^ (w - v)). rewrite <- Z.pow_add_r by lia. f_equal. lia.
  - split; [apply Z.mod_pos_bound, Z.pow_pos_nonneg; lia | done].
Qed.

Lemma signed_small w z : 0 < w -> - 2 ^ (w - 1) <= z < 2 ^ (w - 1) -> signed w z = z.
Proof.
  intros Hw Hz. unfold signed, wrap.
  assert (2 ^ w = 2 * 2 ^ (w - 1)) as E.
  { rewrite <- Z.pow_succ_r by lia. f_equal. lia. }
  destruct (Z.leb_spec 0 z).
  - rewrite (Z.mod_small z) by lia. destruct (Z.ltb_spec z (2 ^ (w - 1))); lia.
  - assert (z mod 2 ^ w = z + 2 ^ w) as ->.
    { symmetry. apply Z.mod_unique with (-1); lia. }
    destruct (Z.ltb_spec (z + 2 ^ w) (2 ^ (w - 1))); lia.
Qed.

Lemma wrap_signed w z : 0 < w -> wrap w (signed w z) = wrap w z.
Proof.
  intros Hw. unfold signed.
  assert (0 < 2 ^ w) by (apply Z.pow_pos_nonneg; lia).
  destruct (Z.ltb_spec (wrap w z) (2 ^ (w - 1))) as [_|_]; unfold wrap.
  - apply Z.mod_mod. lia.
  - replace (z mod 2 ^ w - 2 ^ w) with (z mod 2 ^ w + (-1) * 2 ^ w) by lia.
    rewrite Z.mod_add by lia. apply Z.mod_mod. lia.
Qed.

(** ** Little-endian byte strings *)

Fixpoint le_bytes (n : nat) (z : Z) : list Z :=
  match n with
  | O => []
  | S n' => z mod 256 :: le_bytes n' (z / 256)
  end.

Fixpoint le_val (l : list Z) : Z :=
  match l with
  | [] => 0
  | b :: l' => b + 256 * le_val l'
  end.

Lemma length_le_bytes n z : length (le_bytes n z) = n.
Proof. revert z. induction n as [|n IH]; intros z; simpl; [done|]. by rewrite IH. Qed.

Lemma le_bytes_is_byte n z : Forall is_byte (le_bytes n z).
Proof.
  revert z. induction n as [|n IH]; intros z; simpl; constructor; [|apply IH].
  apply Z.mod_pos_bound. lia.
Qed.

Lemma le_val_bytes n z : le_val (le_bytes n z) = z mod 256 ^ Z.of_nat n.
Proof.
  revert z. induction n as [|n IH]; intros z.
  - simpl. by rewrite Z.mod_1_r.
  - cbn [le_bytes le_val]. rewrite IH, Nat2Z.inj_succ, Z.pow_succ_r by lia.
    assert (0 < 256 ^ Z.of_nat n) by (apply Z.pow_pos_nonneg; lia).
    rewrite Z.rem_mul_r by lia. lia.
Qed.

Lemma le_bytes_val l : Forall is_byte l -> le_bytes (length l) (le_val l) = l.
Proof.
  induction 1 as [|b l Hb Hl IH]; [done|].
  cbn [length le_bytes le_val]. unfold is_byte in Hb.
  rewrite (Z.mul_comm 256), Z.mod_add, Z.mod_small by lia.
  rewrite Z.div_add, Z.div_small, Z.add_0_l by lia. by rewrite IH.
Qed.

Lemma le_val_bound l : Forall is_byte l -> 0 <= le_val l < 256 ^ Z.of_nat (length l).
Proof.
  induction 1 as [|b l Hb Hl IH]; [simpl; lia|].
  cbn [length le_val]. rewrite Nat2Z.inj_succ, Z.pow_succ_r by lia.
  unfold is_byte in Hb. lia.
Qed.

Lemma le_val_bytes_wrap n z : le_val (le_bytes n z) = wrap (8 * Z.of_nat n) z.
Proof.
  rewrite le_val_bytes. unfold wrap. rewrite Z.pow_mul_r by lia. done.
Qed.

Lemma le_val_app l k : le_val (l ++ k) = le_val l + 256 ^ Z.of_nat (length l) * le_val k.
Proof.
  induction l as [|b l IH]; [simpl; lia|].
  cbn [app le_val length]. rewrite IH, Nat2Z.inj_succ, Z.pow_succ_r by lia. lia.
Qed.

Lemma le_val_zeros n : le_val (repeat 0 n) = 0.
Proof. induction n as [|n IH]; simpl; [done|]. by rewrite IH. Qed.

(** The characters of a C string, without the terminator. *)
Definition c_string (s : string) : list Z :=
  (fun a => Z.of_N (Ascii.N_of_ascii a)) <$> String.list_ascii_of_string s.

(** [strnlen] of the characters before a string's terminator. *)
Fixpoint strnlen (l : list Z) (max : nat) : nat :=
  match max, l with
  | S max', b :: l' => if b =? 0 then O else S (strnlen l' max')
  | _, _ => O
  end.

(** ** A state monad with faults

    A C function that reads and writes the machine is a function of the state
    that gives its value and the new state, or [None] when the run does not
    go on: a page fault, a panic, an access through a freed object, or
    (where a loop carries fuel) a loop that did not end. *)

Definition ST (S A : Type) : Type := S -> option (A * S).

Section Monad.
Context {S : Type}.

Definition ret {A} (a : A) : ST S A := fun s => Some (a, s).
Definition bind {A B} (m : ST S A) (k : A -> ST S B) : ST S B :=
  fun s => match m s with Some (a, s') => k a s' | None => None end.
Definition fault {A} : ST S A := fun _ => None.
Definition gets {A} (f : S -> A) : ST S A := fun s => Some (f s, s).
Definition modify (f : S -> S) : ST S unit := fun s => Some (tt, f s).

Lemma bind_some {A B} (m : ST S A) (k : A -> ST S B) s a s' :
  m s = Some (a, s') -> bind m k s = k a s'.
Proof. unfold bind. by intros ->. Qed.

Lemma bind_none {A B} (m : ST S A) (k : A -> ST S B) s :
  m s = None -> bind m k s = None.
Proof. unfold bind. by intros ->. Qed.

Lemma bind_inv {A B} (m : ST S A) (k : A -> ST S B) s r :
  bind m k s = Some r -> exists a s', m s = Some (a, s') /\ k a s' = Some r.
Proof. unfold bind. destruct (m s) as [[a s']|]; [eauto|done]. Qed.
End Monad.

Declare Scope st_scope.
Delimit Scope st_scope with st.
Notation "'let!' x ':=' m 'in' k" := (bind m (fun x => k))
  (at level 200, x name, m at level 99, k at level 200, right associativity) : st_scope.
Notation "'do!' m 'in' k" := (bind m (fun _ => k))
  (at level 200, m at level 99, k at level 200, right associativity) : st_scope.
#[global] Open Scope st_scope.

(** ** Automation *)

(** Lemmas that say what one operation does on a given state; [step] rewrites
    the first operation of a sequence with one of them. *)
Create HintDb run discriminated.

(** Split the boolean tests of a goal or hypothesis into their arithmetic. *)
Ltac zbool :=
  repeat match goal with
  | |- context [?a =? ?b] => destruct (Z.eqb_spec a b)
  | |- context [?a <? ?b] => destruct (Z.ltb_spec a b)
  | |- context [?a <=? ?b] => destruct (Z.leb_spec a b)
  | H : context [?a =? ?b] |- _ => destruct (Z.eqb_spec a b)
  | H : context [?a <? ?b] |- _ => destruct (Z.ltb_spec a b)
  | H : context [?a <=? ?b] |- _ => destruct (Z.leb_spec a b)
  end.

(** Run one operation whose result a lemma or hypothesis gives. *)
Ltac step_with H := erewrite bind_some by (eapply H; eauto); cbv beta.
Ltac step := erewrite bind_some by (solve [eauto with run]); cbv beta.

(** Decide a closed decidable goal by evaluation. *)
Ltac vm_decide := apply (bool_decide_unpack _); vm_compute; exact I.

(** An equation of two computations, compared by the virtual machine. *)
Ltac vm_equal := match goal with |- ?x = ?y => vm_cast_no_check (eq_refl y) end.
