(* ===== verification/Uthash.v ===== *)
(** * Hash tables (include/third_party/kernel/uthash/uthash.h)

    The part of uthash the kernel caches use: Jenkins' hash function, the
    table with its buckets, adding to and deleting from a bucket, and the
    doubling of the buckets. An element is named by its address. The linked
    lists are Rocq lists: [chain] is the bucket's list from [hh_head] along
    [hh_next], [items] the list in the order of insertion, from the head
    element to [tail]. UthashLinks.v has the same macros on the pointers and
    shows that these lists are what the pointers spell. The other fields are the header's, the unsigned ones
    wrapped to 32 bits. *)

From stdpp Require Import base gmap list.
From S2P Require Import Prelude.

(** ** Types *)

Record UT_hash_handle := Handle { hh_key : Z; keylen : Z; hashv : Z }.

Record UT_hash_bucket := Bucket { chain : list Z; count : Z; expand_mult : Z }.

(** [tbl_at] and [buckets_at] are the blocks the table and its bucket array
    were allocated in. *)
Record UT_hash_table := Table {
  tbl_at : Z;
  buckets_at : Z;
  buckets : list UT_hash_bucket;
  num_buckets : Z;
  log2_num_buckets : Z;
  num_items : Z;
  ideal_chain_maxlen : Z;
  nonideal_items : Z;
  ineff_expands : Z;
  noexpand : Z;
  items : list Z
}.

Definition sizeof_UT_hash_handle : Z := 56.
Definition sizeof_UT_hash_bucket : Z := 16.
Definition sizeof_UT_hash_table : Z := 64.

Definition HASH_INITIAL_NUM_BUCKETS : Z := 32.
Definition HASH_INITIAL_NUM_BUCKETS_LOG2 : Z := 5.
Definition HASH_BKT_CAPACITY_THRESH : Z := 10.

(** The elements cache.c puts in a table: [hh] is embedded in them. *)
Record Ps4KernelCacheEntry := CacheEntry { name : Z; value : Z; hh : UT_hash_handle }.

(** ** Jenkins' hash *)

Definition u32 (z : Z) : Z := wrap 32 z.

(** One line of the mix: [a -= b; a -= c; a ^= (c >> n)]. *)
Definition mix_right (a b c n : Z) : Z := Z.lxor (u32 (u32 (a - b) - c)) (Z.shiftr c n).
Definition mix_left (a b c n : Z) : Z := Z.lxor (u32 (u32 (a - b) - c)) (u32 (Z.shiftl c n)).

Definition HASH_JEN_MIX (abc : Z * Z * Z) : Z * Z * Z :=
  let '(a, b, c) := abc in
  let a := mix_right a b c 13 in
  let b := mix_left b c a 8 in
  let c := mix_right c a b 13 in
  let a := mix_right a b c 12 in
  let b := mix_left b c a 16 in
  let c := mix_right c a b 5 in
  let a := mix_right a b c 3 in
  let b := mix_left b c a 10 in
  let c := mix_right c a b 15 in
  (a, b, c).

(** Four bytes added up as the loop adds them. *)
Definition word_of (b0 b1 b2 b3 : Z) : Z :=
  b0 + Z.shiftl b1 8 + Z.shiftl b2 16 + Z.shiftl b3 24.

(** The [while] loop over blocks of twelve bytes, with what is left over. *)
Fixpoint jen_blocks (key : list Z) (ijh : Z * Z * Z) {struct key} : list Z * (Z * Z * Z) :=
  match key with
  | k0 :: k1 :: k2 :: k3 :: k4 :: k5 :: k6 :: k7 :: k8 :: k9 :: k10 :: k11 :: rest =>
      let '(i, j, h) := ijh in
      jen_blocks rest (HASH_JEN_MIX
        (u32 (i + word_of k0 k1 k2 k3), u32 (j + word_of k4 k5 k6 k7), u32 (h + word_of k8 k9 k10 k11)))
  | _ => (key, ijh)
  end.

(** The [switch] over the bytes left: each adds to one of the three words. *)
Definition jen_tail (rest : list Z) (ijh : Z * Z * Z) : Z * Z * Z :=
  let '(i, j, h) := ijh in
  let k (n : nat) : Z := default 0 (rest !! n) in
  (u32 (i + word_of (k 0%nat) (k 1%nat) (k 2%nat) (k 3%nat)),
   u32 (j + word_of (k 4%nat) (k 5%nat) (k 6%nat) (k 7%nat)),
   u32 (h + Z.shiftl (k 8%nat) 8 + Z.shiftl (k 9%nat) 16 + Z.shiftl (k 10%nat) 24)).

Definition HASH_JEN (key : list Z) : Z :=
  let '(rest, (i, j, h)) := jen_blocks key (0x9e3779b9, 0x9e3779b9, 0xfeedbeef) in
  let h := u32 (h + Z.of_nat (length key)) in
  let '(_, _, h) := HASH_JEN_MIX (jen_tail rest (i, j, h)) in h.

Definition HASH_TO_BKT (hashv num_bkts : Z) : Z := Z.land hashv (u32 (num_bkts - 1)).

(** ** Tables *)

Definition set_buckets (bs : list UT_hash_bucket) (t : UT_hash_table) : UT_hash_table :=
  Table (tbl_at t) (buckets_at t) bs (num_buckets t) (log2_num_buckets t) (num_items t)
    (ideal_chain_maxlen t) (nonideal_items t) (ineff_expands t) (noexpand t) (items t).

Definition set_items (n : Z) (l : list Z) (t : UT_hash_table) : UT_hash_table :=
  Table (tbl_at t) (buckets_at t) (buckets t) (num_buckets t) (log2_num_buckets t) n
    (ideal_chain_maxlen t) (nonideal_items t) (ineff_expands t) (noexpand t) l.

(** [HASH_MAKE_TABLE], given the two blocks it allocates. *)
Definition HASH_MAKE_TABLE (tbl bkts head : Z) : UT_hash_table :=
  Table tbl bkts (repeat (Bucket [] 0 0) (Z.to_nat HASH_INITIAL_NUM_BUCKETS))
    HASH_INITIAL_NUM_BUCKETS HASH_INITIAL_NUM_BUCKETS_LOG2 0 0 0 0 0 [head].

(** The linking part of [HASH_ADD_TO_BKT]. *)
Definition HASH_ADD_TO_BKT (b : UT_hash_bucket) (add : Z) : UT_hash_bucket :=
  Bucket (add :: chain b) (u32 (count b + 1)) (expand_mult b).

(** Its test: is the bucket full, and may the table grow? *)
Definition must_expand (b : UT_hash_bucket) (t : UT_hash_table) : bool :=
  (u32 (u32 (expand_mult b + 1) * HASH_BKT_CAPACITY_THRESH) <=? count b) && negb (noexpand t =? 1).

Definition HASH_DEL_IN_BKT (b : UT_hash_bucket) (del : Z) : UT_hash_bucket :=
  Bucket (filter (fun e => e <> del) (chain b)) (u32 (count b - 1)) (expand_mult b).

(** [ceil(items / (2 * buckets))], by shift and mask. *)
Definition ideal_maxlen (t : UT_hash_table) : Z :=
  u32 (Z.shiftr (num_items t) (log2_num_buckets t + 1) +
    (if Z.land (num_items t) (u32 (u32 (num_buckets t * 2) - 1)) =? 0 then 0 else 1)).

(** The body of the expansion's inner loop: one element moves to its new
    bucket. [None] is the division by zero. *)
Definition move_to_bucket (hv : Z -> Z) (ideal nb : Z) (e : Z)
    (acc : list UT_hash_bucket * Z) : option (list UT_hash_bucket * Z) :=
  let '(bs, nonideal) := acc in
  let i := Z.to_nat (HASH_TO_BKT (hv e) nb) in
  match bs !! i with
  | None => None
  | Some b =>
      let c := u32 (count b + 1) in
      if ideal <? c then
        if ideal =? 0 then None
        else Some (<[i := Bucket (e :: chain b) c (c / ideal)]> bs, u32 (nonideal + 1))
      else Some (<[i := Bucket (e :: chain b) c (expand_mult b)]> bs, nonideal)
  end.

Fixpoint move_all (hv : Z -> Z) (ideal nb : Z) (l : list Z)
    (acc : list UT_hash_bucket * Z) : option (list UT_hash_bucket * Z) :=
  match l with
  | [] => Some acc
  | e :: l' =>
      match move_to_bucket hv ideal nb e acc with
      | Some acc' => move_all hv ideal nb l' acc'
      | None => None
      end
  end.

(** [HASH_EXPAND_BUCKETS], given the block of the new bucket array; [hv] reads
    an element's [hashv]. The two nested loops visit the chains of the old
    buckets in their order. *)
Definition HASH_EXPAND_BUCKETS (hv : Z -> Z) (bkts : Z) (t : UT_hash_table) : option UT_hash_table :=
  let nb := u32 (num_buckets t * 2) in
  let ideal := ideal_maxlen t in
  match move_all hv ideal nb (concat (chain <$> buckets t))
          (repeat (Bucket [] 0 0) (Z.to_nat (2 * num_buckets t)), 0) with
  | None => None
  | Some (bs, nonideal) =>
      let ineff := if Z.shiftr (num_items t) 1 <? nonideal then u32 (ineff_expands t + 1) else 0 in
      Some (Table (tbl_at t) bkts bs nb (u32 (log2_num_buckets t + 1)) (num_items t)
              ideal nonideal ineff (if 1 <? ineff then 1 else noexpand t) (items t))
  end.

(** ** Lemmas *)

Lemma u32_bound z : 0 <= u32 z < 2 ^ 32.
Proof. apply wrap_bound. lia. Qed.

Lemma u32_succ z : u32 (u32 z + 1) = u32 (z + 1).
Proof. unfold u32, wrap. by rewrite Z.add_mod_idemp_l by lia. Qed.

Lemma u32_pred z : u32 (u32 z - 1) = u32 (z - 1).
Proof. unfold u32, wrap. by rewrite Zminus_mod_idemp_l. Qed.

Lemma lxor_bound a b n : 0 <= n -> 0 <= a < 2 ^ n -> 0 <= b < 2 ^ n -> 0 <= Z.lxor a b < 2 ^ n.
Proof.
  intros Hn Ha Hb. replace (Z.lxor a b) with (Z.lxor a b mod 2 ^ n).
  { apply Z.mod_pos_bound, Z.pow_pos_nonneg; lia. }
  apply Z.bits_inj'. intros i Hi. destruct (Z.lt_ge_cases i n).
  { by rewrite Z.mod_pow2_bits_low. }
  rewrite Z.mod_pow2_bits_high by lia. rewrite Z.lxor_spec.
  rewrite <- (Z.mod_small a (2 ^ n)), <- (Z.mod_small b (2 ^ n)) by done.
  by rewrite !Z.mod_pow2_bits_high by lia.
Qed.

Lemma mix_right_bound a b c n : 0 <= n -> 0 <= c < 2 ^ 32 -> 0 <= mix_right a b c n < 2 ^ 32.
Proof.
  intros Hn Hc. apply lxor_bound; [lia | apply u32_bound|]. rewrite Z.shiftr_div_pow2 by lia.
  split; [apply Z.div_pos; [lia | apply Z.pow_pos_nonneg; lia]|].
  apply Z.le_lt_trans with c; [|lia]. apply Z.div_le_upper_bound; [apply Z.pow_pos_nonneg; lia|].
  assert (1 <= 2 ^ n) by (pose proof (Z.pow_pos_nonneg 2 n); lia). nia.
Qed.

Lemma mix_left_bound a b c n : 0 <= mix_left a b c n < 2 ^ 32.
Proof. apply lxor_bound; [lia | apply u32_bound | apply u32_bound]. Qed.

(** A hash value is a 32-bit number. *)
Lemma HASH_JEN_bound key : 0 <= HASH_JEN key < 2 ^ 32.
Proof.
  unfold HASH_JEN. destruct (jen_blocks key _) as [rest [[i j] h]].
  destruct (jen_tail _ _) as [[i' j'] h'] eqn:E.
  injection E as <- <- <-. unfold HASH_JEN_MIX.
  repeat (apply mix_right_bound; [lia|] || apply mix_left_bound); try apply u32_bound.
Qed.

(** A bucket number is in range, for a power of two of buckets. *)
Lemma to_bkt_bound h k : 0 <= k <= 32 -> 0 <= HASH_TO_BKT h (2 ^ k) < 2 ^ k.
Proof.
  intros Hk. unfold HASH_TO_BKT. assert (2 ^ k <= 2 ^ 32) by (apply Z.pow_le_mono_r; lia).
  assert (0 < 2 ^ k) by (apply Z.pow_pos_nonneg; lia).
  unfold u32. rewrite wrap_small by lia. replace (2 ^ k - 1) with (Z.ones k) by (rewrite Z.ones_equiv; lia).
  rewrite Z.land_ones by lia. apply Z.mod_pos_bound. done.
Qed.

(** ** The buckets of a table partition its items *)

Definition bucket_of (hv : Z -> Z) (nb e : Z) : nat := Z.to_nat (HASH_TO_BKT (hv e) nb).

Record chains_ok (hv : Z -> Z) (t : UT_hash_table) : Prop := ChainsOk {
  chains_log : 0 <= log2_num_buckets t <= 31;
  chains_num : num_buckets t = 2 ^ log2_num_buckets t;
  chains_length : Z.of_nat (length (buckets t)) = num_buckets t;
  chains_bucket : forall i b, buckets t !! i = Some b ->
    NoDup (chain b) /\ count b = u32 (Z.of_nat (length (chain b))) /\
    forall e, e ∈ chain b <-> e ∈ items t /\ bucket_of hv (num_buckets t) e = i
}.

Lemma bucket_of_lt hv t e : chains_ok hv t -> (bucket_of hv (num_buckets t) e < length (buckets t))%nat.
Proof.
  intros [Hl Hn Hlen _]. unfold bucket_of. pose proof (to_bkt_bound (hv e) (log2_num_buckets t) ltac:(lia)).
  rewrite Hn in *. lia.
Qed.

(** Every hash value has a bucket. *)
Lemma bucket_at hv t h :
  chains_ok hv t -> exists b, buckets t !! Z.to_nat (HASH_TO_BKT h (num_buckets t)) = Some b /\
    forall e, e ∈ chain b <-> e ∈ items t /\ HASH_TO_BKT (hv e) (num_buckets t) = HASH_TO_BKT h (num_buckets t).
Proof.
  intros [Hl Hn Hlen Hb]. pose proof (to_bkt_bound h (log2_num_buckets t) ltac:(lia)) as Hh. rewrite <- Hn in Hh.
  destruct (lookup_lt_is_Some_2 (buckets t) (Z.to_nat (HASH_TO_BKT h (num_buckets t)))) as [b E]; [lia|].
  exists b. split; [done|]. intros e. destruct (Hb _ _ E) as (_ & _ & He). rewrite He. unfold bucket_of.
  pose proof (to_bkt_bound (hv e) (log2_num_buckets t) ltac:(lia)) as Hx. rewrite <- Hn in Hx.
  split; intros [? Hq]; (split; [done|]); [by apply Z2Nat.inj in Hq; lia | by rewrite Hq].
Qed.

(** The bucket an element is looked up in. *)
Lemma bucket_lookup hv t e :
  chains_ok hv t -> exists b, buckets t !! bucket_of hv (num_buckets t) e = Some b /\
    (e ∈ chain b <-> e ∈ items t).
Proof.
  intros Hc. destruct (lookup_lt_is_Some_2 _ _ (bucket_of_lt hv t e Hc)) as [b Hb].
  exists b. split; [done|]. destruct (chains_bucket _ _ Hc _ _ Hb) as (_ & _ & He). rewrite He. tauto.
Qed.

(** Lists told apart by an index function. *)
Lemma NoDup_concat_indexed (g : Z -> nat) (ls : list (list Z)) n :
  (forall i l, ls !! i = Some l -> NoDup l /\ forall e, e ∈ l -> g e = (n + i)%nat) -> NoDup (concat ls).
Proof.
  revert n. induction ls as [|l ls IH]; intros n H; cbn [concat]; [constructor|].
  destruct (H 0%nat l eq_refl) as [Hl Hg]. apply NoDup_app. split; [done|]. split.
  - intros e He Hin. apply list_elem_of_In, in_concat in Hin as (l' & Hl' & He').
    apply list_elem_of_In in Hl', He'. apply list_elem_of_lookup_1 in Hl' as [i Hi].
    destruct (H (S i) l' Hi) as [_ Hg']. specialize (Hg' e He'). rewrite (Hg e He) in Hg'. lia.
  - apply (IH (S n)). intros i l' Hi. destruct (H (S i) l' Hi) as [? Hg']. split; [done|].
    intros e He. rewrite (Hg' e He). lia.
Qed.

Lemma chains_concat hv t :
  chains_ok hv t -> NoDup (concat (chain <$> buckets t)) /\
    forall e, e ∈ concat (chain <$> buckets t) <-> e ∈ items t.
Proof.
  intros Hc. split.
  - apply (NoDup_concat_indexed (bucket_of hv (num_buckets t)) _ 0). intros i l Hl.
    rewrite list_lookup_fmap in Hl. apply fmap_Some in Hl as (b & Hb & ->).
    destruct (chains_bucket _ _ Hc _ _ Hb) as (Hn & _ & He). split; [done|]. intros e [_ ?]%He. done.
  - intros e. rewrite list_elem_of_In, in_concat. split.
    + intros (l & Hl & Hin). apply list_elem_of_In in Hl, Hin.
      apply list_elem_of_fmap in Hl as (b & -> & Hb). apply list_elem_of_lookup_1 in Hb as [i Hi].
      destruct (chains_bucket _ _ Hc _ _ Hi) as (_ & _ & He). apply He in Hin. tauto.
    + intros Hin. destruct (bucket_lookup hv t e Hc) as (b & Hb & He). exists (chain b).
      split; apply list_elem_of_In; [|by apply He].
      apply list_elem_of_fmap. exists b. split; [done|]. by eapply list_elem_of_lookup_2.
Qed.

(** ** Expansion *)

Lemma ideal_maxlen_pos t :
  0 <= log2_num_buckets t < 31 -> num_buckets t = 2 ^ log2_num_buckets t ->
  0 < num_items t < 2 ^ 32 -> 0 < ideal_maxlen t.
Proof.
  intros Hl Hn Hi. unfold ideal_maxlen. set (lg := log2_num_buckets t) in *. rewrite Hn.
  assert (0 < 2 ^ lg < 2 ^ 31) by (split; [apply Z.pow_pos_nonneg | apply Z.pow_lt_mono_r]; lia).
  unfold u32 at 2 3. rewrite !wrap_small by (try rewrite wrap_small; lia).
  rewrite Z.shiftr_div_pow2 by lia.
  replace (2 ^ lg * 2) with (2 ^ (lg + 1)) by (rewrite Z.pow_add_r; lia).
  assert (0 < 2 ^ (lg + 1)) as Hp by (apply Z.pow_pos_nonneg; lia).
  assert (2 ^ 1 <= 2 ^ (lg + 1)) as Hp2 by (apply Z.pow_le_mono_r; lia).
  assert (0 <= num_items t / 2 ^ (lg + 1) < 2 ^ 31).
  { split; [apply Z.div_pos; lia|]. apply Z.div_lt_upper_bound; nia. }
  replace (2 ^ (lg + 1) - 1) with (Z.ones (lg + 1)) by (rewrite Z.ones_equiv; lia).
  rewrite Z.land_ones by lia. destruct (Z.eqb_spec (num_items t mod 2 ^ (lg + 1)) 0) as [E|E].
  - pose proof (Z.div_mod (num_items t) (2 ^ (lg + 1)) ltac:(lia)) as D. rewrite E in D.
    unfold u32. rewrite wrap_small by lia. nia.
  - unfold u32. rewrite wrap_small by lia. lia.
Qed.

(** After the elements [p] (the latest first) have been moved. *)
Definition moved_buckets (hv : Z -> Z) (nb : Z) (bs : list UT_hash_bucket) (p : list Z) : Prop :=
  forall i b, bs !! i = Some b ->
    chain b = filter (fun e => bucket_of hv nb e = i) p /\ count b = u32 (Z.of_nat (length (chain b))).

Lemma move_to_bucket_run hv ideal nb e bs ni p :
  0 < ideal -> (bucket_of hv nb e < length bs)%nat -> moved_buckets hv nb bs p ->
  exists bs' ni', move_to_bucket hv ideal nb e (bs, ni) = Some (bs', ni') /\
    moved_buckets hv nb bs' (e :: p) /\ length bs' = length bs.
Proof.
  intros Hi Hlt Hm. unfold move_to_bucket. fold (bucket_of hv nb e).
  destruct (lookup_lt_is_Some_2 _ _ Hlt) as [b Hb]. rewrite Hb.
  rewrite (proj2 (Z.eqb_neq ideal 0)) by lia. destruct (Hm _ _ Hb) as [Hc Hn].
  assert (forall x, moved_buckets hv nb (<[bucket_of hv nb e := Bucket (e :: chain b) (u32 (count b + 1)) x]> bs) (e :: p)) as Hq.
  { intros x i b' Hb'. destruct (decide (i = bucket_of hv nb e)) as [->|Hne].
    - rewrite list_lookup_insert_eq in Hb' by done. injection Hb' as <-. cbn [chain count length].
      rewrite filter_cons_True by done. rewrite Hc, Hn, u32_succ. split; [done|].
      rewrite <- Hc. f_equal. lia.
    - rewrite list_lookup_insert_ne in Hb' by done. rewrite filter_cons_False by done. by apply Hm. }
  destruct (_ <? _); eexists _, _; (split; [reflexivity|]); (split; [apply Hq | apply length_insert]).
Qed.

Lemma move_all_run hv ideal nb l : forall bs ni p,
  0 < ideal -> (forall e, e ∈ l -> (bucket_of hv nb e < length bs)%nat) -> moved_buckets hv nb bs p ->
  exists bs' ni', move_all hv ideal nb l (bs, ni) = Some (bs', ni') /\
    moved_buckets hv nb bs' (reverse l ++ p) /\ length bs' = length bs.
Proof.
  induction l as [|e l IH]; intros bs ni p Hi Hlt Hm; cbn [move_all].
  - by eexists _, _.
  - destruct (move_to_bucket_run hv ideal nb e bs ni p Hi) as (bs1 & ni1 & -> & Hm1 & L1);
      [apply Hlt; left | done |].
    destruct (IH bs1 ni1 (e :: p) Hi) as (bs2 & ni2 & E & Hm2 & L2); [|done|].
    { intros x Hx. rewrite L1. apply Hlt. by right. }
    exists bs2, ni2. split; [done|]. split; [|lia]. rewrite reverse_cons, <- app_assoc. exact Hm2.
Qed.

(** Doubling the buckets keeps every item, each in its new bucket. *)
Lemma expand_run hv bkts t :
  chains_ok hv t -> log2_num_buckets t < 31 -> 0 < num_items t < 2 ^ 32 ->
  exists t', HASH_EXPAND_BUCKETS hv bkts t = Some t' /\ chains_ok hv t' /\ items t' = items t /\
    num_items t' = num_items t /\ tbl_at t' = tbl_at t /\ buckets_at t' = bkts /\
    num_buckets t' = 2 * num_buckets t.
Proof.
  intros Hc Hl Hi. pose proof (chains_log _ _ Hc) as Hlg. pose proof (chains_num _ _ Hc) as Hn.
  set (lg := log2_num_buckets t) in *.
  assert (0 < 2 ^ lg < 2 ^ 31) as Hp by (split; [apply Z.pow_pos_nonneg | apply Z.pow_lt_mono_r]; lia).
  assert (u32 (num_buckets t * 2) = 2 ^ (lg + 1)) as Hnb.
  { unfold u32. rewrite Hn, Z.pow_add_r by lia. apply wrap_small. lia. }
  assert (u32 (lg + 1) = lg + 1) as Hlg1 by (apply wrap_small; lia).
  assert (2 * num_buckets t = 2 ^ (lg + 1)) as H2 by (rewrite Hn, Z.pow_add_r by lia; lia).
  unfold HASH_EXPAND_BUCKETS. rewrite Hnb, H2. fold lg.
  assert (0 < ideal_maxlen t) as Hid by (apply ideal_maxlen_pos; unfold lg in *; [lia | done | done]).
  destruct (chains_concat hv t Hc) as [Hnd Hel].
  destruct (move_all_run hv (ideal_maxlen t) (2 ^ (lg + 1)) (concat (chain <$> buckets t))
    (repeat (Bucket [] 0 0) (Z.to_nat (2 ^ (lg + 1)))) 0 [] Hid) as (bs & ni & -> & Hm & L).
  - intros e _. rewrite repeat_length. unfold bucket_of.
    pose proof (to_bkt_bound (hv e) (lg + 1) ltac:(lia)). lia.
  - intros i b Hb. apply list_elem_of_lookup_2, list_elem_of_In, repeat_spec in Hb as ->. done.
  - eexists. split; [reflexivity|]. rewrite repeat_length in L. rewrite app_nil_r in Hm.
    split; [|done]. split; cbn [log2_num_buckets num_buckets buckets items]; rewrite ?Hlg1; [lia | done | lia |].
    intros i b Hb. destruct (Hm i b Hb) as [Hch Hct]. split; [|split; [done|]].
    + rewrite Hch. apply NoDup_filter. by rewrite reverse_Permutation.
    + intros e. rewrite Hch, list_elem_of_filter, elem_of_reverse, Hel. tauto.
Qed.

(** ** Adding and deleting *)

Lemma chains_ok_ext hv hv' t :
  (forall e, e ∈ items t -> hv' e = hv e) -> chains_ok hv t -> chains_ok hv' t.
Proof.
  intros He [Hl Hn Hlen Hb]. split; [done..|]. intros i b E. destruct (Hb i b E) as (? & ? & Hc).
  split; [done|]. split; [done|]. intros e. rewrite Hc. unfold bucket_of.
  split; intros [Hin Hi]; (split; [done|]); by rewrite (He e Hin) in *.
Qed.

(** A table before its first element is linked into a bucket. *)
Lemma chains_ok_make hv tbl bkts : chains_ok hv (set_items 0 [] (HASH_MAKE_TABLE tbl bkts 0)).
Proof.
  split; cbn [set_items HASH_MAKE_TABLE log2_num_buckets num_buckets buckets items]; [done..|].
  intros i b Hb. apply list_elem_of_lookup_2, list_elem_of_In, repeat_spec in Hb as ->. cbn.
  split; [constructor|]. split; [done|]. intros e. split; [by intros ?%not_elem_of_nil | by intros [?%not_elem_of_nil _]].
Qed.

Lemma chains_ok_add hv t e b n :
  chains_ok hv t -> e ∉ items t -> buckets t !! bucket_of hv (num_buckets t) e = Some b ->
  chains_ok hv (set_buckets (<[bucket_of hv (num_buckets t) e := HASH_ADD_TO_BKT b e]> (buckets t))
                  (set_items n (items t ++ [e]) t)).
Proof.
  intros Hc He Hb. pose proof Hc as [Hl Hn Hlen Hbk]. destruct (Hbk _ _ Hb) as (Hd & Hct & Hin).
  split; cbn [set_buckets set_items log2_num_buckets num_buckets buckets items]; [done | done | by rewrite length_insert|].
  intros i b' Hb'. destruct (decide (i = bucket_of hv (num_buckets t) e)) as [->|Hne].
  - rewrite list_lookup_insert_eq in Hb' by (by eapply lookup_lt_Some). injection Hb' as <-. cbn [chain count HASH_ADD_TO_BKT length].
    split; [constructor; [rewrite Hin; tauto | done]|].
    split; [rewrite Hct, u32_succ; f_equal; lia|].
    intros x. rewrite elem_of_cons, elem_of_app, Hin, list_elem_of_singleton.
    destruct (decide (x = e)) as [->|]; tauto.
  - rewrite list_lookup_insert_ne in Hb' by done. destruct (Hbk _ _ Hb') as (? & ? & Hx).
    split; [done|]. split; [done|]. intros x. rewrite Hx, elem_of_app, list_elem_of_singleton.
    split; [tauto|]. intros [[?| ->] ?]; [done|congruence].
Qed.

Lemma length_filter_remove (e : Z) l :
  NoDup l -> e ∈ l -> S (length (filter (fun x => x <> e) l)) = length l.
Proof.
  induction 1 as [|x l Hx Hl IH]; [by intros ?%not_elem_of_nil|].
  intros [->|He]%elem_of_cons.
  - rewrite filter_cons_False by tauto. cbn [length]. f_equal.
    clear IH. induction Hl as [|y l Hy Hl IH]; [done|]. apply not_elem_of_cons in Hx as [? ?].
    rewrite filter_cons_True by congruence. cbn [length]. by rewrite IH.
  - rewrite filter_cons_True by (intros ->; done). cbn [length]. f_equal. by apply IH.
Qed.

Lemma chains_ok_del hv t e b n :
  chains_ok hv t -> e ∈ items t -> buckets t !! bucket_of hv (num_buckets t) e = Some b ->
  chains_ok hv (set_buckets (<[bucket_of hv (num_buckets t) e := HASH_DEL_IN_BKT b e]> (buckets t))
                  (set_items n (filter (fun x => x <> e) (items t)) t)).
Proof.
  intros Hc He Hb. pose proof Hc as [Hl Hn Hlen Hbk]. destruct (Hbk _ _ Hb) as (Hd & Hct & Hin).
  split; cbn [set_buckets set_items log2_num_buckets num_buckets buckets items]; [done | done | by rewrite length_insert|].
  intros i b' Hb'. destruct (decide (i = bucket_of hv (num_buckets t) e)) as [->|Hne].
  - rewrite list_lookup_insert_eq in Hb' by (by eapply lookup_lt_Some). injection Hb' as <-. cbn [chain count HASH_DEL_IN_BKT].
    assert (e ∈ chain b) as Heb by (by apply Hin).
    split; [by apply NoDup_filter|]. split.
    + rewrite Hct, u32_pred. f_equal. pose proof (length_filter_remove e (chain b) Hd Heb). lia.
    + intros x. rewrite !list_elem_of_filter, Hin. tauto.
  - rewrite list_lookup_insert_ne in Hb' by done. destruct (Hbk _ _ Hb') as (? & ? & Hx).
    split; [done|]. split; [done|]. intros x. rewrite list_elem_of_filter, Hx.
    split; [|tauto]. intros [? ?]. split; [|done]. split; [congruence|done].
Qed.
