(* ===== verification/Errors.v ===== *)
(** * Error codes and control-flow macros (include/ps4/error.h, exception.h, expression.h)

    The error codes with the value they have once a function returns them as
    [int], the macros [ps4ExpressionReturnOnError] and [ps4FunctionCallIfNotNull],
    and the goto-based exception blocks as combinators over an [outcome]. *)

From stdpp Require Import base list strings.
From S2P Require Import Prelude.

(** The macros are unsigned literals; every function returns them as [int]. *)
Definition int_code (c : Z) : Z := signed 32 c.

Definition PS4_OK : Z := 0.
Definition PS4_NOT_OK : Z := int_code 0x85053000.
Definition PS4_ERROR_ARGUMENT_MISSING : Z := int_code 0x85053600.
Definition PS4_ERROR_ARGUMENT_PRIMARY_MISSING : Z := int_code 0x85053601.
Definition PS4_ERROR_ARGUMENT_OUT_MISSING : Z := int_code 0x85053602.
Definition PS4_ERROR_ARGUMENT_MALFORMED : Z := int_code 0x85053603.
Definition PS4_ERROR_ARGUMENT_EXPECTATION_FAILED : Z := int_code 0x85053604.
Definition PS4_ERROR_ARGUMENT_CORRUPT : Z := int_code 0x85053605.
Definition PS4_ERROR_ARGUMENT_IN_DIFFERENT_SPACE : Z := int_code 0x85053606.
Definition PS4_ERROR_ARGUMENT_SIZE_INVALID : Z := int_code 0x85053607.
Definition PS4_ERROR_ARGUMENT_SIZE_NULL : Z := int_code 0x85053608.
Definition PS4_ERROR_ARGUMENT_SIZE_TOO_SMALL : Z := int_code 0x85053609.
Definition PS4_ERROR_ARGUMENT_SIZE_TOO_LARGE : Z := int_code 0x85053610.
Definition PS4_ERROR_ARGUMENT_REQUIREMENT_FAILED : Z := int_code 0x85053611.
Definition PS4_ERROR_ARGUMENT_OUT_OF_RANGE : Z := int_code 0x85053612.
Definition PS4_ERROR_ARGUMENT_THREAD_MISSING : Z := int_code 0x85053613.
Definition PS4_ERROR_ARGUMENT_SIZE_REACHED : Z := int_code 0x85053614.
Definition PS4_ERROR_KERNEL_DLSYM_NOT_FOUND : Z := int_code 0x85053700.
Definition PS4_ERROR_KERNEL_SYMBOL_LOOKUP_NOT_FOUND : Z := int_code 0x85053701.
Definition PS4_ERROR_KERNEL_ELF_NOT_FOUND : Z := int_code 0x85053702.
Definition PS4_ERROR_KERNEL_OUT_OF_MEMORY : Z := int_code 0x85053702.
Definition PS4_ERROR_KERNEL_SYSTEM_CALL_NUMBER_TOO_LARGE : Z := int_code 0x85053703.
Definition PS4_ERROR_KERNEL_PROCESS_NOT_CREATED : Z := int_code 0x85053704.
Definition PS4_ERROR_ASSEMBLER_INSTRUCTION_NOT_DECODABLE : Z := int_code 0x85053800.
Definition PS4_ERROR_OUT_OF_MEMORY : Z := int_code 0x85053801.
Definition PS4_ERROR_DIFFERENT_SPACE : Z := int_code 0x85053802.
Definition PS4_ERROR_IS_KERNEL_ELF : Z := int_code 0x85053803.
Definition PS4_ERROR_IS_USER_SPACE_ELF : Z := int_code 0x85053804.
Definition PS4_ERROR_BAD_REQUEST : Z := int_code 0x85053400.
Definition PS4_ERROR_FORBIDDEN : Z := int_code 0x85053403.
Definition PS4_ERROR_NOT_FOUND : Z := int_code 0x85053404.
Definition PS4_ERROR_NOT_ALLOWED : Z := int_code 0x85053405.
Definition PS4_ERROR_NOT_ACCEPTABLE : Z := int_code 0x85053406.
Definition PS4_ERROR_TIMEOUT : Z := int_code 0x85053408.
Definition PS4_ERROR_CONFLICT : Z := int_code 0x85053409.
Definition PS4_ERROR_GONE : Z := int_code 0x85053410.
Definition PS4_ERROR_LENGTH_REQUIRED : Z := int_code 0x85053411.
Definition PS4_ERROR_CONDITION_FAILED : Z := int_code 0x85053412.
Definition PS4_ERROR_PAYLOAD_TOO_LARGE : Z := int_code 0x85053413.
Definition PS4_ERROR_ARGUMENT_TOO_LONG : Z := int_code 0x85053414.
Definition PS4_ERROR_UNSUPPORTED_TYPE : Z := int_code 0x85053415.
Definition PS4_ERROR_RANGE_NOT_SATISFIABLE : Z := int_code 0x85053416.
Definition PS4_ERROR_EXPECTATION_FAILED : Z := int_code 0x85053417.
Definition PS4_ERROR_I_AM_A_TEAPOT : Z := int_code 0x85053418.
Definition PS4_ERROR_UNPROCESSABLE : Z := int_code 0x85053422.
Definition PS4_ERROR_LOCKED : Z := int_code 0x85053423.
Definition PS4_ERROR_FAILED_DEPENDENCY : Z := int_code 0x85053424.
Definition PS4_ERROR_TOO_MANY_REQUESTS : Z := int_code 0x85053429.
Definition PS4_ERROR_UNAVAILABLE_FOR_LEGAL_REASONS : Z := int_code 0x85053451.
Definition PS4_ERROR_INTERNAL_ERROR : Z := int_code 0x85053500.
Definition PS4_ERROR_NOT_IMPLEMENTED : Z := int_code 0x85053501.
Definition PS4_ERROR_SERVICE_UNAVAILABLE : Z := int_code 0x85053503.
Definition PS4_ERROR_INSUFFICIENT_STORAGE : Z := int_code 0x85053507.
Definition PS4_ERROR_LOOP_DETECTED : Z := int_code 0x85053508.
Definition PS4_NO : Z := PS4_NOT_OK.

(** Every code of error.h with its macro, in file order. *)
Definition ps4_error_codes : list (string * Z) :=
  [ ("PS4_NOT_OK"%string, PS4_NOT_OK);
    ("PS4_ERROR_ARGUMENT_MISSING"%string, PS4_ERROR_ARGUMENT_MISSING);
    ("PS4_ERROR_ARGUMENT_PRIMARY_MISSING"%string, PS4_ERROR_ARGUMENT_PRIMARY_MISSING);
    ("PS4_ERROR_ARGUMENT_OUT_MISSING"%string, PS4_ERROR_ARGUMENT_OUT_MISSING);
    ("PS4_ERROR_ARGUMENT_MALFORMED"%string, PS4_ERROR_ARGUMENT_MALFORMED);
    ("PS4_ERROR_ARGUMENT_EXPECTATION_FAILED"%string, PS4_ERROR_ARGUMENT_EXPECTATION_FAILED);
    ("PS4_ERROR_ARGUMENT_CORRUPT"%string, PS4_ERROR_ARGUMENT_CORRUPT);
    ("PS4_ERROR_ARGUMENT_IN_DIFFERENT_SPACE"%string, PS4_ERROR_ARGUMENT_IN_DIFFERENT_SPACE);
    ("PS4_ERROR_ARGUMENT_SIZE_INVALID"%string, PS4_ERROR_ARGUMENT_SIZE_INVALID);
    ("PS4_ERROR_ARGUMENT_SIZE_NULL"%string, PS4_ERROR_ARGUMENT_SIZE_NULL);
    ("PS4_ERROR_ARGUMENT_SIZE_TOO_SMALL"%string, PS4_ERROR_ARGUMENT_SIZE_TOO_SMALL);
    ("PS4_ERROR_ARGUMENT_SIZE_TOO_LARGE"%string, PS4_ERROR_ARGUMENT_SIZE_TOO_LARGE);
    ("PS4_ERROR_ARGUMENT_REQUIREMENT_FAILED"%string, PS4_ERROR_ARGUMENT_REQUIREMENT_FAILED);
    ("PS4_ERROR_ARGUMENT_OUT_OF_RANGE"%string, PS4_ERROR_ARGUMENT_OUT_OF_RANGE);
    ("PS4_ERROR_ARGUMENT_THREAD_MISSING"%string, PS4_ERROR_ARGUMENT_THREAD_MISSING);
    ("PS4_ERROR_ARGUMENT_SIZE_REACHED"%string, PS4_ERROR_ARGUMENT_SIZE_REACHED);
    ("PS4_ERROR_KERNEL_DLSYM_NOT_FOUND"%string, PS4_ERROR_KERNEL_DLSYM_NOT_FOUND);
    ("PS4_ERROR_KERNEL_SYMBOL_LOOKUP_NOT_FOUND"%string, PS4_ERROR_KERNEL_SYMBOL_LOOKUP_NOT_FOUND);
    ("PS4_ERROR_KERNEL_ELF_NOT_FOUND"%string, PS4_ERROR_KERNEL_ELF_NOT_FOUND);
    ("PS4_ERROR_KERNEL_OUT_OF_MEMORY"%string, PS4_ERROR_KERNEL_OUT_OF_MEMORY);
    ("PS4_ERROR_KERNEL_SYSTEM_CALL_NUMBER_TOO_LARGE"%string, PS4_ERROR_KERNEL_SYSTEM_CALL_NUMBER_TOO_LARGE);
    ("PS4_ERROR_KERNEL_PROCESS_NOT_CREATED"%string, PS4_ERROR_KERNEL_PROCESS_NOT_CREATED);
    ("PS4_ERROR_ASSEMBLER_INSTRUCTION_NOT_DECODABLE"%string, PS4_ERROR_ASSEMBLER_INSTRUCTION_NOT_DECODABLE);
    ("PS4_ERROR_OUT_OF_MEMORY"%string, PS4_ERROR_OUT_OF_MEMORY);
    ("PS4_ERROR_DIFFERENT_SPACE"%string, PS4_ERROR_DIFFERENT_SPACE);
    ("PS4_ERROR_IS_KERNEL_ELF"%string, PS4_ERROR_IS_KERNEL_ELF);
    ("PS4_ERROR_IS_USER_SPACE_ELF"%string, PS4_ERROR_IS_USER_SPACE_ELF);
    ("PS4_ERROR_BAD_REQUEST"%string, PS4_ERROR_BAD_REQUEST);
    ("PS4_ERROR_FORBIDDEN"%string, PS4_ERROR_FORBIDDEN);
    ("PS4_ERROR_NOT_FOUND"%string, PS4_ERROR_NOT_FOUND);
    ("PS4_ERROR_NOT_ALLOWED"%string, PS4_ERROR_NOT_ALLOWED);
    ("PS4_ERROR_NOT_ACCEPTABLE"%string, PS4_ERROR_NOT_ACCEPTABLE);
    ("PS4_ERROR_TIMEOUT"%string, PS4_ERROR_TIMEOUT);
    ("PS4_ERROR_CONFLICT"%string, PS4_ERROR_CONFLICT);
    ("PS4_ERROR_GONE"%string, PS4_ERROR_GONE);
    ("PS4_ERROR_LENGTH_REQUIRED"%string, PS4_ERROR_LENGTH_REQUIRED);
    ("PS4_ERROR_CONDITION_FAILED"%string, PS4_ERROR_CONDITION_FAILED);
    ("PS4_ERROR_PAYLOAD_TOO_LARGE"%string, PS4_ERROR_PAYLOAD_TOO_LARGE);
    ("PS4_ERROR_ARGUMENT_TOO_LONG"%string, PS4_ERROR_ARGUMENT_TOO_LONG);
    ("PS4_ERROR_UNSUPPORTED_TYPE"%string, PS4_ERROR_UNSUPPORTED_TYPE);
    ("PS4_ERROR_RANGE_NOT_SATISFIABLE"%string, PS4_ERROR_RANGE_NOT_SATISFIABLE);
    ("PS4_ERROR_EXPECTATION_FAILED"%string, PS4_ERROR_EXPECTATION_FAILED);
    ("PS4_ERROR_I_AM_A_TEAPOT"%string, PS4_ERROR_I_AM_A_TEAPOT);
    ("PS4_ERROR_UNPROCESSABLE"%string, PS4_ERROR_UNPROCESSABLE);
    ("PS4_ERROR_LOCKED"%string, PS4_ERROR_LOCKED);
    ("PS4_ERROR_FAILED_DEPENDENCY"%string, PS4_ERROR_FAILED_DEPENDENCY);
    ("PS4_ERROR_TOO_MANY_REQUESTS"%string, PS4_ERROR_TOO_MANY_REQUESTS);
    ("PS4_ERROR_UNAVAILABLE_FOR_LEGAL_REASONS"%string, PS4_ERROR_UNAVAILABLE_FOR_LEGAL_REASONS);
    ("PS4_ERROR_INTERNAL_ERROR"%string, PS4_ERROR_INTERNAL_ERROR);
    ("PS4_ERROR_NOT_IMPLEMENTED"%string, PS4_ERROR_NOT_IMPLEMENTED);
    ("PS4_ERROR_SERVICE_UNAVAILABLE"%string, PS4_ERROR_SERVICE_UNAVAILABLE);
    ("PS4_ERROR_INSUFFICIENT_STORAGE"%string, PS4_ERROR_INSUFFICIENT_STORAGE);
    ("PS4_ERROR_LOOP_DETECTED"%string, PS4_ERROR_LOOP_DETECTED) ].

(** ** Expression macros *)

Section Macros.
Context {S : Type}.

(** [ps4ExpressionReturnOnError(val)] is [if(val) { return val; }]: the
    argument is evaluated once for the test and, when it was an error, a
    second time for the value returned. *)
Definition ps4ExpressionReturnOnError (val : ST S Z) (k : ST S Z) : ST S Z :=
  let! r := val in
  if r =? 0 then k else val.

(** [ps4FunctionCallIfNotNull(fn, arg)] *)
Definition ps4FunctionCallIfNotNull (fn : Z -> ST S Z) (arg : Z) : ST S unit :=
  if arg =? 0 then ret tt else do! fn arg in ret tt.

(** ** Exception blocks *)

(** How the body of an exception block ends: [ps4ExceptionThrow] jumps to the
    catch label, [ps4ExceptionReturn], [Fail] and [Success] to the finally
    label, [ps4ExceptionLeave] to the leave label, and a plain [return]
    (as in [ps4ExpressionReturnOnError]) leaves the function at once. *)
Inductive outcome :=
| Throw (code : Z)
| Finish (code : Z)
| Leave (code : Z)
| Return (code : Z).

(** [L] is the type of the locals whose addresses the block's handlers get;
    the body gives their final values, the block its code and those values. *)
Definition Ps4ExceptionTryCatchFinally {L} (catch finally : L -> ST S unit) (body : ST S (outcome * L))
    : ST S (Z * L) :=
  let! ol := body in
  let l := snd ol in
  match fst ol with
  | Throw c => do! catch l in do! finally l in ret (c, l)
  | Finish c => do! finally l in ret (c, l)
  | Leave c => ret (c, l)
  | Return c => ret (c, l)
  end.

Definition Ps4ExceptionTryFinally {L} (finally : L -> ST S unit) (body : ST S (outcome * L))
    : ST S (Z * L) :=
  Ps4ExceptionTryCatchFinally (fun _ => ret tt) finally body.

(** [ps4ExpressionReturnOnError] inside an exception block: its [return] is a
    plain one. *)
Definition returnOnErrorIn {L} (l : L) (val : ST S Z) (k : ST S (outcome * L)) : ST S (outcome * L) :=
  let! r := val in
  if r =? 0 then k else let! r' := val in ret (Return r', l).
End Macros.

(** ** Facts *)

Lemma error_codes_negative : Forall (fun p => p.2 < 0) ps4_error_codes.
Proof. by apply (bool_decide_unpack _); vm_compute. Qed.

(** Two macros that name the same value. *)
Definition colliding (p q : string * Z) : bool :=
  negb (String.eqb p.1 q.1) && (p.2 =? q.2).

(** Every code of error.h is a negative [int], so never [PS4_OK], and two
    different macros have the same value in one case only: "kernel ELF not
    found" and "kernel out of memory" are both 0x85053702. *)
Theorem error_codes_distinct_but_one :
  Forall (fun p => p.2 < 0) ps4_error_codes /\
  filter (fun pq => colliding pq.1 pq.2 = true)
    (p ← ps4_error_codes; q ← ps4_error_codes; [(p, q)]) =
  [ (("PS4_ERROR_KERNEL_ELF_NOT_FOUND"%string, PS4_ERROR_KERNEL_ELF_NOT_FOUND),
     ("PS4_ERROR_KERNEL_OUT_OF_MEMORY"%string, PS4_ERROR_KERNEL_OUT_OF_MEMORY));
    (("PS4_ERROR_KERNEL_OUT_OF_MEMORY"%string, PS4_ERROR_KERNEL_OUT_OF_MEMORY),
     ("PS4_ERROR_KERNEL_ELF_NOT_FOUND"%string, PS4_ERROR_KERNEL_ELF_NOT_FOUND)) ].
Proof. split; [apply error_codes_negative | by vm_compute]. Qed.
