(* ===== verification/Machine.v ===== *)
(** * The machine the kernel code runs on

    Byte-addressed memory with read-only kernel text guarded by CR0.WP, the
    control registers, the running thread's mutexes, the C files' static
    variables, and the kernel services the code calls but does not contain
    (malloc, free, realloc and the symbol resolver) as classes of operations
    with the behaviour the code relies on. *)

From stdpp Require Import base gmap list strings.
From S2P Require Import Prelude Uthash.

(** ** State *)

(** [text] holds the addresses mapped read-only, [allocs] the live blocks of
    the kernel allocator with their sizes, [held] how often the running thread
    holds each (recursive) mutex, [vars] the static variables by name: one that
    was never assigned is zero, as C initialises it. The objects of cache.c
    are kept by address as records: [caches] the [Ps4KernelCache]s ([None] is
    a NULL [handle]) and [entries] the [Ps4KernelCacheEntry]s; their blocks
    are in [allocs], and no code outside cache.c looks inside them. *)
Record machine := Machine {
  mem : gmap Z Z;
  text : gset Z;
  allocs : gmap Z Z;
  cr0 : Z;
  cr2 : Z;
  cr3 : Z;
  cr4 : Z;
  msr : gmap Z Z;
  curthread : Z;
  rsp : Z;
  vars : gmap string Z;
  held : gmap Z nat;
  pinned : Z;
  caches : gmap Z (option UT_hash_table);
  entries : gmap Z Ps4KernelCacheEntry
}.

Definition set_mem (x : gmap Z Z) (m : machine) : machine :=
  Machine x (text m) (allocs m) (cr0 m) (cr2 m) (cr3 m) (cr4 m) (msr m)
    (curthread m) (rsp m) (vars m) (held m) (pinned m) (caches m) (entries m).
Definition set_allocs (x : gmap Z Z) (m : machine) : machine :=
  Machine (mem m) (text m) x (cr0 m) (cr2 m) (cr3 m) (cr4 m) (msr m)
    (curthread m) (rsp m) (vars m) (held m) (pinned m) (caches m) (entries m).
Definition set_cr0 (x : Z) (m : machine) : machine :=
  Machine (mem m) (text m) (allocs m) x (cr2 m) (cr3 m) (cr4 m) (msr m)
    (curthread m) (rsp m) (vars m) (held m) (pinned m) (caches m) (entries m).
Definition set_cr3 (x : Z) (m : machine) : machine :=
  Machine (mem m) (text m) (allocs m) (cr0 m) (cr2 m) x (cr4 m) (msr m)
    (curthread m) (rsp m) (vars m) (held m) (pinned m) (caches m) (entries m).
Definition set_cr4 (x : Z) (m : machine) : machine :=
  Machine (mem m) (text m) (allocs m) (cr0 m) (cr2 m) (cr3 m) x (msr m)
    (curthread m) (rsp m) (vars m) (held m) (pinned m) (caches m) (entries m).
Definition set_msr (x : gmap Z Z) (m : machine) : machine :=
  Machine (mem m) (text m) (allocs m) (cr0 m) (cr2 m) (cr3 m) (cr4 m) x
    (curthread m) (rsp m) (vars m) (held m) (pinned m) (caches m) (entries m).
Definition set_vars (x : gmap string Z) (m : machine) : machine :=
  Machine (mem m) (text m) (allocs m) (cr0 m) (cr2 m) (cr3 m) (cr4 m) (msr m)
    (curthread m) (rsp m) x (held m) (pinned m) (caches m) (entries m).
Definition set_held (x : gmap Z nat) (m : machine) : machine :=
  Machine (mem m) (text m) (allocs m) (cr0 m) (cr2 m) (cr3 m) (cr4 m) (msr m)
    (curthread m) (rsp m) (vars m) x (pinned m) (caches m) (entries m).
Definition set_pinned (x : Z) (m : machine) : machine :=
  Machine (mem m) (text m) (allocs m) (cr0 m) (cr2 m) (cr3 m) (cr4 m) (msr m)
    (curthread m) (rsp m) (vars m) (held m) x (caches m) (entries m).
Definition set_caches (x : gmap Z (option UT_hash_table)) (m : machine) : machine :=
  Machine (mem m) (text m) (allocs m) (cr0 m) (cr2 m) (cr3 m) (cr4 m) (msr m)
    (curthread m) (rsp m) (vars m) (held m) (pinned m) x (entries m).
Definition set_entries (x : gmap Z Ps4KernelCacheEntry) (m : machine) : machine :=
  Machine (mem m) (text m) (allocs m) (cr0 m) (cr2 m) (cr3 m) (cr4 m) (msr m)
    (curthread m) (rsp m) (vars m) (held m) (pinned m) (caches m) x.

Abbreviation K := (ST machine).

Definition NULL : Z := 0.

(** ** Byte ranges *)

Fixpoint mem_read (mm : gmap Z Z) (a : Z) (n : nat) : option (list Z) :=
  match n with
  | O => Some []
  | S n' =>
      match mm !! a, mem_read mm (a + 1) n' with
      | Some b, Some l => Some (b :: l)
      | _, _ => None
      end
  end.

Fixpoint mem_write (mm : gmap Z Z) (a : Z) (l : list Z) : gmap Z Z :=
  match l with
  | [] => mm
  | b :: l' => mem_write (<[a := b]> mm) (a + 1) l'
  end.

Fixpoint mem_free (mm : gmap Z Z) (a : Z) (n : nat) : gmap Z Z :=
  match n with
  | O => mm
  | S n' => mem_free (delete a mm) (a + 1) n'
  end.

Lemma lookup_mem_write mm a l x :
  mem_write mm a l !! x =
    (if (a <=? x) && (x <? a + Z.of_nat (length l)) then l !! Z.to_nat (x - a) else mm !! x).
Proof.
  revert mm a. induction l as [|b l IH]; intros mm a; cbn [mem_write length].
  - replace ((a <=? x) && (x <? a + Z.of_nat 0)) with false; [done|]. zbool; simpl; lia || done.
  - rewrite IH, lookup_insert. clear IH.
    destruct (Z.leb_spec a x), (Z.leb_spec (a + 1) x), (Z.ltb_spec x (a + 1 + Z.of_nat (length l))),
      (Z.ltb_spec x (a + Z.of_nat (S (length l)))); cbn [andb]; try lia;
      try case_decide; try lia; try done.
    + replace (Z.to_nat (x - a)) with (S (Z.to_nat (x - (a + 1)))) by lia. done.
    + replace (Z.to_nat (x - a)) with O by lia. done.
Qed.

Lemma mem_read_Some mm a n l :
  mem_read mm a n = Some l <->
  length l = n /\ forall i : nat, (i < n)%nat -> mm !! (a + Z.of_nat i) = l !! i.
Proof.
  revert a l. induction n as [|n IH]; intros a l; cbn [mem_read].
  - split.
    + intros [= <-]. split; [done | intros; lia].
    + intros [Hl _]. by destruct l.
  - split.
    + destruct (mm !! a) as [b|] eqn:Eb; [|done].
      destruct (mem_read mm (a + 1) n) as [k|] eqn:Ek; [|done].
      intros [= <-]. apply IH in Ek as [Hk Hi]. cbn [length]. split; [lia|].
      intros [|i] Hlt; [by rewrite Z.add_0_r|].
      cbn [lookup]. simpl. rewrite <- (Hi i) by lia. f_equal. lia.
    + intros [Hl Hi]. destruct l as [|b l]; [done|].
      specialize (Hi O) as H0. rewrite Z.add_0_r in H0. rewrite H0 by lia. simpl.
      rewrite (proj2 (IH (a + 1) l)); [done|]. simpl in Hl. split; [lia|].
      intros i Hlt. specialize (Hi (S i)). simpl in Hi. rewrite <- Hi by lia. f_equal. lia.
Qed.

Lemma mem_read_agree mm mm' a n :
  (forall i : nat, (i < n)%nat -> mm' !! (a + Z.of_nat i) = mm !! (a + Z.of_nat i)) -> mem_read mm' a n = mem_read mm a n.
Proof.
  revert a. induction n as [|n IH]; intros a H; [done|]. cbn [mem_read].
  pose proof (H 0%nat ltac:(lia)) as H0. rewrite Z.add_0_r in H0. rewrite H0, (IH (a + 1)); [done|].
  intros i Hi. specialize (H (S i) ltac:(lia)). by replace (a + 1 + Z.of_nat i) with (a + Z.of_nat (S i)) by lia.
Qed.

Lemma mem_read_length mm a n l : mem_read mm a n = Some l -> length l = n.
Proof. by intros [? _]%mem_read_Some. Qed.

Lemma mem_read_write_same mm a l :
  mem_read (mem_write mm a l) a (length l) = Some l.
Proof.
  apply mem_read_Some. split; [done|]. intros i Hi. rewrite lookup_mem_write.
  replace ((a <=? a + Z.of_nat i) && (a + Z.of_nat i <? a + Z.of_nat (length l))) with true
    by (zbool; simpl; lia || done).
  f_equal. lia.
Qed.

Lemma mem_read_write_le mm a n v :
  mem_read (mem_write mm a (le_bytes n v)) a n = Some (le_bytes n v).
Proof. pose proof (mem_read_write_same mm a (le_bytes n v)) as R. by rewrite length_le_bytes in R. Qed.

(** Two byte ranges that do not meet. *)
Definition disjoint_ranges (a n b k : Z) : Prop := a + n <= b \/ b + k <= a.

#[global] Instance disjoint_ranges_dec a n b k : Decision (disjoint_ranges a n b k).
Proof. unfold disjoint_ranges. apply _. Defined.

Lemma mem_read_write_other mm a l b n :
  disjoint_ranges a (Z.of_nat (length l)) b (Z.of_nat n) ->
  mem_read (mem_write mm a l) b n = mem_read mm b n.
Proof.
  revert b. induction n as [|n IH]; intros b Hd; cbn [mem_read]; [done|].
  unfold disjoint_ranges in Hd. rewrite lookup_mem_write.
  replace ((a <=? b) && (b <? a + Z.of_nat (length l))) with false by (zbool; simpl; lia || done).
  rewrite IH; [done|]. unfold disjoint_ranges. lia.
Qed.

Lemma mem_read_insert_other mm c z b n :
  c < b \/ b + Z.of_nat n <= c -> mem_read (<[c := z]> mm) b n = mem_read mm b n.
Proof.
  intros Hc. apply (mem_read_write_other mm c [z]). unfold disjoint_ranges. cbn [length]. lia.
Qed.

Lemma mem_write_app mm a l k :
  mem_write mm a (l ++ k) = mem_write (mem_write mm a l) (a + Z.of_nat (length l)) k.
Proof.
  revert mm a. induction l as [|b l IH]; intros mm a; cbn [app mem_write length].
  - by rewrite Z.add_0_r.
  - rewrite IH. f_equal. lia.
Qed.

Lemma mem_read_app mm a n k l1 l2 :
  mem_read mm a n = Some l1 -> mem_read mm (a + Z.of_nat n) k = Some l2 ->
  mem_read mm a (n + k) = Some (l1 ++ l2).
Proof.
  intros [L1 H1]%mem_read_Some [L2 H2]%mem_read_Some. apply mem_read_Some.
  rewrite length_app. split; [lia|]. intros i Hi.
  destruct (Nat.lt_ge_cases i n).
  - rewrite lookup_app_l by lia. auto.
  - rewrite lookup_app_r by lia. rewrite <- H2 by lia. f_equal. lia.
Qed.

Lemma mem_read_sub mm a n l j k :
  mem_read mm a n = Some l -> (j + k <= n)%nat ->
  mem_read mm (a + Z.of_nat j) k = Some (take k (drop j l)).
Proof.
  intros [L H]%mem_read_Some Hjk. apply mem_read_Some.
  rewrite length_take, length_drop. split; [lia|]. intros i Hi.
  rewrite lookup_take_lt, lookup_drop by lia. rewrite <- H by lia. f_equal. lia.
Qed.

Lemma mem_write_mem_write_same mm a l k :
  length l = length k -> mem_write (mem_write mm a l) a k = mem_write mm a k.
Proof.
  intros E. apply map_eq. intros x. rewrite !lookup_mem_write, E.
  by destruct ((a <=? x) && (x <? a + Z.of_nat (length k))).
Qed.

Lemma lookup_mem_free mm a n x :
  mem_free mm a n !! x =
    (if (a <=? x) && (x <? a + Z.of_nat n) then None else mm !! x).
Proof.
  revert mm a. induction n as [|n IH]; intros mm a; cbn [mem_free].
  - replace ((a <=? x) && (x <? a + Z.of_nat 0)) with false; [done|]. zbool; simpl; lia || done.
  - rewrite IH, lookup_delete.
    destruct (Z.leb_spec a x), (Z.leb_spec (a + 1) x), (Z.ltb_spec x (a + 1 + Z.of_nat n)),
      (Z.ltb_spec x (a + Z.of_nat (S n))); cbn [andb]; try lia; try case_decide; try lia; done.
Qed.

(** ** Memory access *)

(** CR0.WP: write protection of read-only pages applies to the kernel too. *)
Definition CR0_WP : Z := 0x00010000.
Definition wp (m : machine) : bool := Z.testbit (cr0 m) 16.

Definition mapped (m : machine) (a : Z) : Prop := is_Some (mem m !! a).

Definition writable (m : machine) (a : Z) : Prop :=
  mapped m a /\ (a ∈ text m -> wp m = false).

#[global] Instance writable_dec m a : Decision (writable m a).
Proof. unfold writable, mapped. apply _. Defined.

(** Every byte of a range can be stored to. *)
Definition writable_range (m : machine) (a : Z) (n : nat) : Prop :=
  Forall (fun i => writable m (a + Z.of_nat i)) (seq 0 n).

#[global] Instance writable_range_dec m a n : Decision (writable_range m a n).
Proof. unfold writable_range. apply _. Defined.

Lemma writable_range_iff m a n :
  writable_range m a n <-> forall i : nat, (i < n)%nat -> writable m (a + Z.of_nat i).
Proof.
  unfold writable_range. rewrite Forall_forall. split.
  - intros H i Hi. apply H. apply elem_of_seq. lia.
  - intros H i Hi%elem_of_seq. apply H. lia.
Qed.

Definition load_bytes (a : Z) (n : nat) : K (list Z) :=
  fun m => match mem_read (mem m) a n with Some l => Some (l, m) | None => None end.

Definition store_bytes (a : Z) (l : list Z) : K unit :=
  fun m => if decide (writable_range m a (length l))
           then Some (tt, set_mem (mem_write (mem m) a l) m) else None.

Definition load8 (a : Z) : K Z :=
  fun m => match mem m !! a with Some b => Some (b, m) | None => None end.
Definition store8 (a b : Z) : K unit := store_bytes a [b].
Definition load16 (a : Z) : K Z := let! l := load_bytes a 2 in ret (le_val l).
Definition store16 (a v : Z) : K unit := store_bytes a (le_bytes 2 v).
Definition load32 (a : Z) : K Z := let! l := load_bytes a 4 in ret (le_val l).
Definition store32 (a v : Z) : K unit := store_bytes a (le_bytes 4 v).
Definition load64 (a : Z) : K Z := let! l := load_bytes a 8 in ret (le_val l).
Definition store64 (a v : Z) : K unit := store_bytes a (le_bytes 8 v).

(** [memcpy]: C leaves a copy between overlapping objects undefined. *)
Definition memcpy (to from : Z) (n : nat) : K unit :=
  if decide (disjoint_ranges to (Z.of_nat n) from (Z.of_nat n))
  then let! l := load_bytes from n in store_bytes to l
  else fault.

Definition memset (to c : Z) (n : nat) : K unit := store_bytes to (repeat (wrap 8 c) n).

Lemma load_bytes_run m a n l :
  mem_read (mem m) a n = Some l -> load_bytes a n m = Some (l, m).
Proof. unfold load_bytes. by intros ->. Qed.

Lemma store_bytes_run m a l :
  writable_range m a (length l) ->
  store_bytes a l m = Some (tt, set_mem (mem_write (mem m) a l) m).
Proof. intros H. unfold store_bytes. by rewrite decide_True. Qed.

Lemma load8_run m a b : mem m !! a = Some b -> load8 a m = Some (b, m).
Proof. unfold load8. by intros ->. Qed.

Lemma store64_run m a v :
  writable_range m a 8 ->
  store64 a v m = Some (tt, set_mem (mem_write (mem m) a (le_bytes 8 v)) m).
Proof. intros H. apply store_bytes_run. by rewrite length_le_bytes. Qed.

Lemma load64_run m a l :
  mem_read (mem m) a 8 = Some l -> load64 a m = Some (le_val l, m).
Proof. intros H. unfold load64. by erewrite bind_some by (by apply load_bytes_run). Qed.

Lemma memcpy_run m to from n l :
  disjoint_ranges to (Z.of_nat n) from (Z.of_nat n) ->
  mem_read (mem m) from n = Some l -> writable_range m to n ->
  memcpy to from n m = Some (tt, set_mem (mem_write (mem m) to l) m).
Proof.
  intros Hd Hr Hw. unfold memcpy. rewrite decide_True by done.
  erewrite bind_some by (by apply load_bytes_run).
  apply store_bytes_run. by rewrite (mem_read_length _ _ _ _ Hr).
Qed.

(** ** Static variables, mutexes, scheduler *)

Definition var (x : string) (m : machine) : Z := default 0 (vars m !! x).
Definition get_var (x : string) : K Z := gets (var x).
Definition set_var (x : string) (v : Z) : K unit :=
  modify (fun m => set_vars (<[x := v]> (vars m)) m).

Definition hold_count (a : Z) (m : machine) : nat := default O (held m !! a).

(** The mutexes are initialised [MTX_RECURSE]: the owner may lock again. An
    unlock by a thread that does not hold the mutex panics. *)
Definition mtx_lock (a : Z) : K unit :=
  fun m => if a =? NULL then None
           else Some (tt, set_held (<[a := S (hold_count a m)]> (held m)) m).
Definition mtx_unlock (a : Z) : K unit :=
  fun m => if a =? NULL then None
           else match hold_count a m with
                | O => None
                | S n => Some (tt, set_held (<[a := n]> (held m)) m)
                end.

Definition sched_pin : K unit := modify (fun m => set_pinned (pinned m + 1) m).
Definition sched_unpin : K unit := modify (fun m => set_pinned (pinned m - 1) m).

(** ** Kernel services *)

(** The allocator: which address [malloc] gives for a request in a state (zero
    when there is none to give), and [realloc]. *)
Class KernelAllocator := {
  kmalloc : machine -> Z -> Z;
  krealloc : Z -> Z -> machine -> option (Z * machine)
}.

(** What malloc(9) documents: a block it returns was not in use, and is
    ordinary writable kernel memory. *)
Class KernelAllocatorLaws `(KernelAllocator) : Prop := {
  kmalloc_fresh m n i :
    kmalloc m n <> 0 -> 0 <= i < n -> mem m !! (kmalloc m n + i) = None;
  kmalloc_data m n i :
    kmalloc m n <> 0 -> 0 <= i < n -> (kmalloc m n + i) ∉ text m;
  kmalloc_range m n :
    kmalloc m n <> 0 -> 2 ^ 63 <= kmalloc m n /\ kmalloc m n + n <= 2 ^ 64
}.

(** How much it can still give. A request takes at most twice its size and a
    page, what was freed or never mapped does not count against it, and there
    are at most 64 GiB in all. *)
Class KernelRoom (A : KernelAllocator) := {
  kroom : machine -> Z;
  kroom_enough m n : 0 < n -> 2 * n + 4096 <= kroom m -> kmalloc m n <> 0;
  kroom_after m m' n :
    text m' = text m -> 0 < n -> kmalloc m n <> 0 ->
    (forall x, is_Some (mem m' !! x) -> is_Some (mem m !! x) \/ kmalloc m n <= x < kmalloc m n + n) ->
    kroom m - (2 * n + 4096) <= kroom m';
  kroom_same m m' :
    text m' = text m -> (forall x, is_Some (mem m' !! x) -> is_Some (mem m !! x)) -> kroom m <= kroom m';
  kroom_bound m : kroom m <= 2 ^ 36
}.

(** The resolver of kernel symbols by name; base/kernel_dlsym is one library
    that provides it, and any of them is linked in its place. *)
Class KernelDlSym := { ps4KernelDlSym : string -> K Z }.

Section Allocator.
Context `{KernelAllocator}.

(** [malloc(size, type, M_ZERO | M_WAITOK)] *)
Definition malloc (n : Z) : K Z := fun m =>
  let p := kmalloc m n in
  if p =? 0 then Some (0, m)
  else Some (p, set_allocs (<[p := n]> (allocs m))
                  (set_mem (mem_write (mem m) p (repeat 0 (Z.to_nat n))) m)).

(** [free(addr, type)]: freeing what is not a live block panics, and the
    block's bytes are no longer accessible. *)
Definition free (p : Z) : K unit := fun m =>
  if p =? 0 then Some (tt, m)
  else match allocs m !! p with
       | Some n => Some (tt, set_allocs (delete p (allocs m))
                           (set_mem (mem_free (mem m) p (Z.to_nat n)) m))
       | None => None
       end.
End Allocator.

#[export] Hint Resolve load_bytes_run store_bytes_run load8_run store64_run load64_run
  memcpy_run : run.
