(* ===== verification/Reference.v ===== *)
(** * A reference environment

    One concrete instance of the kernel services of [Machine]: an allocator
    that places each block above everything mapped, and a symbol resolver over
    an association list. The witnesses of the properties run in it. *)

From stdpp Require Import base gmap list strings.
From S2P Require Import Prelude Errors Machine.

Definition top_address (l : list Z) : Z := foldr Z.max 0 l.

Lemma top_address_ge l x : x ∈ l -> x <= top_address l.
Proof.
  induction l as [|y l IH]; [by intros ?%not_elem_of_nil|].
  intros [->|Hx]%elem_of_cons; cbn; [lia|]. specialize (IH Hx). unfold top_address in IH. lia.
Qed.

Definition addresses (m : machine) : list Z := elements (dom (mem m)) ++ elements (text m).

(** The first address above all mapped ones, in the upper half. *)
Definition bump_malloc (m : machine) (n : Z) : Z :=
  let p := Z.max (2 ^ 63) (top_address (addresses m) + 1) in
  if p + n <=? 2 ^ 64 then p else 0.

Definition bump_allocator : KernelAllocator :=
  {| kmalloc := bump_malloc;
     krealloc := fun old n m =>
       let p := bump_malloc m n in
       Some (p, set_mem (mem_write (mem m) p (repeat 0 (Z.to_nat n))) m) |}.

Lemma bump_malloc_above m n i x :
  bump_malloc m n <> 0 -> 0 <= i -> x = bump_malloc m n + i -> x ∉ addresses m.
Proof.
  unfold bump_malloc. intros Hp Hi -> Hx%top_address_ge.
  destruct (_ <=? _); [|done]. lia.
Qed.

Lemma bump_allocator_laws : KernelAllocatorLaws bump_allocator.
Proof.
  split; cbn [kmalloc bump_allocator].
  - intros m n i Hp Hi. apply not_elem_of_dom. intros Hd.
    apply (bump_malloc_above m n i _ Hp ltac:(lia) eq_refl).
    apply elem_of_app. left. by apply elem_of_elements.
  - intros m n i Hp Hi Hd.
    apply (bump_malloc_above m n i _ Hp ltac:(lia) eq_refl).
    apply elem_of_app. right. by apply elem_of_elements.
  - intros m n. unfold bump_malloc. destruct (Z.leb_spec (Z.max (2 ^ 63) (top_address (addresses m) + 1) + n) (2 ^ 64));
      [|done]. lia.
Qed.

Definition bump_room (m : machine) : Z :=
  Z.min (2 ^ 36) (2 ^ 64 - Z.max (2 ^ 63) (top_address (addresses m) + 1)).

Lemma top_address_le l b : 0 <= b -> (forall x, x ∈ l -> x <= b) -> top_address l <= b.
Proof.
  intros Hb. induction l as [|y l IH]; intros Hl; cbn; [done|]. fold (top_address l).
  pose proof (Hl y ltac:(left)). pose proof (IH (fun x Hx => Hl x ltac:(by right))). lia.
Qed.

Lemma elem_of_addresses m x : x ∈ addresses m <-> is_Some (mem m !! x) \/ x ∈ text m.
Proof. unfold addresses. by rewrite elem_of_app, !elem_of_elements, elem_of_dom. Qed.

(** The bump allocator gives out the rest of the upper half. *)
Definition bump_room_laws : KernelRoom bump_allocator.
Proof.
  refine {| kroom := bump_room |}; cbn [kmalloc bump_allocator]; unfold bump_room.
  - intros m n Hn Hr. unfold bump_malloc. destruct (Z.leb_spec (Z.max (2 ^ 63) (top_address (addresses m) + 1) + n) (2 ^ 64)); lia.
  - intros m m' n Ht Hn Hk Hm.
    assert (bump_malloc m n = Z.max (2 ^ 63) (top_address (addresses m) + 1)) as E
      by (unfold bump_malloc in *; destruct (_ <=? _); done).
    rewrite E in Hm. set (p := Z.max _ _) in *.
    assert (top_address (addresses m') <= p + n - 1); [|lia].
    apply top_address_le; [lia|]. intros x [Hx|Hx]%elem_of_addresses.
    + destruct (Hm x Hx) as [Hx'|]; [|lia].
      pose proof (top_address_ge (addresses m) x (proj2 (elem_of_addresses m x) (or_introl Hx'))). lia.
    + rewrite Ht in Hx. pose proof (top_address_ge (addresses m) x (proj2 (elem_of_addresses m x) (or_intror Hx))). lia.
  - intros m m' Ht Hm. assert (top_address (addresses m') <= Z.max 0 (top_address (addresses m))); [|lia].
    apply top_address_le; [lia|]. intros x Hx%elem_of_addresses. rewrite Ht in Hx.
    assert (x ∈ addresses m) as Hin by (apply elem_of_addresses; destruct Hx as [Hx|Hx]; auto).
    pose proof (top_address_ge _ _ Hin). lia.
  - intros m. lia.
Defined.

(** A resolver over a fixed table; a name it does not have gives NULL. *)
Definition table_dlsym (t : list (string * Z)) : KernelDlSym :=
  {| ps4KernelDlSym name := ret (default 0 (list_to_map (M := gmap string Z) t !! name)) |}.

(** A machine with the given mapped bytes, read-only addresses and static
    variables, write protection on. *)
Definition booted (bytes : list (Z * list Z)) (ro : list Z) (statics : list (string * Z)) : machine :=
  Machine (foldr (fun p mm => mem_write mm p.1 p.2) ∅ bytes) (list_to_set ro) ∅
    0x80010033 0 0 0 ∅ 0xffffff8000001000 0xffffff8000100000
    (list_to_map statics) ∅ 0 ∅ ∅.
