(* ===== verification/KernelBase.v ===== *)
(** * Kernel primitives (common/kernel/source/kernel: base.c, protection.c,
      register.c, thread.c)

    Address spaces, write and execute protection, control and model specific
    registers, and the return values stored in the current thread.

    Out parameters: a function that stores through a pointer its caller gives
    takes an [out] (whether that pointer is NULL) and returns, with its code,
    the value it stored there, or [None] when it stored nothing. *)

From stdpp Require Import base gmap list strings.
From S2P Require Import Prelude Errors Machine Reference.

Inductive out := ONull | OPtr.

(** ** base.c *)

Definition ps4KernelBrewCoffee : K Z := ret PS4_ERROR_I_AM_A_TEAPOT.

Definition ps4KernelIsKernelAddress (address : Z) : Z :=
  if 0 <? Z.shiftr (wrap 64 address) 48 then PS4_OK else PS4_NOT_OK.

Definition ps4KernelIsInKernel : K Z := gets (fun m => ps4KernelIsKernelAddress (rsp m)).

(** ** protection.c *)

Definition pg_nx : string := "protection.c:pg_nx".

Definition load_cr0 (v : Z) : K unit := modify (set_cr0 v).

Definition ps4KernelProtectionWriteDisable : K unit :=
  let! c := gets cr0 in load_cr0 (Z.ldiff c CR0_WP).
Definition ps4KernelProtectionWriteEnable : K unit :=
  let! c := gets cr0 in load_cr0 (Z.lor c CR0_WP).

Section Protection.
Context `{KernelDlSym}.

(** [if(pg_nx == NULL) pg_nx = ps4KernelDlSym("pg_nx");] *)
Definition resolve_pg_nx : K Z :=
  let! p := get_var pg_nx in
  if p =? NULL
  then let! q := ps4KernelDlSym "pg_nx" in do! set_var pg_nx q in ret q
  else ret p.

Definition ps4KernelProtectionExecuteDisable : K unit :=
  let! p := resolve_pg_nx in store64 p 0.
Definition ps4KernelProtectionExecuteEnable : K unit :=
  let! p := resolve_pg_nx in store64 p (Z.shiftl 1 63).

Definition ps4KernelProtectionAllDisable : K unit :=
  do! ps4KernelProtectionWriteDisable in ps4KernelProtectionExecuteDisable.
Definition ps4KernelProtectionAllEnable : K unit :=
  do! ps4KernelProtectionExecuteEnable in ps4KernelProtectionWriteEnable.
End Protection.

(** ** register.c *)

Definition ps4KernelRegisterControlSet (c value : Z) : K Z :=
  if c =? 0 then do! load_cr0 value in ret PS4_OK
  else if c =? 3 then do! modify (set_cr3 value) in ret PS4_OK
  else if c =? 4 then do! modify (set_cr4 value) in ret PS4_OK
  else ret PS4_ERROR_ARGUMENT_OUT_OF_RANGE.

Definition ps4KernelRegisterControlGet (c : Z) (value : out) : K (Z * option Z) :=
  match value with
  | ONull => ret (PS4_ERROR_ARGUMENT_OUT_MISSING, None)
  | OPtr =>
      if c =? 0 then gets (fun m => (PS4_OK, Some (cr0 m)))
      else if c =? 2 then gets (fun m => (PS4_OK, Some (cr2 m)))
      else if c =? 3 then gets (fun m => (PS4_OK, Some (cr3 m)))
      else if c =? 4 then gets (fun m => (PS4_OK, Some (cr4 m)))
      else ret (PS4_ERROR_ARGUMENT_OUT_OF_RANGE, None)
  end.

Definition ps4KernelRegisterModelSpecificSet (r value : Z) : K unit :=
  modify (fun m => set_msr (<[r := value]> (msr m)) m).

(** A model specific register the processor does not have traps. *)
Definition ps4KernelRegisterModelSpecificGet (r : Z) (value : out) : K (Z * option Z) :=
  match value with
  | ONull => ret (PS4_ERROR_ARGUMENT_OUT_MISSING, None)
  | OPtr => fun m => match msr m !! r with
                     | Some v => Some ((PS4_OK, Some v), m)
                     | None => None
                     end
  end.

(** ** thread.c *)

Definition ps4KernelThreadGetCurrent (td : out) : K (Z * option Z) :=
  match td with
  | ONull => ret (PS4_ERROR_ARGUMENT_PRIMARY_MISSING, None)
  | OPtr => gets (fun m => (PS4_OK, Some (curthread m)))
  end.

Definition thread_get_return (offset td : Z) (r : out) : K (Z * option Z) :=
  if td =? NULL then ret (PS4_ERROR_ARGUMENT_PRIMARY_MISSING, None)
  else match r with
       | ONull => ret (PS4_ERROR_ARGUMENT_OUT_MISSING, None)
       | OPtr => let! v := load64 (td + offset) in ret (PS4_OK, Some v)
       end.

Definition thread_set_return (offset td v : Z) : K Z :=
  if td =? NULL then ret PS4_ERROR_ARGUMENT_PRIMARY_MISSING
  else do! store64 (td + offset) v in ret PS4_OK.

Definition ps4KernelThreadGetReturn := thread_get_return 0x380.
Definition ps4KernelThreadGetPrimaryReturn (td : Z) (r : out) := ps4KernelThreadGetReturn td r.
Definition ps4KernelThreadGetSecondaryReturn := thread_get_return 0x388.
Definition ps4KernelThreadSetReturn := thread_set_return 0x380.
Definition ps4KernelThreadSetPrimaryReturn (td v : Z) := ps4KernelThreadSetReturn td v.
Definition ps4KernelThreadSetSecondaryReturn := thread_set_return 0x388.

(** ** Lemmas *)

Lemma set_mem_mem m : set_mem (mem m) m = m.
Proof. by destruct m. Qed.

Lemma is_kernel_address_ok a :
  0 <= a < 2 ^ 64 -> (ps4KernelIsKernelAddress a = PS4_OK <-> 2 ^ 48 <= a).
Proof.
  intros Ha. unfold ps4KernelIsKernelAddress. rewrite wrap_small by done.
  rewrite Z.shiftr_div_pow2 by lia.
  assert (0 < a / 2 ^ 48 <-> 2 ^ 48 <= a) as E.
  { split; intros L.
    - pose proof (Z.mul_div_le a (2 ^ 48)). lia.
    - apply Z.div_str_pos. lia. }
  destruct (Z.ltb_spec 0 (a / 2 ^ 48)) as [Hlt|Hle].
  - split; [intros _; by apply E | done].
  - split; [discriminate|]. intros L. apply E in L. lia.
Qed.

Lemma wp_write_disable c : Z.testbit (Z.ldiff c CR0_WP) 16 = false.
Proof. rewrite Z.ldiff_spec. by rewrite andb_false_r. Qed.

Lemma wp_write_enable c : Z.testbit (Z.lor c CR0_WP) 16 = true.
Proof. rewrite Z.lor_spec. by rewrite orb_true_r. Qed.

Lemma lor_ldiff c w : Z.lor (Z.ldiff c w) w = Z.lor c w.
Proof.
  apply Z.bits_inj'. intros i Hi. rewrite !Z.lor_spec, Z.ldiff_spec.
  destruct (Z.testbit c i), (Z.testbit w i); done.
Qed.

Lemma load64_store64_same m a v :
  writable_range m a 8 ->
  bind (store64 a v) (fun _ => load64 a) m =
  Some (wrap 64 v, set_mem (mem_write (mem m) a (le_bytes 8 v)) m).
Proof.
  intros Hw. erewrite bind_some by (by apply store64_run).
  erewrite load64_run by apply mem_read_write_le.
  by rewrite le_val_bytes_wrap.
Qed.

(** ** Properties *)

(** Storing a return value in a thread and reading it back gives the value
    stored, as a 64-bit register, and the two return slots do not disturb each
    other. *)
Theorem thread_return_roundtrip m td v w :
  td <> NULL -> writable_range m (td + 0x380) 8 -> writable_range m (td + 0x388) 8 ->
  (let! _ := ps4KernelThreadSetReturn td v in
   let! _ := ps4KernelThreadSetSecondaryReturn td w in
   let! r0 := ps4KernelThreadGetReturn td OPtr in
   let! r1 := ps4KernelThreadGetSecondaryReturn td OPtr in
   ret (r0, r1)) m =
  Some (((PS4_OK, Some (wrap 64 v)), (PS4_OK, Some (wrap 64 w))),
        set_mem (mem_write (mem_write (mem m) (td + 0x380) (le_bytes 8 v))
                   (td + 0x388) (le_bytes 8 w)) m).
Proof.
  intros Htd H0 H1.
  assert ((td =? NULL) = false) as E by (by apply Z.eqb_neq).
  unfold ps4KernelThreadSetReturn, ps4KernelThreadSetSecondaryReturn,
    ps4KernelThreadGetReturn, ps4KernelThreadGetSecondaryReturn,
    thread_set_return, thread_get_return. rewrite !E.
  set (m1 := set_mem (mem_write (mem m) (td + 0x380) (le_bytes 8 v)) m).
  assert (writable_range m1 (td + 0x388) 8) as H1'.
  { rewrite writable_range_iff in *. intros i Hi. destruct (H1 i Hi) as [Hm Ht].
    split; [|exact Ht]. unfold mapped, m1, set_mem, mem. rewrite lookup_mem_write.
    rewrite length_le_bytes. case_match eqn:Q; [|exact Hm].
    apply andb_prop in Q as [? ?]. zbool; lia || done. }
  erewrite bind_some; [|erewrite bind_some by (by apply store64_run); reflexivity].
  fold m1.
  erewrite bind_some; [|erewrite bind_some by (by apply store64_run); reflexivity].
  erewrite bind_some; [|erewrite bind_some; [reflexivity|]; apply load64_run].
  2: { cbn [mem set_mem]. rewrite mem_read_write_other.
       - apply mem_read_write_le.
       - unfold disjoint_ranges. rewrite length_le_bytes. lia. }
  erewrite bind_some; [|erewrite bind_some; [reflexivity|]; apply load64_run].
  2: apply mem_read_write_le.
  by rewrite !le_val_bytes_wrap.
Qed.

Lemma thread_return_roundtrip_witness :
  exists m', (let! _ := ps4KernelThreadSetReturn 0x1000 5 in
   let! _ := ps4KernelThreadSetSecondaryReturn 0x1000 (-1) in
   let! r0 := ps4KernelThreadGetReturn 0x1000 OPtr in
   let! r1 := ps4KernelThreadGetSecondaryReturn 0x1000 OPtr in
   ret (r0, r1)) (booted [(0x1380, repeat 0 16)] [] []) =
  Some (((PS4_OK, Some (wrap 64 5)), (PS4_OK, Some (wrap 64 (-1)))), m').
Proof.
  eexists. apply thread_return_roundtrip; [done | vm_decide | vm_decide].
Defined.
