(* ===== verification/KernelMemory.v ===== *)
(** * Kernel memory (common/kernel/source/kernel/memory.c)

    Allocation of executable and data memory, formatted strings, and the
    copies, swaps, fills and comparisons that patching is built on. *)

From stdpp Require Import base gmap list strings.
From S2P Require Import Prelude Errors Machine Reference KernelBase.

(** ** Operations *)

Definition ps4KernelMemoryType : string := "memory.c:ps4KernelMemoryType".

(** [vsnprintf(dst, n, ...)] of the formatted text [txt]: stores at most [n - 1]
    characters and a terminator when [n] is not zero, and returns the length of
    the whole text. *)
Definition vsnprintf (dst n : Z) (txt : list Z) : K Z :=
  if n =? 0 then ret (Z.of_nat (length txt))
  else do! store_bytes dst (take (Z.to_nat (n - 1)) txt ++ [0]) in
       ret (Z.of_nat (length txt)).

Section Allocation.
Context `{KernelDlSym} `{KernelAllocator}.

Definition ps4KernelMemoryInitialize : K Z :=
  let! t := ps4KernelDlSym "M_TEMP" in
  do! set_var ps4KernelMemoryType t in
  ret PS4_OK.

(** [if(ps4KernelMemoryType == NULL) ps4KernelMemoryInitialize();] *)
Definition memory_type_ready : K unit :=
  let! t := get_var ps4KernelMemoryType in
  if t =? NULL then do! ps4KernelMemoryInitialize in ret tt else ret tt.

Definition ps4KernelMemoryAllocate (memory : out) (size : Z) : K (Z * option Z) :=
  match memory with
  | ONull => ret (PS4_ERROR_ARGUMENT_PRIMARY_MISSING, None)
  | OPtr =>
      if size =? 0 then ret (PS4_ERROR_ARGUMENT_SIZE_NULL, None)
      else
        let size := if size <=? 0x4000 then 0x4001 else size in
        do! memory_type_ready in
        do! ps4KernelProtectionExecuteDisable in
        let! p := malloc size in
        do! ps4KernelProtectionExecuteEnable in
        ret (PS4_OK, Some p)
  end.

Definition ps4KernelMemoryAllocateData (memory : out) (size : Z) : K (Z * option Z) :=
  match memory with
  | ONull => ret (PS4_ERROR_ARGUMENT_PRIMARY_MISSING, None)
  | OPtr =>
      if size =? 0 then ret (PS4_ERROR_ARGUMENT_SIZE_NULL, None)
      else
        do! memory_type_ready in
        let! p := malloc size in
        ret (PS4_OK, Some p)
  end.

(** [old] is the value of [*memory]. *)
Definition ps4KernelMemoryReallocateData (memory : out) (old size : Z) : K (Z * option Z) :=
  match memory with
  | ONull => ret (PS4_ERROR_ARGUMENT_PRIMARY_MISSING, None)
  | OPtr =>
      if size =? 0 then ret (PS4_ERROR_ARGUMENT_SIZE_NULL, None)
      else
        do! memory_type_ready in
        let! p := krealloc old size in
        ret (PS4_OK, Some p)
  end.

(** The result pairs the code with what was stored in [*string] and [*size].
    [format] says whether the format pointer is NULL; [txt] is the text the
    format and its arguments give. *)
Definition ps4KernelMemoryAllocateStringWithArgumentList_
    (string size : out) (sizeMax : Z) (partial : Z) (format : out) (txt : list Z)
    : K (Z * option (Z * Z)) :=
  match string, size, format with
  | ONull, _, _ => ret (PS4_ERROR_ARGUMENT_PRIMARY_MISSING, None)
  | _, ONull, _ | _, _, ONull => ret (PS4_ERROR_ARGUMENT_MISSING, None)
  | OPtr, OPtr, OPtr =>
      if wrap 64 (sizeMax + 1) <? sizeMax then ret (PS4_ERROR_ARGUMENT_SIZE_INVALID, None)
      else
        let sizeMax := if sizeMax =? 0 then sizeMax else sizeMax + 1 in
        let! sz := vsnprintf NULL sizeMax txt in
        if sz =? 0 then ret (PS4_ERROR_ARGUMENT_EXPECTATION_FAILED, None)
        else if (partial =? 0) && (0 <? sizeMax) && (sz =? sizeMax)
        then ret (PS4_ERROR_ARGUMENT_SIZE_TOO_SMALL, None)
        else
          let! rs := ps4KernelMemoryAllocateData OPtr (sz + 1) in
          let s := default 0 (snd rs) in
          if s =? NULL then ret (PS4_ERROR_KERNEL_OUT_OF_MEMORY, None)
          else
            do! vsnprintf s (sz + 1) txt in
            do! store8 (s + sz) 0 in
            ret (PS4_OK, Some (s, sz))
  end.

Definition ps4KernelMemoryAllocateStringWithArgumentList string size sizeMax format txt :=
  ps4KernelMemoryAllocateStringWithArgumentList_ string size sizeMax 0 format txt.

Definition ps4KernelMemoryAllocateStringPartialWithArgumentList string size sizeMax format txt :=
  ps4KernelMemoryAllocateStringWithArgumentList_ string size sizeMax 1 format txt.

Definition ps4KernelMemoryAllocateString (string size : out) (sizeMax : Z) (format : out)
    (txt : list Z) : K (Z * option (Z * Z)) :=
  match string, size, format with
  | ONull, _, _ => ret (PS4_ERROR_ARGUMENT_PRIMARY_MISSING, None)
  | _, ONull, _ | _, _, ONull => ret (PS4_ERROR_ARGUMENT_MISSING, None)
  | OPtr, OPtr, OPtr =>
      ps4KernelMemoryAllocateStringWithArgumentList string size sizeMax format txt
  end.

Definition ps4KernelMemoryMalloc (size : Z) : K Z :=
  let! r := ps4KernelMemoryAllocate OPtr size in
  if fst r =? PS4_OK then ret (default 0 (snd r)) else ret NULL.

Definition ps4KernelMemoryMallocData (size : Z) : K Z :=
  let! r := ps4KernelMemoryAllocateData OPtr size in
  if fst r =? PS4_OK then ret (default 0 (snd r)) else ret NULL.

Definition ps4KernelMemoryFree (memory : Z) : K Z :=
  if memory =? NULL then ret PS4_ERROR_ARGUMENT_PRIMARY_MISSING
  else
    do! memory_type_ready in
    do! free memory in
    ret PS4_OK.
End Allocation.

Definition ps4KernelMemoryCopy (from to : Z) (size : nat) : K Z :=
  if (from =? NULL) || (to =? NULL) then ret PS4_ERROR_ARGUMENT_MISSING
  else
    do! ps4KernelProtectionWriteDisable in
    do! memcpy to from size in
    do! ps4KernelProtectionWriteEnable in
    ret PS4_OK.

(** The same function where [from] is the address of a local variable holding
    the bytes [local], and where [to] is: the local's bytes are returned. *)
Definition ps4KernelMemoryCopyFromLocal (local : list Z) (to : Z) : K Z :=
  if to =? NULL then ret PS4_ERROR_ARGUMENT_MISSING
  else
    do! ps4KernelProtectionWriteDisable in
    do! store_bytes to local in
    do! ps4KernelProtectionWriteEnable in
    ret PS4_OK.

Definition ps4KernelMemoryCopyToLocal (from : Z) (size : nat) : K (Z * list Z) :=
  if from =? NULL then ret (PS4_ERROR_ARGUMENT_MISSING, [])
  else
    do! ps4KernelProtectionWriteDisable in
    let! l := load_bytes from size in
    do! ps4KernelProtectionWriteEnable in
    ret (PS4_OK, l).

(** [for(size_t i = 0; i < size; ++i)] with [n] iterations to go. *)
Fixpoint swap_loop (a b : Z) (i : Z) (n : nat) : K unit :=
  match n with
  | O => ret tt
  | S n' =>
      let! t := load8 (a + i) in
      let! u := load8 (b + i) in
      do! store8 (a + i) u in
      do! store8 (b + i) t in
      swap_loop a b (i + 1) n'
  end.

Definition ps4KernelMemorySwap (a b : Z) (size : nat) : K Z :=
  if (a =? NULL) || (b =? NULL) then ret PS4_ERROR_ARGUMENT_MISSING
  else
    do! ps4KernelProtectionWriteDisable in
    do! swap_loop a b 0 size in
    do! ps4KernelProtectionWriteEnable in
    ret PS4_OK.

Definition ps4KernelMemoryFill (memory byte : Z) (size : nat) : K Z :=
  if memory =? NULL then ret PS4_ERROR_ARGUMENT_MISSING
  else
    do! ps4KernelProtectionWriteDisable in
    do! memset memory byte size in
    do! ps4KernelProtectionWriteEnable in
    ret PS4_OK.

Fixpoint compare_loop (a b : Z) (i : Z) (n : nat) : K Z :=
  match n with
  | O => ret PS4_OK
  | S n' =>
      let! x := load8 (a + i) in
      if x =? 0 then compare_loop a b (i + 1) n'
      else let! y := load8 (b + i) in
           if x =? y then compare_loop a b (i + 1) n' else ret (x - y)
  end.

Definition ps4KernelMemoryCompareNonZeros (a b : Z) (size : nat) : K Z :=
  if (a =? NULL) || (b =? NULL) then ret PS4_ERROR_ARGUMENT_MISSING
  else compare_loop a b 0 size.

(** ** Lemmas *)

Definition mapped_range (m : machine) (a : Z) (n : nat) : Prop :=
  forall i : nat, (i < n)%nat -> mapped m (a + Z.of_nat i).

(** The state a protected write of [l] at [a] leaves: the bytes are there, and
    write protection is on. *)
Definition patched (m : machine) (a : Z) (l : list Z) : machine :=
  set_cr0 (Z.lor (cr0 m) CR0_WP) (set_mem (mem_write (mem m) a l) m).

Lemma writable_range_wp_off m a n c :
  mapped_range m a n -> writable_range (set_cr0 (Z.ldiff c CR0_WP) m) a n.
Proof.
  intros Hm. apply writable_range_iff. intros i Hi. split; [by apply Hm|].
  intros _. apply wp_write_disable.
Qed.

Lemma mapped_range_read m a n l : mem_read (mem m) a n = Some l -> mapped_range m a n.
Proof.
  intros [Hl Hi]%mem_read_Some i Hlt. unfold mapped. rewrite Hi by done.
  apply lookup_lt_is_Some. lia.
Qed.

Lemma mapped_range_patched m a l b n :
  mapped_range m b n -> mapped_range (patched m a l) b n.
Proof.
  intros Hm i Hi. unfold mapped, patched. cbn [mem set_cr0 set_mem].
  rewrite lookup_mem_write. case_match eqn:E; [|by apply Hm].
  apply andb_prop in E as [? ?]. apply lookup_lt_is_Some. zbool; lia || done.
Qed.

Lemma mapped_range_sub m a n j k :
  mapped_range m a n -> (j + k <= n)%nat -> mapped_range m (a + Z.of_nat j) k.
Proof. intros Hm Hjk i Hi. rewrite <- Z.add_assoc, <- Nat2Z.inj_add. apply Hm. lia. Qed.

Lemma mapped_range_bytes m a n :
  mapped_range m a n -> exists l, mem_read (mem m) a n = Some l.
Proof.
  revert a. induction n as [|n IH]; intros a Hm; cbn [mem_read]; [eauto|].
  destruct (Hm O) as [b Hb]; [lia|]. rewrite Z.add_0_r in Hb. rewrite Hb.
  destruct (IH (a + 1)) as [l Hl].
  { intros i Hi. specialize (Hm (S i)). rewrite Nat2Z.inj_succ in Hm.
    replace (a + 1 + Z.of_nat i) with (a + Z.succ (Z.of_nat i)) by lia. apply Hm. lia. }
  rewrite Hl. eauto.
Qed.

(** A protected section whose body only changes memory. *)
Lemma protected_run (f : K unit) m m' mm :
  f (set_cr0 (Z.ldiff (cr0 m) CR0_WP) m) = Some (tt, m') ->
  m' = set_mem mm (set_cr0 (Z.ldiff (cr0 m) CR0_WP) m) ->
  (do! ps4KernelProtectionWriteDisable in
   do! f in
   do! ps4KernelProtectionWriteEnable in
   ret PS4_OK) m = Some (PS4_OK, set_cr0 (Z.lor (cr0 m) CR0_WP) (set_mem mm m)).
Proof.
  intros Hf ->. unfold ps4KernelProtectionWriteDisable, ps4KernelProtectionWriteEnable.
  unfold bind at 1. cbn. unfold bind at 1. rewrite Hf. cbn. by rewrite lor_ldiff.
Qed.

Lemma copy_run m from to n l :
  from <> NULL -> to <> NULL ->
  disjoint_ranges to (Z.of_nat n) from (Z.of_nat n) ->
  mem_read (mem m) from n = Some l -> mapped_range m to n ->
  ps4KernelMemoryCopy from to n m = Some (PS4_OK, patched m to l).
Proof.
  intros Hf Ht Hd Hr Hm. unfold ps4KernelMemoryCopy.
  rewrite (proj2 (Z.eqb_neq _ _) Hf), (proj2 (Z.eqb_neq _ _) Ht). cbn [orb].
  eapply protected_run; [|reflexivity].
  erewrite memcpy_run; [reflexivity | done | exact Hr | by apply writable_range_wp_off].
Qed.

Lemma copy_from_local_run m l to :
  to <> NULL -> mapped_range m to (length l) ->
  ps4KernelMemoryCopyFromLocal l to m = Some (PS4_OK, patched m to l).
Proof.
  intros Ht Hm. unfold ps4KernelMemoryCopyFromLocal.
  rewrite (proj2 (Z.eqb_neq _ _) Ht).
  eapply protected_run; [|reflexivity].
  rewrite store_bytes_run; [done | by apply writable_range_wp_off].
Qed.

(** A copy into a local variable changes nothing but the protection bit. *)
Lemma copy_to_local_run m from n l :
  from <> NULL -> mem_read (mem m) from n = Some l ->
  ps4KernelMemoryCopyToLocal from n m =
  Some ((PS4_OK, l), set_cr0 (Z.lor (cr0 m) CR0_WP) m).
Proof.
  intros Hf Hr. unfold ps4KernelMemoryCopyToLocal. rewrite (proj2 (Z.eqb_neq _ _) Hf).
  unfold ps4KernelProtectionWriteDisable, ps4KernelProtectionWriteEnable, load_bytes, bind, gets.
  cbn. rewrite Hr. cbn. by rewrite lor_ldiff.
Qed.

Lemma fill_run m a b n :
  a <> NULL -> mapped_range m a n ->
  ps4KernelMemoryFill a b n m = Some (PS4_OK, patched m a (repeat (wrap 8 b) n)).
Proof.
  intros Ha Hm. unfold ps4KernelMemoryFill. rewrite (proj2 (Z.eqb_neq _ _) Ha).
  eapply protected_run; [|reflexivity]. unfold memset.
  rewrite store_bytes_run; [done | apply writable_range_wp_off; by rewrite repeat_length].
Qed.

(** ** Comparison *)

(** What [ps4KernelMemoryCompareNonZeros] computes from the two byte strings. *)
Fixpoint nz_diff (t l : list Z) : Z :=
  match t, l with
  | x :: t', y :: l' =>
      if (x =? 0) || (x =? y) then nz_diff t' l' else x - y
  | _, _ => 0
  end.

Lemma compare_loop_run m a b i n t l :
  mem_read (mem m) (a + i) n = Some t -> mem_read (mem m) (b + i) n = Some l ->
  compare_loop a b i n m = Some (nz_diff t l, m).
Proof.
  revert i t l. induction n as [|n IH]; intros i t l.
  - intros [= <-] [= <-]. done.
  - cbn [mem_read compare_loop].
    destruct (mem m !! (a + i)) as [x|] eqn:Ex; [|done].
    destruct (mem_read (mem m) (a + i + 1) n) as [t'|] eqn:Et; [|done]. intros [= <-].
    destruct (mem m !! (b + i)) as [y|] eqn:Ey; [|done].
    destruct (mem_read (mem m) (b + i + 1) n) as [l'|] eqn:El; [|done]. intros [= <-].
    rewrite <- Z.add_assoc in Et, El.
    step. cbn [nz_diff]. destruct (Z.eqb_spec x 0); cbn [orb]; [by apply IH|].
    step. destruct (Z.eqb_spec x y); [by apply IH | done].
Qed.

Lemma compare_run m a b n t l :
  a <> NULL -> b <> NULL ->
  mem_read (mem m) a n = Some t -> mem_read (mem m) b n = Some l ->
  ps4KernelMemoryCompareNonZeros a b n m = Some (nz_diff t l, m).
Proof.
  intros Ha Hb Hta Hlb. unfold ps4KernelMemoryCompareNonZeros.
  rewrite (proj2 (Z.eqb_neq _ _) Ha), (proj2 (Z.eqb_neq _ _) Hb). cbn [orb].
  apply compare_loop_run; by rewrite Z.add_0_r.
Qed.

Lemma nz_diff_zero t l :
  length t = length l ->
  (nz_diff t l = 0 <-> Forall2 (fun x y => x = 0 \/ x = y) t l).
Proof.
  revert l. induction t as [|x t IH]; intros [|y l] Hl; try done.
  cbn [nz_diff]. rewrite Forall2_cons.
  destruct (Z.eqb_spec x 0); cbn [orb].
  { rewrite IH by (simpl in Hl; lia). intuition auto. }
  destruct (Z.eqb_spec x y).
  { rewrite IH by (simpl in Hl; lia). intuition auto. }
  split; [lia | intros [[] _]; lia].
Qed.

(** ** Swap *)

Lemma mem_write_insert_comm mm a l b x :
  b < a \/ a + Z.of_nat (length l) <= b ->
  mem_write (<[b := x]> mm) a l = <[b := x]> (mem_write mm a l).
Proof.
  intros Hb. apply map_eq. intros y. rewrite lookup_insert, !lookup_mem_write, lookup_insert.
  repeat case_decide; subst; try done.
  replace ((a <=? y) && (y <? a + Z.of_nat (length l))) with false by (zbool; simpl; lia || done).
  done.
Qed.

Lemma store8_run m a b : writable m a -> store8 a b m = Some (tt, set_mem (<[a := b]> (mem m)) m).
Proof.
  intros Hw. unfold store8. rewrite store_bytes_run; [done|]. apply writable_range_iff.
  intros [|i] Hi; [by rewrite Z.add_0_r | cbn [length] in Hi; lia].
Qed.

Lemma swap_loop_run m a b i n la lb :
  wp m = false ->
  disjoint_ranges a (i + Z.of_nat n) b (i + Z.of_nat n) -> 0 <= i ->
  mem_read (mem m) (a + i) n = Some la -> mem_read (mem m) (b + i) n = Some lb ->
  swap_loop a b i n m =
  Some (tt, set_mem (mem_write (mem_write (mem m) (a + i) lb) (b + i) la) m).
Proof.
  revert m i la lb. induction n as [|n IH]; intros m i la lb Hwp Hd Hi.
  - intros [= <-] [= <-]. cbn. by rewrite set_mem_mem.
  - cbn [mem_read swap_loop].
    destruct (mem m !! (a + i)) as [x|] eqn:Ex; [|done].
    destruct (mem_read (mem m) (a + i + 1) n) as [la'|] eqn:Ea; [|done]. intros [= <-].
    destruct (mem m !! (b + i)) as [y|] eqn:Ey; [|done].
    destruct (mem_read (mem m) (b + i + 1) n) as [lb'|] eqn:Eb; [|done]. intros [= <-].
    pose proof (mem_read_length _ _ _ _ Ea) as La.
    pose proof (mem_read_length _ _ _ _ Eb) as Lb.
    unfold disjoint_ranges in Hd.
    step. step.
    erewrite bind_some by (apply store8_run; split; [by eexists | by intros _]).
    erewrite bind_some.
    2: { apply store8_run. split; [|by intros _]. unfold mapped. cbn [mem set_mem].
         rewrite lookup_insert_ne by lia. by eexists. }
    cbn [mem set_mem].
    erewrite IH with (la := la') (lb := lb'); cbn [mem set_mem]; [|exact Hwp|unfold disjoint_ranges; lia|lia| |].
    + f_equal. f_equal. unfold set_mem. cbn. f_equal.
      cbn [mem_write]. rewrite !Z.add_assoc. rewrite !mem_write_insert_comm by lia. done.
    + by rewrite Z.add_assoc, <- Ea, !mem_read_insert_other by lia.
    + by rewrite Z.add_assoc, <- Eb, !mem_read_insert_other by lia.
Qed.

(** ** Allocation *)

Section AllocationLemmas.
Context `{KernelDlSym} `{HA : KernelAllocator} `{HL : !KernelAllocatorLaws HA}.

(** The state after a successful [malloc]. *)
Definition allocated (m : machine) (p n : Z) : machine :=
  set_allocs (<[p := n]> (allocs m))
    (set_mem (mem_write (mem m) p (repeat 0 (Z.to_nat n))) m).

Lemma malloc_run m n :
  kmalloc m n <> 0 -> malloc n m = Some (kmalloc m n, allocated m (kmalloc m n) n).
Proof. intros Hp. unfold malloc. by rewrite (proj2 (Z.eqb_neq _ _) Hp). Qed.

Lemma allocated_writable m n i :
  kmalloc m n <> 0 -> 0 <= i < n -> writable (allocated m (kmalloc m n) n) (kmalloc m n + i).
Proof.
  intros Hp Hi. split.
  - unfold mapped, allocated. cbn [mem set_allocs set_mem]. rewrite lookup_mem_write, repeat_length.
    replace (_ && _) with true by (symmetry; apply andb_true_iff; split; zbool; lia || done).
    apply lookup_lt_is_Some. rewrite repeat_length. lia.
  - intros Ht. exfalso. by apply (kmalloc_data m n i).
Qed.

(** A fresh block takes no byte that was mapped. *)
Lemma kmalloc_fresh_at m n x :
  kmalloc m n <> 0 -> is_Some (mem m !! x) -> ~ (kmalloc m n <= x < kmalloc m n + n).
Proof.
  intros Hp [b Hb] Hx. assert (0 <= x - kmalloc m n < n) as Hi by lia.
  pose proof (kmalloc_fresh m n _ Hp Hi) as Hf. replace (kmalloc m n + (x - kmalloc m n)) with x in Hf by lia. by rewrite Hf in Hb.
Qed.

Lemma lookup_allocated m n x b :
  kmalloc m n <> 0 -> 0 <= n -> mem m !! x = Some b -> mem (allocated m (kmalloc m n) n) !! x = Some b.
Proof.
  intros Hp Hn Hb. pose proof (kmalloc_fresh_at m n x Hp ltac:(by eexists)) as Hx.
  unfold allocated. cbn [mem set_allocs set_mem]. rewrite lookup_mem_write, repeat_length.
  case_match eqn:Q; [|done]. apply andb_prop in Q as [? ?]. exfalso. zbool; lia || done.
Qed.

Lemma allocated_writable_old m n p k :
  kmalloc m n <> 0 -> 0 <= n -> writable_range m p k -> writable_range (allocated m (kmalloc m n) n) p k.
Proof.
  rewrite !writable_range_iff. intros Hp Hn Hw i Hi. destruct (Hw i Hi) as [[b Hb] Ht].
  split; [|exact Ht]. exists b. by apply lookup_allocated.
Qed.

Lemma kmalloc_disjoint m n p k :
  kmalloc m n <> 0 -> 0 < n -> (0 < k)%nat -> writable_range m p k ->
  disjoint_ranges (kmalloc m n) n p (Z.of_nat k).
Proof.
  rewrite writable_range_iff. intros Hp Hn Hk Hw. unfold disjoint_ranges.
  destruct (Z.le_gt_cases (kmalloc m n + n) p), (Z.le_gt_cases (p + Z.of_nat k) (kmalloc m n)); try lia.
  destruct (Hw (Z.to_nat (Z.max 0 (kmalloc m n - p)))) as [Hm _]; [lia|].
  apply (kmalloc_fresh_at m n _ Hp) in Hm. lia.
Qed.

Lemma memory_type_ready_run m :
  var ps4KernelMemoryType m <> NULL -> memory_type_ready m = Some (tt, m).
Proof.
  intros Ht. unfold memory_type_ready, get_var, gets, bind.
  by rewrite (proj2 (Z.eqb_neq _ _) Ht).
Qed.

Lemma allocate_data_run m n :
  var ps4KernelMemoryType m <> NULL -> 0 < n -> kmalloc m n <> 0 ->
  ps4KernelMemoryAllocateData OPtr n m =
  Some ((PS4_OK, Some (kmalloc m n)), allocated m (kmalloc m n) n).
Proof.
  intros Ht Hn Hp. unfold ps4KernelMemoryAllocateData.
  rewrite (proj2 (Z.eqb_neq n 0)) by lia.
  erewrite bind_some by (by apply memory_type_ready_run).
  by erewrite bind_some by (by apply malloc_run).
Qed.

Lemma writable_range_set_mem m mm a n :
  writable_range m a n -> (forall i : nat, (i < n)%nat -> is_Some (mm !! (a + Z.of_nat i))) ->
  writable_range (set_mem mm m) a n.
Proof.
  rewrite !writable_range_iff. intros Hw Hm i Hi. split; [by apply Hm | by apply Hw].
Qed.

(** Bytes written over a part of bytes just written. *)
Lemma mem_write_inside mm a l (j : nat) k :
  (j + length k <= length l)%nat ->
  mem_write (mem_write mm a l) (a + Z.of_nat j) k = mem_write mm a (take j l ++ k ++ drop (j + length k) l).
Proof.
  intros Hl. apply map_eq. intros x. rewrite !lookup_mem_write, !length_app, length_take, length_drop.
  replace (Z.of_nat (j `min` length l + (length k + (length l - (j + length k))))) with (Z.of_nat (length l)) by lia.
  destruct (Z.leb_spec (a + Z.of_nat j) x), (Z.ltb_spec x (a + Z.of_nat j + Z.of_nat (length k))), (Z.leb_spec a x),
    (Z.ltb_spec x (a + Z.of_nat (length l))); cbn [andb]; try lia; try done.
  - rewrite lookup_app_r by (rewrite length_take; lia). rewrite length_take, lookup_app_l by lia. f_equal. lia.
  - rewrite lookup_app_r by (rewrite length_take; lia). rewrite lookup_app_r by (rewrite length_take; lia).
    rewrite lookup_drop, length_take. f_equal. lia.
  - by rewrite lookup_app_l, lookup_take_lt by (rewrite ?length_take; lia).
Qed.

Lemma writable_range_written m a l x n : writable_range m x n -> writable_range (set_mem (mem_write (mem m) a l) m) x n.
Proof.
  intros Hw. apply writable_range_set_mem; [done|]. intros i Hi. rewrite lookup_mem_write.
  case_match eqn:Q; [apply andb_prop in Q as [? ?]; apply lookup_lt_is_Some; zbool; lia || done|].
  rewrite writable_range_iff in Hw. by apply Hw.
Qed.

Lemma writable_range_sub m a n x k :
  writable_range m a n -> a <= x -> x + Z.of_nat k <= a + Z.of_nat n -> writable_range m x k.
Proof.
  rewrite !writable_range_iff. intros Hw H1 H2 i Hi. replace (x + Z.of_nat i) with (a + Z.of_nat (Z.to_nat (x - a) + i)) by lia.
  apply Hw. lia.
Qed.
End AllocationLemmas.

(** ** Properties *)

(** C2. A protected copy succeeds on any mapped destination, read-only kernel text
    included: the destination then holds the source's bytes, no other byte has
    changed, and write protection is on. A plain store to such text faults. *)
Theorem copy_into_text m from to n l :
  from <> NULL -> to <> NULL ->
  disjoint_ranges to (Z.of_nat n) from (Z.of_nat n) ->
  mem_read (mem m) from n = Some l -> mapped_range m to n ->
  (exists m', ps4KernelMemoryCopy from to n m = Some (PS4_OK, m') /\
     mem_read (mem m') to n = Some l /\
     (forall x, x < to \/ to + Z.of_nat n <= x -> mem m' !! x = mem m !! x) /\
     wp m' = true) /\
  (forall i : nat, (i < n)%nat -> to + Z.of_nat i ∈ text m -> wp m = true -> store_bytes to l m = None).
Proof.
  intros Hf Ht Hd Hr Hm. pose proof (mem_read_length _ _ _ _ Hr) as Hl. split.
  - exists (patched m to l). split; [by apply copy_run|]. split; [|split].
    + rewrite <- Hl. apply mem_read_write_same.
    + intros x Hx. cbn [mem patched set_cr0 set_mem]. rewrite lookup_mem_write, Hl.
      replace (_ && _) with false by (symmetry; apply andb_false_iff; zbool; lia || auto). done.
    + apply wp_write_enable.
  - intros i Hi Htx Hwp. unfold store_bytes. rewrite decide_False; [done|].
    rewrite writable_range_iff, Hl. intros Hw. destruct (Hw i Hi) as [_ Hx].
    rewrite Hx in Hwp by done. done.
Qed.

(** Swapping two disjoint mapped regions exchanges their contents and leaves
    the rest of memory alone, and swapping them again restores it. *)
Theorem swap_exchanges m a b n la lb :
  a <> NULL -> b <> NULL -> disjoint_ranges a (Z.of_nat n) b (Z.of_nat n) ->
  mem_read (mem m) a n = Some la -> mem_read (mem m) b n = Some lb ->
  exists m', ps4KernelMemorySwap a b n m = Some (PS4_OK, m') /\
    mem_read (mem m') a n = Some lb /\ mem_read (mem m') b n = Some la /\
    (forall x, x < a \/ a + Z.of_nat n <= x -> x < b \/ b + Z.of_nat n <= x ->
       mem m' !! x = mem m !! x) /\
    exists m'', ps4KernelMemorySwap a b n m' = Some (PS4_OK, m'') /\ mem m'' = mem m.
Proof.
  intros Ha Hb Hd HRa HRb.
  pose proof (mem_read_length _ _ _ _ HRa) as La. pose proof (mem_read_length _ _ _ _ HRb) as Lb.
  assert (forall m0 ka kb, mem_read (mem m0) a n = Some ka -> mem_read (mem m0) b n = Some kb ->
    ps4KernelMemorySwap a b n m0 = Some (PS4_OK,
      set_cr0 (Z.lor (cr0 m0) CR0_WP)
        (set_mem (mem_write (mem_write (mem m0) a kb) b ka) m0))) as Run.
  { intros m0 ka kb H1 H2. unfold ps4KernelMemorySwap.
    rewrite (proj2 (Z.eqb_neq _ _) Ha), (proj2 (Z.eqb_neq _ _) Hb). cbn [orb].
    eapply protected_run; [|reflexivity].
    erewrite swap_loop_run with (la := ka) (lb := kb); cbn [mem set_cr0];
      rewrite ?Z.add_0_r, ?Z.add_0_l; try done. apply wp_write_disable. }
  assert (mem_read (mem_write (mem_write (mem m) a lb) b la) a n = Some lb) as Ra.
  { rewrite mem_read_write_other by (unfold disjoint_ranges in *; lia).
    rewrite <- Lb at 1. apply mem_read_write_same. }
  assert (mem_read (mem_write (mem_write (mem m) a lb) b la) b n = Some la) as Rb.
  { rewrite <- La at 1. apply mem_read_write_same. }
  eexists. split; [by apply Run|]. split; [exact Ra|]. split; [exact Rb|]. split.
  - intros x Hx Hy. cbn [mem set_cr0 set_mem]. rewrite !lookup_mem_write, La, Lb.
    replace ((b <=? x) && _) with false by (symmetry; apply andb_false_iff; zbool; lia || auto).
    by replace ((a <=? x) && _) with false by (symmetry; apply andb_false_iff; zbool; lia || auto).
  - eexists. split; [apply Run; [exact Ra | exact Rb]|]. cbn [mem set_cr0 set_mem].
    apply map_eq. intros x. apply mem_read_Some in HRa as [_ HRa]. apply mem_read_Some in HRb as [_ HRb].
    rewrite !lookup_mem_write, La, Lb.
    destruct (Z.leb_spec b x), (Z.ltb_spec x (b + Z.of_nat n)); cbn [andb].
    1: { rewrite <- HRb by lia. f_equal. lia. }
    all: destruct (Z.leb_spec a x), (Z.ltb_spec x (a + Z.of_nat n)); cbn [andb]; try done.
    all: rewrite <- HRa by lia; f_equal; lia.
Qed.

(** The comparison reads both regions and returns [PS4_OK] exactly when every
    non-zero byte of the first equals the byte of the second there: the zeros
    of a template are the places it leaves open. *)
Theorem compare_nonzeros_matches_template m a b n t l :
  a <> NULL -> b <> NULL ->
  mem_read (mem m) a n = Some t -> mem_read (mem m) b n = Some l ->
  exists r, ps4KernelMemoryCompareNonZeros a b n m = Some (r, m) /\
    (r = PS4_OK <-> Forall2 (fun x y => x = 0 \/ x = y) t l).
Proof.
  intros Ha Hb Ht Hl. exists (nz_diff t l). split; [by apply compare_run|].
  apply nz_diff_zero. by rewrite (mem_read_length _ _ _ _ Ht), (mem_read_length _ _ _ _ Hl).
Qed.

Section AllocationProperties.
Context `{KernelDlSym} `{HA : KernelAllocator} `{HL : !KernelAllocatorLaws HA}.

(** Executable memory: a request is rounded up to more than a page, the
    allocator runs while [*pg_nx] is zero (new mappings are executable), and
    afterwards [*pg_nx] is the no-execute bit again. *)
Theorem allocate_executable m size p :
  0 < size -> var ps4KernelMemoryType m <> NULL -> var pg_nx m = p -> p <> NULL ->
  writable_range m p 8 ->
  let n := if size <=? 0x4000 then 0x4001 else size in
  let m0 := set_mem (mem_write (mem m) p (le_bytes 8 0)) m in
  kmalloc m0 n <> 0 ->
  exists m', ps4KernelMemoryAllocate OPtr size m = Some ((PS4_OK, Some (kmalloc m0 n)), m') /\
    load64 p m0 = Some (0, m0) /\
    load64 p m' = Some (2 ^ 63, m') /\
    allocs m' !! kmalloc m0 n = Some n /\
    mem_read (mem m') (kmalloc m0 n) (Z.to_nat n) = Some (repeat 0 (Z.to_nat n)) /\
    0x4001 <= n.
Proof.
  intros Hs Ht Hv Hp Hw n m0 Hk.
  assert (0x4001 <= n) as Hn by (unfold n; zbool; lia).
  assert (forall m1, var pg_nx m1 = p -> resolve_pg_nx m1 = Some (p, m1)) as Hpg.
  { intros m1 Hv1. unfold resolve_pg_nx, get_var, gets, bind. rewrite Hv1.
    by rewrite (proj2 (Z.eqb_neq _ _) Hp). }
  set (m1 := allocated m0 (kmalloc m0 n) n).
  assert (writable_range m0 p 8) as Hw0.
  { apply writable_range_set_mem; [done|]. intros i Hi. rewrite lookup_mem_write, length_le_bytes.
    replace (_ && _) with true by (symmetry; apply andb_true_iff; split; zbool; lia || done).
    apply lookup_lt_is_Some. rewrite length_le_bytes. lia. }
  pose proof (kmalloc_disjoint m0 n p 8 Hk ltac:(lia) ltac:(lia) Hw0) as Hd.
  assert (writable_range m1 p 8) as Hw1 by (apply allocated_writable_old; [done | lia | done]).
  exists (set_mem (mem_write (mem m1) p (le_bytes 8 (Z.shiftl 1 63))) m1).
  split; [|split; [|split; [|split; [|split; [|done]]]]].
  - unfold ps4KernelMemoryAllocate. rewrite (proj2 (Z.eqb_neq size 0)) by lia. fold n.
    erewrite bind_some by (by apply memory_type_ready_run).
    unfold ps4KernelProtectionExecuteDisable, ps4KernelProtectionExecuteEnable.
    erewrite bind_some; [|erewrite bind_some by (by apply Hpg); by apply store64_run].
    fold m0. erewrite bind_some by (by apply malloc_run).
    fold m1. erewrite bind_some; [|erewrite bind_some by (by apply Hpg); by apply store64_run].
    done.
  - erewrite load64_run by apply mem_read_write_le. done.
  - erewrite load64_run by apply mem_read_write_le. by rewrite le_val_bytes_wrap.
  - unfold m1, allocated. cbn. by rewrite lookup_insert_eq.
  - cbn [mem set_mem]. rewrite mem_read_write_other.
    + unfold m1, allocated. cbn [mem set_allocs set_mem].
      rewrite <- (repeat_length 0 (Z.to_nat n)) at 2. apply mem_read_write_same.
    + unfold disjoint_ranges in *. rewrite length_le_bytes. lia.
Qed.

(** Without a size limit, a non-empty formatted text is returned as a fresh
    NUL-terminated string together with its length. *)
Theorem allocate_string_unlimited m txt partial :
  var ps4KernelMemoryType m <> NULL -> txt <> [] ->
  let sz := Z.of_nat (length txt) in
  kmalloc m (sz + 1) <> 0 ->
  exists m', ps4KernelMemoryAllocateStringWithArgumentList_ OPtr OPtr 0 partial OPtr txt m =
    Some ((PS4_OK, Some (kmalloc m (sz + 1), sz)), m') /\
    mem_read (mem m') (kmalloc m (sz + 1)) (length txt + 1) = Some (txt ++ [0]) /\
    allocs m' = <[kmalloc m (sz + 1) := sz + 1]> (allocs m).
Proof.
  intros Ht Hne sz Hk. set (s := kmalloc m (sz + 1)) in *.
  assert (0 < sz) as Hsz by (unfold sz; destruct txt; [done | cbn [length]; lia]).
  set (m1 := allocated m s (sz + 1)).
  set (m2 := set_mem (mem_write (mem m1) s (txt ++ [0])) m1).
  assert (writable_range m1 s (length (txt ++ [0]))) as Hw.
  { apply writable_range_iff. intros i Hi. rewrite length_app in Hi. cbn [length] in Hi.
    apply allocated_writable; [exact Hk | unfold sz; lia]. }
  assert (mem_read (mem m2) s (length txt + 1) = Some (txt ++ [0])) as Hr.
  { replace (length txt + 1)%nat with (length (txt ++ [0])) by (by rewrite length_app).
    apply mem_read_write_same. }
  exists (set_mem (<[s + sz := 0]> (mem m2)) m2). split; [|split; [|done]].
  - unfold ps4KernelMemoryAllocateStringWithArgumentList_.
    replace (wrap 64 (0 + 1) <? 0) with false by done.
    change (0 =? 0) with true. cbv iota zeta.
    erewrite bind_some by reflexivity. fold sz.
    rewrite (proj2 (Z.eqb_neq sz 0)) by lia.
    rewrite andb_false_r.
    erewrite bind_some by (apply allocate_data_run; [done | lia | done]).
    fold s m1. cbn [snd]. change (default 0 (Some s)) with s. rewrite (proj2 (Z.eqb_neq s NULL)) by done.
    unfold vsnprintf. rewrite (proj2 (Z.eqb_neq (sz + 1) 0)) by lia.
    replace (take (Z.to_nat (sz + 1 - 1)) txt) with txt
      by (symmetry; apply take_ge; unfold sz; lia).
    erewrite bind_some; [|erewrite bind_some by (by apply store_bytes_run); reflexivity].
    fold m2. erewrite bind_some; [reflexivity|]. apply store8_run. split.
    + apply mem_read_Some in Hr as [_ Hr]. unfold mapped, sz. rewrite Hr by lia.
      apply lookup_lt_is_Some. rewrite length_app. cbn [length]. lia.
    + intros Hx. exfalso. apply (kmalloc_data m (sz + 1) sz); [done | lia | exact Hx].
  - cbn [mem set_mem].
    replace (<[s + sz := 0]> (mem m2)) with (mem m2); [exact Hr|].
    symmetry. apply insert_id. apply mem_read_Some in Hr as [_ Hr].
    unfold sz. rewrite Hr by lia. rewrite lookup_app_r by lia. by rewrite Nat.sub_diag.
Qed.

(** With a size limit the length is asked for by formatting into a NULL
    buffer of that size: the first character, or the terminator, is stored
    through NULL, so with the zero page unmapped the call never returns. *)
Theorem allocate_string_limited_faults m sizeMax partial txt :
  0 < sizeMax < 2 ^ 64 - 1 -> mem m !! 0 = None ->
  ps4KernelMemoryAllocateStringWithArgumentList_ OPtr OPtr sizeMax partial OPtr txt m = None.
Proof.
  intros Hs H0. unfold ps4KernelMemoryAllocateStringWithArgumentList_.
  rewrite wrap_small by lia.
  replace (sizeMax + 1 <? sizeMax) with false by (symmetry; apply Z.ltb_ge; lia).
  rewrite (proj2 (Z.eqb_neq sizeMax 0)) by lia.
  apply bind_none. unfold vsnprintf. rewrite (proj2 (Z.eqb_neq (sizeMax + 1) 0)) by lia.
  apply bind_none. unfold store_bytes. rewrite decide_False; [done|].
  rewrite writable_range_iff. intros Hw. destruct (Hw O) as [[b Hb] _].
  { rewrite length_app. cbn [length]. lia. }
  change (NULL + Z.of_nat 0) with 0 in Hb. by rewrite H0 in Hb.
Qed.
End AllocationProperties.

(** ** Witnesses *)

(** A page of zeros at 0x1000, text at 0x2000, and the statics resolved. *)
Definition memory_example : machine :=
  booted [(0x1000, [1; 2; 3; 4]); (0x2000, [9; 8; 7; 6]); (0x3000, [0; 0; 0; 0; 0; 0; 0; 0])]
    [0x2000; 0x2001; 0x2002; 0x2003]
    [(ps4KernelMemoryType, 0x5000); (pg_nx, 0x3000)].

(** A concrete range is mapped: look every byte up. *)
Ltac mapped_by_compute :=
  let i := fresh "i" in let Hi := fresh "Hi" in
  intros i Hi; vm_compute in Hi;
  repeat (destruct i as [|i]; [eexists; vm_compute; reflexivity|]); lia.

Lemma copy_into_text_witness :
  exists m', ps4KernelMemoryCopy 0x1000 0x2000 4 memory_example = Some (PS4_OK, m') /\
    mem_read (mem m') 0x2000 4 = Some [1; 2; 3; 4].
Proof.
  destruct (copy_into_text memory_example 0x1000 0x2000 4 [1; 2; 3; 4]) as [(m' & Hr & Hm & _) _];
    [done | done | right; lia | done | mapped_by_compute |].
  by exists m'.
Defined.

Lemma swap_exchanges_witness :
  exists m', ps4KernelMemorySwap 0x1000 0x2000 4 memory_example = Some (PS4_OK, m') /\
    mem_read (mem m') 0x2000 4 = Some [1; 2; 3; 4].
Proof.
  destruct (swap_exchanges memory_example 0x1000 0x2000 4 [1; 2; 3; 4] [9; 8; 7; 6])
    as (m' & Hr & _ & Hb & _); [done | done | left; lia | done | done |].
  by exists m'.
Defined.

Lemma compare_nonzeros_matches_template_witness :
  exists r, ps4KernelMemoryCompareNonZeros 0x3000 0x1000 4 memory_example = Some (r, memory_example) /\
    (r = PS4_OK <-> Forall2 (fun x y => x = 0 \/ x = y) [0; 0; 0; 0] [1; 2; 3; 4]).
Proof.
  by apply (compare_nonzeros_matches_template memory_example 0x3000 0x1000 4 [0; 0; 0; 0] [1; 2; 3; 4]).
Defined.

Lemma allocate_executable_witness :
  exists m', @ps4KernelMemoryAllocate (table_dlsym []) bump_allocator OPtr 128 memory_example =
    Some ((PS4_OK, Some (2 ^ 63)), m') /\ load64 0x3000 m' = Some (2 ^ 63, m').
Proof.
  destruct (@allocate_executable (table_dlsym []) bump_allocator bump_allocator_laws
    memory_example 128 0x3000) as (m' & Hr & _ & Hl & _);
    [lia | done | done | done | vm_decide | vm_compute; discriminate |].
  exists m'. split; [exact Hr | exact Hl].
Defined.

Lemma allocate_string_unlimited_witness :
  exists m', @ps4KernelMemoryAllocateStringWithArgumentList_ (table_dlsym []) bump_allocator
      OPtr OPtr 0 0 OPtr [72; 105] memory_example = Some ((PS4_OK, Some (2 ^ 63, 2)), m') /\
    mem_read (mem m') (2 ^ 63) 3 = Some [72; 105; 0].
Proof.
  destruct (@allocate_string_unlimited (table_dlsym []) bump_allocator bump_allocator_laws
    memory_example [72; 105] 0) as (m' & Hr & Hm & _); [done | done | vm_compute; discriminate |].
  exists m'. split; [exact Hr | exact Hm].
Defined.

Lemma allocate_string_limited_faults_witness :
  @ps4KernelMemoryAllocateStringWithArgumentList_ (table_dlsym []) bump_allocator
    OPtr OPtr 16 0 OPtr [72; 105] memory_example = None.
Proof.
  apply (@allocate_string_limited_faults (table_dlsym []) bump_allocator memory_example 16 0 [72; 105]);
    [lia | done].
Defined.
