(* ===== verification/CacheMap.v ===== *)
(** * A kernel cache is a finite map

    The invariant of the caches of a machine, the finite map each of them
    stands for, and the proofs that the operations of [Cache] are the
    operations of that map: lookup, insertion, deletion. The invariant says
    which allocator block holds what ([role]), so an operation on one cache
    changes neither the others nor any memory the caches do not own. *)

From stdpp Require Import base gmap list strings.
From S2P Require Import Prelude Errors Uthash Machine Reference KernelBase KernelMemory Cache.

(** ** Blocks *)

Definition in_block (a n x : Z) : Prop := a <= x < a + n.

(** Live blocks are mapped, writable and apart. *)
Record blocks_ok (m : machine) : Prop := BlocksOk {
  block_mapped a n x : allocs m !! a = Some n -> in_block a n x -> is_Some (mem m !! x) /\ x ∉ text m;
  block_apart a n b k x :
    allocs m !! a = Some n -> allocs m !! b = Some k -> in_block a n x -> in_block b k x -> a = b;
  block_size a n : allocs m !! a = Some n -> 0 < n /\ a <> 0
}.

Lemma blocks_ok_eq m m' :
  mem m' = mem m -> text m' = text m -> allocs m' = allocs m -> blocks_ok m -> blocks_ok m'.
Proof. intros E1 E2 E3 [H1 H2 H3]. split; rewrite ?E1, ?E2, ?E3; done. Qed.

(** What a block of the caches is for. *)
Inductive role := RCache | RTable (c : Z) | RBuckets (c : Z) | REntry (c : Z) | RName (e : Z).

Abbreviation roles := (gmap Z role).

Definition owned (R : roles) (m : machine) (x : Z) : Prop :=
  exists a r n, R !! a = Some r /\ allocs m !! a = Some n /\ in_block a n x.

(** ** What the caches stand for *)

(** The key and value of an entry. *)
Definition item (m : machine) (e : Z) : option (list Z * Z) :=
  match entries m !! e with
  | None => None
  | Some en =>
      match mem_read (mem m) (hh_key (hh en)) (Z.to_nat (keylen (hh en))) with
      | Some k => Some (k, value en)
      | None => None
      end
  end.

Definition cache_items (m : machine) (c : Z) : list Z :=
  match caches m !! c with Some (Some t) => items t | _ => [] end.

Definition view (m : machine) (c : Z) : gmap (list Z) Z :=
  list_to_map (omap (item m) (cache_items m c)).

(** ** The invariant *)

Definition item_ok (R : roles) (m : machine) (e : Z) (k : list Z) (v : Z) : Prop :=
  exists nm n, entries m !! e = Some (CacheEntry nm v (Handle nm (Z.of_nat (length k)) (HASH_JEN k))) /\
    R !! nm = Some (RName e) /\ allocs m !! nm = Some n /\ Z.of_nat (length k) <= n /\
    mem_read (mem m) nm (length k) = Some k.

Record table_ok (R : roles) (m : machine) (c : Z) (t : UT_hash_table) : Prop := TableOk {
  table_chains : chains_ok (entry_hashv m) t;
  table_nodup : NoDup (items t);
  table_count : num_items t = u32 (Z.of_nat (length (items t)));
  table_tbl : R !! tbl_at t = Some (RTable c);
  table_bkts : R !! buckets_at t = Some (RBuckets c);
  table_items e : e ∈ items t -> R !! e = Some (REntry c) /\ exists k v, item_ok R m e k v;
  table_keys e e' k v v' : e ∈ items t -> e' ∈ items t -> item_ok R m e k v -> item_ok R m e' k v' -> e = e'
}.

Record cache_inv (R : roles) (m : machine) : Prop := CacheInv {
  inv_blocks : blocks_ok m;
  inv_roles a r : R !! a = Some r -> is_Some (allocs m !! a);
  inv_caches c h : caches m !! c = Some h -> R !! c = Some RCache;
  inv_tables c t : caches m !! c = Some (Some t) -> table_ok R m c t;
  inv_nonempty c t : caches m !! c = Some (Some t) -> items t <> []
}.

(** ** Reading the invariant *)

Lemma item_ok_item R m e k v : item_ok R m e k v -> item m e = Some (k, v).
Proof.
  intros (nm & n & He & _ & _ & _ & Hr). unfold item. rewrite He. cbn [hh hh_key keylen value].
  by rewrite Nat2Z.id, Hr.
Qed.

Lemma item_ok_hashv R m e k v : item_ok R m e k v -> entry_hashv m e = HASH_JEN k.
Proof. intros (nm & n & He & _). unfold entry_hashv. by rewrite He. Qed.

(** The map has what the items have. *)
Lemma view_spec R m c k v :
  cache_inv R m ->
  view m c !! k = Some v <-> exists e, e ∈ cache_items m c /\ item m e = Some (k, v).
Proof.
  intros Hi. unfold view.
  assert (forall v, (k, v) ∈ omap (item m) (cache_items m c) <->
    exists e, e ∈ cache_items m c /\ item m e = Some (k, v)) as Hin by (intros; apply list_elem_of_omap).
  rewrite <- elem_of_list_to_map'; [apply Hin|]. intros v2 (e1 & H1 & E1)%Hin (e2 & H2 & E2)%Hin.
  unfold cache_items in *. destruct (caches m !! c) as [[t|]|] eqn:Ec; [|by apply not_elem_of_nil in H1..].
  pose proof (inv_tables _ _ Hi _ _ Ec) as Ht.
  destruct (table_items _ _ _ _ Ht _ H1) as (_ & k1 & w1 & I1). destruct (table_items _ _ _ _ Ht _ H2) as (_ & k2 & w2 & I2).
  rewrite (item_ok_item _ _ _ _ _ I1) in E1. rewrite (item_ok_item _ _ _ _ _ I2) in E2.
  simplify_eq. pose proof (table_keys _ _ _ _ Ht _ _ _ _ _ H1 H2 I1 I2) as ->.
  pose proof (item_ok_item _ _ _ _ _ I1). pose proof (item_ok_item _ _ _ _ _ I2). congruence.
Qed.

Lemma entry_nonzero R m c t e : cache_inv R m -> table_ok R m c t -> e ∈ items t -> e <> 0.
Proof.
  intros Hi Ht He. destruct (table_items _ _ _ _ Ht _ He) as (HR & _).
  destruct (inv_roles _ _ Hi _ _ HR) as [n Hn]. by apply (block_size _ (inv_blocks _ _ Hi) _ _ Hn).
Qed.

(** ** Finding *)

Definition found_in (R : roles) (m : machine) (l : list Z) (key : list Z) (r : Z) : Prop :=
  (r = NULL /\ forall e v, e ∈ l -> item m e <> Some (key, v)) \/
  (r ∈ l /\ exists v, item_ok R m r key v).

Lemma find_in_bkt_run R m key l :
  (forall e, e ∈ l -> exists k v, item_ok R m e k v) ->
  exists r, HASH_FIND_IN_BKT l key m = Some (r, m) /\ found_in R m l key r.
Proof.
  induction l as [|e l IH]; intros Hl; cbn [HASH_FIND_IN_BKT].
  { eexists. split; [reflexivity|]. left. split; [done|]. by intros ? ? ?%not_elem_of_nil. }
  destruct IH as (r & Er & Hr); [intros x Hx; apply Hl; by right|].
  destruct (Hl e ltac:(left)) as (k & v & Hk). pose proof Hk as (nm & n & He & _ & _ & _ & Hm).
  erewrite bind_some by (unfold get_entry; by rewrite He). cbn [hh keylen hh_key].
  assert (k <> key -> found_in R m (e :: l) key r) as Hne.
  { intros Hne. destruct Hr as [[-> Hno]|[Hin Hv]]; [left|right; split; [by right|done]].
    split; [done|]. intros x w [->|Hx]%elem_of_cons; [|by apply Hno].
    rewrite (item_ok_item _ _ _ _ _ Hk). congruence. }
  destruct (Z.eqb_spec (Z.of_nat (length k)) (Z.of_nat (length key))) as [El|El].
  - apply Nat2Z.inj in El. erewrite bind_some by (apply load_bytes_run; by rewrite <- El).
    destruct (decide (k = key)) as [->|Hk'].
    + rewrite bool_decide_true by done. exists e. split; [done|]. right. split; [by left | by exists v].
    + rewrite bool_decide_false by done. exists r. auto.
  - exists r. split; [done|]. apply Hne. congruence.
Qed.

(** The lookup: the one item with the key, or NULL. *)
Lemma find_run R m c h key :
  cache_inv R m -> caches m !! c = Some h ->
  exists r, HASH_FIND c key m = Some (r, m) /\ found_in R m (cache_items m c) key r.
Proof.
  intros Hi Hc. unfold HASH_FIND, cache_items. erewrite bind_some by (unfold get_handle; by rewrite Hc).
  rewrite Hc. destruct h as [t|].
  2: { eexists. split; [reflexivity|]. left. split; [done|]. by intros ? ? ?%not_elem_of_nil. }
  pose proof (inv_tables _ _ Hi _ _ Hc) as Ht. pose proof (table_chains _ _ _ _ Ht) as Hch.
  destruct (bucket_at _ t (HASH_JEN key) Hch) as (b & -> & Hb).
  destruct (find_in_bkt_run R m key (chain b)) as (r & Er & Hr).
  { intros e He. apply Hb in He as [He _]. by apply (table_items _ _ _ _ Ht). }
  exists r. split; [done|]. destruct Hr as [[-> Hno]|[Hin Hv]]; [left | right; apply Hb in Hin as [? _]; auto].
  split; [done|]. intros e v He Hk. apply (Hno e v); [|done]. apply Hb. split; [done|].
  destruct (table_items _ _ _ _ Ht _ He) as (_ & k & w & Hok).
  rewrite (item_ok_hashv _ _ _ _ _ Hok). rewrite (item_ok_item _ _ _ _ _ Hok) in Hk. congruence.
Qed.

(** ** What keeps the invariant *)

(** The entry [e] and the block of its name are as before. *)
Definition kept (R : roles) (m : machine) (R' : roles) (m' : machine) (e : Z) : Prop :=
  entries m' !! e = entries m !! e /\
  forall nm n, R !! nm = Some (RName e) -> allocs m !! nm = Some n ->
    R' !! nm = Some (RName e) /\ allocs m' !! nm = Some n /\
    forall x b, in_block nm n x -> mem m !! x = Some b -> mem m' !! x = Some b.

Lemma mem_read_keeps mm mm' a n l :
  mem_read mm a n = Some l ->
  (forall x b, a <= x < a + Z.of_nat n -> mm !! x = Some b -> mm' !! x = Some b) ->
  mem_read mm' a n = Some l.
Proof.
  intros [Hl Hi]%mem_read_Some H. apply mem_read_Some. split; [done|]. intros i Hlt.
  destruct (lookup_lt_is_Some_2 l i ltac:(lia)) as [b Hb]. rewrite Hb. apply H; [lia|]. by rewrite Hi.
Qed.

Lemma item_ok_kept R m R' m' e k v : item_ok R m e k v -> kept R m R' m' e -> item_ok R' m' e k v.
Proof.
  intros (nm & n & He & Hr & Ha & Hn & Hm) [Hen Hk]. destruct (Hk nm n Hr Ha) as (Hr' & Ha' & Hb).
  exists nm, n. rewrite Hen. repeat (split; [done|]).
  apply (mem_read_keeps _ _ _ _ _ Hm). intros x b Hx. apply Hb. unfold in_block. lia.
Qed.

Lemma item_kept R m R' m' c t e :
  table_ok R m c t -> e ∈ items t -> kept R m R' m' e -> item m' e = item m e.
Proof.
  intros Ht He Hk. destruct (table_items _ _ _ _ Ht _ He) as (_ & k & v & Hok).
  rewrite (item_ok_item _ _ _ _ _ Hok). by eapply item_ok_item, item_ok_kept.
Qed.

Lemma table_ok_kept R m R' m' c t :
  table_ok R m c t ->
  (forall e, e ∈ items t -> kept R m R' m' e /\ R' !! e = Some (REntry c)) ->
  R' !! tbl_at t = Some (RTable c) -> R' !! buckets_at t = Some (RBuckets c) ->
  table_ok R' m' c t.
Proof.
  intros Ht Hk H1 H2. pose proof Ht as [Hch Hnd Hct _ _ Hit Hky]. split; try done.
  - apply (chains_ok_ext (entry_hashv m)); [|done]. intros e He. destruct (Hk e He) as [[Hen _] _].
    unfold entry_hashv. by rewrite Hen.
  - intros e He. destruct (Hk e He) as [Hke Hr]. split; [done|].
    destruct (Hit e He) as (_ & k & v & Hok). exists k, v. by eapply item_ok_kept.
  - intros e e' k v v' He He' Hok Hok'. destruct (Hit e He) as (_ & k0 & v0 & I0).
    destruct (Hit e' He') as (_ & k1 & v1 & I1). destruct (Hk e He) as [Hke _]. destruct (Hk e' He') as [Hke' _].
    pose proof (item_ok_item _ _ _ _ _ (item_ok_kept _ _ _ _ _ _ _ I0 Hke)) as Q0. rewrite (item_ok_item _ _ _ _ _ Hok) in Q0.
    pose proof (item_ok_item _ _ _ _ _ (item_ok_kept _ _ _ _ _ _ _ I1 Hke')) as Q1. rewrite (item_ok_item _ _ _ _ _ Hok') in Q1.
    simplify_eq. by eapply Hky.
Qed.

(** The blocks the tables use, names apart. *)
Definition live (m : machine) (a : Z) : Prop :=
  is_Some (caches m !! a) \/
  exists c t, caches m !! c = Some (Some t) /\ (a = tbl_at t \/ a = buckets_at t \/ a ∈ items t).

(** No entry in use has its name in a block of this role. *)
Definition idle (m : machine) (r : role) : Prop :=
  forall e c, r = RName e -> e ∉ cache_items m c.

(** What the caches' own steps never change: everything but the memory; of the
    mutexes, how often each is held. *)
Definition core (m : machine) : machine :=
  set_held ∅ (set_mem ∅ (set_allocs ∅ (set_caches ∅ (set_entries ∅ m)))).

(** Memory the caches do not own stays as it is, and stays theirs who own it. *)
Record framed (R : roles) (m : machine) (R' : roles) (m' : machine) : Prop := Framed {
  frame_core : core m' = core m;
  frame_held a : hold_count a m' = hold_count a m;
  frame_mem x b : mem m !! x = Some b -> ~ owned R m x -> mem m' !! x = Some b /\ ~ owned R' m' x;
  frame_allocs a n : allocs m !! a = Some n -> R !! a = None -> allocs m' !! a = Some n /\ R' !! a = None
}.

(** No cache goes away. *)
Definition alive (m m' : machine) : Prop := forall c, is_Some (caches m !! c) -> is_Some (caches m' !! c).

Lemma alive_trans m0 m1 m2 : alive m0 m1 -> alive m1 m2 -> alive m0 m2.
Proof. unfold alive. auto. Qed.

Lemma alive_insert m c h : alive m (set_caches (<[c := h]> (caches m)) m).
Proof. intros c' Hc'. cbn [caches set_caches]. rewrite lookup_insert_is_Some. destruct (decide (c = c')); auto. Qed.

(** A step that leaves the caches alone. *)
Record quiet (R : roles) (m : machine) (R' : roles) (m' : machine) : Prop := Quiet {
  quiet_blocks : blocks_ok m';
  quiet_roles a r : R' !! a = Some r -> is_Some (allocs m' !! a);
  quiet_caches : caches m' = caches m;
  quiet_live a : live m a -> R' !! a = R !! a;
  quiet_entries c e : e ∈ cache_items m c -> kept R m R' m' e;
  quiet_framed : framed R m R' m'
}.

Lemma framed_trans R0 m0 R1 m1 R2 m2 : framed R0 m0 R1 m1 -> framed R1 m1 R2 m2 -> framed R0 m0 R2 m2.
Proof.
  intros [C1 H1 M1 A1] [C2 H2 M2 A2]. split; [congruence | intros a; by rewrite H2 | |].
  - intros x b Hx Ho. destruct (M1 x b Hx Ho) as [Hx1 Ho1]. by apply M2.
  - intros a n Ha Hr. destruct (A1 a n Ha Hr) as [Ha1 Hr1]. by apply A2.
Qed.

Lemma quiet_alive R m R' m' : quiet R m R' m' -> alive m m'.
Proof. intros Q c. by rewrite (quiet_caches _ _ _ _ Q). Qed.

Lemma kept_trans R0 m0 R1 m1 R2 m2 e : kept R0 m0 R1 m1 e -> kept R1 m1 R2 m2 e -> kept R0 m0 R2 m2 e.
Proof.
  intros [E1 K1] [E2 K2]. split; [congruence|]. intros nm n Hr Ha.
  destruct (K1 nm n Hr Ha) as (Hr1 & Ha1 & M1). destruct (K2 nm n Hr1 Ha1) as (Hr2 & Ha2 & M2).
  split; [done|]. split; [done|]. intros x b Hx Hb. apply M2; [done|]. by apply M1.
Qed.

Lemma quiet_trans R0 m0 R1 m1 R2 m2 : quiet R0 m0 R1 m1 -> quiet R1 m1 R2 m2 -> quiet R0 m0 R2 m2.
Proof.
  intros [_ _ C1 L1 E1 F1] [B2 Q2 C2 L2 E2 F2]. split; [done | done | congruence | | | by eapply framed_trans].
  - intros a Ha. rewrite L2, L1; [done | done|]. unfold live. by rewrite C1.
  - intros c e He. eapply kept_trans; [by eapply E1|]. apply (E2 c). unfold cache_items. by rewrite C1.
Qed.

Lemma cache_inv_quiet R m R' m' :
  cache_inv R m -> quiet R m R' m' -> cache_inv R' m' /\ forall c, view m' c = view m c.
Proof.
  intros Hi [Hb Hr Hc Hl Hk _].
  assert (forall c t, caches m !! c = Some (Some t) -> forall e, e ∈ items t -> kept R m R' m' e /\ R' !! e = Some (REntry c)) as Hkt.
  { intros c t Ht e He. destruct (table_items _ _ _ _ (inv_tables _ _ Hi _ _ Ht) _ He) as [HRe _].
    split; [apply (Hk c); unfold cache_items; by rewrite Ht|]. rewrite Hl; [done|]. right. exists c, t. auto. }
  split.
  - split; [done | done | | |].
    + intros c h Hh. rewrite Hc in Hh. rewrite Hl; [by eapply inv_caches | left; by eexists].
    + intros c t Ht. rewrite Hc in Ht. pose proof (inv_tables _ _ Hi _ _ Ht) as Hok.
      apply (table_ok_kept R m); [done | by apply Hkt | rewrite Hl; [apply Hok | right; exists c, t; auto] ..].
    + intros c t Ht. rewrite Hc in Ht. by eapply inv_nonempty.
  - intros c. unfold view, cache_items. rewrite Hc. destruct (caches m !! c) as [[t|]|] eqn:Ec; [|done..].
    f_equal. apply list_omap_ext, Forall2_same_length_lookup_2; [done|]. intros i e e' E E'. simplify_eq.
    eapply item_kept; [by eapply inv_tables | by eapply list_elem_of_lookup_2 | apply (Hkt _ _ Ec)].
    by eapply list_elem_of_lookup_2.
Qed.

(** ** Allocation, stores and frees around the caches *)

Lemma live_role R m a : cache_inv R m -> live m a -> is_Some (R !! a).
Proof.
  intros Hi [[h Hh]|(c & t & Hc & Ha)].
  - rewrite (inv_caches _ _ Hi _ _ Hh). by eexists.
  - pose proof (inv_tables _ _ Hi _ _ Hc) as Ht. destruct Ha as [->|[->|Ha]].
    + rewrite (table_tbl _ _ _ _ Ht). by eexists.
    + rewrite (table_bkts _ _ _ _ Ht). by eexists.
    + destruct (table_items _ _ _ _ Ht _ Ha) as [-> _]. by eexists.
Qed.

Section Steps.
Context `{KernelDlSym} `{HA : KernelAllocator} `{HL : !KernelAllocatorLaws HA}.

Lemma kmalloc_not_block m n : blocks_ok m -> kmalloc m n <> 0 -> 0 < n -> allocs m !! kmalloc m n = None.
Proof.
  intros Hb Hk Hn. destruct (allocs m !! kmalloc m n) as [k|] eqn:E; [|done]. exfalso.
  destruct (block_size _ Hb _ _ E). destruct (block_mapped _ Hb _ _ (kmalloc m n) E) as [Hm _]; [unfold in_block; lia|].
  apply (kmalloc_fresh_at m n _ Hk) in Hm. lia.
Qed.

Lemma blocks_ok_allocated m n :
  blocks_ok m -> kmalloc m n <> 0 -> 0 < n -> blocks_ok (allocated m (kmalloc m n) n).
Proof.
  intros Hb Hk Hn. pose proof (kmalloc_not_block m n Hb Hk Hn) as Hnb.
  assert (forall a k x, allocs m !! a = Some k -> in_block a k x -> ~ in_block (kmalloc m n) n x) as Hap.
  { intros a k x Ha Hx Hx'. destruct (block_mapped _ Hb _ _ _ Ha Hx) as [Hm _].
    by apply (kmalloc_fresh_at m n _ Hk) in Hm. }
  split; change (allocs (allocated m (kmalloc m n) n)) with (<[kmalloc m n := n]> (allocs m)).
  - intros a k x. rewrite lookup_insert_Some. intros [[<- <-]|[_ Ha]] Hx.
    + destruct (allocated_writable m n (x - kmalloc m n) Hk) as [Hm _]; [unfold in_block in Hx; lia|].
      replace (kmalloc m n + (x - kmalloc m n)) with x in Hm by lia. split; [exact Hm|].
      intros Ht. apply (kmalloc_data m n (x - kmalloc m n)); [done | unfold in_block in Hx; lia|].
      by replace (kmalloc m n + (x - kmalloc m n)) with x by lia.
    + destruct (block_mapped _ Hb _ _ _ Ha Hx) as [[b Hm] Ht]. split; [|done].
      exists b. by apply (lookup_allocated m n x b Hk ltac:(lia)).
  - intros a k b j x. rewrite !lookup_insert_Some. intros [[<- <-]|[_ Ha]] [[<- <-]|[_ Hb']] Hx Hx'; try done.
    + exfalso. exact (Hap _ _ _ Hb' Hx' Hx).
    + exfalso. exact (Hap _ _ _ Ha Hx Hx').
    + by eapply (block_apart _ Hb).
  - intros a k. rewrite lookup_insert_Some. intros [[<- <-]|[_ Ha]]; [lia | by apply (block_size _ Hb)].
Qed.

(** A new block, with the role it will have. *)
Lemma quiet_allocated R m n r :
  cache_inv R m -> kmalloc m n <> 0 -> 0 < n ->
  R !! kmalloc m n = None /\ quiet R m (<[kmalloc m n := r]> R) (allocated m (kmalloc m n) n).
Proof.
  intros Hi Hk Hn. pose proof (inv_blocks _ _ Hi) as Hb. pose proof (kmalloc_not_block m n Hb Hk Hn) as Hnb.
  assert (R !! kmalloc m n = None) as Hr.
  { destruct (R !! kmalloc m n) eqn:E; [|done]. destruct (inv_roles _ _ Hi _ _ E). congruence. }
  split; [done|]. set (p := kmalloc m n) in *.
  assert (forall a, is_Some (R !! a) -> p <> a) as Hne by (intros a [? ?]; congruence).
  assert (forall x b, mem m !! x = Some b -> mem (allocated m p n) !! x = Some b) as Hm
    by (intros; apply lookup_allocated; [done | lia | done]).
  split; [by apply blocks_ok_allocated | | done | | |].
  - intros a q. change (allocs (allocated m p n)) with (<[p := n]> (allocs m)).
    rewrite lookup_insert_Some, lookup_insert_is_Some. intros [[<- _]|[? Ha]]; [by left|].
    right. split; [done | by eapply inv_roles].
  - intros a Ha. rewrite lookup_insert_ne; [done|]. by eapply Hne, live_role.
  - intros c e He. split; [done|]. intros nm k Hnm Ha. rewrite lookup_insert_ne by (apply Hne; by eexists).
    split; [done|]. split; [|auto]. change (allocs (allocated m p n)) with (<[p := n]> (allocs m)).
    rewrite lookup_insert_ne; [done|]. congruence.
  - split; [done | done | |].
    + intros x b Hx Ho. split; [auto|]. intros (a & q & k & Ha & Hal & Hin).
      change (allocs (allocated m p n)) with (<[p := n]> (allocs m)) in Hal.
      apply lookup_insert_Some in Hal as [[<- <-]|[Hpa Hal]].
      * by apply (kmalloc_fresh_at m n x Hk ltac:(by eexists)).
      * rewrite lookup_insert_ne in Ha by done. apply Ho. by exists a, q, k.
    + intros a k Ha Hra. change (allocs (allocated m p n)) with (<[p := n]> (allocs m)).
      rewrite !lookup_insert_ne by congruence. done.
Qed.

(** A store inside a block that holds the name of no entry in use. *)
Lemma quiet_store R m a n r x l :
  cache_inv R m -> allocs m !! a = Some n -> R !! a = Some r -> idle m r ->
  a <= x -> x + Z.of_nat (length l) <= a + n ->
  quiet R m R (set_mem (mem_write (mem m) x l) m).
Proof.
  intros Hi Ha Hr Hid Hx Hl. pose proof (inv_blocks _ _ Hi) as [Hm Hap Hs].
  assert (forall y, is_Some (mem m !! y) -> is_Some (mem_write (mem m) x l !! y)) as Hdom.
  { intros y Hy. rewrite lookup_mem_write. case_match eqn:Q; [|done]. apply andb_prop in Q as [? ?].
    apply lookup_lt_is_Some. zbool; lia || done. }
  assert (forall y b, ~ in_block a n y -> mem m !! y = Some b -> mem_write (mem m) x l !! y = Some b) as Hout.
  { intros y b Hy Hb. rewrite lookup_mem_write. case_match eqn:Q; [|done]. exfalso.
    apply andb_prop in Q as [? ?]. apply Hy. unfold in_block. zbool; lia || done. }
  split; [| | done | done | |].
  - split; cbn [allocs set_mem text]; [|done|done]. intros b k y Hb Hy. destruct (Hm _ _ _ Hb Hy) as [Hy1 Hy2].
    split; [by apply Hdom | done].
  - intros b q Hb. exact (inv_roles _ _ Hi _ _ Hb).
  - intros c e He. split; [done|]. intros nm k Hnm Hk. split; [done|]. split; [done|].
    intros y b Hy. apply Hout. intros Hy'. pose proof (Hap _ _ _ _ _ Hk Ha Hy Hy'). subst nm.
    rewrite Hnm in Hr. injection Hr as <-. by apply (Hid e c).
  - split; [done | done | | done]. intros y b Hy Ho. split; [|exact Ho]. apply Hout; [|done].
    intros Hin. apply Ho. by exists a, r, n.
Qed.

Lemma quiet_put_entry R m e en :
  cache_inv R m -> (forall c, e ∉ cache_items m c) -> quiet R m R (set_entries (<[e := en]> (entries m)) m).
Proof.
  intros Hi He. split; [by apply (blocks_ok_eq m), Hi | by apply (inv_roles _ _ Hi) | done | done | | by split].
  intros c x Hx. split; [|done]. cbn [entries set_entries]. rewrite lookup_insert_ne; [done|]. intros ->. by apply (He c).
Qed.

(** The state after a [free]. *)
Definition freed (m : machine) (a n : Z) : machine :=
  set_allocs (delete a (allocs m)) (set_mem (mem_free (mem m) a (Z.to_nat n)) m).

Lemma lookup_freed m a n x : 0 <= n -> ~ in_block a n x -> mem (freed m a n) !! x = mem m !! x.
Proof.
  intros Hn Hx. unfold freed. cbn [mem set_allocs set_mem]. rewrite lookup_mem_free.
  case_match eqn:Q; [|done]. exfalso. apply andb_prop in Q as [? ?]. unfold in_block in Hx. zbool; lia || done.
Qed.

(** A free of a block that is no longer used. *)
Lemma quiet_freed R m a n r :
  cache_inv R m -> allocs m !! a = Some n -> R !! a = Some r -> ~ live m a -> idle m r ->
  quiet R m (delete a R) (freed m a n).
Proof.
  intros Hi Ha Hr Hnl Hid. pose proof (inv_blocks _ _ Hi) as [Hm Hap Hs]. destruct (Hs _ _ Ha) as [Hn _].
  assert (allocs (freed m a n) = delete a (allocs m)) as Eal by done.
  assert (forall b k x v, b <> a -> allocs m !! b = Some k -> in_block b k x -> mem m !! x = Some v ->
    mem (freed m a n) !! x = Some v) as Hkeep.
  { intros b k x v Hne Hb Hx Hv. rewrite lookup_freed; [done | lia|]. intros Hx'. apply Hne. by eapply Hap. }
  split; [| | done | | |].
  - split; rewrite ?Eal.
    + intros b k x [Hne Hb]%lookup_delete_Some Hx. rewrite lookup_freed; [by eapply Hm | lia|].
      intros Hx'. apply Hne. by eapply Hap.
    + intros b k c j x [_ Hb]%lookup_delete_Some [_ Hc]%lookup_delete_Some. by apply Hap.
    + intros b k [_ Hb]%lookup_delete_Some. by apply Hs.
  - intros b q [Hne Hb]%lookup_delete_Some. rewrite Eal, lookup_delete_ne by done. by eapply inv_roles.
  - intros b Hb. apply lookup_delete_ne. intros ->. done.
  - intros c e He. split; [done|]. intros nm k Hnm Hk.
    assert (a <> nm) as Hne. { intros ->. rewrite Hnm in Hr. injection Hr as <-. by apply (Hid e c). }
    rewrite Eal, !lookup_delete_ne by done. split; [done|]. split; [done|].
    intros x b Hx Hb. by eapply Hkeep.
  - split; [done | done | |].
    + intros x b Hx Ho. assert (~ in_block a n x) as Hx' by (intros Hin; apply Ho; by exists a, r, n).
      rewrite lookup_freed by (lia || done). split; [done|]. intros (d & q & k & [? Hd]%lookup_delete_Some & Hal & Hin).
      rewrite Eal, lookup_delete_ne in Hal by done. apply Ho. by exists d, q, k.
    + intros d k Hd Hrd. rewrite Eal. assert (a <> d) by congruence. by rewrite !lookup_delete_ne.
Qed.
End Steps.

(** ** Changing one cache *)

Lemma cache_inv_attach R m c h :
  cache_inv R m -> R !! c = Some RCache -> (forall t, h = Some t -> table_ok R m c t /\ items t <> []) ->
  cache_inv R (set_caches (<[c := h]> (caches m)) m).
Proof.
  intros Hi Hc Ht. split; [by apply (blocks_ok_eq m), Hi | by apply (inv_roles _ _ Hi) | | |]; cbn [caches set_caches].
  - intros c' h'. rewrite lookup_insert_Some. intros [[<- _]|[_ Hh]]; [done | by eapply inv_caches].
  - intros c' t'. rewrite lookup_insert_Some. intros [[<- ->]|[_ Hh]].
    + by destruct (Ht t' eq_refl) as [[] _]; split.
    + by destruct (inv_tables _ _ Hi _ _ Hh); split.
  - intros c' t'. rewrite lookup_insert_Some. intros [[<- ->]|[_ Hh]]; [by apply Ht | by eapply inv_nonempty].
Qed.

(** Adding a new key to a table. *)
Lemma table_ok_add R m c t e k v b :
  table_ok R m c t -> e ∉ items t -> R !! e = Some (REntry c) -> item_ok R m e k v ->
  (forall e' v', e' ∈ items t -> item m e' <> Some (k, v')) ->
  let i := Z.to_nat (HASH_TO_BKT (HASH_JEN k) (num_buckets t)) in
  buckets t !! i = Some b ->
  table_ok R m c (set_buckets (<[i := HASH_ADD_TO_BKT b e]> (buckets t))
                    (set_items (u32 (num_items t + 1)) (items t ++ [e]) t)).
Proof.
  intros [Hch Hnd Hct Htb Hbk Hit Hky] He Hr Hok Hnew i Hb.
  assert (i = bucket_of (entry_hashv m) (num_buckets t) e) as Ei
    by (unfold bucket_of; by rewrite (item_ok_hashv _ _ _ _ _ Hok)).
  assert (forall x k' v', x ∈ items t ++ [e] -> item_ok R m x k' v' -> k' = k -> x = e) as Hxe.
  { intros x k' v' [Hx|Hx%list_elem_of_singleton]%elem_of_app Hox ->; [|done].
    destruct (Hnew x v' Hx). by eapply item_ok_item. }
  split; cbn [set_buckets set_items items num_items tbl_at buckets_at]; [| | | done | done | |].
  - rewrite Ei. apply chains_ok_add; [done | done | by rewrite <- Ei].
  - apply NoDup_app. split; [done|]. split; [|apply NoDup_singleton]. by intros x Hx ->%list_elem_of_singleton.
  - rewrite Hct, u32_succ, length_app. cbn [length]. f_equal. lia.
  - intros x [Hx| ->%list_elem_of_singleton]%elem_of_app; [by apply Hit | by eauto].
  - intros x y k' w w' Hx Hy Ox Oy. apply elem_of_app in Hx as Hx', Hy as Hy'. rewrite list_elem_of_singleton in Hx', Hy'.
    destruct Hx' as [Hx'| ->].
    + destruct Hy' as [Hy'| ->]; [by eapply Hky|].
      apply (Hxe x k' w Hx Ox). pose proof (item_ok_item _ _ _ _ _ Hok). pose proof (item_ok_item _ _ _ _ _ Oy). congruence.
    + symmetry. apply (Hxe y k' w' Hy Oy). pose proof (item_ok_item _ _ _ _ _ Hok). pose proof (item_ok_item _ _ _ _ _ Ox). congruence.
Qed.

(** A table just made, before the first element is linked in. *)
Lemma table_ok_make R m c tbl bkts :
  R !! tbl = Some (RTable c) -> R !! bkts = Some (RBuckets c) ->
  table_ok R m c (set_items 0 [] (HASH_MAKE_TABLE tbl bkts 0)).
Proof.
  intros Ht Hb. split; [apply chains_ok_make | constructor | done | done | done | |]; cbn [set_items items].
  - by intros e ?%not_elem_of_nil.
  - by intros e e' k v v' ?%not_elem_of_nil.
Qed.

(** ** Runs *)

Section Runs.
Context `{KernelDlSym} `{HA : KernelAllocator} `{HL : !KernelAllocatorLaws HA} `{HR : !KernelRoom HA}.

(** What a request takes at most. *)
Definition cost (n : Z) : Z := 2 * n + 4096.

Definition ready (m : machine) : Prop := var ps4KernelMemoryType m <> NULL.

Lemma core_ready m m' : core m' = core m -> ready m -> ready m'.
Proof. intros E. unfold ready, var. by rewrite (f_equal vars E : vars m' = vars m). Qed.

Lemma core_text m m' : core m' = core m -> text m' = text m.
Proof. intros E. exact (f_equal text E). Qed.

(** A step that only adds: memory, blocks, roles. *)
Record grows (R : roles) (m : machine) (R' : roles) (m' : machine) (d : Z) : Prop := Grows {
  grows_mem : mem m ⊆ mem m';
  grows_allocs : allocs m ⊆ allocs m';
  grows_entries : entries m' = entries m;
  grows_roles : R ⊆ R';
  grows_quiet : quiet R m R' m';
  grows_room : kroom m - d <= kroom m'
}.

Lemma grows_trans R0 m0 R1 m1 R2 m2 d d' :
  grows R0 m0 R1 m1 d -> grows R1 m1 R2 m2 d' -> grows R0 m0 R2 m2 (d + d').
Proof.
  intros [A1 B1 C1 D1 E1 F1] [A2 B2 C2 D2 E2 F2].
  split; [by etrans | by etrans | congruence | by etrans | by eapply quiet_trans | lia].
Qed.

Lemma allocated_room m n : kmalloc m n <> 0 -> 0 < n -> kroom m - cost n <= kroom (allocated m (kmalloc m n) n).
Proof.
  intros Hk Hn. apply kroom_after; [done | done | done|]. intros x. unfold allocated. cbn [mem set_allocs set_mem].
  rewrite lookup_mem_write, repeat_length. case_match eqn:Q; [|by left]. intros _. right.
  apply andb_prop in Q as [? ?]. zbool; lia || done.
Qed.

Lemma written_room m x l : writable_range m x (length l) -> kroom m <= kroom (set_mem (mem_write (mem m) x l) m).
Proof.
  intros Hw. apply kroom_same; [done|]. intros y. cbn [mem set_mem]. rewrite lookup_mem_write. case_match eqn:Q; [|done].
  intros _. apply andb_prop in Q as [? ?]. rewrite writable_range_iff in Hw.
  destruct (Hw (Z.to_nat (y - x))) as [Hm _]; [zbool; lia || done|].
  replace (x + Z.of_nat (Z.to_nat (y - x))) with y in Hm by (zbool; lia || done). done.
Qed.

(** Allocation through the SDK, of a block that will have the role [r]. *)
Lemma allocate_data_grows R m n r :
  cache_inv R m -> ready m -> 0 < n -> cost n <= kroom m ->
  exists p m', ps4KernelMemoryAllocateData OPtr n m = Some ((PS4_OK, Some p), m') /\
    p <> 0 /\ R !! p = None /\ (forall y, is_Some (mem m !! y) -> ~ in_block p n y) /\
    allocs m' !! p = Some n /\
    grows R m (<[p := r]> R) m' (cost n).
Proof.
  intros Hi Hrd Hn Hc. assert (kmalloc m n <> 0) as Hk by (apply kroom_enough; [done | exact Hc]).
  destruct (quiet_allocated R m n r Hi Hk Hn) as [Hr Hq]. pose proof (kmalloc_not_block m n (inv_blocks _ _ Hi) Hk Hn) as Hnb.
  exists (kmalloc m n), (allocated m (kmalloc m n) n).
  split; [by apply allocate_data_run|]. split; [done|]. split; [done|]. split; [intros y; by apply kmalloc_fresh_at|].
  split; [unfold allocated; cbn [allocs set_allocs]; apply lookup_insert_eq|].
  split; [| | done | by apply insert_subseteq | done | by apply allocated_room].
  - apply map_subseteq_spec. intros x b Hx. apply lookup_allocated; [done | lia | done].
  - by apply insert_subseteq.
Qed.

Lemma block_writable m a n k x :
  blocks_ok m -> allocs m !! a = Some n -> a <= x -> x + Z.of_nat k <= a + n ->
  writable_range m x k.
Proof.
  intros Hb Ha Hx Hl. apply writable_range_iff. intros i Hi.
  destruct (block_mapped _ Hb _ _ (x + Z.of_nat i) Ha) as [Hm Ht]; [unfold in_block; lia|]. by split.
Qed.

Lemma zalloc_run R m n r :
  cache_inv R m -> ready m -> 0 < n -> cost n <= kroom m -> (forall e, r <> RName e) ->
  exists p m', uthash_zalloc n m = Some (p, m') /\ p <> 0 /\ R !! p = None /\ allocs m' !! p = Some n /\
    grows R m (<[p := r]> R) m' (cost n).
Proof.
  intros Hi Hrd Hn Hc Hnr.
  destruct (allocate_data_grows R m n r Hi Hrd Hn Hc) as (p & m1 & E & Hp & Hr & Hfresh & Ha & G).
  destruct (cache_inv_quiet _ _ _ _ Hi (grows_quiet _ _ _ _ _ G)) as [Hi1 _].
  set (z := repeat 0 (Z.to_nat n)). assert (Z.of_nat (length z) = n) as Hz by (unfold z; rewrite repeat_length; lia).
  assert (writable_range m1 p (length z)) as Hw by (apply (block_writable m1 p n); [apply Hi1 | done | lia | lia]).
  exists p, (set_mem (mem_write (mem m1) p z) m1). split; [|split; [done|split; [done|split; [done|]]]].
  - unfold uthash_zalloc, ps4KernelMemoryMallocData. erewrite bind_some by (by erewrite bind_some by exact E).
    change (default 0 (Some p)) with p. unfold memset. change (wrap 8 0) with 0.
    by erewrite bind_some by (by apply store_bytes_run).
  - destruct G as [G1 G2 G3 G4 G5 G6]. split; [| done | done | done | |].
    + apply map_subseteq_spec. intros x b Hx. cbn [mem set_mem].
      pose proof (lookup_weaken _ _ _ _ Hx G1) as Hx1. rewrite lookup_mem_write. case_match eqn:Q; [|done].
      exfalso. apply andb_prop in Q as [? ?].
      apply (Hfresh x ltac:(by eexists)). unfold in_block. zbool; lia || done.
    + eapply quiet_trans; [exact G5|]. apply (quiet_store _ m1 p n r); try done; try lia.
      * by rewrite lookup_insert_eq.
      * intros e c Hq. by destruct (Hnr e).
    + pose proof (written_room m1 p z Hw). lia.
Qed.
Lemma free_run m a n :
  ready m -> a <> 0 -> allocs m !! a = Some n -> ps4KernelMemoryFree a m = Some (PS4_OK, freed m a n).
Proof.
  intros Hrd Ha Hal. unfold ps4KernelMemoryFree. rewrite (proj2 (Z.eqb_neq a NULL)) by done.
  erewrite bind_some by (by apply memory_type_ready_run). unfold free, bind.
  by rewrite (proj2 (Z.eqb_neq a 0) Ha), Hal.
Qed.

Lemma freed_room m a n : kroom m <= kroom (freed m a n).
Proof.
  apply kroom_same; [done|]. intros x. unfold freed. cbn [mem set_allocs set_mem]. rewrite lookup_mem_free.
  case_match; [by intros [? ?] | done].
Qed.

Lemma framed_caches R m x : framed R m R (set_caches x m).
Proof. by split. Qed.

Lemma caches_room m x : kroom m <= kroom (set_caches x m).
Proof. by apply kroom_same. Qed.

Lemma entries_room m x : kroom m <= kroom (set_entries x m).
Proof. by apply kroom_same. Qed.

(** A table whose bucket array moved. *)
Lemma table_ok_moved R m c t t' :
  table_ok R m c t -> chains_ok (entry_hashv m) t' -> items t' = items t -> num_items t' = num_items t ->
  tbl_at t' = tbl_at t -> R !! buckets_at t' = Some (RBuckets c) -> table_ok R m c t'.
Proof.
  intros [Hch Hnd Hct Htb Hbk Hit Hky] Hch' Ei En Et Hb.
  split; rewrite ?Ei, ?En, ?Et; done.
Qed.

(** A block is unused when its role's one user has let go of it. *)
Definition let_go (m : machine) (a : Z) (r : role) : Prop :=
  match r with
  | RCache => caches m !! a = None
  | RTable c => forall t, caches m !! c = Some (Some t) -> tbl_at t <> a
  | RBuckets c => forall t, caches m !! c = Some (Some t) -> buckets_at t <> a
  | REntry c => a ∉ cache_items m c
  | RName e => True
  end.

Lemma not_live R m a r : cache_inv R m -> R !! a = Some r -> let_go m a r -> ~ live m a.
Proof.
  intros Hi Ha Hg [[h Hh]|(c' & t' & Hc' & Hl)].
  - rewrite (inv_caches _ _ Hi _ _ Hh) in Ha. injection Ha as <-. cbn in Hg. congruence.
  - pose proof (inv_tables _ _ Hi _ _ Hc') as Ht'. destruct Hl as [->|[->|Hl]].
    + rewrite (table_tbl _ _ _ _ Ht') in Ha. injection Ha as <-. by apply (Hg t').
    + rewrite (table_bkts _ _ _ _ Ht') in Ha. injection Ha as <-. by apply (Hg t').
    + destruct (table_items _ _ _ _ Ht' _ Hl) as [Hr _]. rewrite Ha in Hr. injection Hr as ->.
      apply Hg. unfold cache_items. by rewrite Hc'.
Qed.

Lemma view_attach m c t t0 :
  caches m !! c = Some (Some t0) -> items t = items t0 ->
  forall c', view (set_caches (<[c := Some t]> (caches m)) m) c' = view m c'.
Proof.
  intros Hc Ei c'. unfold view, cache_items. cbn [caches set_caches].
  destruct (decide (c = c')) as [<-|Hne]; [rewrite lookup_insert_eq, Hc; by rewrite Ei | by rewrite lookup_insert_ne].
Qed.

Lemma expand_buckets_run R m c t :
  cache_inv R m -> ready m -> caches m !! c = Some (Some t) ->
  Z.of_nat (length (items t)) < 2 ^ 32 -> cost (2 * num_buckets t * sizeof_UT_hash_bucket) <= kroom m ->
  exists R' m', (let! t' := expand_buckets t in put_handle c (Some t')) m = Some (tt, m') /\
    cache_inv R' m' /\ (forall c', view m' c' = view m c') /\ framed R m R' m' /\ alive m m' /\
    kroom m - cost (2 * num_buckets t * sizeof_UT_hash_bucket) <= kroom m'.
Proof.
  intros Hi Hrd Hc Hlen Hroom. pose proof (inv_tables _ _ Hi _ _ Hc) as Ht.
  pose proof (chains_log _ _ (table_chains _ _ _ _ Ht)) as Hlg. pose proof (chains_num _ _ (table_chains _ _ _ _ Ht)) as Hnum.
  assert (0 < 2 ^ log2_num_buckets t) by (apply Z.pow_pos_nonneg; lia).
  pose proof (kroom_bound m) as Hmax. unfold sizeof_UT_hash_bucket in *. unfold cost in Hroom.
  assert (log2_num_buckets t < 31) as Hl31.
  { apply (Z.pow_lt_mono_r_iff 2); lia. }
  assert (0 < num_items t < 2 ^ 32) as Hni.
  { rewrite (table_count _ _ _ _ Ht). unfold u32. rewrite wrap_small by lia.
    pose proof (inv_nonempty _ _ Hi _ _ Hc). destruct (items t); [done|]. cbn [length] in *. lia. }
  destruct (zalloc_run R m (2 * num_buckets t * 16) (RBuckets c) Hi Hrd) as (p & m1 & E1 & Hp & Hpr & Hpa & G); [lia | exact Hroom | done |].
  pose proof (grows_quiet _ _ _ _ _ G) as Q. destruct (cache_inv_quiet _ _ _ _ Hi Q) as [Hi1 Hv1].
  assert (caches m1 !! c = Some (Some t)) as Hc1 by (rewrite (quiet_caches _ _ _ _ Q); done).
  pose proof (inv_tables _ _ Hi1 _ _ Hc1) as Ht1.
  destruct (expand_run (entry_hashv m1) p t (table_chains _ _ _ _ Ht1) Hl31 Hni) as (t' & Ex & Hch & Ei & En & Etb & Ebk & _).
  set (m2 := set_caches (<[c := Some t']> (caches m1)) m1). set (old := buckets_at t) in *.
  set (R1 := <[p := RBuckets c]> R) in *.
  assert (R1 !! old = Some (RBuckets c)) as Hold by apply Ht1.
  assert (cache_inv R1 m2) as Hi2.
  { apply cache_inv_attach; [done | by eapply inv_caches|]. intros ? [= <-]. split; [|rewrite Ei; by eapply inv_nonempty].
    eapply table_ok_moved; [exact Ht1 | done | done | done | done|]. rewrite Ebk. apply lookup_insert_eq. }
  destruct (inv_roles _ _ Hi1 _ _ Hold) as [n Hn].
  assert (old <> p) as Hop.
  { intros E. rewrite <- E in Hpr. pose proof (table_bkts _ _ _ _ Ht) as Hb. fold old in Hb. congruence. }
  assert (quiet R1 m2 (delete old R1) (freed m2 old n)) as Q2.
  { apply (quiet_freed _ _ _ _ (RBuckets c)); try done. apply (not_live R1 m2 old (RBuckets c)); [done | done|].
    intros t2. unfold m2. cbn [caches set_caches]. rewrite lookup_insert_eq. intros [= <-]. congruence. }
  destruct (cache_inv_quiet _ _ _ _ Hi2 Q2) as [Hi3 Hv3].
  exists (delete old R1), (freed m2 old n). split; [|split; [done|split; [|split; [|split]]]].
  - unfold expand_buckets. rewrite bind_some with (a := t') (s' := freed m1 old n); [reflexivity|].
    unfold sizeof_UT_hash_bucket. erewrite bind_some by exact E1. erewrite bind_some by reflexivity. rewrite Ex.
    erewrite bind_some; [reflexivity|]. apply free_run; [|by apply (block_size _ (inv_blocks _ _ Hi1) _ _ Hn) | done].
    apply (core_ready m); [apply Q | done].
  - intros c'. rewrite Hv3. unfold m2. by rewrite (view_attach m1 c t' t).
  - eapply framed_trans; [apply Q|]. eapply framed_trans; [apply framed_caches | apply Q2].
  - eapply alive_trans; [by eapply quiet_alive|]. eapply alive_trans; [apply alive_insert | by eapply quiet_alive].
  - pose proof (grows_room _ _ _ _ _ G). pose proof (freed_room m2 old n). pose proof (caches_room m1 (<[c := Some t']> (caches m1))).
    unfold m2 in *. lia.
Qed.
Lemma quiet_refl R m : cache_inv R m -> quiet R m R m.
Proof. intros Hi. split; [apply Hi | apply (inv_roles _ _ Hi) | done | done | done | done]. Qed.

Lemma kept_grows R m R' m' d e : grows R m R' m' d -> kept R m R' m' e.
Proof.
  intros [G1 G2 G3 G4 _ _]. split; [by rewrite G3|]. intros nm n Hr Ha.
  split; [by eapply lookup_weaken|]. split; [by eapply lookup_weaken|]. intros x b _ Hx. by eapply lookup_weaken.
Qed.

Definition handle_buckets (h : option UT_hash_table) : Z :=
  match h with Some t => num_buckets t | None => HASH_INITIAL_NUM_BUCKETS end.

(** The table an element is added to: the cache's, or a new one. *)
Lemma table_for_add R m c h e :
  cache_inv R m -> ready m -> caches m !! c = Some h -> cost 64 + cost 512 <= kroom m ->
  exists t t0 R1 m1,
    (match h with
     | None => make_table e
     | Some t => ret (set_items (num_items t) (items t ++ [e]) t)
     end) m = Some (t, m1) /\
    set_items (u32 (num_items t + 1)) (items t) t = set_items (u32 (num_items t0 + 1)) (items t0 ++ [e]) t0 /\
    grows R m R1 m1 (cost 64 + cost 512) /\ table_ok R1 m1 c t0 /\ items t0 = cache_items m c /\
    num_buckets t0 = handle_buckets h.
Proof.
  intros Hi Hrd Hc Hroom. unfold cost in Hroom. destruct h as [t|].
  - eexists _, t, R, m. split; [reflexivity|]. split; [done|]. split; [|split; [by eapply inv_tables | by unfold cache_items; rewrite Hc]].
    split; try done; [by apply quiet_refl | unfold cost; lia].
  - destruct (zalloc_run R m 64 (RTable c) Hi Hrd) as (p & m1 & E1 & Hp & Hpr & Hpa & G1); [lia | unfold cost; lia | done|].
    destruct (cache_inv_quiet _ _ _ _ Hi (grows_quiet _ _ _ _ _ G1)) as [Hi1 _].
    pose proof (grows_room _ _ _ _ _ G1) as Hr1. unfold cost in Hr1.
    destruct (zalloc_run _ m1 512 (RBuckets c) Hi1) as (q & m2 & E2 & Hq & Hqr & Hqa & G2); [|lia | unfold cost; lia | done|].
    { apply (core_ready m); [apply G1 | done]. }
    exists (HASH_MAKE_TABLE p q e), (set_items 0 [] (HASH_MAKE_TABLE p q 0)), (<[q := RBuckets c]> (<[p := RTable c]> R)), m2.
    assert (p <> q) as Hpq by (intros ->; rewrite lookup_insert_eq in Hqr; done).
    split; [|split; [done | split; [by eapply grows_trans | split; [|split; [unfold cache_items; by rewrite Hc | done]]]]].
    + unfold make_table. erewrite bind_some by exact E1. by erewrite bind_some by exact E2.
    + apply table_ok_make; [rewrite lookup_insert_ne by done|]; apply lookup_insert_eq.
Qed.

(** The map after an element with a new key was linked in. *)
Lemma view_add R m R' m' c e k v :
  cache_inv R m -> cache_inv R' m' -> cache_items m' c = cache_items m c ++ [e] ->
  (forall x, x ∈ cache_items m c -> item m' x = item m x) -> item m' e = Some (k, v) ->
  (forall x w, x ∈ cache_items m c -> item m x <> Some (k, w)) ->
  view m' c = <[k := v]> (view m c).
Proof.
  intros Hi Hi' El Hold He Hnew. apply map_eq. intros k'. apply option_eq. intros v'.
  rewrite lookup_insert_Some, (view_spec R' m' c k' v' Hi'), (view_spec R m c k' v' Hi), El. split.
  - intros (x & [Hx| ->%list_elem_of_singleton]%elem_of_app & E).
    + rewrite (Hold x Hx) in E. right. split; [|by exists x]. intros <-. by apply (Hnew x v').
    + left. by simplify_eq.
  - intros [[<- <-]|[_ (x & Hx & E)]].
    + exists e. split; [|done]. apply elem_of_app. right. by apply list_elem_of_singleton.
    + exists x. split; [apply elem_of_app; by left|]. by rewrite Hold.
Qed.

Definition add_room (h : option UT_hash_table) : Z :=
  cost 64 + cost 512 + cost (2 * handle_buckets h * sizeof_UT_hash_bucket).
(** An entry ready to be linked into [c]: allocated, named, not yet an item. *)
Record entry_new (R : roles) (m : machine) (c e : Z) (key : list Z) (val : Z) (nm : Z) : Prop := EntryNew {
  new_role : R !! e = Some (REntry c);
  new_apart c' : e ∉ cache_items m c';
  new_entry : exists h0, entries m !! e = Some (CacheEntry nm val h0);
  new_name : R !! nm = Some (RName e);
  new_block : exists n, allocs m !! nm = Some n /\ Z.of_nat (length key) <= n;
  new_key : mem_read (mem m) nm (length key) = Some key
}.

Lemma entry_new_grows R m R' m' d c e key val nm :
  grows R m R' m' d -> entry_new R m c e key val nm -> entry_new R' m' c e key val nm.
Proof.
  intros G [H1 H2 H3 H4 (n & H5 & H5') H6]. pose proof G as [G1 G2 G3 G4 [_ _ G5 _ _ _] _].
  split; [by eapply lookup_weaken | unfold cache_items; by rewrite G5 | by rewrite G3 | by eapply lookup_weaken | |].
  - exists n. split; [by eapply lookup_weaken | done].
  - apply (mem_read_keeps _ _ _ _ _ H6). intros x b _ Hx. by eapply lookup_weaken.
Qed.

(** Linking it in: the entry's handle is filled in, and the table with the
    entry in its bucket becomes the cache's. *)
Lemma link_entry R m c t e key val nm b :
  cache_inv R m -> table_ok R m c t -> items t = cache_items m c -> R !! c = Some RCache ->
  entry_new R m c e key val nm -> (forall x w, x ∈ cache_items m c -> item m x <> Some (key, w)) ->
  let i := Z.to_nat (HASH_TO_BKT (HASH_JEN key) (num_buckets t)) in
  buckets t !! i = Some b ->
  let m2 := set_entries (<[e := CacheEntry nm val (Handle nm (Z.of_nat (length key)) (HASH_JEN key))]> (entries m)) m in
  let t1 := set_buckets (<[i := HASH_ADD_TO_BKT b e]> (buckets t)) (set_items (u32 (num_items t + 1)) (items t ++ [e]) t) in
  let m3 := set_caches (<[c := Some t1]> (caches m2)) m2 in
  cache_inv R m3 /\ view m3 c = <[key := val]> (view m c) /\ (forall c', c' <> c -> view m3 c' = view m c') /\
  framed R m R m3 /\ alive m m3 /\ kroom m <= kroom m3.
Proof.
  intros Hi Ht Eit Hsome Hnew Hkey i Hb m2 t1 m3. destruct Hnew as [He Hap (h0 & Hent) Hnm (n & Hal & Hn) Hrd].
  pose proof (quiet_put_entry R m e (CacheEntry nm val (Handle nm (Z.of_nat (length key)) (HASH_JEN key))) Hi Hap) as Q.
  fold m2 in Q. destruct (cache_inv_quiet _ _ _ _ Hi Q) as [Hi2 Hv2].
  assert (item_ok R m2 e key val) as Hok.
  { exists nm, n. unfold m2 at 1. cbn [entries set_entries]. rewrite lookup_insert_eq. done. }
  assert (forall x, x ∈ items t -> kept R m R m2 x) as Hkx by (intros x Hx; apply (quiet_entries _ _ _ _ Q c); by rewrite <- Eit).
  assert (table_ok R m2 c t) as Ht2.
  { apply (table_ok_kept R m); [done | | apply Ht | apply Ht]. intros x Hx. split; [by apply Hkx | by apply Ht]. }
  assert (forall x, x ∈ items t -> item m2 x = item m x) as Hitem by (intros x Hx; by eapply item_kept, Hkx).
  assert (cache_inv R m3) as Hi3.
  { apply cache_inv_attach; [done | exact Hsome|]. intros ? [= <-]. split; [|by destruct (items t)].
    apply (table_ok_add R m2 c t e key val b); try done; [rewrite Eit; apply Hap|].
    intros x w Hx. rewrite Hitem by done. apply Hkey. by rewrite <- Eit. }
  split; [done|]. split; [|split; [|split; [|split]]].
  - apply (view_add R m R m3 c e key val); try done.
    + unfold cache_items at 1, m3. cbn [caches set_caches]. rewrite lookup_insert_eq. by rewrite <- Eit.
    + intros x Hx. apply Hitem. by rewrite Eit.
    + exact (item_ok_item _ _ _ _ _ Hok).
  - intros c' Hne. rewrite <- (Hv2 c'). unfold view, cache_items, m3. cbn [caches set_caches]. by rewrite lookup_insert_ne.
  - by split.
  - apply (alive_insert m2).
  - by apply kroom_same.
Qed.

Lemma add_run R m c h e key val nm :
  cache_inv R m -> ready m -> caches m !! c = Some h -> entry_new R m c e key val nm ->
  (forall x w, x ∈ cache_items m c -> item m x <> Some (key, w)) ->
  Z.of_nat (length key) < 2 ^ 32 -> Z.of_nat (length (cache_items m c)) + 1 < 2 ^ 32 -> add_room h <= kroom m ->
  exists R' m', HASH_ADD_KEYPTR c nm (length key) e m = Some (tt, m') /\
    cache_inv R' m' /\ view m' c = <[key := val]> (view m c) /\ (forall c', c' <> c -> view m' c' = view m c') /\
    framed R m R' m' /\ alive m m' /\ kroom m - add_room h <= kroom m'.
Proof.
  intros Hi Hrd Hc Hnew Hkey Hkl Hil Hroom. unfold add_room, sizeof_UT_hash_bucket in Hroom.
  assert (0 <= cost (2 * handle_buckets h * 16)) as Hnn.
  { unfold cost, handle_buckets. destruct h as [t|]; [|done].
    destruct (table_chains _ _ _ _ (inv_tables _ _ Hi _ _ Hc)) as [? Hn Hl _]. rewrite <- Hl. lia. }
  destruct (table_for_add R m c h e Hi Hrd Hc ltac:(lia)) as (t & t0 & R1 & m1 & E1 & Et & G & Ht0 & Eit & Enb).
  pose proof (grows_quiet _ _ _ _ _ G) as Q. destruct (cache_inv_quiet _ _ _ _ Hi Q) as [Hi1 Hv1].
  assert (cache_items m1 c = cache_items m c) as Ei1 by (unfold cache_items; by rewrite (quiet_caches _ _ _ _ Q)).
  pose proof (entry_new_grows _ _ _ _ _ _ _ _ _ _ G Hnew) as Hnew1.
  destruct (bucket_at _ t0 (HASH_JEN key) (table_chains _ _ _ _ Ht0)) as (b & Hb & _).
  assert (forall x w, x ∈ cache_items m1 c -> item m1 x <> Some (key, w)) as Hkey1.
  { intros x w Hx Hw. rewrite Ei1, <- Eit in Hx. pose proof (Hkey x w ltac:(by rewrite <- Eit)) as Hno. apply Hno.
    rewrite Eit in Hx. unfold cache_items in Hx. rewrite Hc in Hx. destruct h as [t'|]; [|by apply not_elem_of_nil in Hx].
    rewrite <- Hw. symmetry. eapply item_kept; [by eapply inv_tables | done | by eapply kept_grows]. }
  pose proof (link_entry R1 m1 c t0 e key val nm b Hi1 Ht0 ltac:(congruence)
    (lookup_weaken _ _ _ _ (inv_caches _ _ Hi _ _ Hc) (grows_roles _ _ _ _ _ G)) Hnew1 Hkey1 Hb) as Hlink. cbv zeta in Hlink.
  set (i := Z.to_nat _) in *. set (t1 := set_buckets _ _) in Hlink.
  match type of Hlink with cache_inv _ ?x /\ _ => set (m3 := x) in * end.
  destruct Hlink as (Hi3 & Hv3 & Hv3' & F3 & A3 & Hr3). pose proof (grows_room _ _ _ _ _ G) as Hr1.
  assert (HASH_ADD_KEYPTR c nm (length key) e m =
    (if must_expand (HASH_ADD_TO_BKT b e) t1 then let! t := expand_buckets t1 in put_handle c (Some t) else ret tt) m3) as E.
  { destruct Hnew1 as [_ _ (h0 & Hent) _ _ Hread].
    unfold HASH_ADD_KEYPTR. erewrite bind_some by (unfold get_handle; by rewrite Hc).
    erewrite bind_some by exact E1. rewrite Et. erewrite bind_some by (by apply load_bytes_run).
    erewrite bind_some by (unfold get_entry; by rewrite Hent). erewrite bind_some by reflexivity.
    cbn [set_items buckets num_buckets name value]. fold i. rewrite Hb.
    replace (u32 (Z.of_nat (length key))) with (Z.of_nat (length key)) by (symmetry; apply wrap_small; lia).
    by erewrite bind_some by reflexivity. }
  assert (framed R m R1 m3) as F by (eapply framed_trans; [apply Q | exact F3]).
  assert (alive m m3) as A by (eapply alive_trans; [by eapply quiet_alive | exact A3]).
  rewrite E. destruct (must_expand _ _).
  - destruct (expand_buckets_run R1 m3 c t1 Hi3) as (R' & m' & -> & Hi' & Hv' & F' & A' & Hr').
    + apply (core_ready m); [apply F | done].
    + unfold m3. cbn [caches set_caches]. apply lookup_insert_eq.
    + unfold t1. cbn [set_buckets set_items items]. rewrite length_app, Eit. cbn [length]. lia.
    + unfold t1, sizeof_UT_hash_bucket. cbn [set_buckets set_items num_buckets]. rewrite Enb. lia.
    + unfold t1, sizeof_UT_hash_bucket in Hr'. cbn [set_buckets set_items num_buckets] in Hr'. rewrite Enb in Hr'.
      exists R', m'. split; [done|]. split; [done|]. split; [by rewrite Hv', Hv3, Hv1|].
      split; [intros c' Hne; by rewrite Hv', Hv3', Hv1|]. split; [by eapply framed_trans|]. split; [by eapply alive_trans|].
      unfold add_room, sizeof_UT_hash_bucket. lia.
  - exists R1, m3. split; [done|]. split; [done|]. split; [by rewrite Hv3, Hv1|].
    split; [intros c' Hne; by rewrite Hv3', Hv1|]. split; [done|]. split; [done|]. unfold add_room, sizeof_UT_hash_bucket. lia.
Qed.
(** ** Overwriting a value *)

Lemma item_ok_other R m e en x k v :
  x <> e -> item_ok R (set_entries (<[e := en]> (entries m)) m) x k v <-> item_ok R m x k v.
Proof.
  intros Hx. unfold item_ok. cbn [entries set_entries allocs mem]. by rewrite lookup_insert_ne.
Qed.

Lemma set_value R m c t e nm hh0 key v0 val :
  cache_inv R m -> caches m !! c = Some (Some t) -> e ∈ items t -> item_ok R m e key v0 ->
  entries m !! e = Some (CacheEntry nm v0 hh0) ->
  let m' := set_entries (<[e := CacheEntry nm val hh0]> (entries m)) m in
  cache_inv R m' /\ view m' c = <[key := val]> (view m c) /\ (forall c', c' <> c -> view m' c' = view m c').
Proof.
  intros Hi Hc He Hok Hent m'. pose proof (inv_tables _ _ Hi _ _ Hc) as Ht.
  assert (item_ok R m' e key val) as Hok'.
  { destruct Hok as (nm' & n & E & Hr). rewrite Hent in E. injection E as -> ->. exists nm', n.
    unfold m'. cbn [entries set_entries allocs mem]. by rewrite lookup_insert_eq. }
  assert (forall c' t' x, caches m !! c' = Some (Some t') -> x ∈ items t' -> c' <> c -> kept R m R m' x) as Hk.
  { intros c' t' x Hc' Hx Hne. split; [|done]. unfold m'. cbn [entries set_entries]. apply lookup_insert_ne. intros E. rewrite <- E in Hx.
    destruct (table_items _ _ _ _ (inv_tables _ _ Hi _ _ Hc') _ Hx) as [Hr _].
    destruct (table_items _ _ _ _ Ht _ He) as [Hr' _]. congruence. }
  assert (table_ok R m' c t) as Ht'.
  { destruct Ht as [Hch Hnd Hct Htb Hbk Hit Hky]. split; try done.
    - apply (chains_ok_ext (entry_hashv m)); [|done]. intros x _. unfold entry_hashv, m'. cbn [entries set_entries].
      destruct (decide (x = e)) as [->|]; [by rewrite lookup_insert_eq, Hent | by rewrite lookup_insert_ne].
    - intros x Hx. destruct (Hit x Hx) as (Hr & k & v & Hox). split; [done|].
      destruct (decide (x = e)) as [->|Hne]; [by exists key, val | exists k, v; by apply item_ok_other].
    - assert (forall x k v, item_ok R m' x k v -> exists w, item_ok R m x k w) as Hback.
      { intros x k v Hox. destruct (decide (x = e)) as [->|Hne]; [|exists v; by eapply item_ok_other].
        pose proof (item_ok_item _ _ _ _ _ Hok'). pose proof (item_ok_item _ _ _ _ _ Hox). exists v0. congruence. }
      intros x y k v w Hx Hy [v1 Ox]%Hback [w1 Oy]%Hback. by eapply Hky. }
  assert (cache_inv R m') as Hi'.
  { split; [by apply (blocks_ok_eq m), Hi | apply (inv_roles _ _ Hi) | apply (inv_caches _ _ Hi) | | apply (inv_nonempty _ _ Hi)].
    intros c' t' Hc'. change (caches m !! c' = Some (Some t')) in Hc'.
    destruct (decide (c' = c)) as [->|Hne]; [by replace t' with t by congruence|].
    pose proof (inv_tables _ _ Hi _ _ Hc') as Hok2. apply (table_ok_kept R m); [done | | apply Hok2 | apply Hok2].
    intros x Hx. split; [by eapply Hk | by apply Hok2]. }
  assert (forall x, x <> e -> item m' x = item m x) as Hother
    by (intros x Hx; unfold item, m'; cbn [entries set_entries mem]; by rewrite lookup_insert_ne).
  split; [done|]. split.
  - apply map_eq. intros k. apply option_eq. intros v.
    rewrite lookup_insert_Some, (view_spec R m' c k v Hi'), (view_spec R m c k v Hi).
    change (cache_items m' c) with (cache_items m c). unfold cache_items. rewrite Hc. split.
    + intros (x & Hx & E). destruct (decide (x = e)) as [->|Hne].
      * rewrite (item_ok_item _ _ _ _ _ Hok') in E. left. by simplify_eq.
      * rewrite Hother in E by done. right. split; [|by exists x]. intros <-. apply Hne.
        destruct (table_items _ _ _ _ Ht _ Hx) as (_ & k1 & v1 & Hx1). rewrite (item_ok_item _ _ _ _ _ Hx1) in E. simplify_eq.
        by eapply (table_keys _ _ _ _ Ht).
    + intros [[<- <-]|[Hne (x & Hx & E)]]; [exists e; split; [done | by eapply item_ok_item]|].
      exists x. split; [done|]. rewrite Hother; [done|]. intros ->. rewrite (item_ok_item _ _ _ _ _ Hok) in E. congruence.
  - intros c' Hne. unfold view. change (cache_items m' c') with (cache_items m c'). f_equal.
    unfold cache_items. destruct (caches m !! c') as [[t'|]|] eqn:Ec'; [|done..].
    apply list_omap_ext, Forall2_same_length_lookup_2; [done|]. intros i x y E E'. simplify_eq.
    apply list_elem_of_lookup_2 in E. eapply item_kept; [by eapply inv_tables | done | by eapply Hk].
Qed.
(** ** Setting a new key *)

Lemma strnlen_le l n : (strnlen l n <= length l)%nat /\ (strnlen l n <= n)%nat.
Proof.
  revert l. induction n as [|n IH]; intros [|b l]; cbn [strnlen length]; try lia.
  destruct (IH l). destruct (b =? 0); lia.
Qed.

Lemma length_name_key s : length (name_key s) = strnlen (c_string s) PS4_LIMIT_STRING_LENGTH_MAXIMUM.
Proof. unfold name_key. rewrite length_take. destruct (strnlen_le (c_string s) PS4_LIMIT_STRING_LENGTH_MAXIMUM). lia. Qed.

(** The copy of the name that is made: the key and one more byte. *)
Lemma name_copy s :
  let len := strnlen (c_string s) PS4_LIMIT_STRING_LENGTH_MAXIMUM in
  let l := take (len + 1) (c_string s ++ [0]) in
  length l = (len + 1)%nat /\ take len l = name_key s.
Proof.
  intros len l. destruct (strnlen_le (c_string s) PS4_LIMIT_STRING_LENGTH_MAXIMUM) as [Hl _]. fold len in Hl.
  split; unfold l.
  - rewrite length_take, length_app. cbn [length]. lia.
  - rewrite take_take. replace (len `min` (len + 1))%nat with len by lia. unfold name_key. fold len. by rewrite take_app_le.
Qed.

Definition set_room (h : option UT_hash_table) : Z := cost 72 + cost 4097 + add_room h.

(** The entry a [Set] makes before it is linked in. *)
Lemma make_entry_run R m c h s val :
  cache_inv R m -> ready m -> caches m !! c = Some h -> cost 72 + cost 4097 <= kroom m ->
  let len := strnlen (c_string s) PS4_LIMIT_STRING_LENGTH_MAXIMUM in
  exists e nm m1 m2 R' m',
    ps4KernelMemoryAllocateData OPtr sizeof_Ps4KernelCacheEntry m = Some ((PS4_OK, Some e), m1) /\ e <> 0 /\
    ps4KernelMemoryAllocateData OPtr (Z.of_nat len + 1) m1 = Some ((PS4_OK, Some nm), m2) /\
    (do! store_bytes nm (take (len + 1) (c_string s ++ [0])) in
     put_entry e (CacheEntry nm val (Handle 0 0 0))) m2 = Some (tt, m') /\
    quiet R m R' m' /\ entry_new R' m' c e (name_key s) val nm /\ kroom m - (cost 72 + cost 4097) <= kroom m'.
Proof.
  intros Hi Hrd Hc Hroom len. assert (len <= Z.to_nat 4096)%nat as Hlen by apply strnlen_le.
  change sizeof_Ps4KernelCacheEntry with 72. unfold cost in Hroom.
  destruct (allocate_data_grows R m 72 (REntry c) Hi Hrd) as (e & m1 & E1 & He & Hre & _ & Hae & G1); [lia | unfold cost; lia|].
  destruct (cache_inv_quiet _ _ _ _ Hi (grows_quiet _ _ _ _ _ G1)) as [Hi1 _]. pose proof (grows_room _ _ _ _ _ G1) as Hr1.
  assert (ready m1) as Hrd1 by (apply (core_ready m); [apply G1 | done]). unfold cost in Hr1.
  destruct (allocate_data_grows _ m1 (Z.of_nat len + 1) (RName e) Hi1 Hrd1) as (nm & m2 & E2 & Hnm & Hrn & _ & Han & G2); [lia | unfold cost; lia|].
  destruct (cache_inv_quiet _ _ _ _ Hi1 (grows_quiet _ _ _ _ _ G2)) as [Hi2 _]. pose proof (grows_room _ _ _ _ _ G2) as Hr2.
  set (R2 := <[nm := RName e]> (<[e := REntry c]> R)) in *.
  assert (forall c', e ∉ cache_items m c') as Hap.
  { intros c' Hin. unfold cache_items in Hin. destruct (caches m !! c') as [[t|]|] eqn:Ec; [|by apply not_elem_of_nil in Hin..].
    destruct (table_items _ _ _ _ (inv_tables _ _ Hi _ _ Ec) _ Hin). congruence. }
  assert (caches m2 = caches m) as Ec2 by (rewrite (quiet_caches _ _ _ _ (grows_quiet _ _ _ _ _ G2)); apply G1).
  destruct (name_copy s) as [Hl Htk]. fold len in Hl, Htk. set (l := take _ _) in *.
  assert (quiet R2 m2 R2 (set_mem (mem_write (mem m2) nm l) m2)) as Q3.
  { apply (quiet_store _ _ nm (Z.of_nat len + 1) (RName e)); [done | done | apply lookup_insert_eq | | lia | lia].
    intros x c' [= ->]. unfold cache_items. rewrite Ec2. apply Hap. }
  set (m3 := set_mem _ m2) in *. destruct (cache_inv_quiet _ _ _ _ Hi2 Q3) as [Hi3 _].
  assert (forall c', e ∉ cache_items m3 c') as Hap3 by (intros c'; unfold cache_items, m3; cbn [caches set_mem]; rewrite Ec2; apply Hap).
  pose proof (quiet_put_entry R2 m3 e (CacheEntry nm val (Handle 0 0 0)) Hi3 Hap3) as Q4.
  assert (writable_range m2 nm (length l)) as Hw by (apply (block_writable m2 nm (Z.of_nat len + 1)); [apply Hi2 | done | lia | lia]).
  exists e, nm, m1, m2, R2, (set_entries (<[e := CacheEntry nm val (Handle 0 0 0)]> (entries m3)) m3).
  split; [done|]. split; [done|]. split; [done|]. split; [|split; [|split]].
  - by erewrite bind_some by (by apply store_bytes_run).
  - eapply quiet_trans; [apply G1|]. eapply quiet_trans; [apply G2|]. by eapply quiet_trans.
  - split.
    + unfold R2. rewrite lookup_insert_ne; [apply lookup_insert_eq|]. intros ->. rewrite lookup_insert_eq in Hrn. done.
    + exact Hap3.
    + exists (Handle 0 0 0). cbn [entries set_entries]. apply lookup_insert_eq.
    + apply lookup_insert_eq.
    + exists (Z.of_nat len + 1). split; [exact Han|]. rewrite length_name_key. fold len. lia.
    + cbn [mem set_entries]. rewrite length_name_key, <- Htk. fold len.
      pose proof (mem_read_sub _ nm _ _ 0 len (mem_read_write_same (mem m2) nm l)) as Hs. rewrite Z.add_0_r, drop_0 in Hs.
      apply Hs. lia.
  - pose proof (written_room m2 nm l Hw). pose proof (entries_room m3 (<[e := CacheEntry nm val (Handle 0 0 0)]> (entries m3))).
    fold m3 in H0. unfold cost in *. lia.
Qed.
(** ** The operations on the map *)

Lemma cache_nonzero R m c h : cache_inv R m -> caches m !! c = Some h -> c <> 0.
Proof.
  intros Hi Hc. destruct (inv_roles _ _ Hi _ _ (inv_caches _ _ Hi _ _ Hc)) as [n Hn].
  by apply (block_size _ (inv_blocks _ _ Hi) _ _ Hn).
Qed.

(** What a lookup finds is what the map has. *)
Lemma found_view R m c key r :
  cache_inv R m -> found_in R m (cache_items m c) key r ->
  (r = NULL /\ view m c !! key = None) \/
  (r <> NULL /\ exists v, view m c !! key = Some v /\ item_ok R m r key v /\
     exists t, caches m !! c = Some (Some t) /\ r ∈ items t).
Proof.
  intros Hi [[-> Hno]|[Hin [v Hok]]]; [left|right].
  - split; [done|]. destruct (view m c !! key) as [v|] eqn:E; [|done].
    apply (view_spec R) in E as (e & He & E); [|done]. by destruct (Hno e v He).
  - assert (view m c !! key = Some v) as Hv.
    { apply (view_spec R); [done|]. exists r. split; [done | by eapply item_ok_item]. }
    unfold cache_items in Hin. destruct (caches m !! c) as [[t|]|] eqn:Ec; [|by apply not_elem_of_nil in Hin..].
    split; [eapply entry_nonzero; [done | by eapply inv_tables | done]|]. exists v. eauto.
Qed.

Lemma cache_get_run R m c h s :
  cache_inv R m -> caches m !! c = Some h ->
  ps4KernelCacheGet c s OPtr m =
    Some (match view m c !! name_key s with
          | Some v => (PS4_OK, Some v)
          | None => (PS4_ERROR_NOT_FOUND, Some NULL)
          end, m).
Proof.
  intros Hi Hc. unfold ps4KernelCacheGet. rewrite (proj2 (Z.eqb_neq c NULL)) by (by eapply cache_nonzero).
  destruct (find_run R m c h (name_key s) Hi Hc) as (r & E & Hf). erewrite bind_some by exact E.
  destruct (found_view R m c _ r Hi Hf) as [[-> ->]|[Hr (v & -> & (nm & n & Hen & _) & _)]]; [done|].
  rewrite (proj2 (Z.eqb_neq r NULL)) by done. by erewrite bind_some by (unfold get_entry; by rewrite Hen).
Qed.

Lemma cache_set_run R m c h s v :
  cache_inv R m -> ready m -> caches m !! c = Some h ->
  Z.of_nat (length (cache_items m c)) + 1 < 2 ^ 32 -> set_room h <= kroom m ->
  exists R' m', ps4KernelCacheSet c s v m = Some (PS4_OK, m') /\
    cache_inv R' m' /\ view m' c = <[name_key s := v]> (view m c) /\
    (forall c', c' <> c -> view m' c' = view m c') /\ framed R m R' m' /\ alive m m' /\
    kroom m - set_room h <= kroom m'.
Proof.
  intros Hi Hrd Hc Hlen Hroom. unfold set_room in *.
  assert (0 <= add_room h) as Hadd.
  { unfold add_room, cost, handle_buckets, sizeof_UT_hash_bucket. destruct h as [t|]; [|done].
    destruct (table_chains _ _ _ _ (inv_tables _ _ Hi _ _ Hc)) as [? _ Hl _]. rewrite <- Hl. lia. }
  unfold ps4KernelCacheSet. rewrite (proj2 (Z.eqb_neq c NULL)) by (by eapply cache_nonzero).
  destruct (find_run R m c h (name_key s) Hi Hc) as (r & E & Hf). erewrite bind_some by exact E.
  destruct (found_view R m c _ r Hi Hf) as [[-> Hv]|[Hr (v0 & Hv & Hok & t & Ht & Hin)]].
  - change (negb (NULL =? NULL)) with false. cbv iota.
    destruct (make_entry_run R m c h s v Hi Hrd Hc ltac:(lia)) as (e & nm & m1 & m2 & R1 & m3 & E1 & He & E2 & E3 & Q & Hnew & Hr3).
    destruct (cache_inv_quiet _ _ _ _ Hi Q) as [Hi3 Hv3].
    assert (cache_items m3 c = cache_items m c) as Eci by (unfold cache_items; by rewrite (quiet_caches _ _ _ _ Q)).
    destruct (add_run R1 m3 c h e (name_key s) v nm Hi3) as (R' & m' & E4 & Hi' & Hv' & Hvo & F & A & Hr4).
    + apply (core_ready m); [apply Q | done].
    + by rewrite (quiet_caches _ _ _ _ Q).
    + done.
    + intros x w Hx Hw. rewrite <- (Hv3 c) in Hv.
      assert (view m3 c !! name_key s = Some w) by (apply (view_spec R1); eauto). congruence.
    + rewrite length_name_key. destruct (strnlen_le (c_string s) PS4_LIMIT_STRING_LENGTH_MAXIMUM). unfold PS4_LIMIT_STRING_LENGTH_MAXIMUM in *. lia.
    + by rewrite Eci.
    + lia.
    + exists R', m'. split; [|split; [done|split; [by rewrite Hv', Hv3|split; [intros; by rewrite Hvo, Hv3|split; [|split; [|lia]]]]]].
      * erewrite bind_some by exact E1. change (default 0 (snd (PS4_OK, Some e))) with e.
        rewrite (proj2 (Z.eqb_neq e NULL) He). erewrite bind_some by exact E2. change (default 0 (snd (PS4_OK, Some nm))) with nm.
        apply bind_inv in E3 as ([] & m2' & E3 & E3'). erewrite bind_some by exact E3. erewrite bind_some by exact E3'.
        rewrite length_name_key in E4. by erewrite bind_some by exact E4.
      * eapply framed_trans; [apply Q | done].
      * eapply alive_trans; [by eapply quiet_alive | done].
  - rewrite (proj2 (Z.eqb_neq r NULL)) by done. cbv [negb]. pose proof Hok as (nm & n & Hen & _).
    set (hh0 := Handle nm _ _) in Hen.
    destruct (set_value R m c t r nm hh0 (name_key s) v0 v Hi Ht Hin Hok Hen) as (Hi' & Hv' & Hvo).
    eexists R, _. split; [|split; [exact Hi'|split; [done|split; [done|split; [by split|split; [by intros c'|]]]]]].
    + erewrite bind_some by (unfold get_entry; by rewrite Hen). by erewrite bind_some by reflexivity.
    + pose proof (entries_room m (<[r := CacheEntry nm v hh0]> (entries m))). unfold cost. lia.
Qed.
(** ** Deleting *)

Lemma table_ok_del R m c t e b :
  table_ok R m c t -> e ∈ items t ->
  let i := Z.to_nat (HASH_TO_BKT (entry_hashv m e) (num_buckets t)) in
  buckets t !! i = Some b ->
  table_ok R m c (set_buckets (<[i := HASH_DEL_IN_BKT b e]> (buckets t))
                    (set_items (u32 (num_items t - 1)) (filter (fun x => x <> e) (items t)) t)).
Proof.
  intros [Hch Hnd Hct Htb Hbk Hit Hky] He i Hb.
  split; cbn [set_buckets set_items items num_items tbl_at buckets_at]; [| | | done | done | |].
  - by apply (chains_ok_del (entry_hashv m) t e b).
  - by apply NoDup_filter.
  - rewrite Hct, u32_pred. f_equal. pose proof (length_filter_remove e (items t) Hnd He). lia.
  - intros x [_ Hx]%list_elem_of_filter. by apply Hit.
  - intros x y k v w [_ Hx]%list_elem_of_filter [_ Hy]%list_elem_of_filter. by apply Hky.
Qed.

Lemma quiet_del_entry R m e :
  cache_inv R m -> (forall c, e ∉ cache_items m c) -> quiet R m R (set_entries (delete e (entries m)) m).
Proof.
  intros Hi He. split; [by apply (blocks_ok_eq m), Hi | by apply (inv_roles _ _ Hi) | done | done | | by split].
  intros c x Hx. split; [|done]. cbn [entries set_entries]. apply lookup_delete_ne. intros ->. by apply (He c).
Qed.

(** The blocks of [l] are gone, every other block is there as before. *)
Definition only_freed (l : list Z) (m m' : machine) : Prop :=
  forall a, allocs m' !! a = if decide (a ∈ l) then None else allocs m !! a.

Lemma only_freed_nil m m' : allocs m' = allocs m -> only_freed [] m m'.
Proof. intros E a. rewrite E. by rewrite decide_False by apply not_elem_of_nil. Qed.

Lemma only_freed_one a m m' : allocs m' = delete a (allocs m) -> only_freed [a] m m'.
Proof.
  intros E b. rewrite E. destruct (decide (b = a)) as [->|Hne].
  - by rewrite lookup_delete_eq, decide_True by (by apply list_elem_of_singleton).
  - rewrite lookup_delete_ne by congruence. by rewrite decide_False by (by rewrite list_elem_of_singleton).
Qed.

Lemma only_freed_app l l' l'' m m1 m2 :
  only_freed l m m1 -> only_freed l' m1 m2 -> (forall a, a ∈ l'' <-> a ∈ l \/ a ∈ l') -> only_freed l'' m m2.
Proof. intros H1 H2 Hl a. rewrite H2, H1. destruct (decide (a ∈ l)), (decide (a ∈ l')), (decide (a ∈ l'')); try done; set_solver. Qed.

(** The blocks of a cache's table. *)
Definition table_blocks (m : machine) (c : Z) : list Z :=
  match caches m !! c with Some (Some t) => [tbl_at t; buckets_at t] | _ => [] end.

(** Freeing one block the caches have let go of. *)
Lemma free_step R m a r :
  cache_inv R m -> ready m -> R !! a = Some r -> let_go m a r -> idle m r ->
  exists m', ps4KernelMemoryFree a m = Some (PS4_OK, m') /\ quiet R m (delete a R) m' /\
    entries m' = entries m /\ kroom m <= kroom m' /\ only_freed [a] m m'.
Proof.
  intros Hi Hrd Hr Hg Hid. destruct (inv_roles _ _ Hi _ _ Hr) as [n Hn].
  exists (freed m a n). split; [apply free_run; [done | by apply (block_size _ (inv_blocks _ _ Hi) _ _ Hn) | done]|].
  split; [apply (quiet_freed _ _ _ _ r); try done; by eapply not_live|]. split; [done|]. split; [apply freed_room|]. by apply only_freed_one.
Qed.

(** Frees do not look at the caches. *)
Lemma free_set_caches a x m m' :
  ready m -> ps4KernelMemoryFree a (set_caches x m) = Some (PS4_OK, m') ->
  exists m0, ps4KernelMemoryFree a m = Some (PS4_OK, m0) /\ m' = set_caches x m0 /\ caches m0 = caches m /\ ready m0.
Proof.
  intros Hrd. unfold ps4KernelMemoryFree. destruct (a =? NULL) eqn:Ea; [intros [=]; done|].
  erewrite bind_some by (apply memory_type_ready_run; exact Hrd).
  erewrite (bind_some memory_type_ready _ m) by (by apply memory_type_ready_run).
  unfold free, bind. apply Z.eqb_neq in Ea as Ea'. rewrite (proj2 (Z.eqb_neq a 0) Ea'). cbn [allocs set_caches].
  destruct (allocs m !! a) as [n|]; [|done]. cbn. intros [= <-]. by eexists.
Qed.

(** The state with [e] taken out of the lists of its cache. *)
Lemma unlink_entry R m c t e b :
  cache_inv R m -> caches m !! c = Some (Some t) -> e ∈ items t ->
  let i := Z.to_nat (HASH_TO_BKT (entry_hashv m e) (num_buckets t)) in
  buckets t !! i = Some b ->
  let h' := if bool_decide (items t = [e]) then None
            else Some (set_buckets (<[i := HASH_DEL_IN_BKT b e]> (buckets t))
                   (set_items (u32 (num_items t - 1)) (filter (fun x => x <> e) (items t)) t)) in
  let m1 := set_caches (<[c := h']> (caches m)) m in
  cache_inv R m1 /\ cache_items m1 c = filter (fun x => x <> e) (items t) /\ (forall c', e ∉ cache_items m1 c').
Proof.
  intros Hi Hc He i Hb h' m1. pose proof (inv_tables _ _ Hi _ _ Hc) as Ht.
  assert (cache_items m1 c = filter (fun x => x <> e) (items t)) as Ec.
  { unfold cache_items, m1. cbn [caches set_caches]. rewrite lookup_insert_eq. unfold h'.
    case_bool_decide as E; [|done]. rewrite E. by rewrite filter_cons_False by tauto. }
  split; [|split; [done|]].
  - apply cache_inv_attach; [done | by eapply inv_caches|]. unfold h'. intros t'. case_bool_decide as E; [done|].
    intros [= <-]. split; [by apply table_ok_del|]. cbn [set_buckets set_items items]. intros E'. apply E.
    pose proof (length_filter_remove e (items t) (table_nodup _ _ _ _ Ht) He) as Hl. rewrite E' in Hl. cbn in Hl.
    destruct (items t) as [|x [|]]; [done | | done]. by apply list_elem_of_singleton in He as ->.
  - intros c' Hin. destruct (decide (c' = c)) as [->|Hne].
    + rewrite Ec in Hin. by apply list_elem_of_filter in Hin as [? _].
    + unfold cache_items, m1 in Hin. cbn [caches set_caches] in Hin. rewrite lookup_insert_ne in Hin by done.
      destruct (caches m !! c') as [[t'|]|] eqn:Ec'; [|by apply not_elem_of_nil in Hin..].
      destruct (table_items _ _ _ _ (inv_tables _ _ Hi _ _ Ec') _ Hin). destruct (table_items _ _ _ _ Ht _ He). congruence.
Qed.

Lemma hash_delete_run R m c t e b :
  cache_inv R m -> ready m -> caches m !! c = Some (Some t) -> e ∈ items t ->
  let i := Z.to_nat (HASH_TO_BKT (entry_hashv m e) (num_buckets t)) in
  buckets t !! i = Some b ->
  let h' := if bool_decide (items t = [e]) then None
            else Some (set_buckets (<[i := HASH_DEL_IN_BKT b e]> (buckets t))
                   (set_items (u32 (num_items t - 1)) (filter (fun x => x <> e) (items t)) t)) in
  let m1 := set_caches (<[c := h']> (caches m)) m in
  exists R2 m2, HASH_DELETE c e m = Some (tt, m2) /\ quiet R m1 R2 m2 /\ entries m2 = entries m /\
    kroom m <= kroom m2 /\ R2 !! e = R !! e /\
    only_freed (if bool_decide (items t = [e]) then [tbl_at t; buckets_at t] else []) m m2.
Proof.
  intros Hi Hrd Hc He i Hb h' m1. pose proof (inv_tables _ _ Hi _ _ Hc) as Ht.
  destruct (unlink_entry R m c t e b Hi Hc He Hb) as (Hi1 & Eci & Hap). fold i h' m1 in Hi1, Eci, Hap.
  destruct (table_items _ _ _ _ Ht _ He) as (Hre & k & v & (nm & n0 & Hen & _)).
  unfold HASH_DELETE. erewrite bind_some by (unfold get_handle; by rewrite Hc). cbv beta iota.
  destruct (decide (items t = [e])) as [E|E].
  2: { exists R, m1. split; [|split; [by apply quiet_refl | split; [done | split; [by apply caches_room | split; [done|]]]]].
       2: { rewrite bool_decide_false by done. by apply only_freed_nil. }
       rewrite bool_decide_false by done. erewrite bind_some by (unfold get_entry; by rewrite Hen). cbn [hh hashv].
       unfold m1, h'. rewrite bool_decide_false by done. unfold i, entry_hashv in *. rewrite Hen in *.
       cbn [hh hashv] in *. by rewrite Hb. }
  rewrite bool_decide_true by done. assert (h' = None) as Eh by (unfold h'; by rewrite bool_decide_true).
  clearbody h'. subst h'.
  assert (ready m1) as Hrd1 by exact Hrd. pose proof (table_bkts _ _ _ _ Ht) as Hrb. pose proof (table_tbl _ _ _ _ Ht) as Hrt.
  assert (forall t', caches m1 !! c <> Some (Some t')) as Hno by (intros t'; unfold m1; cbn [caches set_caches]; by rewrite lookup_insert_eq).
  destruct (free_step R m1 (buckets_at t) (RBuckets c) Hi1 Hrd1 Hrb) as (m2 & E2 & Q2 & En2 & Hr2 & Ha2); [by intros t' ?%Hno | done|].
  destruct (cache_inv_quiet _ _ _ _ Hi1 Q2) as [Hi2 _].
  assert (ready m2) as Hrd2 by (apply (core_ready m1); [apply Q2 | done]).
  assert (buckets_at t <> tbl_at t) as Hbt by congruence.
  destruct (free_step (delete (buckets_at t) R) m2 (tbl_at t) (RTable c) Hi2 Hrd2) as (m3 & E3 & Q3 & En3 & Hr3 & Ha3);
    [by rewrite lookup_delete_ne | intros t'; rewrite (quiet_caches _ _ _ _ Q2); by intros ?%Hno | done|].
  destruct (free_set_caches _ _ m m2 Hrd E2) as (m2' & E2' & -> & Ec2 & Hrd2').
  destruct (free_set_caches _ _ m2' m3 Hrd2' E3) as (m3' & E3' & -> & Ec3 & _).
  eexists (delete (tbl_at t) (delete (buckets_at t) R)), _. split; [|split; [by eapply quiet_trans|]].
  - erewrite bind_some by exact E2'. erewrite bind_some by exact E3'. unfold put_handle, modify. by rewrite Ec3, Ec2.
  - pose proof (caches_room m (<[c := None]> (caches m))). fold m1 in H0. split; [etrans; [exact En3 | exact En2]|]. split; [lia|].
    split; [rewrite !lookup_delete_ne by congruence; done|].
    apply (only_freed_app [buckets_at t] [tbl_at t] _ m _ _ Ha2 Ha3). set_solver.
Qed.

(** One entry gone: out of the table, its block freed. *)
Lemma delete_step R m c e :
  cache_inv R m -> ready m -> e ∈ cache_items m c ->
  exists R' m',
    (do! HASH_DELETE c e in
     do! ps4KernelMemoryFree e in
     modify (fun m => set_entries (delete e (entries m)) m)) m = Some (tt, m') /\
    cache_inv R' m' /\ is_Some (caches m' !! c) /\ cache_items m' c = filter (fun x => x <> e) (cache_items m c) /\
    (forall x, x ∈ cache_items m' c -> item m' x = item m x) /\
    (forall c', c' <> c -> view m' c' = view m c') /\ framed R m R' m' /\ alive m m' /\ kroom m <= kroom m' /\
    only_freed (e :: if bool_decide (cache_items m c = [e]) then table_blocks m c else []) m m' /\
    table_blocks m' c = (if bool_decide (cache_items m c = [e]) then [] else table_blocks m c) /\ entries m' = delete e (entries m).
Proof.
  intros Hi Hrd He. unfold cache_items in He. destruct (caches m !! c) as [[t|]|] eqn:Hc; [|by apply not_elem_of_nil in He..].
  pose proof (inv_tables _ _ Hi _ _ Hc) as Ht.
  destruct (bucket_at _ t (entry_hashv m e) (table_chains _ _ _ _ Ht)) as (b & Hb & _).
  destruct (unlink_entry R m c t e b Hi Hc He Hb) as (Hi1 & Eci & Hap).
  destruct (hash_delete_run R m c t e b Hi Hrd Hc He Hb) as (R2 & m2 & E2 & Q2 & En2 & Hr2 & Hre & Ha2).
  set (h' := if bool_decide _ then _ else _) in *. set (m1 := set_caches _ m) in *.
  destruct (cache_inv_quiet _ _ _ _ Hi1 Q2) as [Hi2 Hv2]. pose proof (quiet_caches _ _ _ _ Q2) as Ec2.
  assert (R2 !! e = Some (REntry c)) as Hre2 by (rewrite Hre; by apply Ht).
  assert (forall c', e ∉ cache_items m2 c') as Hap2 by (intros c'; unfold cache_items; rewrite Ec2; apply Hap).
  assert (ready m2) as Hrd2 by (apply (core_ready m1); [apply Q2 | done]).
  destruct (free_step R2 m2 e (REntry c) Hi2 Hrd2 Hre2 (Hap2 c)) as (m3 & E3 & Q3 & En3 & Hr3 & Ha3); [done|].
  destruct (cache_inv_quiet _ _ _ _ Hi2 Q3) as [Hi3 Hv3]. pose proof (quiet_caches _ _ _ _ Q3) as Ec3.
  assert (forall c', e ∉ cache_items m3 c') as Hap3 by (intros c'; unfold cache_items; rewrite Ec3; apply Hap2).
  pose proof (quiet_del_entry (delete e R2) m3 e Hi3 Hap3) as Q4. destruct (cache_inv_quiet _ _ _ _ Hi3 Q4) as [Hi4 Hv4].
  set (m4 := set_entries _ m3) in *. assert (quiet R m1 (delete e R2) m4) as Q by (eapply quiet_trans; [exact Q2|]; by eapply quiet_trans).
  assert (caches m4 = caches m1) as Ec4 by apply Q.
  assert (cache_items m c = items t /\ table_blocks m c = [tbl_at t; buckets_at t]) as [Eit Etb]
    by (unfold cache_items, table_blocks; by rewrite Hc).
  exists (delete e R2), m4. split; [|split; [done|split; [|split; [|split; [|split; [|split; [|split; [|split; [|split; [|split]]]]]]]]]].
  - erewrite bind_some by exact E2. by erewrite bind_some by exact E3.
  - rewrite Ec4. unfold m1. cbn [caches set_caches]. rewrite lookup_insert_eq. by eexists.
  - unfold cache_items. rewrite Ec4, Hc. exact Eci.
  - intros x Hx. change (item m x) with (item m1 x). unfold cache_items in Hx. rewrite Ec4 in Hx.
    pose proof (quiet_entries _ _ _ _ Q c x Hx) as Hk.
    destruct (caches m1 !! c) as [[t'|]|] eqn:Ec1; [|by apply not_elem_of_nil in Hx..].
    eapply item_kept; [by eapply inv_tables | done | exact Hk].
  - intros c' Hne. rewrite Hv4, Hv3, Hv2. unfold view, cache_items, m1. cbn [caches set_caches]. by rewrite lookup_insert_ne.
  - eapply framed_trans; [apply (framed_caches R m) | apply Q].
  - eapply alive_trans; [apply alive_insert | by eapply quiet_alive].
  - pose proof (entries_room m3 (delete e (entries m3))). fold m4 in H0. lia.
  - rewrite Eit, Etb. apply (only_freed_app _ _ _ m m2 m4 Ha2 Ha3). set_solver.
  - rewrite Eit, Etb. unfold table_blocks. rewrite Ec4. unfold m1. cbn [caches set_caches]. rewrite lookup_insert_eq. unfold h'.
    by destruct (bool_decide _).
  - unfold m4. cbn [entries set_entries]. by rewrite En3, En2.
Qed.

Lemma cache_delete_run R m c h s :
  cache_inv R m -> ready m -> caches m !! c = Some h ->
  exists R' m',
    ps4KernelCacheDelete c s m =
      Some (match view m c !! name_key s with Some _ => PS4_OK | None => PS4_ERROR_NOT_FOUND end, m') /\
    cache_inv R' m' /\ is_Some (caches m' !! c) /\ view m' c = delete (name_key s) (view m c) /\
    (forall c', c' <> c -> view m' c' = view m c') /\ framed R m R' m' /\ alive m m' /\ kroom m <= kroom m' /\
    (forall v, view m c !! name_key s = Some v -> exists t e, caches m !! c = Some (Some t) /\ e ∈ items t /\
       item_ok R m e (name_key s) v /\ entries m' = delete e (entries m) /\
       only_freed (e :: if bool_decide (items t = [e]) then [tbl_at t; buckets_at t] else []) m m').
Proof.
  intros Hi Hrd Hc. unfold ps4KernelCacheDelete. rewrite (proj2 (Z.eqb_neq c NULL)) by (by eapply cache_nonzero).
  destruct (find_run R m c h (name_key s) Hi Hc) as (r & E & Hf). erewrite bind_some by exact E.
  destruct (found_view R m c _ r Hi Hf) as [[-> Hv]|[Hr (v & Hv & Hok & t & Ht & Hin)]]; rewrite Hv.
  - exists R, m. split; [done|]. split; [done|]. split; [by eexists|]. rewrite delete_id by done. repeat (split; [done|]). by split; [intros c'|].
  - rewrite (proj2 (Z.eqb_neq r NULL)) by done.
    assert (cache_items m c = items t) as Ei by (unfold cache_items; by rewrite Ht).
    destruct (delete_step R m c r Hi Hrd ltac:(by rewrite Ei)) as (R' & m' & E' & Hi' & Hc' & Ei' & Hit & Hvo & F & A & Hr' & Ha' & _ & En').
    exists R', m'. split; [|split; [done|split; [done|split; [|split; [done|split; [done|split; [done|split; [done|]]]]]]]].
    + apply bind_inv in E' as (? & m1 & E1 & E'). erewrite bind_some by exact E1.
      apply bind_inv in E' as (? & m2 & E2 & E3). erewrite bind_some by exact E2. by erewrite bind_some by exact E3.
    + apply map_eq. intros k. apply option_eq. intros w.
      rewrite lookup_delete_Some, (view_spec R' m' c k w Hi'), (view_spec R m c k w Hi).
      rewrite Ei', Ei. split.
      * intros (x & Hx & Ex). rewrite Hit in Ex by (by rewrite Ei', Ei). apply list_elem_of_filter in Hx as [Hne Hx].
        split; [|by exists x]. intros <-. apply Hne. pose proof (inv_tables _ _ Hi _ _ Ht) as Htb.
        destruct (table_items _ _ _ _ Htb _ Hx) as (_ & k1 & v1 & Hx1). rewrite (item_ok_item _ _ _ _ _ Hx1) in Ex. simplify_eq.
        by eapply (table_keys _ _ _ _ Htb).
      * intros [Hne (x & Hx & Ex)]. assert (x <> r) as Hxr.
        { intros ->. rewrite (item_ok_item _ _ _ _ _ Hok) in Ex. congruence. }
        exists x. assert (x ∈ filter (fun y => y <> r) (items t)) as Hxf by (by apply list_elem_of_filter).
        split; [done|]. rewrite Hit; [done|]. by rewrite Ei', Ei.
    + intros w [= <-]. exists t, r. split; [done|]. split; [done|]. split; [done|]. split; [done|].
      unfold table_blocks in Ha'. by rewrite Ht, Ei in Ha'.
Qed.

Lemma cache_create_run R m :
  cache_inv R m -> ready m -> cost 8 <= kroom m ->
  exists c R' m', ps4KernelCacheCreate OPtr m = Some ((PS4_OK, Some c), m') /\ caches m' !! c = Some None /\
    cache_inv R' m' /\ view m' c = ∅ /\ caches m !! c = None /\ (forall c', c' <> c -> view m' c' = view m c') /\
    framed R m R' m' /\ alive m m' /\ kroom m - cost 8 <= kroom m'.
Proof.
  intros Hi Hrd Hroom.
  destruct (allocate_data_grows R m 8 RCache Hi Hrd) as (c & m1 & E & Hp & Hr & _ & Ha & G); [lia | done|].
  pose proof (grows_quiet _ _ _ _ _ G) as Q. destruct (cache_inv_quiet _ _ _ _ Hi Q) as [Hi1 Hv1].
  exists c, (<[c := RCache]> R), (set_caches (<[c := None]> (caches m1)) m1).
  split; [|split; [cbn [caches set_caches]; apply lookup_insert_eq | split; [|split; [|split; [|split; [|split; [|split]]]]]]].
  - unfold ps4KernelCacheCreate. change sizeof_Ps4KernelCache with 8. erewrite bind_some by exact E.
    change (default 0 (snd (PS4_OK, Some c))) with c. change (negb (fst (PS4_OK, Some c) =? PS4_OK)) with false. cbv iota zeta.
    rewrite (proj2 (Z.eqb_neq c NULL) Hp). by erewrite bind_some by reflexivity.
  - apply cache_inv_attach; [done | apply lookup_insert_eq | done].
  - unfold view, cache_items. cbn [caches set_caches]. by rewrite lookup_insert_eq.
  - destruct (caches m !! c) as [h|] eqn:Ec; [|done]. pose proof (inv_caches _ _ Hi _ _ Ec). congruence.
  - intros c' Hne. rewrite <- (Hv1 c'). unfold view, cache_items. cbn [caches set_caches]. by rewrite lookup_insert_ne.
  - eapply framed_trans; [apply Q | apply framed_caches].
  - eapply alive_trans; [by eapply quiet_alive | apply alive_insert].
  - pose proof (grows_room _ _ _ _ _ G). pose proof (caches_room m1 (<[c := None]> (caches m1))). lia.
Qed.

(** ** Destroying *)

Lemma destroy_loop_run c l : forall R m,
  cache_inv R m -> ready m -> is_Some (caches m !! c) -> cache_items m c = l ->
  exists R' m', destroy_loop c l m = Some (tt, m') /\ cache_inv R' m' /\ caches m' !! c = Some None /\
    (forall c', c' <> c -> view m' c' = view m c') /\ framed R m R' m' /\ alive m m' /\ only_freed (l ++ table_blocks m c) m m'.
Proof.
  induction l as [|e l IH]; intros R m Hi Hrd Hc Hl.
  - assert (caches m !! c = Some None) as Hn.
    { destruct Hc as [[t|] Hc]; [|done]. destruct (inv_nonempty _ _ Hi _ _ Hc). unfold cache_items in Hl. by rewrite Hc in Hl. }
    exists R, m. repeat (split; [done|]). split; [by intros c'|]. unfold table_blocks. rewrite Hn. by apply only_freed_nil.
  - assert (e ∈ cache_items m c) as He by (rewrite Hl; left).
    destruct (delete_step R m c e Hi Hrd He) as (R1 & m1 & E1 & Hi1 & Hc1 & Hl1 & _ & Hv1 & F1 & A1 & _ & D1 & T1 & _).
    destruct (IH R1 m1 Hi1) as (R' & m' & E' & Hi' & Hc' & Hv' & F' & A' & D').
    + apply (core_ready m); [apply F1 | done].
    + done.
    + rewrite Hl1, Hl. rewrite filter_cons_False by tauto. destruct Hc as [[t|] Hc].
      2: { unfold cache_items in Hl. by rewrite Hc in Hl. }
      pose proof (table_nodup _ _ _ _ (inv_tables _ _ Hi _ _ Hc)) as Hnd. unfold cache_items in Hl. rewrite Hc in Hl.
      rewrite Hl in Hnd. apply NoDup_cons in Hnd as [Hne _]. clear -Hne.
      induction l as [|x l IH]; [done|]. apply not_elem_of_cons in Hne as [? ?]. rewrite filter_cons_True by congruence.
      f_equal. by apply IH.
    + exists R', m'. split; [|split; [done|split; [done|split; [intros; by rewrite Hv', Hv1 | split; [by eapply framed_trans | split; [by eapply alive_trans|]]]]]].
      2: { rewrite T1 in D'. rewrite Hl in D1. apply (only_freed_app _ _ _ m m1 m' D1 D'). intros a. rewrite Hl. destruct (bool_decide (e :: l = [e])) eqn:Q.
           - apply bool_decide_eq_true in Q as [= ->]. set_solver.
           - set_solver. }
      cbn [destroy_loop]. apply bind_inv in E1 as (? & m2 & E1 & E2). erewrite bind_some by exact E1.
      apply bind_inv in E2 as (? & m3 & E2 & E3). erewrite bind_some by exact E2. by erewrite bind_some by exact E3.
Qed.

Lemma cache_inv_remove R m c :
  cache_inv R m -> cache_inv R (set_caches (delete c (caches m)) m).
Proof.
  intros Hi. split; [by apply (blocks_ok_eq m), Hi | by apply (inv_roles _ _ Hi) | | |]; cbn [caches set_caches].
  - intros c' h' [_ Hh]%lookup_delete_Some. by eapply inv_caches.
  - intros c' t' [_ Hh]%lookup_delete_Some. by destruct (inv_tables _ _ Hi _ _ Hh); split.
  - intros c' t' [_ Hh]%lookup_delete_Some. by eapply inv_nonempty.
Qed.

Lemma cache_destroy_run R m c h :
  cache_inv R m -> ready m -> caches m !! c = Some h ->
  exists R' m', ps4KernelCacheDestroy c m = Some (PS4_OK, m') /\ cache_inv R' m' /\ caches m' !! c = None /\
    (forall c', c' <> c -> view m' c' = view m c' /\ (is_Some (caches m !! c') -> is_Some (caches m' !! c'))) /\ framed R m R' m' /\
    only_freed (c :: cache_items m c ++ table_blocks m c) m m'.
Proof.
  intros Hi Hrd Hc. unfold ps4KernelCacheDestroy. rewrite (proj2 (Z.eqb_neq c NULL)) by (by eapply cache_nonzero).
  erewrite bind_some by (unfold get_handle; by rewrite Hc).
  destruct (destroy_loop_run c (cache_items m c) R m Hi Hrd ltac:(by eexists) eq_refl) as (R1 & m1 & E1 & Hi1 & Hc1 & Hv1 & F1 & A1 & D1).
  assert (cache_items m c = match h with Some t => items t | None => [] end) as El by (unfold cache_items; rewrite Hc; by destruct h).
  rewrite El in E1. erewrite bind_some by exact E1.
  pose proof (cache_inv_remove R1 m1 c Hi1) as Hi2. set (m2 := set_caches _ m1) in Hi2.
  assert (ready m1) as Hrd1 by (apply (core_ready m); [apply F1 | done]).
  pose proof (inv_caches _ _ Hi1 _ _ Hc1) as Hr1. destruct (inv_roles _ _ Hi1 _ _ Hr1) as [n Hn].
  assert (quiet R1 m2 (delete c R1) (freed m2 c n)) as Q.
  { apply (quiet_freed _ _ _ _ RCache); try done. apply (not_live R1 m2 c RCache); [done | done|].
    cbn. apply lookup_delete_eq. }
  destruct (cache_inv_quiet _ _ _ _ Hi2 Q) as [Hi3 Hv3].
  exists (delete c R1), (freed m2 c n). split; [|split; [done|split; [|split; [|split]]]].
  - erewrite bind_some by (apply (free_run m1 c n); [done | by apply (cache_nonzero R m c h) | done]). by erewrite bind_some by reflexivity.
  - cbn. apply lookup_delete_eq.
  - intros c' Hne. rewrite Hv3, <- (Hv1 c' Hne). unfold view, cache_items, m2. cbn [caches set_caches freed]. rewrite lookup_delete_ne by done.
    split; [done|]. intros Hs. unfold freed. cbn [caches set_caches set_allocs set_mem]. rewrite lookup_delete_ne by done. by apply A1.
  - eapply framed_trans; [exact F1|]. eapply framed_trans; [apply (framed_caches R1 m1) | apply Q].
  - apply (only_freed_app _ [c] _ m m1 _ D1); [by apply only_freed_one | set_solver].
Qed.
End Runs.

(** ** Properties *)

Section Properties.
Context `{KernelDlSym} `{HA : KernelAllocator} `{HL : !KernelAllocatorLaws HA} `{HR : !KernelRoom HA}.

(** C15. Setting a name: the call succeeds whether the name is new or not, whatever
    the hash values of the keys and also when the table expands. Afterwards the
    name, and every name with the same first 4096 characters, gives the value;
    every other name, in this and in every other cache, gives what it gave
    before; and memory the caches do not own is untouched. *)
Theorem cache_set_refines R m c h s v :
  cache_inv R m -> ready m -> caches m !! c = Some h ->
  Z.of_nat (length (cache_items m c)) + 1 < 2 ^ 32 -> set_room h <= kroom m ->
  exists R' m', ps4KernelCacheSet c s v m = Some (PS4_OK, m') /\ cache_inv R' m' /\ framed R m R' m' /\
    forall c' s', is_Some (caches m !! c') -> exists r,
      ps4KernelCacheGet c' s' OPtr m = Some (r, m) /\
      ps4KernelCacheGet c' s' OPtr m' =
        Some (if decide (c' = c /\ name_key s' = name_key s) then (PS4_OK, Some v) else r, m').
Proof.
  intros Hi Hrd Hc Hlen Hroom.
  destruct (cache_set_run R m c h s v Hi Hrd Hc Hlen Hroom) as (R' & m' & E & Hi' & Hv & Hvo & F & A & _).
  exists R', m'. split; [done|]. split; [done|]. split; [done|]. intros c' s' Hc'.
  destruct (A c' Hc') as [h'' Hc'']. destruct Hc' as [h' Hc'].
  eexists. split; [by eapply cache_get_run|]. rewrite (cache_get_run R' m' c' h'' s' Hi' Hc'').
  destruct (decide (c' = c)) as [->|Hne].
  - rewrite Hv. destruct (decide (name_key s' = name_key s)) as [->|Hk].
    + rewrite lookup_insert_eq, decide_True by done. done.
    + rewrite lookup_insert_ne by congruence. rewrite decide_False by tauto. done.
  - rewrite Hvo by done. rewrite decide_False by tauto. done.
Qed.

(** C24. Deleting a name that is there: afterwards the name is not found, and every
    other name of every cache gives what it gave before. The entry that the
    cache's table held for the name is gone and its block is freed; with the
    last entry of the cache go the blocks of its table and buckets; no other
    block is freed. In particular not the block with the copy of the name,
    which stays allocated with no pointer to it left. *)
Theorem cache_delete_refines R m c h s v :
  cache_inv R m -> ready m -> caches m !! c = Some h ->
  ps4KernelCacheGet c s OPtr m = Some ((PS4_OK, Some v), m) ->
  exists R' m', ps4KernelCacheDelete c s m = Some (PS4_OK, m') /\ cache_inv R' m' /\ framed R m R' m' /\
    (forall c' s', is_Some (caches m !! c') -> exists r,
      ps4KernelCacheGet c' s' OPtr m = Some (r, m) /\
      ps4KernelCacheGet c' s' OPtr m' =
        Some (if decide (c' = c /\ name_key s' = name_key s) then (PS4_ERROR_NOT_FOUND, Some NULL) else r, m')) /\
    exists t e nm n, h = Some t /\ e ∈ items t /\
      entries m !! e = Some (CacheEntry nm v (Handle nm (Z.of_nat (length (name_key s))) (HASH_JEN (name_key s)))) /\
      mem_read (mem m) nm (length (name_key s)) = Some (name_key s) /\ entries m' !! e = None /\
      only_freed (e :: if bool_decide (items t = [e]) then [tbl_at t; buckets_at t] else []) m m' /\
      allocs m !! nm = Some n /\ allocs m' !! nm = Some n.
Proof.
  intros Hi Hrd Hc Hget. rewrite (cache_get_run R m c h s Hi Hc) in Hget.
  destruct (view m c !! name_key s) as [w|] eqn:Ew; [|done]. injection Hget as ->.
  destruct (cache_delete_run R m c h s Hi Hrd Hc) as (R' & m' & E & Hi' & _ & Hv & Hvo & F & A & _ & Ha). rewrite Ew in E.
  exists R', m'. split; [done|]. split; [done|]. split; [done|]. split.
  - intros c' s' Hc'. destruct (A c' Hc') as [h'' Hc'']. destruct Hc' as [h' Hc'].
    eexists. split; [by eapply cache_get_run|]. rewrite (cache_get_run R' m' c' h'' s' Hi' Hc'').
    destruct (decide (c' = c)) as [->|Hne].
    + rewrite Hv. destruct (decide (name_key s' = name_key s)) as [->|Hk].
      * rewrite lookup_delete_eq, decide_True by done. done.
      * rewrite lookup_delete_ne by congruence. rewrite decide_False by tauto. done.
    + rewrite Hvo by done. rewrite decide_False by tauto. done.
  - destruct (Ha v Ew) as (t & e & Ht & Hin & Hok & En & Hf). rewrite Hc in Ht. injection Ht as ->.
    pose proof (inv_tables _ _ Hi _ _ Hc) as Hok'. destruct Hok as (nm & n & Hen & Hr & Hal & _ & Hk). exists t, e, nm, n.
    repeat (split; [done|]). split; [rewrite En; apply lookup_delete_eq|]. split; [done|]. split; [done|]. rewrite Hf, decide_False; [done|].
    destruct (table_items _ _ _ _ Hok' _ Hin) as [He _]. pose proof (table_tbl _ _ _ _ Hok'). pose proof (table_bkts _ _ _ _ Hok').
    destruct (bool_decide _); rewrite !elem_of_cons, elem_of_nil; intuition congruence.
Qed.

(** C32. Destroying a cache, whatever it holds: the blocks that are freed are its
    object, every entry in it, and its table and buckets if it has them, each
    of them and nothing else. The copies of the names stay allocated. Every
    other cache is still there and gives what it gave before. *)
Theorem cache_destroy_frees R m c h :
  cache_inv R m -> ready m -> caches m !! c = Some h ->
  exists R' m', ps4KernelCacheDestroy c m = Some (PS4_OK, m') /\ cache_inv R' m' /\ caches m' !! c = None /\ framed R m R' m' /\
    only_freed (c :: match h with Some t => items t ++ [tbl_at t; buckets_at t] | None => [] end) m m' /\
    (forall t e, h = Some t -> e ∈ items t -> exists en n,
       entries m !! e = Some en /\ allocs m !! name en = Some n /\ allocs m' !! name en = Some n) /\
    (forall c' s, c' <> c -> is_Some (caches m !! c') -> exists r,
       ps4KernelCacheGet c' s OPtr m = Some (r, m) /\ ps4KernelCacheGet c' s OPtr m' = Some (r, m')).
Proof.
  intros Hi Hrd Hc. destruct (cache_destroy_run R m c h Hi Hrd Hc) as (R' & m' & E & Hi' & Hc' & Ho & F & D).
  assert (only_freed (c :: match h with Some t => items t ++ [tbl_at t; buckets_at t] | None => [] end) m m') as D'
    by (unfold cache_items, table_blocks in D; rewrite Hc in D; by destruct h).
  exists R', m'. do 5 (split; [done|]). split.
  - intros t e -> He. pose proof (inv_tables _ _ Hi _ _ Hc) as Ht. destruct (table_items _ _ _ _ Ht _ He) as (_ & k & v & nm & n & Hen & Hr & Hal & _).
    eexists _, n. split; [exact Hen|]. split; [done|]. cbn [name]. rewrite D', decide_False; [done|].
    pose proof (inv_caches _ _ Hi _ _ Hc). pose proof (table_tbl _ _ _ _ Ht). pose proof (table_bkts _ _ _ _ Ht).
    rewrite elem_of_cons, elem_of_app, !elem_of_cons, elem_of_nil. intros [->|[Hin|[->|[->|[]]]]]; try congruence.
    destruct (table_items _ _ _ _ Ht _ Hin). congruence.
  - intros c' s Hne Hal. destruct (Ho c' Hne) as [Hv Ha']. destruct (Ha' Hal) as [h' Hh']. destruct Hal as [h0 Hh0].
    eexists. split; [by eapply cache_get_run|]. by rewrite (cache_get_run R' m' c' h' s Hi' Hh'), Hv.
Qed.

(** A new cache is empty, apart from every other cache, and can be destroyed
    with whatever it holds by then: its object is freed and the other caches
    are as they were. *)
Theorem cache_lifecycle R m s v :
  cache_inv R m -> ready m -> cost 8 + set_room None <= kroom m ->
  exists c R1 m1 R2 m2,
    ps4KernelCacheCreate OPtr m = Some ((PS4_OK, Some c), m1) /\ caches m !! c = None /\ cache_inv R1 m1 /\
    ps4KernelCacheGet c s OPtr m1 = Some ((PS4_ERROR_NOT_FOUND, Some NULL), m1) /\
    (do! ps4KernelCacheSet c s v in ps4KernelCacheDestroy c) m1 = Some (PS4_OK, m2) /\ cache_inv R2 m2 /\
    allocs m2 !! c = None /\ framed R m R2 m2 /\
    forall c', c' <> c -> view m2 c' = view m c'.
Proof.
  intros Hi Hrd Hroom. assert (0 <= set_room None) as Hs by (vm_compute; discriminate).
  assert (0 <= cost 8) as H8 by (vm_compute; discriminate).
  destruct (cache_create_run R m Hi Hrd) as (c & R1 & m1 & E1 & Hc1 & Hi1 & Hv1 & Hn & Hvo1 & F1 & _ & Hr1); [lia|].
  assert (ready m1) as Hrd1 by (apply (core_ready m); [apply F1 | done]).
  assert (cache_items m1 c = []) as El by (unfold cache_items; by rewrite Hc1).
  destruct (cache_set_run R1 m1 c None s v Hi1 Hrd1 Hc1) as (R2 & m2 & E2 & Hi2 & Hv2 & Hvo2 & F2 & A2 & Hr2); [by rewrite El | lia|].
  destruct (A2 c ltac:(by eexists)) as [h2 Hc2]. assert (ready m2) as Hrd2 by (apply (core_ready m1); [apply F2 | done]).
  destruct (cache_destroy_run R2 m2 c h2 Hi2 Hrd2 Hc2) as (R3 & m3 & E3 & Hi3 & Hc3 & Hvo3 & F3 & D3).
  exists c, R1, m1, R3, m3. split; [done|]. split; [done|]. split; [done|].
  split; [rewrite (cache_get_run R1 m1 c None s Hi1 Hc1), Hv1; by rewrite lookup_empty|].
  split; [by erewrite bind_some by exact E2|]. split; [done|]. split; [rewrite D3; by rewrite decide_True by left|].
  split; [eapply framed_trans; [exact F1|]; by eapply framed_trans|].
  intros c' Hne. destruct (Hvo3 c' Hne) as [-> _]. by rewrite Hvo2, Hvo1.
Qed.
End Properties.

(** ** Witnesses *)

(** A machine with one empty cache, and the given bytes and variables. *)
Definition cache_machine (bytes : list (Z * list Z)) (statics : list (string * Z)) : machine :=
  set_caches {[ 2 ^ 63 := None ]} (set_allocs {[ 2 ^ 63 := 8 ]} (booted ((2 ^ 63, repeat 0 8) :: bytes) [] statics)).

Lemma cache_machine_inv bytes statics : cache_inv {[ 2 ^ 63 := RCache ]} (cache_machine bytes statics).
Proof.
  set (m := cache_machine bytes statics). assert (allocs m = {[ 2 ^ 63 := 8 ]}) as Ea by done.
  assert (caches m = {[ 2 ^ 63 := None ]}) as Ec by done. split; rewrite ?Ea, ?Ec.
  - split; rewrite ?Ea.
    + intros a n x [<- <-]%lookup_singleton_Some Hx. unfold in_block in Hx. split; [|by apply not_elem_of_empty].
      change (mem m) with (mem_write (foldr (fun p mm => mem_write mm p.1 p.2) ∅ bytes) (2 ^ 63) (repeat 0 8)).
      rewrite lookup_mem_write, repeat_length. change (Z.of_nat 8) with 8.
      replace (_ && _) with true by (symmetry; apply andb_true_iff; split; zbool; lia || done).
      apply lookup_lt_is_Some. rewrite repeat_length. lia.
    + intros a n b k x [<- <-]%lookup_singleton_Some [<- <-]%lookup_singleton_Some. done.
    + intros a n [<- <-]%lookup_singleton_Some. done.
  - intros a r [<- <-]%lookup_singleton_Some. rewrite lookup_singleton_eq. by eexists.
  - intros c h [<- <-]%lookup_singleton_Some. by rewrite lookup_singleton_eq.
  - by intros c t [_ ?]%lookup_singleton_Some.
  - by intros c t [_ ?]%lookup_singleton_Some.
Qed.

Definition one_cache : machine := cache_machine [] [(ps4KernelMemoryType, 1)].

Lemma one_cache_inv : cache_inv {[ 2 ^ 63 := RCache ]} one_cache.
Proof. apply cache_machine_inv. Qed.

Section Witnesses.
#[local] Existing Instance bump_allocator.
#[local] Existing Instance bump_allocator_laws.
#[local] Existing Instance bump_room_laws.
#[local] Instance no_symbols : KernelDlSym := table_dlsym [].

Lemma cache_set_refines_witness :
  exists R' m', ps4KernelCacheSet (2 ^ 63) "Giant" 0x1234 one_cache = Some (PS4_OK, m') /\ cache_inv R' m'.
Proof.
  destruct (cache_set_refines {[ 2 ^ 63 := RCache ]} one_cache (2 ^ 63) None "Giant" 0x1234) as (R' & m' & E & Hi & _);
    [apply one_cache_inv | done | done | vm_compute; reflexivity | vm_compute; discriminate|].
  exists R', m'. split; [exact E | exact Hi].
Defined.

Lemma cache_delete_refines_witness :
  exists m1 R' m', ps4KernelCacheSet (2 ^ 63) "Giant" 0x1234 one_cache = Some (PS4_OK, m1) /\
    ps4KernelCacheDelete (2 ^ 63) "Giant" m1 = Some (PS4_OK, m') /\ cache_inv R' m'.
Proof.
  destruct (cache_set_run {[ 2 ^ 63 := RCache ]} one_cache (2 ^ 63) None "Giant" 0x1234)
    as (R1 & m1 & E1 & Hi1 & Hv1 & _ & F1 & A1 & _);
    [apply one_cache_inv | done | done | vm_compute; reflexivity | vm_compute; discriminate|].
  destruct (A1 (2 ^ 63)) as [h1 Hc1]; [vm_compute; by eexists|].
  destruct (cache_delete_refines R1 m1 (2 ^ 63) h1 "Giant" 0x1234) as (R' & m' & E & Hi & _).
  - exact Hi1.
  - apply (core_ready one_cache); [apply F1 | done].
  - exact Hc1.
  - rewrite (cache_get_run R1 m1 (2 ^ 63) h1 "Giant" Hi1 Hc1), Hv1. by rewrite lookup_insert_eq.
  - exists m1, R', m'. split; [exact E1|]. split; [exact E | exact Hi].
Defined.

Lemma cache_destroy_frees_witness :
  exists m1 m', ps4KernelCacheSet (2 ^ 63) "Giant" 0x1234 one_cache = Some (PS4_OK, m1) /\
    ps4KernelCacheDestroy (2 ^ 63) m1 = Some (PS4_OK, m') /\
    only_freed (2 ^ 63 :: cache_items m1 (2 ^ 63) ++ table_blocks m1 (2 ^ 63)) m1 m'.
Proof.
  destruct (cache_set_run {[ 2 ^ 63 := RCache ]} one_cache (2 ^ 63) None "Giant" 0x1234)
    as (R1 & m1 & E1 & Hi1 & _ & _ & F1 & A1 & _);
    [apply one_cache_inv | done | done | vm_compute; reflexivity | vm_compute; discriminate|].
  destruct (A1 (2 ^ 63)) as [h1 Hc1]; [vm_compute; by eexists|].
  destruct (cache_destroy_frees R1 m1 (2 ^ 63) h1) as (R' & m' & E & _ & _ & _ & D & _).
  - exact Hi1.
  - apply (core_ready one_cache); [apply F1 | done].
  - exact Hc1.
  - exists m1, m'. split; [exact E1|]. split; [exact E|]. unfold cache_items, table_blocks. rewrite Hc1. by destruct h1.
Defined.

Lemma cache_lifecycle_witness :
  exists c m1 m2, ps4KernelCacheCreate OPtr one_cache = Some ((PS4_OK, Some c), m1) /\
    (do! ps4KernelCacheSet c "Giant" 1 in ps4KernelCacheDestroy c) m1 = Some (PS4_OK, m2).
Proof.
  destruct (cache_lifecycle {[ 2 ^ 63 := RCache ]} one_cache "Giant" 1) as (c & R1 & m1 & R2 & m2 & E1 & _ & _ & _ & E2 & _);
    [apply one_cache_inv | done | vm_compute; discriminate|].
  exists c, m1, m2. split; [exact E1 | exact E2].
Defined.
End Witnesses.
