(* ===== verification/UthashLinks.v ===== *)
(** * The links of a hash table (include/third_party/kernel/uthash/uthash.h)

    Uthash.v and Cache.v keep the lists of a table as Rocq lists. Here are the
    pointers: every element embeds a handle with the links of two doubly
    linked lists, the elements in the order they were added ([prev], [next]:
    addresses of elements) and the chain of its bucket ([hh_prev], [hh_next]:
    addresses of handles). The macros that add, delete and expand are written
    out on them, and a simulation shows that they do to the pointers what the
    list operations, and with them the macros of Cache.v, do to the lists. *)

From stdpp Require Import base gmap list.
From S2P Require Import Prelude Errors Uthash Machine Reference KernelBase KernelMemory Cache CacheMap.

(** ** Pointers *)

(** The links of [UT_hash_handle]. *)
Record hash_links := Links { prev : Z; next : Z; hh_prev : Z; hh_next : Z }.

Definition set_prev (v : Z) (k : hash_links) := Links v (next k) (hh_prev k) (hh_next k).
Definition set_next (v : Z) (k : hash_links) := Links (prev k) v (hh_prev k) (hh_next k).
Definition set_hh_prev (v : Z) (k : hash_links) := Links (prev k) (next k) v (hh_next k).
Definition set_hh_next (v : Z) (k : hash_links) := Links (prev k) (next k) (hh_prev k) v.

(** [UT_hash_bucket] *)
Record linked_bucket := LinkedBucket { hh_head : Z; lcount : Z; lmult : Z }.

(** The handles in memory by their addresses, the caller's [head], and the
    fields of [*head->hh.tbl] but the addresses of its blocks. *)
Record linked := Linked {
  handles : gmap Z hash_links;
  lhead : Z;
  ltail : Z;
  lbuckets : list linked_bucket;
  lnum_buckets : Z;
  llog2 : Z;
  lnum_items : Z;
  lideal : Z;
  lnonideal : Z;
  lineff : Z;
  lnoexpand : Z
}.

Definition set_handles (x : gmap Z hash_links) (s : linked) : linked :=
  Linked x (lhead s) (ltail s) (lbuckets s) (lnum_buckets s) (llog2 s) (lnum_items s) (lideal s) (lnonideal s) (lineff s) (lnoexpand s).
Definition set_head (x : Z) (s : linked) : linked :=
  Linked (handles s) x (ltail s) (lbuckets s) (lnum_buckets s) (llog2 s) (lnum_items s) (lideal s) (lnonideal s) (lineff s) (lnoexpand s).
Definition set_tail (x : Z) (s : linked) : linked :=
  Linked (handles s) (lhead s) x (lbuckets s) (lnum_buckets s) (llog2 s) (lnum_items s) (lideal s) (lnonideal s) (lineff s) (lnoexpand s).
Definition set_lbuckets (x : list linked_bucket) (s : linked) : linked :=
  Linked (handles s) (lhead s) (ltail s) x (lnum_buckets s) (llog2 s) (lnum_items s) (lideal s) (lnonideal s) (lineff s) (lnoexpand s).
Definition set_lnum_items (x : Z) (s : linked) : linked :=
  Linked (handles s) (lhead s) (ltail s) (lbuckets s) (lnum_buckets s) (llog2 s) x (lideal s) (lnonideal s) (lineff s) (lnoexpand s).

Abbreviation L := (ST linked).

(** A field of the handle at [h], and a store to it; nothing is at NULL. *)
Definition link (f : hash_links -> Z) (h : Z) : L Z :=
  fun s => match handles s !! h with Some k => Some (f k, s) | None => None end.
Definition relink (f : hash_links -> hash_links) (h : Z) : L unit :=
  fun s => match handles s !! h with Some _ => Some (tt, set_handles (alter f h (handles s)) s) | None => None end.

Definition bucket_get (i : nat) : L linked_bucket :=
  fun s => match lbuckets s !! i with Some b => Some (b, s) | None => None end.
Definition bucket_put (i : nat) (b : linked_bucket) : L unit := modify (fun s => set_lbuckets (<[i := b]> (lbuckets s)) s).

(** ** The macros *)

(** Where the handle is in its element: behind [name] and [value] in a
    [Ps4KernelCacheEntry]. *)
Definition hho : Z := 16.

Section Macros.
(** The elements' [hashv], which only their adding sets. *)
Context (hv : Z -> Z).

Definition link_DEL_IN_BKT (i : nat) (hh_del : Z) : L unit :=
  let! b := bucket_get i in
  do! bucket_put i (LinkedBucket (hh_head b) (u32 (lcount b - 1)) (lmult b)) in
  let! b := bucket_get i in
  do! (if hh_head b =? hh_del then
         let! n := link hh_next hh_del in bucket_put i (LinkedBucket n (lcount b) (lmult b))
       else ret tt) in
  let! p := link hh_prev hh_del in
  do! (if p =? 0 then ret tt else let! n := link hh_next hh_del in relink (set_hh_next n) p) in
  let! n := link hh_next hh_del in
  if n =? 0 then ret tt else let! p := link hh_prev hh_del in relink (set_hh_prev p) n.

(** The blocks of the table are freed where [head] becomes NULL. *)
Definition link_DELETE (del : Z) : L unit :=
  let! p := link prev (del + hho) in
  let! n := link next (del + hho) in
  if (p =? 0) && (n =? 0) then modify (set_head 0)
  else
    let! t := gets ltail in
    do! (if del =? t - hho then let! p := link prev (del + hho) in modify (set_tail (p + hho)) else ret tt) in
    let! p := link prev (del + hho) in
    let! n := link next (del + hho) in
    do! (if p =? 0 then modify (set_head n) else relink (set_next n) (p + hho)) in
    let! n := link next (del + hho) in
    do! (if n =? 0 then ret tt else let! p := link prev (del + hho) in relink (set_prev p) (n + hho)) in
    let! nb := gets lnum_buckets in
    do! link_DEL_IN_BKT (Z.to_nat (HASH_TO_BKT (hv del) nb)) (del + hho) in
    modify (fun s => set_lnum_items (u32 (lnum_items s - 1)) s).

(** The [while] loop of the expansion over one old bucket, from [thh] on, with
    the new buckets and the count of non-ideal items. *)
Fixpoint link_move (fuel : nat) (thh : Z) (acc : list linked_bucket * Z) : L (list linked_bucket * Z) :=
  match fuel with
  | O => fault
  | S fuel' =>
      if thh =? 0 then ret acc
      else
        let! nxt := link hh_next thh in
        let! nb := gets lnum_buckets in
        let! ideal := gets lideal in
        let i := Z.to_nat (HASH_TO_BKT (hv (thh - hho)) (u32 (nb * 2))) in
        match fst acc !! i with
        | None => fault
        | Some b =>
            let c := u32 (lcount b + 1) in
            let! r := (if ideal <? c then if ideal =? 0 then fault else ret (c / ideal, u32 (snd acc + 1))
                       else ret (lmult b, snd acc)) in
            do! relink (set_hh_prev 0) thh in
            do! relink (set_hh_next (hh_head b)) thh in
            do! (if hh_head b =? 0 then ret tt else relink (set_hh_prev thh) (hh_head b)) in
            link_move fuel' nxt (<[i := LinkedBucket thh c (fst r)]> (fst acc), snd r)
        end
  end.

(** Its [for] loop over the old buckets. *)
Fixpoint link_move_all (fuel : nat) (old : list linked_bucket) (acc : list linked_bucket * Z) : L (list linked_bucket * Z) :=
  match old with
  | [] => ret acc
  | b :: old' => let! acc := link_move fuel (hh_head b) acc in link_move_all fuel old' acc
  end.

(** [ceil(items / (2 * buckets))] as the expansion works it out. *)
Definition link_ideal (s : linked) : Z :=
  u32 (Z.shiftr (lnum_items s) (llog2 s + 1) +
    (if Z.land (lnum_items s) (u32 (u32 (lnum_buckets s * 2) - 1)) =? 0 then 0 else 1)).

Definition link_EXPAND_BUCKETS (fuel : nat) : L unit :=
  do! modify (fun s => Linked (handles s) (lhead s) (ltail s) (lbuckets s) (lnum_buckets s) (llog2 s) (lnum_items s)
                         (link_ideal s) 0 (lineff s) (lnoexpand s)) in
  let! old := gets lbuckets in
  let! nb := gets lnum_buckets in
  let! r := link_move_all fuel old (repeat (LinkedBucket 0 0 0) (Z.to_nat (2 * nb)), 0) in
  modify (fun s =>
    let ineff := if Z.shiftr (lnum_items s) 1 <? snd r then u32 (lineff s + 1) else 0 in
    Linked (handles s) (lhead s) (ltail s) (fst r) (u32 (lnum_buckets s * 2)) (u32 (llog2 s + 1)) (lnum_items s)
      (lideal s) (snd r) ineff (if 1 <? ineff then 1 else lnoexpand s)).

Definition link_ADD_TO_BKT (fuel i : nat) (addhh : Z) : L unit :=
  let! b := bucket_get i in
  do! bucket_put i (LinkedBucket (hh_head b) (u32 (lcount b + 1)) (lmult b)) in
  let! b := bucket_get i in
  do! relink (set_hh_next (hh_head b)) addhh in
  do! relink (set_hh_prev 0) addhh in
  do! (if hh_head b =? 0 then ret tt else relink (set_hh_prev addhh) (hh_head b)) in
  do! bucket_put i (LinkedBucket addhh (lcount b) (lmult b)) in
  let! noexpand := gets lnoexpand in
  if (u32 (u32 (lmult b + 1) * HASH_BKT_CAPACITY_THRESH) <=? lcount b) && negb (noexpand =? 1)
  then link_EXPAND_BUCKETS fuel else ret tt.

(** [HASH_MAKE_TABLE]: the fields of a table that was just allocated. *)
Definition link_MAKE_TABLE (s : linked) : linked :=
  Linked (handles s) (lhead s) (lhead s + hho) (repeat (LinkedBucket 0 0 0) (Z.to_nat HASH_INITIAL_NUM_BUCKETS))
    HASH_INITIAL_NUM_BUCKETS HASH_INITIAL_NUM_BUCKETS_LOG2 0 0 0 0 0.

Definition link_ADD_KEYPTR (fuel : nat) (add : Z) : L unit :=
  do! relink (set_next 0) (add + hho) in
  let! h := gets lhead in
  do! (if h =? 0 then
         do! modify (set_head add) in
         do! relink (set_prev 0) (add + hho) in
         modify link_MAKE_TABLE
       else
         let! t := gets ltail in
         do! relink (set_next add) t in
         do! relink (set_prev (t - hho)) (add + hho) in
         modify (set_tail (add + hho))) in
  do! modify (fun s => set_lnum_items (u32 (lnum_items s + 1)) s) in
  let! nb := gets lnum_buckets in
  link_ADD_TO_BKT fuel (Z.to_nat (HASH_TO_BKT (hv add) nb)) (add + hho).

(** The loop of [HASH_FIND_IN_BKT] along [hh_next]: the elements it looks at. *)
Fixpoint link_walk (fuel : nat) (h : Z) : L (list Z) :=
  match fuel with
  | O => fault
  | S fuel' =>
      if h =? 0 then ret []
      else let! n := link hh_next h in let! l := link_walk fuel' n in ret ((h - hho) :: l)
  end.
End Macros.

(** ** Doubly linked lists *)

Lemma lookup_relinked (f : hash_links -> hash_links) h (H : gmap Z hash_links) x :
  alter f h H !! x = if decide (x = h) then f <$> H !! x else H !! x.
Proof. destruct (decide (x = h)) as [->|Hne]; [by rewrite lookup_alter_eq | by rewrite lookup_alter_ne]. Qed.

Section Dll.
(** The two links of a handle that make up the list, and what points to an
    element in it. *)
Context (gp gn : hash_links -> Z) (pt : Z -> Z).

Definition ptr (o : option Z) : Z := match o with Some e => pt e | None => 0 end.

(** Every element's handle points to its neighbours. *)
Definition dll (H : gmap Z hash_links) (l : list Z) : Prop :=
  forall l1 e l2, l = l1 ++ e :: l2 -> exists k, H !! (e + hho) = Some k /\ gp k = ptr (last l1) /\ gn k = ptr (head l2).

(** [H'] has the links of [H] at [x], but for those given. *)
Definition relinked (H H' : gmap Z hash_links) (x : Z) (p n : option Z) : Prop :=
  forall k, H !! (x + hho) = Some k ->
    exists k', H' !! (x + hho) = Some k' /\ gp k' = default (gp k) p /\ gn k' = default (gn k) n.

Lemma dll_nil H : dll H [].
Proof. intros [|] ? ? ?; done. Qed.

Lemma dll_has H l e : dll H l -> e ∈ l -> is_Some (H !! (e + hho)).
Proof. intros Hd (l1 & l2 & ->)%list_elem_of_split. destruct (Hd l1 e l2 eq_refl) as (k & -> & _). by eexists. Qed.

Lemma dll_frame H H' l : (forall x, x ∈ l -> relinked H H' x None None) -> dll H l -> dll H' l.
Proof.
  intros Hr Hd l1 e l2 ->. destruct (Hd l1 e l2 eq_refl) as (k & Hk & <- & <-).
  destruct (Hr e ltac:(set_solver) k Hk) as (k' & ? & ? & ?). by exists k'.
Qed.

Lemma app_cons_cases {A} (a b c d : list A) x :
  a ++ b = c ++ x :: d -> (exists e, a = c ++ x :: e /\ d = e ++ b) \/ (exists e, c = a ++ e /\ b = e ++ x :: d).
Proof.
  revert c. induction a as [|y a IH]; intros c E; [right; by exists c|]. destruct c as [|z c]; injection E as -> E.
  - left. by exists a.
  - destruct (IH c E) as [(e & -> & ->)|(e & -> & ->)]; [left | right]; by exists e.
Qed.

(** Taking an element out: its neighbours are linked to each other. *)
Lemma dll_unlink H H' l1 e l2 :
  NoDup (l1 ++ e :: l2) -> dll H (l1 ++ e :: l2) ->
  (forall x, x ∈ l1 ++ l2 -> relinked H H' x (if decide (head l2 = Some x) then Some (ptr (last l1)) else None)
                                             (if decide (last l1 = Some x) then Some (ptr (head l2)) else None)) ->
  dll H' (l1 ++ l2).
Proof.
  intros Hnd Hd Hr a x b E. apply NoDup_app in Hnd as (N1 & N12 & [N2 N3]%NoDup_cons).
  destruct (app_cons_cases _ _ _ _ _ E) as [(c & -> & ->)|(c & -> & ->)].
  - destruct (Hd a x (c ++ e :: l2)) as (k & Hk & Ep & En); [by rewrite <- app_assoc|].
    destruct (Hr x ltac:(set_solver) k Hk) as (k' & Hk' & Ep' & En'). exists k'. split; [done|].
    rewrite decide_False in Ep' by (intros Hh; apply (N12 x); [set_solver|]; destruct l2; [done|]; set_solver).
    split; [by rewrite Ep'|]. rewrite En'. apply NoDup_app in N1 as (_ & _ & [N4 _]%NoDup_cons). destruct c as [|y c].
    + by rewrite last_snoc, decide_True.
    + rewrite decide_False; [done|]. rewrite last_app, last_cons_cons. intros Hl. apply N4.
      destruct (last (y :: c)) eqn:El; [|by apply last_None in El]. injection Hl as ->. by apply last_Some_elem_of in El.
  - destruct (Hd (l1 ++ e :: c) x b) as (k & Hk & Ep & En); [by rewrite <- app_assoc|].
    destruct (Hr x ltac:(set_solver) k Hk) as (k' & Hk' & Ep' & En'). exists k'. split; [done|].
    rewrite (decide_False (P := last l1 = Some x)) in En' by (intros Hh%last_Some_elem_of; apply (N12 x Hh); set_solver).
    split; [|by rewrite En']. rewrite Ep'. apply NoDup_app in N3 as (_ & N4 & _). destruct c as [|y c].
    + by rewrite decide_True, app_nil_r.
    + rewrite decide_False by (intros [= ->]; apply (N4 x); set_solver). cbn [default]. unfold id. rewrite Ep.
      rewrite !last_app. by rewrite last_cons_cons.
Qed.

(** Adding one behind the last. *)
Lemma dll_snoc H H' l e k :
  NoDup l -> dll H l -> (forall x, x ∈ l -> relinked H H' x None (if decide (last l = Some x) then Some (pt e) else None)) ->
  H' !! (e + hho) = Some k -> gp k = ptr (last l) -> gn k = 0 -> dll H' (l ++ [e]).
Proof.
  intros Hnd Hd Hr He Ep En a x b E. destruct (app_cons_cases _ _ _ _ _ E) as [(c & -> & ->)|(c & -> & Ec)].
  - destruct (Hd a x c eq_refl) as (k' & Hk & Ep' & En'). destruct (Hr x ltac:(set_solver) k' Hk) as (k'' & Hk' & Ep'' & En'').
    exists k''. split; [done|]. split; [by rewrite Ep''|]. rewrite En''. apply NoDup_app in Hnd as (_ & _ & [N4 _]%NoDup_cons). destruct c as [|y c].
    + by rewrite last_snoc, decide_True.
    + rewrite decide_False; [done|]. rewrite last_app, last_cons_cons. intros Hl. apply N4.
      destruct (last (y :: c)) eqn:El; [|by apply last_None in El]. injection Hl as ->. by apply last_Some_elem_of in El.
  - destruct c as [|y [|]]; [|done..]. injection Ec as -> <-. exists k. rewrite app_nil_r. done.
Qed.

(** Adding one before the first. *)
Lemma dll_cons H H' l e k :
  NoDup l -> dll H l -> (forall x, x ∈ l -> relinked H H' x (if decide (head l = Some x) then Some (pt e) else None) None) ->
  H' !! (e + hho) = Some k -> gp k = 0 -> gn k = ptr (head l) -> dll H' (e :: l).
Proof.
  intros Hnd Hd Hr He Ep En [|y a] x b E; injection E as -> ->; [by exists k|].
  destruct (Hd a x b eq_refl) as (k' & Hk & Ep' & En'). destruct (Hr x ltac:(set_solver) k' Hk) as (k'' & Hk' & Ep'' & En'').
  exists k''. split; [done|]. split; [|by rewrite En'']. rewrite Ep''. destruct a as [|z a].
  - by rewrite decide_True.
  - rewrite decide_False by (intros [= ->]; apply NoDup_cons in Hnd as [Hx _]; set_solver). cbn [default]. unfold id. rewrite Ep'. by rewrite !last_cons_cons.
Qed.
End Dll.

(** ** What the pointers stand for *)

Definition hh_ptr (e : Z) : Z := e + hho.
Abbreviation element_ptr := (fun e : Z => e).

Definition app_list : gmap Z hash_links -> list Z -> Prop := dll prev next element_ptr.
Definition bkt_list : gmap Z hash_links -> list Z -> Prop := dll hh_prev hh_next hh_ptr.

Record rep_bucket (H : gmap Z hash_links) (b : UT_hash_bucket) (lb : linked_bucket) : Prop := RepBucket {
  rep_chain : bkt_list H (chain b);
  rep_hh_head : hh_head lb = ptr hh_ptr (head (chain b));
  rep_count : lcount lb = count b;
  rep_mult : lmult lb = expand_mult b
}.

(** The lists and numbers of [t], by pointers. *)
Record represents (s : linked) (t : UT_hash_table) : Prop := Represents {
  rep_items : app_list (handles s) (items t);
  rep_head : lhead s = ptr element_ptr (head (items t));
  rep_tail : ltail s = ptr hh_ptr (last (items t));
  rep_buckets : Forall2 (rep_bucket (handles s)) (buckets t) (lbuckets s);
  rep_numbers : (lnum_buckets s, llog2 s, lnum_items s, lideal s, lnonideal s, lineff s, lnoexpand s) =
    (num_buckets t, log2_num_buckets t, num_items t, ideal_chain_maxlen t, nonideal_items t, ineff_expands t, noexpand t)
}.

(** What adding, deleting and expanding keep of a table. *)
Record table_good (hv : Z -> Z) (t : UT_hash_table) : Prop := TableGood {
  good_chains : chains_ok hv t;
  good_nodup : NoDup (items t);
  good_positive e : e ∈ items t -> 0 < e;
  good_count : num_items t = u32 (Z.of_nat (length (items t)));
  good_size : Z.of_nat (length (items t)) < 2 ^ 32
}.

(** ** Storing to links *)

Lemma ptr_zero pt o : (forall e, o = Some e -> pt e <> 0) -> (ptr pt o =? 0) = bool_decide (o = None).
Proof. intros Hp. destruct o as [e|]; cbn [ptr]; [|done]. rewrite (proj2 (Z.eqb_neq _ 0)) by (by apply Hp). by rewrite bool_decide_false. Qed.

(** A store through a pointer to the element [o], if there is one. *)
Definition relink_opt (f : hash_links -> hash_links) (o : option Z) (H : gmap Z hash_links) : gmap Z hash_links :=
  match o with Some y => alter f (y + hho) H | None => H end.

Lemma lookup_relink_opt f o H x :
  relink_opt f o H !! (x + hho) = if decide (o = Some x) then f <$> H !! (x + hho) else H !! (x + hho).
Proof.
  destruct o as [y|]; cbn [relink_opt]; [|by rewrite decide_False]. rewrite lookup_relinked.
  destruct (decide (x + hho = y + hho)), (decide (Some y = Some x)); try done; [|congruence]. assert (x = y) by lia. congruence.
Qed.

Lemma link_run f h s k : handles s !! h = Some k -> link f h s = Some (f k, s).
Proof. intros E. unfold link. by rewrite E. Qed.

Lemma relink_run f e s : is_Some (handles s !! (e + hho)) -> relink f (e + hho) s = Some (tt, set_handles (relink_opt f (Some e) (handles s)) s).
Proof. intros [k E]. unfold relink. by rewrite E. Qed.

Lemma if_relink o p key (F : Z -> hash_links -> hash_links) (c : L Z) n s :
  c s = Some (n, s) -> (p =? 0) = bool_decide (o = None) -> (forall y, o = Some y -> key = y + hho /\ is_Some (handles s !! (y + hho))) ->
  (if p =? 0 then ret tt else let! n := c in relink (F n) key) s = Some (tt, set_handles (relink_opt (F n) o (handles s)) s).
Proof.
  intros Ec -> Hk. destruct o as [y|]; cbn [relink_opt].
  - rewrite bool_decide_false by done. destruct (Hk y eq_refl) as [-> Hy]. erewrite bind_some by exact Ec. by apply relink_run.
  - rewrite bool_decide_true by done. unfold ret. by destruct s.
Qed.

(** The links after stores, by cases on which of them hit. *)
Ltac links := let k := fresh in let E := fresh in intros k E; rewrite ?lookup_relink_opt, E; repeat case_decide; eexists; (split; [reflexivity|]); split; reflexivity.

(** ** Deleting from a bucket *)

Lemma filter_other (e : Z) (l : list Z) : e ∉ l -> filter (fun x => x <> e) l = l.
Proof.
  induction l as [|x l IH]; intros Hn; [done|]. apply not_elem_of_cons in Hn as [? ?]. rewrite filter_cons_True by congruence. by rewrite IH.
Qed.

Lemma filter_split e l1 l2 : NoDup (l1 ++ e :: l2) -> filter (fun x : Z => x <> e) (l1 ++ e :: l2) = l1 ++ l2.
Proof.
  intros (_ & N1 & [N2 _]%NoDup_cons)%NoDup_app. rewrite filter_app, filter_cons_False by tauto.
  rewrite !filter_other; [done | done|]. intros H. by apply (N1 e H); left.
Qed.

(** Elements that are not in a list are not at its ends. *)
Lemma not_ends (x : Z) (l : list Z) : x ∉ l -> head l <> Some x /\ last l <> Some x.
Proof.
  intros Hx. split; intros E; apply Hx; [destruct l; [done|]; injection E as ->; left | by apply last_Some_elem_of].
Qed.

Lemma head_app_or {A} (l1 l2 : list A) : head (l1 ++ l2) = match l1 with [] => head l2 | _ => head l1 end.
Proof. by destruct l1. Qed.

Lemma hh_ptr_nonzero e : 0 < e -> hh_ptr e <> 0.
Proof. unfold hh_ptr, hho. lia. Qed.

(** The links of the chain around a deleted element. *)
Definition chain_unlinked (l1 l2 : list Z) (H : gmap Z hash_links) : gmap Z hash_links :=
  relink_opt (set_hh_prev (ptr hh_ptr (last l1))) (head l2) (relink_opt (set_hh_next (ptr hh_ptr (head l2))) (last l1) H).

Lemma chain_unlinked_app l1 l2 H x : relinked prev next H (chain_unlinked l1 l2 H) x None None.
Proof. unfold chain_unlinked. links. Qed.

Lemma chain_unlinked_hh l1 l2 H x :
  relinked hh_prev hh_next H (chain_unlinked l1 l2 H) x (if decide (head l2 = Some x) then Some (ptr hh_ptr (last l1)) else None)
    (if decide (last l1 = Some x) then Some (ptr hh_ptr (head l2)) else None).
Proof. unfold chain_unlinked. links. Qed.

Lemma del_in_bkt_run s i b lb l1 e l2 :
  lbuckets s !! i = Some lb -> rep_bucket (handles s) b lb -> chain b = l1 ++ e :: l2 -> NoDup (chain b) ->
  (forall x, x ∈ chain b -> 0 < x) ->
  let lb' := LinkedBucket (ptr hh_ptr (head (l1 ++ l2))) (u32 (lcount lb - 1)) (lmult lb) in
  link_DEL_IN_BKT i (hh_ptr e) s = Some (tt, set_lbuckets (<[i := lb']> (lbuckets s)) (set_handles (chain_unlinked l1 l2 (handles s)) s)) /\
  rep_bucket (chain_unlinked l1 l2 (handles s)) (HASH_DEL_IN_BKT b e) lb'.
Proof.
  intros Hi [Hch Hhd Hct Hmu] Ec Hnd Hpos lb'. rewrite Ec in Hch, Hhd, Hnd, Hpos. pose proof (lookup_lt_Some _ _ _ Hi) as Hl.
  split.
  2: { split; cbn [HASH_DEL_IN_BKT chain count expand_mult hh_head lcount lmult lb']; rewrite ?Ec, ?filter_split by done; try done; [|by rewrite Hct].
       apply (dll_unlink _ _ _ _ _ l1 e l2 Hnd Hch). intros x _. apply chain_unlinked_hh. }
  destruct (Hch l1 e l2 eq_refl) as (k & Hk & Ep & En).
  pose proof Hnd as (N1 & N2 & [N3 N4]%NoDup_cons)%NoDup_app.
  assert (e ∉ l1) as N5 by (intros H; by apply (N2 e H); left).
  assert (forall o, o = last l1 \/ o = head l2 -> forall y, o = Some y -> y <> e /\ 0 < y /\ is_Some (handles s !! (y + hho))) as Hends.
  { intros o Ho y ->. assert (y ∈ l1 ++ l2) as Hy.
    { destruct Ho as [Ho|Ho]; symmetry in Ho; [apply last_Some_elem_of in Ho; set_solver | destruct l2; [done|]; injection Ho as ->; set_solver]. }
    split; [intros ->; set_solver|]. split; [apply Hpos; set_solver | apply (dll_has _ _ _ _ _ _ Hch); set_solver]. }
  unfold link_DEL_IN_BKT, bucket_get, bucket_put. unfold bind at 1. rewrite Hi. unfold modify at 1. unfold bind at 1. unfold bind at 1.
  cbn [lbuckets set_lbuckets]. rewrite list_lookup_insert_eq by done. cbn [hh_head lcount lmult].
  set (s1 := set_lbuckets (<[i := LinkedBucket (hh_head lb) (u32 (lcount lb - 1)) (lmult lb)]> (lbuckets s)) s).
  assert (forall g, link g (hh_ptr e) s1 = Some (g k, s1)) as Lk by (intros g; by apply link_run).
  erewrite bind_some with (s' := set_lbuckets (<[i := lb']> (lbuckets s)) s).
  2: { rewrite Hhd. destruct l1 as [|y l1]; cbn [app head ptr].
       - rewrite Z.eqb_refl. erewrite bind_some by apply Lk. unfold modify. rewrite En. unfold s1, set_lbuckets. cbn. by rewrite list_insert_insert_eq.
       - rewrite (proj2 (Z.eqb_neq (hh_ptr y) (hh_ptr e))) by (unfold hh_ptr; intros ?; apply N5; assert (y = e) as -> by lia; left).
         unfold ret, s1, lb'. cbn [app head ptr]. by rewrite Hhd. }
  clear s1 Lk. set (s1 := set_lbuckets _ s).
  assert (forall H g, H !! (e + hho) = handles s !! (e + hho) -> link g (hh_ptr e) (set_handles H s1) = Some (g k, set_handles H s1)) as Lk
    by (intros H g E; apply link_run; cbn [handles set_handles]; unfold hh_ptr; by rewrite E).
  assert (s1 = set_handles (handles s) s1) as Es1 by done. rewrite Es1 at 1. erewrite bind_some by (by apply Lk). rewrite Ep.
  erewrite bind_some.
  2: { apply if_relink with (o := last l1); [by apply Lk | |].
       - apply ptr_zero. intros y Hy. apply hh_ptr_nonzero. by eapply Hends; [left|].
       - intros y Hy. rewrite Hy. split; [done|]. by eapply Hends; [left|]. }
  change (set_handles ?H (set_handles ?H' s1)) with (set_handles H s1). cbn [handles set_handles]. rewrite En.
  set (H1 := relink_opt _ (last l1) _). assert (H1 !! (e + hho) = handles s !! (e + hho)) as E1.
  { unfold H1. rewrite lookup_relink_opt, decide_False; [done|]. intros Hx. by destruct (Hends (last l1) (or_introl eq_refl) e Hx). }
  erewrite bind_some by (by apply Lk). rewrite En.
  erewrite if_relink with (o := head l2); [reflexivity | rewrite <- Ep; by apply Lk | |].
  - apply ptr_zero. intros y Hy. apply hh_ptr_nonzero. by eapply Hends; [right|].
  - intros y Hy. rewrite Hy. split; [done|]. cbn [handles set_handles]. unfold H1. rewrite lookup_relink_opt.
    destruct (Hends (head l2) (or_intror eq_refl) y Hy) as (_ & _ & [k' Hk']). case_decide; rewrite Hk'; by eexists.
Qed.

(** ** Deleting from a table *)

(** The table with its lists behind the deletion of [e]; [None] when none is left. *)
Definition list_DELETE (hv : Z -> Z) (e : Z) (t : UT_hash_table) : option (option UT_hash_table) :=
  if bool_decide (items t = [e]) then Some None
  else
    match buckets t !! bucket_of hv (num_buckets t) e with
    | None => None
    | Some b => Some (Some (set_buckets (<[bucket_of hv (num_buckets t) e := HASH_DEL_IN_BKT b e]> (buckets t))
                  (set_items (u32 (num_items t - 1)) (filter (fun x => x <> e) (items t)) t)))
    end.

(** What the caller's [head] stands for. *)
Definition rep (hv : Z -> Z) (s : linked) (h : option UT_hash_table) : Prop :=
  match h with
  | None => lhead s = 0
  | Some t => represents s t /\ table_good hv t /\ items t <> []
  end.

(** The links of the list of all elements around a deleted one. *)
Definition items_unlinked (l1 l2 : list Z) (H : gmap Z hash_links) : gmap Z hash_links :=
  relink_opt (set_prev (ptr element_ptr (last l1))) (head l2) (relink_opt (set_next (ptr element_ptr (head l2))) (last l1) H).

Lemma items_unlinked_hh l1 l2 H x : relinked hh_prev hh_next H (items_unlinked l1 l2 H) x None None.
Proof. unfold items_unlinked. links. Qed.

Lemma items_unlinked_app l1 l2 H x :
  relinked prev next H (items_unlinked l1 l2 H) x (if decide (head l2 = Some x) then Some (ptr element_ptr (last l1)) else None)
    (if decide (last l1 = Some x) then Some (ptr element_ptr (head l2)) else None).
Proof. unfold items_unlinked. links. Qed.

Lemma rep_bucket_frame H H' b lb : (forall x, x ∈ chain b -> relinked hh_prev hh_next H H' x None None) -> rep_bucket H b lb -> rep_bucket H' b lb.
Proof. intros Hr [Hc Hh Ht Hm]. split; [|done..]. by eapply dll_frame. Qed.

(** The neighbours of [e] in the list of all elements are linked to each other;
    the rest of the deletion is the bucket's. *)
Lemma delete_items_run hv s t e l1 l2 :
  represents s t -> items t = l1 ++ e :: l2 -> NoDup (items t) -> (forall x, x ∈ items t -> 0 < x) -> l1 ++ l2 <> [] ->
  let s1 := Linked (items_unlinked l1 l2 (handles s)) (ptr element_ptr (head (l1 ++ l2))) (ptr hh_ptr (last (l1 ++ l2)))
    (lbuckets s) (lnum_buckets s) (llog2 s) (lnum_items s) (lideal s) (lnonideal s) (lineff s) (lnoexpand s) in
  link_DELETE hv e s = (do! link_DEL_IN_BKT (bucket_of hv (num_buckets t) e) (hh_ptr e) in
                        modify (fun s => set_lnum_items (u32 (lnum_items s - 1)) s)) s1.
Proof.
  intros [Hit Hhd Htl _ Hnum] Ei Hnd Hpos Hne s1. injection Hnum as Hnb _ _ _ _ _ _. rewrite Ei in *.
  destruct (Hit l1 e l2 eq_refl) as (k & Hk & Ep & En). pose proof Hnd as (N1 & N2 & [N3 N4]%NoDup_cons)%NoDup_app.
  assert (e ∉ l1) as N5 by (intros H; by apply (N2 e H); left).
  assert (forall o, o = last l1 \/ o = head l2 -> forall y, o = Some y -> y <> e /\ 0 < y /\ is_Some (handles s !! (y + hho))) as Hends.
  { intros o Ho y ->. assert (y ∈ l1 ++ l2) as Hy.
    { destruct Ho as [Ho|Ho]; symmetry in Ho; [apply last_Some_elem_of in Ho; set_solver | destruct l2; [done|]; injection Ho as ->; set_solver]. }
    split; [intros ->; set_solver|]. split; [apply Hpos; set_solver | apply (dll_has _ _ _ _ _ _ Hit); set_solver]. }
  assert ((ptr element_ptr (last l1) =? 0) = bool_decide (last l1 = None)) as Zp
    by (apply ptr_zero; intros y Hy; destruct (Hends _ (or_introl eq_refl) y Hy) as (_ & ? & _); lia).
  assert ((ptr element_ptr (head l2) =? 0) = bool_decide (head l2 = None)) as Zn
    by (apply ptr_zero; intros y Hy; destruct (Hends _ (or_intror eq_refl) y Hy) as (_ & ? & _); lia).
  assert (forall H a b g, H !! (e + hho) = handles s !! (e + hho) -> link g (e + hho) (set_handles H (set_tail a (set_head b s))) =
    Some (g k, set_handles H (set_tail a (set_head b s)))) as Lk by (intros H a b g E; apply link_run; cbn [handles set_handles]; by rewrite E).
  assert (s = set_handles (handles s) (set_tail (ltail s) (set_head (lhead s) s))) as Es by (by destruct s).
  unfold link_DELETE. rewrite Es at 1. erewrite bind_some by (by apply Lk). erewrite bind_some by (by apply Lk). rewrite Ep, En, Zp, Zn.
  replace (bool_decide (last l1 = None) && bool_decide (head l2 = None)) with false.
  2: { symmetry. apply andb_false_iff. destruct l2 as [|y l2]; [left|by right]. destruct l1 as [|y l1]; [done|]. apply bool_decide_false.
       intros Hx%last_None. done. }
  erewrite bind_some by reflexivity. cbn [ltail set_handles set_tail]. rewrite Htl, last_app, last_cons.
  set (tl := ptr hh_ptr (last (l1 ++ l2))).
  erewrite bind_some with (s' := set_handles (handles s) (set_tail tl (set_head (lhead s) s))).
  2: { destruct (last l2) as [z|] eqn:El; cbn [ptr].
       - rewrite (proj2 (Z.eqb_neq e (hh_ptr z - hho))).
         + unfold ret, tl. rewrite last_app, El. cbn [ptr]. by rewrite Es at 1; rewrite Htl, last_app, last_cons, El.
         + unfold hh_ptr. intros ->. apply last_Some_elem_of in El. apply N3. by replace (z + hho - hho) with z by lia.
       - replace (hh_ptr e - hho) with e by (unfold hh_ptr; lia). rewrite Z.eqb_refl. erewrite bind_some by (by apply Lk). rewrite Ep.
         unfold modify, tl. rewrite last_app, El. apply last_None in El as ->. rewrite app_nil_r in Hne.
         destruct (last l1) as [y|] eqn:El1; [done | by apply last_None in El1]. }
  erewrite bind_some by (by apply Lk). erewrite bind_some by (by apply Lk). rewrite Ep, En, Zp.
  set (H1 := relink_opt (set_next (ptr element_ptr (head l2))) (last l1) (handles s)).
  assert (H1 !! (e + hho) = handles s !! (e + hho)) as E1.
  { unfold H1. rewrite lookup_relink_opt, decide_False; [done|]. intros Hx. by destruct (Hends (last l1) (or_introl eq_refl) e Hx). }
  erewrite bind_some with (s' := set_handles H1 (set_tail tl (set_head (ptr element_ptr (head (l1 ++ l2))) s))).
  2: { unfold H1. destruct (last l1) as [y|] eqn:El1.
       - rewrite bool_decide_false by done. cbn [ptr]. rewrite relink_run by (cbn [handles set_handles]; by eapply Hends; [left|]).
         rewrite Hhd. destruct l1; [done|]. done.
       - apply last_None in El1 as ->. done. }
  erewrite bind_some by (by apply Lk). rewrite En.
  erewrite bind_some.
  2: { apply if_relink with (o := head l2); [by apply Lk | done|]. intros y Hy. rewrite Hy. split; [done|]. cbn [handles set_handles].
       unfold H1. rewrite lookup_relink_opt. destruct (Hends (head l2) (or_intror eq_refl) y Hy) as (_ & _ & [k' Hk']). case_decide; rewrite Hk'; by eexists. }
  erewrite bind_some by reflexivity. cbn [lnum_buckets set_handles set_tail set_head handles]. rewrite Hnb, Ep. reflexivity.
Qed.

Lemma table_good_del hv t e b :
  table_good hv t -> e ∈ items t -> buckets t !! bucket_of hv (num_buckets t) e = Some b ->
  table_good hv (set_buckets (<[bucket_of hv (num_buckets t) e := HASH_DEL_IN_BKT b e]> (buckets t))
                   (set_items (u32 (num_items t - 1)) (filter (fun x => x <> e) (items t)) t)).
Proof.
  intros [Hc Hn Hp Hct Hsz] He Hb. pose proof (length_filter_remove e (items t) Hn He) as Hl.
  split; cbn [set_buckets set_items items num_items].
  - by apply chains_ok_del.
  - by apply NoDup_filter.
  - intros x [_ Hx]%list_elem_of_filter. by apply Hp.
  - rewrite Hct, u32_pred. f_equal. lia.
  - lia.
Qed.

(** No element is in two buckets. *)
Lemma buckets_apart hv t i j b c x :
  chains_ok hv t -> buckets t !! i = Some b -> buckets t !! j = Some c -> x ∈ chain b -> x ∈ chain c -> i = j.
Proof.
  intros Hc Hi Hj Hb Hx. destruct (chains_bucket _ _ Hc _ _ Hi) as (_ & _ & Eb). destruct (chains_bucket _ _ Hc _ _ Hj) as (_ & _ & Ec).
  apply Eb in Hb as [_ <-]. apply Ec in Hx as [_ <-]. done.
Qed.

Lemma links_delete_run hv s t e :
  represents s t -> table_good hv t -> e ∈ items t ->
  exists h' s', list_DELETE hv e t = Some h' /\ link_DELETE hv e s = Some (tt, s') /\ rep hv s' h'.
Proof.
  intros Hrep Hg He. pose proof Hg as [Hc Hn Hp Hct Hsz]. destruct (list_elem_of_split _ _ He) as (l1 & l2 & Ei).
  unfold list_DELETE. destruct (decide (l1 ++ l2 = [])) as [E0|Hne].
  - apply app_nil in E0 as [-> ->]. cbn [app] in Ei. rewrite Ei, bool_decide_true by done. exists None, (set_head 0 s). split; [done|]. split; [|done].
    destruct (rep_items _ _ Hrep [] e [] Ei) as (k & Hk & Ep & En). unfold link_DELETE.
    erewrite bind_some by (by apply link_run). erewrite bind_some by (by apply link_run). by rewrite Ep, En.
  - rewrite bool_decide_false by (rewrite Ei; intros E; apply Hne; destruct l1 as [|y l1]; [by injection E as -> | injection E as _ E; by apply app_eq_nil in E as [_ ?]]).
    destruct (bucket_lookup hv t e Hc) as (b & Hb & Heb). rewrite Hb.
    destruct (Forall2_lookup_l _ _ _ _ _ (rep_buckets _ _ Hrep) Hb) as (lb & Hlb & Hrb).
    rewrite (delete_items_run hv s t e l1 l2) by done. set (s1 := Linked _ _ _ _ _ _ _ _ _ _ _).
    destruct (chains_bucket _ _ Hc _ _ Hb) as (Hnb & _ & Hin). destruct (list_elem_of_split _ _ (proj2 Heb He)) as (c1 & c2 & Ec).
    assert (forall b0 lb0, rep_bucket (handles s) b0 lb0 -> rep_bucket (handles s1) b0 lb0) as Hfr
      by (intros b0 lb0; apply rep_bucket_frame; intros x _; apply items_unlinked_hh).
    destruct (del_in_bkt_run s1 (bucket_of hv (num_buckets t) e) b lb c1 e c2) as [E Hrb']; [done | by apply Hfr | done | done | intros x Hx; apply Hp; by apply Hin|].
    eexists _, _. split; [reflexivity|]. split; [erewrite bind_some by exact E; reflexivity|].
    split; [|split; [by apply table_good_del|]].
    2: { cbn [set_buckets set_items items]. rewrite Ei, filter_split by (by rewrite <- Ei). done. }
    destruct Hrep as [Hit Hhd Htl Hbs Hnum]. rewrite Ei in Hit. assert (NoDup (l1 ++ e :: l2)) as Hn' by (by rewrite <- Ei).
    assert (items (set_buckets (<[bucket_of hv (num_buckets t) e := HASH_DEL_IN_BKT b e]> (buckets t))
      (set_items (u32 (num_items t - 1)) (filter (fun x => x <> e) (items t)) t)) = l1 ++ l2) as Ei' by (cbn [set_buckets set_items items]; by rewrite Ei, filter_split).
    split; rewrite ?Ei'; cbn [handles set_lnum_items set_lbuckets set_handles lhead ltail lbuckets lnum_buckets llog2 lnum_items lideal lnonideal lineff lnoexpand s1].
    + apply (dll_frame _ _ _ (items_unlinked l1 l2 (handles s))); [intros x _; apply chain_unlinked_app|].
      apply (dll_unlink _ _ _ _ _ l1 e l2 Hn' Hit). intros x _. apply items_unlinked_app.
    + done.
    + done.
    + cbn [set_buckets buckets]. apply Forall2_lookup. intros j. destruct (decide (j = bucket_of hv (num_buckets t) e)) as [->|Hj].
      * rewrite !list_lookup_insert_eq by (by eapply lookup_lt_Some). by constructor.
      * rewrite !list_lookup_insert_ne by done. rewrite Forall2_lookup in Hbs. specialize (Hbs j).
        destruct (buckets t !! j) as [b0|] eqn:Ej; inversion Hbs as [? lb0 Hr0|]; simplify_eq; constructor.
        apply (rep_bucket_frame (handles s1)); [|by apply Hfr]. intros x Hx k Hk.
        destruct (chain_unlinked_hh c1 c2 (handles s1) x k Hk) as (k' & Hk' & Ep' & En'). exists k'. split; [done|].
        assert (x ∉ c1 ++ c2) as Hnx by (intros Hx'; apply Hj, (buckets_apart hv t j (bucket_of hv (num_buckets t) e) b0 b x Hc Ej Hb Hx); rewrite Ec; set_solver).
        rewrite !decide_False in * by (intros ?; apply Hnx; first [by apply elem_of_app; left; apply last_Some_elem_of | destruct c2; [done|]; simplify_eq/=; set_solver]). done.
    + cbn [set_buckets set_items num_buckets log2_num_buckets num_items ideal_chain_maxlen nonideal_items ineff_expands noexpand].
      by injection Hnum as -> -> -> -> -> -> ->.
Qed.

(** ** Linking an element before the first of a bucket *)

(** Behind the stores of [HASH_ADD_TO_BKT] and of the expansion's loop, in
    whichever order they set the new element's own two links. *)
Definition chain_linked (e : Z) (l : list Z) (H : gmap Z hash_links) : gmap Z hash_links :=
  relink_opt (set_hh_prev (hh_ptr e)) (head l)
    (relink_opt (fun k => Links (prev k) (next k) 0 (ptr hh_ptr (head l))) (Some e) H).

Lemma chain_linked_app e l H x : relinked prev next H (chain_linked e l H) x None None.
Proof. unfold chain_linked. links. Qed.

Lemma chain_linked_other e l H x : x <> e -> x ∉ l -> chain_linked e l H !! (x + hho) = H !! (x + hho).
Proof.
  intros Hne Hx. unfold chain_linked. rewrite !lookup_relink_opt, !decide_False; [done | congruence | by apply not_ends].
Qed.

Lemma chain_linked_list e l H :
  NoDup l -> e ∉ l -> is_Some (H !! (e + hho)) -> bkt_list H l -> bkt_list (chain_linked e l H) (e :: l).
Proof.
  intros Hnd He [k Hk] Hl. eapply (dll_cons _ _ _ H _ l e (Links (prev k) (next k) 0 (ptr hh_ptr (head l))) Hnd Hl); [|unfold chain_linked|done|done].
  - intros x Hx k' Hk'. unfold chain_linked. rewrite !lookup_relink_opt, (decide_False (P := Some e = Some x)), Hk' by congruence.
    case_decide; eexists; (split; [reflexivity|]); done.
  - rewrite !lookup_relink_opt, Hk, (decide_True (P := Some e = Some e)), decide_False; [done | by apply not_ends | done].
Qed.

Lemma chain_linked_bucket e H b lb c m :
  NoDup (chain b) -> e ∉ chain b -> is_Some (H !! (e + hho)) -> rep_bucket H b lb ->
  rep_bucket (chain_linked e (chain b) H) (Bucket (e :: chain b) c m) (LinkedBucket (hh_ptr e) c m).
Proof. intros Hnd He Hk [Hc _ _ _]. split; [|done..]. by apply chain_linked_list. Qed.

Lemma relink_opt_twice f g e H : relink_opt g (Some e) (relink_opt f (Some e) H) = relink_opt (fun k => g (f k)) (Some e) H.
Proof. cbn [relink_opt]. apply map_eq. intros x. rewrite !lookup_relinked. case_decide; [|done]. by destruct (H !! x). Qed.

(** The three stores. *)
Lemma link_first_run s e l f g :
  is_Some (handles s !! (e + hho)) -> bkt_list (handles s) l -> (forall x, x ∈ l -> 0 < x) -> e ∉ l ->
  (forall k, g (f k) = Links (prev k) (next k) 0 (ptr hh_ptr (head l))) ->
  (do! relink f (hh_ptr e) in
   do! relink g (hh_ptr e) in
   if ptr hh_ptr (head l) =? 0 then ret tt else relink (set_hh_prev (hh_ptr e)) (ptr hh_ptr (head l))) s =
  Some (tt, set_handles (chain_linked e l (handles s)) s).
Proof.
  intros He Hl Hp Hn Hfg. unfold hh_ptr at 1 2. erewrite bind_some by (by apply relink_run).
  assert (forall h o H, is_Some (H !! (o + hho)) -> is_Some (relink_opt h (Some e) H !! (o + hho))) as Hsome.
  { intros h o H [k Hk]. rewrite lookup_relink_opt, Hk. case_decide; by eexists. }
  erewrite bind_some by (apply relink_run; by apply Hsome). change (set_handles ?H (set_handles ?H' s)) with (set_handles H s).
  cbn [handles set_handles]. rewrite relink_opt_twice.
  replace (relink_opt (fun k => g (f k)) (Some e) (handles s)) with (relink_opt (fun k => Links (prev k) (next k) 0 (ptr hh_ptr (head l))) (Some e) (handles s)).
  2: { cbn [relink_opt]. apply map_eq. intros x. rewrite !lookup_relinked. case_decide; [|done]. destruct (handles s !! x); [|done]. cbn. by rewrite Hfg. }
  rewrite ptr_zero by (intros y Hy; apply hh_ptr_nonzero, Hp; destruct l; [done|]; injection Hy as ->; left). unfold chain_linked.
  destruct l as [|y l]; [done|]. cbn [head ptr]. rewrite bool_decide_false by done. change (relink ?h (hh_ptr y)) with (relink h (y + hho)).
  rewrite relink_run; [done|]. cbn [handles set_handles]. apply Hsome. apply (dll_has _ _ _ _ _ _ Hl). left.
Qed.

(** ** Expansion *)

(** What is left of an old chain can still be followed, though the first
    element's [hh_prev] is stale. *)
Definition fwd (H : gmap Z hash_links) (l : list Z) : Prop :=
  forall l1 e l2, l = l1 ++ e :: l2 -> exists k, H !! (e + hho) = Some k /\ hh_next k = ptr hh_ptr (head l2).

Lemma bkt_list_fwd H l : bkt_list H l -> fwd H l.
Proof. intros Hl l1 e l2 E. destruct (Hl l1 e l2 E) as (k & ? & _ & ?). by exists k. Qed.

Lemma fwd_tail H e l : fwd H (e :: l) -> fwd H l.
Proof. intros Hf l1 x l2 ->. by apply (Hf (e :: l1)). Qed.

Lemma fwd_frame H H' l : (forall x, x ∈ l -> H' !! (x + hho) = H !! (x + hho)) -> fwd H l -> fwd H' l.
Proof. intros Hr Hf l1 x l2 ->. rewrite Hr by set_solver. by apply (Hf l1). Qed.

Definition chains (bs : list UT_hash_bucket) : list Z := concat (chain <$> bs).

Lemma chains_insert bs i b b' e : bs !! i = Some b -> chain b' = e :: chain b -> chains (<[i := b']> bs) ≡ₚ e :: chains bs.
Proof.
  intros Hi Hc. apply list_elem_of_split_length in Hi as (l1 & l2 & -> & ->). rewrite insert_app_r_alt, Nat.sub_diag by lia.
  unfold chains. cbn [list_insert insert]. rewrite !fmap_app, !fmap_cons, !concat_app. cbn [concat]. rewrite Hc. cbn [app]. symmetry. apply Permutation_middle.
Qed.

Lemma chain_in_chains bs i b x : bs !! i = Some b -> x ∈ chain b -> x ∈ chains bs.
Proof.
  intros Hi Hx. apply list_elem_of_split_length in Hi as (l1 & l2 & -> & _). unfold chains. rewrite fmap_app, fmap_cons, concat_app. cbn [concat]. set_solver.
Qed.

Lemma chains_apart bs i j b c x : NoDup (chains bs) -> bs !! i = Some b -> bs !! j = Some c -> x ∈ chain b -> x ∈ chain c -> i = j.
Proof.
  revert i j. induction bs as [|a bs IH]; intros [|i] [|j] Hnd Hi Hj Hb Hc; try done; unfold chains in Hnd; rewrite fmap_cons in Hnd; cbn [concat] in Hnd;
    apply NoDup_app in Hnd as (_ & N1 & N2).
  - injection Hi as ->. destruct (N1 x Hb). by eapply (chain_in_chains bs).
  - injection Hj as ->. destruct (N1 x Hc). by eapply (chain_in_chains bs).
  - f_equal. by eapply IH.
Qed.

Lemma chain_nodup bs i b : NoDup (chains bs) -> bs !! i = Some b -> NoDup (chain b).
Proof.
  intros Hnd Hi. apply list_elem_of_split_length in Hi as (l1 & l2 & -> & _). unfold chains in Hnd. rewrite fmap_app, fmap_cons, concat_app in Hnd.
  by apply NoDup_app in Hnd as (_ & _ & [? _]%NoDup_app).
Qed.

(** Moving [e] to the bucket [i] of the new ones. *)
Lemma moved_buckets_rep H bs lbs i b lb e c m :
  NoDup (chains bs) -> e ∉ chains bs -> is_Some (H !! (e + hho)) -> Forall2 (rep_bucket H) bs lbs -> bs !! i = Some b -> lbs !! i = Some lb ->
  Forall2 (rep_bucket (chain_linked e (chain b) H)) (<[i := Bucket (e :: chain b) c m]> bs) (<[i := LinkedBucket (hh_ptr e) c m]> lbs).
Proof.
  intros Hnd He Hk Hbs Hi Hli. rewrite Forall2_lookup in Hbs |- *. intros j. pose proof (Hbs i) as Hbi. rewrite Hi, Hli in Hbi. inversion Hbi as [? ? Hr|]; subst.
  assert (forall x, x ∈ chain b -> x ∈ chains bs) as Hin by (intros x; by apply chain_in_chains with i).
  destruct (decide (j = i)) as [->|Hj].
  - rewrite !list_lookup_insert_eq by (by eapply lookup_lt_Some). constructor. apply (chain_linked_bucket _ _ _ lb); [by eapply chain_nodup | auto..].
  - rewrite !list_lookup_insert_ne by done. specialize (Hbs j). destruct (bs !! j) as [b'|] eqn:Ej; inversion Hbs as [? lb' Hr'|]; subst; constructor.
    apply (rep_bucket_frame H); [|done]. intros x Hx k' Hk'. exists k'. split; [|done]. rewrite chain_linked_other; [done | |].
    + intros ->. apply He. exact (chain_in_chains _ _ _ _ Ej Hx).
    + intros Hx'. apply Hj. by eapply (chains_apart bs j i b' b x).
Qed.

(** What a move of some elements into buckets leaves of the links. *)
Definition moved (H H' : gmap Z hash_links) (l : list Z) : Prop :=
  (forall x, relinked prev next H H' x None None) /\ forall x, x ∉ l -> H' !! (x + hho) = H !! (x + hho).

Lemma relinked_trans gp gn H0 H1 H2 x : relinked gp gn H0 H1 x None None -> relinked gp gn H1 H2 x None None -> relinked gp gn H0 H2 x None None.
Proof.
  intros R1 R2 k Hk. destruct (R1 k Hk) as (k1 & Hk1 & E1 & E2). destruct (R2 k1 Hk1) as (k2 & Hk2 & E3 & E4). exists k2.
  cbn [default] in *. unfold id in *. split; [done|]. by rewrite E3, E4.
Qed.

Section Expand.
Context (hv : Z -> Z).

Lemma link_move_run l : forall fuel s bs lbs ni bs' ni',
  fwd (handles s) l -> Forall2 (rep_bucket (handles s)) bs lbs -> NoDup (l ++ chains bs) -> (forall x, x ∈ l ++ chains bs -> 0 < x) -> (length l < fuel)%nat ->
  move_all hv (lideal s) (u32 (lnum_buckets s * 2)) l (bs, ni) = Some (bs', ni') ->
  exists lbs' H', link_move hv fuel (ptr hh_ptr (head l)) (lbs, ni) s = Some ((lbs', ni'), set_handles H' s) /\
    Forall2 (rep_bucket H') bs' lbs' /\ chains bs' ≡ₚ l ++ chains bs /\ moved (handles s) H' (l ++ chains bs).
Proof.
  induction l as [|e l IH]; intros [|fuel] s bs lbs ni bs' ni' Hf Hbs Hnd Hp Hfuel E; cbn [length] in Hfuel; try lia; cbn [move_all] in E; cbn [link_move head ptr].
  { injection E as <- <-. exists lbs, (handles s). split; [by destruct s|]. split; [done|]. split; [done|]. split; [|done]. intros x k Hk. by exists k. }
  unfold move_to_bucket in E. set (i := Z.to_nat (HASH_TO_BKT (hv e) (u32 (lnum_buckets s * 2)))) in *. destruct (bs !! i) as [b|] eqn:Eb; [|done].
  pose proof Hbs as Hbs'. rewrite Forall2_lookup in Hbs'. specialize (Hbs' i). rewrite Eb in Hbs'. inversion Hbs' as [? lb Hrb Ex Elb|]; subst. symmetry in Elb.
  destruct Hrb as [Hch Hhh Hct Hmu] eqn:Q. clear Q. apply NoDup_cons in Hnd as [Hne Hnd]. pose proof Hnd as (_ & N1 & N2)%NoDup_app.
  assert (forall x, x ∈ chain b -> x ∈ chains bs) as Hin by (intros x; by apply chain_in_chains with i).
  assert (e ∉ chain b) as Heb by (intros He%Hin; set_solver).
  destruct (Hf [] e l eq_refl) as (k & Hk & En).
  rewrite (proj2 (Z.eqb_neq (hh_ptr e) 0)) by (apply hh_ptr_nonzero, Hp; left).
  erewrite bind_some by (by apply link_run). do 2 (erewrite bind_some by reflexivity). cbn [fst snd].
  replace (hh_ptr e - hho) with e by (unfold hh_ptr; lia). fold i. rewrite Elb, Hct, Hmu, Hhh, En.
  set (c := u32 (count b + 1)) in *.
  assert (exists m' ni1, (if lideal s <? c then if lideal s =? 0 then fault else ret (c / lideal s, u32 (ni + 1)) else ret (expand_mult b, ni)) s = Some ((m', ni1), s) /\
    move_all hv (lideal s) (u32 (lnum_buckets s * 2)) l (<[i := Bucket (e :: chain b) c m']> bs, ni1) = Some (bs', ni')) as (m' & ni1 & Er & E').
  { destruct (lideal s <? c); [destruct (lideal s =? 0); [done|]|]; by eexists _, _. }
  erewrite bind_some by exact Er. cbn [fst snd].
  pose proof (link_first_run s e (chain b) (set_hh_prev 0) (set_hh_next (ptr hh_ptr (head (chain b))))) as Hrun.
  specialize (Hrun ltac:(by eexists) Hch ltac:(intros x Hx; apply Hp; right; apply elem_of_app; auto) Heb ltac:(done)).
  apply bind_inv in Hrun as ([] & s1 & R1 & R2). apply bind_inv in R2 as ([] & s2 & R2 & R3).
  erewrite bind_some by exact R1. erewrite bind_some by exact R2. erewrite bind_some by exact R3.
  set (H1 := chain_linked e (chain b) (handles s)).
  assert (chains (<[i := Bucket (e :: chain b) c m']> bs) ≡ₚ e :: chains bs) as Hperm by (by apply chains_insert with b).
  destruct (IH fuel (set_handles H1 s) (<[i := Bucket (e :: chain b) c m']> bs) (<[i := LinkedBucket (hh_ptr e) c m']> lbs) ni1 bs' ni') as (lbs' & H' & El & Hb' & Hc' & Hm').
  - cbn [handles set_handles]. apply (fwd_frame (handles s)); [|by eapply fwd_tail]. intros x Hx. apply chain_linked_other; [set_solver|].
    intros Hx'%Hin. by apply (N1 x).
  - cbn [handles set_handles]. apply (moved_buckets_rep _ _ _ _ _ lb); [done | set_solver | by eexists | done..].
  - rewrite Hperm, <- Permutation_middle. apply NoDup_cons. by split.
  - intros x. rewrite Hperm, <- Permutation_middle. apply Hp.
  - lia.
  - exact E'.
  - exists lbs', H'. split; [exact El|]. split; [done|]. split; [by rewrite Hc', Hperm, <- Permutation_middle|]. destruct Hm' as [M1 M2]. cbn [handles set_handles] in M1, M2.
    split; [intros x; eapply relinked_trans; [apply chain_linked_app | apply M1]|]. intros x Hx. rewrite M2 by (rewrite Hperm, <- Permutation_middle; done).
    apply chain_linked_other; [set_solver|]. intros Hx'%Hin. set_solver.
Qed.

Lemma move_all_app ideal nb l1 l2 acc :
  move_all hv ideal nb (l1 ++ l2) acc = match move_all hv ideal nb l1 acc with Some acc' => move_all hv ideal nb l2 acc' | None => None end.
Proof. revert acc. induction l1 as [|e l1 IH]; intros acc; [done|]. cbn [app move_all]. destruct (move_to_bucket _ _ _ _ _); [apply IH | done]. Qed.

Lemma link_move_all_run obs : forall olbs fuel s bs lbs ni bs' ni',
  Forall2 (fun b lb => fwd (handles s) (chain b) /\ hh_head lb = ptr hh_ptr (head (chain b))) obs olbs ->
  Forall2 (rep_bucket (handles s)) bs lbs -> NoDup (chains obs ++ chains bs) -> (forall x, x ∈ chains obs ++ chains bs -> 0 < x) ->
  (length (chains obs) < fuel)%nat -> move_all hv (lideal s) (u32 (lnum_buckets s * 2)) (chains obs) (bs, ni) = Some (bs', ni') ->
  exists lbs' H', link_move_all hv fuel olbs (lbs, ni) s = Some ((lbs', ni'), set_handles H' s) /\
    Forall2 (rep_bucket H') bs' lbs' /\ forall x, relinked prev next (handles s) H' x None None.
Proof.
  induction obs as [|b obs IH]; intros [|lb olbs] fuel s bs lbs ni bs' ni' Ho Hbs Hnd Hp Hf E; try (by inversion Ho); cbn [link_move_all].
  { injection E as <- <-. exists lbs, (handles s). split; [by destruct s|]. split; [done|]. intros x k Hk. by exists k. }
  apply Forall2_cons in Ho as [[Hfw Hhh] Ho]. unfold chains in Hnd, Hp, Hf, E. rewrite fmap_cons in Hnd, Hp, Hf, E. cbn [concat] in Hnd, Hp, Hf, E.
  fold (chains obs) (chains bs) in Hnd, Hp, Hf, E. rewrite <- app_assoc in Hnd, Hp. rewrite length_app in Hf. rewrite move_all_app in E.
  destruct (move_all hv _ _ (chain b) (bs, ni)) as [[bs1 ni1]|] eqn:E1; [|done].
  pose proof Hnd as (N1 & N2 & (N3 & N4 & N5)%NoDup_app)%NoDup_app.
  destruct (link_move_run (chain b) fuel s bs lbs ni bs1 ni1 Hfw Hbs) as (lbs1 & H1 & R1 & Hb1 & Hc1 & M1 & M2); [|set_solver|lia|done|].
  { apply NoDup_app. split; [done|]. split; [set_solver | done]. }
  rewrite Hhh. erewrite bind_some by exact R1.
  destruct (IH olbs fuel (set_handles H1 s) bs1 lbs1 ni1 bs' ni') as (lbs' & H' & R' & Hb' & M'); [|done|..|lia|done|].
  - cbn [handles set_handles]. rewrite Forall2_lookup in Ho |- *. intros j. specialize (Ho j).
    destruct (obs !! j) as [b0|] eqn:Ej; inversion Ho as [? lb0 [Hfw0 Hh0]|]; subst; constructor. split; [|done].
    apply (fwd_frame (handles s)); [|done]. intros x Hx%(chain_in_chains _ _ _ _ Ej). apply M2. set_solver.
  - rewrite Hc1, app_assoc, (Permutation_app_comm (chains obs)), <- app_assoc. exact Hnd.
  - intros x. rewrite Hc1. set_solver.
  - exists lbs', H'. split; [exact R'|]. split; [done|]. intros x. eapply relinked_trans; [apply M1 | apply M'].
Qed.

Lemma link_expand_run s t t' bk fuel :
  represents s t -> table_good hv t -> (length (items t) < fuel)%nat -> HASH_EXPAND_BUCKETS hv bk t = Some t' ->
  exists s', link_EXPAND_BUCKETS hv fuel s = Some (tt, s') /\ represents s' t'.
Proof.
  intros [Hit Hhd Htl Hbs Hnum] [Hc Hn Hp _ _] Hf E. injection Hnum as E1 E2 E3 E4 E5 E6 E7.
  unfold HASH_EXPAND_BUCKETS in E. destruct (move_all _ _ _ _ _) as [[bs ni]|] eqn:Em; [|done]. injection E as <-.
  destruct (chains_concat hv t Hc) as [Hnd Hel]. fold (chains (buckets t)) in Hnd, Hel, Em.
  assert (chains (buckets t) ≡ₚ items t) as Hperm by (apply NoDup_Permutation; [done | done | apply Hel]).
  set (s0 := Linked (handles s) (lhead s) (ltail s) (lbuckets s) (lnum_buckets s) (llog2 s) (lnum_items s) (link_ideal s) 0 (lineff s) (lnoexpand s)).
  assert (forall n, chains (repeat (Bucket [] 0 0) n) = []) as Hnil by (intros n; unfold chains; induction n as [|n IH]; [done | exact IH]).
  destruct (link_move_all_run (buckets t) (lbuckets s) fuel s0 (repeat (Bucket [] 0 0) (Z.to_nat (2 * num_buckets t)))
    (repeat (LinkedBucket 0 0 0) (Z.to_nat (2 * num_buckets t))) 0 bs ni) as (lbs & H' & R & Hb' & M').
  - eapply Forall2_impl; [exact Hbs|]. intros b lb [Hch Hhh _ _]. split; [by apply bkt_list_fwd | done].
  - generalize (Z.to_nat (2 * num_buckets t)). intros n. induction n as [|n IH]; constructor; [|exact IH]. split; [apply dll_nil | done..].
  - by rewrite Hnil, app_nil_r.
  - intros x. rewrite Hnil, app_nil_r, Hel. apply Hp.
  - by rewrite Hperm.
  - cbn [lideal lnum_buckets s0]. rewrite E1. unfold link_ideal. rewrite E1, E2, E3. exact Em.
  - eexists. split.
    + unfold link_EXPAND_BUCKETS. erewrite bind_some by reflexivity. fold s0. do 2 (erewrite bind_some by reflexivity). cbn [lbuckets lnum_buckets s0].
      rewrite E1. erewrite bind_some by exact R. reflexivity.
    + split; cbn [handles lhead ltail lbuckets set_handles items buckets s0].
      * eapply dll_frame; [intros x _; apply M' | exact Hit].
      * done.
      * done.
      * done.
      * unfold s0. cbn [snd fst lnum_buckets llog2 lnum_items lideal lnonideal lineff lnoexpand num_buckets log2_num_buckets num_items ideal_chain_maxlen
          nonideal_items ineff_expands noexpand]. unfold link_ideal, ideal_maxlen. by rewrite E1, E2, E3, E6, E7.
Qed.
End Expand.

(** ** Adding *)

(** The table with its lists behind the adding of [e]; [tbl], [bkts] and [bk]
    are the blocks of a new table and of a new bucket array. *)
Definition list_ADD (hv : Z -> Z) (tbl bkts bk e : Z) (h : option UT_hash_table) : option UT_hash_table :=
  let t := match h with None => HASH_MAKE_TABLE tbl bkts e | Some t => set_items (num_items t) (items t ++ [e]) t end in
  let t := set_items (u32 (num_items t + 1)) (items t) t in
  match buckets t !! bucket_of hv (num_buckets t) e with
  | None => None
  | Some b =>
      let b' := HASH_ADD_TO_BKT b e in
      let t := set_buckets (<[bucket_of hv (num_buckets t) e := b']> (buckets t)) t in
      if must_expand b' t then HASH_EXPAND_BUCKETS hv bk t else Some t
  end.

Lemma add_to_bkt_run hv s t b e fuel :
  let i := bucket_of hv (num_buckets t) e in
  let t' := set_buckets (<[i := HASH_ADD_TO_BKT b e]> (buckets t)) t in
  represents s t -> is_Some (handles s !! (e + hho)) -> buckets t !! i = Some b -> NoDup (chains (buckets t)) -> e ∉ chains (buckets t) ->
  (forall x, x ∈ chains (buckets t) -> 0 < x) ->
  exists s', represents s' t' /\ link_ADD_TO_BKT hv fuel i (hh_ptr e) s = (if must_expand (HASH_ADD_TO_BKT b e) t' then link_EXPAND_BUCKETS hv fuel else ret tt) s'.
Proof.
  intros i t' [Hit Hhd Htl Hbs Hnum] He Hb Hnd Hnin Hp. pose proof Hbs as Hbs'. rewrite Forall2_lookup in Hbs'. specialize (Hbs' i). rewrite Hb in Hbs'.
  inversion Hbs' as [? lb Hrb Ex Elb|]; subst. symmetry in Elb. pose proof Hrb as [Hch Hhh Hct Hmu]. pose proof (lookup_lt_Some _ _ _ Elb) as Hl.
  assert (forall x, x ∈ chain b -> x ∈ chains (buckets t)) as Hin by (intros x; by apply chain_in_chains with i).
  set (lb' := LinkedBucket (hh_ptr e) (u32 (lcount lb + 1)) (lmult lb)).
  exists (set_lbuckets (<[i := lb']> (lbuckets s)) (set_handles (chain_linked e (chain b) (handles s)) s)). split.
  - split; cbn [handles lhead ltail lbuckets set_handles set_lbuckets items buckets set_buckets t'].
    + eapply dll_frame; [intros x _; apply chain_linked_app | exact Hit].
    + done.
    + done.
    + unfold HASH_ADD_TO_BKT, lb'. rewrite Hct, Hmu. by apply (moved_buckets_rep _ _ _ _ _ lb).
    + exact Hnum.
  - unfold link_ADD_TO_BKT, bucket_get, bucket_put. unfold bind at 1. rewrite Elb. unfold modify at 1. unfold bind at 1. unfold bind at 1.
    cbn [lbuckets set_lbuckets]. rewrite list_lookup_insert_eq by done. cbn [hh_head lcount lmult].
    set (s1 := set_lbuckets _ s). pose proof (link_first_run s1 e (chain b) (set_hh_next (hh_head lb)) (set_hh_prev 0)) as Hrun.
    specialize (Hrun He Hch ltac:(auto) ltac:(auto) ltac:(intros k; by rewrite Hhh)). rewrite Hhh in *.
    apply bind_inv in Hrun as ([] & s2 & R1 & R2). apply bind_inv in R2 as ([] & s3 & R2 & R3).
    erewrite bind_some by exact R1. erewrite bind_some by exact R2. erewrite bind_some by exact R3. erewrite bind_some by reflexivity.
    erewrite bind_some by reflexivity. injection Hnum as _ _ _ _ _ _ E7. unfold must_expand. cbn [lnoexpand set_lbuckets set_handles s1 HASH_ADD_TO_BKT count expand_mult noexpand set_buckets t'].
    rewrite E7, Hct, Hmu. replace (set_lbuckets _ (set_handles _ s1)) with
      (set_lbuckets (<[i := lb']> (lbuckets s)) (set_handles (chain_linked e (chain b) (handles s)) s)); [done|].
    unfold s1, set_lbuckets, set_handles. cbn. unfold lb'. by rewrite list_insert_insert_eq, <- Hct, <- Hmu.
Qed.

(** The element behind the last one, or as the first of a new table. *)
Lemma add_items_run hv s h e fuel tbl bkts :
  let t := match h with None => HASH_MAKE_TABLE tbl bkts e | Some t => set_items (num_items t) (items t ++ [e]) t end in
  let t' := set_items (u32 (num_items t + 1)) (items t) t in
  rep hv s h -> 0 < e -> is_Some (handles s !! (e + hho)) -> (forall t, h = Some t -> e ∉ items t) ->
  exists s', represents s' t' /\ is_Some (handles s' !! (e + hho)) /\
    link_ADD_KEYPTR hv fuel e s = link_ADD_TO_BKT hv fuel (bucket_of hv (num_buckets t') e) (hh_ptr e) s'.
Proof.
  intros t t' Hrep He [k Hk] Hnin. unfold link_ADD_KEYPTR. erewrite bind_some by (apply relink_run; by eexists). erewrite bind_some by reflexivity.
  cbn [lhead set_handles]. destruct h as [t0|]; cbn [rep] in Hrep.
  - destruct Hrep as ([Hit Hhd Htl Hbs Hnum] & [Hc Hn Hp _ _] & Hne). injection Hnum as E1 E2 E3 E4 E5 E6 E7.
    destruct (last (items t0)) as [z|] eqn:Ez; [|by apply last_None in Ez]. apply last_Some_elem_of in Ez as Hz.
    assert (z <> e) as Hze by (intros ->; by apply (Hnin t0)). destruct (dll_has _ _ _ _ _ _ Hit Hz) as [kz Hkz].
    assert (head (items t0) <> None) as Hh by (by destruct (items t0)).
    assert (forall y, head (items t0) = Some y -> y <> 0) as Hh0.
    { intros y Hy. assert (y ∈ items t0) as Hin by (destruct (items t0); [done|]; injection Hy as ->; left). specialize (Hp y Hin). lia. }
    rewrite Hhd, ptr_zero, (bool_decide_false _ Hh) by done. cbn [ptr] in Htl.
    set (H1 := relink_opt (set_next e) (Some z) (relink_opt (set_next 0) (Some e) (handles s))).
    set (H2 := relink_opt (set_prev z) (Some e) H1).
    set (s1 := set_tail (hh_ptr e) (set_handles H2 s)).
    erewrite bind_some with (s' := s1).
    2: { erewrite bind_some by reflexivity. cbn [ltail set_handles]. rewrite Htl. unfold hh_ptr at 1. erewrite bind_some.
         2: { apply relink_run. cbn [handles set_handles]. rewrite lookup_relink_opt, Hkz. case_decide; by eexists. }
         replace (hh_ptr z - hho) with z by (unfold hh_ptr; lia). erewrite bind_some.
         2: { apply relink_run. cbn [handles set_handles]. rewrite !lookup_relink_opt, Hk. repeat case_decide; by eexists. }
         reflexivity. }
    erewrite bind_some by reflexivity. erewrite bind_some by reflexivity. cbn [lnum_buckets set_lnum_items s1 set_tail set_handles]. rewrite E1.
    eexists. split; [|split; [|reflexivity]].
    2: { cbn [handles set_lnum_items s1 set_tail set_handles]. unfold H2, H1. rewrite !lookup_relink_opt, Hk. repeat case_decide; by eexists. }
    split; cbn [handles lhead ltail lbuckets lnum_items set_lnum_items s1 set_tail set_handles items buckets set_items t t'].
    + apply (dll_snoc _ _ _ (handles s) H2 (items t0) e (Links z 0 (hh_prev k) (hh_next k))); [done | done | | | by rewrite Ez | done].
      * intros x Hx k' Hk'. assert (x <> e) as Hxe by (intros ->; by apply (Hnin t0)). unfold H2, H1.
        rewrite !lookup_relink_opt, !(decide_False (P := Some e = Some x)), Hk', Ez by congruence. case_decide; eexists; (split; [reflexivity|]); done.
      * unfold H2, H1. rewrite !lookup_relink_opt, !(decide_True (P := Some e = Some e)), !(decide_False (P := Some z = Some e)), Hk by congruence. done.
    + rewrite head_app_or. destruct (items t0); done.
    + by rewrite last_snoc.
    + eapply Forall2_impl; [exact Hbs|]. intros b lb. apply rep_bucket_frame. intros x _ k' Hk'. unfold H2, H1. rewrite !lookup_relink_opt, Hk'.
      repeat case_decide; eexists; (split; [reflexivity|]); done.
    + cbn. by rewrite E1, E2, E3, E4, E5, E6, E7.
  - rewrite Hrep. change (0 =? 0) with true. cbv iota. set (H1 := relink_opt (set_prev 0) (Some e) (relink_opt (set_next 0) (Some e) (handles s))).
    erewrite bind_some with (s' := link_MAKE_TABLE (set_handles H1 (set_head e s))).
    2: { erewrite bind_some by reflexivity. erewrite bind_some.
         2: { apply relink_run. cbn [handles set_handles set_head]. rewrite !lookup_relink_opt, Hk. repeat case_decide; by eexists. }
         reflexivity. }
    erewrite bind_some by reflexivity. erewrite bind_some by reflexivity.
    eexists. split; [|split; [|reflexivity]].
    2: { cbn [handles set_lnum_items link_MAKE_TABLE set_handles]. unfold H1. rewrite !lookup_relink_opt, Hk. repeat case_decide; by eexists. }
    split; cbn [handles lhead ltail lbuckets lnum_items set_lnum_items link_MAKE_TABLE set_handles set_head items buckets set_items HASH_MAKE_TABLE t t'].
    + apply (dll_snoc _ _ _ (handles s) H1 [] e (Links 0 0 (hh_prev k) (hh_next k))); [constructor | apply dll_nil | by intros x Hx%not_elem_of_nil | | done | done].
      unfold H1. rewrite !lookup_relink_opt, !(decide_True (P := Some e = Some e)), Hk by done. done.
    + done.
    + done.
    + generalize (Z.to_nat HASH_INITIAL_NUM_BUCKETS). intros n. induction n as [|n IH]; constructor; [|exact IH]. split; [apply dll_nil | done..].
    + done.
Qed.

(** The table that is added to: a new one while it is still empty, or the one there is. *)
Definition base_table (tbl bkts : Z) (h : option UT_hash_table) : UT_hash_table :=
  match h with None => set_items 0 [] (HASH_MAKE_TABLE tbl bkts 0) | Some t => t end.

Lemma base_table_good hv s tbl bkts h : rep hv s h -> table_good hv (base_table tbl bkts h).
Proof.
  destruct h as [t|]; [by intros (_ & ? & _)|]. intros _. split; [apply chains_ok_make | constructor | by intros e He%not_elem_of_nil | done | done].
Qed.

Lemma table_good_add hv t e b :
  table_good hv t -> 0 < e -> e ∉ items t -> Z.of_nat (length (items t)) + 1 < 2 ^ 32 -> buckets t !! bucket_of hv (num_buckets t) e = Some b ->
  table_good hv (set_buckets (<[bucket_of hv (num_buckets t) e := HASH_ADD_TO_BKT b e]> (buckets t)) (set_items (u32 (num_items t + 1)) (items t ++ [e]) t)).
Proof.
  intros [Hc Hn Hp Hct Hsz] He Hnin Hlen Hb. split; cbn [set_buckets set_items items num_items].
  - by apply chains_ok_add.
  - apply NoDup_app. split; [done|]. split; [set_solver | apply NoDup_singleton].
  - intros x [Hx|Hx]%elem_of_app; [by apply Hp | by apply list_elem_of_singleton in Hx as ->].
  - rewrite Hct, u32_succ. f_equal. rewrite length_app. cbn [length]. lia.
  - rewrite length_app. cbn [length]. lia.
Qed.

Lemma links_add_run hv s h e fuel tbl bkts bk :
  rep hv s h -> 0 < e -> is_Some (handles s !! (e + hho)) -> (forall t, h = Some t -> e ∉ items t /\ log2_num_buckets t < 31) ->
  Z.of_nat (length (items (base_table tbl bkts h))) + 1 < 2 ^ 32 -> (length (items (base_table tbl bkts h)) + 1 < fuel)%nat ->
  exists t' s', list_ADD hv tbl bkts bk e h = Some t' /\ link_ADD_KEYPTR hv fuel e s = Some (tt, s') /\ rep hv s' (Some t').
Proof.
  intros Hrep He Hk Hh Hlen Hf. pose proof (base_table_good hv s tbl bkts h Hrep) as Hg. set (t := base_table tbl bkts h) in *.
  destruct (add_items_run hv s h e fuel tbl bkts Hrep He Hk) as (s1 & Hr1 & Hk1 & ->); [intros t0 ->; by apply Hh|].
  assert (e ∉ items t /\ log2_num_buckets t < 31) as [Hnin Hlg] by (unfold t; destruct h as [t0|]; [by apply Hh | split; [apply not_elem_of_nil | done]]).
  pose proof (good_chains _ _ Hg) as Hc. destruct (bucket_lookup hv t e Hc) as (b & Hb & _). destruct (chains_concat hv t Hc) as [Hnd Hel].
  fold (chains (buckets t)) in Hnd, Hel. set (t1 := set_items (u32 (num_items t + 1)) (items t ++ [e]) t).
  assert (list_ADD hv tbl bkts bk e h = let t2 := set_buckets (<[bucket_of hv (num_buckets t) e := HASH_ADD_TO_BKT b e]> (buckets t)) t1 in
    if must_expand (HASH_ADD_TO_BKT b e) t2 then HASH_EXPAND_BUCKETS hv bk t2 else Some t2) as ->.
  { unfold list_ADD, t1. unfold t in Hb |- *. destruct h; cbn [base_table] in *; cbv zeta; cbn [buckets num_buckets set_items HASH_MAKE_TABLE] in *; by rewrite Hb. }
  assert (represents s1 t1) as Hr1' by (unfold t1, t; by destruct h).
  destruct (add_to_bkt_run hv s1 t1 b e fuel Hr1' Hk1 Hb) as (s2 & Hr2 & E2); [done | by intros ?%Hel | intros x ?%Hel; by apply Hg|].
  set (t2 := set_buckets _ t1) in *. assert (table_good hv t2) as Hg2 by (by apply (table_good_add hv t e b)).
  assert (bucket_of hv (num_buckets (set_items (u32 (num_items (match h with None => HASH_MAKE_TABLE tbl bkts e | Some t => set_items (num_items t) (items t ++ [e]) t end) + 1))
    (items (match h with None => HASH_MAKE_TABLE tbl bkts e | Some t => set_items (num_items t) (items t ++ [e]) t end))
    (match h with None => HASH_MAKE_TABLE tbl bkts e | Some t => set_items (num_items t) (items t ++ [e]) t end))) e = bucket_of hv (num_buckets t1) e) as ->
    by (unfold t1, t; by destruct h).
  rewrite E2. cbv zeta. assert (items t2 <> []) as Hne by (cbn [t2 t1 set_buckets set_items items]; by destruct (items t)). destruct (must_expand _ _).
  - destruct (expand_run hv bk t2 (good_chains _ _ Hg2)) as (t' & Et & Hc' & Ei & En & _).
    { exact Hlg. }
    { rewrite (good_count _ _ Hg2). pose proof (good_size _ _ Hg2). unfold u32. rewrite wrap_small by lia. destruct (items t2); [done | cbn [length] in *; lia]. }
    destruct (link_expand_run hv s2 t2 t' bk fuel Hr2 Hg2) as (s3 & E3 & Hr3); [cbn [t2 t1 set_buckets set_items items]; rewrite length_app; cbn [length]; lia | done|].
    exists t', s3. split; [done|]. split; [done|]. split; [done|]. rewrite Ei. split; [|done]. destruct Hg2 as [_ G2 G3 G4 G5]. split; rewrite ?Ei, ?En; done.
  - exists t2, s2. done.
Qed.

(** The chain of a bucket is what the search walks through. *)
Lemma walk_run s l fuel : bkt_list (handles s) l -> (forall x, x ∈ l -> 0 < x) -> (length l < fuel)%nat -> link_walk fuel (ptr hh_ptr (head l)) s = Some (l, s).
Proof.
  intros Hl%bkt_list_fwd. revert fuel Hl. induction l as [|e l IH]; intros [|fuel] Hl Hp Hf; cbn [length] in Hf; try lia; cbn [link_walk head ptr]; [done|].
  rewrite (proj2 (Z.eqb_neq (hh_ptr e) 0)) by (apply hh_ptr_nonzero, Hp; left). destruct (Hl [] e l eq_refl) as (k & Hk & En).
  erewrite bind_some by (by apply link_run). rewrite En. erewrite bind_some by (apply IH; [by eapply fwd_tail | set_solver | lia]).
  unfold ret. by replace (hh_ptr e - hho) with e by (unfold hh_ptr; lia).
Qed.

(** ** The macros of Cache.v *)

Section Macro.
Context `{KernelDlSym} `{KernelAllocator}.

(** A macro of cache.c and its counterpart on the links. *)
Inductive hash_op := OpAdd (keyptr : Z) (len : nat) (e : Z) | OpDelete (e : Z).

Definition op_macro (c : Z) (o : hash_op) : K unit :=
  match o with OpAdd keyptr len e => HASH_ADD_KEYPTR c keyptr len e | OpDelete e => HASH_DELETE c e end.
Definition op_links (hv : Z -> Z) (fuel : nat) (o : hash_op) : L unit :=
  match o with OpAdd _ _ e => link_ADD_KEYPTR hv fuel e | OpDelete e => link_DELETE hv e end.

Definition items_of (h : option UT_hash_table) : list Z := match h with Some t => items t | None => [] end.

(** An element to be added is in memory and not in the table, which has room
    for it; one to be deleted is in the table. *)
Definition legal (o : hash_op) (h : option UT_hash_table) (s : linked) : Prop :=
  match o with
  | OpAdd _ _ e => 0 < e /\ is_Some (handles s !! (e + hho)) /\ e ∉ items_of h /\ Z.of_nat (length (items_of h)) + 1 < 2 ^ 32 /\
      forall t, h = Some t -> log2_num_buckets t < 31
  | OpDelete e => e ∈ items_of h
  end.

(** Memory management does not touch the entries. *)
Lemma free_entries a m r m' : ready m -> ps4KernelMemoryFree a m = Some (r, m') -> entries m' = entries m /\ vars m' = vars m.
Proof.
  intros Hrd. unfold ps4KernelMemoryFree. destruct (a =? NULL); [intros [= _ <-]; done|].
  erewrite bind_some by (by apply memory_type_ready_run). unfold free, bind. destruct (a =? 0); [intros [= _ <-]; done|].
  destruct (allocs m !! a); [intros [= _ <-]; done | done].
Qed.

Lemma zalloc_entries n m r m' : ready m -> uthash_zalloc n m = Some (r, m') -> entries m' = entries m /\ vars m' = vars m.
Proof.
  intros Hrd (p & m1 & E1 & (u & m2 & E2 & [= _ <-])%bind_inv)%bind_inv. unfold memset, store_bytes in E2.
  case_decide; [|done]. injection E2 as _ <-. cbn [entries vars set_mem]. unfold ps4KernelMemoryMallocData, ps4KernelMemoryAllocateData in E1.
  destruct (n =? 0); [by injection E1 as _ <-|]. apply bind_inv in E1 as (r1 & m3 & E1 & E3). assert (m3 = m1) as -> by (destruct (fst r1 =? PS4_OK); by injection E3 as _ <-).
  erewrite bind_some in E1 by (by apply memory_type_ready_run). unfold malloc, bind in E1. destruct (kmalloc m n =? 0); by injection E1 as _ <-.
Qed.

Lemma ready_vars m m' : vars m' = vars m -> ready m -> ready m'.
Proof. intros E. unfold ready, var. by rewrite E. Qed.

(** The macros do to the table of the cache what the list operations do. *)
Lemma hash_delete_lists c e m m' t :
  ready m -> caches m !! c = Some (Some t) -> HASH_DELETE c e m = Some (tt, m') ->
  entries m' = entries m /\ exists h', caches m' !! c = Some h' /\ list_DELETE (entry_hashv m) e t = Some h'.
Proof.
  intros Hrd Hc E. unfold HASH_DELETE in E. erewrite bind_some in E by (unfold get_handle; by rewrite Hc). cbv beta iota in E. unfold list_DELETE.
  destruct (bool_decide (items t = [e])).
  - apply bind_inv in E as (r1 & m1 & E1 & (r2 & m2 & E2 & [= <-])%bind_inv). destruct (free_entries _ _ _ _ Hrd E1) as [F1 V1].
    destruct (free_entries _ _ _ _ (ready_vars _ _ V1 Hrd) E2) as [F2 _].
    cbn [entries caches set_caches]. split; [congruence|]. exists None. split; [apply lookup_insert_eq | done].
  - apply bind_inv in E as (en & m1 & E1 & E2). unfold get_entry in E1. destruct (entries m !! e) as [en'|] eqn:Ee; [|done]. injection E1 as <- <-.
    assert (entry_hashv m e = hashv (hh en')) as Eh by (unfold entry_hashv; by rewrite Ee). unfold bucket_of. rewrite Eh.
    destruct (buckets t !! _); [|done]. injection E2 as <-. cbn [entries caches set_caches]. split; [done|]. eexists. split; [apply lookup_insert_eq | done].
Qed.

Lemma expand_entries t m t' m' :
  ready m -> expand_buckets t m = Some (t', m') -> entries m' = entries m /\ exists bk, HASH_EXPAND_BUCKETS (entry_hashv m) bk t = Some t'.
Proof.
  intros Hrd (bk & m1 & E1 & (hv & m2 & [= <- <-] & E2)%bind_inv)%bind_inv. destruct (zalloc_entries _ _ _ _ Hrd E1) as [F1 V1].
  assert (entry_hashv m1 = entry_hashv m) as Eh by (unfold entry_hashv; by rewrite F1). rewrite Eh in E2.
  destruct (HASH_EXPAND_BUCKETS (entry_hashv m) bk t) as [t1|] eqn:Ex; [|done]. apply bind_inv in E2 as (r & m3 & E2 & [= <- <-]).
  destruct (free_entries _ _ _ _ (ready_vars _ _ V1 Hrd) E2) as [F2 _]. split; [congruence | by exists bk].
Qed.

Lemma hash_add_lists c keyptr len e m m' h :
  ready m -> caches m !! c = Some h -> HASH_ADD_KEYPTR c keyptr len e m = Some (tt, m') ->
  (forall x, x <> e -> entries m' !! x = entries m !! x) /\
  exists tbl bkts bk t', caches m' !! c = Some (Some t') /\ list_ADD (entry_hashv m') tbl bkts bk e h = Some t'.
Proof.
  intros Hrd Hc E. unfold HASH_ADD_KEYPTR in E. erewrite bind_some in E by (unfold get_handle; by rewrite Hc).
  apply bind_inv in E as (t & m1 & E1 & E).
  assert (exists tbl bkts, t = match h with None => HASH_MAKE_TABLE tbl bkts e | Some t => set_items (num_items t) (items t ++ [e]) t end /\
    entries m1 = entries m /\ vars m1 = vars m) as (tbl & bkts & -> & F1 & V1).
  { destruct h as [t0|]; [by injection E1 as <- <-; exists 0, 0|]. apply bind_inv in E1 as (tbl & m2 & E1 & (bkts & m3 & E2 & [= <- <-])%bind_inv).
    destruct (zalloc_entries _ _ _ _ Hrd E1) as [F1 V1]. destruct (zalloc_entries _ _ _ _ (ready_vars _ _ V1 Hrd) E2) as [F2 V2].
    exists tbl, bkts. split; [done|]. split; congruence. }
  set (t := set_items _ _ _) in E. apply bind_inv in E as (key & m2 & E2 & E). unfold load_bytes in E2. destruct (mem_read _ _ _) as [key'|]; [|done]. injection E2 as <- <-.
  apply bind_inv in E as (en & m3 & E3 & E). unfold get_entry in E3. destruct (entries m1 !! e) as [en'|] eqn:Ee; [|done]. injection E3 as <- <-.
  unfold put_entry at 1 in E. unfold modify at 1 in E. unfold bind at 1 in E. set (m2 := set_entries _ m1) in E.
  assert (entry_hashv m2 e = HASH_JEN key') as Eh by (unfold entry_hashv; cbn [entries set_entries m2]; by rewrite lookup_insert_eq).
  assert (forall x, x <> e -> entries m2 !! x = entries m !! x) as Ho by (intros x Hx; cbn [entries set_entries m2]; by rewrite lookup_insert_ne, F1).
  assert (ready m2) as Hrd2 by (by apply (ready_vars m)).
  destruct (buckets t !! Z.to_nat _) as [b|] eqn:Eb; [|done]. unfold put_handle, modify in E. unfold bind at 1 in E.
  set (t1 := set_buckets _ t) in E. set (m3 := set_caches _ m2) in E.
  assert (forall bk m', entries m' = entries m2 -> list_ADD (entry_hashv m') tbl bkts bk e h =
    if must_expand (HASH_ADD_TO_BKT b e) t1 then HASH_EXPAND_BUCKETS (entry_hashv m2) bk t1 else Some t1) as Hlist.
  { intros bk m4 F4. assert (entry_hashv m4 = entry_hashv m2) as -> by (unfold entry_hashv; by rewrite F4).
    unfold list_ADD. fold t. unfold bucket_of. rewrite Eh, Eb. done. }
  destruct (must_expand _ t1).
  - apply bind_inv in E as (t' & m4 & E4 & [= <-]). destruct (expand_entries t1 m3 t' m4 Hrd2 E4) as [F4 [bk Hx]].
    change (entry_hashv m3) with (entry_hashv m2) in Hx. change (entries m3) with (entries m2) in F4.
    split; [intros x Hx'; cbn [entries set_caches]; rewrite F4; by apply Ho|]. exists tbl, bkts, bk, t'.
    split; [apply lookup_insert_eq|]. by rewrite Hlist.
  - injection E as <-. split; [exact Ho|]. exists tbl, bkts, 0, t1. split; [apply lookup_insert_eq|]. by rewrite Hlist.
Qed.

Lemma rep_ext hv hv' s h : (forall x, x ∈ items_of h -> hv' x = hv x) -> rep hv s h -> rep hv' s h.
Proof.
  destruct h as [t|]; [|done]. intros He (Hr & [G1 G2 G3 G4 G5] & Hne). split; [done|]. split; [|done]. split; try done. by apply (chains_ok_ext hv).
Qed.

Lemma rep_walk hv s t fuel i b :
  rep hv s (Some t) -> (length (items t) < fuel)%nat -> buckets t !! i = Some b ->
  exists lb, lbuckets s !! i = Some lb /\ link_walk fuel (hh_head lb) s = Some (chain b, s).
Proof.
  intros (Hr & Hg & _) Hf Hb. destruct (Forall2_lookup_l _ _ _ _ _ (rep_buckets _ _ Hr) Hb) as (lb & Hlb & [Hch Hhh _ _]). exists lb. split; [done|].
  destruct (chains_bucket _ _ (good_chains _ _ Hg) _ _ Hb) as (Hnd & _ & Hin). rewrite Hhh. apply walk_run; [done | |].
  - intros x [Hx _]%Hin. by apply Hg.
  - assert (chain b ⊆+ items t) as Hsub by (apply NoDup_submseteq; [done | intros x [Hx _]%Hin; done]). apply submseteq_length in Hsub. lia.
Qed.

(** C35. The pointers follow the lists. Whenever a macro of a cache, adding an
    element with or without an expansion or deleting one, first, last or in
    between, takes a table whose lists the links of the handles make up: its
    stores to the links run through, and the new links make up the lists of the
    new table, backwards and forwards, in the order of adding and in every
    bucket; a search that follows [hh_next] sees exactly the bucket's chain.
    When the last element goes, [head] is NULL and there is no table. *)
Theorem links_follow_macros c o m m' h s fuel :
  ready m -> caches m !! c = Some h -> op_macro c o m = Some (tt, m') -> rep (entry_hashv m) s h -> legal o h s ->
  (length (items_of h) + 1 < fuel)%nat ->
  exists h' s', caches m' !! c = Some h' /\ op_links (entry_hashv m') fuel o s = Some (tt, s') /\ rep (entry_hashv m') s' h' /\
    forall t' i b, h' = Some t' -> buckets t' !! i = Some b ->
      exists lb, lbuckets s' !! i = Some lb /\ link_walk (S (length (items t'))) (hh_head lb) s' = Some (chain b, s').
Proof.
  intros Hrd Hc E Hrep Hl Hf. assert (exists h' s', caches m' !! c = Some h' /\ op_links (entry_hashv m') fuel o s = Some (tt, s') /\ rep (entry_hashv m') s' h')
    as (h' & s' & E1 & E2 & E3).
  2: { exists h', s'. do 3 (split; [done|]). intros t' i b -> Hb. eapply rep_walk; [done | lia | done]. }
  destruct o as [keyptr len e|e]; cbn [op_macro op_links legal] in *.
  - destruct Hl as (He & Hk & Hnin & Hlen & Hlg). destruct (hash_add_lists c keyptr len e m m' h Hrd Hc E) as (Ho & tbl & bkts & bk & t' & Hc' & Et).
    destruct (links_add_run (entry_hashv m') s h e fuel tbl bkts bk) as (t1 & s' & Et1 & Es & Hr); [| done | done | | | |].
    + apply (rep_ext (entry_hashv m)); [|done]. intros x Hx. unfold entry_hashv. by rewrite Ho by (by intros ->).
    + intros t ->. split; [exact Hnin | by apply Hlg].
    + by destruct h.
    + by destruct h.
    + exists (Some t'), s'. split; [done|]. split; [done|]. congruence.
  - destruct h as [t|]; [|by apply not_elem_of_nil in Hl]. destruct Hrep as (Hr & Hg & _).
    destruct (hash_delete_lists c e m m' t Hrd Hc E) as (Fe & h' & Hc' & Et). assert (entry_hashv m' = entry_hashv m) as -> by (unfold entry_hashv; by rewrite Fe).
    destruct (links_delete_run (entry_hashv m) s t e Hr Hg Hl) as (h1 & s' & Et1 & Es & Hr'). exists h', s'. split; [done|]. split; [done|]. congruence.
Qed.
End Macro.

Section LinkWitness.
#[local] Existing Instance bump_allocator.
#[local] Existing Instance bump_allocator_laws.
#[local] Instance no_symbols_needed : KernelDlSym := table_dlsym [].

(** An empty cache, and an entry at 0x1000 whose name "ab" is at 0x2000 and
    whose handle holds junk. *)
Definition entry_machine : machine :=
  set_entries {[ 0x1000 := CacheEntry 0x2000 5 (Handle 0 0 0) ]} (cache_machine [(0x2000, [97; 98; 0])] [(ps4KernelMemoryType, 1)]).
Definition no_table : linked := Linked {[ 0x1010 := Links 7 7 7 7 ]} 0 0 [] 0 0 0 0 0 0 0.

Lemma links_follow_macros_witness :
  exists m' h' s', op_macro (2 ^ 63) (OpAdd 0x2000 2 0x1000) entry_machine = Some (tt, m') /\ caches m' !! (2 ^ 63) = Some h' /\
    op_links (entry_hashv m') 2 (OpAdd 0x2000 2 0x1000) no_table = Some (tt, s') /\ rep (entry_hashv m') s' h'.
Proof.
  destruct (op_macro (2 ^ 63) (OpAdd 0x2000 2 0x1000) entry_machine) as [[[] m']|] eqn:E; [|vm_compute in E; discriminate].
  destruct (links_follow_macros (2 ^ 63) (OpAdd 0x2000 2 0x1000) entry_machine m' None no_table 2) as (h' & s' & E1 & E2 & E3 & _).
  - done.
  - done.
  - exact E.
  - done.
  - split; [lia|]. split; [by eexists|]. split; [apply not_elem_of_nil|]. split; [cbn; lia|]. intros t [=].
  - cbn. lia.
  - exists m', h', s'. split; [reflexivity|]. split; [exact E1|]. split; [exact E2 | exact E3].
Defined.
End LinkWitness.
