(* ===== verification/Words.v ===== *)
(** * Arrays of machine words

    Structures whose fields are all eight bytes wide, and arrays of pointers,
    as lists of 64-bit values in memory. *)

From stdpp Require Import base gmap list strings.
From S2P Require Import Prelude Errors Uthash Machine Reference KernelBase KernelMemory Cache CacheMap.

(** The words [l] are at [a], in memory that is not read-only. *)
Record words (m : machine) (a : Z) (l : list Z) : Prop := Words {
  words_data x : a <= x < a + 8 * Z.of_nat (length l) -> x ∉ text m;
  words_range i v : l !! i = Some v -> 0 <= v < 2 ^ 64;
  words_read i v : l !! i = Some v -> mem_read (mem m) (a + 8 * Z.of_nat i) 8 = Some (le_bytes 8 v)
}.

(** The state after a word was stored. *)
Definition put64 (a v : Z) (m : machine) : machine := set_mem (mem_write (mem m) a (le_bytes 8 v)) m.

Lemma lookup_put64 a v m x : ~ a <= x < a + 8 -> mem (put64 a v m) !! x = mem m !! x.
Proof.
  intros Hx. unfold put64. cbn [mem set_mem]. rewrite lookup_mem_write, length_le_bytes.
  case_match eqn:Q; [|done]. apply andb_prop in Q as [? ?]. exfalso. zbool; lia || done.
Qed.

Lemma le_val_word v : 0 <= v < 2 ^ 64 -> le_val (le_bytes 8 v) = v.
Proof. intros Hv. rewrite le_val_bytes_wrap. by apply wrap_small. Qed.

Lemma words_load m a l i v :
  words m a l -> l !! i = Some v -> load64 (a + 8 * Z.of_nat i) m = Some (v, m).
Proof.
  intros Hw Hi. rewrite (load64_run m _ _ (words_read _ _ _ Hw _ _ Hi)).
  by rewrite le_val_word by (by apply (words_range _ _ _ Hw i)).
Qed.

Lemma words_mapped m a l x : words m a l -> a <= x < a + 8 * Z.of_nat (length l) -> is_Some (mem m !! x).
Proof.
  intros Hw Hx. set (i := Z.to_nat ((x - a) / 8)). set (j := Z.to_nat ((x - a) mod 8)).
  pose proof (Z.div_mod (x - a) 8 ltac:(lia)) as Ed. pose proof (Z.mod_pos_bound (x - a) 8 ltac:(lia)) as Hj.
  assert (0 <= (x - a) / 8 < Z.of_nat (length l)) as Hi by (split; [apply Z.div_pos; lia | apply Z.div_lt_upper_bound; lia]).
  destruct (lookup_lt_is_Some_2 l i ltac:(lia)) as [v Hv]. pose proof (words_read _ _ _ Hw i v Hv) as [_ Hr]%mem_read_Some.
  specialize (Hr j ltac:(lia)). replace (a + 8 * Z.of_nat i + Z.of_nat j) with x in Hr by lia. rewrite Hr.
  apply lookup_lt_is_Some. rewrite length_le_bytes. lia.
Qed.

Lemma words_writable m a l x k :
  words m a l -> a <= x -> x + Z.of_nat k <= a + 8 * Z.of_nat (length l) -> writable_range m x k.
Proof.
  intros Hw Hx Hk. apply writable_range_iff. intros i Hi. split.
  - apply (words_mapped m a l); [done | lia].
  - intros Ht. exfalso. revert Ht. apply (words_data _ _ _ Hw). lia.
Qed.

(** Words stay as they are where memory does. *)
Lemma words_ext m m' a l :
  words m a l -> text m' = text m ->
  (forall x b, a <= x < a + 8 * Z.of_nat (length l) -> mem m !! x = Some b -> mem m' !! x = Some b) ->
  words m' a l.
Proof.
  intros [H1 H2 H3] Et Hm. split; [by rewrite Et | done|]. intros i v Hi. apply lookup_lt_Some in Hi as Hl.
  apply (mem_read_keeps _ _ _ _ _ (H3 i v Hi)). intros x b Hx. apply Hm. lia.
Qed.

Lemma words_other m a l x v :
  words m a l -> disjoint_ranges x 8 a (8 * Z.of_nat (length l)) -> words (put64 x v m) a l.
Proof.
  intros Hw Hd. apply (words_ext m); [done | done|]. intros y b Hy Hb.
  rewrite lookup_put64; [done|]. unfold disjoint_ranges in Hd. lia.
Qed.

Lemma words_store m a l i v :
  words m a l -> (i < length l)%nat -> 0 <= v < 2 ^ 64 ->
  store64 (a + 8 * Z.of_nat i) v m = Some (tt, put64 (a + 8 * Z.of_nat i) v m) /\
  words (put64 (a + 8 * Z.of_nat i) v m) a (<[i := v]> l).
Proof.
  intros Hw Hi Hv. split.
  - apply store64_run. by apply (words_writable m a l); [|lia..].
  - destruct Hw as [H1 H2 H3]. split; rewrite ?length_insert; [done | |].
    + intros j u. rewrite list_lookup_insert_Some. intros [(<- & -> & _)|[_ Hj]]; [done | by eapply H2].
    + intros j u. rewrite list_lookup_insert_Some. intros [(<- & -> & _)|[Hne Hj]].
      * apply mem_read_write_le.
      * unfold put64. cbn [mem set_mem]. rewrite mem_read_write_other; [by apply H3|].
        unfold disjoint_ranges. rewrite length_le_bytes. lia.
Qed.

(** Only the value modulo the width is stored. *)
Lemma le_bytes_wrap v : le_bytes 8 (wrap 64 v) = le_bytes 8 v.
Proof.
  rewrite <- (le_bytes_val (le_bytes 8 v)) by apply le_bytes_is_byte. by rewrite le_val_bytes_wrap, length_le_bytes.
Qed.

Lemma store64_wrap a v : store64 a v = store64 a (wrap 64 v).
Proof. unfold store64. by rewrite le_bytes_wrap. Qed.

Lemma lookup_repeat {A} (x y : A) n i : repeat x n !! i = Some y <-> y = x /\ (i < n)%nat.
Proof.
  revert i. induction n as [|n IH]; intros i; cbn [repeat]; [split; [done | intros [_ ?]; lia]|].
  destruct i as [|i]; simpl; [split; [intros [= ->]; split; [done | lia] | by intros [-> _]]|].
  rewrite IH. split; intros [? ?]; (split; [done | lia]).
Qed.

(** A range of zero bytes is an array of zero words. *)
Lemma words_zeros m a n :
  mem_read (mem m) a (8 * n) = Some (repeat 0 (8 * n)) -> (forall x, a <= x < a + 8 * Z.of_nat n -> x ∉ text m) ->
  words m a (repeat 0 n).
Proof.
  intros [_ Hr]%mem_read_Some Ht. split; [by rewrite repeat_length | |]; intros i v [-> Hi]%lookup_repeat; [lia|].
  apply mem_read_Some. split; [done|]. intros j Hj.
  replace (a + 8 * Z.of_nat i + Z.of_nat j) with (a + Z.of_nat (8 * i + j)) by lia. rewrite Hr by lia.
  rewrite (proj2 (lookup_repeat 0 0 (8 * n) (8 * i + j))) by (split; [done | lia]).
  do 8 (destruct j as [|j]; [done|]). lia.
Qed.

(** ** Regions of words *)

(** Several arrays of words, each at its address, apart from each other. *)
Record laid (R : list (Z * list Z)) (m : machine) : Prop := Laid {
  laid_words k a l : R !! k = Some (a, l) -> words m a l;
  laid_apart j k a l b l' : j <> k -> R !! j = Some (a, l) -> R !! k = Some (b, l') ->
    disjoint_ranges a (8 * Z.of_nat (length l)) b (8 * Z.of_nat (length l'))
}.

Definition inside (R : list (Z * list Z)) (x : Z) : Prop :=
  exists k a l, R !! k = Some (a, l) /\ a <= x < a + 8 * Z.of_nat (length l).

Lemma laid_load R m k a l i v x :
  laid R m -> R !! k = Some (a, l) -> l !! i = Some v -> x = a + 8 * Z.of_nat i -> load64 x m = Some (v, m).
Proof. intros [Hw _] Hk Hi ->. apply (words_load m a l); [by eapply Hw | done]. Qed.

Lemma laid_store R m k a l i v x :
  laid R m -> R !! k = Some (a, l) -> (i < length l)%nat -> 0 <= v < 2 ^ 64 -> x = a + 8 * Z.of_nat i ->
  store64 x v m = Some (tt, put64 x v m) /\ laid (<[k := (a, <[i := v]> l)]> R) (put64 x v m) /\
  forall y, ~ inside R y -> mem (put64 x v m) !! y = mem m !! y.
Proof.
  intros [Hw Ha] Hk Hi Hv ->. destruct (words_store m a l i v (Hw _ _ _ Hk) Hi Hv) as [E Hs]. split; [done|]. split; [split|].
  - intros k' b l'. rewrite list_lookup_insert_Some. intros [(<- & [= <- <-] & _)|[Hne Hk']]; [done|].
    apply words_other; [by eapply Hw|]. pose proof (Ha k k' a l b l' Hne Hk Hk') as Hd. unfold disjoint_ranges in *. lia.
  - intros j j' b l1 c l2 Hne Hj Hj'. rewrite list_lookup_insert_Some in Hj, Hj'.
    destruct Hj as [(<- & [= <- <-] & _)|[Hnj Hj]], Hj' as [(<- & [= <- <-] & _)|[Hnj' Hj']]; rewrite ?length_insert; [done | | |]; eapply (Ha _ _ _ _ _ _ Hne); eassumption.
  - intros y Hy. apply lookup_put64. intros Hr. apply Hy. exists k, a, l. split; [done | lia].
Qed.

(** Code that leaves the regions alone leaves them laid. *)
Lemma laid_keeps R m m' : laid R m -> text m' = text m -> (forall x, inside R x -> mem m' !! x = mem m !! x) -> laid R m'.
Proof.
  intros [Hw Ha] Ht Hm. split; [|done]. intros k a l Hk. apply (words_ext m); [by eapply Hw | done|].
  intros x b Hx Hb. rewrite Hm; [done|]. by exists k, a, l.
Qed.

(** ** Blocks under stores and frees *)

Lemma blocks_ok_write m a l : blocks_ok m -> blocks_ok (set_mem (mem_write (mem m) a l) m).
Proof.
  intros [H1 H2 H3]. split; [|done..]. intros b n x Hb Hx. destruct (H1 b n x Hb Hx) as [Hm Ht]. split; [|done].
  cbn [mem set_mem]. rewrite lookup_mem_write. case_match eqn:Q; [|done].
  apply andb_prop in Q as [? ?]. apply lookup_lt_is_Some. zbool; lia || done.
Qed.

Lemma blocks_ok_freed m a n : blocks_ok m -> allocs m !! a = Some n -> blocks_ok (freed m a n).
Proof.
  intros [H1 H2 H3] Ha. destruct (H3 _ _ Ha) as [Hn _]. assert (allocs (freed m a n) = delete a (allocs m)) as E by done.
  split; rewrite ?E.
  - intros b k x [Hne Hb]%lookup_delete_Some Hx. rewrite lookup_freed; [by eapply H1 | lia|].
    intros Hx'. apply Hne. by eapply H2.
  - intros b k c j x [_ Hb]%lookup_delete_Some [_ Hc]%lookup_delete_Some. by apply H2.
  - intros b k [_ Hb]%lookup_delete_Some. by apply H3.
Qed.

Lemma blocks_apart m a n b k :
  blocks_ok m -> allocs m !! a = Some n -> allocs m !! b = Some k -> a <> b -> disjoint_ranges a n b k.
Proof.
  intros Hb Ha Hk Hne. destruct (block_size _ Hb _ _ Ha), (block_size _ Hb _ _ Hk). unfold disjoint_ranges.
  destruct (Z.le_gt_cases (a + n) b), (Z.le_gt_cases (b + k) a); try lia.
  destruct Hne. apply (block_apart _ Hb _ _ _ _ (Z.max a b) Ha Hk); unfold in_block; lia.
Qed.

(** Words in another block survive a free. *)
Lemma words_freed m a n b l k :
  blocks_ok m -> allocs m !! a = Some n -> allocs m !! b = Some k -> a <> b -> 8 * Z.of_nat (length l) <= k ->
  words m b l -> words (freed m a n) b l.
Proof.
  intros Hok Ha Hb Hne Hl Hw. pose proof (blocks_apart m a n b k Hok Ha Hb Hne) as Hd.
  apply (words_ext m); [done | done|]. intros x v Hx Hv. rewrite lookup_freed; [done | apply (block_size _ Hok) in Ha; lia|].
  unfold in_block. unfold disjoint_ranges in Hd. lia.
Qed.

Section Allocated.
Context `{HA : KernelAllocator} `{HL : !KernelAllocatorLaws HA}.

Lemma words_allocated m n a l :
  kmalloc m n <> 0 -> 0 <= n -> words m a l -> words (allocated m (kmalloc m n) n) a l.
Proof.
  intros Hk Hn Hw. apply (words_ext m); [done | done|]. intros x b _ Hb. by apply lookup_allocated.
Qed.

Lemma words_fresh m k :
  kmalloc m (8 * Z.of_nat k) <> 0 ->
  words (allocated m (kmalloc m (8 * Z.of_nat k)) (8 * Z.of_nat k)) (kmalloc m (8 * Z.of_nat k)) (repeat 0 k).
Proof.
  intros Hk. apply words_zeros.
  - unfold allocated. cbn [mem set_allocs set_mem]. replace (Z.to_nat (8 * Z.of_nat k)) with (8 * k)%nat by lia.
    pose proof (mem_read_write_same (mem m) (kmalloc m (8 * Z.of_nat k)) (repeat 0 (8 * k))) as Hr.
    by rewrite repeat_length in Hr.
  - intros x Hx. replace x with (kmalloc m (8 * Z.of_nat k) + (x - kmalloc m (8 * Z.of_nat k))) by lia.
    apply (kmalloc_data m); [done | lia].
Qed.
End Allocated.

(** ** Checking a concrete state by evaluation *)

(** Every byte of the range is mapped and not read-only. *)
Definition data_check (m : machine) (a : Z) (n : nat) : bool :=
  forallb (fun i => bool_decide (is_Some (mem m !! (a + Z.of_nat i)) /\ (a + Z.of_nat i) ∉ text m)) (seq 0 n).

Lemma data_check_spec m a n x :
  data_check m a n = true -> a <= x < a + Z.of_nat n -> is_Some (mem m !! x) /\ x ∉ text m.
Proof.
  unfold data_check. rewrite forallb_forall. intros Hc Hx. specialize (Hc (Z.to_nat (x - a))).
  replace (a + Z.of_nat (Z.to_nat (x - a))) with x in Hc by lia. rewrite bool_decide_eq_true in Hc. apply Hc, in_seq. lia.
Qed.

Definition words_check (m : machine) (a : Z) (l : list Z) : bool :=
  data_check m a (8 * length l) && forallb (fun v => (0 <=? v) && (v <? 2 ^ 64)) l &&
  bool_decide (mem_read (mem m) a (8 * length l) = Some (l ≫= le_bytes 8)).

Lemma drop_words (l : list Z) i v :
  l !! i = Some v -> take 8 (drop (8 * i) (l ≫= le_bytes 8)) = le_bytes 8 v.
Proof.
  revert i. induction l as [|w l IH]; intros i Hi; [done|].
  change ((w :: l) ≫= le_bytes 8) with (le_bytes 8 w ++ (l ≫= le_bytes 8)). destruct i as [|i]; cbn [lookup] in Hi.
  - injection Hi as ->. rewrite Nat.mul_0_r, drop_0. by apply take_app_length'.
  - rewrite drop_app_ge by (rewrite length_le_bytes; lia). rewrite length_le_bytes.
    replace (8 * S i - 8)%nat with (8 * i)%nat by lia. by apply IH.
Qed.

Lemma words_check_spec m a l : words_check m a l = true -> words m a l.
Proof.
  unfold words_check. rewrite !andb_true_iff, forallb_forall, bool_decide_eq_true. intros [[Hd Hv] Hr]. split.
  - intros x Hx. apply (data_check_spec m a (8 * length l)); [done | lia].
  - intros i v Hi%list_elem_of_lookup_2%list_elem_of_In. apply Hv in Hi. apply andb_true_iff in Hi. lia.
  - intros i v Hi. apply lookup_lt_Some in Hi as Hl. rewrite <- (drop_words l i v Hi).
    replace (a + 8 * Z.of_nat i) with (a + Z.of_nat (8 * i)) by lia. by apply (mem_read_sub _ _ (8 * length l)); [|lia].
Qed.

Definition blocks_check (m : machine) : bool :=
  forallb (fun p => (0 <? p.2) && negb (p.1 =? 0) && data_check m p.1 (Z.to_nat p.2) &&
    forallb (fun q => (p.1 =? q.1) || (p.1 + p.2 <=? q.1) || (q.1 + q.2 <=? p.1)) (map_to_list (allocs m)))
    (map_to_list (allocs m)).

Lemma blocks_check_spec m : blocks_check m = true -> blocks_ok m.
Proof.
  unfold blocks_check. rewrite forallb_forall. intros Hc.
  assert (forall a n, allocs m !! a = Some n -> 0 < n /\ a <> 0 /\ data_check m a (Z.to_nat n) = true /\
    forall b k, allocs m !! b = Some k -> a = b \/ a + n <= b \/ b + k <= a) as Hb.
  { intros a n Ha%elem_of_map_to_list%list_elem_of_In. apply Hc in Ha. cbn [fst snd] in Ha.
    rewrite !andb_true_iff, forallb_forall, negb_true_iff in Ha. destruct Ha as [[[Hn Ha] Hd] Hq].
    split; [lia|]. split; [lia|]. split; [done|]. intros b k Hk%elem_of_map_to_list%list_elem_of_In.
    apply Hq in Hk. cbn [fst snd] in Hk. rewrite !orb_true_iff in Hk. lia. }
  split.
  - intros a n x Ha Hx. destruct (Hb a n Ha) as (Hn & _ & Hd & _). apply (data_check_spec m a (Z.to_nat n)); [done|].
    unfold in_block in Hx. lia.
  - intros a n b k x Ha Hk Hx Hy. destruct (Hb a n Ha) as (_ & _ & _ & Hd). destruct (Hd b k Hk) as [?|?]; [done|].
    unfold in_block in *. lia.
  - intros a n Ha. by destruct (Hb a n Ha) as (? & ? & _).
Qed.
