(* ===== verification/CacheGlobal.v ===== *)
(** * The global cache (common/kernel/source/kernel/cache_global.c)

    One cache for the whole kernel: every copy of the SDK that is loaded finds
    it through the sysctl [ps4.cache], whose value is its address. The sysctl
    tree is the kernel's; [KernelSysctl] is what the code uses of it. *)

From stdpp Require Import base gmap list strings.
From S2P Require Import Prelude Errors Uthash Machine Reference KernelBase KernelMemory Cache CacheMap.

(** ** The kernel's sysctl tree and structures *)

(** An [SLIST] is given by its elements. [sysctl_get64] and [sysctl_probe] are
    [kernel_sysctlbyname] with a buffer of eight bytes and with none. *)
Class KernelSysctl := {
  sysctl_get64 : string -> K (Z * option Z);
  sysctl_probe : string -> K Z;
  sysctl_list : Z -> K (list Z);
  SYSCTL_CHILDREN : Z -> K Z;
  oid_name : Z -> K string;
  oid_number : Z -> K Z;
  oid_kind : Z -> K Z;
  oid_handler : Z -> K Z;
  sysctl_add_node : Z -> string -> Z -> K Z;
  sysctl_add_u64 : Z -> string -> Z -> Z -> Z -> K Z;
  sizeof_mtx : Z
}.

Definition ENOENT : Z := 2.
Definition EISDIR : Z := 21.
Definition CTL_MAXNAME : nat := 24.
Definition CTLTYPE : Z := 0xf.
Definition CTLTYPE_NODE : Z := 1.

Definition mtx_init (mutex : Z) : K unit := if mutex =? NULL then fault else ret tt.

(** ** name2oid *)

(** The parts of a name between its dots; a dot at the end is dropped first. *)
Fixpoint split_dots (l : list Z) : list (list Z) :=
  match l with
  | [] => [[]]
  | b :: l' =>
      match split_dots l' with
      | p :: ps => if b =? 0x2E then [] :: p :: ps else (b :: p) :: ps
      | [] => [[b]]
      end
  end.

Definition drop_last_dot (l : list Z) : list Z :=
  match last l with Some b => if b =? 0x2E then removelast l else l | None => l end.

Section Global.
Context `{KernelDlSym} `{KernelAllocator} `{KernelSysctl}.

(** [strcmp(name, oidp->oid_name)] over the siblings. *)
Fixpoint find_oid (part : list Z) (l : list Z) : K Z :=
  match l with
  | [] => ret NULL
  | oidp :: l' =>
      let! n := oid_name oidp in
      if bool_decide (c_string n = part) then ret oidp else find_oid part l'
  end.

Fixpoint name2oid_loop (parts : list (list Z)) (lsp : Z) (len : nat) (oid : list Z)
    : K (Z * list Z * Z) :=
  match parts with
  | [] => ret (ENOENT, oid, NULL)
  | part :: rest =>
      if decide (CTL_MAXNAME <= len)%nat then ret (ENOENT, oid, NULL)
      else
        let! l := sysctl_list lsp in
        let! oidp := find_oid part l in
        if oidp =? NULL then ret (ENOENT, oid, NULL)
        else
          let! number := oid_number oidp in
          match rest with
          | [] => ret (0, oid ++ [number], oidp)
          | _ =>
              let! kind := oid_kind oidp in
              if negb (Z.land kind CTLTYPE =? CTLTYPE_NODE) then ret (ENOENT, oid ++ [number], NULL)
              else
                let! handler := oid_handler oidp in
                if negb (handler =? NULL) then ret (ENOENT, oid ++ [number], NULL)
                else
                  let! children := SYSCTL_CHILDREN oidp in
                  name2oid_loop rest children (S len) (oid ++ [number])
          end
  end.

(** The code found, the numbers on the way to it, and the node, or NULL. *)
Definition name2oid (name : string) : K (Z * list Z * Z) :=
  let! lsp := ps4KernelDlSym "sysctl__children" in
  match c_string name with
  | [] => ret (ENOENT, [], NULL)
  | l => name2oid_loop (split_dots (drop_last_dot l)) lsp 0 []
  end.

(** ** The global cache *)

Definition global_cache : string := "cache_global.c:cache".
Definition ps4KernelCacheGlobalMutex : string := "cache_global.c:ps4KernelCacheGlobalMutex".
Definition PS4_KERNEL_CACHE_GLOBAL_MUTEX : string := "ps4.kernel.cache.global.mutex".

Definition ps4KernelCacheGlobalInitialize : K Z :=
  let! giant := ps4KernelDlSym "Giant" in
  let! td := ps4KernelThreadGetCurrent OPtr in
  if negb (fst td =? PS4_OK) then ret (fst td)
  else
  do! mtx_lock giant in
  let! r := sysctl_get64 "ps4.cache" in
  if fst r =? 0 then
    do! set_var global_cache (default 0 (snd r)) in
    let! g := ps4KernelCacheGet (default 0 (snd r)) PS4_KERNEL_CACHE_GLOBAL_MUTEX OPtr in
    do! (match snd g with Some v => set_var ps4KernelCacheGlobalMutex v | None => ret tt end) in
    do! mtx_unlock giant in
    ret PS4_OK
  else
    let! r := ps4KernelCacheCreate OPtr in
    do! (match snd r with Some v => set_var global_cache v | None => ret tt end) in
    if negb (fst r =? PS4_OK) then do! mtx_unlock giant in ret (fst r)
    else
    let! cache := get_var global_cache in
    let! rc := ps4KernelMemoryAllocateData OPtr 8 in
    let c := default 0 (snd rc) in
    if c =? NULL then
      do! ps4KernelCacheDestroy cache in
      do! mtx_unlock giant in
      ret PS4_ERROR_KERNEL_OUT_OF_MEMORY
    else
    do! store64 c cache in
    let! rm := ps4KernelMemoryAllocateData OPtr sizeof_mtx in
    do! set_var ps4KernelCacheGlobalMutex (default 0 (snd rm)) in
    let! mutex := get_var ps4KernelCacheGlobalMutex in
    if mutex =? NULL then
      do! ps4KernelMemoryFree c in
      do! ps4KernelCacheDestroy cache in
      do! mtx_unlock giant in
      ret PS4_ERROR_KERNEL_OUT_OF_MEMORY
    else
    do! mtx_init mutex in
    do! ps4KernelCacheSet cache PS4_KERNEL_CACHE_GLOBAL_MUTEX mutex in
    let! r := sysctl_probe "ps4" in
    if r =? ENOENT then
      let! fmt1 := ps4KernelMemoryAllocateData OPtr 2 in
      let! fmt2 := ps4KernelMemoryAllocateData OPtr 3 in
      let fmt1 := default 0 (snd fmt1) in
      let fmt2 := default 0 (snd fmt2) in
      do! store_bytes fmt1 (c_string "N" ++ [0]) in
      do! store_bytes fmt2 (c_string "QU" ++ [0]) in
      let! root := ps4KernelDlSym "sysctl__children" in
      let! ps4 := sysctl_add_node root "ps4" fmt1 in
      let! children := SYSCTL_CHILDREN ps4 in
      let! handler := ps4KernelDlSym "sysctl_handle_64" in
      let! cacheid := sysctl_add_u64 children "cache" c handler fmt2 in
      do! mtx_unlock giant in
      ret (if cacheid =? NULL then PS4_NOT_OK else PS4_OK)
    else if r =? EISDIR then
      let! fmt2 := ps4KernelMemoryAllocateData OPtr 3 in
      let fmt2 := default 0 (snd fmt2) in
      do! store_bytes fmt2 (c_string "QU" ++ [0]) in
      let! o := name2oid "ps4" in
      let! children := SYSCTL_CHILDREN (snd o) in
      let! handler := ps4KernelDlSym "sysctl_handle_64" in
      let! cacheid := sysctl_add_u64 children "cache" c handler fmt2 in
      do! mtx_unlock giant in
      ret (if cacheid =? NULL then PS4_NOT_OK else PS4_OK)
    else
      do! ps4KernelMemoryFree mutex in
      do! ps4KernelMemoryFree c in
      do! ps4KernelCacheDestroy cache in
      do! mtx_unlock giant in
      ret PS4_ERROR_INTERNAL_ERROR.

(** [if(cache == NULL) ps4ExpressionReturnOnError(ps4KernelCacheGlobalInitialize());] *)
Definition global_initialized (k : K Z) : K Z :=
  let! cache := get_var global_cache in
  if cache =? NULL then ps4ExpressionReturnOnError ps4KernelCacheGlobalInitialize k else k.

Definition ps4KernelCacheGlobalSet (name : option string) (value : Z) : K Z :=
  global_initialized (
  match name with
  | None => ret PS4_ERROR_ARGUMENT_PRIMARY_MISSING
  | Some name =>
      if value =? NULL then ret PS4_ERROR_ARGUMENT_MISSING
      else
        let! mutex := get_var ps4KernelCacheGlobalMutex in
        let! cache := get_var global_cache in
        do! mtx_lock mutex in
        let! r := ps4KernelCacheSet cache name value in
        do! mtx_unlock mutex in
        ret r
  end).

Definition ps4KernelCacheGlobalDelete (name : option string) : K Z :=
  global_initialized (
  match name with
  | None => ret PS4_ERROR_ARGUMENT_PRIMARY_MISSING
  | Some name =>
      let! mutex := get_var ps4KernelCacheGlobalMutex in
      let! cache := get_var global_cache in
      do! mtx_lock mutex in
      let! r := ps4KernelCacheDelete cache name in
      do! mtx_unlock mutex in
      ret r
  end).

(** The get also gives the value it stored through its out parameter. *)
Definition ps4KernelCacheGlobalGet (name : option string) (value : out) : K (Z * option Z) :=
  let! cache := get_var global_cache in
  let k : K (Z * option Z) :=
    match name, value with
    | None, _ => ret (PS4_ERROR_ARGUMENT_PRIMARY_MISSING, None)
    | Some _, ONull => ret (PS4_ERROR_ARGUMENT_OUT_MISSING, None)
    | Some name, OPtr =>
        let! mutex := get_var ps4KernelCacheGlobalMutex in
        let! cache := get_var global_cache in
        do! mtx_lock mutex in
        let! r := ps4KernelCacheGet cache name OPtr in
        do! mtx_unlock mutex in
        ret r
    end in
  if cache =? NULL then
    let! r := ps4KernelCacheGlobalInitialize in
    if r =? 0 then k
    else let! r := ps4KernelCacheGlobalInitialize in ret (r, None)
  else k.
End Global.

(** ** Mutexes *)

Definition locked (mx : Z) (m : machine) : machine := set_held (<[mx := S (hold_count mx m)]> (held m)) m.

(** [m1] with the mutex held as often as in [m]. *)
Definition released (mx : Z) (m m1 : machine) : machine := set_held (<[mx := hold_count mx m]> (held m1)) m1.

Lemma hold_count_locked mx m a :
  hold_count a (locked mx m) = if decide (a = mx) then S (hold_count mx m) else hold_count a m.
Proof.
  unfold hold_count, locked. cbn [held set_held]. case_decide as E; [subst; by rewrite lookup_insert_eq|].
  by rewrite lookup_insert_ne.
Qed.

(** A computation under a mutex that itself leaves the mutexes as they are. *)
Lemma with_lock_run {A} mx (f : K A) m r m1 :
  mx <> NULL -> f (locked mx m) = Some (r, m1) -> hold_count mx m1 = hold_count mx (locked mx m) ->
  (do! mtx_lock mx in let! r := f in do! mtx_unlock mx in ret r) m = Some (r, released mx m m1).
Proof.
  intros Hmx Hf Hh. rewrite hold_count_locked, decide_True in Hh by done.
  unfold mtx_lock. unfold bind at 1. rewrite (proj2 (Z.eqb_neq mx NULL) Hmx). fold (locked mx m).
  erewrite bind_some by exact Hf. unfold mtx_unlock, bind. rewrite (proj2 (Z.eqb_neq mx NULL) Hmx), Hh. done.
Qed.

(** The caches do not depend on the mutexes. *)
Lemma cache_inv_held R m x : cache_inv R m -> cache_inv R (set_held x m).
Proof.
  intros Hi. split; [by apply (blocks_ok_eq m), Hi | apply (inv_roles _ _ Hi) | apply (inv_caches _ _ Hi) | | apply (inv_nonempty _ _ Hi)].
  intros c t Hc. by destruct (inv_tables _ _ Hi c t Hc); split.
Qed.

Lemma framed_under_lock R m R' m1 mx :
  framed R (locked mx m) R' m1 -> framed R m R' (released mx m m1).
Proof.
  intros [Hc Hh Hm Ha]. split; [exact Hc | | exact Hm | exact Ha].
  intros a. unfold released, hold_count at 1. cbn [held set_held]. destruct (decide (a = mx)) as [->|Hne].
  - by rewrite lookup_insert_eq.
  - rewrite lookup_insert_ne by done. fold (hold_count a m1). by rewrite Hh, hold_count_locked, decide_False.
Qed.

(** ** The initialised global cache *)

Record global_ready (R : roles) (m : machine) (c : Z) (h : option UT_hash_table) : Prop := GlobalReady {
  global_inv : cache_inv R m;
  global_at : var global_cache m = c;
  global_handle : caches m !! c = Some h;
  global_mutex : var ps4KernelCacheGlobalMutex m <> NULL
}.

Section GlobalRuns.
Context `{KernelDlSym} `{HA : KernelAllocator} `{HL : !KernelAllocatorLaws HA} `{HR : !KernelRoom HA} `{KernelSysctl}.

Lemma held_room m x : kroom m <= kroom (set_held x m).
Proof. by apply kroom_same. Qed.

Lemma room_held m x : kroom (set_held x m) <= kroom m.
Proof. by apply kroom_same. Qed.

Lemma global_get_run R m c h s :
  global_ready R m c h ->
  exists m', ps4KernelCacheGlobalGet (Some s) OPtr m =
    Some (match view m c !! name_key s with
          | Some v => (PS4_OK, Some v) | None => (PS4_ERROR_NOT_FOUND, Some NULL) end, m') /\
    m' = released (var ps4KernelCacheGlobalMutex m) m (locked (var ps4KernelCacheGlobalMutex m) m).
Proof.
  intros [Hi Hg Hh Hmx]. eexists. split; [|reflexivity]. unfold ps4KernelCacheGlobalGet, get_var.
  unfold bind at 1. unfold gets. cbv beta iota. rewrite Hg, (proj2 (Z.eqb_neq c NULL)) by (by eapply cache_nonzero).
  unfold bind at 1. unfold bind at 1. cbv beta iota. rewrite Hg. apply with_lock_run; [done | | done].
  rewrite (cache_get_run R (locked (var ps4KernelCacheGlobalMutex m) m) c h s); [done | by apply cache_inv_held | done].
Qed.

Lemma global_set_run R m c h s v :
  global_ready R m c h -> ready m -> v <> NULL -> Z.of_nat (length (cache_items m c)) + 1 < 2 ^ 32 -> set_room h <= kroom m ->
  exists R' m', ps4KernelCacheGlobalSet (Some s) v m = Some (PS4_OK, m') /\ cache_inv R' m' /\
    view m' c = <[name_key s := v]> (view m c) /\ (forall c', c' <> c -> view m' c' = view m c') /\
    framed R m R' m' /\ alive m m' /\ kroom m - set_room h <= kroom m'.
Proof.
  intros [Hi Hg Hh Hmx] Hrd Hv Hlen Hroom. set (mx := var ps4KernelCacheGlobalMutex m) in *.
  destruct (cache_set_run R (locked mx m) c h s v) as (R' & m1 & E & Hi' & Hv1 & Hvo & F & A & Hr);
    [by apply cache_inv_held | done | done | done | pose proof (held_room m (<[mx := S (hold_count mx m)]> (held m))); unfold locked; lia|].
  exists R', (released mx m m1). split; [|split; [by apply cache_inv_held | split; [exact Hv1 | split; [exact Hvo|]]]].
  - unfold ps4KernelCacheGlobalSet, global_initialized, get_var, gets. unfold bind at 1. cbv beta iota.
    rewrite Hg, (proj2 (Z.eqb_neq c NULL)) by (by apply (cache_nonzero R m c h)). rewrite (proj2 (Z.eqb_neq v NULL) Hv).
    unfold bind at 1. unfold bind at 1. cbv beta iota. fold mx. rewrite Hg. apply with_lock_run; [done | exact E | apply F].
  - split; [by apply framed_under_lock|]. split; [exact A|].
    pose proof (held_room m (<[mx := S (hold_count mx m)]> (held m))). pose proof (held_room m1 (<[mx := hold_count mx m]> (held m1))).
    unfold released. fold (locked mx m) in H1. lia.
Qed.
End GlobalRuns.

(** ** Properties *)

Lemma set_var_same m x v : var x (set_vars (<[x := v]> (vars m)) m) = v.
Proof. unfold var. cbn [vars set_vars]. by rewrite lookup_insert_eq. Qed.

Lemma cache_inv_vars R m x : cache_inv R m -> cache_inv R (set_vars x m).
Proof.
  intros Hi. split; [by apply (blocks_ok_eq m), Hi | apply (inv_roles _ _ Hi) | apply (inv_caches _ _ Hi) | | apply (inv_nonempty _ _ Hi)].
  intros c t Hc. by destruct (inv_tables _ _ Hi c t Hc); split.
Qed.

Section GlobalProperties.
Context `{KernelDlSym} `{HA : KernelAllocator} `{HL : !KernelAllocatorLaws HA} `{HR : !KernelRoom HA} `{KernelSysctl}.

(** A copy of the SDK whose variables are NULL attaches to the cache the sysctl
    names. *)
Lemma global_attach_run R m c h mx giant :
  cache_inv R m -> caches m !! c = Some h ->
  view m c !! name_key PS4_KERNEL_CACHE_GLOBAL_MUTEX = Some mx -> giant <> NULL ->
  (forall m0, ps4KernelDlSym "Giant" m0 = Some (giant, m0)) ->
  (forall m0, sysctl_get64 "ps4.cache" m0 = Some ((0, Some c), m0)) ->
  let n0 := set_vars ∅ m in
  ps4KernelCacheGlobalInitialize n0 = Some (PS4_OK, released giant n0
    (set_vars (<[ps4KernelCacheGlobalMutex := mx]> (<[global_cache := c]> ∅)) (locked giant n0))).
Proof.
  intros Hi Hc Hmx Hgi Hdl Hsys n0. set (n1 := locked giant n0). set (n3 := set_vars _ n1).
  set (n2 := set_vars (<[global_cache := c]> ∅) n1).
  unfold ps4KernelCacheGlobalInitialize. erewrite bind_some by apply Hdl. erewrite bind_some by reflexivity.
  change (negb (fst (PS4_OK, Some (curthread n0)) =? PS4_OK)) with false. cbv iota.
  erewrite bind_some by (unfold mtx_lock; rewrite (proj2 (Z.eqb_neq giant NULL) Hgi); reflexivity). fold n1.
  erewrite bind_some by apply Hsys. change (fst (0, Some c) =? 0) with true. cbv iota.
  change (default 0 (snd (0, Some c))) with c. erewrite bind_some by reflexivity. fold n2.
  assert (cache_inv R n2) as Hi2 by (apply cache_inv_vars, cache_inv_held, cache_inv_vars; exact Hi).
  erewrite bind_some by (apply (cache_get_run R n2 c h); [exact Hi2 | exact Hc]).
  change (view n2 c) with (view m c). rewrite Hmx. cbn [snd].
  erewrite bind_some by reflexivity. unfold mtx_unlock. unfold bind at 1. rewrite (proj2 (Z.eqb_neq giant NULL) Hgi).
  assert (hold_count giant n3 = S (hold_count giant n0)) as Hh
    by (change (hold_count giant n3) with (hold_count giant n1); unfold n1; by rewrite hold_count_locked, decide_True).
  change (set_vars (<[ps4KernelCacheGlobalMutex := mx]> (vars n2)) n2) with n3. by rewrite Hh.
Qed.

Lemma hold_count_released a x n : hold_count a (released x n (locked x n)) = hold_count a n.
Proof.
  unfold released, hold_count at 1. cbn [held set_held locked].
  destruct (decide (a = x)) as [->|]; [by rewrite lookup_insert_eq | by rewrite !lookup_insert_ne].
Qed.

(** C25. What one copy of the SDK stores under a name, a copy loaded later reads
    under the same name: with its own variables still NULL it finds the cache
    through the sysctl and the mutex through the cache, and leaves every mutex
    as it was. *)
Theorem global_cache_shared R m c h s v mx giant :
  global_ready R m c h -> ready m -> v <> NULL -> Z.of_nat (length (cache_items m c)) + 1 < 2 ^ 32 -> set_room h <= kroom m ->
  view m c !! name_key PS4_KERNEL_CACHE_GLOBAL_MUTEX = Some mx -> mx <> NULL ->
  name_key s <> name_key PS4_KERNEL_CACHE_GLOBAL_MUTEX -> giant <> NULL ->
  (forall m0, ps4KernelDlSym "Giant" m0 = Some (giant, m0)) ->
  (forall m0, sysctl_get64 "ps4.cache" m0 = Some ((0, Some c), m0)) ->
  exists m1 m2, ps4KernelCacheGlobalSet (Some s) v m = Some (PS4_OK, m1) /\
    ps4KernelCacheGlobalGet (Some s) OPtr (set_vars ∅ m1) = Some ((PS4_OK, Some v), m2) /\
    var global_cache m2 = c /\ var ps4KernelCacheGlobalMutex m2 = mx /\
    (forall a, hold_count a m2 = hold_count a m).
Proof.
  intros Hg Hrd Hv Hlen Hroom Hmx Hmx0 Hne Hgi Hdl Hsys.
  destruct (global_set_run R m c h s v Hg Hrd Hv Hlen Hroom) as (R' & m1 & E1 & Hi1 & Hv1 & _ & F1 & A1 & _).
  destruct (A1 c) as [h1 Hc1]; [rewrite (global_handle _ _ _ _ Hg); by eexists|].
  pose proof (global_attach_run R' m1 c h1 mx giant Hi1 Hc1) as Einit. rewrite Hv1, lookup_insert_ne in Einit by congruence.
  specialize (Einit Hmx Hgi Hdl Hsys). cbv zeta in Einit.
  exists m1. set (n0 := set_vars ∅ m1) in *. set (n3 := set_vars _ (locked giant n0)) in Einit.
  set (n4 := released giant n0 n3) in *.
  assert (global_ready R' n4 c h1) as Hg4.
  { split; [apply cache_inv_held, cache_inv_vars, cache_inv_held, cache_inv_vars; exact Hi1 | done | exact Hc1 | exact Hmx0]. }
  destruct (global_get_run R' n4 c h1 s Hg4) as (m2 & E2 & ->). change (view n4 c) with (view m1 c) in E2.
  rewrite Hv1, lookup_insert_eq in E2. change (var ps4KernelCacheGlobalMutex n4) with mx in E2.
  exists (released mx n4 (locked mx n4)). split; [done|]. split; [|split; [done|split; [done|]]].
  - unfold ps4KernelCacheGlobalGet in E2 |- *. unfold bind at 1, get_var, gets. unfold bind at 1, get_var, gets in E2.
    change (var global_cache n0) with 0. change (0 =? NULL) with true. cbv beta iota zeta.
    change (var global_cache n4) with c in E2. rewrite (proj2 (Z.eqb_neq c NULL)) in E2 by (by apply (cache_nonzero R' m1 c h1)).
    erewrite bind_some by exact Einit. exact E2.
  - intros a. rewrite <- (frame_held _ _ _ _ F1). change (hold_count a m1) with (hold_count a n0).
    rewrite hold_count_released. exact (hold_count_released a giant n0).
Qed.
End GlobalProperties.

(** ** Witness *)

Section GlobalWitness.
#[local] Existing Instance bump_allocator.
#[local] Existing Instance bump_allocator_laws.
#[local] Existing Instance bump_room_laws.
#[local] Instance giant_symbol : KernelDlSym := table_dlsym [("Giant"%string, 0xffffffff81000000)].

(** A sysctl tree in which [ps4.cache] is there. *)
Definition sysctl_there : KernelSysctl := {|
  sysctl_get64 _ := ret (0, Some (2 ^ 63));
  sysctl_probe _ := ret EISDIR;
  sysctl_list _ := ret [];
  SYSCTL_CHILDREN _ := ret 1;
  oid_name _ := ret ""%string;
  oid_number _ := ret 0;
  oid_kind _ := ret 0;
  oid_handler _ := ret 0;
  sysctl_add_node _ _ _ := ret 1;
  sysctl_add_u64 _ _ _ _ _ := ret 1;
  sizeof_mtx := 32 |}.
#[local] Existing Instance sysctl_there.

Lemma global_cache_shared_witness :
  exists m m1 m2, ps4KernelCacheGlobalSet (Some "a"%string) 7 m = Some (PS4_OK, m1) /\
    ps4KernelCacheGlobalGet (Some "a"%string) OPtr (set_vars ∅ m1) = Some ((PS4_OK, Some 7), m2).
Proof.
  set (statics := <[global_cache := 2 ^ 63]> (<[ps4KernelCacheGlobalMutex := 0x5000]> (vars one_cache))).
  destruct (cache_set_run {[ 2 ^ 63 := RCache ]} one_cache (2 ^ 63) None PS4_KERNEL_CACHE_GLOBAL_MUTEX 0x5000)
    as (R & m0 & E0 & Hi0 & Hv0 & _ & F0 & A0 & Hr0);
    [apply one_cache_inv | done | done | vm_compute; reflexivity | vm_compute; discriminate|].
  destruct (A0 (2 ^ 63)) as [h0 Hc0]; [vm_compute; by eexists|].
  assert (match ps4KernelCacheSet (2 ^ 63) PS4_KERNEL_CACHE_GLOBAL_MUTEX 0x5000 one_cache with
    | Some (_, m) => (Z.of_nat (length (cache_items m (2 ^ 63))) + 1 <? 2 ^ 32,
        match caches m !! (2 ^ 63) with Some h => set_room h <=? bump_room m | None => false end)
    | None => (false, false) end = (true, true)) as Hlb by (vm_compute; reflexivity).
  rewrite E0 in Hlb. injection Hlb as Hl Hb.
  rewrite Hc0 in Hb. apply Z.ltb_lt in Hl. apply Z.leb_le in Hb.
  destruct (global_cache_shared R (set_vars statics m0) (2 ^ 63) h0 "a" 7 0x5000 0xffffffff81000000) as (m1 & m2 & E1 & E2 & _).
  - split; [by apply cache_inv_vars | done | exact Hc0 | done].
  - done.
  - done.
  - exact Hl.
  - exact Hb.
  - change (view (set_vars statics m0) (2 ^ 63)) with (view m0 (2 ^ 63)). rewrite Hv0. apply lookup_insert_eq.
  - done.
  - vm_compute. discriminate.
  - done.
  - done.
  - done.
  - exists (set_vars statics m0), m1, m2. split; [exact E1 | exact E2].
Defined.
End GlobalWitness.
