(* ===== verification/Symbol.v ===== *)
(** * Symbol lookup and its first users (common/kernel/source/kernel:
      symbol.c, uart.c, privilege.c)

    Kernel symbols are looked up once and then remembered in a cache of their
    own, under a mutex. The theorems show what a lookup returns and what it
    does to the cache and the mutex, for symbols that exist and for symbols
    that do not. *)

From stdpp Require Import base gmap list strings.
From S2P Require Import Prelude Errors Uthash Machine Reference KernelBase KernelMemory Cache CacheMap CacheGlobal.

(** ** symbol.c *)

Definition symbol_cache : string := "symbol.c:cache".
Definition ps4KernelSymbolLookUpMutex : string := "symbol.c:ps4KernelSymbolLookUpMutex".
Definition PS4_KERNEL_CACHE_SYMBOL_LOOKUP_CACHE : string := "ps4.kernel.symbol.lookup.cache".
Definition PS4_KERNEL_CACHE_SYMBOL_LOOKUP_MUTEX : string := "ps4.kernel.symbol.lookup.mutex".

Section Symbol.
Context `{KernelDlSym} `{KernelAllocator} `{KernelSysctl}.

(** Store an out parameter in a static variable. *)
Definition out_to_var (x : string) (v : option Z) : K unit :=
  match v with Some v => set_var x v | None => ret tt end.

(** The block [if(cache == NULL)]: the code it returns with, if it does. *)
Definition symbol_initialize : K (option Z) :=
  let! giant := ps4KernelDlSym "Giant" in
  do! mtx_lock giant in
  let! g := ps4KernelCacheGlobalGet (Some PS4_KERNEL_CACHE_SYMBOL_LOOKUP_CACHE) OPtr in
  do! out_to_var symbol_cache (snd g) in
  if negb (fst g =? PS4_OK) then
    let! r := ps4KernelCacheCreate OPtr in
    do! out_to_var symbol_cache (snd r) in
    if negb (fst r =? PS4_OK) then do! mtx_unlock giant in ret (Some (fst r))
    else
    let! cache := get_var symbol_cache in
    do! ps4KernelCacheGlobalSet (Some PS4_KERNEL_CACHE_SYMBOL_LOOKUP_CACHE) cache in
    let! r := ps4KernelMemoryAllocateData OPtr sizeof_mtx in
    do! out_to_var ps4KernelSymbolLookUpMutex (snd r) in
    let! mutex := get_var ps4KernelSymbolLookUpMutex in
    if mutex =? NULL then
      do! ps4KernelCacheDestroy cache in
      do! mtx_unlock giant in
      ret (Some PS4_ERROR_KERNEL_OUT_OF_MEMORY)
    else
    do! mtx_init mutex in
    do! ps4KernelCacheGlobalSet (Some PS4_KERNEL_CACHE_SYMBOL_LOOKUP_MUTEX) mutex in
    do! mtx_unlock giant in
    ret None
  else
    let! g := ps4KernelCacheGlobalGet (Some PS4_KERNEL_CACHE_SYMBOL_LOOKUP_MUTEX) OPtr in
    do! out_to_var ps4KernelSymbolLookUpMutex (snd g) in
    do! mtx_unlock giant in
    ret None.

(** The lookup proper; a symbol that is not found returns with the mutex held. *)
Definition symbol_find (str : string) : K (Z * option Z) :=
  let! mutex := get_var ps4KernelSymbolLookUpMutex in
  let! cache := get_var symbol_cache in
  do! mtx_lock mutex in
  let! g := ps4KernelCacheGet cache str OPtr in
  if negb (fst g =? PS4_OK) then
    let! v := ps4KernelDlSym str in
    do! ps4KernelCacheSet cache str v in
    if v =? NULL then ret (PS4_ERROR_KERNEL_SYMBOL_LOOKUP_NOT_FOUND, Some v)
    else do! mtx_unlock mutex in ret (PS4_OK, Some v)
  else
    do! mtx_unlock mutex in
    ret (PS4_OK, snd g).

Definition ps4KernelSymbolLookUp (str : option string) (value : out) : K (Z * option Z) :=
  match str, value with
  | None, _ => ret (PS4_ERROR_ARGUMENT_PRIMARY_MISSING, None)
  | Some _, ONull => ret (PS4_ERROR_ARGUMENT_OUT_MISSING, None)
  | Some str, OPtr =>
      let! cache := get_var symbol_cache in
      if cache =? NULL then
        let! r := symbol_initialize in
        match r with Some code => ret (code, None) | None => symbol_find str end
      else symbol_find str
  end.

(** [ps4ExpressionReturnOnError(ps4KernelSymbolLookUp(str, &v))]: the test
    evaluates the call, and on an error the [return] evaluates it again. [k]
    goes on with the value stored. *)
Definition lookUpOrReturn (str : string) (k : Z -> K Z) : K Z :=
  let! r := ps4KernelSymbolLookUp (Some str) OPtr in
  if fst r =? 0 then k (default 0 (snd r))
  else let! r := ps4KernelSymbolLookUp (Some str) OPtr in ret (fst r).

(** ** uart.c *)

Definition bootparam_symbol : string := "bootparam_disable_console_output".

(** The address of the flags, from the operand of the function's first
    instruction. *)
Definition uart_flags (fn : Z) : K Z :=
  let! v := load32 (fn + 4) in ret (Z.lor 0xffffffff00000000 v).

Definition ps4KernelUartEnable : K Z :=
  lookUpOrReturn bootparam_symbol (fun fn =>
    let! sf := uart_flags fn in
    let! v := load16 sf in
    do! store16 sf (Z.ldiff v (Z.shiftl 1 15)) in
    ret PS4_OK).

Definition ps4KernelUartDisable : K Z :=
  lookUpOrReturn bootparam_symbol (fun fn =>
    let! sf := uart_flags fn in
    let! v := load16 sf in
    do! store16 sf (Z.lor v (Z.shiftl 1 15)) in
    ret PS4_OK).
End Symbol.

(** ** privilege.c *)

(** Where the kernel's structures keep the fields the code uses. *)
Class KernelStructs := {
  td_proc : Z;
  p_ucred : Z;
  p_fd : Z;
  cr_uid : Z;
  cr_ruid : Z;
  cr_rgid : Z;
  cr_prison : Z;
  fd_rdir : Z;
  fd_jdir : Z
}.

Section Privilege.
Context `{KernelDlSym} `{KernelAllocator} `{KernelSysctl} `{KernelStructs}.

Definition ps4KernelPrivilegeRoot : K unit :=
  let! td := ps4KernelThreadGetCurrent OPtr in
  let! p := load64 (default 0 (snd td) + td_proc) in
  let! cr := load64 (p + p_ucred) in
  do! store32 (cr + cr_rgid) 0 in
  do! store32 (cr + cr_ruid) 0 in
  store32 (cr + cr_uid) 0.

Definition ps4KernelPrivilegeUnjail : K Z :=
  let! td := ps4KernelThreadGetCurrent OPtr in
  let td := default 0 (snd td) in
  lookUpOrReturn "prison0" (fun t =>
    let! p := load64 (td + td_proc) in
    let! cr := load64 (p + p_ucred) in
    do! store64 (cr + cr_prison) t in
    lookUpOrReturn "rootvnode" (fun t =>
      let! p := load64 (td + td_proc) in
      let! fd := load64 (p + p_fd) in
      let! vnode := load64 t in
      do! store64 (fd + fd_jdir) vnode in
      do! store64 (fd + fd_rdir) vnode in
      ret PS4_OK)).

Definition ps4KernelPrivilegeEscalate : K Z :=
  do! ps4KernelPrivilegeRoot in
  ps4ExpressionReturnOnError ps4KernelPrivilegeUnjail (ret PS4_OK).
End Privilege.

(** ** The symbols of the kernel *)

(** A resolver that has settled: a name always gives the same address, NULL if
    there is no such symbol, and looking up changes nothing. *)
Class KernelSymbols (D : KernelDlSym) := {
  symbol_at : list Z -> Z;
  dlsym_symbol s m : ps4KernelDlSym s m = Some (symbol_at (name_key s), m)
}.

(** The symbol cache is set up, and what it holds is right. *)
Record symbols_ready {D : KernelDlSym} {S : KernelSymbols D} (R : roles) (m : machine) (c : Z) : Prop := SymbolsReady {
  symbols_inv : cache_inv R m;
  symbols_at : var symbol_cache m = c;
  symbols_there : is_Some (caches m !! c);
  symbols_mutex : var ps4KernelSymbolLookUpMutex m <> NULL;
  symbols_right k v : view m c !! k = Some v -> v = symbol_at k
}.

(** Room for one more symbol. *)
Definition symbol_room {A : KernelAllocator} {HR : KernelRoom A} (m : machine) (c : Z) : Prop :=
  Z.of_nat (length (cache_items m c)) + 1 < 2 ^ 32 /\
  forall h, caches m !! c = Some h -> set_room h <= kroom m.

Lemma frame_read R m R' m' a n l :
  framed R m R' m' -> mem_read (mem m) a n = Some l -> (forall x, a <= x < a + Z.of_nat n -> ~ owned R m x) ->
  mem_read (mem m') a n = Some l.
Proof.
  intros F Hr Ho. apply (mem_read_keeps _ _ _ _ _ Hr). intros x b Hx Hb. by apply (frame_mem _ _ _ _ F); [|apply Ho].
Qed.

Lemma var_core x m m' : core m' = core m -> var x m' = var x m.
Proof. intros E. unfold var. by rewrite (f_equal vars E : vars m' = vars m). Qed.

Section SymbolRuns.
Context `{D : KernelDlSym} `{S : !KernelSymbols D} `{HA : KernelAllocator} `{HL : !KernelAllocatorLaws HA}
  `{HR : !KernelRoom HA} `{KernelSysctl}.

Lemma lookup_ready R m c s :
  symbols_ready R m c -> ps4KernelSymbolLookUp (Some s) OPtr m = symbol_find s m.
Proof.
  intros [Hi Hc [h Hh] _ _]. unfold ps4KernelSymbolLookUp, get_var, gets. unfold bind at 1. rewrite Hc.
  by rewrite (proj2 (Z.eqb_neq c NULL)) by (by apply (cache_nonzero R m c h)).
Qed.

(** A symbol the cache knows. *)
Lemma symbol_find_hit R m c s v :
  symbols_ready R m c -> view m c !! name_key s = Some v ->
  let mx := var ps4KernelSymbolLookUpMutex m in
  symbol_find s m = Some ((PS4_OK, Some v), released mx m (locked mx m)).
Proof.
  intros [Hi Hc [h Hh] Hmx Hco] Hv mx. unfold symbol_find, get_var, gets. unfold bind at 1. unfold bind at 1. fold mx. rewrite Hc.
  erewrite bind_some by (unfold mtx_lock; rewrite (proj2 (Z.eqb_neq mx NULL) Hmx); reflexivity). fold (locked mx m).
  erewrite bind_some by (apply (cache_get_run R (locked mx m) c h); [by apply cache_inv_held | exact Hh]).
  change (view (locked mx m) c) with (view m c). rewrite Hv. cbn [fst snd].
  change (negb (PS4_OK =? PS4_OK)) with false. cbv iota. unfold mtx_unlock, bind. rewrite (proj2 (Z.eqb_neq mx NULL) Hmx).
  by rewrite hold_count_locked, decide_True.
Qed.

(** A symbol it does not know yet: the resolver's answer is remembered, NULL
    too, and in that case the mutex is not released. *)
Lemma symbol_find_miss R m c s :
  symbols_ready R m c -> ready m -> symbol_room m c -> view m c !! name_key s = None ->
  let mx := var ps4KernelSymbolLookUpMutex m in
  let v := symbol_at (name_key s) in
  exists R' m1, symbol_find s m =
      Some (if v =? NULL then ((PS4_ERROR_KERNEL_SYMBOL_LOOKUP_NOT_FOUND, Some v), m1)
            else ((PS4_OK, Some v), released mx m m1)) /\
    cache_inv R' m1 /\ is_Some (caches m1 !! c) /\ view m1 c = <[name_key s := v]> (view m c) /\ framed R (locked mx m) R' m1.
Proof.
  intros [Hi Hc [h Hh] Hmx Hco] Hrd [Hlen Hroom] Hv mx v.
  destruct (cache_set_run R (locked mx m) c h s v) as (R' & m1 & E & Hi' & Hv1 & _ & F & A & _);
    [by apply cache_inv_held | done | exact Hh | done | |].
  { pose proof (held_room m (<[mx := Datatypes.S (hold_count mx m)]> (held m))). specialize (Hroom h Hh). unfold locked. lia. }
  exists R', m1. split; [|split; [done|split; [apply A; by eexists | done]]].
  unfold symbol_find, get_var, gets. unfold bind at 1. unfold bind at 1. fold mx. rewrite Hc.
  erewrite bind_some by (unfold mtx_lock; rewrite (proj2 (Z.eqb_neq mx NULL) Hmx); reflexivity). fold (locked mx m).
  erewrite bind_some by (apply (cache_get_run R (locked mx m) c h); [by apply cache_inv_held | exact Hh]).
  change (view (locked mx m) c) with (view m c). rewrite Hv. cbn [fst snd].
  change (negb (PS4_ERROR_NOT_FOUND =? PS4_OK)) with true. cbv iota.
  erewrite bind_some by apply dlsym_symbol. fold v. erewrite bind_some by exact E.
  destruct (v =? NULL); [done|]. unfold mtx_unlock, bind. rewrite (proj2 (Z.eqb_neq mx NULL) Hmx).
  rewrite (frame_held _ _ _ _ F), hold_count_locked, decide_True by done. done.
Qed.

Lemma framed_relock R m mx : framed R m R (released mx m (locked mx m)).
Proof. apply framed_under_lock. by split. Qed.

(** A symbol that exists: its address, from the cache or from the resolver. *)
Lemma symbol_lookup_run R m c s :
  symbols_ready R m c -> ready m -> symbol_room m c -> symbol_at (name_key s) <> NULL ->
  exists R' m', ps4KernelSymbolLookUp (Some s) OPtr m = Some ((PS4_OK, Some (symbol_at (name_key s))), m') /\
    symbols_ready R' m' c /\ framed R m R' m' /\ view m' c !! name_key s = Some (symbol_at (name_key s)).
Proof.
  intros Hs Hrd Hroom Hv. rewrite (lookup_ready R m c s Hs). set (mx := var ps4KernelSymbolLookUpMutex m).
  destruct (view m c !! name_key s) as [v|] eqn:Ev.
  - pose proof (symbols_right _ _ _ Hs _ _ Ev) as ->. exists R, (released mx m (locked mx m)).
    split; [by apply (symbol_find_hit R m c)|]. split; [|split; [apply framed_relock | done]].
    destruct Hs as [H1 H2 H3 H4 H5]. split; [by apply cache_inv_held, cache_inv_held | done..].
  - destruct (symbol_find_miss R m c s Hs Hrd Hroom Ev) as (R' & m1 & E & Hi & Hc & Hv1 & F). fold mx in E, F.
    rewrite (proj2 (Z.eqb_neq _ NULL) Hv) in E. exists R', (released mx m m1). split; [done|].
    pose proof (framed_under_lock _ _ _ _ _ F) as F'.
    split; [|split; [done | change (view (released mx m m1) c) with (view m1 c); rewrite Hv1; apply lookup_insert_eq]].
    destruct Hs as [H1 H2 H3 H4 H5]. split.
    + by apply cache_inv_held.
    + rewrite <- H2. apply var_core, F'.
    + exact Hc.
    + by rewrite (var_core _ _ _ (frame_core _ _ _ _ F')).
    + intros k w. change (view (released mx m m1) c) with (view m1 c). rewrite Hv1, lookup_insert_Some.
      intros [[<- <-]|[_ Hw]]; [done | by apply H5].
Qed.

(** A symbol that does not exist, asked for twice. *)
Lemma symbol_missing_run R m c s :
  symbols_ready R m c -> ready m -> symbol_room m c -> view m c !! name_key s = None -> symbol_at (name_key s) = NULL ->
  exists R' m1 m2, ps4KernelSymbolLookUp (Some s) OPtr m = Some ((PS4_ERROR_KERNEL_SYMBOL_LOOKUP_NOT_FOUND, Some NULL), m1) /\
    ps4KernelSymbolLookUp (Some s) OPtr m1 = Some ((PS4_OK, Some NULL), m2) /\
    framed R (locked (var ps4KernelSymbolLookUpMutex m) m) R' m1 /\ framed R' m1 R' m2.
Proof.
  intros Hs Hrd Hroom Ev Hv. rewrite (lookup_ready R m c s Hs).
  destruct (symbol_find_miss R m c s Hs Hrd Hroom Ev) as (R' & m1 & E & Hi & Hc & Hv1 & F). rewrite Hv in E, Hv1.
  change (NULL =? NULL) with true in E. cbv iota in E.
  assert (symbols_ready R' m1 c) as Hs1.
  { destruct Hs as [H1 H2 H3 H4 H5]. split; [done | rewrite <- H2; apply (var_core _ _ _ (frame_core _ _ _ _ F)) | done | |].
    - by rewrite (var_core _ _ _ (frame_core _ _ _ _ F)).
    - intros k w. rewrite Hv1, lookup_insert_Some. intros [[<- <-]|[_ Hw]]; [done | by apply H5]. }
  exists R', m1. eexists. split; [done|]. split; [|split; [done | apply framed_relock]].
  rewrite (lookup_ready R' m1 c s Hs1). apply (symbol_find_hit R' m1 c s NULL Hs1). rewrite Hv1. apply lookup_insert_eq.
Qed.
End SymbolRuns.

(** ** Properties *)

Section SymbolProperties.
Context `{D : KernelDlSym} `{S : !KernelSymbols D} `{HA : KernelAllocator} `{HL : !KernelAllocatorLaws HA}
  `{HR : !KernelRoom HA} `{KernelSysctl}.

(** C17. Looking up a symbol that exists gives its address, the first time and
    every time after; every mutex is afterwards held as often as before; and
    nothing but the caches' own memory changes. *)
Theorem symbol_lookup_correct R m c s :
  symbols_ready R m c -> ready m -> symbol_room m c -> symbol_at (name_key s) <> NULL ->
  exists R' m1 m2, ps4KernelSymbolLookUp (Some s) OPtr m = Some ((PS4_OK, Some (symbol_at (name_key s))), m1) /\
    ps4KernelSymbolLookUp (Some s) OPtr m1 = Some ((PS4_OK, Some (symbol_at (name_key s))), m2) /\
    symbols_ready R' m1 c /\ framed R m R' m1 /\ mem m2 = mem m1 /\ allocs m2 = allocs m1 /\
    forall a, hold_count a m2 = hold_count a m.
Proof.
  intros Hs Hrd Hroom Hv. destruct (symbol_lookup_run R m c s Hs Hrd Hroom Hv) as (R' & m1 & E1 & Hs1 & F1 & Ev1).
  exists R', m1. eexists. split; [done|]. split; [rewrite (lookup_ready R' m1 c s Hs1); by apply (symbol_find_hit R' m1 c)|].
  split; [done|]. split; [done|]. split; [done|]. split; [done|]. intros a. rewrite hold_count_released. apply F1.
Qed.

(** C33. Looking up a symbol that does not exist: the first call reports it and
    returns with the mutex of the lookup held; the NULL it found is remembered,
    so every later call succeeds with a NULL address. *)
Theorem symbol_missing_locks R m c s :
  symbols_ready R m c -> ready m -> symbol_room m c -> view m c !! name_key s = None -> symbol_at (name_key s) = NULL ->
  let mx := var ps4KernelSymbolLookUpMutex m in
  exists m1 m2, ps4KernelSymbolLookUp (Some s) OPtr m = Some ((PS4_ERROR_KERNEL_SYMBOL_LOOKUP_NOT_FOUND, Some NULL), m1) /\
    ps4KernelSymbolLookUp (Some s) OPtr m1 = Some ((PS4_OK, Some NULL), m2) /\
    hold_count mx m1 = Datatypes.S (hold_count mx m) /\ hold_count mx m2 = Datatypes.S (hold_count mx m).
Proof.
  intros Hs Hrd Hroom Ev Hv mx. destruct (symbol_missing_run R m c s Hs Hrd Hroom Ev Hv) as (R' & m1 & m2 & E1 & E2 & F1 & F2).
  exists m1, m2. split; [done|]. split; [done|]. rewrite (frame_held _ _ _ _ F2), (frame_held _ _ _ _ F1), hold_count_locked, decide_True by done.
  done.
Qed.

(** Without the symbol of the console flags, enabling the UART reports success
    although nothing was enabled: the macro that returns on an error evaluates
    the lookup a second time, and the second lookup succeeds. *)
Theorem uart_enable_hides_missing_symbol R m c :
  symbols_ready R m c -> ready m -> symbol_room m c ->
  view m c !! name_key bootparam_symbol = None -> symbol_at (name_key bootparam_symbol) = NULL ->
  exists R' m', ps4KernelUartEnable m = Some (PS4_OK, m') /\
    forall x b, mem m !! x = Some b -> ~ owned R m x -> mem m' !! x = Some b /\ ~ owned R' m' x.
Proof.
  intros Hs Hrd Hroom Ev Hv.
  destruct (symbol_missing_run R m c bootparam_symbol Hs Hrd Hroom Ev Hv) as (R' & m1 & m2 & E1 & E2 & F1 & F2).
  exists R', m2. split.
  - unfold ps4KernelUartEnable, lookUpOrReturn. erewrite bind_some by exact E1.
    change (fst (PS4_ERROR_KERNEL_SYMBOL_LOOKUP_NOT_FOUND, Some NULL) =? 0) with false. cbv iota. by erewrite bind_some by exact E2.
  - intros x b Hx Ho. destruct (frame_mem _ _ _ _ F1 x b Hx Ho) as [Hx1 Ho1]. by apply (frame_mem _ _ _ _ F2).
Qed.

(** With the symbol there, enabling the UART clears bit 15 of the flags the
    function's first instruction refers to, and disabling it sets the bit. *)
Theorem uart_flag R m c operand w (enable : bool) :
  symbols_ready R m c -> ready m -> symbol_room m c ->
  let fn := symbol_at (name_key bootparam_symbol) in
  let sf := Z.lor 0xffffffff00000000 (le_val operand) in
  fn <> NULL -> mem_read (mem m) (fn + 4) 4 = Some operand -> mem_read (mem m) sf 2 = Some w ->
  (forall x, fn + 4 <= x < fn + 8 \/ sf <= x < sf + 2 -> ~ owned R m x /\ x ∉ text m) ->
  exists m', (if enable then ps4KernelUartEnable else ps4KernelUartDisable) m = Some (PS4_OK, m') /\
    load16 sf m' = Some (wrap 16 (if enable then Z.clearbit (le_val w) 15 else Z.setbit (le_val w) 15), m').
Proof.
  intros Hs Hrd Hroom fn sf Hfn Hop Hw Ho.
  destruct (symbol_lookup_run R m c bootparam_symbol Hs Hrd Hroom Hfn) as (R' & m1 & E1 & _ & F & _). fold fn in E1.
  assert (mem_read (mem m1) (fn + 4) 4 = Some operand) as Hop1 by (apply (frame_read R m R'); [done | done | intros x Hx; apply Ho; lia]).
  assert (mem_read (mem m1) sf 2 = Some w) as Hw1 by (apply (frame_read R m R'); [done | done | intros x Hx; apply Ho; lia]).
  set (v := if enable then Z.ldiff (le_val w) (Z.shiftl 1 15) else Z.lor (le_val w) (Z.shiftl 1 15)).
  assert (writable_range m1 sf (length (le_bytes 2 v))) as Hwr.
  { apply writable_range_iff. rewrite length_le_bytes. intros i Hi. split.
    - apply mem_read_Some in Hw1 as [Hl Hi1]. unfold mapped. rewrite Hi1 by done. apply lookup_lt_is_Some. lia.
    - rewrite (core_text _ _ (frame_core _ _ _ _ F)). intros Ht. destruct (Ho (sf + Z.of_nat i)); [lia | done]. }
  exists (set_mem (mem_write (mem m1) sf (le_bytes 2 v)) m1). split.
  - destruct enable; unfold ps4KernelUartEnable, ps4KernelUartDisable, lookUpOrReturn; erewrite bind_some by exact E1;
      change (fst (PS4_OK, Some fn) =? 0) with true; cbv iota; change (default 0 (snd (PS4_OK, Some fn))) with fn;
      unfold uart_flags, load32, load16;
      (erewrite bind_some; [|erewrite bind_some by (erewrite bind_some by (by apply load_bytes_run); reflexivity); reflexivity]); fold sf;
      (erewrite bind_some; [|erewrite bind_some by (by apply load_bytes_run); reflexivity]);
      by erewrite bind_some by (by apply store_bytes_run).
  - unfold load16. erewrite bind_some by (apply load_bytes_run; apply mem_read_write_le). rewrite le_val_bytes_wrap.
    change (8 * Z.of_nat 2) with 16. unfold v. by destruct enable.
Qed.
End SymbolProperties.

Section PrivilegeProperties.
Context `{KernelStructs}.

(** Becoming root zeroes the three ids in the credentials of the process and
    changes no other byte, whatever the layout of the structures. *)
Theorem privilege_root_ids m p cr :
  load64 (curthread m + td_proc) m = Some (p, m) -> load64 (p + p_ucred) m = Some (cr, m) ->
  writable_range m (cr + cr_rgid) 4 -> writable_range m (cr + cr_ruid) 4 -> writable_range m (cr + cr_uid) 4 ->
  exists m', ps4KernelPrivilegeRoot m = Some (tt, m') /\
    (forall f, f = cr_uid \/ f = cr_ruid \/ f = cr_rgid -> load32 (cr + f) m' = Some (0, m')) /\
    forall x, ~ (cr + cr_uid <= x < cr + cr_uid + 4) -> ~ (cr + cr_ruid <= x < cr + cr_ruid + 4) ->
      ~ (cr + cr_rgid <= x < cr + cr_rgid + 4) -> mem m' !! x = mem m !! x.
Proof.
  intros Hp Hcr Hg Hr Hu. set (z := le_bytes 4 0).
  set (m1 := set_mem (mem_write (mem m) (cr + cr_rgid) z) m).
  set (m2 := set_mem (mem_write (mem m1) (cr + cr_ruid) z) m1).
  set (m3 := set_mem (mem_write (mem m2) (cr + cr_uid) z) m2).
  assert (forall n a, writable_range n a 4 -> forall b, writable_range (set_mem (mem_write (mem n) b z) n) a 4) as Hkeep.
  { intros n a Hw b. apply writable_range_set_mem; [done|]. intros i Hi. rewrite lookup_mem_write.
    case_match eqn:Q; [apply andb_prop in Q as [? ?]; apply lookup_lt_is_Some; zbool; lia || done|].
    rewrite writable_range_iff in Hw. by apply Hw. }
  assert (forall x, mem m3 !! x = (if decide (cr + cr_uid <= x < cr + cr_uid + 4 \/ cr + cr_ruid <= x < cr + cr_ruid + 4 \/
    cr + cr_rgid <= x < cr + cr_rgid + 4) then Some 0 else mem m !! x)) as Hm3.
  { intros x. unfold m3, m2, m1. cbn [mem set_mem]. rewrite !lookup_mem_write. change (Z.of_nat (length z)) with 4.
    assert (forall k, 0 <= k < 4 -> z !! Z.to_nat k = Some 0) as Hz.
    { intros k Hk. assert (k = 0 \/ k = 1 \/ k = 2 \/ k = 3) as [->|[->|[->| ->]]] by lia; done. }
    repeat match goal with |- context [if (?a <=? ?b) && (?b <? ?c) then _ else _] =>
      destruct (Z.leb_spec a b), (Z.ltb_spec b c); cbn [andb] end;
      case_decide; try lia; try (apply Hz; lia); try done. }
  exists m3. split; [|split].
  - unfold ps4KernelPrivilegeRoot. erewrite bind_some by reflexivity. change (default 0 (snd (PS4_OK, Some (curthread m)))) with (curthread m).
    erewrite bind_some by exact Hp. erewrite bind_some by exact Hcr. unfold store32.
    erewrite bind_some by (by apply store_bytes_run). fold z m1.
    erewrite bind_some by (apply store_bytes_run; by apply Hkeep). fold z m2.
    apply store_bytes_run. by apply Hkeep, Hkeep.
  - intros f Hf. unfold load32. rewrite (bind_some _ _ _ z m3); [done|]. apply load_bytes_run. apply mem_read_Some. split; [done|].
    intros i Hi. rewrite Hm3, decide_True by (destruct Hf as [->|[->| ->]]; lia).
    do 4 (destruct i as [|i]; [done|]). lia.
  - intros x H1 H2 H3. rewrite Hm3. by rewrite decide_False by tauto.
Qed.
End PrivilegeProperties.

(** ** Witnesses *)

(** A resolver over a table of names cut at 4096 characters. *)
Definition key_dlsym (t : list (list Z * Z)) : KernelDlSym :=
  {| ps4KernelDlSym s := ret (default 0 (list_to_map (M := gmap (list Z) Z) t !! name_key s)) |}.

Definition key_symbols (t : list (list Z * Z)) : KernelSymbols (key_dlsym t).
Proof.
  refine {| symbol_at k := default 0 (list_to_map (M := gmap (list Z) Z) t !! k) |}. intros s m. reflexivity.
Defined.

Section SymbolWitnesses.
#[local] Existing Instance bump_allocator.
#[local] Existing Instance bump_allocator_laws.
#[local] Existing Instance bump_room_laws.
#[local] Existing Instance sysctl_there.
#[local] Instance some_symbols : KernelDlSym := key_dlsym [(name_key bootparam_symbol, 0x400000)].
#[local] Instance some_symbols_settled : KernelSymbols some_symbols := key_symbols _.

Definition symbol_machine : machine :=
  cache_machine [(0x400004, [0x00; 0x10; 0x00; 0x00]); (0xffffffff00001000, [0x34; 0x92])]
    [(ps4KernelMemoryType, 1); (symbol_cache, 2 ^ 63); (ps4KernelSymbolLookUpMutex, 0x6000)].

Lemma symbol_machine_ready : symbols_ready {[ 2 ^ 63 := RCache ]} symbol_machine (2 ^ 63).
Proof. split; [apply cache_machine_inv | done | by eexists | done | done]. Qed.

Lemma symbol_machine_room : symbol_room symbol_machine (2 ^ 63).
Proof. split; [done|]. intros h [= <-]. vm_compute. discriminate. Qed.

Lemma symbol_machine_owned x : owned {[ 2 ^ 63 := RCache ]} symbol_machine x -> 2 ^ 63 <= x < 2 ^ 63 + 8.
Proof.
  intros (a & r & n & Ha & Hn & Hin). apply lookup_singleton_Some in Ha as [<- _].
  assert (allocs symbol_machine = {[ 2 ^ 63 := 8 ]}) as E by reflexivity.
  rewrite E in Hn. apply lookup_singleton_Some in Hn as [_ <-]. exact Hin.
Qed.

Lemma symbol_lookup_correct_witness :
  exists m1 m2, ps4KernelSymbolLookUp (Some bootparam_symbol) OPtr symbol_machine = Some ((PS4_OK, Some 0x400000), m1) /\
    ps4KernelSymbolLookUp (Some bootparam_symbol) OPtr m1 = Some ((PS4_OK, Some 0x400000), m2).
Proof.
  destruct (symbol_lookup_correct _ symbol_machine (2 ^ 63) bootparam_symbol symbol_machine_ready) as (R' & m1 & m2 & E1 & E2 & _);
    [done | apply symbol_machine_room | vm_compute; discriminate|].
  exists m1, m2. split; [exact E1 | exact E2].
Defined.

Lemma symbol_missing_locks_witness :
  exists m1, ps4KernelSymbolLookUp (Some "nothing"%string) OPtr symbol_machine =
    Some ((PS4_ERROR_KERNEL_SYMBOL_LOOKUP_NOT_FOUND, Some NULL), m1) /\ hold_count 0x6000 m1 = 1%nat.
Proof.
  destruct (symbol_missing_locks _ symbol_machine (2 ^ 63) "nothing" symbol_machine_ready) as (m1 & m2 & E1 & _ & Hh & _);
    [done | apply symbol_machine_room | done | vm_compute; reflexivity|].
  exists m1. split; [exact E1 | exact Hh].
Defined.

Lemma uart_flag_witness :
  exists m', ps4KernelUartEnable symbol_machine = Some (PS4_OK, m') /\ load16 0xffffffff00001000 m' = Some (0x1234, m').
Proof.
  destruct (uart_flag _ symbol_machine (2 ^ 63) [0x00; 0x10; 0x00; 0x00] [0x34; 0x92] true symbol_machine_ready) as (m' & E & El).
  - done.
  - apply symbol_machine_room.
  - vm_compute. discriminate.
  - vm_compute. reflexivity.
  - vm_compute. reflexivity.
  - intros x Hx. split; [|apply not_elem_of_empty]. intros Ho. apply symbol_machine_owned in Ho.
    assert (symbol_at (name_key bootparam_symbol) = 0x400000) as Efn by (vm_compute; reflexivity). rewrite Efn in Hx.
    change (Z.lor 0xffffffff00000000 (le_val [0x00; 0x10; 0x00; 0x00])) with 0xffffffff00001000 in Hx. lia.
  - exists m'. split; [exact E | exact El].
Defined.
End SymbolWitnesses.

Section MissingWitness.
#[local] Existing Instance bump_allocator.
#[local] Existing Instance bump_allocator_laws.
#[local] Existing Instance bump_room_laws.
#[local] Existing Instance sysctl_there.
#[local] Instance empty_symbols : KernelDlSym := key_dlsym [].
#[local] Instance empty_symbols_settled : KernelSymbols empty_symbols := key_symbols _.

Lemma uart_enable_hides_missing_symbol_witness :
  exists m', ps4KernelUartEnable symbol_machine = Some (PS4_OK, m') /\ mem m' !! 0xffffffff00001001 = Some 0x92.
Proof.
  destruct (uart_enable_hides_missing_symbol {[ 2 ^ 63 := RCache ]} symbol_machine (2 ^ 63)) as (R' & m' & E & Hm).
  - split; [apply cache_machine_inv | done | by eexists | done | done].
  - done.
  - apply symbol_machine_room.
  - done.
  - done.
  - exists m'. split; [exact E|]. apply Hm; [vm_compute; reflexivity|]. intros Ho. apply symbol_machine_owned in Ho. lia.
Defined.

#[local] Instance some_structs : KernelStructs := {|
  td_proc := 8; p_ucred := 0x40; p_fd := 0x48; cr_uid := 4; cr_ruid := 8; cr_rgid := 0x14;
  cr_prison := 0x30; fd_rdir := 0x10; fd_jdir := 0x18 |}.

Lemma privilege_root_ids_witness :
  exists m', ps4KernelPrivilegeRoot
    (booted [(0xffffff8000001008, le_bytes 8 0x2000); (0x2040, le_bytes 8 0x3000); (0x3000, repeat 1 32)] [] []) = Some (tt, m') /\
    load32 0x3004 m' = Some (0, m').
Proof.
  destruct (privilege_root_ids (booted [(0xffffff8000001008, le_bytes 8 0x2000); (0x2040, le_bytes 8 0x3000);
    (0x3000, repeat 1 32)] [] []) 0x2000 0x3000) as (m' & E & Hf & _);
    [vm_compute; reflexivity | vm_compute; reflexivity | vm_decide | vm_decide | vm_decide|].
  exists m'. split; [exact E | apply (Hf 4); by left].
Defined.
End MissingWitness.
