(* ===== verification/Template.v ===== *)
(** * Code templates (common/kernel/source/payload/template.c, template/*.s, lock.s)

    The stubs the SDK writes over kernel code: a constant return, a jump, the
    two hook prologues and hidden data; for each, the operations that write it,
    recognise it and read it back. A small semantics of the instructions the
    stubs consist of says what running them does. *)

From stdpp Require Import base gmap list strings.
From S2P Require Import Prelude Errors Machine Reference KernelBase KernelMemory.

(** ** The templates as assembled *)

Definition zeros (n : nat) : list Z := repeat 0 n.

(** [movabs $0, %rax; ret] *)
Definition Return64_code : list Z := [0x48; 0xb8] ++ zeros 8 ++ [0xc3].
(** [movl $0, %eax; ret] *)
Definition Return32_code : list Z := [0xb8] ++ zeros 4 ++ [0xc3].
(** [xorq %rax, %rax; ret] *)
Definition ReturnZero_code : list Z := [0x48; 0x31; 0xc0; 0xc3].
(** [movabs $0, %r11; jmp *%r11] *)
Definition Jump64_code : list Z := [0x49; 0xbb] ++ zeros 8 ++ [0x41; 0xff; 0xe3].
(** [movl $0, %r11d; jmp *%r11] *)
Definition Jump32_code : list Z := [0x41; 0xbb] ++ zeros 4 ++ [0x41; 0xff; 0xe3].
(** [jmp .-2]: a short jump whose target is two bytes before itself *)
Definition Lock_code : list Z := [0xeb; 0xfc].

Definition ps4PayloadTemplateReturn64Size : nat := length Return64_code.
Definition ps4PayloadTemplateReturn32Size : nat := length Return32_code.
Definition ps4PayloadTemplateReturnZeroSize : nat := length ReturnZero_code.
Definition ps4PayloadTemplateJump64Size : nat := length Jump64_code.
Definition ps4PayloadTemplateJump32Size : nat := length Jump32_code.
Definition ps4PayloadLockSize : nat := length Lock_code.

(** Where the linker put the templates, and what the assembler makes of the
    two hook prologues after their first instruction [movabs $0, %r11]. *)
Class PayloadImage := {
  ps4PayloadTemplateReturn64 : Z;
  ps4PayloadTemplateReturn32 : Z;
  ps4PayloadTemplateReturnZero : Z;
  ps4PayloadTemplateJump64 : Z;
  ps4PayloadTemplateJump32 : Z;
  ps4PayloadLock : Z;
  ps4PayloadTemplateFunctionHookPrologue : Z;
  ps4PayloadTemplateSystemCallHookPrologue : Z;
  function_hook_prologue_rest : list Z;
  system_call_hook_prologue_rest : list Z
}.

Definition INT32_MIN : Z := - 2 ^ 31.
Definition INT32_MAX : Z := 2 ^ 31 - 1.

Section Template.
Context `{PayloadImage}.

Definition FunctionHookPrologue_code : list Z :=
  [0x49; 0xbb] ++ zeros 8 ++ function_hook_prologue_rest.
Definition SystemCallHookPrologue_code : list Z :=
  [0x49; 0xbb] ++ zeros 8 ++ system_call_hook_prologue_rest.
Definition ps4PayloadTemplateFunctionHookPrologueSize : nat := length FunctionHookPrologue_code.
Definition ps4PayloadTemplateSystemCallHookPrologueSize : nat := length SystemCallHookPrologue_code.

(** ** Constant return *)

(** [*value] is the second component. [&value] is the address of the
    parameter itself, so the two copies change a local of this function. *)
Definition ps4PayloadReturnExtractValue (memory : Z) (value : out) : K (Z * option Z) :=
  if memory =? NULL then ret (PS4_ERROR_ARGUMENT_PRIMARY_MISSING, None)
  else match value with
  | ONull => ret (PS4_ERROR_ARGUMENT_OUT_MISSING, None)
  | OPtr =>
      let! r := ps4KernelMemoryCompareNonZeros ps4PayloadTemplateReturn64 memory
                  ps4PayloadTemplateReturn64Size in
      if r =? PS4_OK then
        do! ps4KernelMemoryCopyToLocal (memory + 2) 8 in ret (PS4_OK, None)
      else
        let! r := ps4KernelMemoryCompareNonZeros ps4PayloadTemplateReturn32 memory
                    ps4PayloadTemplateReturn32Size in
        if r =? PS4_OK then
          do! ps4KernelMemoryCopyToLocal (memory + 1) 4 in ret (PS4_OK, None)
        else
          let! r := ps4KernelMemoryCompareNonZeros ps4PayloadTemplateReturnZero memory
                      ps4PayloadTemplateReturnZeroSize in
          if (r =? PS4_OK) && (match value with ONull => true | OPtr => false end)
          then ret (PS4_OK, Some 0)
          else ret (PS4_ERROR_ARGUMENT_EXPECTATION_FAILED, None)
  end.

Definition ps4PayloadReturnIsPatched (memory : Z) : K Z :=
  if memory =? NULL then ret PS4_ERROR_ARGUMENT_PRIMARY_MISSING
  else
    let! r := ps4KernelMemoryCompareNonZeros ps4PayloadTemplateReturn64 memory
                ps4PayloadTemplateReturn64Size in
    if r =? PS4_OK then ret PS4_OK
    else
      let! r := ps4KernelMemoryCompareNonZeros ps4PayloadTemplateReturn32 memory
                  ps4PayloadTemplateReturn32Size in
      if r =? PS4_OK then ret PS4_OK
      else
        let! r := ps4KernelMemoryCompareNonZeros ps4PayloadTemplateReturnZero memory
                    ps4PayloadTemplateReturnZeroSize in
        if r =? PS4_OK then ret PS4_OK
        else ret PS4_ERROR_ARGUMENT_EXPECTATION_FAILED.

Definition ps4PayloadReturnPatch (memory value : Z) : K Z :=
  if memory =? NULL then ret PS4_ERROR_ARGUMENT_PRIMARY_MISSING
  else if value =? 0 then
    do! ps4KernelMemoryCopy ps4PayloadTemplateReturnZero memory ps4PayloadTemplateReturnZeroSize in
    ret PS4_OK
  else if (value <=? INT32_MAX) && (INT32_MIN <=? value) then
    do! ps4KernelMemoryCopy ps4PayloadTemplateReturn32 memory ps4PayloadTemplateReturn32Size in
    do! ps4KernelMemoryCopyFromLocal (take 4 (le_bytes 8 value)) (memory + 1) in
    ret PS4_OK
  else
    do! ps4KernelMemoryCopy ps4PayloadTemplateReturn64 memory ps4PayloadTemplateReturn64Size in
    do! ps4KernelMemoryCopyFromLocal (le_bytes 8 value) (memory + 2) in
    ret PS4_OK.

Definition ps4PayloadReturnDeterminePatchSize (value : Z) (size : out) : Z * option Z :=
  match size with
  | ONull => (PS4_ERROR_ARGUMENT_PRIMARY_MISSING, None)
  | OPtr =>
      (PS4_OK, Some (Z.of_nat (
        if value =? 0 then ps4PayloadTemplateReturnZeroSize
        else if (value <=? INT32_MAX) && (INT32_MIN <=? value) then ps4PayloadTemplateReturn32Size
        else ps4PayloadTemplateReturn64Size)))
  end.

(** ** Jump *)

Definition ps4PayloadJumpExtractTarget (memory : Z) (to : out) : K (Z * option Z) :=
  if memory =? NULL then ret (PS4_ERROR_ARGUMENT_PRIMARY_MISSING, None)
  else match to with
  | ONull => ret (PS4_ERROR_ARGUMENT_OUT_MISSING, None)
  | OPtr =>
      let! r := ps4KernelMemoryCompareNonZeros ps4PayloadTemplateJump32 memory
                  ps4PayloadTemplateJump32Size in
      if r =? PS4_OK then
        let! c := ps4KernelMemoryCopyToLocal (memory + 2) 4 in
        ret (PS4_OK, Some (le_val (snd c ++ zeros 4)))
      else
        let! r := ps4KernelMemoryCompareNonZeros ps4PayloadTemplateJump64 memory
                    ps4PayloadTemplateJump64Size in
        if r =? PS4_OK then
          let! c := ps4KernelMemoryCopyToLocal (memory + 2) 8 in
          ret (PS4_OK, Some (le_val (snd c)))
        else ret (PS4_ERROR_ARGUMENT_EXPECTATION_FAILED, Some 0)
  end.

Definition ps4PayloadJumpIsPatched (memory : Z) : K Z :=
  if memory =? NULL then ret PS4_ERROR_ARGUMENT_PRIMARY_MISSING
  else
    let! r := ps4KernelMemoryCompareNonZeros ps4PayloadTemplateJump32 memory
                ps4PayloadTemplateJump32Size in
    if r =? PS4_OK then ret PS4_OK
    else
      let! r := ps4KernelMemoryCompareNonZeros ps4PayloadTemplateJump64 memory
                  ps4PayloadTemplateJump64Size in
      if r =? PS4_OK then ret PS4_OK
      else ret PS4_ERROR_ARGUMENT_EXPECTATION_FAILED.

(** [(v & 0xffffffff00000000) == 0] *)
Definition jump_is_32 (to : Z) : bool := Z.land (wrap 64 to) 0xffffffff00000000 =? 0.

Definition ps4PayloadJumpPatch (memory to : Z) : K Z :=
  if memory =? NULL then ret PS4_ERROR_ARGUMENT_PRIMARY_MISSING
  else if jump_is_32 to then
    do! ps4KernelMemoryCopy ps4PayloadTemplateJump32 memory ps4PayloadTemplateJump32Size in
    do! ps4KernelMemoryCopyFromLocal (take 4 (le_bytes 8 to)) (memory + 2) in
    ret PS4_OK
  else
    do! ps4KernelMemoryCopy ps4PayloadTemplateJump64 memory ps4PayloadTemplateJump64Size in
    do! ps4KernelMemoryCopyFromLocal (le_bytes 8 to) (memory + 2) in
    ret PS4_OK.

Definition ps4PayloadJumpDeterminePatchSize (to : Z) (size : out) : Z * option Z :=
  match size with
  | ONull => (PS4_ERROR_ARGUMENT_PRIMARY_MISSING, None)
  | OPtr =>
      (PS4_OK, Some (Z.of_nat (
        if jump_is_32 to then ps4PayloadTemplateJump32Size else ps4PayloadTemplateJump64Size)))
  end.

(** ** Hook prologues: the argument is the immediate of the first instruction *)

Definition prologue_extract (template : Z) (size : nat) (memory : Z) (argument : out)
    : K (Z * option Z) :=
  if memory =? NULL then ret (PS4_ERROR_ARGUMENT_PRIMARY_MISSING, None)
  else match argument with
  | ONull => ret (PS4_ERROR_ARGUMENT_OUT_MISSING, None)
  | OPtr =>
      let! r := ps4KernelMemoryCompareNonZeros template memory size in
      if r =? PS4_OK then
        let! c := ps4KernelMemoryCopyToLocal (memory + 2) 8 in
        ret (PS4_OK, Some (le_val (snd c)))
      else ret (PS4_ERROR_ARGUMENT_EXPECTATION_FAILED, Some 0)
  end.

Definition prologue_is_patched (template : Z) (size : nat) (memory : Z) : K Z :=
  if memory =? NULL then ret PS4_ERROR_ARGUMENT_PRIMARY_MISSING
  else
    let! r := ps4KernelMemoryCompareNonZeros template memory size in
    if r =? PS4_OK then ret PS4_OK else ret PS4_ERROR_ARGUMENT_EXPECTATION_FAILED.

Definition prologue_patch (template : Z) (size : nat) (memory argument : Z) : K Z :=
  if memory =? NULL then ret PS4_ERROR_ARGUMENT_PRIMARY_MISSING
  else
    do! ps4KernelMemoryCopy template memory size in
    do! ps4KernelMemoryCopyFromLocal (le_bytes 8 argument) (memory + 2) in
    ret PS4_OK.

Definition prologue_size (size : nat) (o : out) : Z * option Z :=
  match o with
  | ONull => (PS4_ERROR_ARGUMENT_OUT_MISSING, None)
  | OPtr => (PS4_OK, Some (Z.of_nat size))
  end.

Definition ps4PayloadFunctionHookPrologueExtractArgument :=
  prologue_extract ps4PayloadTemplateFunctionHookPrologue ps4PayloadTemplateFunctionHookPrologueSize.
Definition ps4PayloadFunctionHookPrologueIsPatched :=
  prologue_is_patched ps4PayloadTemplateFunctionHookPrologue ps4PayloadTemplateFunctionHookPrologueSize.
Definition ps4PayloadFunctionHookProloguePatch :=
  prologue_patch ps4PayloadTemplateFunctionHookPrologue ps4PayloadTemplateFunctionHookPrologueSize.
Definition ps4PayloadFunctionHookPrologueDeterminePatchSize :=
  prologue_size ps4PayloadTemplateFunctionHookPrologueSize.

Definition ps4PayloadSystemCallHookPrologueExtractArgument :=
  prologue_extract ps4PayloadTemplateSystemCallHookPrologue ps4PayloadTemplateSystemCallHookPrologueSize.
Definition ps4PayloadSystemCallHookPrologueIsPatched :=
  prologue_is_patched ps4PayloadTemplateSystemCallHookPrologue ps4PayloadTemplateSystemCallHookPrologueSize.
Definition ps4PayloadSystemCallHookProloguePatch :=
  prologue_patch ps4PayloadTemplateSystemCallHookPrologue ps4PayloadTemplateSystemCallHookPrologueSize.
Definition ps4PayloadSystemCallHookPrologueDeterminePatchSize :=
  prologue_size ps4PayloadTemplateSystemCallHookPrologueSize.
End Template.

(** ** Hidden information: a short jump over its own data *)

Definition ps4PayloadHiddenInformationExtractData (memory data : Z) (size : out)
    : K (Z * option Z) :=
  if memory =? NULL then ret (PS4_ERROR_ARGUMENT_PRIMARY_MISSING, None)
  else match size with
  | ONull => ret (PS4_ERROR_ARGUMENT_OUT_MISSING, None)
  | OPtr =>
      let! b0 := load8 memory in
      if negb (b0 =? 0xeb) then ret (PS4_ERROR_ARGUMENT_EXPECTATION_FAILED, None)
      else
        let! b1 := load8 (memory + 1) in
        if 127 <? b1 then ret (PS4_ERROR_ARGUMENT_EXPECTATION_FAILED, None)
        else
          do! (if data =? NULL then ret PS4_OK
               else ps4KernelMemoryCopy (memory + 2) data (Z.to_nat b1)) in
          ret (PS4_OK, Some b1)
  end.

Definition ps4PayloadHiddenInformationIsPatched (memory : Z) : K Z :=
  if memory =? NULL then ret PS4_ERROR_ARGUMENT_PRIMARY_MISSING
  else
    let! b0 := load8 memory in
    if negb (b0 =? 0xeb) then ret PS4_ERROR_ARGUMENT_EXPECTATION_FAILED
    else
      let! b1 := load8 (memory + 1) in
      if b1 <=? 127 then ret PS4_OK else ret PS4_ERROR_ARGUMENT_EXPECTATION_FAILED.

Definition ps4PayloadHiddenInformationPatch (memory data size : Z) : K Z :=
  if memory =? NULL then ret PS4_ERROR_ARGUMENT_PRIMARY_MISSING
  else if 127 <? size then ret PS4_ERROR_ARGUMENT_SIZE_TOO_LARGE
  else
    do! ps4KernelMemoryFill memory 0xeb 1 in
    do! ps4KernelMemoryFill (memory + 1) size 1 in
    do! ps4KernelMemoryCopy data (memory + 2) (Z.to_nat size) in
    ret PS4_OK.

Definition ps4PayloadHiddenInformationDeterminePatchSize (size : out) : Z * option Z :=
  match size with
  | ONull => (PS4_ERROR_ARGUMENT_OUT_MISSING, None)
  | OPtr => (PS4_NOT_OK, Some 0)
  end.

(** ** What the stubs do when run *)

(** The registers a stub reads or writes. *)
Record cpu := Cpu { pc : Z; sp : Z; rax : Z; r11 : Z }.

Definition imm (mm : gmap Z Z) (a : Z) (n : nat) : option Z :=
  match mem_read mm a n with Some l => Some (le_val l) | None => None end.

(** One instruction, for the instructions the stubs are made of. A 32-bit move
    clears the upper half of its register. *)
Definition cpu_step (mm : gmap Z Z) (c : cpu) : option cpu :=
  match mm !! pc c with
  | Some b0 =>
      if b0 =? 0xb8 then
        match imm mm (pc c + 1) 4 with
        | Some v => Some (Cpu (pc c + 5) (sp c) v (r11 c)) | None => None end
      else if b0 =? 0xc3 then
        match imm mm (sp c) 8 with
        | Some a => Some (Cpu a (sp c + 8) (rax c) (r11 c)) | None => None end
      else
        match mm !! (pc c + 1) with
        | Some b1 =>
            if b0 =? 0xeb then Some (Cpu (pc c + 2 + signed 8 b1) (sp c) (rax c) (r11 c))
            else if (b0 =? 0x48) && (b1 =? 0xb8) then
              match imm mm (pc c + 2) 8 with
              | Some v => Some (Cpu (pc c + 10) (sp c) v (r11 c)) | None => None end
            else if (b0 =? 0x48) && (b1 =? 0x31) then
              match mm !! (pc c + 2) with
              | Some b2 => if b2 =? 0xc0 then Some (Cpu (pc c + 3) (sp c) 0 (r11 c)) else None
              | None => None end
            else if (b0 =? 0x49) && (b1 =? 0xbb) then
              match imm mm (pc c + 2) 8 with
              | Some v => Some (Cpu (pc c + 10) (sp c) (rax c) v) | None => None end
            else if (b0 =? 0x41) && (b1 =? 0xbb) then
              match imm mm (pc c + 2) 4 with
              | Some v => Some (Cpu (pc c + 6) (sp c) (rax c) v) | None => None end
            else if (b0 =? 0x41) && (b1 =? 0xff) then
              match mm !! (pc c + 2) with
              | Some b2 => if b2 =? 0xe3 then Some (Cpu (r11 c) (sp c) (rax c) (r11 c)) else None
              | None => None end
            else None
        | None => None
        end
  | None => None
  end.

Definition cpu_step2 (mm : gmap Z Z) (c : cpu) : option cpu :=
  match cpu_step mm c with Some c' => cpu_step mm c' | None => None end.

(** ** Lemmas *)

Lemma length_zeros n : length (zeros n) = n.
Proof. apply repeat_length. Qed.

Lemma nz_diff_app p q t l :
  length p = length q -> nz_diff p q = 0 -> nz_diff (p ++ t) (q ++ l) = nz_diff t l.
Proof.
  revert q. induction p as [|x p IH]; intros [|y q] Hl Hd; try done.
  cbn [app nz_diff] in *. destruct ((x =? 0) || (x =? y)) eqn:E; [by apply IH; [injection Hl|]|].
  apply orb_false_iff in E as [_ E]. apply Z.eqb_neq in E. lia.
Qed.

Lemma nz_diff_refl p : nz_diff p p = 0.
Proof. induction p as [|x p IH]; [done|]. cbn [nz_diff]. rewrite Z.eqb_refl. by rewrite orb_true_r. Qed.

Lemma nz_diff_zeros n l : nz_diff (zeros n) l = 0.
Proof. revert l. induction n as [|n IH]; intros [|y l]; try done. by apply IH. Qed.

(** A template matches itself with its hole filled. *)
Lemma nz_diff_fill p n l s :
  length l = n -> nz_diff (p ++ zeros n ++ s) (p ++ l ++ s) = 0.
Proof.
  intros Hl. rewrite nz_diff_app by (done || apply nz_diff_refl).
  rewrite nz_diff_app by (rewrite ?length_zeros; done || apply nz_diff_zeros). apply nz_diff_refl.
Qed.

(** The comparison stops at the first difference, so only the bytes up to it
    have to be readable. *)
Lemma compare_loop_prefix m a b i n k t l :
  (k <= n)%nat ->
  mem_read (mem m) (a + i) n = Some t -> mem_read (mem m) (b + i) k = Some l ->
  nz_diff (take k t) l <> 0 ->
  compare_loop a b i n m = Some (nz_diff (take k t) l, m).
Proof.
  revert i k t l. induction n as [|n IH]; intros i k t l Hk Ht Hl Hd.
  { assert (k = O) as -> by lia. by destruct t. }
  destruct k as [|k]; [by destruct t|].
  cbn [mem_read compare_loop] in *.
  destruct (mem m !! (a + i)) as [x|] eqn:Ex; [|done].
  destruct (mem_read (mem m) (a + i + 1) n) as [t'|] eqn:Et; [|done]. injection Ht as <-.
  destruct (mem m !! (b + i)) as [y|] eqn:Ey; [|done].
  destruct (mem_read (mem m) (b + i + 1) k) as [l'|] eqn:El; [|done]. injection Hl as <-.
  rewrite <- Z.add_assoc in Et, El. cbn [take firstn nz_diff] in *.
  step. destruct (Z.eqb_spec x 0); cbn [orb] in *; [apply IH; lia || done|].
  step. destruct (Z.eqb_spec x y); [apply IH; lia || done | done].
Qed.

Lemma compare_prefix_run m a b n k t l :
  a <> NULL -> b <> NULL -> (k <= n)%nat ->
  mem_read (mem m) a n = Some t -> mem_read (mem m) b k = Some l ->
  nz_diff (take k t) l <> 0 ->
  ps4KernelMemoryCompareNonZeros a b n m = Some (nz_diff (take k t) l, m).
Proof.
  intros Ha Hb Hk Ht Hl Hd. unfold ps4KernelMemoryCompareNonZeros.
  rewrite (proj2 (Z.eqb_neq _ _) Ha), (proj2 (Z.eqb_neq _ _) Hb). cbn [orb].
  eapply compare_loop_prefix; rewrite ?Z.add_0_r; eauto.
Qed.

(** Writing a template and then its hole is writing the filled template. *)
Lemma mem_write_fill mm a p z l s :
  length l = length z ->
  mem_write (mem_write mm a (p ++ z ++ s)) (a + Z.of_nat (length p)) l = mem_write mm a (p ++ l ++ s).
Proof.
  intros Hl. apply map_eq. intros x. rewrite !lookup_mem_write, !length_app, !Nat2Z.inj_add, <- Hl.
  destruct (Z.leb_spec (a + Z.of_nat (length p)) x),
    (Z.ltb_spec x (a + Z.of_nat (length p) + Z.of_nat (length l))); cbn [andb].
  - replace (_ && _) with true by (symmetry; apply andb_true_iff; split; zbool; lia || done).
    rewrite lookup_app_r by lia. rewrite lookup_app_l by lia. f_equal. lia.
  - case_match; [|done]. rewrite !lookup_app_r by lia. f_equal. lia.
  - case_match eqn:E; [|done]. apply andb_prop in E as [? ?]. rewrite !lookup_app_l by (zbool; lia || done). done.
  - case_match; [|done]. lia.
Qed.

Lemma patched_fill m a p z l s :
  length l = length z ->
  patched (patched m a (p ++ z ++ s)) (a + Z.of_nat (length p)) l = patched m a (p ++ l ++ s).
Proof.
  intros Hl. unfold patched. cbn [mem cr0 set_cr0 set_mem]. rewrite mem_write_fill by done.
  rewrite <- Z.lor_assoc, Z.lor_diag. done.
Qed.

(** A template the linker placed at [a], away from the [n] bytes at [memory]. *)
Definition loaded (m : machine) (a : Z) (code : list Z) : Prop :=
  a <> NULL /\ mem_read (mem m) a (length code) = Some code.

Definition target_ok (m : machine) (memory : Z) (n : nat) : Prop :=
  memory <> NULL /\ 0 <= memory /\ mapped_range m memory n.

Definition clear_of (memory : Z) (n : nat) (a : Z) (code : list Z) : Prop :=
  disjoint_ranges memory (Z.of_nat n) a (Z.of_nat (length code)).

(** Copy a template and fill its hole from a local. *)
Lemma patch_with_hole m memory a p n l s (code := p ++ zeros n ++ s) :
  loaded m a code -> target_ok m memory (length code) -> clear_of memory (length code) a code ->
  length l = n ->
  (do! ps4KernelMemoryCopy a memory (length code) in
   do! ps4KernelMemoryCopyFromLocal l (memory + Z.of_nat (length p)) in
   ret PS4_OK) m = Some (PS4_OK, patched m memory (p ++ l ++ s)).
Proof.
  intros [Ha Hr] (Hn & Hp & Hm) Hc Hl.
  erewrite bind_some by (by apply copy_run). erewrite bind_some.
  2: { apply copy_from_local_run; [unfold NULL; unfold NULL in Hn; lia|].
       apply mapped_range_patched. rewrite Hl. apply mapped_range_sub with (length code); [done|].
       unfold code. rewrite !length_app, length_zeros. lia. }
  cbv beta. unfold code. rewrite patched_fill by (by rewrite length_zeros). done.
Qed.

Lemma loaded_patched m a code memory l :
  loaded m a code -> clear_of memory (length l) a code -> loaded (patched m memory l) a code.
Proof.
  intros [Ha Hr] Hc. split; [done|]. cbn [patched mem set_cr0 set_mem].
  by rewrite mem_read_write_other.
Qed.

Lemma patched_bytes m memory l :
  mem_read (mem (patched m memory l)) memory (length l) = Some l.
Proof. apply mem_read_write_same. Qed.

Definition jump_code (to : Z) : list Z :=
  if jump_is_32 to then [0x41; 0xbb] ++ le_bytes 4 to ++ [0x41; 0xff; 0xe3]
  else [0x49; 0xbb] ++ le_bytes 8 to ++ [0x41; 0xff; 0xe3].

Definition return_code (value : Z) : list Z :=
  if value =? 0 then ReturnZero_code
  else if (value <=? INT32_MAX) && (INT32_MIN <=? value) then [0xb8] ++ le_bytes 4 value ++ [0xc3]
  else [0x48; 0xb8] ++ le_bytes 8 value ++ [0xc3].

Lemma take_le_bytes n k z : (n <= k)%nat -> take n (le_bytes k z) = le_bytes n z.
Proof.
  revert k z. induction n as [|n IH]; intros [|k] z Hk; try done; try lia.
  cbn [le_bytes take firstn]. f_equal. apply IH. lia.
Qed.

Lemma jump_is_32_iff to : jump_is_32 to = true <-> wrap 64 to < 2 ^ 32.
Proof.
  unfold jump_is_32. pose proof (wrap_bound 64 to ltac:(lia)) as Hb.
  set (u := wrap 64 to) in *.
  assert (Z.land u 0xffffffff00000000 = u / 2 ^ 32 * 2 ^ 32) as ->.
  { rewrite <- Z.shiftr_div_pow2, <- Z.shiftl_mul_pow2 by lia.
    apply Z.bits_inj'. intros i Hi.
    rewrite Z.land_spec, Z.shiftl_spec by lia.
    change 0xffffffff00000000 with (Z.shiftl (Z.ones 32) 32). rewrite Z.shiftl_spec by lia.
    destruct (Z.ltb_spec i 32).
    { rewrite !(Z.testbit_neg_r _ (i - 32)) by lia. by rewrite andb_false_r. }
    rewrite Z.shiftr_spec by lia. replace (i - 32 + 32) with i by lia.
    destruct (Z.ltb_spec i 64).
    - rewrite Z.ones_spec_low by lia. by rewrite andb_true_r.
    - rewrite Z.ones_spec_high, andb_false_r by lia. symmetry.
      apply Z.bits_above_log2; [lia|]. destruct (Z.eq_dec u 0) as [->|]; [cbn; lia|].
      apply Z.log2_lt_pow2; [lia|]. apply Z.lt_le_trans with (2 ^ 64); [lia|].
      apply Z.pow_le_mono_r; lia. }
  rewrite Z.eqb_eq. pose proof (Z.div_mod u (2 ^ 32)). pose proof (Z.mod_pos_bound u (2 ^ 32)).
  split; intros; [lia|]. rewrite Z.div_small by lia. done.
Qed.

Section TemplateLemmas.
Context `{PayloadImage}.

(** The jump templates are loaded and the [13] bytes at [memory] are clear of them. *)
Record jump_site (m : machine) (memory : Z) : Prop := {
  js_32 : loaded m ps4PayloadTemplateJump32 Jump32_code;
  js_64 : loaded m ps4PayloadTemplateJump64 Jump64_code;
  js_target : target_ok m memory ps4PayloadTemplateJump64Size;
  js_clear32 : clear_of memory ps4PayloadTemplateJump64Size ps4PayloadTemplateJump32 Jump32_code;
  js_clear64 : clear_of memory ps4PayloadTemplateJump64Size ps4PayloadTemplateJump64 Jump64_code
}.

Lemma clear_of_le memory n k a code :
  (k <= n)%nat -> clear_of memory n a code -> clear_of memory k a code.
Proof. unfold clear_of, disjoint_ranges. lia. Qed.

Lemma target_ok_le m memory n k : (k <= n)%nat -> target_ok m memory n -> target_ok m memory k.
Proof. intros Hk (? & ? & Hm). split; [done|]. split; [done|]. intros i Hi. apply Hm. lia. Qed.

Lemma target_neq m memory n : target_ok m memory n -> (memory =? NULL) = false.
Proof. intros [Hn _]. by apply Z.eqb_neq. Qed.

Lemma length_jump_code to :
  length (jump_code to) =
  (if jump_is_32 to then ps4PayloadTemplateJump32Size else ps4PayloadTemplateJump64Size).
Proof. unfold jump_code. by destruct (jump_is_32 to). Qed.

Lemma jump_patch_run m memory to :
  jump_site m memory ->
  ps4PayloadJumpPatch memory to m = Some (PS4_OK, patched m memory (jump_code to)).
Proof.
  intros [H32 H64 Ht Hc32 Hc64]. unfold ps4PayloadJumpPatch, jump_code.
  rewrite (target_neq _ _ _ Ht). destruct (jump_is_32 to).
  - rewrite take_le_bytes by lia.
    apply (patch_with_hole m memory ps4PayloadTemplateJump32 [0x41; 0xbb] 4
      (le_bytes 4 to) [0x41; 0xff; 0xe3]); try done.
    + by apply (target_ok_le _ _ ps4PayloadTemplateJump64Size); [cbn; lia|].
    + by apply (clear_of_le _ ps4PayloadTemplateJump64Size); [cbn; lia|].
  - by apply (patch_with_hole m memory ps4PayloadTemplateJump64 [0x49; 0xbb] 8
      (le_bytes 8 to) [0x41; 0xff; 0xe3]).
Qed.

Lemma jump_site_patched m memory to :
  jump_site m memory ->
  loaded (patched m memory (jump_code to)) ps4PayloadTemplateJump32 Jump32_code /\
  loaded (patched m memory (jump_code to)) ps4PayloadTemplateJump64 Jump64_code.
Proof.
  intros [H32 H64 Ht Hc32 Hc64].
  assert (length (jump_code to) <= ps4PayloadTemplateJump64Size)%nat as Hl.
  { rewrite length_jump_code. destruct (jump_is_32 to); cbn; lia. }
  split; (apply loaded_patched; [done | by apply (clear_of_le _ _ _ _ _ Hl)]).
Qed.

(** Recognising a jump: what the two comparisons give on [jump_code]. *)
Lemma jump_compare m memory to :
  memory <> NULL ->
  loaded m ps4PayloadTemplateJump32 Jump32_code -> loaded m ps4PayloadTemplateJump64 Jump64_code ->
  mem_read (mem m) memory (length (jump_code to)) = Some (jump_code to) ->
  if jump_is_32 to
  then ps4KernelMemoryCompareNonZeros ps4PayloadTemplateJump32 memory
         ps4PayloadTemplateJump32Size m = Some (0, m)
  else ps4KernelMemoryCompareNonZeros ps4PayloadTemplateJump32 memory
         ps4PayloadTemplateJump32Size m = Some (-8, m) /\
       ps4KernelMemoryCompareNonZeros ps4PayloadTemplateJump64 memory
         ps4PayloadTemplateJump64Size m = Some (0, m).
Proof.
  intros Hn [Ha32 H32] [Ha64 H64] Hr. rewrite length_jump_code in Hr. unfold jump_code in Hr.
  destruct (jump_is_32 to).
  - erewrite compare_run; [|done|done|exact H32|exact Hr].
    unfold Jump32_code. rewrite nz_diff_fill by apply length_le_bytes. done.
  - split.
    + pose proof (mem_read_sub _ _ _ _ 0 1 Hr ltac:(cbn; lia)) as H1. rewrite Z.add_0_r in H1.
      erewrite (compare_prefix_run m _ _ _ 1); [|done|done|cbn; lia|exact H32|exact H1|done].
      reflexivity.
    + erewrite compare_run; [|done|done|exact H64|exact Hr].
      unfold Jump64_code. rewrite nz_diff_fill by apply length_le_bytes. done.
Qed.

Lemma jump_hole m memory to :
  mem_read (mem m) memory (length (jump_code to)) = Some (jump_code to) ->
  if jump_is_32 to then mem_read (mem m) (memory + 2) 4 = Some (le_bytes 4 to)
  else mem_read (mem m) (memory + 2) 8 = Some (le_bytes 8 to).
Proof.
  intros Hr. rewrite length_jump_code in Hr. unfold jump_code in Hr. destruct (jump_is_32 to).
  - apply (mem_read_sub _ _ _ _ 2 4 Hr). cbn. lia.
  - apply (mem_read_sub _ _ _ _ 2 8 Hr). cbn. lia.
Qed.

Lemma jump_extract_run m memory to :
  memory <> NULL -> 0 <= memory ->
  loaded m ps4PayloadTemplateJump32 Jump32_code -> loaded m ps4PayloadTemplateJump64 Jump64_code ->
  mem_read (mem m) memory (length (jump_code to)) = Some (jump_code to) ->
  ps4PayloadJumpExtractTarget memory OPtr m =
  Some ((PS4_OK, Some (wrap 64 to)), set_cr0 (Z.lor (cr0 m) CR0_WP) m).
Proof.
  intros Hn Hp H32 H64 Hr. pose proof (jump_compare _ _ _ Hn H32 H64 Hr) as Hc.
  pose proof (jump_hole _ _ _ Hr) as Hh. pose proof (jump_is_32_iff to) as Hi.
  unfold ps4PayloadJumpExtractTarget. rewrite (proj2 (Z.eqb_neq _ _) Hn).
  assert (memory + 2 <> NULL) as Hn2 by (unfold NULL; lia).
  destruct (jump_is_32 to).
  - erewrite bind_some by exact Hc. change (0 =? PS4_OK) with true. cbv iota.
    erewrite bind_some by (apply copy_to_local_run; [exact Hn2 | exact Hh]).
    cbn [snd]. rewrite le_val_app, le_val_zeros, Z.mul_0_r, Z.add_0_r, le_val_bytes_wrap.
    change (8 * Z.of_nat 4) with 32. rewrite (wrap_narrow 32 64); [done | lia | by apply Hi].
  - destruct Hc as [Hc1 Hc2]. erewrite bind_some by exact Hc1. change (-8 =? PS4_OK) with false.
    cbv iota. erewrite bind_some by exact Hc2. change (0 =? PS4_OK) with true. cbv iota.
    erewrite bind_some by (apply copy_to_local_run; [exact Hn2 | exact Hh]).
    cbn [snd]. by rewrite le_val_bytes_wrap.
Qed.
End TemplateLemmas.

Section ReturnLemmas.
Context `{PayloadImage}.

Record return_site (m : machine) (memory : Z) : Prop := {
  rs_64 : loaded m ps4PayloadTemplateReturn64 Return64_code;
  rs_32 : loaded m ps4PayloadTemplateReturn32 Return32_code;
  rs_zero : loaded m ps4PayloadTemplateReturnZero ReturnZero_code;
  rs_target : target_ok m memory ps4PayloadTemplateReturn64Size;
  rs_clear64 : clear_of memory ps4PayloadTemplateReturn64Size ps4PayloadTemplateReturn64 Return64_code;
  rs_clear32 : clear_of memory ps4PayloadTemplateReturn64Size ps4PayloadTemplateReturn32 Return32_code;
  rs_clearz : clear_of memory ps4PayloadTemplateReturn64Size ps4PayloadTemplateReturnZero ReturnZero_code
}.

Lemma return_patch_run m memory value :
  return_site m memory ->
  ps4PayloadReturnPatch memory value m = Some (PS4_OK, patched m memory (return_code value)).
Proof.
  intros [H64 H32 Hz Ht Hc64 Hc32 Hcz]. unfold ps4PayloadReturnPatch, return_code.
  rewrite (target_neq _ _ _ Ht). destruct (value =? 0).
  - destruct Hz as [Ha Hr]. destruct Ht as (Hn & Hp & Hm).
    erewrite bind_some; [reflexivity|]. apply copy_run; try done.
    + apply (clear_of_le _ ps4PayloadTemplateReturn64Size); [cbn; lia | exact Hcz].
    + intros i Hi. apply Hm. cbn in *. lia.
  - destruct ((value <=? INT32_MAX) && (INT32_MIN <=? value)).
    + rewrite take_le_bytes by lia.
      apply (patch_with_hole m memory ps4PayloadTemplateReturn32 [0xb8] 4 (le_bytes 4 value) [0xc3]);
        try done.
      * by apply (target_ok_le _ _ ps4PayloadTemplateReturn64Size); [cbn; lia|].
      * by apply (clear_of_le _ ps4PayloadTemplateReturn64Size); [cbn; lia|].
    + by apply (patch_with_hole m memory ps4PayloadTemplateReturn64 [0x48; 0xb8] 8
        (le_bytes 8 value) [0xc3]).
Qed.

Lemma length_return_code value :
  length (return_code value) =
  (if value =? 0 then ps4PayloadTemplateReturnZeroSize
   else if (value <=? INT32_MAX) && (INT32_MIN <=? value) then ps4PayloadTemplateReturn32Size
   else ps4PayloadTemplateReturn64Size).
Proof. unfold return_code. repeat case_match; done. Qed.

Lemma length_return_code_le value : (length (return_code value) <= ps4PayloadTemplateReturn64Size)%nat.
Proof. rewrite length_return_code. repeat case_match; cbn; lia. Qed.

Lemma return_site_patched m memory value :
  return_site m memory ->
  loaded (patched m memory (return_code value)) ps4PayloadTemplateReturn64 Return64_code /\
  loaded (patched m memory (return_code value)) ps4PayloadTemplateReturn32 Return32_code /\
  loaded (patched m memory (return_code value)) ps4PayloadTemplateReturnZero ReturnZero_code.
Proof.
  intros [H64 H32 Hz Ht Hc64 Hc32 Hcz]. pose proof (length_return_code_le value) as Hl.
  split; [|split]; (apply loaded_patched; [done | by apply (clear_of_le _ _ _ _ _ Hl)]).
Qed.

(** What the three comparisons give on [return_code]: exactly the stub that
    was written is recognised, and no earlier one. *)
Lemma return_compare m memory value :
  memory <> NULL ->
  loaded m ps4PayloadTemplateReturn64 Return64_code ->
  loaded m ps4PayloadTemplateReturn32 Return32_code ->
  loaded m ps4PayloadTemplateReturnZero ReturnZero_code ->
  mem_read (mem m) memory (length (return_code value)) = Some (return_code value) ->
  exists r64 r32 rz,
    ps4KernelMemoryCompareNonZeros ps4PayloadTemplateReturn64 memory
      ps4PayloadTemplateReturn64Size m = Some (r64, m) /\
    (r64 <> 0 -> ps4KernelMemoryCompareNonZeros ps4PayloadTemplateReturn32 memory
      ps4PayloadTemplateReturn32Size m = Some (r32, m)) /\
    (r64 <> 0 -> r32 <> 0 -> ps4KernelMemoryCompareNonZeros ps4PayloadTemplateReturnZero memory
      ps4PayloadTemplateReturnZeroSize m = Some (rz, m)) /\
    (value = 0 -> r64 <> 0 /\ r32 <> 0 /\ rz = 0) /\
    (value <> 0 -> INT32_MIN <= value <= INT32_MAX -> r64 <> 0 /\ r32 = 0) /\
    (value < INT32_MIN \/ INT32_MAX < value -> r64 = 0).
Proof.
  intros Hn [Ha64 H64] [Ha32 H32] [Haz Hz] Hr. rewrite length_return_code in Hr.
  unfold return_code in Hr. unfold INT32_MIN, INT32_MAX in *.
  destruct (Z.eqb_spec value 0) as [->|Hv].
  - exists (0xb8 - 0x31), (0xb8 - 0x48), 0.
    pose proof (mem_read_sub _ _ _ _ 0 2 Hr ltac:(cbn; lia)) as R2. rewrite Z.add_0_r in R2.
    pose proof (mem_read_sub _ _ _ _ 0 1 Hr ltac:(cbn; lia)) as R1. rewrite Z.add_0_r in R1.
    split; [|split; [|split; [|split; [|split]]]]; try lia.
    + erewrite (compare_prefix_run m _ _ _ 2); [|done|done|cbn; lia|exact H64|exact R2|done]. done.
    + intros _. erewrite (compare_prefix_run m _ _ _ 1); [|done|done|cbn; lia|exact H32|exact R1|done]. done.
    + intros _ _. erewrite compare_run; [|done|done|exact Hz|exact Hr]. done.
  - destruct (Z.leb_spec value (2 ^ 31 - 1)), (Z.leb_spec (- 2 ^ 31) value); cbn [andb] in Hr.
    1: { exists (0x48 - 0xb8), 0, 0.
      pose proof (mem_read_sub _ _ _ _ 0 1 Hr ltac:(cbn; lia)) as R1. rewrite Z.add_0_r in R1.
      split; [|split; [|split; [|split; [|split]]]]; try lia.
      - erewrite (compare_prefix_run m _ _ _ 1); [|done|done|cbn; lia|exact H64|exact R1|done]. done.
      - intros _. erewrite compare_run; [|done|done|exact H32|exact Hr].
        unfold Return32_code. rewrite nz_diff_fill by apply length_le_bytes. done. }
    all: exists 0, 0, 0; split; [|split; [|split; [|split; [|split]]]]; try lia.
    all: erewrite compare_run; [|done|done|exact H64|exact Hr];
         unfold Return64_code; rewrite nz_diff_fill by apply length_le_bytes; done.
Qed.
End ReturnLemmas.

(** ** Running the stubs *)

Lemma imm_le mm a n v :
  mem_read mm a n = Some (le_bytes n v) -> imm mm a n = Some (wrap (8 * Z.of_nat n) v).
Proof. unfold imm. intros ->. by rewrite le_val_bytes_wrap. Qed.

Lemma byte_at mm a n l i b :
  mem_read mm a n = Some l -> l !! i = Some b -> mm !! (a + Z.of_nat i) = Some b.
Proof.
  intros [Hl Hi]%mem_read_Some Hb. rewrite Hi; [done|].
  apply lookup_lt_Some in Hb. lia.
Qed.

Ltac code_byte H i :=
  let B := fresh "B" in
  pose proof (byte_at _ _ _ _ i _ H eq_refl) as B;
  let z := eval vm_compute in (Z.of_nat i) in change (Z.of_nat i) with z in B.

Lemma jump_runs mm memory to c :
  mem_read mm memory (length (jump_code to)) = Some (jump_code to) -> pc c = memory ->
  cpu_step2 mm c = Some (Cpu (wrap 64 to) (sp c) (rax c) (wrap 64 to)).
Proof.
  intros Hr Hpc. rewrite length_jump_code in Hr. unfold jump_code in Hr.
  pose proof (jump_is_32_iff to) as Hi. unfold cpu_step2, cpu_step at 1. rewrite Hpc.
  destruct (jump_is_32 to).
  - code_byte Hr 0%nat. code_byte Hr 1%nat. rewrite Z.add_0_r in B. rewrite B, B0. cbn [Z.eqb Pos.eqb andb].
    pose proof (mem_read_sub _ _ _ _ 2 4 Hr ltac:(cbn; lia)) as Him.
    rewrite (imm_le _ _ 4 to) by exact Him.
    code_byte Hr 6%nat. code_byte Hr 7%nat. code_byte Hr 8%nat.
    unfold cpu_step. cbn [pc sp rax r11]. rewrite B1.
    replace (memory + 6 + 1) with (memory + 7) by lia. rewrite B2.
    replace (memory + 6 + 2) with (memory + 8) by lia. rewrite B3.
    cbn [Z.eqb Pos.eqb andb]. change (8 * Z.of_nat 4) with 32.
    rewrite (wrap_narrow 32 64); [done | lia | by apply Hi].
  - code_byte Hr 0%nat. code_byte Hr 1%nat. rewrite Z.add_0_r in B. rewrite B, B0. cbn [Z.eqb Pos.eqb andb].
    pose proof (mem_read_sub _ _ _ _ 2 8 Hr ltac:(cbn; lia)) as Him.
    rewrite (imm_le _ _ 8 to) by exact Him.
    code_byte Hr 10%nat. code_byte Hr 11%nat. code_byte Hr 12%nat.
    unfold cpu_step. cbn [pc sp rax r11]. rewrite B1.
    replace (memory + 10 + 1) with (memory + 11) by lia. rewrite B2.
    replace (memory + 10 + 2) with (memory + 12) by lia. rewrite B3. done.
Qed.

(** The value the return stub leaves in %rax. *)
Definition returned_rax (value : Z) : Z :=
  if (INT32_MIN <=? value) && (value <=? INT32_MAX) then wrap 32 value else wrap 64 value.

Lemma return_runs mm memory value c back :
  mem_read mm memory (length (return_code value)) = Some (return_code value) -> pc c = memory ->
  imm mm (sp c) 8 = Some back ->
  cpu_step2 mm c = Some (Cpu back (sp c + 8) (returned_rax value) (r11 c)).
Proof.
  intros Hr Hpc Hsp. rewrite length_return_code in Hr. unfold return_code in Hr.
  unfold cpu_step2, cpu_step at 1, returned_rax. rewrite Hpc.
  destruct (Z.eqb_spec value 0) as [->|Hv].
  - code_byte Hr 0%nat. code_byte Hr 1%nat. code_byte Hr 2%nat. code_byte Hr 3%nat.
    rewrite Z.add_0_r in B. rewrite B, B0, B1. cbn [Z.eqb Pos.eqb andb].
    unfold cpu_step. cbn [pc sp rax r11]. rewrite B2. cbn [Z.eqb Pos.eqb]. by rewrite Hsp.
  - rewrite andb_comm in Hr. destruct ((INT32_MIN <=? value) && (value <=? INT32_MAX)).
    + code_byte Hr 0%nat. code_byte Hr 5%nat. rewrite Z.add_0_r in B. rewrite B. cbn [Z.eqb Pos.eqb].
      rewrite (imm_le _ _ 4 value) by (apply (mem_read_sub _ _ _ _ 1 4 Hr); cbn; lia).
      unfold cpu_step. cbn [pc sp rax r11]. rewrite B0. cbn [Z.eqb Pos.eqb]. by rewrite Hsp.
    + code_byte Hr 0%nat. code_byte Hr 1%nat. code_byte Hr 10%nat.
      rewrite Z.add_0_r in B. rewrite B, B0. cbn [Z.eqb Pos.eqb andb].
      rewrite (imm_le _ _ 8 value) by (apply (mem_read_sub _ _ _ _ 2 8 Hr); cbn; lia).
      unfold cpu_step. cbn [pc sp rax r11]. rewrite B1. cbn [Z.eqb Pos.eqb]. by rewrite Hsp.
Qed.

(** ** Prologues and hidden information *)

Lemma prologue_patch_run m template rest memory argument
    (code := [0x49; 0xbb] ++ zeros 8 ++ rest) :
  loaded m template code -> target_ok m memory (length code) ->
  clear_of memory (length code) template code ->
  prologue_patch template (length code) memory argument m =
  Some (PS4_OK, patched m memory ([0x49; 0xbb] ++ le_bytes 8 argument ++ rest)).
Proof.
  intros Hl Ht Hc. unfold prologue_patch. rewrite (target_neq _ _ _ Ht).
  by apply (patch_with_hole m memory template [0x49; 0xbb] 8 (le_bytes 8 argument) rest).
Qed.

Lemma prologue_extract_run m template rest memory argument
    (code := [0x49; 0xbb] ++ zeros 8 ++ rest)
    (filled := [0x49; 0xbb] ++ le_bytes 8 argument ++ rest) :
  loaded m template code -> memory <> NULL -> 0 <= memory ->
  mem_read (mem m) memory (length code) = Some filled ->
  prologue_is_patched template (length code) memory m = Some (PS4_OK, m) /\
  prologue_extract template (length code) memory OPtr m =
  Some ((PS4_OK, Some (wrap 64 argument)), set_cr0 (Z.lor (cr0 m) CR0_WP) m).
Proof.
  intros [Ha Hr] Hn Hp Hf.
  assert (ps4KernelMemoryCompareNonZeros template memory (length code) m = Some (0, m)) as Hc.
  { erewrite compare_run; [|done|done|exact Hr|exact Hf].
    unfold code, filled. rewrite nz_diff_fill by apply length_le_bytes. done. }
  unfold prologue_is_patched, prologue_extract. rewrite (proj2 (Z.eqb_neq _ _) Hn).
  split; erewrite bind_some by exact Hc; change (0 =? PS4_OK) with true; cbv iota; [done|].
  erewrite bind_some.
  2: { apply copy_to_local_run; [unfold NULL; lia|].
       apply (mem_read_sub _ _ _ _ 2 8 Hf). unfold code. cbn. lia. }
  cbn [snd]. change (take 8 (drop 2 filled)) with (le_bytes 8 argument).
  by rewrite le_val_bytes_wrap.
Qed.

Lemma length_prologue argument rest :
  length ([0x49; 0xbb] ++ le_bytes 8 argument ++ rest) = length ([0x49; 0xbb] ++ zeros 8 ++ rest).
Proof. by rewrite !length_app, length_le_bytes, length_zeros. Qed.

Lemma wrap8_byte b : is_byte b -> wrap 8 b = b.
Proof. intros Hb. apply wrap_small. exact Hb. Qed.

Lemma patched_snoc m a l k :
  patched (patched m a l) (a + Z.of_nat (length l)) k = patched m a (l ++ k).
Proof.
  unfold patched. cbn [mem cr0 set_cr0 set_mem]. rewrite <- mem_write_app.
  rewrite <- Z.lor_assoc, Z.lor_diag. done.
Qed.

Lemma hidden_patch_run m memory data size l :
  memory <> NULL -> 0 <= memory -> 0 <= size <= 127 -> data <> NULL ->
  mapped_range m memory (2 + Z.to_nat size) ->
  disjoint_ranges memory (2 + size) data size ->
  mem_read (mem m) data (Z.to_nat size) = Some l ->
  ps4PayloadHiddenInformationPatch memory data size m =
  Some (PS4_OK, patched m memory ([0xeb; size] ++ l)).
Proof.
  intros Hn Hp Hs Hd Hm Hdj Hr. unfold ps4PayloadHiddenInformationPatch.
  rewrite (proj2 (Z.eqb_neq _ _) Hn), (proj2 (Z.ltb_ge 127 size)) by lia.
  pose proof (mem_read_length _ _ _ _ Hr) as Hl. unfold disjoint_ranges in Hdj.
  erewrite bind_some.
  2: { apply fill_run; [done|]. intros i Hi. apply Hm. lia. }
  erewrite bind_some.
  2: { apply fill_run; [unfold NULL; lia|]. apply mapped_range_patched.
       apply (mapped_range_sub _ _ _ 1 1 Hm). lia. }
  change (repeat (wrap 8 0xeb) 1) with [0xeb]. cbn [repeat].
  rewrite (wrap8_byte size) by (unfold is_byte; lia).
  change (memory + 1) with (memory + Z.of_nat (length [0xeb])).
  rewrite patched_snoc. erewrite bind_some.
  2: { apply copy_run; [done | unfold NULL; lia | | |].
       - unfold disjoint_ranges. lia.
       - cbn [patched mem set_cr0 set_mem]. rewrite mem_read_write_other; [exact Hr|].
         unfold disjoint_ranges. cbn [app length]. lia.
       - apply mapped_range_patched. apply (mapped_range_sub _ _ _ 2 (Z.to_nat size) Hm). lia. }
  change (memory + 2) with (memory + Z.of_nat (length ([0xeb] ++ [size]))).
  by rewrite patched_snoc.
Qed.

(** ** Properties *)

Section TemplateProperties.
Context `{PayloadImage}.

(** Writing a jump over code: the jump is then recognised, its target is read
    back exactly, [DeterminePatchSize] is the number of bytes overwritten and
    nothing else changes. *)
Theorem jump_patch_roundtrip m memory to :
  jump_site m memory ->
  exists m' n, ps4PayloadJumpPatch memory to m = Some (PS4_OK, m') /\
    ps4PayloadJumpDeterminePatchSize to OPtr = (PS4_OK, Some n) /\
    ps4PayloadJumpIsPatched memory m' = Some (PS4_OK, m') /\
    (exists m'', ps4PayloadJumpExtractTarget memory OPtr m' =
       Some ((PS4_OK, Some (wrap 64 to)), m'') /\ mem m'' = mem m') /\
    (forall x, x < memory \/ memory + n <= x -> mem m' !! x = mem m !! x).
Proof.
  intros Hs. pose proof (jump_site_patched m memory to Hs) as [H32 H64].
  pose proof (js_target _ _ Hs) as (Hn & Hp & _).
  pose proof (patched_bytes m memory (jump_code to)) as Hb.
  eexists _, _. split; [by apply jump_patch_run|]. split; [done|]. split; [|split].
  - unfold ps4PayloadJumpIsPatched. rewrite (proj2 (Z.eqb_neq _ _) Hn).
    pose proof (jump_compare _ _ _ Hn H32 H64 Hb) as Hc. destruct (jump_is_32 to).
    + by erewrite bind_some by exact Hc.
    + destruct Hc as [Hc1 Hc2]. erewrite bind_some by exact Hc1.
      change (-8 =? PS4_OK) with false. cbv iota. by erewrite bind_some by exact Hc2.
  - eexists. split; [by apply jump_extract_run | done].
  - intros x Hx. cbn [mem patched set_cr0 set_mem]. rewrite lookup_mem_write, length_jump_code.
    replace (_ && _) with false by (symmetry; apply andb_false_iff; zbool; lia || auto). done.
Qed.

(** C13. A thread that enters the patched code continues at the target with its
    stack and %rax intact; only %r11 is clobbered. *)
Theorem jump_patch_transfers_control m memory to c :
  jump_site m memory -> pc c = memory ->
  exists m', ps4PayloadJumpPatch memory to m = Some (PS4_OK, m') /\
    cpu_step2 (mem m') c = Some (Cpu (wrap 64 to) (sp c) (rax c) (wrap 64 to)).
Proof.
  intros Hs Hpc. eexists. split; [by apply jump_patch_run|].
  by apply (jump_runs _ memory); [apply patched_bytes|].
Qed.

(** A function patched to return a constant returns to its caller with the
    constant in %rax, except that a negative value that fits in 32 bits
    arrives zero-extended: only %eax is loaded. *)
Theorem return_patch_returns m memory value c back :
  return_site m memory -> - 2 ^ 63 <= value < 2 ^ 63 ->
  pc c = memory -> imm (mem m) (sp c) 8 = Some back ->
  disjoint_ranges memory (Z.of_nat ps4PayloadTemplateReturn64Size) (sp c) 8 ->
  exists m', ps4PayloadReturnPatch memory value m = Some (PS4_OK, m') /\
    cpu_step2 (mem m') c = Some (Cpu back (sp c + 8) (returned_rax value) (r11 c)) /\
    (signed 64 (returned_rax value) = value <-> ~ (INT32_MIN <= value < 0)).
Proof.
  intros Hs Hv Hpc Hb Hd. eexists. split; [by apply return_patch_run|]. split.
  - apply (return_runs _ memory); [apply patched_bytes | done |].
    unfold imm in *. cbn [mem patched set_cr0 set_mem].
    rewrite mem_read_write_other; [exact Hb|]. pose proof (length_return_code_le value).
    unfold disjoint_ranges in *. lia.
  - unfold returned_rax, INT32_MIN, INT32_MAX.
    destruct (Z.leb_spec (- 2 ^ 31) value), (Z.leb_spec value (2 ^ 31 - 1)); cbn [andb];
      try (unfold signed; rewrite (wrap_small 64 (wrap 64 value)) by (apply wrap_bound; lia);
           fold (signed 64 value); rewrite signed_small; [lia|lia|lia]).
    pose proof (wrap_bound 32 value ltac:(lia)). rewrite signed_small by lia.
    split; [lia|]. intros Hneg. apply wrap_small. lia.
Qed.

(** After a return patch [IsPatched] recognises the stub, but
    [ExtractValue] never stores the constant it was asked for, and reports
    the stub of a zero return as not being one. *)
Theorem return_extract_loses_value m memory value :
  return_site m memory ->
  exists m', ps4PayloadReturnPatch memory value m = Some (PS4_OK, m') /\
    ps4PayloadReturnIsPatched memory m' = Some (PS4_OK, m') /\
    exists m'', ps4PayloadReturnExtractValue memory OPtr m' =
      Some ((if value =? 0 then PS4_ERROR_ARGUMENT_EXPECTATION_FAILED else PS4_OK, None), m'').
Proof.
  intros Hs. pose proof (return_site_patched m memory value Hs) as (H64 & H32 & Hz).
  pose proof (rs_target _ _ Hs) as (Hn & Hp & _).
  pose proof (patched_bytes m memory (return_code value)) as Hb.
  set (m' := patched m memory (return_code value)) in *.
  destruct (return_compare m' memory value Hn H64 H32 Hz Hb)
    as (r64 & r32 & rz & C64 & C32 & Cz & E0 & E32 & E64).
  exists m'. split; [by apply return_patch_run|].
  unfold ps4PayloadReturnIsPatched, ps4PayloadReturnExtractValue.
  rewrite (proj2 (Z.eqb_neq _ _) Hn). rewrite length_return_code in Hb. unfold return_code in Hb.
  assert (value = 0 \/ value <> 0 /\ INT32_MIN <= value <= INT32_MAX \/
    value <> 0 /\ (value < INT32_MIN \/ INT32_MAX < value)) as [->|[[Hv Hr]|[Hv Hr]]]
    by (unfold INT32_MIN, INT32_MAX; lia).
  - destruct E0 as (N64 & N32 & ->); [done|].
    erewrite bind_some by exact C64. rewrite (proj2 (Z.eqb_neq r64 PS4_OK) N64).
    erewrite bind_some by exact (C32 N64). rewrite (proj2 (Z.eqb_neq r32 PS4_OK) N32).
    erewrite bind_some by exact (Cz N64 N32). split; [done|].
    erewrite bind_some by exact C64. rewrite (proj2 (Z.eqb_neq r64 PS4_OK) N64).
    erewrite bind_some by exact (C32 N64). rewrite (proj2 (Z.eqb_neq r32 PS4_OK) N32).
    erewrite bind_some by exact (Cz N64 N32). by eexists.
  - destruct E32 as (N64 & ->); [done|done|].
    rewrite (proj2 (Z.eqb_neq value 0) Hv) in *.
    replace ((value <=? INT32_MAX) && (INT32_MIN <=? value)) with true in Hb
      by (symmetry; apply andb_true_iff; split; apply Z.leb_le; lia).
    erewrite bind_some by exact C64. rewrite (proj2 (Z.eqb_neq r64 PS4_OK) N64).
    erewrite bind_some by (by apply C32). split; [done|].
    erewrite bind_some by exact C64. rewrite (proj2 (Z.eqb_neq r64 PS4_OK) N64).
    erewrite bind_some by (by apply C32). change (0 =? PS4_OK) with true. cbv iota.
    eexists. erewrite bind_some; [reflexivity|]. apply copy_to_local_run; [unfold NULL; lia|].
    apply (mem_read_sub _ _ _ _ 1 4 Hb). cbn. lia.
  - rewrite E64 in * by done. rewrite (proj2 (Z.eqb_neq value 0) Hv) in *.
    replace ((value <=? INT32_MAX) && (INT32_MIN <=? value)) with false in Hb
      by (symmetry; apply andb_false_iff; rewrite !Z.leb_gt; lia).
    erewrite bind_some by exact C64. split; [done|].
    erewrite bind_some by exact C64. change (0 =? PS4_OK) with true. cbv iota.
    eexists. erewrite bind_some; [reflexivity|]. apply copy_to_local_run; [unfold NULL; lia|].
    apply (mem_read_sub _ _ _ _ 2 8 Hb). cbn. lia.
Qed.
End TemplateProperties.

(** Both hook prologues: after patching, the prologue is recognised and its
    argument pointer read back. *)
Theorem hook_prologue_roundtrip `{PayloadImage} m memory argument :
  (loaded m ps4PayloadTemplateFunctionHookPrologue FunctionHookPrologue_code ->
   target_ok m memory ps4PayloadTemplateFunctionHookPrologueSize ->
   clear_of memory ps4PayloadTemplateFunctionHookPrologueSize
     ps4PayloadTemplateFunctionHookPrologue FunctionHookPrologue_code ->
   exists m' m'', ps4PayloadFunctionHookProloguePatch memory argument m = Some (PS4_OK, m') /\
     ps4PayloadFunctionHookPrologueIsPatched memory m' = Some (PS4_OK, m') /\
     ps4PayloadFunctionHookPrologueExtractArgument memory OPtr m' =
       Some ((PS4_OK, Some (wrap 64 argument)), m'')) /\
  (loaded m ps4PayloadTemplateSystemCallHookPrologue SystemCallHookPrologue_code ->
   target_ok m memory ps4PayloadTemplateSystemCallHookPrologueSize ->
   clear_of memory ps4PayloadTemplateSystemCallHookPrologueSize
     ps4PayloadTemplateSystemCallHookPrologue SystemCallHookPrologue_code ->
   exists m' m'', ps4PayloadSystemCallHookProloguePatch memory argument m = Some (PS4_OK, m') /\
     ps4PayloadSystemCallHookPrologueIsPatched memory m' = Some (PS4_OK, m') /\
     ps4PayloadSystemCallHookPrologueExtractArgument memory OPtr m' =
       Some ((PS4_OK, Some (wrap 64 argument)), m'')).
Proof.
  assert (forall template rest, let code := [0x49; 0xbb] ++ zeros 8 ++ rest in
    loaded m template code -> target_ok m memory (length code) ->
    clear_of memory (length code) template code ->
    exists m' m'', prologue_patch template (length code) memory argument m = Some (PS4_OK, m') /\
      prologue_is_patched template (length code) memory m' = Some (PS4_OK, m') /\
      prologue_extract template (length code) memory OPtr m' =
        Some ((PS4_OK, Some (wrap 64 argument)), m'')) as G.
  { intros template rest code Hl Ht Hc. set (filled := [0x49; 0xbb] ++ le_bytes 8 argument ++ rest).
    pose proof (length_prologue argument rest) as E. fold code filled in E.
    exists (patched m memory filled).
    pose proof (patched_bytes m memory filled) as Hb. rewrite E in Hb.
    destruct (prologue_extract_run (patched m memory filled) template rest memory argument)
      as [R1 R2]; [|apply Ht|apply Ht|exact Hb|].
    { apply loaded_patched; [exact Hl|]. unfold clear_of. rewrite E. exact Hc. }
    eexists. split; [by apply prologue_patch_run|]. split; [exact R1 | exact R2]. }
  split; [apply (G _ function_hook_prologue_rest) | apply (G _ system_call_hook_prologue_rest)].
Qed.

(** Up to 127 bytes hidden behind a short jump come back unchanged, with their
    length, and the code is recognised as hidden information; longer data is
    refused before anything is written. *)
Theorem hidden_information_roundtrip m memory data dst size l :
  memory <> NULL -> 0 <= memory -> data <> NULL -> dst <> NULL -> 0 <= size <= 255 ->
  mapped_range m memory (2 + Z.to_nat size) -> mapped_range m dst (Z.to_nat size) ->
  disjoint_ranges memory (2 + size) data size -> disjoint_ranges dst size memory (2 + size) ->
  mem_read (mem m) data (Z.to_nat size) = Some l ->
  if 127 <? size
  then ps4PayloadHiddenInformationPatch memory data size m = Some (PS4_ERROR_ARGUMENT_SIZE_TOO_LARGE, m)
  else exists m' m'', ps4PayloadHiddenInformationPatch memory data size m = Some (PS4_OK, m') /\
    ps4PayloadHiddenInformationIsPatched memory m' = Some (PS4_OK, m') /\
    ps4PayloadHiddenInformationExtractData memory dst OPtr m' = Some ((PS4_OK, Some size), m'') /\
    mem_read (mem m'') dst (Z.to_nat size) = Some l.
Proof.
  intros Hn Hp Hdn Hdst Hs Hm Hmd Hd1 Hd2 Hr.
  destruct (Z.ltb_spec 127 size) as [Hbig|Hsm].
  { unfold ps4PayloadHiddenInformationPatch. rewrite (proj2 (Z.eqb_neq _ _) Hn).
    by rewrite (proj2 (Z.ltb_lt 127 size) Hbig). }
  pose proof (mem_read_length _ _ _ _ Hr) as Hl.
  set (m' := patched m memory ([0xeb; size] ++ l)).
  pose proof (patched_bytes m memory ([0xeb; size] ++ l)) as Hb. fold m' in Hb.
  assert (mem m' !! memory = Some 0xeb) as B0
    by (rewrite <- (Z.add_0_r memory); exact (byte_at _ _ _ _ 0 _ Hb eq_refl)).
  pose proof ((byte_at _ _ _ _ 1 _ Hb eq_refl) : mem m' !! (memory + 1) = Some size) as B1.
  assert (mem_read (mem m') (memory + 2) (Z.to_nat size) = Some l) as Hin.
  { pose proof (mem_read_sub _ _ _ _ 2 (Z.to_nat size) Hb) as R. rewrite length_app in R.
    change (drop 2 ([0xeb; size] ++ l)) with l in R. rewrite take_ge in R by lia.
    apply R. cbn [length]. lia. }
  exists m', (patched m' dst l). split; [apply hidden_patch_run; done || lia|]. split; [|split].
  - unfold ps4PayloadHiddenInformationIsPatched. rewrite (proj2 (Z.eqb_neq _ _) Hn).
    step. change (negb (0xeb =? 0xeb)) with false. cbv iota. step.
    by rewrite (proj2 (Z.leb_le size 127) Hsm).
  - unfold ps4PayloadHiddenInformationExtractData. rewrite (proj2 (Z.eqb_neq _ _) Hn).
    step. change (negb (0xeb =? 0xeb)) with false. cbv iota. step.
    rewrite (proj2 (Z.ltb_ge 127 size) Hsm), (proj2 (Z.eqb_neq _ _) Hdst).
    erewrite bind_some; [reflexivity|]. apply copy_run; [unfold NULL; lia | done | | done |].
    + unfold disjoint_ranges in *. lia.
    + by apply mapped_range_patched.
  - rewrite <- Hl. apply patched_bytes.
Qed.

(** The two bytes that are meant to hold a caller in place while its function
    is rewritten are a short jump to two bytes before the function: a thread
    that enters a locked function leaves it at [memory - 2] in one step. *)
Theorem lock_stub_leaves_function mm memory c :
  mem_read mm memory ps4PayloadLockSize = Some Lock_code -> pc c = memory ->
  cpu_step mm c = Some (Cpu (memory - 2) (sp c) (rax c) (r11 c)).
Proof.
  intros Hr Hpc. code_byte Hr 0%nat. code_byte Hr 1%nat. rewrite Z.add_0_r in B.
  unfold cpu_step. rewrite Hpc, B, B0. cbn [Z.eqb Pos.eqb].
  change (signed 8 0xfc) with (-4). do 2 f_equal. lia.
Qed.

(** ** Witnesses *)

Definition example_image : PayloadImage :=
  {| ps4PayloadTemplateReturn64 := 0x100; ps4PayloadTemplateReturn32 := 0x110;
     ps4PayloadTemplateReturnZero := 0x120; ps4PayloadTemplateJump64 := 0x130;
     ps4PayloadTemplateJump32 := 0x140; ps4PayloadLock := 0x150;
     ps4PayloadTemplateFunctionHookPrologue := 0x160;
     ps4PayloadTemplateSystemCallHookPrologue := 0x170;
     function_hook_prologue_rest := [0xf0; 0xff]; system_call_hook_prologue_rest := [0xf0; 0x0f] |}.

(** Templates from 0x100, a function at 0x1000, a stack at 0x2000, data at 0x3000. *)
Definition template_example : machine :=
  booted [(0x100, Return64_code); (0x110, Return32_code); (0x120, ReturnZero_code);
          (0x130, Jump64_code); (0x140, Jump32_code); (0x150, Lock_code);
          (0x160, @FunctionHookPrologue_code example_image);
          (0x170, @SystemCallHookPrologue_code example_image);
          (0x1000, repeat 0x90 16); (0x2000, le_bytes 8 0xffffffff82001234);
          (0x3000, [7; 8; 9]); (0x3010, [0; 0; 0])]
    (Z.add 0x1000 ∘ Z.of_nat <$> seq 0 16) [].

Ltac site_by_compute :=
  lazymatch goal with
  | |- loaded _ _ _ => split; [discriminate | vm_compute; reflexivity]
  | |- target_ok _ _ _ => split; [discriminate | split; [lia | mapped_by_compute]]
  | |- clear_of _ _ _ _ => right; vm_compute; discriminate
  end.

Lemma example_jump_site : @jump_site example_image template_example 0x1000.
Proof. constructor; site_by_compute. Qed.

Lemma example_return_site : @return_site example_image template_example 0x1000.
Proof. constructor; site_by_compute. Qed.

Definition example_cpu : cpu := Cpu 0x1000 0x2000 5 6.

Lemma jump_patch_roundtrip_witness :
  exists m' n, @ps4PayloadJumpPatch example_image 0x1000 0xffffffff82001000 template_example =
    Some (PS4_OK, m') /\ ps4PayloadJumpDeterminePatchSize 0xffffffff82001000 OPtr = (PS4_OK, Some n).
Proof.
  destruct (@jump_patch_roundtrip example_image template_example 0x1000 0xffffffff82001000
    example_jump_site) as (m' & n & Hp & Hn & _). eauto.
Defined.

Lemma jump_patch_transfers_control_witness :
  exists m', @ps4PayloadJumpPatch example_image 0x1000 0xffffffff82001000 template_example =
    Some (PS4_OK, m') /\
    cpu_step2 (mem m') example_cpu =
    Some (Cpu (wrap 64 0xffffffff82001000) 0x2000 5 (wrap 64 0xffffffff82001000)).
Proof.
  exact (@jump_patch_transfers_control example_image template_example 0x1000 0xffffffff82001000
    example_cpu example_jump_site eq_refl).
Defined.

Lemma return_patch_returns_witness :
  exists m', @ps4PayloadReturnPatch example_image 0x1000 (-5) template_example = Some (PS4_OK, m') /\
    cpu_step2 (mem m') example_cpu =
    Some (Cpu 0xffffffff82001234 0x2008 (returned_rax (-5)) 6).
Proof.
  destruct (@return_patch_returns example_image template_example 0x1000 (-5) example_cpu
    0xffffffff82001234 example_return_site) as (m' & Hp & Hc & _); [lia | done | done | by left |].
  exists m'. split; [exact Hp | exact Hc].
Defined.

Lemma return_extract_loses_value_witness :
  exists m', @ps4PayloadReturnPatch example_image 0x1000 7 template_example = Some (PS4_OK, m').
Proof.
  destruct (@return_extract_loses_value example_image template_example 0x1000 7 example_return_site)
    as (m' & Hp & _). by exists m'.
Defined.

Lemma hook_prologue_roundtrip_witness :
  exists m' m'', @ps4PayloadFunctionHookProloguePatch example_image 0x1000 0xffffff8000000010
      template_example = Some (PS4_OK, m') /\
    @ps4PayloadFunctionHookPrologueExtractArgument example_image 0x1000 OPtr m' =
      Some ((PS4_OK, Some (wrap 64 0xffffff8000000010)), m'').
Proof.
  destruct (@hook_prologue_roundtrip example_image template_example 0x1000 0xffffff8000000010) as [G _].
  destruct G as (m' & m'' & H1 & _ & H2); [site_by_compute .. |].
  exists m', m''. split; [exact H1 | exact H2].
Defined.

Lemma hidden_information_roundtrip_witness :
  exists m' m'', ps4PayloadHiddenInformationPatch 0x1000 0x3000 3 template_example = Some (PS4_OK, m') /\
    ps4PayloadHiddenInformationIsPatched 0x1000 m' = Some (PS4_OK, m') /\
    ps4PayloadHiddenInformationExtractData 0x1000 0x3010 OPtr m' = Some ((PS4_OK, Some 3), m'') /\
    mem_read (mem m'') 0x3010 3 = Some [7; 8; 9].
Proof.
  apply (hidden_information_roundtrip template_example 0x1000 0x3000 0x3010 3 [7; 8; 9]);
    [done | lia | done | done | lia | mapped_by_compute | mapped_by_compute
    | left; lia | right; lia | done].
Defined.

Lemma lock_stub_leaves_function_witness :
  cpu_step (mem template_example) (Cpu 0x150 0x2000 0 0) = Some (Cpu (0x150 - 2) 0x2000 0 0).
Proof.
  apply (lock_stub_leaves_function (mem template_example) 0x150 (Cpu 0x150 0x2000 0 0)); done.
Defined.
