(* ===== verification/Atomic.v ===== *)
(** * Atomic swaps and spin locks (common/generic/source/atomic.s, atomic.c,
      and the spin lock of payload/template/function_hook_prologue.s)

    First what the operations do when nothing else runs; then the same
    instructions interleaved between threads, once for the lock built on
    [ps4AtomicSwap64] and once for the lock of the hook prologue, which
    exchanges with the lock word itself. *)

From stdpp Require Import base gmap list strings relations.
From S2P Require Import Prelude Errors Machine Reference KernelBase.

(** ** Sequential behaviour *)

(** [ps4AtomicSwapN(memory, &v)]: load the memory word, exchange it with the
    local, store the local's old value; the local's new value is returned. *)
Definition atomic_swap (bytes : nat) (memory v : Z) : K Z :=
  let! l := load_bytes memory bytes in
  do! store_bytes memory (le_bytes bytes v) in
  ret (le_val l).

Definition ps4AtomicSwap64 := atomic_swap 8.
Definition ps4AtomicSwap32 := atomic_swap 4.
Definition ps4AtomicSwap16 := atomic_swap 2.
Definition ps4AtomicSwap8 := atomic_swap 1.

(** [do { v = 1; swap(memory, &v); } while(v != 0);] within [fuel] iterations. *)
Fixpoint spin_loop (swap : Z -> Z -> K Z) (fuel : nat) (memory : Z) : K unit :=
  match fuel with
  | O => fault
  | S fuel' => let! v := swap memory 1 in
               if v =? 0 then ret tt else spin_loop swap fuel' memory
  end.

Definition spin_lock (swap : Z -> Z -> K Z) (fuel : nat) (memory : Z) : K Z :=
  if memory =? NULL then ret PS4_ERROR_ARGUMENT_PRIMARY_MISSING
  else do! spin_loop swap fuel memory in ret PS4_OK.

Definition spin_unlock (swap : Z -> Z -> K Z) (memory : Z) : K Z :=
  if memory =? NULL then ret PS4_ERROR_ARGUMENT_PRIMARY_MISSING
  else let! v := swap memory 0 in
       if v =? 1 then ret PS4_OK else ret PS4_NOT_OK.

Definition ps4AtomicSpinLock64 := spin_lock ps4AtomicSwap64.
Definition ps4AtomicSpinUnlock64 := spin_unlock ps4AtomicSwap64.
Definition ps4AtomicSpinLock32 := spin_lock ps4AtomicSwap32.
Definition ps4AtomicSpinUnlock32 := spin_unlock ps4AtomicSwap32.
Definition ps4AtomicSpinLock16 := spin_lock ps4AtomicSwap16.
Definition ps4AtomicSpinUnlock16 := spin_unlock ps4AtomicSwap16.
Definition ps4AtomicSpinLock8 := spin_lock ps4AtomicSwap8.
Definition ps4AtomicSpinUnlock8 := spin_unlock ps4AtomicSwap8.

(** The state after a word of [n] bytes is set to [v]. *)
Definition with_word (n : nat) (memory v : Z) (m : machine) : machine :=
  set_mem (mem_write (mem m) memory (le_bytes n v)) m.

(** The lock word of [n] bytes at [memory] can be used and holds [v]. *)
Definition lock_word (n : nat) (memory v : Z) (m : machine) : Prop :=
  memory <> NULL /\ writable_range m memory n /\
  exists l, mem_read (mem m) memory n = Some l /\ le_val l = v.

Lemma lock_word_written n memory v m x :
  (0 < n)%nat -> 0 <= v < 256 -> lock_word n memory x m ->
  lock_word n memory v (with_word n memory v m).
Proof.
  intros Hn Hv (Hp & Hw & l & Hr & _). split; [done|]. split.
  - rewrite writable_range_iff in *. intros i Hi. destruct (Hw i Hi) as [Hm Ht].
    split; [|exact Ht]. unfold mapped, with_word. cbn [mem set_mem]. rewrite lookup_mem_write.
    case_match eqn:E; [|done]. apply lookup_lt_is_Some. apply andb_prop in E as [? ?].
    rewrite length_le_bytes in *. zbool; lia || done.
  - exists (le_bytes n v). split; [apply mem_read_write_le|].
    rewrite le_val_bytes. apply Z.mod_small. split; [lia|].
    apply Z.lt_le_trans with (256 ^ 1); [lia|]. apply Z.pow_le_mono_r; lia.
Qed.

Lemma atomic_swap_run n memory x v m :
  lock_word n memory x m -> atomic_swap n memory v m = Some (x, with_word n memory v m).
Proof.
  intros (Hp & Hw & l & Hr & <-). unfold atomic_swap.
  erewrite bind_some by (by apply load_bytes_run).
  erewrite bind_some by (apply store_bytes_run; by rewrite length_le_bytes). done.
Qed.

Lemma with_word_twice n memory u v m :
  with_word n memory v (with_word n memory u m) = with_word n memory v m.
Proof.
  unfold with_word, set_mem. cbn. by rewrite mem_write_mem_write_same by (by rewrite !length_le_bytes).
Qed.

Lemma spin_loop_held n fuel memory x m :
  (0 < n)%nat -> x <> 0 -> lock_word n memory x m -> spin_loop (atomic_swap n) fuel memory m = None.
Proof.
  intros Hn. revert x m. induction fuel as [|fuel IH]; intros x m Hx Hl; [done|].
  cbn [spin_loop]. erewrite bind_some by (by apply atomic_swap_run).
  rewrite (proj2 (Z.eqb_neq _ _) Hx). apply (IH 1); [lia|]. by apply (lock_word_written _ _ _ _ x).
Qed.

(** ** Properties of one thread *)

(** Taken alone, for every width: locking a free lock succeeds at the first
    try and leaves one in the word, a held lock is never obtained however long
    the loop runs, unlocking a held lock frees it and reports success, and
    unlocking a free one reports [PS4_NOT_OK]. *)
Theorem spin_lock_sequential n memory x m fuel :
  (0 < n)%nat -> lock_word n memory x m ->
  (x = 0 -> spin_lock (atomic_swap n) (S fuel) memory m = Some (PS4_OK, with_word n memory 1 m)) /\
  (x <> 0 -> spin_lock (atomic_swap n) fuel memory m = None) /\
  (spin_unlock (atomic_swap n) memory m =
     Some (if x =? 1 then PS4_OK else PS4_NOT_OK, with_word n memory 0 m)) /\
  (x = 0 -> (let! _ := spin_lock (atomic_swap n) (S fuel) memory in
             spin_unlock (atomic_swap n) memory) m = Some (PS4_OK, with_word n memory 0 m)).
Proof.
  intros Hn Hl. pose proof (proj1 Hl) as Hp.
  assert (x = 0 -> spin_lock (atomic_swap n) (S fuel) memory m =
    Some (PS4_OK, with_word n memory 1 m)) as Lock.
  { intros ->. unfold spin_lock. rewrite (proj2 (Z.eqb_neq _ _) Hp).
    erewrite bind_some; [reflexivity|]. cbn [spin_loop].
    by erewrite bind_some by (by apply atomic_swap_run). }
  split; [exact Lock|]. split; [|split].
  - intros Hx. unfold spin_lock. rewrite (proj2 (Z.eqb_neq _ _) Hp).
    apply bind_none. by apply (spin_loop_held n fuel memory x).
  - unfold spin_unlock. rewrite (proj2 (Z.eqb_neq _ _) Hp).
    erewrite bind_some by (by apply atomic_swap_run). by destruct (x =? 1).
  - intros Hx. erewrite bind_some by (by apply Lock).
    unfold spin_unlock. rewrite (proj2 (Z.eqb_neq _ _) Hp).
    erewrite bind_some by (apply atomic_swap_run; by apply (lock_word_written n memory 1 m x)).
    by rewrite with_word_twice.
Qed.

Lemma spin_lock_sequential_witness :
  let m := booted [(0x1000, repeat 0 8)] [] [] in
  spin_lock ps4AtomicSwap64 1 0x1000 m = Some (PS4_OK, with_word 8 0x1000 1 m).
Proof.
  apply (spin_lock_sequential 8 0x1000 0 (booted [(0x1000, repeat 0 8)] [] []) 0);
    [lia | | done].
  split; [done|]. split; [vm_decide|]. by exists (repeat 0 8).
Defined.

(** ** Counting threads *)

Section Count.
Context {A : Type} (P : A -> bool).

Definition count (l : list A) : nat := length (List.filter P l).

Lemma count_insert l (i : nat) x y :
  l !! i = Some x ->
  (count (<[i := y]> l) + (if P x then 1 else 0) = count l + (if P y then 1 else 0))%nat.
Proof.
  revert i. induction l as [|z l IH]; intros [|i] Hi; try done.
  - injection Hi as ->. unfold count. cbn. destruct (P x), (P y); cbn; lia.
  - specialize (IH i Hi). change (<[S i := y]> (z :: l)) with (z :: <[i := y]> l).
    unfold count in *. cbn [List.filter]. destruct (P z); cbn [length]; lia.
Qed.

Lemma count_lookup l (i : nat) x : l !! i = Some x -> P x = true -> (1 <= count l)%nat.
Proof.
  revert i. induction l as [|z l IH]; intros [|i] Hi Hx; try done; unfold count in *; cbn.
  - injection Hi as ->. rewrite Hx. cbn. lia.
  - specialize (IH i Hi Hx). destruct (P z); cbn; lia.
Qed.

Lemma count_two l (i j : nat) x y :
  i <> j -> l !! i = Some x -> l !! j = Some y -> P x = true -> P y = true -> (2 <= count l)%nat.
Proof.
  revert i j. induction l as [|z l IH]; intros [|i] [|j] Hij Hi Hj Hx Hy; try done.
  - injection Hi as ->. pose proof (count_lookup l j y Hj Hy) as C. unfold count in *. cbn.
    rewrite Hx. cbn. lia.
  - injection Hj as ->. pose proof (count_lookup l i x Hi Hx) as C. unfold count in *. cbn.
    rewrite Hy. cbn. lia.
  - assert (i <> j) as Hij' by congruence. specialize (IH i j Hij' Hi Hj Hx Hy).
    unfold count in *. cbn. destruct (P z); cbn; lia.
Qed.

Lemma count_none l : Forall (fun x => P x = false) l -> count l = 0%nat.
Proof. unfold count. induction 1 as [|x l Hx Hl IH]; [done|]. cbn. by rewrite Hx. Qed.
End Count.

(** ** Threads that lock with [ps4AtomicSpinLock64] *)

Module SwapLock.
(** The two callers of the swap: the loop of the lock calls it with one in its
    local, the unlock with zero. *)
Inductive caller := Locking | Unlocking.
Definition wanted (p : caller) : Z := match p with Locking => 1 | Unlocking => 0 end.

(** Where a thread is: about to run [movq (%rdi), %rax]; holding the value it
    read and about to exchange it with its own local; with the value in its
    local [v] and the local's old value in [%rax], about to run
    [movq %rax, (%rdi)]; back in its caller, about to test [v]; past the lock;
    unlocked, with the result. *)
Inductive thread :=
| TLoad (p : caller) | TXchg (p : caller) (rax : Z) | TStore (p : caller) (v rax : Z) | TTest (p : caller) (v : Z)
| TCritical | TDone (r : Z).

Record config := Config { word : Z; threads : list thread }.

Definition holds (t : thread) : bool := match t with TCritical => true | _ => false end.

Inductive step : config -> config -> Prop :=
| step_load w ts i p : ts !! i = Some (TLoad p) ->
    step (Config w ts) (Config w (<[i := TXchg p w]> ts))
| step_xchg w ts i p x : ts !! i = Some (TXchg p x) ->
    step (Config w ts) (Config w (<[i := TStore p x (wanted p)]> ts))
| step_store w ts i p v x : ts !! i = Some (TStore p v x) ->
    step (Config w ts) (Config x (<[i := TTest p v]> ts))
| step_retry w ts i v : ts !! i = Some (TTest Locking v) -> v <> 0 ->
    step (Config w ts) (Config w (<[i := TLoad Locking]> ts))
| step_enter w ts i : ts !! i = Some (TTest Locking 0) ->
    step (Config w ts) (Config w (<[i := TCritical]> ts))
| step_leave w ts i : ts !! i = Some TCritical ->
    step (Config w ts) (Config w (<[i := TLoad Unlocking]> ts))
| step_unlocked w ts i v : ts !! i = Some (TTest Unlocking v) ->
    step (Config w ts) (Config w (<[i := TDone (if v =? 1 then PS4_OK else PS4_NOT_OK)]> ts)).

Definition reachable := rtc step.

(** Thread [i] runs through the swap, nobody in between. *)
Lemma swap_steps w ts (i : nat) p x :
  ts !! i = Some (TXchg p x) -> reachable (Config w ts) (Config (wanted p) (<[i := TTest p x]> ts)).
Proof.
  intros Hi. pose proof (lookup_lt_Some _ _ _ Hi) as Hl. eapply rtc_l; [by apply (step_xchg w ts i p x)|].
  eapply rtc_l; [apply (step_store w _ i p x (wanted p)); by apply list_lookup_insert_eq|]. rewrite list_insert_insert_eq. apply rtc_refl.
Qed.

(** Alone, the three instructions are [ps4AtomicSwap64]. *)
Theorem swap_alone p memory w m :
  lock_word 8 memory w m ->
  ps4AtomicSwap64 memory (wanted p) m = Some (w, with_word 8 memory (wanted p) m) /\
  reachable (Config w [TLoad p]) (Config (wanted p) [TTest p w]).
Proof.
  intros Hl. split; [by apply atomic_swap_run|]. eapply rtc_l; [by apply (step_load w _ 0 p)|]. by apply (swap_steps w [TXchg p w] 0 p w).
Qed.

Lemma swap_alone_witness :
  ps4AtomicSwap64 0x1000 1 (booted [(0x1000, repeat 0 8)] [] []) = Some (0, with_word 8 0x1000 1 (booted [(0x1000, repeat 0 8)] [] [])).
Proof.
  apply (swap_alone Locking 0x1000 0 (booted [(0x1000, repeat 0 8)] [] [])). split; [done|]. split; [vm_decide|]. by exists (repeat 0 8).
Defined.

(** Every thread at [t] gets to [u] in its turn, if each can while the word
    satisfies [I]. *)
Lemma one_by_one (I : Z -> Prop) t u :
  (forall w ts i, I w -> ts !! i = Some t -> exists w', I w' /\ reachable (Config w ts) (Config w' (<[i := u]> ts))) ->
  forall n k w, I w -> exists w', I w' /\ reachable (Config w (repeat u k ++ repeat t n)) (Config w' (repeat u (k + n))).
Proof.
  intros Hs. induction n as [|n IH]; intros k w Hw; cbn [repeat].
  - exists w. split; [done|]. rewrite app_nil_r, Nat.add_0_r. apply rtc_refl.
  - destruct (Hs w (repeat u k ++ t :: repeat t n) k Hw) as (w1 & H1 & R1).
    { apply list_lookup_middle. by rewrite repeat_length. }
    replace (<[k := u]> (repeat u k ++ t :: repeat t n)) with (repeat u (S k) ++ repeat t n) in R1.
    2: { rewrite insert_app_r_alt by (rewrite repeat_length; lia). rewrite repeat_length, Nat.sub_diag.
         cbn [repeat]. by rewrite repeat_cons, <- app_assoc. }
    destruct (IH (S k) w1 H1) as (w2 & H2 & R2). exists w2. split; [done|]. replace (k + S n)%nat with (S k + n)%nat by lia. by etrans.
Qed.

(** The exchange that carries the lock prefix is with the caller's own local,
    and the lock word is read and written by two separate moves: threads that
    read it before any of them writes all find it free. However many threads
    there are, from a free lock they can all be past it at once. *)
Theorem swap_lock_admits_all n :
  exists w, reachable (Config 0 (repeat (TLoad Locking) n)) (Config w (repeat TCritical n)) /\ count holds (repeat TCritical n) = n.
Proof.
  destruct (one_by_one (fun w => w = 0) (TLoad Locking) (TXchg Locking 0)) with (n := n) (k := 0%nat) (w := 0) as (w1 & -> & R1); [|done|].
  { intros w ts i -> Hi. exists 0. split; [done|]. by apply rtc_once, (step_load 0 ts i Locking). }
  destruct (one_by_one (fun _ => True) (TXchg Locking 0) TCritical) with (n := n) (k := 0%nat) (w := 0) as (w2 & _ & R2); [|done|].
  { intros w ts i _ Hi. exists 1. split; [done|]. eapply rtc_r; [by apply (swap_steps w ts i Locking 0)|].
    pose proof (lookup_lt_Some _ _ _ Hi). rewrite <- (list_insert_insert_eq ts i TCritical (TTest Locking 0)).
    apply step_enter. by apply list_lookup_insert_eq. }
  exists w2. split; [by etrans|]. clear. unfold count. induction n as [|n IH]; [done|].
  cbn [repeat List.filter holds length]. by rewrite IH.
Qed.
End SwapLock.

(** ** Threads that enter a hooked function *)

Module PrologueLock.
(** function_hook_prologue.s and the head of function_hook_handler.s: count
    the entry ([lock incq 16(%r11)]), spin on [lock xchg %r12, 184(%r11)]
    with one in %r12, clone the argument, count the call
    ([lock incq 56(%r11)]), and in the handler uncount the entry
    ([lock decq 16(%r11)]) and exchange a zero into the lock. *)
Inductive thread := PEnter | PSpin | PClone | PCounted | PUnlock | PRun.

#[export] Instance thread_eq_dec : EqDecision thread.
Proof. solve_decision. Defined.

Record config := Config {
  lock : Z; entryCount : Z; callCount : Z; threads : list thread }.

Definition holds (t : thread) : bool :=
  match t with PClone | PCounted | PUnlock => true | _ => false end.
Definition inside (t : thread) : bool :=
  match t with PSpin | PClone | PCounted => true | _ => false end.
Definition called (t : thread) : bool :=
  match t with PCounted | PUnlock | PRun => true | _ => false end.

Inductive step : config -> config -> Prop :=
| step_enter l e c ts i : ts !! i = Some PEnter ->
    step (Config l e c ts) (Config l (e + 1) c (<[i := PSpin]> ts))
| step_spin l e c ts i : ts !! i = Some PSpin -> l <> 0 ->
    step (Config l e c ts) (Config 1 e c ts)
| step_acquire e c ts i : ts !! i = Some PSpin ->
    step (Config 0 e c ts) (Config 1 e c (<[i := PClone]> ts))
| step_call l e c ts i : ts !! i = Some PClone ->
    step (Config l e c ts) (Config l e (c + 1) (<[i := PCounted]> ts))
| step_uncount l e c ts i : ts !! i = Some PCounted ->
    step (Config l e c ts) (Config l (e - 1) c (<[i := PUnlock]> ts))
| step_release l e c ts i : ts !! i = Some PUnlock ->
    step (Config l e c ts) (Config 0 e c (<[i := PRun]> ts)).

Definition reachable := rtc step.

Definition start (n : nat) : config := Config 0 0 0 (repeat PEnter n).

Definition invariant (c : config) : Prop :=
  (lock c = 0 \/ lock c = 1) /\
  Z.of_nat (count holds (threads c)) = lock c /\
  Z.of_nat (count inside (threads c)) = entryCount c /\
  Z.of_nat (count called (threads c)) = callCount c.

Lemma invariant_start n : invariant (start n).
Proof.
  split; [by left|]. unfold start. cbn [lock entryCount callCount threads].
  rewrite !count_none; [done|..];
    (apply Forall_forall; intros t Ht; apply list_elem_of_In, repeat_spec in Ht; by subst).
Qed.

Lemma invariant_step c c' : invariant c -> step c c' -> invariant c'.
Proof.
  intros (Hl & Hh & Hi & Hc) Hs. destruct Hs as [l e k ts i Ht|l e k ts i Ht Hne|e k ts i Ht
    |l e k ts i Ht|l e k ts i Ht|l e k ts i Ht]; unfold invariant in *;
    cbn [lock entryCount callCount threads] in *.
  2: { lia. }
  all: match goal with |- context [<[_ := ?y]> _] =>
         pose proof (count_insert holds ts i _ y Ht) as C1;
         pose proof (count_insert inside ts i _ y Ht) as C2;
         pose proof (count_insert called ts i _ y Ht) as C3 end;
       cbn in C1, C2, C3; lia.
Qed.

Lemma invariant_reachable n c : reachable (start n) c -> invariant c.
Proof.
  intros Hr. pose proof (invariant_start n) as Hs. induction Hr as [|x y z Hxy _ IH]; [done|].
  apply IH. by apply (invariant_step x).
Qed.

(** C34. However many threads enter a hooked function and however their
    instructions interleave: at most one is between taking and releasing the
    argument's lock, the lock word is one exactly then, [entryCount] is the
    number of threads that have entered and not yet been uncounted (zero
    when none has), and [callCount] the number that have been counted. *)
Theorem prologue_lock_exclusive n c :
  reachable (start n) c ->
  (forall i j t u, threads c !! i = Some t -> threads c !! j = Some u ->
     holds t = true -> holds u = true -> i = j) /\
  (lock c = 1 <-> exists i t, threads c !! i = Some t /\ holds t = true) /\
  entryCount c = Z.of_nat (count inside (threads c)) /\
  (entryCount c = 0 -> forall i t, threads c !! i = Some t -> inside t = false) /\
  callCount c = Z.of_nat (count called (threads c)).
Proof.
  intros Hr. destruct (invariant_reachable n c Hr) as (Hl & Hh & Hi & Hc).
  split; [|split; [|split; [|split]]]; try done.
  - intros i j t u Ht Hu Ht' Hu'. destruct (decide (i = j)) as [|Hij]; [done|].
    pose proof (count_two holds _ i j t u Hij Ht Hu Ht' Hu'). lia.
  - split.
    + intros E. assert (count holds (threads c) <> 0)%nat as Hne by lia. clear -Hne.
      induction (threads c) as [|t ts IH]; [done|]. unfold count in Hne. cbn in Hne.
      destruct (holds t) eqn:E; [by exists 0%nat, t|].
      destruct (IH Hne) as (i & u & Hi & Hu). by exists (S i), u.
    + intros (i & t & Ht & Ht'). pose proof (count_lookup holds _ i t Ht Ht'). lia.
  - intros E i t Ht. destruct (inside t) eqn:Q; [|done].
    pose proof (count_lookup inside _ i t Ht Q). lia.
Qed.

Lemma prologue_lock_exclusive_witness :
  let c := Config 1 1 0 [PClone; PEnter] in
  reachable (start 2) c /\ entryCount c = Z.of_nat (count inside (threads c)) /\
  callCount c = Z.of_nat (count called (threads c)).
Proof.
  intros c.
  assert (reachable (start 2) c) as Hr.
  { eapply rtc_l; [by apply (step_enter _ _ _ _ 0)|].
    eapply rtc_l; [by apply (step_acquire _ _ _ 0)|]. apply rtc_refl. }
  destruct (prologue_lock_exclusive 2 c Hr) as (_ & _ & He & _ & Hc). done.
Defined.

(** ** Every thread gets through *)

(** The next instruction of thread [i], the steps as a function. *)
Definition act (i : nat) (c : config) : config :=
  let 'Config l e k ts := c in
  match ts !! i with
  | Some PEnter => Config l (e + 1) k (<[i := PSpin]> ts)
  | Some PSpin => if l =? 0 then Config 1 e k (<[i := PClone]> ts) else Config 1 e k ts
  | Some PClone => Config l e (k + 1) (<[i := PCounted]> ts)
  | Some PCounted => Config l (e - 1) k (<[i := PUnlock]> ts)
  | Some PUnlock => Config 0 e k (<[i := PRun]> ts)
  | Some PRun | None => c
  end.

Lemma act_step i c : act i c = c \/ step c (act i c).
Proof.
  destruct c as [l e k ts]. cbn. destruct (ts !! i) as [[]|] eqn:E; try (by left); try (right; by constructor).
  destruct (Z.eqb_spec l 0) as [->|]; right; [by constructor | by apply step_spin with i].
Qed.

(** The states of a run; [s k] is the thread whose instruction is the [k]th. *)
Fixpoint states (s : nat -> nat) (c : config) (k : nat) : config :=
  match k with O => c | S k' => act (s k') (states s c k') end.

Lemma states_reachable s c k : reachable c (states s c k).
Proof.
  induction k as [|k IH]; [apply rtc_refl|]. cbn [states]. destruct (act_step (s k) (states s c k)) as [E|E]; [by rewrite E|].
  by eapply rtc_r.
Qed.

(** Instructions a thread has before it. *)
Definition rank (t : thread) : nat :=
  match t with PEnter => 5 | PSpin => 4 | PClone => 3 | PCounted => 2 | PUnlock => 1 | PRun => 0 end.
Definition remaining (c : config) : nat := sum_list (rank <$> threads c).

Lemma left_insert ts (i : nat) t u :
  ts !! i = Some t -> (sum_list (rank <$> <[i := u]> ts) + rank t = sum_list (rank <$> ts) + rank u)%nat.
Proof.
  revert i. induction ts as [|x ts IH]; intros [|i] E; [done | done | |].
  - injection E as ->. change (<[0%nat := u]> (t :: ts)) with (u :: ts). rewrite !fmap_cons. cbn [sum_list_with]. unfold id. lia.
  - change (<[S i := u]> (x :: ts)) with (x :: <[i := u]> ts). rewrite !fmap_cons. cbn [sum_list_with]. specialize (IH i E). lia.
Qed.

Lemma left_none c : remaining c = 0%nat -> Forall (fun t => t = PRun) (threads c).
Proof.
  destruct c as [l e k ts]. unfold remaining. cbn [threads]. induction ts as [|t ts IH]; [by constructor|].
  rewrite fmap_cons. cbn [sum_list_with]. unfold id at 1. intros E. constructor; [destruct t; cbn in E; done || lia | apply IH; lia].
Qed.

(** An instruction brings its thread on, but for a swap while the lock is held. *)
Lemma act_left i c : invariant c -> act i c = c \/ (remaining (act i c) < remaining c)%nat.
Proof.
  destruct c as [l e k ts]. intros ([Hl|Hl] & _); cbn [lock] in Hl; subst l; unfold remaining, act; cbn [threads];
    destruct (ts !! i) as [[]|] eqn:E; cbn [Z.eqb threads]; try (by left); right;
    match goal with |- context [<[i := ?u]> ts] => pose proof (left_insert ts i _ u E) as L end; cbn [rank] in L; lia.
Qed.

(** While a thread has instructions before it, there is one that is not held up. *)
Lemma act_enabled c : invariant c -> remaining c <> 0%nat -> exists i, (i < length (threads c))%nat /\ (remaining (act i c) < remaining c)%nat.
Proof.
  intros Hi Hn. assert (exists i t, threads c !! i = Some t /\ t <> PRun /\ (lock c = 1 -> holds t = true)) as (i & t & Ht & Hr & Hl).
  { pose proof Hi as ([Hl|Hl] & Hh & _).
    - assert (~ Forall (fun t => t = PRun) (threads c)) as Hf.
      { intros Hf. apply Hn. destruct c as [l e k ts]. unfold remaining. cbn [threads] in *. clear -Hf. induction Hf as [|t ts -> _ IH]; [done | exact IH]. }
      apply not_Forall_Exists in Hf; [|intros x; apply _]. apply Exists_exists in Hf as (t & [i Ht]%list_elem_of_lookup & Hr). exists i, t. split; [done|]. split; [done | lia].
    - assert (exists t, t ∈ threads c /\ holds t = true) as (t & [i Ht]%list_elem_of_lookup & Hr); [|exists i, t; split; [done|]; split; [by intros -> | done]].
      assert (count holds (threads c) <> 0)%nat as Hc by lia. clear -Hc. unfold count in Hc. destruct (List.filter holds (threads c)) as [|t l] eqn:E; [done|].
      exists t. rewrite list_elem_of_In, <- (filter_In holds), E. by left. }
  exists i. split; [by apply lookup_lt_Some in Ht|]. destruct (act_left i c Hi) as [E|E]; [|done]. exfalso.
  destruct c as [l e k ts]. cbn [lock threads] in *. unfold act in E. rewrite Ht in E.
  assert (forall u, <[i := u]> ts = ts -> u = t) as Hu.
  { intros u Eu. pose proof (list_lookup_insert_eq ts i u (lookup_lt_Some _ _ _ Ht)) as Q. rewrite Eu, Ht in Q. by injection Q. }
  destruct Hi as [Hb _]. destruct t; [injection E; lia | | injection E; lia | injection E; lia | injection E as _ E; by apply Hu in E | done].
  destruct (Z.eqb_spec l 0) as [->|]; [done|]. cbn [lock] in Hb. specialize (Hl ltac:(lia)). done.
Qed.

Lemma invariant_states s c k : invariant c -> invariant (states s c k).
Proof.
  intros Hi. induction k as [|k IH]; [done|]. cbn [states]. destruct (act_step (s k) (states s c k)) as [E|E]; [by rewrite E|].
  by eapply invariant_step.
Qed.

Lemma states_left s c k d : invariant c -> states s c (d + k) = states s c k \/ (remaining (states s c (d + k)) < remaining (states s c k))%nat.
Proof.
  intros Hi. induction d as [|d IH]; [by left|]. cbn [Nat.add states]. pose proof (act_left (s (d + k)%nat) _ (invariant_states s c (d + k) Hi)) as [E|E].
  - by rewrite E.
  - right. destruct IH as [IH|IH]; [rewrite IH in *; done | lia].
Qed.

Lemma length_act i c : length (threads (act i c)) = length (threads c).
Proof. destruct c as [l e k ts]. cbn. destruct (ts !! i) as [[]|]; cbn; rewrite ?length_insert; try done. by destruct (l =? 0); cbn; rewrite ?length_insert. Qed.

Lemma length_states s c k : length (threads (states s c k)) = length (threads c).
Proof. induction k as [|k IH]; [done|]. cbn [states]. by rewrite length_act. Qed.

(** No thread is left out for ever. *)
Definition fair (n : nat) (s : nat -> nat) : Prop := forall k i, (i < n)%nat -> exists d, s (d + k)%nat = i.

Lemma states_done s c : invariant c -> fair (length (threads c)) s -> exists k, remaining (states s c k) = 0%nat.
Proof.
  intros Hi Hf. assert (forall m k, (remaining (states s c k) <= m)%nat -> exists k', remaining (states s c k') = 0%nat) as H; [|by eapply (H _ 0%nat)].
  induction m as [|m IH]; intros k Hm; [exists k; lia|].
  destruct (decide (remaining (states s c k) = 0%nat)) as [|Hn]; [by exists k|].
  destruct (act_enabled _ (invariant_states s c k Hi) Hn) as (i & Hl & Ha). rewrite length_states in Hl. destruct (Hf k i Hl) as [d Hd].
  apply (IH (S (d + k))). destruct (states_left s c k d Hi) as [E|E].
  - cbn [states]. rewrite Hd, E. lia.
  - destruct (act_left (s (d + k)%nat) _ (invariant_states s c (d + k) Hi)) as [E'|E']; cbn [states]; [rewrite E'|]; lia.
Qed.

(** C16. Every thread that enters a hooked function gets through its prologue:
    in any run of [n] threads that leaves no thread out for ever, each has
    eventually taken the lock, made its copy and released the lock. Then the
    lock is free, no entry is counted any more and every call is. *)
Theorem prologue_lock_live n s :
  fair n s -> exists k, let c := states s (start n) k in
  reachable (start n) c /\ Forall (fun t => t = PRun) (threads c) /\ lock c = 0 /\ entryCount c = 0 /\ callCount c = Z.of_nat n.
Proof.
  intros Hf. destruct (states_done s (start n) (invariant_start n)) as [k Hk]; [by cbn [start threads]; rewrite repeat_length|].
  exists k. intros c. apply left_none in Hk. fold c in Hk. pose proof (length_states s (start n) k) as Hl. fold c in Hl. cbn [start threads] in Hl. rewrite repeat_length in Hl.
  split; [apply states_reachable|]. split; [done|]. destruct (invariant_states s (start n) k (invariant_start n)) as (_ & Hh & Hi & Hc). fold c in Hh, Hi, Hc.
  assert (forall P, P PRun = false -> count P (threads c) = 0%nat) as H0 by (intros P HP; apply count_none; eapply Forall_impl; [exact Hk|]; by intros t ->).
  assert (count called (threads c) = n) as H1. { rewrite <- Hl. clear -Hk. unfold count. induction Hk as [|t ts -> _ IH]; [done|]. cbn. by rewrite IH. }
  rewrite (H0 holds eq_refl) in Hh. rewrite (H0 inside eq_refl) in Hi. rewrite H1 in Hc. lia.
Qed.

(** Two threads that take turns. *)
Lemma prologue_lock_live_witness :
  exists k, threads (states (fun k => (k mod 2)%nat) (start 2) k) = [PRun; PRun].
Proof.
  destruct (prologue_lock_live 2 (fun k => (k mod 2)%nat)) as (k & _ & Hr & _).
  - intros k i Hi. exists ((i + k) mod 2)%nat. assert (k mod 2 < 2 /\ (i = 0 \/ i = 1))%nat as [Hk Hi'] by (split; [apply Nat.mod_upper_bound; lia | lia]).
    rewrite <- Nat.Div0.add_mod_idemp_r. rewrite <- (Nat.Div0.add_mod_idemp_r i k). destruct Hi' as [-> | ->]; destruct (k mod 2)%nat as [|[|]]; (done || lia).
  - exists k. pose proof (length_states (fun k => (k mod 2)%nat) (start 2) k) as Hl. destruct (threads _) as [|a [|b [|]]]; try done.
    inversion Hr as [|? ? -> Hr2]. by inversion Hr2 as [|? ? -> _].
Defined.
End PrologueLock.
