(* ===== verification/HexDump.v ===== *)
(** * Hex dumps

    The loop that [ps4KernelSocketPrintHexDump] (common/kernel/source/kernel/socket.c)
    and [ps4StandardIoPrintHexDump] (common/user/source/standard_io.c) share
    word for word, over what prints a text and what loads a byte, and the
    table of rows it prints. *)

From stdpp Require Import base list.
From S2P Require Import Prelude.

(** ** Formats *)

Definition hex_digit (d : Z) : Z := if d <? 10 then 48 + d else 87 + d.

(** [n] hexadecimal digits, the most significant first: ["%016lx"] of a 64-bit
    number with [n = 16], ["%02x"] of a byte with [n = 2]. *)
Fixpoint hex_digits (n : nat) (v : Z) : list Z :=
  match n with
  | O => []
  | S n' => hex_digits n' (v / 16) ++ [hex_digit (v mod 16)]
  end.

Definition SPACE : Z := 32.
Definition BAR : Z := 124.
Definition DOT : Z := 46.
Definition NEWLINE : Z := 10.

(** ["%s"] of a buffer: what comes before its terminator. *)
Fixpoint until_nul (l : list Z) : list Z :=
  match l with
  | [] => []
  | b :: l' => if b =? 0 then [] else b :: until_nul l'
  end.

(** The character a byte is shown as. *)
Definition dump_char (d : Z) : Z := if (SPACE <=? d) && (d <=? 126) then d else DOT.

Definition consoleSize : Z := 16.

(** ** The loop *)

Section Dump.
Context {S : Type} (print : list Z -> ST S unit) (load : Z -> ST S Z).

(** [print("  %s\n", b)] *)
Definition dump_tail (b : list Z) : ST S unit := print ([SPACE; SPACE] ++ until_nul b ++ [NEWLINE]).

(** [for (i = 0; i < size; i++)] with [n] bytes to go; the result is [b]. *)
Fixpoint dump_loop (data i : Z) (b : list Z) (n : nat) : ST S (list Z) :=
  match n with
  | O => ret b
  | Datatypes.S n' =>
      do! (if i mod consoleSize =? 0 then
             do! (if i =? 0 then ret tt else dump_tail b) in
             print (hex_digits 16 (data + i) ++ [SPACE])
           else ret tt) in
      do! (if i mod consoleSize =? 8 then print [SPACE] else ret tt) in
      let! d := load (data + i) in
      do! print (SPACE :: hex_digits 2 d) in
      let! d := load (data + i) in
      dump_loop data (i + 1) (<[Z.to_nat (i mod consoleSize + 1) := dump_char d]> b) n'
  end.

(** [while((i % consoleSize) != 0)]; at most fifteen iterations. *)
Fixpoint pad_loop (i : Z) (b : list Z) (fuel : nat) : ST S (list Z) :=
  match fuel with
  | O => fault
  | Datatypes.S fuel' =>
      if i mod consoleSize =? 0 then ret b
      else
        do! print (if i mod consoleSize =? 8 then repeat SPACE 4 else repeat SPACE 3) in
        pad_loop (i + 1) (<[Z.to_nat (i mod consoleSize + 1) := DOT]> b) fuel'
  end.

(** The buffer [b] before the loop: [junk] is what the sixteen bytes that are
    not assigned hold. *)
Definition dump_buffer (junk : list Z) : list Z := BAR :: junk ++ [BAR; 0].

Definition hex_dump (junk : list Z) (data : Z) (size : nat) : ST S unit :=
  let! b := dump_loop data 0 (dump_buffer junk) size in
  let! b := pad_loop (Z.of_nat size) b 16 in
  dump_tail b.
End Dump.

(** ** The table *)

(** The bytes of a row from column [j] on, with a gap before the ninth. *)
Fixpoint cells (j : Z) (l : list Z) : list Z :=
  match l with
  | [] => []
  | d :: l' => (if j =? 8 then [SPACE] else []) ++ SPACE :: hex_digits 2 d ++ cells (j + 1) l'
  end.

(** The room of [n] missing bytes from column [j] on. *)
Fixpoint blanks (j : Z) (n : nat) : list Z :=
  match n with
  | O => []
  | S n' => (if j =? 8 then repeat SPACE 4 else repeat SPACE 3) ++ blanks (j + 1) n'
  end.

(** A row: address, bytes, and the bytes as characters. *)
Definition row (address : Z) (l : list Z) : list Z :=
  hex_digits 16 address ++ [SPACE] ++ cells 0 l ++ blanks (Z.of_nat (length l)) (16 - length l) ++
  [SPACE; SPACE; BAR] ++ (dump_char <$> l) ++ repeat DOT (16 - length l) ++ [BAR; NEWLINE].

(** The rows of [l], sixteen bytes each; [n] bounds their number. *)
Fixpoint rows (n : nat) (address : Z) (l : list Z) : list Z :=
  match n, l with
  | S n', _ :: _ => row address (take 16 l) ++ rows n' (address + 16) (drop 16 l)
  | _, _ => []
  end.

(** ** The loop prints the table *)

(** Printing to a text, of bytes [l] at [data]. *)
Definition emit (t : list Z) : ST (list Z) unit := modify (fun o => o ++ t).
Definition fetch (data : Z) (l : list Z) (a : Z) : ST (list Z) Z :=
  fun o => match l !! Z.to_nat (a - data) with Some d => Some (d, o) | None => None end.

(** What stands before the byte at [i]: the end of the last row and the address. *)
Definition head_at (data i : Z) (b : list Z) : list Z :=
  if i mod 16 =? 0 then
    (if i =? 0 then [] else [SPACE; SPACE] ++ until_nul b ++ [NEWLINE]) ++ hex_digits 16 (data + i) ++ [SPACE]
  else [].

(** The buffer and the text after the bytes [l] from [i] on. *)
Fixpoint dump_text (data i : Z) (b l o : list Z) : list Z * list Z :=
  match l with
  | [] => (b, o)
  | d :: l' =>
      dump_text data (i + 1) (<[Z.to_nat (i mod 16 + 1) := dump_char d]> b) l'
        (o ++ head_at data i b ++ (if i mod 16 =? 8 then [SPACE] else []) ++ SPACE :: hex_digits 2 d)
  end.

Lemma emit_bind {A} t (k : unit -> ST (list Z) A) o : bind (emit t) k o = k tt (o ++ t).
Proof. done. Qed.

Lemma dump_loop_run data l2 : forall l1 b o,
  dump_loop emit (fetch data (l1 ++ l2)) data (Z.of_nat (length l1)) b (length l2) o =
  Some (dump_text data (Z.of_nat (length l1)) b l2 o).
Proof.
  induction l2 as [|d l2 IH]; intros l1 b o; cbn [length dump_loop dump_text]; [done|].
  assert (forall o, fetch data (l1 ++ d :: l2) (data + Z.of_nat (length l1)) o = Some (d, o)) as Ef.
  { intros o'. unfold fetch. replace (Z.to_nat (data + Z.of_nat (length l1) - data)) with (length l1) by lia. by rewrite list_lookup_middle. }
  set (i := Z.of_nat (length l1)) in *. unfold consoleSize, dump_tail.
  rewrite (bind_some _ _ o tt (o ++ head_at data i b)).
  2:{ unfold head_at. destruct (i mod 16 =? 0); [|by rewrite app_nil_r]. destruct (i =? 0); [done|].
      rewrite emit_bind. unfold emit, modify. by rewrite <- !app_assoc. }
  rewrite (bind_some _ _ _ tt ((o ++ head_at data i b) ++ (if i mod 16 =? 8 then [SPACE] else [])))
    by (destruct (i mod 16 =? 8); unfold ret, emit, modify; by rewrite ?app_nil_r).
  erewrite bind_some by apply Ef. rewrite emit_bind. erewrite bind_some by apply Ef.
  replace (i + 1) with (Z.of_nat (length (l1 ++ [d]))) by (rewrite length_app; cbn [length]; unfold i; lia).
  replace (l1 ++ d :: l2) with ((l1 ++ [d]) ++ l2) by (by rewrite <- app_assoc). rewrite IH. by rewrite <- !app_assoc.
Qed.

Lemma dump_text_app data l1 : forall i b l2 o,
  dump_text data i b (l1 ++ l2) o =
  dump_text data (i + Z.of_nat (length l1)) (dump_text data i b l1 o).1 l2 (dump_text data i b l1 o).2.
Proof.
  induction l1 as [|d l1 IH]; intros i b l2 o; cbn [app dump_text length]; [by rewrite Z.add_0_r|].
  rewrite IH. f_equal. lia.
Qed.

(** The buffer with its sixteen characters. *)
Definition buffer (x : list Z) : list Z := BAR :: x ++ [BAR; 0].

Lemma buffer_insert pre y suf c :
  <[S (length pre) := c]> (buffer (pre ++ y :: suf)) = buffer ((pre ++ [c]) ++ suf).
Proof.
  unfold buffer. change (<[S (length pre) := c]> (BAR :: (pre ++ y :: suf) ++ [BAR; 0])) with
    (BAR :: <[length pre := c]> ((pre ++ y :: suf) ++ [BAR; 0])). f_equal. rewrite <- !app_assoc.
  rewrite <- (Nat.add_0_r (length pre)) at 1. by rewrite insert_app_r.
Qed.

(** Inside a row, from its second byte on. *)
Lemma text_in_row data q l : forall j pre suf o,
  0 < j -> Z.of_nat (length pre) = j -> (length pre + length suf = 16)%nat -> (length l <= length suf)%nat ->
  dump_text data (16 * q + j) (buffer (pre ++ suf)) l o =
  (buffer (pre ++ (dump_char <$> l) ++ drop (length l) suf), o ++ cells j l).
Proof.
  induction l as [|d l IH]; intros j pre suf o Hj Hp Hs Hl; cbn [dump_text cells length fmap list_fmap app].
  - by rewrite drop_0, app_nil_r.
  - destruct suf as [|y suf]; cbn [length] in *; [lia|].
    assert ((16 * q + j) mod 16 = j) as Em by (rewrite Z.add_comm, Z.mul_comm, Z.mod_add by lia; apply Z.mod_small; lia).
    unfold head_at. rewrite Em, (proj2 (Z.eqb_neq j 0)) by lia.
    replace (Z.to_nat (j + 1)) with (S (length pre)) by lia. rewrite buffer_insert.
    replace (16 * q + j + 1) with (16 * q + (j + 1)) by lia.
    rewrite (IH (j + 1) (pre ++ [dump_char d]) suf) by (rewrite ?length_app; cbn [length]; lia).
    cbn [drop app]. rewrite <- !app_assoc. cbn [app]. by destruct (j =? 8); cbn [app]; rewrite <- ?app_assoc.
Qed.

(** A whole row, or as much of it as there is. *)
Lemma text_row data q x l o :
  (length x = 16)%nat -> (0 < length l <= 16)%nat -> 0 <= q ->
  dump_text data (16 * q) (buffer x) l o =
  (buffer ((dump_char <$> l) ++ drop (length l) x), o ++ head_at data (16 * q) (buffer x) ++ cells 0 l).
Proof.
  intros Hx Hl Hq. destruct l as [|d l]; cbn [length] in Hl; [lia|]. destruct x as [|y x]; [done|]. cbn [length] in Hx.
  cbn [dump_text]. assert ((16 * q) mod 16 = 0) as Em by (rewrite Z.mul_comm; by apply Z.mod_mul). rewrite Em.
  change (Z.to_nat (0 + 1)) with (S (length (@nil Z))). change (buffer (y :: x)) with (buffer ([] ++ y :: x)). rewrite buffer_insert.
  rewrite (text_in_row data q l 1 [dump_char d] x) by (cbn [length]; lia). cbn [cells]. change (0 =? 8) with false. cbv iota.
  cbn [app length drop fmap list_fmap]. rewrite <- !app_assoc. cbn [app]. by rewrite <- ?app_assoc.
Qed.

Lemma until_nul_buffer x : Forall (fun c => c <> 0) x -> until_nul (buffer x) = BAR :: x ++ [BAR].
Proof.
  intros Hx. unfold buffer. cbn [until_nul]. change (BAR =? 0) with false. cbv iota. f_equal.
  induction Hx as [|c x Hc Hx IH]; cbn [until_nul app]; [done|]. rewrite (proj2 (Z.eqb_neq c 0) Hc). by rewrite IH.
Qed.

Lemma dump_char_nonzero l : Forall (fun c => c <> 0) (dump_char <$> l).
Proof.
  apply Forall_fmap, Forall_forall. intros d _. unfold compose, dump_char, SPACE, DOT.
  destruct (Z.leb_spec 32 d), (Z.leb_spec d 126); cbn [andb]; lia.
Qed.

(** The rest of the last row. *)
Lemma pad_loop_run q suf : forall k pre fuel o,
  0 < k -> Z.of_nat (length pre) = k -> (length pre + length suf = 16)%nat -> (length suf < fuel)%nat ->
  pad_loop emit (16 * q + k) (buffer (pre ++ suf)) fuel o =
  Some (buffer (pre ++ repeat DOT (length suf)), o ++ blanks k (length suf)).
Proof.
  induction suf as [|y suf IH]; intros k pre [|fuel] o Hk Hp Hs Hf; cbn [length] in *; try lia; cbn [pad_loop repeat blanks]; unfold consoleSize.
  - replace (16 * q + k) with ((q + 1) * 16) by lia. rewrite Z.mod_mul by lia. by rewrite !app_nil_r.
  - assert ((16 * q + k) mod 16 = k) as Em by (rewrite Z.add_comm, Z.mul_comm, Z.mod_add by lia; apply Z.mod_small; lia).
    rewrite Em, (proj2 (Z.eqb_neq k 0)) by lia. rewrite emit_bind. replace (Z.to_nat (k + 1)) with (S (length pre)) by lia.
    rewrite buffer_insert. replace (16 * q + k + 1) with (16 * q + (k + 1)) by lia.
    rewrite IH by (rewrite ?length_app; cbn [length]; lia). by rewrite <- !app_assoc.
Qed.

(** The end of a row. *)
Definition tail_text (b : list Z) : list Z := [SPACE; SPACE] ++ until_nul b ++ [NEWLINE].

Lemma dump_finish data n : forall l q x o,
  (length l <= n)%nat -> (0 < length l)%nat -> length x = 16%nat -> 0 <= q ->
  (let! b := pad_loop emit (16 * q + Z.of_nat (length l)) (dump_text data (16 * q) (buffer x) l o).1 16 in dump_tail emit b)
    (dump_text data (16 * q) (buffer x) l o).2 =
  Some (tt, o ++ (if q =? 0 then [] else tail_text (buffer x)) ++ rows n (data + 16 * q) l).
Proof.
  induction n as [|n IH]; intros l q x o Hn Hl Hx Hq; [lia|].
  assert (head_at data (16 * q) (buffer x) = (if q =? 0 then [] else tail_text (buffer x)) ++ hex_digits 16 (data + 16 * q) ++ [SPACE]) as Eh.
  { unfold head_at. rewrite Z.mul_comm, Z.mod_mul by lia. change (0 =? 0) with true. cbv iota. f_equal.
    by destruct (Z.eqb_spec (q * 16) 0), (Z.eqb_spec q 0); try lia. }
  destruct (Nat.le_gt_cases (length l) 16) as [Hle|Hgt].
  - rewrite text_row by lia. cbn [fst snd]. assert (length (drop (length l) x) = 16 - length l)%nat as Ld by (rewrite length_drop; lia).
    erewrite bind_some by (apply pad_loop_run; rewrite ?length_fmap; lia). unfold dump_tail, emit, modify.
    rewrite until_nul_buffer by (apply Forall_app; split; [apply dump_char_nonzero | apply Forall_forall; by intros c ->%list_elem_of_In%repeat_spec]).
    rewrite Ld, Eh. destruct l as [|d l]; [cbn [length] in Hl; lia|]. cbn [rows]. rewrite take_ge, drop_ge by done.
    assert (forall u v, (BAR :: u ++ v ++ [BAR]) ++ [NEWLINE] = BAR :: u ++ v ++ [BAR; NEWLINE]) as Et by (intros; cbn [app]; by rewrite <- !app_assoc).
    unfold row. destruct n; rewrite <- !app_assoc, Et; cbn [rows]; by rewrite ?app_nil_r.
  - rewrite <- (take_drop 16 l) at 1 2 3. assert (length (take 16 l) = 16%nat) as Lt by (rewrite length_take; lia).
    rewrite !dump_text_app, Lt. rewrite (text_row data q x (take 16 l)) by lia. cbn [fst snd]. rewrite Lt, (drop_ge x), app_nil_r by lia.
    replace (16 * q + Z.of_nat 16) with (16 * (q + 1)) by lia. rewrite length_app, Lt.
    replace (16 * q + Z.of_nat (16 + length (drop 16 l))) with (16 * (q + 1) + Z.of_nat (length (drop 16 l))) by lia.
    rewrite IH by (rewrite ?length_drop, ?length_fmap; lia). rewrite (proj2 (Z.eqb_neq (q + 1) 0)) by lia.
    rewrite Eh. assert (tail_text (buffer (dump_char <$> take 16 l)) = [SPACE; SPACE; BAR] ++ (dump_char <$> take 16 l) ++ [BAR; NEWLINE]) as ->
      by (unfold tail_text; rewrite until_nul_buffer by apply dump_char_nonzero; cbn [app]; by rewrite <- app_assoc).
    destruct l as [|d l]; [done|]. cbn [rows]. unfold row. rewrite Lt. change (16 - 16)%nat with O. cbn [repeat blanks]. rewrite !app_nil_l.
    replace (data + 16 * q + 16) with (data + 16 * (q + 1)) by lia. by rewrite <- !app_assoc.
Qed.

(** A hex dump of at least one byte is the table of its rows: the address of
    each sixteen bytes, the bytes in hexadecimal with a gap in the middle and
    blanks where the last row ends early, and the bytes as characters, a dot
    for each that is not printable or missing. What the row buffer held
    before does not show. *)
Lemma hex_dump_table data l junk o :
  l <> [] -> length junk = 16%nat ->
  hex_dump emit (fetch data l) junk data (length l) o = Some (tt, o ++ rows (length l) data l).
Proof.
  intros Hl Hj. unfold hex_dump, dump_buffer. pose proof (dump_loop_run data l [] (buffer junk) o) as E. cbn [app length] in E.
  change (Z.of_nat 0) with 0 in E. destruct (dump_text data 0 (buffer junk) l o) as [b o1] eqn:Et. erewrite bind_some by exact E.
  pose proof (dump_finish data (length l) l 0 junk o) as F. change (16 * 0) with 0 in F. rewrite Et in F. cbn [fst snd] in F.
  rewrite Z.add_0_l, Z.add_0_r in F. rewrite F; [done | lia | destruct l; [done | cbn [length]; lia] | done | lia].
Qed.

(** ** Other ways to print *)

(** The same loop over a state that has a text, [out], printing and loading
    like [emit] and [fetch] as long as [ok] holds. *)
Section Simulation.
Context {S : Type} (print : list Z -> ST S unit) (load : Z -> ST S Z) (out : S -> list Z) (ok : S -> Prop) (data : Z) (l : list Z).

Definition simulates {A} (c : ST S A) (a : ST (list Z) A) : Prop :=
  forall s r o', ok s -> a (out s) = Some (r, o') -> exists s', c s = Some (r, s') /\ ok s' /\ out s' = o'.

Lemma simulates_ret {A} (r : A) : simulates (ret r) (ret r).
Proof. intros s r' o' Hs [= <- <-]. by exists s. Qed.

Lemma simulates_bind {A B} (c : ST S A) a (k : A -> ST S B) k' :
  simulates c a -> (forall r, simulates (k r) (k' r)) -> simulates (bind c k) (bind a k').
Proof.
  intros Hc Hk s r o' Hs E. unfold bind in E at 1. destruct (a (out s)) as [[x o]|] eqn:Ea; [|done].
  destruct (Hc s x o Hs Ea) as (s1 & E1 & Hs1 & Ho). subst o. destruct (Hk x s1 r o' Hs1 E) as (s2 & E2 & H2).
  exists s2. split; [|done]. by erewrite bind_some by exact E1.
Qed.

Lemma simulates_if {A} (b : bool) (c c' : ST S A) a a' : simulates c a -> simulates c' a' -> simulates (if b then c else c') (if b then a else a').
Proof. by destruct b. Qed.

Hypothesis print_ok : forall t, simulates (print t) (emit t).
Hypothesis load_ok : forall i, 0 <= i -> simulates (load (data + i)) (fetch data l (data + i)).

Ltac simulate := repeat first [apply print_ok | by apply load_ok | apply simulates_ret | apply simulates_if | apply simulates_bind; [|intros ?]].

Lemma simulates_dump_loop n : forall i b, 0 <= i -> simulates (dump_loop print load data i b n) (dump_loop emit (fetch data l) data i b n).
Proof. induction n as [|n IH]; intros i b Hi; cbn [dump_loop]; unfold dump_tail; simulate. apply IH. lia. Qed.

Lemma simulates_pad_loop fuel : forall i b, simulates (pad_loop print i b fuel) (pad_loop emit i b fuel).
Proof. induction fuel as [|fuel IH]; intros i b; cbn [pad_loop]; [by intros s r o'|]. simulate. apply IH. Qed.

(** Such a dump prints the table. *)
Lemma hex_dump_simulates junk s :
  ok s -> l <> [] -> length junk = 16%nat ->
  exists s', hex_dump print load junk data (length l) s = Some (tt, s') /\ ok s' /\ out s' = out s ++ rows (length l) data l.
Proof.
  intros Hs Hl Hj. assert (simulates (hex_dump print load junk data (length l)) (hex_dump emit (fetch data l) junk data (length l))) as Hd.
  - unfold hex_dump. apply simulates_bind; [by apply simulates_dump_loop | intros b].
    apply simulates_bind; [apply simulates_pad_loop | intros b']. apply print_ok.
  - exact (Hd s tt _ Hs (hex_dump_table data l junk (out s) Hl Hj)).
Qed.
End Simulation.
