(* ===== verification/Elf.v ===== *)
(** * Kernel symbols (base/kernel_seek_elf_address, base/kernel_dlsym,
      base/stub_resolve/minimal/source/kern.c)

    Finding the kernel's ELF image in memory, reading its dynamic section and
    looking symbols up by name, all through byte loads from kernel memory. *)

From stdpp Require Import base gmap list strings.
From S2P Require Import Prelude Errors Machine Reference KernelBase KernelMemory.

(** ** seek.c *)

Definition PS4_KERNEL_ELF_RANGE_ADDRESS : Z := 0xffffffff80000000.
Definition PS4_KERNEL_ELF_RANGE_SIZE : Z := 0x02000000.
Definition PS4_KERNEL_ELF_FIXED_ADDRESS : Z := 0xffffffff80700000.
Definition PS4_KERNEL_ELF_PAGE_SIZE : Z := 16 * 1024.

Definition elfMagic : list Z := [0x7f; 0x45; 0x4c; 0x46; 0x02; 0x01; 0x01; 0x09; 0x00].

(** [for(i = 0; i < magicSize && m[i] == elfMagic[i]; ++i); i == magicSize] *)
Fixpoint magic_at (m : Z) (magic : list Z) : K bool :=
  match magic with
  | [] => ret true
  | c :: magic' =>
      let! b := load8 m in
      if b =? c then magic_at (m + 1) magic' else ret false
  end.

(** The scan of the range with [n] pages to go. *)
Fixpoint seek_pages (m : Z) (n : nat) : K Z :=
  match n with
  | O => ret NULL
  | S n' =>
      let! found := magic_at m elfMagic in
      if found then ret m else seek_pages (m + PS4_KERNEL_ELF_PAGE_SIZE) n'
  end.

Definition ps4KernelSeekElfAddress : K Z :=
  let! found := magic_at PS4_KERNEL_ELF_FIXED_ADDRESS elfMagic in
  if found then ret PS4_KERNEL_ELF_FIXED_ADDRESS
  else seek_pages PS4_KERNEL_ELF_RANGE_ADDRESS
         (Z.to_nat (PS4_KERNEL_ELF_RANGE_SIZE / PS4_KERNEL_ELF_PAGE_SIZE)).

(** ** dlsym.c *)

Definition ps4KernelDlSymElfSymbols : string := "dlsym.c:ps4KernelDlSymElfSymbols".
Definition ps4KernelDlSymElfStrings : string := "dlsym.c:ps4KernelDlSymElfStrings".

Definition PT_DYNAMIC : Z := 2.
Definition DT_NULL : Z := 0.
Definition DT_STRTAB : Z := 5.
Definition DT_SYMTAB : Z := 6.
Definition sizeof_Phdr : Z := 56.
Definition sizeof_Dyn : Z := 16.
Definition sizeof_Sym : Z := 24.

(** [for(d = dyn; d->d_tag != DT_NULL; d++)] within [fuel] entries. *)
Fixpoint dyn_loop (fuel : nat) (d : Z) : K unit :=
  match fuel with
  | O => fault
  | S fuel' =>
      let! d_tag := load64 d in
      if d_tag =? DT_NULL then ret tt
      else
        let! d_ptr := load64 (d + 8) in
        do! (if d_tag =? DT_SYMTAB then set_var ps4KernelDlSymElfSymbols d_ptr
             else if d_tag =? DT_STRTAB then set_var ps4KernelDlSymElfStrings d_ptr
             else ret tt) in
        dyn_loop fuel' (d + sizeof_Dyn)
  end.

(** The program headers with [n] to go. *)
Fixpoint phdr_loop (fuel : nat) (phdr : Z) (n : nat) : K unit :=
  match n with
  | O => ret tt
  | S n' =>
      let! p_type := load32 phdr in
      do! (if p_type =? PT_DYNAMIC
           then let! p_vaddr := load64 (phdr + 16) in dyn_loop fuel p_vaddr
           else ret tt) in
      phdr_loop fuel (phdr + sizeof_Phdr) n'
  end.

Definition ps4KernelDlSymInitialize (fuel : nat) : K unit :=
  let! ehdr := ps4KernelSeekElfAddress in
  if ehdr =? NULL then ret tt
  else
    let! e_phoff := load64 (ehdr + 32) in
    let! e_phnum := load16 (ehdr + 56) in
    phdr_loop fuel (ehdr + e_phoff) (Z.to_nat e_phnum).

(** [for(j = 0; n[j] == name[j] && n[j] != 0; ++j);] from position [j] of the
    name on, and the test [j > 0 && n[j] == 0 && name[j] == 0] after it. *)
Fixpoint name_loop (n : Z) (j : Z) (name : list Z) : K bool :=
  let! b := load8 (n + j) in
  match name with
  | [] => ret ((0 <? j) && (b =? 0))
  | c :: name' =>
      if (b =? c) && negb (b =? 0) then name_loop n (j + 1) name'
      else ret ((0 <? j) && (b =? 0) && (c =? 0))
  end.

(** The symbol loop; [n] bounds the number of entries before the strings. *)
Fixpoint symbol_loop (strings : Z) (name : list Z) (symbol : Z) (n : nat) : K Z :=
  match n with
  | O => ret NULL
  | S n' =>
      if symbol + sizeof_Sym <? strings then
        let! st_name := load32 symbol in
        let! found := name_loop (strings + st_name) 0 name in
        if found then load64 (symbol + 8)
        else symbol_loop strings name (symbol + sizeof_Sym) n'
      else ret NULL
  end.

Definition dlsym_lookup (symbols strings : Z) (name : list Z) : K Z :=
  symbol_loop strings name symbols (Z.to_nat ((strings - symbols) / sizeof_Sym + 1)).

Definition elf_ps4KernelDlSym (fuel : nat) (name : string) : K Z :=
  let! sy := get_var ps4KernelDlSymElfSymbols in
  let! st := get_var ps4KernelDlSymElfStrings in
  do! (if (sy =? NULL) || (st =? NULL) then ps4KernelDlSymInitialize fuel else ret tt) in
  let! symbols := get_var ps4KernelDlSymElfSymbols in
  let! strings := get_var ps4KernelDlSymElfStrings in
  dlsym_lookup symbols strings (c_string name).

(** The library's resolver as an instance of the interface the kernel code
    is written against; [fuel] bounds the dynamic section. *)
Definition elf_dlsym (fuel : nat) : KernelDlSym := {| ps4KernelDlSym := elf_ps4KernelDlSym fuel |}.

(** ** kern.c *)

Definition ps4KernelStubResolve `{KernelDlSym} (stub : Z) (functionName : option string)
    (kernelAddress : out) : K (Z * option Z) :=
  match functionName, kernelAddress with
  | Some f, OPtr =>
      if stub =? NULL then ret (-1, None)
      else
        let! a := ps4KernelDlSym f in
        if a =? NULL then ret (-1, Some a) else ret (0, Some a)
  | _, _ => ret (-1, None)
  end.

(** ** Lemmas *)

Lemma magic_at_run m a magic l :
  mem_read (mem m) a (length magic) = Some l ->
  magic_at a magic m = Some (bool_decide (l = magic), m).
Proof.
  revert a l. induction magic as [|c magic IH]; intros a l.
  - intros [= <-]. done.
  - cbn [length mem_read magic_at].
    destruct (mem m !! a) as [b|] eqn:Eb; [|done].
    destruct (mem_read (mem m) (a + 1) (length magic)) as [l'|] eqn:El; [|done]. intros [= <-].
    step. destruct (Z.eqb_spec b c) as [->|Hne].
    + rewrite (IH _ l') by done. f_equal. f_equal. apply bool_decide_ext.
      split; [by intros -> | by intros [= ->]].
    + rewrite bool_decide_eq_false_2; [done | by intros [= ? _]].
Qed.

Lemma seek_pages_found m a n k :
  (k < n)%nat ->
  (forall j : nat, (j < k)%nat -> exists l, l <> elfMagic /\
     mem_read (mem m) (a + Z.of_nat j * PS4_KERNEL_ELF_PAGE_SIZE) 9 = Some l) ->
  mem_read (mem m) (a + Z.of_nat k * PS4_KERNEL_ELF_PAGE_SIZE) 9 = Some elfMagic ->
  seek_pages a n m = Some (a + Z.of_nat k * PS4_KERNEL_ELF_PAGE_SIZE, m).
Proof.
  revert a k. induction n as [|n IH]; intros a k Hk Hno Hyes; [lia|].
  cbn [seek_pages]. destruct k as [|k].
  - rewrite Z.mul_0_l, Z.add_0_r in *.
    erewrite bind_some by (apply (magic_at_run m a elfMagic elfMagic); exact Hyes).
    by rewrite bool_decide_eq_true_2.
  - destruct (Hno O) as (l & Hl & Hr); [lia|]. rewrite Z.mul_0_l, Z.add_0_r in Hr.
    erewrite bind_some by (apply (magic_at_run m a elfMagic l); exact Hr).
    rewrite bool_decide_eq_false_2 by done.
    replace (a + Z.of_nat (S k) * PS4_KERNEL_ELF_PAGE_SIZE) with
      (a + PS4_KERNEL_ELF_PAGE_SIZE + Z.of_nat k * PS4_KERNEL_ELF_PAGE_SIZE) in * by lia.
    apply IH; [lia| |exact Hyes]. intros j Hj. destruct (Hno (S j)) as (l' & Hl' & Hr'); [lia|].
    exists l'. split; [done|]. rewrite <- Hr'. f_equal. lia.
Qed.

Lemma seek_pages_none m a n :
  (forall j : nat, (j < n)%nat -> exists l, l <> elfMagic /\
     mem_read (mem m) (a + Z.of_nat j * PS4_KERNEL_ELF_PAGE_SIZE) 9 = Some l) ->
  seek_pages a n m = Some (NULL, m).
Proof.
  revert a. induction n as [|n IH]; intros a Hno; [done|].
  cbn [seek_pages]. destruct (Hno O) as (l & Hl & Hr); [lia|]. rewrite Z.mul_0_l, Z.add_0_r in Hr.
  erewrite bind_some by (apply (magic_at_run m a elfMagic l); exact Hr).
  rewrite bool_decide_eq_false_2 by done. apply IH. intros j Hj.
  destruct (Hno (S j)) as (l' & Hl' & Hr'); [lia|]. exists l'. split; [done|].
  rewrite <- Hr'. f_equal. lia.
Qed.

(** The NUL-terminated string [nm] at [a]. *)
Definition cstring_at (m : machine) (a : Z) (nm : list Z) : Prop :=
  Forall (fun c => c <> 0) nm /\ mem_read (mem m) a (length nm + 1) = Some (nm ++ [0]).

Lemma name_loop_run m n j nm name :
  0 <= j -> Forall (fun c => c <> 0) name -> cstring_at m (n + j) nm ->
  name_loop n j name m = Some (bool_decide (nm = name) && ((0 <? j) || bool_decide (nm <> [])), m).
Proof.
  intros Hj Hname. revert j nm Hj. induction Hname as [|c name Hc Hname IH]; intros j nm Hj [Hnz Hr].
  - rewrite Nat.add_comm in Hr. cbn [Nat.add mem_read] in Hr.
    destruct (mem m !! (n + j)) as [x|] eqn:Ex; [|done]. case_match; [|done].
    destruct nm as [|b nm]; cbn [app] in Hr; injection Hr as -> _; cbn [name_loop]; step.
    + by rewrite orb_false_r, andb_true_r.
    + apply Forall_cons in Hnz as [Hb _]. rewrite (proj2 (Z.eqb_neq b 0) Hb), andb_false_r.
      by rewrite bool_decide_eq_false_2.
  - rewrite Nat.add_comm in Hr. destruct nm as [|b nm].
    + cbn [length app Nat.add mem_read] in Hr. destruct (mem m !! (n + j)) as [x|] eqn:Ex; [|done].
      injection Hr as ->. cbn [name_loop]. step.
      change (0 =? 0) with true. rewrite andb_false_r. cbv iota.
      rewrite (proj2 (Z.eqb_neq c 0) Hc), andb_false_r. by rewrite bool_decide_eq_false_2.
    + cbn [length app Nat.add mem_read] in Hr. destruct (mem m !! (n + j)) as [x|] eqn:Ex; [|done].
      case_match eqn:El; [|done]. injection Hr as -> ->. apply Forall_cons in Hnz as [Hb Hnz].
      cbn [name_loop]. step. rewrite (proj2 (Z.eqb_neq b 0) Hb). cbn [negb]. rewrite andb_true_r, andb_false_r.
      destruct (Z.eqb_spec b c) as [->|Hne].
      * rewrite (IH (j + 1) nm); [|lia|].
        -- do 2 f_equal. rewrite (proj2 (Z.ltb_lt 0 (j + 1))) by lia. cbn [orb].
           rewrite (bool_decide_eq_true_2 (c :: nm <> [])) by done. rewrite orb_true_r, !andb_true_r.
           apply bool_decide_ext. split; [by intros -> | by intros [= ->]].
        -- split; [done|]. rewrite Nat.add_comm, Z.add_assoc. exact El.
      * rewrite (bool_decide_eq_false_2 (b :: nm = c :: name)); [done | by intros [= ? _]].
Qed.

(** Entry [i] of the table at [symbols] has the name [nm] and the value [v]. *)
Definition symbol_entry (m : machine) (symbols strings : Z) (i : nat) (nm : list Z) (v : Z) : Prop :=
  exists off lv, mem_read (mem m) (symbols + sizeof_Sym * Z.of_nat i) 4 = Some off /\
    cstring_at m (strings + le_val off) nm /\
    mem_read (mem m) (symbols + sizeof_Sym * Z.of_nat i + 8) 8 = Some lv /\ le_val lv = v.

Lemma symbol_entry_step m symbols strings i nm v name :
  Forall (fun c => c <> 0) name -> name <> [] -> symbol_entry m symbols strings i nm v ->
  let a := symbols + sizeof_Sym * Z.of_nat i in
  load32 a m = (match mem_read (mem m) a 4 with Some l => Some (le_val l, m) | None => None end) /\
  exists st, load32 a m = Some (st, m) /\
    name_loop (strings + st) 0 name m = Some (bool_decide (nm = name), m) /\
    load64 (a + 8) m = Some (v, m).
Proof.
  intros Hnz Hne (off & lv & Ho & Hs & Hv & <-) a. fold a in Ho, Hv.
  assert (load32 a m = Some (le_val off, m)) as L
    by (unfold load32; by erewrite bind_some by (by apply load_bytes_run)).
  split; [by rewrite L, Ho|]. exists (le_val off). split; [exact L|]. split; [|by apply load64_run].
  rewrite (name_loop_run m _ 0 nm) by (lia || done || by rewrite Z.add_0_r).
  cbn [Z.ltb Z.compare orb]. destruct (bool_decide_reflect (nm = name)) as [->|]; [|done].
  by rewrite bool_decide_eq_true_2.
Qed.

Lemma symbol_loop_skip m symbols strings name i k nm v :
  Forall (fun c => c <> 0) name -> name <> [] ->
  symbol_entry m symbols strings i nm v -> nm <> name ->
  symbols + sizeof_Sym * (Z.of_nat i + 1) < strings ->
  symbol_loop strings name (symbols + sizeof_Sym * Z.of_nat i) (S k) m =
  symbol_loop strings name (symbols + sizeof_Sym * Z.of_nat (S i)) k m.
Proof.
  intros Hnz Hne He Hnm Hlt. cbn [symbol_loop].
  rewrite (proj2 (Z.ltb_lt _ _)) by lia.
  destruct (symbol_entry_step m symbols strings i nm v name Hnz Hne He) as (_ & st & L & N & _).
  erewrite bind_some by exact L. erewrite bind_some by exact N.
  rewrite bool_decide_eq_false_2 by done. cbv iota. f_equal. lia.
Qed.

Section FirstSymbol.
Context (m : machine) (symbols strings : Z) (name : list Z).
Context (name_chars : Forall (fun c => c <> 0) name) (name_some : name <> []).

(** The value of the first entry of that name. *)
Fixpoint first_value (es : list (list Z * Z)) : Z :=
  match es with
  | [] => NULL
  | (nm, v) :: es' => if decide (nm = name) then v else first_value es'
  end.

(** Every entry the loop reaches, from entry [i] on. *)
Fixpoint symbol_table (i : nat) (es : list (list Z * Z)) : Prop :=
  match es with
  | [] => True
  | (nm, v) :: es' => symbol_entry m symbols strings i nm v /\ symbol_table (S i) es'
  end.

Lemma symbol_loop_run es i k :
  symbol_table i es ->
  symbols + sizeof_Sym * Z.of_nat (i + length es) < strings ->
  strings <= symbols + sizeof_Sym * (Z.of_nat (i + length es) + 1) ->
  (length es < k)%nat ->
  symbol_loop strings name (symbols + sizeof_Sym * Z.of_nat i) k m = Some (first_value es, m).
Proof.
  revert i k. induction es as [|[nm v] es IH]; intros i k Ht Hlo Hhi Hk; cbn [length] in *;
    (destruct k as [|k]; [lia|]).
  - cbn [symbol_loop]. rewrite (proj2 (Z.ltb_ge _ _)) by lia. done.
  - destruct Ht as [He Ht]. cbn [first_value]. destruct (decide (nm = name)) as [->|Hne].
    + cbn [symbol_loop]. rewrite (proj2 (Z.ltb_lt _ _)) by (unfold sizeof_Sym in *; lia).
      destruct (symbol_entry_step m symbols strings i name v name name_chars name_some He)
        as (_ & st & L & N & V).
      erewrite bind_some by exact L. erewrite bind_some by exact N.
      by rewrite bool_decide_eq_true_2.
    + rewrite (symbol_loop_skip m symbols strings name i k nm v) by (done || (unfold sizeof_Sym in *; lia)).
      apply IH; [done | unfold sizeof_Sym in *; lia | unfold sizeof_Sym in *; lia | lia].
Qed.

Lemma dlsym_lookup_run es :
  symbol_table 0 es ->
  symbols + sizeof_Sym * Z.of_nat (length es) < strings ->
  strings <= symbols + sizeof_Sym * (Z.of_nat (length es) + 1) ->
  dlsym_lookup symbols strings name m = Some (first_value es, m).
Proof.
  intros Ht Hlo Hhi. unfold dlsym_lookup.
  rewrite <- (symbol_loop_run es 0 (Z.to_nat ((strings - symbols) / sizeof_Sym + 1)));
    cbn [Nat.add]; [f_equal; lia | done | done | done |].
  assert (Z.of_nat (length es) <= (strings - symbols) / sizeof_Sym)
    by (apply Z.div_le_lower_bound; unfold sizeof_Sym in *; lia).
  lia.
Qed.

Lemma first_value_elem es v :
  NoDup es.*1 -> (name, v) ∈ es -> first_value es = v.
Proof.
  induction es as [|[nm w] es IH]; [by intros _ ?%not_elem_of_nil|].
  cbn [first_value fmap list_fmap fst]. intros [Hnm Hnd]%NoDup_cons [Eq|He]%elem_of_cons.
  - injection Eq as <- <-. by rewrite decide_True.
  - rewrite decide_False; [by apply IH|]. intros ->. apply Hnm.
    apply list_elem_of_fmap. by exists (name, v).
Qed.

Lemma first_value_absent es : name ∉ es.*1 -> first_value es = NULL.
Proof.
  induction es as [|[nm w] es IH]; [done|]. cbn [first_value fmap list_fmap fst].
  intros [Hne He]%not_elem_of_cons. rewrite decide_False by congruence. by apply IH.
Qed.
End FirstSymbol.

(** ** The dynamic section *)

(** The entries [(d_tag, d_ptr)] before the terminator at [d]. *)
Fixpoint dyn_section (m : machine) (d : Z) (ds : list (Z * Z)) : Prop :=
  match ds with
  | [] => load64 d m = Some (DT_NULL, m)
  | (tag, ptr) :: ds' =>
      tag <> DT_NULL /\ load64 d m = Some (tag, m) /\ load64 (d + 8) m = Some (ptr, m) /\
      dyn_section m (d + sizeof_Dyn) ds'
  end.

Definition dyn_assign (m : machine) (d : Z * Z) : machine :=
  if d.1 =? DT_SYMTAB then set_vars (<[ps4KernelDlSymElfSymbols := d.2]> (vars m)) m
  else if d.1 =? DT_STRTAB then set_vars (<[ps4KernelDlSymElfStrings := d.2]> (vars m)) m
  else m.

(** The program headers [(p_type, p_vaddr)] with the entries of the dynamic ones. *)
Fixpoint phdr_table (m : machine) (phdr : Z) (ps : list (Z * Z * list (Z * Z))) : Prop :=
  match ps with
  | [] => True
  | (ty, va, ds) :: ps' =>
      load32 phdr m = Some (ty, m) /\
      (if ty =? PT_DYNAMIC then load64 (phdr + 16) m = Some (va, m) /\ dyn_section m va ds
       else ds = []) /\
      phdr_table m (phdr + sizeof_Phdr) ps'
  end.

(** Loads see only memory, so assigning statics does not disturb them. *)
Lemma load64_set_vars m x a v : load64 a m = Some (v, m) -> load64 a (set_vars x m) = Some (v, set_vars x m).
Proof.
  unfold load64, load_bytes, bind. cbn [mem set_vars].
  destruct (mem_read (mem m) a 8); [by intros [= ->] | done].
Qed.

Lemma load32_set_vars m x a v : load32 a m = Some (v, m) -> load32 a (set_vars x m) = Some (v, set_vars x m).
Proof.
  unfold load32, load_bytes, bind. cbn [mem set_vars].
  destruct (mem_read (mem m) a 4); [by intros [= ->] | done].
Qed.

Lemma dyn_section_set_vars m x d ds : dyn_section m d ds -> dyn_section (set_vars x m) d ds.
Proof.
  revert d. induction ds as [|[tag ptr] ds IH]; intros d; cbn [dyn_section].
  - apply load64_set_vars.
  - intros (? & ? & ? & ?). split_and!; auto using load64_set_vars.
Qed.

Lemma phdr_table_set_vars m x p ps : phdr_table m p ps -> phdr_table (set_vars x m) p ps.
Proof.
  revert p. induction ps as [|[[ty va] ds] ps IH]; intros p; cbn [phdr_table]; [done|].
  intros (? & Hd & ?). split_and!; auto using load32_set_vars.
  destruct (ty =? PT_DYNAMIC); [|done]. destruct Hd. auto using load64_set_vars, dyn_section_set_vars.
Qed.

Lemma foldl_dyn_assign m ds : exists x, foldl dyn_assign m ds = set_vars x m.
Proof.
  revert m. induction ds as [|d ds IH]; intros m; [exists (vars m); by destruct m|].
  cbn [foldl]. destruct (IH (dyn_assign m d)) as [x ->]. exists x. unfold dyn_assign.
  repeat case_match; done.
Qed.

Lemma dyn_loop_run fuel m d ds :
  dyn_section m d ds -> (length ds < fuel)%nat ->
  dyn_loop fuel d m = Some (tt, foldl dyn_assign m ds).
Proof.
  revert fuel m d. induction ds as [|[tag ptr] ds IH]; intros [|fuel] m d Hd Hf; cbn [length] in Hf; try lia.
  - cbn [dyn_loop]. erewrite bind_some by exact Hd. done.
  - destruct Hd as (Hne & Ht & Hp & Hd). cbn [dyn_loop foldl].
    erewrite bind_some by exact Ht. rewrite (proj2 (Z.eqb_neq _ _) Hne).
    erewrite bind_some by exact Hp.
    erewrite bind_some with (a := tt) (s' := dyn_assign m (tag, ptr)).
    + apply IH; [|lia]. unfold dyn_assign. repeat case_match; auto using dyn_section_set_vars.
    + unfold dyn_assign, set_var, modify. cbn [fst snd]. by repeat case_match.
Qed.

Lemma phdr_loop_run fuel m p ps :
  phdr_table m p ps -> Forall (fun q => (length q.2 < fuel)%nat) ps ->
  phdr_loop fuel p (length ps) m = Some (tt, foldl dyn_assign m (concat ps.*2)).
Proof.
  revert m p. induction ps as [|[[ty va] ds] ps IH]; intros m p Hp Hf; [done|].
  apply Forall_cons in Hf as [Hf Hfs]. destruct Hp as (Ht & Hd & Hp).
  cbn [phdr_loop length fmap list_fmap snd concat]. rewrite foldl_app.
  erewrite bind_some by exact Ht.
  erewrite bind_some with (a := tt) (s' := foldl dyn_assign m ds).
  - destruct (foldl_dyn_assign m ds) as [x E]. rewrite E. apply IH; [|done]. by apply phdr_table_set_vars.
  - destruct (ty =? PT_DYNAMIC); [|by subst ds]. destruct Hd as [Hv Hd].
    erewrite bind_some by exact Hv. by apply dyn_loop_run.
Qed.

(** The pointer the last entry of a tag gives. *)
Definition last_of (tag : Z) (ds : list (Z * Z)) : option Z :=
  snd <$> last (filter (fun d => d.1 = tag) ds).

Lemma var_dyn_assigns m ds :
  var ps4KernelDlSymElfSymbols (foldl dyn_assign m ds) =
    default (var ps4KernelDlSymElfSymbols m) (last_of DT_SYMTAB ds) /\
  var ps4KernelDlSymElfStrings (foldl dyn_assign m ds) =
    default (var ps4KernelDlSymElfStrings m) (last_of DT_STRTAB ds).
Proof.
  induction ds as [|[tag ptr] ds IH] using rev_ind; [done|]. destruct IH as [IH1 IH2].
  rewrite foldl_app. cbn [foldl]. unfold last_of in *. rewrite !filter_app, !filter_cons, !filter_nil.
  unfold dyn_assign. cbn [fst snd]. unfold DT_SYMTAB, DT_STRTAB in *.
  destruct (Z.eqb_spec tag 6); [subst tag|destruct (Z.eqb_spec tag 5); [subst tag|]];
    repeat case_decide; try done; rewrite ?app_nil_r, ?last_snoc; try done;
    unfold var in *; cbn [vars set_vars]; by simplify_map_eq.
Qed.

(** ** Properties *)

(** The places the image is looked for, in order. *)
Definition elf_candidates : list Z :=
  PS4_KERNEL_ELF_FIXED_ADDRESS ::
  ((fun k : nat => PS4_KERNEL_ELF_RANGE_ADDRESS + Z.of_nat k * PS4_KERNEL_ELF_PAGE_SIZE) <$> seq 0 2048).

Definition has_magic (m : machine) (a : Z) : Prop := mem_read (mem m) a 9 = Some elfMagic.

#[global] Instance has_magic_dec m a : Decision (has_magic m a).
Proof. unfold has_magic. apply _. Defined.

Lemma seek_pages_run m a n :
  (forall k : nat, (k < n)%nat -> is_Some (mem_read (mem m) (a + Z.of_nat k * PS4_KERNEL_ELF_PAGE_SIZE) 9)) ->
  seek_pages a n m =
  Some (default NULL (head (filter (has_magic m)
          ((fun k : nat => a + Z.of_nat k * PS4_KERNEL_ELF_PAGE_SIZE) <$> seq 0 n))), m).
Proof.
  revert a. induction n as [|n IH]; intros a Hr; [done|].
  cbn [seek_pages seq fmap list_fmap]. destruct (Hr O) as [l Hl]; [lia|].
  rewrite Z.mul_0_l, Z.add_0_r in *.
  erewrite bind_some by (apply (magic_at_run m a elfMagic l); exact Hl). rewrite filter_cons.
  destruct (bool_decide_reflect (l = elfMagic)) as [->|Hne].
  - by rewrite decide_True.
  - rewrite decide_False by (unfold has_magic; rewrite Hl; by intros [= ?]).
    rewrite IH.
    + rewrite <- (fmap_S_seq 0 n), <- list_fmap_compose. do 5 f_equal. apply list_fmap_ext.
      intros _ k _. cbn. lia.
    + intros k Hk. destruct (Hr (S k)) as [l' Hl']; [lia|]. exists l'. rewrite <- Hl'. f_equal. lia.
Qed.

(** With every candidate readable, the seek returns the first one, the fixed
    address before the pages of the range from the lowest up, that holds the
    nine magic bytes, and NULL when none does; nothing is written. *)
Theorem seek_returns_first_image m :
  (forall a, a ∈ elf_candidates -> is_Some (mem_read (mem m) a 9)) ->
  ps4KernelSeekElfAddress m = Some (default NULL (head (filter (has_magic m) elf_candidates)), m).
Proof.
  intros Hr. unfold ps4KernelSeekElfAddress, elf_candidates.
  destruct (Hr PS4_KERNEL_ELF_FIXED_ADDRESS) as [l Hl]; [apply elem_of_cons; by left|].
  erewrite bind_some by (apply (magic_at_run m _ elfMagic l); exact Hl). rewrite filter_cons.
  destruct (bool_decide_reflect (l = elfMagic)) as [->|Hne].
  - by rewrite decide_True.
  - rewrite decide_False by (unfold has_magic; rewrite Hl; by intros [= ?]).
    change (Z.to_nat _) with 2048%nat. apply seek_pages_run. intros k Hk. apply Hr.
    unfold elf_candidates. apply elem_of_cons. right. apply list_elem_of_fmap.
    exists k. split; [done|]. apply elem_of_seq. lia.
Qed.

(** The statics after the tables were found: [symbols] and [strings] are what
    the dynamic entries of the image at the fixed address give. *)
Definition elf_image (m : machine) (fuel : nat) (ds : list (Z * Z)) (symbols strings : Z) : Prop :=
  has_magic m PS4_KERNEL_ELF_FIXED_ADDRESS /\
  exists phoff ps,
    load64 (PS4_KERNEL_ELF_FIXED_ADDRESS + 32) m = Some (phoff, m) /\
    load16 (PS4_KERNEL_ELF_FIXED_ADDRESS + 56) m = Some (Z.of_nat (length ps), m) /\
    phdr_table m (PS4_KERNEL_ELF_FIXED_ADDRESS + phoff) ps /\
    Forall (fun q => (length q.2 < fuel)%nat) ps /\
    concat ps.*2 = ds /\
    last_of DT_SYMTAB ds = Some symbols /\ last_of DT_STRTAB ds = Some strings.

Lemma initialize_run m fuel ds symbols strings :
  elf_image m fuel ds symbols strings ->
  ps4KernelDlSymInitialize fuel m = Some (tt, foldl dyn_assign m ds).
Proof.
  intros (Hm & phoff & ps & Ho & Hn & Hp & Hf & Hc & _). unfold ps4KernelDlSymInitialize.
  assert (ps4KernelSeekElfAddress m = Some (PS4_KERNEL_ELF_FIXED_ADDRESS, m)) as Hs.
  { unfold ps4KernelSeekElfAddress.
    by erewrite bind_some by (apply (magic_at_run m _ elfMagic elfMagic); exact Hm). }
  erewrite bind_some by exact Hs. change (PS4_KERNEL_ELF_FIXED_ADDRESS =? NULL) with false. cbv iota.
  erewrite bind_some by exact Ho. erewrite bind_some by exact Hn. rewrite Nat2Z.id, <- Hc.
  by apply phdr_loop_run.
Qed.

Lemma symbol_table_set_vars m x symbols strings i es :
  symbol_table m symbols strings i es -> symbol_table (set_vars x m) symbols strings i es.
Proof. revert i. induction es as [|[nm v] es IH]; intros i; [done|]. intros [H1 H2]. split; auto. Qed.

(** C19. From the first call on, with nothing cached: the tables the image's dynamic
    section names are found, and the value of the first table entry with that
    name is returned, NULL when no entry the loop reaches has it. The entries
    [es] reached are the ones that end strictly before the string table. *)
Theorem dlsym_resolves m fuel ds symbols strings name es :
  var ps4KernelDlSymElfSymbols m = NULL ->
  elf_image m fuel ds symbols strings ->
  Forall (fun c => c <> 0) (c_string name) -> c_string name <> [] ->
  symbol_table m symbols strings 0 es ->
  symbols + sizeof_Sym * Z.of_nat (length es) < strings ->
  strings <= symbols + sizeof_Sym * (Z.of_nat (length es) + 1) ->
  exists m', elf_ps4KernelDlSym fuel name m = Some (first_value (c_string name) es, m') /\
    var ps4KernelDlSymElfSymbols m' = symbols /\ var ps4KernelDlSymElfStrings m' = strings /\
    mem m' = mem m.
Proof.
  intros Hv Hi Hc Hne Ht Hlo Hhi. unfold elf_ps4KernelDlSym.
  exists (foldl dyn_assign m ds). destruct (foldl_dyn_assign m ds) as [x Ex].
  destruct (var_dyn_assigns m ds) as [Hsy Hst].
  pose proof Hi as (_ & ? & ? & _ & _ & _ & _ & _ & L1 & L2). rewrite L1 in Hsy. rewrite L2 in Hst.
  cbn [default] in Hsy, Hst. split; [|split; [done|split; [done|by rewrite Ex]]].
  erewrite bind_some by reflexivity. erewrite bind_some by reflexivity. rewrite Hv.
  change ((NULL =? NULL) || _) with true. cbv iota.
  erewrite bind_some by (by eapply initialize_run).
  erewrite bind_some by reflexivity. erewrite bind_some by reflexivity. rewrite Hsy, Hst.
  apply dlsym_lookup_run; try done. rewrite Ex. by apply symbol_table_set_vars.
Qed.

(** With the string table placed right after the symbol table, the loop test
    [symbol + 1 < strings] stops before the last entry: its name is not found
    although it is in the table. *)
Theorem dlsym_skips_last_symbol m fuel name es nm v symbols strings :
  var ps4KernelDlSymElfSymbols m = symbols -> symbols <> NULL ->
  var ps4KernelDlSymElfStrings m = strings -> strings <> NULL ->
  Forall (fun c => c <> 0) (c_string name) -> c_string name <> [] ->
  symbol_table m symbols strings 0 (es ++ [(nm, v)]) ->
  nm = c_string name -> nm ∉ es.*1 ->
  strings = symbols + sizeof_Sym * Z.of_nat (length es + 1) ->
  elf_ps4KernelDlSym fuel name m = Some (NULL, m).
Proof.
  intros Hsy Hs0 Hst Ht0 Hc Hne Ht Hnm Hnot Hadj. unfold elf_ps4KernelDlSym.
  erewrite bind_some by reflexivity. erewrite bind_some by reflexivity. rewrite Hsy, Hst.
  rewrite (proj2 (Z.eqb_neq _ _) Hs0), (proj2 (Z.eqb_neq _ _) Ht0). cbn [orb].
  erewrite bind_some by reflexivity. erewrite bind_some by reflexivity.
  erewrite bind_some by reflexivity. rewrite Hsy, Hst.
  erewrite dlsym_lookup_run with (es := es); try done.
  - rewrite first_value_absent; [done | by rewrite <- Hnm].
  - clear -Ht. revert Ht. generalize 0%nat. induction es as [|[a b] es IH]; intros i; [done|].
    cbn [app symbol_table]. intros [H1 H2]. auto.
  - unfold sizeof_Sym in *. lia.
  - unfold sizeof_Sym in *. lia.
Qed.

(** ** Witnesses *)

(** A load whose value evaluation gives. *)
Lemma load_is n m a v :
  (le_val <$> mem_read (mem m) a n) = Some v ->
  (let! l := load_bytes a n in ret (le_val l)) m = Some (v, m).
Proof.
  unfold bind, load_bytes. destruct (mem_read (mem m) a n); [by intros [= ->] | done].
Qed.

Ltac load_by_compute := apply load_is; vm_compute; reflexivity.

Definition elf_example (gap : Z) : machine :=
  let s := 0xffffffff80708000 in
  let t := s + 24 * 2 + gap in
  booted
    [ (PS4_KERNEL_ELF_FIXED_ADDRESS,
        elfMagic ++ repeat 0 23 ++ le_bytes 8 64 ++ repeat 0 16 ++ le_bytes 2 2 ++ repeat 0 6);
      (PS4_KERNEL_ELF_FIXED_ADDRESS + 64,
        le_bytes 4 1 ++ repeat 0 52 ++ le_bytes 4 2 ++ repeat 0 12 ++ le_bytes 8 0xffffffff80709000);
      (0xffffffff80709000, concat (le_bytes 8 <$> [6; s; 5; t; 0]));
      (s, concat ((fun e : Z * Z => le_bytes 4 e.1 ++ repeat 0 4 ++ le_bytes 8 e.2 ++ repeat 0 8)
                    <$> [(1, 0x111); (3, 0x222)]));
      (t, [0; 97; 0; 98; 99; 0]) ] [] [].

Lemma seek_returns_first_image_witness :
  let page (a : Z) := (a, if a =? 0xffffffff80008000 then elfMagic else repeat 0 9) in
  ps4KernelSeekElfAddress (booted (page <$> elf_candidates) [] []) =
  Some (0xffffffff80008000, booted (page <$> elf_candidates) [] []).
Proof.
  intros page. set (m := booted (page <$> elf_candidates) [] []).
  rewrite (seek_returns_first_image m).
  - apply (f_equal (fun a => Some (a, m))). vm_compute. reflexivity.
  - apply Forall_forall. vm_decide.
Defined.

Lemma dlsym_resolves_witness :
  exists m', elf_ps4KernelDlSym 8 "bc" (elf_example 8) = Some (0x222, m').
Proof.
  destruct (dlsym_resolves (elf_example 8) 8 [(6, 0xffffffff80708000); (5, 0xffffffff80708038)]
    0xffffffff80708000 0xffffffff80708038 "bc" [([97], 0x111); ([98; 99], 0x222)])
    as (m' & Hr & _).
  - vm_compute. reflexivity.
  - split; [vm_compute; reflexivity|]. exists 64, [(1, 0, []); (2, 0xffffffff80709000, [(6, 0xffffffff80708000); (5, 0xffffffff80708038)])].
    split; [load_by_compute|]. split; [load_by_compute|]. split.
    { cbn [phdr_table dyn_section Z.eqb PT_DYNAMIC].
      repeat (split || load_by_compute || done). }
    repeat split. repeat constructor; cbn; lia.
  - repeat constructor; done.
  - done.
  - repeat split; (eexists _, _; split; [vm_compute; reflexivity|split; [|split; [vm_compute; reflexivity|done]]]);
      (split; [repeat constructor; done | vm_compute; reflexivity]).
  - vm_compute. reflexivity.
  - vm_compute. discriminate.
  - exists m'. exact Hr.
Defined.

Lemma dlsym_skips_last_symbol_witness :
  let m := set_vars (list_to_map [(ps4KernelDlSymElfSymbols, 0xffffffff80708000);
                                  (ps4KernelDlSymElfStrings, 0xffffffff80708030)]) (elf_example 0) in
  symbol_entry m 0xffffffff80708000 0xffffffff80708030 1 (c_string "bc") 0x222 /\
  elf_ps4KernelDlSym 8 "bc" m = Some (NULL, m).
Proof.
  intros m.
  assert (forall i nm v off, mem_read (mem m) (0xffffffff80708000 + sizeof_Sym * Z.of_nat i) 4 = Some off ->
    cstring_at m (0xffffffff80708030 + le_val off) nm ->
    mem_read (mem m) (0xffffffff80708000 + sizeof_Sym * Z.of_nat i + 8) 8 = Some (le_bytes 8 v) ->
    le_val (le_bytes 8 v) = v ->
    symbol_entry m 0xffffffff80708000 0xffffffff80708030 i nm v) as He
    by (intros i nm v off ? ? ? ?; by exists off, (le_bytes 8 v)).
  assert (symbol_entry m 0xffffffff80708000 0xffffffff80708030 1 (c_string "bc") 0x222) as H1.
  { apply (He _ _ _ [3; 0; 0; 0]); [vm_compute; reflexivity | | vm_compute; reflexivity | done].
    split; [repeat constructor; done | vm_compute; reflexivity]. }
  split; [exact H1|].
  apply (dlsym_skips_last_symbol m 8 "bc" [([97], 0x111)] (c_string "bc") 0x222
           0xffffffff80708000 0xffffffff80708030);
    [vm_compute; reflexivity | done | vm_compute; reflexivity | done | repeat constructor; done | done | | done | | done].
  - split; [|split; [exact H1 | done]].
    apply (He _ _ _ [1; 0; 0; 0]); [vm_compute; reflexivity | | vm_compute; reflexivity | done].
    split; [repeat constructor; done | vm_compute; reflexivity].
  - vm_decide.
Defined.
