(* ===== verification/Itab.v ===== *)
(** * The instruction tables of udis86 (third_party/udis86/itab.c, itab.h, decode.h, types.h)

    The enumerations, the opcode tables [ud_itab__N], the list of tables that
    [GROUP(n)] entries refer to, the instruction table and the mnemonics, in
    the order and with the names of the C files. Enumerators the decoder does
    arithmetic on are their integer values. *)

From stdpp Require Import base list strings.
From S2P Require Import Prelude.

(** ** Enumerations *)

(** [enum ud_type]: registers, then operand types. *)
Abbreviation UD_NONE := 0 (only parsing).
Abbreviation UD_R_AL := 1 (only parsing).
Abbreviation UD_R_CL := 2 (only parsing).
Abbreviation UD_R_DL := 3 (only parsing).
Abbreviation UD_R_BL := 4 (only parsing).
Abbreviation UD_R_AH := 5 (only parsing).
Abbreviation UD_R_CH := 6 (only parsing).
Abbreviation UD_R_DH := 7 (only parsing).
Abbreviation UD_R_BH := 8 (only parsing).
Abbreviation UD_R_SPL := 9 (only parsing).
Abbreviation UD_R_BPL := 10 (only parsing).
Abbreviation UD_R_SIL := 11 (only parsing).
Abbreviation UD_R_DIL := 12 (only parsing).
Abbreviation UD_R_R8B := 13 (only parsing).
Abbreviation UD_R_R9B := 14 (only parsing).
Abbreviation UD_R_R10B := 15 (only parsing).
Abbreviation UD_R_R11B := 16 (only parsing).
Abbreviation UD_R_R12B := 17 (only parsing).
Abbreviation UD_R_R13B := 18 (only parsing).
Abbreviation UD_R_R14B := 19 (only parsing).
Abbreviation UD_R_R15B := 20 (only parsing).
Abbreviation UD_R_AX := 21 (only parsing).
Abbreviation UD_R_CX := 22 (only parsing).
Abbreviation UD_R_DX := 23 (only parsing).
Abbreviation UD_R_BX := 24 (only parsing).
Abbreviation UD_R_SP := 25 (only parsing).
Abbreviation UD_R_BP := 26 (only parsing).
Abbreviation UD_R_SI := 27 (only parsing).
Abbreviation UD_R_DI := 28 (only parsing).
Abbreviation UD_R_R8W := 29 (only parsing).
Abbreviation UD_R_R9W := 30 (only parsing).
Abbreviation UD_R_R10W := 31 (only parsing).
Abbreviation UD_R_R11W := 32 (only parsing).
Abbreviation UD_R_R12W := 33 (only parsing).
Abbreviation UD_R_R13W := 34 (only parsing).
Abbreviation UD_R_R14W := 35 (only parsing).
Abbreviation UD_R_R15W := 36 (only parsing).
Abbreviation UD_R_EAX := 37 (only parsing).
Abbreviation UD_R_ECX := 38 (only parsing).
Abbreviation UD_R_EDX := 39 (only parsing).
Abbreviation UD_R_EBX := 40 (only parsing).
Abbreviation UD_R_ESP := 41 (only parsing).
Abbreviation UD_R_EBP := 42 (only parsing).
Abbreviation UD_R_ESI := 43 (only parsing).
Abbreviation UD_R_EDI := 44 (only parsing).
Abbreviation UD_R_R8D := 45 (only parsing).
Abbreviation UD_R_R9D := 46 (only parsing).
Abbreviation UD_R_R10D := 47 (only parsing).
Abbreviation UD_R_R11D := 48 (only parsing).
Abbreviation UD_R_R12D := 49 (only parsing).
Abbreviation UD_R_R13D := 50 (only parsing).
Abbreviation UD_R_R14D := 51 (only parsing).
Abbreviation UD_R_R15D := 52 (only parsing).
Abbreviation UD_R_RAX := 53 (only parsing).
Abbreviation UD_R_RCX := 54 (only parsing).
Abbreviation UD_R_RDX := 55 (only parsing).
Abbreviation UD_R_RBX := 56 (only parsing).
Abbreviation UD_R_RSP := 57 (only parsing).
Abbreviation UD_R_RBP := 58 (only parsing).
Abbreviation UD_R_RSI := 59 (only parsing).
Abbreviation UD_R_RDI := 60 (only parsing).
Abbreviation UD_R_R8 := 61 (only parsing).
Abbreviation UD_R_R9 := 62 (only parsing).
Abbreviation UD_R_R10 := 63 (only parsing).
Abbreviation UD_R_R11 := 64 (only parsing).
Abbreviation UD_R_R12 := 65 (only parsing).
Abbreviation UD_R_R13 := 66 (only parsing).
Abbreviation UD_R_R14 := 67 (only parsing).
Abbreviation UD_R_R15 := 68 (only parsing).
Abbreviation UD_R_ES := 69 (only parsing).
Abbreviation UD_R_CS := 70 (only parsing).
Abbreviation UD_R_SS := 71 (only parsing).
Abbreviation UD_R_DS := 72 (only parsing).
Abbreviation UD_R_FS := 73 (only parsing).
Abbreviation UD_R_GS := 74 (only parsing).
Abbreviation UD_R_CR0 := 75 (only parsing).
Abbreviation UD_R_CR1 := 76 (only parsing).
Abbreviation UD_R_CR2 := 77 (only parsing).
Abbreviation UD_R_CR3 := 78 (only parsing).
Abbreviation UD_R_CR4 := 79 (only parsing).
Abbreviation UD_R_CR5 := 80 (only parsing).
Abbreviation UD_R_CR6 := 81 (only parsing).
Abbreviation UD_R_CR7 := 82 (only parsing).
Abbreviation UD_R_CR8 := 83 (only parsing).
Abbreviation UD_R_CR9 := 84 (only parsing).
Abbreviation UD_R_CR10 := 85 (only parsing).
Abbreviation UD_R_CR11 := 86 (only parsing).
Abbreviation UD_R_CR12 := 87 (only parsing).
Abbreviation UD_R_CR13 := 88 (only parsing).
Abbreviation UD_R_CR14 := 89 (only parsing).
Abbreviation UD_R_CR15 := 90 (only parsing).
Abbreviation UD_R_DR0 := 91 (only parsing).
Abbreviation UD_R_DR1 := 92 (only parsing).
Abbreviation UD_R_DR2 := 93 (only parsing).
Abbreviation UD_R_DR3 := 94 (only parsing).
Abbreviation UD_R_DR4 := 95 (only parsing).
Abbreviation UD_R_DR5 := 96 (only parsing).
Abbreviation UD_R_DR6 := 97 (only parsing).
Abbreviation UD_R_DR7 := 98 (only parsing).
Abbreviation UD_R_DR8 := 99 (only parsing).
Abbreviation UD_R_DR9 := 100 (only parsing).
Abbreviation UD_R_DR10 := 101 (only parsing).
Abbreviation UD_R_DR11 := 102 (only parsing).
Abbreviation UD_R_DR12 := 103 (only parsing).
Abbreviation UD_R_DR13 := 104 (only parsing).
Abbreviation UD_R_DR14 := 105 (only parsing).
Abbreviation UD_R_DR15 := 106 (only parsing).
Abbreviation UD_R_MM0 := 107 (only parsing).
Abbreviation UD_R_MM1 := 108 (only parsing).
Abbreviation UD_R_MM2 := 109 (only parsing).
Abbreviation UD_R_MM3 := 110 (only parsing).
Abbreviation UD_R_MM4 := 111 (only parsing).
Abbreviation UD_R_MM5 := 112 (only parsing).
Abbreviation UD_R_MM6 := 113 (only parsing).
Abbreviation UD_R_MM7 := 114 (only parsing).
Abbreviation UD_R_ST0 := 115 (only parsing).
Abbreviation UD_R_ST1 := 116 (only parsing).
Abbreviation UD_R_ST2 := 117 (only parsing).
Abbreviation UD_R_ST3 := 118 (only parsing).
Abbreviation UD_R_ST4 := 119 (only parsing).
Abbreviation UD_R_ST5 := 120 (only parsing).
Abbreviation UD_R_ST6 := 121 (only parsing).
Abbreviation UD_R_ST7 := 122 (only parsing).
Abbreviation UD_R_XMM0 := 123 (only parsing).
Abbreviation UD_R_XMM1 := 124 (only parsing).
Abbreviation UD_R_XMM2 := 125 (only parsing).
Abbreviation UD_R_XMM3 := 126 (only parsing).
Abbreviation UD_R_XMM4 := 127 (only parsing).
Abbreviation UD_R_XMM5 := 128 (only parsing).
Abbreviation UD_R_XMM6 := 129 (only parsing).
Abbreviation UD_R_XMM7 := 130 (only parsing).
Abbreviation UD_R_XMM8 := 131 (only parsing).
Abbreviation UD_R_XMM9 := 132 (only parsing).
Abbreviation UD_R_XMM10 := 133 (only parsing).
Abbreviation UD_R_XMM11 := 134 (only parsing).
Abbreviation UD_R_XMM12 := 135 (only parsing).
Abbreviation UD_R_XMM13 := 136 (only parsing).
Abbreviation UD_R_XMM14 := 137 (only parsing).
Abbreviation UD_R_XMM15 := 138 (only parsing).
Abbreviation UD_R_RIP := 139 (only parsing).
Abbreviation UD_OP_REG := 140 (only parsing).
Abbreviation UD_OP_MEM := 141 (only parsing).
Abbreviation UD_OP_PTR := 142 (only parsing).
Abbreviation UD_OP_IMM := 143 (only parsing).
Abbreviation UD_OP_JIMM := 144 (only parsing).
Abbreviation UD_OP_CONST := 145 (only parsing).

(** [enum ud_operand_code] *)
Abbreviation OP_NONE := 0 (only parsing).
Abbreviation OP_A := 1 (only parsing).
Abbreviation OP_E := 2 (only parsing).
Abbreviation OP_M := 3 (only parsing).
Abbreviation OP_G := 4 (only parsing).
Abbreviation OP_I := 5 (only parsing).
Abbreviation OP_F := 6 (only parsing).
Abbreviation OP_R0 := 7 (only parsing).
Abbreviation OP_R1 := 8 (only parsing).
Abbreviation OP_R2 := 9 (only parsing).
Abbreviation OP_R3 := 10 (only parsing).
Abbreviation OP_R4 := 11 (only parsing).
Abbreviation OP_R5 := 12 (only parsing).
Abbreviation OP_R6 := 13 (only parsing).
Abbreviation OP_R7 := 14 (only parsing).
Abbreviation OP_AL := 15 (only parsing).
Abbreviation OP_CL := 16 (only parsing).
Abbreviation OP_DL := 17 (only parsing).
Abbreviation OP_AX := 18 (only parsing).
Abbreviation OP_CX := 19 (only parsing).
Abbreviation OP_DX := 20 (only parsing).
Abbreviation OP_eAX := 21 (only parsing).
Abbreviation OP_eCX := 22 (only parsing).
Abbreviation OP_eDX := 23 (only parsing).
Abbreviation OP_rAX := 24 (only parsing).
Abbreviation OP_rCX := 25 (only parsing).
Abbreviation OP_rDX := 26 (only parsing).
Abbreviation OP_ES := 27 (only parsing).
Abbreviation OP_CS := 28 (only parsing).
Abbreviation OP_SS := 29 (only parsing).
Abbreviation OP_DS := 30 (only parsing).
Abbreviation OP_FS := 31 (only parsing).
Abbreviation OP_GS := 32 (only parsing).
Abbreviation OP_ST0 := 33 (only parsing).
Abbreviation OP_ST1 := 34 (only parsing).
Abbreviation OP_ST2 := 35 (only parsing).
Abbreviation OP_ST3 := 36 (only parsing).
Abbreviation OP_ST4 := 37 (only parsing).
Abbreviation OP_ST5 := 38 (only parsing).
Abbreviation OP_ST6 := 39 (only parsing).
Abbreviation OP_ST7 := 40 (only parsing).
Abbreviation OP_J := 41 (only parsing).
Abbreviation OP_S := 42 (only parsing).
Abbreviation OP_O := 43 (only parsing).
Abbreviation OP_I1 := 44 (only parsing).
Abbreviation OP_I3 := 45 (only parsing).
Abbreviation OP_sI := 46 (only parsing).
Abbreviation OP_V := 47 (only parsing).
Abbreviation OP_W := 48 (only parsing).
Abbreviation OP_Q := 49 (only parsing).
Abbreviation OP_P := 50 (only parsing).
Abbreviation OP_U := 51 (only parsing).
Abbreviation OP_N := 52 (only parsing).
Abbreviation OP_MU := 53 (only parsing).
Abbreviation OP_R := 54 (only parsing).
Abbreviation OP_C := 55 (only parsing).
Abbreviation OP_D := 56 (only parsing).
Abbreviation OP_MR := 57 (only parsing).

(** [enum ud_operand_size] *)
Abbreviation SZ_NA := 0 (only parsing).
Abbreviation SZ_Z := 1 (only parsing).
Abbreviation SZ_V := 2 (only parsing).
Abbreviation SZ_RDQ := 7 (only parsing).
Abbreviation SZ_B := 8 (only parsing).
Abbreviation SZ_W := 16 (only parsing).
Abbreviation SZ_D := 32 (only parsing).
Abbreviation SZ_Q := 64 (only parsing).
Abbreviation SZ_T := 80 (only parsing).
Abbreviation SZ_O := 128 (only parsing).
Abbreviation SZ_Y := 17 (only parsing).
Abbreviation SZ_BD := 2080 (only parsing).
Abbreviation SZ_BV := 2050 (only parsing).
Abbreviation SZ_WD := 4128 (only parsing).
Abbreviation SZ_WV := 4098 (only parsing).
Abbreviation SZ_WY := 4113 (only parsing).
Abbreviation SZ_DY := 8209 (only parsing).
Abbreviation SZ_WO := 4224 (only parsing).
Abbreviation SZ_DO := 8320 (only parsing).
Abbreviation SZ_QO := 16512 (only parsing).

(** The prefix bits of an instruction and their tests. *)
Abbreviation P_none := 0 (only parsing).
Abbreviation P_cast := 1 (only parsing).
Abbreviation P_rexb := 2 (only parsing).
Abbreviation P_inv64 := 16 (only parsing).
Abbreviation P_rexw := 32 (only parsing).
Abbreviation P_def64 := 128 (only parsing).
Abbreviation P_rexr := 256 (only parsing).
Abbreviation P_oso := 512 (only parsing).
Abbreviation P_aso := 1024 (only parsing).
Abbreviation P_rexx := 2048 (only parsing).
Abbreviation P_ImpAddr := 4096 (only parsing).
Abbreviation P_seg := 8192 (only parsing).
Abbreviation P_str := 16384 (only parsing).
Abbreviation P_strz := 32768 (only parsing).
Definition P_CAST (n : Z) : Z := Z.land (Z.shiftr n 0) 1.
Definition P_REXB (n : Z) : Z := Z.land (Z.shiftr n 1) 1.
Definition P_INV64 (n : Z) : Z := Z.land (Z.shiftr n 4) 1.
Definition P_REXW (n : Z) : Z := Z.land (Z.shiftr n 5) 1.
Definition P_DEF64 (n : Z) : Z := Z.land (Z.shiftr n 7) 1.
Definition P_REXR (n : Z) : Z := Z.land (Z.shiftr n 8) 1.
Definition P_OSO (n : Z) : Z := Z.land (Z.shiftr n 9) 1.
Definition P_ASO (n : Z) : Z := Z.land (Z.shiftr n 10) 1.
Definition P_REXX (n : Z) : Z := Z.land (Z.shiftr n 11) 1.
Definition P_IMPADDR (n : Z) : Z := Z.land (Z.shiftr n 12) 1.
Definition P_SEG (n : Z) : Z := Z.land (Z.shiftr n 13) 1.
Definition P_STR (n : Z) : Z := Z.land (Z.shiftr n 14) 1.
Definition P_STR_ZF (n : Z) : Z := Z.land (Z.shiftr n 15) 1.

Inductive ud_table_type :=
| UD_TAB__OPC_TABLE
| UD_TAB__OPC_X87
| UD_TAB__OPC_MOD
| UD_TAB__OPC_VEX_M
| UD_TAB__OPC_VEX_P
| UD_TAB__OPC_RM
| UD_TAB__OPC_VENDOR
| UD_TAB__OPC_OSIZE
| UD_TAB__OPC_MODE
| UD_TAB__OPC_3DNOW
| UD_TAB__OPC_REG
| UD_TAB__OPC_ASIZE
| UD_TAB__OPC_SSE.

#[global] Instance ud_table_type_eq_dec : EqDecision ud_table_type.
Proof. solve_decision. Defined.

#[local] Unset Elimination Schemes.

Inductive ud_mnemonic_code :=
| UD_Iinvalid
| UD_I3dnow
| UD_Inone
| UD_Idb
| UD_Ipause
| UD_Iaaa
| UD_Iaad
| UD_Iaam
| UD_Iaas
| UD_Iadc
| UD_Iadd
| UD_Iaddpd
| UD_Iaddps
| UD_Iaddsd
| UD_Iaddss
| UD_Iand
| UD_Iandpd
| UD_Iandps
| UD_Iandnpd
| UD_Iandnps
| UD_Iarpl
| UD_Imovsxd
| UD_Ibound
| UD_Ibsf
| UD_Ibsr
| UD_Ibswap
| UD_Ibt
| UD_Ibtc
| UD_Ibtr
| UD_Ibts
| UD_Icall
| UD_Icbw
| UD_Icwde
| UD_Icdqe
| UD_Iclc
| UD_Icld
| UD_Iclflush
| UD_Iclgi
| UD_Icli
| UD_Iclts
| UD_Icmc
| UD_Icmovo
| UD_Icmovno
| UD_Icmovb
| UD_Icmovae
| UD_Icmovz
| UD_Icmovnz
| UD_Icmovbe
| UD_Icmova
| UD_Icmovs
| UD_Icmovns
| UD_Icmovp
| UD_Icmovnp
| UD_Icmovl
| UD_Icmovge
| UD_Icmovle
| UD_Icmovg
| UD_Icmp
| UD_Icmppd
| UD_Icmpps
| UD_Icmpsb
| UD_Icmpsw
| UD_Icmpsd
| UD_Icmpsq
| UD_Icmpss
| UD_Icmpxchg
| UD_Icmpxchg8b
| UD_Icmpxchg16b
| UD_Icomisd
| UD_Icomiss
| UD_Icpuid
| UD_Icvtdq2pd
| UD_Icvtdq2ps
| UD_Icvtpd2dq
| UD_Icvtpd2pi
| UD_Icvtpd2ps
| UD_Icvtpi2ps
| UD_Icvtpi2pd
| UD_Icvtps2dq
| UD_Icvtps2pi
| UD_Icvtps2pd
| UD_Icvtsd2si
| UD_Icvtsd2ss
| UD_Icvtsi2ss
| UD_Icvtss2si
| UD_Icvtss2sd
| UD_Icvttpd2pi
| UD_Icvttpd2dq
| UD_Icvttps2dq
| UD_Icvttps2pi
| UD_Icvttsd2si
| UD_Icvtsi2sd
| UD_Icvttss2si
| UD_Icwd
| UD_Icdq
| UD_Icqo
| UD_Idaa
| UD_Idas
| UD_Idec
| UD_Idiv
| UD_Idivpd
| UD_Idivps
| UD_Idivsd
| UD_Idivss
| UD_Iemms
| UD_Ienter
| UD_If2xm1
| UD_Ifabs
| UD_Ifadd
| UD_Ifaddp
| UD_Ifbld
| UD_Ifbstp
| UD_Ifchs
| UD_Ifclex
| UD_Ifcmovb
| UD_Ifcmove
| UD_Ifcmovbe
| UD_Ifcmovu
| UD_Ifcmovnb
| UD_Ifcmovne
| UD_Ifcmovnbe
| UD_Ifcmovnu
| UD_Ifucomi
| UD_Ifcom
| UD_Ifcom2
| UD_Ifcomp3
| UD_Ifcomi
| UD_Ifucomip
| UD_Ifcomip
| UD_Ifcomp
| UD_Ifcomp5
| UD_Ifcompp
| UD_Ifcos
| UD_Ifdecstp
| UD_Ifdiv
| UD_Ifdivp
| UD_Ifdivr
| UD_Ifdivrp
| UD_Ifemms
| UD_Iffree
| UD_Iffreep
| UD_Ificom
| UD_Ificomp
| UD_Ifild
| UD_Ifincstp
| UD_Ifninit
| UD_Ifiadd
| UD_Ifidivr
| UD_Ifidiv
| UD_Ifisub
| UD_Ifisubr
| UD_Ifist
| UD_Ifistp
| UD_Ifisttp
| UD_Ifld
| UD_Ifld1
| UD_Ifldl2t
| UD_Ifldl2e
| UD_Ifldpi
| UD_Ifldlg2
| UD_Ifldln2
| UD_Ifldz
| UD_Ifldcw
| UD_Ifldenv
| UD_Ifmul
| UD_Ifmulp
| UD_Ifimul
| UD_Ifnop
| UD_Ifpatan
| UD_Ifprem
| UD_Ifprem1
| UD_Ifptan
| UD_Ifrndint
| UD_Ifrstor
| UD_Ifnsave
| UD_Ifscale
| UD_Ifsin
| UD_Ifsincos
| UD_Ifsqrt
| UD_Ifstp
| UD_Ifstp1
| UD_Ifstp8
| UD_Ifstp9
| UD_Ifst
| UD_Ifnstcw
| UD_Ifnstenv
| UD_Ifnstsw
| UD_Ifsub
| UD_Ifsubp
| UD_Ifsubr
| UD_Ifsubrp
| UD_Iftst
| UD_Ifucom
| UD_Ifucomp
| UD_Ifucompp
| UD_Ifxam
| UD_Ifxch
| UD_Ifxch4
| UD_Ifxch7
| UD_Ifxrstor
| UD_Ifxsave
| UD_Ifxtract
| UD_Ifyl2x
| UD_Ifyl2xp1
| UD_Ihlt
| UD_Iidiv
| UD_Iin
| UD_Iimul
| UD_Iinc
| UD_Iinsb
| UD_Iinsw
| UD_Iinsd
| UD_Iint1
| UD_Iint3
| UD_Iint
| UD_Iinto
| UD_Iinvd
| UD_Iinvept
| UD_Iinvlpg
| UD_Iinvlpga
| UD_Iinvvpid
| UD_Iiretw
| UD_Iiretd
| UD_Iiretq
| UD_Ijo
| UD_Ijno
| UD_Ijb
| UD_Ijae
| UD_Ijz
| UD_Ijnz
| UD_Ijbe
| UD_Ija
| UD_Ijs
| UD_Ijns
| UD_Ijp
| UD_Ijnp
| UD_Ijl
| UD_Ijge
| UD_Ijle
| UD_Ijg
| UD_Ijcxz
| UD_Ijecxz
| UD_Ijrcxz
| UD_Ijmp
| UD_Ilahf
| UD_Ilar
| UD_Ilddqu
| UD_Ildmxcsr
| UD_Ilds
| UD_Ilea
| UD_Iles
| UD_Ilfs
| UD_Ilgs
| UD_Ilidt
| UD_Ilss
| UD_Ileave
| UD_Ilfence
| UD_Ilgdt
| UD_Illdt
| UD_Ilmsw
| UD_Ilock
| UD_Ilodsb
| UD_Ilodsw
| UD_Ilodsd
| UD_Ilodsq
| UD_Iloopne
| UD_Iloope
| UD_Iloop
| UD_Ilsl
| UD_Iltr
| UD_Imaskmovq
| UD_Imaxpd
| UD_Imaxps
| UD_Imaxsd
| UD_Imaxss
| UD_Imfence
| UD_Iminpd
| UD_Iminps
| UD_Iminsd
| UD_Iminss
| UD_Imonitor
| UD_Imontmul
| UD_Imov
| UD_Imovapd
| UD_Imovaps
| UD_Imovd
| UD_Imovhpd
| UD_Imovhps
| UD_Imovlhps
| UD_Imovlpd
| UD_Imovlps
| UD_Imovhlps
| UD_Imovmskpd
| UD_Imovmskps
| UD_Imovntdq
| UD_Imovnti
| UD_Imovntpd
| UD_Imovntps
| UD_Imovntq
| UD_Imovq
| UD_Imovsb
| UD_Imovsw
| UD_Imovsd
| UD_Imovsq
| UD_Imovss
| UD_Imovsx
| UD_Imovupd
| UD_Imovups
| UD_Imovzx
| UD_Imul
| UD_Imulpd
| UD_Imulps
| UD_Imulsd
| UD_Imulss
| UD_Imwait
| UD_Ineg
| UD_Inop
| UD_Inot
| UD_Ior
| UD_Iorpd
| UD_Iorps
| UD_Iout
| UD_Ioutsb
| UD_Ioutsw
| UD_Ioutsd
| UD_Ipacksswb
| UD_Ipackssdw
| UD_Ipackuswb
| UD_Ipaddb
| UD_Ipaddw
| UD_Ipaddd
| UD_Ipaddsb
| UD_Ipaddsw
| UD_Ipaddusb
| UD_Ipaddusw
| UD_Ipand
| UD_Ipandn
| UD_Ipavgb
| UD_Ipavgw
| UD_Ipcmpeqb
| UD_Ipcmpeqw
| UD_Ipcmpeqd
| UD_Ipcmpgtb
| UD_Ipcmpgtw
| UD_Ipcmpgtd
| UD_Ipextrb
| UD_Ipextrd
| UD_Ipextrq
| UD_Ipextrw
| UD_Ipinsrb
| UD_Ipinsrw
| UD_Ipinsrd
| UD_Ipinsrq
| UD_Ipmaddwd
| UD_Ipmaxsw
| UD_Ipmaxub
| UD_Ipminsw
| UD_Ipminub
| UD_Ipmovmskb
| UD_Ipmulhuw
| UD_Ipmulhw
| UD_Ipmullw
| UD_Ipop
| UD_Ipopa
| UD_Ipopad
| UD_Ipopfw
| UD_Ipopfd
| UD_Ipopfq
| UD_Ipor
| UD_Iprefetch
| UD_Iprefetchnta
| UD_Iprefetcht0
| UD_Iprefetcht1
| UD_Iprefetcht2
| UD_Ipsadbw
| UD_Ipshufw
| UD_Ipsllw
| UD_Ipslld
| UD_Ipsllq
| UD_Ipsraw
| UD_Ipsrad
| UD_Ipsrlw
| UD_Ipsrld
| UD_Ipsrlq
| UD_Ipsubb
| UD_Ipsubw
| UD_Ipsubd
| UD_Ipsubsb
| UD_Ipsubsw
| UD_Ipsubusb
| UD_Ipsubusw
| UD_Ipunpckhbw
| UD_Ipunpckhwd
| UD_Ipunpckhdq
| UD_Ipunpcklbw
| UD_Ipunpcklwd
| UD_Ipunpckldq
| UD_Ipi2fw
| UD_Ipi2fd
| UD_Ipf2iw
| UD_Ipf2id
| UD_Ipfnacc
| UD_Ipfpnacc
| UD_Ipfcmpge
| UD_Ipfmin
| UD_Ipfrcp
| UD_Ipfrsqrt
| UD_Ipfsub
| UD_Ipfadd
| UD_Ipfcmpgt
| UD_Ipfmax
| UD_Ipfrcpit1
| UD_Ipfrsqit1
| UD_Ipfsubr
| UD_Ipfacc
| UD_Ipfcmpeq
| UD_Ipfmul
| UD_Ipfrcpit2
| UD_Ipmulhrw
| UD_Ipswapd
| UD_Ipavgusb
| UD_Ipush
| UD_Ipusha
| UD_Ipushad
| UD_Ipushfw
| UD_Ipushfd
| UD_Ipushfq
| UD_Ipxor
| UD_Ircl
| UD_Ircr
| UD_Irol
| UD_Iror
| UD_Ircpps
| UD_Ircpss
| UD_Irdmsr
| UD_Irdpmc
| UD_Irdtsc
| UD_Irdtscp
| UD_Irepne
| UD_Irep
| UD_Iret
| UD_Iretf
| UD_Irsm
| UD_Irsqrtps
| UD_Irsqrtss
| UD_Isahf
| UD_Isalc
| UD_Isar
| UD_Ishl
| UD_Ishr
| UD_Isbb
| UD_Iscasb
| UD_Iscasw
| UD_Iscasd
| UD_Iscasq
| UD_Iseto
| UD_Isetno
| UD_Isetb
| UD_Isetae
| UD_Isetz
| UD_Isetnz
| UD_Isetbe
| UD_Iseta
| UD_Isets
| UD_Isetns
| UD_Isetp
| UD_Isetnp
| UD_Isetl
| UD_Isetge
| UD_Isetle
| UD_Isetg
| UD_Isfence
| UD_Isgdt
| UD_Ishld
| UD_Ishrd
| UD_Ishufpd
| UD_Ishufps
| UD_Isidt
| UD_Isldt
| UD_Ismsw
| UD_Isqrtps
| UD_Isqrtpd
| UD_Isqrtsd
| UD_Isqrtss
| UD_Istc
| UD_Istd
| UD_Istgi
| UD_Isti
| UD_Iskinit
| UD_Istmxcsr
| UD_Istosb
| UD_Istosw
| UD_Istosd
| UD_Istosq
| UD_Istr
| UD_Isub
| UD_Isubpd
| UD_Isubps
| UD_Isubsd
| UD_Isubss
| UD_Iswapgs
| UD_Isyscall
| UD_Isysenter
| UD_Isysexit
| UD_Isysret
| UD_Itest
| UD_Iucomisd
| UD_Iucomiss
| UD_Iud2
| UD_Iunpckhpd
| UD_Iunpckhps
| UD_Iunpcklps
| UD_Iunpcklpd
| UD_Iverr
| UD_Iverw
| UD_Ivmcall
| UD_Ivmclear
| UD_Ivmxon
| UD_Ivmptrld
| UD_Ivmptrst
| UD_Ivmlaunch
| UD_Ivmresume
| UD_Ivmxoff
| UD_Ivmread
| UD_Ivmwrite
| UD_Ivmrun
| UD_Ivmmcall
| UD_Ivmload
| UD_Ivmsave
| UD_Iwait
| UD_Iwbinvd
| UD_Iwrmsr
| UD_Ixadd
| UD_Ixchg
| UD_Ixgetbv
| UD_Ixlatb
| UD_Ixor
| UD_Ixorpd
| UD_Ixorps
| UD_Ixcryptecb
| UD_Ixcryptcbc
| UD_Ixcryptctr
| UD_Ixcryptcfb
| UD_Ixcryptofb
| UD_Ixrstor
| UD_Ixsave
| UD_Ixsetbv
| UD_Ixsha1
| UD_Ixsha256
| UD_Ixstore
| UD_Iaesdec
| UD_Iaesdeclast
| UD_Iaesenc
| UD_Iaesenclast
| UD_Iaesimc
| UD_Iaeskeygenassist
| UD_Ipclmulqdq
| UD_Igetsec
| UD_Imovdqa
| UD_Imaskmovdqu
| UD_Imovdq2q
| UD_Imovdqu
| UD_Imovq2dq
| UD_Ipaddq
| UD_Ipsubq
| UD_Ipmuludq
| UD_Ipshufhw
| UD_Ipshuflw
| UD_Ipshufd
| UD_Ipslldq
| UD_Ipsrldq
| UD_Ipunpckhqdq
| UD_Ipunpcklqdq
| UD_Iaddsubpd
| UD_Iaddsubps
| UD_Ihaddpd
| UD_Ihaddps
| UD_Ihsubpd
| UD_Ihsubps
| UD_Imovddup
| UD_Imovshdup
| UD_Imovsldup
| UD_Ipabsb
| UD_Ipabsw
| UD_Ipabsd
| UD_Ipshufb
| UD_Iphaddw
| UD_Iphaddd
| UD_Iphaddsw
| UD_Ipmaddubsw
| UD_Iphsubw
| UD_Iphsubd
| UD_Iphsubsw
| UD_Ipsignb
| UD_Ipsignd
| UD_Ipsignw
| UD_Ipmulhrsw
| UD_Ipalignr
| UD_Ipblendvb
| UD_Ipmuldq
| UD_Ipminsb
| UD_Ipminsd
| UD_Ipminuw
| UD_Ipminud
| UD_Ipmaxsb
| UD_Ipmaxsd
| UD_Ipmaxud
| UD_Ipmaxuw
| UD_Ipmulld
| UD_Iphminposuw
| UD_Iroundps
| UD_Iroundpd
| UD_Iroundss
| UD_Iroundsd
| UD_Iblendpd
| UD_Ipblendw
| UD_Iblendps
| UD_Iblendvpd
| UD_Iblendvps
| UD_Idpps
| UD_Idppd
| UD_Impsadbw
| UD_Iextractps
| UD_Iinsertps
| UD_Imovntdqa
| UD_Ipackusdw
| UD_Ipmovsxbw
| UD_Ipmovsxbd
| UD_Ipmovsxbq
| UD_Ipmovsxwd
| UD_Ipmovsxwq
| UD_Ipmovsxdq
| UD_Ipmovzxbw
| UD_Ipmovzxbd
| UD_Ipmovzxbq
| UD_Ipmovzxwd
| UD_Ipmovzxwq
| UD_Ipmovzxdq
| UD_Ipcmpeqq
| UD_Ipopcnt
| UD_Iptest
| UD_Ipcmpestri
| UD_Ipcmpestrm
| UD_Ipcmpgtq
| UD_Ipcmpistri
| UD_Ipcmpistrm
| UD_Imovbe
| UD_Icrc32
| UD_MAX_MNEMONIC_CODE.

(** The value of an enumerator: its position. *)
Definition mnemonic_value (c : ud_mnemonic_code) : Z :=
  match c with
  | UD_Iinvalid => 0
  | UD_I3dnow => 1
  | UD_Inone => 2
  | UD_Idb => 3
  | UD_Ipause => 4
  | UD_Iaaa => 5
  | UD_Iaad => 6
  | UD_Iaam => 7
  | UD_Iaas => 8
  | UD_Iadc => 9
  | UD_Iadd => 10
  | UD_Iaddpd => 11
  | UD_Iaddps => 12
  | UD_Iaddsd => 13
  | UD_Iaddss => 14
  | UD_Iand => 15
  | UD_Iandpd => 16
  | UD_Iandps => 17
  | UD_Iandnpd => 18
  | UD_Iandnps => 19
  | UD_Iarpl => 20
  | UD_Imovsxd => 21
  | UD_Ibound => 22
  | UD_Ibsf => 23
  | UD_Ibsr => 24
  | UD_Ibswap => 25
  | UD_Ibt => 26
  | UD_Ibtc => 27
  | UD_Ibtr => 28
  | UD_Ibts => 29
  | UD_Icall => 30
  | UD_Icbw => 31
  | UD_Icwde => 32
  | UD_Icdqe => 33
  | UD_Iclc => 34
  | UD_Icld => 35
  | UD_Iclflush => 36
  | UD_Iclgi => 37
  | UD_Icli => 38
  | UD_Iclts => 39
  | UD_Icmc => 40
  | UD_Icmovo => 41
  | UD_Icmovno => 42
  | UD_Icmovb => 43
  | UD_Icmovae => 44
  | UD_Icmovz => 45
  | UD_Icmovnz => 46
  | UD_Icmovbe => 47
  | UD_Icmova => 48
  | UD_Icmovs => 49
  | UD_Icmovns => 50
  | UD_Icmovp => 51
  | UD_Icmovnp => 52
  | UD_Icmovl => 53
  | UD_Icmovge => 54
  | UD_Icmovle => 55
  | UD_Icmovg => 56
  | UD_Icmp => 57
  | UD_Icmppd => 58
  | UD_Icmpps => 59
  | UD_Icmpsb => 60
  | UD_Icmpsw => 61
  | UD_Icmpsd => 62
  | UD_Icmpsq => 63
  | UD_Icmpss => 64
  | UD_Icmpxchg => 65
  | UD_Icmpxchg8b => 66
  | UD_Icmpxchg16b => 67
  | UD_Icomisd => 68
  | UD_Icomiss => 69
  | UD_Icpuid => 70
  | UD_Icvtdq2pd => 71
  | UD_Icvtdq2ps => 72
  | UD_Icvtpd2dq => 73
  | UD_Icvtpd2pi => 74
  | UD_Icvtpd2ps => 75
  | UD_Icvtpi2ps => 76
  | UD_Icvtpi2pd => 77
  | UD_Icvtps2dq => 78
  | UD_Icvtps2pi => 79
  | UD_Icvtps2pd => 80
  | UD_Icvtsd2si => 81
  | UD_Icvtsd2ss => 82
  | UD_Icvtsi2ss => 83
  | UD_Icvtss2si => 84
  | UD_Icvtss2sd => 85
  | UD_Icvttpd2pi => 86
  | UD_Icvttpd2dq => 87
  | UD_Icvttps2dq => 88
  | UD_Icvttps2pi => 89
  | UD_Icvttsd2si => 90
  | UD_Icvtsi2sd => 91
  | UD_Icvttss2si => 92
  | UD_Icwd => 93
  | UD_Icdq => 94
  | UD_Icqo => 95
  | UD_Idaa => 96
  | UD_Idas => 97
  | UD_Idec => 98
  | UD_Idiv => 99
  | UD_Idivpd => 100
  | UD_Idivps => 101
  | UD_Idivsd => 102
  | UD_Idivss => 103
  | UD_Iemms => 104
  | UD_Ienter => 105
  | UD_If2xm1 => 106
  | UD_Ifabs => 107
  | UD_Ifadd => 108
  | UD_Ifaddp => 109
  | UD_Ifbld => 110
  | UD_Ifbstp => 111
  | UD_Ifchs => 112
  | UD_Ifclex => 113
  | UD_Ifcmovb => 114
  | UD_Ifcmove => 115
  | UD_Ifcmovbe => 116
  | UD_Ifcmovu => 117
  | UD_Ifcmovnb => 118
  | UD_Ifcmovne => 119
  | UD_Ifcmovnbe => 120
  | UD_Ifcmovnu => 121
  | UD_Ifucomi => 122
  | UD_Ifcom => 123
  | UD_Ifcom2 => 124
  | UD_Ifcomp3 => 125
  | UD_Ifcomi => 126
  | UD_Ifucomip => 127
  | UD_Ifcomip => 128
  | UD_Ifcomp => 129
  | UD_Ifcomp5 => 130
  | UD_Ifcompp => 131
  | UD_Ifcos => 132
  | UD_Ifdecstp => 133
  | UD_Ifdiv => 134
  | UD_Ifdivp => 135
  | UD_Ifdivr => 136
  | UD_Ifdivrp => 137
  | UD_Ifemms => 138
  | UD_Iffree => 139
  | UD_Iffreep => 140
  | UD_Ificom => 141
  | UD_Ificomp => 142
  | UD_Ifild => 143
  | UD_Ifincstp => 144
  | UD_Ifninit => 145
  | UD_Ifiadd => 146
  | UD_Ifidivr => 147
  | UD_Ifidiv => 148
  | UD_Ifisub => 149
  | UD_Ifisubr => 150
  | UD_Ifist => 151
  | UD_Ifistp => 152
  | UD_Ifisttp => 153
  | UD_Ifld => 154
  | UD_Ifld1 => 155
  | UD_Ifldl2t => 156
  | UD_Ifldl2e => 157
  | UD_Ifldpi => 158
  | UD_Ifldlg2 => 159
  | UD_Ifldln2 => 160
  | UD_Ifldz => 161
  | UD_Ifldcw => 162
  | UD_Ifldenv => 163
  | UD_Ifmul => 164
  | UD_Ifmulp => 165
  | UD_Ifimul => 166
  | UD_Ifnop => 167
  | UD_Ifpatan => 168
  | UD_Ifprem => 169
  | UD_Ifprem1 => 170
  | UD_Ifptan => 171
  | UD_Ifrndint => 172
  | UD_Ifrstor => 173
  | UD_Ifnsave => 174
  | UD_Ifscale => 175
  | UD_Ifsin => 176
  | UD_Ifsincos => 177
  | UD_Ifsqrt => 178
  | UD_Ifstp => 179
  | UD_Ifstp1 => 180
  | UD_Ifstp8 => 181
  | UD_Ifstp9 => 182
  | UD_Ifst => 183
  | UD_Ifnstcw => 184
  | UD_Ifnstenv => 185
  | UD_Ifnstsw => 186
  | UD_Ifsub => 187
  | UD_Ifsubp => 188
  | UD_Ifsubr => 189
  | UD_Ifsubrp => 190
  | UD_Iftst => 191
  | UD_Ifucom => 192
  | UD_Ifucomp => 193
  | UD_Ifucompp => 194
  | UD_Ifxam => 195
  | UD_Ifxch => 196
  | UD_Ifxch4 => 197
  | UD_Ifxch7 => 198
  | UD_Ifxrstor => 199
  | UD_Ifxsave => 200
  | UD_Ifxtract => 201
  | UD_Ifyl2x => 202
  | UD_Ifyl2xp1 => 203
  | UD_Ihlt => 204
  | UD_Iidiv => 205
  | UD_Iin => 206
  | UD_Iimul => 207
  | UD_Iinc => 208
  | UD_Iinsb => 209
  | UD_Iinsw => 210
  | UD_Iinsd => 211
  | UD_Iint1 => 212
  | UD_Iint3 => 213
  | UD_Iint => 214
  | UD_Iinto => 215
  | UD_Iinvd => 216
  | UD_Iinvept => 217
  | UD_Iinvlpg => 218
  | UD_Iinvlpga => 219
  | UD_Iinvvpid => 220
  | UD_Iiretw => 221
  | UD_Iiretd => 222
  | UD_Iiretq => 223
  | UD_Ijo => 224
  | UD_Ijno => 225
  | UD_Ijb => 226
  | UD_Ijae => 227
  | UD_Ijz => 228
  | UD_Ijnz => 229
  | UD_Ijbe => 230
  | UD_Ija => 231
  | UD_Ijs => 232
  | UD_Ijns => 233
  | UD_Ijp => 234
  | UD_Ijnp => 235
  | UD_Ijl => 236
  | UD_Ijge => 237
  | UD_Ijle => 238
  | UD_Ijg => 239
  | UD_Ijcxz => 240
  | UD_Ijecxz => 241
  | UD_Ijrcxz => 242
  | UD_Ijmp => 243
  | UD_Ilahf => 244
  | UD_Ilar => 245
  | UD_Ilddqu => 246
  | UD_Ildmxcsr => 247
  | UD_Ilds => 248
  | UD_Ilea => 249
  | UD_Iles => 250
  | UD_Ilfs => 251
  | UD_Ilgs => 252
  | UD_Ilidt => 253
  | UD_Ilss => 254
  | UD_Ileave => 255
  | UD_Ilfence => 256
  | UD_Ilgdt => 257
  | UD_Illdt => 258
  | UD_Ilmsw => 259
  | UD_Ilock => 260
  | UD_Ilodsb => 261
  | UD_Ilodsw => 262
  | UD_Ilodsd => 263
  | UD_Ilodsq => 264
  | UD_Iloopne => 265
  | UD_Iloope => 266
  | UD_Iloop => 267
  | UD_Ilsl => 268
  | UD_Iltr => 269
  | UD_Imaskmovq => 270
  | UD_Imaxpd => 271
  | UD_Imaxps => 272
  | UD_Imaxsd => 273
  | UD_Imaxss => 274
  | UD_Imfence => 275
  | UD_Iminpd => 276
  | UD_Iminps => 277
  | UD_Iminsd => 278
  | UD_Iminss => 279
  | UD_Imonitor => 280
  | UD_Imontmul => 281
  | UD_Imov => 282
  | UD_Imovapd => 283
  | UD_Imovaps => 284
  | UD_Imovd => 285
  | UD_Imovhpd => 286
  | UD_Imovhps => 287
  | UD_Imovlhps => 288
  | UD_Imovlpd => 289
  | UD_Imovlps => 290
  | UD_Imovhlps => 291
  | UD_Imovmskpd => 292
  | UD_Imovmskps => 293
  | UD_Imovntdq => 294
  | UD_Imovnti => 295
  | UD_Imovntpd => 296
  | UD_Imovntps => 297
  | UD_Imovntq => 298
  | UD_Imovq => 299
  | UD_Imovsb => 300
  | UD_Imovsw => 301
  | UD_Imovsd => 302
  | UD_Imovsq => 303
  | UD_Imovss => 304
  | UD_Imovsx => 305
  | UD_Imovupd => 306
  | UD_Imovups => 307
  | UD_Imovzx => 308
  | UD_Imul => 309
  | UD_Imulpd => 310
  | UD_Imulps => 311
  | UD_Imulsd => 312
  | UD_Imulss => 313
  | UD_Imwait => 314
  | UD_Ineg => 315
  | UD_Inop => 316
  | UD_Inot => 317
  | UD_Ior => 318
  | UD_Iorpd => 319
  | UD_Iorps => 320
  | UD_Iout => 321
  | UD_Ioutsb => 322
  | UD_Ioutsw => 323
  | UD_Ioutsd => 324
  | UD_Ipacksswb => 325
  | UD_Ipackssdw => 326
  | UD_Ipackuswb => 327
  | UD_Ipaddb => 328
  | UD_Ipaddw => 329
  | UD_Ipaddd => 330
  | UD_Ipaddsb => 331
  | UD_Ipaddsw => 332
  | UD_Ipaddusb => 333
  | UD_Ipaddusw => 334
  | UD_Ipand => 335
  | UD_Ipandn => 336
  | UD_Ipavgb => 337
  | UD_Ipavgw => 338
  | UD_Ipcmpeqb => 339
  | UD_Ipcmpeqw => 340
  | UD_Ipcmpeqd => 341
  | UD_Ipcmpgtb => 342
  | UD_Ipcmpgtw => 343
  | UD_Ipcmpgtd => 344
  | UD_Ipextrb => 345
  | UD_Ipextrd => 346
  | UD_Ipextrq => 347
  | UD_Ipextrw => 348
  | UD_Ipinsrb => 349
  | UD_Ipinsrw => 350
  | UD_Ipinsrd => 351
  | UD_Ipinsrq => 352
  | UD_Ipmaddwd => 353
  | UD_Ipmaxsw => 354
  | UD_Ipmaxub => 355
  | UD_Ipminsw => 356
  | UD_Ipminub => 357
  | UD_Ipmovmskb => 358
  | UD_Ipmulhuw => 359
  | UD_Ipmulhw => 360
  | UD_Ipmullw => 361
  | UD_Ipop => 362
  | UD_Ipopa => 363
  | UD_Ipopad => 364
  | UD_Ipopfw => 365
  | UD_Ipopfd => 366
  | UD_Ipopfq => 367
  | UD_Ipor => 368
  | UD_Iprefetch => 369
  | UD_Iprefetchnta => 370
  | UD_Iprefetcht0 => 371
  | UD_Iprefetcht1 => 372
  | UD_Iprefetcht2 => 373
  | UD_Ipsadbw => 374
  | UD_Ipshufw => 375
  | UD_Ipsllw => 376
  | UD_Ipslld => 377
  | UD_Ipsllq => 378
  | UD_Ipsraw => 379
  | UD_Ipsrad => 380
  | UD_Ipsrlw => 381
  | UD_Ipsrld => 382
  | UD_Ipsrlq => 383
  | UD_Ipsubb => 384
  | UD_Ipsubw => 385
  | UD_Ipsubd => 386
  | UD_Ipsubsb => 387
  | UD_Ipsubsw => 388
  | UD_Ipsubusb => 389
  | UD_Ipsubusw => 390
  | UD_Ipunpckhbw => 391
  | UD_Ipunpckhwd => 392
  | UD_Ipunpckhdq => 393
  | UD_Ipunpcklbw => 394
  | UD_Ipunpcklwd => 395
  | UD_Ipunpckldq => 396
  | UD_Ipi2fw => 397
  | UD_Ipi2fd => 398
  | UD_Ipf2iw => 399
  | UD_Ipf2id => 400
  | UD_Ipfnacc => 401
  | UD_Ipfpnacc => 402
  | UD_Ipfcmpge => 403
  | UD_Ipfmin => 404
  | UD_Ipfrcp => 405
  | UD_Ipfrsqrt => 406
  | UD_Ipfsub => 407
  | UD_Ipfadd => 408
  | UD_Ipfcmpgt => 409
  | UD_Ipfmax => 410
  | UD_Ipfrcpit1 => 411
  | UD_Ipfrsqit1 => 412
  | UD_Ipfsubr => 413
  | UD_Ipfacc => 414
  | UD_Ipfcmpeq => 415
  | UD_Ipfmul => 416
  | UD_Ipfrcpit2 => 417
  | UD_Ipmulhrw => 418
  | UD_Ipswapd => 419
  | UD_Ipavgusb => 420
  | UD_Ipush => 421
  | UD_Ipusha => 422
  | UD_Ipushad => 423
  | UD_Ipushfw => 424
  | UD_Ipushfd => 425
  | UD_Ipushfq => 426
  | UD_Ipxor => 427
  | UD_Ircl => 428
  | UD_Ircr => 429
  | UD_Irol => 430
  | UD_Iror => 431
  | UD_Ircpps => 432
  | UD_Ircpss => 433
  | UD_Irdmsr => 434
  | UD_Irdpmc => 435
  | UD_Irdtsc => 436
  | UD_Irdtscp => 437
  | UD_Irepne => 438
  | UD_Irep => 439
  | UD_Iret => 440
  | UD_Iretf => 441
  | UD_Irsm => 442
  | UD_Irsqrtps => 443
  | UD_Irsqrtss => 444
  | UD_Isahf => 445
  | UD_Isalc => 446
  | UD_Isar => 447
  | UD_Ishl => 448
  | UD_Ishr => 449
  | UD_Isbb => 450
  | UD_Iscasb => 451
  | UD_Iscasw => 452
  | UD_Iscasd => 453
  | UD_Iscasq => 454
  | UD_Iseto => 455
  | UD_Isetno => 456
  | UD_Isetb => 457
  | UD_Isetae => 458
  | UD_Isetz => 459
  | UD_Isetnz => 460
  | UD_Isetbe => 461
  | UD_Iseta => 462
  | UD_Isets => 463
  | UD_Isetns => 464
  | UD_Isetp => 465
  | UD_Isetnp => 466
  | UD_Isetl => 467
  | UD_Isetge => 468
  | UD_Isetle => 469
  | UD_Isetg => 470
  | UD_Isfence => 471
  | UD_Isgdt => 472
  | UD_Ishld => 473
  | UD_Ishrd => 474
  | UD_Ishufpd => 475
  | UD_Ishufps => 476
  | UD_Isidt => 477
  | UD_Isldt => 478
  | UD_Ismsw => 479
  | UD_Isqrtps => 480
  | UD_Isqrtpd => 481
  | UD_Isqrtsd => 482
  | UD_Isqrtss => 483
  | UD_Istc => 484
  | UD_Istd => 485
  | UD_Istgi => 486
  | UD_Isti => 487
  | UD_Iskinit => 488
  | UD_Istmxcsr => 489
  | UD_Istosb => 490
  | UD_Istosw => 491
  | UD_Istosd => 492
  | UD_Istosq => 493
  | UD_Istr => 494
  | UD_Isub => 495
  | UD_Isubpd => 496
  | UD_Isubps => 497
  | UD_Isubsd => 498
  | UD_Isubss => 499
  | UD_Iswapgs => 500
  | UD_Isyscall => 501
  | UD_Isysenter => 502
  | UD_Isysexit => 503
  | UD_Isysret => 504
  | UD_Itest => 505
  | UD_Iucomisd => 506
  | UD_Iucomiss => 507
  | UD_Iud2 => 508
  | UD_Iunpckhpd => 509
  | UD_Iunpckhps => 510
  | UD_Iunpcklps => 511
  | UD_Iunpcklpd => 512
  | UD_Iverr => 513
  | UD_Iverw => 514
  | UD_Ivmcall => 515
  | UD_Ivmclear => 516
  | UD_Ivmxon => 517
  | UD_Ivmptrld => 518
  | UD_Ivmptrst => 519
  | UD_Ivmlaunch => 520
  | UD_Ivmresume => 521
  | UD_Ivmxoff => 522
  | UD_Ivmread => 523
  | UD_Ivmwrite => 524
  | UD_Ivmrun => 525
  | UD_Ivmmcall => 526
  | UD_Ivmload => 527
  | UD_Ivmsave => 528
  | UD_Iwait => 529
  | UD_Iwbinvd => 530
  | UD_Iwrmsr => 531
  | UD_Ixadd => 532
  | UD_Ixchg => 533
  | UD_Ixgetbv => 534
  | UD_Ixlatb => 535
  | UD_Ixor => 536
  | UD_Ixorpd => 537
  | UD_Ixorps => 538
  | UD_Ixcryptecb => 539
  | UD_Ixcryptcbc => 540
  | UD_Ixcryptctr => 541
  | UD_Ixcryptcfb => 542
  | UD_Ixcryptofb => 543
  | UD_Ixrstor => 544
  | UD_Ixsave => 545
  | UD_Ixsetbv => 546
  | UD_Ixsha1 => 547
  | UD_Ixsha256 => 548
  | UD_Ixstore => 549
  | UD_Iaesdec => 550
  | UD_Iaesdeclast => 551
  | UD_Iaesenc => 552
  | UD_Iaesenclast => 553
  | UD_Iaesimc => 554
  | UD_Iaeskeygenassist => 555
  | UD_Ipclmulqdq => 556
  | UD_Igetsec => 557
  | UD_Imovdqa => 558
  | UD_Imaskmovdqu => 559
  | UD_Imovdq2q => 560
  | UD_Imovdqu => 561
  | UD_Imovq2dq => 562
  | UD_Ipaddq => 563
  | UD_Ipsubq => 564
  | UD_Ipmuludq => 565
  | UD_Ipshufhw => 566
  | UD_Ipshuflw => 567
  | UD_Ipshufd => 568
  | UD_Ipslldq => 569
  | UD_Ipsrldq => 570
  | UD_Ipunpckhqdq => 571
  | UD_Ipunpcklqdq => 572
  | UD_Iaddsubpd => 573
  | UD_Iaddsubps => 574
  | UD_Ihaddpd => 575
  | UD_Ihaddps => 576
  | UD_Ihsubpd => 577
  | UD_Ihsubps => 578
  | UD_Imovddup => 579
  | UD_Imovshdup => 580
  | UD_Imovsldup => 581
  | UD_Ipabsb => 582
  | UD_Ipabsw => 583
  | UD_Ipabsd => 584
  | UD_Ipshufb => 585
  | UD_Iphaddw => 586
  | UD_Iphaddd => 587
  | UD_Iphaddsw => 588
  | UD_Ipmaddubsw => 589
  | UD_Iphsubw => 590
  | UD_Iphsubd => 591
  | UD_Iphsubsw => 592
  | UD_Ipsignb => 593
  | UD_Ipsignd => 594
  | UD_Ipsignw => 595
  | UD_Ipmulhrsw => 596
  | UD_Ipalignr => 597
  | UD_Ipblendvb => 598
  | UD_Ipmuldq => 599
  | UD_Ipminsb => 600
  | UD_Ipminsd => 601
  | UD_Ipminuw => 602
  | UD_Ipminud => 603
  | UD_Ipmaxsb => 604
  | UD_Ipmaxsd => 605
  | UD_Ipmaxud => 606
  | UD_Ipmaxuw => 607
  | UD_Ipmulld => 608
  | UD_Iphminposuw => 609
  | UD_Iroundps => 610
  | UD_Iroundpd => 611
  | UD_Iroundss => 612
  | UD_Iroundsd => 613
  | UD_Iblendpd => 614
  | UD_Ipblendw => 615
  | UD_Iblendps => 616
  | UD_Iblendvpd => 617
  | UD_Iblendvps => 618
  | UD_Idpps => 619
  | UD_Idppd => 620
  | UD_Impsadbw => 621
  | UD_Iextractps => 622
  | UD_Iinsertps => 623
  | UD_Imovntdqa => 624
  | UD_Ipackusdw => 625
  | UD_Ipmovsxbw => 626
  | UD_Ipmovsxbd => 627
  | UD_Ipmovsxbq => 628
  | UD_Ipmovsxwd => 629
  | UD_Ipmovsxwq => 630
  | UD_Ipmovsxdq => 631
  | UD_Ipmovzxbw => 632
  | UD_Ipmovzxbd => 633
  | UD_Ipmovzxbq => 634
  | UD_Ipmovzxwd => 635
  | UD_Ipmovzxwq => 636
  | UD_Ipmovzxdq => 637
  | UD_Ipcmpeqq => 638
  | UD_Ipopcnt => 639
  | UD_Iptest => 640
  | UD_Ipcmpestri => 641
  | UD_Ipcmpestrm => 642
  | UD_Ipcmpgtq => 643
  | UD_Ipcmpistri => 644
  | UD_Ipcmpistrm => 645
  | UD_Imovbe => 646
  | UD_Icrc32 => 647
  | UD_MAX_MNEMONIC_CODE => 648
  end.

Definition mnemonic_eqb (c d : ud_mnemonic_code) : bool := mnemonic_value c =? mnemonic_value d.

(** ** Entries *)

Record ud_itab_entry_operand := ItabOperand { operand_type : Z; operand_size : Z }.

Record ud_itab_entry := ItabEntry {
  itab_mnemonic : ud_mnemonic_code;
  operand1 : ud_itab_entry_operand;
  operand2 : ud_itab_entry_operand;
  operand3 : ud_itab_entry_operand;
  itab_prefix : Z
}.

Record ud_lookup_table_list_entry := LookupEntry {
  table : list Z;
  table_type : ud_table_type;
  meta : string
}.

Definition GROUP (n : Z) : Z := Z.lor 0x8000 n.

(** ** Opcode tables *)

Definition ud_itab__1 : list Z :=
  [7; 0].

Definition ud_itab__2 : list Z :=
  [8; 0].

Definition ud_itab__3 : list Z :=
  [15; 0].

Definition ud_itab__6 : list Z :=
  [16; 0; 0; 0].

Definition ud_itab__7 : list Z :=
  [17; 0; 0; 0].

Definition ud_itab__8 : list Z :=
  [18; 0; 0; 0].

Definition ud_itab__9 : list Z :=
  [19; 0; 0; 0].

Definition ud_itab__10 : list Z :=
  [20; 0; 0; 0].

Definition ud_itab__11 : list Z :=
  [21; 0; 0; 0].

Definition ud_itab__5 : list Z :=
  [GROUP 6; GROUP 7; GROUP 8; GROUP 9; GROUP 10; GROUP 11; 0; 0].

Definition ud_itab__15 : list Z :=
  [22; 0].

Definition ud_itab__14 : list Z :=
  [GROUP 15; 0; 0; 0].

Definition ud_itab__17 : list Z :=
  [23; 0].

Definition ud_itab__16 : list Z :=
  [GROUP 17; 0; 0; 0].

Definition ud_itab__19 : list Z :=
  [24; 0].

Definition ud_itab__18 : list Z :=
  [GROUP 19; 0; 0; 0].

Definition ud_itab__21 : list Z :=
  [25; 0].

Definition ud_itab__20 : list Z :=
  [GROUP 21; 0; 0; 0].

Definition ud_itab__23 : list Z :=
  [26; 0].

Definition ud_itab__22 : list Z :=
  [GROUP 23; 0; 0; 0].

Definition ud_itab__25 : list Z :=
  [27; 0].

Definition ud_itab__24 : list Z :=
  [GROUP 25; 0; 0; 0].

Definition ud_itab__27 : list Z :=
  [28; 0].

Definition ud_itab__26 : list Z :=
  [GROUP 27; 0; 0; 0].

Definition ud_itab__13 : list Z :=
  [GROUP 14; GROUP 16; GROUP 18; GROUP 20; GROUP 22; 0; GROUP 24; GROUP 26].

Definition ud_itab__32 : list Z :=
  [0; 29; 0].

Definition ud_itab__31 : list Z :=
  [0; GROUP 32].

Definition ud_itab__30 : list Z :=
  [GROUP 31; 0; 0; 0].

Definition ud_itab__35 : list Z :=
  [0; 30; 0].

Definition ud_itab__34 : list Z :=
  [0; GROUP 35].

Definition ud_itab__33 : list Z :=
  [GROUP 34; 0; 0; 0].

Definition ud_itab__38 : list Z :=
  [0; 31; 0].

Definition ud_itab__37 : list Z :=
  [0; GROUP 38].

Definition ud_itab__36 : list Z :=
  [GROUP 37; 0; 0; 0].

Definition ud_itab__41 : list Z :=
  [0; 32; 0].

Definition ud_itab__40 : list Z :=
  [0; GROUP 41].

Definition ud_itab__39 : list Z :=
  [GROUP 40; 0; 0; 0].

Definition ud_itab__29 : list Z :=
  [0; GROUP 30; GROUP 33; GROUP 36; GROUP 39; 0; 0; 0].

Definition ud_itab__44 : list Z :=
  [0; 33].

Definition ud_itab__43 : list Z :=
  [GROUP 44; 0; 0; 0].

Definition ud_itab__46 : list Z :=
  [0; 34].

Definition ud_itab__45 : list Z :=
  [GROUP 46; 0; 0; 0].

Definition ud_itab__42 : list Z :=
  [GROUP 43; GROUP 45; 0; 0; 0; 0; 0; 0].

Definition ud_itab__49 : list Z :=
  [0; 35].

Definition ud_itab__48 : list Z :=
  [GROUP 49; 0; 0; 0].

Definition ud_itab__51 : list Z :=
  [0; 36].

Definition ud_itab__50 : list Z :=
  [GROUP 51; 0; 0; 0].

Definition ud_itab__47 : list Z :=
  [GROUP 48; GROUP 50; 0; 0; 0; 0; 0; 0].

Definition ud_itab__55 : list Z :=
  [37; 0; 0].

Definition ud_itab__54 : list Z :=
  [0; GROUP 55].

Definition ud_itab__53 : list Z :=
  [GROUP 54; 0; 0; 0].

Definition ud_itab__58 : list Z :=
  [38; 0; 0].

Definition ud_itab__57 : list Z :=
  [0; GROUP 58].

Definition ud_itab__56 : list Z :=
  [GROUP 57; 0; 0; 0].

Definition ud_itab__61 : list Z :=
  [39; 0; 0].

Definition ud_itab__60 : list Z :=
  [0; GROUP 61].

Definition ud_itab__59 : list Z :=
  [GROUP 60; 0; 0; 0].

Definition ud_itab__64 : list Z :=
  [40; 0; 0].

Definition ud_itab__63 : list Z :=
  [0; GROUP 64].

Definition ud_itab__62 : list Z :=
  [GROUP 63; 0; 0; 0].

Definition ud_itab__67 : list Z :=
  [41; 0; 0].

Definition ud_itab__66 : list Z :=
  [0; GROUP 67].

Definition ud_itab__65 : list Z :=
  [GROUP 66; 0; 0; 0].

Definition ud_itab__70 : list Z :=
  [42; 0; 0].

Definition ud_itab__69 : list Z :=
  [0; GROUP 70].

Definition ud_itab__68 : list Z :=
  [GROUP 69; 0; 0; 0].

Definition ud_itab__73 : list Z :=
  [43; 0; 0].

Definition ud_itab__72 : list Z :=
  [0; GROUP 73].

Definition ud_itab__71 : list Z :=
  [GROUP 72; 0; 0; 0].

Definition ud_itab__76 : list Z :=
  [44; 0; 0].

Definition ud_itab__75 : list Z :=
  [0; GROUP 76].

Definition ud_itab__74 : list Z :=
  [GROUP 75; 0; 0; 0].

Definition ud_itab__52 : list Z :=
  [GROUP 53; GROUP 56; GROUP 59; GROUP 62; GROUP 65; GROUP 68; GROUP 71; GROUP 74].

Definition ud_itab__78 : list Z :=
  [0; 45].

Definition ud_itab__77 : list Z :=
  [GROUP 78; 0; 0; 0].

Definition ud_itab__80 : list Z :=
  [0; 46].

Definition ud_itab__79 : list Z :=
  [GROUP 80; 0; 0; 0].

Definition ud_itab__83 : list Z :=
  [0; 47].

Definition ud_itab__82 : list Z :=
  [GROUP 83; 0; 0; 0].

Definition ud_itab__86 : list Z :=
  [48; 0; 0].

Definition ud_itab__85 : list Z :=
  [0; GROUP 86].

Definition ud_itab__84 : list Z :=
  [GROUP 85; 0; 0; 0].

Definition ud_itab__81 : list Z :=
  [GROUP 82; GROUP 84; 0; 0; 0; 0; 0; 0].

Definition ud_itab__28 : list Z :=
  [GROUP 29; GROUP 42; GROUP 47; GROUP 52; GROUP 77; 0; GROUP 79; GROUP 81].

Definition ud_itab__12 : list Z :=
  [GROUP 13; GROUP 28].

Definition ud_itab__87 : list Z :=
  [49; 0; 0; 0].

Definition ud_itab__88 : list Z :=
  [50; 0; 0; 0].

Definition ud_itab__89 : list Z :=
  [51; 0; 0; 0].

Definition ud_itab__90 : list Z :=
  [52; 0; 0; 0].

Definition ud_itab__91 : list Z :=
  [53; 0; 0; 0].

Definition ud_itab__92 : list Z :=
  [54; 0; 0; 0].

Definition ud_itab__93 : list Z :=
  [55; 0; 0; 0].

Definition ud_itab__94 : list Z :=
  [56; 0; 0; 0].

Definition ud_itab__96 : list Z :=
  [57; 0; 0; 0].

Definition ud_itab__97 : list Z :=
  [58; 0; 0; 0].

Definition ud_itab__98 : list Z :=
  [59; 0; 0; 0].

Definition ud_itab__99 : list Z :=
  [60; 0; 0; 0].

Definition ud_itab__100 : list Z :=
  [61; 0; 0; 0].

Definition ud_itab__101 : list Z :=
  [62; 0; 0; 0].

Definition ud_itab__102 : list Z :=
  [63; 0; 0; 0].

Definition ud_itab__103 : list Z :=
  [64; 0; 0; 0].

Definition ud_itab__95 : list Z :=
  [GROUP 96; GROUP 97; GROUP 98; GROUP 99; GROUP 100; GROUP 101; GROUP 102; GROUP 103].

Definition ud_itab__104 : list Z :=
  [65; 0; 0; 0].

Definition ud_itab__105 : list Z :=
  [0; 0; 0; 0; 0; 0; 0; 0; 0; 0; 0; 0; 66; 67; 0; 0; 0; 0; 0; 0; 0; 0; 0; 0; 0; 0; 0; 0; 68; 69; 0;
   0; 0; 0; 0; 0; 0; 0; 0; 0; 0; 0; 0; 0; 0; 0; 0; 0; 0; 0; 0; 0; 0; 0; 0; 0; 0; 0; 0; 0; 0; 0; 0;
   0; 0; 0; 0; 0; 0; 0; 0; 0; 0; 0; 0; 0; 0; 0; 0; 0; 0; 0; 0; 0; 0; 0; 0; 0; 0; 0; 0; 0; 0; 0; 0;
   0; 0; 0; 0; 0; 0; 0; 0; 0; 0; 0; 0; 0; 0; 0; 0; 0; 0; 0; 0; 0; 0; 0; 0; 0; 0; 0; 0; 0; 0; 0; 0;
   0; 0; 0; 0; 0; 0; 0; 0; 0; 0; 0; 70; 0; 0; 0; 71; 0; 72; 0; 0; 0; 73; 0; 74; 75; 0; 0; 76; 0; 0;
   0; 77; 0; 78; 0; 0; 0; 79; 0; 80; 81; 0; 0; 82; 0; 0; 0; 83; 0; 84; 0; 0; 0; 85; 0; 86; 87; 0;
   0; 0; 88; 0; 0; 0; 89; 0; 0; 0; 0; 0; 0; 0; 0; 0; 0; 0; 0; 0; 0; 0; 0; 0; 0; 0; 0; 0; 0; 0; 0;
   0; 0; 0; 0; 0; 0; 0; 0; 0; 0; 0; 0; 0; 0; 0; 0; 0; 0; 0; 0; 0; 0; 0; 0; 0; 0; 0; 0; 0; 0; 0; 0;
   0; 0; 0; 0; 0; 0; 0; 0].

Definition ud_itab__106 : list Z :=
  [90; 91; 92; 93].

Definition ud_itab__107 : list Z :=
  [94; 95; 96; 97].

Definition ud_itab__110 : list Z :=
  [98; 0].

Definition ud_itab__111 : list Z :=
  [99; 0].

Definition ud_itab__112 : list Z :=
  [100; 0].

Definition ud_itab__113 : list Z :=
  [101; 0].

Definition ud_itab__109 : list Z :=
  [GROUP 110; GROUP 111; GROUP 112; GROUP 113].

Definition ud_itab__115 : list Z :=
  [0; 102].

Definition ud_itab__116 : list Z :=
  [0; 103].

Definition ud_itab__117 : list Z :=
  [0; 104].

Definition ud_itab__114 : list Z :=
  [GROUP 115; GROUP 116; GROUP 117; 0].

Definition ud_itab__108 : list Z :=
  [GROUP 109; GROUP 114].

Definition ud_itab__118 : list Z :=
  [105; 0; 0; 106].

Definition ud_itab__119 : list Z :=
  [107; 0; 0; 108].

Definition ud_itab__120 : list Z :=
  [109; 0; 0; 110].

Definition ud_itab__123 : list Z :=
  [111; 0].

Definition ud_itab__124 : list Z :=
  [112; 0].

Definition ud_itab__125 : list Z :=
  [113; 0].

Definition ud_itab__122 : list Z :=
  [GROUP 123; 0; GROUP 124; GROUP 125].

Definition ud_itab__127 : list Z :=
  [0; 114].

Definition ud_itab__128 : list Z :=
  [0; 115].

Definition ud_itab__126 : list Z :=
  [GROUP 127; 0; GROUP 128; 0].

Definition ud_itab__121 : list Z :=
  [GROUP 122; GROUP 126].

Definition ud_itab__129 : list Z :=
  [116; 0; 0; 117].

Definition ud_itab__131 : list Z :=
  [118; 0; 0; 0].

Definition ud_itab__132 : list Z :=
  [119; 0; 0; 0].

Definition ud_itab__133 : list Z :=
  [120; 0; 0; 0].

Definition ud_itab__134 : list Z :=
  [121; 0; 0; 0].

Definition ud_itab__130 : list Z :=
  [GROUP 131; GROUP 132; GROUP 133; GROUP 134; 0; 0; 0; 0].

Definition ud_itab__135 : list Z :=
  [122; 0; 0; 0].

Definition ud_itab__136 : list Z :=
  [123; 0; 0; 0].

Definition ud_itab__137 : list Z :=
  [124; 0; 0; 0].

Definition ud_itab__138 : list Z :=
  [125; 0; 0; 0].

Definition ud_itab__139 : list Z :=
  [126; 0; 0; 0].

Definition ud_itab__140 : list Z :=
  [127; 0; 0; 0].

Definition ud_itab__141 : list Z :=
  [128; 0; 0; 0].

Definition ud_itab__142 : list Z :=
  [129; 0; 0; 0].

Definition ud_itab__143 : list Z :=
  [130; 0; 0; 0].

Definition ud_itab__144 : list Z :=
  [131; 0; 0; 0].

Definition ud_itab__145 : list Z :=
  [132; 0; 0; 0].

Definition ud_itab__146 : list Z :=
  [133; 0; 0; 134].

Definition ud_itab__147 : list Z :=
  [135; 0; 0; 136].

Definition ud_itab__148 : list Z :=
  [137; 138; 139; 140].

Definition ud_itab__149 : list Z :=
  [141; 0; 0; 142].

Definition ud_itab__150 : list Z :=
  [143; 144; 145; 146].

Definition ud_itab__151 : list Z :=
  [147; 148; 149; 150].

Definition ud_itab__152 : list Z :=
  [151; 0; 0; 152].

Definition ud_itab__153 : list Z :=
  [153; 0; 0; 154].

Definition ud_itab__154 : list Z :=
  [155; 0; 0; 0].

Definition ud_itab__155 : list Z :=
  [156; 0; 0; 0].

Definition ud_itab__156 : list Z :=
  [157; 0; 0; 0].

Definition ud_itab__157 : list Z :=
  [158; 0; 0; 0].

Definition ud_itab__160 : list Z :=
  [0; 160; 0].

Definition ud_itab__159 : list Z :=
  [159; GROUP 160].

Definition ud_itab__158 : list Z :=
  [GROUP 159; 0; 0; 0].

Definition ud_itab__163 : list Z :=
  [0; 162; 0].

Definition ud_itab__162 : list Z :=
  [161; GROUP 163].

Definition ud_itab__161 : list Z :=
  [GROUP 162; 0; 0; 0].

Definition ud_itab__164 : list Z :=
  [163; 0; 0; 0].

Definition ud_itab__166 : list Z :=
  [164; 0; 0; 165].

Definition ud_itab__167 : list Z :=
  [166; 0; 0; 167].

Definition ud_itab__168 : list Z :=
  [168; 0; 0; 169].

Definition ud_itab__169 : list Z :=
  [170; 0; 0; 171].

Definition ud_itab__170 : list Z :=
  [172; 0; 0; 173].

Definition ud_itab__171 : list Z :=
  [174; 0; 0; 175].

Definition ud_itab__172 : list Z :=
  [176; 0; 0; 177].

Definition ud_itab__173 : list Z :=
  [178; 0; 0; 179].

Definition ud_itab__174 : list Z :=
  [180; 0; 0; 181].

Definition ud_itab__175 : list Z :=
  [182; 0; 0; 183].

Definition ud_itab__176 : list Z :=
  [184; 0; 0; 185].

Definition ud_itab__177 : list Z :=
  [186; 0; 0; 187].

Definition ud_itab__178 : list Z :=
  [0; 0; 0; 188].

Definition ud_itab__179 : list Z :=
  [0; 0; 0; 189].

Definition ud_itab__180 : list Z :=
  [0; 0; 0; 190].

Definition ud_itab__181 : list Z :=
  [0; 0; 0; 191].

Definition ud_itab__182 : list Z :=
  [192; 0; 0; 193].

Definition ud_itab__183 : list Z :=
  [194; 0; 0; 195].

Definition ud_itab__184 : list Z :=
  [196; 0; 0; 197].

Definition ud_itab__185 : list Z :=
  [0; 0; 0; 198].

Definition ud_itab__186 : list Z :=
  [0; 0; 0; 199].

Definition ud_itab__187 : list Z :=
  [0; 0; 0; 200].

Definition ud_itab__188 : list Z :=
  [0; 0; 0; 201].

Definition ud_itab__189 : list Z :=
  [0; 0; 0; 202].

Definition ud_itab__190 : list Z :=
  [0; 0; 0; 203].

Definition ud_itab__191 : list Z :=
  [0; 0; 0; 204].

Definition ud_itab__192 : list Z :=
  [0; 0; 0; 205].

Definition ud_itab__193 : list Z :=
  [0; 0; 0; 206].

Definition ud_itab__194 : list Z :=
  [0; 0; 0; 207].

Definition ud_itab__195 : list Z :=
  [0; 0; 0; 208].

Definition ud_itab__196 : list Z :=
  [0; 0; 0; 209].

Definition ud_itab__197 : list Z :=
  [0; 0; 0; 210].

Definition ud_itab__198 : list Z :=
  [0; 0; 0; 211].

Definition ud_itab__199 : list Z :=
  [0; 0; 0; 212].

Definition ud_itab__200 : list Z :=
  [0; 0; 0; 213].

Definition ud_itab__201 : list Z :=
  [0; 0; 0; 214].

Definition ud_itab__202 : list Z :=
  [0; 0; 0; 215].

Definition ud_itab__203 : list Z :=
  [0; 0; 0; 216].

Definition ud_itab__204 : list Z :=
  [0; 0; 0; 217].

Definition ud_itab__205 : list Z :=
  [0; 0; 0; 218].

Definition ud_itab__206 : list Z :=
  [0; 0; 0; 219].

Definition ud_itab__207 : list Z :=
  [0; 0; 0; 220].

Definition ud_itab__208 : list Z :=
  [0; 0; 0; 221].

Definition ud_itab__209 : list Z :=
  [0; 0; 0; 222].

Definition ud_itab__210 : list Z :=
  [0; 0; 0; 223].

Definition ud_itab__211 : list Z :=
  [0; 0; 0; 224].

Definition ud_itab__214 : list Z :=
  [0; 225; 0].

Definition ud_itab__213 : list Z :=
  [0; GROUP 214].

Definition ud_itab__212 : list Z :=
  [0; 0; 0; GROUP 213].

Definition ud_itab__217 : list Z :=
  [0; 226; 0].

Definition ud_itab__216 : list Z :=
  [0; GROUP 217].

Definition ud_itab__215 : list Z :=
  [0; 0; 0; GROUP 216].

Definition ud_itab__218 : list Z :=
  [0; 0; 0; 227].

Definition ud_itab__219 : list Z :=
  [0; 0; 0; 228].

Definition ud_itab__220 : list Z :=
  [0; 0; 0; 229].

Definition ud_itab__221 : list Z :=
  [0; 0; 0; 230].

Definition ud_itab__222 : list Z :=
  [0; 0; 0; 231].

Definition ud_itab__223 : list Z :=
  [232; 233; 0; 0].

Definition ud_itab__224 : list Z :=
  [234; 235; 0; 0].

Definition ud_itab__165 : list Z :=
  [GROUP 166; GROUP 167; GROUP 168; GROUP 169; GROUP 170; GROUP 171; GROUP 172; GROUP 173;
   GROUP 174; GROUP 175; GROUP 176; GROUP 177; 0; 0; 0; 0; GROUP 178; 0; 0; 0; GROUP 179;
   GROUP 180; 0; GROUP 181; 0; 0; 0; 0; GROUP 182; GROUP 183; GROUP 184; 0; GROUP 185; GROUP 186;
   GROUP 187; GROUP 188; GROUP 189; GROUP 190; 0; 0; GROUP 191; GROUP 192; GROUP 193; GROUP 194; 0;
   0; 0; 0; GROUP 195; GROUP 196; GROUP 197; GROUP 198; GROUP 199; GROUP 200; 0; GROUP 201;
   GROUP 202; GROUP 203; GROUP 204; GROUP 205; GROUP 206; GROUP 207; GROUP 208; GROUP 209;
   GROUP 210; GROUP 211; 0; 0; 0; 0; 0; 0; 0; 0; 0; 0; 0; 0; 0; 0; 0; 0; 0; 0; 0; 0; 0; 0; 0; 0; 0;
   0; 0; 0; 0; 0; 0; 0; 0; 0; 0; 0; 0; 0; 0; 0; 0; 0; 0; 0; 0; 0; 0; 0; 0; 0; 0; 0; 0; 0; 0; 0; 0;
   0; 0; 0; 0; 0; GROUP 212; GROUP 215; 0; 0; 0; 0; 0; 0; 0; 0; 0; 0; 0; 0; 0; 0; 0; 0; 0; 0; 0; 0;
   0; 0; 0; 0; 0; 0; 0; 0; 0; 0; 0; 0; 0; 0; 0; 0; 0; 0; 0; 0; 0; 0; 0; 0; 0; 0; 0; 0; 0; 0; 0; 0;
   0; 0; 0; 0; 0; 0; 0; 0; 0; 0; 0; 0; 0; 0; 0; 0; 0; 0; 0; 0; 0; 0; 0; 0; 0; 0; 0; 0; 0; 0; 0; 0;
   0; 0; 0; 0; 0; GROUP 218; GROUP 219; GROUP 220; GROUP 221; GROUP 222; 0; 0; 0; 0; 0; 0; 0; 0; 0;
   0; 0; 0; 0; 0; 0; 0; GROUP 223; GROUP 224; 0; 0; 0; 0; 0; 0; 0; 0; 0; 0; 0; 0; 0; 0].

Definition ud_itab__226 : list Z :=
  [0; 0; 0; 236].

Definition ud_itab__227 : list Z :=
  [0; 0; 0; 237].

Definition ud_itab__228 : list Z :=
  [0; 0; 0; 238].

Definition ud_itab__229 : list Z :=
  [0; 0; 0; 239].

Definition ud_itab__230 : list Z :=
  [0; 0; 0; 240].

Definition ud_itab__231 : list Z :=
  [0; 0; 0; 241].

Definition ud_itab__232 : list Z :=
  [0; 0; 0; 242].

Definition ud_itab__233 : list Z :=
  [243; 0; 0; 244].

Definition ud_itab__234 : list Z :=
  [0; 0; 0; 245].

Definition ud_itab__235 : list Z :=
  [0; 0; 0; 246].

Definition ud_itab__237 : list Z :=
  [247; 248; 249].

Definition ud_itab__236 : list Z :=
  [0; 0; 0; GROUP 237].

Definition ud_itab__238 : list Z :=
  [0; 0; 0; 250].

Definition ud_itab__239 : list Z :=
  [0; 0; 0; 251].

Definition ud_itab__240 : list Z :=
  [0; 0; 0; 252].

Definition ud_itab__242 : list Z :=
  [253; 254; 255].

Definition ud_itab__241 : list Z :=
  [0; 0; 0; GROUP 242].

Definition ud_itab__243 : list Z :=
  [0; 0; 0; 256].

Definition ud_itab__244 : list Z :=
  [0; 0; 0; 257].

Definition ud_itab__245 : list Z :=
  [0; 0; 0; 258].

Definition ud_itab__246 : list Z :=
  [0; 0; 0; 259].

Definition ud_itab__247 : list Z :=
  [0; 0; 0; 260].

Definition ud_itab__248 : list Z :=
  [0; 0; 0; 261].

Definition ud_itab__249 : list Z :=
  [0; 0; 0; 262].

Definition ud_itab__250 : list Z :=
  [0; 0; 0; 263].

Definition ud_itab__251 : list Z :=
  [0; 0; 0; 264].

Definition ud_itab__225 : list Z :=
  [0; 0; 0; 0; 0; 0; 0; 0; GROUP 226; GROUP 227; GROUP 228; GROUP 229; GROUP 230; GROUP 231;
   GROUP 232; GROUP 233; 0; 0; 0; 0; GROUP 234; GROUP 235; GROUP 236; GROUP 238; 0; 0; 0; 0; 0; 0;
   0; 0; GROUP 239; GROUP 240; GROUP 241; 0; 0; 0; 0; 0; 0; 0; 0; 0; 0; 0; 0; 0; 0; 0; 0; 0; 0; 0;
   0; 0; 0; 0; 0; 0; 0; 0; 0; 0; GROUP 243; GROUP 244; GROUP 245; 0; GROUP 246; 0; 0; 0; 0; 0; 0;
   0; 0; 0; 0; 0; 0; 0; 0; 0; 0; 0; 0; 0; 0; 0; 0; 0; 0; 0; 0; 0; GROUP 247; GROUP 248; GROUP 249;
   GROUP 250; 0; 0; 0; 0; 0; 0; 0; 0; 0; 0; 0; 0; 0; 0; 0; 0; 0; 0; 0; 0; 0; 0; 0; 0; 0; 0; 0; 0;
   0; 0; 0; 0; 0; 0; 0; 0; 0; 0; 0; 0; 0; 0; 0; 0; 0; 0; 0; 0; 0; 0; 0; 0; 0; 0; 0; 0; 0; 0; 0; 0;
   0; 0; 0; 0; 0; 0; 0; 0; 0; 0; 0; 0; 0; 0; 0; 0; 0; 0; 0; 0; 0; 0; 0; 0; 0; 0; 0; 0; 0; 0; 0; 0;
   0; 0; 0; 0; 0; 0; 0; 0; 0; 0; 0; 0; 0; 0; 0; 0; 0; 0; 0; 0; 0; 0; 0; 0; 0; 0; 0; 0; 0; 0; 0;
   GROUP 251; 0; 0; 0; 0; 0; 0; 0; 0; 0; 0; 0; 0; 0; 0; 0; 0; 0; 0; 0; 0; 0; 0; 0; 0; 0; 0; 0; 0;
   0; 0; 0; 0].

Definition ud_itab__252 : list Z :=
  [265; 0; 0; 0].

Definition ud_itab__253 : list Z :=
  [266; 0; 0; 0].

Definition ud_itab__254 : list Z :=
  [267; 0; 0; 0].

Definition ud_itab__255 : list Z :=
  [268; 0; 0; 0].

Definition ud_itab__256 : list Z :=
  [269; 0; 0; 0].

Definition ud_itab__257 : list Z :=
  [270; 0; 0; 0].

Definition ud_itab__258 : list Z :=
  [271; 0; 0; 0].

Definition ud_itab__259 : list Z :=
  [272; 0; 0; 0].

Definition ud_itab__260 : list Z :=
  [273; 0; 0; 0].

Definition ud_itab__261 : list Z :=
  [274; 0; 0; 0].

Definition ud_itab__262 : list Z :=
  [275; 0; 0; 0].

Definition ud_itab__263 : list Z :=
  [276; 0; 0; 0].

Definition ud_itab__264 : list Z :=
  [277; 0; 0; 0].

Definition ud_itab__265 : list Z :=
  [278; 0; 0; 0].

Definition ud_itab__266 : list Z :=
  [279; 0; 0; 0].

Definition ud_itab__267 : list Z :=
  [280; 0; 0; 0].

Definition ud_itab__268 : list Z :=
  [281; 0; 0; 282].

Definition ud_itab__269 : list Z :=
  [283; 284; 285; 286].

Definition ud_itab__270 : list Z :=
  [287; 0; 288; 0].

Definition ud_itab__271 : list Z :=
  [289; 0; 290; 0].

Definition ud_itab__272 : list Z :=
  [291; 0; 0; 292].

Definition ud_itab__273 : list Z :=
  [293; 0; 0; 294].

Definition ud_itab__274 : list Z :=
  [295; 0; 0; 296].

Definition ud_itab__275 : list Z :=
  [297; 0; 0; 298].

Definition ud_itab__276 : list Z :=
  [299; 300; 301; 302].

Definition ud_itab__277 : list Z :=
  [303; 304; 305; 306].

Definition ud_itab__278 : list Z :=
  [307; 308; 309; 310].

Definition ud_itab__279 : list Z :=
  [311; 0; 312; 313].

Definition ud_itab__280 : list Z :=
  [314; 315; 316; 317].

Definition ud_itab__281 : list Z :=
  [318; 319; 320; 321].

Definition ud_itab__282 : list Z :=
  [322; 323; 324; 325].

Definition ud_itab__283 : list Z :=
  [326; 327; 328; 329].

Definition ud_itab__284 : list Z :=
  [330; 0; 0; 331].

Definition ud_itab__285 : list Z :=
  [332; 0; 0; 333].

Definition ud_itab__286 : list Z :=
  [334; 0; 0; 335].

Definition ud_itab__287 : list Z :=
  [336; 0; 0; 337].

Definition ud_itab__288 : list Z :=
  [338; 0; 0; 339].

Definition ud_itab__289 : list Z :=
  [340; 0; 0; 341].

Definition ud_itab__290 : list Z :=
  [342; 0; 0; 343].

Definition ud_itab__291 : list Z :=
  [344; 0; 0; 345].

Definition ud_itab__292 : list Z :=
  [346; 0; 0; 347].

Definition ud_itab__293 : list Z :=
  [348; 0; 0; 349].

Definition ud_itab__294 : list Z :=
  [350; 0; 0; 351].

Definition ud_itab__295 : list Z :=
  [352; 0; 0; 353].

Definition ud_itab__296 : list Z :=
  [0; 0; 0; 354].

Definition ud_itab__297 : list Z :=
  [0; 0; 0; 355].

Definition ud_itab__298 : list Z :=
  [356; 0; 0; 357].

Definition ud_itab__299 : list Z :=
  [358; 0; 359; 360].

Definition ud_itab__300 : list Z :=
  [361; 362; 363; 364].

Definition ud_itab__302 : list Z :=
  [365; 0; 0; 366].

Definition ud_itab__303 : list Z :=
  [367; 0; 0; 368].

Definition ud_itab__304 : list Z :=
  [369; 0; 0; 370].

Definition ud_itab__301 : list Z :=
  [0; 0; GROUP 302; 0; GROUP 303; 0; GROUP 304; 0].

Definition ud_itab__306 : list Z :=
  [371; 0; 0; 372].

Definition ud_itab__307 : list Z :=
  [373; 0; 0; 374].

Definition ud_itab__308 : list Z :=
  [375; 0; 0; 376].

Definition ud_itab__305 : list Z :=
  [0; 0; GROUP 306; 0; GROUP 307; 0; GROUP 308; 0].

Definition ud_itab__310 : list Z :=
  [377; 0; 0; 378].

Definition ud_itab__311 : list Z :=
  [0; 0; 0; 379].

Definition ud_itab__312 : list Z :=
  [380; 0; 0; 381].

Definition ud_itab__313 : list Z :=
  [0; 0; 0; 382].

Definition ud_itab__309 : list Z :=
  [0; 0; GROUP 310; GROUP 311; 0; 0; GROUP 312; GROUP 313].

Definition ud_itab__314 : list Z :=
  [383; 0; 0; 384].

Definition ud_itab__315 : list Z :=
  [385; 0; 0; 386].

Definition ud_itab__316 : list Z :=
  [387; 0; 0; 388].

Definition ud_itab__317 : list Z :=
  [389; 0; 0; 0].

Definition ud_itab__319 : list Z :=
  [0; 390; 0].

Definition ud_itab__318 : list Z :=
  [GROUP 319; 0; 0; 0].

Definition ud_itab__321 : list Z :=
  [0; 391; 0].

Definition ud_itab__320 : list Z :=
  [GROUP 321; 0; 0; 0].

Definition ud_itab__322 : list Z :=
  [0; 392; 0; 393].

Definition ud_itab__323 : list Z :=
  [0; 394; 0; 395].

Definition ud_itab__324 : list Z :=
  [396; 0; 397; 398].

Definition ud_itab__325 : list Z :=
  [399; 0; 400; 401].

Definition ud_itab__326 : list Z :=
  [402; 0; 0; 0].

Definition ud_itab__327 : list Z :=
  [403; 0; 0; 0].

Definition ud_itab__328 : list Z :=
  [404; 0; 0; 0].

Definition ud_itab__329 : list Z :=
  [405; 0; 0; 0].

Definition ud_itab__330 : list Z :=
  [406; 0; 0; 0].

Definition ud_itab__331 : list Z :=
  [407; 0; 0; 0].

Definition ud_itab__332 : list Z :=
  [408; 0; 0; 0].

Definition ud_itab__333 : list Z :=
  [409; 0; 0; 0].

Definition ud_itab__334 : list Z :=
  [410; 0; 0; 0].

Definition ud_itab__335 : list Z :=
  [411; 0; 0; 0].

Definition ud_itab__336 : list Z :=
  [412; 0; 0; 0].

Definition ud_itab__337 : list Z :=
  [413; 0; 0; 0].

Definition ud_itab__338 : list Z :=
  [414; 0; 0; 0].

Definition ud_itab__339 : list Z :=
  [415; 0; 0; 0].

Definition ud_itab__340 : list Z :=
  [416; 0; 0; 0].

Definition ud_itab__341 : list Z :=
  [417; 0; 0; 0].

Definition ud_itab__342 : list Z :=
  [418; 0; 0; 0].

Definition ud_itab__343 : list Z :=
  [419; 0; 0; 0].

Definition ud_itab__344 : list Z :=
  [420; 0; 0; 0].

Definition ud_itab__345 : list Z :=
  [421; 0; 0; 0].

Definition ud_itab__346 : list Z :=
  [422; 0; 0; 0].

Definition ud_itab__347 : list Z :=
  [423; 0; 0; 0].

Definition ud_itab__348 : list Z :=
  [424; 0; 0; 0].

Definition ud_itab__349 : list Z :=
  [425; 0; 0; 0].

Definition ud_itab__350 : list Z :=
  [426; 0; 0; 0].

Definition ud_itab__351 : list Z :=
  [427; 0; 0; 0].

Definition ud_itab__352 : list Z :=
  [428; 0; 0; 0].

Definition ud_itab__353 : list Z :=
  [429; 0; 0; 0].

Definition ud_itab__354 : list Z :=
  [430; 0; 0; 0].

Definition ud_itab__355 : list Z :=
  [431; 0; 0; 0].

Definition ud_itab__356 : list Z :=
  [432; 0; 0; 0].

Definition ud_itab__357 : list Z :=
  [433; 0; 0; 0].

Definition ud_itab__358 : list Z :=
  [434; 0; 0; 0].

Definition ud_itab__359 : list Z :=
  [435; 0; 0; 0].

Definition ud_itab__360 : list Z :=
  [436; 0; 0; 0].

Definition ud_itab__361 : list Z :=
  [437; 0; 0; 0].

Definition ud_itab__362 : list Z :=
  [438; 0; 0; 0].

Definition ud_itab__363 : list Z :=
  [439; 0; 0; 0].

Definition ud_itab__368 : list Z :=
  [0; 440].

Definition ud_itab__367 : list Z :=
  [GROUP 368; 0; 0; 0].

Definition ud_itab__366 : list Z :=
  [GROUP 367; 0; 0; 0; 0; 0; 0; 0].

Definition ud_itab__371 : list Z :=
  [0; 441].

Definition ud_itab__370 : list Z :=
  [GROUP 371; 0; 0; 0].

Definition ud_itab__369 : list Z :=
  [GROUP 370; 0; 0; 0; 0; 0; 0; 0].

Definition ud_itab__374 : list Z :=
  [0; 442].

Definition ud_itab__373 : list Z :=
  [GROUP 374; 0; 0; 0].

Definition ud_itab__372 : list Z :=
  [GROUP 373; 0; 0; 0; 0; 0; 0; 0].

Definition ud_itab__365 : list Z :=
  [GROUP 366; GROUP 369; GROUP 372; 0; 0; 0; 0; 0].

Definition ud_itab__364 : list Z :=
  [0; GROUP 365].

Definition ud_itab__379 : list Z :=
  [0; 443].

Definition ud_itab__378 : list Z :=
  [GROUP 379; 0; 0; 0].

Definition ud_itab__377 : list Z :=
  [GROUP 378; 0; 0; 0; 0; 0; 0; 0].

Definition ud_itab__382 : list Z :=
  [0; 444].

Definition ud_itab__381 : list Z :=
  [GROUP 382; 0; 0; 0].

Definition ud_itab__380 : list Z :=
  [GROUP 381; 0; 0; 0; 0; 0; 0; 0].

Definition ud_itab__385 : list Z :=
  [0; 445].

Definition ud_itab__384 : list Z :=
  [GROUP 385; 0; 0; 0].

Definition ud_itab__383 : list Z :=
  [GROUP 384; 0; 0; 0; 0; 0; 0; 0].

Definition ud_itab__388 : list Z :=
  [0; 446].

Definition ud_itab__387 : list Z :=
  [GROUP 388; 0; 0; 0].

Definition ud_itab__386 : list Z :=
  [GROUP 387; 0; 0; 0; 0; 0; 0; 0].

Definition ud_itab__391 : list Z :=
  [0; 447].

Definition ud_itab__390 : list Z :=
  [GROUP 391; 0; 0; 0].

Definition ud_itab__389 : list Z :=
  [GROUP 390; 0; 0; 0; 0; 0; 0; 0].

Definition ud_itab__394 : list Z :=
  [0; 448].

Definition ud_itab__393 : list Z :=
  [GROUP 394; 0; 0; 0].

Definition ud_itab__392 : list Z :=
  [GROUP 393; 0; 0; 0; 0; 0; 0; 0].

Definition ud_itab__376 : list Z :=
  [GROUP 377; GROUP 380; GROUP 383; GROUP 386; GROUP 389; GROUP 392; 0; 0].

Definition ud_itab__375 : list Z :=
  [0; GROUP 376].

Definition ud_itab__395 : list Z :=
  [449; 0; 0; 0].

Definition ud_itab__396 : list Z :=
  [450; 0; 0; 0].

Definition ud_itab__397 : list Z :=
  [451; 0; 0; 0].

Definition ud_itab__398 : list Z :=
  [452; 0; 0; 0].

Definition ud_itab__399 : list Z :=
  [453; 0; 0; 0].

Definition ud_itab__400 : list Z :=
  [454; 0; 0; 0].

Definition ud_itab__404 : list Z :=
  [455; 0].

Definition ud_itab__403 : list Z :=
  [GROUP 404; 0; 0; 0].

Definition ud_itab__406 : list Z :=
  [456; 0].

Definition ud_itab__405 : list Z :=
  [GROUP 406; 0; 0; 0].

Definition ud_itab__408 : list Z :=
  [457; 0].

Definition ud_itab__407 : list Z :=
  [GROUP 408; 0; 0; 0].

Definition ud_itab__410 : list Z :=
  [458; 0].

Definition ud_itab__409 : list Z :=
  [GROUP 410; 0; 0; 0].

Definition ud_itab__412 : list Z :=
  [459; 0].

Definition ud_itab__411 : list Z :=
  [GROUP 412; 0; 0; 0].

Definition ud_itab__414 : list Z :=
  [460; 0].

Definition ud_itab__413 : list Z :=
  [GROUP 414; 0; 0; 0].

Definition ud_itab__416 : list Z :=
  [461; 0].

Definition ud_itab__415 : list Z :=
  [GROUP 416; 0; 0; 0].

Definition ud_itab__402 : list Z :=
  [GROUP 403; GROUP 405; GROUP 407; GROUP 409; GROUP 411; GROUP 413; 0; GROUP 415].

Definition ud_itab__420 : list Z :=
  [0; 462].

Definition ud_itab__419 : list Z :=
  [GROUP 420; 0; 0; 0].

Definition ud_itab__422 : list Z :=
  [0; 463].

Definition ud_itab__421 : list Z :=
  [GROUP 422; 0; 0; 0].

Definition ud_itab__424 : list Z :=
  [0; 464].

Definition ud_itab__423 : list Z :=
  [GROUP 424; 0; 0; 0].

Definition ud_itab__426 : list Z :=
  [0; 465].

Definition ud_itab__425 : list Z :=
  [GROUP 426; 0; 0; 0].

Definition ud_itab__428 : list Z :=
  [0; 466].

Definition ud_itab__427 : list Z :=
  [GROUP 428; 0; 0; 0].

Definition ud_itab__430 : list Z :=
  [0; 467].

Definition ud_itab__429 : list Z :=
  [GROUP 430; 0; 0; 0].

Definition ud_itab__432 : list Z :=
  [0; 468].

Definition ud_itab__431 : list Z :=
  [GROUP 432; 0; 0; 0].

Definition ud_itab__434 : list Z :=
  [0; 469].

Definition ud_itab__433 : list Z :=
  [GROUP 434; 0; 0; 0].

Definition ud_itab__418 : list Z :=
  [GROUP 419; GROUP 421; GROUP 423; GROUP 425; GROUP 427; GROUP 429; GROUP 431; GROUP 433].

Definition ud_itab__437 : list Z :=
  [0; 470].

Definition ud_itab__436 : list Z :=
  [GROUP 437; 0; 0; 0].

Definition ud_itab__439 : list Z :=
  [0; 471].

Definition ud_itab__438 : list Z :=
  [GROUP 439; 0; 0; 0].

Definition ud_itab__441 : list Z :=
  [0; 472].

Definition ud_itab__440 : list Z :=
  [GROUP 441; 0; 0; 0].

Definition ud_itab__443 : list Z :=
  [0; 473].

Definition ud_itab__442 : list Z :=
  [GROUP 443; 0; 0; 0].

Definition ud_itab__445 : list Z :=
  [0; 474].

Definition ud_itab__444 : list Z :=
  [GROUP 445; 0; 0; 0].

Definition ud_itab__447 : list Z :=
  [0; 475].

Definition ud_itab__446 : list Z :=
  [GROUP 447; 0; 0; 0].

Definition ud_itab__449 : list Z :=
  [0; 476].

Definition ud_itab__448 : list Z :=
  [GROUP 449; 0; 0; 0].

Definition ud_itab__451 : list Z :=
  [0; 477].

Definition ud_itab__450 : list Z :=
  [GROUP 451; 0; 0; 0].

Definition ud_itab__435 : list Z :=
  [GROUP 436; GROUP 438; GROUP 440; GROUP 442; GROUP 444; GROUP 446; GROUP 448; GROUP 450].

Definition ud_itab__454 : list Z :=
  [0; 478].

Definition ud_itab__453 : list Z :=
  [GROUP 454; 0; 0; 0].

Definition ud_itab__456 : list Z :=
  [0; 479].

Definition ud_itab__455 : list Z :=
  [GROUP 456; 0; 0; 0].

Definition ud_itab__458 : list Z :=
  [0; 480].

Definition ud_itab__457 : list Z :=
  [GROUP 458; 0; 0; 0].

Definition ud_itab__460 : list Z :=
  [0; 481].

Definition ud_itab__459 : list Z :=
  [GROUP 460; 0; 0; 0].

Definition ud_itab__462 : list Z :=
  [0; 482].

Definition ud_itab__461 : list Z :=
  [GROUP 462; 0; 0; 0].

Definition ud_itab__464 : list Z :=
  [0; 483].

Definition ud_itab__463 : list Z :=
  [GROUP 464; 0; 0; 0].

Definition ud_itab__466 : list Z :=
  [0; 484].

Definition ud_itab__465 : list Z :=
  [GROUP 466; 0; 0; 0].

Definition ud_itab__468 : list Z :=
  [0; 485].

Definition ud_itab__467 : list Z :=
  [GROUP 468; 0; 0; 0].

Definition ud_itab__452 : list Z :=
  [GROUP 453; GROUP 455; GROUP 457; GROUP 459; GROUP 461; GROUP 463; GROUP 465; GROUP 467].

Definition ud_itab__417 : list Z :=
  [0; 0; 0; 0; 0; GROUP 418; GROUP 435; GROUP 452].

Definition ud_itab__401 : list Z :=
  [GROUP 402; GROUP 417].

Definition ud_itab__469 : list Z :=
  [486; 0; 0; 0].

Definition ud_itab__470 : list Z :=
  [487; 0; 0; 0].

Definition ud_itab__471 : list Z :=
  [488; 0; 0; 0].

Definition ud_itab__472 : list Z :=
  [489; 0; 0; 0].

Definition ud_itab__473 : list Z :=
  [490; 0; 0; 0].

Definition ud_itab__474 : list Z :=
  [491; 0; 0; 0].

Definition ud_itab__475 : list Z :=
  [492; 0; 0; 0].

Definition ud_itab__476 : list Z :=
  [493; 0; 0; 0].

Definition ud_itab__477 : list Z :=
  [494; 0; 0; 0].

Definition ud_itab__478 : list Z :=
  [0; 0; 495; 0].

Definition ud_itab__480 : list Z :=
  [496; 0; 0; 0].

Definition ud_itab__481 : list Z :=
  [497; 0; 0; 0].

Definition ud_itab__482 : list Z :=
  [498; 0; 0; 0].

Definition ud_itab__483 : list Z :=
  [499; 0; 0; 0].

Definition ud_itab__479 : list Z :=
  [0; 0; 0; 0; GROUP 480; GROUP 481; GROUP 482; GROUP 483].

Definition ud_itab__484 : list Z :=
  [500; 0; 0; 0].

Definition ud_itab__485 : list Z :=
  [501; 0; 0; 0].

Definition ud_itab__486 : list Z :=
  [502; 0; 0; 0].

Definition ud_itab__487 : list Z :=
  [503; 0; 0; 0].

Definition ud_itab__488 : list Z :=
  [504; 0; 0; 0].

Definition ud_itab__489 : list Z :=
  [505; 0; 0; 0].

Definition ud_itab__490 : list Z :=
  [506; 0; 0; 0].

Definition ud_itab__491 : list Z :=
  [507; 508; 509; 510].

Definition ud_itab__492 : list Z :=
  [511; 0; 0; 0].

Definition ud_itab__493 : list Z :=
  [512; 0; 0; 513].

Definition ud_itab__494 : list Z :=
  [514; 0; 0; 515].

Definition ud_itab__495 : list Z :=
  [516; 0; 0; 517].

Definition ud_itab__498 : list Z :=
  [518; 519; 520].

Definition ud_itab__497 : list Z :=
  [GROUP 498; 0; 0; 0].

Definition ud_itab__500 : list Z :=
  [0; 521; 0].

Definition ud_itab__501 : list Z :=
  [0; 522; 0].

Definition ud_itab__502 : list Z :=
  [0; 523; 0].

Definition ud_itab__499 : list Z :=
  [GROUP 500; 0; GROUP 501; GROUP 502].

Definition ud_itab__504 : list Z :=
  [0; 524; 0].

Definition ud_itab__503 : list Z :=
  [GROUP 504; 0; 0; 0].

Definition ud_itab__496 : list Z :=
  [0; GROUP 497; 0; 0; 0; 0; GROUP 499; GROUP 503].

Definition ud_itab__505 : list Z :=
  [525; 0; 0; 0].

Definition ud_itab__506 : list Z :=
  [526; 0; 0; 0].

Definition ud_itab__507 : list Z :=
  [527; 0; 0; 0].

Definition ud_itab__508 : list Z :=
  [528; 0; 0; 0].

Definition ud_itab__509 : list Z :=
  [529; 0; 0; 0].

Definition ud_itab__510 : list Z :=
  [530; 0; 0; 0].

Definition ud_itab__511 : list Z :=
  [531; 0; 0; 0].

Definition ud_itab__512 : list Z :=
  [532; 0; 0; 0].

Definition ud_itab__513 : list Z :=
  [0; 533; 0; 534].

Definition ud_itab__514 : list Z :=
  [535; 0; 0; 536].

Definition ud_itab__515 : list Z :=
  [537; 0; 0; 538].

Definition ud_itab__516 : list Z :=
  [539; 0; 0; 540].

Definition ud_itab__517 : list Z :=
  [541; 0; 0; 542].

Definition ud_itab__518 : list Z :=
  [543; 0; 0; 544].

Definition ud_itab__519 : list Z :=
  [0; 545; 546; 547].

Definition ud_itab__520 : list Z :=
  [548; 0; 0; 549].

Definition ud_itab__521 : list Z :=
  [550; 0; 0; 551].

Definition ud_itab__522 : list Z :=
  [552; 0; 0; 553].

Definition ud_itab__523 : list Z :=
  [554; 0; 0; 555].

Definition ud_itab__524 : list Z :=
  [556; 0; 0; 557].

Definition ud_itab__525 : list Z :=
  [558; 0; 0; 559].

Definition ud_itab__526 : list Z :=
  [560; 0; 0; 561].

Definition ud_itab__527 : list Z :=
  [562; 0; 0; 563].

Definition ud_itab__528 : list Z :=
  [564; 0; 0; 565].

Definition ud_itab__529 : list Z :=
  [566; 0; 0; 567].

Definition ud_itab__530 : list Z :=
  [568; 0; 0; 569].

Definition ud_itab__531 : list Z :=
  [570; 0; 0; 571].

Definition ud_itab__532 : list Z :=
  [572; 0; 0; 573].

Definition ud_itab__533 : list Z :=
  [574; 0; 0; 575].

Definition ud_itab__534 : list Z :=
  [576; 0; 0; 577].

Definition ud_itab__535 : list Z :=
  [0; 578; 579; 580].

Definition ud_itab__536 : list Z :=
  [581; 0; 0; 582].

Definition ud_itab__537 : list Z :=
  [583; 0; 0; 584].

Definition ud_itab__538 : list Z :=
  [585; 0; 0; 586].

Definition ud_itab__539 : list Z :=
  [587; 0; 0; 588].

Definition ud_itab__540 : list Z :=
  [589; 0; 0; 590].

Definition ud_itab__541 : list Z :=
  [591; 0; 0; 592].

Definition ud_itab__542 : list Z :=
  [593; 0; 0; 594].

Definition ud_itab__543 : list Z :=
  [595; 0; 0; 596].

Definition ud_itab__544 : list Z :=
  [597; 0; 0; 598].

Definition ud_itab__545 : list Z :=
  [0; 599; 0; 0].

Definition ud_itab__546 : list Z :=
  [600; 0; 0; 601].

Definition ud_itab__547 : list Z :=
  [602; 0; 0; 603].

Definition ud_itab__548 : list Z :=
  [604; 0; 0; 605].

Definition ud_itab__549 : list Z :=
  [606; 0; 0; 607].

Definition ud_itab__550 : list Z :=
  [608; 0; 0; 609].

Definition ud_itab__551 : list Z :=
  [610; 0; 0; 611].

Definition ud_itab__554 : list Z :=
  [0; 612].

Definition ud_itab__555 : list Z :=
  [0; 613].

Definition ud_itab__553 : list Z :=
  [GROUP 554; 0; 0; GROUP 555].

Definition ud_itab__552 : list Z :=
  [0; GROUP 553].

Definition ud_itab__556 : list Z :=
  [614; 0; 0; 615].

Definition ud_itab__557 : list Z :=
  [616; 0; 0; 617].

Definition ud_itab__558 : list Z :=
  [618; 0; 0; 619].

Definition ud_itab__559 : list Z :=
  [620; 0; 0; 621].

Definition ud_itab__560 : list Z :=
  [622; 0; 0; 623].

Definition ud_itab__561 : list Z :=
  [624; 0; 0; 625].

Definition ud_itab__562 : list Z :=
  [626; 0; 0; 627].

Definition ud_itab__4 : list Z :=
  [GROUP 5; GROUP 12; GROUP 87; GROUP 88; 0; GROUP 89; GROUP 90; GROUP 91; GROUP 92; GROUP 93; 0;
   GROUP 94; 0; GROUP 95; GROUP 104; GROUP 105; GROUP 106; GROUP 107; GROUP 108; GROUP 118;
   GROUP 119; GROUP 120; GROUP 121; GROUP 129; GROUP 130; GROUP 135; GROUP 136; GROUP 137;
   GROUP 138; GROUP 139; GROUP 140; GROUP 141; GROUP 142; GROUP 143; GROUP 144; GROUP 145; 0; 0; 0;
   0; GROUP 146; GROUP 147; GROUP 148; GROUP 149; GROUP 150; GROUP 151; GROUP 152; GROUP 153;
   GROUP 154; GROUP 155; GROUP 156; GROUP 157; GROUP 158; GROUP 161; 0; GROUP 164; GROUP 165; 0;
   GROUP 225; 0; 0; 0; 0; 0; GROUP 252; GROUP 253; GROUP 254; GROUP 255; GROUP 256; GROUP 257;
   GROUP 258; GROUP 259; GROUP 260; GROUP 261; GROUP 262; GROUP 263; GROUP 264; GROUP 265;
   GROUP 266; GROUP 267; GROUP 268; GROUP 269; GROUP 270; GROUP 271; GROUP 272; GROUP 273;
   GROUP 274; GROUP 275; GROUP 276; GROUP 277; GROUP 278; GROUP 279; GROUP 280; GROUP 281;
   GROUP 282; GROUP 283; GROUP 284; GROUP 285; GROUP 286; GROUP 287; GROUP 288; GROUP 289;
   GROUP 290; GROUP 291; GROUP 292; GROUP 293; GROUP 294; GROUP 295; GROUP 296; GROUP 297;
   GROUP 298; GROUP 299; GROUP 300; GROUP 301; GROUP 305; GROUP 309; GROUP 314; GROUP 315;
   GROUP 316; GROUP 317; GROUP 318; GROUP 320; 0; 0; GROUP 322; GROUP 323; GROUP 324; GROUP 325;
   GROUP 326; GROUP 327; GROUP 328; GROUP 329; GROUP 330; GROUP 331; GROUP 332; GROUP 333;
   GROUP 334; GROUP 335; GROUP 336; GROUP 337; GROUP 338; GROUP 339; GROUP 340; GROUP 341;
   GROUP 342; GROUP 343; GROUP 344; GROUP 345; GROUP 346; GROUP 347; GROUP 348; GROUP 349;
   GROUP 350; GROUP 351; GROUP 352; GROUP 353; GROUP 354; GROUP 355; GROUP 356; GROUP 357;
   GROUP 358; GROUP 359; GROUP 360; GROUP 361; GROUP 362; GROUP 363; GROUP 364; GROUP 375;
   GROUP 395; GROUP 396; GROUP 397; GROUP 398; GROUP 399; GROUP 400; GROUP 401; GROUP 469;
   GROUP 470; GROUP 471; GROUP 472; GROUP 473; GROUP 474; GROUP 475; GROUP 476; GROUP 477;
   GROUP 478; 0; GROUP 479; GROUP 484; GROUP 485; GROUP 486; GROUP 487; GROUP 488; GROUP 489;
   GROUP 490; GROUP 491; GROUP 492; GROUP 493; GROUP 494; GROUP 495; GROUP 496; GROUP 505;
   GROUP 506; GROUP 507; GROUP 508; GROUP 509; GROUP 510; GROUP 511; GROUP 512; GROUP 513;
   GROUP 514; GROUP 515; GROUP 516; GROUP 517; GROUP 518; GROUP 519; GROUP 520; GROUP 521;
   GROUP 522; GROUP 523; GROUP 524; GROUP 525; GROUP 526; GROUP 527; GROUP 528; GROUP 529;
   GROUP 530; GROUP 531; GROUP 532; GROUP 533; GROUP 534; GROUP 535; GROUP 536; GROUP 537;
   GROUP 538; GROUP 539; GROUP 540; GROUP 541; GROUP 542; GROUP 543; GROUP 544; GROUP 545;
   GROUP 546; GROUP 547; GROUP 548; GROUP 549; GROUP 550; GROUP 551; GROUP 552; GROUP 556;
   GROUP 557; GROUP 558; GROUP 559; GROUP 560; GROUP 561; GROUP 562; 0].

Definition ud_itab__563 : list Z :=
  [634; 0].

Definition ud_itab__564 : list Z :=
  [635; 0].

Definition ud_itab__565 : list Z :=
  [642; 0].

Definition ud_itab__566 : list Z :=
  [643; 0].

Definition ud_itab__567 : list Z :=
  [650; 0].

Definition ud_itab__568 : list Z :=
  [657; 0].

Definition ud_itab__569 : list Z :=
  [664; 0].

Definition ud_itab__570 : list Z :=
  [671; 0].

Definition ud_itab__572 : list Z :=
  [704; 0].

Definition ud_itab__573 : list Z :=
  [705; 0].

Definition ud_itab__571 : list Z :=
  [GROUP 572; GROUP 573; 0].

Definition ud_itab__575 : list Z :=
  [706; 0].

Definition ud_itab__576 : list Z :=
  [707; 0].

Definition ud_itab__574 : list Z :=
  [GROUP 575; GROUP 576; 0].

Definition ud_itab__577 : list Z :=
  [708; 0].

Definition ud_itab__578 : list Z :=
  [709; 710].

Definition ud_itab__579 : list Z :=
  [716; 717; 0].

Definition ud_itab__580 : list Z :=
  [719; 720; 0].

Definition ud_itab__581 : list Z :=
  [737; 738; 739; 740; 741; 742; 743; 744].

Definition ud_itab__582 : list Z :=
  [745; 746; 747; 748; 749; 750; 751; 752].

Definition ud_itab__584 : list Z :=
  [753; 0].

Definition ud_itab__585 : list Z :=
  [754; 0].

Definition ud_itab__586 : list Z :=
  [755; 0].

Definition ud_itab__587 : list Z :=
  [756; 0].

Definition ud_itab__588 : list Z :=
  [757; 0].

Definition ud_itab__589 : list Z :=
  [758; 0].

Definition ud_itab__590 : list Z :=
  [759; 0].

Definition ud_itab__591 : list Z :=
  [760; 0].

Definition ud_itab__583 : list Z :=
  [GROUP 584; GROUP 585; GROUP 586; GROUP 587; GROUP 588; GROUP 589; GROUP 590; GROUP 591].

Definition ud_itab__592 : list Z :=
  [761; 762; 763; 764; 765; 766; 767; 768].

Definition ud_itab__593 : list Z :=
  [780; 0; 0; 0; 0; 0; 0; 0].

Definition ud_itab__594 : list Z :=
  [789; 790; 791].

Definition ud_itab__595 : list Z :=
  [792; 793; 794].

Definition ud_itab__596 : list Z :=
  [795; 0].

Definition ud_itab__598 : list Z :=
  [797; 798].

Definition ud_itab__599 : list Z :=
  [799; 800].

Definition ud_itab__600 : list Z :=
  [0; 801].

Definition ud_itab__597 : list Z :=
  [GROUP 598; GROUP 599; GROUP 600].

Definition ud_itab__602 : list Z :=
  [802; 0].

Definition ud_itab__603 : list Z :=
  [803; 804].

Definition ud_itab__604 : list Z :=
  [0; 805].

Definition ud_itab__601 : list Z :=
  [GROUP 602; GROUP 603; GROUP 604].

Definition ud_itab__605 : list Z :=
  [813; 814; 815].

Definition ud_itab__606 : list Z :=
  [817; 818; 819].

Definition ud_itab__607 : list Z :=
  [823; 824; 825].

Definition ud_itab__608 : list Z :=
  [827; 828; 829].

Definition ud_itab__609 : list Z :=
  [831; 832; 833].

Definition ud_itab__610 : list Z :=
  [850; 851; 852; 853; 854; 855; 856; 857].

Definition ud_itab__611 : list Z :=
  [858; 859; 860; 861; 862; 863; 864; 865].

Definition ud_itab__612 : list Z :=
  [868; 0].

Definition ud_itab__613 : list Z :=
  [869; 0].

Definition ud_itab__614 : list Z :=
  [870; 0; 0; 0; 0; 0; 0; 0].

Definition ud_itab__615 : list Z :=
  [871; 0; 0; 0; 0; 0; 0; 0].

Definition ud_itab__616 : list Z :=
  [878; 0].

Definition ud_itab__617 : list Z :=
  [879; 880; 881].

Definition ud_itab__618 : list Z :=
  [882; 883; 884; 885; 886; 887; 888; 889].

Definition ud_itab__619 : list Z :=
  [890; 891; 892; 893; 894; 895; 896; 897].

Definition ud_itab__620 : list Z :=
  [898; 899; 900; 901; 902; 903; 904; 905].

Definition ud_itab__621 : list Z :=
  [906; 907; 908; 909; 910; 911; 912; 913].

Definition ud_itab__622 : list Z :=
  [914; 0].

Definition ud_itab__623 : list Z :=
  [915; 0].

Definition ud_itab__624 : list Z :=
  [916; 0].

Definition ud_itab__627 : list Z :=
  [918; 0].

Definition ud_itab__628 : list Z :=
  [919; 0].

Definition ud_itab__629 : list Z :=
  [920; 0].

Definition ud_itab__630 : list Z :=
  [921; 0].

Definition ud_itab__631 : list Z :=
  [922; 0].

Definition ud_itab__632 : list Z :=
  [923; 0].

Definition ud_itab__633 : list Z :=
  [924; 0].

Definition ud_itab__634 : list Z :=
  [925; 0].

Definition ud_itab__626 : list Z :=
  [GROUP 627; GROUP 628; GROUP 629; GROUP 630; GROUP 631; GROUP 632; GROUP 633; GROUP 634].

Definition ud_itab__636 : list Z :=
  [0; 926].

Definition ud_itab__637 : list Z :=
  [0; 927].

Definition ud_itab__638 : list Z :=
  [0; 928].

Definition ud_itab__639 : list Z :=
  [0; 929].

Definition ud_itab__640 : list Z :=
  [0; 930].

Definition ud_itab__641 : list Z :=
  [0; 931].

Definition ud_itab__642 : list Z :=
  [0; 932].

Definition ud_itab__643 : list Z :=
  [0; 933].

Definition ud_itab__644 : list Z :=
  [0; 934].

Definition ud_itab__645 : list Z :=
  [0; 935].

Definition ud_itab__646 : list Z :=
  [0; 936].

Definition ud_itab__647 : list Z :=
  [0; 937].

Definition ud_itab__648 : list Z :=
  [0; 938].

Definition ud_itab__649 : list Z :=
  [0; 939].

Definition ud_itab__650 : list Z :=
  [0; 940].

Definition ud_itab__651 : list Z :=
  [0; 941].

Definition ud_itab__652 : list Z :=
  [0; 942].

Definition ud_itab__653 : list Z :=
  [0; 943].

Definition ud_itab__654 : list Z :=
  [0; 944].

Definition ud_itab__655 : list Z :=
  [0; 945].

Definition ud_itab__656 : list Z :=
  [0; 946].

Definition ud_itab__657 : list Z :=
  [0; 947].

Definition ud_itab__658 : list Z :=
  [0; 948].

Definition ud_itab__659 : list Z :=
  [0; 949].

Definition ud_itab__660 : list Z :=
  [0; 950].

Definition ud_itab__661 : list Z :=
  [0; 951].

Definition ud_itab__662 : list Z :=
  [0; 952].

Definition ud_itab__663 : list Z :=
  [0; 953].

Definition ud_itab__664 : list Z :=
  [0; 954].

Definition ud_itab__665 : list Z :=
  [0; 955].

Definition ud_itab__666 : list Z :=
  [0; 956].

Definition ud_itab__667 : list Z :=
  [0; 957].

Definition ud_itab__668 : list Z :=
  [0; 958].

Definition ud_itab__669 : list Z :=
  [0; 959].

Definition ud_itab__670 : list Z :=
  [0; 960].

Definition ud_itab__671 : list Z :=
  [0; 961].

Definition ud_itab__672 : list Z :=
  [0; 962].

Definition ud_itab__673 : list Z :=
  [0; 963].

Definition ud_itab__674 : list Z :=
  [0; 964].

Definition ud_itab__675 : list Z :=
  [0; 965].

Definition ud_itab__676 : list Z :=
  [0; 966].

Definition ud_itab__677 : list Z :=
  [0; 967].

Definition ud_itab__678 : list Z :=
  [0; 968].

Definition ud_itab__679 : list Z :=
  [0; 969].

Definition ud_itab__680 : list Z :=
  [0; 970].

Definition ud_itab__681 : list Z :=
  [0; 971].

Definition ud_itab__682 : list Z :=
  [0; 972].

Definition ud_itab__683 : list Z :=
  [0; 973].

Definition ud_itab__684 : list Z :=
  [0; 974].

Definition ud_itab__685 : list Z :=
  [0; 975].

Definition ud_itab__686 : list Z :=
  [0; 976].

Definition ud_itab__687 : list Z :=
  [0; 977].

Definition ud_itab__688 : list Z :=
  [0; 978].

Definition ud_itab__689 : list Z :=
  [0; 979].

Definition ud_itab__690 : list Z :=
  [0; 980].

Definition ud_itab__691 : list Z :=
  [0; 981].

Definition ud_itab__692 : list Z :=
  [0; 982].

Definition ud_itab__693 : list Z :=
  [0; 983].

Definition ud_itab__694 : list Z :=
  [0; 984].

Definition ud_itab__695 : list Z :=
  [0; 985].

Definition ud_itab__696 : list Z :=
  [0; 986].

Definition ud_itab__697 : list Z :=
  [0; 987].

Definition ud_itab__698 : list Z :=
  [0; 988].

Definition ud_itab__699 : list Z :=
  [0; 989].

Definition ud_itab__635 : list Z :=
  [GROUP 636; GROUP 637; GROUP 638; GROUP 639; GROUP 640; GROUP 641; GROUP 642; GROUP 643;
   GROUP 644; GROUP 645; GROUP 646; GROUP 647; GROUP 648; GROUP 649; GROUP 650; GROUP 651;
   GROUP 652; GROUP 653; GROUP 654; GROUP 655; GROUP 656; GROUP 657; GROUP 658; GROUP 659;
   GROUP 660; GROUP 661; GROUP 662; GROUP 663; GROUP 664; GROUP 665; GROUP 666; GROUP 667;
   GROUP 668; GROUP 669; GROUP 670; GROUP 671; GROUP 672; GROUP 673; GROUP 674; GROUP 675;
   GROUP 676; GROUP 677; GROUP 678; GROUP 679; GROUP 680; GROUP 681; GROUP 682; GROUP 683;
   GROUP 684; GROUP 685; GROUP 686; GROUP 687; GROUP 688; GROUP 689; GROUP 690; GROUP 691;
   GROUP 692; GROUP 693; GROUP 694; GROUP 695; GROUP 696; GROUP 697; GROUP 698; GROUP 699].

Definition ud_itab__625 : list Z :=
  [GROUP 626; GROUP 635].

Definition ud_itab__702 : list Z :=
  [990; 0].

Definition ud_itab__703 : list Z :=
  [991; 0].

Definition ud_itab__704 : list Z :=
  [992; 0].

Definition ud_itab__705 : list Z :=
  [993; 0].

Definition ud_itab__706 : list Z :=
  [994; 0].

Definition ud_itab__707 : list Z :=
  [995; 0].

Definition ud_itab__708 : list Z :=
  [996; 0].

Definition ud_itab__701 : list Z :=
  [GROUP 702; 0; GROUP 703; GROUP 704; GROUP 705; GROUP 706; GROUP 707; GROUP 708].

Definition ud_itab__710 : list Z :=
  [0; 997].

Definition ud_itab__711 : list Z :=
  [0; 998].

Definition ud_itab__712 : list Z :=
  [0; 999].

Definition ud_itab__713 : list Z :=
  [0; 1000].

Definition ud_itab__714 : list Z :=
  [0; 1001].

Definition ud_itab__715 : list Z :=
  [0; 1002].

Definition ud_itab__716 : list Z :=
  [0; 1003].

Definition ud_itab__717 : list Z :=
  [0; 1004].

Definition ud_itab__718 : list Z :=
  [0; 1005].

Definition ud_itab__719 : list Z :=
  [0; 1006].

Definition ud_itab__720 : list Z :=
  [0; 1007].

Definition ud_itab__721 : list Z :=
  [0; 1008].

Definition ud_itab__722 : list Z :=
  [0; 1009].

Definition ud_itab__723 : list Z :=
  [0; 1010].

Definition ud_itab__724 : list Z :=
  [0; 1011].

Definition ud_itab__725 : list Z :=
  [0; 1012].

Definition ud_itab__726 : list Z :=
  [0; 1013].

Definition ud_itab__727 : list Z :=
  [0; 1014].

Definition ud_itab__728 : list Z :=
  [0; 1015].

Definition ud_itab__729 : list Z :=
  [0; 1016].

Definition ud_itab__730 : list Z :=
  [0; 1017].

Definition ud_itab__731 : list Z :=
  [0; 1018].

Definition ud_itab__732 : list Z :=
  [0; 1019].

Definition ud_itab__733 : list Z :=
  [0; 1020].

Definition ud_itab__734 : list Z :=
  [0; 1021].

Definition ud_itab__735 : list Z :=
  [0; 1022].

Definition ud_itab__736 : list Z :=
  [0; 1023].

Definition ud_itab__737 : list Z :=
  [0; 1024].

Definition ud_itab__738 : list Z :=
  [0; 1025].

Definition ud_itab__739 : list Z :=
  [0; 1026].

Definition ud_itab__740 : list Z :=
  [0; 1027].

Definition ud_itab__741 : list Z :=
  [0; 1028].

Definition ud_itab__742 : list Z :=
  [0; 1029].

Definition ud_itab__743 : list Z :=
  [0; 1030].

Definition ud_itab__744 : list Z :=
  [0; 1031].

Definition ud_itab__745 : list Z :=
  [0; 1032].

Definition ud_itab__746 : list Z :=
  [0; 1033].

Definition ud_itab__747 : list Z :=
  [0; 1034].

Definition ud_itab__748 : list Z :=
  [0; 1035].

Definition ud_itab__749 : list Z :=
  [0; 1036].

Definition ud_itab__750 : list Z :=
  [0; 1037].

Definition ud_itab__751 : list Z :=
  [0; 1038].

Definition ud_itab__752 : list Z :=
  [0; 1039].

Definition ud_itab__753 : list Z :=
  [0; 1040].

Definition ud_itab__754 : list Z :=
  [0; 1041].

Definition ud_itab__755 : list Z :=
  [0; 1042].

Definition ud_itab__756 : list Z :=
  [0; 1043].

Definition ud_itab__757 : list Z :=
  [0; 1044].

Definition ud_itab__758 : list Z :=
  [0; 1045].

Definition ud_itab__759 : list Z :=
  [0; 1046].

Definition ud_itab__760 : list Z :=
  [0; 1047].

Definition ud_itab__761 : list Z :=
  [0; 1048].

Definition ud_itab__709 : list Z :=
  [GROUP 710; GROUP 711; GROUP 712; GROUP 713; GROUP 714; GROUP 715; GROUP 716; GROUP 717;
   GROUP 718; GROUP 719; GROUP 720; GROUP 721; GROUP 722; GROUP 723; GROUP 724; GROUP 725;
   GROUP 726; 0; 0; 0; 0; 0; 0; 0; GROUP 727; GROUP 728; GROUP 729; GROUP 730; GROUP 731;
   GROUP 732; GROUP 733; GROUP 734; GROUP 735; GROUP 736; 0; 0; GROUP 737; GROUP 738; 0; 0;
   GROUP 739; GROUP 740; GROUP 741; GROUP 742; GROUP 743; GROUP 744; GROUP 745; 0; GROUP 746;
   GROUP 747; GROUP 748; GROUP 749; GROUP 750; GROUP 751; GROUP 752; GROUP 753; GROUP 754;
   GROUP 755; GROUP 756; GROUP 757; GROUP 758; GROUP 759; GROUP 760; GROUP 761].

Definition ud_itab__700 : list Z :=
  [GROUP 701; GROUP 709].

Definition ud_itab__764 : list Z :=
  [1049; 0].

Definition ud_itab__765 : list Z :=
  [1050; 0].

Definition ud_itab__766 : list Z :=
  [1051; 0].

Definition ud_itab__767 : list Z :=
  [1052; 0].

Definition ud_itab__768 : list Z :=
  [1053; 0].

Definition ud_itab__769 : list Z :=
  [1054; 0].

Definition ud_itab__770 : list Z :=
  [1055; 0].

Definition ud_itab__771 : list Z :=
  [1056; 0].

Definition ud_itab__763 : list Z :=
  [GROUP 764; GROUP 765; GROUP 766; GROUP 767; GROUP 768; GROUP 769; GROUP 770; GROUP 771].

Definition ud_itab__773 : list Z :=
  [0; 1057].

Definition ud_itab__774 : list Z :=
  [0; 1058].

Definition ud_itab__775 : list Z :=
  [0; 1059].

Definition ud_itab__776 : list Z :=
  [0; 1060].

Definition ud_itab__777 : list Z :=
  [0; 1061].

Definition ud_itab__778 : list Z :=
  [0; 1062].

Definition ud_itab__779 : list Z :=
  [0; 1063].

Definition ud_itab__780 : list Z :=
  [0; 1064].

Definition ud_itab__781 : list Z :=
  [0; 1065].

Definition ud_itab__782 : list Z :=
  [0; 1066].

Definition ud_itab__783 : list Z :=
  [0; 1067].

Definition ud_itab__784 : list Z :=
  [0; 1068].

Definition ud_itab__785 : list Z :=
  [0; 1069].

Definition ud_itab__786 : list Z :=
  [0; 1070].

Definition ud_itab__787 : list Z :=
  [0; 1071].

Definition ud_itab__788 : list Z :=
  [0; 1072].

Definition ud_itab__789 : list Z :=
  [0; 1073].

Definition ud_itab__790 : list Z :=
  [0; 1074].

Definition ud_itab__791 : list Z :=
  [0; 1075].

Definition ud_itab__792 : list Z :=
  [0; 1076].

Definition ud_itab__793 : list Z :=
  [0; 1077].

Definition ud_itab__794 : list Z :=
  [0; 1078].

Definition ud_itab__795 : list Z :=
  [0; 1079].

Definition ud_itab__796 : list Z :=
  [0; 1080].

Definition ud_itab__797 : list Z :=
  [0; 1081].

Definition ud_itab__798 : list Z :=
  [0; 1082].

Definition ud_itab__799 : list Z :=
  [0; 1083].

Definition ud_itab__800 : list Z :=
  [0; 1084].

Definition ud_itab__801 : list Z :=
  [0; 1085].

Definition ud_itab__802 : list Z :=
  [0; 1086].

Definition ud_itab__803 : list Z :=
  [0; 1087].

Definition ud_itab__804 : list Z :=
  [0; 1088].

Definition ud_itab__805 : list Z :=
  [0; 1089].

Definition ud_itab__772 : list Z :=
  [GROUP 773; GROUP 774; GROUP 775; GROUP 776; GROUP 777; GROUP 778; GROUP 779; GROUP 780;
   GROUP 781; GROUP 782; GROUP 783; GROUP 784; GROUP 785; GROUP 786; GROUP 787; GROUP 788;
   GROUP 789; GROUP 790; GROUP 791; GROUP 792; GROUP 793; GROUP 794; GROUP 795; GROUP 796;
   GROUP 797; GROUP 798; GROUP 799; GROUP 800; GROUP 801; GROUP 802; GROUP 803; GROUP 804; 0; 0; 0;
   0; 0; 0; 0; 0; 0; GROUP 805; 0; 0; 0; 0; 0; 0; 0; 0; 0; 0; 0; 0; 0; 0; 0; 0; 0; 0; 0; 0; 0; 0].

Definition ud_itab__762 : list Z :=
  [GROUP 763; GROUP 772].

Definition ud_itab__808 : list Z :=
  [1090; 0].

Definition ud_itab__809 : list Z :=
  [1091; 0].

Definition ud_itab__810 : list Z :=
  [1092; 0].

Definition ud_itab__811 : list Z :=
  [1093; 0].

Definition ud_itab__812 : list Z :=
  [1094; 0].

Definition ud_itab__813 : list Z :=
  [1095; 0].

Definition ud_itab__807 : list Z :=
  [GROUP 808; GROUP 809; GROUP 810; GROUP 811; 0; GROUP 812; 0; GROUP 813].

Definition ud_itab__815 : list Z :=
  [0; 1096].

Definition ud_itab__816 : list Z :=
  [0; 1097].

Definition ud_itab__817 : list Z :=
  [0; 1098].

Definition ud_itab__818 : list Z :=
  [0; 1099].

Definition ud_itab__819 : list Z :=
  [0; 1100].

Definition ud_itab__820 : list Z :=
  [0; 1101].

Definition ud_itab__821 : list Z :=
  [0; 1102].

Definition ud_itab__822 : list Z :=
  [0; 1103].

Definition ud_itab__823 : list Z :=
  [0; 1104].

Definition ud_itab__824 : list Z :=
  [0; 1105].

Definition ud_itab__825 : list Z :=
  [0; 1106].

Definition ud_itab__826 : list Z :=
  [0; 1107].

Definition ud_itab__827 : list Z :=
  [0; 1108].

Definition ud_itab__828 : list Z :=
  [0; 1109].

Definition ud_itab__829 : list Z :=
  [0; 1110].

Definition ud_itab__830 : list Z :=
  [0; 1111].

Definition ud_itab__831 : list Z :=
  [0; 1112].

Definition ud_itab__832 : list Z :=
  [0; 1113].

Definition ud_itab__833 : list Z :=
  [0; 1114].

Definition ud_itab__834 : list Z :=
  [0; 1115].

Definition ud_itab__835 : list Z :=
  [0; 1116].

Definition ud_itab__836 : list Z :=
  [0; 1117].

Definition ud_itab__837 : list Z :=
  [0; 1118].

Definition ud_itab__838 : list Z :=
  [0; 1119].

Definition ud_itab__839 : list Z :=
  [0; 1120].

Definition ud_itab__840 : list Z :=
  [0; 1121].

Definition ud_itab__841 : list Z :=
  [0; 1122].

Definition ud_itab__842 : list Z :=
  [0; 1123].

Definition ud_itab__843 : list Z :=
  [0; 1124].

Definition ud_itab__844 : list Z :=
  [0; 1125].

Definition ud_itab__845 : list Z :=
  [0; 1126].

Definition ud_itab__846 : list Z :=
  [0; 1127].

Definition ud_itab__847 : list Z :=
  [0; 1128].

Definition ud_itab__848 : list Z :=
  [0; 1129].

Definition ud_itab__849 : list Z :=
  [0; 1130].

Definition ud_itab__850 : list Z :=
  [0; 1131].

Definition ud_itab__851 : list Z :=
  [0; 1132].

Definition ud_itab__852 : list Z :=
  [0; 1133].

Definition ud_itab__853 : list Z :=
  [0; 1134].

Definition ud_itab__854 : list Z :=
  [0; 1135].

Definition ud_itab__855 : list Z :=
  [0; 1136].

Definition ud_itab__856 : list Z :=
  [0; 1137].

Definition ud_itab__857 : list Z :=
  [0; 1138].

Definition ud_itab__858 : list Z :=
  [0; 1139].

Definition ud_itab__859 : list Z :=
  [0; 1140].

Definition ud_itab__860 : list Z :=
  [0; 1141].

Definition ud_itab__861 : list Z :=
  [0; 1142].

Definition ud_itab__862 : list Z :=
  [0; 1143].

Definition ud_itab__863 : list Z :=
  [0; 1144].

Definition ud_itab__864 : list Z :=
  [0; 1145].

Definition ud_itab__814 : list Z :=
  [GROUP 815; GROUP 816; GROUP 817; GROUP 818; GROUP 819; GROUP 820; GROUP 821; GROUP 822;
   GROUP 823; GROUP 824; GROUP 825; GROUP 826; GROUP 827; GROUP 828; GROUP 829; GROUP 830;
   GROUP 831; GROUP 832; GROUP 833; GROUP 834; GROUP 835; GROUP 836; GROUP 837; GROUP 838;
   GROUP 839; GROUP 840; GROUP 841; GROUP 842; GROUP 843; GROUP 844; GROUP 845; GROUP 846; 0; 0;
   GROUP 847; GROUP 848; 0; 0; 0; 0; GROUP 849; GROUP 850; GROUP 851; GROUP 852; GROUP 853;
   GROUP 854; GROUP 855; GROUP 856; GROUP 857; GROUP 858; GROUP 859; GROUP 860; GROUP 861;
   GROUP 862; GROUP 863; GROUP 864; 0; 0; 0; 0; 0; 0; 0; 0].

Definition ud_itab__806 : list Z :=
  [GROUP 807; GROUP 814].

Definition ud_itab__867 : list Z :=
  [1146; 0].

Definition ud_itab__868 : list Z :=
  [1147; 0].

Definition ud_itab__869 : list Z :=
  [1148; 0].

Definition ud_itab__870 : list Z :=
  [1149; 0].

Definition ud_itab__871 : list Z :=
  [1150; 0].

Definition ud_itab__872 : list Z :=
  [1151; 0].

Definition ud_itab__873 : list Z :=
  [1152; 0].

Definition ud_itab__874 : list Z :=
  [1153; 0].

Definition ud_itab__866 : list Z :=
  [GROUP 867; GROUP 868; GROUP 869; GROUP 870; GROUP 871; GROUP 872; GROUP 873; GROUP 874].

Definition ud_itab__876 : list Z :=
  [0; 1154].

Definition ud_itab__877 : list Z :=
  [0; 1155].

Definition ud_itab__878 : list Z :=
  [0; 1156].

Definition ud_itab__879 : list Z :=
  [0; 1157].

Definition ud_itab__880 : list Z :=
  [0; 1158].

Definition ud_itab__881 : list Z :=
  [0; 1159].

Definition ud_itab__882 : list Z :=
  [0; 1160].

Definition ud_itab__883 : list Z :=
  [0; 1161].

Definition ud_itab__884 : list Z :=
  [0; 1162].

Definition ud_itab__885 : list Z :=
  [0; 1163].

Definition ud_itab__886 : list Z :=
  [0; 1164].

Definition ud_itab__887 : list Z :=
  [0; 1165].

Definition ud_itab__888 : list Z :=
  [0; 1166].

Definition ud_itab__889 : list Z :=
  [0; 1167].

Definition ud_itab__890 : list Z :=
  [0; 1168].

Definition ud_itab__891 : list Z :=
  [0; 1169].

Definition ud_itab__892 : list Z :=
  [0; 1170].

Definition ud_itab__893 : list Z :=
  [0; 1171].

Definition ud_itab__894 : list Z :=
  [0; 1172].

Definition ud_itab__895 : list Z :=
  [0; 1173].

Definition ud_itab__896 : list Z :=
  [0; 1174].

Definition ud_itab__897 : list Z :=
  [0; 1175].

Definition ud_itab__898 : list Z :=
  [0; 1176].

Definition ud_itab__899 : list Z :=
  [0; 1177].

Definition ud_itab__900 : list Z :=
  [0; 1178].

Definition ud_itab__901 : list Z :=
  [0; 1179].

Definition ud_itab__902 : list Z :=
  [0; 1180].

Definition ud_itab__903 : list Z :=
  [0; 1181].

Definition ud_itab__904 : list Z :=
  [0; 1182].

Definition ud_itab__905 : list Z :=
  [0; 1183].

Definition ud_itab__906 : list Z :=
  [0; 1184].

Definition ud_itab__907 : list Z :=
  [0; 1185].

Definition ud_itab__908 : list Z :=
  [0; 1186].

Definition ud_itab__909 : list Z :=
  [0; 1187].

Definition ud_itab__910 : list Z :=
  [0; 1188].

Definition ud_itab__911 : list Z :=
  [0; 1189].

Definition ud_itab__912 : list Z :=
  [0; 1190].

Definition ud_itab__913 : list Z :=
  [0; 1191].

Definition ud_itab__914 : list Z :=
  [0; 1192].

Definition ud_itab__915 : list Z :=
  [0; 1193].

Definition ud_itab__916 : list Z :=
  [0; 1194].

Definition ud_itab__917 : list Z :=
  [0; 1195].

Definition ud_itab__918 : list Z :=
  [0; 1196].

Definition ud_itab__919 : list Z :=
  [0; 1197].

Definition ud_itab__920 : list Z :=
  [0; 1198].

Definition ud_itab__921 : list Z :=
  [0; 1199].

Definition ud_itab__922 : list Z :=
  [0; 1200].

Definition ud_itab__923 : list Z :=
  [0; 1201].

Definition ud_itab__924 : list Z :=
  [0; 1202].

Definition ud_itab__925 : list Z :=
  [0; 1203].

Definition ud_itab__926 : list Z :=
  [0; 1204].

Definition ud_itab__927 : list Z :=
  [0; 1205].

Definition ud_itab__928 : list Z :=
  [0; 1206].

Definition ud_itab__929 : list Z :=
  [0; 1207].

Definition ud_itab__930 : list Z :=
  [0; 1208].

Definition ud_itab__931 : list Z :=
  [0; 1209].

Definition ud_itab__932 : list Z :=
  [0; 1210].

Definition ud_itab__933 : list Z :=
  [0; 1211].

Definition ud_itab__934 : list Z :=
  [0; 1212].

Definition ud_itab__935 : list Z :=
  [0; 1213].

Definition ud_itab__936 : list Z :=
  [0; 1214].

Definition ud_itab__937 : list Z :=
  [0; 1215].

Definition ud_itab__938 : list Z :=
  [0; 1216].

Definition ud_itab__939 : list Z :=
  [0; 1217].

Definition ud_itab__875 : list Z :=
  [GROUP 876; GROUP 877; GROUP 878; GROUP 879; GROUP 880; GROUP 881; GROUP 882; GROUP 883;
   GROUP 884; GROUP 885; GROUP 886; GROUP 887; GROUP 888; GROUP 889; GROUP 890; GROUP 891;
   GROUP 892; GROUP 893; GROUP 894; GROUP 895; GROUP 896; GROUP 897; GROUP 898; GROUP 899;
   GROUP 900; GROUP 901; GROUP 902; GROUP 903; GROUP 904; GROUP 905; GROUP 906; GROUP 907;
   GROUP 908; GROUP 909; GROUP 910; GROUP 911; GROUP 912; GROUP 913; GROUP 914; GROUP 915;
   GROUP 916; GROUP 917; GROUP 918; GROUP 919; GROUP 920; GROUP 921; GROUP 922; GROUP 923;
   GROUP 924; GROUP 925; GROUP 926; GROUP 927; GROUP 928; GROUP 929; GROUP 930; GROUP 931;
   GROUP 932; GROUP 933; GROUP 934; GROUP 935; GROUP 936; GROUP 937; GROUP 938; GROUP 939].

Definition ud_itab__865 : list Z :=
  [GROUP 866; GROUP 875].

Definition ud_itab__942 : list Z :=
  [1218; 0].

Definition ud_itab__943 : list Z :=
  [1219; 0].

Definition ud_itab__944 : list Z :=
  [1220; 0].

Definition ud_itab__945 : list Z :=
  [1221; 0].

Definition ud_itab__946 : list Z :=
  [1222; 0].

Definition ud_itab__947 : list Z :=
  [1223; 0].

Definition ud_itab__948 : list Z :=
  [1224; 0].

Definition ud_itab__941 : list Z :=
  [GROUP 942; GROUP 943; GROUP 944; GROUP 945; GROUP 946; 0; GROUP 947; GROUP 948].

Definition ud_itab__950 : list Z :=
  [0; 1225].

Definition ud_itab__951 : list Z :=
  [0; 1226].

Definition ud_itab__952 : list Z :=
  [0; 1227].

Definition ud_itab__953 : list Z :=
  [0; 1228].

Definition ud_itab__954 : list Z :=
  [0; 1229].

Definition ud_itab__955 : list Z :=
  [0; 1230].

Definition ud_itab__956 : list Z :=
  [0; 1231].

Definition ud_itab__957 : list Z :=
  [0; 1232].

Definition ud_itab__958 : list Z :=
  [0; 1233].

Definition ud_itab__959 : list Z :=
  [0; 1234].

Definition ud_itab__960 : list Z :=
  [0; 1235].

Definition ud_itab__961 : list Z :=
  [0; 1236].

Definition ud_itab__962 : list Z :=
  [0; 1237].

Definition ud_itab__963 : list Z :=
  [0; 1238].

Definition ud_itab__964 : list Z :=
  [0; 1239].

Definition ud_itab__965 : list Z :=
  [0; 1240].

Definition ud_itab__966 : list Z :=
  [0; 1241].

Definition ud_itab__967 : list Z :=
  [0; 1242].

Definition ud_itab__968 : list Z :=
  [0; 1243].

Definition ud_itab__969 : list Z :=
  [0; 1244].

Definition ud_itab__970 : list Z :=
  [0; 1245].

Definition ud_itab__971 : list Z :=
  [0; 1246].

Definition ud_itab__972 : list Z :=
  [0; 1247].

Definition ud_itab__973 : list Z :=
  [0; 1248].

Definition ud_itab__974 : list Z :=
  [0; 1249].

Definition ud_itab__975 : list Z :=
  [0; 1250].

Definition ud_itab__976 : list Z :=
  [0; 1251].

Definition ud_itab__977 : list Z :=
  [0; 1252].

Definition ud_itab__978 : list Z :=
  [0; 1253].

Definition ud_itab__979 : list Z :=
  [0; 1254].

Definition ud_itab__980 : list Z :=
  [0; 1255].

Definition ud_itab__981 : list Z :=
  [0; 1256].

Definition ud_itab__982 : list Z :=
  [0; 1257].

Definition ud_itab__983 : list Z :=
  [0; 1258].

Definition ud_itab__984 : list Z :=
  [0; 1259].

Definition ud_itab__985 : list Z :=
  [0; 1260].

Definition ud_itab__986 : list Z :=
  [0; 1261].

Definition ud_itab__987 : list Z :=
  [0; 1262].

Definition ud_itab__988 : list Z :=
  [0; 1263].

Definition ud_itab__989 : list Z :=
  [0; 1264].

Definition ud_itab__990 : list Z :=
  [0; 1265].

Definition ud_itab__991 : list Z :=
  [0; 1266].

Definition ud_itab__992 : list Z :=
  [0; 1267].

Definition ud_itab__993 : list Z :=
  [0; 1268].

Definition ud_itab__994 : list Z :=
  [0; 1269].

Definition ud_itab__995 : list Z :=
  [0; 1270].

Definition ud_itab__996 : list Z :=
  [0; 1271].

Definition ud_itab__997 : list Z :=
  [0; 1272].

Definition ud_itab__949 : list Z :=
  [GROUP 950; GROUP 951; GROUP 952; GROUP 953; GROUP 954; GROUP 955; GROUP 956; GROUP 957;
   GROUP 958; GROUP 959; GROUP 960; GROUP 961; GROUP 962; GROUP 963; GROUP 964; GROUP 965;
   GROUP 966; GROUP 967; GROUP 968; GROUP 969; GROUP 970; GROUP 971; GROUP 972; GROUP 973;
   GROUP 974; GROUP 975; GROUP 976; GROUP 977; GROUP 978; GROUP 979; GROUP 980; GROUP 981;
   GROUP 982; GROUP 983; GROUP 984; GROUP 985; GROUP 986; GROUP 987; GROUP 988; GROUP 989;
   GROUP 990; GROUP 991; GROUP 992; GROUP 993; GROUP 994; GROUP 995; GROUP 996; GROUP 997; 0; 0; 0;
   0; 0; 0; 0; 0; 0; 0; 0; 0; 0; 0; 0; 0].

Definition ud_itab__940 : list Z :=
  [GROUP 941; GROUP 949].

Definition ud_itab__1000 : list Z :=
  [1273; 0].

Definition ud_itab__1001 : list Z :=
  [1274; 0].

Definition ud_itab__1002 : list Z :=
  [1275; 0].

Definition ud_itab__1003 : list Z :=
  [1276; 0].

Definition ud_itab__1004 : list Z :=
  [1277; 0].

Definition ud_itab__1005 : list Z :=
  [1278; 0].

Definition ud_itab__1006 : list Z :=
  [1279; 0].

Definition ud_itab__1007 : list Z :=
  [1280; 0].

Definition ud_itab__999 : list Z :=
  [GROUP 1000; GROUP 1001; GROUP 1002; GROUP 1003; GROUP 1004; GROUP 1005; GROUP 1006; GROUP 1007].

Definition ud_itab__1009 : list Z :=
  [0; 1281].

Definition ud_itab__1010 : list Z :=
  [0; 1282].

Definition ud_itab__1011 : list Z :=
  [0; 1283].

Definition ud_itab__1012 : list Z :=
  [0; 1284].

Definition ud_itab__1013 : list Z :=
  [0; 1285].

Definition ud_itab__1014 : list Z :=
  [0; 1286].

Definition ud_itab__1015 : list Z :=
  [0; 1287].

Definition ud_itab__1016 : list Z :=
  [0; 1288].

Definition ud_itab__1017 : list Z :=
  [0; 1289].

Definition ud_itab__1018 : list Z :=
  [0; 1290].

Definition ud_itab__1019 : list Z :=
  [0; 1291].

Definition ud_itab__1020 : list Z :=
  [0; 1292].

Definition ud_itab__1021 : list Z :=
  [0; 1293].

Definition ud_itab__1022 : list Z :=
  [0; 1294].

Definition ud_itab__1023 : list Z :=
  [0; 1295].

Definition ud_itab__1024 : list Z :=
  [0; 1296].

Definition ud_itab__1025 : list Z :=
  [0; 1297].

Definition ud_itab__1026 : list Z :=
  [0; 1298].

Definition ud_itab__1027 : list Z :=
  [0; 1299].

Definition ud_itab__1028 : list Z :=
  [0; 1300].

Definition ud_itab__1029 : list Z :=
  [0; 1301].

Definition ud_itab__1030 : list Z :=
  [0; 1302].

Definition ud_itab__1031 : list Z :=
  [0; 1303].

Definition ud_itab__1032 : list Z :=
  [0; 1304].

Definition ud_itab__1033 : list Z :=
  [0; 1305].

Definition ud_itab__1034 : list Z :=
  [0; 1306].

Definition ud_itab__1035 : list Z :=
  [0; 1307].

Definition ud_itab__1036 : list Z :=
  [0; 1308].

Definition ud_itab__1037 : list Z :=
  [0; 1309].

Definition ud_itab__1038 : list Z :=
  [0; 1310].

Definition ud_itab__1039 : list Z :=
  [0; 1311].

Definition ud_itab__1040 : list Z :=
  [0; 1312].

Definition ud_itab__1041 : list Z :=
  [0; 1313].

Definition ud_itab__1042 : list Z :=
  [0; 1314].

Definition ud_itab__1043 : list Z :=
  [0; 1315].

Definition ud_itab__1044 : list Z :=
  [0; 1316].

Definition ud_itab__1045 : list Z :=
  [0; 1317].

Definition ud_itab__1046 : list Z :=
  [0; 1318].

Definition ud_itab__1047 : list Z :=
  [0; 1319].

Definition ud_itab__1048 : list Z :=
  [0; 1320].

Definition ud_itab__1049 : list Z :=
  [0; 1321].

Definition ud_itab__1050 : list Z :=
  [0; 1322].

Definition ud_itab__1051 : list Z :=
  [0; 1323].

Definition ud_itab__1052 : list Z :=
  [0; 1324].

Definition ud_itab__1053 : list Z :=
  [0; 1325].

Definition ud_itab__1054 : list Z :=
  [0; 1326].

Definition ud_itab__1055 : list Z :=
  [0; 1327].

Definition ud_itab__1056 : list Z :=
  [0; 1328].

Definition ud_itab__1057 : list Z :=
  [0; 1329].

Definition ud_itab__1058 : list Z :=
  [0; 1330].

Definition ud_itab__1059 : list Z :=
  [0; 1331].

Definition ud_itab__1060 : list Z :=
  [0; 1332].

Definition ud_itab__1061 : list Z :=
  [0; 1333].

Definition ud_itab__1062 : list Z :=
  [0; 1334].

Definition ud_itab__1063 : list Z :=
  [0; 1335].

Definition ud_itab__1064 : list Z :=
  [0; 1336].

Definition ud_itab__1065 : list Z :=
  [0; 1337].

Definition ud_itab__1008 : list Z :=
  [GROUP 1009; GROUP 1010; GROUP 1011; GROUP 1012; GROUP 1013; GROUP 1014; GROUP 1015; GROUP 1016;
   GROUP 1017; GROUP 1018; GROUP 1019; GROUP 1020; GROUP 1021; GROUP 1022; GROUP 1023; GROUP 1024;
   GROUP 1025; GROUP 1026; GROUP 1027; GROUP 1028; GROUP 1029; GROUP 1030; GROUP 1031; GROUP 1032;
   0; GROUP 1033; 0; 0; 0; 0; 0; 0; GROUP 1034; GROUP 1035; GROUP 1036; GROUP 1037; GROUP 1038;
   GROUP 1039; GROUP 1040; GROUP 1041; GROUP 1042; GROUP 1043; GROUP 1044; GROUP 1045; GROUP 1046;
   GROUP 1047; GROUP 1048; GROUP 1049; GROUP 1050; GROUP 1051; GROUP 1052; GROUP 1053; GROUP 1054;
   GROUP 1055; GROUP 1056; GROUP 1057; GROUP 1058; GROUP 1059; GROUP 1060; GROUP 1061; GROUP 1062;
   GROUP 1063; GROUP 1064; GROUP 1065].

Definition ud_itab__998 : list Z :=
  [GROUP 999; GROUP 1008].

Definition ud_itab__1068 : list Z :=
  [1338; 0].

Definition ud_itab__1069 : list Z :=
  [1339; 0].

Definition ud_itab__1070 : list Z :=
  [1340; 0].

Definition ud_itab__1071 : list Z :=
  [1341; 0].

Definition ud_itab__1072 : list Z :=
  [1342; 0].

Definition ud_itab__1073 : list Z :=
  [1343; 0].

Definition ud_itab__1074 : list Z :=
  [1344; 0].

Definition ud_itab__1075 : list Z :=
  [1345; 0].

Definition ud_itab__1067 : list Z :=
  [GROUP 1068; GROUP 1069; GROUP 1070; GROUP 1071; GROUP 1072; GROUP 1073; GROUP 1074; GROUP 1075].

Definition ud_itab__1077 : list Z :=
  [0; 1346].

Definition ud_itab__1078 : list Z :=
  [0; 1347].

Definition ud_itab__1079 : list Z :=
  [0; 1348].

Definition ud_itab__1080 : list Z :=
  [0; 1349].

Definition ud_itab__1081 : list Z :=
  [0; 1350].

Definition ud_itab__1082 : list Z :=
  [0; 1351].

Definition ud_itab__1083 : list Z :=
  [0; 1352].

Definition ud_itab__1084 : list Z :=
  [0; 1353].

Definition ud_itab__1085 : list Z :=
  [0; 1354].

Definition ud_itab__1086 : list Z :=
  [0; 1355].

Definition ud_itab__1087 : list Z :=
  [0; 1356].

Definition ud_itab__1088 : list Z :=
  [0; 1357].

Definition ud_itab__1089 : list Z :=
  [0; 1358].

Definition ud_itab__1090 : list Z :=
  [0; 1359].

Definition ud_itab__1091 : list Z :=
  [0; 1360].

Definition ud_itab__1092 : list Z :=
  [0; 1361].

Definition ud_itab__1093 : list Z :=
  [0; 1362].

Definition ud_itab__1094 : list Z :=
  [0; 1363].

Definition ud_itab__1095 : list Z :=
  [0; 1364].

Definition ud_itab__1096 : list Z :=
  [0; 1365].

Definition ud_itab__1097 : list Z :=
  [0; 1366].

Definition ud_itab__1098 : list Z :=
  [0; 1367].

Definition ud_itab__1099 : list Z :=
  [0; 1368].

Definition ud_itab__1100 : list Z :=
  [0; 1369].

Definition ud_itab__1101 : list Z :=
  [0; 1370].

Definition ud_itab__1102 : list Z :=
  [0; 1371].

Definition ud_itab__1103 : list Z :=
  [0; 1372].

Definition ud_itab__1104 : list Z :=
  [0; 1373].

Definition ud_itab__1105 : list Z :=
  [0; 1374].

Definition ud_itab__1106 : list Z :=
  [0; 1375].

Definition ud_itab__1107 : list Z :=
  [0; 1376].

Definition ud_itab__1108 : list Z :=
  [0; 1377].

Definition ud_itab__1109 : list Z :=
  [0; 1378].

Definition ud_itab__1110 : list Z :=
  [0; 1379].

Definition ud_itab__1111 : list Z :=
  [0; 1380].

Definition ud_itab__1112 : list Z :=
  [0; 1381].

Definition ud_itab__1113 : list Z :=
  [0; 1382].

Definition ud_itab__1114 : list Z :=
  [0; 1383].

Definition ud_itab__1115 : list Z :=
  [0; 1384].

Definition ud_itab__1116 : list Z :=
  [0; 1385].

Definition ud_itab__1117 : list Z :=
  [0; 1386].

Definition ud_itab__1118 : list Z :=
  [0; 1387].

Definition ud_itab__1119 : list Z :=
  [0; 1388].

Definition ud_itab__1120 : list Z :=
  [0; 1389].

Definition ud_itab__1121 : list Z :=
  [0; 1390].

Definition ud_itab__1122 : list Z :=
  [0; 1391].

Definition ud_itab__1123 : list Z :=
  [0; 1392].

Definition ud_itab__1124 : list Z :=
  [0; 1393].

Definition ud_itab__1125 : list Z :=
  [0; 1394].

Definition ud_itab__1076 : list Z :=
  [GROUP 1077; GROUP 1078; GROUP 1079; GROUP 1080; GROUP 1081; GROUP 1082; GROUP 1083; GROUP 1084;
   GROUP 1085; GROUP 1086; GROUP 1087; GROUP 1088; GROUP 1089; GROUP 1090; GROUP 1091; GROUP 1092;
   GROUP 1093; GROUP 1094; GROUP 1095; GROUP 1096; GROUP 1097; GROUP 1098; GROUP 1099; GROUP 1100;
   GROUP 1101; GROUP 1102; GROUP 1103; GROUP 1104; GROUP 1105; GROUP 1106; GROUP 1107; GROUP 1108;
   GROUP 1109; 0; 0; 0; 0; 0; 0; 0; GROUP 1110; GROUP 1111; GROUP 1112; GROUP 1113; GROUP 1114;
   GROUP 1115; GROUP 1116; GROUP 1117; GROUP 1118; GROUP 1119; GROUP 1120; GROUP 1121; GROUP 1122;
   GROUP 1123; GROUP 1124; GROUP 1125; 0; 0; 0; 0; 0; 0; 0; 0].

Definition ud_itab__1066 : list Z :=
  [GROUP 1067; GROUP 1076].

Definition ud_itab__1126 : list Z :=
  [1398; 1399; 1400].

Definition ud_itab__1127 : list Z :=
  [1407; 0].

Definition ud_itab__1128 : list Z :=
  [1419; 1420; 1421; 1422; 1423; 1424; 1425; 1426].

Definition ud_itab__1129 : list Z :=
  [1427; 1428; 1429; 1430; 1431; 1432; 1433; 1434].

Definition ud_itab__1130 : list Z :=
  [1441; 1442; 0; 0; 0; 0; 0; 0].

Definition ud_itab__1132 : list Z :=
  [1445; 1446].

Definition ud_itab__1131 : list Z :=
  [1443; 1444; GROUP 1132; 1447; 1448; 1449; 1450; 0].

Definition ud_itab__0 : list Z :=
  [1; 2; 3; 4; 5; 6; GROUP 1; GROUP 2; 9; 10; 11; 12; 13; 14; GROUP 3; GROUP 4; 628; 629; 630; 631;
   632; 633; GROUP 563; GROUP 564; 636; 637; 638; 639; 640; 641; GROUP 565; GROUP 566; 644; 645;
   646; 647; 648; 649; 0; GROUP 567; 651; 652; 653; 654; 655; 656; 0; GROUP 568; 658; 659; 660;
   661; 662; 663; 0; GROUP 569; 665; 666; 667; 668; 669; 670; 0; GROUP 570; 672; 673; 674; 675;
   676; 677; 678; 679; 680; 681; 682; 683; 684; 685; 686; 687; 688; 689; 690; 691; 692; 693; 694;
   695; 696; 697; 698; 699; 700; 701; 702; 703; GROUP 571; GROUP 574; GROUP 577; GROUP 578; 0; 0;
   0; 0; 711; 712; 713; 714; 715; GROUP 579; 718; GROUP 580; 721; 722; 723; 724; 725; 726; 727;
   728; 729; 730; 731; 732; 733; 734; 735; 736; GROUP 581; GROUP 582; GROUP 583; GROUP 592; 769;
   770; 771; 772; 773; 774; 775; 776; 777; 778; 779; GROUP 593; 781; 782; 783; 784; 785; 786; 787;
   788; GROUP 594; GROUP 595; GROUP 596; 796; GROUP 597; GROUP 601; 806; 807; 808; 809; 810; 811;
   812; GROUP 605; 816; GROUP 606; 820; 821; 822; GROUP 607; 826; GROUP 608; 830; GROUP 609; 834;
   835; 836; 837; 838; 839; 840; 841; 842; 843; 844; 845; 846; 847; 848; 849; GROUP 610; GROUP 611;
   866; 867; GROUP 612; GROUP 613; GROUP 614; GROUP 615; 872; 873; 874; 875; 876; 877; GROUP 616;
   GROUP 617; GROUP 618; GROUP 619; GROUP 620; GROUP 621; GROUP 622; GROUP 623; GROUP 624; 917;
   GROUP 625; GROUP 700; GROUP 762; GROUP 806; GROUP 865; GROUP 940; GROUP 998; GROUP 1066; 1395;
   1396; 1397; GROUP 1126; 1401; 1402; 1403; 1404; 1405; 1406; GROUP 1127; 1408; 1409; 1410; 1411;
   1412; 1413; 1414; 1415; 1416; 1417; 1418; GROUP 1128; GROUP 1129; 1435; 1436; 1437; 1438; 1439;
   1440; GROUP 1130; GROUP 1131].

Definition ud_lookup_table_list : list ud_lookup_table_list_entry :=
  [ LookupEntry ud_itab__0 UD_TAB__OPC_TABLE "table0";
    LookupEntry ud_itab__1 UD_TAB__OPC_MODE "/m";
    LookupEntry ud_itab__2 UD_TAB__OPC_MODE "/m";
    LookupEntry ud_itab__3 UD_TAB__OPC_MODE "/m";
    LookupEntry ud_itab__4 UD_TAB__OPC_TABLE "0f";
    LookupEntry ud_itab__5 UD_TAB__OPC_REG "/reg";
    LookupEntry ud_itab__6 UD_TAB__OPC_SSE "/sse";
    LookupEntry ud_itab__7 UD_TAB__OPC_SSE "/sse";
    LookupEntry ud_itab__8 UD_TAB__OPC_SSE "/sse";
    LookupEntry ud_itab__9 UD_TAB__OPC_SSE "/sse";
    LookupEntry ud_itab__10 UD_TAB__OPC_SSE "/sse";
    LookupEntry ud_itab__11 UD_TAB__OPC_SSE "/sse";
    LookupEntry ud_itab__12 UD_TAB__OPC_MOD "/mod";
    LookupEntry ud_itab__13 UD_TAB__OPC_REG "/reg";
    LookupEntry ud_itab__14 UD_TAB__OPC_SSE "/sse";
    LookupEntry ud_itab__15 UD_TAB__OPC_MOD "/mod";
    LookupEntry ud_itab__16 UD_TAB__OPC_SSE "/sse";
    LookupEntry ud_itab__17 UD_TAB__OPC_MOD "/mod";
    LookupEntry ud_itab__18 UD_TAB__OPC_SSE "/sse";
    LookupEntry ud_itab__19 UD_TAB__OPC_MOD "/mod";
    LookupEntry ud_itab__20 UD_TAB__OPC_SSE "/sse";
    LookupEntry ud_itab__21 UD_TAB__OPC_MOD "/mod";
    LookupEntry ud_itab__22 UD_TAB__OPC_SSE "/sse";
    LookupEntry ud_itab__23 UD_TAB__OPC_MOD "/mod";
    LookupEntry ud_itab__24 UD_TAB__OPC_SSE "/sse";
    LookupEntry ud_itab__25 UD_TAB__OPC_MOD "/mod";
    LookupEntry ud_itab__26 UD_TAB__OPC_SSE "/sse";
    LookupEntry ud_itab__27 UD_TAB__OPC_MOD "/mod";
    LookupEntry ud_itab__28 UD_TAB__OPC_REG "/reg";
    LookupEntry ud_itab__29 UD_TAB__OPC_RM "/rm";
    LookupEntry ud_itab__30 UD_TAB__OPC_SSE "/sse";
    LookupEntry ud_itab__31 UD_TAB__OPC_MOD "/mod";
    LookupEntry ud_itab__32 UD_TAB__OPC_VENDOR "intel";
    LookupEntry ud_itab__33 UD_TAB__OPC_SSE "/sse";
    LookupEntry ud_itab__34 UD_TAB__OPC_MOD "/mod";
    LookupEntry ud_itab__35 UD_TAB__OPC_VENDOR "intel";
    LookupEntry ud_itab__36 UD_TAB__OPC_SSE "/sse";
    LookupEntry ud_itab__37 UD_TAB__OPC_MOD "/mod";
    LookupEntry ud_itab__38 UD_TAB__OPC_VENDOR "intel";
    LookupEntry ud_itab__39 UD_TAB__OPC_SSE "/sse";
    LookupEntry ud_itab__40 UD_TAB__OPC_MOD "/mod";
    LookupEntry ud_itab__41 UD_TAB__OPC_VENDOR "intel";
    LookupEntry ud_itab__42 UD_TAB__OPC_RM "/rm";
    LookupEntry ud_itab__43 UD_TAB__OPC_SSE "/sse";
    LookupEntry ud_itab__44 UD_TAB__OPC_MOD "/mod";
    LookupEntry ud_itab__45 UD_TAB__OPC_SSE "/sse";
    LookupEntry ud_itab__46 UD_TAB__OPC_MOD "/mod";
    LookupEntry ud_itab__47 UD_TAB__OPC_RM "/rm";
    LookupEntry ud_itab__48 UD_TAB__OPC_SSE "/sse";
    LookupEntry ud_itab__49 UD_TAB__OPC_MOD "/mod";
    LookupEntry ud_itab__50 UD_TAB__OPC_SSE "/sse";
    LookupEntry ud_itab__51 UD_TAB__OPC_MOD "/mod";
    LookupEntry ud_itab__52 UD_TAB__OPC_RM "/rm";
    LookupEntry ud_itab__53 UD_TAB__OPC_SSE "/sse";
    LookupEntry ud_itab__54 UD_TAB__OPC_MOD "/mod";
    LookupEntry ud_itab__55 UD_TAB__OPC_VENDOR "amd";
    LookupEntry ud_itab__56 UD_TAB__OPC_SSE "/sse";
    LookupEntry ud_itab__57 UD_TAB__OPC_MOD "/mod";
    LookupEntry ud_itab__58 UD_TAB__OPC_VENDOR "amd";
    LookupEntry ud_itab__59 UD_TAB__OPC_SSE "/sse";
    LookupEntry ud_itab__60 UD_TAB__OPC_MOD "/mod";
    LookupEntry ud_itab__61 UD_TAB__OPC_VENDOR "amd";
    LookupEntry ud_itab__62 UD_TAB__OPC_SSE "/sse";
    LookupEntry ud_itab__63 UD_TAB__OPC_MOD "/mod";
    LookupEntry ud_itab__64 UD_TAB__OPC_VENDOR "amd";
    LookupEntry ud_itab__65 UD_TAB__OPC_SSE "/sse";
    LookupEntry ud_itab__66 UD_TAB__OPC_MOD "/mod";
    LookupEntry ud_itab__67 UD_TAB__OPC_VENDOR "amd";
    LookupEntry ud_itab__68 UD_TAB__OPC_SSE "/sse";
    LookupEntry ud_itab__69 UD_TAB__OPC_MOD "/mod";
    LookupEntry ud_itab__70 UD_TAB__OPC_VENDOR "amd";
    LookupEntry ud_itab__71 UD_TAB__OPC_SSE "/sse";
    LookupEntry ud_itab__72 UD_TAB__OPC_MOD "/mod";
    LookupEntry ud_itab__73 UD_TAB__OPC_VENDOR "amd";
    LookupEntry ud_itab__74 UD_TAB__OPC_SSE "/sse";
    LookupEntry ud_itab__75 UD_TAB__OPC_MOD "/mod";
    LookupEntry ud_itab__76 UD_TAB__OPC_VENDOR "amd";
    LookupEntry ud_itab__77 UD_TAB__OPC_SSE "/sse";
    LookupEntry ud_itab__78 UD_TAB__OPC_MOD "/mod";
    LookupEntry ud_itab__79 UD_TAB__OPC_SSE "/sse";
    LookupEntry ud_itab__80 UD_TAB__OPC_MOD "/mod";
    LookupEntry ud_itab__81 UD_TAB__OPC_RM "/rm";
    LookupEntry ud_itab__82 UD_TAB__OPC_SSE "/sse";
    LookupEntry ud_itab__83 UD_TAB__OPC_MOD "/mod";
    LookupEntry ud_itab__84 UD_TAB__OPC_SSE "/sse";
    LookupEntry ud_itab__85 UD_TAB__OPC_MOD "/mod";
    LookupEntry ud_itab__86 UD_TAB__OPC_VENDOR "amd";
    LookupEntry ud_itab__87 UD_TAB__OPC_SSE "/sse";
    LookupEntry ud_itab__88 UD_TAB__OPC_SSE "/sse";
    LookupEntry ud_itab__89 UD_TAB__OPC_SSE "/sse";
    LookupEntry ud_itab__90 UD_TAB__OPC_SSE "/sse";
    LookupEntry ud_itab__91 UD_TAB__OPC_SSE "/sse";
    LookupEntry ud_itab__92 UD_TAB__OPC_SSE "/sse";
    LookupEntry ud_itab__93 UD_TAB__OPC_SSE "/sse";
    LookupEntry ud_itab__94 UD_TAB__OPC_SSE "/sse";
    LookupEntry ud_itab__95 UD_TAB__OPC_REG "/reg";
    LookupEntry ud_itab__96 UD_TAB__OPC_SSE "/sse";
    LookupEntry ud_itab__97 UD_TAB__OPC_SSE "/sse";
    LookupEntry ud_itab__98 UD_TAB__OPC_SSE "/sse";
    LookupEntry ud_itab__99 UD_TAB__OPC_SSE "/sse";
    LookupEntry ud_itab__100 UD_TAB__OPC_SSE "/sse";
    LookupEntry ud_itab__101 UD_TAB__OPC_SSE "/sse";
    LookupEntry ud_itab__102 UD_TAB__OPC_SSE "/sse";
    LookupEntry ud_itab__103 UD_TAB__OPC_SSE "/sse";
    LookupEntry ud_itab__104 UD_TAB__OPC_SSE "/sse";
    LookupEntry ud_itab__105 UD_TAB__OPC_3DNOW "/3dnow";
    LookupEntry ud_itab__106 UD_TAB__OPC_SSE "/sse";
    LookupEntry ud_itab__107 UD_TAB__OPC_SSE "/sse";
    LookupEntry ud_itab__108 UD_TAB__OPC_MOD "/mod";
    LookupEntry ud_itab__109 UD_TAB__OPC_SSE "/sse";
    LookupEntry ud_itab__110 UD_TAB__OPC_MOD "/mod";
    LookupEntry ud_itab__111 UD_TAB__OPC_MOD "/mod";
    LookupEntry ud_itab__112 UD_TAB__OPC_MOD "/mod";
    LookupEntry ud_itab__113 UD_TAB__OPC_MOD "/mod";
    LookupEntry ud_itab__114 UD_TAB__OPC_SSE "/sse";
    LookupEntry ud_itab__115 UD_TAB__OPC_MOD "/mod";
    LookupEntry ud_itab__116 UD_TAB__OPC_MOD "/mod";
    LookupEntry ud_itab__117 UD_TAB__OPC_MOD "/mod";
    LookupEntry ud_itab__118 UD_TAB__OPC_SSE "/sse";
    LookupEntry ud_itab__119 UD_TAB__OPC_SSE "/sse";
    LookupEntry ud_itab__120 UD_TAB__OPC_SSE "/sse";
    LookupEntry ud_itab__121 UD_TAB__OPC_MOD "/mod";
    LookupEntry ud_itab__122 UD_TAB__OPC_SSE "/sse";
    LookupEntry ud_itab__123 UD_TAB__OPC_MOD "/mod";
    LookupEntry ud_itab__124 UD_TAB__OPC_MOD "/mod";
    LookupEntry ud_itab__125 UD_TAB__OPC_MOD "/mod";
    LookupEntry ud_itab__126 UD_TAB__OPC_SSE "/sse";
    LookupEntry ud_itab__127 UD_TAB__OPC_MOD "/mod";
    LookupEntry ud_itab__128 UD_TAB__OPC_MOD "/mod";
    LookupEntry ud_itab__129 UD_TAB__OPC_SSE "/sse";
    LookupEntry ud_itab__130 UD_TAB__OPC_REG "/reg";
    LookupEntry ud_itab__131 UD_TAB__OPC_SSE "/sse";
    LookupEntry ud_itab__132 UD_TAB__OPC_SSE "/sse";
    LookupEntry ud_itab__133 UD_TAB__OPC_SSE "/sse";
    LookupEntry ud_itab__134 UD_TAB__OPC_SSE "/sse";
    LookupEntry ud_itab__135 UD_TAB__OPC_SSE "/sse";
    LookupEntry ud_itab__136 UD_TAB__OPC_SSE "/sse";
    LookupEntry ud_itab__137 UD_TAB__OPC_SSE "/sse";
    LookupEntry ud_itab__138 UD_TAB__OPC_SSE "/sse";
    LookupEntry ud_itab__139 UD_TAB__OPC_SSE "/sse";
    LookupEntry ud_itab__140 UD_TAB__OPC_SSE "/sse";
    LookupEntry ud_itab__141 UD_TAB__OPC_SSE "/sse";
    LookupEntry ud_itab__142 UD_TAB__OPC_SSE "/sse";
    LookupEntry ud_itab__143 UD_TAB__OPC_SSE "/sse";
    LookupEntry ud_itab__144 UD_TAB__OPC_SSE "/sse";
    LookupEntry ud_itab__145 UD_TAB__OPC_SSE "/sse";
    LookupEntry ud_itab__146 UD_TAB__OPC_SSE "/sse";
    LookupEntry ud_itab__147 UD_TAB__OPC_SSE "/sse";
    LookupEntry ud_itab__148 UD_TAB__OPC_SSE "/sse";
    LookupEntry ud_itab__149 UD_TAB__OPC_SSE "/sse";
    LookupEntry ud_itab__150 UD_TAB__OPC_SSE "/sse";
    LookupEntry ud_itab__151 UD_TAB__OPC_SSE "/sse";
    LookupEntry ud_itab__152 UD_TAB__OPC_SSE "/sse";
    LookupEntry ud_itab__153 UD_TAB__OPC_SSE "/sse";
    LookupEntry ud_itab__154 UD_TAB__OPC_SSE "/sse";
    LookupEntry ud_itab__155 UD_TAB__OPC_SSE "/sse";
    LookupEntry ud_itab__156 UD_TAB__OPC_SSE "/sse";
    LookupEntry ud_itab__157 UD_TAB__OPC_SSE "/sse";
    LookupEntry ud_itab__158 UD_TAB__OPC_SSE "/sse";
    LookupEntry ud_itab__159 UD_TAB__OPC_MODE "/m";
    LookupEntry ud_itab__160 UD_TAB__OPC_VENDOR "intel";
    LookupEntry ud_itab__161 UD_TAB__OPC_SSE "/sse";
    LookupEntry ud_itab__162 UD_TAB__OPC_MODE "/m";
    LookupEntry ud_itab__163 UD_TAB__OPC_VENDOR "intel";
    LookupEntry ud_itab__164 UD_TAB__OPC_SSE "/sse";
    LookupEntry ud_itab__165 UD_TAB__OPC_TABLE "38";
    LookupEntry ud_itab__166 UD_TAB__OPC_SSE "/sse";
    LookupEntry ud_itab__167 UD_TAB__OPC_SSE "/sse";
    LookupEntry ud_itab__168 UD_TAB__OPC_SSE "/sse";
    LookupEntry ud_itab__169 UD_TAB__OPC_SSE "/sse";
    LookupEntry ud_itab__170 UD_TAB__OPC_SSE "/sse";
    LookupEntry ud_itab__171 UD_TAB__OPC_SSE "/sse";
    LookupEntry ud_itab__172 UD_TAB__OPC_SSE "/sse";
    LookupEntry ud_itab__173 UD_TAB__OPC_SSE "/sse";
    LookupEntry ud_itab__174 UD_TAB__OPC_SSE "/sse";
    LookupEntry ud_itab__175 UD_TAB__OPC_SSE "/sse";
    LookupEntry ud_itab__176 UD_TAB__OPC_SSE "/sse";
    LookupEntry ud_itab__177 UD_TAB__OPC_SSE "/sse";
    LookupEntry ud_itab__178 UD_TAB__OPC_SSE "/sse";
    LookupEntry ud_itab__179 UD_TAB__OPC_SSE "/sse";
    LookupEntry ud_itab__180 UD_TAB__OPC_SSE "/sse";
    LookupEntry ud_itab__181 UD_TAB__OPC_SSE "/sse";
    LookupEntry ud_itab__182 UD_TAB__OPC_SSE "/sse";
    LookupEntry ud_itab__183 UD_TAB__OPC_SSE "/sse";
    LookupEntry ud_itab__184 UD_TAB__OPC_SSE "/sse";
    LookupEntry ud_itab__185 UD_TAB__OPC_SSE "/sse";
    LookupEntry ud_itab__186 UD_TAB__OPC_SSE "/sse";
    LookupEntry ud_itab__187 UD_TAB__OPC_SSE "/sse";
    LookupEntry ud_itab__188 UD_TAB__OPC_SSE "/sse";
    LookupEntry ud_itab__189 UD_TAB__OPC_SSE "/sse";
    LookupEntry ud_itab__190 UD_TAB__OPC_SSE "/sse";
    LookupEntry ud_itab__191 UD_TAB__OPC_SSE "/sse";
    LookupEntry ud_itab__192 UD_TAB__OPC_SSE "/sse";
    LookupEntry ud_itab__193 UD_TAB__OPC_SSE "/sse";
    LookupEntry ud_itab__194 UD_TAB__OPC_SSE "/sse";
    LookupEntry ud_itab__195 UD_TAB__OPC_SSE "/sse";
    LookupEntry ud_itab__196 UD_TAB__OPC_SSE "/sse";
    LookupEntry ud_itab__197 UD_TAB__OPC_SSE "/sse";
    LookupEntry ud_itab__198 UD_TAB__OPC_SSE "/sse";
    LookupEntry ud_itab__199 UD_TAB__OPC_SSE "/sse";
    LookupEntry ud_itab__200 UD_TAB__OPC_SSE "/sse";
    LookupEntry ud_itab__201 UD_TAB__OPC_SSE "/sse";
    LookupEntry ud_itab__202 UD_TAB__OPC_SSE "/sse";
    LookupEntry ud_itab__203 UD_TAB__OPC_SSE "/sse";
    LookupEntry ud_itab__204 UD_TAB__OPC_SSE "/sse";
    LookupEntry ud_itab__205 UD_TAB__OPC_SSE "/sse";
    LookupEntry ud_itab__206 UD_TAB__OPC_SSE "/sse";
    LookupEntry ud_itab__207 UD_TAB__OPC_SSE "/sse";
    LookupEntry ud_itab__208 UD_TAB__OPC_SSE "/sse";
    LookupEntry ud_itab__209 UD_TAB__OPC_SSE "/sse";
    LookupEntry ud_itab__210 UD_TAB__OPC_SSE "/sse";
    LookupEntry ud_itab__211 UD_TAB__OPC_SSE "/sse";
    LookupEntry ud_itab__212 UD_TAB__OPC_SSE "/sse";
    LookupEntry ud_itab__213 UD_TAB__OPC_MODE "/m";
    LookupEntry ud_itab__214 UD_TAB__OPC_VENDOR "intel";
    LookupEntry ud_itab__215 UD_TAB__OPC_SSE "/sse";
    LookupEntry ud_itab__216 UD_TAB__OPC_MODE "/m";
    LookupEntry ud_itab__217 UD_TAB__OPC_VENDOR "intel";
    LookupEntry ud_itab__218 UD_TAB__OPC_SSE "/sse";
    LookupEntry ud_itab__219 UD_TAB__OPC_SSE "/sse";
    LookupEntry ud_itab__220 UD_TAB__OPC_SSE "/sse";
    LookupEntry ud_itab__221 UD_TAB__OPC_SSE "/sse";
    LookupEntry ud_itab__222 UD_TAB__OPC_SSE "/sse";
    LookupEntry ud_itab__223 UD_TAB__OPC_SSE "/sse";
    LookupEntry ud_itab__224 UD_TAB__OPC_SSE "/sse";
    LookupEntry ud_itab__225 UD_TAB__OPC_TABLE "3a";
    LookupEntry ud_itab__226 UD_TAB__OPC_SSE "/sse";
    LookupEntry ud_itab__227 UD_TAB__OPC_SSE "/sse";
    LookupEntry ud_itab__228 UD_TAB__OPC_SSE "/sse";
    LookupEntry ud_itab__229 UD_TAB__OPC_SSE "/sse";
    LookupEntry ud_itab__230 UD_TAB__OPC_SSE "/sse";
    LookupEntry ud_itab__231 UD_TAB__OPC_SSE "/sse";
    LookupEntry ud_itab__232 UD_TAB__OPC_SSE "/sse";
    LookupEntry ud_itab__233 UD_TAB__OPC_SSE "/sse";
    LookupEntry ud_itab__234 UD_TAB__OPC_SSE "/sse";
    LookupEntry ud_itab__235 UD_TAB__OPC_SSE "/sse";
    LookupEntry ud_itab__236 UD_TAB__OPC_SSE "/sse";
    LookupEntry ud_itab__237 UD_TAB__OPC_OSIZE "/o";
    LookupEntry ud_itab__238 UD_TAB__OPC_SSE "/sse";
    LookupEntry ud_itab__239 UD_TAB__OPC_SSE "/sse";
    LookupEntry ud_itab__240 UD_TAB__OPC_SSE "/sse";
    LookupEntry ud_itab__241 UD_TAB__OPC_SSE "/sse";
    LookupEntry ud_itab__242 UD_TAB__OPC_OSIZE "/o";
    LookupEntry ud_itab__243 UD_TAB__OPC_SSE "/sse";
    LookupEntry ud_itab__244 UD_TAB__OPC_SSE "/sse";
    LookupEntry ud_itab__245 UD_TAB__OPC_SSE "/sse";
    LookupEntry ud_itab__246 UD_TAB__OPC_SSE "/sse";
    LookupEntry ud_itab__247 UD_TAB__OPC_SSE "/sse";
    LookupEntry ud_itab__248 UD_TAB__OPC_SSE "/sse";
    LookupEntry ud_itab__249 UD_TAB__OPC_SSE "/sse";
    LookupEntry ud_itab__250 UD_TAB__OPC_SSE "/sse";
    LookupEntry ud_itab__251 UD_TAB__OPC_SSE "/sse";
    LookupEntry ud_itab__252 UD_TAB__OPC_SSE "/sse";
    LookupEntry ud_itab__253 UD_TAB__OPC_SSE "/sse";
    LookupEntry ud_itab__254 UD_TAB__OPC_SSE "/sse";
    LookupEntry ud_itab__255 UD_TAB__OPC_SSE "/sse";
    LookupEntry ud_itab__256 UD_TAB__OPC_SSE "/sse";
    LookupEntry ud_itab__257 UD_TAB__OPC_SSE "/sse";
    LookupEntry ud_itab__258 UD_TAB__OPC_SSE "/sse";
    LookupEntry ud_itab__259 UD_TAB__OPC_SSE "/sse";
    LookupEntry ud_itab__260 UD_TAB__OPC_SSE "/sse";
    LookupEntry ud_itab__261 UD_TAB__OPC_SSE "/sse";
    LookupEntry ud_itab__262 UD_TAB__OPC_SSE "/sse";
    LookupEntry ud_itab__263 UD_TAB__OPC_SSE "/sse";
    LookupEntry ud_itab__264 UD_TAB__OPC_SSE "/sse";
    LookupEntry ud_itab__265 UD_TAB__OPC_SSE "/sse";
    LookupEntry ud_itab__266 UD_TAB__OPC_SSE "/sse";
    LookupEntry ud_itab__267 UD_TAB__OPC_SSE "/sse";
    LookupEntry ud_itab__268 UD_TAB__OPC_SSE "/sse";
    LookupEntry ud_itab__269 UD_TAB__OPC_SSE "/sse";
    LookupEntry ud_itab__270 UD_TAB__OPC_SSE "/sse";
    LookupEntry ud_itab__271 UD_TAB__OPC_SSE "/sse";
    LookupEntry ud_itab__272 UD_TAB__OPC_SSE "/sse";
    LookupEntry ud_itab__273 UD_TAB__OPC_SSE "/sse";
    LookupEntry ud_itab__274 UD_TAB__OPC_SSE "/sse";
    LookupEntry ud_itab__275 UD_TAB__OPC_SSE "/sse";
    LookupEntry ud_itab__276 UD_TAB__OPC_SSE "/sse";
    LookupEntry ud_itab__277 UD_TAB__OPC_SSE "/sse";
    LookupEntry ud_itab__278 UD_TAB__OPC_SSE "/sse";
    LookupEntry ud_itab__279 UD_TAB__OPC_SSE "/sse";
    LookupEntry ud_itab__280 UD_TAB__OPC_SSE "/sse";
    LookupEntry ud_itab__281 UD_TAB__OPC_SSE "/sse";
    LookupEntry ud_itab__282 UD_TAB__OPC_SSE "/sse";
    LookupEntry ud_itab__283 UD_TAB__OPC_SSE "/sse";
    LookupEntry ud_itab__284 UD_TAB__OPC_SSE "/sse";
    LookupEntry ud_itab__285 UD_TAB__OPC_SSE "/sse";
    LookupEntry ud_itab__286 UD_TAB__OPC_SSE "/sse";
    LookupEntry ud_itab__287 UD_TAB__OPC_SSE "/sse";
    LookupEntry ud_itab__288 UD_TAB__OPC_SSE "/sse";
    LookupEntry ud_itab__289 UD_TAB__OPC_SSE "/sse";
    LookupEntry ud_itab__290 UD_TAB__OPC_SSE "/sse";
    LookupEntry ud_itab__291 UD_TAB__OPC_SSE "/sse";
    LookupEntry ud_itab__292 UD_TAB__OPC_SSE "/sse";
    LookupEntry ud_itab__293 UD_TAB__OPC_SSE "/sse";
    LookupEntry ud_itab__294 UD_TAB__OPC_SSE "/sse";
    LookupEntry ud_itab__295 UD_TAB__OPC_SSE "/sse";
    LookupEntry ud_itab__296 UD_TAB__OPC_SSE "/sse";
    LookupEntry ud_itab__297 UD_TAB__OPC_SSE "/sse";
    LookupEntry ud_itab__298 UD_TAB__OPC_SSE "/sse";
    LookupEntry ud_itab__299 UD_TAB__OPC_SSE "/sse";
    LookupEntry ud_itab__300 UD_TAB__OPC_SSE "/sse";
    LookupEntry ud_itab__301 UD_TAB__OPC_REG "/reg";
    LookupEntry ud_itab__302 UD_TAB__OPC_SSE "/sse";
    LookupEntry ud_itab__303 UD_TAB__OPC_SSE "/sse";
    LookupEntry ud_itab__304 UD_TAB__OPC_SSE "/sse";
    LookupEntry ud_itab__305 UD_TAB__OPC_REG "/reg";
    LookupEntry ud_itab__306 UD_TAB__OPC_SSE "/sse";
    LookupEntry ud_itab__307 UD_TAB__OPC_SSE "/sse";
    LookupEntry ud_itab__308 UD_TAB__OPC_SSE "/sse";
    LookupEntry ud_itab__309 UD_TAB__OPC_REG "/reg";
    LookupEntry ud_itab__310 UD_TAB__OPC_SSE "/sse";
    LookupEntry ud_itab__311 UD_TAB__OPC_SSE "/sse";
    LookupEntry ud_itab__312 UD_TAB__OPC_SSE "/sse";
    LookupEntry ud_itab__313 UD_TAB__OPC_SSE "/sse";
    LookupEntry ud_itab__314 UD_TAB__OPC_SSE "/sse";
    LookupEntry ud_itab__315 UD_TAB__OPC_SSE "/sse";
    LookupEntry ud_itab__316 UD_TAB__OPC_SSE "/sse";
    LookupEntry ud_itab__317 UD_TAB__OPC_SSE "/sse";
    LookupEntry ud_itab__318 UD_TAB__OPC_SSE "/sse";
    LookupEntry ud_itab__319 UD_TAB__OPC_VENDOR "intel";
    LookupEntry ud_itab__320 UD_TAB__OPC_SSE "/sse";
    LookupEntry ud_itab__321 UD_TAB__OPC_VENDOR "intel";
    LookupEntry ud_itab__322 UD_TAB__OPC_SSE "/sse";
    LookupEntry ud_itab__323 UD_TAB__OPC_SSE "/sse";
    LookupEntry ud_itab__324 UD_TAB__OPC_SSE "/sse";
    LookupEntry ud_itab__325 UD_TAB__OPC_SSE "/sse";
    LookupEntry ud_itab__326 UD_TAB__OPC_SSE "/sse";
    LookupEntry ud_itab__327 UD_TAB__OPC_SSE "/sse";
    LookupEntry ud_itab__328 UD_TAB__OPC_SSE "/sse";
    LookupEntry ud_itab__329 UD_TAB__OPC_SSE "/sse";
    LookupEntry ud_itab__330 UD_TAB__OPC_SSE "/sse";
    LookupEntry ud_itab__331 UD_TAB__OPC_SSE "/sse";
    LookupEntry ud_itab__332 UD_TAB__OPC_SSE "/sse";
    LookupEntry ud_itab__333 UD_TAB__OPC_SSE "/sse";
    LookupEntry ud_itab__334 UD_TAB__OPC_SSE "/sse";
    LookupEntry ud_itab__335 UD_TAB__OPC_SSE "/sse";
    LookupEntry ud_itab__336 UD_TAB__OPC_SSE "/sse";
    LookupEntry ud_itab__337 UD_TAB__OPC_SSE "/sse";
    LookupEntry ud_itab__338 UD_TAB__OPC_SSE "/sse";
    LookupEntry ud_itab__339 UD_TAB__OPC_SSE "/sse";
    LookupEntry ud_itab__340 UD_TAB__OPC_SSE "/sse";
    LookupEntry ud_itab__341 UD_TAB__OPC_SSE "/sse";
    LookupEntry ud_itab__342 UD_TAB__OPC_SSE "/sse";
    LookupEntry ud_itab__343 UD_TAB__OPC_SSE "/sse";
    LookupEntry ud_itab__344 UD_TAB__OPC_SSE "/sse";
    LookupEntry ud_itab__345 UD_TAB__OPC_SSE "/sse";
    LookupEntry ud_itab__346 UD_TAB__OPC_SSE "/sse";
    LookupEntry ud_itab__347 UD_TAB__OPC_SSE "/sse";
    LookupEntry ud_itab__348 UD_TAB__OPC_SSE "/sse";
    LookupEntry ud_itab__349 UD_TAB__OPC_SSE "/sse";
    LookupEntry ud_itab__350 UD_TAB__OPC_SSE "/sse";
    LookupEntry ud_itab__351 UD_TAB__OPC_SSE "/sse";
    LookupEntry ud_itab__352 UD_TAB__OPC_SSE "/sse";
    LookupEntry ud_itab__353 UD_TAB__OPC_SSE "/sse";
    LookupEntry ud_itab__354 UD_TAB__OPC_SSE "/sse";
    LookupEntry ud_itab__355 UD_TAB__OPC_SSE "/sse";
    LookupEntry ud_itab__356 UD_TAB__OPC_SSE "/sse";
    LookupEntry ud_itab__357 UD_TAB__OPC_SSE "/sse";
    LookupEntry ud_itab__358 UD_TAB__OPC_SSE "/sse";
    LookupEntry ud_itab__359 UD_TAB__OPC_SSE "/sse";
    LookupEntry ud_itab__360 UD_TAB__OPC_SSE "/sse";
    LookupEntry ud_itab__361 UD_TAB__OPC_SSE "/sse";
    LookupEntry ud_itab__362 UD_TAB__OPC_SSE "/sse";
    LookupEntry ud_itab__363 UD_TAB__OPC_SSE "/sse";
    LookupEntry ud_itab__364 UD_TAB__OPC_MOD "/mod";
    LookupEntry ud_itab__365 UD_TAB__OPC_REG "/reg";
    LookupEntry ud_itab__366 UD_TAB__OPC_RM "/rm";
    LookupEntry ud_itab__367 UD_TAB__OPC_SSE "/sse";
    LookupEntry ud_itab__368 UD_TAB__OPC_MOD "/mod";
    LookupEntry ud_itab__369 UD_TAB__OPC_RM "/rm";
    LookupEntry ud_itab__370 UD_TAB__OPC_SSE "/sse";
    LookupEntry ud_itab__371 UD_TAB__OPC_MOD "/mod";
    LookupEntry ud_itab__372 UD_TAB__OPC_RM "/rm";
    LookupEntry ud_itab__373 UD_TAB__OPC_SSE "/sse";
    LookupEntry ud_itab__374 UD_TAB__OPC_MOD "/mod";
    LookupEntry ud_itab__375 UD_TAB__OPC_MOD "/mod";
    LookupEntry ud_itab__376 UD_TAB__OPC_REG "/reg";
    LookupEntry ud_itab__377 UD_TAB__OPC_RM "/rm";
    LookupEntry ud_itab__378 UD_TAB__OPC_SSE "/sse";
    LookupEntry ud_itab__379 UD_TAB__OPC_MOD "/mod";
    LookupEntry ud_itab__380 UD_TAB__OPC_RM "/rm";
    LookupEntry ud_itab__381 UD_TAB__OPC_SSE "/sse";
    LookupEntry ud_itab__382 UD_TAB__OPC_MOD "/mod";
    LookupEntry ud_itab__383 UD_TAB__OPC_RM "/rm";
    LookupEntry ud_itab__384 UD_TAB__OPC_SSE "/sse";
    LookupEntry ud_itab__385 UD_TAB__OPC_MOD "/mod";
    LookupEntry ud_itab__386 UD_TAB__OPC_RM "/rm";
    LookupEntry ud_itab__387 UD_TAB__OPC_SSE "/sse";
    LookupEntry ud_itab__388 UD_TAB__OPC_MOD "/mod";
    LookupEntry ud_itab__389 UD_TAB__OPC_RM "/rm";
    LookupEntry ud_itab__390 UD_TAB__OPC_SSE "/sse";
    LookupEntry ud_itab__391 UD_TAB__OPC_MOD "/mod";
    LookupEntry ud_itab__392 UD_TAB__OPC_RM "/rm";
    LookupEntry ud_itab__393 UD_TAB__OPC_SSE "/sse";
    LookupEntry ud_itab__394 UD_TAB__OPC_MOD "/mod";
    LookupEntry ud_itab__395 UD_TAB__OPC_SSE "/sse";
    LookupEntry ud_itab__396 UD_TAB__OPC_SSE "/sse";
    LookupEntry ud_itab__397 UD_TAB__OPC_SSE "/sse";
    LookupEntry ud_itab__398 UD_TAB__OPC_SSE "/sse";
    LookupEntry ud_itab__399 UD_TAB__OPC_SSE "/sse";
    LookupEntry ud_itab__400 UD_TAB__OPC_SSE "/sse";
    LookupEntry ud_itab__401 UD_TAB__OPC_MOD "/mod";
    LookupEntry ud_itab__402 UD_TAB__OPC_REG "/reg";
    LookupEntry ud_itab__403 UD_TAB__OPC_SSE "/sse";
    LookupEntry ud_itab__404 UD_TAB__OPC_MOD "/mod";
    LookupEntry ud_itab__405 UD_TAB__OPC_SSE "/sse";
    LookupEntry ud_itab__406 UD_TAB__OPC_MOD "/mod";
    LookupEntry ud_itab__407 UD_TAB__OPC_SSE "/sse";
    LookupEntry ud_itab__408 UD_TAB__OPC_MOD "/mod";
    LookupEntry ud_itab__409 UD_TAB__OPC_SSE "/sse";
    LookupEntry ud_itab__410 UD_TAB__OPC_MOD "/mod";
    LookupEntry ud_itab__411 UD_TAB__OPC_SSE "/sse";
    LookupEntry ud_itab__412 UD_TAB__OPC_MOD "/mod";
    LookupEntry ud_itab__413 UD_TAB__OPC_SSE "/sse";
    LookupEntry ud_itab__414 UD_TAB__OPC_MOD "/mod";
    LookupEntry ud_itab__415 UD_TAB__OPC_SSE "/sse";
    LookupEntry ud_itab__416 UD_TAB__OPC_MOD "/mod";
    LookupEntry ud_itab__417 UD_TAB__OPC_REG "/reg";
    LookupEntry ud_itab__418 UD_TAB__OPC_RM "/rm";
    LookupEntry ud_itab__419 UD_TAB__OPC_SSE "/sse";
    LookupEntry ud_itab__420 UD_TAB__OPC_MOD "/mod";
    LookupEntry ud_itab__421 UD_TAB__OPC_SSE "/sse";
    LookupEntry ud_itab__422 UD_TAB__OPC_MOD "/mod";
    LookupEntry ud_itab__423 UD_TAB__OPC_SSE "/sse";
    LookupEntry ud_itab__424 UD_TAB__OPC_MOD "/mod";
    LookupEntry ud_itab__425 UD_TAB__OPC_SSE "/sse";
    LookupEntry ud_itab__426 UD_TAB__OPC_MOD "/mod";
    LookupEntry ud_itab__427 UD_TAB__OPC_SSE "/sse";
    LookupEntry ud_itab__428 UD_TAB__OPC_MOD "/mod";
    LookupEntry ud_itab__429 UD_TAB__OPC_SSE "/sse";
    LookupEntry ud_itab__430 UD_TAB__OPC_MOD "/mod";
    LookupEntry ud_itab__431 UD_TAB__OPC_SSE "/sse";
    LookupEntry ud_itab__432 UD_TAB__OPC_MOD "/mod";
    LookupEntry ud_itab__433 UD_TAB__OPC_SSE "/sse";
    LookupEntry ud_itab__434 UD_TAB__OPC_MOD "/mod";
    LookupEntry ud_itab__435 UD_TAB__OPC_RM "/rm";
    LookupEntry ud_itab__436 UD_TAB__OPC_SSE "/sse";
    LookupEntry ud_itab__437 UD_TAB__OPC_MOD "/mod";
    LookupEntry ud_itab__438 UD_TAB__OPC_SSE "/sse";
    LookupEntry ud_itab__439 UD_TAB__OPC_MOD "/mod";
    LookupEntry ud_itab__440 UD_TAB__OPC_SSE "/sse";
    LookupEntry ud_itab__441 UD_TAB__OPC_MOD "/mod";
    LookupEntry ud_itab__442 UD_TAB__OPC_SSE "/sse";
    LookupEntry ud_itab__443 UD_TAB__OPC_MOD "/mod";
    LookupEntry ud_itab__444 UD_TAB__OPC_SSE "/sse";
    LookupEntry ud_itab__445 UD_TAB__OPC_MOD "/mod";
    LookupEntry ud_itab__446 UD_TAB__OPC_SSE "/sse";
    LookupEntry ud_itab__447 UD_TAB__OPC_MOD "/mod";
    LookupEntry ud_itab__448 UD_TAB__OPC_SSE "/sse";
    LookupEntry ud_itab__449 UD_TAB__OPC_MOD "/mod";
    LookupEntry ud_itab__450 UD_TAB__OPC_SSE "/sse";
    LookupEntry ud_itab__451 UD_TAB__OPC_MOD "/mod";
    LookupEntry ud_itab__452 UD_TAB__OPC_RM "/rm";
    LookupEntry ud_itab__453 UD_TAB__OPC_SSE "/sse";
    LookupEntry ud_itab__454 UD_TAB__OPC_MOD "/mod";
    LookupEntry ud_itab__455 UD_TAB__OPC_SSE "/sse";
    LookupEntry ud_itab__456 UD_TAB__OPC_MOD "/mod";
    LookupEntry ud_itab__457 UD_TAB__OPC_SSE "/sse";
    LookupEntry ud_itab__458 UD_TAB__OPC_MOD "/mod";
    LookupEntry ud_itab__459 UD_TAB__OPC_SSE "/sse";
    LookupEntry ud_itab__460 UD_TAB__OPC_MOD "/mod";
    LookupEntry ud_itab__461 UD_TAB__OPC_SSE "/sse";
    LookupEntry ud_itab__462 UD_TAB__OPC_MOD "/mod";
    LookupEntry ud_itab__463 UD_TAB__OPC_SSE "/sse";
    LookupEntry ud_itab__464 UD_TAB__OPC_MOD "/mod";
    LookupEntry ud_itab__465 UD_TAB__OPC_SSE "/sse";
    LookupEntry ud_itab__466 UD_TAB__OPC_MOD "/mod";
    LookupEntry ud_itab__467 UD_TAB__OPC_SSE "/sse";
    LookupEntry ud_itab__468 UD_TAB__OPC_MOD "/mod";
    LookupEntry ud_itab__469 UD_TAB__OPC_SSE "/sse";
    LookupEntry ud_itab__470 UD_TAB__OPC_SSE "/sse";
    LookupEntry ud_itab__471 UD_TAB__OPC_SSE "/sse";
    LookupEntry ud_itab__472 UD_TAB__OPC_SSE "/sse";
    LookupEntry ud_itab__473 UD_TAB__OPC_SSE "/sse";
    LookupEntry ud_itab__474 UD_TAB__OPC_SSE "/sse";
    LookupEntry ud_itab__475 UD_TAB__OPC_SSE "/sse";
    LookupEntry ud_itab__476 UD_TAB__OPC_SSE "/sse";
    LookupEntry ud_itab__477 UD_TAB__OPC_SSE "/sse";
    LookupEntry ud_itab__478 UD_TAB__OPC_SSE "/sse";
    LookupEntry ud_itab__479 UD_TAB__OPC_REG "/reg";
    LookupEntry ud_itab__480 UD_TAB__OPC_SSE "/sse";
    LookupEntry ud_itab__481 UD_TAB__OPC_SSE "/sse";
    LookupEntry ud_itab__482 UD_TAB__OPC_SSE "/sse";
    LookupEntry ud_itab__483 UD_TAB__OPC_SSE "/sse";
    LookupEntry ud_itab__484 UD_TAB__OPC_SSE "/sse";
    LookupEntry ud_itab__485 UD_TAB__OPC_SSE "/sse";
    LookupEntry ud_itab__486 UD_TAB__OPC_SSE "/sse";
    LookupEntry ud_itab__487 UD_TAB__OPC_SSE "/sse";
    LookupEntry ud_itab__488 UD_TAB__OPC_SSE "/sse";
    LookupEntry ud_itab__489 UD_TAB__OPC_SSE "/sse";
    LookupEntry ud_itab__490 UD_TAB__OPC_SSE "/sse";
    LookupEntry ud_itab__491 UD_TAB__OPC_SSE "/sse";
    LookupEntry ud_itab__492 UD_TAB__OPC_SSE "/sse";
    LookupEntry ud_itab__493 UD_TAB__OPC_SSE "/sse";
    LookupEntry ud_itab__494 UD_TAB__OPC_SSE "/sse";
    LookupEntry ud_itab__495 UD_TAB__OPC_SSE "/sse";
    LookupEntry ud_itab__496 UD_TAB__OPC_REG "/reg";
    LookupEntry ud_itab__497 UD_TAB__OPC_SSE "/sse";
    LookupEntry ud_itab__498 UD_TAB__OPC_OSIZE "/o";
    LookupEntry ud_itab__499 UD_TAB__OPC_SSE "/sse";
    LookupEntry ud_itab__500 UD_TAB__OPC_VENDOR "intel";
    LookupEntry ud_itab__501 UD_TAB__OPC_VENDOR "intel";
    LookupEntry ud_itab__502 UD_TAB__OPC_VENDOR "intel";
    LookupEntry ud_itab__503 UD_TAB__OPC_SSE "/sse";
    LookupEntry ud_itab__504 UD_TAB__OPC_VENDOR "intel";
    LookupEntry ud_itab__505 UD_TAB__OPC_SSE "/sse";
    LookupEntry ud_itab__506 UD_TAB__OPC_SSE "/sse";
    LookupEntry ud_itab__507 UD_TAB__OPC_SSE "/sse";
    LookupEntry ud_itab__508 UD_TAB__OPC_SSE "/sse";
    LookupEntry ud_itab__509 UD_TAB__OPC_SSE "/sse";
    LookupEntry ud_itab__510 UD_TAB__OPC_SSE "/sse";
    LookupEntry ud_itab__511 UD_TAB__OPC_SSE "/sse";
    LookupEntry ud_itab__512 UD_TAB__OPC_SSE "/sse";
    LookupEntry ud_itab__513 UD_TAB__OPC_SSE "/sse";
    LookupEntry ud_itab__514 UD_TAB__OPC_SSE "/sse";
    LookupEntry ud_itab__515 UD_TAB__OPC_SSE "/sse";
    LookupEntry ud_itab__516 UD_TAB__OPC_SSE "/sse";
    LookupEntry ud_itab__517 UD_TAB__OPC_SSE "/sse";
    LookupEntry ud_itab__518 UD_TAB__OPC_SSE "/sse";
    LookupEntry ud_itab__519 UD_TAB__OPC_SSE "/sse";
    LookupEntry ud_itab__520 UD_TAB__OPC_SSE "/sse";
    LookupEntry ud_itab__521 UD_TAB__OPC_SSE "/sse";
    LookupEntry ud_itab__522 UD_TAB__OPC_SSE "/sse";
    LookupEntry ud_itab__523 UD_TAB__OPC_SSE "/sse";
    LookupEntry ud_itab__524 UD_TAB__OPC_SSE "/sse";
    LookupEntry ud_itab__525 UD_TAB__OPC_SSE "/sse";
    LookupEntry ud_itab__526 UD_TAB__OPC_SSE "/sse";
    LookupEntry ud_itab__527 UD_TAB__OPC_SSE "/sse";
    LookupEntry ud_itab__528 UD_TAB__OPC_SSE "/sse";
    LookupEntry ud_itab__529 UD_TAB__OPC_SSE "/sse";
    LookupEntry ud_itab__530 UD_TAB__OPC_SSE "/sse";
    LookupEntry ud_itab__531 UD_TAB__OPC_SSE "/sse";
    LookupEntry ud_itab__532 UD_TAB__OPC_SSE "/sse";
    LookupEntry ud_itab__533 UD_TAB__OPC_SSE "/sse";
    LookupEntry ud_itab__534 UD_TAB__OPC_SSE "/sse";
    LookupEntry ud_itab__535 UD_TAB__OPC_SSE "/sse";
    LookupEntry ud_itab__536 UD_TAB__OPC_SSE "/sse";
    LookupEntry ud_itab__537 UD_TAB__OPC_SSE "/sse";
    LookupEntry ud_itab__538 UD_TAB__OPC_SSE "/sse";
    LookupEntry ud_itab__539 UD_TAB__OPC_SSE "/sse";
    LookupEntry ud_itab__540 UD_TAB__OPC_SSE "/sse";
    LookupEntry ud_itab__541 UD_TAB__OPC_SSE "/sse";
    LookupEntry ud_itab__542 UD_TAB__OPC_SSE "/sse";
    LookupEntry ud_itab__543 UD_TAB__OPC_SSE "/sse";
    LookupEntry ud_itab__544 UD_TAB__OPC_SSE "/sse";
    LookupEntry ud_itab__545 UD_TAB__OPC_SSE "/sse";
    LookupEntry ud_itab__546 UD_TAB__OPC_SSE "/sse";
    LookupEntry ud_itab__547 UD_TAB__OPC_SSE "/sse";
    LookupEntry ud_itab__548 UD_TAB__OPC_SSE "/sse";
    LookupEntry ud_itab__549 UD_TAB__OPC_SSE "/sse";
    LookupEntry ud_itab__550 UD_TAB__OPC_SSE "/sse";
    LookupEntry ud_itab__551 UD_TAB__OPC_SSE "/sse";
    LookupEntry ud_itab__552 UD_TAB__OPC_MOD "/mod";
    LookupEntry ud_itab__553 UD_TAB__OPC_SSE "/sse";
    LookupEntry ud_itab__554 UD_TAB__OPC_MOD "/mod";
    LookupEntry ud_itab__555 UD_TAB__OPC_MOD "/mod";
    LookupEntry ud_itab__556 UD_TAB__OPC_SSE "/sse";
    LookupEntry ud_itab__557 UD_TAB__OPC_SSE "/sse";
    LookupEntry ud_itab__558 UD_TAB__OPC_SSE "/sse";
    LookupEntry ud_itab__559 UD_TAB__OPC_SSE "/sse";
    LookupEntry ud_itab__560 UD_TAB__OPC_SSE "/sse";
    LookupEntry ud_itab__561 UD_TAB__OPC_SSE "/sse";
    LookupEntry ud_itab__562 UD_TAB__OPC_SSE "/sse";
    LookupEntry ud_itab__563 UD_TAB__OPC_MODE "/m";
    LookupEntry ud_itab__564 UD_TAB__OPC_MODE "/m";
    LookupEntry ud_itab__565 UD_TAB__OPC_MODE "/m";
    LookupEntry ud_itab__566 UD_TAB__OPC_MODE "/m";
    LookupEntry ud_itab__567 UD_TAB__OPC_MODE "/m";
    LookupEntry ud_itab__568 UD_TAB__OPC_MODE "/m";
    LookupEntry ud_itab__569 UD_TAB__OPC_MODE "/m";
    LookupEntry ud_itab__570 UD_TAB__OPC_MODE "/m";
    LookupEntry ud_itab__571 UD_TAB__OPC_OSIZE "/o";
    LookupEntry ud_itab__572 UD_TAB__OPC_MODE "/m";
    LookupEntry ud_itab__573 UD_TAB__OPC_MODE "/m";
    LookupEntry ud_itab__574 UD_TAB__OPC_OSIZE "/o";
    LookupEntry ud_itab__575 UD_TAB__OPC_MODE "/m";
    LookupEntry ud_itab__576 UD_TAB__OPC_MODE "/m";
    LookupEntry ud_itab__577 UD_TAB__OPC_MODE "/m";
    LookupEntry ud_itab__578 UD_TAB__OPC_MODE "/m";
    LookupEntry ud_itab__579 UD_TAB__OPC_OSIZE "/o";
    LookupEntry ud_itab__580 UD_TAB__OPC_OSIZE "/o";
    LookupEntry ud_itab__581 UD_TAB__OPC_REG "/reg";
    LookupEntry ud_itab__582 UD_TAB__OPC_REG "/reg";
    LookupEntry ud_itab__583 UD_TAB__OPC_REG "/reg";
    LookupEntry ud_itab__584 UD_TAB__OPC_MODE "/m";
    LookupEntry ud_itab__585 UD_TAB__OPC_MODE "/m";
    LookupEntry ud_itab__586 UD_TAB__OPC_MODE "/m";
    LookupEntry ud_itab__587 UD_TAB__OPC_MODE "/m";
    LookupEntry ud_itab__588 UD_TAB__OPC_MODE "/m";
    LookupEntry ud_itab__589 UD_TAB__OPC_MODE "/m";
    LookupEntry ud_itab__590 UD_TAB__OPC_MODE "/m";
    LookupEntry ud_itab__591 UD_TAB__OPC_MODE "/m";
    LookupEntry ud_itab__592 UD_TAB__OPC_REG "/reg";
    LookupEntry ud_itab__593 UD_TAB__OPC_REG "/reg";
    LookupEntry ud_itab__594 UD_TAB__OPC_OSIZE "/o";
    LookupEntry ud_itab__595 UD_TAB__OPC_OSIZE "/o";
    LookupEntry ud_itab__596 UD_TAB__OPC_MODE "/m";
    LookupEntry ud_itab__597 UD_TAB__OPC_OSIZE "/o";
    LookupEntry ud_itab__598 UD_TAB__OPC_MODE "/m";
    LookupEntry ud_itab__599 UD_TAB__OPC_MODE "/m";
    LookupEntry ud_itab__600 UD_TAB__OPC_MODE "/m";
    LookupEntry ud_itab__601 UD_TAB__OPC_OSIZE "/o";
    LookupEntry ud_itab__602 UD_TAB__OPC_MODE "/m";
    LookupEntry ud_itab__603 UD_TAB__OPC_MODE "/m";
    LookupEntry ud_itab__604 UD_TAB__OPC_MODE "/m";
    LookupEntry ud_itab__605 UD_TAB__OPC_OSIZE "/o";
    LookupEntry ud_itab__606 UD_TAB__OPC_OSIZE "/o";
    LookupEntry ud_itab__607 UD_TAB__OPC_OSIZE "/o";
    LookupEntry ud_itab__608 UD_TAB__OPC_OSIZE "/o";
    LookupEntry ud_itab__609 UD_TAB__OPC_OSIZE "/o";
    LookupEntry ud_itab__610 UD_TAB__OPC_REG "/reg";
    LookupEntry ud_itab__611 UD_TAB__OPC_REG "/reg";
    LookupEntry ud_itab__612 UD_TAB__OPC_MODE "/m";
    LookupEntry ud_itab__613 UD_TAB__OPC_MODE "/m";
    LookupEntry ud_itab__614 UD_TAB__OPC_REG "/reg";
    LookupEntry ud_itab__615 UD_TAB__OPC_REG "/reg";
    LookupEntry ud_itab__616 UD_TAB__OPC_MODE "/m";
    LookupEntry ud_itab__617 UD_TAB__OPC_OSIZE "/o";
    LookupEntry ud_itab__618 UD_TAB__OPC_REG "/reg";
    LookupEntry ud_itab__619 UD_TAB__OPC_REG "/reg";
    LookupEntry ud_itab__620 UD_TAB__OPC_REG "/reg";
    LookupEntry ud_itab__621 UD_TAB__OPC_REG "/reg";
    LookupEntry ud_itab__622 UD_TAB__OPC_MODE "/m";
    LookupEntry ud_itab__623 UD_TAB__OPC_MODE "/m";
    LookupEntry ud_itab__624 UD_TAB__OPC_MODE "/m";
    LookupEntry ud_itab__625 UD_TAB__OPC_MOD "/mod";
    LookupEntry ud_itab__626 UD_TAB__OPC_REG "/reg";
    LookupEntry ud_itab__627 UD_TAB__OPC_MOD "/mod";
    LookupEntry ud_itab__628 UD_TAB__OPC_MOD "/mod";
    LookupEntry ud_itab__629 UD_TAB__OPC_MOD "/mod";
    LookupEntry ud_itab__630 UD_TAB__OPC_MOD "/mod";
    LookupEntry ud_itab__631 UD_TAB__OPC_MOD "/mod";
    LookupEntry ud_itab__632 UD_TAB__OPC_MOD "/mod";
    LookupEntry ud_itab__633 UD_TAB__OPC_MOD "/mod";
    LookupEntry ud_itab__634 UD_TAB__OPC_MOD "/mod";
    LookupEntry ud_itab__635 UD_TAB__OPC_X87 "/x87";
    LookupEntry ud_itab__636 UD_TAB__OPC_MOD "/mod";
    LookupEntry ud_itab__637 UD_TAB__OPC_MOD "/mod";
    LookupEntry ud_itab__638 UD_TAB__OPC_MOD "/mod";
    LookupEntry ud_itab__639 UD_TAB__OPC_MOD "/mod";
    LookupEntry ud_itab__640 UD_TAB__OPC_MOD "/mod";
    LookupEntry ud_itab__641 UD_TAB__OPC_MOD "/mod";
    LookupEntry ud_itab__642 UD_TAB__OPC_MOD "/mod";
    LookupEntry ud_itab__643 UD_TAB__OPC_MOD "/mod";
    LookupEntry ud_itab__644 UD_TAB__OPC_MOD "/mod";
    LookupEntry ud_itab__645 UD_TAB__OPC_MOD "/mod";
    LookupEntry ud_itab__646 UD_TAB__OPC_MOD "/mod";
    LookupEntry ud_itab__647 UD_TAB__OPC_MOD "/mod";
    LookupEntry ud_itab__648 UD_TAB__OPC_MOD "/mod";
    LookupEntry ud_itab__649 UD_TAB__OPC_MOD "/mod";
    LookupEntry ud_itab__650 UD_TAB__OPC_MOD "/mod";
    LookupEntry ud_itab__651 UD_TAB__OPC_MOD "/mod";
    LookupEntry ud_itab__652 UD_TAB__OPC_MOD "/mod";
    LookupEntry ud_itab__653 UD_TAB__OPC_MOD "/mod";
    LookupEntry ud_itab__654 UD_TAB__OPC_MOD "/mod";
    LookupEntry ud_itab__655 UD_TAB__OPC_MOD "/mod";
    LookupEntry ud_itab__656 UD_TAB__OPC_MOD "/mod";
    LookupEntry ud_itab__657 UD_TAB__OPC_MOD "/mod";
    LookupEntry ud_itab__658 UD_TAB__OPC_MOD "/mod";
    LookupEntry ud_itab__659 UD_TAB__OPC_MOD "/mod";
    LookupEntry ud_itab__660 UD_TAB__OPC_MOD "/mod";
    LookupEntry ud_itab__661 UD_TAB__OPC_MOD "/mod";
    LookupEntry ud_itab__662 UD_TAB__OPC_MOD "/mod";
    LookupEntry ud_itab__663 UD_TAB__OPC_MOD "/mod";
    LookupEntry ud_itab__664 UD_TAB__OPC_MOD "/mod";
    LookupEntry ud_itab__665 UD_TAB__OPC_MOD "/mod";
    LookupEntry ud_itab__666 UD_TAB__OPC_MOD "/mod";
    LookupEntry ud_itab__667 UD_TAB__OPC_MOD "/mod";
    LookupEntry ud_itab__668 UD_TAB__OPC_MOD "/mod";
    LookupEntry ud_itab__669 UD_TAB__OPC_MOD "/mod";
    LookupEntry ud_itab__670 UD_TAB__OPC_MOD "/mod";
    LookupEntry ud_itab__671 UD_TAB__OPC_MOD "/mod";
    LookupEntry ud_itab__672 UD_TAB__OPC_MOD "/mod";
    LookupEntry ud_itab__673 UD_TAB__OPC_MOD "/mod";
    LookupEntry ud_itab__674 UD_TAB__OPC_MOD "/mod";
    LookupEntry ud_itab__675 UD_TAB__OPC_MOD "/mod";
    LookupEntry ud_itab__676 UD_TAB__OPC_MOD "/mod";
    LookupEntry ud_itab__677 UD_TAB__OPC_MOD "/mod";
    LookupEntry ud_itab__678 UD_TAB__OPC_MOD "/mod";
    LookupEntry ud_itab__679 UD_TAB__OPC_MOD "/mod";
    LookupEntry ud_itab__680 UD_TAB__OPC_MOD "/mod";
    LookupEntry ud_itab__681 UD_TAB__OPC_MOD "/mod";
    LookupEntry ud_itab__682 UD_TAB__OPC_MOD "/mod";
    LookupEntry ud_itab__683 UD_TAB__OPC_MOD "/mod";
    LookupEntry ud_itab__684 UD_TAB__OPC_MOD "/mod";
    LookupEntry ud_itab__685 UD_TAB__OPC_MOD "/mod";
    LookupEntry ud_itab__686 UD_TAB__OPC_MOD "/mod";
    LookupEntry ud_itab__687 UD_TAB__OPC_MOD "/mod";
    LookupEntry ud_itab__688 UD_TAB__OPC_MOD "/mod";
    LookupEntry ud_itab__689 UD_TAB__OPC_MOD "/mod";
    LookupEntry ud_itab__690 UD_TAB__OPC_MOD "/mod";
    LookupEntry ud_itab__691 UD_TAB__OPC_MOD "/mod";
    LookupEntry ud_itab__692 UD_TAB__OPC_MOD "/mod";
    LookupEntry ud_itab__693 UD_TAB__OPC_MOD "/mod";
    LookupEntry ud_itab__694 UD_TAB__OPC_MOD "/mod";
    LookupEntry ud_itab__695 UD_TAB__OPC_MOD "/mod";
    LookupEntry ud_itab__696 UD_TAB__OPC_MOD "/mod";
    LookupEntry ud_itab__697 UD_TAB__OPC_MOD "/mod";
    LookupEntry ud_itab__698 UD_TAB__OPC_MOD "/mod";
    LookupEntry ud_itab__699 UD_TAB__OPC_MOD "/mod";
    LookupEntry ud_itab__700 UD_TAB__OPC_MOD "/mod";
    LookupEntry ud_itab__701 UD_TAB__OPC_REG "/reg";
    LookupEntry ud_itab__702 UD_TAB__OPC_MOD "/mod";
    LookupEntry ud_itab__703 UD_TAB__OPC_MOD "/mod";
    LookupEntry ud_itab__704 UD_TAB__OPC_MOD "/mod";
    LookupEntry ud_itab__705 UD_TAB__OPC_MOD "/mod";
    LookupEntry ud_itab__706 UD_TAB__OPC_MOD "/mod";
    LookupEntry ud_itab__707 UD_TAB__OPC_MOD "/mod";
    LookupEntry ud_itab__708 UD_TAB__OPC_MOD "/mod";
    LookupEntry ud_itab__709 UD_TAB__OPC_X87 "/x87";
    LookupEntry ud_itab__710 UD_TAB__OPC_MOD "/mod";
    LookupEntry ud_itab__711 UD_TAB__OPC_MOD "/mod";
    LookupEntry ud_itab__712 UD_TAB__OPC_MOD "/mod";
    LookupEntry ud_itab__713 UD_TAB__OPC_MOD "/mod";
    LookupEntry ud_itab__714 UD_TAB__OPC_MOD "/mod";
    LookupEntry ud_itab__715 UD_TAB__OPC_MOD "/mod";
    LookupEntry ud_itab__716 UD_TAB__OPC_MOD "/mod";
    LookupEntry ud_itab__717 UD_TAB__OPC_MOD "/mod";
    LookupEntry ud_itab__718 UD_TAB__OPC_MOD "/mod";
    LookupEntry ud_itab__719 UD_TAB__OPC_MOD "/mod";
    LookupEntry ud_itab__720 UD_TAB__OPC_MOD "/mod";
    LookupEntry ud_itab__721 UD_TAB__OPC_MOD "/mod";
    LookupEntry ud_itab__722 UD_TAB__OPC_MOD "/mod";
    LookupEntry ud_itab__723 UD_TAB__OPC_MOD "/mod";
    LookupEntry ud_itab__724 UD_TAB__OPC_MOD "/mod";
    LookupEntry ud_itab__725 UD_TAB__OPC_MOD "/mod";
    LookupEntry ud_itab__726 UD_TAB__OPC_MOD "/mod";
    LookupEntry ud_itab__727 UD_TAB__OPC_MOD "/mod";
    LookupEntry ud_itab__728 UD_TAB__OPC_MOD "/mod";
    LookupEntry ud_itab__729 UD_TAB__OPC_MOD "/mod";
    LookupEntry ud_itab__730 UD_TAB__OPC_MOD "/mod";
    LookupEntry ud_itab__731 UD_TAB__OPC_MOD "/mod";
    LookupEntry ud_itab__732 UD_TAB__OPC_MOD "/mod";
    LookupEntry ud_itab__733 UD_TAB__OPC_MOD "/mod";
    LookupEntry ud_itab__734 UD_TAB__OPC_MOD "/mod";
    LookupEntry ud_itab__735 UD_TAB__OPC_MOD "/mod";
    LookupEntry ud_itab__736 UD_TAB__OPC_MOD "/mod";
    LookupEntry ud_itab__737 UD_TAB__OPC_MOD "/mod";
    LookupEntry ud_itab__738 UD_TAB__OPC_MOD "/mod";
    LookupEntry ud_itab__739 UD_TAB__OPC_MOD "/mod";
    LookupEntry ud_itab__740 UD_TAB__OPC_MOD "/mod";
    LookupEntry ud_itab__741 UD_TAB__OPC_MOD "/mod";
    LookupEntry ud_itab__742 UD_TAB__OPC_MOD "/mod";
    LookupEntry ud_itab__743 UD_TAB__OPC_MOD "/mod";
    LookupEntry ud_itab__744 UD_TAB__OPC_MOD "/mod";
    LookupEntry ud_itab__745 UD_TAB__OPC_MOD "/mod";
    LookupEntry ud_itab__746 UD_TAB__OPC_MOD "/mod";
    LookupEntry ud_itab__747 UD_TAB__OPC_MOD "/mod";
    LookupEntry ud_itab__748 UD_TAB__OPC_MOD "/mod";
    LookupEntry ud_itab__749 UD_TAB__OPC_MOD "/mod";
    LookupEntry ud_itab__750 UD_TAB__OPC_MOD "/mod";
    LookupEntry ud_itab__751 UD_TAB__OPC_MOD "/mod";
    LookupEntry ud_itab__752 UD_TAB__OPC_MOD "/mod";
    LookupEntry ud_itab__753 UD_TAB__OPC_MOD "/mod";
    LookupEntry ud_itab__754 UD_TAB__OPC_MOD "/mod";
    LookupEntry ud_itab__755 UD_TAB__OPC_MOD "/mod";
    LookupEntry ud_itab__756 UD_TAB__OPC_MOD "/mod";
    LookupEntry ud_itab__757 UD_TAB__OPC_MOD "/mod";
    LookupEntry ud_itab__758 UD_TAB__OPC_MOD "/mod";
    LookupEntry ud_itab__759 UD_TAB__OPC_MOD "/mod";
    LookupEntry ud_itab__760 UD_TAB__OPC_MOD "/mod";
    LookupEntry ud_itab__761 UD_TAB__OPC_MOD "/mod";
    LookupEntry ud_itab__762 UD_TAB__OPC_MOD "/mod";
    LookupEntry ud_itab__763 UD_TAB__OPC_REG "/reg";
    LookupEntry ud_itab__764 UD_TAB__OPC_MOD "/mod";
    LookupEntry ud_itab__765 UD_TAB__OPC_MOD "/mod";
    LookupEntry ud_itab__766 UD_TAB__OPC_MOD "/mod";
    LookupEntry ud_itab__767 UD_TAB__OPC_MOD "/mod";
    LookupEntry ud_itab__768 UD_TAB__OPC_MOD "/mod";
    LookupEntry ud_itab__769 UD_TAB__OPC_MOD "/mod";
    LookupEntry ud_itab__770 UD_TAB__OPC_MOD "/mod";
    LookupEntry ud_itab__771 UD_TAB__OPC_MOD "/mod";
    LookupEntry ud_itab__772 UD_TAB__OPC_X87 "/x87";
    LookupEntry ud_itab__773 UD_TAB__OPC_MOD "/mod";
    LookupEntry ud_itab__774 UD_TAB__OPC_MOD "/mod";
    LookupEntry ud_itab__775 UD_TAB__OPC_MOD "/mod";
    LookupEntry ud_itab__776 UD_TAB__OPC_MOD "/mod";
    LookupEntry ud_itab__777 UD_TAB__OPC_MOD "/mod";
    LookupEntry ud_itab__778 UD_TAB__OPC_MOD "/mod";
    LookupEntry ud_itab__779 UD_TAB__OPC_MOD "/mod";
    LookupEntry ud_itab__780 UD_TAB__OPC_MOD "/mod";
    LookupEntry ud_itab__781 UD_TAB__OPC_MOD "/mod";
    LookupEntry ud_itab__782 UD_TAB__OPC_MOD "/mod";
    LookupEntry ud_itab__783 UD_TAB__OPC_MOD "/mod";
    LookupEntry ud_itab__784 UD_TAB__OPC_MOD "/mod";
    LookupEntry ud_itab__785 UD_TAB__OPC_MOD "/mod";
    LookupEntry ud_itab__786 UD_TAB__OPC_MOD "/mod";
    LookupEntry ud_itab__787 UD_TAB__OPC_MOD "/mod";
    LookupEntry ud_itab__788 UD_TAB__OPC_MOD "/mod";
    LookupEntry ud_itab__789 UD_TAB__OPC_MOD "/mod";
    LookupEntry ud_itab__790 UD_TAB__OPC_MOD "/mod";
    LookupEntry ud_itab__791 UD_TAB__OPC_MOD "/mod";
    LookupEntry ud_itab__792 UD_TAB__OPC_MOD "/mod";
    LookupEntry ud_itab__793 UD_TAB__OPC_MOD "/mod";
    LookupEntry ud_itab__794 UD_TAB__OPC_MOD "/mod";
    LookupEntry ud_itab__795 UD_TAB__OPC_MOD "/mod";
    LookupEntry ud_itab__796 UD_TAB__OPC_MOD "/mod";
    LookupEntry ud_itab__797 UD_TAB__OPC_MOD "/mod";
    LookupEntry ud_itab__798 UD_TAB__OPC_MOD "/mod";
    LookupEntry ud_itab__799 UD_TAB__OPC_MOD "/mod";
    LookupEntry ud_itab__800 UD_TAB__OPC_MOD "/mod";
    LookupEntry ud_itab__801 UD_TAB__OPC_MOD "/mod";
    LookupEntry ud_itab__802 UD_TAB__OPC_MOD "/mod";
    LookupEntry ud_itab__803 UD_TAB__OPC_MOD "/mod";
    LookupEntry ud_itab__804 UD_TAB__OPC_MOD "/mod";
    LookupEntry ud_itab__805 UD_TAB__OPC_MOD "/mod";
    LookupEntry ud_itab__806 UD_TAB__OPC_MOD "/mod";
    LookupEntry ud_itab__807 UD_TAB__OPC_REG "/reg";
    LookupEntry ud_itab__808 UD_TAB__OPC_MOD "/mod";
    LookupEntry ud_itab__809 UD_TAB__OPC_MOD "/mod";
    LookupEntry ud_itab__810 UD_TAB__OPC_MOD "/mod";
    LookupEntry ud_itab__811 UD_TAB__OPC_MOD "/mod";
    LookupEntry ud_itab__812 UD_TAB__OPC_MOD "/mod";
    LookupEntry ud_itab__813 UD_TAB__OPC_MOD "/mod";
    LookupEntry ud_itab__814 UD_TAB__OPC_X87 "/x87";
    LookupEntry ud_itab__815 UD_TAB__OPC_MOD "/mod";
    LookupEntry ud_itab__816 UD_TAB__OPC_MOD "/mod";
    LookupEntry ud_itab__817 UD_TAB__OPC_MOD "/mod";
    LookupEntry ud_itab__818 UD_TAB__OPC_MOD "/mod";
    LookupEntry ud_itab__819 UD_TAB__OPC_MOD "/mod";
    LookupEntry ud_itab__820 UD_TAB__OPC_MOD "/mod";
    LookupEntry ud_itab__821 UD_TAB__OPC_MOD "/mod";
    LookupEntry ud_itab__822 UD_TAB__OPC_MOD "/mod";
    LookupEntry ud_itab__823 UD_TAB__OPC_MOD "/mod";
    LookupEntry ud_itab__824 UD_TAB__OPC_MOD "/mod";
    LookupEntry ud_itab__825 UD_TAB__OPC_MOD "/mod";
    LookupEntry ud_itab__826 UD_TAB__OPC_MOD "/mod";
    LookupEntry ud_itab__827 UD_TAB__OPC_MOD "/mod";
    LookupEntry ud_itab__828 UD_TAB__OPC_MOD "/mod";
    LookupEntry ud_itab__829 UD_TAB__OPC_MOD "/mod";
    LookupEntry ud_itab__830 UD_TAB__OPC_MOD "/mod";
    LookupEntry ud_itab__831 UD_TAB__OPC_MOD "/mod";
    LookupEntry ud_itab__832 UD_TAB__OPC_MOD "/mod";
    LookupEntry ud_itab__833 UD_TAB__OPC_MOD "/mod";
    LookupEntry ud_itab__834 UD_TAB__OPC_MOD "/mod";
    LookupEntry ud_itab__835 UD_TAB__OPC_MOD "/mod";
    LookupEntry ud_itab__836 UD_TAB__OPC_MOD "/mod";
    LookupEntry ud_itab__837 UD_TAB__OPC_MOD "/mod";
    LookupEntry ud_itab__838 UD_TAB__OPC_MOD "/mod";
    LookupEntry ud_itab__839 UD_TAB__OPC_MOD "/mod";
    LookupEntry ud_itab__840 UD_TAB__OPC_MOD "/mod";
    LookupEntry ud_itab__841 UD_TAB__OPC_MOD "/mod";
    LookupEntry ud_itab__842 UD_TAB__OPC_MOD "/mod";
    LookupEntry ud_itab__843 UD_TAB__OPC_MOD "/mod";
    LookupEntry ud_itab__844 UD_TAB__OPC_MOD "/mod";
    LookupEntry ud_itab__845 UD_TAB__OPC_MOD "/mod";
    LookupEntry ud_itab__846 UD_TAB__OPC_MOD "/mod";
    LookupEntry ud_itab__847 UD_TAB__OPC_MOD "/mod";
    LookupEntry ud_itab__848 UD_TAB__OPC_MOD "/mod";
    LookupEntry ud_itab__849 UD_TAB__OPC_MOD "/mod";
    LookupEntry ud_itab__850 UD_TAB__OPC_MOD "/mod";
    LookupEntry ud_itab__851 UD_TAB__OPC_MOD "/mod";
    LookupEntry ud_itab__852 UD_TAB__OPC_MOD "/mod";
    LookupEntry ud_itab__853 UD_TAB__OPC_MOD "/mod";
    LookupEntry ud_itab__854 UD_TAB__OPC_MOD "/mod";
    LookupEntry ud_itab__855 UD_TAB__OPC_MOD "/mod";
    LookupEntry ud_itab__856 UD_TAB__OPC_MOD "/mod";
    LookupEntry ud_itab__857 UD_TAB__OPC_MOD "/mod";
    LookupEntry ud_itab__858 UD_TAB__OPC_MOD "/mod";
    LookupEntry ud_itab__859 UD_TAB__OPC_MOD "/mod";
    LookupEntry ud_itab__860 UD_TAB__OPC_MOD "/mod";
    LookupEntry ud_itab__861 UD_TAB__OPC_MOD "/mod";
    LookupEntry ud_itab__862 UD_TAB__OPC_MOD "/mod";
    LookupEntry ud_itab__863 UD_TAB__OPC_MOD "/mod";
    LookupEntry ud_itab__864 UD_TAB__OPC_MOD "/mod";
    LookupEntry ud_itab__865 UD_TAB__OPC_MOD "/mod";
    LookupEntry ud_itab__866 UD_TAB__OPC_REG "/reg";
    LookupEntry ud_itab__867 UD_TAB__OPC_MOD "/mod";
    LookupEntry ud_itab__868 UD_TAB__OPC_MOD "/mod";
    LookupEntry ud_itab__869 UD_TAB__OPC_MOD "/mod";
    LookupEntry ud_itab__870 UD_TAB__OPC_MOD "/mod";
    LookupEntry ud_itab__871 UD_TAB__OPC_MOD "/mod";
    LookupEntry ud_itab__872 UD_TAB__OPC_MOD "/mod";
    LookupEntry ud_itab__873 UD_TAB__OPC_MOD "/mod";
    LookupEntry ud_itab__874 UD_TAB__OPC_MOD "/mod";
    LookupEntry ud_itab__875 UD_TAB__OPC_X87 "/x87";
    LookupEntry ud_itab__876 UD_TAB__OPC_MOD "/mod";
    LookupEntry ud_itab__877 UD_TAB__OPC_MOD "/mod";
    LookupEntry ud_itab__878 UD_TAB__OPC_MOD "/mod";
    LookupEntry ud_itab__879 UD_TAB__OPC_MOD "/mod";
    LookupEntry ud_itab__880 UD_TAB__OPC_MOD "/mod";
    LookupEntry ud_itab__881 UD_TAB__OPC_MOD "/mod";
    LookupEntry ud_itab__882 UD_TAB__OPC_MOD "/mod";
    LookupEntry ud_itab__883 UD_TAB__OPC_MOD "/mod";
    LookupEntry ud_itab__884 UD_TAB__OPC_MOD "/mod";
    LookupEntry ud_itab__885 UD_TAB__OPC_MOD "/mod";
    LookupEntry ud_itab__886 UD_TAB__OPC_MOD "/mod";
    LookupEntry ud_itab__887 UD_TAB__OPC_MOD "/mod";
    LookupEntry ud_itab__888 UD_TAB__OPC_MOD "/mod";
    LookupEntry ud_itab__889 UD_TAB__OPC_MOD "/mod";
    LookupEntry ud_itab__890 UD_TAB__OPC_MOD "/mod";
    LookupEntry ud_itab__891 UD_TAB__OPC_MOD "/mod";
    LookupEntry ud_itab__892 UD_TAB__OPC_MOD "/mod";
    LookupEntry ud_itab__893 UD_TAB__OPC_MOD "/mod";
    LookupEntry ud_itab__894 UD_TAB__OPC_MOD "/mod";
    LookupEntry ud_itab__895 UD_TAB__OPC_MOD "/mod";
    LookupEntry ud_itab__896 UD_TAB__OPC_MOD "/mod";
    LookupEntry ud_itab__897 UD_TAB__OPC_MOD "/mod";
    LookupEntry ud_itab__898 UD_TAB__OPC_MOD "/mod";
    LookupEntry ud_itab__899 UD_TAB__OPC_MOD "/mod";
    LookupEntry ud_itab__900 UD_TAB__OPC_MOD "/mod";
    LookupEntry ud_itab__901 UD_TAB__OPC_MOD "/mod";
    LookupEntry ud_itab__902 UD_TAB__OPC_MOD "/mod";
    LookupEntry ud_itab__903 UD_TAB__OPC_MOD "/mod";
    LookupEntry ud_itab__904 UD_TAB__OPC_MOD "/mod";
    LookupEntry ud_itab__905 UD_TAB__OPC_MOD "/mod";
    LookupEntry ud_itab__906 UD_TAB__OPC_MOD "/mod";
    LookupEntry ud_itab__907 UD_TAB__OPC_MOD "/mod";
    LookupEntry ud_itab__908 UD_TAB__OPC_MOD "/mod";
    LookupEntry ud_itab__909 UD_TAB__OPC_MOD "/mod";
    LookupEntry ud_itab__910 UD_TAB__OPC_MOD "/mod";
    LookupEntry ud_itab__911 UD_TAB__OPC_MOD "/mod";
    LookupEntry ud_itab__912 UD_TAB__OPC_MOD "/mod";
    LookupEntry ud_itab__913 UD_TAB__OPC_MOD "/mod";
    LookupEntry ud_itab__914 UD_TAB__OPC_MOD "/mod";
    LookupEntry ud_itab__915 UD_TAB__OPC_MOD "/mod";
    LookupEntry ud_itab__916 UD_TAB__OPC_MOD "/mod";
    LookupEntry ud_itab__917 UD_TAB__OPC_MOD "/mod";
    LookupEntry ud_itab__918 UD_TAB__OPC_MOD "/mod";
    LookupEntry ud_itab__919 UD_TAB__OPC_MOD "/mod";
    LookupEntry ud_itab__920 UD_TAB__OPC_MOD "/mod";
    LookupEntry ud_itab__921 UD_TAB__OPC_MOD "/mod";
    LookupEntry ud_itab__922 UD_TAB__OPC_MOD "/mod";
    LookupEntry ud_itab__923 UD_TAB__OPC_MOD "/mod";
    LookupEntry ud_itab__924 UD_TAB__OPC_MOD "/mod";
    LookupEntry ud_itab__925 UD_TAB__OPC_MOD "/mod";
    LookupEntry ud_itab__926 UD_TAB__OPC_MOD "/mod";
    LookupEntry ud_itab__927 UD_TAB__OPC_MOD "/mod";
    LookupEntry ud_itab__928 UD_TAB__OPC_MOD "/mod";
    LookupEntry ud_itab__929 UD_TAB__OPC_MOD "/mod";
    LookupEntry ud_itab__930 UD_TAB__OPC_MOD "/mod";
    LookupEntry ud_itab__931 UD_TAB__OPC_MOD "/mod";
    LookupEntry ud_itab__932 UD_TAB__OPC_MOD "/mod";
    LookupEntry ud_itab__933 UD_TAB__OPC_MOD "/mod";
    LookupEntry ud_itab__934 UD_TAB__OPC_MOD "/mod";
    LookupEntry ud_itab__935 UD_TAB__OPC_MOD "/mod";
    LookupEntry ud_itab__936 UD_TAB__OPC_MOD "/mod";
    LookupEntry ud_itab__937 UD_TAB__OPC_MOD "/mod";
    LookupEntry ud_itab__938 UD_TAB__OPC_MOD "/mod";
    LookupEntry ud_itab__939 UD_TAB__OPC_MOD "/mod";
    LookupEntry ud_itab__940 UD_TAB__OPC_MOD "/mod";
    LookupEntry ud_itab__941 UD_TAB__OPC_REG "/reg";
    LookupEntry ud_itab__942 UD_TAB__OPC_MOD "/mod";
    LookupEntry ud_itab__943 UD_TAB__OPC_MOD "/mod";
    LookupEntry ud_itab__944 UD_TAB__OPC_MOD "/mod";
    LookupEntry ud_itab__945 UD_TAB__OPC_MOD "/mod";
    LookupEntry ud_itab__946 UD_TAB__OPC_MOD "/mod";
    LookupEntry ud_itab__947 UD_TAB__OPC_MOD "/mod";
    LookupEntry ud_itab__948 UD_TAB__OPC_MOD "/mod";
    LookupEntry ud_itab__949 UD_TAB__OPC_X87 "/x87";
    LookupEntry ud_itab__950 UD_TAB__OPC_MOD "/mod";
    LookupEntry ud_itab__951 UD_TAB__OPC_MOD "/mod";
    LookupEntry ud_itab__952 UD_TAB__OPC_MOD "/mod";
    LookupEntry ud_itab__953 UD_TAB__OPC_MOD "/mod";
    LookupEntry ud_itab__954 UD_TAB__OPC_MOD "/mod";
    LookupEntry ud_itab__955 UD_TAB__OPC_MOD "/mod";
    LookupEntry ud_itab__956 UD_TAB__OPC_MOD "/mod";
    LookupEntry ud_itab__957 UD_TAB__OPC_MOD "/mod";
    LookupEntry ud_itab__958 UD_TAB__OPC_MOD "/mod";
    LookupEntry ud_itab__959 UD_TAB__OPC_MOD "/mod";
    LookupEntry ud_itab__960 UD_TAB__OPC_MOD "/mod";
    LookupEntry ud_itab__961 UD_TAB__OPC_MOD "/mod";
    LookupEntry ud_itab__962 UD_TAB__OPC_MOD "/mod";
    LookupEntry ud_itab__963 UD_TAB__OPC_MOD "/mod";
    LookupEntry ud_itab__964 UD_TAB__OPC_MOD "/mod";
    LookupEntry ud_itab__965 UD_TAB__OPC_MOD "/mod";
    LookupEntry ud_itab__966 UD_TAB__OPC_MOD "/mod";
    LookupEntry ud_itab__967 UD_TAB__OPC_MOD "/mod";
    LookupEntry ud_itab__968 UD_TAB__OPC_MOD "/mod";
    LookupEntry ud_itab__969 UD_TAB__OPC_MOD "/mod";
    LookupEntry ud_itab__970 UD_TAB__OPC_MOD "/mod";
    LookupEntry ud_itab__971 UD_TAB__OPC_MOD "/mod";
    LookupEntry ud_itab__972 UD_TAB__OPC_MOD "/mod";
    LookupEntry ud_itab__973 UD_TAB__OPC_MOD "/mod";
    LookupEntry ud_itab__974 UD_TAB__OPC_MOD "/mod";
    LookupEntry ud_itab__975 UD_TAB__OPC_MOD "/mod";
    LookupEntry ud_itab__976 UD_TAB__OPC_MOD "/mod";
    LookupEntry ud_itab__977 UD_TAB__OPC_MOD "/mod";
    LookupEntry ud_itab__978 UD_TAB__OPC_MOD "/mod";
    LookupEntry ud_itab__979 UD_TAB__OPC_MOD "/mod";
    LookupEntry ud_itab__980 UD_TAB__OPC_MOD "/mod";
    LookupEntry ud_itab__981 UD_TAB__OPC_MOD "/mod";
    LookupEntry ud_itab__982 UD_TAB__OPC_MOD "/mod";
    LookupEntry ud_itab__983 UD_TAB__OPC_MOD "/mod";
    LookupEntry ud_itab__984 UD_TAB__OPC_MOD "/mod";
    LookupEntry ud_itab__985 UD_TAB__OPC_MOD "/mod";
    LookupEntry ud_itab__986 UD_TAB__OPC_MOD "/mod";
    LookupEntry ud_itab__987 UD_TAB__OPC_MOD "/mod";
    LookupEntry ud_itab__988 UD_TAB__OPC_MOD "/mod";
    LookupEntry ud_itab__989 UD_TAB__OPC_MOD "/mod";
    LookupEntry ud_itab__990 UD_TAB__OPC_MOD "/mod";
    LookupEntry ud_itab__991 UD_TAB__OPC_MOD "/mod";
    LookupEntry ud_itab__992 UD_TAB__OPC_MOD "/mod";
    LookupEntry ud_itab__993 UD_TAB__OPC_MOD "/mod";
    LookupEntry ud_itab__994 UD_TAB__OPC_MOD "/mod";
    LookupEntry ud_itab__995 UD_TAB__OPC_MOD "/mod";
    LookupEntry ud_itab__996 UD_TAB__OPC_MOD "/mod";
    LookupEntry ud_itab__997 UD_TAB__OPC_MOD "/mod";
    LookupEntry ud_itab__998 UD_TAB__OPC_MOD "/mod";
    LookupEntry ud_itab__999 UD_TAB__OPC_REG "/reg";
    LookupEntry ud_itab__1000 UD_TAB__OPC_MOD "/mod";
    LookupEntry ud_itab__1001 UD_TAB__OPC_MOD "/mod";
    LookupEntry ud_itab__1002 UD_TAB__OPC_MOD "/mod";
    LookupEntry ud_itab__1003 UD_TAB__OPC_MOD "/mod";
    LookupEntry ud_itab__1004 UD_TAB__OPC_MOD "/mod";
    LookupEntry ud_itab__1005 UD_TAB__OPC_MOD "/mod";
    LookupEntry ud_itab__1006 UD_TAB__OPC_MOD "/mod";
    LookupEntry ud_itab__1007 UD_TAB__OPC_MOD "/mod";
    LookupEntry ud_itab__1008 UD_TAB__OPC_X87 "/x87";
    LookupEntry ud_itab__1009 UD_TAB__OPC_MOD "/mod";
    LookupEntry ud_itab__1010 UD_TAB__OPC_MOD "/mod";
    LookupEntry ud_itab__1011 UD_TAB__OPC_MOD "/mod";
    LookupEntry ud_itab__1012 UD_TAB__OPC_MOD "/mod";
    LookupEntry ud_itab__1013 UD_TAB__OPC_MOD "/mod";
    LookupEntry ud_itab__1014 UD_TAB__OPC_MOD "/mod";
    LookupEntry ud_itab__1015 UD_TAB__OPC_MOD "/mod";
    LookupEntry ud_itab__1016 UD_TAB__OPC_MOD "/mod";
    LookupEntry ud_itab__1017 UD_TAB__OPC_MOD "/mod";
    LookupEntry ud_itab__1018 UD_TAB__OPC_MOD "/mod";
    LookupEntry ud_itab__1019 UD_TAB__OPC_MOD "/mod";
    LookupEntry ud_itab__1020 UD_TAB__OPC_MOD "/mod";
    LookupEntry ud_itab__1021 UD_TAB__OPC_MOD "/mod";
    LookupEntry ud_itab__1022 UD_TAB__OPC_MOD "/mod";
    LookupEntry ud_itab__1023 UD_TAB__OPC_MOD "/mod";
    LookupEntry ud_itab__1024 UD_TAB__OPC_MOD "/mod";
    LookupEntry ud_itab__1025 UD_TAB__OPC_MOD "/mod";
    LookupEntry ud_itab__1026 UD_TAB__OPC_MOD "/mod";
    LookupEntry ud_itab__1027 UD_TAB__OPC_MOD "/mod";
    LookupEntry ud_itab__1028 UD_TAB__OPC_MOD "/mod";
    LookupEntry ud_itab__1029 UD_TAB__OPC_MOD "/mod";
    LookupEntry ud_itab__1030 UD_TAB__OPC_MOD "/mod";
    LookupEntry ud_itab__1031 UD_TAB__OPC_MOD "/mod";
    LookupEntry ud_itab__1032 UD_TAB__OPC_MOD "/mod";
    LookupEntry ud_itab__1033 UD_TAB__OPC_MOD "/mod";
    LookupEntry ud_itab__1034 UD_TAB__OPC_MOD "/mod";
    LookupEntry ud_itab__1035 UD_TAB__OPC_MOD "/mod";
    LookupEntry ud_itab__1036 UD_TAB__OPC_MOD "/mod";
    LookupEntry ud_itab__1037 UD_TAB__OPC_MOD "/mod";
    LookupEntry ud_itab__1038 UD_TAB__OPC_MOD "/mod";
    LookupEntry ud_itab__1039 UD_TAB__OPC_MOD "/mod";
    LookupEntry ud_itab__1040 UD_TAB__OPC_MOD "/mod";
    LookupEntry ud_itab__1041 UD_TAB__OPC_MOD "/mod";
    LookupEntry ud_itab__1042 UD_TAB__OPC_MOD "/mod";
    LookupEntry ud_itab__1043 UD_TAB__OPC_MOD "/mod";
    LookupEntry ud_itab__1044 UD_TAB__OPC_MOD "/mod";
    LookupEntry ud_itab__1045 UD_TAB__OPC_MOD "/mod";
    LookupEntry ud_itab__1046 UD_TAB__OPC_MOD "/mod";
    LookupEntry ud_itab__1047 UD_TAB__OPC_MOD "/mod";
    LookupEntry ud_itab__1048 UD_TAB__OPC_MOD "/mod";
    LookupEntry ud_itab__1049 UD_TAB__OPC_MOD "/mod";
    LookupEntry ud_itab__1050 UD_TAB__OPC_MOD "/mod";
    LookupEntry ud_itab__1051 UD_TAB__OPC_MOD "/mod";
    LookupEntry ud_itab__1052 UD_TAB__OPC_MOD "/mod";
    LookupEntry ud_itab__1053 UD_TAB__OPC_MOD "/mod";
    LookupEntry ud_itab__1054 UD_TAB__OPC_MOD "/mod";
    LookupEntry ud_itab__1055 UD_TAB__OPC_MOD "/mod";
    LookupEntry ud_itab__1056 UD_TAB__OPC_MOD "/mod";
    LookupEntry ud_itab__1057 UD_TAB__OPC_MOD "/mod";
    LookupEntry ud_itab__1058 UD_TAB__OPC_MOD "/mod";
    LookupEntry ud_itab__1059 UD_TAB__OPC_MOD "/mod";
    LookupEntry ud_itab__1060 UD_TAB__OPC_MOD "/mod";
    LookupEntry ud_itab__1061 UD_TAB__OPC_MOD "/mod";
    LookupEntry ud_itab__1062 UD_TAB__OPC_MOD "/mod";
    LookupEntry ud_itab__1063 UD_TAB__OPC_MOD "/mod";
    LookupEntry ud_itab__1064 UD_TAB__OPC_MOD "/mod";
    LookupEntry ud_itab__1065 UD_TAB__OPC_MOD "/mod";
    LookupEntry ud_itab__1066 UD_TAB__OPC_MOD "/mod";
    LookupEntry ud_itab__1067 UD_TAB__OPC_REG "/reg";
    LookupEntry ud_itab__1068 UD_TAB__OPC_MOD "/mod";
    LookupEntry ud_itab__1069 UD_TAB__OPC_MOD "/mod";
    LookupEntry ud_itab__1070 UD_TAB__OPC_MOD "/mod";
    LookupEntry ud_itab__1071 UD_TAB__OPC_MOD "/mod";
    LookupEntry ud_itab__1072 UD_TAB__OPC_MOD "/mod";
    LookupEntry ud_itab__1073 UD_TAB__OPC_MOD "/mod";
    LookupEntry ud_itab__1074 UD_TAB__OPC_MOD "/mod";
    LookupEntry ud_itab__1075 UD_TAB__OPC_MOD "/mod";
    LookupEntry ud_itab__1076 UD_TAB__OPC_X87 "/x87";
    LookupEntry ud_itab__1077 UD_TAB__OPC_MOD "/mod";
    LookupEntry ud_itab__1078 UD_TAB__OPC_MOD "/mod";
    LookupEntry ud_itab__1079 UD_TAB__OPC_MOD "/mod";
    LookupEntry ud_itab__1080 UD_TAB__OPC_MOD "/mod";
    LookupEntry ud_itab__1081 UD_TAB__OPC_MOD "/mod";
    LookupEntry ud_itab__1082 UD_TAB__OPC_MOD "/mod";
    LookupEntry ud_itab__1083 UD_TAB__OPC_MOD "/mod";
    LookupEntry ud_itab__1084 UD_TAB__OPC_MOD "/mod";
    LookupEntry ud_itab__1085 UD_TAB__OPC_MOD "/mod";
    LookupEntry ud_itab__1086 UD_TAB__OPC_MOD "/mod";
    LookupEntry ud_itab__1087 UD_TAB__OPC_MOD "/mod";
    LookupEntry ud_itab__1088 UD_TAB__OPC_MOD "/mod";
    LookupEntry ud_itab__1089 UD_TAB__OPC_MOD "/mod";
    LookupEntry ud_itab__1090 UD_TAB__OPC_MOD "/mod";
    LookupEntry ud_itab__1091 UD_TAB__OPC_MOD "/mod";
    LookupEntry ud_itab__1092 UD_TAB__OPC_MOD "/mod";
    LookupEntry ud_itab__1093 UD_TAB__OPC_MOD "/mod";
    LookupEntry ud_itab__1094 UD_TAB__OPC_MOD "/mod";
    LookupEntry ud_itab__1095 UD_TAB__OPC_MOD "/mod";
    LookupEntry ud_itab__1096 UD_TAB__OPC_MOD "/mod";
    LookupEntry ud_itab__1097 UD_TAB__OPC_MOD "/mod";
    LookupEntry ud_itab__1098 UD_TAB__OPC_MOD "/mod";
    LookupEntry ud_itab__1099 UD_TAB__OPC_MOD "/mod";
    LookupEntry ud_itab__1100 UD_TAB__OPC_MOD "/mod";
    LookupEntry ud_itab__1101 UD_TAB__OPC_MOD "/mod";
    LookupEntry ud_itab__1102 UD_TAB__OPC_MOD "/mod";
    LookupEntry ud_itab__1103 UD_TAB__OPC_MOD "/mod";
    LookupEntry ud_itab__1104 UD_TAB__OPC_MOD "/mod";
    LookupEntry ud_itab__1105 UD_TAB__OPC_MOD "/mod";
    LookupEntry ud_itab__1106 UD_TAB__OPC_MOD "/mod";
    LookupEntry ud_itab__1107 UD_TAB__OPC_MOD "/mod";
    LookupEntry ud_itab__1108 UD_TAB__OPC_MOD "/mod";
    LookupEntry ud_itab__1109 UD_TAB__OPC_MOD "/mod";
    LookupEntry ud_itab__1110 UD_TAB__OPC_MOD "/mod";
    LookupEntry ud_itab__1111 UD_TAB__OPC_MOD "/mod";
    LookupEntry ud_itab__1112 UD_TAB__OPC_MOD "/mod";
    LookupEntry ud_itab__1113 UD_TAB__OPC_MOD "/mod";
    LookupEntry ud_itab__1114 UD_TAB__OPC_MOD "/mod";
    LookupEntry ud_itab__1115 UD_TAB__OPC_MOD "/mod";
    LookupEntry ud_itab__1116 UD_TAB__OPC_MOD "/mod";
    LookupEntry ud_itab__1117 UD_TAB__OPC_MOD "/mod";
    LookupEntry ud_itab__1118 UD_TAB__OPC_MOD "/mod";
    LookupEntry ud_itab__1119 UD_TAB__OPC_MOD "/mod";
    LookupEntry ud_itab__1120 UD_TAB__OPC_MOD "/mod";
    LookupEntry ud_itab__1121 UD_TAB__OPC_MOD "/mod";
    LookupEntry ud_itab__1122 UD_TAB__OPC_MOD "/mod";
    LookupEntry ud_itab__1123 UD_TAB__OPC_MOD "/mod";
    LookupEntry ud_itab__1124 UD_TAB__OPC_MOD "/mod";
    LookupEntry ud_itab__1125 UD_TAB__OPC_MOD "/mod";
    LookupEntry ud_itab__1126 UD_TAB__OPC_ASIZE "/a";
    LookupEntry ud_itab__1127 UD_TAB__OPC_MODE "/m";
    LookupEntry ud_itab__1128 UD_TAB__OPC_REG "/reg";
    LookupEntry ud_itab__1129 UD_TAB__OPC_REG "/reg";
    LookupEntry ud_itab__1130 UD_TAB__OPC_REG "/reg";
    LookupEntry ud_itab__1131 UD_TAB__OPC_REG "/reg";
    LookupEntry ud_itab__1132 UD_TAB__OPC_MODE "/m"].

(** ** Operand definitions *)

Definition O_AL := ItabOperand OP_AL SZ_B.
Definition O_AX := ItabOperand OP_AX SZ_W.
Definition O_Av := ItabOperand OP_A SZ_V.
Definition O_C := ItabOperand OP_C SZ_NA.
Definition O_CL := ItabOperand OP_CL SZ_B.
Definition O_CS := ItabOperand OP_CS SZ_NA.
Definition O_CX := ItabOperand OP_CX SZ_W.
Definition O_D := ItabOperand OP_D SZ_NA.
Definition O_DL := ItabOperand OP_DL SZ_B.
Definition O_DS := ItabOperand OP_DS SZ_NA.
Definition O_DX := ItabOperand OP_DX SZ_W.
Definition O_E := ItabOperand OP_E SZ_NA.
Definition O_ES := ItabOperand OP_ES SZ_NA.
Definition O_Eb := ItabOperand OP_E SZ_B.
Definition O_Ed := ItabOperand OP_E SZ_D.
Definition O_Eq := ItabOperand OP_E SZ_Q.
Definition O_Ev := ItabOperand OP_E SZ_V.
Definition O_Ew := ItabOperand OP_E SZ_W.
Definition O_Ey := ItabOperand OP_E SZ_Y.
Definition O_Ez := ItabOperand OP_E SZ_Z.
Definition O_FS := ItabOperand OP_FS SZ_NA.
Definition O_Fv := ItabOperand OP_F SZ_V.
Definition O_G := ItabOperand OP_G SZ_NA.
Definition O_GS := ItabOperand OP_GS SZ_NA.
Definition O_Gb := ItabOperand OP_G SZ_B.
Definition O_Gd := ItabOperand OP_G SZ_D.
Definition O_Gq := ItabOperand OP_G SZ_Q.
Definition O_Gv := ItabOperand OP_G SZ_V.
Definition O_Gw := ItabOperand OP_G SZ_W.
Definition O_Gy := ItabOperand OP_G SZ_Y.
Definition O_Gz := ItabOperand OP_G SZ_Z.
Definition O_I1 := ItabOperand OP_I1 SZ_NA.
Definition O_I3 := ItabOperand OP_I3 SZ_NA.
Definition O_Ib := ItabOperand OP_I SZ_B.
Definition O_Iv := ItabOperand OP_I SZ_V.
Definition O_Iw := ItabOperand OP_I SZ_W.
Definition O_Iz := ItabOperand OP_I SZ_Z.
Definition O_Jb := ItabOperand OP_J SZ_B.
Definition O_Jv := ItabOperand OP_J SZ_V.
Definition O_Jz := ItabOperand OP_J SZ_Z.
Definition O_M := ItabOperand OP_M SZ_NA.
Definition O_Mb := ItabOperand OP_M SZ_B.
Definition O_MbRd := ItabOperand OP_MR SZ_BD.
Definition O_MbRv := ItabOperand OP_MR SZ_BV.
Definition O_Md := ItabOperand OP_M SZ_D.
Definition O_MdRy := ItabOperand OP_MR SZ_DY.
Definition O_MdU := ItabOperand OP_MU SZ_DO.
Definition O_Mo := ItabOperand OP_M SZ_O.
Definition O_Mq := ItabOperand OP_M SZ_Q.
Definition O_MqU := ItabOperand OP_MU SZ_QO.
Definition O_Ms := ItabOperand OP_M SZ_W.
Definition O_Mt := ItabOperand OP_M SZ_T.
Definition O_Mv := ItabOperand OP_M SZ_V.
Definition O_Mw := ItabOperand OP_M SZ_W.
Definition O_MwRd := ItabOperand OP_MR SZ_WD.
Definition O_MwRv := ItabOperand OP_MR SZ_WV.
Definition O_MwRy := ItabOperand OP_MR SZ_WY.
Definition O_MwU := ItabOperand OP_MU SZ_WO.
Definition O_N := ItabOperand OP_N SZ_Q.
Definition O_NONE := ItabOperand OP_NONE SZ_NA.
Definition O_Ob := ItabOperand OP_O SZ_B.
Definition O_Ov := ItabOperand OP_O SZ_V.
Definition O_Ow := ItabOperand OP_O SZ_W.
Definition O_P := ItabOperand OP_P SZ_Q.
Definition O_Q := ItabOperand OP_Q SZ_Q.
Definition O_R := ItabOperand OP_R SZ_RDQ.
Definition O_R0b := ItabOperand OP_R0 SZ_B.
Definition O_R0v := ItabOperand OP_R0 SZ_V.
Definition O_R0w := ItabOperand OP_R0 SZ_W.
Definition O_R0y := ItabOperand OP_R0 SZ_Y.
Definition O_R0z := ItabOperand OP_R0 SZ_Z.
Definition O_R1b := ItabOperand OP_R1 SZ_B.
Definition O_R1v := ItabOperand OP_R1 SZ_V.
Definition O_R1w := ItabOperand OP_R1 SZ_W.
Definition O_R1y := ItabOperand OP_R1 SZ_Y.
Definition O_R1z := ItabOperand OP_R1 SZ_Z.
Definition O_R2b := ItabOperand OP_R2 SZ_B.
Definition O_R2v := ItabOperand OP_R2 SZ_V.
Definition O_R2w := ItabOperand OP_R2 SZ_W.
Definition O_R2y := ItabOperand OP_R2 SZ_Y.
Definition O_R2z := ItabOperand OP_R2 SZ_Z.
Definition O_R3b := ItabOperand OP_R3 SZ_B.
Definition O_R3v := ItabOperand OP_R3 SZ_V.
Definition O_R3w := ItabOperand OP_R3 SZ_W.
Definition O_R3y := ItabOperand OP_R3 SZ_Y.
Definition O_R3z := ItabOperand OP_R3 SZ_Z.
Definition O_R4b := ItabOperand OP_R4 SZ_B.
Definition O_R4v := ItabOperand OP_R4 SZ_V.
Definition O_R4w := ItabOperand OP_R4 SZ_W.
Definition O_R4y := ItabOperand OP_R4 SZ_Y.
Definition O_R4z := ItabOperand OP_R4 SZ_Z.
Definition O_R5b := ItabOperand OP_R5 SZ_B.
Definition O_R5v := ItabOperand OP_R5 SZ_V.
Definition O_R5w := ItabOperand OP_R5 SZ_W.
Definition O_R5y := ItabOperand OP_R5 SZ_Y.
Definition O_R5z := ItabOperand OP_R5 SZ_Z.
Definition O_R6b := ItabOperand OP_R6 SZ_B.
Definition O_R6v := ItabOperand OP_R6 SZ_V.
Definition O_R6w := ItabOperand OP_R6 SZ_W.
Definition O_R6y := ItabOperand OP_R6 SZ_Y.
Definition O_R6z := ItabOperand OP_R6 SZ_Z.
Definition O_R7b := ItabOperand OP_R7 SZ_B.
Definition O_R7v := ItabOperand OP_R7 SZ_V.
Definition O_R7w := ItabOperand OP_R7 SZ_W.
Definition O_R7y := ItabOperand OP_R7 SZ_Y.
Definition O_R7z := ItabOperand OP_R7 SZ_Z.
Definition O_S := ItabOperand OP_S SZ_NA.
Definition O_SS := ItabOperand OP_SS SZ_NA.
Definition O_ST0 := ItabOperand OP_ST0 SZ_NA.
Definition O_ST1 := ItabOperand OP_ST1 SZ_NA.
Definition O_ST2 := ItabOperand OP_ST2 SZ_NA.
Definition O_ST3 := ItabOperand OP_ST3 SZ_NA.
Definition O_ST4 := ItabOperand OP_ST4 SZ_NA.
Definition O_ST5 := ItabOperand OP_ST5 SZ_NA.
Definition O_ST6 := ItabOperand OP_ST6 SZ_NA.
Definition O_ST7 := ItabOperand OP_ST7 SZ_NA.
Definition O_U := ItabOperand OP_U SZ_O.
Definition O_V := ItabOperand OP_V SZ_O.
Definition O_W := ItabOperand OP_W SZ_O.
Definition O_eAX := ItabOperand OP_eAX SZ_Z.
Definition O_eCX := ItabOperand OP_eCX SZ_Z.
Definition O_eDX := ItabOperand OP_eDX SZ_Z.
Definition O_rAX := ItabOperand OP_rAX SZ_V.
Definition O_rCX := ItabOperand OP_rCX SZ_V.
Definition O_rDX := ItabOperand OP_rDX SZ_V.
Definition O_sIb := ItabOperand OP_sI SZ_B.
Definition O_sIv := ItabOperand OP_sI SZ_V.
Definition O_sIz := ItabOperand OP_sI SZ_Z.

(** ** The instruction table *)

#[local] Infix ".|" := Z.lor (at level 50, left associativity) : Z_scope.

Definition ud_itab : list ud_itab_entry :=
  [ ItabEntry UD_Iinvalid O_NONE O_NONE O_NONE P_none;
    ItabEntry UD_Iadd O_Eb O_Gb O_NONE (P_aso .| P_rexr .| P_rexx .| P_rexb);
    ItabEntry UD_Iadd O_Ev O_Gv O_NONE (P_aso .| P_oso .| P_rexw .| P_rexr .| P_rexx .| P_rexb);
    ItabEntry UD_Iadd O_Gb O_Eb O_NONE (P_aso .| P_rexr .| P_rexx .| P_rexb);
    ItabEntry UD_Iadd O_Gv O_Ev O_NONE (P_aso .| P_oso .| P_rexw .| P_rexr .| P_rexx .| P_rexb);
    ItabEntry UD_Iadd O_AL O_Ib O_NONE P_none;
    ItabEntry UD_Iadd O_rAX O_sIz O_NONE (P_oso .| P_rexw);
    ItabEntry UD_Ipush O_ES O_NONE O_NONE P_inv64;
    ItabEntry UD_Ipop O_ES O_NONE O_NONE P_inv64;
    ItabEntry UD_Ior O_Eb O_Gb O_NONE (P_aso .| P_rexr .| P_rexx .| P_rexb);
    ItabEntry UD_Ior O_Ev O_Gv O_NONE (P_aso .| P_oso .| P_rexw .| P_rexr .| P_rexx .| P_rexb);
    ItabEntry UD_Ior O_Gb O_Eb O_NONE (P_aso .| P_rexr .| P_rexx .| P_rexb);
    ItabEntry UD_Ior O_Gv O_Ev O_NONE (P_aso .| P_oso .| P_rexw .| P_rexr .| P_rexx .| P_rexb);
    ItabEntry UD_Ior O_AL O_Ib O_NONE P_none;
    ItabEntry UD_Ior O_rAX O_sIz O_NONE (P_oso .| P_rexw);
    ItabEntry UD_Ipush O_CS O_NONE O_NONE P_inv64;
    ItabEntry UD_Isldt O_MwRv O_NONE O_NONE (P_aso .| P_oso .| P_rexr .| P_rexw .| P_rexx .| P_rexb);
    ItabEntry UD_Istr O_MwRv O_NONE O_NONE (P_aso .| P_oso .| P_rexr .| P_rexw .| P_rexx .| P_rexb);
    ItabEntry UD_Illdt O_Ew O_NONE O_NONE (P_aso .| P_rexr .| P_rexx .| P_rexb);
    ItabEntry UD_Iltr O_Ew O_NONE O_NONE (P_aso .| P_rexr .| P_rexx .| P_rexb);
    ItabEntry UD_Iverr O_Ew O_NONE O_NONE (P_aso .| P_rexr .| P_rexx .| P_rexb);
    ItabEntry UD_Iverw O_Ew O_NONE O_NONE (P_aso .| P_rexr .| P_rexx .| P_rexb);
    ItabEntry UD_Isgdt O_M O_NONE O_NONE (P_aso .| P_rexr .| P_rexx .| P_rexb);
    ItabEntry UD_Isidt O_M O_NONE O_NONE (P_aso .| P_rexr .| P_rexx .| P_rexb);
    ItabEntry UD_Ilgdt O_M O_NONE O_NONE (P_aso .| P_rexr .| P_rexx .| P_rexb);
    ItabEntry UD_Ilidt O_M O_NONE O_NONE (P_aso .| P_rexr .| P_rexx .| P_rexb);
    ItabEntry UD_Ismsw O_MwRv O_NONE O_NONE (P_aso .| P_oso .| P_rexr .| P_rexw .| P_rexx .| P_rexb);
    ItabEntry UD_Ilmsw O_Ew O_NONE O_NONE (P_aso .| P_rexr .| P_rexx .| P_rexb);
    ItabEntry UD_Iinvlpg O_M O_NONE O_NONE (P_aso .| P_rexr .| P_rexx .| P_rexb);
    ItabEntry UD_Ivmcall O_NONE O_NONE O_NONE P_none;
    ItabEntry UD_Ivmlaunch O_NONE O_NONE O_NONE P_none;
    ItabEntry UD_Ivmresume O_NONE O_NONE O_NONE P_none;
    ItabEntry UD_Ivmxoff O_NONE O_NONE O_NONE P_none;
    ItabEntry UD_Imonitor O_NONE O_NONE O_NONE P_none;
    ItabEntry UD_Imwait O_NONE O_NONE O_NONE P_none;
    ItabEntry UD_Ixgetbv O_NONE O_NONE O_NONE P_none;
    ItabEntry UD_Ixsetbv O_NONE O_NONE O_NONE P_none;
    ItabEntry UD_Ivmrun O_NONE O_NONE O_NONE P_none;
    ItabEntry UD_Ivmmcall O_NONE O_NONE O_NONE P_none;
    ItabEntry UD_Ivmload O_NONE O_NONE O_NONE P_none;
    ItabEntry UD_Ivmsave O_NONE O_NONE O_NONE P_none;
    ItabEntry UD_Istgi O_NONE O_NONE O_NONE P_none;
    ItabEntry UD_Iclgi O_NONE O_NONE O_NONE P_none;
    ItabEntry UD_Iskinit O_NONE O_NONE O_NONE P_none;
    ItabEntry UD_Iinvlpga O_NONE O_NONE O_NONE P_none;
    ItabEntry UD_Ismsw O_MwRv O_NONE O_NONE (P_aso .| P_oso .| P_rexr .| P_rexw .| P_rexx .| P_rexb);
    ItabEntry UD_Ilmsw O_Ew O_NONE O_NONE (P_aso .| P_rexr .| P_rexx .| P_rexb);
    ItabEntry UD_Iswapgs O_NONE O_NONE O_NONE P_none;
    ItabEntry UD_Irdtscp O_NONE O_NONE O_NONE P_none;
    ItabEntry UD_Ilar O_Gv O_Ew O_NONE (P_aso .| P_oso .| P_rexw .| P_rexr .| P_rexx .| P_rexb);
    ItabEntry UD_Ilsl O_Gv O_Ew O_NONE (P_aso .| P_oso .| P_rexw .| P_rexr .| P_rexx .| P_rexb);
    ItabEntry UD_Isyscall O_NONE O_NONE O_NONE P_none;
    ItabEntry UD_Iclts O_NONE O_NONE O_NONE P_none;
    ItabEntry UD_Isysret O_NONE O_NONE O_NONE P_none;
    ItabEntry UD_Iinvd O_NONE O_NONE O_NONE P_none;
    ItabEntry UD_Iwbinvd O_NONE O_NONE O_NONE P_none;
    ItabEntry UD_Iud2 O_NONE O_NONE O_NONE P_none;
    ItabEntry UD_Iprefetch O_M O_NONE O_NONE (P_aso .| P_rexw .| P_rexr .| P_rexx .| P_rexb);
    ItabEntry UD_Iprefetch O_M O_NONE O_NONE (P_aso .| P_rexw .| P_rexr .| P_rexx .| P_rexb);
    ItabEntry UD_Iprefetch O_M O_NONE O_NONE (P_aso .| P_rexw .| P_rexr .| P_rexx .| P_rexb);
    ItabEntry UD_Iprefetch O_M O_NONE O_NONE (P_aso .| P_rexw .| P_rexr .| P_rexx .| P_rexb);
    ItabEntry UD_Iprefetch O_M O_NONE O_NONE (P_aso .| P_rexw .| P_rexr .| P_rexx .| P_rexb);
    ItabEntry UD_Iprefetch O_M O_NONE O_NONE (P_aso .| P_rexw .| P_rexr .| P_rexx .| P_rexb);
    ItabEntry UD_Iprefetch O_M O_NONE O_NONE (P_aso .| P_rexw .| P_rexr .| P_rexx .| P_rexb);
    ItabEntry UD_Iprefetch O_M O_NONE O_NONE (P_aso .| P_rexw .| P_rexr .| P_rexx .| P_rexb);
    ItabEntry UD_Ifemms O_NONE O_NONE O_NONE P_none;
    ItabEntry UD_Ipi2fw O_P O_Q O_NONE (P_aso .| P_rexr .| P_rexx .| P_rexb);
    ItabEntry UD_Ipi2fd O_P O_Q O_NONE (P_aso .| P_rexr .| P_rexx .| P_rexb);
    ItabEntry UD_Ipf2iw O_P O_Q O_NONE (P_aso .| P_rexr .| P_rexx .| P_rexb);
    ItabEntry UD_Ipf2id O_P O_Q O_NONE (P_aso .| P_rexr .| P_rexx .| P_rexb);
    ItabEntry UD_Ipfnacc O_P O_Q O_NONE (P_aso .| P_rexr .| P_rexx .| P_rexb);
    ItabEntry UD_Ipfpnacc O_P O_Q O_NONE (P_aso .| P_rexr .| P_rexx .| P_rexb);
    ItabEntry UD_Ipfcmpge O_P O_Q O_NONE (P_aso .| P_rexr .| P_rexx .| P_rexb);
    ItabEntry UD_Ipfmin O_P O_Q O_NONE (P_aso .| P_rexr .| P_rexx .| P_rexb);
    ItabEntry UD_Ipfrcp O_P O_Q O_NONE (P_aso .| P_rexr .| P_rexx .| P_rexb);
    ItabEntry UD_Ipfrsqrt O_P O_Q O_NONE (P_aso .| P_rexr .| P_rexx .| P_rexb);
    ItabEntry UD_Ipfsub O_P O_Q O_NONE (P_aso .| P_rexr .| P_rexx .| P_rexb);
    ItabEntry UD_Ipfadd O_P O_Q O_NONE (P_aso .| P_rexr .| P_rexx .| P_rexb);
    ItabEntry UD_Ipfcmpgt O_P O_Q O_NONE (P_aso .| P_rexr .| P_rexx .| P_rexb);
    ItabEntry UD_Ipfmax O_P O_Q O_NONE (P_aso .| P_rexr .| P_rexx .| P_rexb);
    ItabEntry UD_Ipfrcpit1 O_P O_Q O_NONE (P_aso .| P_rexr .| P_rexx .| P_rexb);
    ItabEntry UD_Ipfrsqit1 O_P O_Q O_NONE (P_aso .| P_rexr .| P_rexx .| P_rexb);
    ItabEntry UD_Ipfsubr O_P O_Q O_NONE (P_aso .| P_rexr .| P_rexx .| P_rexb);
    ItabEntry UD_Ipfacc O_P O_Q O_NONE (P_aso .| P_rexr .| P_rexx .| P_rexb);
    ItabEntry UD_Ipfcmpeq O_P O_Q O_NONE (P_aso .| P_rexr .| P_rexx .| P_rexb);
    ItabEntry UD_Ipfmul O_P O_Q O_NONE (P_aso .| P_rexr .| P_rexx .| P_rexb);
    ItabEntry UD_Ipfrcpit2 O_P O_Q O_NONE (P_aso .| P_rexr .| P_rexx .| P_rexb);
    ItabEntry UD_Ipmulhrw O_P O_Q O_NONE (P_aso .| P_rexr .| P_rexx .| P_rexb);
    ItabEntry UD_Ipswapd O_P O_Q O_NONE (P_aso .| P_rexr .| P_rexx .| P_rexb);
    ItabEntry UD_Ipavgusb O_P O_Q O_NONE (P_aso .| P_rexr .| P_rexx .| P_rexb);
    ItabEntry UD_Imovups O_V O_W O_NONE (P_aso .| P_rexr .| P_rexx .| P_rexb);
    ItabEntry UD_Imovsd O_V O_W O_NONE (P_str .| P_aso .| P_rexr .| P_rexx .| P_rexb);
    ItabEntry UD_Imovss O_V O_W O_NONE (P_aso .| P_rexr .| P_rexx .| P_rexb);
    ItabEntry UD_Imovupd O_V O_W O_NONE (P_aso .| P_rexr .| P_rexx .| P_rexb);
    ItabEntry UD_Imovups O_W O_V O_NONE (P_aso .| P_rexr .| P_rexx .| P_rexb);
    ItabEntry UD_Imovsd O_W O_V O_NONE (P_str .| P_aso .| P_rexr .| P_rexx .| P_rexb);
    ItabEntry UD_Imovss O_W O_V O_NONE (P_aso .| P_rexr .| P_rexx .| P_rexb);
    ItabEntry UD_Imovupd O_W O_V O_NONE (P_aso .| P_rexr .| P_rexx .| P_rexb);
    ItabEntry UD_Imovlps O_V O_M O_NONE (P_aso .| P_rexr .| P_rexx .| P_rexb);
    ItabEntry UD_Imovddup O_V O_W O_NONE (P_aso .| P_rexr .| P_rexx .| P_rexb);
    ItabEntry UD_Imovsldup O_V O_W O_NONE (P_aso .| P_rexr .| P_rexx .| P_rexb);
    ItabEntry UD_Imovlpd O_V O_M O_NONE (P_aso .| P_rexr .| P_rexx .| P_rexb);
    ItabEntry UD_Imovhlps O_V O_U O_NONE (P_aso .| P_rexr .| P_rexx .| P_rexb);
    ItabEntry UD_Imovddup O_V O_W O_NONE (P_aso .| P_rexr .| P_rexx .| P_rexb);
    ItabEntry UD_Imovsldup O_V O_W O_NONE (P_aso .| P_rexr .| P_rexx .| P_rexb);
    ItabEntry UD_Imovlps O_M O_V O_NONE (P_aso .| P_rexr .| P_rexx .| P_rexb);
    ItabEntry UD_Imovlpd O_M O_V O_NONE (P_aso .| P_rexr .| P_rexx .| P_rexb);
    ItabEntry UD_Iunpcklps O_V O_W O_NONE (P_aso .| P_rexr .| P_rexx .| P_rexb);
    ItabEntry UD_Iunpcklpd O_V O_W O_NONE (P_aso .| P_rexr .| P_rexx .| P_rexb);
    ItabEntry UD_Iunpckhps O_V O_W O_NONE (P_aso .| P_rexr .| P_rexx .| P_rexb);
    ItabEntry UD_Iunpckhpd O_V O_W O_NONE (P_aso .| P_rexr .| P_rexx .| P_rexb);
    ItabEntry UD_Imovhps O_V O_M O_NONE (P_aso .| P_rexr .| P_rexx .| P_rexb);
    ItabEntry UD_Imovshdup O_V O_W O_NONE (P_aso .| P_rexr .| P_rexx .| P_rexb);
    ItabEntry UD_Imovhpd O_V O_M O_NONE (P_aso .| P_rexr .| P_rexx .| P_rexb);
    ItabEntry UD_Imovlhps O_V O_U O_NONE (P_aso .| P_rexr .| P_rexx .| P_rexb);
    ItabEntry UD_Imovshdup O_V O_W O_NONE (P_aso .| P_rexr .| P_rexx .| P_rexb);
    ItabEntry UD_Imovhps O_M O_V O_NONE (P_aso .| P_rexr .| P_rexx .| P_rexb);
    ItabEntry UD_Imovhpd O_M O_V O_NONE (P_aso .| P_rexr .| P_rexx .| P_rexb);
    ItabEntry UD_Iprefetchnta O_M O_NONE O_NONE (P_aso .| P_rexw .| P_rexr .| P_rexx .| P_rexb);
    ItabEntry UD_Iprefetcht0 O_M O_NONE O_NONE (P_aso .| P_rexw .| P_rexr .| P_rexx .| P_rexb);
    ItabEntry UD_Iprefetcht1 O_M O_NONE O_NONE (P_aso .| P_rexw .| P_rexr .| P_rexx .| P_rexb);
    ItabEntry UD_Iprefetcht2 O_M O_NONE O_NONE (P_aso .| P_rexw .| P_rexr .| P_rexx .| P_rexb);
    ItabEntry UD_Inop O_M O_NONE O_NONE (P_aso .| P_rexr .| P_rexx .| P_rexb);
    ItabEntry UD_Inop O_M O_NONE O_NONE (P_aso .| P_rexr .| P_rexx .| P_rexb);
    ItabEntry UD_Inop O_M O_NONE O_NONE (P_aso .| P_rexr .| P_rexx .| P_rexb);
    ItabEntry UD_Inop O_M O_NONE O_NONE (P_aso .| P_rexr .| P_rexx .| P_rexb);
    ItabEntry UD_Inop O_M O_NONE O_NONE (P_aso .| P_rexr .| P_rexx .| P_rexb);
    ItabEntry UD_Inop O_M O_NONE O_NONE (P_aso .| P_rexr .| P_rexx .| P_rexb);
    ItabEntry UD_Inop O_M O_NONE O_NONE (P_aso .| P_rexr .| P_rexx .| P_rexb);
    ItabEntry UD_Imov O_R O_C O_NONE (P_rexr .| P_rexw .| P_rexb);
    ItabEntry UD_Imov O_R O_D O_NONE (P_rexr .| P_rexw .| P_rexb);
    ItabEntry UD_Imov O_C O_R O_NONE (P_rexr .| P_rexw .| P_rexb);
    ItabEntry UD_Imov O_D O_R O_NONE (P_rexr .| P_rexw .| P_rexb);
    ItabEntry UD_Imovaps O_V O_W O_NONE (P_aso .| P_rexr .| P_rexx .| P_rexb);
    ItabEntry UD_Imovapd O_V O_W O_NONE (P_aso .| P_rexr .| P_rexx .| P_rexb);
    ItabEntry UD_Imovaps O_W O_V O_NONE (P_aso .| P_rexr .| P_rexx .| P_rexb);
    ItabEntry UD_Imovapd O_W O_V O_NONE (P_aso .| P_rexr .| P_rexx .| P_rexb);
    ItabEntry UD_Icvtpi2ps O_V O_Q O_NONE (P_aso .| P_rexr .| P_rexx .| P_rexb);
    ItabEntry UD_Icvtsi2sd O_V O_Ey O_NONE (P_aso .| P_rexw .| P_rexr .| P_rexx .| P_rexb);
    ItabEntry UD_Icvtsi2ss O_V O_Ey O_NONE (P_aso .| P_rexw .| P_rexr .| P_rexx .| P_rexb);
    ItabEntry UD_Icvtpi2pd O_V O_Q O_NONE (P_aso .| P_rexr .| P_rexx .| P_rexb);
    ItabEntry UD_Imovntps O_M O_V O_NONE (P_aso .| P_rexr .| P_rexx .| P_rexb);
    ItabEntry UD_Imovntpd O_M O_V O_NONE (P_aso .| P_rexr .| P_rexx .| P_rexb);
    ItabEntry UD_Icvttps2pi O_P O_W O_NONE (P_aso .| P_rexr .| P_rexx .| P_rexb);
    ItabEntry UD_Icvttsd2si O_Gy O_W O_NONE (P_aso .| P_rexw .| P_rexr .| P_rexx .| P_rexb);
    ItabEntry UD_Icvttss2si O_Gy O_W O_NONE (P_aso .| P_rexw .| P_rexr .| P_rexx .| P_rexb);
    ItabEntry UD_Icvttpd2pi O_P O_W O_NONE (P_aso .| P_rexr .| P_rexx .| P_rexb);
    ItabEntry UD_Icvtps2pi O_P O_W O_NONE (P_aso .| P_rexr .| P_rexx .| P_rexb);
    ItabEntry UD_Icvtsd2si O_Gy O_W O_NONE (P_aso .| P_rexw .| P_rexr .| P_rexx .| P_rexb);
    ItabEntry UD_Icvtss2si O_Gy O_W O_NONE (P_aso .| P_rexw .| P_rexr .| P_rexx .| P_rexb);
    ItabEntry UD_Icvtpd2pi O_P O_W O_NONE (P_aso .| P_rexr .| P_rexx .| P_rexb);
    ItabEntry UD_Iucomiss O_V O_W O_NONE (P_aso .| P_rexr .| P_rexx .| P_rexb);
    ItabEntry UD_Iucomisd O_V O_W O_NONE (P_aso .| P_rexr .| P_rexx .| P_rexb);
    ItabEntry UD_Icomiss O_V O_W O_NONE (P_aso .| P_rexr .| P_rexx .| P_rexb);
    ItabEntry UD_Icomisd O_V O_W O_NONE (P_aso .| P_rexr .| P_rexx .| P_rexb);
    ItabEntry UD_Iwrmsr O_NONE O_NONE O_NONE P_none;
    ItabEntry UD_Irdtsc O_NONE O_NONE O_NONE P_none;
    ItabEntry UD_Irdmsr O_NONE O_NONE O_NONE P_none;
    ItabEntry UD_Irdpmc O_NONE O_NONE O_NONE P_none;
    ItabEntry UD_Isysenter O_NONE O_NONE O_NONE P_none;
    ItabEntry UD_Isysenter O_NONE O_NONE O_NONE P_none;
    ItabEntry UD_Isysexit O_NONE O_NONE O_NONE P_none;
    ItabEntry UD_Isysexit O_NONE O_NONE O_NONE P_none;
    ItabEntry UD_Igetsec O_NONE O_NONE O_NONE P_none;
    ItabEntry UD_Ipshufb O_P O_Q O_NONE (P_aso .| P_rexr .| P_rexx .| P_rexb);
    ItabEntry UD_Ipshufb O_V O_W O_NONE (P_aso .| P_rexr .| P_rexx .| P_rexb);
    ItabEntry UD_Iphaddw O_P O_Q O_NONE (P_aso .| P_rexr .| P_rexx .| P_rexb);
    ItabEntry UD_Iphaddw O_V O_W O_NONE (P_aso .| P_rexr .| P_rexx .| P_rexb);
    ItabEntry UD_Iphaddd O_P O_Q O_NONE (P_aso .| P_rexr .| P_rexx .| P_rexb);
    ItabEntry UD_Iphaddd O_V O_W O_NONE (P_aso .| P_rexr .| P_rexx .| P_rexb);
    ItabEntry UD_Iphaddsw O_P O_Q O_NONE (P_aso .| P_rexr .| P_rexx .| P_rexb);
    ItabEntry UD_Iphaddsw O_V O_W O_NONE (P_aso .| P_rexr .| P_rexx .| P_rexb);
    ItabEntry UD_Ipmaddubsw O_P O_Q O_NONE (P_aso .| P_rexr .| P_rexx .| P_rexb);
    ItabEntry UD_Ipmaddubsw O_V O_W O_NONE (P_aso .| P_rexr .| P_rexx .| P_rexb);
    ItabEntry UD_Iphsubw O_P O_Q O_NONE (P_aso .| P_rexr .| P_rexx .| P_rexb);
    ItabEntry UD_Iphsubw O_V O_W O_NONE (P_aso .| P_rexr .| P_rexx .| P_rexb);
    ItabEntry UD_Iphsubd O_P O_Q O_NONE (P_aso .| P_rexr .| P_rexx .| P_rexb);
    ItabEntry UD_Iphsubd O_V O_W O_NONE (P_aso .| P_rexr .| P_rexx .| P_rexb);
    ItabEntry UD_Iphsubsw O_P O_Q O_NONE (P_aso .| P_rexr .| P_rexx .| P_rexb);
    ItabEntry UD_Iphsubsw O_V O_W O_NONE (P_aso .| P_rexr .| P_rexx .| P_rexb);
    ItabEntry UD_Ipsignb O_P O_Q O_NONE (P_aso .| P_rexr .| P_rexx .| P_rexb);
    ItabEntry UD_Ipsignb O_V O_W O_NONE (P_aso .| P_rexr .| P_rexx .| P_rexb);
    ItabEntry UD_Ipsignw O_P O_Q O_NONE (P_aso .| P_rexr .| P_rexx .| P_rexb);
    ItabEntry UD_Ipsignw O_V O_W O_NONE (P_aso .| P_rexr .| P_rexx .| P_rexb);
    ItabEntry UD_Ipsignd O_P O_Q O_NONE (P_aso .| P_rexr .| P_rexx .| P_rexb);
    ItabEntry UD_Ipsignd O_V O_W O_NONE (P_aso .| P_rexr .| P_rexx .| P_rexb);
    ItabEntry UD_Ipmulhrsw O_P O_Q O_NONE (P_aso .| P_rexr .| P_rexx .| P_rexb);
    ItabEntry UD_Ipmulhrsw O_V O_W O_NONE (P_aso .| P_rexr .| P_rexx .| P_rexb);
    ItabEntry UD_Ipblendvb O_V O_W O_NONE (P_aso .| P_rexr .| P_rexx .| P_rexb);
    ItabEntry UD_Iblendvps O_V O_W O_NONE (P_aso .| P_rexr .| P_rexx .| P_rexb);
    ItabEntry UD_Iblendvpd O_V O_W O_NONE (P_aso .| P_rexr .| P_rexx .| P_rexb);
    ItabEntry UD_Iptest O_V O_W O_NONE (P_aso .| P_rexr .| P_rexw .| P_rexx .| P_rexb);
    ItabEntry UD_Ipabsb O_P O_Q O_NONE (P_aso .| P_rexr .| P_rexx .| P_rexb);
    ItabEntry UD_Ipabsb O_V O_W O_NONE (P_aso .| P_rexr .| P_rexx .| P_rexb);
    ItabEntry UD_Ipabsw O_P O_Q O_NONE (P_aso .| P_rexr .| P_rexx .| P_rexb);
    ItabEntry UD_Ipabsw O_V O_W O_NONE (P_aso .| P_rexr .| P_rexx .| P_rexb);
    ItabEntry UD_Ipabsd O_P O_Q O_NONE (P_aso .| P_rexr .| P_rexx .| P_rexb);
    ItabEntry UD_Ipabsd O_V O_W O_NONE (P_aso .| P_rexr .| P_rexx .| P_rexb);
    ItabEntry UD_Ipmovsxbw O_V O_MqU O_NONE (P_aso .| P_rexr .| P_rexw .| P_rexx .| P_rexb);
    ItabEntry UD_Ipmovsxbd O_V O_MdU O_NONE (P_aso .| P_rexr .| P_rexw .| P_rexx .| P_rexb);
    ItabEntry UD_Ipmovsxbq O_V O_MwU O_NONE (P_aso .| P_rexr .| P_rexw .| P_rexx .| P_rexb);
    ItabEntry UD_Ipmovsxwd O_V O_MqU O_NONE (P_aso .| P_rexr .| P_rexw .| P_rexx .| P_rexb);
    ItabEntry UD_Ipmovsxwq O_V O_MdU O_NONE (P_aso .| P_rexr .| P_rexw .| P_rexx .| P_rexb);
    ItabEntry UD_Ipmovsxdq O_V O_MqU O_NONE (P_aso .| P_rexr .| P_rexw .| P_rexx .| P_rexb);
    ItabEntry UD_Ipmuldq O_V O_W O_NONE (P_aso .| P_rexr .| P_rexx .| P_rexb);
    ItabEntry UD_Ipcmpeqq O_V O_W O_NONE (P_aso .| P_rexr .| P_rexw .| P_rexx .| P_rexb);
    ItabEntry UD_Imovntdqa O_V O_Mo O_NONE (P_aso .| P_rexr .| P_rexw .| P_rexx .| P_rexb);
    ItabEntry UD_Ipackusdw O_V O_W O_NONE (P_aso .| P_rexr .| P_rexw .| P_rexx .| P_rexb);
    ItabEntry UD_Ipmovzxbw O_V O_MqU O_NONE (P_aso .| P_rexr .| P_rexw .| P_rexx .| P_rexb);
    ItabEntry UD_Ipmovzxbd O_V O_MdU O_NONE (P_aso .| P_rexr .| P_rexw .| P_rexx .| P_rexb);
    ItabEntry UD_Ipmovzxbq O_V O_MwU O_NONE (P_aso .| P_rexr .| P_rexw .| P_rexx .| P_rexb);
    ItabEntry UD_Ipmovzxwd O_V O_MqU O_NONE (P_aso .| P_rexr .| P_rexw .| P_rexx .| P_rexb);
    ItabEntry UD_Ipmovzxwq O_V O_MdU O_NONE (P_aso .| P_rexr .| P_rexw .| P_rexx .| P_rexb);
    ItabEntry UD_Ipmovzxdq O_V O_MqU O_NONE (P_aso .| P_rexr .| P_rexw .| P_rexx .| P_rexb);
    ItabEntry UD_Ipcmpgtq O_V O_W O_NONE (P_aso .| P_rexr .| P_rexw .| P_rexx .| P_rexb);
    ItabEntry UD_Ipminsb O_V O_W O_NONE (P_aso .| P_rexr .| P_rexx .| P_rexb);
    ItabEntry UD_Ipminsd O_V O_W O_NONE (P_aso .| P_rexr .| P_rexx .| P_rexb);
    ItabEntry UD_Ipminuw O_V O_W O_NONE (P_aso .| P_rexr .| P_rexx .| P_rexb);
    ItabEntry UD_Ipminud O_V O_W O_NONE (P_aso .| P_rexr .| P_rexx .| P_rexb);
    ItabEntry UD_Ipmaxsb O_V O_W O_NONE (P_aso .| P_rexr .| P_rexx .| P_rexb);
    ItabEntry UD_Ipmaxsd O_V O_W O_NONE (P_aso .| P_rexr .| P_rexx .| P_rexb);
    ItabEntry UD_Ipmaxuw O_V O_W O_NONE (P_aso .| P_rexr .| P_rexx .| P_rexb);
    ItabEntry UD_Ipmaxud O_V O_W O_NONE (P_aso .| P_rexr .| P_rexx .| P_rexb);
    ItabEntry UD_Ipmulld O_V O_W O_NONE (P_aso .| P_rexr .| P_rexx .| P_rexb);
    ItabEntry UD_Iphminposuw O_V O_W O_NONE (P_aso .| P_rexr .| P_rexx .| P_rexb);
    ItabEntry UD_Iinvept O_Gq O_Mo O_NONE P_none;
    ItabEntry UD_Iinvvpid O_Gq O_Mo O_NONE P_none;
    ItabEntry UD_Iaesimc O_V O_W O_NONE (P_aso .| P_rexr .| P_rexx .| P_rexb);
    ItabEntry UD_Iaesenc O_V O_W O_NONE (P_aso .| P_rexr .| P_rexx .| P_rexb);
    ItabEntry UD_Iaesenclast O_V O_W O_NONE (P_aso .| P_rexr .| P_rexx .| P_rexb);
    ItabEntry UD_Iaesdec O_V O_W O_NONE (P_aso .| P_rexr .| P_rexx .| P_rexb);
    ItabEntry UD_Iaesdeclast O_V O_W O_NONE (P_aso .| P_rexr .| P_rexx .| P_rexb);
    ItabEntry UD_Imovbe O_Gv O_Mv O_NONE (P_aso .| P_oso .| P_rexr .| P_rexw .| P_rexx .| P_rexb);
    ItabEntry UD_Icrc32 O_Gy O_Eb O_NONE (P_aso .| P_oso .| P_rexr .| P_rexw .| P_rexx .| P_rexb);
    ItabEntry UD_Imovbe O_Mv O_Gv O_NONE (P_aso .| P_oso .| P_rexr .| P_rexw .| P_rexx .| P_rexb);
    ItabEntry UD_Icrc32 O_Gy O_Ev O_NONE (P_aso .| P_oso .| P_rexr .| P_rexw .| P_rexx .| P_rexb);
    ItabEntry UD_Iroundps O_V O_W O_Ib (P_aso .| P_rexr .| P_rexx .| P_rexb);
    ItabEntry UD_Iroundpd O_V O_W O_Ib (P_aso .| P_rexr .| P_rexx .| P_rexb);
    ItabEntry UD_Iroundss O_V O_W O_Ib (P_aso .| P_rexr .| P_rexx .| P_rexb);
    ItabEntry UD_Iroundsd O_V O_W O_Ib (P_aso .| P_rexr .| P_rexx .| P_rexb);
    ItabEntry UD_Iblendps O_V O_W O_Ib (P_aso .| P_rexr .| P_rexx .| P_rexb);
    ItabEntry UD_Iblendpd O_V O_W O_Ib (P_aso .| P_rexr .| P_rexx .| P_rexb);
    ItabEntry UD_Ipblendw O_V O_W O_Ib (P_aso .| P_rexr .| P_rexx .| P_rexb);
    ItabEntry UD_Ipalignr O_P O_Q O_Ib (P_aso .| P_rexr .| P_rexx .| P_rexb);
    ItabEntry UD_Ipalignr O_V O_W O_Ib (P_aso .| P_rexr .| P_rexx .| P_rexb);
    ItabEntry UD_Ipextrb O_MbRv O_V O_Ib (P_aso .| P_rexx .| P_rexr .| P_rexb .| P_def64);
    ItabEntry UD_Ipextrw O_MwRd O_V O_Ib (P_aso .| P_rexx .| P_rexr .| P_rexb);
    ItabEntry UD_Ipextrd O_Ed O_V O_Ib (P_aso .| P_rexr .| P_rexx .| P_rexw .| P_rexb);
    ItabEntry UD_Ipextrd O_Ed O_V O_Ib (P_aso .| P_rexr .| P_rexx .| P_rexw .| P_rexb);
    ItabEntry UD_Ipextrq O_Eq O_V O_Ib (P_aso .| P_rexr .| P_rexw .| P_rexb .| P_def64);
    ItabEntry UD_Iextractps O_MdRy O_V O_Ib (P_aso .| P_rexr .| P_rexw .| P_rexx .| P_rexb);
    ItabEntry UD_Ipinsrb O_V O_MbRd O_Ib (P_aso .| P_rexw .| P_rexr .| P_rexx .| P_rexb);
    ItabEntry UD_Iinsertps O_V O_Md O_Ib (P_aso .| P_rexr .| P_rexw .| P_rexx .| P_rexb);
    ItabEntry UD_Ipinsrd O_V O_Ed O_Ib (P_aso .| P_rexw .| P_rexr .| P_rexx .| P_rexb);
    ItabEntry UD_Ipinsrd O_V O_Ed O_Ib (P_aso .| P_rexw .| P_rexr .| P_rexx .| P_rexb);
    ItabEntry UD_Ipinsrq O_V O_Eq O_Ib (P_aso .| P_oso .| P_rexw .| P_rexr .| P_rexx .| P_rexb);
    ItabEntry UD_Idpps O_V O_W O_Ib (P_aso .| P_rexr .| P_rexx .| P_rexb);
    ItabEntry UD_Idppd O_V O_W O_Ib (P_aso .| P_rexr .| P_rexx .| P_rexb);
    ItabEntry UD_Impsadbw O_V O_W O_Ib (P_aso .| P_rexr .| P_rexx .| P_rexb);
    ItabEntry UD_Ipclmulqdq O_V O_W O_Ib (P_aso .| P_rexr .| P_rexx .| P_rexb);
    ItabEntry UD_Ipcmpestrm O_V O_W O_Ib (P_aso .| P_rexr .| P_rexw .| P_rexx .| P_rexb);
    ItabEntry UD_Ipcmpestri O_V O_W O_Ib (P_aso .| P_rexr .| P_rexw .| P_rexx .| P_rexb);
    ItabEntry UD_Ipcmpistrm O_V O_W O_Ib (P_aso .| P_rexr .| P_rexw .| P_rexx .| P_rexb);
    ItabEntry UD_Ipcmpistri O_V O_W O_Ib (P_aso .| P_rexr .| P_rexw .| P_rexx .| P_rexb);
    ItabEntry UD_Iaeskeygenassist O_V O_W O_Ib (P_aso .| P_rexr .| P_rexx .| P_rexb);
    ItabEntry UD_Icmovo O_Gv O_Ev O_NONE (P_aso .| P_oso .| P_rexw .| P_rexr .| P_rexx .| P_rexb);
    ItabEntry UD_Icmovno O_Gv O_Ev O_NONE (P_aso .| P_oso .| P_rexw .| P_rexr .| P_rexx .| P_rexb);
    ItabEntry UD_Icmovb O_Gv O_Ev O_NONE (P_aso .| P_oso .| P_rexw .| P_rexr .| P_rexx .| P_rexb);
    ItabEntry UD_Icmovae O_Gv O_Ev O_NONE (P_aso .| P_oso .| P_rexw .| P_rexr .| P_rexx .| P_rexb);
    ItabEntry UD_Icmovz O_Gv O_Ev O_NONE (P_aso .| P_oso .| P_rexw .| P_rexr .| P_rexx .| P_rexb);
    ItabEntry UD_Icmovnz O_Gv O_Ev O_NONE (P_aso .| P_oso .| P_rexw .| P_rexr .| P_rexx .| P_rexb);
    ItabEntry UD_Icmovbe O_Gv O_Ev O_NONE (P_aso .| P_oso .| P_rexw .| P_rexr .| P_rexx .| P_rexb);
    ItabEntry UD_Icmova O_Gv O_Ev O_NONE (P_aso .| P_oso .| P_rexw .| P_rexr .| P_rexx .| P_rexb);
    ItabEntry UD_Icmovs O_Gv O_Ev O_NONE (P_aso .| P_oso .| P_rexw .| P_rexr .| P_rexx .| P_rexb);
    ItabEntry UD_Icmovns O_Gv O_Ev O_NONE (P_aso .| P_oso .| P_rexw .| P_rexr .| P_rexx .| P_rexb);
    ItabEntry UD_Icmovp O_Gv O_Ev O_NONE (P_aso .| P_oso .| P_rexw .| P_rexr .| P_rexx .| P_rexb);
    ItabEntry UD_Icmovnp O_Gv O_Ev O_NONE (P_aso .| P_oso .| P_rexw .| P_rexr .| P_rexx .| P_rexb);
    ItabEntry UD_Icmovl O_Gv O_Ev O_NONE (P_aso .| P_oso .| P_rexw .| P_rexr .| P_rexx .| P_rexb);
    ItabEntry UD_Icmovge O_Gv O_Ev O_NONE (P_aso .| P_oso .| P_rexw .| P_rexr .| P_rexx .| P_rexb);
    ItabEntry UD_Icmovle O_Gv O_Ev O_NONE (P_aso .| P_oso .| P_rexw .| P_rexr .| P_rexx .| P_rexb);
    ItabEntry UD_Icmovg O_Gv O_Ev O_NONE (P_aso .| P_oso .| P_rexw .| P_rexr .| P_rexx .| P_rexb);
    ItabEntry UD_Imovmskps O_Gd O_U O_NONE (P_oso .| P_rexr .| P_rexb);
    ItabEntry UD_Imovmskpd O_Gd O_U O_NONE (P_oso .| P_rexr .| P_rexb);
    ItabEntry UD_Isqrtps O_V O_W O_NONE (P_aso .| P_rexr .| P_rexx .| P_rexb);
    ItabEntry UD_Isqrtsd O_V O_W O_NONE (P_aso .| P_rexr .| P_rexx .| P_rexb);
    ItabEntry UD_Isqrtss O_V O_W O_NONE (P_aso .| P_rexr .| P_rexx .| P_rexb);
    ItabEntry UD_Isqrtpd O_V O_W O_NONE (P_aso .| P_rexr .| P_rexx .| P_rexb);
    ItabEntry UD_Irsqrtps O_V O_W O_NONE (P_aso .| P_rexr .| P_rexx .| P_rexb);
    ItabEntry UD_Irsqrtss O_V O_W O_NONE (P_aso .| P_rexr .| P_rexx .| P_rexb);
    ItabEntry UD_Ircpps O_V O_W O_NONE (P_aso .| P_rexr .| P_rexx .| P_rexb);
    ItabEntry UD_Ircpss O_V O_W O_NONE (P_aso .| P_rexr .| P_rexx .| P_rexb);
    ItabEntry UD_Iandps O_V O_W O_NONE (P_aso .| P_rexr .| P_rexx .| P_rexb);
    ItabEntry UD_Iandpd O_V O_W O_NONE (P_aso .| P_rexr .| P_rexx .| P_rexb);
    ItabEntry UD_Iandnps O_V O_W O_NONE (P_aso .| P_rexr .| P_rexx .| P_rexb);
    ItabEntry UD_Iandnpd O_V O_W O_NONE (P_aso .| P_rexr .| P_rexx .| P_rexb);
    ItabEntry UD_Iorps O_V O_W O_NONE (P_aso .| P_rexr .| P_rexx .| P_rexb);
    ItabEntry UD_Iorpd O_V O_W O_NONE (P_aso .| P_rexr .| P_rexx .| P_rexb);
    ItabEntry UD_Ixorps O_V O_W O_NONE (P_aso .| P_rexr .| P_rexx .| P_rexb);
    ItabEntry UD_Ixorpd O_V O_W O_NONE (P_aso .| P_rexr .| P_rexx .| P_rexb);
    ItabEntry UD_Iaddps O_V O_W O_NONE (P_aso .| P_rexr .| P_rexx .| P_rexb);
    ItabEntry UD_Iaddsd O_V O_W O_NONE (P_aso .| P_rexr .| P_rexx .| P_rexb);
    ItabEntry UD_Iaddss O_V O_W O_NONE (P_aso .| P_rexr .| P_rexx .| P_rexb);
    ItabEntry UD_Iaddpd O_V O_W O_NONE (P_aso .| P_rexr .| P_rexx .| P_rexb);
    ItabEntry UD_Imulps O_V O_W O_NONE (P_aso .| P_rexr .| P_rexx .| P_rexb);
    ItabEntry UD_Imulsd O_V O_W O_NONE (P_aso .| P_rexr .| P_rexx .| P_rexb);
    ItabEntry UD_Imulss O_V O_W O_NONE (P_aso .| P_rexr .| P_rexx .| P_rexb);
    ItabEntry UD_Imulpd O_V O_W O_NONE (P_aso .| P_rexr .| P_rexx .| P_rexb);
    ItabEntry UD_Icvtps2pd O_V O_W O_NONE (P_aso .| P_rexr .| P_rexx .| P_rexb);
    ItabEntry UD_Icvtsd2ss O_V O_W O_NONE (P_aso .| P_rexr .| P_rexx .| P_rexb);
    ItabEntry UD_Icvtss2sd O_V O_W O_NONE (P_aso .| P_rexr .| P_rexx .| P_rexb);
    ItabEntry UD_Icvtpd2ps O_V O_W O_NONE (P_aso .| P_rexr .| P_rexx .| P_rexb);
    ItabEntry UD_Icvtdq2ps O_V O_W O_NONE (P_aso .| P_rexr .| P_rexx .| P_rexb);
    ItabEntry UD_Icvttps2dq O_V O_W O_NONE (P_aso .| P_rexr .| P_rexx .| P_rexb);
    ItabEntry UD_Icvtps2dq O_V O_W O_NONE (P_aso .| P_rexr .| P_rexx .| P_rexb);
    ItabEntry UD_Isubps O_V O_W O_NONE (P_aso .| P_rexr .| P_rexx .| P_rexb);
    ItabEntry UD_Isubsd O_V O_W O_NONE (P_aso .| P_rexr .| P_rexx .| P_rexb);
    ItabEntry UD_Isubss O_V O_W O_NONE (P_aso .| P_rexr .| P_rexx .| P_rexb);
    ItabEntry UD_Isubpd O_V O_W O_NONE (P_aso .| P_rexr .| P_rexx .| P_rexb);
    ItabEntry UD_Iminps O_V O_W O_NONE (P_aso .| P_rexr .| P_rexx .| P_rexb);
    ItabEntry UD_Iminsd O_V O_W O_NONE (P_aso .| P_rexr .| P_rexx .| P_rexb);
    ItabEntry UD_Iminss O_V O_W O_NONE (P_aso .| P_rexr .| P_rexx .| P_rexb);
    ItabEntry UD_Iminpd O_V O_W O_NONE (P_aso .| P_rexr .| P_rexx .| P_rexb);
    ItabEntry UD_Idivps O_V O_W O_NONE (P_aso .| P_rexr .| P_rexx .| P_rexb);
    ItabEntry UD_Idivsd O_V O_W O_NONE (P_aso .| P_rexr .| P_rexx .| P_rexb);
    ItabEntry UD_Idivss O_V O_W O_NONE (P_aso .| P_rexr .| P_rexx .| P_rexb);
    ItabEntry UD_Idivpd O_V O_W O_NONE (P_aso .| P_rexr .| P_rexx .| P_rexb);
    ItabEntry UD_Imaxps O_V O_W O_NONE (P_aso .| P_rexr .| P_rexx .| P_rexb);
    ItabEntry UD_Imaxsd O_V O_W O_NONE (P_aso .| P_rexr .| P_rexx .| P_rexb);
    ItabEntry UD_Imaxss O_V O_W O_NONE (P_aso .| P_rexr .| P_rexx .| P_rexb);
    ItabEntry UD_Imaxpd O_V O_W O_NONE (P_aso .| P_rexr .| P_rexx .| P_rexb);
    ItabEntry UD_Ipunpcklbw O_P O_Q O_NONE (P_aso .| P_rexr .| P_rexx .| P_rexb);
    ItabEntry UD_Ipunpcklbw O_V O_W O_NONE (P_aso .| P_rexr .| P_rexx .| P_rexb);
    ItabEntry UD_Ipunpcklwd O_P O_Q O_NONE (P_aso .| P_rexr .| P_rexx .| P_rexb);
    ItabEntry UD_Ipunpcklwd O_V O_W O_NONE (P_aso .| P_rexr .| P_rexx .| P_rexb);
    ItabEntry UD_Ipunpckldq O_P O_Q O_NONE (P_aso .| P_rexr .| P_rexx .| P_rexb);
    ItabEntry UD_Ipunpckldq O_V O_W O_NONE (P_aso .| P_rexr .| P_rexx .| P_rexb);
    ItabEntry UD_Ipacksswb O_P O_Q O_NONE (P_aso .| P_rexr .| P_rexx .| P_rexb);
    ItabEntry UD_Ipacksswb O_V O_W O_NONE (P_aso .| P_rexr .| P_rexx .| P_rexb);
    ItabEntry UD_Ipcmpgtb O_P O_Q O_NONE (P_aso .| P_rexr .| P_rexx .| P_rexb);
    ItabEntry UD_Ipcmpgtb O_V O_W O_NONE (P_aso .| P_rexr .| P_rexx .| P_rexb);
    ItabEntry UD_Ipcmpgtw O_P O_Q O_NONE (P_aso .| P_rexr .| P_rexx .| P_rexb);
    ItabEntry UD_Ipcmpgtw O_V O_W O_NONE (P_aso .| P_rexr .| P_rexx .| P_rexb);
    ItabEntry UD_Ipcmpgtd O_P O_Q O_NONE (P_aso .| P_rexr .| P_rexx .| P_rexb);
    ItabEntry UD_Ipcmpgtd O_V O_W O_NONE (P_aso .| P_rexr .| P_rexx .| P_rexb);
    ItabEntry UD_Ipackuswb O_P O_Q O_NONE (P_aso .| P_rexr .| P_rexx .| P_rexb);
    ItabEntry UD_Ipackuswb O_V O_W O_NONE (P_aso .| P_rexr .| P_rexx .| P_rexb);
    ItabEntry UD_Ipunpckhbw O_P O_Q O_NONE (P_aso .| P_rexr .| P_rexx .| P_rexb);
    ItabEntry UD_Ipunpckhbw O_V O_W O_NONE (P_aso .| P_rexr .| P_rexx .| P_rexb);
    ItabEntry UD_Ipunpckhwd O_P O_Q O_NONE (P_aso .| P_rexr .| P_rexx .| P_rexb);
    ItabEntry UD_Ipunpckhwd O_V O_W O_NONE (P_aso .| P_rexr .| P_rexx .| P_rexb);
    ItabEntry UD_Ipunpckhdq O_P O_Q O_NONE (P_aso .| P_rexr .| P_rexx .| P_rexb);
    ItabEntry UD_Ipunpckhdq O_V O_W O_NONE (P_aso .| P_rexr .| P_rexx .| P_rexb);
    ItabEntry UD_Ipackssdw O_P O_Q O_NONE (P_aso .| P_rexr .| P_rexx .| P_rexb);
    ItabEntry UD_Ipackssdw O_V O_W O_NONE (P_aso .| P_rexr .| P_rexx .| P_rexb);
    ItabEntry UD_Ipunpcklqdq O_V O_W O_NONE (P_aso .| P_rexr .| P_rexx .| P_rexb);
    ItabEntry UD_Ipunpckhqdq O_V O_W O_NONE (P_aso .| P_rexr .| P_rexx .| P_rexb);
    ItabEntry UD_Imovd O_P O_Ey O_NONE (P_aso .| P_rexw .| P_rexr .| P_rexx .| P_rexb);
    ItabEntry UD_Imovd O_V O_Ey O_NONE (P_aso .| P_rexw .| P_rexr .| P_rexx .| P_rexb);
    ItabEntry UD_Imovq O_P O_Q O_NONE (P_aso .| P_rexr .| P_rexx .| P_rexb);
    ItabEntry UD_Imovdqu O_V O_W O_NONE (P_aso .| P_rexr .| P_rexx .| P_rexb);
    ItabEntry UD_Imovdqa O_V O_W O_NONE (P_aso .| P_rexr .| P_rexx .| P_rexb);
    ItabEntry UD_Ipshufw O_P O_Q O_Ib (P_aso .| P_rexr .| P_rexx .| P_rexb);
    ItabEntry UD_Ipshuflw O_V O_W O_Ib (P_aso .| P_rexr .| P_rexx .| P_rexb);
    ItabEntry UD_Ipshufhw O_V O_W O_Ib (P_aso .| P_rexr .| P_rexx .| P_rexb);
    ItabEntry UD_Ipshufd O_V O_W O_Ib (P_aso .| P_rexr .| P_rexx .| P_rexb);
    ItabEntry UD_Ipsrlw O_N O_Ib O_NONE P_none;
    ItabEntry UD_Ipsrlw O_U O_Ib O_NONE P_rexb;
    ItabEntry UD_Ipsraw O_N O_Ib O_NONE P_none;
    ItabEntry UD_Ipsraw O_U O_Ib O_NONE P_rexb;
    ItabEntry UD_Ipsllw O_N O_Ib O_NONE P_none;
    ItabEntry UD_Ipsllw O_U O_Ib O_NONE P_rexb;
    ItabEntry UD_Ipsrld O_N O_Ib O_NONE P_none;
    ItabEntry UD_Ipsrld O_U O_Ib O_NONE P_rexb;
    ItabEntry UD_Ipsrad O_N O_Ib O_NONE P_none;
    ItabEntry UD_Ipsrad O_U O_Ib O_NONE P_rexb;
    ItabEntry UD_Ipslld O_N O_Ib O_NONE P_none;
    ItabEntry UD_Ipslld O_U O_Ib O_NONE P_rexb;
    ItabEntry UD_Ipsrlq O_N O_Ib O_NONE P_none;
    ItabEntry UD_Ipsrlq O_U O_Ib O_NONE P_rexb;
    ItabEntry UD_Ipsrldq O_U O_Ib O_NONE P_rexb;
    ItabEntry UD_Ipsllq O_N O_Ib O_NONE P_none;
    ItabEntry UD_Ipsllq O_U O_Ib O_NONE P_rexb;
    ItabEntry UD_Ipslldq O_U O_Ib O_NONE P_rexb;
    ItabEntry UD_Ipcmpeqb O_P O_Q O_NONE (P_aso .| P_rexr .| P_rexx .| P_rexb);
    ItabEntry UD_Ipcmpeqb O_V O_W O_NONE (P_aso .| P_rexr .| P_rexx .| P_rexb);
    ItabEntry UD_Ipcmpeqw O_P O_Q O_NONE (P_aso .| P_rexr .| P_rexx .| P_rexb);
    ItabEntry UD_Ipcmpeqw O_V O_W O_NONE (P_aso .| P_rexr .| P_rexx .| P_rexb);
    ItabEntry UD_Ipcmpeqd O_P O_Q O_NONE (P_aso .| P_rexr .| P_rexx .| P_rexb);
    ItabEntry UD_Ipcmpeqd O_V O_W O_NONE (P_aso .| P_rexr .| P_rexx .| P_rexb);
    ItabEntry UD_Iemms O_NONE O_NONE O_NONE P_none;
    ItabEntry UD_Ivmread O_Ey O_Gy O_NONE (P_aso .| P_rexr .| P_rexx .| P_rexb .| P_def64);
    ItabEntry UD_Ivmwrite O_Gy O_Ey O_NONE (P_aso .| P_rexr .| P_rexx .| P_rexb .| P_def64);
    ItabEntry UD_Ihaddps O_V O_W O_NONE (P_aso .| P_rexr .| P_rexx .| P_rexb);
    ItabEntry UD_Ihaddpd O_V O_W O_NONE (P_aso .| P_rexr .| P_rexx .| P_rexb);
    ItabEntry UD_Ihsubps O_V O_W O_NONE (P_aso .| P_rexr .| P_rexx .| P_rexb);
    ItabEntry UD_Ihsubpd O_V O_W O_NONE (P_aso .| P_rexr .| P_rexx .| P_rexb);
    ItabEntry UD_Imovd O_Ey O_P O_NONE (P_aso .| P_rexw .| P_rexr .| P_rexx .| P_rexb);
    ItabEntry UD_Imovq O_V O_W O_NONE (P_aso .| P_rexr .| P_rexx .| P_rexb);
    ItabEntry UD_Imovd O_Ey O_V O_NONE (P_aso .| P_rexw .| P_rexr .| P_rexx .| P_rexb);
    ItabEntry UD_Imovq O_Q O_P O_NONE (P_aso .| P_rexr .| P_rexx .| P_rexb);
    ItabEntry UD_Imovdqu O_W O_V O_NONE (P_aso .| P_rexr .| P_rexx .| P_rexb);
    ItabEntry UD_Imovdqa O_W O_V O_NONE (P_aso .| P_rexr .| P_rexx .| P_rexb);
    ItabEntry UD_Ijo O_Jz O_NONE O_NONE (P_oso .| P_def64);
    ItabEntry UD_Ijno O_Jz O_NONE O_NONE (P_oso .| P_def64);
    ItabEntry UD_Ijb O_Jz O_NONE O_NONE (P_oso .| P_def64);
    ItabEntry UD_Ijae O_Jz O_NONE O_NONE (P_oso .| P_def64);
    ItabEntry UD_Ijz O_Jz O_NONE O_NONE (P_oso .| P_def64);
    ItabEntry UD_Ijnz O_Jz O_NONE O_NONE (P_oso .| P_def64);
    ItabEntry UD_Ijbe O_Jz O_NONE O_NONE (P_oso .| P_def64);
    ItabEntry UD_Ija O_Jz O_NONE O_NONE (P_oso .| P_def64);
    ItabEntry UD_Ijs O_Jz O_NONE O_NONE (P_oso .| P_def64);
    ItabEntry UD_Ijns O_Jz O_NONE O_NONE (P_oso .| P_def64);
    ItabEntry UD_Ijp O_Jz O_NONE O_NONE (P_oso .| P_def64);
    ItabEntry UD_Ijnp O_Jz O_NONE O_NONE (P_oso .| P_def64);
    ItabEntry UD_Ijl O_Jz O_NONE O_NONE (P_oso .| P_def64);
    ItabEntry UD_Ijge O_Jz O_NONE O_NONE (P_oso .| P_def64);
    ItabEntry UD_Ijle O_Jz O_NONE O_NONE (P_oso .| P_def64);
    ItabEntry UD_Ijg O_Jz O_NONE O_NONE (P_oso .| P_def64);
    ItabEntry UD_Iseto O_Eb O_NONE O_NONE (P_aso .| P_rexr .| P_rexx .| P_rexb);
    ItabEntry UD_Isetno O_Eb O_NONE O_NONE (P_aso .| P_rexr .| P_rexx .| P_rexb);
    ItabEntry UD_Isetb O_Eb O_NONE O_NONE (P_aso .| P_rexr .| P_rexx .| P_rexb);
    ItabEntry UD_Isetae O_Eb O_NONE O_NONE (P_aso .| P_rexr .| P_rexx .| P_rexb);
    ItabEntry UD_Isetz O_Eb O_NONE O_NONE (P_aso .| P_rexr .| P_rexx .| P_rexb);
    ItabEntry UD_Isetnz O_Eb O_NONE O_NONE (P_aso .| P_rexr .| P_rexx .| P_rexb);
    ItabEntry UD_Isetbe O_Eb O_NONE O_NONE (P_aso .| P_rexr .| P_rexx .| P_rexb);
    ItabEntry UD_Iseta O_Eb O_NONE O_NONE (P_aso .| P_rexr .| P_rexx .| P_rexb);
    ItabEntry UD_Isets O_Eb O_NONE O_NONE (P_aso .| P_rexr .| P_rexx .| P_rexb);
    ItabEntry UD_Isetns O_Eb O_NONE O_NONE (P_aso .| P_rexr .| P_rexx .| P_rexb);
    ItabEntry UD_Isetp O_Eb O_NONE O_NONE (P_aso .| P_rexr .| P_rexx .| P_rexb);
    ItabEntry UD_Isetnp O_Eb O_NONE O_NONE (P_aso .| P_rexr .| P_rexx .| P_rexb);
    ItabEntry UD_Isetl O_Eb O_NONE O_NONE (P_aso .| P_rexr .| P_rexx .| P_rexb);
    ItabEntry UD_Isetge O_Eb O_NONE O_NONE (P_aso .| P_rexr .| P_rexx .| P_rexb);
    ItabEntry UD_Isetle O_Eb O_NONE O_NONE (P_aso .| P_rexr .| P_rexx .| P_rexb);
    ItabEntry UD_Isetg O_Eb O_NONE O_NONE (P_aso .| P_rexr .| P_rexx .| P_rexb);
    ItabEntry UD_Ipush O_FS O_NONE O_NONE P_none;
    ItabEntry UD_Ipop O_FS O_NONE O_NONE P_none;
    ItabEntry UD_Icpuid O_NONE O_NONE O_NONE P_none;
    ItabEntry UD_Ibt O_Ev O_Gv O_NONE (P_aso .| P_oso .| P_rexw .| P_rexr .| P_rexx .| P_rexb);
    ItabEntry UD_Ishld O_Ev O_Gv O_Ib (P_aso .| P_oso .| P_rexw .| P_rexr .| P_rexx .| P_rexb);
    ItabEntry UD_Ishld O_Ev O_Gv O_CL (P_aso .| P_oso .| P_rexw .| P_rexr .| P_rexx .| P_rexb);
    ItabEntry UD_Imontmul O_NONE O_NONE O_NONE P_none;
    ItabEntry UD_Ixsha1 O_NONE O_NONE O_NONE P_none;
    ItabEntry UD_Ixsha256 O_NONE O_NONE O_NONE P_none;
    ItabEntry UD_Ixstore O_NONE O_NONE O_NONE P_none;
    ItabEntry UD_Ixcryptecb O_NONE O_NONE O_NONE P_none;
    ItabEntry UD_Ixcryptcbc O_NONE O_NONE O_NONE P_none;
    ItabEntry UD_Ixcryptctr O_NONE O_NONE O_NONE P_none;
    ItabEntry UD_Ixcryptcfb O_NONE O_NONE O_NONE P_none;
    ItabEntry UD_Ixcryptofb O_NONE O_NONE O_NONE P_none;
    ItabEntry UD_Ipush O_GS O_NONE O_NONE P_none;
    ItabEntry UD_Ipop O_GS O_NONE O_NONE P_none;
    ItabEntry UD_Irsm O_NONE O_NONE O_NONE P_none;
    ItabEntry UD_Ibts O_Ev O_Gv O_NONE (P_aso .| P_oso .| P_rexw .| P_rexr .| P_rexx .| P_rexb);
    ItabEntry UD_Ishrd O_Ev O_Gv O_Ib (P_aso .| P_oso .| P_rexw .| P_rexr .| P_rexx .| P_rexb);
    ItabEntry UD_Ishrd O_Ev O_Gv O_CL (P_aso .| P_oso .| P_rexw .| P_rexr .| P_rexx .| P_rexb);
    ItabEntry UD_Ifxsave O_M O_NONE O_NONE (P_aso .| P_rexw .| P_rexr .| P_rexx .| P_rexb);
    ItabEntry UD_Ifxrstor O_M O_NONE O_NONE (P_aso .| P_rexw .| P_rexr .| P_rexx .| P_rexb);
    ItabEntry UD_Ildmxcsr O_Md O_NONE O_NONE (P_aso .| P_rexw .| P_rexr .| P_rexx .| P_rexb);
    ItabEntry UD_Istmxcsr O_Md O_NONE O_NONE (P_aso .| P_rexw .| P_rexr .| P_rexx .| P_rexb);
    ItabEntry UD_Ixsave O_M O_NONE O_NONE (P_aso .| P_rexw .| P_rexr .| P_rexx .| P_rexb);
    ItabEntry UD_Ixrstor O_M O_NONE O_NONE (P_aso .| P_rexw .| P_rexr .| P_rexx .| P_rexb);
    ItabEntry UD_Iclflush O_M O_NONE O_NONE (P_aso .| P_rexw .| P_rexr .| P_rexx .| P_rexb);
    ItabEntry UD_Ilfence O_NONE O_NONE O_NONE P_none;
    ItabEntry UD_Ilfence O_NONE O_NONE O_NONE P_none;
    ItabEntry UD_Ilfence O_NONE O_NONE O_NONE P_none;
    ItabEntry UD_Ilfence O_NONE O_NONE O_NONE P_none;
    ItabEntry UD_Ilfence O_NONE O_NONE O_NONE P_none;
    ItabEntry UD_Ilfence O_NONE O_NONE O_NONE P_none;
    ItabEntry UD_Ilfence O_NONE O_NONE O_NONE P_none;
    ItabEntry UD_Ilfence O_NONE O_NONE O_NONE P_none;
    ItabEntry UD_Imfence O_NONE O_NONE O_NONE P_none;
    ItabEntry UD_Imfence O_NONE O_NONE O_NONE P_none;
    ItabEntry UD_Imfence O_NONE O_NONE O_NONE P_none;
    ItabEntry UD_Imfence O_NONE O_NONE O_NONE P_none;
    ItabEntry UD_Imfence O_NONE O_NONE O_NONE P_none;
    ItabEntry UD_Imfence O_NONE O_NONE O_NONE P_none;
    ItabEntry UD_Imfence O_NONE O_NONE O_NONE P_none;
    ItabEntry UD_Imfence O_NONE O_NONE O_NONE P_none;
    ItabEntry UD_Isfence O_NONE O_NONE O_NONE P_none;
    ItabEntry UD_Isfence O_NONE O_NONE O_NONE P_none;
    ItabEntry UD_Isfence O_NONE O_NONE O_NONE P_none;
    ItabEntry UD_Isfence O_NONE O_NONE O_NONE P_none;
    ItabEntry UD_Isfence O_NONE O_NONE O_NONE P_none;
    ItabEntry UD_Isfence O_NONE O_NONE O_NONE P_none;
    ItabEntry UD_Isfence O_NONE O_NONE O_NONE P_none;
    ItabEntry UD_Isfence O_NONE O_NONE O_NONE P_none;
    ItabEntry UD_Iimul O_Gv O_Ev O_NONE (P_aso .| P_oso .| P_rexw .| P_rexr .| P_rexx .| P_rexb);
    ItabEntry UD_Icmpxchg O_Eb O_Gb O_NONE (P_aso .| P_rexr .| P_rexx .| P_rexb);
    ItabEntry UD_Icmpxchg O_Ev O_Gv O_NONE (P_aso .| P_oso .| P_rexw .| P_rexr .| P_rexx .| P_rexb);
    ItabEntry UD_Ilss O_Gv O_M O_NONE (P_aso .| P_oso .| P_rexw .| P_rexr .| P_rexx .| P_rexb);
    ItabEntry UD_Ibtr O_Ev O_Gv O_NONE (P_aso .| P_oso .| P_rexw .| P_rexr .| P_rexx .| P_rexb);
    ItabEntry UD_Ilfs O_Gz O_M O_NONE (P_aso .| P_oso .| P_rexw .| P_rexr .| P_rexx .| P_rexb);
    ItabEntry UD_Ilgs O_Gz O_M O_NONE (P_aso .| P_oso .| P_rexw .| P_rexr .| P_rexx .| P_rexb);
    ItabEntry UD_Imovzx O_Gv O_Eb O_NONE (P_aso .| P_oso .| P_rexw .| P_rexr .| P_rexx .| P_rexb);
    ItabEntry UD_Imovzx O_Gy O_Ew O_NONE (P_aso .| P_oso .| P_rexw .| P_rexr .| P_rexx .| P_rexb);
    ItabEntry UD_Ipopcnt O_Gv O_Ev O_NONE (P_aso .| P_oso .| P_rexr .| P_rexw .| P_rexx .| P_rexb);
    ItabEntry UD_Ibt O_Ev O_Ib O_NONE (P_aso .| P_oso .| P_rexw .| P_rexr .| P_rexx .| P_rexb);
    ItabEntry UD_Ibts O_Ev O_Ib O_NONE (P_aso .| P_oso .| P_rexw .| P_rexr .| P_rexx .| P_rexb);
    ItabEntry UD_Ibtr O_Ev O_Ib O_NONE (P_aso .| P_oso .| P_rexw .| P_rexr .| P_rexx .| P_rexb);
    ItabEntry UD_Ibtc O_Ev O_Ib O_NONE (P_aso .| P_oso .| P_rexw .| P_rexr .| P_rexx .| P_rexb);
    ItabEntry UD_Ibtc O_Ev O_Gv O_NONE (P_aso .| P_oso .| P_rexw .| P_rexr .| P_rexx .| P_rexb);
    ItabEntry UD_Ibsf O_Gv O_Ev O_NONE (P_aso .| P_oso .| P_rexw .| P_rexr .| P_rexx .| P_rexb);
    ItabEntry UD_Ibsr O_Gv O_Ev O_NONE (P_aso .| P_oso .| P_rexw .| P_rexr .| P_rexx .| P_rexb);
    ItabEntry UD_Imovsx O_Gv O_Eb O_NONE (P_aso .| P_oso .| P_rexw .| P_rexr .| P_rexx .| P_rexb);
    ItabEntry UD_Imovsx O_Gy O_Ew O_NONE (P_aso .| P_oso .| P_rexw .| P_rexr .| P_rexx .| P_rexb);
    ItabEntry UD_Ixadd O_Eb O_Gb O_NONE (P_aso .| P_oso .| P_rexr .| P_rexx .| P_rexb);
    ItabEntry UD_Ixadd O_Ev O_Gv O_NONE (P_aso .| P_oso .| P_rexw .| P_rexr .| P_rexx .| P_rexb);
    ItabEntry UD_Icmpps O_V O_W O_Ib (P_aso .| P_rexr .| P_rexx .| P_rexb);
    ItabEntry UD_Icmpsd O_V O_W O_Ib (P_aso .| P_rexr .| P_rexx .| P_rexb);
    ItabEntry UD_Icmpss O_V O_W O_Ib (P_aso .| P_rexr .| P_rexx .| P_rexb);
    ItabEntry UD_Icmppd O_V O_W O_Ib (P_aso .| P_rexr .| P_rexx .| P_rexb);
    ItabEntry UD_Imovnti O_M O_Gy O_NONE (P_aso .| P_rexw .| P_rexr .| P_rexx .| P_rexb);
    ItabEntry UD_Ipinsrw O_P O_MwRy O_Ib (P_aso .| P_rexw .| P_rexr .| P_rexx .| P_rexb .| P_def64);
    ItabEntry UD_Ipinsrw O_V O_MwRy O_Ib (P_aso .| P_rexw .| P_rexr .| P_rexx .| P_rexb .| P_def64);
    ItabEntry UD_Ipextrw O_Gd O_N O_Ib (P_aso .| P_oso .| P_rexw .| P_rexr .| P_rexx .| P_rexb);
    ItabEntry UD_Ipextrw O_Gd O_U O_Ib (P_aso .| P_rexr .| P_rexb);
    ItabEntry UD_Ishufps O_V O_W O_Ib (P_aso .| P_rexr .| P_rexx .| P_rexb);
    ItabEntry UD_Ishufpd O_V O_W O_Ib (P_aso .| P_rexr .| P_rexx .| P_rexb);
    ItabEntry UD_Icmpxchg8b O_M O_NONE O_NONE (P_aso .| P_rexr .| P_rexx .| P_rexb);
    ItabEntry UD_Icmpxchg8b O_M O_NONE O_NONE (P_aso .| P_rexr .| P_rexx .| P_rexb);
    ItabEntry UD_Icmpxchg16b O_M O_NONE O_NONE (P_aso .| P_rexr .| P_rexx .| P_rexb);
    ItabEntry UD_Ivmptrld O_Mq O_NONE O_NONE (P_aso .| P_rexr .| P_rexx .| P_rexb);
    ItabEntry UD_Ivmxon O_Mq O_NONE O_NONE (P_aso .| P_rexr .| P_rexx .| P_rexb);
    ItabEntry UD_Ivmclear O_Mq O_NONE O_NONE (P_aso .| P_rexr .| P_rexx .| P_rexb);
    ItabEntry UD_Ivmptrst O_Mq O_NONE O_NONE (P_aso .| P_rexr .| P_rexx .| P_rexb);
    ItabEntry UD_Ibswap O_R0y O_NONE O_NONE (P_oso .| P_rexw .| P_rexb);
    ItabEntry UD_Ibswap O_R1y O_NONE O_NONE (P_oso .| P_rexw .| P_rexb);
    ItabEntry UD_Ibswap O_R2y O_NONE O_NONE (P_oso .| P_rexw .| P_rexb);
    ItabEntry UD_Ibswap O_R3y O_NONE O_NONE (P_oso .| P_rexw .| P_rexb);
    ItabEntry UD_Ibswap O_R4y O_NONE O_NONE (P_oso .| P_rexw .| P_rexb);
    ItabEntry UD_Ibswap O_R5y O_NONE O_NONE (P_oso .| P_rexw .| P_rexb);
    ItabEntry UD_Ibswap O_R6y O_NONE O_NONE (P_oso .| P_rexw .| P_rexb);
    ItabEntry UD_Ibswap O_R7y O_NONE O_NONE (P_oso .| P_rexw .| P_rexb);
    ItabEntry UD_Iaddsubps O_V O_W O_NONE (P_aso .| P_rexr .| P_rexx .| P_rexb);
    ItabEntry UD_Iaddsubpd O_V O_W O_NONE (P_aso .| P_rexr .| P_rexx .| P_rexb);
    ItabEntry UD_Ipsrlw O_P O_Q O_NONE (P_aso .| P_rexr .| P_rexx .| P_rexb);
    ItabEntry UD_Ipsrlw O_V O_W O_NONE (P_aso .| P_rexr .| P_rexx .| P_rexb);
    ItabEntry UD_Ipsrld O_P O_Q O_NONE (P_aso .| P_rexr .| P_rexx .| P_rexb);
    ItabEntry UD_Ipsrld O_V O_W O_NONE (P_aso .| P_rexr .| P_rexx .| P_rexb);
    ItabEntry UD_Ipsrlq O_P O_Q O_NONE (P_aso .| P_rexr .| P_rexx .| P_rexb);
    ItabEntry UD_Ipsrlq O_V O_W O_NONE (P_aso .| P_rexr .| P_rexx .| P_rexb);
    ItabEntry UD_Ipaddq O_P O_Q O_NONE (P_aso .| P_rexr .| P_rexx .| P_rexb);
    ItabEntry UD_Ipaddq O_V O_W O_NONE (P_aso .| P_rexr .| P_rexx .| P_rexb);
    ItabEntry UD_Ipmullw O_P O_Q O_NONE (P_aso .| P_rexr .| P_rexx .| P_rexb);
    ItabEntry UD_Ipmullw O_V O_W O_NONE (P_aso .| P_rexr .| P_rexx .| P_rexb);
    ItabEntry UD_Imovdq2q O_P O_U O_NONE (P_aso .| P_rexb);
    ItabEntry UD_Imovq2dq O_V O_N O_NONE (P_aso .| P_rexr);
    ItabEntry UD_Imovq O_W O_V O_NONE (P_aso .| P_rexr .| P_rexx .| P_rexb);
    ItabEntry UD_Ipmovmskb O_Gd O_N O_NONE (P_oso .| P_rexr .| P_rexb);
    ItabEntry UD_Ipmovmskb O_Gd O_U O_NONE (P_rexr .| P_rexb);
    ItabEntry UD_Ipsubusb O_P O_Q O_NONE (P_aso .| P_rexr .| P_rexx .| P_rexb);
    ItabEntry UD_Ipsubusb O_V O_W O_NONE (P_aso .| P_rexr .| P_rexx .| P_rexb);
    ItabEntry UD_Ipsubusw O_P O_Q O_NONE (P_aso .| P_rexr .| P_rexx .| P_rexb);
    ItabEntry UD_Ipsubusw O_V O_W O_NONE (P_aso .| P_rexr .| P_rexx .| P_rexb);
    ItabEntry UD_Ipminub O_P O_Q O_NONE (P_aso .| P_rexr .| P_rexx .| P_rexb);
    ItabEntry UD_Ipminub O_V O_W O_NONE (P_aso .| P_rexr .| P_rexx .| P_rexb);
    ItabEntry UD_Ipand O_P O_Q O_NONE (P_aso .| P_rexr .| P_rexx .| P_rexb);
    ItabEntry UD_Ipand O_V O_W O_NONE (P_aso .| P_rexr .| P_rexx .| P_rexb);
    ItabEntry UD_Ipaddusb O_P O_Q O_NONE (P_aso .| P_rexr .| P_rexx .| P_rexb);
    ItabEntry UD_Ipaddusb O_V O_W O_NONE (P_aso .| P_rexr .| P_rexx .| P_rexb);
    ItabEntry UD_Ipaddusw O_P O_Q O_NONE (P_aso .| P_rexr .| P_rexx .| P_rexb);
    ItabEntry UD_Ipaddusw O_V O_W O_NONE (P_aso .| P_rexr .| P_rexx .| P_rexb);
    ItabEntry UD_Ipmaxub O_P O_Q O_NONE (P_aso .| P_rexr .| P_rexx .| P_rexb);
    ItabEntry UD_Ipmaxub O_V O_W O_NONE (P_aso .| P_rexr .| P_rexx .| P_rexb);
    ItabEntry UD_Ipandn O_P O_Q O_NONE (P_aso .| P_rexr .| P_rexx .| P_rexb);
    ItabEntry UD_Ipandn O_V O_W O_NONE (P_aso .| P_rexr .| P_rexx .| P_rexb);
    ItabEntry UD_Ipavgb O_P O_Q O_NONE (P_aso .| P_rexr .| P_rexx .| P_rexb);
    ItabEntry UD_Ipavgb O_V O_W O_NONE (P_aso .| P_rexr .| P_rexx .| P_rexb);
    ItabEntry UD_Ipsraw O_P O_Q O_NONE (P_aso .| P_rexr .| P_rexx .| P_rexb);
    ItabEntry UD_Ipsraw O_V O_W O_NONE (P_aso .| P_rexr .| P_rexx .| P_rexb);
    ItabEntry UD_Ipsrad O_P O_Q O_NONE (P_aso .| P_rexr .| P_rexx .| P_rexb);
    ItabEntry UD_Ipsrad O_V O_W O_NONE (P_aso .| P_rexr .| P_rexx .| P_rexb);
    ItabEntry UD_Ipavgw O_P O_Q O_NONE (P_aso .| P_rexr .| P_rexx .| P_rexb);
    ItabEntry UD_Ipavgw O_V O_W O_NONE (P_aso .| P_rexr .| P_rexx .| P_rexb);
    ItabEntry UD_Ipmulhuw O_P O_Q O_NONE (P_aso .| P_rexr .| P_rexx .| P_rexb);
    ItabEntry UD_Ipmulhuw O_V O_W O_NONE (P_aso .| P_rexr .| P_rexx .| P_rexb);
    ItabEntry UD_Ipmulhw O_P O_Q O_NONE (P_aso .| P_rexr .| P_rexx .| P_rexb);
    ItabEntry UD_Ipmulhw O_V O_W O_NONE (P_aso .| P_rexr .| P_rexx .| P_rexb);
    ItabEntry UD_Icvtpd2dq O_V O_W O_NONE (P_aso .| P_rexr .| P_rexx .| P_rexb);
    ItabEntry UD_Icvtdq2pd O_V O_W O_NONE (P_aso .| P_rexr .| P_rexx .| P_rexb);
    ItabEntry UD_Icvttpd2dq O_V O_W O_NONE (P_aso .| P_rexr .| P_rexx .| P_rexb);
    ItabEntry UD_Imovntq O_M O_P O_NONE (P_aso .| P_rexr .| P_rexx .| P_rexb);
    ItabEntry UD_Imovntdq O_M O_V O_NONE (P_aso .| P_rexr .| P_rexx .| P_rexb);
    ItabEntry UD_Ipsubsb O_P O_Q O_NONE (P_aso .| P_rexr .| P_rexx .| P_rexb);
    ItabEntry UD_Ipsubsb O_V O_W O_NONE (P_aso .| P_rexr .| P_rexx .| P_rexb);
    ItabEntry UD_Ipsubsw O_P O_Q O_NONE (P_aso .| P_rexr .| P_rexx .| P_rexb);
    ItabEntry UD_Ipsubsw O_V O_W O_NONE (P_aso .| P_rexr .| P_rexx .| P_rexb);
    ItabEntry UD_Ipminsw O_P O_Q O_NONE (P_aso .| P_rexr .| P_rexx .| P_rexb);
    ItabEntry UD_Ipminsw O_V O_W O_NONE (P_aso .| P_rexr .| P_rexx .| P_rexb);
    ItabEntry UD_Ipor O_P O_Q O_NONE (P_aso .| P_rexr .| P_rexx .| P_rexb);
    ItabEntry UD_Ipor O_V O_W O_NONE (P_aso .| P_rexr .| P_rexx .| P_rexb);
    ItabEntry UD_Ipaddsb O_P O_Q O_NONE (P_aso .| P_rexr .| P_rexx .| P_rexb);
    ItabEntry UD_Ipaddsb O_V O_W O_NONE (P_aso .| P_rexr .| P_rexx .| P_rexb);
    ItabEntry UD_Ipaddsw O_P O_Q O_NONE (P_aso .| P_rexr .| P_rexx .| P_rexb);
    ItabEntry UD_Ipaddsw O_V O_W O_NONE (P_aso .| P_rexr .| P_rexx .| P_rexb);
    ItabEntry UD_Ipmaxsw O_P O_Q O_NONE (P_aso .| P_rexr .| P_rexx .| P_rexb);
    ItabEntry UD_Ipmaxsw O_V O_W O_NONE (P_aso .| P_rexr .| P_rexx .| P_rexb);
    ItabEntry UD_Ipxor O_P O_Q O_NONE (P_aso .| P_rexr .| P_rexx .| P_rexb);
    ItabEntry UD_Ipxor O_V O_W O_NONE (P_aso .| P_rexr .| P_rexx .| P_rexb);
    ItabEntry UD_Ilddqu O_V O_M O_NONE (P_aso .| P_rexr .| P_rexx .| P_rexb);
    ItabEntry UD_Ipsllw O_P O_Q O_NONE (P_aso .| P_rexr .| P_rexx .| P_rexb);
    ItabEntry UD_Ipsllw O_V O_W O_NONE (P_aso .| P_rexr .| P_rexx .| P_rexb);
    ItabEntry UD_Ipslld O_P O_Q O_NONE (P_aso .| P_rexr .| P_rexx .| P_rexb);
    ItabEntry UD_Ipslld O_V O_W O_NONE (P_aso .| P_rexr .| P_rexx .| P_rexb);
    ItabEntry UD_Ipsllq O_P O_Q O_NONE (P_aso .| P_rexr .| P_rexx .| P_rexb);
    ItabEntry UD_Ipsllq O_V O_W O_NONE (P_aso .| P_rexr .| P_rexx .| P_rexb);
    ItabEntry UD_Ipmuludq O_P O_Q O_NONE (P_aso .| P_rexr .| P_rexx .| P_rexb);
    ItabEntry UD_Ipmuludq O_V O_W O_NONE (P_aso .| P_rexr .| P_rexx .| P_rexb);
    ItabEntry UD_Ipmaddwd O_P O_Q O_NONE (P_aso .| P_rexr .| P_rexx .| P_rexb);
    ItabEntry UD_Ipmaddwd O_V O_W O_NONE (P_aso .| P_rexr .| P_rexx .| P_rexb);
    ItabEntry UD_Ipsadbw O_P O_Q O_NONE (P_aso .| P_rexr .| P_rexx .| P_rexb);
    ItabEntry UD_Ipsadbw O_V O_W O_NONE (P_aso .| P_rexr .| P_rexx .| P_rexb);
    ItabEntry UD_Imaskmovq O_P O_N O_NONE (P_aso .| P_rexr .| P_rexx .| P_rexb);
    ItabEntry UD_Imaskmovdqu O_V O_U O_NONE (P_aso .| P_rexr .| P_rexx .| P_rexb);
    ItabEntry UD_Ipsubb O_P O_Q O_NONE (P_aso .| P_rexr .| P_rexx .| P_rexb);
    ItabEntry UD_Ipsubb O_V O_W O_NONE (P_aso .| P_rexr .| P_rexx .| P_rexb);
    ItabEntry UD_Ipsubw O_P O_Q O_NONE (P_aso .| P_rexr .| P_rexx .| P_rexb);
    ItabEntry UD_Ipsubw O_V O_W O_NONE (P_aso .| P_rexr .| P_rexx .| P_rexb);
    ItabEntry UD_Ipsubd O_P O_Q O_NONE (P_aso .| P_rexr .| P_rexx .| P_rexb);
    ItabEntry UD_Ipsubd O_V O_W O_NONE (P_aso .| P_rexr .| P_rexx .| P_rexb);
    ItabEntry UD_Ipsubq O_P O_Q O_NONE (P_aso .| P_rexr .| P_rexx .| P_rexb);
    ItabEntry UD_Ipsubq O_V O_W O_NONE (P_aso .| P_rexr .| P_rexx .| P_rexb);
    ItabEntry UD_Ipaddb O_P O_Q O_NONE (P_aso .| P_rexr .| P_rexx .| P_rexb);
    ItabEntry UD_Ipaddb O_V O_W O_NONE (P_aso .| P_rexr .| P_rexx .| P_rexb);
    ItabEntry UD_Ipaddw O_P O_Q O_NONE (P_aso .| P_rexr .| P_rexx .| P_rexb);
    ItabEntry UD_Ipaddw O_V O_W O_NONE (P_aso .| P_rexr .| P_rexx .| P_rexb);
    ItabEntry UD_Ipaddd O_P O_Q O_NONE (P_aso .| P_rexr .| P_rexx .| P_rexb);
    ItabEntry UD_Ipaddd O_V O_W O_NONE (P_aso .| P_rexr .| P_rexx .| P_rexb);
    ItabEntry UD_Iadc O_Eb O_Gb O_NONE (P_aso .| P_rexr .| P_rexx .| P_rexb);
    ItabEntry UD_Iadc O_Ev O_Gv O_NONE (P_aso .| P_oso .| P_rexw .| P_rexr .| P_rexx .| P_rexb);
    ItabEntry UD_Iadc O_Gb O_Eb O_NONE (P_aso .| P_rexr .| P_rexx .| P_rexb);
    ItabEntry UD_Iadc O_Gv O_Ev O_NONE (P_aso .| P_oso .| P_rexw .| P_rexr .| P_rexx .| P_rexb);
    ItabEntry UD_Iadc O_AL O_Ib O_NONE P_none;
    ItabEntry UD_Iadc O_rAX O_sIz O_NONE (P_oso .| P_rexw);
    ItabEntry UD_Ipush O_SS O_NONE O_NONE P_inv64;
    ItabEntry UD_Ipop O_SS O_NONE O_NONE P_inv64;
    ItabEntry UD_Isbb O_Eb O_Gb O_NONE (P_aso .| P_rexr .| P_rexx .| P_rexb);
    ItabEntry UD_Isbb O_Ev O_Gv O_NONE (P_aso .| P_oso .| P_rexw .| P_rexr .| P_rexx .| P_rexb);
    ItabEntry UD_Isbb O_Gb O_Eb O_NONE (P_aso .| P_rexr .| P_rexx .| P_rexb);
    ItabEntry UD_Isbb O_Gv O_Ev O_NONE (P_aso .| P_oso .| P_rexw .| P_rexr .| P_rexx .| P_rexb);
    ItabEntry UD_Isbb O_AL O_Ib O_NONE P_none;
    ItabEntry UD_Isbb O_rAX O_sIz O_NONE (P_oso .| P_rexw);
    ItabEntry UD_Ipush O_DS O_NONE O_NONE P_inv64;
    ItabEntry UD_Ipop O_DS O_NONE O_NONE P_inv64;
    ItabEntry UD_Iand O_Eb O_Gb O_NONE (P_aso .| P_rexr .| P_rexx .| P_rexb);
    ItabEntry UD_Iand O_Ev O_Gv O_NONE (P_aso .| P_oso .| P_rexw .| P_rexr .| P_rexx .| P_rexb);
    ItabEntry UD_Iand O_Gb O_Eb O_NONE (P_aso .| P_rexr .| P_rexx .| P_rexb);
    ItabEntry UD_Iand O_Gv O_Ev O_NONE (P_aso .| P_oso .| P_rexw .| P_rexr .| P_rexx .| P_rexb);
    ItabEntry UD_Iand O_AL O_Ib O_NONE P_none;
    ItabEntry UD_Iand O_rAX O_sIz O_NONE (P_oso .| P_rexw);
    ItabEntry UD_Idaa O_NONE O_NONE O_NONE P_inv64;
    ItabEntry UD_Isub O_Eb O_Gb O_NONE (P_aso .| P_rexr .| P_rexx .| P_rexb);
    ItabEntry UD_Isub O_Ev O_Gv O_NONE (P_aso .| P_oso .| P_rexw .| P_rexr .| P_rexx .| P_rexb);
    ItabEntry UD_Isub O_Gb O_Eb O_NONE (P_aso .| P_rexr .| P_rexx .| P_rexb);
    ItabEntry UD_Isub O_Gv O_Ev O_NONE (P_aso .| P_oso .| P_rexw .| P_rexr .| P_rexx .| P_rexb);
    ItabEntry UD_Isub O_AL O_Ib O_NONE P_none;
    ItabEntry UD_Isub O_rAX O_sIz O_NONE (P_oso .| P_rexw);
    ItabEntry UD_Idas O_NONE O_NONE O_NONE P_inv64;
    ItabEntry UD_Ixor O_Eb O_Gb O_NONE (P_aso .| P_rexr .| P_rexx .| P_rexb);
    ItabEntry UD_Ixor O_Ev O_Gv O_NONE (P_aso .| P_oso .| P_rexw .| P_rexr .| P_rexx .| P_rexb);
    ItabEntry UD_Ixor O_Gb O_Eb O_NONE (P_aso .| P_rexr .| P_rexx .| P_rexb);
    ItabEntry UD_Ixor O_Gv O_Ev O_NONE (P_aso .| P_oso .| P_rexw .| P_rexr .| P_rexx .| P_rexb);
    ItabEntry UD_Ixor O_AL O_Ib O_NONE P_none;
    ItabEntry UD_Ixor O_rAX O_sIz O_NONE (P_oso .| P_rexw);
    ItabEntry UD_Iaaa O_NONE O_NONE O_NONE P_none;
    ItabEntry UD_Icmp O_Eb O_Gb O_NONE (P_aso .| P_rexr .| P_rexx .| P_rexb);
    ItabEntry UD_Icmp O_Ev O_Gv O_NONE (P_aso .| P_oso .| P_rexw .| P_rexr .| P_rexx .| P_rexb);
    ItabEntry UD_Icmp O_Gb O_Eb O_NONE (P_aso .| P_rexr .| P_rexx .| P_rexb);
    ItabEntry UD_Icmp O_Gv O_Ev O_NONE (P_aso .| P_oso .| P_rexw .| P_rexr .| P_rexx .| P_rexb);
    ItabEntry UD_Icmp O_AL O_Ib O_NONE P_none;
    ItabEntry UD_Icmp O_rAX O_sIz O_NONE (P_oso .| P_rexw);
    ItabEntry UD_Iaas O_NONE O_NONE O_NONE P_none;
    ItabEntry UD_Iinc O_R0z O_NONE O_NONE P_oso;
    ItabEntry UD_Iinc O_R1z O_NONE O_NONE P_oso;
    ItabEntry UD_Iinc O_R2z O_NONE O_NONE P_oso;
    ItabEntry UD_Iinc O_R3z O_NONE O_NONE P_oso;
    ItabEntry UD_Iinc O_R4z O_NONE O_NONE P_oso;
    ItabEntry UD_Iinc O_R5z O_NONE O_NONE P_oso;
    ItabEntry UD_Iinc O_R6z O_NONE O_NONE P_oso;
    ItabEntry UD_Iinc O_R7z O_NONE O_NONE P_oso;
    ItabEntry UD_Idec O_R0z O_NONE O_NONE P_oso;
    ItabEntry UD_Idec O_R1z O_NONE O_NONE P_oso;
    ItabEntry UD_Idec O_R2z O_NONE O_NONE P_oso;
    ItabEntry UD_Idec O_R3z O_NONE O_NONE P_oso;
    ItabEntry UD_Idec O_R4z O_NONE O_NONE P_oso;
    ItabEntry UD_Idec O_R5z O_NONE O_NONE P_oso;
    ItabEntry UD_Idec O_R6z O_NONE O_NONE P_oso;
    ItabEntry UD_Idec O_R7z O_NONE O_NONE P_oso;
    ItabEntry UD_Ipush O_R0v O_NONE O_NONE (P_oso .| P_rexb .| P_def64);
    ItabEntry UD_Ipush O_R1v O_NONE O_NONE (P_oso .| P_rexb .| P_def64);
    ItabEntry UD_Ipush O_R2v O_NONE O_NONE (P_oso .| P_rexb .| P_def64);
    ItabEntry UD_Ipush O_R3v O_NONE O_NONE (P_oso .| P_rexb .| P_def64);
    ItabEntry UD_Ipush O_R4v O_NONE O_NONE (P_oso .| P_rexb .| P_def64);
    ItabEntry UD_Ipush O_R5v O_NONE O_NONE (P_oso .| P_rexb .| P_def64);
    ItabEntry UD_Ipush O_R6v O_NONE O_NONE (P_oso .| P_rexb .| P_def64);
    ItabEntry UD_Ipush O_R7v O_NONE O_NONE (P_oso .| P_rexb .| P_def64);
    ItabEntry UD_Ipop O_R0v O_NONE O_NONE (P_oso .| P_rexb .| P_def64);
    ItabEntry UD_Ipop O_R1v O_NONE O_NONE (P_oso .| P_rexb .| P_def64);
    ItabEntry UD_Ipop O_R2v O_NONE O_NONE (P_oso .| P_rexb .| P_def64);
    ItabEntry UD_Ipop O_R3v O_NONE O_NONE (P_oso .| P_rexb .| P_def64);
    ItabEntry UD_Ipop O_R4v O_NONE O_NONE (P_oso .| P_rexb .| P_def64);
    ItabEntry UD_Ipop O_R5v O_NONE O_NONE (P_oso .| P_rexb .| P_def64);
    ItabEntry UD_Ipop O_R6v O_NONE O_NONE (P_oso .| P_rexb .| P_def64);
    ItabEntry UD_Ipop O_R7v O_NONE O_NONE (P_oso .| P_rexb .| P_def64);
    ItabEntry UD_Ipusha O_NONE O_NONE O_NONE (P_oso .| P_inv64);
    ItabEntry UD_Ipushad O_NONE O_NONE O_NONE (P_oso .| P_inv64);
    ItabEntry UD_Ipopa O_NONE O_NONE O_NONE (P_oso .| P_inv64);
    ItabEntry UD_Ipopad O_NONE O_NONE O_NONE (P_oso .| P_inv64);
    ItabEntry UD_Ibound O_Gv O_M O_NONE (P_aso .| P_oso);
    ItabEntry UD_Iarpl O_Ew O_Gw O_NONE P_aso;
    ItabEntry UD_Imovsxd O_Gq O_Ed O_NONE (P_aso .| P_oso .| P_rexw .| P_rexx .| P_rexr .| P_rexb);
    ItabEntry UD_Ipush O_sIz O_NONE O_NONE (P_oso .| P_def64);
    ItabEntry UD_Iimul O_Gv O_Ev O_Iz (P_aso .| P_oso .| P_rexw .| P_rexr .| P_rexx .| P_rexb);
    ItabEntry UD_Ipush O_sIb O_NONE O_NONE (P_oso .| P_def64);
    ItabEntry UD_Iimul O_Gv O_Ev O_sIb (P_aso .| P_oso .| P_rexw .| P_rexr .| P_rexx .| P_rexb);
    ItabEntry UD_Iinsb O_NONE O_NONE O_NONE (P_str .| P_seg);
    ItabEntry UD_Iinsw O_NONE O_NONE O_NONE (P_str .| P_oso .| P_seg);
    ItabEntry UD_Iinsd O_NONE O_NONE O_NONE (P_str .| P_oso .| P_seg);
    ItabEntry UD_Ioutsb O_NONE O_NONE O_NONE (P_str .| P_seg);
    ItabEntry UD_Ioutsw O_NONE O_NONE O_NONE (P_str .| P_oso .| P_seg);
    ItabEntry UD_Ioutsd O_NONE O_NONE O_NONE (P_str .| P_oso .| P_seg);
    ItabEntry UD_Ijo O_Jb O_NONE O_NONE P_none;
    ItabEntry UD_Ijno O_Jb O_NONE O_NONE P_none;
    ItabEntry UD_Ijb O_Jb O_NONE O_NONE P_none;
    ItabEntry UD_Ijae O_Jb O_NONE O_NONE P_none;
    ItabEntry UD_Ijz O_Jb O_NONE O_NONE P_none;
    ItabEntry UD_Ijnz O_Jb O_NONE O_NONE P_none;
    ItabEntry UD_Ijbe O_Jb O_NONE O_NONE P_none;
    ItabEntry UD_Ija O_Jb O_NONE O_NONE P_none;
    ItabEntry UD_Ijs O_Jb O_NONE O_NONE P_none;
    ItabEntry UD_Ijns O_Jb O_NONE O_NONE P_none;
    ItabEntry UD_Ijp O_Jb O_NONE O_NONE P_none;
    ItabEntry UD_Ijnp O_Jb O_NONE O_NONE P_none;
    ItabEntry UD_Ijl O_Jb O_NONE O_NONE P_none;
    ItabEntry UD_Ijge O_Jb O_NONE O_NONE P_none;
    ItabEntry UD_Ijle O_Jb O_NONE O_NONE P_none;
    ItabEntry UD_Ijg O_Jb O_NONE O_NONE P_none;
    ItabEntry UD_Iadd O_Eb O_Ib O_NONE (P_aso .| P_rexr .| P_rexx .| P_rexb);
    ItabEntry UD_Ior O_Eb O_Ib O_NONE (P_aso .| P_rexr .| P_rexx .| P_rexb);
    ItabEntry UD_Iadc O_Eb O_Ib O_NONE (P_aso .| P_rexr .| P_rexx .| P_rexb);
    ItabEntry UD_Isbb O_Eb O_Ib O_NONE (P_aso .| P_rexr .| P_rexx .| P_rexb);
    ItabEntry UD_Iand O_Eb O_Ib O_NONE (P_aso .| P_rexw .| P_rexr .| P_rexx .| P_rexb);
    ItabEntry UD_Isub O_Eb O_Ib O_NONE (P_aso .| P_rexr .| P_rexx .| P_rexb);
    ItabEntry UD_Ixor O_Eb O_Ib O_NONE (P_aso .| P_rexr .| P_rexx .| P_rexb);
    ItabEntry UD_Icmp O_Eb O_Ib O_NONE (P_aso .| P_rexr .| P_rexx .| P_rexb);
    ItabEntry UD_Iadd O_Ev O_sIz O_NONE (P_aso .| P_oso .| P_rexw .| P_rexr .| P_rexx .| P_rexb);
    ItabEntry UD_Ior O_Ev O_sIz O_NONE (P_aso .| P_oso .| P_rexw .| P_rexr .| P_rexx .| P_rexb);
    ItabEntry UD_Iadc O_Ev O_sIz O_NONE (P_aso .| P_oso .| P_rexw .| P_rexr .| P_rexx .| P_rexb);
    ItabEntry UD_Isbb O_Ev O_sIz O_NONE (P_aso .| P_oso .| P_rexw .| P_rexr .| P_rexx .| P_rexb);
    ItabEntry UD_Iand O_Ev O_sIz O_NONE (P_aso .| P_oso .| P_rexw .| P_rexr .| P_rexx .| P_rexb);
    ItabEntry UD_Isub O_Ev O_sIz O_NONE (P_aso .| P_oso .| P_rexw .| P_rexr .| P_rexx .| P_rexb);
    ItabEntry UD_Ixor O_Ev O_sIz O_NONE (P_aso .| P_oso .| P_rexw .| P_rexr .| P_rexx .| P_rexb);
    ItabEntry UD_Icmp O_Ev O_sIz O_NONE (P_aso .| P_oso .| P_rexw .| P_rexr .| P_rexx .| P_rexb);
    ItabEntry UD_Iadd O_Eb O_Ib O_NONE (P_aso .| P_rexr .| P_rexx .| P_rexb .| P_inv64);
    ItabEntry UD_Ior O_Eb O_Ib O_NONE (P_aso .| P_rexr .| P_rexx .| P_rexb);
    ItabEntry UD_Iadc O_Eb O_Ib O_NONE (P_aso .| P_rexr .| P_rexx .| P_rexb .| P_inv64);
    ItabEntry UD_Isbb O_Eb O_Ib O_NONE (P_aso .| P_rexr .| P_rexx .| P_rexb .| P_inv64);
    ItabEntry UD_Iand O_Eb O_Ib O_NONE (P_aso .| P_rexr .| P_rexx .| P_rexb .| P_inv64);
    ItabEntry UD_Isub O_Eb O_Ib O_NONE (P_aso .| P_rexr .| P_rexx .| P_rexb .| P_inv64);
    ItabEntry UD_Ixor O_Eb O_Ib O_NONE (P_aso .| P_rexr .| P_rexx .| P_rexb .| P_inv64);
    ItabEntry UD_Icmp O_Eb O_Ib O_NONE (P_aso .| P_rexr .| P_rexx .| P_rexb .| P_inv64);
    ItabEntry UD_Iadd O_Ev O_sIb O_NONE (P_aso .| P_oso .| P_rexw .| P_rexr .| P_rexx .| P_rexb);
    ItabEntry UD_Ior O_Ev O_sIb O_NONE (P_aso .| P_oso .| P_rexw .| P_rexr .| P_rexx .| P_rexb);
    ItabEntry UD_Iadc O_Ev O_sIb O_NONE (P_aso .| P_oso .| P_rexw .| P_rexr .| P_rexx .| P_rexb);
    ItabEntry UD_Isbb O_Ev O_sIb O_NONE (P_aso .| P_oso .| P_rexw .| P_rexr .| P_rexx .| P_rexb);
    ItabEntry UD_Iand O_Ev O_sIb O_NONE (P_aso .| P_oso .| P_rexw .| P_rexr .| P_rexx .| P_rexb);
    ItabEntry UD_Isub O_Ev O_sIb O_NONE (P_aso .| P_oso .| P_rexw .| P_rexr .| P_rexx .| P_rexb);
    ItabEntry UD_Ixor O_Ev O_sIb O_NONE (P_aso .| P_oso .| P_rexw .| P_rexr .| P_rexx .| P_rexb);
    ItabEntry UD_Icmp O_Ev O_sIb O_NONE (P_aso .| P_oso .| P_rexw .| P_rexr .| P_rexx .| P_rexb);
    ItabEntry UD_Itest O_Eb O_Gb O_NONE (P_aso .| P_rexr .| P_rexx .| P_rexb);
    ItabEntry UD_Itest O_Ev O_Gv O_NONE (P_aso .| P_oso .| P_rexw .| P_rexr .| P_rexx .| P_rexb);
    ItabEntry UD_Ixchg O_Eb O_Gb O_NONE (P_aso .| P_rexr .| P_rexx .| P_rexb);
    ItabEntry UD_Ixchg O_Ev O_Gv O_NONE (P_aso .| P_oso .| P_rexw .| P_rexr .| P_rexx .| P_rexb);
    ItabEntry UD_Imov O_Eb O_Gb O_NONE (P_aso .| P_rexr .| P_rexx .| P_rexb);
    ItabEntry UD_Imov O_Ev O_Gv O_NONE (P_aso .| P_oso .| P_rexw .| P_rexr .| P_rexx .| P_rexb);
    ItabEntry UD_Imov O_Gb O_Eb O_NONE (P_aso .| P_rexr .| P_rexx .| P_rexb);
    ItabEntry UD_Imov O_Gv O_Ev O_NONE (P_aso .| P_oso .| P_rexw .| P_rexr .| P_rexx .| P_rexb);
    ItabEntry UD_Imov O_MwRv O_S O_NONE (P_aso .| P_oso .| P_rexw .| P_rexr .| P_rexx .| P_rexb);
    ItabEntry UD_Ilea O_Gv O_M O_NONE (P_aso .| P_oso .| P_rexw .| P_rexr .| P_rexx .| P_rexb);
    ItabEntry UD_Imov O_S O_MwRv O_NONE (P_aso .| P_oso .| P_rexw .| P_rexr .| P_rexx .| P_rexb);
    ItabEntry UD_Ipop O_Ev O_NONE O_NONE (P_aso .| P_oso .| P_rexw .| P_rexr .| P_rexx .| P_rexb .| P_def64);
    ItabEntry UD_Ixchg O_R0v O_rAX O_NONE (P_oso .| P_rexw .| P_rexb);
    ItabEntry UD_Ixchg O_R1v O_rAX O_NONE (P_oso .| P_rexw .| P_rexb);
    ItabEntry UD_Ixchg O_R2v O_rAX O_NONE (P_oso .| P_rexw .| P_rexb);
    ItabEntry UD_Ixchg O_R3v O_rAX O_NONE (P_oso .| P_rexw .| P_rexb);
    ItabEntry UD_Ixchg O_R4v O_rAX O_NONE (P_oso .| P_rexw .| P_rexb);
    ItabEntry UD_Ixchg O_R5v O_rAX O_NONE (P_oso .| P_rexw .| P_rexb);
    ItabEntry UD_Ixchg O_R6v O_rAX O_NONE (P_oso .| P_rexw .| P_rexb);
    ItabEntry UD_Ixchg O_R7v O_rAX O_NONE (P_oso .| P_rexw .| P_rexb);
    ItabEntry UD_Icbw O_NONE O_NONE O_NONE (P_oso .| P_rexw);
    ItabEntry UD_Icwde O_NONE O_NONE O_NONE (P_oso .| P_rexw);
    ItabEntry UD_Icdqe O_NONE O_NONE O_NONE (P_oso .| P_rexw);
    ItabEntry UD_Icwd O_NONE O_NONE O_NONE (P_oso .| P_rexw);
    ItabEntry UD_Icdq O_NONE O_NONE O_NONE (P_oso .| P_rexw);
    ItabEntry UD_Icqo O_NONE O_NONE O_NONE (P_oso .| P_rexw);
    ItabEntry UD_Icall O_Av O_NONE O_NONE P_oso;
    ItabEntry UD_Iwait O_NONE O_NONE O_NONE P_none;
    ItabEntry UD_Ipushfw O_NONE O_NONE O_NONE P_oso;
    ItabEntry UD_Ipushfw O_NONE O_NONE O_NONE (P_oso .| P_rexw .| P_def64);
    ItabEntry UD_Ipushfd O_NONE O_NONE O_NONE P_oso;
    ItabEntry UD_Ipushfq O_NONE O_NONE O_NONE (P_oso .| P_rexw .| P_def64);
    ItabEntry UD_Ipushfq O_NONE O_NONE O_NONE (P_oso .| P_rexw .| P_def64);
    ItabEntry UD_Ipopfw O_NONE O_NONE O_NONE P_oso;
    ItabEntry UD_Ipopfd O_NONE O_NONE O_NONE P_oso;
    ItabEntry UD_Ipopfq O_NONE O_NONE O_NONE (P_oso .| P_def64);
    ItabEntry UD_Ipopfq O_NONE O_NONE O_NONE (P_oso .| P_def64);
    ItabEntry UD_Isahf O_NONE O_NONE O_NONE P_none;
    ItabEntry UD_Ilahf O_NONE O_NONE O_NONE P_none;
    ItabEntry UD_Imov O_AL O_Ob O_NONE P_none;
    ItabEntry UD_Imov O_rAX O_Ov O_NONE (P_aso .| P_oso .| P_rexw);
    ItabEntry UD_Imov O_Ob O_AL O_NONE P_none;
    ItabEntry UD_Imov O_Ov O_rAX O_NONE (P_aso .| P_oso .| P_rexw);
    ItabEntry UD_Imovsb O_NONE O_NONE O_NONE (P_str .| P_seg);
    ItabEntry UD_Imovsw O_NONE O_NONE O_NONE (P_str .| P_seg .| P_oso .| P_rexw);
    ItabEntry UD_Imovsd O_NONE O_NONE O_NONE (P_str .| P_seg .| P_oso .| P_rexw);
    ItabEntry UD_Imovsq O_NONE O_NONE O_NONE (P_str .| P_seg .| P_oso .| P_rexw);
    ItabEntry UD_Icmpsb O_NONE O_NONE O_NONE (P_strz .| P_seg);
    ItabEntry UD_Icmpsw O_NONE O_NONE O_NONE (P_strz .| P_oso .| P_rexw .| P_seg);
    ItabEntry UD_Icmpsd O_NONE O_NONE O_NONE (P_strz .| P_oso .| P_rexw .| P_seg);
    ItabEntry UD_Icmpsq O_NONE O_NONE O_NONE (P_strz .| P_oso .| P_rexw .| P_seg);
    ItabEntry UD_Itest O_AL O_Ib O_NONE P_none;
    ItabEntry UD_Itest O_rAX O_sIz O_NONE (P_oso .| P_rexw);
    ItabEntry UD_Istosb O_NONE O_NONE O_NONE (P_str .| P_seg);
    ItabEntry UD_Istosw O_NONE O_NONE O_NONE (P_str .| P_seg .| P_oso .| P_rexw);
    ItabEntry UD_Istosd O_NONE O_NONE O_NONE (P_str .| P_seg .| P_oso .| P_rexw);
    ItabEntry UD_Istosq O_NONE O_NONE O_NONE (P_str .| P_seg .| P_oso .| P_rexw);
    ItabEntry UD_Ilodsb O_NONE O_NONE O_NONE (P_str .| P_seg);
    ItabEntry UD_Ilodsw O_NONE O_NONE O_NONE (P_str .| P_seg .| P_oso .| P_rexw);
    ItabEntry UD_Ilodsd O_NONE O_NONE O_NONE (P_str .| P_seg .| P_oso .| P_rexw);
    ItabEntry UD_Ilodsq O_NONE O_NONE O_NONE (P_str .| P_seg .| P_oso .| P_rexw);
    ItabEntry UD_Iscasb O_NONE O_NONE O_NONE P_strz;
    ItabEntry UD_Iscasw O_NONE O_NONE O_NONE (P_strz .| P_oso .| P_rexw);
    ItabEntry UD_Iscasd O_NONE O_NONE O_NONE (P_strz .| P_oso .| P_rexw);
    ItabEntry UD_Iscasq O_NONE O_NONE O_NONE (P_strz .| P_oso .| P_rexw);
    ItabEntry UD_Imov O_R0b O_Ib O_NONE P_rexb;
    ItabEntry UD_Imov O_R1b O_Ib O_NONE P_rexb;
    ItabEntry UD_Imov O_R2b O_Ib O_NONE P_rexb;
    ItabEntry UD_Imov O_R3b O_Ib O_NONE P_rexb;
    ItabEntry UD_Imov O_R4b O_Ib O_NONE P_rexb;
    ItabEntry UD_Imov O_R5b O_Ib O_NONE P_rexb;
    ItabEntry UD_Imov O_R6b O_Ib O_NONE P_rexb;
    ItabEntry UD_Imov O_R7b O_Ib O_NONE P_rexb;
    ItabEntry UD_Imov O_R0v O_Iv O_NONE (P_oso .| P_rexw .| P_rexb);
    ItabEntry UD_Imov O_R1v O_Iv O_NONE (P_oso .| P_rexw .| P_rexb);
    ItabEntry UD_Imov O_R2v O_Iv O_NONE (P_oso .| P_rexw .| P_rexb);
    ItabEntry UD_Imov O_R3v O_Iv O_NONE (P_oso .| P_rexw .| P_rexb);
    ItabEntry UD_Imov O_R4v O_Iv O_NONE (P_oso .| P_rexw .| P_rexb);
    ItabEntry UD_Imov O_R5v O_Iv O_NONE (P_oso .| P_rexw .| P_rexb);
    ItabEntry UD_Imov O_R6v O_Iv O_NONE (P_oso .| P_rexw .| P_rexb);
    ItabEntry UD_Imov O_R7v O_Iv O_NONE (P_oso .| P_rexw .| P_rexb);
    ItabEntry UD_Irol O_Eb O_Ib O_NONE (P_aso .| P_rexw .| P_rexr .| P_rexx .| P_rexb);
    ItabEntry UD_Iror O_Eb O_Ib O_NONE (P_aso .| P_rexw .| P_rexr .| P_rexx .| P_rexb);
    ItabEntry UD_Ircl O_Eb O_Ib O_NONE (P_aso .| P_rexw .| P_rexr .| P_rexx .| P_rexb);
    ItabEntry UD_Ircr O_Eb O_Ib O_NONE (P_aso .| P_rexw .| P_rexr .| P_rexx .| P_rexb);
    ItabEntry UD_Ishl O_Eb O_Ib O_NONE (P_aso .| P_rexw .| P_rexr .| P_rexx .| P_rexb);
    ItabEntry UD_Ishr O_Eb O_Ib O_NONE (P_aso .| P_rexw .| P_rexr .| P_rexx .| P_rexb);
    ItabEntry UD_Ishl O_Eb O_Ib O_NONE (P_aso .| P_rexw .| P_rexr .| P_rexx .| P_rexb);
    ItabEntry UD_Isar O_Eb O_Ib O_NONE (P_aso .| P_rexw .| P_rexr .| P_rexx .| P_rexb);
    ItabEntry UD_Irol O_Ev O_Ib O_NONE (P_aso .| P_oso .| P_rexw .| P_rexr .| P_rexx .| P_rexb);
    ItabEntry UD_Iror O_Ev O_Ib O_NONE (P_aso .| P_oso .| P_rexw .| P_rexr .| P_rexx .| P_rexb);
    ItabEntry UD_Ircl O_Ev O_Ib O_NONE (P_aso .| P_oso .| P_rexw .| P_rexr .| P_rexx .| P_rexb);
    ItabEntry UD_Ircr O_Ev O_Ib O_NONE (P_aso .| P_oso .| P_rexw .| P_rexr .| P_rexx .| P_rexb);
    ItabEntry UD_Ishl O_Ev O_Ib O_NONE (P_aso .| P_oso .| P_rexw .| P_rexr .| P_rexx .| P_rexb);
    ItabEntry UD_Ishr O_Ev O_Ib O_NONE (P_aso .| P_oso .| P_rexw .| P_rexr .| P_rexx .| P_rexb);
    ItabEntry UD_Ishl O_Ev O_Ib O_NONE (P_aso .| P_oso .| P_rexw .| P_rexr .| P_rexx .| P_rexb);
    ItabEntry UD_Isar O_Ev O_Ib O_NONE (P_aso .| P_oso .| P_rexw .| P_rexr .| P_rexx .| P_rexb);
    ItabEntry UD_Iret O_Iw O_NONE O_NONE P_none;
    ItabEntry UD_Iret O_NONE O_NONE O_NONE P_none;
    ItabEntry UD_Iles O_Gv O_M O_NONE (P_aso .| P_oso);
    ItabEntry UD_Ilds O_Gv O_M O_NONE (P_aso .| P_oso);
    ItabEntry UD_Imov O_Eb O_Ib O_NONE (P_aso .| P_rexw .| P_rexr .| P_rexx .| P_rexb);
    ItabEntry UD_Imov O_Ev O_sIz O_NONE (P_aso .| P_oso .| P_rexw .| P_rexr .| P_rexx .| P_rexb);
    ItabEntry UD_Ienter O_Iw O_Ib O_NONE P_def64;
    ItabEntry UD_Ileave O_NONE O_NONE O_NONE P_none;
    ItabEntry UD_Iretf O_Iw O_NONE O_NONE P_none;
    ItabEntry UD_Iretf O_NONE O_NONE O_NONE P_none;
    ItabEntry UD_Iint3 O_NONE O_NONE O_NONE P_none;
    ItabEntry UD_Iint O_Ib O_NONE O_NONE P_none;
    ItabEntry UD_Iinto O_NONE O_NONE O_NONE P_inv64;
    ItabEntry UD_Iiretw O_NONE O_NONE O_NONE (P_oso .| P_rexw);
    ItabEntry UD_Iiretd O_NONE O_NONE O_NONE (P_oso .| P_rexw);
    ItabEntry UD_Iiretq O_NONE O_NONE O_NONE (P_oso .| P_rexw);
    ItabEntry UD_Irol O_Eb O_I1 O_NONE (P_aso .| P_rexw .| P_rexr .| P_rexx .| P_rexb);
    ItabEntry UD_Iror O_Eb O_I1 O_NONE (P_aso .| P_rexw .| P_rexr .| P_rexx .| P_rexb);
    ItabEntry UD_Ircl O_Eb O_I1 O_NONE (P_aso .| P_rexw .| P_rexr .| P_rexx .| P_rexb);
    ItabEntry UD_Ircr O_Eb O_I1 O_NONE (P_aso .| P_rexw .| P_rexr .| P_rexx .| P_rexb);
    ItabEntry UD_Ishl O_Eb O_I1 O_NONE (P_aso .| P_rexw .| P_rexr .| P_rexx .| P_rexb);
    ItabEntry UD_Ishr O_Eb O_I1 O_NONE (P_aso .| P_rexw .| P_rexr .| P_rexx .| P_rexb);
    ItabEntry UD_Ishl O_Eb O_I1 O_NONE (P_aso .| P_rexw .| P_rexr .| P_rexx .| P_rexb);
    ItabEntry UD_Isar O_Eb O_I1 O_NONE (P_aso .| P_rexw .| P_rexr .| P_rexx .| P_rexb);
    ItabEntry UD_Irol O_Ev O_I1 O_NONE (P_aso .| P_oso .| P_rexw .| P_rexr .| P_rexx .| P_rexb);
    ItabEntry UD_Iror O_Ev O_I1 O_NONE (P_aso .| P_oso .| P_rexw .| P_rexr .| P_rexx .| P_rexb);
    ItabEntry UD_Ircl O_Ev O_I1 O_NONE (P_aso .| P_oso .| P_rexw .| P_rexr .| P_rexx .| P_rexb);
    ItabEntry UD_Ircr O_Ev O_I1 O_NONE (P_aso .| P_oso .| P_rexw .| P_rexr .| P_rexx .| P_rexb);
    ItabEntry UD_Ishl O_Ev O_I1 O_NONE (P_aso .| P_oso .| P_rexw .| P_rexr .| P_rexx .| P_rexb);
    ItabEntry UD_Ishr O_Ev O_I1 O_NONE (P_aso .| P_oso .| P_rexw .| P_rexr .| P_rexx .| P_rexb);
    ItabEntry UD_Ishl O_Ev O_I1 O_NONE (P_aso .| P_oso .| P_rexw .| P_rexr .| P_rexx .| P_rexb);
    ItabEntry UD_Isar O_Ev O_I1 O_NONE (P_aso .| P_oso .| P_rexw .| P_rexr .| P_rexx .| P_rexb);
    ItabEntry UD_Irol O_Eb O_CL O_NONE (P_aso .| P_rexw .| P_rexr .| P_rexx .| P_rexb);
    ItabEntry UD_Iror O_Eb O_CL O_NONE (P_aso .| P_rexw .| P_rexr .| P_rexx .| P_rexb);
    ItabEntry UD_Ircl O_Eb O_CL O_NONE (P_aso .| P_rexw .| P_rexr .| P_rexx .| P_rexb);
    ItabEntry UD_Ircr O_Eb O_CL O_NONE (P_aso .| P_rexw .| P_rexr .| P_rexx .| P_rexb);
    ItabEntry UD_Ishl O_Eb O_CL O_NONE (P_aso .| P_rexr .| P_rexx .| P_rexb);
    ItabEntry UD_Ishr O_Eb O_CL O_NONE (P_aso .| P_rexw .| P_rexr .| P_rexx .| P_rexb);
    ItabEntry UD_Ishl O_Eb O_CL O_NONE (P_aso .| P_rexw .| P_rexr .| P_rexx .| P_rexb);
    ItabEntry UD_Isar O_Eb O_CL O_NONE (P_aso .| P_rexw .| P_rexr .| P_rexx .| P_rexb);
    ItabEntry UD_Irol O_Ev O_CL O_NONE (P_aso .| P_oso .| P_rexw .| P_rexr .| P_rexx .| P_rexb);
    ItabEntry UD_Iror O_Ev O_CL O_NONE (P_aso .| P_oso .| P_rexw .| P_rexr .| P_rexx .| P_rexb);
    ItabEntry UD_Ircl O_Ev O_CL O_NONE (P_aso .| P_oso .| P_rexw .| P_rexr .| P_rexx .| P_rexb);
    ItabEntry UD_Ircr O_Ev O_CL O_NONE (P_aso .| P_oso .| P_rexw .| P_rexr .| P_rexx .| P_rexb);
    ItabEntry UD_Ishl O_Ev O_CL O_NONE (P_aso .| P_oso .| P_rexw .| P_rexr .| P_rexx .| P_rexb);
    ItabEntry UD_Ishr O_Ev O_CL O_NONE (P_aso .| P_oso .| P_rexw .| P_rexr .| P_rexx .| P_rexb);
    ItabEntry UD_Ishl O_Ev O_CL O_NONE (P_aso .| P_oso .| P_rexw .| P_rexr .| P_rexx .| P_rexb);
    ItabEntry UD_Isar O_Ev O_CL O_NONE (P_aso .| P_oso .| P_rexw .| P_rexr .| P_rexx .| P_rexb);
    ItabEntry UD_Iaam O_Ib O_NONE O_NONE P_none;
    ItabEntry UD_Iaad O_Ib O_NONE O_NONE P_none;
    ItabEntry UD_Isalc O_NONE O_NONE O_NONE P_inv64;
    ItabEntry UD_Ixlatb O_NONE O_NONE O_NONE (P_rexw .| P_seg);
    ItabEntry UD_Ifadd O_Md O_NONE O_NONE (P_aso .| P_rexr .| P_rexx .| P_rexb);
    ItabEntry UD_Ifmul O_Md O_NONE O_NONE (P_aso .| P_rexr .| P_rexx .| P_rexb);
    ItabEntry UD_Ifcom O_Md O_NONE O_NONE (P_aso .| P_rexr .| P_rexx .| P_rexb);
    ItabEntry UD_Ifcomp O_Md O_NONE O_NONE (P_aso .| P_rexr .| P_rexx .| P_rexb);
    ItabEntry UD_Ifsub O_Md O_NONE O_NONE (P_aso .| P_rexr .| P_rexx .| P_rexb);
    ItabEntry UD_Ifsubr O_Md O_NONE O_NONE (P_aso .| P_rexr .| P_rexx .| P_rexb);
    ItabEntry UD_Ifdiv O_Md O_NONE O_NONE (P_aso .| P_rexr .| P_rexx .| P_rexb);
    ItabEntry UD_Ifdivr O_Md O_NONE O_NONE (P_aso .| P_rexr .| P_rexx .| P_rexb);
    ItabEntry UD_Ifadd O_ST0 O_ST0 O_NONE P_none;
    ItabEntry UD_Ifadd O_ST0 O_ST1 O_NONE P_none;
    ItabEntry UD_Ifadd O_ST0 O_ST2 O_NONE P_none;
    ItabEntry UD_Ifadd O_ST0 O_ST3 O_NONE P_none;
    ItabEntry UD_Ifadd O_ST0 O_ST4 O_NONE P_none;
    ItabEntry UD_Ifadd O_ST0 O_ST5 O_NONE P_none;
    ItabEntry UD_Ifadd O_ST0 O_ST6 O_NONE P_none;
    ItabEntry UD_Ifadd O_ST0 O_ST7 O_NONE P_none;
    ItabEntry UD_Ifmul O_ST0 O_ST0 O_NONE P_none;
    ItabEntry UD_Ifmul O_ST0 O_ST1 O_NONE P_none;
    ItabEntry UD_Ifmul O_ST0 O_ST2 O_NONE P_none;
    ItabEntry UD_Ifmul O_ST0 O_ST3 O_NONE P_none;
    ItabEntry UD_Ifmul O_ST0 O_ST4 O_NONE P_none;
    ItabEntry UD_Ifmul O_ST0 O_ST5 O_NONE P_none;
    ItabEntry UD_Ifmul O_ST0 O_ST6 O_NONE P_none;
    ItabEntry UD_Ifmul O_ST0 O_ST7 O_NONE P_none;
    ItabEntry UD_Ifcom O_ST0 O_ST0 O_NONE P_none;
    ItabEntry UD_Ifcom O_ST0 O_ST1 O_NONE P_none;
    ItabEntry UD_Ifcom O_ST0 O_ST2 O_NONE P_none;
    ItabEntry UD_Ifcom O_ST0 O_ST3 O_NONE P_none;
    ItabEntry UD_Ifcom O_ST0 O_ST4 O_NONE P_none;
    ItabEntry UD_Ifcom O_ST0 O_ST5 O_NONE P_none;
    ItabEntry UD_Ifcom O_ST0 O_ST6 O_NONE P_none;
    ItabEntry UD_Ifcom O_ST0 O_ST7 O_NONE P_none;
    ItabEntry UD_Ifcomp O_ST0 O_ST0 O_NONE P_none;
    ItabEntry UD_Ifcomp O_ST0 O_ST1 O_NONE P_none;
    ItabEntry UD_Ifcomp O_ST0 O_ST2 O_NONE P_none;
    ItabEntry UD_Ifcomp O_ST0 O_ST3 O_NONE P_none;
    ItabEntry UD_Ifcomp O_ST0 O_ST4 O_NONE P_none;
    ItabEntry UD_Ifcomp O_ST0 O_ST5 O_NONE P_none;
    ItabEntry UD_Ifcomp O_ST0 O_ST6 O_NONE P_none;
    ItabEntry UD_Ifcomp O_ST0 O_ST7 O_NONE P_none;
    ItabEntry UD_Ifsub O_ST0 O_ST0 O_NONE P_none;
    ItabEntry UD_Ifsub O_ST0 O_ST1 O_NONE P_none;
    ItabEntry UD_Ifsub O_ST0 O_ST2 O_NONE P_none;
    ItabEntry UD_Ifsub O_ST0 O_ST3 O_NONE P_none;
    ItabEntry UD_Ifsub O_ST0 O_ST4 O_NONE P_none;
    ItabEntry UD_Ifsub O_ST0 O_ST5 O_NONE P_none;
    ItabEntry UD_Ifsub O_ST0 O_ST6 O_NONE P_none;
    ItabEntry UD_Ifsub O_ST0 O_ST7 O_NONE P_none;
    ItabEntry UD_Ifsubr O_ST0 O_ST0 O_NONE P_none;
    ItabEntry UD_Ifsubr O_ST0 O_ST1 O_NONE P_none;
    ItabEntry UD_Ifsubr O_ST0 O_ST2 O_NONE P_none;
    ItabEntry UD_Ifsubr O_ST0 O_ST3 O_NONE P_none;
    ItabEntry UD_Ifsubr O_ST0 O_ST4 O_NONE P_none;
    ItabEntry UD_Ifsubr O_ST0 O_ST5 O_NONE P_none;
    ItabEntry UD_Ifsubr O_ST0 O_ST6 O_NONE P_none;
    ItabEntry UD_Ifsubr O_ST0 O_ST7 O_NONE P_none;
    ItabEntry UD_Ifdiv O_ST0 O_ST0 O_NONE P_none;
    ItabEntry UD_Ifdiv O_ST0 O_ST1 O_NONE P_none;
    ItabEntry UD_Ifdiv O_ST0 O_ST2 O_NONE P_none;
    ItabEntry UD_Ifdiv O_ST0 O_ST3 O_NONE P_none;
    ItabEntry UD_Ifdiv O_ST0 O_ST4 O_NONE P_none;
    ItabEntry UD_Ifdiv O_ST0 O_ST5 O_NONE P_none;
    ItabEntry UD_Ifdiv O_ST0 O_ST6 O_NONE P_none;
    ItabEntry UD_Ifdiv O_ST0 O_ST7 O_NONE P_none;
    ItabEntry UD_Ifdivr O_ST0 O_ST0 O_NONE P_none;
    ItabEntry UD_Ifdivr O_ST0 O_ST1 O_NONE P_none;
    ItabEntry UD_Ifdivr O_ST0 O_ST2 O_NONE P_none;
    ItabEntry UD_Ifdivr O_ST0 O_ST3 O_NONE P_none;
    ItabEntry UD_Ifdivr O_ST0 O_ST4 O_NONE P_none;
    ItabEntry UD_Ifdivr O_ST0 O_ST5 O_NONE P_none;
    ItabEntry UD_Ifdivr O_ST0 O_ST6 O_NONE P_none;
    ItabEntry UD_Ifdivr O_ST0 O_ST7 O_NONE P_none;
    ItabEntry UD_Ifld O_Md O_NONE O_NONE (P_aso .| P_rexr .| P_rexx .| P_rexb);
    ItabEntry UD_Ifst O_Md O_NONE O_NONE (P_aso .| P_rexr .| P_rexx .| P_rexb);
    ItabEntry UD_Ifstp O_Md O_NONE O_NONE (P_aso .| P_rexr .| P_rexx .| P_rexb);
    ItabEntry UD_Ifldenv O_M O_NONE O_NONE (P_aso .| P_rexr .| P_rexx .| P_rexb);
    ItabEntry UD_Ifldcw O_Mw O_NONE O_NONE (P_aso .| P_rexr .| P_rexx .| P_rexb);
    ItabEntry UD_Ifnstenv O_M O_NONE O_NONE (P_aso .| P_rexr .| P_rexx .| P_rexb);
    ItabEntry UD_Ifnstcw O_Mw O_NONE O_NONE (P_aso .| P_rexr .| P_rexx .| P_rexb);
    ItabEntry UD_Ifld O_ST0 O_NONE O_NONE P_none;
    ItabEntry UD_Ifld O_ST1 O_NONE O_NONE P_none;
    ItabEntry UD_Ifld O_ST2 O_NONE O_NONE P_none;
    ItabEntry UD_Ifld O_ST3 O_NONE O_NONE P_none;
    ItabEntry UD_Ifld O_ST4 O_NONE O_NONE P_none;
    ItabEntry UD_Ifld O_ST5 O_NONE O_NONE P_none;
    ItabEntry UD_Ifld O_ST6 O_NONE O_NONE P_none;
    ItabEntry UD_Ifld O_ST7 O_NONE O_NONE P_none;
    ItabEntry UD_Ifxch O_ST0 O_ST0 O_NONE P_none;
    ItabEntry UD_Ifxch O_ST0 O_ST1 O_NONE P_none;
    ItabEntry UD_Ifxch O_ST0 O_ST2 O_NONE P_none;
    ItabEntry UD_Ifxch O_ST0 O_ST3 O_NONE P_none;
    ItabEntry UD_Ifxch O_ST0 O_ST4 O_NONE P_none;
    ItabEntry UD_Ifxch O_ST0 O_ST5 O_NONE P_none;
    ItabEntry UD_Ifxch O_ST0 O_ST6 O_NONE P_none;
    ItabEntry UD_Ifxch O_ST0 O_ST7 O_NONE P_none;
    ItabEntry UD_Ifnop O_NONE O_NONE O_NONE P_none;
    ItabEntry UD_Ifstp1 O_ST0 O_NONE O_NONE P_none;
    ItabEntry UD_Ifstp1 O_ST1 O_NONE O_NONE P_none;
    ItabEntry UD_Ifstp1 O_ST2 O_NONE O_NONE P_none;
    ItabEntry UD_Ifstp1 O_ST3 O_NONE O_NONE P_none;
    ItabEntry UD_Ifstp1 O_ST4 O_NONE O_NONE P_none;
    ItabEntry UD_Ifstp1 O_ST5 O_NONE O_NONE P_none;
    ItabEntry UD_Ifstp1 O_ST6 O_NONE O_NONE P_none;
    ItabEntry UD_Ifstp1 O_ST7 O_NONE O_NONE P_none;
    ItabEntry UD_Ifchs O_NONE O_NONE O_NONE P_none;
    ItabEntry UD_Ifabs O_NONE O_NONE O_NONE P_none;
    ItabEntry UD_Iftst O_NONE O_NONE O_NONE P_none;
    ItabEntry UD_Ifxam O_NONE O_NONE O_NONE P_none;
    ItabEntry UD_Ifld1 O_NONE O_NONE O_NONE P_none;
    ItabEntry UD_Ifldl2t O_NONE O_NONE O_NONE P_none;
    ItabEntry UD_Ifldl2e O_NONE O_NONE O_NONE P_none;
    ItabEntry UD_Ifldpi O_NONE O_NONE O_NONE P_none;
    ItabEntry UD_Ifldlg2 O_NONE O_NONE O_NONE P_none;
    ItabEntry UD_Ifldln2 O_NONE O_NONE O_NONE P_none;
    ItabEntry UD_Ifldz O_NONE O_NONE O_NONE P_none;
    ItabEntry UD_If2xm1 O_NONE O_NONE O_NONE P_none;
    ItabEntry UD_Ifyl2x O_NONE O_NONE O_NONE P_none;
    ItabEntry UD_Ifptan O_NONE O_NONE O_NONE P_none;
    ItabEntry UD_Ifpatan O_NONE O_NONE O_NONE P_none;
    ItabEntry UD_Ifxtract O_NONE O_NONE O_NONE P_none;
    ItabEntry UD_Ifprem1 O_NONE O_NONE O_NONE P_none;
    ItabEntry UD_Ifdecstp O_NONE O_NONE O_NONE P_none;
    ItabEntry UD_Ifincstp O_NONE O_NONE O_NONE P_none;
    ItabEntry UD_Ifprem O_NONE O_NONE O_NONE P_none;
    ItabEntry UD_Ifyl2xp1 O_NONE O_NONE O_NONE P_none;
    ItabEntry UD_Ifsqrt O_NONE O_NONE O_NONE P_none;
    ItabEntry UD_Ifsincos O_NONE O_NONE O_NONE P_none;
    ItabEntry UD_Ifrndint O_NONE O_NONE O_NONE P_none;
    ItabEntry UD_Ifscale O_NONE O_NONE O_NONE P_none;
    ItabEntry UD_Ifsin O_NONE O_NONE O_NONE P_none;
    ItabEntry UD_Ifcos O_NONE O_NONE O_NONE P_none;
    ItabEntry UD_Ifiadd O_Md O_NONE O_NONE (P_aso .| P_rexr .| P_rexx .| P_rexb);
    ItabEntry UD_Ifimul O_Md O_NONE O_NONE (P_aso .| P_rexr .| P_rexx .| P_rexb);
    ItabEntry UD_Ificom O_Md O_NONE O_NONE (P_aso .| P_rexr .| P_rexx .| P_rexb);
    ItabEntry UD_Ificomp O_Md O_NONE O_NONE (P_aso .| P_rexr .| P_rexx .| P_rexb);
    ItabEntry UD_Ifisub O_Md O_NONE O_NONE (P_aso .| P_rexr .| P_rexx .| P_rexb);
    ItabEntry UD_Ifisubr O_Md O_NONE O_NONE (P_aso .| P_rexr .| P_rexx .| P_rexb);
    ItabEntry UD_Ifidiv O_Md O_NONE O_NONE (P_aso .| P_rexr .| P_rexx .| P_rexb);
    ItabEntry UD_Ifidivr O_Md O_NONE O_NONE (P_aso .| P_rexr .| P_rexx .| P_rexb);
    ItabEntry UD_Ifcmovb O_ST0 O_ST0 O_NONE P_none;
    ItabEntry UD_Ifcmovb O_ST0 O_ST1 O_NONE P_none;
    ItabEntry UD_Ifcmovb O_ST0 O_ST2 O_NONE P_none;
    ItabEntry UD_Ifcmovb O_ST0 O_ST3 O_NONE P_none;
    ItabEntry UD_Ifcmovb O_ST0 O_ST4 O_NONE P_none;
    ItabEntry UD_Ifcmovb O_ST0 O_ST5 O_NONE P_none;
    ItabEntry UD_Ifcmovb O_ST0 O_ST6 O_NONE P_none;
    ItabEntry UD_Ifcmovb O_ST0 O_ST7 O_NONE P_none;
    ItabEntry UD_Ifcmove O_ST0 O_ST0 O_NONE P_none;
    ItabEntry UD_Ifcmove O_ST0 O_ST1 O_NONE P_none;
    ItabEntry UD_Ifcmove O_ST0 O_ST2 O_NONE P_none;
    ItabEntry UD_Ifcmove O_ST0 O_ST3 O_NONE P_none;
    ItabEntry UD_Ifcmove O_ST0 O_ST4 O_NONE P_none;
    ItabEntry UD_Ifcmove O_ST0 O_ST5 O_NONE P_none;
    ItabEntry UD_Ifcmove O_ST0 O_ST6 O_NONE P_none;
    ItabEntry UD_Ifcmove O_ST0 O_ST7 O_NONE P_none;
    ItabEntry UD_Ifcmovbe O_ST0 O_ST0 O_NONE P_none;
    ItabEntry UD_Ifcmovbe O_ST0 O_ST1 O_NONE P_none;
    ItabEntry UD_Ifcmovbe O_ST0 O_ST2 O_NONE P_none;
    ItabEntry UD_Ifcmovbe O_ST0 O_ST3 O_NONE P_none;
    ItabEntry UD_Ifcmovbe O_ST0 O_ST4 O_NONE P_none;
    ItabEntry UD_Ifcmovbe O_ST0 O_ST5 O_NONE P_none;
    ItabEntry UD_Ifcmovbe O_ST0 O_ST6 O_NONE P_none;
    ItabEntry UD_Ifcmovbe O_ST0 O_ST7 O_NONE P_none;
    ItabEntry UD_Ifcmovu O_ST0 O_ST0 O_NONE P_none;
    ItabEntry UD_Ifcmovu O_ST0 O_ST1 O_NONE P_none;
    ItabEntry UD_Ifcmovu O_ST0 O_ST2 O_NONE P_none;
    ItabEntry UD_Ifcmovu O_ST0 O_ST3 O_NONE P_none;
    ItabEntry UD_Ifcmovu O_ST0 O_ST4 O_NONE P_none;
    ItabEntry UD_Ifcmovu O_ST0 O_ST5 O_NONE P_none;
    ItabEntry UD_Ifcmovu O_ST0 O_ST6 O_NONE P_none;
    ItabEntry UD_Ifcmovu O_ST0 O_ST7 O_NONE P_none;
    ItabEntry UD_Ifucompp O_NONE O_NONE O_NONE P_none;
    ItabEntry UD_Ifild O_Md O_NONE O_NONE (P_aso .| P_rexr .| P_rexx .| P_rexb);
    ItabEntry UD_Ifisttp O_Md O_NONE O_NONE (P_aso .| P_rexr .| P_rexx .| P_rexb);
    ItabEntry UD_Ifist O_Md O_NONE O_NONE (P_aso .| P_rexr .| P_rexx .| P_rexb);
    ItabEntry UD_Ifistp O_Md O_NONE O_NONE (P_aso .| P_rexr .| P_rexx .| P_rexb);
    ItabEntry UD_Ifld O_Mt O_NONE O_NONE (P_aso .| P_rexr .| P_rexx .| P_rexb);
    ItabEntry UD_Ifstp O_Mt O_NONE O_NONE (P_aso .| P_rexr .| P_rexx .| P_rexb);
    ItabEntry UD_Ifcmovnb O_ST0 O_ST0 O_NONE P_none;
    ItabEntry UD_Ifcmovnb O_ST0 O_ST1 O_NONE P_none;
    ItabEntry UD_Ifcmovnb O_ST0 O_ST2 O_NONE P_none;
    ItabEntry UD_Ifcmovnb O_ST0 O_ST3 O_NONE P_none;
    ItabEntry UD_Ifcmovnb O_ST0 O_ST4 O_NONE P_none;
    ItabEntry UD_Ifcmovnb O_ST0 O_ST5 O_NONE P_none;
    ItabEntry UD_Ifcmovnb O_ST0 O_ST6 O_NONE P_none;
    ItabEntry UD_Ifcmovnb O_ST0 O_ST7 O_NONE P_none;
    ItabEntry UD_Ifcmovne O_ST0 O_ST0 O_NONE P_none;
    ItabEntry UD_Ifcmovne O_ST0 O_ST1 O_NONE P_none;
    ItabEntry UD_Ifcmovne O_ST0 O_ST2 O_NONE P_none;
    ItabEntry UD_Ifcmovne O_ST0 O_ST3 O_NONE P_none;
    ItabEntry UD_Ifcmovne O_ST0 O_ST4 O_NONE P_none;
    ItabEntry UD_Ifcmovne O_ST0 O_ST5 O_NONE P_none;
    ItabEntry UD_Ifcmovne O_ST0 O_ST6 O_NONE P_none;
    ItabEntry UD_Ifcmovne O_ST0 O_ST7 O_NONE P_none;
    ItabEntry UD_Ifcmovnbe O_ST0 O_ST0 O_NONE P_none;
    ItabEntry UD_Ifcmovnbe O_ST0 O_ST1 O_NONE P_none;
    ItabEntry UD_Ifcmovnbe O_ST0 O_ST2 O_NONE P_none;
    ItabEntry UD_Ifcmovnbe O_ST0 O_ST3 O_NONE P_none;
    ItabEntry UD_Ifcmovnbe O_ST0 O_ST4 O_NONE P_none;
    ItabEntry UD_Ifcmovnbe O_ST0 O_ST5 O_NONE P_none;
    ItabEntry UD_Ifcmovnbe O_ST0 O_ST6 O_NONE P_none;
    ItabEntry UD_Ifcmovnbe O_ST0 O_ST7 O_NONE P_none;
    ItabEntry UD_Ifcmovnu O_ST0 O_ST0 O_NONE P_none;
    ItabEntry UD_Ifcmovnu O_ST0 O_ST1 O_NONE P_none;
    ItabEntry UD_Ifcmovnu O_ST0 O_ST2 O_NONE P_none;
    ItabEntry UD_Ifcmovnu O_ST0 O_ST3 O_NONE P_none;
    ItabEntry UD_Ifcmovnu O_ST0 O_ST4 O_NONE P_none;
    ItabEntry UD_Ifcmovnu O_ST0 O_ST5 O_NONE P_none;
    ItabEntry UD_Ifcmovnu O_ST0 O_ST6 O_NONE P_none;
    ItabEntry UD_Ifcmovnu O_ST0 O_ST7 O_NONE P_none;
    ItabEntry UD_Ifclex O_NONE O_NONE O_NONE P_none;
    ItabEntry UD_Ifninit O_NONE O_NONE O_NONE P_none;
    ItabEntry UD_Ifucomi O_ST0 O_ST0 O_NONE P_none;
    ItabEntry UD_Ifucomi O_ST0 O_ST1 O_NONE P_none;
    ItabEntry UD_Ifucomi O_ST0 O_ST2 O_NONE P_none;
    ItabEntry UD_Ifucomi O_ST0 O_ST3 O_NONE P_none;
    ItabEntry UD_Ifucomi O_ST0 O_ST4 O_NONE P_none;
    ItabEntry UD_Ifucomi O_ST0 O_ST5 O_NONE P_none;
    ItabEntry UD_Ifucomi O_ST0 O_ST6 O_NONE P_none;
    ItabEntry UD_Ifucomi O_ST0 O_ST7 O_NONE P_none;
    ItabEntry UD_Ifcomi O_ST0 O_ST0 O_NONE P_none;
    ItabEntry UD_Ifcomi O_ST0 O_ST1 O_NONE P_none;
    ItabEntry UD_Ifcomi O_ST0 O_ST2 O_NONE P_none;
    ItabEntry UD_Ifcomi O_ST0 O_ST3 O_NONE P_none;
    ItabEntry UD_Ifcomi O_ST0 O_ST4 O_NONE P_none;
    ItabEntry UD_Ifcomi O_ST0 O_ST5 O_NONE P_none;
    ItabEntry UD_Ifcomi O_ST0 O_ST6 O_NONE P_none;
    ItabEntry UD_Ifcomi O_ST0 O_ST7 O_NONE P_none;
    ItabEntry UD_Ifadd O_Mq O_NONE O_NONE (P_aso .| P_rexr .| P_rexx .| P_rexb);
    ItabEntry UD_Ifmul O_Mq O_NONE O_NONE (P_aso .| P_rexr .| P_rexx .| P_rexb);
    ItabEntry UD_Ifcom O_Mq O_NONE O_NONE (P_aso .| P_rexr .| P_rexx .| P_rexb);
    ItabEntry UD_Ifcomp O_Mq O_NONE O_NONE (P_aso .| P_rexr .| P_rexx .| P_rexb);
    ItabEntry UD_Ifsub O_Mq O_NONE O_NONE (P_aso .| P_rexr .| P_rexx .| P_rexb);
    ItabEntry UD_Ifsubr O_Mq O_NONE O_NONE (P_aso .| P_rexr .| P_rexx .| P_rexb);
    ItabEntry UD_Ifdiv O_Mq O_NONE O_NONE (P_aso .| P_rexr .| P_rexx .| P_rexb);
    ItabEntry UD_Ifdivr O_Mq O_NONE O_NONE (P_aso .| P_rexr .| P_rexx .| P_rexb);
    ItabEntry UD_Ifadd O_ST0 O_ST0 O_NONE P_none;
    ItabEntry UD_Ifadd O_ST1 O_ST0 O_NONE P_none;
    ItabEntry UD_Ifadd O_ST2 O_ST0 O_NONE P_none;
    ItabEntry UD_Ifadd O_ST3 O_ST0 O_NONE P_none;
    ItabEntry UD_Ifadd O_ST4 O_ST0 O_NONE P_none;
    ItabEntry UD_Ifadd O_ST5 O_ST0 O_NONE P_none;
    ItabEntry UD_Ifadd O_ST6 O_ST0 O_NONE P_none;
    ItabEntry UD_Ifadd O_ST7 O_ST0 O_NONE P_none;
    ItabEntry UD_Ifmul O_ST0 O_ST0 O_NONE P_none;
    ItabEntry UD_Ifmul O_ST1 O_ST0 O_NONE P_none;
    ItabEntry UD_Ifmul O_ST2 O_ST0 O_NONE P_none;
    ItabEntry UD_Ifmul O_ST3 O_ST0 O_NONE P_none;
    ItabEntry UD_Ifmul O_ST4 O_ST0 O_NONE P_none;
    ItabEntry UD_Ifmul O_ST5 O_ST0 O_NONE P_none;
    ItabEntry UD_Ifmul O_ST6 O_ST0 O_NONE P_none;
    ItabEntry UD_Ifmul O_ST7 O_ST0 O_NONE P_none;
    ItabEntry UD_Ifcom2 O_ST0 O_NONE O_NONE P_none;
    ItabEntry UD_Ifcom2 O_ST1 O_NONE O_NONE P_none;
    ItabEntry UD_Ifcom2 O_ST2 O_NONE O_NONE P_none;
    ItabEntry UD_Ifcom2 O_ST3 O_NONE O_NONE P_none;
    ItabEntry UD_Ifcom2 O_ST4 O_NONE O_NONE P_none;
    ItabEntry UD_Ifcom2 O_ST5 O_NONE O_NONE P_none;
    ItabEntry UD_Ifcom2 O_ST6 O_NONE O_NONE P_none;
    ItabEntry UD_Ifcom2 O_ST7 O_NONE O_NONE P_none;
    ItabEntry UD_Ifcomp3 O_ST0 O_NONE O_NONE P_none;
    ItabEntry UD_Ifcomp3 O_ST1 O_NONE O_NONE P_none;
    ItabEntry UD_Ifcomp3 O_ST2 O_NONE O_NONE P_none;
    ItabEntry UD_Ifcomp3 O_ST3 O_NONE O_NONE P_none;
    ItabEntry UD_Ifcomp3 O_ST4 O_NONE O_NONE P_none;
    ItabEntry UD_Ifcomp3 O_ST5 O_NONE O_NONE P_none;
    ItabEntry UD_Ifcomp3 O_ST6 O_NONE O_NONE P_none;
    ItabEntry UD_Ifcomp3 O_ST7 O_NONE O_NONE P_none;
    ItabEntry UD_Ifsubr O_ST0 O_ST0 O_NONE P_none;
    ItabEntry UD_Ifsubr O_ST1 O_ST0 O_NONE P_none;
    ItabEntry UD_Ifsubr O_ST2 O_ST0 O_NONE P_none;
    ItabEntry UD_Ifsubr O_ST3 O_ST0 O_NONE P_none;
    ItabEntry UD_Ifsubr O_ST4 O_ST0 O_NONE P_none;
    ItabEntry UD_Ifsubr O_ST5 O_ST0 O_NONE P_none;
    ItabEntry UD_Ifsubr O_ST6 O_ST0 O_NONE P_none;
    ItabEntry UD_Ifsubr O_ST7 O_ST0 O_NONE P_none;
    ItabEntry UD_Ifsub O_ST0 O_ST0 O_NONE P_none;
    ItabEntry UD_Ifsub O_ST1 O_ST0 O_NONE P_none;
    ItabEntry UD_Ifsub O_ST2 O_ST0 O_NONE P_none;
    ItabEntry UD_Ifsub O_ST3 O_ST0 O_NONE P_none;
    ItabEntry UD_Ifsub O_ST4 O_ST0 O_NONE P_none;
    ItabEntry UD_Ifsub O_ST5 O_ST0 O_NONE P_none;
    ItabEntry UD_Ifsub O_ST6 O_ST0 O_NONE P_none;
    ItabEntry UD_Ifsub O_ST7 O_ST0 O_NONE P_none;
    ItabEntry UD_Ifdivr O_ST0 O_ST0 O_NONE P_none;
    ItabEntry UD_Ifdivr O_ST1 O_ST0 O_NONE P_none;
    ItabEntry UD_Ifdivr O_ST2 O_ST0 O_NONE P_none;
    ItabEntry UD_Ifdivr O_ST3 O_ST0 O_NONE P_none;
    ItabEntry UD_Ifdivr O_ST4 O_ST0 O_NONE P_none;
    ItabEntry UD_Ifdivr O_ST5 O_ST0 O_NONE P_none;
    ItabEntry UD_Ifdivr O_ST6 O_ST0 O_NONE P_none;
    ItabEntry UD_Ifdivr O_ST7 O_ST0 O_NONE P_none;
    ItabEntry UD_Ifdiv O_ST0 O_ST0 O_NONE P_none;
    ItabEntry UD_Ifdiv O_ST1 O_ST0 O_NONE P_none;
    ItabEntry UD_Ifdiv O_ST2 O_ST0 O_NONE P_none;
    ItabEntry UD_Ifdiv O_ST3 O_ST0 O_NONE P_none;
    ItabEntry UD_Ifdiv O_ST4 O_ST0 O_NONE P_none;
    ItabEntry UD_Ifdiv O_ST5 O_ST0 O_NONE P_none;
    ItabEntry UD_Ifdiv O_ST6 O_ST0 O_NONE P_none;
    ItabEntry UD_Ifdiv O_ST7 O_ST0 O_NONE P_none;
    ItabEntry UD_Ifld O_Mq O_NONE O_NONE (P_aso .| P_rexr .| P_rexx .| P_rexb);
    ItabEntry UD_Ifisttp O_Mq O_NONE O_NONE (P_aso .| P_rexr .| P_rexx .| P_rexb);
    ItabEntry UD_Ifst O_Mq O_NONE O_NONE (P_aso .| P_rexr .| P_rexx .| P_rexb);
    ItabEntry UD_Ifstp O_Mq O_NONE O_NONE (P_aso .| P_rexr .| P_rexx .| P_rexb);
    ItabEntry UD_Ifrstor O_M O_NONE O_NONE (P_aso .| P_rexr .| P_rexx .| P_rexb);
    ItabEntry UD_Ifnsave O_M O_NONE O_NONE (P_aso .| P_rexr .| P_rexx .| P_rexb);
    ItabEntry UD_Ifnstsw O_Mw O_NONE O_NONE (P_aso .| P_rexr .| P_rexx .| P_rexb);
    ItabEntry UD_Iffree O_ST0 O_NONE O_NONE P_none;
    ItabEntry UD_Iffree O_ST1 O_NONE O_NONE P_none;
    ItabEntry UD_Iffree O_ST2 O_NONE O_NONE P_none;
    ItabEntry UD_Iffree O_ST3 O_NONE O_NONE P_none;
    ItabEntry UD_Iffree O_ST4 O_NONE O_NONE P_none;
    ItabEntry UD_Iffree O_ST5 O_NONE O_NONE P_none;
    ItabEntry UD_Iffree O_ST6 O_NONE O_NONE P_none;
    ItabEntry UD_Iffree O_ST7 O_NONE O_NONE P_none;
    ItabEntry UD_Ifxch4 O_ST0 O_NONE O_NONE P_none;
    ItabEntry UD_Ifxch4 O_ST1 O_NONE O_NONE P_none;
    ItabEntry UD_Ifxch4 O_ST2 O_NONE O_NONE P_none;
    ItabEntry UD_Ifxch4 O_ST3 O_NONE O_NONE P_none;
    ItabEntry UD_Ifxch4 O_ST4 O_NONE O_NONE P_none;
    ItabEntry UD_Ifxch4 O_ST5 O_NONE O_NONE P_none;
    ItabEntry UD_Ifxch4 O_ST6 O_NONE O_NONE P_none;
    ItabEntry UD_Ifxch4 O_ST7 O_NONE O_NONE P_none;
    ItabEntry UD_Ifst O_ST0 O_NONE O_NONE P_none;
    ItabEntry UD_Ifst O_ST1 O_NONE O_NONE P_none;
    ItabEntry UD_Ifst O_ST2 O_NONE O_NONE P_none;
    ItabEntry UD_Ifst O_ST3 O_NONE O_NONE P_none;
    ItabEntry UD_Ifst O_ST4 O_NONE O_NONE P_none;
    ItabEntry UD_Ifst O_ST5 O_NONE O_NONE P_none;
    ItabEntry UD_Ifst O_ST6 O_NONE O_NONE P_none;
    ItabEntry UD_Ifst O_ST7 O_NONE O_NONE P_none;
    ItabEntry UD_Ifstp O_ST0 O_NONE O_NONE P_none;
    ItabEntry UD_Ifstp O_ST1 O_NONE O_NONE P_none;
    ItabEntry UD_Ifstp O_ST2 O_NONE O_NONE P_none;
    ItabEntry UD_Ifstp O_ST3 O_NONE O_NONE P_none;
    ItabEntry UD_Ifstp O_ST4 O_NONE O_NONE P_none;
    ItabEntry UD_Ifstp O_ST5 O_NONE O_NONE P_none;
    ItabEntry UD_Ifstp O_ST6 O_NONE O_NONE P_none;
    ItabEntry UD_Ifstp O_ST7 O_NONE O_NONE P_none;
    ItabEntry UD_Ifucom O_ST0 O_NONE O_NONE P_none;
    ItabEntry UD_Ifucom O_ST1 O_NONE O_NONE P_none;
    ItabEntry UD_Ifucom O_ST2 O_NONE O_NONE P_none;
    ItabEntry UD_Ifucom O_ST3 O_NONE O_NONE P_none;
    ItabEntry UD_Ifucom O_ST4 O_NONE O_NONE P_none;
    ItabEntry UD_Ifucom O_ST5 O_NONE O_NONE P_none;
    ItabEntry UD_Ifucom O_ST6 O_NONE O_NONE P_none;
    ItabEntry UD_Ifucom O_ST7 O_NONE O_NONE P_none;
    ItabEntry UD_Ifucomp O_ST0 O_NONE O_NONE P_none;
    ItabEntry UD_Ifucomp O_ST1 O_NONE O_NONE P_none;
    ItabEntry UD_Ifucomp O_ST2 O_NONE O_NONE P_none;
    ItabEntry UD_Ifucomp O_ST3 O_NONE O_NONE P_none;
    ItabEntry UD_Ifucomp O_ST4 O_NONE O_NONE P_none;
    ItabEntry UD_Ifucomp O_ST5 O_NONE O_NONE P_none;
    ItabEntry UD_Ifucomp O_ST6 O_NONE O_NONE P_none;
    ItabEntry UD_Ifucomp O_ST7 O_NONE O_NONE P_none;
    ItabEntry UD_Ifiadd O_Mw O_NONE O_NONE (P_aso .| P_rexr .| P_rexx .| P_rexb);
    ItabEntry UD_Ifimul O_Mw O_NONE O_NONE (P_aso .| P_rexr .| P_rexx .| P_rexb);
    ItabEntry UD_Ificom O_Mw O_NONE O_NONE (P_aso .| P_rexr .| P_rexx .| P_rexb);
    ItabEntry UD_Ificomp O_Mw O_NONE O_NONE (P_aso .| P_rexr .| P_rexx .| P_rexb);
    ItabEntry UD_Ifisub O_Mw O_NONE O_NONE (P_aso .| P_rexr .| P_rexx .| P_rexb);
    ItabEntry UD_Ifisubr O_Mw O_NONE O_NONE (P_aso .| P_rexr .| P_rexx .| P_rexb);
    ItabEntry UD_Ifidiv O_Mw O_NONE O_NONE (P_aso .| P_rexr .| P_rexx .| P_rexb);
    ItabEntry UD_Ifidivr O_Mw O_NONE O_NONE (P_aso .| P_rexr .| P_rexx .| P_rexb);
    ItabEntry UD_Ifaddp O_ST0 O_ST0 O_NONE P_none;
    ItabEntry UD_Ifaddp O_ST1 O_ST0 O_NONE P_none;
    ItabEntry UD_Ifaddp O_ST2 O_ST0 O_NONE P_none;
    ItabEntry UD_Ifaddp O_ST3 O_ST0 O_NONE P_none;
    ItabEntry UD_Ifaddp O_ST4 O_ST0 O_NONE P_none;
    ItabEntry UD_Ifaddp O_ST5 O_ST0 O_NONE P_none;
    ItabEntry UD_Ifaddp O_ST6 O_ST0 O_NONE P_none;
    ItabEntry UD_Ifaddp O_ST7 O_ST0 O_NONE P_none;
    ItabEntry UD_Ifmulp O_ST0 O_ST0 O_NONE P_none;
    ItabEntry UD_Ifmulp O_ST1 O_ST0 O_NONE P_none;
    ItabEntry UD_Ifmulp O_ST2 O_ST0 O_NONE P_none;
    ItabEntry UD_Ifmulp O_ST3 O_ST0 O_NONE P_none;
    ItabEntry UD_Ifmulp O_ST4 O_ST0 O_NONE P_none;
    ItabEntry UD_Ifmulp O_ST5 O_ST0 O_NONE P_none;
    ItabEntry UD_Ifmulp O_ST6 O_ST0 O_NONE P_none;
    ItabEntry UD_Ifmulp O_ST7 O_ST0 O_NONE P_none;
    ItabEntry UD_Ifcomp5 O_ST0 O_NONE O_NONE P_none;
    ItabEntry UD_Ifcomp5 O_ST1 O_NONE O_NONE P_none;
    ItabEntry UD_Ifcomp5 O_ST2 O_NONE O_NONE P_none;
    ItabEntry UD_Ifcomp5 O_ST3 O_NONE O_NONE P_none;
    ItabEntry UD_Ifcomp5 O_ST4 O_NONE O_NONE P_none;
    ItabEntry UD_Ifcomp5 O_ST5 O_NONE O_NONE P_none;
    ItabEntry UD_Ifcomp5 O_ST6 O_NONE O_NONE P_none;
    ItabEntry UD_Ifcomp5 O_ST7 O_NONE O_NONE P_none;
    ItabEntry UD_Ifcompp O_NONE O_NONE O_NONE P_none;
    ItabEntry UD_Ifsubrp O_ST0 O_ST0 O_NONE P_none;
    ItabEntry UD_Ifsubrp O_ST1 O_ST0 O_NONE P_none;
    ItabEntry UD_Ifsubrp O_ST2 O_ST0 O_NONE P_none;
    ItabEntry UD_Ifsubrp O_ST3 O_ST0 O_NONE P_none;
    ItabEntry UD_Ifsubrp O_ST4 O_ST0 O_NONE P_none;
    ItabEntry UD_Ifsubrp O_ST5 O_ST0 O_NONE P_none;
    ItabEntry UD_Ifsubrp O_ST6 O_ST0 O_NONE P_none;
    ItabEntry UD_Ifsubrp O_ST7 O_ST0 O_NONE P_none;
    ItabEntry UD_Ifsubp O_ST0 O_ST0 O_NONE P_none;
    ItabEntry UD_Ifsubp O_ST1 O_ST0 O_NONE P_none;
    ItabEntry UD_Ifsubp O_ST2 O_ST0 O_NONE P_none;
    ItabEntry UD_Ifsubp O_ST3 O_ST0 O_NONE P_none;
    ItabEntry UD_Ifsubp O_ST4 O_ST0 O_NONE P_none;
    ItabEntry UD_Ifsubp O_ST5 O_ST0 O_NONE P_none;
    ItabEntry UD_Ifsubp O_ST6 O_ST0 O_NONE P_none;
    ItabEntry UD_Ifsubp O_ST7 O_ST0 O_NONE P_none;
    ItabEntry UD_Ifdivrp O_ST0 O_ST0 O_NONE P_none;
    ItabEntry UD_Ifdivrp O_ST1 O_ST0 O_NONE P_none;
    ItabEntry UD_Ifdivrp O_ST2 O_ST0 O_NONE P_none;
    ItabEntry UD_Ifdivrp O_ST3 O_ST0 O_NONE P_none;
    ItabEntry UD_Ifdivrp O_ST4 O_ST0 O_NONE P_none;
    ItabEntry UD_Ifdivrp O_ST5 O_ST0 O_NONE P_none;
    ItabEntry UD_Ifdivrp O_ST6 O_ST0 O_NONE P_none;
    ItabEntry UD_Ifdivrp O_ST7 O_ST0 O_NONE P_none;
    ItabEntry UD_Ifdivp O_ST0 O_ST0 O_NONE P_none;
    ItabEntry UD_Ifdivp O_ST1 O_ST0 O_NONE P_none;
    ItabEntry UD_Ifdivp O_ST2 O_ST0 O_NONE P_none;
    ItabEntry UD_Ifdivp O_ST3 O_ST0 O_NONE P_none;
    ItabEntry UD_Ifdivp O_ST4 O_ST0 O_NONE P_none;
    ItabEntry UD_Ifdivp O_ST5 O_ST0 O_NONE P_none;
    ItabEntry UD_Ifdivp O_ST6 O_ST0 O_NONE P_none;
    ItabEntry UD_Ifdivp O_ST7 O_ST0 O_NONE P_none;
    ItabEntry UD_Ifild O_Mw O_NONE O_NONE (P_aso .| P_rexr .| P_rexx .| P_rexb);
    ItabEntry UD_Ifisttp O_Mw O_NONE O_NONE (P_aso .| P_rexr .| P_rexx .| P_rexb);
    ItabEntry UD_Ifist O_Mw O_NONE O_NONE (P_aso .| P_rexr .| P_rexx .| P_rexb);
    ItabEntry UD_Ifistp O_Mw O_NONE O_NONE (P_aso .| P_rexr .| P_rexx .| P_rexb);
    ItabEntry UD_Ifbld O_Mt O_NONE O_NONE (P_aso .| P_rexr .| P_rexx .| P_rexb);
    ItabEntry UD_Ifild O_Mq O_NONE O_NONE (P_aso .| P_rexr .| P_rexx .| P_rexb);
    ItabEntry UD_Ifbstp O_Mt O_NONE O_NONE (P_aso .| P_rexr .| P_rexx .| P_rexb);
    ItabEntry UD_Ifistp O_Mq O_NONE O_NONE (P_aso .| P_rexr .| P_rexx .| P_rexb);
    ItabEntry UD_Iffreep O_ST0 O_NONE O_NONE P_none;
    ItabEntry UD_Iffreep O_ST1 O_NONE O_NONE P_none;
    ItabEntry UD_Iffreep O_ST2 O_NONE O_NONE P_none;
    ItabEntry UD_Iffreep O_ST3 O_NONE O_NONE P_none;
    ItabEntry UD_Iffreep O_ST4 O_NONE O_NONE P_none;
    ItabEntry UD_Iffreep O_ST5 O_NONE O_NONE P_none;
    ItabEntry UD_Iffreep O_ST6 O_NONE O_NONE P_none;
    ItabEntry UD_Iffreep O_ST7 O_NONE O_NONE P_none;
    ItabEntry UD_Ifxch7 O_ST0 O_NONE O_NONE P_none;
    ItabEntry UD_Ifxch7 O_ST1 O_NONE O_NONE P_none;
    ItabEntry UD_Ifxch7 O_ST2 O_NONE O_NONE P_none;
    ItabEntry UD_Ifxch7 O_ST3 O_NONE O_NONE P_none;
    ItabEntry UD_Ifxch7 O_ST4 O_NONE O_NONE P_none;
    ItabEntry UD_Ifxch7 O_ST5 O_NONE O_NONE P_none;
    ItabEntry UD_Ifxch7 O_ST6 O_NONE O_NONE P_none;
    ItabEntry UD_Ifxch7 O_ST7 O_NONE O_NONE P_none;
    ItabEntry UD_Ifstp8 O_ST0 O_NONE O_NONE P_none;
    ItabEntry UD_Ifstp8 O_ST1 O_NONE O_NONE P_none;
    ItabEntry UD_Ifstp8 O_ST2 O_NONE O_NONE P_none;
    ItabEntry UD_Ifstp8 O_ST3 O_NONE O_NONE P_none;
    ItabEntry UD_Ifstp8 O_ST4 O_NONE O_NONE P_none;
    ItabEntry UD_Ifstp8 O_ST5 O_NONE O_NONE P_none;
    ItabEntry UD_Ifstp8 O_ST6 O_NONE O_NONE P_none;
    ItabEntry UD_Ifstp8 O_ST7 O_NONE O_NONE P_none;
    ItabEntry UD_Ifstp9 O_ST0 O_NONE O_NONE P_none;
    ItabEntry UD_Ifstp9 O_ST1 O_NONE O_NONE P_none;
    ItabEntry UD_Ifstp9 O_ST2 O_NONE O_NONE P_none;
    ItabEntry UD_Ifstp9 O_ST3 O_NONE O_NONE P_none;
    ItabEntry UD_Ifstp9 O_ST4 O_NONE O_NONE P_none;
    ItabEntry UD_Ifstp9 O_ST5 O_NONE O_NONE P_none;
    ItabEntry UD_Ifstp9 O_ST6 O_NONE O_NONE P_none;
    ItabEntry UD_Ifstp9 O_ST7 O_NONE O_NONE P_none;
    ItabEntry UD_Ifnstsw O_AX O_NONE O_NONE P_none;
    ItabEntry UD_Ifucomip O_ST0 O_ST0 O_NONE P_none;
    ItabEntry UD_Ifucomip O_ST0 O_ST1 O_NONE P_none;
    ItabEntry UD_Ifucomip O_ST0 O_ST2 O_NONE P_none;
    ItabEntry UD_Ifucomip O_ST0 O_ST3 O_NONE P_none;
    ItabEntry UD_Ifucomip O_ST0 O_ST4 O_NONE P_none;
    ItabEntry UD_Ifucomip O_ST0 O_ST5 O_NONE P_none;
    ItabEntry UD_Ifucomip O_ST0 O_ST6 O_NONE P_none;
    ItabEntry UD_Ifucomip O_ST0 O_ST7 O_NONE P_none;
    ItabEntry UD_Ifcomip O_ST0 O_ST0 O_NONE P_none;
    ItabEntry UD_Ifcomip O_ST0 O_ST1 O_NONE P_none;
    ItabEntry UD_Ifcomip O_ST0 O_ST2 O_NONE P_none;
    ItabEntry UD_Ifcomip O_ST0 O_ST3 O_NONE P_none;
    ItabEntry UD_Ifcomip O_ST0 O_ST4 O_NONE P_none;
    ItabEntry UD_Ifcomip O_ST0 O_ST5 O_NONE P_none;
    ItabEntry UD_Ifcomip O_ST0 O_ST6 O_NONE P_none;
    ItabEntry UD_Ifcomip O_ST0 O_ST7 O_NONE P_none;
    ItabEntry UD_Iloopne O_Jb O_NONE O_NONE P_none;
    ItabEntry UD_Iloope O_Jb O_NONE O_NONE P_none;
    ItabEntry UD_Iloop O_Jb O_NONE O_NONE P_none;
    ItabEntry UD_Ijcxz O_Jb O_NONE O_NONE P_aso;
    ItabEntry UD_Ijecxz O_Jb O_NONE O_NONE P_aso;
    ItabEntry UD_Ijrcxz O_Jb O_NONE O_NONE P_aso;
    ItabEntry UD_Iin O_AL O_Ib O_NONE P_none;
    ItabEntry UD_Iin O_eAX O_Ib O_NONE P_oso;
    ItabEntry UD_Iout O_Ib O_AL O_NONE P_none;
    ItabEntry UD_Iout O_Ib O_eAX O_NONE P_oso;
    ItabEntry UD_Icall O_Jz O_NONE O_NONE (P_oso .| P_def64);
    ItabEntry UD_Ijmp O_Jz O_NONE O_NONE (P_oso .| P_def64);
    ItabEntry UD_Ijmp O_Av O_NONE O_NONE P_oso;
    ItabEntry UD_Ijmp O_Jb O_NONE O_NONE P_def64;
    ItabEntry UD_Iin O_AL O_DX O_NONE P_none;
    ItabEntry UD_Iin O_eAX O_DX O_NONE P_oso;
    ItabEntry UD_Iout O_DX O_AL O_NONE P_none;
    ItabEntry UD_Iout O_DX O_eAX O_NONE P_oso;
    ItabEntry UD_Ilock O_NONE O_NONE O_NONE P_none;
    ItabEntry UD_Iint1 O_NONE O_NONE O_NONE P_none;
    ItabEntry UD_Irepne O_NONE O_NONE O_NONE P_none;
    ItabEntry UD_Irep O_NONE O_NONE O_NONE P_none;
    ItabEntry UD_Ihlt O_NONE O_NONE O_NONE P_none;
    ItabEntry UD_Icmc O_NONE O_NONE O_NONE P_none;
    ItabEntry UD_Itest O_Eb O_Ib O_NONE (P_aso .| P_rexw .| P_rexr .| P_rexx .| P_rexb);
    ItabEntry UD_Itest O_Eb O_Ib O_NONE (P_aso .| P_rexw .| P_rexr .| P_rexx .| P_rexb);
    ItabEntry UD_Inot O_Eb O_NONE O_NONE (P_aso .| P_rexw .| P_rexr .| P_rexx .| P_rexb);
    ItabEntry UD_Ineg O_Eb O_NONE O_NONE (P_aso .| P_rexw .| P_rexr .| P_rexx .| P_rexb);
    ItabEntry UD_Imul O_Eb O_NONE O_NONE (P_aso .| P_rexw .| P_rexr .| P_rexx .| P_rexb);
    ItabEntry UD_Iimul O_Eb O_NONE O_NONE (P_aso .| P_rexw .| P_rexr .| P_rexx .| P_rexb);
    ItabEntry UD_Idiv O_Eb O_NONE O_NONE (P_aso .| P_rexw .| P_rexr .| P_rexx .| P_rexb);
    ItabEntry UD_Iidiv O_Eb O_NONE O_NONE (P_aso .| P_rexw .| P_rexr .| P_rexx .| P_rexb);
    ItabEntry UD_Itest O_Ev O_sIz O_NONE (P_aso .| P_oso .| P_rexw .| P_rexr .| P_rexx .| P_rexb);
    ItabEntry UD_Itest O_Ev O_Iz O_NONE (P_aso .| P_oso .| P_rexw .| P_rexr .| P_rexx .| P_rexb);
    ItabEntry UD_Inot O_Ev O_NONE O_NONE (P_aso .| P_oso .| P_rexw .| P_rexr .| P_rexx .| P_rexb);
    ItabEntry UD_Ineg O_Ev O_NONE O_NONE (P_aso .| P_oso .| P_rexw .| P_rexr .| P_rexx .| P_rexb);
    ItabEntry UD_Imul O_Ev O_NONE O_NONE (P_aso .| P_oso .| P_rexw .| P_rexr .| P_rexx .| P_rexb);
    ItabEntry UD_Iimul O_Ev O_NONE O_NONE (P_aso .| P_oso .| P_rexw .| P_rexr .| P_rexx .| P_rexb);
    ItabEntry UD_Idiv O_Ev O_NONE O_NONE (P_aso .| P_oso .| P_rexw .| P_rexr .| P_rexx .| P_rexb);
    ItabEntry UD_Iidiv O_Ev O_NONE O_NONE (P_aso .| P_oso .| P_rexw .| P_rexr .| P_rexx .| P_rexb);
    ItabEntry UD_Iclc O_NONE O_NONE O_NONE P_none;
    ItabEntry UD_Istc O_NONE O_NONE O_NONE P_none;
    ItabEntry UD_Icli O_NONE O_NONE O_NONE P_none;
    ItabEntry UD_Isti O_NONE O_NONE O_NONE P_none;
    ItabEntry UD_Icld O_NONE O_NONE O_NONE P_none;
    ItabEntry UD_Istd O_NONE O_NONE O_NONE P_none;
    ItabEntry UD_Iinc O_Eb O_NONE O_NONE (P_aso .| P_rexw .| P_rexr .| P_rexx .| P_rexb);
    ItabEntry UD_Idec O_Eb O_NONE O_NONE (P_aso .| P_rexw .| P_rexr .| P_rexx .| P_rexb);
    ItabEntry UD_Iinc O_Ev O_NONE O_NONE (P_aso .| P_oso .| P_rexw .| P_rexr .| P_rexx .| P_rexb);
    ItabEntry UD_Idec O_Ev O_NONE O_NONE (P_aso .| P_oso .| P_rexw .| P_rexr .| P_rexx .| P_rexb);
    ItabEntry UD_Icall O_Ev O_NONE O_NONE (P_aso .| P_oso .| P_rexw .| P_rexr .| P_rexx .| P_rexb);
    ItabEntry UD_Icall O_Eq O_NONE O_NONE (P_aso .| P_oso .| P_rexw .| P_rexr .| P_rexx .| P_rexb .| P_def64);
    ItabEntry UD_Icall O_Fv O_NONE O_NONE (P_aso .| P_oso .| P_rexw .| P_rexr .| P_rexx .| P_rexb);
    ItabEntry UD_Ijmp O_Ev O_NONE O_NONE (P_aso .| P_oso .| P_rexw .| P_rexr .| P_rexx .| P_rexb .| P_def64);
    ItabEntry UD_Ijmp O_Fv O_NONE O_NONE (P_aso .| P_oso .| P_rexw .| P_rexr .| P_rexx .| P_rexb);
    ItabEntry UD_Ipush O_Ev O_NONE O_NONE (P_aso .| P_oso .| P_rexw .| P_rexr .| P_rexx .| P_rexb .| P_def64)].

Definition ud_mnemonics_str : list string :=
  [ "invalid"; "3dnow"; "none"; "db"; "pause"; "aaa"; "aad"; "aam"; "aas"; "adc"; "add"; "addpd";
    "addps"; "addsd"; "addss"; "and"; "andpd"; "andps"; "andnpd"; "andnps"; "arpl"; "movsxd";
    "bound"; "bsf"; "bsr"; "bswap"; "bt"; "btc"; "btr"; "bts"; "call"; "cbw"; "cwde"; "cdqe";
    "clc"; "cld"; "clflush"; "clgi"; "cli"; "clts"; "cmc"; "cmovo"; "cmovno"; "cmovb"; "cmovae";
    "cmovz"; "cmovnz"; "cmovbe"; "cmova"; "cmovs"; "cmovns"; "cmovp"; "cmovnp"; "cmovl"; "cmovge";
    "cmovle"; "cmovg"; "cmp"; "cmppd"; "cmpps"; "cmpsb"; "cmpsw"; "cmpsd"; "cmpsq"; "cmpss";
    "cmpxchg"; "cmpxchg8b"; "cmpxchg16b"; "comisd"; "comiss"; "cpuid"; "cvtdq2pd"; "cvtdq2ps";
    "cvtpd2dq"; "cvtpd2pi"; "cvtpd2ps"; "cvtpi2ps"; "cvtpi2pd"; "cvtps2dq"; "cvtps2pi"; "cvtps2pd";
    "cvtsd2si"; "cvtsd2ss"; "cvtsi2ss"; "cvtss2si"; "cvtss2sd"; "cvttpd2pi"; "cvttpd2dq";
    "cvttps2dq"; "cvttps2pi"; "cvttsd2si"; "cvtsi2sd"; "cvttss2si"; "cwd"; "cdq"; "cqo"; "daa";
    "das"; "dec"; "div"; "divpd"; "divps"; "divsd"; "divss"; "emms"; "enter"; "f2xm1"; "fabs";
    "fadd"; "faddp"; "fbld"; "fbstp"; "fchs"; "fclex"; "fcmovb"; "fcmove"; "fcmovbe"; "fcmovu";
    "fcmovnb"; "fcmovne"; "fcmovnbe"; "fcmovnu"; "fucomi"; "fcom"; "fcom2"; "fcomp3"; "fcomi";
    "fucomip"; "fcomip"; "fcomp"; "fcomp5"; "fcompp"; "fcos"; "fdecstp"; "fdiv"; "fdivp"; "fdivr";
    "fdivrp"; "femms"; "ffree"; "ffreep"; "ficom"; "ficomp"; "fild"; "fincstp"; "fninit"; "fiadd";
    "fidivr"; "fidiv"; "fisub"; "fisubr"; "fist"; "fistp"; "fisttp"; "fld"; "fld1"; "fldl2t";
    "fldl2e"; "fldpi"; "fldlg2"; "fldln2"; "fldz"; "fldcw"; "fldenv"; "fmul"; "fmulp"; "fimul";
    "fnop"; "fpatan"; "fprem"; "fprem1"; "fptan"; "frndint"; "frstor"; "fnsave"; "fscale"; "fsin";
    "fsincos"; "fsqrt"; "fstp"; "fstp1"; "fstp8"; "fstp9"; "fst"; "fnstcw"; "fnstenv"; "fnstsw";
    "fsub"; "fsubp"; "fsubr"; "fsubrp"; "ftst"; "fucom"; "fucomp"; "fucompp"; "fxam"; "fxch";
    "fxch4"; "fxch7"; "fxrstor"; "fxsave"; "fxtract"; "fyl2x"; "fyl2xp1"; "hlt"; "idiv"; "in";
    "imul"; "inc"; "insb"; "insw"; "insd"; "int1"; "int3"; "int"; "into"; "invd"; "invept";
    "invlpg"; "invlpga"; "invvpid"; "iretw"; "iretd"; "iretq"; "jo"; "jno"; "jb"; "jae"; "jz";
    "jnz"; "jbe"; "ja"; "js"; "jns"; "jp"; "jnp"; "jl"; "jge"; "jle"; "jg"; "jcxz"; "jecxz";
    "jrcxz"; "jmp"; "lahf"; "lar"; "lddqu"; "ldmxcsr"; "lds"; "lea"; "les"; "lfs"; "lgs"; "lidt";
    "lss"; "leave"; "lfence"; "lgdt"; "lldt"; "lmsw"; "lock"; "lodsb"; "lodsw"; "lodsd"; "lodsq";
    "loopne"; "loope"; "loop"; "lsl"; "ltr"; "maskmovq"; "maxpd"; "maxps"; "maxsd"; "maxss";
    "mfence"; "minpd"; "minps"; "minsd"; "minss"; "monitor"; "montmul"; "mov"; "movapd"; "movaps";
    "movd"; "movhpd"; "movhps"; "movlhps"; "movlpd"; "movlps"; "movhlps"; "movmskpd"; "movmskps";
    "movntdq"; "movnti"; "movntpd"; "movntps"; "movntq"; "movq"; "movsb"; "movsw"; "movsd";
    "movsq"; "movss"; "movsx"; "movupd"; "movups"; "movzx"; "mul"; "mulpd"; "mulps"; "mulsd";
    "mulss"; "mwait"; "neg"; "nop"; "not"; "or"; "orpd"; "orps"; "out"; "outsb"; "outsw"; "outsd";
    "packsswb"; "packssdw"; "packuswb"; "paddb"; "paddw"; "paddd"; "paddsb"; "paddsw"; "paddusb";
    "paddusw"; "pand"; "pandn"; "pavgb"; "pavgw"; "pcmpeqb"; "pcmpeqw"; "pcmpeqd"; "pcmpgtb";
    "pcmpgtw"; "pcmpgtd"; "pextrb"; "pextrd"; "pextrq"; "pextrw"; "pinsrb"; "pinsrw"; "pinsrd";
    "pinsrq"; "pmaddwd"; "pmaxsw"; "pmaxub"; "pminsw"; "pminub"; "pmovmskb"; "pmulhuw"; "pmulhw";
    "pmullw"; "pop"; "popa"; "popad"; "popfw"; "popfd"; "popfq"; "por"; "prefetch"; "prefetchnta";
    "prefetcht0"; "prefetcht1"; "prefetcht2"; "psadbw"; "pshufw"; "psllw"; "pslld"; "psllq";
    "psraw"; "psrad"; "psrlw"; "psrld"; "psrlq"; "psubb"; "psubw"; "psubd"; "psubsb"; "psubsw";
    "psubusb"; "psubusw"; "punpckhbw"; "punpckhwd"; "punpckhdq"; "punpcklbw"; "punpcklwd";
    "punpckldq"; "pi2fw"; "pi2fd"; "pf2iw"; "pf2id"; "pfnacc"; "pfpnacc"; "pfcmpge"; "pfmin";
    "pfrcp"; "pfrsqrt"; "pfsub"; "pfadd"; "pfcmpgt"; "pfmax"; "pfrcpit1"; "pfrsqit1"; "pfsubr";
    "pfacc"; "pfcmpeq"; "pfmul"; "pfrcpit2"; "pmulhrw"; "pswapd"; "pavgusb"; "push"; "pusha";
    "pushad"; "pushfw"; "pushfd"; "pushfq"; "pxor"; "rcl"; "rcr"; "rol"; "ror"; "rcpps"; "rcpss";
    "rdmsr"; "rdpmc"; "rdtsc"; "rdtscp"; "repne"; "rep"; "ret"; "retf"; "rsm"; "rsqrtps";
    "rsqrtss"; "sahf"; "salc"; "sar"; "shl"; "shr"; "sbb"; "scasb"; "scasw"; "scasd"; "scasq";
    "seto"; "setno"; "setb"; "setae"; "setz"; "setnz"; "setbe"; "seta"; "sets"; "setns"; "setp";
    "setnp"; "setl"; "setge"; "setle"; "setg"; "sfence"; "sgdt"; "shld"; "shrd"; "shufpd";
    "shufps"; "sidt"; "sldt"; "smsw"; "sqrtps"; "sqrtpd"; "sqrtsd"; "sqrtss"; "stc"; "std"; "stgi";
    "sti"; "skinit"; "stmxcsr"; "stosb"; "stosw"; "stosd"; "stosq"; "str"; "sub"; "subpd"; "subps";
    "subsd"; "subss"; "swapgs"; "syscall"; "sysenter"; "sysexit"; "sysret"; "test"; "ucomisd";
    "ucomiss"; "ud2"; "unpckhpd"; "unpckhps"; "unpcklps"; "unpcklpd"; "verr"; "verw"; "vmcall";
    "vmclear"; "vmxon"; "vmptrld"; "vmptrst"; "vmlaunch"; "vmresume"; "vmxoff"; "vmread";
    "vmwrite"; "vmrun"; "vmmcall"; "vmload"; "vmsave"; "wait"; "wbinvd"; "wrmsr"; "xadd"; "xchg";
    "xgetbv"; "xlatb"; "xor"; "xorpd"; "xorps"; "xcryptecb"; "xcryptcbc"; "xcryptctr"; "xcryptcfb";
    "xcryptofb"; "xrstor"; "xsave"; "xsetbv"; "xsha1"; "xsha256"; "xstore"; "aesdec"; "aesdeclast";
    "aesenc"; "aesenclast"; "aesimc"; "aeskeygenassist"; "pclmulqdq"; "getsec"; "movdqa";
    "maskmovdqu"; "movdq2q"; "movdqu"; "movq2dq"; "paddq"; "psubq"; "pmuludq"; "pshufhw";
    "pshuflw"; "pshufd"; "pslldq"; "psrldq"; "punpckhqdq"; "punpcklqdq"; "addsubpd"; "addsubps";
    "haddpd"; "haddps"; "hsubpd"; "hsubps"; "movddup"; "movshdup"; "movsldup"; "pabsb"; "pabsw";
    "pabsd"; "pshufb"; "phaddw"; "phaddd"; "phaddsw"; "pmaddubsw"; "phsubw"; "phsubd"; "phsubsw";
    "psignb"; "psignd"; "psignw"; "pmulhrsw"; "palignr"; "pblendvb"; "pmuldq"; "pminsb"; "pminsd";
    "pminuw"; "pminud"; "pmaxsb"; "pmaxsd"; "pmaxud"; "pmaxuw"; "pmulld"; "phminposuw"; "roundps";
    "roundpd"; "roundss"; "roundsd"; "blendpd"; "pblendw"; "blendps"; "blendvpd"; "blendvps";
    "dpps"; "dppd"; "mpsadbw"; "extractps"; "insertps"; "movntdqa"; "packusdw"; "pmovsxbw";
    "pmovsxbd"; "pmovsxbq"; "pmovsxwd"; "pmovsxwq"; "pmovsxdq"; "pmovzxbw"; "pmovzxbd"; "pmovzxbq";
    "pmovzxwd"; "pmovzxwq"; "pmovzxdq"; "pcmpeqq"; "popcnt"; "ptest"; "pcmpestri"; "pcmpestrm";
    "pcmpgtq"; "pcmpistri"; "pcmpistrm"; "movbe"; "crc32"].
