(* ===== verification/Ud.v ===== *)
(** * The disassembler object (third_party/udis86/types.h: struct ud, struct ud_operand)

    [struct ud] with its fields in three groups (the input, the assembly output
    and the instruction being decoded), and the monad the decoder runs in: a
    state of type [ud] over an environment that gives the bytes of memory and
    the client's callbacks. *)

From stdpp Require Import base list strings.
From S2P Require Import Prelude Itab.

(** The two translators of the library. *)
Inductive ud_syntax := UD_SYN_INTEL | UD_SYN_ATT.

(** [op_lval] is the union as the 64-bit word it occupies: the scalars are its low
    bits, [ptr.seg] bits 0 to 15 and [ptr.off] bits 32 to 63. *)
Record ud_operand := UdOperand {
  op_type : Z;
  op_size : Z;
  op_base : Z;
  op_index : Z;
  op_scale : Z;
  op_offset : Z;
  op_lval : Z;
  op_oprcode : Z
}.

Definition set_op_type (x : Z) (r : ud_operand) : ud_operand :=
  UdOperand x (op_size r) (op_base r) (op_index r) (op_scale r) (op_offset r) (op_lval r) (op_oprcode r).
Definition set_op_size (x : Z) (r : ud_operand) : ud_operand :=
  UdOperand (op_type r) x (op_base r) (op_index r) (op_scale r) (op_offset r) (op_lval r) (op_oprcode r).
Definition set_op_base (x : Z) (r : ud_operand) : ud_operand :=
  UdOperand (op_type r) (op_size r) x (op_index r) (op_scale r) (op_offset r) (op_lval r) (op_oprcode r).
Definition set_op_index (x : Z) (r : ud_operand) : ud_operand :=
  UdOperand (op_type r) (op_size r) (op_base r) x (op_scale r) (op_offset r) (op_lval r) (op_oprcode r).
Definition set_op_scale (x : Z) (r : ud_operand) : ud_operand :=
  UdOperand (op_type r) (op_size r) (op_base r) (op_index r) x (op_offset r) (op_lval r) (op_oprcode r).
Definition set_op_offset (x : Z) (r : ud_operand) : ud_operand :=
  UdOperand (op_type r) (op_size r) (op_base r) (op_index r) (op_scale r) x (op_lval r) (op_oprcode r).
Definition set_op_lval (x : Z) (r : ud_operand) : ud_operand :=
  UdOperand (op_type r) (op_size r) (op_base r) (op_index r) (op_scale r) (op_offset r) x (op_oprcode r).
Definition set_op_oprcode (x : Z) (r : ud_operand) : ud_operand :=
  UdOperand (op_type r) (op_size r) (op_base r) (op_index r) (op_scale r) (op_offset r) (op_lval r) x.

Definition ud_operand_zero : ud_operand := UdOperand 0 0 0 0 0 0 0 0.

(** Input. [inp_hook] and [inp_buf] are addresses. *)
Record ud_inp := UdInp {
  inp_hook : Z;
  inp_buf : Z;
  inp_buf_size : Z;
  inp_buf_index : Z;
  inp_curr_ : Z;
  inp_ctr : Z;
  inp_sess : list Z;
  inp_end : Z
}.

Definition set_inp_hook (x : Z) (r : ud_inp) : ud_inp :=
  UdInp x (inp_buf r) (inp_buf_size r) (inp_buf_index r) (inp_curr_ r) (inp_ctr r) (inp_sess r) (inp_end r).
Definition set_inp_buf (x : Z) (r : ud_inp) : ud_inp :=
  UdInp (inp_hook r) x (inp_buf_size r) (inp_buf_index r) (inp_curr_ r) (inp_ctr r) (inp_sess r) (inp_end r).
Definition set_inp_buf_size (x : Z) (r : ud_inp) : ud_inp :=
  UdInp (inp_hook r) (inp_buf r) x (inp_buf_index r) (inp_curr_ r) (inp_ctr r) (inp_sess r) (inp_end r).
Definition set_inp_buf_index (x : Z) (r : ud_inp) : ud_inp :=
  UdInp (inp_hook r) (inp_buf r) (inp_buf_size r) x (inp_curr_ r) (inp_ctr r) (inp_sess r) (inp_end r).
Definition set_inp_curr_ (x : Z) (r : ud_inp) : ud_inp :=
  UdInp (inp_hook r) (inp_buf r) (inp_buf_size r) (inp_buf_index r) x (inp_ctr r) (inp_sess r) (inp_end r).
Definition set_inp_ctr (x : Z) (r : ud_inp) : ud_inp :=
  UdInp (inp_hook r) (inp_buf r) (inp_buf_size r) (inp_buf_index r) (inp_curr_ r) x (inp_sess r) (inp_end r).
Definition set_inp_sess (x : list Z) (r : ud_inp) : ud_inp :=
  UdInp (inp_hook r) (inp_buf r) (inp_buf_size r) (inp_buf_index r) (inp_curr_ r) (inp_ctr r) x (inp_end r).
Definition set_inp_end (x : Z) (r : ud_inp) : ud_inp :=
  UdInp (inp_hook r) (inp_buf r) (inp_buf_size r) (inp_buf_index r) (inp_curr_ r) (inp_ctr r) (inp_sess r) x.

(** Output. [asm_buf] is the contents of the buffer in use. *)
Record ud_asm := UdAsm {
  translator : option ud_syntax;
  insn_hexcode : list Z;
  asm_buf : list Z;
  asm_buf_size : Z;
  asm_buf_fill : Z;
  sym_resolver : Z
}.

Definition set_translator (x : option ud_syntax) (r : ud_asm) : ud_asm :=
  UdAsm x (insn_hexcode r) (asm_buf r) (asm_buf_size r) (asm_buf_fill r) (sym_resolver r).
Definition set_insn_hexcode (x : list Z) (r : ud_asm) : ud_asm :=
  UdAsm (translator r) x (asm_buf r) (asm_buf_size r) (asm_buf_fill r) (sym_resolver r).
Definition set_asm_buf (x : list Z) (r : ud_asm) : ud_asm :=
  UdAsm (translator r) (insn_hexcode r) x (asm_buf_size r) (asm_buf_fill r) (sym_resolver r).
Definition set_asm_buf_size (x : Z) (r : ud_asm) : ud_asm :=
  UdAsm (translator r) (insn_hexcode r) (asm_buf r) x (asm_buf_fill r) (sym_resolver r).
Definition set_asm_buf_fill (x : Z) (r : ud_asm) : ud_asm :=
  UdAsm (translator r) (insn_hexcode r) (asm_buf r) (asm_buf_size r) x (sym_resolver r).
Definition set_sym_resolver (x : Z) (r : ud_asm) : ud_asm :=
  UdAsm (translator r) (insn_hexcode r) (asm_buf r) (asm_buf_size r) (asm_buf_fill r) x.

(** The instruction being decoded. [itab_entry] and [le] are the entries pointed to. *)
Record ud_ins := UdIns {
  mnemonic : ud_mnemonic_code;
  operand : list ud_operand;
  error : Z;
  pfx_rex : Z;
  pfx_seg : Z;
  pfx_opr : Z;
  pfx_adr : Z;
  pfx_lock : Z;
  pfx_str : Z;
  pfx_rep : Z;
  pfx_repe : Z;
  pfx_repne : Z;
  opr_mode : Z;
  adr_mode : Z;
  br_far : Z;
  br_near : Z;
  have_modrm : Z;
  modrm_ : Z;
  primary_opcode : Z;
  itab_entry : option ud_itab_entry;
  le : option ud_lookup_table_list_entry
}.

Definition set_mnemonic (x : ud_mnemonic_code) (r : ud_ins) : ud_ins :=
  UdIns x (operand r) (error r) (pfx_rex r) (pfx_seg r) (pfx_opr r) (pfx_adr r) (pfx_lock r) (pfx_str r) (pfx_rep r) (pfx_repe r) (pfx_repne r) (opr_mode r) (adr_mode r) (br_far r) (br_near r) (have_modrm r) (modrm_ r) (primary_opcode r) (itab_entry r) (le r).
Definition set_operand (x : list ud_operand) (r : ud_ins) : ud_ins :=
  UdIns (mnemonic r) x (error r) (pfx_rex r) (pfx_seg r) (pfx_opr r) (pfx_adr r) (pfx_lock r) (pfx_str r) (pfx_rep r) (pfx_repe r) (pfx_repne r) (opr_mode r) (adr_mode r) (br_far r) (br_near r) (have_modrm r) (modrm_ r) (primary_opcode r) (itab_entry r) (le r).
Definition set_error (x : Z) (r : ud_ins) : ud_ins :=
  UdIns (mnemonic r) (operand r) x (pfx_rex r) (pfx_seg r) (pfx_opr r) (pfx_adr r) (pfx_lock r) (pfx_str r) (pfx_rep r) (pfx_repe r) (pfx_repne r) (opr_mode r) (adr_mode r) (br_far r) (br_near r) (have_modrm r) (modrm_ r) (primary_opcode r) (itab_entry r) (le r).
Definition set_pfx_rex (x : Z) (r : ud_ins) : ud_ins :=
  UdIns (mnemonic r) (operand r) (error r) x (pfx_seg r) (pfx_opr r) (pfx_adr r) (pfx_lock r) (pfx_str r) (pfx_rep r) (pfx_repe r) (pfx_repne r) (opr_mode r) (adr_mode r) (br_far r) (br_near r) (have_modrm r) (modrm_ r) (primary_opcode r) (itab_entry r) (le r).
Definition set_pfx_seg (x : Z) (r : ud_ins) : ud_ins :=
  UdIns (mnemonic r) (operand r) (error r) (pfx_rex r) x (pfx_opr r) (pfx_adr r) (pfx_lock r) (pfx_str r) (pfx_rep r) (pfx_repe r) (pfx_repne r) (opr_mode r) (adr_mode r) (br_far r) (br_near r) (have_modrm r) (modrm_ r) (primary_opcode r) (itab_entry r) (le r).
Definition set_pfx_opr (x : Z) (r : ud_ins) : ud_ins :=
  UdIns (mnemonic r) (operand r) (error r) (pfx_rex r) (pfx_seg r) x (pfx_adr r) (pfx_lock r) (pfx_str r) (pfx_rep r) (pfx_repe r) (pfx_repne r) (opr_mode r) (adr_mode r) (br_far r) (br_near r) (have_modrm r) (modrm_ r) (primary_opcode r) (itab_entry r) (le r).
Definition set_pfx_adr (x : Z) (r : ud_ins) : ud_ins :=
  UdIns (mnemonic r) (operand r) (error r) (pfx_rex r) (pfx_seg r) (pfx_opr r) x (pfx_lock r) (pfx_str r) (pfx_rep r) (pfx_repe r) (pfx_repne r) (opr_mode r) (adr_mode r) (br_far r) (br_near r) (have_modrm r) (modrm_ r) (primary_opcode r) (itab_entry r) (le r).
Definition set_pfx_lock (x : Z) (r : ud_ins) : ud_ins :=
  UdIns (mnemonic r) (operand r) (error r) (pfx_rex r) (pfx_seg r) (pfx_opr r) (pfx_adr r) x (pfx_str r) (pfx_rep r) (pfx_repe r) (pfx_repne r) (opr_mode r) (adr_mode r) (br_far r) (br_near r) (have_modrm r) (modrm_ r) (primary_opcode r) (itab_entry r) (le r).
Definition set_pfx_str (x : Z) (r : ud_ins) : ud_ins :=
  UdIns (mnemonic r) (operand r) (error r) (pfx_rex r) (pfx_seg r) (pfx_opr r) (pfx_adr r) (pfx_lock r) x (pfx_rep r) (pfx_repe r) (pfx_repne r) (opr_mode r) (adr_mode r) (br_far r) (br_near r) (have_modrm r) (modrm_ r) (primary_opcode r) (itab_entry r) (le r).
Definition set_pfx_rep (x : Z) (r : ud_ins) : ud_ins :=
  UdIns (mnemonic r) (operand r) (error r) (pfx_rex r) (pfx_seg r) (pfx_opr r) (pfx_adr r) (pfx_lock r) (pfx_str r) x (pfx_repe r) (pfx_repne r) (opr_mode r) (adr_mode r) (br_far r) (br_near r) (have_modrm r) (modrm_ r) (primary_opcode r) (itab_entry r) (le r).
Definition set_pfx_repe (x : Z) (r : ud_ins) : ud_ins :=
  UdIns (mnemonic r) (operand r) (error r) (pfx_rex r) (pfx_seg r) (pfx_opr r) (pfx_adr r) (pfx_lock r) (pfx_str r) (pfx_rep r) x (pfx_repne r) (opr_mode r) (adr_mode r) (br_far r) (br_near r) (have_modrm r) (modrm_ r) (primary_opcode r) (itab_entry r) (le r).
Definition set_pfx_repne (x : Z) (r : ud_ins) : ud_ins :=
  UdIns (mnemonic r) (operand r) (error r) (pfx_rex r) (pfx_seg r) (pfx_opr r) (pfx_adr r) (pfx_lock r) (pfx_str r) (pfx_rep r) (pfx_repe r) x (opr_mode r) (adr_mode r) (br_far r) (br_near r) (have_modrm r) (modrm_ r) (primary_opcode r) (itab_entry r) (le r).
Definition set_opr_mode (x : Z) (r : ud_ins) : ud_ins :=
  UdIns (mnemonic r) (operand r) (error r) (pfx_rex r) (pfx_seg r) (pfx_opr r) (pfx_adr r) (pfx_lock r) (pfx_str r) (pfx_rep r) (pfx_repe r) (pfx_repne r) x (adr_mode r) (br_far r) (br_near r) (have_modrm r) (modrm_ r) (primary_opcode r) (itab_entry r) (le r).
Definition set_adr_mode (x : Z) (r : ud_ins) : ud_ins :=
  UdIns (mnemonic r) (operand r) (error r) (pfx_rex r) (pfx_seg r) (pfx_opr r) (pfx_adr r) (pfx_lock r) (pfx_str r) (pfx_rep r) (pfx_repe r) (pfx_repne r) (opr_mode r) x (br_far r) (br_near r) (have_modrm r) (modrm_ r) (primary_opcode r) (itab_entry r) (le r).
Definition set_br_far (x : Z) (r : ud_ins) : ud_ins :=
  UdIns (mnemonic r) (operand r) (error r) (pfx_rex r) (pfx_seg r) (pfx_opr r) (pfx_adr r) (pfx_lock r) (pfx_str r) (pfx_rep r) (pfx_repe r) (pfx_repne r) (opr_mode r) (adr_mode r) x (br_near r) (have_modrm r) (modrm_ r) (primary_opcode r) (itab_entry r) (le r).
Definition set_br_near (x : Z) (r : ud_ins) : ud_ins :=
  UdIns (mnemonic r) (operand r) (error r) (pfx_rex r) (pfx_seg r) (pfx_opr r) (pfx_adr r) (pfx_lock r) (pfx_str r) (pfx_rep r) (pfx_repe r) (pfx_repne r) (opr_mode r) (adr_mode r) (br_far r) x (have_modrm r) (modrm_ r) (primary_opcode r) (itab_entry r) (le r).
Definition set_have_modrm (x : Z) (r : ud_ins) : ud_ins :=
  UdIns (mnemonic r) (operand r) (error r) (pfx_rex r) (pfx_seg r) (pfx_opr r) (pfx_adr r) (pfx_lock r) (pfx_str r) (pfx_rep r) (pfx_repe r) (pfx_repne r) (opr_mode r) (adr_mode r) (br_far r) (br_near r) x (modrm_ r) (primary_opcode r) (itab_entry r) (le r).
Definition set_modrm_ (x : Z) (r : ud_ins) : ud_ins :=
  UdIns (mnemonic r) (operand r) (error r) (pfx_rex r) (pfx_seg r) (pfx_opr r) (pfx_adr r) (pfx_lock r) (pfx_str r) (pfx_rep r) (pfx_repe r) (pfx_repne r) (opr_mode r) (adr_mode r) (br_far r) (br_near r) (have_modrm r) x (primary_opcode r) (itab_entry r) (le r).
Definition set_primary_opcode (x : Z) (r : ud_ins) : ud_ins :=
  UdIns (mnemonic r) (operand r) (error r) (pfx_rex r) (pfx_seg r) (pfx_opr r) (pfx_adr r) (pfx_lock r) (pfx_str r) (pfx_rep r) (pfx_repe r) (pfx_repne r) (opr_mode r) (adr_mode r) (br_far r) (br_near r) (have_modrm r) (modrm_ r) x (itab_entry r) (le r).
Definition set_itab_entry (x : option ud_itab_entry) (r : ud_ins) : ud_ins :=
  UdIns (mnemonic r) (operand r) (error r) (pfx_rex r) (pfx_seg r) (pfx_opr r) (pfx_adr r) (pfx_lock r) (pfx_str r) (pfx_rep r) (pfx_repe r) (pfx_repne r) (opr_mode r) (adr_mode r) (br_far r) (br_near r) (have_modrm r) (modrm_ r) (primary_opcode r) x (le r).
Definition set_le (x : option ud_lookup_table_list_entry) (r : ud_ins) : ud_ins :=
  UdIns (mnemonic r) (operand r) (error r) (pfx_rex r) (pfx_seg r) (pfx_opr r) (pfx_adr r) (pfx_lock r) (pfx_str r) (pfx_rep r) (pfx_repe r) (pfx_repne r) (opr_mode r) (adr_mode r) (br_far r) (br_near r) (have_modrm r) (modrm_ r) (primary_opcode r) (itab_entry r) x.

(** The object. *)
Record ud := Ud {
  inp : ud_inp;
  asm_out : ud_asm;
  ins : ud_ins;
  dis_mode : Z;
  pc : Z;
  vendor : Z;
  insn_offset : Z;
  user_opaque_data : Z
}.

Definition set_inp (x : ud_inp) (r : ud) : ud :=
  Ud x (asm_out r) (ins r) (dis_mode r) (pc r) (vendor r) (insn_offset r) (user_opaque_data r).
Definition set_asm_out (x : ud_asm) (r : ud) : ud :=
  Ud (inp r) x (ins r) (dis_mode r) (pc r) (vendor r) (insn_offset r) (user_opaque_data r).
Definition set_ins (x : ud_ins) (r : ud) : ud :=
  Ud (inp r) (asm_out r) x (dis_mode r) (pc r) (vendor r) (insn_offset r) (user_opaque_data r).
Definition set_dis_mode (x : Z) (r : ud) : ud :=
  Ud (inp r) (asm_out r) (ins r) x (pc r) (vendor r) (insn_offset r) (user_opaque_data r).
Definition set_pc (x : Z) (r : ud) : ud :=
  Ud (inp r) (asm_out r) (ins r) (dis_mode r) x (vendor r) (insn_offset r) (user_opaque_data r).
Definition set_vendor (x : Z) (r : ud) : ud :=
  Ud (inp r) (asm_out r) (ins r) (dis_mode r) (pc r) x (insn_offset r) (user_opaque_data r).
Definition set_insn_offset (x : Z) (r : ud) : ud :=
  Ud (inp r) (asm_out r) (ins r) (dis_mode r) (pc r) (vendor r) x (user_opaque_data r).
Definition set_user_opaque_data (x : Z) (r : ud) : ud :=
  Ud (inp r) (asm_out r) (ins r) (dis_mode r) (pc r) (vendor r) (insn_offset r) x.

(** ** The decoder's monad *)

(** [code] gives the byte at an address, or nothing where a read would fault;
    [hook] and [resolver] are what the client's function pointers do. *)
Record env := Env {
  code : Z -> option Z;
  hook : Z -> ud -> option (Z * ud);
  resolver : Z -> ud -> Z -> option (list Z) * Z
}.

Definition D (A : Type) : Type := env -> ST ud A.

Definition dret {A} (a : A) : D A := fun _ => ret a.
Definition dbind {A B} (m : D A) (k : A -> D B) : D B := fun e => bind (m e) (fun a => k a e).
Definition dfault {A} : D A := fun _ => fault.
Definition get {A} (f : ud -> A) : D A := fun _ => gets f.
Definition upd (f : ud -> ud) : D unit := fun _ => modify f.

Notation "'let*' x ':=' m 'in' k" := (dbind m (fun x => k))
  (at level 200, x name, m at level 99, k at level 200, right associativity) : st_scope.
Notation "'do*' m 'in' k" := (dbind m (fun _ => k))
  (at level 200, m at level 99, k at level 200, right associativity) : st_scope.

(** Updates of one group. *)
Definition on_inp (f : ud_inp -> ud_inp) (u : ud) : ud := set_inp (f (inp u)) u.
Definition on_out (f : ud_asm -> ud_asm) (u : ud) : ud := set_asm_out (f (asm_out u)) u.
Definition on_ins (f : ud_ins -> ud_ins) (u : ud) : ud := set_ins (f (ins u)) u.

Definition upd_inp (f : ud_inp -> ud_inp) : D unit := upd (on_inp f).
Definition upd_out (f : ud_asm -> ud_asm) : D unit := upd (on_out f).
Definition upd_ins (f : ud_ins -> ud_ins) : D unit := upd (on_ins f).
Definition get_inp {A} (f : ud_inp -> A) : D A := get (fun u => f (inp u)).
Definition get_out {A} (f : ud_asm -> A) : D A := get (fun u => f (asm_out u)).
Definition get_ins {A} (f : ud_ins -> A) : D A := get (fun u => f (ins u)).

(** The operand [u->operand[n]]. *)
Definition nth_operand (n : nat) (i : ud_ins) : ud_operand := default ud_operand_zero (operand i !! n).
Definition get_op {A} (n : nat) (f : ud_operand -> A) : D A := get_ins (fun i => f (nth_operand n i)).
Definition upd_op (n : nat) (f : ud_operand -> ud_operand) : D unit :=
  upd_ins (fun i => set_operand (alter f n (operand i)) i).

(** Storing a [w]-bit scalar in the union. *)
Definition lval_put (w v : Z) (op : ud_operand) : ud_operand :=
  set_op_lval (Z.lor (Z.ldiff (op_lval op) (Z.ones w)) (wrap w v)) op.
Definition lval_put_seg (v : Z) (op : ud_operand) : ud_operand := lval_put 16 v op.
Definition lval_put_off (v : Z) (op : ud_operand) : ud_operand :=
  set_op_lval (Z.lor (Z.land (op_lval op) (Z.ones 32)) (Z.shiftl (wrap 32 v) 32)) op.

(** Reading it back: unsigned, signed, and the two fields of [ptr]. *)
Definition lval_u (w : Z) (op : ud_operand) : Z := wrap w (op_lval op).
Definition lval_s (w : Z) (op : ud_operand) : Z := signed w (op_lval op).
Definition lval_seg (op : ud_operand) : Z := wrap 16 (op_lval op).
Definition lval_off (op : ud_operand) : Z := wrap 32 (Z.shiftr (op_lval op) 32).

(** [UDERR(u, m)], [UD_RETURN_ON_ERROR(u)] and [UD_RETURN_WITH_ERROR(u, m)]. *)
Definition UDERR : D unit := upd_ins (set_error 1).
Definition UD_RETURN_ON_ERROR (k : D Z) : D Z :=
  let* e := get_ins error in if e =? 0 then k else dret e.
Definition UD_RETURN_WITH_ERROR : D Z := do* UDERR in get_ins error.
