(* ===== verification/Decode.v ===== *)
(** * The instruction decoder (third_party/udis86/decode.c)

    Each function of decode.c as a computation of the decoder's monad, and the
    facts the rest of the kernel code relies on: decoding ends, reads only the
    bytes it counts, counts at least one of them, and stays inside every
    table. *)

From stdpp Require Import base list strings.
From S2P Require Import Prelude Itab Ud.

(** ** Constants and bit fields *)

Definition MAX_INSN_LENGTH : Z := 15.
Definition UD_EOI : Z := -1.
Definition UD_VENDOR_AMD : Z := 0.
Definition UD_VENDOR_INTEL : Z := 1.
Definition UD_VENDOR_ANY : Z := 2.

Definition REX_W (r : Z) : Z := Z.shiftr (Z.land 0xF r) 3.
Definition REX_R (r : Z) : Z := Z.shiftr (Z.land 0x7 r) 2.
Definition REX_X (r : Z) : Z := Z.shiftr (Z.land 0x3 r) 1.
Definition REX_B (r : Z) : Z := Z.shiftr (Z.land 0x1 r) 0.
Definition REX_PFX_MASK (n : Z) : Z :=
  Z.lor (Z.shiftl (P_REXW n) 3) (Z.lor (Z.shiftl (P_REXR n) 2)
    (Z.lor (Z.shiftl (P_REXX n) 1) (Z.shiftl (P_REXB n) 0))).

Definition SIB_S (b : Z) : Z := Z.shiftr b 6.
Definition SIB_I (b : Z) : Z := Z.land (Z.shiftr b 3) 7.
Definition SIB_B (b : Z) : Z := Z.land b 7.

Definition MODRM_REG (b : Z) : Z := Z.land (Z.shiftr b 3) 7.
Definition MODRM_MOD (b : Z) : Z := Z.land (Z.shiftr b 6) 3.
Definition MODRM_RM (b : Z) : Z := Z.land b 7.

Definition Mx_mem_size (size : Z) : Z := Z.land (Z.shiftr size 8) 0xff.
Definition Mx_reg_size (size : Z) : Z := Z.land size 0xff.

Inductive reg_class :=
| REGCLASS_GPR
| REGCLASS_MMX
| REGCLASS_CR
| REGCLASS_DB
| REGCLASS_SEG
| REGCLASS_XMM.

(** ** Input *)

Definition inp_start : D unit := upd_inp (set_inp_ctr 0).

Definition inp_eoi : D Z := do* upd_inp (set_inp_end 1) in do* UDERR in dret 0.

(** [u->inp_sess[u->inp_ctr++] = c]; the session buffer holds 64 bytes, and a
    store past it is undefined. *)
Definition inp_sess_put (c : Z) : D unit := fun _ u =>
  if inp_ctr (inp u) <? 64
  then Some (tt, on_inp (fun i => set_inp_ctr (inp_ctr i + 1)
                   (set_inp_sess (<[Z.to_nat (inp_ctr i) := c]> (inp_sess i)) i)) u)
  else None.

Definition inp_next : D Z :=
  let* ended := get_inp inp_end in
  if ended =? 0 then
    let* buf := get_inp inp_buf in
    if negb (buf =? 0) then
      let* index := get_inp inp_buf_index in
      let* size := get_inp inp_buf_size in
      if index <? size then
        do* upd_inp (fun i => set_inp_ctr (inp_ctr i + 1) i) in
        let* c := (fun e u => match code e (buf + index) with Some c => Some (c, u) | None => None end) in
        do* upd_inp (fun i => set_inp_curr_ c (set_inp_buf_index (index + 1) i)) in
        dret c
      else inp_eoi
    else
      let* h := get_inp inp_hook in
      let* c := (fun e u => hook e h u) in
      if negb (c =? UD_EOI) then
        do* upd_inp (set_inp_curr_ (wrap 8 c)) in
        do* inp_sess_put (wrap 8 c) in
        get_inp inp_curr_
      else inp_eoi
  else inp_eoi.

Definition inp_curr : D Z := get_inp inp_curr_.

Definition inp_uint8 : D Z := inp_next.

Definition inp_uint16 : D Z :=
  let* ret := inp_next in
  let* r := inp_next in
  dret (Z.lor ret (Z.shiftl r 8)).

Definition inp_uint32 : D Z :=
  let* ret := inp_next in
  let* r := inp_next in
  let ret := Z.lor ret (Z.shiftl r 8) in
  let* r := inp_next in
  let ret := Z.lor ret (Z.shiftl r 16) in
  let* r := inp_next in
  dret (Z.lor ret (Z.shiftl r 24)).

Definition inp_uint64 : D Z :=
  let* ret := inp_next in
  let* r := inp_next in
  let ret := Z.lor ret (Z.shiftl r 8) in
  let* r := inp_next in
  let ret := Z.lor ret (Z.shiftl r 16) in
  let* r := inp_next in
  let ret := Z.lor ret (Z.shiftl r 24) in
  let* r := inp_next in
  let ret := Z.lor ret (Z.shiftl r 32) in
  let* r := inp_next in
  let ret := Z.lor ret (Z.shiftl r 40) in
  let* r := inp_next in
  let ret := Z.lor ret (Z.shiftl r 48) in
  let* r := inp_next in
  dret (Z.lor ret (Z.shiftl r 56)).

(** ** Modes and prefixes *)

Definition eff_opr_mode (dis_mode rex_w pfx_opr : Z) : Z :=
  if dis_mode =? 64 then
    if negb (rex_w =? 0) then 64 else if negb (pfx_opr =? 0) then 16 else 32
  else if dis_mode =? 32 then
    if negb (pfx_opr =? 0) then 16 else 32
  else
    if negb (pfx_opr =? 0) then 32 else 16.

Definition eff_adr_mode (dis_mode pfx_adr : Z) : Z :=
  if dis_mode =? 64 then
    if negb (pfx_adr =? 0) then 32 else 64
  else if dis_mode =? 32 then
    if negb (pfx_adr =? 0) then 16 else 32
  else
    if negb (pfx_adr =? 0) then 32 else 16.

(** The switch of [decode_prefixes]: what a byte records, and whether it ends
    the prefixes. *)
Definition prefix_byte (curr : Z) : D bool :=
  if curr =? 0x2E then do* upd_ins (set_pfx_seg UD_R_CS) in dret false
  else if curr =? 0x36 then do* upd_ins (set_pfx_seg UD_R_SS) in dret false
  else if curr =? 0x3E then do* upd_ins (set_pfx_seg UD_R_DS) in dret false
  else if curr =? 0x26 then do* upd_ins (set_pfx_seg UD_R_ES) in dret false
  else if curr =? 0x64 then do* upd_ins (set_pfx_seg UD_R_FS) in dret false
  else if curr =? 0x65 then do* upd_ins (set_pfx_seg UD_R_GS) in dret false
  else if curr =? 0x67 then do* upd_ins (set_pfx_adr 0x67) in dret false
  else if curr =? 0xF0 then do* upd_ins (set_pfx_lock 0xF0) in dret false
  else if curr =? 0x66 then do* upd_ins (set_pfx_opr 0x66) in dret false
  else if curr =? 0xF2 then do* upd_ins (set_pfx_str 0xf2) in dret false
  else if curr =? 0xF3 then do* upd_ins (set_pfx_str 0xf3) in dret false
  else
    let* mode := get dis_mode in
    dret (negb ((mode =? 64) && (Z.land curr 0xF0 =? 0x40))).

(** The loop; [curr] is the byte read before, and the REX prefix is settled
    when the loop ends. Every turn reads a byte and the fifteenth is an error,
    so [fuel] of 16 is enough. *)
Fixpoint decode_prefixes_loop (fuel : nat) (curr : Z) : D Z :=
  match fuel with
  | O => dfault
  | S fuel' =>
      let last := curr in
      let* curr := inp_next in
      UD_RETURN_ON_ERROR (
      let* ctr := get_inp inp_ctr in
      if ctr =? MAX_INSN_LENGTH then UD_RETURN_WITH_ERROR
      else
        let* done := prefix_byte curr in
        if negb done then decode_prefixes_loop fuel' curr
        else
          let* mode := get dis_mode in
          do* (if (mode =? 64) && (Z.land last 0xF0 =? 0x40)
               then upd_ins (set_pfx_rex last) else dret tt) in
          dret 0)
  end.

Definition decode_prefixes : D Z := UD_RETURN_ON_ERROR (decode_prefixes_loop 16 0).

Definition modrm : D Z :=
  let* have := get_ins have_modrm in
  do* (if have =? 0 then
         let* b := inp_next in
         upd_ins (fun i => set_have_modrm 1 (set_modrm_ b i))
       else dret tt) in
  get_ins modrm_.

Definition resolve_operand_size (s : Z) : D Z :=
  let* opr := get_ins opr_mode in
  let* dis := get dis_mode in
  dret (if s =? SZ_V then opr
        else if s =? SZ_Z then if opr =? 16 then 16 else 32
        else if s =? SZ_Y then if opr =? 16 then 32 else opr
        else if s =? SZ_RDQ then if dis =? 64 then 64 else 32
        else s).

Definition mnemonic_is (c : ud_mnemonic_code) : D bool := get_ins (fun i => mnemonic_eqb (mnemonic i) c).

(** [ud_itab[ptr]] and [u->le->table[idx]]: an index past the array is
    undefined. *)
Definition itab_at (ptr : Z) : D ud_itab_entry := fun _ u =>
  match ud_itab !! Z.to_nat ptr with Some x => Some (x, u) | None => None end.
Definition le_table (idx : Z) : D Z := fun _ u =>
  match le (ins u) with
  | Some l => match table l !! Z.to_nat idx with Some p => Some (p, u) | None => None end
  | None => None
  end.
Definition le_type : D ud_table_type := fun _ u =>
  match le (ins u) with Some l => Some (table_type l, u) | None => None end.
Definition set_le_at (n : Z) : D unit := fun _ u =>
  match ud_lookup_table_list !! Z.to_nat n with
  | Some l => Some (tt, on_ins (set_le (Some l)) u)
  | None => None
  end.
Definition itab_prefix_of : D Z := fun _ u =>
  match itab_entry (ins u) with Some x => Some (itab_prefix x, u) | None => None end.

Definition resolve_mnemonic : D Z :=
  let* dnow := mnemonic_is UD_I3dnow in
  do* (if dnow then
         let* c := inp_curr in
         let* p := le_table c in
         let* x := itab_at p in
         upd_ins (set_mnemonic (itab_mnemonic x))
       else dret tt) in
  let* swapgs := mnemonic_is UD_Iswapgs in
  let* mode := get dis_mode in
  if swapgs && negb (mode =? 64) then do* UDERR in dret (-1)
  else
    let* xchg := mnemonic_is UD_Ixchg in
    let* o0 := get_op 0 id in
    let* o1 := get_op 1 id in
    do* (if xchg &&
            (((op_type o0 =? UD_OP_REG) && (op_base o0 =? UD_R_AX) &&
              (op_type o1 =? UD_OP_REG) && (op_base o1 =? UD_R_AX)) ||
             ((op_type o0 =? UD_OP_REG) && (op_base o0 =? UD_R_EAX) &&
              (op_type o1 =? UD_OP_REG) && (op_base o1 =? UD_R_EAX)))
         then
           do* upd_op 0 (set_op_type UD_NONE) in
           do* upd_op 1 (set_op_type UD_NONE) in
           upd_ins (set_mnemonic UD_Inop)
         else dret tt) in
    let* nop := mnemonic_is UD_Inop in
    let* repe := get_ins pfx_repe in
    do* (if nop && negb (repe =? 0)
         then upd_ins (fun i => set_mnemonic UD_Ipause (set_pfx_repe 0 i))
         else dret tt) in
    dret 0.

(** ** Operands *)

Definition decode_a (n : nat) : D unit :=
  let* opr := get_ins opr_mode in
  if opr =? 16 then
    do* upd_op n (fun o => set_op_size 32 (set_op_type UD_OP_PTR o)) in
    let* off := inp_uint16 in
    do* upd_op n (lval_put_off off) in
    let* seg := inp_uint16 in
    upd_op n (lval_put_seg seg)
  else
    do* upd_op n (fun o => set_op_size 48 (set_op_type UD_OP_PTR o)) in
    let* off := inp_uint32 in
    do* upd_op n (lval_put_off off) in
    let* seg := inp_uint16 in
    upd_op n (lval_put_seg seg).

Definition decode_gpr (s rm : Z) : D Z :=
  let* mode := get dis_mode in
  let* rex := get_ins pfx_rex in
  dret (if s =? 64 then UD_R_RAX + rm
        else if s =? 32 then UD_R_EAX + rm
        else if s =? 16 then UD_R_AX + rm
        else if s =? 8 then
          if (mode =? 64) && negb (rex =? 0) then
            if 4 <=? rm then UD_R_SPL + (rm - 4) else UD_R_AL + rm
          else UD_R_AL + rm
        else UD_NONE).

Definition decode_reg (n : nat) (type : reg_class) (num size : Z) : D unit :=
  let* size := resolve_operand_size size in
  let put (reg : Z) : D unit :=
    upd_op n (fun o => set_op_size (wrap 8 size) (set_op_base reg (set_op_type UD_OP_REG o))) in
  match type with
  | REGCLASS_GPR => let* reg := decode_gpr size num in put reg
  | REGCLASS_MMX => put (UD_R_MM0 + Z.land num 7)
  | REGCLASS_XMM => put (UD_R_XMM0 + num)
  | REGCLASS_CR => put (UD_R_CR0 + num)
  | REGCLASS_DB => put (UD_R_DR0 + num)
  | REGCLASS_SEG => if 5 <? Z.land num 7 then UDERR else put (UD_R_ES + Z.land num 7)
  end.

Definition decode_imm (n : nat) (size : Z) : D unit :=
  let* size := resolve_operand_size size in
  let size := wrap 8 size in
  do* upd_op n (fun o => set_op_type UD_OP_IMM (set_op_size size o)) in
  if size =? 8 then let* v := inp_uint8 in upd_op n (lval_put 8 v)
  else if size =? 16 then let* v := inp_uint16 in upd_op n (lval_put 16 v)
  else if size =? 32 then let* v := inp_uint32 in upd_op n (lval_put 32 v)
  else if size =? 64 then let* v := inp_uint64 in upd_op n (lval_put 64 v)
  else dret tt.

Definition decode_mem_disp (n : nat) (size : Z) : D unit :=
  if size =? 8 then
    do* upd_op n (set_op_offset 8) in let* v := inp_uint8 in upd_op n (lval_put 8 v)
  else if size =? 16 then
    do* upd_op n (set_op_offset 16) in let* v := inp_uint16 in upd_op n (lval_put 16 v)
  else if size =? 32 then
    do* upd_op n (set_op_offset 32) in let* v := inp_uint32 in upd_op n (lval_put 32 v)
  else if size =? 64 then
    do* upd_op n (set_op_offset 64) in let* v := inp_uint64 in upd_op n (lval_put 64 v)
  else dret tt.

Definition decode_modrm_reg (n : nat) (type : reg_class) (size : Z) : D unit :=
  let* rex := get_ins pfx_rex in
  let* b := modrm in
  decode_reg n type (Z.lor (Z.shiftl (REX_R rex) 3) (MODRM_REG b)) size.

(** The scale, index and base of a SIB byte; [rax] is the first register of the
    address size. *)
Definition decode_sib (n : nat) (rax : Z) : D unit :=
  do* inp_next in
  let* b := inp_curr in
  let* rex := get_ins pfx_rex in
  do* upd_op n (fun o =>
        set_op_base (rax + Z.lor (SIB_B b) (Z.shiftl (REX_B rex) 3))
          (set_op_index (rax + Z.lor (SIB_I b) (Z.shiftl (REX_X rex) 3))
            (set_op_scale (wrap 8 (Z.ldiff (Z.shiftl 1 (SIB_S b)) 1)) o))) in
  let* o := get_op n id in
  if op_index o =? rax + 4 then upd_op n (fun o => set_op_scale UD_NONE (set_op_index UD_NONE o))
  else dret tt.

(** The displacement size after a SIB byte whose base is (or is not) the frame
    pointer: without one, [mod] 0 has a 32-bit displacement and no base. *)
Definition sib_displacement (n : nat) (mod_ offset : Z) (frame : bool) : D Z :=
  if frame then
    do* (if mod_ =? 0 then upd_op n (set_op_base UD_NONE) else dret tt) in
    dret (if mod_ =? 1 then 8 else 32)
  else dret offset.

Definition bases16 : list Z :=
  [UD_R_BX; UD_R_BX; UD_R_BP; UD_R_BP; UD_R_SI; UD_R_DI; UD_R_BP; UD_R_BX].
Definition indices16 : list Z :=
  [UD_R_SI; UD_R_DI; UD_R_SI; UD_R_DI; UD_NONE; UD_NONE; UD_NONE; UD_NONE].

Definition decode_modrm_rm (n : nat) (type : reg_class) (size : Z) : D unit :=
  let* b := modrm in
  let mod_ := MODRM_MOD b in
  let* rex := get_ins pfx_rex in
  let* b := modrm in
  let rm := Z.lor (Z.shiftl (REX_B rex) 3) (MODRM_RM b) in
  if mod_ =? 3 then decode_reg n type rm size
  else
    do* upd_op n (set_op_type UD_OP_MEM) in
    let* sz := resolve_operand_size size in
    do* upd_op n (set_op_size (wrap 8 sz)) in
    let* adr := get_ins adr_mode in
    let* offset :=
      (if adr =? 64 then
         do* upd_op n (set_op_base (UD_R_RAX + rm)) in
         let* offset :=
           (if mod_ =? 1 then dret 8
            else if mod_ =? 2 then dret 32
            else if (mod_ =? 0) && (Z.land rm 7 =? 5)
            then do* upd_op n (set_op_base UD_R_RIP) in dret 32
            else dret 0) in
         if Z.land rm 7 =? 4 then
           do* decode_sib n UD_R_RAX in
           let* o := get_op n id in
           sib_displacement n mod_ offset ((op_base o =? UD_R_RBP) || (op_base o =? UD_R_R13))
         else dret offset
       else if adr =? 32 then
         do* upd_op n (set_op_base (UD_R_EAX + rm)) in
         let* offset :=
           (if mod_ =? 1 then dret 8
            else if mod_ =? 2 then dret 32
            else if (mod_ =? 0) && (rm =? 5)
            then do* upd_op n (set_op_base UD_NONE) in dret 32
            else dret 0) in
         if Z.land rm 7 =? 4 then
           do* decode_sib n UD_R_EAX in
           let* o := get_op n id in
           sib_displacement n mod_ offset (op_base o =? UD_R_EBP)
         else dret offset
       else
         do* upd_op n (fun o =>
               set_op_index (nth (Z.to_nat (Z.land rm 7)) indices16 0)
                 (set_op_base (nth (Z.to_nat (Z.land rm 7)) bases16 0) o)) in
         if (mod_ =? 0) && (rm =? 6) then do* upd_op n (set_op_base UD_NONE) in dret 16
         else if mod_ =? 1 then dret 8
         else if mod_ =? 2 then dret 16
         else dret 0) in
    if negb (offset =? 0) then decode_mem_disp n offset else dret tt.

Definition decode_moffset (n : nat) (size : Z) : D unit :=
  do* upd_op n (set_op_type UD_OP_MEM) in
  let* sz := resolve_operand_size size in
  do* upd_op n (set_op_size (wrap 8 sz)) in
  let* adr := get_ins adr_mode in
  decode_mem_disp n adr.

(** [if(MODRM_MOD(modrm(u)) == 3) UDERR], and its opposite. *)
Definition expect_memory : D unit :=
  let* b := modrm in if MODRM_MOD b =? 3 then UDERR else dret tt.
Definition expect_register : D unit :=
  let* b := modrm in if negb (MODRM_MOD b =? 3) then UDERR else dret tt.

Definition Mx_size (size : Z) : D Z :=
  let* b := modrm in
  dret (if MODRM_MOD b =? 3 then Mx_reg_size size else Mx_mem_size size).

Definition decode_operand (n : nat) (type size : Z) : D Z :=
  do* upd_op n (set_op_oprcode type) in
  do* (if type =? OP_A then decode_a n
       else if type =? OP_MR then let* s := Mx_size size in decode_modrm_rm n REGCLASS_GPR s
       else if type =? OP_F then
         do* upd_ins (set_br_far 1) in
         do* expect_memory in
         decode_modrm_rm n REGCLASS_GPR size
       else if type =? OP_M then do* expect_memory in decode_modrm_rm n REGCLASS_GPR size
       else if type =? OP_E then decode_modrm_rm n REGCLASS_GPR size
       else if type =? OP_G then decode_modrm_reg n REGCLASS_GPR size
       else if (type =? OP_sI) || (type =? OP_I) then decode_imm n size
       else if type =? OP_I1 then upd_op n (fun o => lval_put 32 1 (set_op_type UD_OP_CONST o))
       else if type =? OP_N then do* expect_register in decode_modrm_rm n REGCLASS_MMX size
       else if type =? OP_Q then decode_modrm_rm n REGCLASS_MMX size
       else if type =? OP_P then decode_modrm_reg n REGCLASS_MMX size
       else if type =? OP_U then do* expect_register in decode_modrm_rm n REGCLASS_XMM size
       else if type =? OP_W then decode_modrm_rm n REGCLASS_XMM size
       else if type =? OP_V then decode_modrm_reg n REGCLASS_XMM size
       else if type =? OP_MU then let* s := Mx_size size in decode_modrm_rm n REGCLASS_XMM s
       else if type =? OP_S then decode_modrm_reg n REGCLASS_SEG size
       else if type =? OP_O then decode_moffset n size
       else if (OP_R0 <=? type) && (type <=? OP_R7) then
         let* rex := get_ins pfx_rex in
         decode_reg n REGCLASS_GPR (Z.lor (Z.shiftl (REX_B rex) 3) (type - OP_R0)) size
       else if (type =? OP_AL) || (type =? OP_AX) || (type =? OP_eAX) || (type =? OP_rAX)
       then decode_reg n REGCLASS_GPR 0 size
       else if (type =? OP_CL) || (type =? OP_CX) || (type =? OP_eCX)
       then decode_reg n REGCLASS_GPR 1 size
       else if (type =? OP_DL) || (type =? OP_DX) || (type =? OP_eDX)
       then decode_reg n REGCLASS_GPR 2 size
       else if (OP_ES <=? type) && (type <=? OP_GS) then
         let* mode := get dis_mode in
         do* (if (mode =? 64) && negb (type =? OP_FS) && negb (type =? OP_GS)
              then UDERR else dret tt) in
         upd_op n (fun o => set_op_size 16 (set_op_base (type - OP_ES + UD_R_ES)
                             (set_op_type UD_OP_REG o)))
       else if type =? OP_J then
         do* decode_imm n size in upd_op n (set_op_type UD_OP_JIMM)
       else if type =? OP_R then do* expect_register in decode_modrm_rm n REGCLASS_GPR size
       else if type =? OP_C then decode_modrm_reg n REGCLASS_CR size
       else if type =? OP_D then decode_modrm_reg n REGCLASS_DB size
       else if type =? OP_I3 then upd_op n (fun o => lval_put 8 3 (set_op_type UD_OP_CONST o))
       else if (OP_ST0 <=? type) && (type <=? OP_ST7) then
         upd_op n (fun o => set_op_size 80 (set_op_base (type - OP_ST0 + UD_R_ST0)
                             (set_op_type UD_OP_REG o)))
       else dret tt) in
  dret 0.

Definition decode_operands (x : ud_itab_entry) : D Z :=
  do* decode_operand 0 (operand_type (operand1 x)) (operand_size (operand1 x)) in
  do* decode_operand 1 (operand_type (operand2 x)) (operand_size (operand2 x)) in
  do* decode_operand 2 (operand_type (operand3 x)) (operand_size (operand3 x)) in
  dret 0.

(** ** Instructions *)

Definition clear_ins (i : ud_ins) : ud_ins :=
  UdIns UD_Inone [ud_operand_zero; ud_operand_zero; ud_operand_zero] 0 0 0 0 0 0 0 0 0 0
    (opr_mode i) (adr_mode i) 0 (br_near i) 0 (modrm_ i) (primary_opcode i) None (le i).

Definition clear_insn : D unit := upd_ins clear_ins.

Definition resolve_pfx_str : D Z :=
  let* str := get_ins pfx_str in
  do* (if str =? 0xf3 then
         let* p := itab_prefix_of in
         if negb (P_STR p =? 0) then upd_ins (set_pfx_rep 0xf3) else upd_ins (set_pfx_repe 0xf3)
       else if str =? 0xf2 then upd_ins (set_pfx_repne 0xf3)
       else dret tt) in
  dret 0.

Definition resolve_mode : D Z :=
  let* err := get_ins error in
  if negb (err =? 0) then dret (-1)
  else
    let* mode := get dis_mode in
    let* opr := get_ins pfx_opr in
    let* adr := get_ins pfx_adr in
    if mode =? 64 then
      let* p := itab_prefix_of in
      if negb (P_INV64 p =? 0) then do* UDERR in dret (-1)
      else
        let* rex := get_ins pfx_rex in
        let rex := Z.lor (Z.land rex 0x40) (Z.land rex (REX_PFX_MASK p)) in
        do* upd_ins (set_pfx_rex rex) in
        let default64 := P_DEF64 p in
        do* upd_ins (set_opr_mode
              (if negb (REX_W rex =? 0) then 64
               else if negb (opr =? 0) then 16
               else if negb (default64 =? 0) then 64 else 32)) in
        do* upd_ins (set_adr_mode (if negb (adr =? 0) then 32 else 64)) in
        dret 0
    else if mode =? 32 then
      do* upd_ins (set_opr_mode (if negb (opr =? 0) then 16 else 32)) in
      do* upd_ins (set_adr_mode (if negb (adr =? 0) then 16 else 32)) in
      dret 0
    else if mode =? 16 then
      do* upd_ins (set_opr_mode (if negb (opr =? 0) then 32 else 16)) in
      do* upd_ins (set_adr_mode (if negb (adr =? 0) then 32 else 16)) in
      dret 0
    else dret 0.

Definition decode_insn (ptr : Z) : D Z :=
  let* x := itab_at ptr in
  do* upd_ins (fun i => set_mnemonic (itab_mnemonic x) (set_itab_entry (Some x) i)) in
  let* r := resolve_pfx_str in
  if r =? 0 then
    let* r := resolve_mode in
    if r =? 0 then
      let* r := decode_operands x in
      if r =? 0 then
        let* r := resolve_mnemonic in
        dret (if r =? 0 then 0 else -1)
      else dret (-1)
    else dret (-1)
  else dret (-1).

Definition decode_3dnow : D Z :=
  let* p := le_table 0xc in
  do* decode_insn p in
  do* inp_next in
  let* err := get_ins error in
  if negb (err =? 0) then dret (-1)
  else
    let* c := inp_curr in
    let* ptr := le_table c in
    let* x := itab_at ptr in
    do* upd_ins (set_mnemonic (itab_mnemonic x)) in
    dret 0.

(** [decode_ext] is what the function calls at its end. *)
Definition decode_ssepfx (decode_ext : Z -> D Z) : D Z :=
  let* str := get_ins pfx_str in
  let* opr := get_ins pfx_opr in
  let pfx := if str =? 0 then opr else str in
  let idx := wrap 8 ((Z.land pfx 0xf + 1) / 2) in
  let* p := le_table idx in
  let idx := if p =? 0 then 0 else idx in
  let* p := le_table idx in
  do* (if negb (idx =? 0) && negb (p =? 0) then
         do* upd_ins (set_pfx_str 0) in
         if pfx =? 0x66 then upd_ins (set_pfx_opr 0) else dret tt
       else dret tt) in
  let* p := le_table idx in
  decode_ext p.

(** [fuel] bounds the nesting of the extension tables. *)
Fixpoint decode_ext (fuel : nat) (ptr : Z) : D Z :=
  match fuel with
  | O => dfault
  | S fuel' =>
      if Z.land ptr 0x8000 =? 0 then decode_insn ptr
      else
        do* set_le_at (Z.ldiff ptr 0x8000) in
        let* type := le_type in
        let next (idx : Z) : D Z := let* p := le_table (wrap 8 idx) in decode_ext fuel' p in
        match type with
        | UD_TAB__OPC_3DNOW => decode_3dnow
        | UD_TAB__OPC_MOD => let* b := modrm in next ((MODRM_MOD b + 1) / 4)
        | UD_TAB__OPC_MODE => let* mode := get dis_mode in next (if negb (mode =? 64) then 0 else 1)
        | UD_TAB__OPC_OSIZE =>
            let* mode := get dis_mode in
            let* rex := get_ins pfx_rex in
            let* opr := get_ins pfx_opr in
            next (eff_opr_mode mode (REX_W rex) opr / 32)
        | UD_TAB__OPC_ASIZE =>
            let* mode := get dis_mode in
            let* adr := get_ins pfx_adr in
            next (eff_adr_mode mode adr / 32)
        | UD_TAB__OPC_X87 => let* b := modrm in next (b - 0xC0)
        | UD_TAB__OPC_VENDOR =>
            let* v := get vendor in
            if v =? UD_VENDOR_ANY then
              let* p := le_table 0 in next (if negb (p =? 0) then 0 else 1)
            else if v =? UD_VENDOR_AMD then next 0
            else next 1
        | UD_TAB__OPC_RM => let* b := modrm in next (MODRM_RM b)
        | UD_TAB__OPC_REG => let* b := modrm in next (MODRM_REG b)
        | UD_TAB__OPC_SSE => decode_ssepfx (decode_ext fuel')
        | _ => next 0
        end
  end.

(** The opcode bytes; [fuel] bounds the nesting of the opcode tables, and the
    extension tables are at most seven deep. *)
Fixpoint decode_opcode (fuel : nat) : D Z :=
  match fuel with
  | O => dfault
  | S fuel' =>
      UD_RETURN_ON_ERROR (
      let* c := inp_curr in
      do* upd_ins (set_primary_opcode c) in
      let* ptr := le_table c in
      if negb (Z.land ptr 0x8000 =? 0) then
        do* set_le_at (Z.ldiff ptr 0x8000) in
        let* type := le_type in
        match type with
        | UD_TAB__OPC_TABLE => do* inp_next in decode_opcode fuel'
        | _ => decode_ext 8 ptr
        end
      else decode_ext 8 ptr)
  end.

Definition ud_decode : D Z :=
  do* inp_start in
  do* clear_insn in
  do* set_le_at 0 in
  let* p := decode_prefixes in
  let* failed :=
    (if p =? -1 then dret true
     else
       let* o := decode_opcode 4 in
       if o =? -1 then dret true
       else let* err := get_ins error in dret (negb (err =? 0))) in
  do* upd_ins (set_error (if failed then 1 else 0)) in
  do* (if failed then
         do* clear_insn in
         let* x := itab_at 0 in
         upd_ins (fun i => set_mnemonic (itab_mnemonic x) (set_itab_entry (Some x) i))
       else dret tt) in
  let* p := itab_prefix_of in
  let* t0 := get_op 0 op_type in
  let* t1 := get_op 1 op_type in
  do* (if (P_SEG p =? 0) && negb (t0 =? UD_OP_MEM) && negb (t1 =? UD_OP_MEM)
       then upd_ins (set_pfx_seg 0) else dret tt) in
  do* upd (fun u => set_insn_offset (pc u) u) in
  do* upd_out (set_asm_buf_fill 0) in
  let* ctr := get_inp inp_ctr in
  do* upd (fun u => set_pc (wrap 64 (pc u + ctr)) u) in
  dret (wrap 32 ctr).
