(* ===== verification/DecodeLogic.v ===== *)
(** * A program logic for the decoder

    [triple P k f Q]: from a state that satisfies [P], with the next [k] bytes
    of the input buffer readable, [f] returns (it neither faults nor runs out
    of fuel), satisfies [Q], moves the input forward by at most [k] bytes and
    counts them, and would do exactly the same in any memory that agrees on
    the bytes it consumed. *)

From stdpp Require Import base list strings.
From S2P Require Import Prelude Itab Ud Decode.

(** ** Invariant of the object *)

(** A register of [ud_reg_tab], and one or none. *)
Definition reg_ok (r : Z) : Prop := UD_R_AL <= r <= UD_R_RIP.
Definition reg_or_none (r : Z) : Prop := UD_NONE <= r <= UD_R_RIP.

Definition op_ok (o : ud_operand) : Prop :=
  reg_or_none (op_base o) /\ reg_or_none (op_index o) /\
  (op_type o = UD_OP_REG -> op_base o <> UD_NONE).

Definition ops_ok (i : ud_ins) : Prop := error i = 0 -> Forall op_ok (operand i).

Record inv (u : ud) : Prop := Inv {
  inv_curr : is_byte (inp_curr_ (inp u));
  inv_modrm : is_byte (modrm_ (ins u));
  inv_rex : is_byte (pfx_rex (ins u));
  inv_seg : reg_or_none (pfx_seg (ins u));
  inv_ops : ops_ok (ins u)
}.

(** ** Input *)

(** The next [k] bytes, as far as the buffer goes, are readable. *)
Definition readable (e : env) (u : ud) (k : Z) : Prop :=
  inp_buf (inp u) <> 0 /\
  forall i, inp_buf_index (inp u) <= i < inp_buf_index (inp u) + k -> i < inp_buf_size (inp u) ->
    exists c, code e (inp_buf (inp u) + i) = Some c /\ is_byte c.

Definition agree (e e' : env) (b i j : Z) : Prop := forall n, i <= n < j -> code e (b + n) = code e' (b + n).

(** What every step of the decoder keeps. *)
Record moved (u u' : ud) (k : Z) : Prop := Moved {
  moved_buf : inp_buf (inp u') = inp_buf (inp u);
  moved_size : inp_buf_size (inp u') = inp_buf_size (inp u);
  moved_index : inp_buf_index (inp u) <= inp_buf_index (inp u') <= inp_buf_index (inp u) + k;
  moved_ctr : inp_ctr (inp u') - inp_ctr (inp u) = inp_buf_index (inp u') - inp_buf_index (inp u);
  moved_end : inp_end (inp u) = 0 -> inp_buf_index (inp u) + k <= inp_buf_size (inp u) -> inp_end (inp u') = 0;
  moved_mode : dis_mode u' = dis_mode u;
  moved_vendor : vendor u' = vendor u;
  moved_pc : pc u' = pc u;
  moved_out : asm_out u' = asm_out u;
  moved_modrm : have_modrm (ins u) <> 0 ->
    have_modrm (ins u') = have_modrm (ins u) /\ modrm_ (ins u') = modrm_ (ins u);
  moved_error : error (ins u) <> 0 -> error (ins u') <> 0
}.

Definition triple {A} (P : ud -> Prop) (k : Z) (f : D A) (Q : A -> ud -> Prop) : Prop :=
  forall e u, inv u -> P u -> readable e u k ->
  exists a u', f e u = Some (a, u') /\ inv u' /\ Q a u' /\ moved u u' k /\
    forall e', agree e e' (inp_buf (inp u)) (inp_buf_index (inp u)) (inp_buf_index (inp u')) ->
      f e' u = Some (a, u').

(** ** Rules *)

Lemma moved_trans u1 u2 u3 k l : moved u1 u2 k -> moved u2 u3 l -> moved u1 u3 (k + l).
Proof.
  intros [B1 S1 I1 C1 E1 M1 V1 P1 O1 R1 X1] [B2 S2 I2 C2 E2 M2 V2 P2 O2 R2 X2].
  split; try congruence; try lia.
Qed.

Lemma readable_weaken e u k l : readable e u k -> l <= k -> readable e u l.
Proof. intros [Hb Hr] Hl. split; [done|]. intros i Hi. apply Hr. lia. Qed.

Lemma readable_moved e u u' k l : readable e u (k + l) -> moved u u' k -> 0 <= l -> readable e u' l.
Proof.
  intros [Hb Hr] M Hl. destruct M as [B S I _ _ _ _ _ _ _ _]. unfold readable. rewrite B, S.
  split; [done|]. intros i Hi. apply Hr. lia.
Qed.

Lemma triple_bind {A B} P k l (f : D A) (g : A -> D B) Q R :
  0 <= k -> 0 <= l -> triple P k f Q -> (forall a, triple (Q a) l (g a) R) ->
  triple P (k + l) (dbind f g) R.
Proof.
  intros Hk Hl Hf Hg e u Hi HP Hr.
  destruct (Hf e u Hi HP) as (a & u' & Ef & Hi' & HQ & Mf & Lf); [by apply (readable_weaken e u (k + l)); [|lia]|].
  destruct (Hg a e u' Hi' HQ) as (b & u'' & Eg & Hi'' & HR & Mg & Lg); [by apply (readable_moved e u u' k l)|].
  exists b, u''. unfold dbind. split; [by erewrite bind_some by exact Ef|].
  split; [done|]. split; [done|]. split; [by apply (moved_trans u u')|].
  intros e' He'. pose proof (moved_index _ _ _ Mf). pose proof (moved_index _ _ _ Mg).
  erewrite bind_some.
  - apply Lg. rewrite (moved_buf _ _ _ Mf). intros n Hn. apply He'. lia.
  - apply Lf. intros n Hn. apply He'. lia.
Qed.

Lemma triple_conseq {A} (P P' : ud -> Prop) k k' (f : D A) (Q Q' : A -> ud -> Prop) :
  triple P k f Q -> k <= k' -> (forall u, P' u -> P u) -> (forall a u, Q a u -> Q' a u) ->
  triple P' k' f Q'.
Proof.
  intros Hf Hk HP HQ e u Hi Hu Hr.
  destruct (Hf e u Hi (HP u Hu)) as (a & u' & E & Hi' & Hq & M & L); [by eapply readable_weaken|].
  exists a, u'. split; [done|]. split; [done|]. split; [by apply HQ|]. split; [|done].
  destruct M; split; try done; lia.
Qed.

Lemma moved_refl u k : 0 <= k -> moved u u k.
Proof. intros Hk. split; try done; try lia. Qed.

Lemma triple_ret {A} (P : ud -> Prop) (a : A) (Q : A -> ud -> Prop) k :
  0 <= k -> (forall u, P u -> Q a u) -> triple P k (dret a) Q.
Proof. intros Hk H e u Hi HP Hr. exists a, u. split_and!; eauto using moved_refl. Qed.

Lemma triple_get {A} (P : ud -> Prop) (f : ud -> A) k :
  0 <= k -> triple P k (get f) (fun a u => P u /\ a = f u).
Proof. intros Hk e u Hi HP Hr. exists (f u), u. split_and!; eauto using moved_refl. Qed.

(** An update of the instruction that keeps the invariant and the bytes read. *)
Record ins_step (u : ud) (i' : ud_ins) : Prop := InsStep {
  step_modrm : is_byte (modrm_ i');
  step_rex : is_byte (pfx_rex i');
  step_seg : reg_or_none (pfx_seg i');
  step_ops : ops_ok i';
  step_have : have_modrm (ins u) <> 0 ->
    have_modrm i' = have_modrm (ins u) /\ modrm_ i' = modrm_ (ins u);
  step_error : error (ins u) <> 0 -> error i' <> 0
}.

Lemma triple_upd_ins (P : ud -> Prop) (f : ud_ins -> ud_ins) (Q : unit -> ud -> Prop) k :
  0 <= k ->
  (forall u, inv u -> P u -> ins_step u (f (ins u))) ->
  (forall u, P u -> Q tt (on_ins f u)) ->
  triple P k (upd_ins f) Q.
Proof.
  intros Hk Hs HQ e u Hi HP Hr. exists tt, (on_ins f u). split; [done|].
  destruct (Hs u Hi HP) as [H1 H2 H3 H4 H5 H6]. split; [by split; [apply Hi| | | |]|].
  split; [auto|]. split; [|done]. split; cbn; try done; try lia.
Qed.

(** The state after a byte [c], and after the end of the buffer. *)
Definition after_byte (c : Z) (u : ud) : ud :=
  on_inp (fun i => set_inp_curr_ c (set_inp_buf_index (inp_buf_index i + 1)
                     (set_inp_ctr (inp_ctr i + 1) i))) u.
Definition after_eoi (u : ud) : ud := on_ins (set_error 1) (on_inp (set_inp_end 1) u).

Lemma inp_next_eq e u :
  inp_buf (inp u) <> 0 ->
  inp_next e u =
    if (inp_end (inp u) =? 0) && (inp_buf_index (inp u) <? inp_buf_size (inp u))
    then match code e (inp_buf (inp u) + inp_buf_index (inp u)) with
         | Some c => Some (c, after_byte c u)
         | None => None
         end
    else Some (0, after_eoi u).
Proof.
  intros Hb. unfold inp_next, dbind, get_inp, get, gets, bind.
  destruct (inp_end (inp u) =? 0); [|done]. rewrite (proj2 (Z.eqb_neq _ _) Hb). cbn [negb andb].
  destruct (inp_buf_index (inp u) <? inp_buf_size (inp u)); [|done].
  unfold upd_inp, upd, modify. by destruct (code e (inp_buf (inp u) + inp_buf_index (inp u))).
Qed.

(** Reading a byte: it is the current one unless the buffer ended, which is an
    error. *)
Lemma triple_inp_next (P : ud -> Prop) :
  (forall u i, P u -> P (set_inp i u)) ->
  (forall u, P u -> P (on_ins (set_error 1) u)) ->
  triple P 1 inp_next (fun a u => P u /\ is_byte a).
Proof.
  intros HPi HPe e u Hi HP [Hb Hr].
  destruct (decide (inp_end (inp u) = 0 /\ inp_buf_index (inp u) < inp_buf_size (inp u))) as [[E0 Hlt]|Hend].
  - destruct (Hr (inp_buf_index (inp u))) as (c & Ec & Hc); [lia|done|].
    assert (forall e', inp_next e' u = match code e' (inp_buf (inp u) + inp_buf_index (inp u)) with
      Some c => Some (c, after_byte c u) | None => None end) as Eq.
    { intros e'. rewrite inp_next_eq by done. by rewrite E0, (proj2 (Z.ltb_lt _ _) Hlt). }
    exists c, (after_byte c u). split; [by rewrite Eq, Ec|]. split; [destruct Hi; by split|].
    split; [split; [apply HPi, HP | done]|]. split; [split; cbn; done || lia|].
    intros e' He'. rewrite Eq. cbn in He'. rewrite <- (He' (inp_buf_index (inp u))) by lia. by rewrite Ec.
  - assert (forall e', inp_next e' u = Some (0, after_eoi u)) as Eq.
    { intros e'. rewrite inp_next_eq by done.
      replace (_ && _) with false; [done|]. symmetry. apply andb_false_iff. zbool; lia || auto. }
    exists 0, (after_eoi u). split; [apply Eq|]. split; [destruct Hi; split; cbn; done|].
    split; [split; [apply HPe, HPi, HP | unfold is_byte; lia]|]. split; [|by intros e' _; apply Eq].
    split; cbn; done || lia.
Qed.

(** ** Sequencing *)

Lemma triple_seq {A B} k n P (f : D A) (g : A -> D B) Q R :
  0 <= k <= n -> triple P k f Q -> (forall a, triple (Q a) (n - k) (g a) R) ->
  triple P n (dbind f g) R.
Proof.
  intros Hk Hf Hg. replace n with (k + (n - k)) by lia.
  apply (triple_bind P k (n - k) f g Q); [lia|lia|done|done].
Qed.

Lemma triple_seq0 {A B} n P (f : D A) (g : A -> D B) Q R :
  0 <= n -> triple P 0 f Q -> (forall a, triple (Q a) n (g a) R) -> triple P n (dbind f g) R.
Proof. intros Hn Hf Hg. apply (triple_seq 0 n P f g Q); [lia|done|]. by rewrite Z.sub_0_r. Qed.

Lemma triple_pre {A} (P P' : ud -> Prop) k (f : D A) Q :
  triple P k f Q -> (forall u, P' u -> P u) -> triple P' k f Q.
Proof. intros Hf HP. by apply (triple_conseq P P' k k f Q Q); [|lia| |]. Qed.

(** A fact that needs no state. *)
Lemma triple_pure {A} (P : ud -> Prop) (phi : Prop) k (f : D A) Q :
  (phi -> triple P k f Q) -> triple (fun u => P u /\ phi) k f Q.
Proof. intros H e u Hi [HP Hphi] Hr. by apply H. Qed.

Lemma triple_inv {A} (P : ud -> Prop) k (f : D A) Q :
  triple (fun u => P u /\ inv u) k f Q -> triple P k f Q.
Proof. intros H e u Hi HP Hr. by apply H. Qed.

(** What an assertion must not depend on for a byte to be read under it. *)
Definition stable (P : ud -> Prop) : Prop :=
  (forall u i, P u -> P (set_inp i u)) /\ (forall u, P u -> P (on_ins (set_error 1) u)).

Lemma triple_next (P : ud -> Prop) k :
  stable P -> 1 <= k -> triple P k inp_next (fun a u => P u /\ is_byte a).
Proof.
  intros [H1 H2] Hk. eapply triple_conseq; [by apply (triple_inp_next P) | lia | done | done].
Qed.

Lemma triple_uderr (P : ud -> Prop) k :
  stable P -> 0 <= k -> triple P k UDERR (fun _ u => P u /\ error (ins u) <> 0).
Proof.
  intros [_ H] Hk. apply triple_upd_ins; [done| |].
  - intros u [] _. split; cbn; done.
  - intros u HP. cbn. split; [by apply H | done].
Qed.

(** [Z] values of [k] bytes. *)
Lemma triple_uint16 (P : ud -> Prop) : stable P -> triple P 2 inp_uint16 (fun _ u => P u).
Proof.
  intros HP. unfold inp_uint16.
  eapply (triple_seq 1); [lia | by apply triple_next | intros a; cbv beta].
  eapply triple_pre; [|intros u [H _]; exact H].
  eapply (triple_seq 1); [lia | by apply triple_next | intros b; cbv beta].
  apply triple_ret; [lia|]. by intros u [? _].
Qed.

(** Read a byte and forget what it is. *)
Ltac next_byte HP :=
  eapply (triple_seq 1); [lia | apply triple_next; [exact HP | lia] | intros ?; cbv beta zeta];
  eapply triple_pre; [|let H := fresh in intros ? [H _]; exact H].

Lemma triple_uint32 (P : ud -> Prop) : stable P -> triple P 4 inp_uint32 (fun _ u => P u).
Proof. intros HP. unfold inp_uint32. do 4 next_byte HP. by apply triple_ret; [lia|]. Qed.

Lemma triple_uint64 (P : ud -> Prop) : stable P -> triple P 8 inp_uint64 (fun _ u => P u).
Proof. intros HP. unfold inp_uint64. do 8 next_byte HP. by apply triple_ret; [lia|]. Qed.

(** An update of the operand: only the operands change. *)
Lemma triple_upd_op (P : ud -> Prop) n f k (Q : unit -> ud -> Prop) :
  0 <= k ->
  (forall u o, inv u -> P u -> error (ins u) = 0 -> op_ok o -> op_ok (f o)) ->
  (forall u l, P u -> Q tt (on_ins (set_operand l) u)) ->
  triple P k (upd_op n f) Q.
Proof.
  intros Hk Hf HQ. apply triple_upd_ins; [done| |].
  - intros u Hi HP. destruct Hi as [H1 H2 H3 H4 H5] eqn:EI. split; cbn; try done.
    intros He. apply Forall_alter; [by apply H5|]. intros o _ Ho. by apply (Hf u o Hi HP He).
  - intros u HP. apply HQ, HP.
Qed.

Lemma triple_modrm (P : ud -> Prop) k :
  stable P -> 1 <= k ->
  (forall u b, P u -> have_modrm (ins u) = 0 -> P (on_ins (fun i => set_have_modrm 1 (set_modrm_ b i)) u)) ->
  triple P k modrm (fun b u => P u /\ is_byte b /\ have_modrm (ins u) <> 0 /\ modrm_ (ins u) = b).
Proof.
  intros HP Hk Hm. unfold modrm.
  eapply triple_seq0; [lia | apply triple_get; lia | intros h; cbv beta].
  eapply (triple_seq 1 k) with (Q := fun _ u => P u /\ have_modrm (ins u) <> 0); [lia| |].
  - destruct (Z.eqb_spec h 0) as [->|Hne].
    + eapply triple_pre with (P := fun u => P u /\ have_modrm (ins u) = 0); [|by intros u [? ?]].
      assert (stable (fun u => P u /\ have_modrm (ins u) = 0)) as HP'
        by (destruct HP as [H1 H2]; split; [intros u i [? ?]; split; auto | intros u [? ?]; split; auto]).
      eapply (triple_seq 1); [lia | apply triple_next; [exact HP' | lia] | intros b; cbv beta].
      apply triple_upd_ins; [lia| |].
      * intros u [] [[_ Hh] Hb]. split; cbn; done.
      * intros u [[Hu Hh] Hb]. cbn. split; [by apply Hm | done].
    + apply triple_ret; [lia|]. intros u [Hu Eh]. split; [done|]. by rewrite <- Eh.
  - intros []. cbv beta. apply triple_inv.
    eapply triple_conseq; [apply (triple_get _ (fun u => modrm_ (ins u)) (k - 1)); lia | lia | intros u HH; exact HH|].
    intros b u [[[Hu Hh] Hi] ->]. split; [done|]. split; [apply Hi|]. done.
Qed.
