(* ===== verification/DecodeSafe.v ===== *)
(** * Safety of the decoder

    The triples of the functions of decode.c, from operands up to
    [ud_decode]: every table access is in bounds, the recursion over the
    extension tables ends, and an instruction takes at most thirty bytes. *)

From stdpp Require Import base list strings.
From S2P Require Import Prelude Itab Ud Decode DecodeLogic.

(** ** Operands *)

(** Assertions the decoding of an operand keeps. *)
Record opframe (P : ud -> Prop) : Prop := OpFrame {
  opframe_stable : stable P;
  opframe_operand : forall u l, P u -> P (on_ins (set_operand l) u);
  opframe_modrm : forall u b, P u -> have_modrm (ins u) = 0 ->
    P (on_ins (fun i => set_have_modrm 1 (set_modrm_ b i)) u);
  opframe_mode : forall u, P u -> opr_mode (ins u) = 16 \/ opr_mode (ins u) = 32 \/ opr_mode (ins u) = 64
}.

(** With the mod/rm byte already read. *)
Definition with_modrm (b : Z) (P : ud -> Prop) (u : ud) : Prop :=
  P u /\ have_modrm (ins u) <> 0 /\ modrm_ (ins u) = b.

Lemma with_modrm_opframe b P : opframe P -> opframe (with_modrm b P).
Proof.
  intros [[S1 S2] H2 H3 H4]. split.
  - split; [intros u i (? & ? & ?) | intros u (? & ? & ?)]; (split; [|done]); auto.
  - intros u l (? & ? & ?). split; [|done]. auto.
  - by intros u c (? & ? & ?).
  - intros u (? & ? & ?). auto.
Qed.

Lemma triple_modrm_first P k :
  opframe P -> 1 <= k -> triple P k modrm (fun b u => with_modrm b P u /\ is_byte b).
Proof.
  intros [H1 _ H3 _] Hk. eapply triple_conseq; [by apply (triple_modrm P k) | lia | done |].
  intros b u (? & ? & ? & ?). by split; [split|].
Qed.

Lemma triple_modrm_again b P k :
  0 <= k -> triple (with_modrm b P) k modrm (fun c u => with_modrm b P u /\ c = b).
Proof.
  intros Hk. unfold modrm.
  eapply triple_seq0; [lia | apply triple_get; lia | intros h; cbv beta].
  eapply triple_seq0 with (Q := fun _ u => with_modrm b P u); [lia| |].
  - intros e u Hi [Hu Hh] Hr. destruct (Z.eqb_spec h 0) as [->|Hne]; [by destruct Hu as (_ & ? & _)|].
    by apply (triple_ret (with_modrm b P) tt (fun _ u => with_modrm b P u) 0).
  - intros []. eapply triple_conseq;
      [apply (triple_get _ (fun u => modrm_ (ins u)) k); lia | lia | intros u HH; exact HH|].
    intros c u [Hu ->]. split; [done|]. apply Hu.
Qed.

Lemma triple_upd_op_frame P n f k :
  opframe P -> 0 <= k ->
  (forall u o, inv u -> P u -> error (ins u) = 0 -> op_ok o -> op_ok (f o)) ->
  triple P k (upd_op n f) (fun _ => P).
Proof. intros HP Hk Hf. apply triple_upd_op; [done|done|]. intros. by apply (opframe_operand P HP). Qed.

(** Updates that leave the registers of the operand alone. *)
Ltac upd_same := apply triple_upd_op_frame;
  [assumption | lia | intros ? ? _ _ _ [? [? ?]]; split; [|split]; cbn; (done || lia || congruence)].

(** Assertions the decoding of a memory operand [n] keeps: its type is settled. *)
Record memframe (n : nat) (P : ud -> Prop) : Prop := MemFrame {
  memframe_stable : stable P;
  memframe_operand : forall u f, (forall o, op_type (f o) = op_type o) -> P u ->
    P (on_ins (fun i => set_operand (alter f n (operand i)) i) u)
}.

Definition is_mem (n : nat) (P : ud -> Prop) (u : ud) : Prop :=
  P u /\ forall o, operand (ins u) !! n = Some o -> op_type o = UD_OP_MEM.

Lemma opframe_memframe n P : opframe P -> memframe n P.
Proof. intros HP. split; [apply HP|]. intros u f _ Hu. by apply (opframe_operand P HP u (alter f n (operand (ins u)))). Qed.

Lemma is_mem_memframe n P : opframe P -> memframe n (is_mem n P).
Proof.
  intros HP. pose proof (opframe_stable P HP) as [S1 S2]. split.
  - split; [intros u i [? ?] | intros u [? ?]]; (split; [|done]); auto.
  - intros u f Hf [Hu Hm]. split.
    + by apply (opframe_operand P HP u (alter f n (operand (ins u)))).
    + cbn. intros o. rewrite list_lookup_alter_eq. intros (o' & Ho' & ->)%fmap_Some. rewrite Hf. by apply Hm.
Qed.

Lemma triple_upd_mem P n f k :
  memframe n P -> 0 <= k -> (forall o, op_type (f o) = op_type o) ->
  (forall u o, P u -> operand (ins u) !! n = Some o -> op_ok o -> op_ok (f o)) ->
  triple P k (upd_op n f) (fun _ => P).
Proof.
  intros HP Hk Ht Hf. apply triple_upd_ins; [done| |].
  - intros u [] Hu. split; cbn; try done. unfold ops_ok; cbn. intros He. apply Forall_lookup. intros j o.
    destruct (decide (j = n)) as [->|Hne].
    + rewrite list_lookup_alter_eq. intros (o' & Ho' & ->)%fmap_Some. apply (Hf u); [done|done|].
      specialize (inv_ops He). rewrite Forall_lookup in inv_ops. eauto.
    + rewrite list_lookup_alter_ne by done. intros Ho. specialize (inv_ops He).
      rewrite Forall_lookup in inv_ops. eauto.
  - intros u Hu. by apply (memframe_operand n P HP).
Qed.

(** Updates that leave the registers and the type alone, and updates of the
    registers of a memory operand. *)
Ltac upd_plain := apply triple_upd_mem;
  [assumption || by apply opframe_memframe | lia | done
  | intros ? ? _ _ [? [? ?]]; split; [|split]; cbn; done].
Ltac upd_regs := apply triple_upd_mem;
  [assumption | lia | done
  | let Ht := fresh in let Ho := fresh in
    intros ? ? [_ Ht] Ho [? [? ?]]; apply Ht in Ho; split; [|split];
    cbn [op_base op_index op_type set_op_base set_op_index set_op_scale];
    unfold reg_or_none in *; done || lia || congruence].

Definition gpr_size (s : Z) : bool :=
  (s =? SZ_V) || (s =? SZ_Z) || (s =? SZ_Y) || (s =? SZ_RDQ) ||
  (s =? SZ_B) || (s =? SZ_W) || (s =? SZ_D) || (s =? SZ_Q).

Lemma triple_resolve P s k :
  opframe P -> 0 <= k ->
  triple P k (resolve_operand_size s) (fun r u => P u /\
    (gpr_size s = true -> r = 8 \/ r = 16 \/ r = 32 \/ r = 64) /\
    (s = SZ_Z -> r = 16 \/ r = 32) /\
    (s <> SZ_V -> s <> SZ_Z -> s <> SZ_Y -> s <> SZ_RDQ -> r = s)).
Proof.
  intros HP Hk. unfold resolve_operand_size.
  eapply triple_seq0; [lia | apply triple_get; lia | intros o; cbv beta].
  eapply triple_seq0; [lia | apply triple_get; lia | intros d; cbv beta].
  apply triple_ret; [lia|]. intros u [[HPu ->] _]. split; [done|].
  unfold gpr_size. destruct (opframe_mode P HP u HPu) as [->|[->| ->]]; zbool; cbn; lia.
Qed.

Lemma triple_decode_reg P n type num size k :
  opframe P -> 0 <= k -> 0 <= num < 16 ->
  (type = REGCLASS_GPR -> gpr_size size = true \/ forall u, P u -> error (ins u) <> 0) ->
  triple P k (decode_reg n type num size) (fun _ => P).
Proof.
  intros HP Hk Hn Hs. unfold decode_reg.
  eapply triple_seq0; [lia | by apply triple_resolve | intros r; cbv beta].
  assert (forall P', opframe P' -> forall reg, reg_ok reg -> triple P' k (upd_op n (fun o =>
    set_op_size (wrap 8 r) (set_op_base reg (set_op_type UD_OP_REG o)))) (fun _ => P')) as Hput.
  { intros P' HP' reg Hreg. apply triple_upd_op_frame; [done|lia|].
    intros u o _ _ _ (Hb & Hi & Ht). unfold reg_ok in Hreg. split; [|split]; cbn; unfold reg_or_none in *; lia || done. }
  assert (0 <= Z.land num 7 < 8) as H7.
  { change 7 with (Z.ones 3). rewrite Z.land_ones by lia. by apply Z.mod_pos_bound. }
  apply triple_pure. intros [Hr _].
  destruct type; try (apply Hput; [done|]; unfold reg_ok; lia).
  - unfold decode_gpr. eapply triple_seq0 with (Q := fun reg u => P u /\ (reg_ok reg \/ error (ins u) <> 0)); [lia| |].
    + eapply triple_seq0; [lia | apply triple_get; lia | intros d; cbv beta].
      eapply triple_seq0; [lia | apply triple_get; lia | intros rex; cbv beta].
      apply triple_ret; [lia|]. intros u [[HPu _] _]. split; [done|].
      destruct (Hs eq_refl) as [Hg|He]; [left|right; by apply He].
      unfold reg_ok. destruct (Hr Hg) as [->|[->|[->| ->]]]; cbn; zbool; cbn; try lia;
        destruct (negb _); cbn; lia.
    + intros reg. apply triple_upd_op; [lia| |].
      * intros u o _ [_ [Hreg|He]] He0 (Hb & Hi & Ht); [|done].
        unfold reg_ok in Hreg. split; [|split]; cbn; unfold reg_or_none in *; lia || done.
      * intros u l [HPu _]. by apply (opframe_operand P HP).
  - destruct (Z.ltb_spec 5 (Z.land num 7)).
    + eapply triple_conseq; [apply (triple_uderr P k); [apply HP | lia] | lia | done | by intros _ u [? _]].
    + apply Hput; [done|]. unfold reg_ok. lia.
Qed.

Definition imm_cost (s : Z) : Z :=
  if s =? SZ_B then 1 else if s =? SZ_W then 2 else if (s =? SZ_Z) || (s =? SZ_D) then 4 else 8.

(** A value of a given size, stored in the operand. *)
Lemma triple_read_put {A} P n (f : D A) (g : A -> ud_operand -> ud_operand) k c :
  memframe n P -> 0 <= c <= k -> (forall P', stable P' -> triple P' c f (fun _ => P')) ->
  (forall v o, op_base (g v o) = op_base o /\ op_index (g v o) = op_index o /\ op_type (g v o) = op_type o) ->
  triple P k (dbind f (fun v => upd_op n (g v))) (fun _ => P).
Proof.
  intros HP Hk Hf Hg. eapply (triple_seq c); [lia | apply Hf; apply HP | intros v; cbv beta].
  apply triple_upd_mem; [done | lia | intros o; apply Hg |]. intros u o _ _ (? & ? & ?).
  destruct (Hg v o) as (E1 & E2 & E3). unfold op_ok. rewrite E1, E2, E3. done.
Qed.

Lemma triple_uint8 P : stable P -> triple P 1 inp_uint8 (fun _ u => P u).
Proof.
  intros HP. eapply triple_conseq; [apply (triple_next P 1); [done|lia] | lia | done | by intros a u [? _]].
Qed.

Ltac read_put :=
  first [ apply (triple_read_put _ _ inp_uint8 _ _ 1) | apply (triple_read_put _ _ inp_uint16 _ _ 2)
        | apply (triple_read_put _ _ inp_uint32 _ _ 4) | apply (triple_read_put _ _ inp_uint64 _ _ 8) ];
  [ assumption || by apply opframe_memframe | lia
  | intros; first [by apply triple_uint8 | by apply triple_uint16 | by apply triple_uint32 | by apply triple_uint64]
  | done ].

Lemma triple_decode_imm P n size k :
  opframe P -> imm_cost size <= k -> triple P k (decode_imm n size) (fun _ => P).
Proof.
  intros HP Hk. unfold decode_imm. assert (0 <= k) by (unfold imm_cost in Hk; zbool; cbn in *; lia).
  eapply triple_seq0; [lia | by apply triple_resolve | intros r; cbv beta]. cbv zeta.
  apply triple_pure. intros (_ & Hz & Hs).
  assert (forall w, wrap 8 r = w -> w = 8 \/ w = 16 \/ w = 32 \/ w = 64 -> w <= 8 * k) as Hw.
  { intros w Hwr Hw. unfold imm_cost in Hk.
    destruct (Z.eqb_spec size SZ_B); [subst size; rewrite Hs in Hwr by lia; vm_compute in Hwr; lia|].
    destruct (Z.eqb_spec size SZ_W); [subst size; rewrite Hs in Hwr by lia; vm_compute in Hwr; lia|].
    destruct (Z.eqb_spec size SZ_Z);
      [destruct Hz as [->| ->]; [done| |]; vm_compute in Hwr; cbn in *; lia|].
    destruct (Z.eqb_spec size SZ_D); [subst size; rewrite Hs in Hwr by lia; vm_compute in Hwr; cbn in *; lia|].
    cbn in Hk. lia. }
  eapply triple_seq0 with (Q := fun _ => P); [lia | upd_same | intros []].
  destruct (Z.eqb_spec (wrap 8 r) 8) as [E|_]; [specialize (Hw _ E); read_put|].
  destruct (Z.eqb_spec (wrap 8 r) 16) as [E|_]; [specialize (Hw _ E); read_put|].
  destruct (Z.eqb_spec (wrap 8 r) 32) as [E|_]; [specialize (Hw _ E); read_put|].
  destruct (Z.eqb_spec (wrap 8 r) 64) as [E|_]; [specialize (Hw _ E); read_put|].
  by apply triple_ret.
Qed.

Lemma triple_mem_disp P n size k :
  memframe n P -> 0 <= k -> (size = 8 \/ size = 16 \/ size = 32 \/ size = 64 -> size <= 8 * k) ->
  triple P k (decode_mem_disp n size) (fun _ => P).
Proof.
  intros HP Hk Hs. unfold decode_mem_disp.
  repeat match goal with |- context [size =? ?w] => destruct (Z.eqb_spec size w);
    [eapply triple_seq0 with (Q := fun _ => P); [lia | upd_plain | intros []; read_put]|] end.
  by apply triple_ret.
Qed.

Lemma rex_bit r : 0 <= Z.shiftl (REX_B r) 3 <= 8 /\ 0 <= Z.shiftl (REX_R r) 3 <= 8 /\ 0 <= Z.shiftl (REX_X r) 3 <= 8.
Proof.
  assert (forall n i, 0 < n -> i < n -> 0 <= i -> i = n - 1 -> 0 <= Z.shiftl (Z.shiftr (Z.land (Z.ones n) r) i) 3 <= 8) as H.
  { intros n i Hn Hi Hi0 ->. rewrite Z.land_comm, Z.land_ones by lia.
    rewrite Z.shiftr_div_pow2, Z.shiftl_mul_pow2 by lia.
    pose proof (Z.mod_pos_bound r (2 ^ n) ltac:(apply Z.pow_pos_nonneg; lia)).
    assert (2 ^ n = 2 * 2 ^ (n - 1)) as E by (rewrite <- Z.pow_succ_r by lia; f_equal; lia).
    assert (0 < 2 ^ (n - 1)) by (apply Z.pow_pos_nonneg; lia).
    assert (0 <= r mod 2 ^ n / 2 ^ (n - 1) < 2)
      by (split; [apply Z.div_pos; lia | apply Z.div_lt_upper_bound; lia]). lia. }
  split; [|split]; [apply (H 1 0) | apply (H 3 2) | apply (H 2 1)]; lia.
Qed.

Lemma land7 b : 0 <= Z.land b 7 < 8.
Proof. change 7 with (Z.ones 3). rewrite Z.land_ones by lia. by apply Z.mod_pos_bound. Qed.

(** A register number: three bits of the encoding and a REX bit above them. *)
Lemma lor_rex x y : 0 <= x <= 8 -> 0 <= y < 8 -> 0 <= Z.lor x y < 16.
Proof.
  intros Hx Hy. split; [apply Z.lor_nonneg; lia|].
  destruct (Z.eq_dec (Z.lor x y) 0) as [->|]; [lia|].
  apply (Z.log2_lt_pow2 (Z.lor x y) 4); [assert (0 <= Z.lor x y) by (apply Z.lor_nonneg; lia); lia|].
  rewrite Z.log2_lor by lia.
  apply Z.max_lub_lt; [apply (Z.le_lt_trans _ (Z.log2 8)) | apply (Z.le_lt_trans _ (Z.log2 8))];
    (apply Z.log2_le_mono; lia) || done.
Qed.

Lemma rex_num_b rex b : 0 <= Z.lor (Z.shiftl (REX_B rex) 3) (Z.land b 7) < 16.
Proof. apply lor_rex; [apply rex_bit | apply land7]. Qed.

Lemma triple_modrm_reg P n type size k :
  opframe P -> 1 <= k ->
  (type = REGCLASS_GPR -> gpr_size size = true) ->
  triple P k (decode_modrm_reg n type size) (fun _ => P).
Proof.
  intros HP Hk Hs. unfold decode_modrm_reg.
  eapply triple_seq0; [lia | apply triple_get; lia | intros rex; cbv beta].
  eapply triple_pre with (P := P); [|by intros u [? _]].
  eapply (triple_seq 1); [lia | by apply triple_modrm_first | intros b; cbv beta].
  eapply triple_pre with (P := P); [|by intros u [[? _] _]].
  apply triple_decode_reg; [done|lia| |auto].
  apply lor_rex; [apply rex_bit | apply land7].
Qed.

Lemma triple_decode_sib P n rax k :
  opframe P -> 1 <= k -> rax = UD_R_RAX \/ rax = UD_R_EAX ->
  triple (is_mem n P) k (decode_sib n rax) (fun _ => is_mem n P).
Proof.
  intros HP Hk Hrax. pose proof (is_mem_memframe n P HP) as HM. unfold decode_sib.
  eapply (triple_seq 1); [lia | apply triple_next; [apply HM|lia] | intros b0; cbv beta].
  eapply triple_seq0; [lia | apply triple_get; lia | intros b; cbv beta].
  eapply triple_seq0; [lia | apply triple_get; lia | intros rex; cbv beta].
  eapply triple_pre with (P := is_mem n P); [|by intros u [[[? _] _] _]].
  assert (forall x y, 0 <= x < 8 -> 0 <= y <= 8 -> reg_ok (rax + Z.lor x y)) as H.
  { intros x y Hx Hy. rewrite Z.lor_comm. pose proof (lor_rex y x Hy Hx). unfold reg_ok. lia. }
  assert (reg_ok (rax + Z.lor (SIB_B b) (Z.shiftl (REX_B rex) 3))) as H1 by (apply H; [apply land7 | apply rex_bit]).
  assert (reg_ok (rax + Z.lor (SIB_I b) (Z.shiftl (REX_X rex) 3))) as H2 by (apply H; [apply land7 | apply rex_bit]).
  unfold reg_ok in H1, H2. clear H.
  eapply triple_seq0 with (Q := fun _ => is_mem n P); [lia | upd_regs | intros []].
  eapply triple_seq0; [lia | apply triple_get; lia | intros o; cbv beta].
  eapply triple_pre with (P := is_mem n P); [|by intros u [? _]].
  destruct (_ =? _); [upd_regs | by apply triple_ret; [lia|]].
Qed.

Lemma triple_sib_displacement P n m off frame k :
  opframe P -> 0 <= k -> off = 0 \/ off = 8 \/ off = 32 ->
  triple (is_mem n P) k (sib_displacement n m off frame)
    (fun r u => is_mem n P u /\ (r = 0 \/ r = 8 \/ r = 32)).
Proof.
  intros HP Hk Ho. pose proof (is_mem_memframe n P HP) as HM. unfold sib_displacement. destruct frame.
  - eapply triple_seq0 with (Q := fun _ => is_mem n P); [lia| |intros []].
    + destruct (m =? 0); [upd_regs | by apply triple_ret; [lia|]].
    + apply triple_ret; [lia|]. intros u Hu. split; [done|]. case_match; lia.
  - by apply triple_ret.
Qed.

(** The base register and displacement size that mod and r/m select, and the
    SIB byte after them. *)
Lemma triple_seq_mem {A B} (P Q : ud -> Prop) k n (f : D A) (g : A -> D B) R :
  0 <= k <= n -> triple P k f (fun _ => Q) -> (forall a, triple Q (n - k) (g a) R) -> triple P n (dbind f g) R.
Proof. intros Hk Hf Hg. by apply (triple_seq k n P f g (fun _ => Q)). Qed.

Lemma triple_set_mem P n k :
  opframe P -> 0 <= k -> triple P k (upd_op n (set_op_type UD_OP_MEM)) (fun _ => is_mem n P).
Proof.
  intros HP Hk. apply triple_upd_ins; [done| |].
  - intros u [] Hu. split; cbn; try done. unfold ops_ok; cbn. intros He.
    apply Forall_alter; [by apply inv_ops|]. intros o _ (? & ? & ?). by split.
  - intros u Hu. split; [by apply (opframe_operand P HP)|]. cbn. intros o.
    rewrite list_lookup_alter_eq. by intros (o' & _ & ->)%fmap_Some.
Qed.

Lemma bases16_ok j : reg_or_none (nth j bases16 0) /\ reg_or_none (nth j indices16 0).
Proof. do 8 (destruct j as [|j]; [cbn; unfold reg_or_none; lia|]). cbn. destruct j; unfold reg_or_none; lia. Qed.

(** The 64 and 32-bit address forms: a base, a displacement size by [mod], and
    a SIB byte when r/m is 4. *)
Lemma triple_long_form P n rax rm mod_ (special : bool) special_base (frame : ud_operand -> bool) k :
  opframe P -> 1 <= k -> rax = UD_R_RAX \/ rax = UD_R_EAX -> 0 <= rm < 16 -> reg_or_none special_base ->
  triple (is_mem n P) k
    (do* upd_op n (set_op_base (rax + rm)) in
     let* offset :=
       (if mod_ =? 1 then dret 8
        else if mod_ =? 2 then dret 32
        else if special then do* upd_op n (set_op_base special_base) in dret 32
        else dret 0) in
     if Z.land rm 7 =? 4 then
       do* decode_sib n rax in
       let* o := get_op n id in
       sib_displacement n mod_ offset (frame o)
     else dret offset)
    (fun r u => is_mem n P u /\ (r = 0 \/ r = 8 \/ r = 32)).
Proof.
  intros HP Hk Hrax Hrm Hsp. pose proof (is_mem_memframe n P HP) as HM.
  set (M := is_mem n P) in *.
  eapply (triple_seq_mem _ M 0); [lia | upd_regs | intros []]. rewrite Z.sub_0_r.
  eapply triple_seq0 with (Q := fun r u => M u /\ (r = 0 \/ r = 8 \/ r = 32)); [lia| |].
  - destruct (mod_ =? 1); [apply triple_ret; [lia|auto]|].
    destruct (mod_ =? 2); [apply triple_ret; [lia|auto]|].
    destruct special; [|apply triple_ret; [lia|auto]].
    eapply (triple_seq_mem _ M 0); [lia | upd_regs | intros []]. apply triple_ret; [lia|auto].
  - intros off. apply triple_pure. intros Hoff.
    destruct (Z.land rm 7 =? 4); [|by apply triple_ret; [lia|]].
    eapply (triple_seq_mem _ M 1); [lia | by apply triple_decode_sib | intros []].
    eapply triple_seq0; [lia | apply triple_get; lia | intros o; cbv beta].
    eapply triple_pre with (P := M); [|by intros u [? _]].
    apply triple_sib_displacement; [done|lia|done].
Qed.

Lemma triple_modrm_rm P n type size k c :
  opframe P -> 0 <= c -> c + 5 <= k ->
  triple P c modrm (fun b u => with_modrm b P u) ->
  (type = REGCLASS_GPR -> gpr_size size = true \/
     forall b u, with_modrm b P u -> MODRM_MOD b = 3 -> error (ins u) <> 0) ->
  triple P k (decode_modrm_rm n type size) (fun _ => P).
Proof.
  intros HP Hc Hk Hm Hs. unfold decode_modrm_rm.
  eapply (triple_seq c); [lia | exact Hm | intros b; cbv beta zeta].
  pose proof (with_modrm_opframe b P HP) as HB.
  eapply triple_seq0; [lia | apply triple_get; lia | intros rex; cbv beta].
  eapply triple_pre with (P := with_modrm b P); [|by intros u [? _]].
  eapply triple_seq0; [lia | apply triple_modrm_again; lia | intros b'; cbv beta].
  eapply triple_pure. intros ->.
  set (rm := Z.lor (Z.shiftl (REX_B rex) 3) (MODRM_RM b)).
  assert (0 <= rm < 16) as Hrm by (apply rex_num_b).
  destruct (Z.eqb_spec (MODRM_MOD b) 3) as [E3|E3].
  { eapply triple_conseq; [apply (triple_decode_reg (with_modrm b P) n type rm size 0); try done; try lia | lia | done | by intros _ u [? _]].
    intros Ht. destruct (Hs Ht) as [|He]; [by left | right; eauto]. }
  pose proof (is_mem_memframe n (with_modrm b P) HB) as HM.
  eapply (triple_seq_mem _ (is_mem n (with_modrm b P)) 0); [lia| |intros []].
  { by apply triple_set_mem. }
  rewrite Z.sub_0_r. set (M := is_mem n (with_modrm b P)) in *.
  eapply triple_seq0 with (Q := fun _ => M); [lia | | intros sz; cbv beta].
  { unfold resolve_operand_size.
    eapply triple_seq0; [lia | apply triple_get; lia | intros o; cbv beta].
    eapply triple_seq0; [lia | apply triple_get; lia | intros d; cbv beta].
    apply triple_ret; [lia|]. by intros u [[? _] _]. }
  eapply (triple_seq_mem _ M 0); [lia | upd_plain | intros []]. rewrite Z.sub_0_r.
  eapply triple_seq0; [lia | apply triple_get; lia | intros adr; cbv beta].
  eapply triple_pre with (P := M); [|by intros u [? _]].
  eapply (triple_seq 1) with (Q := fun r u => M u /\ (r = 0 \/ r = 8 \/ r = 16 \/ r = 32)); [lia| |].
  - assert (forall r : Z, r = 0 \/ r = 8 \/ r = 32 -> r = 0 \/ r = 8 \/ r = 16 \/ r = 32) as Hw by lia.
    destruct (adr =? 64); [|destruct (adr =? 32)].
    + eapply triple_conseq; [apply (triple_long_form (with_modrm b P) n UD_R_RAX rm (MODRM_MOD b)
        ((MODRM_MOD b =? 0) && (Z.land rm 7 =? 5)) UD_R_RIP
        (fun o => (op_base o =? UD_R_RBP) || (op_base o =? UD_R_R13)) 1); [done|lia|lia|lia|unfold reg_or_none; lia]
        | lia | done | intros r u [? ?]; auto].
    + eapply triple_conseq; [apply (triple_long_form (with_modrm b P) n UD_R_EAX rm (MODRM_MOD b)
        ((MODRM_MOD b =? 0) && (rm =? 5)) UD_NONE
        (fun o => op_base o =? UD_R_EBP) 1); [done|lia|lia|lia|unfold reg_or_none; lia]
        | lia | done | intros r u [? ?]; auto].
    + destruct (bases16_ok (Z.to_nat (Z.land rm 7))) as [Hb16 Hi16].
      eapply (triple_seq_mem _ M 0); [lia | upd_regs | intros []].
      destruct (_ && _); [eapply (triple_seq_mem _ M 0); [lia | upd_regs | intros []]; apply triple_ret; [lia|auto]|].
      repeat (destruct (_ =? _); [apply triple_ret; [lia|auto 6]|]). apply triple_ret; [lia|auto].
  - intros off. apply triple_pure. intros Hoff.
    destruct (Z.eqb_spec off 0) as [->|Ho]; cbn [negb].
    + apply triple_ret; [lia|]. by intros u [[? _] _].
    + eapply triple_conseq; [apply (triple_mem_disp M n off 4); [done|lia|lia] | lia | done | by intros _ u [[? _] _]].
Qed.

Lemma triple_exists {A X} (P : X -> ud -> Prop) k (f : D A) Q :
  (forall x, triple (P x) k f Q) -> triple (fun u => exists x, P x u) k f Q.
Proof. intros H e u Hi [x Hx] Hr. by apply (H x). Qed.

(** With the mod/rm byte read, and an error if [bad] holds of it. *)
Definition checked (bad : Z -> bool) (b : Z) (P : ud -> Prop) (u : ud) : Prop :=
  with_modrm b P u /\ (bad b = true -> error (ins u) <> 0).

Lemma checked_opframe bad b P : opframe P -> opframe (checked bad b P).
Proof.
  intros HP. destruct (with_modrm_opframe b P HP) as [[S1 S2] H2 H3 H4]. split.
  - split; [intros u i [? ?] | intros u [? ?]]; (split; [auto|done]).
  - intros u l [? ?]. split; [auto|done].
  - intros u c [(? & ? & ?) ?] Hh. done.
  - intros u [? _]. auto.
Qed.

Lemma triple_check (bad : Z -> bool) P k :
  opframe P -> 1 <= k ->
  triple P k (let* b := modrm in if bad b then UDERR else dret tt)
    (fun _ u => exists b, checked bad b P u).
Proof.
  intros HP Hk. eapply (triple_seq 1); [lia | by apply triple_modrm_first | intros b; cbv beta].
  apply triple_pure. intros _. destruct (bad b) eqn:Eb.
  - eapply triple_conseq; [apply (triple_uderr (with_modrm b P) 0);
      [apply (with_modrm_opframe b P HP) | lia] | lia | done |].
    intros _ u [Hu He]. exists b. by split.
  - apply triple_ret; [lia|]. intros u Hu. exists b. split; [done|]. by rewrite Eb.
Qed.

Lemma triple_checked_modrm_rm bad P n type size k :
  opframe P -> 6 <= k ->
  (type = REGCLASS_GPR -> gpr_size size = true \/ forall b, MODRM_MOD b = 3 -> bad b = true) ->
  triple P k (do* (let* b := modrm in if bad b then UDERR else dret tt) in decode_modrm_rm n type size) (fun _ => P).
Proof.
  intros HP Hk Hs. eapply (triple_seq 1); [lia | by apply triple_check | intros []; cbv beta].
  apply triple_exists. intros b.
  eapply triple_conseq; [apply (triple_modrm_rm (checked bad b P) n type size (k - 1) 0) | lia | done | by intros _ u [[? _] _]].
  - by apply checked_opframe.
  - lia.
  - lia.
  - intros e u Hi Hu Hr.
    destruct (triple_modrm_again b P 0 ltac:(lia) e u Hi (proj1 Hu) Hr) as (c & u' & E & Hi' & [Hq ->] & M & L).
    exists b, u'. split; [exact E|]. split; [done|]. split; [|split; [exact M | exact L]].
    split; [split; [exact Hq|] | apply Hq]. intros Hb. apply (moved_error _ _ _ M). by apply Hu.
  - intros Ht. destruct (Hs Ht) as [|Hb]; [by left|right]. intros b' u (Hc & _ & Hm) H3.
    destruct Hc as [(_ & _ & Hm') Hc]. apply Hc, Hb. congruence.
Qed.

Lemma triple_plain_modrm_rm P n type size k :
  opframe P -> 6 <= k -> (type = REGCLASS_GPR -> gpr_size size = true) ->
  triple P k (decode_modrm_rm n type size) (fun _ => P).
Proof.
  intros HP Hk Hs. apply (triple_modrm_rm P n type size k 1); [done|lia|lia| |auto].
  eapply triple_conseq; [apply (triple_modrm_first P 1); [done|lia] | lia | done | by intros b u [? _]].
Qed.

(** A size that depends on the mod/rm byte. *)
Lemma triple_mx_modrm_rm P n type size k :
  opframe P -> 6 <= k -> (type = REGCLASS_GPR -> gpr_size (Mx_reg_size size) = true) ->
  triple P k (let* s := Mx_size size in decode_modrm_rm n type s) (fun _ => P).
Proof.
  intros HP Hk Hs. unfold Mx_size.
  eapply (triple_seq 1) with (Q := fun s u => exists b, with_modrm b P u /\ (MODRM_MOD b = 3 -> s = Mx_reg_size size)); [lia| |].
  - eapply (triple_seq 1); [lia | by apply triple_modrm_first | intros b; cbv beta].
    apply triple_ret; [lia|]. intros u [Hu _]. exists b. split; [done|]. intros ->. done.
  - intros s. apply triple_exists. intros b. apply triple_pure. intros Hb.
    eapply triple_conseq; [apply (triple_modrm_rm (with_modrm b P) n type s (k - 1) 0) | lia | done | by intros _ u [? _]].
    + by apply with_modrm_opframe.
    + lia.
    + lia.
    + eapply triple_conseq; [apply (triple_modrm_again b P 0); lia | lia | done |].
      intros c u [Hu ->]. split; [done|]. apply Hu.
    + intros Ht. destruct (Z.eqb_spec (MODRM_MOD b) 3) as [E|E].
      * left. rewrite (Hb E). by apply Hs.
      * right. intros b' u ((_ & _ & H1) & _ & H2) H3. congruence.
Qed.

Lemma triple_moffset P n size k :
  opframe P -> 8 <= k -> triple P k (decode_moffset n size) (fun _ => P).
Proof.
  intros HP Hk. pose proof (is_mem_memframe n P HP) as HM. unfold decode_moffset.
  eapply (triple_seq_mem _ (is_mem n P) 0); [lia | by apply triple_set_mem | intros []]. rewrite Z.sub_0_r.
  eapply triple_seq0 with (Q := fun _ => is_mem n P); [lia | | intros sz; cbv beta].
  { unfold resolve_operand_size.
    eapply triple_seq0; [lia | apply triple_get; lia | intros o; cbv beta].
    eapply triple_seq0; [lia | apply triple_get; lia | intros d; cbv beta].
    apply triple_ret; [lia|]. by intros u [[? _] _]. }
  eapply (triple_seq_mem _ (is_mem n P) 0); [lia | upd_plain | intros []]. rewrite Z.sub_0_r.
  eapply triple_seq0; [lia | apply triple_get; lia | intros adr; cbv beta].
  eapply triple_pre with (P := is_mem n P); [|by intros u [? _]].
  eapply triple_conseq; [apply (triple_mem_disp (is_mem n P) n adr 8); [done|lia|lia] | lia | done | by intros _ u [? _]].
Qed.

Lemma triple_decode_a P n k : opframe P -> 6 <= k -> triple P k (decode_a n) (fun _ => P).
Proof.
  intros HP Hk. unfold decode_a.
  eapply triple_seq0; [lia | apply triple_get; lia | intros m; cbv beta].
  eapply triple_pre with (P := P); [|by intros u [? _]].
  destruct (m =? 16);
    (eapply (triple_seq_mem _ P 0); [lia | upd_same | intros []]; rewrite Z.sub_0_r).
  - eapply (triple_seq_mem _ P 2); [lia | apply triple_uint16, HP | intros off].
    eapply (triple_seq_mem _ P 0); [lia | upd_plain | intros []]. rewrite Z.sub_0_r. read_put.
  - eapply (triple_seq_mem _ P 4); [lia | apply triple_uint32, HP | intros off].
    eapply (triple_seq_mem _ P 0); [lia | upd_plain | intros []]. rewrite Z.sub_0_r. read_put.
Qed.

Definition is_one_of (t : Z) (l : list Z) : bool := existsb (Z.eqb t) l.

(** Operands of these types need a general register size. *)
Definition operand_sizes_ok (o : ud_itab_entry_operand) : bool :=
  let t := operand_type o in
  let s := operand_size o in
  if t =? OP_MR then gpr_size (Mx_reg_size s)
  else if is_one_of t [OP_E; OP_G; OP_R; OP_AL; OP_AX; OP_eAX; OP_rAX; OP_CL; OP_CX; OP_eCX; OP_DL; OP_DX; OP_eDX]
          || ((OP_R0 <=? t) && (t <=? OP_R7))
  then gpr_size s
  else true.

(** The bytes an operand takes at most. *)
Definition operand_cost (o : ud_itab_entry_operand) : Z :=
  let t := operand_type o in
  let s := operand_size o in
  if is_one_of t [OP_A; OP_MR; OP_F; OP_M; OP_E; OP_N; OP_Q; OP_U; OP_W; OP_MU; OP_R] then 6
  else if is_one_of t [OP_G; OP_P; OP_V; OP_S; OP_C; OP_D] then 1
  else if is_one_of t [OP_sI; OP_I; OP_J] then imm_cost s
  else if t =? OP_O then 8
  else 0.

Lemma imm_cost_nonneg s : 0 <= imm_cost s.
Proof. unfold imm_cost. zbool; cbn; lia. Qed.

Lemma triple_upd_br_far P k : opframe P -> (forall u, P u -> P (on_ins (set_br_far 1) u)) -> 0 <= k ->
  triple P k (upd_ins (set_br_far 1)) (fun _ => P).
Proof. intros HP Hb Hk. apply triple_upd_ins; [done| |auto]. intros u [] _. by split. Qed.

Section Operand.
Context (P : ud -> Prop) (n : nat) (HP : opframe P).
Context (Hfar : forall u, P u -> P (on_ins (set_br_far 1) u)).

(** One case of the switch. *)
Tactic Notation "op_case" constr(t) constr(c) tactic3(tac) :=
  destruct (Z.eqb_spec t c) as [->|?]; [cbn in *; tac|]; cbn [orb].
Ltac reg_case := apply triple_decode_reg; [assumption | lia | lia | intros _; left; assumption].
Ltac frame_case L := by apply L; [assumption | lia | ..].
Ltac check_case bad :=
  apply (triple_checked_modrm_rm bad); [assumption | lia | try done; intros _; right; by intros b ->].

Lemma triple_decode_operand o :
  operand_sizes_ok o = true ->
  triple P (operand_cost o) (decode_operand n (operand_type o) (operand_size o)) (fun _ => P).
Proof.
  destruct o as [t s]. cbn [operand_type operand_size]. intros Hs.
  assert (0 <= operand_cost (ItabOperand t s)) as Hk0.
  { unfold operand_cost. cbn. pose proof (imm_cost_nonneg s). repeat case_match; lia. }
  remember (operand_cost (ItabOperand t s)) as k eqn:Ek. unfold decode_operand.
  eapply (triple_seq_mem _ P 0); [lia | upd_same | intros []]. rewrite Z.sub_0_r.
  eapply (triple_seq_mem _ P k); [lia | | intros []; by apply triple_ret; [lia|]].
  unfold operand_cost, operand_sizes_ok, is_one_of in *. cbn [operand_type operand_size existsb] in *.
  op_case t OP_A (frame_case triple_decode_a).
  op_case t OP_MR (frame_case triple_mx_modrm_rm).
  op_case t OP_F (eapply (triple_seq_mem _ P 0);
    [lia | by apply triple_upd_br_far; [| |lia] | intros []; check_case (fun b => MODRM_MOD b =? 3)]).
  op_case t OP_M (check_case (fun b => MODRM_MOD b =? 3)).
  op_case t OP_E (frame_case triple_plain_modrm_rm).
  op_case t OP_G (frame_case triple_modrm_reg).
  op_case t OP_sI (frame_case triple_decode_imm).
  op_case t OP_I (frame_case triple_decode_imm).
  op_case t OP_I1 (upd_same).
  op_case t OP_N (check_case (fun b => negb (MODRM_MOD b =? 3))).
  op_case t OP_Q (frame_case triple_plain_modrm_rm).
  op_case t OP_P (frame_case triple_modrm_reg).
  op_case t OP_U (check_case (fun b => negb (MODRM_MOD b =? 3))).
  op_case t OP_W (frame_case triple_plain_modrm_rm).
  op_case t OP_V (frame_case triple_modrm_reg).
  op_case t OP_MU (frame_case triple_mx_modrm_rm).
  op_case t OP_S (frame_case triple_modrm_reg).
  op_case t OP_O (frame_case triple_moffset).
  destruct ((OP_R0 <=? t) && (t <=? OP_R7)) eqn:ER.
  { rewrite orb_true_r in Hs. apply andb_true_iff in ER as [?%Z.leb_le ?%Z.leb_le].
    eapply triple_seq0; [lia | apply triple_get; lia | intros rex; cbv beta].
    eapply triple_pre with (P := P); [|by intros u [? _]].
    apply triple_decode_reg; [done | lia | apply lor_rex; [apply rex_bit | lia] | by left]. }
  op_case t OP_AL (reg_case). op_case t OP_AX (reg_case).
  op_case t OP_eAX (reg_case). op_case t OP_rAX (reg_case).
  op_case t OP_CL (reg_case). op_case t OP_CX (reg_case). op_case t OP_eCX (reg_case).
  op_case t OP_DL (reg_case). op_case t OP_DX (reg_case). op_case t OP_eDX (reg_case).
  destruct ((OP_ES <=? t) && (t <=? OP_GS)) eqn:ES.
  { apply andb_true_iff in ES as [?%Z.leb_le ?%Z.leb_le].
    eapply triple_seq0; [lia | apply triple_get; lia | intros mode; cbv beta].
    eapply triple_pre with (P := P); [|by intros u [? _]].
    eapply (triple_seq_mem _ P 0); [lia | | intros []].
    - match goal with |- triple _ _ (if ?c then _ else _) _ => destruct c end; [|by apply triple_ret].
      eapply triple_conseq; [apply (triple_uderr P 0); [apply HP | lia] | lia | done | by intros _ u [? _]].
    - apply triple_upd_op_frame; [done|lia|]. intros u o _ _ _ (? & ? & ?).
      split; [|split]; cbn; unfold reg_or_none in *; lia. }
  op_case t OP_J (eapply (triple_seq_mem _ P (imm_cost s));
    [pose proof (imm_cost_nonneg s); lia | frame_case triple_decode_imm | intros []; upd_same]).
  op_case t OP_R (apply (triple_checked_modrm_rm (fun b => negb (MODRM_MOD b =? 3)));
    [assumption | lia | intros _; by left]).
  op_case t OP_C (frame_case triple_modrm_reg).
  op_case t OP_D (frame_case triple_modrm_reg).
  op_case t OP_I3 (upd_same).
  destruct ((OP_ST0 <=? t) && (t <=? OP_ST7)) eqn:ET; [|by apply triple_ret].
  apply andb_true_iff in ET as [?%Z.leb_le ?%Z.leb_le].
  apply triple_upd_op_frame; [done|lia|]. intros u o _ _ _ (? & ? & ?).
  split; [|split]; cbn; unfold reg_or_none in *; lia.
Qed.
End Operand.

(** ** Instructions *)

Definition mnemonic_ok (m : ud_mnemonic_code) : bool := mnemonic_value m <? mnemonic_value UD_MAX_MNEMONIC_CODE.

(** What the decoder needs of an entry of the instruction table. *)
Definition entry_ok (x : ud_itab_entry) : bool :=
  operand_sizes_ok (operand1 x) && operand_sizes_ok (operand2 x) && operand_sizes_ok (operand3 x) &&
  (operand_cost (operand1 x) + operand_cost (operand2 x) + operand_cost (operand3 x) <=? 11) &&
  mnemonic_ok (itab_mnemonic x) && negb (mnemonic_eqb (itab_mnemonic x) UD_I3dnow).

Definition insn_ok (ptr : Z) : bool :=
  match ud_itab !! Z.to_nat ptr with Some x => entry_ok x | None => false end.

Definition dis_ok (u : ud) : Prop := dis_mode u = 16 \/ dis_mode u = 32 \/ dis_mode u = 64.

(** Decoding within table [l]. *)
Definition within (l : ud_lookup_table_list_entry) (u : ud) : Prop := le (ins u) = Some l /\ dis_ok u.

(** Decoding the instruction [x]. *)
Definition decoding (l : ud_lookup_table_list_entry) (x : ud_itab_entry) (u : ud) : Prop :=
  within l u /\ itab_entry (ins u) = Some x /\ mnemonic (ins u) = itab_mnemonic x.

(** An instruction was found. *)
Definition found (l : ud_lookup_table_list_entry) (u : ud) : Prop :=
  within l u /\ (exists x, itab_entry (ins u) = Some x) /\ mnemonic_ok (mnemonic (ins u)) = true.

Lemma triple_const {A} (P : ud -> Prop) (f : D A) a k :
  0 <= k -> (forall e u, P u -> f e u = Some (a, u)) -> triple P k f (fun b u => P u /\ b = a).
Proof.
  intros Hk Hf e u Hi HP Hr. exists a, u. split; [by apply Hf|]. split; [done|]. split; [done|].
  split; [by apply moved_refl|]. intros e' _. by apply Hf.
Qed.

(** An update of fields that the invariant does not mention. *)
Ltac upd_fields := apply triple_upd_ins;
  [lia | intros ? [] ?; split; cbn; solve [done | unfold is_byte, reg_or_none in *; lia] | ..].

Ltac drop_get := eapply triple_seq0; [lia | apply triple_get; lia | intros ?; cbv beta];
  eapply triple_pre; [|let H := fresh in intros ? [H _]; exact H].

Lemma triple_resolve_pfx_str l x :
  triple (decoding l x) 0 resolve_pfx_str (fun r u => decoding l x u /\ r = 0).
Proof.
  unfold resolve_pfx_str. drop_get.
  eapply triple_seq0 with (Q := fun _ => decoding l x); [lia| |intros []; by apply triple_ret].
  destruct (_ =? 0xf3).
  - eapply triple_seq0; [lia | apply (triple_const _ _ (itab_prefix x)); [lia|] | intros p; cbv beta].
    + intros e u (_ & Hx & _). unfold itab_prefix_of. by rewrite Hx.
    + eapply triple_pre; [|intros ? [H _]; exact H]. destruct (negb _); by upd_fields.
  - destruct (_ =? 0xf2); [by upd_fields | by apply triple_ret].
Qed.

Definition mode_set (u : ud) : Prop :=
  opr_mode (ins u) = 16 \/ opr_mode (ins u) = 32 \/ opr_mode (ins u) = 64.

Lemma triple_set_modes (P : ud -> Prop) o a :
  (forall u m, P u -> P (on_ins (set_opr_mode m) u)) -> (forall u m, P u -> P (on_ins (set_adr_mode m) u)) ->
  o = 16 \/ o = 32 \/ o = 64 ->
  triple P 0 (do* upd_ins (set_opr_mode o) in do* upd_ins (set_adr_mode a) in dret 0)
    (fun r u => P u /\ (r = 0 -> mode_set u)).
Proof.
  intros H1 H2 Ho.
  eapply triple_seq0 with (Q := fun _ u => P u /\ mode_set u); [lia| |intros []].
  - upd_fields. intros u Hu. split; [by apply H1 | exact Ho].
  - eapply triple_seq0 with (Q := fun _ u => P u /\ mode_set u); [lia| |intros []].
    + upd_fields. intros u [Hu Hm]. split; [by apply H2 | exact Hm].
    + apply triple_ret; [lia|]. intros u [? ?]. done.
Qed.

Lemma rex_mask_byte rex p :
  is_byte rex -> is_byte (Z.lor (Z.land rex 0x40) (Z.land rex (REX_PFX_MASK p))).
Proof.
  intros Hr. rewrite <- Z.land_lor_distr_r.
  assert (Z.land rex (Z.lor 0x40 (REX_PFX_MASK p)) = Z.land (Z.land rex (Z.lor 0x40 (REX_PFX_MASK p))) (Z.ones 8)) as ->.
  { rewrite <- Z.land_assoc, (Z.land_comm _ (Z.ones 8)), Z.land_assoc.
    rewrite (Z.land_ones rex 8) by lia. by rewrite (Z.mod_small rex (2 ^ 8)) by exact Hr. }
  rewrite Z.land_ones by lia. apply Z.mod_pos_bound. lia.
Qed.

Lemma triple_resolve_mode l x :
  triple (decoding l x) 0 resolve_mode (fun r u => decoding l x u /\ (r = 0 -> mode_set u)).
Proof.
  unfold resolve_mode. drop_get. destruct (negb _).
  { apply triple_ret; [lia|]. by intros u Hu. }
  eapply triple_seq0; [lia | apply triple_get; lia | intros mode; cbv beta].
  eapply triple_pre with (P := fun u => decoding l x u /\ (mode = 16 \/ mode = 32 \/ mode = 64)).
  2: { intros u [Hu ->]. split; [done|]. by destruct Hu as [[_ ?] _]. }
  apply triple_pure. intros Hmode. drop_get. drop_get.
  destruct (Z.eqb_spec mode 64) as [->|H64]; [|destruct (Z.eqb_spec mode 32) as [->|H32];
    [|destruct (Z.eqb_spec mode 16) as [->|H16]; [|lia]]].
  - eapply triple_seq0; [lia | apply (triple_const _ _ (itab_prefix x)); [lia|] | intros p; cbv beta].
    { intros e u (_ & Hx & _). unfold itab_prefix_of. by rewrite Hx. }
    apply triple_pure. intros ->. destruct (negb _).
    { eapply triple_seq0; [lia | apply (triple_uderr (decoding l x) 0); [done|lia] | intros []].
      apply triple_ret; [lia|]. by intros u [Hu _]. }
    apply triple_inv. eapply triple_seq0; [lia | apply triple_get; lia | intros rex; cbv beta].
    eapply triple_pre with (P := fun u => decoding l x u /\ is_byte rex).
    2: { intros u [[Hu Hi] ->]. split; [done|]. apply Hi. }
    apply triple_pure. intros Hrex. cbv zeta.
    eapply triple_seq0 with (Q := fun _ => decoding l x); [lia| |intros []].
    { apply triple_upd_ins; [lia| |done]. intros u [] _. split; cbn; try done. by apply rex_mask_byte. }
    apply triple_set_modes; [done|done|]. repeat case_match; auto.
  - apply triple_set_modes; [done|done|]. case_match; auto.
  - apply triple_set_modes; [done|done|]. case_match; auto.
Qed.

Lemma decoding_opframe l x : opframe (fun u => decoding l x u /\ mode_set u).
Proof. split; done || by intros u [_ ?]. Qed.

Lemma triple_decode_operands l x :
  entry_ok x = true ->
  triple (fun u => decoding l x u /\ mode_set u) 11 (decode_operands x)
    (fun r u => decoding l x u /\ r = 0).
Proof.
  intros Hx. unfold entry_ok in Hx. rewrite !andb_true_iff in Hx.
  destruct Hx as [[[[[H1 H2] H3] Hc%Z.leb_le] _] _].
  pose proof (decoding_opframe l x) as HP. set (P := fun u => decoding l x u /\ mode_set u) in *.
  assert (forall o, 0 <= operand_cost o) as H0.
  { intros o. unfold operand_cost. cbn. pose proof (imm_cost_nonneg (operand_size o)). repeat case_match; lia. }
  pose proof (H0 (operand1 x)). pose proof (H0 (operand2 x)). pose proof (H0 (operand3 x)).
  assert (forall n o, operand_sizes_ok o = true ->
    triple P (operand_cost o) (decode_operand n (operand_type o) (operand_size o)) (fun _ => P)) as Hop
    by (intros n o Ho; by apply triple_decode_operand).
  unfold decode_operands.
  eapply (triple_seq_mem _ P (operand_cost (operand1 x))); [lia | by apply Hop | intros _].
  eapply (triple_seq_mem _ P (operand_cost (operand2 x))); [lia | by apply Hop | intros _].
  eapply (triple_seq_mem _ P (operand_cost (operand3 x))); [lia | by apply Hop | intros _].
  apply triple_ret; [lia|]. by intros u [? _].
Qed.

Lemma triple_mnemonic_is (P : ud -> Prop) c :
  triple P 0 (mnemonic_is c) (fun b u => P u /\ b = mnemonic_eqb (mnemonic (ins u)) c).
Proof. apply triple_get. lia. Qed.

Lemma triple_set_mnemonic l c f :
  mnemonic_ok c = true ->
  (forall i, mnemonic (f i) = c /\ le (f i) = le i /\ itab_entry (f i) = itab_entry i) ->
  (forall u, inv u -> ins_step u (f (ins u))) ->
  triple (found l) 0 (upd_ins f) (fun _ => found l).
Proof.
  intros Hc Hf Hs. apply triple_upd_ins; [lia | auto |].
  intros u ([Hl Hd] & Hx & Hm). destruct (Hf (ins u)) as (E1 & E2 & E3).
  unfold found, within. cbn. rewrite E1, E2, E3. done.
Qed.

Lemma triple_upd_op_type l n :
  triple (found l) 0 (upd_op n (set_op_type UD_NONE)) (fun _ => found l).
Proof. apply triple_upd_op; [lia | intros ? ? _ _ _ (? & ? & ?); by split | done]. Qed.

Lemma triple_resolve_mnemonic l x :
  entry_ok x = true ->
  triple (decoding l x) 0 resolve_mnemonic (fun _ => found l).
Proof.
  intros Hx. unfold entry_ok in Hx. rewrite !andb_true_iff in Hx. destruct Hx as [[_ Hm] Hn%negb_true_iff].
  unfold resolve_mnemonic.
  eapply triple_seq0; [lia | apply triple_mnemonic_is | intros b; cbv beta].
  eapply triple_pre with (P := fun u => found l u /\ b = false).
  2: { intros u [(Hw & Hu & Hmn) ->]. rewrite Hmn. split; [|done]. split; [done|]. rewrite Hmn. eauto. }
  apply triple_pure. intros ->.
  eapply triple_seq0 with (Q := fun _ => found l); [lia | by apply triple_ret | intros []].
  drop_get. drop_get. destruct (_ && _).
  { eapply triple_seq0; [lia | apply (triple_uderr (found l) 0); [done|lia] | intros []].
    apply triple_ret; [lia|]. by intros u [? _]. }
  drop_get. drop_get. drop_get.
  eapply triple_seq0 with (Q := fun _ => found l); [lia| |intros []].
  { match goal with |- triple _ _ (if ?c then _ else _) _ => destruct c end; [|by apply triple_ret].
    eapply triple_seq0; [lia | apply triple_upd_op_type | intros []].
    eapply triple_seq0; [lia | apply triple_upd_op_type | intros []].
    by apply (triple_set_mnemonic l UD_Inop); [| |intros u []; split]. }
  drop_get. drop_get.
  eapply triple_seq0 with (Q := fun _ => found l); [lia| |intros []; by apply triple_ret].
  destruct (_ && _); [|by apply triple_ret].
  by apply (triple_set_mnemonic l UD_Ipause); [| |intros u []; split].
Qed.

Lemma decoding_found l x u : entry_ok x = true -> decoding l x u -> found l u.
Proof.
  intros Hx (Hw & Hi & Hm). unfold entry_ok in Hx. rewrite !andb_true_iff in Hx. destruct Hx as [[_ Ho] _].
  split; [done|]. rewrite Hm. eauto.
Qed.

Lemma triple_decode_insn l ptr k :
  insn_ok ptr = true -> 11 <= k -> triple (within l) k (decode_insn ptr) (fun _ => found l).
Proof.
  unfold insn_ok. destruct (ud_itab !! Z.to_nat ptr) as [x|] eqn:Ex; [|done]. intros Hx Hk.
  unfold decode_insn.
  eapply triple_seq0; [lia | apply (triple_const _ _ x); [lia|] | intros y; cbv beta].
  { intros e u _. unfold itab_at. by rewrite Ex. }
  apply triple_pure. intros ->.
  eapply triple_seq0 with (Q := fun _ => decoding l x); [lia| |intros []].
  { apply triple_upd_ins; [lia | intros u [] _; by split | by intros u [Hl Hd]]. }
  assert (forall r : Z, triple (decoding l x) k (dret r) (fun _ => found l)) as Hret.
  { intros r. apply triple_ret; [lia|]. intros u. by apply decoding_found. }
  eapply triple_seq0; [lia | apply triple_resolve_pfx_str | intros r; cbv beta].
  apply triple_pure. intros ->. cbn [Z.eqb].
  eapply triple_seq0; [lia | apply triple_resolve_mode | intros r; cbv beta].
  destruct (Z.eqb_spec r 0) as [->|Hne]; [|eapply triple_pre; [apply Hret | by intros u [? _]]].
  eapply (triple_seq 11) with (Q := fun r u => decoding l x u /\ r = 0); [lia| |intros r; cbv beta].
  { eapply triple_pre; [by apply triple_decode_operands|]. intros u [? Hm]. auto. }
  apply triple_pure. intros ->. cbn [Z.eqb].
  eapply triple_seq0; [lia | by apply (triple_resolve_mnemonic l x) | intros r; cbv beta].
  by apply triple_ret; [lia|].
Qed.

(** ** Extension tables *)

(** The shape decode_ext needs of what an entry [ptr] leads to: tables of the
    size their type is indexed with, nested less than [fuel] deep, ending in
    valid instructions; [x87] says that the mod/rm byte is known to be 0xC0 or
    more, which a table of type X87 needs. *)
Fixpoint ext_ok (fuel : nat) (x87 : bool) (ptr : Z) : bool :=
  match fuel with
  | O => false
  | S fuel' =>
      if Z.land ptr 0x8000 =? 0 then insn_ok ptr
      else
        match ud_lookup_table_list !! Z.to_nat (Z.ldiff ptr 0x8000) with
        | None => false
        | Some l =>
            let len := Z.of_nat (length (table l)) in
            match table_type l with
            | UD_TAB__OPC_MOD =>
                match table l with
                | [p; q] => ext_ok fuel' x87 p && ext_ok fuel' true q
                | _ => false
                end
            | UD_TAB__OPC_X87 => x87 && (len =? 64) && forallb (ext_ok fuel' x87) (table l)
            | UD_TAB__OPC_3DNOW => (len =? 256) && forallb insn_ok (table l)
            | UD_TAB__OPC_SSE => (len =? 4) && forallb (ext_ok fuel' x87) (table l)
            | UD_TAB__OPC_REG | UD_TAB__OPC_RM => (len =? 8) && forallb (ext_ok fuel' x87) (table l)
            | UD_TAB__OPC_OSIZE | UD_TAB__OPC_ASIZE => (len =? 3) && forallb (ext_ok fuel' x87) (table l)
            | UD_TAB__OPC_MODE => (len =? 2) && forallb (ext_ok fuel' x87) (table l)
            | UD_TAB__OPC_VENDOR => (2 <=? len) && forallb (ext_ok fuel' x87) (table l)
            | _ => false
            end
        end
  end.

(** Before an extension: [h] says that the mod/rm byte was read. *)
Definition extending (l : ud_lookup_table_list_entry) (x87 h : bool) (u : ud) : Prop :=
  within l u /\
  (pfx_str (ins u) = 0 \/ pfx_str (ins u) = 0xf2 \/ pfx_str (ins u) = 0xf3) /\
  (pfx_opr (ins u) = 0 \/ pfx_opr (ins u) = 0x66) /\
  (h = true -> have_modrm (ins u) <> 0) /\
  (x87 = true -> have_modrm (ins u) <> 0 /\ 0xC0 <= modrm_ (ins u)).

Definition insn_found (u : ud) : Prop := exists l, found l u.

Lemma extending_stable l x h : stable (extending l x h).
Proof. by split. Qed.

Lemma triple_ext_modrm l (x h : bool) k :
  (if h then 0 else 1) <= k ->
  triple (extending l x h) k modrm
    (fun b u => extending l x true u /\ is_byte b /\ (x = true -> 0xC0 <= b) /\
                (0xC0 <= b -> extending l true true u)).
Proof.
  intros Hk.
  assert (forall b u, extending l x h u -> have_modrm (ins u) <> 0 -> modrm_ (ins u) = b ->
    extending l x true u /\ (x = true -> 0xC0 <= b) /\ (0xC0 <= b -> extending l true true u)) as Hq.
  { intros b u (? & ? & ? & ? & Hx) Hh <-. split; [by split_and!|].
    split; [intros E; by apply Hx|]. intros Hc. by split_and!. }
  destruct h.
  - intros e u Hi Hu Hr. pose proof Hu as (_ & _ & _ & Hh & _).
    destruct (triple_modrm_again (modrm_ (ins u)) (extending l x true) k ltac:(lia) e u Hi)
      as (b & u' & E & Hi' & [(Hu' & Hh' & Hm') ->] & M & L); [by split; [|split; [apply Hh|]]|done|].
    exists (modrm_ (ins u)), u'. split; [done|]. split; [done|]. split; [|done].
    destruct (Hq (modrm_ (ins u)) u' Hu' Hh' Hm') as (? & ? & ?). split_and!; try done; rewrite <- Hm'; apply Hi'.
  - eapply triple_conseq; [apply (triple_modrm (extending l x false) 1); [apply extending_stable | lia |] | lia | done |].
    + intros u b (? & ? & ? & _ & Hx) Hh. split_and!; try done. cbn. intros E. destruct (Hx E). done.
    + intros b u (Hu & Hb & Hh & Hm). destruct (Hq b u Hu Hh Hm) as (? & ? & ?). done.
Qed.

Lemma mod_index b : is_byte b -> (MODRM_MOD b + 1) / 4 = if 0xC0 <=? b then 1 else 0.
Proof.
  unfold is_byte. intros Hb. unfold MODRM_MOD. rewrite Z.shiftr_div_pow2 by lia.
  change 3 with (Z.ones 2). rewrite Z.land_ones by lia.
  rewrite (Z.mod_small (b / 2 ^ 6)).
  2: { split; [apply Z.div_pos; lia | apply Z.div_lt_upper_bound; lia]. }
  destruct (Z.leb_spec 0xC0 b) as [H|H].
  - assert (b / 2 ^ 6 = 3) as ->; [|done].
    assert (3 <= b / 2 ^ 6) by (apply Z.div_le_lower_bound; lia).
    assert (b / 2 ^ 6 < 4) by (apply Z.div_lt_upper_bound; lia). lia.
  - assert (0 <= b / 2 ^ 6 < 3) by (split; [apply Z.div_pos; lia | apply Z.div_lt_upper_bound; lia]).
    apply Z.div_small. lia.
Qed.

(** The recursive call, at an index in bounds. *)
Section Next.
Context (fuel : nat) (k : Z).
Context (IH : forall l (x h : bool) ptr, ext_ok fuel x ptr = true -> (x = true -> h = true) ->
  triple (extending l x h) ((if h then 0 else 1) + 12) (decode_ext fuel ptr) (fun _ => insn_found)).

Lemma triple_next_at l (x h : bool) idx p :
  wrap 8 idx = idx -> table l !! Z.to_nat idx = Some p -> ext_ok fuel x p = true ->
  (x = true -> h = true) -> (if h then 0 else 1) + 12 <= k ->
  triple (extending l x h) k (let* p := le_table (wrap 8 idx) in decode_ext fuel p) (fun _ => insn_found).
Proof.
  intros Hw Hp Ho Hxh Hk. assert (0 <= k) by (destruct h; lia).
  eapply triple_seq0; [lia | apply (triple_const _ _ p); [lia|] | intros q; cbv beta].
  - intros e u [[Hl _] _]. unfold le_table. by rewrite Hl, Hw, Hp.
  - apply triple_pure. intros ->. eapply triple_conseq; [by apply IH | lia | done | done].
Qed.

Lemma triple_next_in l (x h : bool) idx n :
  Z.of_nat (length (table l)) = n -> n <= 256 -> 0 <= idx < n ->
  forallb (ext_ok fuel x) (table l) = true ->
  (x = true -> h = true) -> (if h then 0 else 1) + 12 <= k ->
  triple (extending l x h) k (let* p := le_table (wrap 8 idx) in decode_ext fuel p) (fun _ => insn_found).
Proof.
  intros Hn Hn' Hi Hall Hxh Hk.
  destruct (lookup_lt_is_Some_2 (table l) (Z.to_nat idx)) as [p Hp]; [lia|].
  apply (triple_next_at l x h idx p); [apply wrap_small; lia | done | | done | done].
  rewrite forallb_forall in Hall. apply Hall, list_elem_of_In. by eapply list_elem_of_lookup_2.
Qed.
End Next.

Lemma table_elem {l : list Z} {f : Z -> bool} {idx} :
  forallb f l = true -> 0 <= idx < Z.of_nat (length l) -> exists p, l !! Z.to_nat idx = Some p /\ f p = true.
Proof.
  intros Hall Hi. destruct (lookup_lt_is_Some_2 l (Z.to_nat idx)) as [p Hp]; [lia|].
  exists p. split; [done|]. rewrite forallb_forall in Hall. apply Hall, list_elem_of_In. by eapply list_elem_of_lookup_2.
Qed.

Lemma triple_le_table (P : ud -> Prop) l idx p k :
  0 <= k -> (forall u, P u -> le (ins u) = Some l) -> table l !! Z.to_nat idx = Some p ->
  triple P k (le_table idx) (fun q u => P u /\ q = p).
Proof. intros Hk HP Hp. apply triple_const; [done|]. intros e u Hu. unfold le_table. by rewrite (HP u Hu), Hp. Qed.

Lemma triple_itab_at (P : ud -> Prop) ptr k :
  0 <= k -> insn_ok ptr = true ->
  triple P k (itab_at ptr) (fun x u => P u /\ mnemonic_ok (itab_mnemonic x) = true).
Proof.
  unfold insn_ok. intros Hk. destruct (ud_itab !! Z.to_nat ptr) as [x|] eqn:Ex; [|done].
  intros Hx. unfold entry_ok in Hx. rewrite !andb_true_iff in Hx. destruct Hx as [[_ Hm] _].
  eapply triple_conseq; [apply (triple_const P (itab_at ptr) x 0); [lia|] | lia | done |].
  - intros e u _. unfold itab_at. by rewrite Ex.
  - intros y u [? ->]. done.
Qed.

Lemma triple_decode_3dnow l k :
  Z.of_nat (length (table l)) = 256 -> forallb insn_ok (table l) = true -> 12 <= k ->
  triple (within l) k decode_3dnow (fun _ => insn_found).
Proof.
  intros Hlen Hall Hk. unfold decode_3dnow.
  destruct (table_elem (idx := 0xc) Hall ltac:(lia)) as (p & Hp & Hok).
  eapply triple_seq0; [lia | apply (triple_le_table _ l _ p); [lia | by intros u [? _] | done] | intros q; cbv beta].
  apply triple_pure. intros ->.
  eapply (triple_seq 11); [lia | by apply triple_decode_insn | intros r; cbv beta].
  eapply (triple_seq 1); [lia | by apply triple_next | intros c0; cbv beta].
  eapply triple_pre with (P := found l); [|by intros u [? _]].
  drop_get. destruct (negb _).
  { apply triple_ret; [lia|]. intros u Hu. by exists l. }
  apply triple_inv. eapply triple_seq0; [lia | apply triple_get; lia | intros c; cbv beta].
  eapply triple_pre with (P := fun u => found l u /\ is_byte c).
  2: { intros u [[Hu Hi] ->]. split; [done|]. apply Hi. }
  apply triple_pure. intros Hc.
  destruct (table_elem (idx := c) Hall ltac:(unfold is_byte in Hc; lia)) as (q & Hq & Hok').
  eapply triple_seq0; [lia | apply (triple_le_table _ l _ q); [lia | by intros u [[? _] _] | done] | intros q'; cbv beta].
  apply triple_pure. intros ->.
  eapply triple_seq0; [lia | by apply triple_itab_at | intros x; cbv beta].
  apply triple_pure. intros Hx.
  eapply triple_seq0; [lia | apply (triple_set_mnemonic l (itab_mnemonic x)); [done | done | by intros u []; split] | intros []].
  apply triple_ret; [lia|]. intros u Hu. by exists l.
Qed.

(** The index the prefixes select. *)
Lemma sse_index str opr :
  str = 0 \/ str = 0xf2 \/ str = 0xf3 -> opr = 0 \/ opr = 0x66 ->
  0 <= wrap 8 ((Z.land (if str =? 0 then opr else str) 0xf + 1) / 2) < 4.
Proof. intros [->|[->| ->]] [->| ->]; vm_compute; done. Qed.

Lemma triple_decode_ssepfx fuel l (x h : bool) :
  (forall p, p ∈ table l -> triple (extending l x h) ((if h then 0 else 1) + 12) (decode_ext fuel p) (fun _ => insn_found)) ->
  Z.of_nat (length (table l)) = 4 ->
  triple (extending l x h) ((if h then 0 else 1) + 12) (decode_ssepfx (decode_ext fuel)) (fun _ => insn_found).
Proof.
  intros IH Hlen. set (k := (if h then 0 else 1) + 12). assert (0 <= k) by (unfold k; destruct h; lia).
  unfold decode_ssepfx.
  eapply triple_seq0; [lia | apply triple_get; lia | intros str; cbv beta].
  eapply triple_seq0; [lia | apply triple_get; lia | intros opr; cbv beta zeta].
  eapply triple_pre with (P := fun u => extending l x h u /\
    ((str = 0 \/ str = 0xf2 \/ str = 0xf3) /\ (opr = 0 \/ opr = 0x66))).
  2: { intros u [[Hu ->] ->]. split; [done|]. by destruct Hu as (_ & ? & ? & _). }
  apply triple_pure. intros [Hs Ho]. pose proof (sse_index str opr Hs Ho) as Hidx.
  set (idx := wrap 8 _) in *.
  assert (forall i, 0 <= i < 4 -> exists p, table l !! Z.to_nat i = Some p) as Hat.
  { intros i Hi. apply lookup_lt_is_Some_2. lia. }
  assert (forall i p, table l !! Z.to_nat i = Some p ->
    triple (extending l x h) 0 (le_table i) (fun q u => extending l x h u /\ q = p)) as Hread.
  { intros i p Hp. apply (triple_le_table _ l); [lia | by intros u [[? _] _] | done]. }
  destruct (Hat idx Hidx) as [p Hp].
  eapply triple_seq0; [lia | by apply Hread | intros q; cbv beta]. apply triple_pure. intros ->.
  set (idx' := if p =? 0 then 0 else idx). assert (0 <= idx' < 4) as Hidx' by (unfold idx'; clear -Hidx; destruct (p =? 0); lia).
  destruct (Hat idx' Hidx') as [p' Hp'].
  eapply triple_seq0; [lia | by apply Hread | intros q; cbv beta]. apply triple_pure. intros ->.
  eapply triple_seq0 with (Q := fun _ => extending l x h); [lia| |intros []].
  - match goal with |- triple _ _ (if ?c then _ else _) _ => destruct c end; [|by apply triple_ret].
    eapply triple_seq0 with (Q := fun _ => extending l x h); [lia| |intros []].
    + upd_fields. intros u (Hw & _ & Hop & Hh). split; [exact Hw|]. cbn. split; [by left|]. done.
    + match goal with |- triple _ _ (if ?c then _ else _) _ => destruct c end; [|by apply triple_ret].
      upd_fields. intros u (Hw & Hst & _ & Hh). split; [exact Hw|]. cbn. split; [done|]. split; [by left|]. done.
  - eapply triple_seq0; [lia | by apply Hread | intros q; cbv beta]. apply triple_pure. intros ->.
    apply IH. by eapply list_elem_of_lookup_2.
Qed.

Lemma x87_index b : is_byte b -> 0xC0 <= b -> 0 <= b - 0xC0 < 64.
Proof. unfold is_byte. lia. Qed.

Lemma mode_index d w o : 0 <= eff_opr_mode d w o / 32 < 3 /\ 0 <= eff_adr_mode d o / 32 < 3.
Proof. unfold eff_opr_mode, eff_adr_mode. split; repeat case_match; vm_compute; split; done. Qed.

Lemma triple_set_le l0 l x h n :
  ud_lookup_table_list !! Z.to_nat n = Some l ->
  triple (extending l0 x h) 0 (set_le_at n) (fun _ => extending l x h).
Proof.
  intros El.
  assert (triple (extending l0 x h) 0 (upd_ins (set_le (Some l))) (fun _ => extending l x h)) as H.
  { upd_fields. by intros u ([_ ?] & ? & ? & ? & ?). }
  intros e u Hi Hu Hr. destruct (H e u Hi Hu Hr) as ([] & u' & E & Hx). exists tt, u'.
  unfold set_le_at. rewrite El. split; [exact E | exact Hx].
Qed.

Lemma ext_budget (h : bool) : 12 <= (if h then 0 else 1) + 12.
Proof. destruct h; lia. Qed.

(** The kinds of extension table, one by one. *)
Section Extension.
Context (fuel : nat).
Context (IH : forall l (x h : bool) ptr, ext_ok fuel x ptr = true -> (x = true -> h = true) ->
  triple (extending l x h) ((if h then 0 else 1) + 12) (decode_ext fuel ptr) (fun _ => insn_found)).
Context (l : ud_lookup_table_list_entry) (x h : bool) (Hxh : x = true -> h = true).
Let k : Z := (if h then 0 else 1) + 12.

(** Reading the ModRM byte first leaves twelve bytes for the rest. *)
Lemma triple_ext_after_modrm (f : Z -> D Z) :
  (forall b, is_byte b -> (x = true -> 0xC0 <= b) ->
     triple (fun u => extending l x true u /\ (0xC0 <= b -> extending l true true u)) 12 (f b) (fun _ => insn_found)) ->
  triple (extending l x h) k (let* b := modrm in f b) (fun _ => insn_found).
Proof.
  intros Hf. eapply (triple_seq (if h then 0 else 1)); [unfold k; destruct h; lia | by apply triple_ext_modrm | intros b; cbv beta].
  replace (k - (if h then 0 else 1)) with 12 by (unfold k; lia).
  eapply triple_pre with (P := fun u => (extending l x true u /\ (0xC0 <= b -> extending l true true u)) /\
    (is_byte b /\ (x = true -> 0xC0 <= b))); [|by intros u (? & ? & ? & ?)].
  apply triple_pure. intros [Hb Hxb]. by apply Hf.
Qed.

Lemma triple_ext_by_modrm (f : Z -> Z) :
  (forall b, is_byte b -> (x = true -> 0xC0 <= b) -> 0 <= f b < Z.of_nat (length (table l))) ->
  Z.of_nat (length (table l)) <= 256 -> forallb (ext_ok fuel x) (table l) = true ->
  triple (extending l x h) k (let* b := modrm in let* p := le_table (wrap 8 (f b)) in decode_ext fuel p)
    (fun _ => insn_found).
Proof.
  intros Hf Hlen Hall. apply (triple_ext_after_modrm (fun b => let* p := le_table (wrap 8 (f b)) in decode_ext fuel p)).
  intros b Hb Hxb. eapply triple_pre with (P := extending l x true); [|by intros u [? _]].
  by apply (triple_next_in fuel 12 IH l x true (f b) (Z.of_nat (length (table l)))); [| |apply Hf| | |].
Qed.

(** Register forms go on with the x87 tables, which only they reach. *)
Lemma triple_ext_by_mod p q :
  table l = [p; q] -> ext_ok fuel x p = true -> ext_ok fuel true q = true ->
  triple (extending l x h) k (let* b := modrm in let* p := le_table (wrap 8 ((MODRM_MOD b + 1) / 4)) in decode_ext fuel p)
    (fun _ => insn_found).
Proof.
  intros Et Hp Hq.
  apply (triple_ext_after_modrm (fun b => let* p := le_table (wrap 8 ((MODRM_MOD b + 1) / 4)) in decode_ext fuel p)).
  intros b Hb _. rewrite (mod_index b Hb). destruct (Z.leb_spec 0xC0 b).
  - eapply triple_pre with (P := extending l true true); [|intros u [_ Hu]; auto].
    by apply (triple_next_at fuel 12 IH l true true 1 q); [| rewrite Et | | |].
  - eapply triple_pre with (P := extending l x true); [|by intros u [? _]].
    by apply (triple_next_at fuel 12 IH l x true 0 p); [| rewrite Et | | |].
Qed.

Lemma triple_ext_vendor :
  2 <= Z.of_nat (length (table l)) -> forallb (ext_ok fuel x) (table l) = true ->
  triple (extending l x h) k
    (let next (idx : Z) : D Z := let* p := le_table (wrap 8 idx) in decode_ext fuel p in
     let* v := get vendor in
     if v =? UD_VENDOR_ANY then let* p := le_table 0 in next (if negb (p =? 0) then 0 else 1)
     else if v =? UD_VENDOR_AMD then next 0 else next 1) (fun _ => insn_found).
Proof.
  intros Hlen Hall. assert (12 <= k) as Hk by apply ext_budget. cbv zeta.
  assert (forall i, i = 0 \/ i = 1 -> triple (extending l x h) k
    (let* p := le_table (wrap 8 i) in decode_ext fuel p) (fun _ => insn_found)) as H01.
  { intros i Hi. destruct (table_elem (idx := i) Hall ltac:(lia)) as (p & Hp & Hok).
    by apply (triple_next_at fuel k IH l x h i p); [destruct Hi as [->| ->] | | | |]. }
  drop_get. destruct (_ =? UD_VENDOR_ANY).
  - destruct (table_elem (idx := 0) Hall ltac:(lia)) as (p & Hp & _).
    eapply triple_seq0; [lia | apply (triple_le_table _ l _ p); [lia | by intros u [[? _] _] | done] | intros q; cbv beta].
    eapply triple_pre; [|intros u [Hu _]; exact Hu]. apply H01. case_match; auto.
  - destruct (_ =? UD_VENDOR_AMD); apply H01; auto.
Qed.
End Extension.

Lemma triple_decode_ext fuel : forall l (x h : bool) ptr,
  ext_ok fuel x ptr = true -> (x = true -> h = true) ->
  triple (extending l x h) ((if h then 0 else 1) + 12) (decode_ext fuel ptr) (fun _ => insn_found).
Proof.
  induction fuel as [|fuel IH]; intros l0 x h ptr Hok Hxh; [done|].
  set (k := (if h then 0 else 1) + 12). assert (12 <= k) as Hk by apply ext_budget.
  cbn [ext_ok decode_ext] in *. destruct (Z.land ptr 0x8000 =? 0).
  { eapply triple_conseq; [apply (triple_decode_insn l0 ptr k); [done|lia] | lia | by intros u [? _]|].
    intros r u Hu. by exists l0. }
  destruct (ud_lookup_table_list !! Z.to_nat (Z.ldiff ptr 0x8000)) as [l|] eqn:El; [|done].
  eapply triple_seq0 with (Q := fun _ => extending l x h); [lia| |intros []].
  { by apply (triple_set_le l0). }
  eapply triple_seq0; [lia | apply (triple_const _ _ (table_type l)); [lia|] | intros ty; cbv beta zeta].
  { intros e u [[Hl _] _]. unfold le_type. by rewrite Hl. }
  apply triple_pure. intros ->.
  assert (forall idx n, Z.of_nat (length (table l)) = n -> n <= 256 -> 0 <= idx < n ->
    forallb (ext_ok fuel x) (table l) = true ->
    triple (extending l x h) k (let* p := le_table (wrap 8 idx) in decode_ext fuel p) (fun _ => insn_found)) as Hnext.
  { intros idx n ? ? ? ?. by apply (triple_next_in fuel k IH l x h idx n). }
  destruct (table_type l); try done;
    try (apply andb_true_iff in Hok as [Hlen%Z.eqb_eq Hall];
         first [ apply (triple_ext_by_modrm fuel IH l x h Hxh); [intros b _ _; rewrite Hlen; apply land7 | lia | done]
               | drop_get; drop_get; drop_get; apply (Hnext _ 3); [done|lia|apply mode_index; exact 0|done]
               | drop_get; drop_get; apply (Hnext _ 3); [done|lia|apply (mode_index _ 0)|done]
               | drop_get; apply (Hnext _ 2); [done|lia|case_match; lia|done]
               | eapply triple_pre; [by apply (triple_decode_3dnow l k) | by intros u [? _]] ]).
  - apply andb_true_iff in Hok as [[Hx Hlen%Z.eqb_eq]%andb_true_iff Hall].
    apply (triple_ext_by_modrm fuel IH l x h Hxh); [|lia|done]. intros b Hb Hxb. rewrite Hlen. apply x87_index; auto.
  - destruct (table l) as [|p [|q [|]]] eqn:Et; try done. apply andb_true_iff in Hok as [Hp Hq].
    by apply (triple_ext_by_mod fuel IH l x h Hxh p q).
  - apply andb_true_iff in Hok as [Hlen%Z.leb_le Hall]. by apply (triple_ext_vendor fuel IH l x h Hxh).
  - apply andb_true_iff in Hok as [Hlen%Z.eqb_eq Hall].
    apply triple_decode_ssepfx; [|done]. intros p Hp. apply IH; [|done].
    rewrite forallb_forall in Hall. apply Hall. by apply list_elem_of_In.
Qed.

(** ** Opcodes *)

(** The tables of the opcode bytes, at most [depth] of them. *)
Fixpoint opcode_ok (depth : nat) (l : ud_lookup_table_list_entry) : bool :=
  match depth with
  | O => false
  | S depth' =>
      (Z.of_nat (length (table l)) =? 256) &&
      forallb (fun ptr =>
        if Z.land ptr 0x8000 =? 0 then ext_ok 8 false ptr
        else match ud_lookup_table_list !! Z.to_nat (Z.ldiff ptr 0x8000) with
             | None => false
             | Some l' =>
                 match table_type l' with
                 | UD_TAB__OPC_TABLE => opcode_ok depth' l'
                 | _ => ext_ok 8 false ptr
                 end
             end) (table l)
  end.

(** A failed decoding or a found instruction. *)
Definition settled (u : ud) : Prop := error (ins u) <> 0 \/ insn_found u.

Lemma triple_return_on_error (P : ud -> Prop) k (f : D Z) (Q : Z -> ud -> Prop) :
  0 <= k -> (forall u, P u -> error (ins u) <> 0 -> forall r, r <> 0 -> Q r u) ->
  triple (fun u => P u /\ error (ins u) = 0) k f Q ->
  triple P k (UD_RETURN_ON_ERROR f) Q.
Proof.
  intros Hk HQ Hf. unfold UD_RETURN_ON_ERROR.
  eapply triple_seq0; [lia | apply triple_get; lia | intros r; cbv beta].
  destruct (Z.eqb_spec r 0) as [->|Hne].
  - eapply triple_pre; [exact Hf|]. by intros u [? ?].
  - apply triple_ret; [lia|]. intros u [Hu Hr]. apply HQ; [done| |done]. congruence.
Qed.

Lemma triple_decode_opcode depth : forall fuel l,
  (depth <= fuel)%nat -> opcode_ok depth l = true ->
  triple (extending l false false) (Z.of_nat depth + 12) (decode_opcode fuel) (fun _ => settled).
Proof.
  induction depth as [|depth IH]; intros [|fuel] l Hf Hok; try done; try lia.
  cbn [decode_opcode opcode_ok] in *. apply andb_true_iff in Hok as [Hlen%Z.eqb_eq Hall].
  apply triple_return_on_error; [lia | by left |].
  eapply triple_pre with (P := extending l false false); [|by intros u [? _]].
  apply triple_inv. eapply triple_seq0; [lia | apply triple_get; lia | intros c; cbv beta].
  eapply triple_pre with (P := fun u => extending l false false u /\ is_byte c).
  2: { intros u [[Hu Hi] ->]. split; [done|]. apply Hi. }
  apply triple_pure. intros Hc.
  eapply triple_seq0 with (Q := fun _ => extending l false false); [lia | by upd_fields | intros []].
  destruct (table_elem (idx := c) Hall ltac:(unfold is_byte in Hc; lia)) as (p & Hp & Hpok). cbv beta in Hpok.
  eapply triple_seq0; [lia | apply (triple_le_table _ l _ p); [lia | by intros u [[? _] _] | done] | intros q; cbv beta].
  apply triple_pure. intros ->.
  assert (forall l', ext_ok 8 false p = true ->
    triple (extending l' false false) (Z.of_nat (S depth) + 12) (decode_ext 8 p) (fun _ => settled)) as Hext.
  { intros l' He. eapply triple_conseq; [apply (triple_decode_ext 8 l' false false p He); done | lia | done |].
    intros r u Hu. by right. }
  destruct (Z.land p 0x8000 =? 0); cbn [negb]; [by apply Hext|].
  destruct (ud_lookup_table_list !! Z.to_nat (Z.ldiff p 0x8000)) as [l'|] eqn:El; [|done].
  eapply triple_seq0 with (Q := fun _ => extending l' false false); [lia | by apply (triple_set_le l) | intros []].
  eapply triple_seq0; [lia | apply (triple_const _ _ (table_type l')); [lia|] | intros ty; cbv beta].
  { intros e u [[Hl _] _]. unfold le_type. by rewrite Hl. }
  apply triple_pure. intros ->. destruct (table_type l'); try by apply Hext.
  eapply (triple_seq 1); [lia | apply triple_next; [apply extending_stable|lia] | intros b; cbv beta].
  eapply triple_conseq; [apply (IH fuel l'); [lia|done] | lia | by intros u [? _] | done].
Qed.

(** ** Prefixes *)

Lemma triple_prefix_byte l curr :
  triple (extending l false false) 0 (prefix_byte curr) (fun _ => extending l false false).
Proof.
  unfold prefix_byte.
  repeat match goal with |- triple _ _ (if curr =? ?c then _ else _) _ => destruct (curr =? c);
    [eapply triple_seq0 with (Q := fun _ => extending l false false);
      [lia | upd_fields; intros u (? & ? & ? & ? & ?); split_and!; cbn; auto | intros []; by apply triple_ret]|] end.
  drop_get. by apply triple_ret.
Qed.

(** What follows the reading of a byte in the loop. *)
Definition prefix_tail (fuel : nat) (last curr : Z) : D Z :=
  UD_RETURN_ON_ERROR (
  let* ctr := get_inp inp_ctr in
  if ctr =? MAX_INSN_LENGTH then UD_RETURN_WITH_ERROR
  else
    let* done := prefix_byte curr in
    if negb done then decode_prefixes_loop fuel curr
    else
      let* mode := get dis_mode in
      do* (if (mode =? 64) && (Z.land last 0xF0 =? 0x40)
           then upd_ins (set_pfx_rex last) else dret tt) in
      dret 0).

(** The loop read its bytes one at a time. *)
Definition counted (c : Z) (P : ud -> Prop) (u : ud) : Prop :=
  P u /\ (error (ins u) <> 0 \/ inp_ctr (inp u) = c).

Lemma triple_next_counted (P : ud -> Prop) c :
  stable P -> triple (fun u => P u /\ inp_ctr (inp u) = c) 1 inp_next (fun b u => counted (c + 1) P u /\ is_byte b).
Proof.
  intros HP e u Hi [Hu Hc] Hr.
  destruct (triple_next P 1 HP ltac:(lia) e u Hi Hu Hr) as (b & u' & E & Hi' & [Hu' Hb] & M & L).
  exists b, u'. split; [done|]. split; [done|]. split; [|done]. split; [|done]. split; [done|].
  destruct Hr as [Hnb _]. rewrite inp_next_eq in E by done. destruct (_ && _).
  - destruct (code e _); [|done]. injection E as <- <-. right. cbn. lia.
  - injection E as <- <-. by left.
Qed.

Lemma triple_prefix_tail l fuel : forall last curr,
  (1 <= fuel)%nat -> is_byte last -> is_byte curr ->
  triple (counted (16 - Z.of_nat fuel) (extending l false false)) (Z.of_nat fuel - 1)
    (prefix_tail fuel last curr) (fun _ => extending l false false).
Proof.
  induction fuel as [|fuel IH]; intros last curr Hf Hl Hc; [lia|].
  unfold prefix_tail. apply triple_return_on_error; [lia | by intros u [? _]|].
  eapply triple_pre with (P := fun u => extending l false false u /\ inp_ctr (inp u) = 15 - Z.of_nat fuel).
  2: { intros u [[? [?|?]] ?]; [done|]. split; [done|lia]. }
  eapply triple_seq0; [lia | apply triple_get; lia | intros ctr; cbv beta].
  eapply triple_pre with (P := fun u => (extending l false false u /\ inp_ctr (inp u) = 15 - Z.of_nat fuel) /\ ctr = 15 - Z.of_nat fuel);
    [|intros u [[? ?] ->]; done].
  apply triple_pure. intros ->. unfold MAX_INSN_LENGTH. destruct (Z.eqb_spec (15 - Z.of_nat fuel) 15).
  { eapply triple_pre with (P := extending l false false); [|by intros u [? _]]. unfold UD_RETURN_WITH_ERROR.
    eapply triple_seq0; [lia | apply triple_uderr; [apply extending_stable|lia] | intros []].
    eapply triple_conseq; [apply (triple_get _ (fun u => error (ins u)) 0); lia | lia
      | intros u HH; exact HH | by intros r u [[? _] _]]. }
  eapply triple_seq0 with (Q := fun _ u => extending l false false u /\ inp_ctr (inp u) = 15 - Z.of_nat fuel); [lia| |intros done_; cbv beta].
  { intros e u Hi [Hu Hn] Hr. destruct (triple_prefix_byte l curr e u Hi Hu Hr) as (b & u' & E & Hi' & Hu' & M & L).
    exists b, u'. split; [done|]. split; [done|]. split; [|done]. split; [done|].
    pose proof (moved_ctr _ _ _ M). pose proof (moved_index _ _ _ M). lia. }
  destruct done_; cbn [negb].
  - eapply triple_pre with (P := extending l false false); [|by intros u [? _]]. drop_get.
    eapply triple_seq0 with (Q := fun _ => extending l false false); [lia| |intros []; by apply triple_ret; [lia|]].
    destruct (_ && _); [|by apply triple_ret]. apply triple_upd_ins; [lia | intros u [] _; by split | done].
  - change (decode_prefixes_loop (S fuel) curr) with (let* c := inp_next in prefix_tail fuel curr c).
    eapply (triple_seq 1); [lia | apply triple_next_counted, extending_stable | intros c; cbv beta].
    apply triple_pure. intros Hc'.
    eapply triple_conseq; [apply (IH curr c); [lia|done|done] | lia | | done].
    intros u [? Hn]. split; [done|]. destruct Hn; [by left | right; lia].
Qed.

(** ** ud_decode *)

Definition root_table : ud_lookup_table_list_entry := LookupEntry ud_itab__0 UD_TAB__OPC_TABLE "table0".

(** Every path through the tables of itab.c is well formed: at most three
    opcode bytes, extensions less than eight deep, entries of the instruction
    table with sizes the decoder knows. *)
Lemma tables_ok : opcode_ok 3 root_table = true.
Proof. vm_compute. reflexivity. Qed.

(** The object between calls. *)
Definition ready (u : ud) : Prop :=
  is_byte (inp_curr_ (inp u)) /\ is_byte (modrm_ (ins u)) /\ dis_ok u.

(** What the translators rely on. *)
Definition printable (u : ud) : Prop :=
  (exists x, itab_entry (ins u) = Some x) /\ mnemonic_ok (mnemonic (ins u)) = true /\
  Forall op_ok (operand (ins u)) /\ reg_or_none (pfx_seg (ins u)).

Definition after_prefixes (p : Z) : D bool :=
  if p =? -1 then dret true
  else
    let* o := decode_opcode 4 in
    if o =? -1 then dret true
    else let* err := get_ins error in dret (negb (err =? 0)).

Definition finish_tail : D Z :=
  let* p := itab_prefix_of in
  let* t0 := get_op 0 op_type in
  let* t1 := get_op 1 op_type in
  do* (if (P_SEG p =? 0) && negb (t0 =? UD_OP_MEM) && negb (t1 =? UD_OP_MEM)
       then upd_ins (set_pfx_seg 0) else dret tt) in
  do* upd (fun u => set_insn_offset (pc u) u) in
  do* upd_out (set_asm_buf_fill 0) in
  let* ctr := get_inp inp_ctr in
  do* upd (fun u => set_pc (wrap 64 (pc u + ctr)) u) in
  dret (wrap 32 ctr).

Definition finish (failed : bool) : D Z :=
  do* upd_ins (set_error (if failed then 1 else 0)) in
  do* (if failed then
         do* clear_insn in
         let* x := itab_at 0 in
         upd_ins (fun i => set_mnemonic (itab_mnemonic x) (set_itab_entry (Some x) i))
       else dret tt) in
  finish_tail.

(** The state decoding starts from. *)
Definition started (u : ud) : ud :=
  on_ins (set_le (Some root_table)) (on_ins clear_ins (on_inp (set_inp_ctr 0) u)).

Lemma ud_decode_eq e u :
  ud_decode e u =
  (let* c := inp_next in let* p := prefix_tail 15 0 c in let* f := after_prefixes p in finish f) e (started u).
Proof.
  change (ud_decode e u) with
    ((let* p := decode_prefixes in let* f := after_prefixes p in finish f) e (started u)).
  unfold dbind, bind.
  change (decode_prefixes e (started u)) with
    (match inp_next e (started u) with Some (c, v) => prefix_tail 15 0 c e v | None => None end).
  by destruct (inp_next e (started u)) as [[c v]|].
Qed.

Lemma triple_after_prefixes p :
  triple (extending root_table false false) 15 (after_prefixes p)
    (fun failed u => failed = false -> insn_found u /\ error (ins u) = 0).
Proof.
  unfold after_prefixes. destruct (p =? -1); [by apply triple_ret|].
  eapply (triple_seq 15); [lia | apply (triple_decode_opcode 3 4); [lia | apply tables_ok] | intros o; cbv beta].
  destruct (o =? -1); [by apply triple_ret|].
  eapply triple_seq0; [lia | apply triple_get; lia | intros err; cbv beta].
  apply triple_ret; [lia|]. intros u [[He|Hu] ->] Hf; apply negb_false_iff, Z.eqb_eq in Hf; done.
Qed.

Lemma finish_tail_run i x u :
  itab_entry i = Some x -> mnemonic_ok (mnemonic i) = true -> Forall op_ok (operand i) ->
  reg_or_none (pfx_seg i) -> is_byte (modrm_ i) ->
  exists u', (forall e, finish_tail e (set_ins i u) = Some (wrap 32 (inp_ctr (inp u)), u')) /\
    inp u' = inp u /\ printable u' /\ is_byte (modrm_ (ins u')) /\
    dis_mode u' = dis_mode u /\ vendor u' = vendor u /\ insn_offset u' = pc u /\
    pc u' = wrap 64 (pc u + inp_ctr (inp u)) /\ asm_out u' = set_asm_buf_fill 0 (asm_out u).
Proof.
  intros Hx Hm Ho Hs Hb.
  set (c := (P_SEG (itab_prefix x) =? 0) && negb (op_type (nth_operand 0 i) =? UD_OP_MEM) &&
            negb (op_type (nth_operand 1 i) =? UD_OP_MEM)).
  exists (set_pc (wrap 64 (pc u + inp_ctr (inp u))) (on_out (set_asm_buf_fill 0)
        (set_insn_offset (pc u) (set_ins (if c then set_pfx_seg 0 i else i) u)))). split.
  - intros e. unfold finish_tail, dbind, bind, itab_prefix_of, get_op, get_ins, get, gets.
    cbn [ins set_ins]. rewrite Hx. change (ins (set_ins i u)) with i. fold c. by destruct c.
  - cbn. split; [done|]. split; [|by destruct c].
    unfold printable. destruct c; cbn; (split; [by exists x|]); (split; [done|]); (split; [done|]);
      [unfold reg_or_none; lia | done].
Qed.

Lemma finish_run failed u :
  inv u -> (failed = false -> insn_found u /\ error (ins u) = 0) ->
  exists u', (forall e, finish failed e u = Some (wrap 32 (inp_ctr (inp u)), u')) /\
    inp u' = inp u /\ printable u' /\ is_byte (modrm_ (ins u')) /\
    dis_mode u' = dis_mode u /\ vendor u' = vendor u /\ insn_offset u' = pc u /\
    pc u' = wrap 64 (pc u + inp_ctr (inp u)) /\ asm_out u' = set_asm_buf_fill 0 (asm_out u).
Proof.
  intros [Hc Hm Hr Hs Ho] Hf. destruct failed.
  - assert (Forall op_ok [ud_operand_zero; ud_operand_zero; ud_operand_zero]) as Hz
      by (repeat constructor; cbn; unfold reg_or_none; lia || done).
    destruct (finish_tail_run (set_mnemonic UD_Iinvalid (set_itab_entry (Some (ItabEntry UD_Iinvalid O_NONE O_NONE O_NONE P_none))
      (clear_ins (set_error 1 (ins u))))) _ u eq_refl eq_refl Hz) as (u' & E & H); [unfold reg_or_none; cbn; lia | done |].
    exists u'. split; [|exact H]. intros e. rewrite <- (E e). reflexivity.
  - destruct (Hf eq_refl) as [[l (_ & [x Hx] & Hmn)] He].
    destruct (finish_tail_run (set_error 0 (ins u)) x u) as (u' & E & H); try done; [by apply Ho|].
    exists u'. split; [|exact H]. intros e. rewrite <- (E e). reflexivity.
Qed.

(** A call of [ud_decode] with bytes left and thirty of them readable. *)
Lemma ud_decode_run e u :
  ready u -> readable e u 30 -> inp_end (inp u) = 0 -> inp_buf_index (inp u) < inp_buf_size (inp u) ->
  exists n u', ud_decode e u = Some (n, u') /\ 1 <= n <= 30 /\
    inp_ctr (inp u') = n /\ inp_buf_index (inp u') = inp_buf_index (inp u) + n /\
    inp_buf (inp u') = inp_buf (inp u) /\ inp_buf_size (inp u') = inp_buf_size (inp u) /\
    (inp_buf_index (inp u) + 30 <= inp_buf_size (inp u) -> inp_end (inp u') = 0) /\
    pc u' = wrap 64 (pc u + n) /\ insn_offset u' = pc u /\ ready u' /\ printable u' /\
    vendor u' = vendor u /\ dis_mode u' = dis_mode u /\ asm_out u' = set_asm_buf_fill 0 (asm_out u) /\
    forall e', agree e e' (inp_buf (inp u)) (inp_buf_index (inp u)) (inp_buf_index (inp u) + n) ->
      ud_decode e' u = Some (n, u').
Proof.
  intros (Hc & Hm & Hd) Hr He Hlt.
  assert (inv (started u)) as Hi.
  { split; cbn; try done; try (unfold is_byte, reg_or_none; lia).
    intros _. repeat constructor; cbn; unfold reg_or_none; lia || done. }
  assert (extending root_table false false (started u)) as Hx by (split_and!; try done; by left).
  assert (readable e (started u) (1 + 29)) as Hr' by exact Hr.
  destruct (triple_next_counted (extending root_table false false) 0 (extending_stable _ _ _) e (started u) Hi)
    as (c & u1 & E1 & Hi1 & [[Hx1 Hn1] Hb1] & M1 & L1); [done | by apply (readable_weaken _ _ 30); [|lia]|].
  assert (inp_ctr (inp u1) = 1) as Hctr.
  { rewrite inp_next_eq in E1 by apply Hr. cbn [inp started on_ins on_inp set_ins set_inp] in E1.
    cbn in E1. rewrite He, (proj2 (Z.ltb_lt _ _) Hlt) in E1. cbn in E1.
    destruct (code e _); [|done]. by injection E1 as <- <-. }
  assert (triple (counted 1 (extending root_table false false)) 29
    (let* p := prefix_tail 15 0 c in after_prefixes p)
    (fun failed u => failed = false -> insn_found u /\ error (ins u) = 0)) as T.
  { eapply (triple_seq 14); [lia | | intros p; apply triple_after_prefixes].
    eapply triple_conseq; [apply (triple_prefix_tail root_table 15 0 c); [lia | unfold is_byte; lia | done] | lia | done | done]. }
  destruct (T e u1 Hi1) as (f & u2 & E2 & Hi2 & Hf & M2 & L2); [by split; [|right] | by apply (readable_moved e (started u) u1 1 29)|].
  destruct (finish_run f u2 Hi2 Hf) as (u' & E3 & Hinp & Hpr & Hmb & Hdm & Hvn & Hof & Hpc & Hou).
  pose proof (moved_trans _ _ _ _ _ M1 M2) as M. change (1 + 29) with 30 in M.
  pose proof (moved_index _ _ _ M1). pose proof (moved_index _ _ _ M2). pose proof (moved_ctr _ _ _ M1).
  pose proof (moved_ctr _ _ _ M2). pose proof (moved_index _ _ _ M) as HI. pose proof (moved_ctr _ _ _ M) as HC.
  cbn in HI, HC.
  assert (wrap 32 (inp_ctr (inp u2)) = inp_ctr (inp u2)) as Hw by (apply wrap_small; lia).
  exists (inp_ctr (inp u2)), u'. rewrite Hinp.
  assert (forall e', agree e e' (inp_buf (inp u)) (inp_buf_index (inp u)) (inp_buf_index (inp u) + inp_ctr (inp u2)) ->
    ud_decode e' u = Some (inp_ctr (inp u2), u')) as Hloc.
  { intros e' Ha. rewrite ud_decode_eq. unfold dbind at 1. erewrite bind_some.
    2: { apply L1. cbn. intros j Hj. apply Ha. lia. }
    transitivity ((let* f := (let* p := prefix_tail 15 0 c in after_prefixes p) in finish f) e' u1).
    { unfold dbind, bind. by destruct (prefix_tail 15 0 c e' u1) as [[]|]. }
    unfold dbind at 1. erewrite bind_some; [rewrite <- Hw; apply E3|].
    apply L2. rewrite (moved_buf _ _ _ M1). cbn. intros j Hj. apply Ha. lia. }
  split; [by apply Hloc|]. split; [lia|]. split; [done|]. split; [lia|].
  split; [by rewrite (moved_buf _ _ _ M)|]. split; [by rewrite (moved_size _ _ _ M)|].
  split; [intros Hs; by apply (moved_end _ _ _ M)|].
  split; [by rewrite Hpc, (moved_pc _ _ _ M)|]. split; [by rewrite Hof, (moved_pc _ _ _ M)|].
  split. { split; [rewrite Hinp; apply Hi2|]. split; [done|]. unfold dis_ok. by rewrite Hdm, (moved_mode _ _ _ M). }
  split; [done|]. split; [by rewrite Hvn, (moved_vendor _ _ _ M)|]. split; [by rewrite Hdm, (moved_mode _ _ _ M)|].
  split; [by rewrite Hou, (moved_out _ _ _ M)|]. exact Hloc.
Qed.
