(* ===== verification/Syn.v ===== *)
(** * The translators (third_party/udis86/syn.c, syn-intel.c, syn-att.c)

    Printing a decoded instruction into the assembly buffer in the two
    syntaxes. Text is a list of character codes; [printf] formats are written
    out as the concatenation of their parts. *)

From stdpp Require Import base list strings.
From S2P Require Import Prelude Itab Ud Decode DecodeLogic DecodeSafe.

(** ** Formats *)

Definition hex_digit (d : Z) : Z := if d <? 10 then 48 + d else 87 + d.

(** The digits of [v] in base [b], most significant first, at least one. *)
Fixpoint digits (fuel : nat) (b v : Z) (acc : list Z) : list Z :=
  match fuel with
  | O => acc
  | S fuel' =>
      let acc := hex_digit (v mod b) :: acc in
      if v / b =? 0 then acc else digits fuel' b (v / b) acc
  end.

(** [%x], [%d] and [%+d]; 20 digits hold every 64-bit value. *)
Definition fmt_x (v : Z) : list Z := digits 20 16 v [].
Definition fmt_d (v : Z) : list Z := if v <? 0 then 45 :: digits 20 10 (- v) [] else digits 20 10 v [].
Definition fmt_plus_d (v : Z) : list Z := if v <? 0 then fmt_d v else 43 :: fmt_d v.

(** ** syn.c *)

Definition ud_reg_tab : list string :=
  [ "al"; "cl"; "dl"; "bl"; "ah"; "ch"; "dh"; "bh"; "spl"; "bpl"; "sil"; "dil"; "r8b"; "r9b";
    "r10b"; "r11b"; "r12b"; "r13b"; "r14b"; "r15b"; "ax"; "cx"; "dx"; "bx"; "sp"; "bp"; "si";
    "di"; "r8w"; "r9w"; "r10w"; "r11w"; "r12w"; "r13w"; "r14w"; "r15w"; "eax"; "ecx"; "edx";
    "ebx"; "esp"; "ebp"; "esi"; "edi"; "r8d"; "r9d"; "r10d"; "r11d"; "r12d"; "r13d"; "r14d";
    "r15d"; "rax"; "rcx"; "rdx"; "rbx"; "rsp"; "rbp"; "rsi"; "rdi"; "r8"; "r9"; "r10"; "r11";
    "r12"; "r13"; "r14"; "r15"; "es"; "cs"; "ss"; "ds"; "fs"; "gs"; "cr0"; "cr1"; "cr2"; "cr3";
    "cr4"; "cr5"; "cr6"; "cr7"; "cr8"; "cr9"; "cr10"; "cr11"; "cr12"; "cr13"; "cr14"; "cr15";
    "dr0"; "dr1"; "dr2"; "dr3"; "dr4"; "dr5"; "dr6"; "dr7"; "dr8"; "dr9"; "dr10"; "dr11";
    "dr12"; "dr13"; "dr14"; "dr15"; "mm0"; "mm1"; "mm2"; "mm3"; "mm4"; "mm5"; "mm6"; "mm7";
    "st0"; "st1"; "st2"; "st3"; "st4"; "st5"; "st6"; "st7"; "xmm0"; "xmm1"; "xmm2"; "xmm3";
    "xmm4"; "xmm5"; "xmm6"; "xmm7"; "xmm8"; "xmm9"; "xmm10"; "xmm11"; "xmm12"; "xmm13";
    "xmm14"; "xmm15"; "rip"].

(** [ud_reg_tab[r - UD_R_AL]]: an index outside the array is undefined. *)
Definition reg_name (r : Z) : D (list Z) := fun _ u =>
  if r - UD_R_AL <? 0 then None
  else match ud_reg_tab !! Z.to_nat (r - UD_R_AL) with
       | Some s => Some (c_string s, u)
       | None => None
       end.

(** [ud_lookup_mnemonic] (udis86.c) for a [%s]: NULL is undefined there. *)
Definition ud_lookup_mnemonic (c : ud_mnemonic_code) : option string :=
  if mnemonic_value c <? mnemonic_value UD_MAX_MNEMONIC_CODE
  then ud_mnemonics_str !! Z.to_nat (mnemonic_value c) else None.
Definition mnemonic_name : D (list Z) := fun _ u =>
  match ud_lookup_mnemonic (mnemonic (ins u)) with
  | Some s => Some (c_string s, u)
  | None => None
  end.

Definition ud_syn_rel_target (op : ud_operand) : D Z :=
  let* mode := get_ins opr_mode in
  let* p := get pc in
  let trunc_mask := Z.shiftr 0xffffffffffffffff (64 - mode) in
  dret (if op_size op =? 8 then Z.land (wrap 64 (p + lval_s 8 op)) trunc_mask
        else if op_size op =? 16 then Z.land (wrap 64 (p + lval_s 16 op)) trunc_mask
        else if op_size op =? 32 then Z.land (wrap 64 (p + lval_s 32 op)) trunc_mask
        else 0).

(** [vsnprintf(buf + pos, n, ...)] of the text [txt]: at most [n - 1] characters
    and a terminator; a store outside the buffer is undefined. *)
Definition buf_print (buf : list Z) (pos n : Z) (txt : list Z) : option (list Z) :=
  if n =? 0 then Some buf
  else
    let t := take (Z.to_nat (n - 1)) txt ++ [0] in
    if (0 <=? pos) && (pos + Z.of_nat (length t) <=? Z.of_nat (length buf))
    then Some (take (Z.to_nat pos) buf ++ t ++ drop (Z.to_nat pos + length t) buf)
    else None.

Definition ud_asmprintf (txt : list Z) : D Z := fun _ u =>
  let o := asm_out u in
  let avail := signed 32 (asm_buf_size o - asm_buf_fill o - 1) in
  let r := signed 32 (Z.of_nat (length txt)) in
  match buf_print (asm_buf o) (asm_buf_fill o) (wrap 64 avail) txt with
  | Some buf =>
      let fill := if (r <? 0) || (avail <? r) then wrap 64 (asm_buf_size o - 1) else asm_buf_fill o + r in
      Some (r, on_out (fun o => set_asm_buf_fill fill (set_asm_buf buf o)) u)
  | None => None
  end.

Definition puts (s : string) : D Z := ud_asmprintf (c_string s).

Definition ud_syn_print_addr (addr : Z) : D Z :=
  let* r := get_out sym_resolver in
  if negb (r =? 0) then
    let* n := (fun e u => Some (resolver e r u addr, u)) in
    match n with
    | (Some name, offset) =>
        if negb (offset =? 0) then ud_asmprintf (name ++ fmt_plus_d offset) else ud_asmprintf name
    | (None, _) => ud_asmprintf (c_string "0x" ++ fmt_x addr)
    end
  else ud_asmprintf (c_string "0x" ++ fmt_x addr).

Definition ud_syn_print_imm (op : ud_operand) : D Z :=
  let* mode := get_ins opr_mode in
  let v :=
    if (op_oprcode op =? OP_sI) && negb (op_size op =? mode) then
      let v := wrap 64 (if op_size op =? 8 then lval_s 8 op else lval_s 32 op) in
      if mode <? 64 then Z.land v (Z.shiftl 1 mode - 1) else v
    else if op_size op =? 8 then lval_u 8 op
    else if op_size op =? 16 then lval_u 16 op
    else if op_size op =? 32 then lval_u 32 op
    else if op_size op =? 64 then lval_u 64 op
    else 0 in
  ud_asmprintf (c_string "0x" ++ fmt_x v).

Definition ud_syn_print_mem_disp (op : ud_operand) (sign : bool) : D Z :=
  if (op_base op =? UD_NONE) && (op_index op =? UD_NONE) then
    let v :=
      if op_offset op =? 16 then lval_u 16 op
      else if op_offset op =? 32 then lval_u 32 op
      else if op_offset op =? 64 then lval_u 64 op
      else 0 in
    ud_asmprintf (c_string "0x" ++ fmt_x v)
  else
    let v :=
      if op_offset op =? 8 then lval_s 8 op
      else if op_offset op =? 16 then lval_s 16 op
      else if op_offset op =? 32 then lval_s 32 op
      else 0 in
    if v <? 0 then ud_asmprintf (c_string "-0x" ++ fmt_x (- v))
    else if 0 <? v then ud_asmprintf (c_string (if sign then "+" else "") ++ c_string "0x" ++ fmt_x v)
    else dret 0.

(** [if(c) ...] *)
Definition when (c : bool) (f : D Z) : D Z := if c then f else dret 0.

(** The operand-size and address-size prefixes both translators print first. *)
Definition print_size_prefixes : D Z :=
  let* x := itab_prefix_of in
  let* opr := get_ins pfx_opr in
  let* adr := get_ins pfx_adr in
  let* mode := get dis_mode in
  do* when ((P_OSO x =? 0) && negb (opr =? 0))
        (if mode =? 16 then puts "o32 "
         else if (mode =? 32) || (mode =? 64) then puts "o16 " else dret 0) in
  when ((P_ASO x =? 0) && negb (adr =? 0))
    (if mode =? 16 then puts "a32 "
     else if mode =? 32 then puts "a16 "
     else if mode =? 64 then puts "a32 " else dret 0).

(** ** syn-intel.c *)

Module Intel.

Definition opr_cast (op : ud_operand) : D Z :=
  let* far := get_ins br_far in
  do* when (negb (far =? 0)) (puts "far ") in
  if op_size op =? 8 then puts "byte "
  else if op_size op =? 16 then puts "word "
  else if op_size op =? 32 then puts "dword "
  else if op_size op =? 64 then puts "qword "
  else if op_size op =? 80 then puts "tword "
  else dret 0.

Definition gen_mem (op : ud_operand) (syn_cast : bool) : D Z :=
  do* when syn_cast (opr_cast op) in
  do* puts "[" in
  let* seg := get_ins pfx_seg in
  do* when (negb (seg =? 0)) (let* n := reg_name seg in ud_asmprintf (n ++ c_string ":")) in
  do* when (negb (op_base op =? 0)) (let* n := reg_name (op_base op) in ud_asmprintf n) in
  do* when (negb (op_index op =? 0))
        (let* n := reg_name (op_index op) in
         do* ud_asmprintf (c_string (if negb (op_base op =? UD_NONE) then "+" else "") ++ n) in
         when (negb (op_scale op =? 0)) (ud_asmprintf (c_string "*" ++ fmt_d (op_scale op)))) in
  do* when (negb (op_offset op =? 0))
        (ud_syn_print_mem_disp op (negb (op_base op =? UD_NONE) || negb (op_index op =? UD_NONE))) in
  puts "]".

Definition gen_operand (op : ud_operand) (syn_cast : bool) : D Z :=
  if op_type op =? UD_OP_REG then let* n := reg_name (op_base op) in ud_asmprintf n
  else if op_type op =? UD_OP_MEM then gen_mem op syn_cast
  else if op_type op =? UD_OP_IMM then ud_syn_print_imm op
  else if op_type op =? UD_OP_JIMM then let* a := ud_syn_rel_target op in ud_syn_print_addr a
  else if op_type op =? UD_OP_PTR then
    if op_size op =? 32 then
      ud_asmprintf (c_string "word 0x" ++ fmt_x (lval_seg op) ++ c_string ":0x" ++
                    fmt_x (Z.land (lval_off op) 0xFFFF))
    else if op_size op =? 48 then
      ud_asmprintf (c_string "dword 0x" ++ fmt_x (lval_seg op) ++ c_string ":0x" ++ fmt_x (lval_off op))
    else dret 0
  else if op_type op =? UD_OP_CONST then
    do* when syn_cast (opr_cast op) in ud_asmprintf (fmt_d (signed 32 (lval_u 32 op)))
  else dret 0.

(** The shifts by CL whose memory operand is printed with a size. *)
Definition is_shift (c : ud_mnemonic_code) : bool :=
  mnemonic_eqb c UD_Ircl || mnemonic_eqb c UD_Irol || mnemonic_eqb c UD_Iror || mnemonic_eqb c UD_Ircr ||
  mnemonic_eqb c UD_Ishl || mnemonic_eqb c UD_Ishr || mnemonic_eqb c UD_Isar.

(** [ud_opr_is_sreg] (udis86.c) *)
Definition ud_opr_is_sreg (op : ud_operand) : bool :=
  (op_type op =? UD_OP_REG) && (UD_R_ES <=? op_base op) && (op_base op <=? UD_R_GS).

Definition ud_translate_intel : D Z :=
  do* print_size_prefixes in
  let* i := get ins in
  let o0 := nth_operand 0 i in
  let o1 := nth_operand 1 i in
  let o2 := nth_operand 2 i in
  do* when (negb (pfx_seg i =? 0) && negb (op_type o0 =? UD_OP_MEM) && negb (op_type o1 =? UD_OP_MEM))
        (let* n := reg_name (pfx_seg i) in ud_asmprintf (n ++ c_string " ")) in
  do* when (negb (pfx_lock i =? 0)) (puts "lock ") in
  do* (if negb (pfx_rep i =? 0) then puts "rep "
       else if negb (pfx_repe i =? 0) then puts "repe "
       else if negb (pfx_repne i =? 0) then puts "repne "
       else dret 0) in
  do* (let* n := mnemonic_name in ud_asmprintf n) in
  do* when (negb (op_type o0 =? UD_NONE))
        (do* puts " " in
         let cast :=
           (op_type o0 =? UD_OP_MEM) &&
           (if (op_type o1 =? UD_OP_IMM) || (op_type o1 =? UD_OP_CONST) || (op_type o1 =? UD_NONE) ||
               (negb (op_size o0 =? op_size o1) && negb (op_type o1 =? UD_OP_REG))
            then true
            else (op_type o1 =? UD_OP_REG) && (op_base o1 =? UD_R_CL) && is_shift (mnemonic i)) in
         gen_operand o0 cast) in
  do* when (negb (op_type o1 =? UD_NONE))
        (do* puts ", " in
         let cast := (op_type o1 =? UD_OP_MEM) && negb (op_size o0 =? op_size o1) &&
                     negb (ud_opr_is_sreg o0) in
         gen_operand o1 cast) in
  when (negb (op_type o2 =? UD_NONE)) (do* puts ", " in gen_operand o2 false).

End Intel.

(** ** syn-att.c *)

Module Att.

Definition opr_cast (op : ud_operand) : D Z :=
  if (op_size op =? 16) || (op_size op =? 32) then puts "*" else dret 0.

Definition gen_mem (op : ud_operand) : D Z :=
  let* far := get_ins br_far in
  do* when (negb (far =? 0)) (opr_cast op) in
  let* seg := get_ins pfx_seg in
  do* when (negb (seg =? 0)) (let* n := reg_name seg in ud_asmprintf (c_string "%" ++ n ++ c_string ":")) in
  do* when (negb (op_offset op =? 0)) (ud_syn_print_mem_disp op false) in
  do* when (negb (op_base op =? 0)) (let* n := reg_name (op_base op) in ud_asmprintf (c_string "(%" ++ n)) in
  do* when (negb (op_index op =? 0))
        (do* (if negb (op_base op =? 0) then puts "," else puts "(") in
         let* n := reg_name (op_index op) in ud_asmprintf (c_string "%" ++ n)) in
  do* when (negb (op_scale op =? 0)) (ud_asmprintf (c_string "," ++ fmt_d (op_scale op))) in
  when (negb (op_base op =? 0) || negb (op_index op =? 0)) (puts ")").

Definition gen_operand (op : ud_operand) : D Z :=
  if op_type op =? UD_OP_CONST then ud_asmprintf (c_string "$0x" ++ fmt_x (lval_u 32 op))
  else if op_type op =? UD_OP_REG then let* n := reg_name (op_base op) in ud_asmprintf (c_string "%" ++ n)
  else if op_type op =? UD_OP_MEM then gen_mem op
  else if op_type op =? UD_OP_IMM then do* puts "$" in ud_syn_print_imm op
  else if op_type op =? UD_OP_JIMM then let* a := ud_syn_rel_target op in ud_syn_print_addr a
  else if op_type op =? UD_OP_PTR then
    if op_size op =? 32 then
      ud_asmprintf (c_string "$0x" ++ fmt_x (lval_seg op) ++ c_string ", $0x" ++
                    fmt_x (Z.land (lval_off op) 0xFFFF))
    else if op_size op =? 48 then
      ud_asmprintf (c_string "$0x" ++ fmt_x (lval_seg op) ++ c_string ", $0x" ++ fmt_x (lval_off op))
    else dret 0
  else dret 0.

(** The operands in source order, third to first, after the mnemonic. *)
Definition gen_operands (star : bool) : D Z :=
  let* i := get ins in
  let o0 := nth_operand 0 i in
  let o1 := nth_operand 1 i in
  let o2 := nth_operand 2 i in
  do* (if star then puts " *" else puts " ") in
  do* when (negb (op_type o2 =? UD_NONE)) (do* gen_operand o2 in puts ", ") in
  do* when (negb (op_type o1 =? UD_NONE)) (do* gen_operand o1 in puts ", ") in
  when (negb (op_type o0 =? UD_NONE)) (gen_operand o0).

Definition ud_translate_att : D Z :=
  do* print_size_prefixes in
  let* i := get ins in
  let o0 := nth_operand 0 i in
  let o1 := nth_operand 1 i in
  do* when (negb (pfx_lock i =? 0)) (puts "lock ") in
  do* (if negb (pfx_rep i =? 0) then puts "rep "
       else if negb (pfx_rep i =? 0) then puts "repe "
       else if negb (pfx_repne i =? 0) then puts "repne "
       else dret 0) in
  match mnemonic i with
  | UD_Iretf => do* puts "lret " in gen_operands false
  | UD_Idb => ud_asmprintf (c_string ".byte 0x" ++ fmt_x (lval_u 8 o0))
  | UD_Ijmp | UD_Icall =>
      do* when (negb (br_far i =? 0)) (puts "l") in
      do* (let* n := mnemonic_name in ud_asmprintf n) in
      gen_operands (op_type o0 =? UD_OP_REG)
  | UD_Ibound | UD_Ienter =>
      do* when (negb (op_type o0 =? UD_NONE)) (gen_operand o0) in
      when (negb (op_type o1 =? UD_NONE)) (do* puts "," in gen_operand o1)
  | _ => do* (let* n := mnemonic_name in ud_asmprintf n) in gen_operands false
  end.

End Att.

(** ** Safety of the translators *)

(** The assembly buffer: room for the fill and a terminator in it. *)
Definition out_ok (o : ud_asm) : Prop :=
  1 <= asm_buf_size o < 2 ^ 31 /\ 0 <= asm_buf_fill o <= asm_buf_size o - 1 /\
  asm_buf_size o <= Z.of_nat (length (asm_buf o)) /\
  exists i : nat, Z.of_nat i < asm_buf_size o /\ asm_buf o !! i = Some 0.

(** [f] prints: it returns, changes only the output, and keeps the buffer. *)
Definition prints {A} (f : D A) : Prop := forall e u,
  printable u -> out_ok (asm_out u) ->
  exists r o, f e u = Some (r, set_asm_out o u) /\ out_ok o /\ asm_buf_size o = asm_buf_size (asm_out u).

Create HintDb prints discriminated.

Lemma prints_ret {A} (a : A) : prints (dret a).
Proof. intros e u Hp Ho. exists a, (asm_out u). split; [by destruct u|done]. Qed.

Lemma prints_bind {A B} (f : D A) (g : A -> D B) :
  prints f -> (forall a, prints (g a)) -> prints (dbind f g).
Proof.
  intros Hf Hg e u Hp Ho. destruct (Hf e u Hp Ho) as (a & o & E & Ho' & Hs).
  destruct (Hg a e (set_asm_out o u) Hp Ho') as (b & o' & E' & Ho'' & Hs').
  exists b, o'. split; [|split; [done | by rewrite Hs'; cbn]].
  unfold dbind. by erewrite bind_some by exact E.
Qed.

Lemma prints_get {A B} (f : ud -> A) (g : A -> D B) :
  (forall v, printable v -> prints (g (f v))) -> prints (dbind (get f) g).
Proof. intros Hg e u Hp Ho. unfold dbind. erewrite bind_some by reflexivity. by apply Hg. Qed.

Lemma prints_when c f : prints f -> prints (when c f).
Proof. destruct c; [done|]. intros _. apply prints_ret. Qed.

Lemma prints_if {A} (c : bool) (f g : D A) : (c = true -> prints f) -> (c = false -> prints g) -> prints (if c then f else g).
Proof. destruct c; auto. Qed.

Lemma buf_print_ok buf pos n txt size :
  0 <= pos -> 0 < n -> pos + n <= size -> size <= Z.of_nat (length buf) ->
  exists buf', buf_print buf pos n txt = Some buf' /\ length buf' = length buf /\
    exists i : nat, Z.of_nat i < size /\ buf' !! i = Some 0.
Proof.
  intros Hp Hn Hs Hb. unfold buf_print. rewrite (proj2 (Z.eqb_neq n 0)) by lia.
  set (t := take (Z.to_nat (n - 1)) txt).
  assert (Z.of_nat (length t) <= n - 1) as Ht by (unfold t; rewrite length_take; lia).
  rewrite length_app. cbn [length].
  replace (_ && _) with true by (symmetry; apply andb_true_iff; split; apply Z.leb_le; lia).
  eexists. split; [done|]. split.
  - rewrite !length_app, length_take, length_drop. cbn [length]. lia.
  - exists (Z.to_nat pos + length t)%nat. split; [lia|].
    rewrite lookup_app_r by (rewrite length_take; lia). rewrite length_take.
    rewrite lookup_app_l by (rewrite length_app; cbn [length]; lia).
    rewrite lookup_app_r by lia. by replace (_ - _ - _)%nat with O by lia.
Qed.

Lemma signed32_nonneg z : 0 <= z < 2 ^ 31 -> signed 32 z = z.
Proof. intros Hz. apply signed_small; [lia|]. change (32 - 1) with 31. lia. Qed.

(** A print never leaves the buffer, however long the text. *)
Lemma prints_asmprintf txt : prints (ud_asmprintf txt).
Proof.
  intros e u Hp (Hs & Hf & Hl & Hz). unfold ud_asmprintf.
  set (o := asm_out u) in *. rewrite (signed32_nonneg (asm_buf_size o - asm_buf_fill o - 1)) by lia.
  set (avail := asm_buf_size o - asm_buf_fill o - 1). set (r := signed 32 _).
  rewrite (wrap_small 64 avail) by (unfold avail; lia).
  assert (exists buf', buf_print (asm_buf o) (asm_buf_fill o) avail txt = Some buf' /\
    asm_buf_size o <= Z.of_nat (length buf') /\ exists i : nat, Z.of_nat i < asm_buf_size o /\ buf' !! i = Some 0)
    as (buf' & E & Hlen & Hnul).
  { destruct (Z.eq_dec avail 0) as [->|Hne].
    - exists (asm_buf o). done.
    - destruct (buf_print_ok (asm_buf o) (asm_buf_fill o) avail txt (asm_buf_size o)) as (b & Eb & Hb & Hi);
        [lia | unfold avail in *; lia | unfold avail; lia | lia|]. exists b. rewrite Hb. done. }
  rewrite E. eexists _, _. split; [unfold on_out; reflexivity|]. split; [|done].
  unfold out_ok. cbn. fold o. split; [lia|]. split; [|done].
  destruct ((r <? 0) || (avail <? r)) eqn:Er.
  - rewrite wrap_small by lia. lia.
  - apply orb_false_iff in Er as [?%Z.ltb_ge ?%Z.ltb_ge]. unfold avail in *. lia.
Qed.

Lemma reg_tab_length : Z.of_nat (length ud_reg_tab) = UD_R_RIP.
Proof. vm_compute. reflexivity. Qed.

Lemma prints_reg_name r : reg_ok r -> prints (reg_name r).
Proof.
  intros [H1 H2] e u Hp Ho. unfold reg_name. rewrite (proj2 (Z.ltb_ge _ _)) by lia.
  destruct (lookup_lt_is_Some_2 ud_reg_tab (Z.to_nat (r - UD_R_AL))) as [s Hs].
  { pose proof reg_tab_length. lia. }
  rewrite Hs. exists (c_string s), (asm_out u). split; [by destruct u | done].
Qed.

Lemma mnemonic_named c : mnemonic_ok c = true -> is_Some (ud_lookup_mnemonic c).
Proof.
  intros Hm. unfold ud_lookup_mnemonic. unfold mnemonic_ok in Hm. rewrite Hm. apply lookup_lt_is_Some_2.
  apply Z.ltb_lt in Hm. change (mnemonic_value UD_MAX_MNEMONIC_CODE) with (Z.of_nat (length ud_mnemonics_str)) in Hm.
  assert (0 <= mnemonic_value c) by (by destruct c). lia.
Qed.

Lemma register_named r : reg_or_none r -> r <> UD_NONE -> is_Some (ud_reg_tab !! Z.to_nat (r - UD_R_AL)).
Proof. intros Hr Hn. apply lookup_lt_is_Some_2. pose proof reg_tab_length. unfold reg_or_none in *. lia. Qed.

Lemma prints_mnemonic_name : prints mnemonic_name.
Proof.
  intros e u (_ & Hm & _) Ho. unfold mnemonic_name. destruct (mnemonic_named _ Hm) as [s Hs]. rewrite Hs. exists (c_string s), (asm_out u). split; [by destruct u | done].
Qed.

Lemma printable_op u n : printable u -> op_ok (nth_operand n (ins u)).
Proof.
  intros (_ & _ & Ho & _). unfold nth_operand. destruct (operand (ins u) !! n) as [o|] eqn:E.
  - rewrite Forall_lookup in Ho. by apply (Ho n).
  - cbn. repeat split; cbn; lia.
Qed.

Lemma reg_of_nonzero r : reg_or_none r -> negb (r =? 0) = true -> reg_ok r.
Proof. unfold reg_or_none, reg_ok. intros ? ?%negb_true_iff%Z.eqb_neq. lia. Qed.

#[export] Hint Resolve prints_ret prints_asmprintf prints_mnemonic_name : prints.

(** Follow the structure of a translator. *)
Ltac prints_step :=
  match goal with
  | |- prints (dbind (get _) _) => apply prints_get; intros ? ?; cbv beta zeta
  | |- prints (dbind (get_ins ?f) _) => apply (prints_get (fun u => f (ins u))); intros ? ?; cbv beta zeta
  | |- prints (dbind (get_out ?f) _) => apply (prints_get (fun u => f (asm_out u))); intros ? ?; cbv beta zeta
  | |- prints (dbind _ _) => apply prints_bind; [|intros ?; cbv beta zeta]
  | |- prints (if _ then _ else _) => apply prints_if; intros ?
  | |- prints (when _ _) => apply (prints_if _ _ (dret 0)); intros ?
  | |- prints (puts _) => apply prints_asmprintf
  | |- prints _ => solve [eauto with prints]
  end.
Ltac prints_tac := repeat prints_step.

Lemma prints_resolver r addr : prints (fun e u => Some (resolver e r u addr, u)).
Proof. intros e u Hp Ho. exists (resolver e r u addr), (asm_out u). split; [by destruct u | done]. Qed.

Lemma prints_addr a : prints (ud_syn_print_addr a).
Proof.
  unfold ud_syn_print_addr. apply (prints_get (fun u => sym_resolver (asm_out u))). intros v _.
  apply prints_if; intros _; [|prints_tac].
  apply prints_bind; [apply prints_resolver|]. intros [[name|] off]; prints_tac.
Qed.

Lemma prints_imm op : prints (ud_syn_print_imm op).
Proof. unfold ud_syn_print_imm. prints_tac. Qed.

Lemma prints_mem_disp op sign : prints (ud_syn_print_mem_disp op sign).
Proof. unfold ud_syn_print_mem_disp. prints_tac. Qed.

Lemma prints_rel_target op : prints (ud_syn_rel_target op).
Proof. unfold ud_syn_rel_target. prints_tac. Qed.

Lemma prints_itab_prefix_of : prints itab_prefix_of.
Proof.
  intros e u ([x Hx] & _) Ho. unfold itab_prefix_of. rewrite Hx.
  exists (itab_prefix x), (asm_out u). split; [by destruct u | done].
Qed.

#[export] Hint Resolve prints_addr prints_imm prints_mem_disp prints_rel_target prints_itab_prefix_of : prints.

Lemma prints_size_prefixes : prints print_size_prefixes.
Proof. unfold print_size_prefixes. prints_tac. Qed.

(** A register of an operand, or a segment, printed when there is one. *)
Lemma prints_reg_when r (g : list Z -> D Z) :
  reg_or_none r -> (forall n, prints (g n)) -> prints (when (negb (r =? 0)) (let* n := reg_name r in g n)).
Proof.
  intros Hr Hg. unfold when. apply prints_if; [|intros _; apply prints_ret]. intros Hn.
  apply prints_bind; [|done]. by apply prints_reg_name, reg_of_nonzero.
Qed.

Lemma reg_operand op : op_ok op -> (op_type op =? UD_OP_REG) = true -> reg_ok (op_base op).
Proof.
  intros (Hb & _ & Ht) E%Z.eqb_eq. specialize (Ht E). unfold reg_or_none, reg_ok in *. lia.
Qed.

#[export] Hint Resolve prints_size_prefixes prints_reg_name prints_reg_when reg_operand reg_of_nonzero : prints.

Lemma printable_seg v : printable v -> reg_or_none (pfx_seg (ins v)).
Proof. by intros (_ & _ & _ & ?). Qed.

Lemma prints_intel_gen op cast : op_ok op -> prints (Intel.gen_operand op cast).
Proof.
  intros Ho. pose proof Ho as (Hb & Hi & _).
  assert (prints (Intel.opr_cast op)) as Hc by (unfold Intel.opr_cast; prints_tac).
  assert (prints (Intel.gen_mem op cast)) as Hm.
  { unfold Intel.gen_mem. prints_tac; try (by apply prints_reg_name, reg_of_nonzero; [apply printable_seg|]). }
  unfold Intel.gen_operand. prints_tac.
Qed.

Lemma prints_att_gen op : op_ok op -> prints (Att.gen_operand op).
Proof.
  intros Ho. pose proof Ho as (Hb & Hi & _).
  assert (prints (Att.opr_cast op)) as Hc by (unfold Att.opr_cast; prints_tac).
  assert (prints (Att.gen_mem op)) as Hm.
  { unfold Att.gen_mem. prints_tac; try (by apply prints_reg_name, reg_of_nonzero; [apply printable_seg|]). }
  unfold Att.gen_operand. prints_tac.
Qed.

#[export] Hint Resolve prints_intel_gen prints_att_gen printable_op printable_seg : prints.

Lemma prints_intel : prints Intel.ud_translate_intel.
Proof.
  unfold Intel.ud_translate_intel. prints_tac.
  match goal with H : (_ && _ && _) = true |- _ => apply andb_true_iff in H as [[H _]%andb_true_iff _] end.
  apply prints_reg_name, reg_of_nonzero; [by apply printable_seg | done].
Qed.

Lemma prints_att_operands star : prints (Att.gen_operands star).
Proof. unfold Att.gen_operands. prints_tac. Qed.

#[export] Hint Resolve prints_att_operands : prints.

Lemma prints_att : prints Att.ud_translate_att.
Proof. unfold Att.ud_translate_att. prints_tac. destruct (mnemonic (ins v)); prints_tac. Qed.
