(* ===== verification/Udis86.v ===== *)
(** * The disassembler's interface (third_party/udis86/udis86.c) and its client
      (common/generic/source/machine_instruction.c)

    Setting an object up, disassembling one instruction, and the two functions
    of the payload that find instruction boundaries with it. *)

From stdpp Require Import base gmap list strings.
From S2P Require Import Prelude Errors Machine Reference KernelBase Itab Ud Decode DecodeLogic DecodeSafe Syn.

(** ** Setting up *)

(** [memset(u, 0, sizeof(struct ud))] *)
Definition ud_memset : ud :=
  Ud (UdInp 0 0 0 0 0 0 (repeat 0 64) 0)
     (UdAsm None (repeat 0 64) [] 0 0 0)
     (UdIns UD_Iinvalid [ud_operand_zero; ud_operand_zero; ud_operand_zero]
        0 0 0 0 0 0 0 0 0 0 0 0 0 0 0 0 0 None None)
     0 0 0 0 0.

Definition ud_set_mode (m : Z) (u : ud) : ud :=
  set_dis_mode (if (m =? 16) || (m =? 32) || (m =? 64) then m else 16) u.

Definition ud_set_vendor (v : Z) (u : ud) : ud :=
  set_vendor (if (v =? UD_VENDOR_INTEL) || (v =? UD_VENDOR_ANY) then v else UD_VENDOR_AMD) u.

Definition ud_set_pc (o : Z) (u : ud) : ud := set_pc o u.

Definition ud_set_syntax (t : option ud_syntax) (u : ud) : ud := on_out (set_translator t) u.

(** [buf] is the contents of the client's buffer, [internal] those of
    [u->asm_buf_int], which a NULL selects. *)
Definition ud_set_asm_buffer (internal : list Z) (buf : option (list Z)) (size : Z) (u : ud) : ud :=
  match buf with
  | None => on_out (fun o => set_asm_buf_size 128 (set_asm_buf internal o)) u
  | Some b => on_out (fun o => set_asm_buf_size size (set_asm_buf b o)) u
  end.

Definition ud_set_sym_resolver (resolver : Z) (u : ud) : ud := on_out (set_sym_resolver resolver) u.

Definition ud_set_user_opaque_data (opaque : Z) (u : ud) : ud := set_user_opaque_data opaque u.
Definition ud_get_user_opaque_data (u : ud) : Z := user_opaque_data u.

Definition ud_init : ud :=
  let u := ud_set_mode 16 ud_memset in
  let u := on_ins (set_mnemonic UD_Iinvalid) u in
  let u := ud_set_pc 0 u in
  ud_set_asm_buffer (repeat 0 128) (Some (repeat 0 128)) 128 u.

Definition ud_inp_init (u : ud) : ud :=
  on_inp (fun i => UdInp 0 0 0 0 0 0 (inp_sess i) 0) u.

Definition ud_set_input_hook (hook : Z) (u : ud) : ud := on_inp (set_inp_hook hook) (ud_inp_init u).

Definition ud_set_input_buffer (buf len : Z) (u : ud) : ud :=
  on_inp (fun i => set_inp_buf_index 0 (set_inp_buf_size len (set_inp_buf buf i))) (ud_inp_init u).

(** [eoi: u->inp_end = 1; UDERR(...)] *)
Definition input_skip_eoi : D unit := do* upd_inp (set_inp_end 1) in UDERR.

(** [while(n--) if(u->inp_hook(u) == UD_EOI) goto eoi;] *)
Fixpoint skip_hook (n : nat) : D unit :=
  match n with
  | O => dret tt
  | S n' =>
      let* h := get_inp inp_hook in
      let* c := (fun e u => hook e h u) in
      if c =? UD_EOI then input_skip_eoi else skip_hook n'
  end.

Definition ud_input_skip (n : Z) : D unit :=
  let* i := get inp in
  if negb (inp_end i =? 0) then dret tt
  else if inp_buf i =? 0 then skip_hook (Z.to_nat n)
  else if (inp_buf_size i <? n) || (inp_buf_size i - n <? inp_buf_index i) then
    do* upd_inp (fun i => set_inp_buf_index (inp_buf_size i) i) in input_skip_eoi
  else upd_inp (fun i => set_inp_buf_index (inp_buf_index i + n) i).

Definition ud_input_end (u : ud) : Z := inp_end (inp u).

(** ** One instruction *)

(** [u->asm_buf[0] = '\0'] *)
Definition asm_clear : D unit := fun _ u =>
  match asm_buf (asm_out u) with
  | _ :: l => Some (tt, on_out (set_asm_buf (0 :: l)) u)
  | [] => None
  end.

Definition translate (t : ud_syntax) : D Z :=
  match t with UD_SYN_INTEL => Intel.ud_translate_intel | UD_SYN_ATT => Att.ud_translate_att end.

Definition ud_disassemble : D Z :=
  let* ended := get_inp inp_end in
  if negb (ended =? 0) then dret 0
  else
    let* len := ud_decode in
    let* t := get_out translator in
    do* (if 0 <? signed 32 len then
           match t with
           | Some s => do* asm_clear in translate s
           | None => dret 0
           end
         else dret 0) in
    dret len.

Definition ud_insn_asm (u : ud) : list Z := asm_buf (asm_out u).
Definition ud_insn_off (u : ud) : Z := insn_offset u.
Definition ud_insn_len (u : ud) : Z := wrap 32 (inp_ctr (inp u)).
Definition ud_insn_mnemonic (u : ud) : ud_mnemonic_code := mnemonic (ins u).

Definition ud_insn_opr (n : nat) (u : ud) : option ud_operand :=
  if (2 <? n)%nat || (op_type (nth_operand n (ins u)) =? UD_NONE) then None
  else Some (nth_operand n (ins u)).

Definition ud_opr_is_gpr (op : ud_operand) : bool :=
  (op_type op =? UD_OP_REG) && (UD_R_AL <=? op_base op) && (op_base op <=? UD_R_R15).

(** The bytes of the instruction: [inp_buf + (index - ctr)], or the session. *)
Definition insn_byte (i : Z) : D Z := fun e u =>
  if inp_buf (inp u) =? 0
  then match inp_sess (inp u) !! Z.to_nat i with Some b => Some (b, u) | None => None end
  else match code e (inp_buf (inp u) + (inp_buf_index (inp u) - inp_ctr (inp u)) + i) with
       | Some b => Some (b, u)
       | None => None
       end.

(** [sprintf(src_hex, "%02x", b)]: two digits and a terminator at [pos]; a
    store outside the array is undefined. *)
Definition hexcode_put (pos b : Z) : D unit := fun _ u =>
  if pos + 3 <=? Z.of_nat (length (insn_hexcode (asm_out u)))
  then Some (tt, on_out (fun o => set_insn_hexcode
         (take (Z.to_nat pos) (insn_hexcode o) ++ [hex_digit (b / 16); hex_digit (b mod 16); 0] ++
          drop (Z.to_nat pos + 3) (insn_hexcode o)) o) u)
  else None.

Fixpoint hex_loop (n : nat) (i : Z) : D unit :=
  match n with
  | O => dret tt
  | S n' =>
      let* len := get ud_insn_len in
      if (i <? len) && (i <? 32) then
        let* b := insn_byte i in
        do* hexcode_put (2 * i) (Z.land b 0xFF) in
        hex_loop n' (i + 1)
      else dret tt
  end.

Definition ud_insn_hex : D (list Z) :=
  do* upd_out (fun o => set_insn_hexcode (<[0%nat := 0]> (insn_hexcode o)) o) in
  let* err := get_ins error in
  do* (if err =? 0 then hex_loop 33 0 else dret tt) in
  get_out insn_hexcode.

(** ** machine_instruction.c *)

(** The memory the decoder reads; the client sets no callbacks. *)
Definition kernel_env (m : machine) : env :=
  Env (fun a => mem m !! a) (fun _ _ => None) (fun _ _ _ => (None, 0)).

Definition instruction_object (current : Z) (syntax : ud_syntax) : ud :=
  let u := ud_set_input_buffer current (2 ^ 64 - 1) ud_init in
  let u := ud_set_mode 64 u in
  ud_set_syntax (Some syntax) u.

Definition ps4MachineInstructionNext (current : Z) (next : out) : K (Z * option Z) :=
  if current =? NULL then ret (PS4_ERROR_ARGUMENT_PRIMARY_MISSING, None)
  else match next with
       | ONull => ret (PS4_ERROR_ARGUMENT_OUT_MISSING, None)
       | OPtr => fun m =>
           match ud_disassemble (kernel_env m) (instruction_object current UD_SYN_ATT) with
           | None => None
           | Some (n, u) =>
               if n =? 0 then Some ((PS4_ERROR_ASSEMBLER_INSTRUCTION_NOT_DECODABLE, None), m)
               else Some ((PS4_OK, Some (current + ud_insn_len u)), m)
           end
       end.

(** [while(i < offset && ud_disassemble(&ud_obj)) i += ud_insn_len(&ud_obj);] *)
Fixpoint seek_loop (fuel : nat) (e : env) (u : ud) (i offset : Z) : option Z :=
  match fuel with
  | O => None
  | S fuel' =>
      if i <? offset then
        match ud_disassemble e u with
        | None => None
        | Some (n, u') => if n =? 0 then Some i else seek_loop fuel' e u' (i + ud_insn_len u') offset
        end
      else Some i
  end.

(** Every turn moves forward, so [offset + 1] turns are enough. *)
Definition ps4MachineInstructionSeek (current : Z) (found : out) (offset : Z) : K (Z * option Z) :=
  if current =? NULL then ret (PS4_ERROR_ARGUMENT_PRIMARY_MISSING, None)
  else match found with
       | ONull => ret (PS4_ERROR_ARGUMENT_OUT_MISSING, None)
       | OPtr => fun m =>
           match seek_loop (Z.to_nat offset + 1) (kernel_env m)
                   (instruction_object current UD_SYN_INTEL) 0 offset with
           | None => None
           | Some i =>
               if (i =? 0) && negb (offset =? 0)
               then Some ((PS4_ERROR_ASSEMBLER_INSTRUCTION_NOT_DECODABLE, None), m)
               else Some ((PS4_OK, Some (current + i)), m)
           end
       end.

(** ** Lemmas *)

Definition buf_ok (o : ud_asm) : Prop :=
  1 <= asm_buf_size o < 2 ^ 31 /\ asm_buf_size o <= Z.of_nat (length (asm_buf o)).

Lemma prints_translate t : prints (translate t).
Proof. destruct t; [apply prints_intel | apply prints_att]. Qed.

(** Once the instruction is decoded, disassembling only prints it. *)
Lemma disassemble_decoded e u n u1 :
  inp_end (inp u) = 0 -> ud_decode e u = Some (n, u1) -> 1 <= n <= 30 ->
  printable u1 -> buf_ok (asm_out u1) -> asm_buf_fill (asm_out u1) = 0 ->
  exists o, ud_disassemble e u = Some (n, set_asm_out o u1) /\ buf_ok o /\
    (translator (asm_out u1) <> None -> out_ok o).
Proof.
  intros He Hd Hn Hp [Hs Hl] Hf. unfold ud_disassemble.
  unfold dbind at 1. erewrite bind_some by reflexivity. rewrite He. cbn [negb Z.eqb].
  unfold dbind at 1. erewrite bind_some by exact Hd. unfold dbind at 1. erewrite bind_some by reflexivity.
  rewrite signed_small by lia. rewrite (proj2 (Z.ltb_lt 0 n)) by lia.
  destruct (translator (asm_out u1)) as [t|] eqn:Et.
  - destruct (asm_buf (asm_out u1)) as [|b l] eqn:Eb; [cbn in Hl; lia|].
    set (o1 := set_asm_buf (0 :: l) (asm_out u1)).
    destruct (prints_translate t e (set_asm_out o1 u1) Hp) as (r & o & E & Ho & Hsz).
    { split; [exact Hs|]. cbn. rewrite Hf. split; [lia|]. split; [exact Hl|]. by exists O; split; [lia|]. }
    exists o. unfold dbind at 1. erewrite bind_some.
    2: { unfold dbind. erewrite bind_some; [exact E|]. unfold asm_clear. by rewrite Eb. }
    split; [done|]. split; [|done]. destruct Ho as (? & ? & ? & _). by split.
  - exists (asm_out u1). split; [by destruct u1|]. split; [by split | done].
Qed.

(** An object that can go on disassembling. *)
Definition going (u : ud) : Prop := ready u /\ inp_end (inp u) = 0 /\ buf_ok (asm_out u).

Lemma disassemble_run e u :
  going u -> readable e u 30 -> inp_buf_index (inp u) + 30 <= inp_buf_size (inp u) ->
  exists n u', ud_disassemble e u = Some (n, u') /\ 1 <= n <= 30 /\ ud_insn_len u' = n /\
    inp_buf_index (inp u') = inp_buf_index (inp u) + n /\ inp_buf (inp u') = inp_buf (inp u) /\
    inp_buf_size (inp u') = inp_buf_size (inp u) /\ going u' /\
    forall e', agree e e' (inp_buf (inp u)) (inp_buf_index (inp u)) (inp_buf_index (inp u) + n) ->
      exists u'', ud_disassemble e' u = Some (n, u'') /\ inp u'' = inp u'.
Proof.
  intros (Hr & He & Hb) Hrd Hsz.
  destruct (ud_decode_run e u Hr Hrd He) as (n & u1 & Ed & Hn & Hc & Hi & Hbuf & Hsize & Hend & _ & _ & Hr1 & Hp & _ & _ & Ho & Hloc); [lia|].
  assert (buf_ok (asm_out u1)) as Hb1 by (rewrite Ho; exact Hb).
  assert (asm_buf_fill (asm_out u1) = 0) as Hf by (by rewrite Ho).
  assert (forall e', ud_decode e' u = Some (n, u1) ->
    exists o, ud_disassemble e' u = Some (n, set_asm_out o u1) /\ buf_ok o) as Hdis.
  { intros e' Ed'. destruct (disassemble_decoded e' u n u1 He Ed' Hn Hp Hb1 Hf) as (o & E & Hbo & _). eauto. }
  destruct (Hdis e Ed) as (o & E & Hbo). exists n, (set_asm_out o u1). split; [done|]. split; [done|].
  unfold ud_insn_len. cbn. rewrite Hc. split; [apply wrap_small; lia|].
  split; [done|]. split; [done|]. split; [done|]. split.
  - split; [exact Hr1|]. split; [by apply Hend | done].
  - intros e' Ha. destruct (Hdis e' (Hloc e' Ha)) as (o' & E' & _). by exists (set_asm_out o' u1).
Qed.

Lemma instruction_object_going current s : going (instruction_object current s).
Proof. repeat split; cbn; unfold is_byte; lia || auto. by right; right. Qed.

(** Thirty mapped bytes. *)
Definition mapped_bytes (m : machine) (a n : Z) : Prop :=
  forall i, 0 <= i < n -> exists c, mem m !! (a + i) = Some c /\ is_byte c.

(** The lengths of the instructions the decoder finds one after the other. *)
Inductive disassembles (e : env) : ud -> list Z -> ud -> Prop :=
| disassembles_nil u : disassembles e u [] u
| disassembles_cons u n u1 l u2 :
    ud_disassemble e u = Some (n, u1) -> n <> 0 -> ud_insn_len u1 = n ->
    disassembles e u1 l u2 -> disassembles e u (n :: l) u2.

Definition sum (l : list Z) : Z := foldr Z.add 0 l.

(** The loop stops at the first instruction boundary at or after [offset]. *)
Lemma seek_loop_run fuel e u i offset :
  going u -> 0 <= i -> (Z.to_nat (offset - i) < fuel)%nat ->
  inp_buf (inp u) <> 0 ->
  inp_buf_index (inp u) = i -> offset + 30 <= inp_buf_size (inp u) ->
  (forall j, i <= j < offset + 30 -> exists c, code e (inp_buf (inp u) + j) = Some c /\ is_byte c) ->
  exists l u', disassembles e u l u' /\ Forall (fun n => 1 <= n <= 30) l /\
    seek_loop fuel e u i offset = Some (i + sum l) /\ offset <= i + sum l /\
    (forall k, (k < length l)%nat -> i + sum (take k l) < offset).
Proof.
  revert u i. induction fuel as [|fuel IH]; intros u i Hg Hi Hf Hbuf Hidx Hsz Hr; [lia|].
  cbn [seek_loop]. destruct (Z.ltb_spec i offset) as [Hlt|Hge].
  - destruct (disassemble_run e u Hg) as (n & u1 & E & Hn & Hlen & Hi1 & Hb1 & Hs1 & Hg1 & _); [|lia|].
    { split; [done|]. intros j Hj _. apply Hr. lia. }
    rewrite E, (proj2 (Z.eqb_neq n 0)) by lia. rewrite Hlen.
    destruct (IH u1 (i + n) Hg1) as (l & u2 & Hd & Hall & Es & Hge & Hk); [lia | lia | by rewrite Hb1 | lia | by rewrite Hs1 | |].
    { intros j Hj. rewrite Hb1. apply Hr. lia. }
    exists (n :: l), u2. split; [by apply (disassembles_cons e u n u1); [|lia| |]|].
    cbn [sum foldr] in *. unfold sum in *. split; [by constructor|]. split; [rewrite Es; f_equal; lia|]. split; [lia|].
    intros [|k] Hk'; cbn [take foldr]; [lia|]. cbn [length] in Hk'. specialize (Hk k ltac:(lia)). lia.
  - exists [], u. split; [constructor|]. split; [constructor|]. cbn. split; [by rewrite Z.add_0_r|]. split; [lia|]. intros; lia.
Qed.

(** Writing the digits of the bytes from [i] on. *)
Lemma hex_loop_run e fuel : forall u n i (byte : Z -> Z),
  ud_insn_len u = n -> 0 <= i <= n -> n < 32 -> n - i < Z.of_nat fuel ->
  (forall j v, i <= j < n -> inp v = inp u -> insn_byte j e v = Some (byte j, v)) ->
  length (insn_hexcode (asm_out u)) = 64%nat -> insn_hexcode (asm_out u) !! Z.to_nat (2 * i) = Some 0 ->
  exists R, hex_loop fuel i e u = Some (tt, on_out (set_insn_hexcode R) u) /\ length R = 64%nat /\
    (forall k, (k < Z.to_nat (2 * i))%nat -> R !! k = insn_hexcode (asm_out u) !! k) /\
    (forall j, i <= j < n -> R !! Z.to_nat (2 * j) = Some (hex_digit (Z.land (byte j) 0xFF / 16)) /\
                             R !! Z.to_nat (2 * j + 1) = Some (hex_digit (Z.land (byte j) 0xFF mod 16))) /\
    R !! Z.to_nat (2 * n) = Some 0.
Proof.
  induction fuel as [|fuel IH]; intros u n i byte Hn Hi Hlt Hf Hb Hlen H0; [lia|].
  cbn [hex_loop]. unfold dbind at 1. erewrite bind_some by reflexivity. rewrite Hn.
  destruct (Z.ltb_spec i n) as [Hin|Hin].
  - rewrite (proj2 (Z.ltb_lt i 32)) by lia. cbn [andb].
    unfold dbind at 1. erewrite bind_some by (apply Hb; [lia|done]).
    set (d := [hex_digit (Z.land (byte i) 0xFF / 16); hex_digit (Z.land (byte i) 0xFF mod 16); 0]).
    set (H1 := take (Z.to_nat (2 * i)) (insn_hexcode (asm_out u)) ++ d ++
               drop (Z.to_nat (2 * i) + 3) (insn_hexcode (asm_out u))).
    assert (length H1 = 64%nat) as HL.
    { unfold H1. rewrite !length_app, length_take, length_drop, Hlen. cbn [length d]. lia. }
    unfold dbind at 1. erewrite bind_some.
    2: { unfold hexcode_put. rewrite Hlen, (proj2 (Z.leb_le _ _)) by lia. reflexivity. }
    assert (forall k : nat, (k < Z.to_nat (2 * i))%nat -> H1 !! k = insn_hexcode (asm_out u) !! k) as Hpre.
    { intros k Hk. unfold H1. rewrite lookup_app_l by (rewrite length_take, Hlen; lia). by rewrite lookup_take_lt by lia. }
    assert (forall k : nat, (k < 3)%nat -> H1 !! (Z.to_nat (2 * i) + k)%nat = d !! k) as Hd.
    { intros k Hk. unfold H1. rewrite lookup_app_r by (rewrite length_take, Hlen; lia).
      rewrite length_take, Hlen. replace (_ - _)%nat with k by lia. by rewrite lookup_app_l by (cbn; lia). }
    destruct (IH (on_out (set_insn_hexcode H1) u) n (i + 1) byte) as (R & E & HR & Hkeep & Hdig & Hend);
      [done | lia | done | lia | | done | |].
    { intros j v Hj Hv. apply Hb; [lia|]. by rewrite Hv. }
    { cbn. replace (Z.to_nat (2 * (i + 1))) with (Z.to_nat (2 * i) + 2)%nat by lia. by rewrite Hd by lia. }
    cbn in Hkeep. exists R. split; [exact E|]. split; [done|]. split; [|split; [|done]].
    + intros k Hk. rewrite Hkeep by lia. by apply Hpre.
    + intros j Hj. destruct (Z.eq_dec j i) as [->|Hne]; [|apply Hdig; lia].
      rewrite !Hkeep by lia.
      replace (Z.to_nat (2 * i)) with (Z.to_nat (2 * i) + 0)%nat by lia.
      replace (Z.to_nat (2 * i + 1)) with (Z.to_nat (2 * i) + 1)%nat by lia. by rewrite !Hd by lia.
  - replace (i <? 32) with true by (symmetry; apply Z.ltb_lt; lia). cbn [andb].
    exists (insn_hexcode (asm_out u)). split; [by destruct u as [? [] ? ? ? ? ? ?]|]. split; [done|].
    split; [done|]. split; [lia|]. by replace n with i by lia.
Qed.

(** ** Properties *)

(** C1. Decoding is total: with thirty bytes of input left and readable, a call of
    [ud_decode] returns, in any of the three modes and whatever the bytes: no
    table of itab.c is read outside its bounds and the recursion over them
    ends. It takes between one and thirty bytes, advances the input by exactly
    the count it returns, and leaves an object it can be called on again. *)
Theorem decode_total e u :
  ready u -> inp_end (inp u) = 0 -> readable e u 30 ->
  inp_buf_index (inp u) + 30 <= inp_buf_size (inp u) ->
  exists n u', ud_decode e u = Some (n, u') /\ 1 <= n <= 30 /\ ud_insn_len u' = n /\
    inp_buf_index (inp u') = inp_buf_index (inp u) + n /\
    pc u' = wrap 64 (pc u + n) /\ ud_insn_off u' = pc u /\ inp_end (inp u') = 0 /\ ready u'.
Proof.
  intros Hr He Hrd Hsz.
  destruct (ud_decode_run e u Hr Hrd He) as (n & u1 & Ed & Hn & Hc & Hi & Hbuf & Hsize & Hend & Hpc & Hof & Hr1 & _); [lia|].
  exists n, u1. split; [done|]. split; [done|]. unfold ud_insn_len. rewrite Hc.
  split; [apply wrap_small; lia|]. split; [done|]. split; [done|]. split; [done|]. split; [by apply Hend | done].
Qed.

(** C31. What the decoder leaves is well formed, whatever the bytes were: an entry
    of the instruction table and a mnemonic that has a name, operands whose
    registers have names in [ud_reg_tab], where an operand that says it is a
    register names one, a segment prefix that is a register or none, and an
    object that can be decoded with again. *)
Theorem decode_well_formed e u n u' :
  ready u -> inp_end (inp u) = 0 -> readable e u 30 ->
  inp_buf_index (inp u) < inp_buf_size (inp u) ->
  ud_decode e u = Some (n, u') ->
  is_Some (itab_entry (ins u')) /\ is_Some (ud_lookup_mnemonic (mnemonic (ins u'))) /\
  (forall o r, o ∈ operand (ins u') -> r = op_base o \/ r = op_index o -> r <> UD_NONE -> is_Some (ud_reg_tab !! Z.to_nat (r - UD_R_AL))) /\
  (forall o, o ∈ operand (ins u') -> op_type o = UD_OP_REG -> op_base o <> UD_NONE) /\
  (pfx_seg (ins u') <> UD_NONE -> is_Some (ud_reg_tab !! Z.to_nat (pfx_seg (ins u') - UD_R_AL))) /\ ready u'.
Proof.
  intros Hr He Hrd Hsz Ed.
  destruct (ud_decode_run e u Hr Hrd He Hsz) as (n1 & u1 & Ed1 & _ & _ & _ & _ & _ & _ & _ & _ & Hr1 & (Hx & Hm & Ho & Hs) & _).
  rewrite Ed in Ed1. injection Ed1 as <- <-. rewrite Forall_forall in Ho. split; [done|]. split; [by apply mnemonic_named|].
  split; [|split; [intros o Hin; by apply Ho | split; [intros Hn; by apply register_named | done]]].
  intros o r Hin Hor Hn. destruct (Ho o Hin) as (Hb & Hi & _). apply register_named; [|done]. by destruct Hor as [->| ->].
Qed.

(** Decoding is local: the result and the whole object depend only on the
    bytes of the instruction itself, not on what follows them, which may not
    even be mapped. *)
Theorem decode_local e e' u n u' :
  ready u -> inp_end (inp u) = 0 -> readable e u 30 ->
  inp_buf_index (inp u) < inp_buf_size (inp u) ->
  ud_decode e u = Some (n, u') ->
  agree e e' (inp_buf (inp u)) (inp_buf_index (inp u)) (inp_buf_index (inp u) + ud_insn_len u') ->
  ud_decode e' u = Some (n, u').
Proof.
  intros Hr He Hrd Hsz Ed Ha.
  destruct (ud_decode_run e u Hr Hrd He Hsz) as (n1 & u1 & Ed1 & Hn & Hc & _ & _ & _ & _ & _ & _ & _ & _ & _ & _ & _ & Hloc).
  rewrite Ed in Ed1. injection Ed1 as <- <-. apply Hloc.
  unfold ud_insn_len in Ha. rewrite Hc, wrap_small in Ha by lia. done.
Qed.

(** C30. Printing is memory safe in both syntaxes: no register or mnemonic is looked
    up outside its table, nothing is stored outside the assembly buffer,
    whatever its size, and the buffer holds a terminated string afterwards. *)
Theorem translate_in_bounds e t u n u' :
  going u -> readable e u 30 -> inp_buf_index (inp u) + 30 <= inp_buf_size (inp u) ->
  translator (asm_out u) = Some t -> ud_decode e u = Some (n, u') ->
  exists o, ud_disassemble e u = Some (n, set_asm_out o u') /\ out_ok o.
Proof.
  intros (Hr & He & Hb) Hrd Hsz Ht Ed.
  destruct (ud_decode_run e u Hr Hrd He ltac:(lia)) as (n1 & u1 & Ed1 & Hn & _ & _ & _ & _ & _ & _ & _ & _ & Hp & _ & _ & Ho & _).
  rewrite Ed in Ed1. injection Ed1 as <- <-.
  destruct (disassemble_decoded e u n u' He Ed Hn Hp) as (o & E & _ & Hok); [by rewrite Ho | by rewrite Ho |].
  exists o. split; [done|]. apply Hok. rewrite Ho. cbn. by rewrite Ht.
Qed.

(** The address after the instruction at [current]: between one and thirty
    bytes on, determined by those bytes alone. The error code for bytes that do
    not decode is never returned: an invalid sequence counts as an instruction. *)
Theorem instruction_next_total m current :
  current <> NULL -> mapped_bytes m current 30 ->
  exists n, 1 <= n <= 30 /\
    ps4MachineInstructionNext current OPtr m = Some ((PS4_OK, Some (current + n)), m) /\
    forall m', (forall i, 0 <= i < n -> mem m' !! (current + i) = mem m !! (current + i)) ->
      ps4MachineInstructionNext current OPtr m' = Some ((PS4_OK, Some (current + n)), m').
Proof.
  intros Hc Hm. unfold ps4MachineInstructionNext. rewrite (proj2 (Z.eqb_neq _ _) Hc).
  destruct (disassemble_run (kernel_env m) (instruction_object current UD_SYN_ATT)
    (instruction_object_going _ _)) as (n & u & E & Hn & Hlen & Hi & Hb & _ & _ & Hloc); [|cbn; lia|].
  { split; [exact Hc|]. intros i Hi _. apply Hm. exact Hi. }
  exists n. split; [done|]. rewrite E, (proj2 (Z.eqb_neq n 0)) by lia. rewrite Hlen. split; [done|].
  intros m' Ha. destruct (Hloc (kernel_env m')) as (u' & E' & Hinp).
  { intros j Hj. symmetry. apply Ha. cbn in Hj. lia. }
  rewrite E', (proj2 (Z.eqb_neq n 0)) by lia. unfold ud_insn_len in *. by rewrite Hinp, Hlen.
Qed.

(** The loop from the first instruction. *)
Lemma seek_run m current offset :
  current <> NULL -> 0 <= offset < 2 ^ 63 -> mapped_bytes m current (offset + 30) ->
  exists l u', disassembles (kernel_env m) (instruction_object current UD_SYN_INTEL) l u' /\
    Forall (fun n => 1 <= n <= 30) l /\
    ps4MachineInstructionSeek current OPtr offset m = Some ((PS4_OK, Some (current + sum l)), m) /\
    offset <= sum l < offset + 30 /\ forall k, (k < length l)%nat -> sum (take k l) < offset.
Proof.
  intros Hc Ho Hm. unfold ps4MachineInstructionSeek. rewrite (proj2 (Z.eqb_neq _ _) Hc).
  destruct (seek_loop_run (Z.to_nat offset + 1) (kernel_env m) (instruction_object current UD_SYN_INTEL) 0 offset
    (instruction_object_going _ _)) as (l & u' & Hd & Hall & E & Hge & Hk); [lia | lia | exact Hc | done | cbn; lia | |].
  { intros j Hj. apply Hm. lia. }
  exists l, u'. split; [done|]. split; [done|]. rewrite E. rewrite Z.add_0_l in *.
  assert (sum l < offset + 30) as Hlt.
  { destruct l as [|n l _] using rev_ind; [cbn; lia|]. specialize (Hk (length l)).
    rewrite length_app, take_app_length in Hk. cbn [length] in Hk. specialize (Hk ltac:(lia)).
    apply Forall_app in Hall as [_ Hn]. apply Forall_inv in Hn.
    unfold sum in *. rewrite foldr_app. cbn [foldr]. rewrite Z.add_0_r.
    assert (forall a b, foldr Z.add a b = a + foldr Z.add 0 b) as Hsum.
    { intros a b. induction b as [|x b IHb]; cbn [foldr]; [lia|]. rewrite IHb. lia. }
    rewrite Hsum. lia. }
  split; [|split; [lia|intros k Hkl; specialize (Hk k Hkl); lia]].
  replace ((sum l =? 0) && negb (offset =? 0)) with false; [done|].
  symmetry. apply andb_false_iff. zbool; cbn; auto; lia.
Qed.

(** C14. Seeking [offset] bytes forward stops at the first instruction boundary at
    or past it: the address found is the sum of consecutive instruction
    lengths, every shorter sum is below [offset], and it overshoots by less
    than one instruction. *)
Theorem instruction_seek_boundary m current offset :
  current <> NULL -> 0 <= offset < 2 ^ 63 -> mapped_bytes m current (offset + 30) ->
  exists l u', disassembles (kernel_env m) (instruction_object current UD_SYN_INTEL) l u' /\
    Forall (fun n => 1 <= n <= 30) l /\
    ps4MachineInstructionSeek current OPtr offset m = Some ((PS4_OK, Some (current + sum l)), m) /\
    offset <= sum l < offset + 30 /\ forall k, (k < length l)%nat -> sum (take k l) < offset.
Proof. apply seek_run. Qed.

(** The fifteen byte limit of the processor is only checked among the prefixes:
    twelve operand-size prefixes, REX.W and [mov rax, imm64] decode without an
    error as one instruction of twenty-two bytes. *)
Theorem decode_past_max_insn_length :
  let bytes := repeat 0x66 12 ++ [0x48; 0xb8] ++ repeat 1 8 in
  let e := Env (fun a => bytes !! Z.to_nat (a - 0x1000)) (fun _ _ => None) (fun _ _ _ => (None, 0)) in
  exists u', ud_decode e (instruction_object 0x1000 UD_SYN_ATT) = Some (22, u') /\
    MAX_INSN_LENGTH < 22 /\ ud_insn_mnemonic u' = UD_Imov.
Proof. eexists. split; [vm_compute; reflexivity|]. split; [done|]. vm_compute. reflexivity. Qed.

(** C36. The hex form never overruns its 64-byte array, although the loop's bound
    alone (32 bytes, 64 digits and a terminator) would let it: an instruction
    has at most thirty bytes. The array holds the two digits of every byte and
    a terminator. *)
Theorem insn_hex_in_bounds e u n u' :
  ready u -> inp_end (inp u) = 0 -> readable e u 30 ->
  inp_buf_index (inp u) + 30 <= inp_buf_size (inp u) ->
  length (insn_hexcode (asm_out u)) = 64%nat ->
  ud_decode e u = Some (n, u') -> error (ins u') = 0 ->
  exists R u'', ud_insn_hex e u' = Some (R, u'') /\ length R = 64%nat /\
    R !! Z.to_nat (2 * n) = Some 0 /\
    forall j, 0 <= j < n -> exists b, code e (inp_buf (inp u) + inp_buf_index (inp u) + j) = Some b /\
      R !! Z.to_nat (2 * j) = Some (hex_digit (b / 16)) /\
      R !! Z.to_nat (2 * j + 1) = Some (hex_digit (b mod 16)).
Proof.
  intros Hr He Hrd Hsz Hlen Ed Herr.
  destruct (ud_decode_run e u Hr Hrd He ltac:(lia)) as (n1 & u1 & Ed1 & Hn & Hc & Hi & Hb & _ & _ & _ & _ & _ & _ & _ & _ & Ho & _).
  rewrite Ed in Ed1. injection Ed1 as <- <-.
  assert (forall j, 0 <= j < n -> exists b, code e (inp_buf (inp u) + inp_buf_index (inp u) + j) = Some b /\ is_byte b) as Hbyte.
  { intros j Hj. destruct Hrd as [_ Hrd]. destruct (Hrd (inp_buf_index (inp u) + j)) as (b & Hb1 & Hb2); [lia|lia|].
    exists b. by rewrite <- Z.add_assoc. }
  set (byte := fun j => default 0 (code e (inp_buf (inp u) + inp_buf_index (inp u) + j))).
  set (v := on_out (fun o => set_insn_hexcode (<[0%nat := 0]> (insn_hexcode o)) o) u').
  destruct (hex_loop_run e 33 v n 0 byte) as (R & E & HR & _ & Hdig & Hend).
  - unfold ud_insn_len, v. cbn. rewrite Hc. apply wrap_small. lia.
  - lia.
  - lia.
  - lia.
  - intros j w Hj Hw. unfold insn_byte. rewrite Hw. cbn. rewrite Hb, (proj2 (Z.eqb_neq _ _) (proj1 Hrd)).
    replace (inp_buf (inp u) + (inp_buf_index (inp u') - inp_ctr (inp u')) + j)
      with (inp_buf (inp u) + inp_buf_index (inp u) + j) by lia.
    unfold byte. destruct (Hbyte j Hj) as (b & -> & _). done.
  - cbn. rewrite Ho. cbn. by rewrite length_insert.
  - cbn. rewrite Ho. cbn. apply list_lookup_insert_eq. lia.
  - exists R. eexists. split.
    { unfold ud_insn_hex. unfold dbind at 1. erewrite bind_some by reflexivity. fold v.
      unfold dbind at 1. erewrite bind_some by reflexivity. change (error (ins v)) with (error (ins u')). rewrite Herr.
      unfold dbind. erewrite bind_some by exact E. reflexivity. }
    split; [done|]. split; [done|]. intros j Hj. destruct (Hbyte j Hj) as (b & Eb & Hbb).
    exists b. split; [done|]. destruct (Hdig j Hj) as [D1 D2]. rewrite D1, D2. unfold byte. rewrite Eb. change (default 0 (Some b)) with b.
    change 0xFF with (Z.ones 8). rewrite Z.land_ones by lia. unfold is_byte in Hbb. by rewrite (Z.mod_small b (2 ^ 8)) by lia.
Qed.

(** ** Witnesses *)

(** [push rbp; mov rbp, rsp; sub rsp, 16] and no-operations after it. *)
Definition prologue_bytes : list Z := [0x55; 0x48; 0x89; 0xe5; 0x48; 0x83; 0xec; 0x10] ++ repeat 0x90 60.
Definition prologue_machine : machine := booted [(0x1000, prologue_bytes)] [] [].
Definition prologue_env : env := kernel_env prologue_machine.
Definition prologue_object : ud := instruction_object 0x1000 UD_SYN_INTEL.

Lemma prologue_mapped : mapped_bytes prologue_machine 0x1000 60.
Proof.
  assert (Forall (fun i : nat => exists c, mem prologue_machine !! (0x1000 + Z.of_nat i) = Some c /\ is_byte c) (seq 0 60)) as H.
  { vm_compute seq. repeat constructor; (eexists; split; [vm_compute; reflexivity | unfold is_byte; lia]). }
  intros i Hi. rewrite Forall_forall in H. destruct (H (Z.to_nat i)) as (c & Hc & Hb).
  - apply elem_of_seq. lia.
  - exists c. rewrite Z2Nat.id in Hc by lia. done.
Qed.

Lemma prologue_readable : readable prologue_env prologue_object 30.
Proof.
  split; [done|]. intros i Hi _. change (inp_buf_index (inp prologue_object)) with 0 in Hi.
  apply prologue_mapped. lia.
Qed.

Lemma prologue_going : going prologue_object.
Proof. apply instruction_object_going. Qed.

Lemma decode_total_witness :
  exists n u', ud_decode prologue_env prologue_object = Some (n, u') /\ 1 <= n <= 30 /\ ready u'.
Proof.
  destruct (decode_total prologue_env prologue_object) as (n & u' & E & Hn & _ & _ & _ & _ & _ & Hr);
    [apply prologue_going | done | apply prologue_readable | vm_compute; discriminate |].
  exists n, u'. split; [exact E|]. split; [exact Hn | exact Hr].
Defined.

(** The same instruction with nothing mapped after it. *)
Lemma decode_local_witness :
  exists u', ud_decode (kernel_env (booted [(0x1000, [0x55])] [] [])) prologue_object = Some (1, u').
Proof.
  destruct (ud_decode prologue_env prologue_object) as [[n u']|] eqn:E; [|vm_compute in E; discriminate E].
  assert (n = 1) as -> by (apply (f_equal (fun o => match o with Some (a, _) => a | None => 0 end)) in E; vm_compute in E; congruence).
  assert (ud_insn_len u' = 1) as El.
  { apply (f_equal (fun o => match o with Some (_, v) => ud_insn_len v | None => 0 end)) in E. cbv beta iota in E.
    rewrite <- E. vm_compute. reflexivity. }
  exists u'. apply (decode_local prologue_env _ prologue_object 1 u');
    [apply prologue_going | done | apply prologue_readable | vm_compute; reflexivity | exact E |].
  change (inp_buf_index (inp prologue_object)) with 0. rewrite El. intros i Hi.
  assert (i = 0) as -> by lia. vm_compute. reflexivity.
Defined.

Lemma translate_in_bounds_witness :
  exists n u' o, ud_disassemble prologue_env prologue_object = Some (n, set_asm_out o u') /\ out_ok o.
Proof.
  destruct (ud_decode prologue_env prologue_object) as [[n u']|] eqn:E; [|vm_compute in E; discriminate E].
  destruct (translate_in_bounds prologue_env UD_SYN_INTEL prologue_object n u') as (o & Ed & Ho);
    [apply prologue_going | apply prologue_readable | vm_compute; discriminate | done | exact E |].
  exists n, u', o. split; [exact Ed | exact Ho].
Defined.

Lemma decode_well_formed_witness :
  exists n u', ud_decode prologue_env prologue_object = Some (n, u') /\ is_Some (ud_lookup_mnemonic (mnemonic (ins u'))).
Proof.
  destruct (ud_decode prologue_env prologue_object) as [[n u']|] eqn:E; [|vm_compute in E; discriminate E].
  destruct (decode_well_formed prologue_env prologue_object n u') as (_ & Hm & _);
    [apply prologue_going | done | apply prologue_readable | vm_compute; reflexivity | exact E|].
  exists n, u'. split; [done | exact Hm].
Defined.

Lemma instruction_seek_boundary_witness :
  exists l, ps4MachineInstructionSeek 0x1000 OPtr 5 prologue_machine =
    Some ((PS4_OK, Some (0x1000 + sum l)), prologue_machine) /\ 5 <= sum l < 35.
Proof.
  destruct (instruction_seek_boundary prologue_machine 0x1000 5) as (l & u' & _ & _ & E & Hl & _).
  - done.
  - lia.
  - intros i Hi. apply prologue_mapped. lia.
  - exists l. split; [exact E | exact Hl].
Defined.

Example seek_prologue :
  ps4MachineInstructionSeek 0x1000 OPtr 5 prologue_machine = Some ((PS4_OK, Some 0x1008), prologue_machine).
Proof. vm_compute. reflexivity. Qed.

Lemma insn_hex_in_bounds_witness :
  exists n u' R u'', ud_decode prologue_env prologue_object = Some (n, u') /\
    ud_insn_hex prologue_env u' = Some (R, u'') /\ R !! Z.to_nat (2 * n) = Some 0.
Proof.
  destruct (ud_decode prologue_env prologue_object) as [[n u']|] eqn:E; [|vm_compute in E; discriminate E].
  destruct (insn_hex_in_bounds prologue_env prologue_object n u') as (R & u'' & Eh & _ & Hz & _);
    [apply prologue_going | done | apply prologue_readable | vm_compute; discriminate | done | exact E | |].
  - apply (f_equal (fun o => match o with Some (_, v) => error (ins v) | None => 1 end)) in E.
    vm_compute in E. vm_compute. congruence.
  - exists n, u', R, u''. split; [reflexivity|]. split; [exact Eh | exact Hz].
Defined.
