(* ===== verification/FunctionHook.v ===== *)
(** * Function hooks (common/kernel/source/kernel/function.c)

    A hooked function begins with a jump to a prologue of its own, which finds
    the hook's argument structure in its first instruction. The instructions
    the jump replaced run from a bridge, which jumps back behind them. This
    file holds the operations; the structure is accessed field by field at the
    offsets the assembly code shares. *)

From stdpp Require Import base gmap list strings.
From S2P Require Import Prelude Errors Uthash Machine Reference KernelBase KernelMemory Cache CacheMap CacheGlobal Symbol Template Atomic Ud Udis86.

(** ** The argument structure (include/ps4/kernel/function.h) *)

Definition o_clone : Z := 0.
Definition o_handler : Z := 8.
Definition o_entryCount : Z := 16.
Definition o_returnTo : Z := 24.
Definition o_r12 : Z := 32.
Definition o_prologue : Z := 40.
Definition o_epilogue : Z := 48.
Definition o_callCount : Z := 56.
Definition o_arguments : Z := 64.
Definition o_returns : Z := 72.
Definition o_function : Z := 80.
Definition o_bridge : Z := 88.
Definition o_bridgeCopiedSize : Z := 96.
Definition o_hook : Z := 104.
Definition o_hookType : Z := 112.
Definition o_hookCurrent : Z := 120.
Definition o_hookCount : Z := 128.
Definition o_hookSize : Z := 136.
Definition o_hookTypeCurrent : Z := 144.
Definition o_userArgument : Z := 152.
Definition o_allocate : Z := 160.
Definition o_free : Z := 168.
Definition o_mt : Z := 176.
Definition o_lock : Z := 184.

Definition sizeof_Ps4KernelFunctionHookArgument : Z := 192.
Definition sizeof_Ps4RegisterParameters : Z := 7 * 8 + 8 * 16.
Definition sizeof_Ps4RegisterReturns : Z := 2 * 8 + 2 * 16.

Inductive Ps4KernelFunctionHookType :=
| PS4_KERNEL_FUNCTION_HOOK_TYPE_PRE
| PS4_KERNEL_FUNCTION_HOOK_TYPE_DISABLED
| PS4_KERNEL_FUNCTION_HOOK_TYPE_GENERIC_PRE
| PS4_KERNEL_FUNCTION_HOOK_TYPE_GENERIC_POST
| PS4_KERNEL_FUNCTION_HOOK_TYPE_GENERIC_BOTH.

(** The enumeration's value as an [int64_t]. *)
Definition type_value (t : Ps4KernelFunctionHookType) : Z :=
  match t with
  | PS4_KERNEL_FUNCTION_HOOK_TYPE_PRE => -1
  | PS4_KERNEL_FUNCTION_HOOK_TYPE_DISABLED => 0
  | PS4_KERNEL_FUNCTION_HOOK_TYPE_GENERIC_PRE => 1
  | PS4_KERNEL_FUNCTION_HOOK_TYPE_GENERIC_POST => 2
  | PS4_KERNEL_FUNCTION_HOOK_TYPE_GENERIC_BOTH => 3
  end.

(** ** Static variables *)

Definition PS4_KERNEL_CACHE_FUNCTION_HOOK_MUTEX : string := "ps4.kernel.function.hook.mutex".
Definition PS4_KERNEL_CACHE_FUNCTION_HOOK_HANDLER : string := "ps4.kernel.function.hook.handler".
Definition PS4_KERNEL_CACHE_FUNCTION_HOOK_CLONE : string := "ps4.kernel.function.hook.clone".
Definition PS4_KERNEL_CACHE_FUNCTION_HOOK_DESTROY : string := "ps4.kernel.function.hook.destroy".

Definition ps4KernelFunctionHookMutex : string := "function.c:ps4KernelFunctionHookMutex".
Definition ps4KernelFunctionHookHandler : string := "function.c:ps4KernelFunctionHookHandler".
Definition ps4FunctionHookArgumentClone : string := "function.c:ps4FunctionHookArgumentClone".
Definition ps4FunctionHookArgumentDestroy : string := "function.c:ps4FunctionHookArgumentDestroy".

(** Where the linker put the code the hooks run, and the size the assembler
    gives the handler. *)
Class HookImage := {
  ps4PayloadFunctionHookHandler : Z;
  ps4PayloadFunctionHookHandlerSize : Z;
  ps4PayloadFunctionHookArgumentClone : Z;
  ps4PayloadFunctionHookArgumentDestroy : Z
}.

(** ** Patching and locking a function *)

Section Patch.
Context `{PayloadImage}.

Definition ps4KernelFunctionPatchToReturn (function value : Z) : K unit :=
  do! ps4PayloadReturnPatch function value in ret tt.

Definition ps4KernelFunctionIsPatchedToReturn (function : Z) : K Z :=
  ps4PayloadReturnIsPatched function.

Definition ps4KernelFunctionPatchToJumpUnsafe (function to : Z) : K unit :=
  do! ps4PayloadJumpPatch function to in ret tt.

Definition ps4KernelFunctionPatchToJump (function to : Z) : K Z :=
  if negb (ps4KernelIsKernelAddress function =? ps4KernelIsKernelAddress to)
  then ret PS4_ERROR_ARGUMENT_IN_DIFFERENT_SPACE
  else do! ps4KernelFunctionPatchToJumpUnsafe function to in ret PS4_OK.

Definition ps4KernelFunctionIsPatchedToJump (function : Z) : K Z :=
  ps4PayloadJumpIsPatched function.

Definition ps4KernelFunctionIsHooked (function : Z) : K Z :=
  let! r := ps4PayloadJumpExtractTarget function OPtr in
  if negb (fst r =? PS4_OK) then ret PS4_NOT_OK
  else ps4PayloadFunctionHookPrologueIsPatched (default 0 (snd r)).

(** [*bits] is returned: the word the function began with. *)
Definition ps4KernelFunctionLock (function : Z) (bits : out) : K (Z * option Z) :=
  if function =? NULL then ret (PS4_ERROR_ARGUMENT_PRIMARY_MISSING, None)
  else match bits with
  | ONull => ret (PS4_ERROR_ARGUMENT_OUT_MISSING, None)
  | OPtr =>
      do! sched_pin in
      let! l := ps4KernelMemoryCopyToLocal ps4PayloadLock ps4PayloadLockSize in
      do! ps4KernelProtectionWriteDisable in
      let! old := ps4AtomicSwap16 function (le_val (snd l)) in
      do! ps4KernelProtectionWriteEnable in
      do! sched_unpin in
      ret (PS4_OK, Some old)
  end.

Definition ps4KernelFunctionUnlock (function bits : Z) : K Z :=
  if function =? NULL then ret PS4_ERROR_ARGUMENT_PRIMARY_MISSING
  else
    do! sched_pin in
    do! ps4KernelProtectionWriteDisable in
    do! ps4AtomicSwap16 function bits in
    do! ps4KernelProtectionWriteEnable in
    do! sched_unpin in
    ret PS4_OK.
End Patch.

(** ** The user argument *)

Definition ps4KernelFunctionHookSetUserArgument (hookh argument : Z) : K Z :=
  if hookh =? NULL then ret PS4_ERROR_ARGUMENT_PRIMARY_MISSING
  else do! store64 (hookh + o_userArgument) argument in ret PS4_OK.

Definition ps4KernelFunctionHookGetUserArgument (hookh : Z) (argument : out) : K (Z * option Z) :=
  if hookh =? NULL then ret (PS4_ERROR_ARGUMENT_PRIMARY_MISSING, None)
  else match argument with
  | ONull => ret (PS4_ERROR_ARGUMENT_OUT_MISSING, None)
  | OPtr => let! v := load64 (hookh + o_userArgument) in ret (PS4_OK, Some v)
  end.

(** An out parameter that is a field of a structure in memory. *)
Definition out_to_field (a : Z) (v : option Z) : K unit :=
  match v with Some v => store64 a v | None => ret tt end.

(** A signed field. *)
Definition load_i64 (a : Z) : K Z := let! v := load64 a in ret (signed 64 v).

(** ** Creating, changing and destroying hooks *)

Section Hooks.
Context `{KernelDlSym} `{KernelAllocator} `{KernelSysctl} `{PayloadImage} `{HookImage}.

(** One block of the initialisation: [if(x == NULL)], the cache's value, or
    else what [make] creates and stores in [x]. *)
Definition hook_static (x : string) (name : string) (make : K unit) : K unit :=
  let! v := get_var x in
  if negb (v =? NULL) then ret tt
  else
    let! g := ps4KernelCacheGlobalGet (Some name) OPtr in
    do! out_to_var x (snd g) in
    if fst g =? PS4_OK then ret tt
    else
      do! make in
      let! v := get_var x in
      do! ps4KernelCacheGlobalSet (Some name) v in
      ret tt.

(** Executable memory with a copy of the code at [code], its address in [x]. *)
Definition code_copy (x : string) (code size : Z) : K unit :=
  let! a := ps4KernelMemoryAllocate OPtr size in
  do! out_to_var x (snd a) in
  let! p := get_var x in
  do! ps4KernelMemoryCopy code p (Z.to_nat size) in
  ret tt.

Definition mutex_make (x : string) : K unit :=
  let! a := ps4KernelMemoryAllocateData OPtr sizeof_mtx in
  do! out_to_var x (snd a) in
  let! p := get_var x in
  mtx_init p.

Definition ps4KernelFunctionHookInitialize : K Z :=
  lookUpOrReturn "Giant" (fun giant =>
    do! mtx_lock giant in
    do! hook_static ps4KernelFunctionHookMutex PS4_KERNEL_CACHE_FUNCTION_HOOK_MUTEX
          (mutex_make ps4KernelFunctionHookMutex) in
    do! hook_static ps4KernelFunctionHookHandler PS4_KERNEL_CACHE_FUNCTION_HOOK_HANDLER
          (code_copy ps4KernelFunctionHookHandler ps4PayloadFunctionHookHandler ps4PayloadFunctionHookHandlerSize) in
    do! hook_static ps4FunctionHookArgumentClone PS4_KERNEL_CACHE_FUNCTION_HOOK_CLONE
          (code_copy ps4FunctionHookArgumentClone ps4PayloadFunctionHookArgumentClone 896) in
    do! hook_static ps4FunctionHookArgumentDestroy PS4_KERNEL_CACHE_FUNCTION_HOOK_DESTROY
          (code_copy ps4FunctionHookArgumentDestroy ps4PayloadFunctionHookArgumentDestroy 128) in
    do! mtx_unlock giant in
    ret PS4_OK).

(** [if(ps4KernelFunctionHookMutex == NULL) ps4ExpressionReturnOnError(...)] *)
Definition hook_initialized {L} (l : L) (k : K (outcome * L)) : K (outcome * L) :=
  let! mx := get_var ps4KernelFunctionHookMutex in
  if mx =? NULL then returnOnErrorIn l ps4KernelFunctionHookInitialize k else k.

(** The handler that frees a hook: [arg] and the blocks its fields name. *)
Definition free_field (a : Z) : K unit :=
  let! p := load64 a in ps4FunctionCallIfNotNull ps4KernelMemoryFree p.

Definition ps4KernelFunctionHookExceptionHandlerCatch (arg : Z) : K unit :=
  if arg =? NULL then ret tt
  else
    do! free_field (arg + o_prologue) in
    do! free_field (arg + o_bridge) in
    do! free_field (arg + o_hook) in
    do! free_field (arg + o_hookType) in
    do! free_field (arg + o_arguments) in
    do! free_field (arg + o_returns) in
    ps4FunctionCallIfNotNull ps4KernelMemoryFree arg.

Definition ps4KernelFunctionHookExceptionHandlerFinally (arg : Z) : K unit :=
  let! mx := get_var ps4KernelFunctionHookMutex in
  if mx =? NULL then ret tt else mtx_unlock mx.

(** Allocate [size] bytes of zeros into the field at [a], or throw. *)
Definition field_alloc (arg a size : Z) (k : Z -> K (outcome * Z)) : K (outcome * Z) :=
  let! r := ps4KernelMemoryAllocateData OPtr size in
  do! out_to_field a (snd r) in
  let! p := load64 a in
  if p =? NULL then ret (Throw PS4_ERROR_KERNEL_OUT_OF_MEMORY, arg)
  else do! ps4KernelMemoryFill p 0 (Z.to_nat size) in k p.

(** The same for executable memory, which is not filled. *)
Definition field_alloc_code (arg a size : Z) (k : Z -> K (outcome * Z)) : K (outcome * Z) :=
  let! r := ps4KernelMemoryAllocate OPtr size in
  do! out_to_field a (snd r) in
  let! p := load64 a in
  if p =? NULL then ret (Throw PS4_ERROR_KERNEL_OUT_OF_MEMORY, arg) else k p.

(** From the blocks to the patched function; [t] of the C code is the end of
    the instructions that the jump to the prologue replaces. *)
Definition hook_build (arg function : Z) : K (outcome * Z) :=
  field_alloc arg (arg + o_arguments) sizeof_Ps4RegisterParameters (fun _ =>
  field_alloc arg (arg + o_returns) sizeof_Ps4RegisterReturns (fun _ =>
  do! store64 (arg + o_hookSize) 8 in
  field_alloc arg (arg + o_hook) (8 * 8) (fun _ =>
  field_alloc arg (arg + o_hookType) (8 * 8) (fun _ =>
  field_alloc_code arg (arg + o_prologue) (Z.of_nat ps4PayloadTemplateFunctionHookPrologueSize) (fun prologue =>
  let jumpToFunctionHookPrologueSize := default 0 (snd (ps4PayloadJumpDeterminePatchSize prologue OPtr)) in
  let! r := ps4MachineInstructionSeek function OPtr jumpToFunctionHookPrologueSize in
  match snd r with
  | None => fault
  | Some t =>
      do! store64 (arg + o_bridgeCopiedSize) (t - function) in
      let jumpToFunctionSize := default 0 (snd (ps4PayloadJumpDeterminePatchSize function OPtr)) in
      let! copied := load64 (arg + o_bridgeCopiedSize) in
      field_alloc_code arg (arg + o_bridge) (copied + jumpToFunctionSize) (fun bridge =>
        do! store64 (arg + o_function) function in
        do! store64 (arg + o_hookCount) 0 in
        let! handler := get_var ps4KernelFunctionHookHandler in
        do! store64 (arg + o_handler) handler in
        let! clone := get_var ps4FunctionHookArgumentClone in
        do! store64 (arg + o_clone) clone in
        let! epilogue := get_var ps4FunctionHookArgumentDestroy in
        do! store64 (arg + o_epilogue) epilogue in
        let! r := ps4KernelSymbolLookUp (Some "malloc"%string) OPtr in
        do! out_to_field (arg + o_allocate) (snd r) in
        let! r := ps4KernelSymbolLookUp (Some "free"%string) OPtr in
        do! out_to_field (arg + o_free) (snd r) in
        let! r := ps4KernelSymbolLookUp (Some "M_TEMP"%string) OPtr in
        do! out_to_field (arg + o_mt) (snd r) in
        do! ps4PayloadFunctionHookProloguePatch prologue arg in
        do! ps4KernelMemoryCopy function bridge (Z.to_nat copied) in
        do! ps4KernelFunctionPatchToJump (bridge + copied) (function + copied) in
        do! ps4KernelFunctionPatchToJump function prologue in
        ret (Finish PS4_OK, arg))
  end))))).

(** [*hookh] is the second component, when the hook was made and [hookh] is
    not NULL. *)
Definition ps4KernelFunctionHookCreate (hookh : out) (function : Z) : K (Z * option Z) :=
  let! r := Ps4ExceptionTryCatchFinally ps4KernelFunctionHookExceptionHandlerCatch
      ps4KernelFunctionHookExceptionHandlerFinally
    (hook_initialized NULL
      (if function =? NULL then ret (Leave PS4_ERROR_ARGUMENT_MISSING, NULL)
       else
         let! mx := get_var ps4KernelFunctionHookMutex in
         do! mtx_lock mx in
         let! hooked := ps4KernelFunctionIsHooked function in
         if hooked =? PS4_OK then ret (Finish PS4_ERROR_NOT_ACCEPTABLE, NULL)
         else
           let! a := ps4KernelMemoryAllocateData OPtr sizeof_Ps4KernelFunctionHookArgument in
           let arg := default 0 (snd a) in
           if arg =? NULL then ret (Finish PS4_ERROR_KERNEL_OUT_OF_MEMORY, arg)
           else
             do! ps4KernelMemoryFill arg 0 (Z.to_nat sizeof_Ps4KernelFunctionHookArgument) in
             hook_build arg function)) in
  ret (fst r, match hookh with
              | OPtr => if fst r =? PS4_OK then Some (snd r) else None
              | ONull => None
              end).

(** [for(size_t t = 0; t < arg->hookCount; ++t)] with [n] iterations to go; the
    loop stores only to the two new blocks. *)
Fixpoint grow_loop (arg m m2 : Z) (t : Z) (n : nat) : K unit :=
  match n with
  | O => ret tt
  | S n' =>
      let! hook := load64 (arg + o_hook) in
      let! h := load64 (hook + 8 * t) in
      do! store64 (m + 8 * t) h in
      let! hookType := load64 (arg + o_hookType) in
      let! ty := load64 (hookType + 8 * t) in
      do! store64 (m2 + 8 * t) ty in
      grow_loop arg m m2 (t + 1) n'
  end.

(** The arrays when they are full: twice the size, or an exception, which is
    thrown with the spin lock held. *)
Definition hook_grow (arg : Z) (k : K (outcome * Z)) : K (outcome * Z) :=
  let! hookCount := load_i64 (arg + o_hookCount) in
  let! hookSize := load_i64 (arg + o_hookSize) in
  if hookSize - 1 <=? hookCount then
    let! r := ps4KernelMemoryAllocateData OPtr (wrap 64 (2 * hookSize * 8)) in
    let m := default 0 (snd r) in
    if m =? NULL then ret (Throw PS4_ERROR_KERNEL_OUT_OF_MEMORY, arg)
    else
      let! r := ps4KernelMemoryAllocateData OPtr (wrap 64 (2 * hookSize * 8)) in
      let m2 := default 0 (snd r) in
      if m2 =? NULL then
        do! ps4KernelMemoryFree m in
        ret (Throw PS4_ERROR_KERNEL_OUT_OF_MEMORY, arg)
      else
        do! grow_loop arg m m2 0 (Z.to_nat (wrap 64 hookCount)) in
        let! hook := load64 (arg + o_hook) in
        do! ps4KernelMemoryFree hook in
        let! hookType := load64 (arg + o_hookType) in
        do! ps4KernelMemoryFree hookType in
        do! store64 (arg + o_hook) m in
        do! store64 (arg + o_hookType) m2 in
        do! store64 (arg + o_hookSize) (hookSize * 2) in
        k
  else k.

(** [fuel] bounds the waiting for the spin lock. *)
Definition ps4KernelFunctionHookAdd (fuel : nat) (hookh hook : Z) (type : Ps4KernelFunctionHookType) : K Z :=
  let! r := Ps4ExceptionTryFinally ps4KernelFunctionHookExceptionHandlerFinally
    (hook_initialized hookh
      (if hookh =? NULL then ret (Leave PS4_ERROR_ARGUMENT_PRIMARY_MISSING, hookh)
       else if hook =? NULL then ret (Leave PS4_ERROR_ARGUMENT_MISSING, hookh)
       else
         let! mx := get_var ps4KernelFunctionHookMutex in
         do! mtx_lock mx in
         do! ps4AtomicSpinLock64 fuel (hookh + o_lock) in
         hook_grow hookh (
           do! ps4AtomicSpinUnlock64 (hookh + o_lock) in
           let! hooks := load64 (hookh + o_hook) in
           let! count := load_i64 (hookh + o_hookCount) in
           do! store64 (hooks + 8 * count) hook in
           let! types := load64 (hookh + o_hookType) in
           do! store64 (types + 8 * count) (type_value type) in
           do! store64 (hookh + o_hookCount) (count + 1) in
           let! count := load_i64 (hookh + o_hookCount) in
           let! hooks := load64 (hookh + o_hook) in
           do! store64 (hooks + 8 * count) NULL in
           ret (Finish PS4_OK, hookh)))) in
  ret (fst r).

(** [for(s = 0; arg->hook[s] != NULL; ++s)]; the result is [t]. *)
Fixpoint remove_loop (fuel : nat) (arg hook s t : Z) : K Z :=
  match fuel with
  | O => fault
  | S fuel' =>
      let! hooks := load64 (arg + o_hook) in
      let! h := load64 (hooks + 8 * s) in
      if h =? NULL then ret t
      else
        let t := if h =? hook then t + 1 else t in
        if t =? 0 then remove_loop fuel' arg hook (s + 1) t
        else
          let! next := load64 (hooks + 8 * (s + t)) in
          do! store64 (hooks + 8 * s) next in
          remove_loop fuel' arg hook (s + 1) t
  end.

(** [fuel] bounds the loop over the hooks and the waiting for the spin lock. *)
Definition ps4KernelFunctionHookRemove (fuel : nat) (hookh hook : Z) : K Z :=
  if hookh =? NULL then ret PS4_ERROR_ARGUMENT_PRIMARY_MISSING
  else if hook =? NULL then ret PS4_ERROR_ARGUMENT_MISSING
  else
    let! mx := get_var ps4KernelFunctionHookMutex in
    let rest :=
      let! mx := get_var ps4KernelFunctionHookMutex in
      do! mtx_lock mx in
      do! ps4AtomicSpinLock64 fuel (hookh + o_lock) in
      let! t := remove_loop fuel hookh hook 0 0 in
      let! count := load_i64 (hookh + o_hookCount) in
      do! store64 (hookh + o_hookCount) (count - t) in
      do! ps4AtomicSpinUnlock64 (hookh + o_lock) in
      do! mtx_unlock mx in
      if t =? 0 then ret PS4_ERROR_NOT_FOUND else ret PS4_OK in
    if mx =? NULL then ps4ExpressionReturnOnError ps4KernelFunctionHookInitialize rest else rest.

(** [while(arg->entryCount > 0)] between two [ps4AtomicSpinLock64]s. *)
Fixpoint drain_loop (fuel : nat) (arg : Z) : K unit :=
  match fuel with
  | O => fault
  | S fuel' =>
      let! n := load_i64 (arg + o_entryCount) in
      if 0 <? n then
        do! ps4AtomicSpinUnlock64 (arg + o_lock) in
        do! ps4AtomicSpinLock64 fuel' (arg + o_lock) in
        drain_loop fuel' arg
      else ret tt
  end.

(** [pause] only waits. [fuel] bounds the waiting for calls under way. *)
Definition ps4KernelFunctionHookDestroy (fuel : nat) (hook : Z) : K Z :=
  let! r := Ps4ExceptionTryCatchFinally ps4KernelFunctionHookExceptionHandlerCatch
      ps4KernelFunctionHookExceptionHandlerFinally
    (hook_initialized hook
      (if hook =? NULL then ret (Leave PS4_ERROR_ARGUMENT_PRIMARY_MISSING, hook)
       else
         let! mx := get_var ps4KernelFunctionHookMutex in
         do! mtx_lock mx in
         do! sched_pin in
         let! function := load64 (hook + o_function) in
         let! locked := ps4KernelFunctionLock function OPtr in
         let! bridge := load64 (hook + o_bridge) in
         let! function := load64 (hook + o_function) in
         let! copied := load_i64 (hook + o_bridgeCopiedSize) in
         do! ps4KernelMemoryCopy (bridge + 2) (function + 2) (Z.to_nat (copied - 2)) in
         let! bits := ps4KernelMemoryCopyToLocal bridge 2 in
         let fnBits := if fst bits =? PS4_OK then le_val (snd bits) else default 0 (snd locked) in
         do! ps4KernelFunctionUnlock function fnBits in
         do! sched_unpin in
         do! ps4AtomicSpinLock64 fuel (hook + o_lock) in
         do! drain_loop fuel hook in
         do! ps4AtomicSpinUnlock64 (hook + o_lock) in
         ret (Throw PS4_OK, hook))) in
  ret (fst r).

(** ** Hooking by function *)

Definition hook_initialized_or_return (k : K (Z * option Z)) : K (Z * option Z) :=
  let! mx := get_var ps4KernelFunctionHookMutex in
  if mx =? NULL then
    let! r := ps4KernelFunctionHookInitialize in
    if r =? 0 then k else let! r := ps4KernelFunctionHookInitialize in ret (r, None)
  else k.

Definition ps4KernelFunctionGetHook (function : Z) (hook : out) : K (Z * option Z) :=
  hook_initialized_or_return (
    let! mx := get_var ps4KernelFunctionHookMutex in
    do! mtx_lock mx in
    let! adr := ps4PayloadJumpExtractTarget function OPtr in
    let! r := (if negb (fst adr =? PS4_OK) then ret (PS4_ERROR_ARGUMENT_EXPECTATION_FAILED, None)
               else ps4PayloadFunctionHookPrologueExtractArgument (default 0 (snd adr)) hook) in
    do! mtx_unlock mx in
    ret r).

Definition ps4KernelFunctionHook (fuel : nat) (function hook : Z) (type : Ps4KernelFunctionHookType) : K Z :=
  let! r := hook_initialized_or_return (
    let! mx := get_var ps4KernelFunctionHookMutex in
    do! mtx_lock mx in
    let! hooked := ps4KernelFunctionIsHooked function in
    let! h := (if negb (hooked =? PS4_OK) then ps4KernelFunctionHookCreate OPtr function
               else ps4KernelFunctionGetHook function OPtr) in
    let! r := (if fst h =? PS4_OK then ps4KernelFunctionHookAdd fuel (default 0 (snd h)) hook type
               else ret (fst h)) in
    do! mtx_unlock mx in
    ret (r, None)) in
  ret (fst r).

Definition ps4KernelFunctionPosthook (fuel : nat) (function hook : Z) : K Z :=
  ps4KernelFunctionHook fuel function hook PS4_KERNEL_FUNCTION_HOOK_TYPE_GENERIC_POST.

Definition ps4KernelFunctionPrehook (fuel : nat) (function hook : Z) : K Z :=
  ps4KernelFunctionHook fuel function hook PS4_KERNEL_FUNCTION_HOOK_TYPE_PRE.

Definition ps4KernelFunctionUnhook (fuel : nat) (function : Z) : K Z :=
  let! r := hook_initialized_or_return (
    let! mx := get_var ps4KernelFunctionHookMutex in
    do! mtx_lock mx in
    let! h := ps4KernelFunctionGetHook function OPtr in
    let! r := (if negb (fst h =? PS4_OK) then ret PS4_ERROR_EXPECTATION_FAILED
               else ps4KernelFunctionHookDestroy fuel (default 0 (snd h))) in
    do! mtx_unlock mx in
    ret (r, None)) in
  ret (fst r).
End Hooks.
