(* ===== verification/HookList.v ===== *)
(** * The hooks of a function, as a list

    The argument structure of a hook with its two arrays stands for a list of
    hooks with their types. [ps4KernelFunctionHookAdd] appends to that list,
    also when the arrays have to grow; [ps4KernelFunctionHookRemove] takes a
    hook out, but leaves the types where they were. *)

From stdpp Require Import base gmap list strings.
From S2P Require Import Prelude Errors Uthash Machine Reference KernelBase KernelMemory Cache CacheMap CacheGlobal Symbol Words Template Atomic FunctionHook.

(** The structure and its two arrays, apart from each other. *)
Record trio (m : machine) (arg : Z) (F : list Z) (H : Z) (hs : list Z) (T : Z) (ts : list Z) : Prop := Trio {
  trio_fields : words m arg F;
  trio_hooks : words m H hs;
  trio_types : words m T ts;
  trio_fh : disjoint_ranges arg (8 * Z.of_nat (length F)) H (8 * Z.of_nat (length hs));
  trio_ft : disjoint_ranges arg (8 * Z.of_nat (length F)) T (8 * Z.of_nat (length ts));
  trio_ht : disjoint_ranges H (8 * Z.of_nat (length hs)) T (8 * Z.of_nat (length ts))
}.

Lemma trio_mem m m' arg F H hs T ts :
  trio m arg F H hs T ts -> mem m' = mem m -> text m' = text m -> trio m' arg F H hs T ts.
Proof.
  intros [H1 H2 H3 D1 D2 D3] Em Et. split; try done; (eapply words_ext; [eassumption | done | intros x b _; by rewrite Em]).
Qed.

Lemma trio_store_field m arg F H hs T ts i v :
  trio m arg F H hs T ts -> (i < length F)%nat -> 0 <= v < 2 ^ 64 ->
  store64 (arg + 8 * Z.of_nat i) v m = Some (tt, put64 (arg + 8 * Z.of_nat i) v m) /\
  trio (put64 (arg + 8 * Z.of_nat i) v m) arg (<[i := v]> F) H hs T ts.
Proof.
  intros [H1 H2 H3 D1 D2 D3] Hi Hv. destruct (words_store m arg F i v H1 Hi Hv) as [E W]. split; [done|].
  unfold disjoint_ranges in *. split; rewrite ?length_insert; try done; (apply words_other; [done|]; unfold disjoint_ranges; lia).
Qed.

Lemma trio_store_hook m arg F H hs T ts i v :
  trio m arg F H hs T ts -> (i < length hs)%nat -> 0 <= v < 2 ^ 64 ->
  store64 (H + 8 * Z.of_nat i) v m = Some (tt, put64 (H + 8 * Z.of_nat i) v m) /\
  trio (put64 (H + 8 * Z.of_nat i) v m) arg F H (<[i := v]> hs) T ts.
Proof.
  intros [H1 H2 H3 D1 D2 D3] Hi Hv. destruct (words_store m H hs i v H2 Hi Hv) as [E W]. split; [done|].
  unfold disjoint_ranges in *. split; rewrite ?length_insert; try done; (apply words_other; [done|]; unfold disjoint_ranges; lia).
Qed.

Lemma trio_store_type m arg F H hs T ts i v :
  trio m arg F H hs T ts -> (i < length ts)%nat -> 0 <= v < 2 ^ 64 ->
  store64 (T + 8 * Z.of_nat i) v m = Some (tt, put64 (T + 8 * Z.of_nat i) v m) /\
  trio (put64 (T + 8 * Z.of_nat i) v m) arg F H hs T (<[i := v]> ts).
Proof.
  intros [H1 H2 H3 D1 D2 D3] Hi Hv. destruct (words_store m T ts i v H3 Hi Hv) as [E W]. split; [done|].
  unfold disjoint_ranges in *. split; rewrite ?length_insert; try done; (apply words_other; [done|]; unfold disjoint_ranges; lia).
Qed.

(** ** What a hook object stands for *)

(** The two arrays hold the list [L] of hooks with their types, the hooks
    ended by a NULL. *)
Record arrays (m : machine) (arg : Z) (F : list Z) (L : list (Z * Z)) (H T : Z) (hs ts : list Z) : Prop := Arrays {
  arrays_trio : trio m arg F H hs T ts;
  arrays_hook : F !! 13%nat = Some H;
  arrays_type : F !! 14%nat = Some T;
  arrays_size : F !! 17%nat = Some (Z.of_nat (length hs));
  arrays_length : length ts = length hs;
  arrays_max : Z.of_nat (length hs) < 2 ^ 32;
  arrays_block_hook : allocs m !! H = Some (8 * Z.of_nat (length hs));
  arrays_block_type : allocs m !! T = Some (8 * Z.of_nat (length ts));
  arrays_apart : arg <> H /\ arg <> T /\ H <> T;
  arrays_hooks : exists rest, hs = L.*1 ++ NULL :: rest;
  arrays_types : exists rest, ts = L.*2 ++ rest
}.

(** [F] are the fields, [L] the hooks with their types as stored. *)
Record hook_object (m : machine) (arg : Z) (F : list Z) (L : list (Z * Z)) : Prop := HookObject {
  object_blocks : blocks_ok m;
  object_length : length F = 24%nat;
  object_block : allocs m !! arg = Some sizeof_Ps4KernelFunctionHookArgument;
  object_positive : 0 < arg;
  object_count : F !! 16%nat = Some (Z.of_nat (length L));
  object_hooks p : p ∈ L -> fst p <> NULL;
  object_arrays : exists H T hs ts, arrays m arg F L H T hs ts
}.

(** The memory of the object: the structure and the arrays its fields name. *)
Definition object_owns (m : machine) (arg : Z) (F : list Z) (x : Z) : Prop :=
  exists a n, (a = arg \/ F !! 13%nat = Some a \/ F !! 14%nat = Some a) /\ allocs m !! a = Some n /\ in_block a n x.

(** Memory changes only where the object is. *)
Definition only_object (m : machine) (arg : Z) (F : list Z) (m' : machine) : Prop :=
  forall x b, mem m !! x = Some b -> ~ object_owns m arg F x -> mem m' !! x = Some b.

Lemma field_load m arg F i v : words m arg F -> F !! i = Some v -> load64 (arg + 8 * Z.of_nat i) m = Some (v, m).
Proof. apply words_load. Qed.

Lemma field_load_i64 m arg F i (n : nat) :
  words m arg F -> F !! i = Some (Z.of_nat n) -> Z.of_nat n < 2 ^ 32 ->
  load_i64 (arg + 8 * Z.of_nat i) m = Some (Z.of_nat n, m).
Proof.
  intros Hw Hi Hn. unfold load_i64. erewrite bind_some by (by apply (field_load m arg F)).
  by rewrite signed_small by lia.
Qed.

Lemma lock_word_field m arg F i v :
  words m arg F -> F !! i = Some v -> 0 < arg -> lock_word 8 (arg + 8 * Z.of_nat i) v m.
Proof.
  intros Hw Hi Ha. apply lookup_lt_Some in Hi as Hl. split; [unfold NULL; lia|]. split.
  - apply (words_writable m arg F); [done | lia..].
  - exists (le_bytes 8 v). split; [by apply (words_read _ _ _ Hw) | apply le_val_word, (words_range _ _ _ Hw i _ Hi)].
Qed.

Lemma spin_lock_field m arg F fuel :
  words m arg F -> F !! 23%nat = Some 0 -> 0 < arg ->
  ps4AtomicSpinLock64 (S fuel) (arg + o_lock) m = Some (PS4_OK, put64 (arg + o_lock) 1 m).
Proof.
  intros Hw Hi Ha. unfold ps4AtomicSpinLock64, spin_lock. rewrite (proj2 (Z.eqb_neq _ NULL)) by (unfold o_lock, NULL; lia).
  erewrite bind_some; [reflexivity|]. cbn [spin_loop].
  by erewrite bind_some by (apply (atomic_swap_run 8 _ 0); exact (lock_word_field m arg F 23 0 Hw Hi Ha)).
Qed.

Lemma spin_unlock_field m arg F v :
  words m arg F -> F !! 23%nat = Some v -> 0 < arg ->
  ps4AtomicSpinUnlock64 (arg + o_lock) m = Some (if v =? 1 then PS4_OK else PS4_NOT_OK, put64 (arg + o_lock) 0 m).
Proof.
  intros Hw Hi Ha. unfold ps4AtomicSpinUnlock64, spin_unlock. rewrite (proj2 (Z.eqb_neq _ NULL)) by (unfold o_lock, NULL; lia).
  erewrite bind_some by (apply (atomic_swap_run 8 _ v); exact (lock_word_field m arg F 23 v Hw Hi Ha)).
  by destruct (v =? 1).
Qed.

(** A step of the object's own stores. *)
Lemma only_put m arg F m1 a n v :
  only_object m arg F m1 -> (forall y, a <= y < a + n -> object_owns m arg F y) -> n = 8 ->
  only_object m arg F (put64 a v m1).
Proof.
  intros Ho Ha -> x b Hx Hn. rewrite lookup_put64; [by apply Ho|]. intros Hin. by apply Hn, Ha.
Qed.

Lemma blocks_put m a v : blocks_ok m -> blocks_ok (put64 a v m).
Proof. apply blocks_ok_write. Qed.

(** The part of [ps4KernelFunctionHookAdd] behind the spin lock. *)
Definition add_tail (hookh hook : Z) (type : Ps4KernelFunctionHookType) : K (outcome * Z) :=
  do! ps4AtomicSpinUnlock64 (hookh + o_lock) in
  let! hooks := load64 (hookh + o_hook) in
  let! count := load_i64 (hookh + o_hookCount) in
  do! store64 (hooks + 8 * count) hook in
  let! types := load64 (hookh + o_hookType) in
  do! store64 (types + 8 * count) (type_value type) in
  do! store64 (hookh + o_hookCount) (count + 1) in
  let! count := load_i64 (hookh + o_hookCount) in
  let! hooks := load64 (hookh + o_hook) in
  do! store64 (hooks + 8 * count) NULL in
  ret (Finish PS4_OK, hookh).

(** There is room behind the hooks. *)
Definition object_room (F : list Z) (L : list (Z * Z)) : Prop :=
  exists size, F !! 17%nat = Some size /\ Z.of_nat (length L) + 1 < size.

Lemma owns_field m arg F L i x :
  hook_object m arg F L -> (i < 24)%nat -> arg + 8 * Z.of_nat i <= x < arg + 8 * Z.of_nat i + 8 -> object_owns m arg F x.
Proof.
  intros Ho Hi Hx. exists arg, 192. split; [by left|]. split; [apply (object_block _ _ _ _ Ho)|]. unfold in_block. lia.
Qed.

Lemma owns_hook m arg F L H T hs ts i x :
  arrays m arg F L H T hs ts -> (i < length hs)%nat -> H + 8 * Z.of_nat i <= x < H + 8 * Z.of_nat i + 8 -> object_owns m arg F x.
Proof.
  intros A Hi Hx. exists H, (8 * Z.of_nat (length hs)). split; [right; left; apply A|]. split; [apply A|]. unfold in_block. lia.
Qed.

Lemma owns_type m arg F L H T hs ts i x :
  arrays m arg F L H T hs ts -> (i < length ts)%nat -> T + 8 * Z.of_nat i <= x < T + 8 * Z.of_nat i + 8 -> object_owns m arg F x.
Proof.
  intros A Hi Hx. exists T, (8 * Z.of_nat (length ts)). split; [right; right; apply A|]. split; [apply A|]. unfold in_block. lia.
Qed.

(** Appending to the arrays. *)
Lemma append_hooks (L : list (Z * Z)) (hs rest : list Z) x ty :
  hs = L.*1 ++ NULL :: rest -> Z.of_nat (length L) + 1 < Z.of_nat (length hs) ->
  exists rest', <[S (length L) := NULL]> (<[length L := x]> hs) = (L ++ [(x, ty)]).*1 ++ NULL :: rest'.
Proof.
  intros -> Hl. rewrite length_app, length_fmap in Hl. cbn [length] in Hl. destruct rest as [|y r]; [cbn [length] in Hl; lia|].
  exists r. rewrite fmap_app, <- app_assoc. cbn [fmap list_fmap fst app].
  rewrite <- (length_fmap fst L). set (l := L.*1). rewrite <- (Nat.add_0_r (length l)) at 2.
  rewrite insert_app_r. cbn [insert list_insert]. replace (S (length l)) with (length l + 1)%nat by lia. by rewrite insert_app_r.
Qed.

Lemma append_types (L : list (Z * Z)) (ts rest : list Z) x ty :
  ts = L.*2 ++ rest -> Z.of_nat (length L) + 1 < Z.of_nat (length ts) ->
  exists rest', <[length L := ty]> ts = (L ++ [(x, ty)]).*2 ++ rest'.
Proof.
  intros -> Hl. rewrite length_app, length_fmap in Hl. destruct rest as [|y r]; [cbn [length] in Hl; lia|].
  exists r. rewrite fmap_app, <- app_assoc. cbn [fmap list_fmap snd app]. rewrite <- (length_fmap snd L) at 1.
  rewrite <- (Nat.add_0_r (length L.*2)). by rewrite insert_app_r.
Qed.

(** The states behind the spin lock: unlocked, the hook stored, its type, the
    count, the terminator. *)
Definition add_states (m : machine) (arg H T : Z) (n : nat) (hook ty : Z) : machine :=
  put64 (H + 8 * Z.of_nat (S n)) NULL
    (put64 (arg + 8 * Z.of_nat 16) (Z.of_nat (S n))
      (put64 (T + 8 * Z.of_nat n) ty
        (put64 (H + 8 * Z.of_nat n) hook
          (put64 (arg + 8 * Z.of_nat 23) 0 m)))).

Lemma add_tail_states m arg F L H T hs ts hook type lk :
  hook_object m arg F L -> arrays m arg F L H T hs ts -> F !! 23%nat = Some lk ->
  Z.of_nat (length L) + 1 < Z.of_nat (length hs) -> 0 < hook < 2 ^ 64 ->
  let n := length L in let ty := wrap 64 (type_value type) in
  add_tail arg hook type m = Some ((Finish PS4_OK, arg), add_states m arg H T n hook ty) /\
  trio (add_states m arg H T n hook ty) arg (<[16%nat := Z.of_nat (S n)]> (<[23%nat := 0]> F))
    H (<[S n := NULL]> (<[n := hook]> hs)) T (<[n := ty]> ts).
Proof.
  intros [Hbl Hlen Hblk Hpos Hcnt Hnz _] [Htr FH FT FS Els Hsz AH AT _ _ _] Hlk Hroom Hhook n ty. fold n in Hcnt, Hroom.
  destruct (trio_store_field m arg F H hs T ts 23 0 Htr) as [E0 T0]; [lia | lia|].
  set (m0 := put64 (arg + 8 * Z.of_nat 23) 0 m) in *.
  destruct (trio_store_hook _ _ _ _ _ _ _ n hook T0) as [E1 T1]; [lia | lia|].
  set (m1 := put64 (H + 8 * Z.of_nat n) hook m0) in *.
  destruct (trio_store_type _ _ _ _ _ _ _ n ty T1) as [E2 T2]; [lia | apply wrap_bound; lia|].
  set (m2 := put64 (T + 8 * Z.of_nat n) ty m1) in *.
  destruct (trio_store_field _ _ _ _ _ _ _ 16 (Z.of_nat (S n)) T2) as [E3 T3]; [rewrite length_insert; lia | lia|].
  set (m3 := put64 (arg + 8 * Z.of_nat 16) (Z.of_nat (S n)) m2) in *.
  destruct (trio_store_hook _ _ _ _ _ _ _ (S n) NULL T3) as [E4 T4]; [rewrite length_insert; lia | unfold NULL; lia|].
  split; [|exact T4].
  unfold add_tail. erewrite bind_some by exact (spin_unlock_field m arg F lk (trio_fields _ _ _ _ _ _ _ Htr) Hlk Hpos). fold m0.
  erewrite bind_some by (apply (field_load m0 arg _ 13 H (trio_fields _ _ _ _ _ _ _ T0)); by rewrite list_lookup_insert_ne).
  erewrite bind_some by (apply (field_load_i64 m0 arg _ 16 n (trio_fields _ _ _ _ _ _ _ T0)); [by rewrite list_lookup_insert_ne | lia]).
  erewrite bind_some by exact E1.
  erewrite bind_some by (apply (field_load m1 arg _ 14 T (trio_fields _ _ _ _ _ _ _ T1)); by rewrite list_lookup_insert_ne).
  rewrite store64_wrap. erewrite bind_some by exact E2. replace (Z.of_nat n + 1) with (Z.of_nat (S n)) by lia.
  erewrite bind_some by exact E3.
  erewrite bind_some by (apply (field_load_i64 m3 arg _ 16 (S n) (trio_fields _ _ _ _ _ _ _ T3));
    [rewrite list_lookup_insert_eq; [done | rewrite length_insert; lia] | lia]).
  erewrite bind_some by (apply (field_load m3 arg _ 13 H (trio_fields _ _ _ _ _ _ _ T3)); by rewrite !list_lookup_insert_ne).
  by erewrite bind_some by exact E4.
Qed.

Lemma add_tail_run m arg F L hook type lk :
  hook_object m arg F L -> F !! 23%nat = Some lk -> object_room F L -> 0 < hook < 2 ^ 64 ->
  exists mm, let m' := set_mem mm m in
    add_tail arg hook type m = Some ((Finish PS4_OK, arg), m') /\
    hook_object m' arg (<[16%nat := Z.of_nat (S (length L))]> (<[23%nat := 0]> F)) (L ++ [(hook, wrap 64 (type_value type))]) /\
    only_object m arg F m'.
Proof.
  intros Ho Hlk (size & FS & Hroom) Hhook. pose proof Ho as [Hbl Hlen Hblk Hpos Hcnt Hnz (H & T & hs & ts & A)].
  pose proof A as [Htr FH FT FS' Els Hsz AH AT Hap [r Ehs] [r2 Ets]]. rewrite FS' in FS. injection FS as <-.
  destruct (add_tail_states m arg F L H T hs ts hook type lk Ho A Hlk Hroom Hhook) as [E T4].
  set (ty := wrap 64 (type_value type)) in *. set (m4 := add_states m arg H T (length L) hook ty) in *.
  exists (mem m4). change (set_mem (mem m4) m) with m4. cbv zeta. split; [done|]. split.
  - split; [by repeat apply blocks_put | by rewrite !length_insert | done | done | | |].
    + rewrite list_lookup_insert_eq by (rewrite length_insert; lia). rewrite length_app. cbn [length]. f_equal. lia.
    + intros p [Hp|Hp%list_elem_of_singleton]%elem_of_app; [by apply Hnz | subst; cbn [fst]; unfold NULL; lia].
    + exists H, T. do 2 eexists. split; [exact T4|..]; rewrite ?length_insert, ?list_lookup_insert_ne by done; try done.
      * by apply (append_hooks L hs r).
      * apply (append_types L ts r2); [done | lia].
  - unfold m4, add_states.
    apply (only_put _ _ _ _ _ 8); [|intros; apply (owns_hook m arg F L H T hs ts (S (length L))); done || lia | done].
    apply (only_put _ _ _ _ _ 8); [|intros; apply (owns_field m arg F L 16); done || lia | done].
    apply (only_put _ _ _ _ _ 8); [|intros; apply (owns_type m arg F L H T hs ts (length L)); done || lia | done].
    apply (only_put _ _ _ _ _ 8); [|intros; apply (owns_hook m arg F L H T hs ts (length L)); done || lia | done].
    apply (only_put _ _ _ _ _ 8); [by intros x b | intros; apply (owns_field m arg F L 23); done || lia | done].
Qed.

(** ** Growing *)

(** The elements of [from] from [t] on, [n] of them, put in their places. *)
Fixpoint copy_words (from to : list Z) (t n : nat) : list Z :=
  match n with
  | O => to
  | S n' => copy_words from (<[t := default 0 (from !! t)]> to) (S t) n'
  end.

Lemma length_copy_words from to t n : length (copy_words from to t n) = length to.
Proof. revert to t. induction n as [|n IH]; intros to t; cbn [copy_words]; [done|]. by rewrite IH, length_insert. Qed.

Lemma lookup_copy_words from to t n i :
  (t + n <= length from)%nat -> (t + n <= length to)%nat ->
  copy_words from to t n !! i = if decide (t <= i < t + n)%nat then from !! i else to !! i.
Proof.
  revert to t. induction n as [|n IH]; intros to t Hf Ht; cbn [copy_words]; [rewrite decide_False by lia; done|].
  rewrite IH by (rewrite ?length_insert; lia). destruct (decide (i = t)) as [->|Hne].
  - rewrite decide_False, decide_True by lia. rewrite list_lookup_insert_eq by lia.
    destruct (lookup_lt_is_Some_2 from t ltac:(lia)) as [v Hv]. by rewrite Hv.
  - rewrite list_lookup_insert_ne by done. repeat case_decide; try done; lia.
Qed.

(** A full copy into fresh words. *)
Lemma copy_words_fresh from n k :
  (n <= length from)%nat -> (n <= k)%nat -> copy_words from (repeat 0 k) 0 n = take n from ++ repeat 0 (k - n).
Proof.
  intros Hf Hk. apply list_eq. intros i. rewrite lookup_copy_words by (rewrite ?repeat_length; lia).
  case_decide.
  - rewrite lookup_app_l by (rewrite length_take; lia). by rewrite lookup_take_lt by lia.
  - rewrite lookup_app_r by (rewrite length_take; lia). rewrite length_take. replace (n `min` length from)%nat with n by lia.
    destruct (Nat.lt_ge_cases i k).
    + rewrite (proj2 (lookup_repeat 0 0 k i)) by (split; [done | lia]). symmetry. apply lookup_repeat. split; [done | lia].
    + rewrite !lookup_ge_None_2 by (rewrite repeat_length; lia). done.
Qed.

Lemma words_frame m mm a l p k q j :
  words m a l -> disjoint_ranges p k a (8 * Z.of_nat (length l)) -> disjoint_ranges q j a (8 * Z.of_nat (length l)) ->
  (forall x, ~ in_block p k x -> ~ in_block q j x -> mm !! x = mem m !! x) -> words (set_mem mm m) a l.
Proof.
  intros Hw D1 D2 Hm. apply (words_ext m); [done | done|]. intros x b Hx Hb. cbn [mem set_mem].
  unfold disjoint_ranges, in_block in *. rewrite Hm by lia. done.
Qed.

Lemma grow_loop_run n : forall m arg F H hs T ts p ps q qs t,
  trio m arg F H hs T ts -> F !! 13%nat = Some H -> F !! 14%nat = Some T -> words m p ps -> words m q qs ->
  let P := 8 * Z.of_nat (length ps) in let Q := 8 * Z.of_nat (length qs) in
  (forall a l, a = arg /\ l = F \/ a = H /\ l = hs \/ a = T /\ l = ts ->
     disjoint_ranges p P a (8 * Z.of_nat (length l)) /\ disjoint_ranges q Q a (8 * Z.of_nat (length l))) ->
  disjoint_ranges p P q Q ->
  (t + n <= length hs)%nat -> (t + n <= length ts)%nat -> (t + n <= length ps)%nat -> (t + n <= length qs)%nat ->
  exists mm, let m' := set_mem mm m in
    grow_loop arg p q (Z.of_nat t) n m = Some (tt, m') /\
    words m' p (copy_words hs ps t n) /\ words m' q (copy_words ts qs t n) /\
    forall x, ~ in_block p P x -> ~ in_block q Q x -> mm !! x = mem m !! x.
Proof.
  induction n as [|n IH]; intros m arg F H hs T ts p ps q qs t Htr FH FT Hp Hq P Q Hd Hpq L1 L2 L3 L4.
  { exists (mem m). cbv zeta. rewrite set_mem_mem. by split. }
  destruct (lookup_lt_is_Some_2 hs t ltac:(lia)) as [h Hh]. destruct (lookup_lt_is_Some_2 ts t ltac:(lia)) as [ty Hty].
  destruct (words_store m p ps t h Hp ltac:(lia) (words_range _ _ _ (trio_hooks _ _ _ _ _ _ _ Htr) _ _ Hh)) as [E1 W1].
  set (m1 := put64 (p + 8 * Z.of_nat t) h m) in *.
  assert (words m1 q qs) as Hq1 by (apply words_other; [done|]; unfold disjoint_ranges, P, Q in *; lia).
  destruct (words_store m1 q qs t ty Hq1 ltac:(lia) (words_range _ _ _ (trio_types _ _ _ _ _ _ _ Htr) _ _ Hty)) as [E2 W2].
  set (m2 := put64 (q + 8 * Z.of_nat t) ty m1) in *.
  assert (words m2 p (<[t := h]> ps)) as Hp2
    by (apply words_other; [done|]; rewrite length_insert; unfold disjoint_ranges, P, Q in *; lia).
  assert (forall x, ~ in_block p P x -> ~ in_block q Q x -> mem m2 !! x = mem m !! x) as Hfr.
  { intros x Hx Hy. unfold in_block, P, Q in *. unfold m2, m1. rewrite !lookup_put64 by lia. done. }
  assert (trio m2 arg F H hs T ts) as Htr2.
  { destruct Htr as [R1 R2 R3 D1 D2 D3]. change m2 with (set_mem (mem m2) m).
    split; try done; (eapply words_frame; [eassumption | | | exact Hfr]); apply Hd; tauto. }
  assert (words m1 arg F /\ words m1 T ts) as [HF1 HT1].
  { destruct Htr as [R1 R2 R3 _ _ _]. unfold disjoint_ranges, P in *. pose proof (Hd arg F ltac:(tauto)). pose proof (Hd T ts ltac:(tauto)).
    split; (apply words_other; [done | unfold disjoint_ranges; lia]). }
  destruct (IH m2 arg F H hs T ts p (<[t := h]> ps) q (<[t := ty]> qs) (S t)) as (mm & E & Wp & Wq & Hm); rewrite ?length_insert; try done; try lia.
  exists mm. cbv zeta. cbn [copy_words]. rewrite Hh, Hty. cbn [default]. split; [|split; [exact Wp | split; [exact Wq|]]].
  - cbn [grow_loop]. erewrite bind_some by exact (field_load m arg F 13 H (trio_fields _ _ _ _ _ _ _ Htr) FH).
    erewrite bind_some by exact (words_load m H hs t h (trio_hooks _ _ _ _ _ _ _ Htr) Hh).
    erewrite bind_some by exact E1. erewrite bind_some by exact (field_load m1 arg F 14 T HF1 FT).
    erewrite bind_some by exact (words_load m1 T ts t ty HT1 Hty). erewrite bind_some by exact E2.
    replace (Z.of_nat t + 1) with (Z.of_nat (S t)) by lia. exact E.
  - rewrite !length_insert in Hm. intros x Hx Hy. rewrite Hm by done. by apply Hfr.
Qed.

Lemma blocks_ok_mapped m mm :
  blocks_ok m -> (forall x, is_Some (mem m !! x) -> is_Some (mm !! x)) -> blocks_ok (set_mem mm m).
Proof.
  intros [H1 H2 H3] Hm. split; [|done..]. intros a n x Ha Hx. destruct (H1 a n x Ha Hx). by split; [apply Hm|].
Qed.

Lemma block_mapped_disjoint m a n b k :
  (forall x, in_block a n x -> is_Some (mem m !! x)) -> (forall x, is_Some (mem m !! x) -> ~ in_block b k x) ->
  0 < n -> 0 < k -> disjoint_ranges b k a n.
Proof.
  intros Ha Hb Hn Hk. unfold disjoint_ranges. destruct (Z.le_gt_cases (b + k) a), (Z.le_gt_cases (a + n) b); try lia.
  exfalso. apply (Hb (Z.max a b)); [apply Ha|]; unfold in_block; lia.
Qed.

Section Growing.
Context `{KernelDlSym} `{HA : KernelAllocator} `{HL : !KernelAllocatorLaws HA} `{HR : !KernelRoom HA}.

(** Two new arrays of twice the size, apart from everything mapped. *)
Lemma new_arrays m (k : nat) :
  blocks_ok m -> ready m -> (0 < k)%nat -> 2 * cost (8 * Z.of_nat k) <= kroom m ->
  let n := 8 * Z.of_nat k in
  let p := kmalloc m n in let m1 := allocated m p n in let q := kmalloc m1 n in let m2 := allocated m1 q n in
  ps4KernelMemoryAllocateData OPtr n m = Some ((PS4_OK, Some p), m1) /\
  ps4KernelMemoryAllocateData OPtr n m1 = Some ((PS4_OK, Some q), m2) /\
  0 < p < 2 ^ 64 /\ 0 < q < 2 ^ 64 /\ p <> q /\ blocks_ok m2 /\ words m2 p (repeat 0 k) /\ words m2 q (repeat 0 k) /\
  (forall x b, mem m !! x = Some b -> mem m2 !! x = Some b) /\
  (forall x, is_Some (mem m !! x) -> ~ in_block p n x /\ ~ in_block q n x) /\
  disjoint_ranges p n q n.
Proof.
  intros Hb Hrd Hk Hroom n p m1 q m2. assert (0 < n) as Hn by lia.
  assert (p <> 0) as Hp by (apply kroom_enough; [done|]; unfold cost in Hroom; lia).
  assert (kroom m - cost n <= kroom m1) as Hr1 by (by apply allocated_room).
  assert (q <> 0) as Hq by (apply kroom_enough; [done|]; unfold cost in *; lia).
  assert (forall x b, mem m !! x = Some b -> mem m1 !! x = Some b) as K1 by (intros; apply lookup_allocated; done || lia).
  assert (forall x b, mem m1 !! x = Some b -> mem m2 !! x = Some b) as K2 by (intros; apply lookup_allocated; done || lia).
  pose proof (blocks_ok_allocated m n Hb Hp Hn) as Hb1. fold p m1 in Hb1.
  pose proof (words_fresh m k Hp) as W1. fold n p m1 in W1.
  assert (disjoint_ranges p n q n) as Hd.
  { pose proof (kmalloc_disjoint m1 n p (8 * k) Hq Hn ltac:(lia)) as D. fold q in D.
    replace (Z.of_nat (8 * k)) with n in D by lia. unfold disjoint_ranges in *. destruct D as [|]; [|lia|lia].
    apply (words_writable m1 p (repeat 0 k)); [done | lia | rewrite repeat_length; lia]. }
  pose proof (kmalloc_range m n Hp). pose proof (kmalloc_range m1 n Hq).
  split; [by apply allocate_data_run|]. split; [by apply allocate_data_run|].
  split; [unfold p; lia|]. split; [unfold q; lia|]. split; [unfold disjoint_ranges in Hd; intros <-; lia|].
  split; [by apply blocks_ok_allocated|]. split; [by apply words_allocated; [|lia|]|]. split; [by apply words_fresh|].
  split; [auto|]. split; [|done]. intros x Hx. split; [by apply kmalloc_fresh_at|].
  apply kmalloc_fresh_at; [done|]. destruct Hx as [b Hx]. exists b. auto.
Qed.

End Growing.

(** The object stays the same when its own memory does. *)
Lemma arrays_kept m m' arg F L H T hs ts :
  hook_object m arg F L -> arrays m arg F L H T hs ts -> text m' = text m -> allocs m ⊆ allocs m' ->
  (forall x b, object_owns m arg F x -> mem m !! x = Some b -> mem m' !! x = Some b) -> arrays m' arg F L H T hs ts.
Proof.
  intros Ho A Et Ea Hm. pose proof A as [Htr FH FT FS Els Hsz AH AT Hap Hh Ht]. destruct Htr as [R1 R2 R3 D1 D2 D3].
  split; try done; [|by eapply lookup_weaken..]. split; try done; (eapply words_ext; [eassumption | done|]); intros x b Hx; apply Hm.
  - exists arg, 192. split; [by left|]. split; [apply Ho|]. unfold in_block. rewrite (object_length _ _ _ _ Ho) in Hx. lia.
  - exists H, (8 * Z.of_nat (length hs)). auto.
  - exists T, (8 * Z.of_nat (length ts)). auto.
Qed.

Lemma hook_object_kept m m' arg F L :
  hook_object m arg F L -> blocks_ok m' -> text m' = text m -> allocs m ⊆ allocs m' ->
  (forall x b, object_owns m arg F x -> mem m !! x = Some b -> mem m' !! x = Some b) -> hook_object m' arg F L.
Proof.
  intros Ho Hb Et Ea Hm. pose proof Ho as [_ Hlen Hblk Hpos Hcnt Hnz (H & T & hs & ts & A)].
  split; try done; [by eapply lookup_weaken|]. exists H, T, hs, ts. by apply (arrays_kept m).
Qed.

Section Replacing.
Context `{KernelDlSym} `{HA : KernelAllocator} `{HL : !KernelAllocatorLaws HA} `{HR : !KernelRoom HA}.

(** The end of [hook_grow]. *)
Definition replace_arrays (arg p q size : Z) (k : K (outcome * Z)) : K (outcome * Z) :=
  let! hook := load64 (arg + o_hook) in
  do! ps4KernelMemoryFree hook in
  let! hookType := load64 (arg + o_hookType) in
  do! ps4KernelMemoryFree hookType in
  do! store64 (arg + o_hook) p in
  do! store64 (arg + o_hookType) q in
  do! store64 (arg + o_hookSize) (size * 2) in
  k.

(** Old arrays out, new arrays in. *)
Lemma replace_run m arg F L H0 T hs ts p ps q qs k :
  hook_object m arg F L -> arrays m arg F L H0 T hs ts -> ready m -> words m p ps -> words m q qs ->
  length ps = (2 * length hs)%nat -> length qs = (2 * length hs)%nat -> Z.of_nat (length ps) < 2 ^ 32 ->
  allocs m !! p = Some (8 * Z.of_nat (length ps)) -> allocs m !! q = Some (8 * Z.of_nat (length qs)) ->
  (forall a, a = arg \/ a = H0 \/ a = T -> p <> a /\ q <> a) -> p <> q -> 0 <= p < 2 ^ 64 -> 0 <= q < 2 ^ 64 ->
  (exists rest, ps = L.*1 ++ NULL :: rest) -> (exists rest, qs = L.*2 ++ rest) ->
  exists m', replace_arrays arg p q (Z.of_nat (length hs)) k m = k m' /\
    allocs m' !! p = Some (8 * Z.of_nat (length ps)) /\ allocs m' !! q = Some (8 * Z.of_nat (length qs)) /\
    hook_object m' arg (<[17%nat := Z.of_nat (length hs) * 2]> (<[14%nat := q]> (<[13%nat := p]> F))) L /\
    only_object m arg F m' /\ core m' = core m /\ held m' = held m /\ caches m' = caches m /\ entries m' = entries m.
Proof.
  intros Ho A Hrd Wp Wq Lp Lq Hmax Ap Aq Hne Hpq Hp Hq Eps Eqs.
  pose proof Ho as [Hbl Hlen Hblk Hpos Hcnt Hnz _]. pose proof A as [Htr FH FT FS Els Hsz AH AT (NH & NT & NHT) _ _].
  destruct (block_size _ Hbl _ _ AH) as [_ H00]. destruct (block_size _ Hbl _ _ AT) as [_ T0].
  destruct (Hne arg ltac:(auto)) as [Np Nq]. destruct (Hne H0 ltac:(auto)) as [NpH NqH]. destruct (Hne T ltac:(auto)) as [NpT NqT].
  set (m4 := freed m H0 (8 * Z.of_nat (length hs))). set (m5 := freed m4 T (8 * Z.of_nat (length ts))).
  assert (blocks_ok m4) as Hb4 by (by apply blocks_ok_freed).
  assert (forall a v, a <> H0 -> allocs m !! a = Some v -> allocs m4 !! a = Some v) as A4
    by (intros a v Ha Hv; unfold m4, freed; cbn [allocs set_allocs]; by rewrite lookup_delete_ne).
  pose proof (A4 T _ ltac:(done) AT) as AT4.
  assert (forall a v l, a <> H0 -> a <> T -> allocs m !! a = Some v -> 8 * Z.of_nat (length l) <= v -> words m a l ->
    words m4 a l /\ words m5 a l /\ allocs m5 !! a = Some v) as Keep.
  { intros a v l Ha Ht Hv Hl W. assert (words m4 a l) as W4 by (by apply (words_freed m H0 _ a l v)).
    split; [done|]. split; [apply (words_freed m4 T _ a l v); auto|].
    unfold m5, freed. cbn [allocs set_allocs]. rewrite lookup_delete_ne by done. auto. }
  destruct (Keep arg 192 F) as (WF4 & WF5 & A5); [done | done | done | lia | apply Htr|].
  destruct (Keep p (8 * Z.of_nat (length ps)) ps) as (_ & Wp5 & Ap5); [done | done | exact Ap | lia | done|].
  destruct (Keep q (8 * Z.of_nat (length qs)) qs) as (_ & Wq5 & Aq5); [done | done | exact Aq | lia | done|].
  assert (blocks_ok m5) as Hb5 by (by apply blocks_ok_freed).
  assert (trio m5 arg F p ps q qs) as T5.
  { split; [done | done | done | | |]; rewrite ?Hlen.
    - by apply (blocks_apart m5); auto.
    - by apply (blocks_apart m5); auto.
    - by apply (blocks_apart m5). }
  destruct (trio_store_field _ _ _ _ _ _ _ 13 p T5) as [E6 T6]; [lia | lia|].
  destruct (trio_store_field _ _ _ _ _ _ _ 14 q T6) as [E7 T7]; [rewrite length_insert; lia | lia|].
  destruct (trio_store_field _ _ _ _ _ _ _ 17 (Z.of_nat (length hs) * 2) T7) as [E8 T8]; [rewrite !length_insert; lia | lia|].
  set (m6 := put64 (arg + 8 * Z.of_nat 13) p m5) in *. set (m7 := put64 (arg + 8 * Z.of_nat 14) q m6) in *.
  set (m8 := put64 (arg + 8 * Z.of_nat 17) (Z.of_nat (length hs) * 2) m7) in *.
  exists m8. split; [|split; [exact Ap5 | split; [exact Aq5 | split; [|split; [|done]]]]].
  - unfold replace_arrays. erewrite bind_some by exact (field_load m arg F 13 H0 (trio_fields _ _ _ _ _ _ _ Htr) FH).
    erewrite bind_some by (by apply free_run). erewrite bind_some by exact (field_load m4 arg F 14 T WF4 FT).
    erewrite bind_some by (by apply free_run). by erewrite bind_some by exact E6; erewrite bind_some by exact E7; erewrite bind_some by exact E8.
  - split; [by repeat apply blocks_put | by rewrite !length_insert | exact A5 | done | by rewrite !list_lookup_insert_ne | done|].
    exists p, q, ps, qs. split; try done; rewrite ?length_insert, ?Lp, ?Lq; try done; try lia.
    + rewrite !list_lookup_insert_ne by done. apply list_lookup_insert_eq. lia.
    + rewrite list_lookup_insert_ne by done. apply list_lookup_insert_eq. rewrite length_insert. lia.
    + rewrite list_lookup_insert_eq by (rewrite !length_insert; lia). f_equal. lia.
  - intros x b Hx Hno. assert (forall a n, (a = arg \/ a = H0 \/ a = T) -> allocs m !! a = Some n -> ~ in_block a n x) as Hout.
    { intros a n Ha Hal Hin. apply Hno. exists a, n. destruct Ha as [->|[->| ->]]; auto. }
    pose proof (Hout arg 192 ltac:(auto) Hblk) as O1. pose proof (Hout H0 _ ltac:(auto) AH) as O2. pose proof (Hout T _ ltac:(auto) AT) as O3.
    unfold in_block in O1. unfold m8, m7, m6. rewrite !lookup_put64 by lia. unfold m5, m4. rewrite !lookup_freed by (done || lia). done.
Qed.

(** What is mapped belongs to none of the new blocks. *)
Lemma owns_mapped m arg F L x : hook_object m arg F L -> object_owns m arg F x -> is_Some (mem m !! x).
Proof. intros Ho (a & n & _ & Ha & Hx). by apply (block_mapped _ (object_blocks _ _ _ _ Ho) a n). Qed.

(** The full arrays copied into two new ones of twice the size. *)
Lemma grow_copied m arg F L H0 T hs ts :
  hook_object m arg F L -> arrays m arg F L H0 T hs ts -> ready m -> 2 * cost (16 * Z.of_nat (length hs)) <= kroom m ->
  let N := 16 * Z.of_nat (length hs) in let n := length L in
  exists p q m1 m2 m3, ps4KernelMemoryAllocateData OPtr N m = Some ((PS4_OK, Some p), m1) /\
    ps4KernelMemoryAllocateData OPtr N m1 = Some ((PS4_OK, Some q), m2) /\ 0 < p < 2 ^ 64 /\ 0 < q < 2 ^ 64 /\ p <> q /\
    grow_loop arg p q 0 n m2 = Some (tt, m3) /\
    allocs m3 = <[q := N]> (<[p := N]> (allocs m)) /\ allocs m !! p = None /\ allocs m !! q = None /\
    blocks_ok m3 /\ (forall x b, mem m !! x = Some b -> mem m3 !! x = Some b) /\
    (forall x, is_Some (mem m !! x) -> ~ in_block p N x /\ ~ in_block q N x) /\
    words m3 p (take n hs ++ repeat 0 (2 * length hs - n)) /\ words m3 q (take n ts ++ repeat 0 (2 * length hs - n)) /\
    core m3 = core m /\ held m3 = held m /\ caches m3 = caches m /\ entries m3 = entries m.
Proof.
  intros Ho A Hrd Hroom N n. pose proof Ho as [Hbl Hlen Hblk Hpos Hcnt Hnz _].
  pose proof A as [Htr FH FT FS Els Hsz AH AT _ [r Ehs] _].
  assert (n < length hs)%nat as Hn.
  { rewrite Ehs, length_app. cbn [length]. rewrite length_fmap. unfold n. lia. }
  destruct (new_arrays m (2 * length hs) Hbl Hrd) as (E1 & E2 & Hp & Hq & Hpq & Hb2 & Wp & Wq & Kp & Hnew & Dpq);
    [lia | replace (8 * Z.of_nat (2 * length hs)) with N by lia; done|].
  replace (8 * Z.of_nat (2 * length hs)) with N in * by lia. set (p := kmalloc m N) in *. set (m1 := allocated m p N) in *.
  set (q := kmalloc m1 N) in *. set (m2 := allocated m1 q N) in *.
  assert (trio m2 arg F H0 hs T ts) as Htr2.
  { destruct Htr as [R1 R2 R3 D1 D2 D3]. split; try done; (eapply words_ext; [eassumption | done | intros ? ? _; apply Kp]). }
  assert (forall a l, words m a l -> (0 < length l)%nat -> disjoint_ranges p N a (8 * Z.of_nat (length l)) /\
    disjoint_ranges q N a (8 * Z.of_nat (length l))) as Hdis.
  { intros a l W Hl. split; (apply (block_mapped_disjoint m); [intros x; by apply words_mapped | intros x Hx; by apply Hnew | lia | lia]). }
  pose proof (grow_loop_run n m2 arg F H0 hs T ts p (repeat 0 (2 * length hs)) q (repeat 0 (2 * length hs)) 0 Htr2 FH FT Wp Wq) as G.
  rewrite !repeat_length in G. replace (8 * Z.of_nat (2 * length hs)) with N in G by lia. cbv zeta in G.
  rewrite !copy_words_fresh in G by lia.
  destruct G as (mm & E3 & Wp3 & Wq3 & Hmm); [|done|lia..|].
  { intros a l [[-> ->]|[[-> ->]|[-> ->]]]; apply Hdis; try apply Htr; lia. }
  assert (forall x b, mem m !! x = Some b -> mm !! x = Some b) as Kmm.
  { intros x b Hx. destruct (Hnew x ltac:(by eexists)). rewrite Hmm by done. by apply Kp. }
  assert (forall x, is_Some (mem m2 !! x) -> is_Some (mm !! x)) as Mmm.
  { intros x Hx. destruct (decide (p <= x < p + N)) as [Hin|Hin].
    { apply (words_mapped (set_mem mm m2) _ _ x Wp3). rewrite length_app, length_take, repeat_length. lia. }
    destruct (decide (q <= x < q + N)) as [Hin'|Hin'].
    { apply (words_mapped (set_mem mm m2) _ _ x Wq3). rewrite length_app, length_take, repeat_length. lia. }
    by rewrite Hmm. }
  exists p, q, m1, m2, (set_mem mm m2). split; [done|]. split; [done|]. split; [lia|]. split; [lia|]. split; [done|].
  split; [exact E3|]. split; [done|].
  split; [by apply kmalloc_not_block; [|lia|lia]|].
  split; [|split; [by apply blocks_ok_mapped | split; [exact Kmm | split; [exact Hnew | split; [exact Wp3 | split; [exact Wq3 | done]]]]]].
  assert (allocs m1 !! q = None) as Hq1 by (apply kmalloc_not_block; [by apply blocks_ok_allocated; [|lia|lia] | lia | lia]).
  revert Hq1. unfold m1, allocated. cbn [allocs set_allocs]. by rewrite lookup_insert_ne.
Qed.

(** The full arrays are replaced by arrays of twice the size. *)
Lemma grow_run m arg F L size k :
  hook_object m arg F L -> ready m -> F !! 17%nat = Some size -> size - 1 <= Z.of_nat (length L) ->
  2 * cost (16 * size) <= kroom m ->
  exists p q m', let F' := <[17%nat := size * 2]> (<[14%nat := q]> (<[13%nat := p]> F)) in
    hook_grow arg k m = k m' /\ hook_object m' arg F' L /\ only_object m arg F m' /\
    (forall x, is_Some (mem m !! x) -> ~ object_owns m arg F x -> ~ object_owns m' arg F' x) /\ core m' = core m /\ held m' = held m /\ caches m' = caches m /\ entries m' = entries m.
Proof.
  intros Ho Hrd FS Hfull Hroom. pose proof Ho as [Hbl Hlen Hblk Hpos Hcnt Hnz (H0 & T & hs & ts & A)].
  pose proof A as [Htr FH FT FS' Els Hsz AH AT (NH & NT & NHT) [r Ehs] [r2 Ets]]. rewrite FS' in FS. injection FS as <-.
  pose proof (kroom_bound m) as Hmax. set (n := length L) in *.
  assert (length hs = n + S (length r))%nat as Es by (rewrite Ehs at 1; rewrite length_app, length_fmap; done).
  destruct (grow_copied m arg F L H0 T hs ts Ho A Hrd Hroom)
    as (p & q & m1 & m2 & m3 & E1 & E2 & Hp & Hq & Hpq & E3 & Ea & Np & Nq & Hb3 & Kp & Hnew & Wp & Wq & Ec & Eh & Eca & Een).
  fold n in E3, Wp, Wq. set (N := 16 * Z.of_nat (length hs)) in *.
  assert (allocs m ⊆ allocs m3) as Ha3.
  { rewrite Ea. transitivity (<[p := N]> (allocs m)); apply insert_subseteq; [done | by rewrite lookup_insert_ne]. }
  pose proof (core_text _ _ Ec) as Et.
  pose proof (arrays_kept m m3 arg F L H0 T hs ts Ho A Et Ha3 ltac:(auto)) as A3.
  pose proof (hook_object_kept m m3 arg F L Ho Hb3 Et Ha3 ltac:(auto)) as Ho3.
  assert (take n hs = L.*1) as Eh1 by (rewrite Ehs; apply take_app_length'; by rewrite length_fmap).
  assert (take n ts = L.*2) as Et1 by (rewrite Ets; apply take_app_length'; by rewrite length_fmap). rewrite Eh1 in Wp. rewrite Et1 in Wq.
  assert (repeat 0 (2 * length hs - n) = NULL :: repeat 0 (2 * length hs - n - 1)) as Er
    by (replace (2 * length hs - n)%nat with (S (2 * length hs - n - 1)) at 1 by lia; done).
  assert (forall l : list Z, length l = n -> length (l ++ repeat 0 (2 * length hs - n)) = (2 * length hs)%nat) as Ll
    by (intros l El; rewrite length_app, repeat_length; lia).
  destruct (replace_run m3 arg F L H0 T hs ts p _ q _ k Ho3 A3 (core_ready m m3 Ec Hrd) Wp Wq)
    as (m' & E & Ap' & Aq' & Ho' & On & Ec' & Eh' & Eca' & Een').
  - apply Ll, length_fmap.
  - apply Ll, length_fmap.
  - rewrite Ll by apply length_fmap. unfold cost in Hroom. lia.
  - rewrite Ea, Ll by apply length_fmap. rewrite lookup_insert_ne by done. rewrite lookup_insert_eq. f_equal. lia.
  - rewrite Ea, Ll by apply length_fmap. rewrite lookup_insert_eq. f_equal. lia.
  - intros a Hin. assert (is_Some (allocs m !! a)) as [v Hv] by (destruct Hin as [->|[->| ->]]; by eexists). split; congruence.
  - done.
  - lia.
  - lia.
  - eexists. by rewrite Er.
  - by eexists.
  - exists p, q, m'. cbv zeta. split; [|split; [done|split; [|split; [|repeat split; congruence]]]].
    + unfold hook_grow. pose proof (trio_fields _ _ _ _ _ _ _ Htr) as WF.
      erewrite bind_some by (apply (field_load_i64 m arg F 16 n WF Hcnt); lia).
      erewrite bind_some by (apply (field_load_i64 m arg F 17 (length hs) WF FS'); lia).
      rewrite (proj2 (Z.leb_le _ _) Hfull). replace (wrap 64 (2 * Z.of_nat (length hs) * 8)) with N by (rewrite wrap_small by lia; lia).
      erewrite bind_some by exact E1. change (default 0 (snd (PS4_OK, Some p))) with p. rewrite (proj2 (Z.eqb_neq p NULL)) by (unfold NULL; lia).
      erewrite bind_some by exact E2. change (default 0 (snd (PS4_OK, Some q))) with q. rewrite (proj2 (Z.eqb_neq q NULL)) by (unfold NULL; lia).
      replace (Z.to_nat (wrap 64 (Z.of_nat n))) with n by (rewrite wrap_small by lia; lia).
      erewrite bind_some by exact E3. exact E.
    + intros x b Hx Hno. apply On; [by apply Kp|]. intros (a & v & Hin & Hv & Hb). apply Hno. exists a, v. split; [done|]. split; [|done].
      assert (is_Some (allocs m !! a)) as [w Hw].
      { destruct Hin as [->|[Hin|Hin]]; [by eexists|..]; [rewrite FH in Hin|rewrite FT in Hin]; injection Hin as <-; by eexists. }
      pose proof (lookup_weaken _ _ _ _ Hw Ha3). congruence.
    + rewrite Ll in Ap', Aq' by apply length_fmap. replace (8 * Z.of_nat (2 * length hs)) with N in Ap', Aq' by lia.
      intros x Hx Hno (a & v & Hin & Hv & Hb). destruct (Hnew x Hx) as [Hxp Hxq].
      destruct Hin as [->|[Hin|Hin]];
        [|rewrite 2!list_lookup_insert_ne in Hin by done | rewrite list_lookup_insert_ne in Hin by done];
        [|rewrite list_lookup_insert_eq in Hin by (rewrite ?length_insert; lia); injection Hin as <-..].
      * rewrite (object_block _ _ _ _ Ho') in Hv. injection Hv as <-. apply Hno. exists arg, 192. auto.
      * rewrite Ap' in Hv. injection Hv as <-. done.
      * rewrite Aq' in Hv. injection Hv as <-. done.
Qed.
End Replacing.

(** ** Properties *)

Lemma hook_object_same m m' arg F L :
  hook_object m arg F L -> mem m' = mem m -> text m' = text m -> allocs m' = allocs m -> hook_object m' arg F L.
Proof.
  intros Ho Em Et Ea. apply (hook_object_kept m); [done | by apply (blocks_ok_eq m), Ho | done | by rewrite Ea | intros x b _; by rewrite Em].
Qed.

(** Storing a field that describes neither array. *)
Lemma hook_object_field m arg F L i v :
  hook_object m arg F L -> (i < 24)%nat -> i <> 13%nat -> i <> 14%nat -> i <> 16%nat -> i <> 17%nat -> 0 <= v < 2 ^ 64 ->
  store64 (arg + 8 * Z.of_nat i) v m = Some (tt, put64 (arg + 8 * Z.of_nat i) v m) /\
  hook_object (put64 (arg + 8 * Z.of_nat i) v m) arg (<[i := v]> F) L.
Proof.
  intros [Hbl Hlen Hblk Hpos Hcnt Hnz (H & T & hs & ts & A)] Hi N13 N14 N16 N17 Hv.
  destruct A as [Htr FH FT FS Els Hsz AH AT Hap Hh Ht].
  destruct (trio_store_field m arg F H hs T ts i v Htr) as [E Tr]; [lia | done|]. split; [done|].
  split; [by apply blocks_put | by rewrite length_insert | done | done | by rewrite list_lookup_insert_ne | done|].
  exists H, T, hs, ts. split; try done; by rewrite list_lookup_insert_ne.
Qed.

(** Releasing a mutex that was taken over a step that touches no mutex. *)
Lemma unlock_run mx m m3 :
  mx <> NULL -> held m3 = held (locked mx m) -> mtx_unlock mx m3 = Some (tt, released mx m m3).
Proof.
  intros Hmx Eh. assert (hold_count mx m3 = S (hold_count mx m)) as Hc.
  { unfold hold_count at 1. rewrite Eh. fold (hold_count mx (locked mx m)). by rewrite hold_count_locked, decide_True. }
  unfold mtx_unlock. by rewrite (proj2 (Z.eqb_neq mx NULL) Hmx), Hc.
Qed.

Lemma finally_run mx m m3 arg :
  mx = var ps4KernelFunctionHookMutex m -> mx <> NULL -> core m3 = core m -> held m3 = held (locked mx m) ->
  ps4KernelFunctionHookExceptionHandlerFinally arg m3 = Some (tt, released mx m m3).
Proof.
  intros -> Hmx Ec Eh. unfold ps4KernelFunctionHookExceptionHandlerFinally, get_var, gets, bind.
  rewrite (var_core _ _ _ Ec). rewrite (proj2 (Z.eqb_neq _ NULL) Hmx). by apply unlock_run.
Qed.

Lemma hold_count_unlocked mx m m3 a : held m3 = held (locked mx m) -> hold_count a (released mx m m3) = hold_count a m.
Proof.
  intros Eh. unfold released, hold_count at 1. cbn [held set_held]. destruct (decide (a = mx)) as [->|Hne]; [by rewrite lookup_insert_eq|].
  rewrite lookup_insert_ne, Eh by done. fold (hold_count a (locked mx m)). by rewrite hold_count_locked, decide_False.
Qed.

Lemma untouched (i : nat) :
  i ∉ [13; 14; 16; 17; 23]%nat ->
  13%nat <> i /\ 14%nat <> i /\ 16%nat <> i /\ 17%nat <> i /\ 23%nat <> i /\ True.
Proof. rewrite !not_elem_of_cons. lia. Qed.

(** ** Removing *)

(** Passing the hooks before the one to remove. *)
Lemma remove_skip_run l : forall m arg F H a rest hook fuel,
  words m arg F -> F !! 13%nat = Some H -> words m H (a ++ l ++ rest) ->
  (forall y, y ∈ l -> y <> NULL /\ y <> hook) ->
  remove_loop (length l + fuel) arg hook (Z.of_nat (length a)) 0 m = remove_loop fuel arg hook (Z.of_nat (length a + length l)) 0 m.
Proof.
  induction l as [|y l IH]; intros m arg F H a rest hook fuel WF FH WH Hl; [by rewrite Nat.add_0_r|].
  destruct (Hl y ltac:(left)) as [Hy0 Hyh]. cbn [length plus remove_loop].
  erewrite bind_some by exact (field_load m arg F 13 H WF FH).
  erewrite bind_some by (apply (words_load m H _ (length a) y WH); by rewrite lookup_app_r, Nat.sub_diag by lia).
  rewrite (proj2 (Z.eqb_neq y NULL) Hy0), (proj2 (Z.eqb_neq y hook) Hyh). change (0 =? 0) with true. cbv iota.
  replace (Z.of_nat (length a) + 1) with (Z.of_nat (length (a ++ [y]))) by (rewrite length_app; cbn [length]; lia).
  rewrite (IH m arg F H (a ++ [y]) rest); [|done|done|by rewrite <- app_assoc|intros z Hz; apply Hl; by right].
  rewrite length_app. cbn [length]. do 2 f_equal. lia.
Qed.

(** Moving the hooks behind it down, the terminator too. *)
Lemma remove_shift_run b : forall m arg F H a x rest hook t fuel,
  words m arg F -> F !! 13%nat = Some H -> words m H (a ++ x :: b ++ NULL :: rest) ->
  disjoint_ranges arg (8 * Z.of_nat (length F)) H (8 * Z.of_nat (length (a ++ x :: b ++ NULL :: rest))) ->
  x <> NULL -> (if x =? hook then t + 1 else t) = 1 -> (forall y, y ∈ b -> y <> NULL /\ y <> hook) ->
  exists mm, let m' := set_mem mm m in
    remove_loop (S (S (length b)) + fuel) arg hook (Z.of_nat (length a)) t m = Some (1, m') /\
    words m' H (a ++ b ++ NULL :: NULL :: rest) /\
    forall y, ~ in_block H (8 * Z.of_nat (length (a ++ x :: b ++ NULL :: rest))) y -> mm !! y = mem m !! y.
Proof.
  induction b as [|y b IH]; intros m arg F H a x rest hook t fuel WF FH WH Hd Hx Ht Hb;
    set (w := a ++ _) in WH, Hd |- *; assert (length a < length w)%nat as La by (unfold w; rewrite length_app; cbn [length]; lia);
    assert (w !! length a = Some x) as Wx by (unfold w; by rewrite list_lookup_middle).
  - assert (w !! S (length a) = Some NULL) as Wn by (unfold w; rewrite lookup_app_r by lia; by replace (S (length a) - length a)%nat with 1%nat by lia).
    destruct (words_store m H w (length a) NULL WH La) as [E W]; [unfold NULL; lia|]. set (m1 := put64 _ NULL m) in *.
    assert (<[length a := NULL]> w = a ++ NULL :: NULL :: rest) as Ew
      by (unfold w; rewrite <- (Nat.add_0_r (length a)) at 1; by rewrite insert_app_r).
    exists (mem m1). change (set_mem (mem m1) m) with m1. cbv zeta. split; [|split; [rewrite Ew in W; exact W|]].
    + cbn [length plus remove_loop]. erewrite bind_some by exact (field_load m arg F 13 H WF FH).
      erewrite bind_some by exact (words_load m H w (length a) x WH Wx). rewrite (proj2 (Z.eqb_neq x NULL) Hx). cbv zeta. rewrite Ht.
      change (1 =? 0) with false. cbv iota. replace (Z.of_nat (length a) + 1) with (Z.of_nat (S (length a))) by lia.
      erewrite bind_some by exact (words_load m H w (S (length a)) NULL WH Wn). erewrite bind_some by exact E.
      assert (words m1 arg F) as WF1 by (apply words_other; [done|]; unfold disjoint_ranges in *; lia).
      erewrite bind_some by exact (field_load m1 arg F 13 H WF1 FH).
      erewrite bind_some by (apply (words_load m1 H _ (S (length a)) NULL W); by rewrite list_lookup_insert_ne by lia). done.
    + intros z Hz. apply lookup_put64. unfold in_block in Hz. lia.
  - destruct (Hb y ltac:(left)) as [Hy0 Hyh].
    assert (w !! S (length a) = Some y) as Wn by (unfold w; rewrite lookup_app_r by lia; by replace (S (length a) - length a)%nat with 1%nat by lia).
    destruct (words_store m H w (length a) y WH La (words_range _ _ _ WH _ _ Wn)) as [E W]. set (m1 := put64 _ y m) in *.
    assert (<[length a := y]> w = (a ++ [y]) ++ y :: b ++ NULL :: rest) as Ew
      by (unfold w; rewrite <- (Nat.add_0_r (length a)) at 1; rewrite insert_app_r; by rewrite <- app_assoc).
    assert (length ((a ++ [y]) ++ y :: b ++ NULL :: rest) = length w) as Lw by (rewrite <- Ew; apply length_insert).
    assert (words m1 arg F) as WF1 by (apply words_other; [done|]; unfold disjoint_ranges in *; lia).
    rewrite Ew in W.
    destruct (IH m1 arg F H (a ++ [y]) y rest hook 1 fuel WF1 FH W) as (mm & E2 & W2 & Hmm); rewrite ?Lw; try done.
    { by rewrite (proj2 (Z.eqb_neq y hook) Hyh). }
    { intros z Hz. apply Hb. by right. }
    exists mm. cbv zeta. split; [|split; [by rewrite <- app_assoc in W2|]].
    + cbn [length plus]. cbn [remove_loop]. erewrite bind_some by exact (field_load m arg F 13 H WF FH).
      erewrite bind_some by exact (words_load m H w (length a) x WH Wx). rewrite (proj2 (Z.eqb_neq x NULL) Hx). cbv zeta. rewrite Ht.
      change (1 =? 0) with false. cbv iota. replace (Z.of_nat (length a) + 1) with (Z.of_nat (S (length a))) by lia.
      erewrite bind_some by exact (words_load m H w (S (length a)) y WH Wn). erewrite bind_some by exact E.
      rewrite length_app in E2. cbn [length] in E2. replace (length a + 1)%nat with (S (length a)) in E2 by lia. exact E2.
    + rewrite Lw in Hmm. intros z Hz. rewrite Hmm by done. apply lookup_put64. unfold in_block in Hz. lia.
Qed.

(** The loop over the hooks, when the hook is there once. *)
Lemma remove_loop_found m arg F L1 hook ty L2 fuel :
  hook_object m arg F (L1 ++ (hook, ty) :: L2) -> (forall p, p ∈ L1 ++ L2 -> fst p <> hook) -> (length (L1 ++ L2) + 2 <= fuel)%nat ->
  exists mm, let m' := set_mem mm m in
    remove_loop fuel arg hook 0 0 m = Some (1, m') /\ only_object m arg F m' /\ words m' arg F /\ blocks_ok m' /\
    exists H T hs ts, arrays m arg F (L1 ++ (hook, ty) :: L2) H T hs ts /\ exists rest,
      length (L1.*1 ++ L2.*1 ++ NULL :: rest) = length hs /\ trio m' arg F H (L1.*1 ++ L2.*1 ++ NULL :: rest) T ts.
Proof.
  intros Ho Hne Hf. pose proof Ho as [Hbl Hlen Hblk Hpos Hcnt Hnz (H & T & hs & ts & A)].
  pose proof A as [[WF WH WT D1 D2 D3] FH FT FS Els Hsz AH AT Hap [r Ehs] _].
  rewrite fmap_app, fmap_cons in Ehs. cbn [fst] in Ehs. rewrite <- app_assoc in Ehs. cbn [app] in Ehs. rewrite Ehs in WH.
  assert (forall l, l ⊆ L1 ++ L2 -> forall y, y ∈ l.*1 -> y <> NULL /\ y <> hook) as Hl.
  { intros l Hl y ([y' t] & -> & Hy)%list_elem_of_fmap. specialize (Hl _ Hy). split; [|by apply (Hne (y', t))].
    apply (Hnz (y', t)). revert Hl. rewrite !elem_of_app, elem_of_cons. tauto. }
  rewrite length_app in Hf. destruct (remove_shift_run L2.*1 m arg F H L1.*1 hook r hook 0 (fuel - length L1 - length L2 - 2) WF FH WH)
    as (mm & E & W & Hmm).
  - by rewrite <- Ehs.
  - apply (Hnz (hook, ty)), elem_of_app. right. left.
  - by rewrite Z.eqb_refl.
  - apply Hl. intros p Hp. apply elem_of_app. by right.
  - rewrite <- Ehs in Hmm. exists mm. cbv zeta.
    assert (length (L1.*1 ++ L2.*1 ++ NULL :: NULL :: r) = length hs) as Lw
      by (rewrite Ehs, !length_app; cbn [length]; rewrite !length_app; cbn [length]; lia).
    assert (forall a l, words m a l -> disjoint_ranges a (8 * Z.of_nat (length l)) H (8 * Z.of_nat (length hs)) -> words (set_mem mm m) a l) as Keep.
    { intros a l Wl Hd. apply (words_ext m); [done | done|]. intros x b Hx Hb. cbn [mem set_mem]. rewrite Hmm; [done|]. unfold in_block, disjoint_ranges in *. lia. }
    pose proof (Keep arg F WF D1) as WF'. split; [|split; [|split; [done|split]]].
    + replace fuel with (length L1.*1 + (S (S (length L2.*1)) + (fuel - length L1 - length L2 - 2)))%nat by (rewrite !length_fmap; lia).
      change 0 with (Z.of_nat (@length Z [])) at 1. erewrite (remove_skip_run L1.*1 m arg F H []); [exact E | done | done | exact WH|].
      apply Hl. intros p Hp. apply elem_of_app. by left.
    + intros x b Hx Hno. cbn [mem set_mem]. rewrite Hmm; [done|]. intros Hin. apply Hno. exists H, (8 * Z.of_nat (length hs)). auto.
    + apply blocks_ok_mapped; [done|]. intros x Hx. destruct (decide (in_block H (8 * Z.of_nat (length hs)) x)) as [Hin|Hin]; [|by rewrite Hmm].
      apply (words_mapped _ _ _ _ W). rewrite Lw. exact Hin.
    + exists H, T, hs, ts. split; [done|]. exists (NULL :: r).
      split; [done|]. split; rewrite ?Lw; try done. apply Keep; [done|]. unfold disjoint_ranges in *. lia.
Qed.

(** The list with the hook taken out and the types left in place. *)
Definition unshifted (L1 : list (Z * Z)) (p : Z * Z) (L2 : list (Z * Z)) : list (Z * Z) :=
  zip (L1 ++ L2).*1 (L1 ++ p :: L2).*2.

Lemma unshifted_hooks L1 p L2 : (unshifted L1 p L2).*1 = (L1 ++ L2).*1.
Proof. unfold unshifted. apply fst_zip. rewrite !length_fmap, !length_app. cbn [length]. lia. Qed.

Lemma unshifted_types L1 p L2 : exists ty, (L1 ++ p :: L2).*2 = (unshifted L1 p L2).*2 ++ [ty].
Proof.
  unfold unshifted. set (l := (L1 ++ p :: L2).*2). assert (length l = S (length (L1 ++ L2).*1)) as Hl
    by (unfold l; rewrite !length_fmap, !length_app; cbn [length]; lia).
  clearbody l. destruct l as [|ty l' _] using rev_ind; [cbn [length] in Hl; lia|]. exists ty. f_equal.
  rewrite length_app in Hl. cbn [length] in Hl. rewrite zip_with_app_r by lia.
  rewrite (take_ge (L1 ++ L2).*1), drop_ge, zip_with_nil_l, app_nil_r by lia. by rewrite snd_zip by lia.
Qed.

Section AddRemove.
Context `{KernelDlSym} `{HA : KernelAllocator} `{HL : !KernelAllocatorLaws HA} `{HR : !KernelRoom HA}
  `{KernelSysctl} `{PayloadImage} `{HookImage}.

(** Inside the locks, with room made if there was none. *)
Lemma add_locked_run m arg F L hook type lk :
  hook_object m arg F L -> F !! 23%nat = Some lk -> ready m -> 0 < hook < 2 ^ 64 ->
  (forall size, F !! 17%nat = Some size -> 2 * cost (16 * size) <= kroom m) ->
  exists F' m', hook_grow arg (add_tail arg hook type) m = Some ((Finish PS4_OK, arg), m') /\
    hook_object m' arg F' (L ++ [(hook, wrap 64 (type_value type))]) /\ F' !! 23%nat = Some 0 /\
    (forall i, i ∉ [13; 14; 16; 17; 23]%nat -> F' !! i = F !! i) /\
    only_object m arg F m' /\ core m' = core m /\ held m' = held m /\ caches m' = caches m /\ entries m' = entries m.
Proof.
  intros Ho Hlk Hrd Hhook Hroom. pose proof Ho as [_ Hlen _ _ Hcnt _ (hk & T & hs & ts & A)].
  pose proof (arrays_size _ _ _ _ _ _ _ _ A) as FS. specialize (Hroom _ FS). pose proof (arrays_max _ _ _ _ _ _ _ _ A) as Hmax.
  pose proof (kroom_bound m). destruct (arrays_hooks _ _ _ _ _ _ _ _ A) as [r Ehs].
  assert (length hs = length L + S (length r))%nat as Es by (rewrite Ehs at 1; rewrite length_app, length_fmap; done).
  destruct (Z.leb_spec (Z.of_nat (length hs) - 1) (Z.of_nat (length L))) as [Hfull|Hfree].
  - destruct (grow_run m arg F L _ (add_tail arg hook type) Ho Hrd FS Hfull Hroom) as (p & q & m1 & E & Ho1 & On1 & Hno1 & Ec & Eh & Eca & Een).
    destruct (add_tail_run m1 arg _ L hook type lk Ho1) as (mm & E2 & Ho2 & On2); [by rewrite !list_lookup_insert_ne | | done|].
    { exists (Z.of_nat (length hs) * 2). split; [apply list_lookup_insert_eq; rewrite !length_insert; lia | lia]. }
    exists (<[16%nat := Z.of_nat (S (length L))]> (<[23%nat := 0]> (<[17%nat := Z.of_nat (length hs) * 2]> (<[14%nat := q]> (<[13%nat := p]> F))))),
      (set_mem mm m1). split; [by rewrite E|]. split; [exact Ho2|].
    split; [rewrite list_lookup_insert_ne by done; apply list_lookup_insert_eq; rewrite !length_insert; lia|]. split; [|split; [|done]].
    + intros i (? & ? & ? & ? & ? & _)%untouched. by rewrite !list_lookup_insert_ne by done.
    + intros x b Hx Hno. apply On2; [by apply On1|]. apply Hno1; [by eexists | done].
  - destruct (add_tail_run m arg F L hook type lk Ho Hlk) as (mm & E & Ho' & On); [by exists (Z.of_nat (length hs)); split; [|lia] | done|].
    eexists _, (set_mem mm m). split; [|split; [exact Ho'|split; [|split; [|split; [exact On | done]]]]].
    + unfold hook_grow. pose proof (trio_fields _ _ _ _ _ _ _ (arrays_trio _ _ _ _ _ _ _ _ A)) as WF.
      erewrite bind_some by (apply (field_load_i64 m arg F 16 (length L) WF Hcnt); lia).
      erewrite bind_some by (apply (field_load_i64 m arg F 17 (length hs) WF FS); lia).
      by rewrite (proj2 (Z.leb_gt _ _) Hfree).
    + rewrite list_lookup_insert_ne by done. apply list_lookup_insert_eq. lia.
    + intros i (? & ? & ? & ? & ? & _)%untouched. by rewrite !list_lookup_insert_ne by done.
Qed.

(** C4. Adding a hook appends it, with its type, to the hooks of the function,
    whether the arrays have room or must be replaced by larger ones. The other
    fields of the structure stay as they are, and so does all memory outside
    the hook; the spin lock is free and every mutex held as often as before. *)
Theorem hook_add_appends m arg F L hook type fuel :
  hook_object m arg F L -> F !! 23%nat = Some 0 -> ready m -> var ps4KernelFunctionHookMutex m <> NULL ->
  0 < hook < 2 ^ 64 -> (forall size, F !! 17%nat = Some size -> 2 * cost (16 * size) <= kroom m) ->
  exists F' m', ps4KernelFunctionHookAdd (S fuel) arg hook type m = Some (PS4_OK, m') /\
    hook_object m' arg F' (L ++ [(hook, wrap 64 (type_value type))]) /\
    (forall i, i ∉ [13; 14; 16; 17]%nat -> F' !! i = F !! i) /\
    only_object m arg F m' /\ core m' = core m /\ forall a, hold_count a m' = hold_count a m.
Proof.
  intros Ho Hlk Hrd Hmx Hhook Hroom. set (mx := var ps4KernelFunctionHookMutex m) in *. set (m1 := locked mx m).
  assert (hook_object m1 arg F L) as Ho1 by (by apply (hook_object_same m)).
  destruct (hook_object_field m1 arg F L 23 1 Ho1) as [_ Ho2]; [lia..|]. set (m2 := put64 (arg + 8 * Z.of_nat 23) 1 m1) in *.
  pose proof Ho1 as [_ Hlen _ Hpos _ _ (hk & T & hs & ts & A)].
  pose proof (trio_fields _ _ _ _ _ _ _ (arrays_trio _ _ _ _ _ _ _ _ A)) as WF.
  assert (kroom m <= kroom m2) as Hr2.
  { pose proof (held_room m (<[mx := S (hold_count mx m)]> (held m))). pose proof (written_room m1 (arg + 8 * Z.of_nat 23) (le_bytes 8 1)
      ltac:(rewrite length_le_bytes; apply (words_writable m1 arg F); [done | lia | lia])). unfold m2, put64, m1, locked in *. lia. }
  destruct (add_locked_run m2 arg _ L hook type 1 Ho2) as (F' & m3 & E & Ho3 & Hl3 & HF & On & Ec & Eh & _).
  - apply list_lookup_insert_eq. lia.
  - done.
  - done.
  - intros size Hs. rewrite list_lookup_insert_ne in Hs by done. specialize (Hroom size Hs). lia.
  - exists F', (released mx m m3). split; [|split; [|split; [|split; [|split]]]].
    + unfold ps4KernelFunctionHookAdd, Ps4ExceptionTryFinally, Ps4ExceptionTryCatchFinally, hook_initialized.
      rewrite (bind_some _ _ m (PS4_OK, arg) (released mx m m3)); [done|].
      rewrite (bind_some _ _ m (Finish PS4_OK, arg) m3).
      * cbn [fst snd]. by erewrite bind_some by (by apply (finally_run mx m)).
      * unfold get_var, gets. unfold bind at 1. fold mx. rewrite (proj2 (Z.eqb_neq mx NULL) Hmx).
        rewrite (proj2 (Z.eqb_neq arg NULL)) by (unfold NULL; lia). rewrite (proj2 (Z.eqb_neq hook NULL)) by (unfold NULL; lia).
        unfold bind at 1. fold mx. erewrite bind_some by (unfold mtx_lock; rewrite (proj2 (Z.eqb_neq mx NULL) Hmx); reflexivity).
        fold (locked mx m) m1. erewrite bind_some by exact (spin_lock_field m1 arg F fuel WF Hlk Hpos). exact E.
    + by apply (hook_object_same m3).
    + intros i Hi. destruct (decide (i = 23%nat)) as [->|Hne]; [by rewrite Hl3|].
      rewrite HF by (revert Hi; rewrite !not_elem_of_cons; tauto). by rewrite list_lookup_insert_ne.
    + intros x b Hx Hno. apply On; [|intros (a & n & Ha & Hn & Hin); apply Hno; exists a, n; rewrite !list_lookup_insert_ne in Ha by done; done].
      unfold m2. rewrite lookup_put64; [done|]. intros Hin. apply Hno. apply (owns_field m arg F L 23); [done | lia | done].
    + exact Ec.
    + intros a. by apply hold_count_unlocked.
Qed.

(** C37. Removing a hook that was added once takes it out of the list, the hooks
    behind it moving down. The array of types is not moved with them: every
    hook behind the removed one has its predecessor's type afterwards. The
    spin lock is free and every mutex held as often as before. *)
Theorem hook_remove_leaves_types m arg F L1 hook ty L2 fuel :
  hook_object m arg F (L1 ++ (hook, ty) :: L2) -> F !! 23%nat = Some 0 -> var ps4KernelFunctionHookMutex m <> NULL ->
  (forall p, p ∈ L1 ++ L2 -> fst p <> hook) -> (length (L1 ++ L2) + 2 <= fuel)%nat ->
  exists m', ps4KernelFunctionHookRemove fuel arg hook m = Some (PS4_OK, m') /\
    hook_object m' arg (<[16%nat := Z.of_nat (length (L1 ++ L2))]> F) (unshifted L1 (hook, ty) L2) /\
    only_object m arg F m' /\ core m' = core m /\ forall a, hold_count a m' = hold_count a m.
Proof.
  intros Ho Hlk Hmx Hne Hf. set (mx := var ps4KernelFunctionHookMutex m) in *. set (m1 := locked mx m). set (L := L1 ++ (hook, ty) :: L2) in *.
  assert (hook_object m1 arg F L) as Ho1 by (by apply (hook_object_same m)).
  destruct (hook_object_field m1 arg F L 23 1 Ho1) as [_ Ho2]; [lia..|]. set (m2 := put64 (arg + 8 * Z.of_nat 23) 1 m1) in *.
  pose proof Ho1 as [_ Hlen Hblk Hpos Hcnt Hnz (hk0 & T0 & hs0 & ts0 & A0)].
  pose proof (trio_fields _ _ _ _ _ _ _ (arrays_trio _ _ _ _ _ _ _ _ A0)) as WF. set (F2 := <[23%nat := 1]> F) in *.
  destruct (remove_loop_found m2 arg F2 L1 hook ty L2 fuel Ho2 Hne Hf) as (mm & E & On & W3 & Hb3 & hk & T & hs & ts & A & rest & Lh & T3).
  set (m3 := set_mem mm m2) in *. pose proof A as [_ FH FT FS Els Hsz AH AT Hap _ [r2 Ets]].
  assert (length F2 = 24%nat) as Hlen2 by (unfold F2; by rewrite length_insert).
  assert (length L = S (length (L1 ++ L2))) as HLn by (unfold L; rewrite !length_app; cbn [length]; lia).
  assert (Z.of_nat (length L) < 2 ^ 32) as Hmax.
  { pose proof (arrays_hooks _ _ _ _ _ _ _ _ A) as [r Er]. fold L in Er. rewrite Er, length_app, length_fmap in Hsz. lia. }
  destruct (trio_store_field _ _ _ _ _ _ _ 16 (Z.of_nat (length (L1 ++ L2))) T3) as [E4 T4]; [lia | lia|].
  set (m4 := put64 (arg + 8 * Z.of_nat 16) (Z.of_nat (length (L1 ++ L2))) m3) in *.
  destruct (trio_store_field _ _ _ _ _ _ _ 23 0 T4) as [_ T5]; [rewrite length_insert; lia | lia|].
  set (m5 := put64 (arg + 8 * Z.of_nat 23) 0 m4) in *.
  assert (<[23%nat := 0]> (<[16%nat := Z.of_nat (length (L1 ++ L2))]> F2) = <[16%nat := Z.of_nat (length (L1 ++ L2))]> F) as EF.
  { unfold F2. rewrite list_insert_insert_ne by done. rewrite list_insert_insert_eq. by rewrite (list_insert_id F). }
  rewrite EF in T5. exists (released mx m m5). split; [|split; [|split; [|split]]].
  - unfold ps4KernelFunctionHookRemove. rewrite (proj2 (Z.eqb_neq arg NULL)) by (unfold NULL; lia).
    rewrite (proj2 (Z.eqb_neq hook NULL)) by (apply (Hnz (hook, ty)), elem_of_app; right; left).
    unfold get_var, gets. unfold bind at 1. fold mx. rewrite (proj2 (Z.eqb_neq mx NULL) Hmx). unfold bind at 1. fold mx.
    erewrite bind_some by (unfold mtx_lock; rewrite (proj2 (Z.eqb_neq mx NULL) Hmx); reflexivity). fold (locked mx m) m1.
    destruct fuel as [|fuel]; [lia|]. erewrite bind_some by exact (spin_lock_field m1 arg F fuel WF Hlk Hpos).
    erewrite bind_some by exact E.
    erewrite bind_some by (apply (field_load_i64 m3 arg F2 16 (length L) W3); [unfold F2; by rewrite list_lookup_insert_ne | done]).
    replace (Z.of_nat (length L) - 1) with (Z.of_nat (length (L1 ++ L2))) by lia. erewrite bind_some by exact E4.
    erewrite bind_some by (apply (spin_unlock_field m4 arg _ 1 (trio_fields _ _ _ _ _ _ _ T4)); [|done];
      rewrite list_lookup_insert_ne by done; apply list_lookup_insert_eq; lia).
    by erewrite bind_some by (by apply (unlock_run mx m)).
  - apply (hook_object_same m5); try done. destruct (unshifted_types L1 (hook, ty) L2) as [ty' Ety].
    assert (length (unshifted L1 (hook, ty) L2) = length (L1 ++ L2)) as Lu by (rewrite <- (length_fmap fst), unshifted_hooks; apply length_fmap).
    split; [by repeat apply blocks_put | by rewrite length_insert | done | done | rewrite list_lookup_insert_eq by lia; by rewrite Lu | |].
    + intros p Hp. assert (fst p ∈ (L1 ++ L2).*1) as (q & -> & Hq)%list_elem_of_fmap by (rewrite <- (unshifted_hooks L1 (hook, ty) L2); by apply list_elem_of_fmap_2).
      apply Hnz. revert Hq. unfold L. rewrite !elem_of_app, elem_of_cons. tauto.
    + exists hk, T. do 2 eexists. unfold F2 in FH, FT, FS. rewrite list_lookup_insert_ne in FH, FT, FS by done.
      split; [exact T5|..]; rewrite ?Lh, ?list_lookup_insert_ne by done; try done.
      * exists rest. by rewrite unshifted_hooks, fmap_app, <- app_assoc.
      * exists (ty' :: r2). rewrite Ets. unfold L. by rewrite Ety, <- app_assoc.
  - intros x b Hx Hno. assert (forall i, (i < 24)%nat -> ~ arg + 8 * Z.of_nat i <= x < arg + 8 * Z.of_nat i + 8) as Hf'
      by (intros i Hi Hin; by apply Hno, (owns_field m arg F L i)).
    cbn [released set_held mem]. unfold m5, m4. rewrite !lookup_put64 by (apply Hf'; lia). apply On.
    + unfold m2. rewrite lookup_put64; [done | apply Hf'; lia].
    + intros (a & n & Ha & Hn & Hin). apply Hno. exists a, n. unfold F2 in Ha. rewrite !list_lookup_insert_ne in Ha by done. done.
  - done.
  - intros a. by apply hold_count_unlocked.
Qed.
End AddRemove.

(** ** Witnesses *)

Section HookWitnesses.
#[local] Existing Instance bump_allocator.
#[local] Existing Instance bump_allocator_laws.
#[local] Existing Instance bump_room_laws.
#[local] Existing Instance sysctl_there.
#[local] Instance no_kernel_symbols : KernelDlSym := table_dlsym [].
#[local] Existing Instance example_image.
#[local] Instance some_hook_code : HookImage := {|
  ps4PayloadFunctionHookHandler := 0x710000; ps4PayloadFunctionHookHandlerSize := 512;
  ps4PayloadFunctionHookArgumentClone := 0x720000; ps4PayloadFunctionHookArgumentDestroy := 0x730000 |}.

(** Seven hooks fill arrays of eight words. *)
Definition hooks7 : list (Z * Z) := (fun i => (0x1000 + 16 * Z.of_nat i, Z.of_nat i mod 3)) <$> seq 0 7.
Definition hook_fields7 : list Z :=
  repeat 0 13 ++ [2 ^ 63 + 0x1000; 2 ^ 63 + 0x2000; 0; 7; 8] ++ repeat 0 6.
Definition hook_machine : machine :=
  set_allocs {[ 2 ^ 63 := 192; 2 ^ 63 + 0x1000 := 64; 2 ^ 63 + 0x2000 := 64 ]}
    (booted [(2 ^ 63, hook_fields7 ≫= le_bytes 8); (2 ^ 63 + 0x1000, (hooks7.*1 ++ [0]) ≫= le_bytes 8);
             (2 ^ 63 + 0x2000, (hooks7.*2 ++ [0]) ≫= le_bytes 8)] []
       [(ps4KernelMemoryType, 1); (ps4KernelFunctionHookMutex, 0x6000)]).

Lemma hook_machine_object : hook_object hook_machine (2 ^ 63) hook_fields7 hooks7.
Proof.
  split; [apply blocks_check_spec; by vm_compute | done | by vm_compute | done | by vm_compute | |].
  - intros p Hp. assert (Forall (fun q => fst q <> NULL) hooks7) as Hf by vm_decide. by apply (proj1 (Forall_forall _ _) Hf).
  - exists (2 ^ 63 + 0x1000), (2 ^ 63 + 0x2000), (hooks7.*1 ++ [0]), (hooks7.*2 ++ [0]).
    split; [|by vm_compute..| by exists [] | by exists [0]].
    split; [apply words_check_spec; by vm_compute..| vm_decide | vm_decide | vm_decide].
Qed.

Lemma hook_add_appends_witness :
  exists F' m', ps4KernelFunctionHookAdd 1 (2 ^ 63) 0x9000 PS4_KERNEL_FUNCTION_HOOK_TYPE_GENERIC_POST hook_machine = Some (PS4_OK, m') /\
    hook_object m' (2 ^ 63) F' (hooks7 ++ [(0x9000, 2)]).
Proof.
  destruct (hook_add_appends hook_machine (2 ^ 63) hook_fields7 hooks7 0x9000 PS4_KERNEL_FUNCTION_HOOK_TYPE_GENERIC_POST 0)
    as (F' & m' & E & Ho & _).
  - apply hook_machine_object.
  - done.
  - done.
  - done.
  - done.
  - intros size Hs. injection Hs as <-. vm_compute. discriminate.
  - exists F', m'. split; [exact E | exact Ho].
Defined.

Lemma hook_remove_leaves_types_witness :
  exists m' F', ps4KernelFunctionHookRemove 8 (2 ^ 63) 0x1020 hook_machine = Some (PS4_OK, m') /\
    hook_object m' (2 ^ 63) F' [(0x1000, 0); (0x1010, 1); (0x1030, 2); (0x1040, 0); (0x1050, 1); (0x1060, 2)].
Proof.
  destruct (hook_remove_leaves_types hook_machine (2 ^ 63) hook_fields7 (take 2 hooks7) 0x1020 2 (drop 3 hooks7) 8)
    as (m' & E & Ho & _).
  - exact hook_machine_object.
  - done.
  - done.
  - intros p Hp. assert (Forall (fun q => fst q <> 0x1020) (take 2 hooks7 ++ drop 3 hooks7)) as Hf by vm_decide.
    by apply (proj1 (Forall_forall _ _) Hf).
  - vm_compute. lia.
  - exists m'. eexists. split; [exact E | exact Ho].
Defined.
End HookWitnesses.
