(* ===== verification/SystemCall.v ===== *)
(** * System call hooks and generic system calls

    [common/kernel/source/kernel/system_call.c]: replacing an entry of the
    kernel's system call table, and hooks that stand between a system call and
    its implementation; [common/kernel/source/payload/system_call_hook_handler.c]:
    what a hooked system call runs; [common/kernel/source/system_call_generic.c]:
    the two system calls that run kernel code for a user. *)

From stdpp Require Import base gmap list strings.
From S2P Require Import Prelude Errors Uthash Machine Reference KernelBase KernelMemory Cache CacheMap CacheGlobal Symbol Template Atomic FunctionHook.

(** What running the code at an address does, given the arguments of the call
    in order: its result is the value of [rax] as an unsigned 64-bit number. *)
Class KernelCode := { code_call : Z -> list Z -> K Z }.

(** The result of code that returns [int]. *)
Definition int_result (r : Z) : Z := signed 32 r.

(** ** Structures *)

(** [struct sysent] (sys/sysent.h). *)
Definition sy_narg : Z := 0.
Definition sy_call : Z := 8.
Definition sy_auevent : Z := 16.
Definition sy_thrcnt : Z := 44.
Definition sizeof_sysent : Z := 48.

Definition SYS_MAXSYSCALL : Z := 617.
Definition AUE_NULL : Z := 0.
Definition SY_THR_STATIC : Z := 1.

(** [Ps4KernelSystemCallHookArgument] (ps4/kernel/system_call.h). *)
Definition s_clone : Z := 0.
Definition s_handler : Z := 8.
Definition s_thread : Z := 16.
Definition s_entryCount : Z := 24.
Definition s_callCount : Z := 32.
Definition s_lock : Z := 40.
Definition s_prologue : Z := 48.
Definition s_uap : Z := 56.
Definition s_sysret : Z := 64.
Definition s_returns : Z := 72.
Definition s_originalCall : Z := 88.
Definition s_systemCalls : Z := 96.
Definition s_number : Z := 104.
Definition s_hook : Z := 112.
Definition s_hookType : Z := 120.
Definition s_hookCount : Z := 128.
Definition s_hookSize : Z := 136.
Definition s_hookTypeCurrent : Z := 144.
Definition s_userArgument : Z := 152.
Definition s_allocate : Z := 160.
Definition s_free : Z := 168.
Definition s_mt : Z := 176.
Definition sizeof_Ps4KernelSystemCallHookArgument : Z := 184.

Inductive Ps4KernelSystemCallHookType :=
| PS4_KERNEL_SYSTEM_CALL_HOOK_TYPE_PRE
| PS4_KERNEL_SYSTEM_CALL_HOOK_TYPE_DISABLED
| PS4_KERNEL_SYSTEM_CALL_HOOK_TYPE_GENERIC_PRE
| PS4_KERNEL_SYSTEM_CALL_HOOK_TYPE_GENERIC_POST
| PS4_KERNEL_SYSTEM_CALL_HOOK_TYPE_GENERIC_BOTH.

Definition call_type_value (t : Ps4KernelSystemCallHookType) : Z :=
  match t with
  | PS4_KERNEL_SYSTEM_CALL_HOOK_TYPE_PRE => -1
  | PS4_KERNEL_SYSTEM_CALL_HOOK_TYPE_DISABLED => 0
  | PS4_KERNEL_SYSTEM_CALL_HOOK_TYPE_GENERIC_PRE => 1
  | PS4_KERNEL_SYSTEM_CALL_HOOK_TYPE_GENERIC_POST => 2
  | PS4_KERNEL_SYSTEM_CALL_HOOK_TYPE_GENERIC_BOTH => 3
  end.

Definition PS4_KERNEL_SYSTEM_CALL_HOOK_CONTROL_BREAK : Z := 1.
Definition PS4_KERNEL_SYSTEM_CALL_HOOK_CONTROL_CONTINUE : Z := 0.
Definition PS4_KERNEL_SYSTEM_CALL_HOOK_CONTROL_RETURN : Z := -1.

(** ** Static variables *)

Definition PS4_KERNEL_CACHE_SYSTEM_CALL_HOOK_MUTEX : string := "ps4.kernel.system_call.hook.mutex".
Definition PS4_KERNEL_CACHE_SYSTEM_CALL_HOOK_HANDLER : string := "ps4.kernel.system_call.hook.handler".
Definition PS4_KERNEL_CACHE_SYSTEM_CALL_HOOK_CLONE : string := "ps4.kernel.system_call.hook.clone".

Definition ps4KernelSystemCallHookMutex : string := "system_call.c:ps4KernelSystemCallHookMutex".
Definition ps4KernelSystemCallHookHandler : string := "system_call.c:ps4KernelSystemCallHookHandler".
Definition ps4KernelSystemCallHookArgumentClone : string := "system_call.c:ps4KernelSystemCallHookArgumentClone".

(** Where the linker put the code a hooked system call runs. *)
Class SystemCallImage := {
  at_ps4PayloadSystemCallHookHandler : Z;
  at_ps4PayloadSystemCallHookArgumentClone : Z
}.

Section SystemCall.
Context `{KernelDlSym} `{KernelAllocator} `{KernelSysctl} `{PayloadImage} `{SystemCallImage}.

Definition ps4KernelSystemCallHookInitialize : K Z :=
  lookUpOrReturn "Giant" (fun giant =>
    do! mtx_lock giant in
    do! hook_static ps4KernelSystemCallHookMutex PS4_KERNEL_CACHE_SYSTEM_CALL_HOOK_MUTEX
          (mutex_make ps4KernelSystemCallHookMutex) in
    do! hook_static ps4KernelSystemCallHookHandler PS4_KERNEL_CACHE_SYSTEM_CALL_HOOK_HANDLER
          (code_copy ps4KernelSystemCallHookHandler at_ps4PayloadSystemCallHookHandler 512) in
    do! hook_static ps4KernelSystemCallHookArgumentClone PS4_KERNEL_CACHE_SYSTEM_CALL_HOOK_CLONE
          (code_copy ps4KernelSystemCallHookArgumentClone at_ps4PayloadSystemCallHookArgumentClone 768) in
    do! mtx_unlock giant in
    ret PS4_OK).

Definition ps4KernelSystemCallHookExceptionHandlerCatch (arg : Z) : K unit :=
  if arg =? NULL then ret tt
  else
    do! free_field (arg + s_hook) in
    do! free_field (arg + s_hookType) in
    do! free_field (arg + s_prologue) in
    ps4FunctionCallIfNotNull ps4KernelMemoryFree arg.

Definition ps4KernelSystemCallHookExceptionHandlerFinally (arg : Z) : K unit :=
  let! mx := get_var ps4KernelSystemCallHookMutex in
  if mx =? NULL then ret tt else mtx_unlock mx.

(** ** Replacing a system call *)

(** [number] is an [int], which the index takes as it is, also below zero. *)
Definition ps4KernelSystemCallPatchUnsafe (number call argumentCount : Z) : K Z :=
  lookUpOrReturn "sysent" (fun sy =>
    do! sched_pin in
    let sy := sy + sizeof_sysent * number in
    do! memset sy 0 (Z.to_nat sizeof_sysent) in
    do! store32 (sy + sy_narg) argumentCount in
    do! store64 (sy + sy_call) call in
    do! store16 (sy + sy_auevent) AUE_NULL in
    do! store32 (sy + sy_thrcnt) SY_THR_STATIC in
    do! sched_unpin in
    ret PS4_OK).

Definition ps4KernelSystemCallPatch (number call argumentCount : Z) : K Z :=
  if negb (ps4KernelIsKernelAddress call =? PS4_OK) then ret PS4_ERROR_ARGUMENT_IN_DIFFERENT_SPACE
  else if SYS_MAXSYSCALL <? number then ret PS4_ERROR_KERNEL_SYSTEM_CALL_NUMBER_TOO_LARGE
  else ps4KernelSystemCallPatchUnsafe number call argumentCount.

Definition ps4KernelSystemCallCopyInAndPatch (number call size argumentCount : Z) : K Z :=
  let! r := ps4KernelMemoryAllocate OPtr size in
  if negb (fst r =? PS4_OK) then ret PS4_ERROR_KERNEL_OUT_OF_MEMORY
  else
    let m := default 0 (snd r) in
    do! ps4KernelMemoryCopy call m (Z.to_nat size) in
    ps4KernelSystemCallPatch number m argumentCount.

(** ** Hooking a system call *)

(** [lookUpOrReturn] with the out parameter of the function beside its code. *)
Definition lookUpOrReturnOut (str : string) (k : Z -> K (Z * option Z)) : K (Z * option Z) :=
  let! r := ps4KernelSymbolLookUp (Some str) OPtr in
  if fst r =? 0 then k (default 0 (snd r))
  else let! r := ps4KernelSymbolLookUp (Some str) OPtr in ret (fst r, None).

(** [if(mutex == NULL) ps4ExpressionReturnOnError(Initialize());] *)
Definition call_hook_initialized (k : K (Z * option Z)) : K (Z * option Z) :=
  let! mx := get_var ps4KernelSystemCallHookMutex in
  if mx =? NULL then
    let! r := ps4KernelSystemCallHookInitialize in
    if r =? 0 then k else let! r := ps4KernelSystemCallHookInitialize in ret (r, None)
  else k.

(** The structure once it is allocated and zero: its fields, its arrays, its
    prologue, and last the exchange of the table's entry. *)
Definition call_hook_build (arg sy number : Z) : K unit :=
  do! store64 (arg + s_systemCalls) sy in
  do! store64 (arg + s_number) number in
  do! store64 (arg + s_hookSize) 8 in
  do! store64 (arg + s_hookCount) 0 in
  let! r := ps4KernelMemoryAllocateData OPtr (8 * 8) in
  do! out_to_field (arg + s_hook) (snd r) in
  let! r := ps4KernelMemoryAllocateData OPtr (8 * 8) in
  do! out_to_field (arg + s_hookType) (snd r) in
  let! r := ps4KernelSymbolLookUp (Some "malloc"%string) OPtr in
  do! out_to_field (arg + s_allocate) (snd r) in
  let! r := ps4KernelSymbolLookUp (Some "free"%string) OPtr in
  do! out_to_field (arg + s_free) (snd r) in
  let! r := ps4KernelSymbolLookUp (Some "M_TEMP"%string) OPtr in
  do! out_to_field (arg + s_mt) (snd r) in
  let! clone := get_var ps4KernelSystemCallHookArgumentClone in
  do! store64 (arg + s_clone) clone in
  let! handler := get_var ps4KernelSystemCallHookHandler in
  do! store64 (arg + s_handler) handler in
  let! r := ps4KernelMemoryAllocate OPtr (Z.of_nat ps4PayloadTemplateSystemCallHookPrologueSize) in
  do! out_to_field (arg + s_prologue) (snd r) in
  let! prologue := load64 (arg + s_prologue) in
  do! ps4PayloadSystemCallHookProloguePatch prologue arg in
  let! original := load64 (sy + sizeof_sysent * number + sy_call) in
  do! store64 (arg + s_originalCall) original in
  let! prologue := load64 (arg + s_prologue) in
  store64 (sy + sizeof_sysent * number + sy_call) prologue.

(** [*hookh] is the second component. Running out of memory returns with the
    mutex held. *)
Definition ps4KernelSystemCallHookCreate (hookh : out) (number : Z) : K (Z * option Z) :=
  lookUpOrReturnOut "sysent" (fun sy =>
    match hookh with
    | ONull => ret (PS4_ERROR_ARGUMENT_PRIMARY_MISSING, None)
    | OPtr =>
        if SYS_MAXSYSCALL <? number then ret (PS4_ERROR_KERNEL_SYSTEM_CALL_NUMBER_TOO_LARGE, None)
        else call_hook_initialized (
          let! mx := get_var ps4KernelSystemCallHookMutex in
          do! mtx_lock mx in
          let! a := ps4KernelMemoryAllocateData OPtr sizeof_Ps4KernelSystemCallHookArgument in
          let arg := default 0 (snd a) in
          if arg =? NULL then ret (PS4_ERROR_OUT_OF_MEMORY, None)
          else
            do! ps4KernelMemoryFill arg 0 (Z.to_nat sizeof_Ps4KernelSystemCallHookArgument) in
            do! call_hook_build arg sy number in
            let! mx := get_var ps4KernelSystemCallHookMutex in
            do! mtx_unlock mx in
            ret (PS4_OK, Some arg))
    end).

(** [while(arg->entryCount > 0)] between two [ps4AtomicSpinLock64]s. *)
Fixpoint call_drain_loop (fuel : nat) (arg : Z) : K unit :=
  match fuel with
  | O => fault
  | S fuel' =>
      let! n := load_i64 (arg + s_entryCount) in
      if 0 <? n then
        do! ps4AtomicSpinUnlock64 (arg + s_lock) in
        do! ps4AtomicSpinLock64 fuel' (arg + s_lock) in
        call_drain_loop fuel' arg
      else ret tt
  end.

(** [ps4ExpressionReturnOnError] of the initialisation, in a block. *)
Definition call_hook_initialized_in (l : Z) (k : K (outcome * Z)) : K (outcome * Z) :=
  let! mx := get_var ps4KernelSystemCallHookMutex in
  if mx =? NULL then returnOnErrorIn l ps4KernelSystemCallHookInitialize k else k.

(** [pause] only waits. [fuel] bounds the waiting for calls under way. *)
Definition ps4KernelSystemCallHookDestroy (fuel : nat) (hookh : Z) : K Z :=
  let! r := Ps4ExceptionTryCatchFinally ps4KernelSystemCallHookExceptionHandlerCatch
      ps4KernelSystemCallHookExceptionHandlerFinally
    (call_hook_initialized_in hookh
      (if hookh =? NULL then ret (Leave PS4_ERROR_ARGUMENT_PRIMARY_MISSING, hookh)
       else
         let! s := ps4KernelSymbolLookUp (Some "sysent"%string) OPtr in
         if negb (fst s =? 0) then
           let! s := ps4KernelSymbolLookUp (Some "sysent"%string) OPtr in ret (Return (fst s), hookh)
         else
           let sy := default 0 (snd s) in
           let! mx := get_var ps4KernelSystemCallHookMutex in
           do! mtx_lock mx in
           let! number := load_i64 (hookh + s_number) in
           let! original := load64 (hookh + s_originalCall) in
           do! store64 (sy + sizeof_sysent * number + sy_call) original in
           do! ps4AtomicSpinLock64 fuel (hookh + s_lock) in
           do! call_drain_loop fuel hookh in
           do! ps4AtomicSpinUnlock64 (hookh + s_lock) in
           ret (Throw PS4_OK, hookh))) in
  ret (fst r).

(** [for(size_t t = 0; t < arg->hookCount; ++t)] with [n] iterations to go. *)
Fixpoint call_grow_loop (arg m m2 : Z) (t : Z) (n : nat) : K unit :=
  match n with
  | O => ret tt
  | S n' =>
      let! hook := load64 (arg + s_hook) in
      let! h := load64 (hook + 8 * t) in
      do! store64 (m + 8 * t) h in
      let! hookType := load64 (arg + s_hookType) in
      let! ty := load64 (hookType + 8 * t) in
      do! store64 (m2 + 8 * t) ty in
      call_grow_loop arg m m2 (t + 1) n'
  end.

(** The arrays when they are full: twice the size, or an exception. *)
Definition call_hook_grow (arg : Z) (k : K (outcome * Z)) : K (outcome * Z) :=
  let! hookCount := load_i64 (arg + s_hookCount) in
  let! hookSize := load_i64 (arg + s_hookSize) in
  if hookSize <=? hookCount then
    let! r := ps4KernelMemoryAllocateData OPtr (wrap 64 (2 * hookSize * 8)) in
    let m := default 0 (snd r) in
    if m =? NULL then ret (Throw PS4_ERROR_KERNEL_OUT_OF_MEMORY, arg)
    else
      let! r := ps4KernelMemoryAllocateData OPtr (wrap 64 (2 * hookSize * 8)) in
      let m2 := default 0 (snd r) in
      if m2 =? NULL then
        do! ps4KernelMemoryFree m in
        ret (Throw PS4_ERROR_KERNEL_OUT_OF_MEMORY, arg)
      else
        do! call_grow_loop arg m m2 0 (Z.to_nat (wrap 64 hookCount)) in
        let! hook := load64 (arg + s_hook) in
        do! ps4KernelMemoryFree hook in
        let! hookType := load64 (arg + s_hookType) in
        do! ps4KernelMemoryFree hookType in
        do! store64 (arg + s_hook) m in
        do! store64 (arg + s_hookType) m2 in
        do! store64 (arg + s_hookSize) (hookSize * 2) in
        k
  else k.

Definition ps4KernelSystemCallHookAdd (hookh hook : Z) (type : Ps4KernelSystemCallHookType) : K Z :=
  let! r := Ps4ExceptionTryFinally ps4KernelSystemCallHookExceptionHandlerFinally
    (call_hook_initialized_in hookh
      (if hookh =? NULL then ret (Leave PS4_ERROR_ARGUMENT_PRIMARY_MISSING, hookh)
       else if hook =? NULL then ret (Leave PS4_ERROR_ARGUMENT_MISSING, hookh)
       else
         let! mx := get_var ps4KernelSystemCallHookMutex in
         do! mtx_lock mx in
         call_hook_grow hookh (
           let! hooks := load64 (hookh + s_hook) in
           let! count := load_i64 (hookh + s_hookCount) in
           do! store64 (hooks + 8 * count) hook in
           let! types := load64 (hookh + s_hookType) in
           do! store64 (types + 8 * count) (call_type_value type) in
           do! store64 (hookh + s_hookCount) (count + 1) in
           ret (Finish PS4_OK, hookh)))) in
  ret (fst r).
End SystemCall.

(** ** Properties *)

(** What an entry of the table holds once it was patched. *)
Definition sysent_entry (call argumentCount : Z) : list Z :=
  le_bytes 4 argumentCount ++ repeat 0 4 ++ le_bytes 8 call ++ repeat 0 28 ++ le_bytes 4 SY_THR_STATIC.

(** The stores to an entry. *)
Definition entry_stores (sy call argumentCount : Z) : K unit :=
  do! memset sy 0 (Z.to_nat sizeof_sysent) in
  do! store32 (sy + sy_narg) argumentCount in
  do! store64 (sy + sy_call) call in
  do! store16 (sy + sy_auevent) AUE_NULL in
  store32 (sy + sy_thrcnt) SY_THR_STATIC.

Lemma entry_stores_run m sy call argumentCount :
  writable_range m sy 48 ->
  entry_stores sy call argumentCount m = Some (tt, set_mem (mem_write (mem m) sy (sysent_entry call argumentCount)) m).
Proof.
  intros Hw. unfold entry_stores, memset, store32, store64, store16.
  erewrite bind_some by (by apply store_bytes_run). set (m1 := set_mem _ m).
  assert (writable_range m1 sy 48) as W1 by (by apply writable_range_written).
  erewrite bind_some by (apply store_bytes_run; apply (writable_range_sub m1 sy 48); [done | unfold sy_narg; cbn [length le_bytes]; lia..]). set (m2 := set_mem _ m1).
  assert (writable_range m2 sy 48) as W2 by (by apply writable_range_written).
  erewrite bind_some by (apply store_bytes_run; apply (writable_range_sub m2 sy 48); [done | unfold sy_call; cbn [length le_bytes]; lia..]).
  set (m3 := set_mem _ m2). assert (writable_range m3 sy 48) as W3 by (by apply writable_range_written).
  erewrite bind_some by (apply store_bytes_run; apply (writable_range_sub m3 sy 48); [done | unfold sy_auevent; cbn [length le_bytes]; lia..]).
  set (m4 := set_mem _ m3). assert (writable_range m4 sy 48) as W4 by (by apply writable_range_written).
  rewrite store_bytes_run by (apply (writable_range_sub m4 sy 48); [done | unfold sy_thrcnt; cbn [length le_bytes]; lia..]).
  do 2 f_equal. unfold m4, m3, m2, m1. cbn [mem set_mem]. unfold set_mem. f_equal.
  change (sy + sy_narg) with (sy + Z.of_nat 0). rewrite mem_write_inside by (vm_compute; lia).
  change (sy + sy_call) with (sy + Z.of_nat 8). rewrite mem_write_inside by (vm_compute; lia).
  change (sy + sy_auevent) with (sy + Z.of_nat 16). rewrite mem_write_inside by (vm_compute; lia).
  change (sy + sy_thrcnt) with (sy + Z.of_nat 44). by rewrite mem_write_inside by (vm_compute; lia).
Qed.

Section Table.
Context `{D : KernelDlSym} `{S : !KernelSymbols D} `{HA : KernelAllocator} `{HL : !KernelAllocatorLaws HA}
  `{HR : !KernelRoom HA} `{KernelSysctl}.

(** C18. Patching a system call with kernel code replaces the whole entry of the
    table: the code, the number of its arguments, no audit event, a static
    call. No other memory changes but the symbol cache's own, and the thread
    is pinned as often as before. The number is only checked from above: for a
    negative one the 48 bytes before the table are overwritten in the same way. *)
Theorem system_call_patch_entry R m c number call argumentCount :
  symbols_ready R m c -> ready m -> symbol_room m c ->
  let sysent := symbol_at (name_key "sysent") in let e := sysent + sizeof_sysent * number in
  sysent <> NULL -> number <= SYS_MAXSYSCALL -> ps4KernelIsKernelAddress call = PS4_OK ->
  (forall x, e <= x < e + 48 -> is_Some (mem m !! x) /\ ~ owned R m x /\ x ∉ text m) ->
  exists m', ps4KernelSystemCallPatch number call argumentCount m = Some (PS4_OK, m') /\
    mem_read (mem m') e 48 = Some (sysent_entry call argumentCount) /\ pinned m' = pinned m /\
    (forall x b, mem m !! x = Some b -> ~ owned R m x -> ~ e <= x < e + 48 -> mem m' !! x = Some b) /\
    forall a, hold_count a m' = hold_count a m.
Proof.
  intros Hs Hrd Hroom sysent e Hsy Hn Hk He.
  destruct (symbol_lookup_run R m c "sysent" Hs Hrd Hroom Hsy) as (R' & m1 & E1 & _ & F & _). fold sysent in E1.
  pose proof (frame_core _ _ _ _ F) as Fc. set (m2 := set_pinned (pinned m1 + 1) m1).
  assert (writable_range m2 e 48) as Hw.
  { apply writable_range_iff. intros i Hi. destruct (He (e + Z.of_nat i)) as ([b Hb] & Ho & Ht); [lia|]. split.
    - destruct (frame_mem _ _ _ _ F _ _ Hb Ho) as [Hb1 _]. by exists b.
    - intros Ht'. destruct Ht. by rewrite <- (core_text _ _ Fc). }
  set (m3 := set_mem (mem_write (mem m2) e (sysent_entry call argumentCount)) m2).
  exists (set_pinned (pinned m3 - 1) m3). split; [|split; [|split; [|split]]].
  - unfold ps4KernelSystemCallPatch. rewrite Hk, (proj2 (Z.ltb_ge _ _) Hn). change (negb (PS4_OK =? PS4_OK)) with false. cbv iota.
    unfold ps4KernelSystemCallPatchUnsafe, lookUpOrReturn. erewrite bind_some by exact E1.
    change (fst (PS4_OK, Some sysent) =? 0) with true. cbv iota. change (default 0 (snd (PS4_OK, Some sysent))) with sysent.
    unfold sched_pin, modify. unfold bind at 1. fold m2 e. pose proof (entry_stores_run m2 e call argumentCount Hw) as Es. fold m3 in Es.
    unfold entry_stores in Es. repeat (apply bind_inv in Es as ([] & ? & E & Es); erewrite bind_some by exact E; clear E).
    by erewrite bind_some by exact Es.
  - cbn [mem set_pinned m3 set_mem]. exact (mem_read_write_same (mem m2) e (sysent_entry call argumentCount)).
  - cbn [pinned set_pinned m3 m2 set_mem]. pose proof (f_equal pinned Fc : pinned m1 = pinned m). lia.
  - intros x b Hx Ho Hout. destruct (frame_mem _ _ _ _ F x b Hx Ho) as [Hx1 _]. cbn [mem set_pinned m3 m2 set_mem].
    rewrite lookup_mem_write. change (Z.of_nat (length (sysent_entry call argumentCount))) with 48.
    case_match eqn:Q; [|done]. exfalso. apply andb_prop in Q as [? ?]. lia.
  - apply F.
Qed.
End Table.

(** ** Witness *)

Section TableWitness.
#[local] Existing Instance bump_allocator.
#[local] Existing Instance bump_allocator_laws.
#[local] Existing Instance bump_room_laws.
#[local] Existing Instance sysctl_there.
#[local] Instance table_symbols : KernelDlSym := key_dlsym [(name_key "sysent", 0x800000)].
#[local] Instance table_symbols_settled : KernelSymbols table_symbols := key_symbols _.

Definition table_machine : machine :=
  cache_machine [(0x800000, repeat 9 192)] [(ps4KernelMemoryType, 1); (symbol_cache, 2 ^ 63); (ps4KernelSymbolLookUpMutex, 0x6000)].

Lemma system_call_patch_entry_witness :
  exists m', ps4KernelSystemCallPatch 2 0xffffffff82000000 3 table_machine = Some (PS4_OK, m') /\
    mem_read (mem m') 0x800060 48 = Some (sysent_entry 0xffffffff82000000 3).
Proof.
  assert (symbol_at (name_key "sysent") = 0x800000) as Es by (vm_compute; reflexivity).
  destruct (system_call_patch_entry {[ 2 ^ 63 := RCache ]} table_machine (2 ^ 63) 2 0xffffffff82000000 3) as (m' & E & Er & _).
  - split; [apply cache_machine_inv | done | by eexists | done | done].
  - done.
  - split; [done|]. intros h [= <-]. vm_compute. discriminate.
  - rewrite Es. done.
  - done.
  - done.
  - rewrite Es. intros x Hx. split; [|split; [|apply not_elem_of_empty]].
    + assert (forallb (fun i => bool_decide (is_Some (mem table_machine !! (0x800000 + sizeof_sysent * 2 + Z.of_nat i)))) (seq 0 48) = true) as Hf
        by (vm_compute; reflexivity).
      rewrite forallb_forall in Hf. specialize (Hf (Z.to_nat (x - (0x800000 + sizeof_sysent * 2)))).
      rewrite bool_decide_eq_true, Z2Nat.id, Zplus_minus in Hf by lia. apply Hf, in_seq. lia.
    + intros (a & r & n & Ha & Hn & Hin). apply lookup_singleton_Some in Ha as [<- _].
      assert (allocs table_machine = {[ 2 ^ 63 := 8 ]}) as E by reflexivity.
      rewrite E in Hn. apply lookup_singleton_Some in Hn as [_ <-]. unfold in_block in Hin. unfold sizeof_sysent in Hx. lia.
  - exists m'. split; [exact E|]. rewrite Es in Er. exact Er.
Defined.
End TableWitness.
