(* ===== verification/HookHandler.v ===== *)
(** * What a hooked function or system call runs

    [common/kernel/source/payload/function_hook_handler.c]: the copy of the
    argument structure each call works on; [system_call_hook_handler.c]: the
    same for system calls, with the handler that runs the hooks around the
    original call; [common/kernel/source/system_call_generic.c]: the system calls that
    run kernel code on behalf of a user. *)

From stdpp Require Import base gmap list strings.
From S2P Require Import Prelude Errors Uthash Machine KernelBase KernelMemory Symbol Words Template FunctionHook SystemCall.

Definition M_WAITOK : Z := 0x0002.
Definition M_ZERO : Z := 0x0100.

(** ** Copying and cloning *)

(** [for(size_t i = 0; i < s; ++i) new[i] = old[i];] with [n] bytes to go. *)
Fixpoint hook_copy_loop (old new i : Z) (n : nat) : K unit :=
  match n with
  | O => ret tt
  | S n' =>
      let! b := load8 (old + i) in
      do! store8 (new + i) b in
      hook_copy_loop old new (i + 1) n'
  end.

Definition ps4PayloadFunctionHookMemoryCopy (a b s : Z) : K unit := hook_copy_loop a b 0 (Z.to_nat s).
Definition ps4PayloadSystemCallHookMemoryCopy (a b s : Z) : K unit := hook_copy_loop a b 0 (Z.to_nat s).

Section Clone.
Context `{KernelCode}.

(** [uap->allocate(size, uap->mt, M_ZERO | M_WAITOK)], the pointer at [o]. *)
Definition clone_allocate (uap o mt size : Z) : K Z :=
  let! f := load64 (uap + o) in
  let! type := load64 (uap + mt) in
  code_call f [size; type; Z.lor M_ZERO M_WAITOK].

(** [uap->free(p, uap->mt)] *)
Definition clone_free (uap o mt p : Z) : K unit :=
  let! f := load64 (uap + o) in
  let! type := load64 (uap + mt) in
  do! code_call f [p; type] in ret tt.

Definition ps4PayloadFunctionHookArgumentClone (uap : Z) : K Z :=
  let! uap2 := clone_allocate uap o_allocate o_mt sizeof_Ps4KernelFunctionHookArgument in
  do! ps4PayloadFunctionHookMemoryCopy uap uap2 sizeof_Ps4KernelFunctionHookArgument in
  let! size := load64 (uap + o_hookSize) in
  let! h := clone_allocate uap o_allocate o_mt (wrap 64 (size * 8)) in
  do! store64 (uap2 + o_hook) h in
  let! from := load64 (uap + o_hook) in
  let! to := load64 (uap2 + o_hook) in
  let! size := load64 (uap + o_hookSize) in
  do! ps4PayloadFunctionHookMemoryCopy from to (wrap 64 (size * 8)) in
  let! size := load64 (uap + o_hookSize) in
  let! t := clone_allocate uap o_allocate o_mt (wrap 64 (size * 8)) in
  do! store64 (uap2 + o_hookType) t in
  let! from := load64 (uap + o_hookType) in
  let! to := load64 (uap2 + o_hookType) in
  let! size := load64 (uap + o_hookSize) in
  do! ps4PayloadFunctionHookMemoryCopy from to (wrap 64 (size * 8)) in
  let! a := clone_allocate uap o_allocate o_mt sizeof_Ps4RegisterParameters in
  do! store64 (uap2 + o_arguments) a in
  let! r := clone_allocate uap o_allocate o_mt sizeof_Ps4RegisterReturns in
  do! store64 (uap2 + o_returns) r in
  ret uap2.

Definition ps4PayloadFunctionHookArgumentDestroy (uap : Z) : K unit :=
  let! p := load64 (uap + o_returns) in
  do! clone_free uap o_free o_mt p in
  let! p := load64 (uap + o_arguments) in
  do! clone_free uap o_free o_mt p in
  let! p := load64 (uap + o_hookType) in
  do! clone_free uap o_free o_mt p in
  let! p := load64 (uap + o_hook) in
  do! clone_free uap o_free o_mt p in
  clone_free uap o_free o_mt uap.

Definition ps4PayloadSystemCallHookArgumentClone (td uap sysuap : Z) : K Z :=
  let! uap2 := clone_allocate uap s_allocate s_mt sizeof_Ps4KernelSystemCallHookArgument in
  do! ps4PayloadSystemCallHookMemoryCopy uap uap2 sizeof_Ps4KernelSystemCallHookArgument in
  let! size := load64 (uap + s_hookSize) in
  let! h := clone_allocate uap s_allocate s_mt (wrap 64 (size * 8)) in
  do! store64 (uap2 + s_hook) h in
  let! from := load64 (uap + s_hook) in
  let! to := load64 (uap2 + s_hook) in
  let! size := load64 (uap + s_hookSize) in
  do! ps4PayloadSystemCallHookMemoryCopy from to (wrap 64 (size * 8)) in
  let! size := load64 (uap + s_hookSize) in
  let! t := clone_allocate uap s_allocate s_mt (wrap 64 (size * 8)) in
  do! store64 (uap2 + s_hookType) t in
  let! from := load64 (uap + s_hookType) in
  let! to := load64 (uap2 + s_hookType) in
  let! size := load64 (uap + s_hookSize) in
  do! ps4PayloadSystemCallHookMemoryCopy from to (wrap 64 (size * 8)) in
  do! store64 (uap2 + s_thread) td in
  do! store64 (uap2 + s_uap) sysuap in
  ret uap2.
End Clone.

(** ** The system call handler *)

Definition ps4PayloadSystemCallHookThreadGetReturn0 (td : Z) : K Z := load64 (td + 0x380).
Definition ps4PayloadSystemCallHookThreadGetReturn1 (td : Z) : K Z := load64 (td + 0x388).
Definition ps4PayloadSystemCallHookThreadSetReturn0 (td r : Z) : K unit := store64 (td + 0x380) r.
Definition ps4PayloadSystemCallHookThreadSetReturn1 (td r : Z) : K unit := store64 (td + 0x388) r.

Section SystemCallHandler.
Context `{KernelCode}.

(** [uap->hook[i](td, a)], an [int]. *)
Definition call_hook_at (td uap i a : Z) : K Z :=
  let! hooks := load64 (uap + s_hook) in
  let! h := load64 (hooks + 8 * i) in
  let! r := code_call h [td; a] in
  ret (int_result r).

(** The hooks before the call; the result is [r]. [fuel] bounds the hooks. *)
Fixpoint call_pre_loop (fuel : nat) (td uap i r : Z) : K Z :=
  match fuel with
  | O => fault
  | S fuel' =>
      let! count := load64 (uap + s_hookCount) in
      if i <? count then
        let! types := load64 (uap + s_hookType) in
        let! ty := load_i64 (types + 8 * i) in
        let! r := (if ty =? call_type_value PS4_KERNEL_SYSTEM_CALL_HOOK_TYPE_PRE then
                     do! store64 (uap + s_hookTypeCurrent) (type_value PS4_KERNEL_FUNCTION_HOOK_TYPE_PRE) in
                     let! a := load64 (uap + s_uap) in call_hook_at td uap i a
                   else if (ty =? call_type_value PS4_KERNEL_SYSTEM_CALL_HOOK_TYPE_GENERIC_PRE) ||
                           (ty =? call_type_value PS4_KERNEL_SYSTEM_CALL_HOOK_TYPE_GENERIC_BOTH) then
                     do! store64 (uap + s_hookTypeCurrent) (call_type_value PS4_KERNEL_SYSTEM_CALL_HOOK_TYPE_GENERIC_PRE) in
                     call_hook_at td uap i uap
                   else ret r) in
        if r =? PS4_KERNEL_SYSTEM_CALL_HOOK_CONTROL_CONTINUE then call_pre_loop fuel' td uap (i + 1) r
        else ret r
      else ret r
  end.

(** The hooks behind the call; [r] comes in as the first loop left it. *)
Fixpoint call_post_loop (fuel : nat) (td uap i r : Z) : K Z :=
  match fuel with
  | O => fault
  | S fuel' =>
      let! count := load64 (uap + s_hookCount) in
      if i <? count then
        let! types := load64 (uap + s_hookType) in
        let! ty := load_i64 (types + 8 * i) in
        let! r := (if (ty =? call_type_value PS4_KERNEL_SYSTEM_CALL_HOOK_TYPE_GENERIC_POST) ||
                      (ty =? call_type_value PS4_KERNEL_SYSTEM_CALL_HOOK_TYPE_GENERIC_BOTH)
                   then call_hook_at td uap i uap else ret r) in
        if r =? PS4_KERNEL_SYSTEM_CALL_HOOK_CONTROL_CONTINUE then call_post_loop fuel' td uap (i + 1) r
        else ret r
      else ret r
  end.

(** The call itself and what comes behind it. *)
Definition call_original (td uap : Z) : K unit :=
  let! f := load64 (uap + s_originalCall) in
  let! a := load64 (uap + s_uap) in
  let! sysret := code_call f [td; a] in
  do! store32 (uap + s_sysret) sysret in
  let! r0 := ps4PayloadSystemCallHookThreadGetReturn0 td in
  do! store64 (uap + s_returns) r0 in
  let! r1 := ps4PayloadSystemCallHookThreadGetReturn1 td in
  store64 (uap + s_returns + 8) r1.

(** The handler up to where it frees its structure. *)
Definition call_handler_body (fuel : nat) (td uap : Z) : K unit :=
  do! store32 (uap + s_sysret) 0 in
  do! store64 (uap + s_returns) 0 in
  do! store64 (uap + s_returns + 8) 0 in
  do! ps4PayloadSystemCallHookThreadSetReturn1 td uap in
  let! r := call_pre_loop fuel td uap 0 PS4_KERNEL_SYSTEM_CALL_HOOK_CONTROL_CONTINUE in
  do! (if r =? PS4_KERNEL_SYSTEM_CALL_HOOK_CONTROL_RETURN then ret tt
       else
         do! call_original td uap in
         do! store64 (uap + s_hookTypeCurrent) (call_type_value PS4_KERNEL_SYSTEM_CALL_HOOK_TYPE_GENERIC_POST) in
         do! call_post_loop fuel td uap 0 r in
         ret tt) in
  let! r0 := load64 (uap + s_returns) in
  do! ps4PayloadSystemCallHookThreadSetReturn0 td r0 in
  let! r1 := load64 (uap + s_returns + 8) in
  ps4PayloadSystemCallHookThreadSetReturn1 td r1.

(** The frees, and the result, which is read from the freed structure. *)
Definition call_handler_tail (uap : Z) : K Z :=
  let! p := load64 (uap + s_hookType) in
  do! clone_free uap s_free s_mt p in
  let! p := load64 (uap + s_hook) in
  do! clone_free uap s_free s_mt p in
  do! clone_free uap s_free s_mt uap in
  let! r := load32 (uap + s_sysret) in
  ret (int_result r).

Definition ps4PayloadSystemCallHookHandler (fuel : nat) (td uap : Z) : K Z :=
  do! call_handler_body fuel td uap in call_handler_tail uap.

(** ** Generic system calls *)

(** [Ps4SystemCallGenericExecuteArgument] and [Ps4SystemCallGenericCallArgument]
    (ps4/system_call.h). *)
Definition e_function : Z := 0.
Definition e_uap : Z := 8.
Definition e_returns : Z := 16.
Definition g_function : Z := 0.
Definition g_argument (i : Z) : Z := 8 + 8 * i.
Definition g_returns : Z := 56.

Definition ps4SystemCallGenericThreadGetReturn0 (td : Z) : K Z := load64 (td + 0x380).
Definition ps4SystemCallGenericThreadGetReturn1 (td : Z) : K Z := load64 (td + 0x388).
Definition ps4SystemCallGenericThreadSetReturn0 (td r : Z) : K unit := store64 (td + 0x380) r.

Definition ps4SystemCallGenericExecute (td uap : Z) : K Z :=
  if uap =? NULL then ret PS4_ERROR_ARGUMENT_MISSING
  else
    let! f := load64 (uap + e_function) in
    if f =? NULL then ret PS4_OK
    else
      let! a := load64 (uap + e_uap) in
      let! r := code_call f [td; a] in
      let r := int_result r in
      do! (if r =? PS4_OK then
             let! p := load64 (uap + e_returns) in
             do! (if p =? NULL then ret tt else
                    let! v := ps4SystemCallGenericThreadGetReturn0 td in store64 p v) in
             let! p := load64 (uap + e_returns + 8) in
             if p =? NULL then ret tt else
               let! v := ps4SystemCallGenericThreadGetReturn1 td in store64 p v
           else ret tt) in
      ret r.

Definition ps4SystemCallGenericCall (td uap : Z) : K Z :=
  if uap =? NULL then ret PS4_ERROR_ARGUMENT_MISSING
  else
    let! f := load64 (uap + g_function) in
    if f =? NULL then ret PS4_OK
    else
      let! rdi := load64 (uap + g_argument 0) in
      let! rsi := load64 (uap + g_argument 1) in
      let! rdx := load64 (uap + g_argument 2) in
      let! rcx := load64 (uap + g_argument 3) in
      let! r8 := load64 (uap + g_argument 4) in
      let! r9 := load64 (uap + g_argument 5) in
      let! r := code_call f [rdi; rsi; rdx; rcx; r8; r9] in
      do! store64 (uap + g_returns) r in
      let! v := load64 (uap + g_returns) in
      do! ps4SystemCallGenericThreadSetReturn0 td v in
      ret PS4_OK.
End SystemCallHandler.
