(* ===== verification/HookChain.v ===== *)
(** * Hooks run as a chain

    What the handlers compute, without the arrays and the structure: the hooks
    of a list run in order around the original call. A handler agrees with
    its chain on every state that holds the list, as long as the code it
    calls leaves the list alone. *)

From stdpp Require Import base gmap list strings.
From S2P Require Import Prelude Errors Uthash Machine Reference KernelBase KernelMemory Cache CacheMap Symbol Words Template FunctionHook SystemCall HookHandler.

Lemma signed_wrap w z : 0 < w -> signed w (wrap w z) = signed w z.
Proof.
  intros Hw. assert (wrap w (wrap w z) = wrap w z) as E by (unfold wrap; apply Z.mod_mod; pose proof (Z.pow_pos_nonneg 2 w); lia).
  unfold signed. by rewrite E.
Qed.

(** ** Programs that agree on an invariant *)

Section Agree.
Context (I : machine -> Prop).

Definition keeps {A} (c : K A) : Prop := forall m r m', I m -> c m = Some (r, m') -> I m'.
Definition agree {A} (c d : K A) : Prop := forall m, I m -> c m = d m.

Lemma keeps_ret {A} (a : A) : keeps (ret a).
Proof. by intros m r m' Hi [= <- <-]. Qed.

Lemma keeps_bind {A B} (c : K A) (k : A -> K B) : keeps c -> (forall r, keeps (k r)) -> keeps (bind c k).
Proof. intros Hc Hk m r m' Hi (a & s & E1 & E2)%bind_inv. by eapply Hk, E2; eapply Hc. Qed.

Lemma keeps_if {A} (b : bool) (c d : K A) : keeps c -> keeps d -> keeps (if b then c else d).
Proof. by destruct b. Qed.

Lemma agree_refl {A} (c : K A) : agree c c.
Proof. done. Qed.

Lemma agree_bind {A B} (c d : K A) (k l : A -> K B) :
  agree c d -> keeps d -> (forall r, agree (k r) (l r)) -> agree (bind c k) (bind d l).
Proof.
  intros Hc Hd Hk m Hi. unfold bind. rewrite Hc by done. destruct (d m) as [[r m']|] eqn:E; [|done]. eapply Hk, Hd; eauto.
Qed.

(** A program that only reads, with the value the invariant gives. *)
Definition reads {A} (c : K A) (v : A) : Prop := forall m, I m -> c m = Some (v, m).

Lemma agree_reads {A B} (c : K A) v (k : A -> K B) d : reads c v -> agree (k v) d -> agree (bind c k) d.
Proof. intros Hc Hk m Hi. unfold bind. rewrite Hc by done. by apply Hk. Qed.

Lemma agree_if {A} (b : bool) (c c' d d' : K A) : agree c d -> agree c' d' -> agree (if b then c else c') (if b then d else d').
Proof. by destruct b. Qed.

Lemma keeps_reads {A B} (c : K A) v (k : A -> K B) : reads c v -> keeps (k v) -> keeps (bind c k).
Proof. intros Hc Hk m r m' Hi (a & s & E1 & E2)%bind_inv. rewrite Hc in E1 by done. injection E1 as <- <-. by eapply Hk. Qed.

Lemma reads_keeps {A} (c : K A) v : reads c v -> keeps c.
Proof. intros Hc m r m' Hi E. rewrite Hc in E by done. by injection E as <- <-. Qed.
End Agree.

(** ** States that hold given words *)

(** Words that stay and places that may be stored to. *)
Record holds (A : list (Z * Z)) (W : list (Z * nat)) (m : machine) : Prop := Holds {
  holds_word x v : (x, v) ∈ A -> mem_read (mem m) x 8 = Some (le_bytes 8 v);
  holds_place y n : (y, n) ∈ W -> writable_range m y n
}.

(** The places are apart from the words. *)
Definition places_apart (A : list (Z * Z)) (W : list (Z * nat)) : Prop :=
  forall x v y n, (x, v) ∈ A -> (y, n) ∈ W -> disjoint_ranges y (Z.of_nat n) x 8.

Section Holds.
Context (A : list (Z * Z)) (W : list (Z * nat)) (Hapart : places_apart A W).

Lemma holds_reads x v : (x, v) ∈ A -> 0 <= v < 2 ^ 64 -> reads (holds A W) (load64 x) v.
Proof.
  intros Hx Hv m Hi. rewrite (load64_run m _ _ (holds_word _ _ _ Hi _ _ Hx)). by rewrite le_val_word.
Qed.

Lemma holds_reads_i64 x v :
  (x, wrap 64 v) ∈ A -> - 2 ^ 63 <= v < 2 ^ 63 -> reads (holds A W) (load_i64 x) v.
Proof.
  intros Hx Hv m Hi. unfold load_i64. erewrite bind_some by (apply (holds_reads x _ Hx); [by apply wrap_bound | done]).
  by rewrite signed_wrap, signed_small by lia.
Qed.

Lemma holds_store y l : (y, length l) ∈ W -> keeps (holds A W) (store_bytes y l).
Proof.
  intros Hy m r m' Hi E. rewrite (store_bytes_run m y l (holds_place _ _ _ Hi _ _ Hy)) in E. injection E as <- <-. split.
  - intros x v Hx. cbn [mem set_mem]. rewrite mem_read_write_other; [by apply Hi|]. by eapply Hapart.
  - intros z n Hz. apply writable_range_set_mem; [by apply Hi|]. intros i Hi'. rewrite lookup_mem_write.
    case_match eqn:Q; [apply andb_prop in Q as [? ?]; apply lookup_lt_is_Some; zbool; lia || done|].
    pose proof (holds_place _ _ _ Hi _ _ Hz) as Hw. rewrite writable_range_iff in Hw. by apply Hw.
Qed.

Lemma holds_store64 y v : (y, 8%nat) ∈ W -> keeps (holds A W) (store64 y v).
Proof. intros Hy. apply holds_store. by rewrite length_le_bytes. Qed.

Lemma holds_store32 y v : (y, 4%nat) ∈ W -> keeps (holds A W) (store32 y v).
Proof. intros Hy. apply holds_store. by rewrite length_le_bytes. Qed.
End Holds.

Lemma load64_keeps I x : keeps I (load64 x).
Proof.
  intros m r m' Hi (l & s & E1 & E2)%bind_inv. injection E2 as <- <-. unfold load_bytes in E1.
  destruct (mem_read (mem m) x 8); [|done]. by injection E1 as <- <-.
Qed.

(** ** System calls *)

Section SystemCallChain.
Context `{KernelCode}.
Context (td uap a hooks types fn : Z) (L : list (Z * Z)).

(** [hook(td, a)] *)
Definition run_hook (h a : Z) : K Z := let! r := code_call h [td; a] in ret (int_result r).

(** [uap->hookTypeCurrent = ty;] *)
Definition mark (ty : Z) : K unit := store64 (uap + s_hookTypeCurrent) ty.

(** A hook runs before the call when its type is PRE, with the arguments of
    the system call, or GENERIC_PRE or GENERIC_BOTH, with the structure. The
    first that does not return CONTINUE ends the run. *)
Fixpoint pre_chain (L : list (Z * Z)) : K Z :=
  match L with
  | [] => ret 0
  | (h, ty) :: L' =>
      let! r := (if ty =? -1 then do! mark (-1) in run_hook h a
                 else if (ty =? 1) || (ty =? 3) then do! mark 1 in run_hook h uap
                 else ret 0) in
      if r =? 0 then pre_chain L' else ret r
  end.

(** Behind the call, GENERIC_POST and GENERIC_BOTH; [r] is what the last hook
    returned that ran, before the call or behind it. *)
Fixpoint post_chain (r : Z) (L : list (Z * Z)) : K Z :=
  match L with
  | [] => ret r
  | (h, ty) :: L' =>
      let! r := (if (ty =? 2) || (ty =? 3) then run_hook h uap else ret r) in
      if r =? 0 then post_chain r L' else ret r
  end.

(** The original call, once, with the thread and the arguments of the system
    call; its result and the thread's two return words go to the structure. *)
Definition chain_call : K unit :=
  let! sysret := code_call fn [td; a] in
  do! store32 (uap + s_sysret) sysret in
  let! r0 := load64 (td + 0x380) in
  do! store64 (uap + s_returns) r0 in
  let! r1 := load64 (td + 0x388) in
  store64 (uap + s_returns + 8) r1.

Definition chain : K unit :=
  let! r := pre_chain L in
  if r =? -1 then ret tt
  else
    do! chain_call in
    do! mark 2 in
    do! post_chain r L in
    ret tt.

(** The words of the structure and of its arrays. *)
Definition call_words : list (Z * Z) :=
  [(uap + s_uap, a); (uap + s_originalCall, fn); (uap + s_hook, hooks); (uap + s_hookType, types); (uap + s_hookCount, Z.of_nat (length L))] ++
  imap (fun i p => (hooks + 8 * Z.of_nat i, fst p)) L ++ imap (fun i p => (types + 8 * Z.of_nat i, wrap 64 (snd p))) L.

(** What the handler itself stores to. *)
Definition call_places : list (Z * nat) :=
  [(uap + s_sysret, 4%nat); (uap + s_returns, 8%nat); (uap + s_returns + 8, 8%nat); (uap + s_hookTypeCurrent, 8%nat);
   (td + 0x380, 8%nat); (td + 0x388, 8%nat)].

Definition call_state : machine -> Prop := holds call_words call_places.

(** Sizes of what the words hold, and the structure's distance to the arrays. *)
Definition call_layout : Prop :=
  places_apart call_words call_places /\ 0 <= a < 2 ^ 64 /\ 0 <= fn < 2 ^ 64 /\ 0 <= hooks < 2 ^ 64 /\ 0 <= types < 2 ^ 64 /\
  Z.of_nat (length L) < 2 ^ 63 /\ Forall (fun p => 0 <= fst p < 2 ^ 64 /\ - 2 ^ 63 <= snd p < 2 ^ 63) L.

(** The hooks of the list and the original call leave the list alone. *)
Definition code_keeps : Prop := forall f args, f ∈ fn :: L.*1 -> keeps call_state (code_call f args).

Hypothesis Hlay : call_layout.
Hypothesis Hcode : code_keeps.

Lemma call_field o v : (o, v) ∈ call_words -> 0 <= v < 2 ^ 64 -> reads call_state (load64 o) v.
Proof. apply holds_reads. Qed.

Lemma call_entry i h ty :
  L !! i = Some (h, ty) ->
  reads call_state (load64 (hooks + 8 * Z.of_nat i)) h /\ reads call_state (load_i64 (types + 8 * Z.of_nat i)) ty.
Proof.
  intros Hi. destruct Hlay as (_ & _ & _ & _ & _ & _ & Hr). destruct (Forall_lookup_1 _ _ _ _ Hr Hi) as [Hh Ht]. split.
  - apply holds_reads; [|done]. unfold call_words. rewrite !elem_of_app. right. left. apply elem_of_lookup_imap. by exists i, (h, ty).
  - apply holds_reads_i64; [|done]. unfold call_words. rewrite !elem_of_app. right. right. apply elem_of_lookup_imap. by exists i, (h, ty).
Qed.

Lemma call_fields :
  reads call_state (load64 (uap + s_uap)) a /\ reads call_state (load64 (uap + s_hook)) hooks /\
  reads call_state (load64 (uap + s_hookType)) types /\ reads call_state (load64 (uap + s_hookCount)) (Z.of_nat (length L)) /\
  reads call_state (load64 (uap + s_originalCall)) fn.
Proof.
  destruct Hlay as (_ & Ha & Hf & Hh & Ht & Hn & _). repeat split; apply call_field; try lia; unfold call_words; set_solver.
Qed.

Lemma call_store64 y v : (y, 8%nat) ∈ call_places -> keeps call_state (store64 y v).
Proof. apply holds_store64, Hlay. Qed.

Lemma run_hook_keeps h ty x : (h, ty) ∈ L -> keeps call_state (run_hook h x).
Proof. intros Hh. apply keeps_bind; [apply Hcode; right; apply list_elem_of_fmap; by exists (h, ty) | intros r; apply keeps_ret]. Qed.

Lemma mark_keeps ty : keeps call_state (mark ty).
Proof. apply call_store64. unfold call_places. set_solver. Qed.

(** A hook of the array, called by its index. *)
Lemma hook_at_agrees i h ty x :
  L !! i = Some (h, ty) -> agree call_state (call_hook_at td uap (Z.of_nat i) x) (run_hook h x).
Proof.
  intros Hi. unfold call_hook_at. eapply agree_reads; [apply call_fields|]. eapply agree_reads; [by apply (call_entry i h ty)|].
  apply agree_refl.
Qed.

(** The element under the loop's index. *)
Lemma drop_cons i p L' : drop i L = p :: L' -> L !! i = Some p /\ drop (S i) L = L'.
Proof.
  intros E. split.
  - rewrite <- (Nat.add_0_r i), <- lookup_drop. by rewrite E.
  - by rewrite <- (drop_drop L i 1), E || (replace (S i) with (i + 1)%nat by lia; by rewrite <- drop_drop, E).
Qed.

Lemma pre_loop_agrees L2 : forall i fuel,
  drop i L = L2 -> (length L2 < fuel)%nat -> agree call_state (call_pre_loop fuel td uap (Z.of_nat i) 0) (pre_chain L2).
Proof.
  induction L2 as [|[h ty] L2 IH]; intros i [|fuel] Ei Hf; cbn [length] in Hf; try lia; cbn [call_pre_loop pre_chain].
  - eapply agree_reads; [apply call_fields|]. rewrite (proj2 (Z.ltb_ge _ _)); [done|].
    apply (f_equal length) in Ei. rewrite length_drop in Ei. cbn [length] in Ei. lia.
  - destruct (drop_cons i _ _ Ei) as [Hi Ei']. apply lookup_lt_Some in Hi as Hl.
    eapply agree_reads; [apply call_fields|]. rewrite (proj2 (Z.ltb_lt _ _)) by lia.
    eapply agree_reads; [apply call_fields|]. eapply agree_reads; [by apply (call_entry i h ty)|].
    cbn [call_type_value type_value]. apply agree_bind.
    + apply agree_if; [|apply agree_if; [|apply agree_refl]].
      * apply agree_bind; [apply agree_refl | apply mark_keeps|]. intros _. eapply agree_reads; [apply call_fields|].
        by apply (hook_at_agrees i h ty).
      * apply agree_bind; [apply agree_refl | apply mark_keeps|]. intros _. by apply (hook_at_agrees i h ty).
    + apply keeps_if; [|apply keeps_if; [|apply keeps_ret]];
        (apply keeps_bind; [apply mark_keeps | intros _; by eapply run_hook_keeps, list_elem_of_lookup_2]).
    + intros r. unfold PS4_KERNEL_SYSTEM_CALL_HOOK_CONTROL_CONTINUE. destruct (Z.eqb_spec r 0) as [->|]; [|apply agree_refl].
      replace (Z.of_nat i + 1) with (Z.of_nat (S i)) by lia. apply IH; [done | lia].
Qed.

Lemma post_loop_agrees L2 : forall i r fuel,
  drop i L = L2 -> (length L2 < fuel)%nat -> agree call_state (call_post_loop fuel td uap (Z.of_nat i) r) (post_chain r L2).
Proof.
  induction L2 as [|[h ty] L2 IH]; intros i r [|fuel] Ei Hf; cbn [length] in Hf; try lia; cbn [call_post_loop post_chain].
  - eapply agree_reads; [apply call_fields|]. rewrite (proj2 (Z.ltb_ge _ _)); [done|].
    apply (f_equal length) in Ei. rewrite length_drop in Ei. cbn [length] in Ei. lia.
  - destruct (drop_cons i _ _ Ei) as [Hi Ei']. apply lookup_lt_Some in Hi as Hl.
    eapply agree_reads; [apply call_fields|]. rewrite (proj2 (Z.ltb_lt _ _)) by lia.
    eapply agree_reads; [apply call_fields|]. eapply agree_reads; [by apply (call_entry i h ty)|].
    cbn [call_type_value]. apply agree_bind.
    + apply agree_if; [by apply (hook_at_agrees i h ty) | apply agree_refl].
    + apply keeps_if; [by eapply run_hook_keeps, list_elem_of_lookup_2 | apply keeps_ret].
    + intros r'. unfold PS4_KERNEL_SYSTEM_CALL_HOOK_CONTROL_CONTINUE. destruct (r' =? 0); [|apply agree_refl].
      replace (Z.of_nat i + 1) with (Z.of_nat (S i)) by lia. apply IH; [done | lia].
Qed.

Lemma pre_chain_keeps L2 : L2 ⊆ L -> keeps call_state (pre_chain L2).
Proof.
  induction L2 as [|[h ty] L2 IH]; intros HL; cbn [pre_chain]; [apply keeps_ret|].
  apply keeps_bind; [|intros r; apply keeps_if; [apply IH; intros p Hp; apply HL; by right | apply keeps_ret]].
  apply keeps_if; [|apply keeps_if; [|apply keeps_ret]]; (apply keeps_bind; [apply mark_keeps | intros _; apply (run_hook_keeps h ty), HL; by left]).
Qed.

(** What the handler loads for the call is what the list was made with. *)
Lemma original_agrees : agree call_state (call_original td uap) chain_call.
Proof.
  intros m Hi. unfold call_original. destruct call_fields as (Ha & _ & _ & _ & Hf).
  erewrite bind_some by (by apply Hf). by erewrite bind_some by (by apply Ha).
Qed.

Lemma chain_call_keeps : keeps call_state chain_call.
Proof.
  apply keeps_bind; [apply Hcode; by left | intros ?].
  apply keeps_bind; [apply holds_store32; [apply Hlay | unfold call_places; set_solver] | intros ?].
  apply keeps_bind; [apply load64_keeps | intros ?]. apply keeps_bind; [apply call_store64; unfold call_places; set_solver | intros ?].
  apply keeps_bind; [apply load64_keeps | intros ?]. apply call_store64. unfold call_places. set_solver.
Qed.

(** The result words before the hooks and behind them. *)
Definition chain_reset : K unit :=
  do! store32 (uap + s_sysret) 0 in
  do! store64 (uap + s_returns) 0 in
  do! store64 (uap + s_returns + 8) 0 in
  store64 (td + 0x388) uap.

Definition chain_publish : K unit :=
  let! r0 := load64 (uap + s_returns) in
  do! store64 (td + 0x380) r0 in
  let! r1 := load64 (uap + s_returns + 8) in
  store64 (td + 0x388) r1.

Lemma bind_assoc {A B C} (c : K A) (k : A -> K B) (l : B -> K C) m :
  bind (bind c k) l m = bind c (fun x => bind (k x) l) m.
Proof. unfold bind. by destruct (c m) as [[? ?]|]. Qed.

Lemma bind_cong {A B} (c : K A) (k l : A -> K B) m : (forall r m', k r m' = l r m') -> bind c k m = bind c l m.
Proof. intros Hk. unfold bind. by destruct (c m) as [[? ?]|]. Qed.

(** The handler and its chain. *)
Lemma handler_body_chain fuel m :
  call_state m -> (length L < fuel)%nat ->
  call_handler_body fuel td uap m = (do! chain_reset in do! chain in chain_publish) m.
Proof.
  intros Hi Hf. unfold call_handler_body, chain_reset, chain. rewrite bind_assoc. revert m Hi.
  apply agree_bind; [apply agree_refl | apply holds_store32; [apply Hlay | unfold call_places; set_solver]|]. intros _ m Hi.
  rewrite bind_assoc. revert m Hi. apply agree_bind; [apply agree_refl | apply call_store64; unfold call_places; set_solver|]. intros _ m Hi.
  rewrite bind_assoc. revert m Hi. apply agree_bind; [apply agree_refl | apply call_store64; unfold call_places; set_solver|]. intros _.
  apply agree_bind; [apply agree_refl | apply call_store64; unfold call_places; set_solver|]. intros _ m Hi. rewrite bind_assoc. revert m Hi.
  apply agree_bind; [by apply (pre_loop_agrees L 0) | by apply pre_chain_keeps|]. intros r m Hi.
  unfold PS4_KERNEL_SYSTEM_CALL_HOOK_CONTROL_RETURN. destruct (r =? -1); [done|]. rewrite !bind_assoc. revert m Hi.
  apply agree_bind; [apply original_agrees | apply chain_call_keeps|]. intros _ m Hi. rewrite !bind_assoc. revert m Hi.
  apply agree_bind; [apply agree_refl | apply mark_keeps|]. intros _ m Hi. rewrite !bind_assoc. revert m Hi.
  intros m Hi. unfold bind at 1 3. by rewrite (post_loop_agrees L 0 r fuel) by done.
Qed.

(** A post chain that starts with a refusal and a hook that is no post hook. *)
Lemma post_chain_refused r h ty L' m : L = (h, ty) :: L' -> ty <> 2 -> ty <> 3 -> r <> 0 -> post_chain r L m = Some (r, m).
Proof.
  intros -> H2 H3 Hr. cbn [post_chain]. rewrite (proj2 (Z.eqb_neq ty 2) H2), (proj2 (Z.eqb_neq ty 3) H3). cbn [orb].
  unfold bind, ret. by rewrite (proj2 (Z.eqb_neq r 0) Hr).
Qed.

(** C3. The handler of a hooked system call runs the hooks of its list in order
    around the original call, whatever else they do: those of a pre type until
    one of them does not return CONTINUE. Unless that one returned RETURN, the
    original call follows, once, with the thread and the call's own arguments,
    and its result and the two return words are recorded; then the list is run
    through again for the hooks of a post type, for as long as the latest
    result, at first the one the pre hooks ended with, is CONTINUE. The result
    words are cleared before and handed to the thread behind it all. *)
Theorem system_call_handler_is_chain fuel m :
  call_state m -> (length L < fuel)%nat ->
  call_handler_body fuel td uap m = (do! chain_reset in do! chain in chain_publish) m.
Proof. apply handler_body_chain. Qed.

(** C39. A pre hook that asks for the call to be performed at once (BREAK) also
    cancels every post hook, unless the first hook of the list is a post hook:
    what the pre hooks returned is still there when the post hooks start. *)
Theorem perform_call_skips_post_hooks fuel m h ty L' r m1 :
  call_state m -> (length L < fuel)%nat -> L = (h, ty) :: L' -> ty <> 2 -> ty <> 3 ->
  (do! chain_reset in pre_chain L) m = Some (r, m1) -> r <> 0 -> r <> -1 ->
  call_handler_body fuel td uap m = (do! chain_call in do! mark 2 in chain_publish) m1.
Proof.
  intros Hi Hf EL H2 H3 Er Hr0 Hr1. rewrite handler_body_chain by done. apply bind_inv in Er as ([] & m0 & E0 & E1).
  erewrite bind_some by exact E0. unfold chain. rewrite bind_assoc. erewrite bind_some by exact E1.
  rewrite (proj2 (Z.eqb_neq r (-1)) Hr1), bind_assoc. apply bind_cong. intros [] m2. rewrite bind_assoc.
  apply bind_cong. intros [] m3. rewrite bind_assoc. by erewrite bind_some by (by apply (post_chain_refused r h ty L')).
Qed.
End SystemCallChain.

(** ** The end of the handler *)

(** [free] through the structure's pointer. *)
Lemma clone_free_run `{KernelCode} m uap F f mt q :
  words m uap F -> F !! 21%nat = Some f -> F !! 22%nat = Some mt ->
  (forall p t n, code_call f [p; t] n = (do! free p in ret 0) n) -> clone_free uap s_free s_mt q m = free q m.
Proof.
  intros Hw Hf Hmt Hfree. unfold clone_free. erewrite bind_some by exact (words_load m uap F 21 f Hw Hf).
  erewrite bind_some by exact (words_load m uap F 22 mt Hw Hmt). unfold bind, ret. rewrite Hfree. unfold bind, ret.
  by destruct (free q m) as [[[] ?]|].
Qed.

(** The structure when another block is freed. *)
Lemma clone_free_other `{KernelCode} m uap F f mt q :
  blocks_ok m -> words m uap F -> length F = 23%nat -> allocs m !! uap = Some sizeof_Ps4KernelSystemCallHookArgument ->
  F !! 21%nat = Some f -> F !! 22%nat = Some mt -> (forall p t n, code_call f [p; t] n = (do! free p in ret 0) n) -> q <> uap ->
  clone_free uap s_free s_mt q m = None \/
  exists m', clone_free uap s_free s_mt q m = Some (tt, m') /\ blocks_ok m' /\ words m' uap F /\
    allocs m' !! uap = Some sizeof_Ps4KernelSystemCallHookArgument.
Proof.
  intros Hb Hw Hl Ha Hf Hmt Hfree Hq. rewrite (clone_free_run m uap F f mt) by done. unfold free.
  destruct (q =? 0); [by right; exists m|]. destruct (allocs m !! q) as [n|] eqn:Eq; [|by left]. right. exists (freed m q n).
  split; [done|]. split; [by apply blocks_ok_freed|]. split.
  - by apply (words_freed m q n uap F 184); [| | | |rewrite Hl|].
  - unfold freed. cbn [allocs set_allocs]. by rewrite lookup_delete_ne.
Qed.

(** C38. The handler of a hooked system call has no defined result: it reads the
    value to return from its structure after it freed the structure. *)
Theorem system_call_handler_reads_freed `{KernelCode} fuel td uap m m1 F f mt hook hookType :
  call_handler_body fuel td uap m = Some (tt, m1) ->
  blocks_ok m1 -> words m1 uap F -> length F = 23%nat -> allocs m1 !! uap = Some sizeof_Ps4KernelSystemCallHookArgument ->
  F !! 14%nat = Some hook -> F !! 15%nat = Some hookType -> F !! 21%nat = Some f -> F !! 22%nat = Some mt ->
  hook <> uap -> hookType <> uap -> (forall p t n, code_call f [p; t] n = (do! free p in ret 0) n) ->
  ps4PayloadSystemCallHookHandler fuel td uap m = None.
Proof.
  intros E Hb Hw Hl Ha Hh Ht Hf Hmt Nh Nt Hfree. unfold ps4PayloadSystemCallHookHandler. erewrite bind_some by exact E. clear E m.
  unfold call_handler_tail. erewrite bind_some by exact (words_load m1 uap F 15 _ Hw Ht).
  destruct (clone_free_other m1 uap F f mt hookType Hb Hw Hl Ha Hf Hmt Hfree Nt) as [E|(m2 & E & Hb2 & Hw2 & Ha2)]; [by rewrite (bind_none _ _ _ E)|].
  erewrite bind_some by exact E. erewrite bind_some by exact (words_load m2 uap F 14 _ Hw2 Hh).
  destruct (clone_free_other m2 uap F f mt hook Hb2 Hw2 Hl Ha2 Hf Hmt Hfree Nh) as [E2|(m3 & E2 & Hb3 & Hw3 & Ha3)]; [by rewrite (bind_none _ _ _ E2)|].
  erewrite bind_some by exact E2. destruct (block_size _ Hb3 _ _ Ha3) as [_ Hu].
  erewrite bind_some by (rewrite (clone_free_run m3 uap F f mt) by done; unfold free; rewrite (proj2 (Z.eqb_neq uap 0) Hu), Ha3; reflexivity).
  apply bind_none. unfold load32, bind, load_bytes. cbn [mem set_allocs set_mem mem_read]. rewrite lookup_mem_free.
  replace (_ && _) with true; [done|]. symmetry. apply andb_true_iff. rewrite Z.leb_le, Z.ltb_lt. unfold s_sysret, sizeof_Ps4KernelSystemCallHookArgument. lia.
Qed.

(** ** Witnesses *)

Lemma holds_intro A W m :
  Forall (fun p => mem_read (mem m) p.1 8 = Some (le_bytes 8 p.2)) A -> Forall (fun p => writable_range m p.1 p.2) W -> holds A W m.
Proof. rewrite !Forall_forall. intros HA HW. split; [intros x v Hx; apply (HA _ Hx) | intros y n Hy; apply (HW _ Hy)]. Qed.

Lemma places_apart_intro A W :
  Forall (fun p => Forall (fun q => disjoint_ranges q.1 (Z.of_nat q.2) p.1 8) W) A -> places_apart A W.
Proof.
  rewrite Forall_forall. intros HA x v y n Hx Hy. specialize (HA _ Hx). rewrite Forall_forall in HA. apply (HA _ Hy).
Qed.

(** Code that returns what a table says and frees at 0x800. *)
Definition table_code (t : list (Z * Z)) : KernelCode := {|
  code_call f args :=
    match (f =? 0x800), args with
    | true, [p; _] => do! free p in ret 0
    | _, _ => ret (default 0 (list_to_map (M := gmap Z Z) t !! f))
    end |}.

(** Code that only returns. *)
Definition pure_code (t : list (Z * Z)) : KernelCode := {|
  code_call f _ := ret (default 0 (list_to_map (M := gmap Z Z) t !! f)) |}.

Section ChainWitnesses.
#[local] Instance some_code : KernelCode := pure_code [(0x100, 1); (0x300, 22)].

Definition call_hooks : list (Z * Z) := [(0x100, -1); (0x200, 2)].
Definition call_fields_example : list Z :=
  [0; 0; 0; 0; 0; 0; 0; 0x7000; 0; 0; 0; 0x300; 0; 0; 2 ^ 63 + 0x1000; 2 ^ 63 + 0x2000; 2; 8; 0; 0; 0; 0x800; 0].
Definition call_machine : machine :=
  set_allocs {[ 2 ^ 63 := 184; 2 ^ 63 + 0x1000 := 64; 2 ^ 63 + 0x2000 := 64 ]}
    (booted [(2 ^ 63, call_fields_example ≫= le_bytes 8); (2 ^ 63 + 0x1000, [0x100; 0x200; 0; 0; 0; 0; 0; 0] ≫= le_bytes 8);
             (2 ^ 63 + 0x2000, [-1; 2; 0; 0; 0; 0; 0; 0] ≫= le_bytes 8); (0x5380, repeat 7 16)] [] []).

Lemma call_machine_layout : call_layout 0x5000 (2 ^ 63) 0x7000 (2 ^ 63 + 0x1000) (2 ^ 63 + 0x2000) 0x300 call_hooks.
Proof. split; [apply places_apart_intro; vm_decide | vm_decide]. Qed.

Lemma call_machine_state : call_state 0x5000 (2 ^ 63) 0x7000 (2 ^ 63 + 0x1000) (2 ^ 63 + 0x2000) 0x300 call_hooks call_machine.
Proof. apply holds_intro; vm_decide. Qed.

Lemma some_code_keeps : code_keeps 0x5000 (2 ^ 63) 0x7000 (2 ^ 63 + 0x1000) (2 ^ 63 + 0x2000) 0x300 call_hooks.
Proof. intros f args _. apply keeps_ret. Qed.

Lemma system_call_handler_is_chain_witness :
  call_handler_body 3 0x5000 (2 ^ 63) call_machine =
  (do! chain_reset 0x5000 (2 ^ 63) in do! chain 0x5000 (2 ^ 63) 0x7000 0x300 call_hooks in chain_publish 0x5000 (2 ^ 63)) call_machine.
Proof.
  apply (system_call_handler_is_chain 0x5000 (2 ^ 63) 0x7000 (2 ^ 63 + 0x1000) (2 ^ 63 + 0x2000) 0x300 call_hooks).
  - apply call_machine_layout.
  - apply some_code_keeps.
  - apply call_machine_state.
  - cbn. lia.
Defined.

Lemma perform_call_skips_post_hooks_witness :
  exists m1, call_handler_body 3 0x5000 (2 ^ 63) call_machine =
    (do! chain_call 0x5000 (2 ^ 63) 0x7000 0x300 in do! mark (2 ^ 63) 2 in chain_publish 0x5000 (2 ^ 63)) m1.
Proof.
  destruct ((do! chain_reset 0x5000 (2 ^ 63) in pre_chain 0x5000 (2 ^ 63) 0x7000 call_hooks) call_machine) as [[r m1]|] eqn:E;
    [|vm_compute in E; discriminate].
  assert (r = 1) as -> by (apply (f_equal (option_map fst)) in E; vm_compute in E; congruence). exists m1.
  apply (perform_call_skips_post_hooks 0x5000 (2 ^ 63) 0x7000 (2 ^ 63 + 0x1000) (2 ^ 63 + 0x2000) 0x300 call_hooks
    call_machine_layout some_code_keeps 3 call_machine 0x100 (-1) [(0x200, 2)] 1 m1).
  - apply call_machine_state.
  - cbn. lia.
  - done.
  - done.
  - done.
  - exact E.
  - done.
  - done.
Defined.
End ChainWitnesses.

(** The structure as the handler leaves it. *)
Definition call_fields_after : list Z :=
  <[8%nat := 22]> (<[9%nat := 0x0707070707070707]> (<[10%nat := 2 ^ 63]> (<[18%nat := 2]> call_fields_example))).

Lemma system_call_handler_reads_freed_witness :
  @ps4PayloadSystemCallHookHandler (table_code [(0x300, 22)]) 3 0x5000 (2 ^ 63) call_machine = None.
Proof.
  destruct (@call_handler_body (table_code [(0x300, 22)]) 3 0x5000 (2 ^ 63) call_machine) as [[[] m1]|] eqn:E; [|vm_compute in E; discriminate].
  assert (match @call_handler_body (table_code [(0x300, 22)]) 3 0x5000 (2 ^ 63) call_machine with
    | Some (_, n) => blocks_check n && words_check n (2 ^ 63) call_fields_after && bool_decide (allocs n !! (2 ^ 63) = Some 184)
    | None => false end = true) as Hc by (vm_compute; reflexivity).
  rewrite E, !andb_true_iff in Hc. destruct Hc as [[Hb Hw] Ha].
  apply (@system_call_handler_reads_freed (table_code [(0x300, 22)]) 3 0x5000 (2 ^ 63) call_machine m1 call_fields_after 0x800 0
    (2 ^ 63 + 0x1000) (2 ^ 63 + 0x2000)); [exact E | by apply blocks_check_spec | by apply words_check_spec | done | | done..].
  by apply bool_decide_eq_true in Ha.
Defined.
