(* ===== verification/HookClone.v ===== *)
(** * The copy a call works on

    [ps4PayloadFunctionHookArgumentClone] and [-Destroy] of
    [payload/function_hook_handler.c], and the copy
    [system_call_hook_handler.c] makes: the copy stands for the same list of
    hooks as the original, in memory of its own, and destroying it leaves the
    machine as it was. *)

From stdpp Require Import base gmap list strings.
From S2P Require Import Prelude Errors Uthash Machine Cache CacheMap Reference KernelBase KernelMemory Symbol Words Template FunctionHook HookList SystemCall HookHandler HookChain.

(** ** New blocks *)

Definition new_allocs (B : list (Z * list Z)) (A : gmap Z Z) : gmap Z Z :=
  foldr (fun p => <[p.1 := 8 * Z.of_nat (length p.2)]>) A B.

(** [m] is [m0] with the blocks [B] of words besides, the latest first. *)
Record grown (m0 : machine) (B : list (Z * list Z)) (m : machine) : Prop := Grown {
  grown_blocks : blocks_ok m;
  grown_rest : m = set_allocs (allocs m) (set_mem (mem m) m0);
  grown_allocs : allocs m = new_allocs B (allocs m0);
  grown_nodup : NoDup B.*1;
  grown_old x : (forall p l, (p, l) ∈ B -> ~ in_block p (8 * Z.of_nat (length l)) x) -> mem m !! x = mem m0 !! x;
  grown_new p l x : (p, l) ∈ B -> in_block p (8 * Z.of_nat (length l)) x -> mem m0 !! x = None;
  grown_words p l : (p, l) ∈ B -> words m p l /\ 0 < p < 2 ^ 64 /\ (0 < length l)%nat
}.

Lemma grown_start m : blocks_ok m -> grown m [] m.
Proof.
  intros Hb. split; [done | by destruct m | done | by constructor | done | |]; by intros ? ? ?%elem_of_nil || intros ? ? ? ?%elem_of_nil.
Qed.

Lemma new_allocs_lookup B A p l : NoDup B.*1 -> (p, l) ∈ B -> new_allocs B A !! p = Some (8 * Z.of_nat (length l)).
Proof.
  induction B as [|[q u] B IH]; intros Hn; [by intros ?%elem_of_nil|]. cbn [fmap list_fmap fst] in Hn. apply NoDup_cons in Hn as [Hq Hn].
  rewrite elem_of_cons. intros [[= -> ->]|Hp]; [apply lookup_insert_eq|]. cbn [new_allocs foldr fst snd].
  rewrite lookup_insert_ne; [by apply IH|]. intros ->. apply Hq, list_elem_of_fmap. by exists (p, l).
Qed.

Lemma new_allocs_same B A j p l l' :
  B !! j = Some (p, l) -> length l' = length l -> new_allocs (<[j := (p, l')]> B) A = new_allocs B A.
Proof.
  revert j. induction B as [|[q u] B IH]; intros [|j] Hj Hl; [done | done | |].
  - injection Hj as -> ->. cbn. by rewrite Hl.
  - change (<[S j := (p, l')]> ((q, u) :: B)) with ((q, u) :: <[j := (p, l')]> B). cbn [new_allocs foldr]. f_equal. by apply IH.
Qed.

Lemma keys_same (B : list (Z * list Z)) j p l l' : B !! j = Some (p, l) -> (<[j := (p, l')]> B).*1 = B.*1.
Proof. intros Hj. rewrite list_fmap_insert. apply list_insert_id. by rewrite list_lookup_fmap, Hj. Qed.

(** Old memory is apart from the new blocks. *)
Lemma grown_kept m0 B m x b : grown m0 B m -> mem m0 !! x = Some b -> mem m !! x = Some b.
Proof.
  intros G Hb. rewrite (grown_old _ _ _ G); [done|]. intros p l Hp Hx. by rewrite (grown_new _ _ _ G p l x Hp Hx) in Hb.
Qed.

Lemma grown_text m0 B m : grown m0 B m -> text m = text m0.
Proof. intros G. rewrite (grown_rest _ _ _ G). done. Qed.

Lemma grown_old_words m0 B m a l : grown m0 B m -> words m0 a l -> words m a l.
Proof. intros G Hw. apply (words_ext m0); [done | by eapply grown_text|]. intros x b _. by apply grown_kept with B. Qed.

Lemma grown_writable m0 B m a n : grown m0 B m -> writable_range m0 a n -> writable_range m a n.
Proof.
  intros G. rewrite !writable_range_iff. intros Hw i Hi. destruct (Hw i Hi) as [[b Hb] Ht]. split; [exists b; by eapply grown_kept|].
  rewrite (grown_rest _ _ _ G). exact Ht.
Qed.

Lemma grown_apart m0 B m p l q u :
  grown m0 B m -> (p, l) ∈ B -> (q, u) ∈ B -> p <> q -> disjoint_ranges p (8 * Z.of_nat (length l)) q (8 * Z.of_nat (length u)).
Proof.
  intros G Hp Hq Hne. apply (blocks_apart m); [apply G | | | done]; rewrite (grown_allocs _ _ _ G); by apply new_allocs_lookup; [apply G|].
Qed.

Lemma grown_old_apart m0 B m p l a u :
  grown m0 B m -> (p, l) ∈ B -> words m0 a u -> (0 < length u)%nat -> disjoint_ranges p (8 * Z.of_nat (length l)) a (8 * Z.of_nat (length u)).
Proof.
  intros G Hp Hu Hl. destruct (grown_words _ _ _ G p l Hp) as (_ & _ & Hl').
  apply (block_mapped_disjoint m0); [intros x; by apply words_mapped | | lia | lia].
  intros x [b Hb] Hx. by rewrite (grown_new _ _ _ G p l x Hp Hx) in Hb.
Qed.

Lemma keys_unique (B : list (Z * list Z)) i j p l u : NoDup B.*1 -> B !! i = Some (p, l) -> B !! j = Some (p, u) -> i = j.
Proof. intros Hn Hi Hj. apply (NoDup_lookup B.*1 i j p Hn); by rewrite list_lookup_fmap, ?Hi, ?Hj. Qed.

(** Writing inside a new block. *)
Lemma grown_write m0 B m j p l l' mm :
  grown m0 B m -> B !! j = Some (p, l) -> length l' = length l -> words (set_mem mm m) p l' ->
  (forall x, ~ in_block p (8 * Z.of_nat (length l)) x -> mm !! x = mem m !! x) ->
  grown m0 (<[j := (p, l')]> B) (set_mem mm m).
Proof.
  intros G Hj Hl Hw Hmm. pose proof (list_elem_of_lookup_2 _ _ _ Hj) as Hp. destruct (grown_words _ _ _ G p l Hp) as (Hwp & Hp0 & Hl0).
  assert (forall x, is_Some (mem m !! x) -> is_Some (mm !! x)) as Hdom.
  { intros x Hx. destruct (decide (p <= x < p + 8 * Z.of_nat (length l))) as [Hin|Hout]; [|by rewrite Hmm].
    apply (words_mapped (set_mem mm m) p l' x Hw). by rewrite Hl. }
  assert (forall q u, (q, u) ∈ <[j := (p, l')]> B -> q = p /\ u = l' \/ q <> p /\ (q, u) ∈ B) as Hin.
  { intros q u [i Hi]%list_elem_of_lookup. rewrite list_lookup_insert_Some in Hi. destruct Hi as [(<- & [= <- <-] & _)|[Hne Hi]]; [by left|]. right.
    split; [|by eapply list_elem_of_lookup_2]. intros ->. apply Hne. by apply (keys_unique B j i p l u (grown_nodup _ _ _ G)). }
  assert (forall q u, (q, u) ∈ B -> exists u', (q, u') ∈ <[j := (p, l')]> B /\ length u' = length u) as Hout.
  { intros q u [i Hi]%list_elem_of_lookup. destruct (decide (i = j)) as [->|Hne].
    - rewrite Hj in Hi. injection Hi as <- <-. exists l'. split; [|done]. apply (list_elem_of_lookup_2 _ j), list_lookup_insert_eq. by eapply lookup_lt_Some.
    - exists u. split; [|done]. apply (list_elem_of_lookup_2 _ i). by rewrite list_lookup_insert_ne. }
  split.
  - apply blocks_ok_mapped; [apply G | done].
  - rewrite (grown_rest _ _ _ G) at 1. done.
  - rewrite (new_allocs_same B _ j p l l' Hj Hl). apply (grown_allocs _ _ _ G).
  - rewrite (keys_same B j p l l' Hj). apply (grown_nodup _ _ _ G).
  - intros x Hx. cbn [mem set_mem]. rewrite Hmm.
    + apply (grown_old _ _ _ G). intros q u Hq. destruct (Hout q u Hq) as (u' & Hu & <-). by apply Hx.
    + destruct (Hout p l Hp) as (u' & Hu & <-). by apply Hx.
  - intros q u x [[-> ->]|[_ Hq]]%Hin; [rewrite Hl; by apply (grown_new _ _ _ G) | by apply (grown_new _ _ _ G)].
  - intros q u [[-> ->]|[Hne Hq]]%Hin; [split; [done|]; split; [done | lia]|]. destruct (grown_words _ _ _ G q u Hq) as (Hwq & Hr). split; [|done].
    pose proof (grown_apart _ _ _ _ _ _ _ G Hp Hq ltac:(done)) as Hd. apply (words_ext m); [done | done|]. intros x b Hx Hb. cbn [mem set_mem].
    rewrite Hmm; [done|]. unfold in_block, disjoint_ranges in *. lia.
Qed.

Lemma grown_put m0 B m j p l i v :
  grown m0 B m -> B !! j = Some (p, l) -> (i < length l)%nat -> 0 <= v < 2 ^ 64 ->
  store64 (p + 8 * Z.of_nat i) v m = Some (tt, put64 (p + 8 * Z.of_nat i) v m) /\
  grown m0 (<[j := (p, <[i := v]> l)]> B) (put64 (p + 8 * Z.of_nat i) v m).
Proof.
  intros G Hj Hi Hv. destruct (grown_words _ _ _ G p l (list_elem_of_lookup_2 _ _ _ Hj)) as (Hw & _).
  destruct (words_store m p l i v Hw Hi Hv) as [E W]. split; [done|].
  apply (grown_write m0 B m j p l (<[i := v]> l)); [done | done | apply length_insert | exact W|].
  intros x Hx. apply (lookup_put64 _ v m). unfold in_block in Hx. lia.
Qed.

(** ** Copies byte by byte *)

Lemma mem_read_cons mm a n l : mem_read mm a (S n) = Some l -> exists b k, l = b :: k /\ mm !! a = Some b /\ mem_read mm (a + 1) n = Some k.
Proof. cbn [mem_read]. destruct (mm !! a) as [b|]; [|done]. destruct (mem_read mm (a + 1) n) as [k|]; [|done]. intros [= <-]. by exists b, k. Qed.

Lemma hook_copy_run n : forall m old new i l,
  mem_read (mem m) (old + i) n = Some l -> writable_range m (new + i) n -> disjoint_ranges (old + i) (Z.of_nat n) (new + i) (Z.of_nat n) ->
  hook_copy_loop old new i n m = Some (tt, set_mem (mem_write (mem m) (new + i) l) m).
Proof.
  induction n as [|n IH]; intros m old new i l Hr Hw Hd; cbn [hook_copy_loop].
  { injection Hr as <-. cbn [mem_write]. by rewrite set_mem_mem. }
  apply mem_read_cons in Hr as (b & k & -> & Hb & Hr). rewrite writable_range_iff in Hw.
  erewrite bind_some by (by apply load8_run). unfold store8.
  erewrite bind_some by (apply store_bytes_run, writable_range_iff; intros j Hj; cbn [length] in Hj; apply Hw; lia). cbn [mem_write].
  rewrite (IH _ old new (i + 1) k).
  - cbn [mem set_mem]. replace (new + (i + 1)) with (new + i + 1) by lia. done.
  - cbn [mem set_mem]. replace (old + (i + 1)) with (old + i + 1) by lia. apply (mem_read_keeps _ _ _ _ _ Hr). intros x c Hx Hc.
    rewrite lookup_insert_ne; [done|]. unfold disjoint_ranges in Hd. lia.
  - apply writable_range_iff. intros j Hj. destruct (Hw (S j) ltac:(lia)) as [Hm Ht]. replace (new + (i + 1) + Z.of_nat j) with (new + i + Z.of_nat (S j)) by lia.
    split; [|exact Ht]. unfold mapped. cbn [mem set_mem]. rewrite lookup_insert_ne by lia. done.
  - unfold disjoint_ranges in *. lia.
Qed.

(** Words are their bytes. *)
Lemma words_bytes m a l : words m a l -> mem_read (mem m) a (8 * length l) = Some (l ≫= le_bytes 8).
Proof.
  intros Hw. pose proof (words_read _ _ _ Hw) as Hr. clear Hw. revert a Hr. induction l as [|v l IH]; intros a Hr; [done|].
  change ((v :: l) ≫= le_bytes 8) with (le_bytes 8 v ++ (l ≫= le_bytes 8)). replace (8 * length (v :: l))%nat with (8 + 8 * length l)%nat by (cbn [length]; lia).
  apply mem_read_app; [|].
  - rewrite <- (Hr 0%nat v eq_refl). f_equal. lia.
  - apply IH. intros i w Hi. rewrite <- (Hr (S i) w Hi). f_equal. lia.
Qed.

Lemma bytes_words m a l :
  mem_read (mem m) a (8 * length l) = Some (l ≫= le_bytes 8) -> (forall i v, l !! i = Some v -> 0 <= v < 2 ^ 64) ->
  (forall x, a <= x < a + 8 * Z.of_nat (length l) -> x ∉ text m) -> words m a l.
Proof.
  intros Hr Hv Ht. split; [done | done|]. intros i v Hi. apply lookup_lt_Some in Hi as Hl. rewrite <- (drop_words l i v Hi).
  replace (a + 8 * Z.of_nat i) with (a + Z.of_nat (8 * i)) by lia. by apply (mem_read_sub _ _ (8 * length l)); [|lia].
Qed.

Lemma length_words (l : list Z) : length (l ≫= le_bytes 8) = (8 * length l)%nat.
Proof. induction l as [|v l IH]; [done|]. change ((v :: l) ≫= le_bytes 8) with (le_bytes 8 v ++ (l ≫= le_bytes 8)). rewrite length_app, IH, length_le_bytes. cbn [length]. lia. Qed.

Lemma grown_copy m0 B m j p l a u :
  grown m0 B m -> B !! j = Some (p, l) -> words m0 a u -> length l = length u ->
  exists m', hook_copy_loop a p 0 (8 * length u) m = Some (tt, m') /\ grown m0 (<[j := (p, u)]> B) m'.
Proof.
  intros G Hj Hu Hl. pose proof (list_elem_of_lookup_2 _ _ _ Hj) as Hp. destruct (grown_words _ _ _ G p l Hp) as (Hw & _ & Hl0).
  pose proof (grown_old_apart _ _ _ _ _ _ _ G Hp Hu ltac:(lia)) as Hd. pose proof (words_bytes _ _ _ (grown_old_words _ _ _ _ _ G Hu)) as Hr.
  eexists. split.
  - apply hook_copy_run; rewrite ?Z.add_0_r; [exact Hr | apply (words_writable m p l); [done | lia | lia] | unfold disjoint_ranges in *; lia].
  - rewrite Z.add_0_r. apply (grown_write m0 B m j p l u); [done | done | done | |].
    + apply bytes_words.
      * cbn [mem set_mem]. rewrite <- length_words. apply mem_read_write_same.
      * apply (words_range _ _ _ Hu).
      * intros x Hx. apply (words_data _ _ _ Hw). lia.
    + intros x Hx. rewrite lookup_mem_write, length_words. case_match eqn:Q; [|done]. apply andb_prop in Q as [Q1 Q2]. unfold in_block in Hx. zbool; lia || done.
Qed.

(** ** Allocating and freeing *)

Section Blocks.
Context `{HA : KernelAllocator} `{HL : !KernelAllocatorLaws HA} `{HR : !KernelRoom HA}.

Lemma grown_alloc m0 B m k :
  grown m0 B m -> (0 < k)%nat -> cost (8 * Z.of_nat k) <= kroom m ->
  exists p m', malloc (8 * Z.of_nat k) m = Some (p, m') /\ grown m0 ((p, repeat 0 k) :: B) m' /\ kroom m - cost (8 * Z.of_nat k) <= kroom m'.
Proof.
  intros G Hk Hroom. set (n := 8 * Z.of_nat k) in *. assert (0 < n) as Hn by lia. set (p := kmalloc m n).
  assert (p <> 0) as Hp by (apply kroom_enough; [done|]; unfold cost in Hroom; lia). pose proof (kmalloc_range m n Hp) as Hrange. fold p in Hrange.
  assert (forall x, is_Some (mem m !! x) -> ~ in_block p n x) as Hfr by (intros x Hx; by apply kmalloc_fresh_at).
  exists p, (allocated m p n). split; [by apply malloc_run|]. split; [|by apply allocated_room].
  assert (forall q u, (q, u) ∈ B -> q <> p) as Hne.
  { intros q u Hq ->. destruct (grown_words _ _ _ G p u Hq) as (Hw & _ & Hl). apply (Hfr p); [|unfold in_block; lia].
    apply (words_mapped m p u); [done | lia]. }
  assert (8 * Z.of_nat (length (repeat 0 k)) = n) as Hlen by (rewrite repeat_length; lia).
  split.
  - by apply blocks_ok_allocated; [apply G| |].
  - rewrite (grown_rest _ _ _ G) at 1. done.
  - cbn [new_allocs foldr fst snd]. rewrite Hlen. fold (new_allocs B (allocs m0)). rewrite <- (grown_allocs _ _ _ G). done.
  - cbn [fmap list_fmap fst]. apply NoDup_cons. split; [|apply G]. intros ([q u] & E & Hq)%list_elem_of_fmap. by apply (Hne q u Hq).
  - intros x Hx. rewrite <- (grown_old _ _ _ G); [|intros q u Hq; apply Hx; by right]. pose proof (Hx p (repeat 0 k) ltac:(by left)) as Hout. rewrite Hlen in Hout.
    unfold allocated. cbn [mem set_allocs set_mem]. rewrite lookup_mem_write, repeat_length. case_match eqn:Q; [|done].
    apply andb_prop in Q as [Q1 Q2]. unfold in_block in Hout. zbool; lia || done.
  - intros q u x [[= -> ->]|Hq]%elem_of_cons Hx; [|by apply (grown_new _ _ _ G q u)]. rewrite Hlen in Hx.
    destruct (mem m0 !! x) as [b|] eqn:Eb; [|done]. exfalso. apply (Hfr x); [|done]. exists b. by apply (grown_kept m0 B).
  - intros q u [[= -> ->]|Hq]%elem_of_cons.
    + split; [by apply words_fresh|]. rewrite repeat_length. lia.
    + destruct (grown_words _ _ _ G q u Hq) as (Hw & Hr). split; [|done]. by apply words_allocated; [|lia|].
Qed.

Lemma grown_free m0 B m p l :
  blocks_ok m0 -> grown m0 ((p, l) :: B) m -> exists m', free p m = Some (tt, m') /\ grown m0 B m'.
Proof.
  intros Hb0 G. pose proof (grown_nodup _ _ _ G) as Hnd. cbn [fmap list_fmap fst] in Hnd. apply NoDup_cons in Hnd as [Hp Hnd].
  destruct (grown_words _ _ _ G p l ltac:(by left)) as (Hw & Hp0 & Hl0). set (n := 8 * Z.of_nat (length l)).
  assert (allocs m !! p = Some n) as Ha by (rewrite (grown_allocs _ _ _ G); apply lookup_insert_eq).
  exists (freed m p n). split; [unfold free; rewrite (proj2 (Z.eqb_neq p 0)) by lia; by rewrite Ha|].
  assert (forall q u, (q, u) ∈ B -> q <> p) as Hne by (intros q u Hq ->; apply Hp, list_elem_of_fmap; by exists (p, u)).
  split.
  - by apply blocks_ok_freed; [apply G|].
  - rewrite (grown_rest _ _ _ G) at 1. done.
  - unfold freed. cbn [allocs set_allocs]. rewrite (grown_allocs _ _ _ G). cbn [new_allocs foldr fst snd]. apply delete_insert_id. fold (new_allocs B (allocs m0)).
    destruct (new_allocs B (allocs m0) !! p) as [k|] eqn:E; [|done]. exfalso. assert (allocs m0 !! p = Some k) as E0.
    { clear -E Hne. induction B as [|[q u] B IH]; [done|]. cbn [new_allocs foldr fst snd] in E.
      rewrite lookup_insert_ne in E by (apply (Hne q u); by left). apply IH; [intros q' u' Hq; apply (Hne q' u'); by right | done]. }
    destruct (block_size _ Hb0 _ _ E0). destruct (block_mapped _ Hb0 p k p E0) as [[b Hb] _]; [unfold in_block; lia|].
    rewrite (grown_new _ _ _ G p l p) in Hb; [done | by left | unfold in_block; lia].
  - done.
  - intros x Hx. destruct (decide (p <= x < p + n)) as [Hin|Hout].
    + rewrite (grown_new _ _ _ G p l x) by (done || by left). unfold freed. cbn [mem set_allocs set_mem]. rewrite lookup_mem_free.
      case_match eqn:Q; [done|]. apply andb_false_iff in Q. zbool; lia || done.
    + rewrite lookup_freed by (done || lia). apply (grown_old _ _ _ G). intros q u [[= -> ->]|Hq]%elem_of_cons; [done | by apply Hx].
  - intros q u x Hq. apply (grown_new _ _ _ G). by right.
  - intros q u Hq. destruct (grown_words _ _ _ G q u ltac:(by right)) as (Hwq & Hr). split; [|done].
    apply (words_freed m p n q u (8 * Z.of_nat (length u))); try done; [apply G | | by apply not_eq_sym, (Hne q u)].
    rewrite (grown_allocs _ _ _ G). apply new_allocs_lookup; [apply G | by right].
Qed.

Lemma grown_end m0 m : grown m0 [] m -> m = m0.
Proof.
  intros G. assert (mem m = mem m0) as Em by (apply map_eq; intros x; apply (grown_old _ _ _ G); by intros ? ? ?%elem_of_nil).
  rewrite (grown_rest _ _ _ G), (grown_allocs _ _ _ G), Em. by destruct m0.
Qed.
End Blocks.

(** ** The copy of a hook's structure *)

Section Clone.
Context `{HC : KernelCode} `{HA : KernelAllocator} `{HL : !KernelAllocatorLaws HA} `{HR : !KernelRoom HA}.

(** Writing inside the blocks takes no room. *)
Lemma grown_room m0 B m j p l l' m' :
  grown m0 B m -> B !! j = Some (p, l) -> length l' = length l -> grown m0 (<[j := (p, l')]> B) m' -> kroom m <= kroom m'.
Proof.
  intros G Hj Hl G'. apply kroom_same; [by rewrite (grown_text _ _ _ G), (grown_text _ _ _ G')|]. intros x Hx.
  destruct (decide (Exists (fun q => q.1 <= x < q.1 + 8 * Z.of_nat (length q.2)) B)) as [([q u] & Hq & Hin)%Exists_exists|Hout].
  - destruct (grown_words _ _ _ G q u Hq) as (Hw & _). by apply (words_mapped m q u).
  - rewrite (grown_old _ _ _ G), <- (grown_old _ _ _ G'); [done | |]; intros q u Hq Hin; apply Hout, Exists_exists; [|by exists (q, u)].
    apply list_elem_of_lookup in Hq as [i Hi]. rewrite list_lookup_insert_Some in Hi. destruct Hi as [(<- & [= <- <-] & _)|[_ Hi]].
    + exists (p, l). split; [by eapply list_elem_of_lookup_2|]. cbn [fst snd]. rewrite <- Hl. exact Hin.
    + exists (q, u). split; [by eapply list_elem_of_lookup_2 | exact Hin].
Qed.

(** One more block, one more word, one more copy, with the room that is left. *)
Definition roomy (m0 : machine) (B : list (Z * list Z)) (n : Z) (m : machine) : Prop := grown m0 B m /\ n <= kroom m.

Lemma roomy_alloc m0 B n m k :
  roomy m0 B n m -> (0 < k)%nat -> 0 <= n - cost (8 * Z.of_nat k) ->
  exists p m', malloc (8 * Z.of_nat k) m = Some (p, m') /\ roomy m0 ((p, repeat 0 k) :: B) (n - cost (8 * Z.of_nat k)) m' /\ 0 < p < 2 ^ 64.
Proof.
  intros [G Hn] Hk Hr. assert (cost (8 * Z.of_nat k) <= kroom m) as Hroom by lia. destruct (grown_alloc m0 B m k G Hk Hroom) as (p & m' & E & G' & Hr'). exists p, m'. split; [done|].
  split; [split; [done | lia]|]. by destruct (grown_words _ _ _ G' p (repeat 0 k) ltac:(by left)) as (_ & ? & _).
Qed.

Lemma roomy_put m0 B n m j p l i v :
  roomy m0 B n m -> B !! j = Some (p, l) -> (i < length l)%nat -> 0 <= v < 2 ^ 64 ->
  exists m', store64 (p + 8 * Z.of_nat i) v m = Some (tt, m') /\ roomy m0 (<[j := (p, <[i := v]> l)]> B) n m'.
Proof.
  intros [G Hn] Hj Hi Hv. destruct (grown_put m0 B m j p l i v G Hj Hi Hv) as [E G']. eexists. split; [done|]. split; [done|].
  pose proof (grown_room _ _ _ _ _ _ _ _ G Hj (length_insert l i v) G'). lia.
Qed.

Lemma roomy_copy m0 B n m j p l a u s :
  roomy m0 B n m -> B !! j = Some (p, l) -> words m0 a u -> length l = length u -> s = 8 * Z.of_nat (length u) ->
  exists m', hook_copy_loop a p 0 (Z.to_nat s) m = Some (tt, m') /\ roomy m0 (<[j := (p, u)]> B) n m'.
Proof.
  intros [G Hn] Hj Hu Hl ->. destruct (grown_copy m0 B m j p l a u G Hj Hu Hl) as (m' & E & G'). exists m'.
  replace (Z.to_nat (8 * Z.of_nat (length u))) with (8 * length u)%nat by lia. split; [done|]. split; [done|].
  pose proof (grown_room _ _ _ _ _ _ _ _ G Hj (eq_sym Hl) G'). lia.
Qed.

Context (m : machine) (arg f g mt : Z) (F : list Z).
Hypothesis HF : words m arg F.
Hypothesis (Hf : F !! 20%nat = Some f) (Hg : F !! 21%nat = Some g) (Hmt : F !! 22%nat = Some mt).
(** The functions in the structure are the kernel's. *)
Hypothesis Hmalloc : forall n n0, code_call f [n; mt; Z.lor M_ZERO M_WAITOK] n0 = malloc n n0.
Hypothesis Hfree : forall p n0, code_call g [p; mt] n0 = (do! free p in ret 0) n0.

Lemma roomy_field B n m1 i v : roomy m B n m1 -> F !! i = Some v -> load64 (arg + 8 * Z.of_nat i) m1 = Some (v, m1).
Proof. intros [G _] Hi. apply (words_load m1 arg F); [by apply (grown_old_words m B) | done]. Qed.

Lemma roomy_allocate B n m1 (k : nat) s :
  roomy m B n m1 -> (0 < k)%nat -> s = 8 * Z.of_nat k -> 0 <= n - cost (8 * Z.of_nat k) ->
  exists p m2, clone_allocate arg (8 * Z.of_nat 20) (8 * Z.of_nat 22) s m1 = Some (p, m2) /\
    roomy m ((p, repeat 0 k) :: B) (n - cost (8 * Z.of_nat k)) m2 /\ 0 < p < 2 ^ 64.
Proof.
  intros G Hk -> Hn. destruct (roomy_alloc m B n m1 k G Hk Hn) as (p & m2 & E & G2). exists p, m2. split; [|done]. unfold clone_allocate.
  erewrite bind_some by (by apply (roomy_field B n m1 20)). erewrite bind_some by (by apply (roomy_field B n m1 22)). by rewrite Hmalloc.
Qed.

Lemma roomy_load B n m1 j p l i v : roomy m B n m1 -> B !! j = Some (p, l) -> l !! i = Some v -> load64 (p + 8 * Z.of_nat i) m1 = Some (v, m1).
Proof. intros [G _] Hj Hi. apply (words_load m1 p l); [|done]. apply (grown_words _ _ _ G p l). by eapply list_elem_of_lookup_2. Qed.

Lemma roomy_free B n m1 c FF j q l :
  blocks_ok m -> roomy m ((q, l) :: B) n m1 -> ((q, l) :: B) !! j = Some (c, FF) -> FF !! 21%nat = Some g -> FF !! 22%nat = Some mt ->
  exists m2, clone_free c (8 * Z.of_nat 21) (8 * Z.of_nat 22) q m1 = Some (tt, m2) /\ grown m B m2.
Proof.
  intros Hb G Hj H1 H2. destruct (grown_free m B m1 q l Hb (proj1 G)) as (m2 & E & G2). exists m2. split; [|done]. unfold clone_free.
  erewrite bind_some by (by eapply (roomy_load _ n)). erewrite bind_some by (by eapply (roomy_load _ n)). unfold bind at 1. rewrite Hfree. unfold bind. by rewrite E.
Qed.

(** The fields of the copy: its own arrays, arguments and values to return. *)
Definition clone_fields (h t a r : Z) : list Z := <[9%nat := r]> (<[8%nat := a]> (<[14%nat := t]> (<[13%nat := h]> F))).

Definition clone_blocks (c h t a r : Z) (hs ts : list Z) : list (Z * list Z) :=
  [(r, repeat 0 6); (a, repeat 0 23); (t, ts); (h, hs); (c, clone_fields h t a r)].

Definition clone_room (k : nat) : Z := cost (8 * Z.of_nat 24) + cost (8 * Z.of_nat k) + cost (8 * Z.of_nat k) + cost (8 * Z.of_nat 23) + cost (8 * Z.of_nat 6).

Context (L : list (Z * Z)) (H T : Z) (hs ts : list Z).
Hypothesis Ho : hook_object m arg F L.
Hypothesis Harr : arrays m arg F L H T hs ts.
Hypothesis Hroom : clone_room (length hs) <= kroom m.

Lemma clone_run :
  exists c h t a r m', ps4PayloadFunctionHookArgumentClone arg m = Some (c, m') /\ roomy m (clone_blocks c h t a r hs ts) 0 m'.
Proof.
  pose proof Ho as [Hb Hlen _ _ _ _ _]. pose proof Harr as [Htr FH FT FS Els Hsz _ _ _ [rest Ehs] _]. destruct Htr as [_ WH WT _ _ _].
  assert (0 < length hs)%nat as Hk by (rewrite Ehs, length_app; cbn [length]; lia). set (k := length hs) in *.
  assert (forall n, 0 < cost (8 * Z.of_nat n)) as Hc by (unfold cost; lia).
  assert (wrap 64 (Z.of_nat k * 8) = 8 * Z.of_nat k) as Hw by (rewrite wrap_small; lia).
  assert (roomy m [] (clone_room k) m) as G by (split; [by apply grown_start | done]). unfold clone_room in G.
  pose proof (Hc 24%nat) as C1. pose proof (Hc k) as C2. pose proof (Hc 23%nat) as C3. pose proof (Hc 6%nat) as C4.
  destruct (roomy_allocate _ _ m 24 192 G) as (c & m1 & E1 & G1 & Pc); [lia | done | lia|].
  destruct (roomy_copy _ _ _ m1 0 c (repeat 0 24) arg F 192 G1) as (m2 & E2 & G2); [done | done | by rewrite Hlen | by rewrite Hlen|]. cbn [insert list_insert] in G2.
  destruct (roomy_allocate _ _ m2 k (8 * Z.of_nat k) G2) as (h & m3 & E3 & G3 & Ph); [done | done | lia|].
  destruct (roomy_put _ _ _ m3 1 c F 13 h G3) as (m4 & E4 & G4); [done | lia | lia|]. cbn [insert list_insert] in G4.
  destruct (roomy_copy _ _ _ m4 0 h (repeat 0 k) H hs (8 * Z.of_nat k) G4) as (m5 & E5 & G5); [done | done | by rewrite repeat_length | done|]. cbn [insert list_insert] in G5.
  destruct (roomy_allocate _ _ m5 k (8 * Z.of_nat k) G5) as (t & m6 & E6 & G6 & Pt); [done | done | lia|].
  destruct (roomy_put _ _ _ m6 2 c (<[13%nat := h]> F) 14 t G6) as (m7 & E7 & G7); [done | rewrite length_insert; lia | lia|]. cbn [insert list_insert] in G7.
  destruct (roomy_copy _ _ _ m7 0 t (repeat 0 k) T ts (8 * Z.of_nat k) G7) as (m8 & E8 & G8); [done | done | by rewrite repeat_length, Els | by rewrite Els|]. cbn [insert list_insert] in G8.
  destruct (roomy_allocate _ _ m8 23 184 G8) as (a & m9 & E9 & G9 & Pa); [lia | done | lia|].
  destruct (roomy_put _ _ _ m9 3 c (<[14%nat := t]> (<[13%nat := h]> F)) 8 a G9) as (m10 & E10 & G10); [done | rewrite !length_insert; lia | lia|]. cbn [insert list_insert] in G10.
  destruct (roomy_allocate _ _ m10 6 48 G10) as (r & m11 & E11 & G11 & Pr); [lia | done | lia|].
  destruct (roomy_put _ _ _ m11 4 c (<[8%nat := a]> (<[14%nat := t]> (<[13%nat := h]> F))) 9 r G11) as (m12 & E12 & G12); [done | rewrite !length_insert; lia | lia|]. cbn [insert list_insert] in G12.
  exists c, h, t, a, r, m12. split; [|destruct G12 as [G12 R12]; split; [exact G12 | lia]].
  assert (forall B n m1 i v, roomy m B n m1 -> F !! i = Some v -> load64 (arg + 8 * Z.of_nat i) m1 = Some (v, m1)) as Lf by (intros; by eapply roomy_field).
  assert (load64 (c + 8 * Z.of_nat 13) m4 = Some (h, m4)) as L4 by (eapply (roomy_load _ _ m4 1); [exact G4 | done | apply list_lookup_insert_eq; lia]).
  assert (load64 (c + 8 * Z.of_nat 14) m7 = Some (t, m7)) as L7 by (eapply (roomy_load _ _ m7 2); [exact G7 | done | apply list_lookup_insert_eq; rewrite length_insert; lia]).
  unfold ps4PayloadFunctionHookArgumentClone, ps4PayloadFunctionHookMemoryCopy.
  erewrite bind_some by exact E1. erewrite bind_some by exact E2. erewrite bind_some by exact (Lf _ _ _ 17%nat _ G2 FS). rewrite Hw.
  erewrite bind_some by exact E3. erewrite bind_some by exact E4. erewrite bind_some by exact (Lf _ _ _ 13%nat _ G4 FH). erewrite bind_some by exact L4.
  erewrite bind_some by exact (Lf _ _ _ 17%nat _ G4 FS). rewrite Hw. erewrite bind_some by exact E5.
  erewrite bind_some by exact (Lf _ _ _ 17%nat _ G5 FS). rewrite Hw. erewrite bind_some by exact E6. erewrite bind_some by exact E7.
  erewrite bind_some by exact (Lf _ _ _ 14%nat _ G7 FT). erewrite bind_some by exact L7. erewrite bind_some by exact (Lf _ _ _ 17%nat _ G7 FS). rewrite Hw.
  erewrite bind_some by exact E8. erewrite bind_some by exact E9. erewrite bind_some by exact E10. erewrite bind_some by exact E11.
  by erewrite bind_some by exact E12.
Qed.

Lemma clone_fields_other h t a r i : i <> 8%nat -> i <> 9%nat -> i <> 13%nat -> i <> 14%nat -> clone_fields h t a r !! i = F !! i.
Proof. intros. unfold clone_fields. by rewrite !list_lookup_insert_ne by done. Qed.

Lemma clone_fields_own h t a r :
  clone_fields h t a r !! 8%nat = Some a /\ clone_fields h t a r !! 9%nat = Some r /\ clone_fields h t a r !! 13%nat = Some h /\ clone_fields h t a r !! 14%nat = Some t.
Proof.
  pose proof (object_length _ _ _ _ Ho) as Hlen. unfold clone_fields. repeat split; repeat (rewrite list_lookup_insert_ne by done);
    apply list_lookup_insert_eq; rewrite ?length_insert; lia.
Qed.

Lemma clone_object c h t a r m' : grown m (clone_blocks c h t a r hs ts) m' -> hook_object m' c (clone_fields h t a r) L.
Proof.
  intros G. pose proof Ho as [Hb Hlen _ _ Hcnt Hnz _]. pose proof Harr as [_ _ _ FS Els Hsz _ _ _ Eh Et].
  assert (forall p l, (p, l) ∈ clone_blocks c h t a r hs ts -> words m' p l /\ allocs m' !! p = Some (8 * Z.of_nat (length l)) /\ 0 < p) as Hin.
  { intros p l Hp. destruct (grown_words _ _ _ G p l Hp) as (W & P & _). split; [done|]. split; [|lia]. rewrite (grown_allocs _ _ _ G). apply new_allocs_lookup; [apply G | done]. }
  assert (length (clone_fields h t a r) = 24%nat) as Hlen' by (unfold clone_fields; by rewrite !length_insert).
  destruct (Hin c (clone_fields h t a r)) as (Wc & Ac & Pc); [clear; unfold clone_blocks; set_solver|]. rewrite Hlen' in Ac.
  destruct (Hin h hs) as (Wh & Ah & Ph); [clear; unfold clone_blocks; set_solver|]. destruct (Hin t ts) as (Wt & At & Pt); [clear; unfold clone_blocks; set_solver|].
  pose proof (grown_nodup _ _ _ G) as Hn. cbn in Hn. rewrite !NoDup_cons in Hn. destruct Hn as (_ & _ & Nt & Nh & _).
  assert (c <> h /\ c <> t /\ h <> t) as Hne by (split; [|split]; intros ->; [apply Nh; by left | apply Nt; right; by left | apply Nt; by left]).
  split; [apply G | done | exact Ac | done | by rewrite clone_fields_other | done|]. exists h, t, hs, ts. destruct (clone_fields_own h t a r) as (_ & _ & F13 & F14).
  split; try done; [|by rewrite clone_fields_other]. split; try done; rewrite ?Hlen'; apply (blocks_apart m'); try done; try apply G; by destruct Hne as (? & ? & ?).
Qed.

(** C11. What a call of a hooked function works on is a copy in memory of its own,
    which stands for the same list of hooks as the hook's structure; the other
    fields are the structure's, the arguments and the values to return are
    zero, and everything that was mapped is as it was. *)
Theorem clone_stands_for_hooks :
  exists c h t a r m', ps4PayloadFunctionHookArgumentClone arg m = Some (c, m') /\ hook_object m' c (clone_fields h t a r) L /\
    words m' a (repeat 0 23) /\ words m' r (repeat 0 6) /\ (forall x b, mem m !! x = Some b -> mem m' !! x = Some b) /\
    forall p l x, (p, l) ∈ clone_blocks c h t a r hs ts -> in_block p (8 * Z.of_nat (length l)) x -> mem m !! x = None.
Proof.
  destruct clone_run as (c & h & t & a & r & m' & E & G & _). exists c, h, t, a, r, m'. split; [done|]. split; [by apply clone_object|].
  split; [apply (grown_words _ _ _ G); clear; unfold clone_blocks; set_solver|]. split; [apply (grown_words _ _ _ G); clear; unfold clone_blocks; set_solver|].
  split; [intros x b; by eapply grown_kept | intros p l x; by apply (grown_new _ _ _ G)].
Qed.

(** C22. Making a copy for a call and destroying it, as the epilogue does, leaves
    the whole machine as it was: no memory is lost and none is freed twice. *)
Theorem clone_destroy_roundtrip :
  (let! c := ps4PayloadFunctionHookArgumentClone arg in ps4PayloadFunctionHookArgumentDestroy c) m = Some (tt, m).
Proof.
  destruct clone_run as (c & h & t & a & r & m0 & E & R). erewrite bind_some by exact E. clear E.
  pose proof (object_blocks _ _ _ _ Ho) as Hb. pose proof (object_length _ _ _ _ Ho) as Hlen. set (FF := clone_fields h t a r) in *.
  destruct (clone_fields_own h t a r) as (F8 & F9 & F13 & F14). fold FF in F8, F9, F13, F14.
  assert (FF !! 21%nat = Some g /\ FF !! 22%nat = Some mt) as [F21 F22] by (unfold FF; by rewrite !clone_fields_other).
  assert (forall B m1, grown m B m1 -> roomy m B (kroom m1) m1) as RG by (intros; split; [done | lia]).
  unfold clone_blocks in R. fold FF in R. apply proj1 in R. apply RG in R.
  destruct (roomy_free _ _ m0 c FF 4 r (repeat 0 6) Hb R eq_refl F21 F22) as (m1 & E1 & R1%RG).
  destruct (roomy_free _ _ m1 c FF 3 a (repeat 0 23) Hb R1 eq_refl F21 F22) as (m2 & E2 & R2%RG).
  destruct (roomy_free _ _ m2 c FF 2 t ts Hb R2 eq_refl F21 F22) as (m3 & E3 & R3%RG).
  destruct (roomy_free _ _ m3 c FF 1 h hs Hb R3 eq_refl F21 F22) as (m4 & E4 & R4%RG).
  destruct (roomy_free _ _ m4 c FF 0 c FF Hb R4 eq_refl F21 F22) as (m5 & E5 & G5).
  unfold ps4PayloadFunctionHookArgumentDestroy.
  erewrite bind_some by exact (roomy_load _ _ m0 4 c FF 9 r R eq_refl F9). erewrite bind_some by exact E1.
  erewrite bind_some by exact (roomy_load _ _ m1 3 c FF 8 a R1 eq_refl F8). erewrite bind_some by exact E2.
  erewrite bind_some by exact (roomy_load _ _ m2 2 c FF 14 t R2 eq_refl F14). erewrite bind_some by exact E3.
  erewrite bind_some by exact (roomy_load _ _ m3 1 c FF 13 h R3 eq_refl F13). erewrite bind_some by exact E4.
  rewrite <- (grown_end m m5 G5). exact E5.
Qed.
End Clone.

(** ** Witnesses *)

Section CloneWitnesses.
#[local] Existing Instance bump_allocator.
#[local] Existing Instance bump_allocator_laws.
#[local] Existing Instance bump_room_laws.

(** Code with the allocator at 0x500 and 0x600. *)
Definition allocator_code : KernelCode := {|
  code_call f args :=
    match args with
    | [n; _; _] => if f =? 0x500 then malloc n else ret 0
    | [p; _] => if f =? 0x600 then do! free p in ret 0 else ret 0
    | _ => ret 0
    end |}.
#[local] Existing Instance allocator_code.

(** A hook that gets the function's arguments and one for the way back; the
    structure, its arrays, a stack at 0x7000 and the thread's word. *)
Definition copied_hooks : list (Z * Z) := [(0x200, 2 ^ 64 - 1); (0x210, 2)].
Definition copied_fields : list Z :=
  [0x100; 0x180; 0; 0; 0; 0; 0x400; 0; 0; 0; 0; 0x300; 0; 2 ^ 63 + 0x1000; 2 ^ 63 + 0x2000; 0; 2; 8; 0; 0; 0x500; 0x600; 1; 0].
Definition copied_arrays : list Z * list Z := ([0x200; 0x210; 0; 0; 0; 0; 0; 0], [2 ^ 64 - 1; 2; 0; 0; 0; 0; 0; 0]).
Definition copied_machine : machine :=
  set_allocs {[ 2 ^ 63 := 192; 2 ^ 63 + 0x1000 := 64; 2 ^ 63 + 0x2000 := 64 ]}
    (booted [(2 ^ 63, copied_fields ≫= le_bytes 8); (2 ^ 63 + 0x1000, copied_arrays.1 ≫= le_bytes 8); (2 ^ 63 + 0x2000, copied_arrays.2 ≫= le_bytes 8);
             (0x6f00, repeat 0 256); (0x7000, le_bytes 8 0x9000); (0xffffff8000001388, repeat 0 8)] [] []).

Lemma copied_machine_arrays :
  arrays copied_machine (2 ^ 63) copied_fields copied_hooks (2 ^ 63 + 0x1000) (2 ^ 63 + 0x2000) copied_arrays.1 copied_arrays.2.
Proof.
  split; [|by vm_compute..| by exists [0; 0; 0; 0; 0] | by exists [0; 0; 0; 0; 0; 0]].
  split; [apply words_check_spec; by vm_compute..| vm_decide | vm_decide | vm_decide].
Qed.

Lemma copied_machine_object : hook_object copied_machine (2 ^ 63) copied_fields copied_hooks.
Proof.
  split; [apply blocks_check_spec; by vm_compute | done | by vm_compute | done | by vm_compute | |].
  - intros p Hp. assert (Forall (fun q => fst q <> NULL) copied_hooks) as Hf by vm_decide. by apply (proj1 (Forall_forall _ _) Hf).
  - eexists _, _, _, _. apply copied_machine_arrays.
Qed.

Lemma clone_stands_for_hooks_witness :
  exists c F' m', ps4PayloadFunctionHookArgumentClone (2 ^ 63) copied_machine = Some (c, m') /\ hook_object m' c F' copied_hooks.
Proof.
  destruct (clone_stands_for_hooks copied_machine (2 ^ 63) 0x500 1 copied_fields) with (L := copied_hooks) (H := 2 ^ 63 + 0x1000) (T := 2 ^ 63 + 0x2000)
    (hs := copied_arrays.1) (ts := copied_arrays.2) as (c & h & t & a & r & m' & E & Ho & _).
  - apply copied_machine_arrays.
  - done.
  - done.
  - done.
  - apply copied_machine_object.
  - apply copied_machine_arrays.
  - vm_compute. discriminate.
  - exists c, (clone_fields copied_fields h t a r), m'. exact (conj E Ho).
Defined.

Lemma clone_destroy_roundtrip_witness :
  (let! c := ps4PayloadFunctionHookArgumentClone (2 ^ 63) in ps4PayloadFunctionHookArgumentDestroy c) copied_machine = Some (tt, copied_machine).
Proof.
  apply (clone_destroy_roundtrip copied_machine (2 ^ 63) 0x500 0x600 1 copied_fields) with (L := copied_hooks) (H := 2 ^ 63 + 0x1000) (T := 2 ^ 63 + 0x2000)
    (hs := copied_arrays.1) (ts := copied_arrays.2).
  - apply copied_machine_arrays.
  - done.
  - done.
  - done.
  - done.
  - done.
  - apply copied_machine_object.
  - apply copied_machine_arrays.
  - vm_compute. discriminate.
Defined.
End CloneWitnesses.
