(* ===== verification/HookBuild.v ===== *)
(** * Making a hook (common/kernel/source/kernel/function.c)

    [ps4KernelFunctionHookCreate] allocates the structure, its arrays, the
    prologue and the bridge, and puts a jump to the prologue over the first
    instructions of the function. What it leaves: a structure that stands for
    no hooks yet, a function that enters the prologue, a prologue that knows
    the structure, and a bridge with the displaced instructions and the way
    back. *)

From stdpp Require Import base gmap list strings.
From S2P Require Import Prelude Errors Uthash Machine Reference KernelBase KernelMemory Cache CacheMap CacheGlobal Symbol Words Template Atomic Ud Udis86 FunctionHook HookList SystemCall HookHandler HookChain HookClone.

(** ** New blocks over a changing machine *)

(** The new blocks stay what they are when the rest of the machine changes
    around them. *)
Lemma grown_rebase m0 B m m0' m' :
  grown m0 B m -> m' = set_allocs (allocs m') (set_mem (mem m') m0') -> text m' = text m -> allocs m' = new_allocs B (allocs m0') -> blocks_ok m' ->
  (forall x, (forall p l, (p, l) ∈ B -> ~ in_block p (8 * Z.of_nat (length l)) x) -> mem m' !! x = mem m0' !! x) ->
  (forall p l x, (p, l) ∈ B -> in_block p (8 * Z.of_nat (length l)) x -> mem m0' !! x = None /\ mem m' !! x = mem m !! x) ->
  grown m0' B m'.
Proof.
  intros G Hr Ht Ha Hb Ho Hn. split; [done | done | done | apply G | done | intros p l x Hp Hx; by apply (Hn p l x)|].
  intros p l Hp. destruct (grown_words _ _ _ G p l Hp) as (W & Hx). split; [|done]. apply (words_ext m); [done | done|].
  intros x b Hin Hm. by rewrite (proj2 (Hn p l x Hp Hin)).
Qed.

Lemma grown_cr0 m0 B m v : grown m0 B m -> grown (set_cr0 v m0) B (set_cr0 v m).
Proof.
  intros G. apply (grown_rebase m0 B m); try done.
  - rewrite (grown_rest _ _ _ G) at 1. done.
  - apply (grown_allocs _ _ _ G).
  - by apply (blocks_ok_eq m); [done..|apply G].
  - intros x Hx. by apply (grown_old _ _ _ G).
  - intros p l x Hp Hx. split; [by apply (grown_new _ _ _ G p l) | done].
Qed.

Lemma grown_held m0 B m v : grown m0 B m -> grown (set_held v m0) B (set_held v m).
Proof.
  intros G. apply (grown_rebase m0 B m); try done.
  - rewrite (grown_rest _ _ _ G) at 1. done.
  - apply (grown_allocs _ _ _ G).
  - by apply (blocks_ok_eq m); [done..|apply G].
  - intros x Hx. by apply (grown_old _ _ _ G).
  - intros p l x Hp Hx. split; [by apply (grown_new _ _ _ G p l) | done].
Qed.

(** Code that is patched in old memory. *)
Lemma grown_patch m0 B m x l : grown m0 B m -> mapped_range m0 x (length l) -> grown (patched m0 x l) B (patched m x l).
Proof.
  intros G Hm. assert (forall y, x <= y < x + Z.of_nat (length l) -> is_Some (mem m0 !! y)) as Hm'.
  { intros y Hy. destruct (Hm (Z.to_nat (y - x)) ltac:(lia)) as [b Hb]. exists b. by replace (x + Z.of_nat (Z.to_nat (y - x))) with y in Hb by lia. }
  assert (forall p u y, (p, u) ∈ B -> in_block p (8 * Z.of_nat (length u)) y -> ~ x <= y < x + Z.of_nat (length l)) as Hout.
  { intros p u y Hp Hy Hin. destruct (Hm' y Hin) as [b Hb]. by rewrite (grown_new _ _ _ G p u y Hp Hy) in Hb. }
  assert (forall m1 y, ~ x <= y < x + Z.of_nat (length l) -> mem_write (mem m1) x l !! y = mem m1 !! y) as Hw.
  { intros m1 y Hy. rewrite lookup_mem_write. case_match eqn:Q; [|done]. apply andb_prop in Q as [Q1%Z.leb_le Q2%Z.ltb_lt]. lia. }
  assert (cr0 m = cr0 m0) as Ec by exact (f_equal cr0 (grown_rest _ _ _ G)).
  apply (grown_rebase m0 B m); try done.
  - unfold patched. rewrite Ec. rewrite (grown_rest _ _ _ G) at 2. done.
  - apply (grown_allocs _ _ _ G).
  - apply (blocks_ok_eq (set_mem (mem_write (mem m) x l) m)); try done. apply blocks_ok_write, G.
  - intros y Hy. unfold patched. cbn [mem set_cr0 set_mem]. rewrite !lookup_mem_write. case_match; [done|]. by apply (grown_old _ _ _ G).
  - intros p u y Hp Hy. unfold patched. cbn [mem set_cr0 set_mem]. rewrite !Hw by (by eapply Hout). split; [by apply (grown_new _ _ _ G p u) | done].
Qed.

(** A block of bytes that becomes part of the old memory. *)
Lemma grown_code m0 B m q n :
  grown m0 B m -> blocks_ok (allocated m q n) -> (forall x, is_Some (mem m !! x) -> ~ in_block q n x) -> 0 < n ->
  grown (allocated m0 q n) B (allocated m q n).
Proof.
  intros G Hb Hfr Hn.
  assert (forall p u y, (p, u) ∈ B -> in_block p (8 * Z.of_nat (length u)) y -> ~ in_block q n y) as Hout.
  { intros p u y Hp Hy. apply Hfr. destruct (grown_words _ _ _ G p u Hp) as (W & _). by apply (words_mapped m p u). }
  assert (forall m1 y, ~ in_block q n y -> mem (allocated m1 q n) !! y = mem m1 !! y) as Hw.
  { intros m1 y Hy. unfold allocated. cbn [mem set_allocs set_mem]. rewrite lookup_mem_write, repeat_length. case_match eqn:Q; [|done].
    apply andb_prop in Q as [Q1%Z.leb_le Q2%Z.ltb_lt]. unfold in_block in Hy. lia. }
  apply (grown_rebase m0 B m); try done.
  - rewrite (grown_rest _ _ _ G) at 1. done.
  - unfold allocated. cbn [allocs set_allocs]. rewrite (grown_allocs _ _ _ G). assert (forall p u, (p, u) ∈ B -> p <> q) as Hne.
    { intros p u Hp ->. destruct (grown_words _ _ _ G q u Hp) as (_ & _ & Hl). apply (Hout q u q Hp); unfold in_block; lia. }
    clear -Hne. induction B as [|[p u] B IH]; [done|]. cbn [new_allocs foldr fst snd].
    rewrite insert_insert_ne by (apply not_eq_sym, (Hne p u); by left). f_equal. apply IH. intros p' u' Hp. apply (Hne p' u'). by right.
  - intros y Hy. unfold allocated. cbn [mem set_allocs set_mem]. rewrite !lookup_mem_write. case_match; [done|]. by apply (grown_old _ _ _ G).
  - intros p u y Hp Hy. rewrite !Hw by (by eapply Hout). split; [by apply (grown_new _ _ _ G p u) | done].
Qed.

(** ** The caches through all that *)

(** They depend on their own memory only. *)
Lemma cache_inv_same R m m' :
  cache_inv R m -> blocks_ok m' -> caches m' = caches m -> entries m' = entries m -> (forall a n, allocs m !! a = Some n -> allocs m' !! a = Some n) ->
  (forall x b, CacheMap.owned R m x -> mem m !! x = Some b -> mem m' !! x = Some b) -> cache_inv R m' /\ forall c, view m' c = view m c.
Proof.
  intros Hi Hb Hc He Ha Hm.
  assert (forall e, kept R m R m' e) as Hk by (intros e; split; [by rewrite He|]; intros nm n Hr Hn; split; [done|]; split; [by apply Ha | intros x Hx b Hxb; apply Hm; [by exists nm, (RName e), n | done]]).
  split.
  - split; [done | | | |].
    + intros a r Hr. destruct (inv_roles _ _ Hi _ _ Hr) as [n Hn]. exists n. by apply Ha.
    + intros c h. rewrite Hc. apply (inv_caches _ _ Hi).
    + intros c t. rewrite Hc. intros Ht. pose proof (inv_tables _ _ Hi _ _ Ht) as Hok. apply (table_ok_kept R m); [done | | apply Hok | apply Hok].
      intros e Hin. split; [done | by apply (table_items _ _ _ _ Hok)].
    + intros c t. rewrite Hc. apply (inv_nonempty _ _ Hi).
  - intros c. unfold view, cache_items. rewrite Hc. destruct (caches m !! c) as [[t|]|] eqn:Ec; [|done..].
    f_equal. apply list_omap_ext, Forall2_same_length_lookup_2; [done|]. intros i e e' E E'. simplify_eq.
    eapply item_kept; [by eapply inv_tables | by eapply list_elem_of_lookup_2 | done].
Qed.

Lemma symbols_same `{KernelSymbols} R m m' c :
  symbols_ready R m c -> blocks_ok m' -> caches m' = caches m -> entries m' = entries m -> (forall x, var x m' = var x m) ->
  (forall a n, allocs m !! a = Some n -> allocs m' !! a = Some n) -> (forall x b, CacheMap.owned R m x -> mem m !! x = Some b -> mem m' !! x = Some b) ->
  symbols_ready R m' c /\ view m' c = view m c.
Proof.
  intros [Hi Hc Hin Hmx Hright] Hb Ec Ee Ev Ha Hm. destruct (cache_inv_same R m m' Hi Hb Ec Ee Ha Hm) as [Hi' Hview]. split; [|done].
  split; [done | by rewrite Ev | by rewrite Ec | by rewrite Ev | by rewrite Hview].
Qed.

(** A symbol that is there: only the bookkeeping of the mutexes is touched. *)
Lemma symbol_hit_run `{D : KernelDlSym} `{Sy : !KernelSymbols D} `{HA : KernelAllocator} `{HS : KernelSysctl} R m c s v :
  symbols_ready R m c -> view m c !! name_key s = Some v ->
  exists h, ps4KernelSymbolLookUp (Some s) OPtr m = Some ((PS4_OK, Some v), set_held h m) /\ forall a, hold_count a (set_held h m) = hold_count a m.
Proof.
  intros Hs Hv. eexists. split; [rewrite (lookup_ready R m c s Hs); exact (symbol_find_hit R m c s v Hs Hv)|]. intros a.
  unfold hold_count, locked. cbn [held set_held]. destruct (decide (a = var ps4KernelSymbolLookUpMutex m)) as [->|Hne]; [by rewrite lookup_insert_eq|].
  by rewrite !lookup_insert_ne.
Qed.

(** ** Executable memory *)

Section Code.
Context `{D : KernelDlSym} `{HA : KernelAllocator} `{HL : !KernelAllocatorLaws HA} `{HR : !KernelRoom HA}.

(** What an allocation takes: more than a page. *)
Definition code_block (size : Z) : Z := if size <=? 0x4000 then 0x4001 else size.

Lemma code_block_size size : size <= code_block size /\ 0 < code_block size.
Proof. unfold code_block. destruct (Z.leb_spec size 0x4000); lia. Qed.

(** Where [*pg_nx] is the no-execute bit: a block of its own, and nothing else is
    different afterwards. *)
Lemma allocate_code_run m pg size :
  blocks_ok m -> var ps4KernelMemoryType m <> NULL -> var pg_nx m = pg -> pg <> NULL -> mem_read (mem m) pg 8 = Some (le_bytes 8 (2 ^ 63)) -> writable_range m pg 8 ->
  0 < size -> cost (code_block size) <= kroom m ->
  exists q, ps4KernelMemoryAllocate OPtr size m = Some ((PS4_OK, Some q), allocated m q (code_block size)) /\
    2 ^ 63 <= q /\ q + (code_block size) <= 2 ^ 64 /\ (forall x, is_Some (mem m !! x) -> ~ in_block q (code_block size) x) /\ (forall x, in_block q (code_block size) x -> x ∉ text m) /\
    blocks_ok (allocated m q (code_block size)) /\ kroom m - cost (code_block size) <= kroom (allocated m q (code_block size)).
Proof.
  intros Hb Ht Hv Hp Hw Hwr Hs Hroom. set (m0 := set_mem (mem_write (mem m) pg (le_bytes 8 0)) m). pose proof (code_block_size size) as [_ Hn]. remember (code_block size) as n eqn:En.
  assert (forall x, is_Some (mem m0 !! x) <-> is_Some (mem m !! x)) as Hdom.
  { intros x. unfold m0. cbn [mem set_mem]. rewrite lookup_mem_write, length_le_bytes. case_match eqn:Q; [|done]. apply andb_prop in Q as [Q1%Z.leb_le Q2%Z.ltb_lt].
    split; intros _; [|apply lookup_lt_is_Some; rewrite length_le_bytes; lia]. rewrite writable_range_iff in Hwr. destruct (Hwr (Z.to_nat (x - pg)) ltac:(lia)) as [Hm _].
    by replace (pg + Z.of_nat (Z.to_nat (x - pg))) with x in Hm by lia. }
  assert (kroom m <= kroom m0) as Hr0 by (apply kroom_same; [done | intros x; apply Hdom]).
  assert (kmalloc m0 n <> 0) as Hk by (apply kroom_enough; [done | unfold cost in Hroom; lia]). set (q := kmalloc m0 n) in *.
  assert (forall x, is_Some (mem m !! x) -> ~ in_block q n x) as Hfr by (intros x Hx; apply (kmalloc_fresh_at m0 n x Hk); by apply Hdom).
  assert (writable_range m0 pg 8) as Hw0 by (by apply writable_range_written).
  pose proof (kmalloc_disjoint m0 n pg 8 Hk ltac:(done) ltac:(lia) Hw0) as Hd. fold q in Hd.
  assert (writable_range (allocated m0 q n) pg 8) as Hw1 by (apply allocated_writable_old; [done | lia | done]).
  assert (set_mem (mem_write (mem (allocated m0 q n)) pg (le_bytes 8 (Z.shiftl 1 63))) (allocated m0 q n) = allocated m q n) as Efin.
  { unfold allocated, m0. cbn [mem set_mem set_allocs allocs]. match goal with |- set_mem ?x _ = set_allocs _ (set_mem ?y _) => assert (x = y) as ->; [|done] end.
    apply map_eq. intros x. apply mem_read_Some in Hw as [_ Hw]. rewrite !lookup_mem_write, !length_le_bytes, repeat_length.
    unfold disjoint_ranges in Hd. destruct (Z.leb_spec pg x), (Z.ltb_spec x (pg + Z.of_nat 8)); cbn [andb]; [|done..].
    rewrite (proj2 (andb_false_iff (q <=? x) _)) by (rewrite Z.leb_gt, Z.ltb_ge; lia). change (Z.shiftl 1 63) with (2 ^ 63).
    rewrite <- (Hw (Z.to_nat (x - pg)) ltac:(lia)). f_equal. lia. }
  pose proof (kmalloc_range m0 n Hk) as [Hq1 Hq2]. fold q in Hq1, Hq2. exists q. split; [|split; [done | split; [done | split; [done | split; [|split]]]]].
  - unfold ps4KernelMemoryAllocate. rewrite (proj2 (Z.eqb_neq size 0)) by lia. cbv zeta. change (if size <=? 0x4000 then 0x4001 else size) with (code_block size). rewrite <- En.
    erewrite bind_some by (by apply memory_type_ready_run). unfold ps4KernelProtectionExecuteDisable, ps4KernelProtectionExecuteEnable.
    assert (forall m1, var pg_nx m1 = pg -> resolve_pg_nx m1 = Some (pg, m1)) as Hpg.
    { intros m1 Hv1. unfold resolve_pg_nx, get_var, gets, bind. rewrite Hv1. by rewrite (proj2 (Z.eqb_neq _ _) Hp). }
    erewrite bind_some; [|erewrite bind_some by (by apply Hpg); by apply store64_run]. fold m0. erewrite bind_some by (by apply malloc_run). fold q.
    erewrite bind_some; [|erewrite bind_some by (by apply Hpg); by apply store64_run]. by rewrite Efin.
  - intros x Hx Htx. apply (kmalloc_data m0 n (x - q) Hk); [unfold in_block in Hx; lia|]. fold q. by replace (q + (x - q)) with x by lia.
  - rewrite <- Efin. apply blocks_ok_write, blocks_ok_allocated; [by apply blocks_ok_write | done | done].
  - enough (kroom m0 - cost n <= kroom (allocated m q n)) by lia. unfold cost. apply kroom_after; [done | done | done|]. fold q.
    intros x Hx. destruct (decide (in_block q n x)) as [|Hout]; [by right|]. left. apply Hdom. unfold allocated in Hx. cbn [mem set_allocs set_mem] in Hx.
    rewrite lookup_mem_write, repeat_length in Hx. case_match eqn:Q; [|done]. apply andb_prop in Q as [Q1%Z.leb_le Q2%Z.ltb_lt]. unfold in_block in Hout. lia.
Qed.
End Code.

(** Storing what is there already. *)
Lemma mem_write_id mm a l : mem_read mm a (length l) = Some l -> mem_write mm a l = mm.
Proof.
  intros [_ Hr]%mem_read_Some. apply map_eq. intros x. rewrite lookup_mem_write. case_match eqn:Q; [|done]. apply andb_prop in Q as [Q1%Z.leb_le Q2%Z.ltb_lt].
  rewrite <- (Hr (Z.to_nat (x - a)) ltac:(lia)). f_equal. lia.
Qed.

Lemma zero_words k : repeat 0 k ≫= le_bytes 8 = repeat 0 (8 * k).
Proof. induction k as [|k IH]; [done|]. replace (8 * S k)%nat with (8 + 8 * k)%nat by lia. rewrite repeat_app, <- IH. done. Qed.

(** Allocations in old memory stay. *)
Lemma grown_allocs_old m0 B m q n : grown m0 B m -> is_Some (mem m0 !! q) -> allocs m0 !! q = Some n -> allocs m !! q = Some n.
Proof.
  intros G [b Hb] Hq. rewrite (grown_allocs _ _ _ G). assert (forall p u, (p, u) ∈ B -> p <> q) as Hne.
  { intros p u Hp ->. destruct (grown_words _ _ _ G q u Hp) as (_ & _ & Hl). rewrite (grown_new _ _ _ G q u q Hp) in Hb; [done | unfold in_block; lia]. }
  revert Hne. clear -Hq. induction B as [|[p u] B IH]; intros Hne; [done|]. cbn [new_allocs foldr fst snd].
  rewrite lookup_insert_ne by (apply (Hne p u); by left). apply IH. intros p' u' Hp. apply (Hne p' u'). by right.
Qed.

Lemma lookup_allocated_out m q n x : 0 <= n -> ~ in_block q n x -> mem (allocated m q n) !! x = mem m !! x.
Proof.
  intros Hn Hx. unfold allocated. cbn [mem set_allocs set_mem]. rewrite lookup_mem_write, repeat_length. case_match eqn:Q; [|done].
  apply andb_prop in Q as [Q1%Z.leb_le Q2%Z.ltb_lt]. unfold in_block in Hx. lia.
Qed.

Lemma lookup_allocated_in m q n x : in_block q n x -> is_Some (mem (allocated m q n) !! x).
Proof.
  intros Hx. unfold in_block in Hx. unfold allocated. cbn [mem set_allocs set_mem]. rewrite lookup_mem_write, repeat_length.
  destruct (Z.leb_spec q x), (Z.ltb_spec x (q + Z.of_nat (Z.to_nat n))); try lia. cbn [andb]. apply lookup_lt_is_Some. rewrite repeat_length. lia.
Qed.

(** ** The patches *)

Section Patches.
Context `{PI : PayloadImage}.

(** The templates that make a hook. *)
Definition hook_templates : list (Z * list Z) :=
  [(ps4PayloadTemplateJump32, Jump32_code); (ps4PayloadTemplateJump64, Jump64_code); (ps4PayloadTemplateFunctionHookPrologue, FunctionHookPrologue_code)].
Definition templates_loaded (m : machine) : Prop := Forall (fun t => loaded m t.1 t.2) hook_templates.
Definition templates_clear (x : Z) (n : nat) : Prop := Forall (fun t => clear_of x n t.1 t.2) hook_templates.

Lemma templates_patched m x l : templates_loaded m -> templates_clear x (length l) -> templates_loaded (patched m x l).
Proof.
  unfold templates_loaded, templates_clear. rewrite !Forall_forall. intros Hl Hc t Ht. by apply loaded_patched; [apply Hl | apply Hc].
Qed.

Lemma templates_clear_le x n k : (k <= n)%nat -> templates_clear x n -> templates_clear x k.
Proof. intros Hk Hc. apply (Forall_impl _ _ _ Hc). intros t. by apply clear_of_le. Qed.

Lemma templates_clear_sub x n j k : (j + k <= n)%nat -> templates_clear x n -> templates_clear (x + Z.of_nat j) k.
Proof. intros Hk Hc. apply (Forall_impl _ _ _ Hc). intros t. unfold clear_of, disjoint_ranges. lia. Qed.

Lemma jump_code_kernel a : 2 ^ 63 <= a < 2 ^ 64 -> length (jump_code a) = ps4PayloadTemplateJump64Size.
Proof.
  intros Ha. rewrite length_jump_code. destruct (jump_is_32 a) eqn:E; [|done]. apply jump_is_32_iff in E. rewrite wrap_small in E by lia. lia.
Qed.

(** One jump from kernel memory to kernel memory. *)
Lemma kernel_jump_run m x to :
  templates_loaded m -> templates_clear x ps4PayloadTemplateJump64Size -> mapped_range m x ps4PayloadTemplateJump64Size ->
  2 ^ 63 <= x < 2 ^ 64 -> 2 ^ 63 <= to < 2 ^ 64 ->
  ps4KernelFunctionPatchToJump x to m = Some (PS4_OK, patched m x (jump_code to)).
Proof.
  intros Hl Hc Hm Hx Hto. assert (forall a, 2 ^ 63 <= a < 2 ^ 64 -> ps4KernelIsKernelAddress a = PS4_OK) as Hk by (intros a Ha; apply is_kernel_address_ok; lia).
  unfold ps4KernelFunctionPatchToJump, ps4KernelFunctionPatchToJumpUnsafe. rewrite !Hk by done. rewrite Z.eqb_refl. cbn [negb].
  erewrite bind_some; [done|]. erewrite bind_some; [done|]. apply jump_patch_run. unfold templates_loaded, templates_clear, hook_templates in *.
  rewrite !Forall_cons in Hl, Hc. destruct Hl as (? & ? & _), Hc as (? & ? & _). split; try done. split; [unfold NULL; lia|]. split; [lia | done].
Qed.

(** The prologue, the bridge and the function afterwards. *)
Definition prologue_code (arg : Z) : list Z := [0x49; 0xbb] ++ le_bytes 8 arg ++ function_hook_prologue_rest.
Definition hooked_machine (m : machine) (arg function prologue bridge : Z) (code : list Z) : machine :=
  patched (patched (patched m prologue (prologue_code arg)) bridge (code ++ jump_code (function + Z.of_nat (length code)))) function (jump_code prologue).

(** Where they may be. *)
Record patch_sites (m : machine) (function prologue bridge : Z) (code : list Z) : Prop := PatchSites {
  sites_code : mem_read (mem m) function (length code) = Some code;
  sites_long : (ps4PayloadTemplateJump64Size <= length code)%nat;
  sites_prologue : mapped_range m prologue ps4PayloadTemplateFunctionHookPrologueSize;
  sites_bridge : mapped_range m bridge (length code + ps4PayloadTemplateJump64Size);
  sites_templates : templates_loaded m;
  sites_clear : templates_clear function ps4PayloadTemplateJump64Size /\ templates_clear prologue ps4PayloadTemplateFunctionHookPrologueSize /\
    templates_clear bridge (length code + ps4PayloadTemplateJump64Size);
  sites_apart : disjoint_ranges prologue (Z.of_nat ps4PayloadTemplateFunctionHookPrologueSize) function (Z.of_nat (length code)) /\
    disjoint_ranges bridge (Z.of_nat (length code + ps4PayloadTemplateJump64Size)) function (Z.of_nat (length code)) /\
    disjoint_ranges bridge (Z.of_nat (length code + ps4PayloadTemplateJump64Size)) prologue (Z.of_nat ps4PayloadTemplateFunctionHookPrologueSize);
  sites_kernel : 2 ^ 63 <= function /\ function + Z.of_nat (length code) < 2 ^ 64 /\ 2 ^ 63 <= prologue < 2 ^ 64 /\
    2 ^ 63 <= bridge /\ bridge + Z.of_nat (length code) < 2 ^ 64
}.

(** The four patches that end the construction. *)
Definition hook_patches (arg function prologue bridge copied : Z) : K (outcome * Z) :=
  do! ps4PayloadFunctionHookProloguePatch prologue arg in
  do! ps4KernelMemoryCopy function bridge (Z.to_nat copied) in
  do! ps4KernelFunctionPatchToJump (bridge + copied) (function + copied) in
  do! ps4KernelFunctionPatchToJump function prologue in
  ret (Finish PS4_OK, arg).

Lemma length_prologue_code arg : length (prologue_code arg) = ps4PayloadTemplateFunctionHookPrologueSize.
Proof. unfold prologue_code, ps4PayloadTemplateFunctionHookPrologueSize, FunctionHookPrologue_code. rewrite !length_app, length_le_bytes. done. Qed.

Lemma hook_patches_run m arg function prologue bridge code :
  patch_sites m function prologue bridge code ->
  hook_patches arg function prologue bridge (Z.of_nat (length code)) m = Some ((Finish PS4_OK, arg), hooked_machine m arg function prologue bridge code).
Proof.
  intros [Hr Hlong Hp Hb Ht (Cf & Cp & Cb) (A1 & A2 & A3) (K1 & K2 & K3 & K4 & K5)]. unfold hook_patches. pose proof (length_prologue_code arg) as Lp.
  set (m1 := patched m prologue (prologue_code arg)). set (m2 := patched m1 bridge code).
  set (m3 := patched m2 (bridge + Z.of_nat (length code)) (jump_code (function + Z.of_nat (length code)))).
  pose proof (jump_code_kernel (function + Z.of_nat (length code)) ltac:(lia)) as Lj.
  assert (templates_loaded m1) as T1 by (apply templates_patched; [done | by rewrite Lp]).
  assert (templates_loaded m2) as T2 by (apply templates_patched; [done | by eapply templates_clear_le; [|exact Cb]; lia]).
  assert (templates_clear (bridge + Z.of_nat (length code)) ps4PayloadTemplateJump64Size) as C2 by (by eapply templates_clear_sub; [|exact Cb]).
  assert (templates_loaded m3) as T3 by (apply templates_patched; [done | by rewrite Lj]).
  erewrite bind_some; [|apply (prologue_patch_run m _ function_hook_prologue_rest); [apply (Forall_lookup_1 _ _ 2%nat _ Ht eq_refl) | split; [unfold NULL; lia|]; split; [lia | exact Hp] |
    apply (Forall_lookup_1 _ _ 2%nat _ Cp eq_refl)]]. change (patched m prologue _) with m1. rewrite Nat2Z.id.
  erewrite bind_some; [|apply copy_run; [unfold NULL; lia | unfold NULL; lia | | |]]; cycle 1.
  { unfold disjoint_ranges in *. lia. }
  { unfold m1, patched. cbn [mem set_cr0 set_mem]. rewrite mem_read_write_other; [exact Hr | by rewrite Lp]. }
  { apply mapped_range_patched. intros i Hi. apply Hb. lia. }
  fold m2. erewrite bind_some; [|apply kernel_jump_run; [done | done | | lia | lia]]; cycle 1.
  { apply mapped_range_patched, mapped_range_patched. by eapply mapped_range_sub; [exact Hb|]. }
  fold m3. erewrite bind_some; [|apply kernel_jump_run; [done | done | | lia | lia]]; cycle 1.
  { apply mapped_range_patched, mapped_range_patched, mapped_range_patched. intros i Hi. apply (mapped_range_read _ _ _ _ Hr). lia. }
  unfold m3, m2. by rewrite patched_snoc.
Qed.

(** What is where afterwards. *)
Lemma hooked_reads m arg function prologue bridge code (hm := hooked_machine m arg function prologue bridge code) :
  patch_sites m function prologue bridge code ->
  mem_read (mem hm) prologue ps4PayloadTemplateFunctionHookPrologueSize = Some (prologue_code arg) /\
  mem_read (mem hm) bridge (length code + ps4PayloadTemplateJump64Size) = Some (code ++ jump_code (function + Z.of_nat (length code))) /\
  mem_read (mem hm) function ps4PayloadTemplateJump64Size = Some (jump_code prologue) /\ templates_loaded hm.
Proof.
  intros [Hr Hlong Hp Hb Ht (Cf & Cp & Cb) (A1 & A2 & A3) (K1 & K2 & K3 & K4 & K5)]. pose proof (length_prologue_code arg) as Lp.
  pose proof (jump_code_kernel (function + Z.of_nat (length code)) ltac:(lia)) as Lj. pose proof (jump_code_kernel prologue ltac:(lia)) as Lp'.
  unfold disjoint_ranges in *. unfold hm, hooked_machine. split; [|split; [|split]].
  - unfold patched. cbn [mem set_cr0 set_mem]. rewrite 2!mem_read_write_other, <- Lp; [apply mem_read_write_same | |]; unfold disjoint_ranges; rewrite ?length_app; lia.
  - unfold patched. cbn [mem set_cr0 set_mem]. rewrite mem_read_write_other by (unfold disjoint_ranges; lia). rewrite <- Lj, <- length_app. apply mem_read_write_same.
  - rewrite <- Lp'. apply patched_bytes.
  - repeat apply templates_patched; [done | by rewrite Lp | by rewrite length_app, Lj | by rewrite Lp'].
Qed.

Lemma hooked_elsewhere m arg function prologue bridge code x :
  patch_sites m function prologue bridge code -> ~ function <= x < function + Z.of_nat ps4PayloadTemplateJump64Size ->
  ~ in_block prologue (Z.of_nat ps4PayloadTemplateFunctionHookPrologueSize) x -> ~ in_block bridge (Z.of_nat (length code + ps4PayloadTemplateJump64Size)) x ->
  mem (hooked_machine m arg function prologue bridge code) !! x = mem m !! x.
Proof.
  intros [_ _ _ _ _ _ _ (K1 & K2 & K3 & _)] Hf Hp Hb. pose proof (length_prologue_code arg) as Lp. pose proof (jump_code_kernel prologue ltac:(lia)) as Lp'.
  pose proof (jump_code_kernel (function + Z.of_nat (length code)) ltac:(lia)) as Lj. unfold in_block in *.
  unfold hooked_machine, patched. cbn [mem set_cr0 set_mem]. rewrite !lookup_mem_write, length_app, Lp, Lj, Lp'.
  repeat (case_match eqn:Q; [apply andb_prop in Q as [Q1%Z.leb_le Q2%Z.ltb_lt]; lia|clear Q]). done.
Qed.

(** The way back to the structure. *)
Lemma get_hook_run `{D : KernelDlSym} `{HA : KernelAllocator} `{HS : KernelSysctl} `{HI : HookImage} m arg function prologue :
  templates_loaded m -> mem_read (mem m) function ps4PayloadTemplateJump64Size = Some (jump_code prologue) ->
  mem_read (mem m) prologue ps4PayloadTemplateFunctionHookPrologueSize = Some (prologue_code arg) ->
  var ps4KernelFunctionHookMutex m <> NULL -> 2 ^ 63 <= function -> 2 ^ 63 <= prologue < 2 ^ 64 -> 0 <= arg < 2 ^ 64 ->
  exists m', ps4KernelFunctionGetHook function OPtr m = Some ((PS4_OK, Some arg), m').
Proof.
  intros Ht Hf Hp Hmx Kf Kp Ka. unfold ps4KernelFunctionGetHook, hook_initialized_or_return. set (mx := var ps4KernelFunctionHookMutex m) in *.
  erewrite bind_some by reflexivity. fold mx. rewrite (proj2 (Z.eqb_neq mx NULL) Hmx). erewrite bind_some by reflexivity. fold mx.
  erewrite bind_some by (unfold mtx_lock; by rewrite (proj2 (Z.eqb_neq mx NULL) Hmx)). fold (locked mx m).
  erewrite bind_some; [|apply (jump_extract_run (locked mx m) function prologue); [unfold NULL; lia | lia | exact (Forall_lookup_1 _ _ 0%nat _ Ht eq_refl) |
    exact (Forall_lookup_1 _ _ 1%nat _ Ht eq_refl) | by rewrite (jump_code_kernel prologue Kp)]].
  rewrite wrap_small by lia. set (m1 := set_cr0 _ _). change (negb (fst (PS4_OK, Some prologue) =? PS4_OK)) with false. cbv iota. change (default 0 (snd (PS4_OK, Some prologue))) with prologue.
  destruct (prologue_extract_run m1 ps4PayloadTemplateFunctionHookPrologue function_hook_prologue_rest prologue arg) as [_ E];
    [exact (Forall_lookup_1 _ _ 2%nat _ Ht eq_refl) | unfold NULL; lia | lia | exact Hp|].
  erewrite bind_some by exact E. rewrite wrap_small by lia. eexists. erewrite bind_some; [reflexivity|]. unfold mtx_unlock.
  rewrite (proj2 (Z.eqb_neq mx NULL) Hmx). set (m2 := set_cr0 _ m1). change (hold_count mx m2) with (hold_count mx (locked mx m)). by rewrite hold_count_locked, decide_True.
Qed.
End Patches.

(** ** The steps of the construction *)

Local Ltac lt := apply Nat.ltb_lt; reflexivity.
Local Ltac len := rewrite ?length_insert; done.


Section Walk.
Context `{D : KernelDlSym} `{Sy : !KernelSymbols D} `{HA : KernelAllocator} `{HL : !KernelAllocatorLaws HA} `{HR : !KernelRoom HA} `{HS : KernelSysctl}.
Context (R : roles) (c pg : Z) (start : machine).

(** The machine the construction starts with: the symbol cache in use, the
    memory type known, and [*pg_nx] the no-execute bit. *)
Record prepared : Prop := Prepared {
  pre_symbols : symbols_ready R start c;
  pre_type : var ps4KernelMemoryType start <> NULL;
  pre_pg : var pg_nx start = pg /\ pg <> NULL;
  pre_pg_word : mem_read (mem start) pg 8 = Some (le_bytes 8 (2 ^ 63));
  pre_pg_data x : pg <= x < pg + 8 -> x ∉ text start
}.
Hypothesis Hpre : prepared.

Definition code_allocs (C : list (Z * Z)) (A : gmap Z Z) : gmap Z Z := foldr (fun p => <[p.1 := p.2]>) A C.

(** [m0] is that machine with the blocks [C] of code besides; the mutexes are
    held as before. *)
Record extends (C : list (Z * Z)) (m0 : machine) : Prop := Extends {
  ext_rest : m0 = set_cr0 (cr0 m0) (set_held (held m0) (set_allocs (allocs m0) (set_mem (mem m0) start)));
  ext_held a : hold_count a m0 = hold_count a start;
  ext_cr0 : Z.lor (cr0 m0) CR0_WP = Z.lor (cr0 start) CR0_WP;
  ext_blocks : allocs m0 = code_allocs C (allocs start);
  ext_allocs a n : allocs start !! a = Some n -> allocs m0 !! a = Some n;
  ext_mem x b : mem start !! x = Some b -> mem m0 !! x = Some b;
  ext_none x : mem start !! x = None -> (forall q n, (q, n) ∈ C -> ~ in_block q n x) -> mem m0 !! x = None;
  ext_code q n : (q, n) ∈ C -> 2 ^ 63 <= q /\ q + n <= 2 ^ 64 /\ 0 < n /\ allocs m0 !! q = Some n /\
    forall x, in_block q n x -> is_Some (mem m0 !! x) /\ mem start !! x = None
}.

(** The construction under way: room for [need] bytes, code [C], words [B]. *)
Definition under_way (need : Z) (C : list (Z * Z)) (B : list (Z * list Z)) (m : machine) : Prop :=
  exists m0, extends C m0 /\ grown m0 B m /\ need <= kroom m.

Lemma under_way_start m need :
  m = set_held (held m) start -> (forall a, hold_count a m = hold_count a start) -> need <= kroom m -> under_way need [] [] m.
Proof.
  intros Em Eh Hn. exists m. split; [|split; [|done]].
  - split; [rewrite Em; by destruct start | done | by rewrite Em | by rewrite Em | by rewrite Em | by rewrite Em | by rewrite Em | by intros ? ? ?%elem_of_nil].
  - apply grown_start. apply (blocks_ok_eq start); [by rewrite Em..|]. apply (pre_symbols Hpre).
Qed.

(** What the machine still has of the one at the start. *)
Lemma under_way_rest need C B m : under_way need C B m -> m = set_cr0 (cr0 m) (set_held (held m) (set_allocs (allocs m) (set_mem (mem m) start))).
Proof. intros (m0 & X & G & _). rewrite (grown_rest _ _ _ G) at 1. rewrite (ext_rest _ _ X) at 1. rewrite (grown_rest _ _ _ G). done. Qed.

Lemma under_way_var need C B m v : under_way need C B m -> var v m = var v start.
Proof. intros U%under_way_rest. unfold var. by rewrite U. Qed.

Lemma under_way_text need C B m : under_way need C B m -> text m = text start.
Proof. intros U%under_way_rest. by rewrite U. Qed.

Lemma under_way_mem need C B m x b : under_way need C B m -> mem start !! x = Some b -> mem m !! x = Some b.
Proof. intros (m0 & X & G & _) Hx. apply (grown_kept m0 B m x b G), (ext_mem _ _ X), Hx. Qed.

Lemma under_way_read need C B m a n l : under_way need C B m -> mem_read (mem start) a n = Some l -> mem_read (mem m) a n = Some l.
Proof. intros U Hr. apply (mem_read_keeps _ _ _ _ _ Hr). intros x b _. by eapply under_way_mem. Qed.

Lemma under_way_held need C B m a : under_way need C B m -> hold_count a m = hold_count a start.
Proof. intros (m0 & X & G & _). rewrite <- (ext_held _ _ X a). unfold hold_count. by rewrite (grown_rest _ _ _ G). Qed.

Lemma under_way_words need C B m j p l : under_way need C B m -> B !! j = Some (p, l) -> words m p l /\ 0 < p < 2 ^ 64 /\ (0 < length l)%nat.
Proof. intros (m0 & _ & G & _) Hj. apply (grown_words _ _ _ G). by eapply list_elem_of_lookup_2. Qed.

Lemma under_way_load need C B m j p l i v : under_way need C B m -> B !! j = Some (p, l) -> l !! i = Some v -> load64 (p + 8 * Z.of_nat i) m = Some (v, m).
Proof. intros U Hj. apply words_load. by eapply under_way_words. Qed.

Lemma under_way_pg need C B m : under_way need C B m -> writable_range m pg 8.
Proof.
  intros U. apply writable_range_iff. intros i Hi. split.
  - destruct (mapped_range_read _ _ _ _ (under_way_read _ _ _ _ _ _ _ U (pre_pg_word Hpre)) i Hi) as [b Hb]. by exists b.
  - rewrite (under_way_text _ _ _ _ U). intros []%(pre_pg_data Hpre). lia.
Qed.

Lemma under_way_less need need' C B m : under_way need C B m -> need' <= need -> under_way need' C B m.
Proof. intros (m0 & X & G & Hn) Hl. exists m0. split; [done|]. split; [done | lia]. Qed.

(** The lookups and the protection bit. *)
Lemma under_way_control need C B m v h :
  under_way need C B m -> (forall a, hold_count a (set_held h m) = hold_count a m) -> Z.lor v CR0_WP = Z.lor (cr0 m) CR0_WP ->
  under_way need C B (set_cr0 v (set_held h m)).
Proof.
  intros (m0 & X & G & Hn) Hh Hv. exists (set_cr0 v (set_held h m0)). split; [|split; [by apply grown_cr0, grown_held|]].
  - destruct X as [X1 X2 X3 X4 X5 X6 X7 X8]. split; [rewrite X1; done | | by rewrite <- X3; cbn [cr0 set_cr0 set_held]; rewrite Hv, (grown_rest _ _ _ G) | done..]. intros a. rewrite <- X2. transitivity (hold_count a m); [exact (Hh a)|].
    unfold hold_count. by rewrite (grown_rest _ _ _ G).
  - etransitivity; [exact Hn|]. by apply kroom_same.
Qed.

(** The symbol cache is still in use. *)
Lemma under_way_symbols need C B m : under_way need C B m -> symbols_ready R m c /\ view m c = view start c.
Proof.
  intros U. destruct (pre_symbols Hpre) as [Hi Hc Hin Hmx Hright]. pose proof (under_way_rest _ _ _ _ U) as Er.
  assert (blocks_ok m /\ forall a n, allocs start !! a = Some n -> allocs m !! a = Some n) as [Hb Ha].
  { destruct U as (m0 & X & G & _). split; [apply G|]. intros a n Ha. apply (grown_allocs_old m0 B); [done | | by apply (ext_allocs _ _ X)].
    destruct (block_size _ (inv_blocks _ _ Hi) _ _ Ha). destruct (block_mapped _ (inv_blocks _ _ Hi) a n a Ha) as [[b E] _]; [unfold in_block; lia|].
    exists b. by apply (ext_mem _ _ X). }
  apply (symbols_same R start m c); [apply (pre_symbols Hpre) | done | by rewrite Er | by rewrite Er | intros v; by apply under_way_var with need C B | done|].
  intros x b _ Hx. exact (under_way_mem need C B m x b U Hx).
Qed.

Lemma under_way_symbol need C B m s v :
  under_way need C B m -> view start c !! name_key s = Some v ->
  exists m', ps4KernelSymbolLookUp (Some s) OPtr m = Some ((PS4_OK, Some v), m') /\ under_way need C B m'.
Proof.
  intros U Hv. destruct (under_way_symbols _ _ _ _ U) as [Hs Hview]. rewrite <- Hview in Hv. destruct (symbol_hit_run R m c s v Hs Hv) as (h & E & Hh).
  exists (set_held h m). split; [done|]. replace (set_held h m) with (set_cr0 (cr0 m) (set_held h m)) by (by destruct m). by apply under_way_control.
Qed.

(** Memory for data: zeros. *)
Lemma under_way_alloc need C B m k :
  under_way need C B m -> (0 < k)%nat -> cost (8 * Z.of_nat k) <= need ->
  exists p m', ps4KernelMemoryAllocateData OPtr (8 * Z.of_nat k) m = Some ((PS4_OK, Some p), m') /\
    under_way (need - cost (8 * Z.of_nat k)) C ((p, repeat 0 k) :: B) m'.
Proof.
  intros U Hk Hc. pose proof (under_way_var _ _ _ _ ps4KernelMemoryType U) as Ht. destruct U as (m0 & X & G & Hn).
  assert (cost (8 * Z.of_nat k) <= kroom m) as Hroom by lia. destruct (grown_alloc m0 B m k G Hk Hroom) as (p & m' & E & G' & Hr). exists p, m'. split; [|exists m0; split; [done|]; split; [done | lia]].
  unfold ps4KernelMemoryAllocateData. rewrite (proj2 (Z.eqb_neq _ 0)) by lia.
  erewrite bind_some by (apply memory_type_ready_run; rewrite Ht; apply (pre_type Hpre)). by erewrite bind_some.
Qed.

Lemma under_way_fill need C B m j p k :
  under_way need C B m -> B !! j = Some (p, repeat 0 k) ->
  exists m', ps4KernelMemoryFill p 0 (8 * k) m = Some (PS4_OK, m') /\ under_way need C B m'.
Proof.
  intros U Hj. destruct (under_way_words _ _ _ _ _ _ _ U Hj) as (W & Hp & _). pose proof (words_bytes _ _ _ W) as Hb.
  rewrite repeat_length, zero_words in Hb. eexists. split; [apply fill_run; [unfold NULL; lia | by eapply mapped_range_read]|].
  unfold patched. change (wrap 8 0) with 0. rewrite mem_write_id by (by rewrite repeat_length).
  replace (set_cr0 _ _) with (set_cr0 (Z.lor (cr0 m) CR0_WP) (set_held (held m) m)) by (by destruct m).
  apply under_way_control; [done | done|]. by rewrite <- Z.lor_assoc, Z.lor_diag.
Qed.

(** A field of the structure. *)
Lemma under_way_put need C B m j p l i v :
  under_way need C B m -> B !! j = Some (p, l) -> (i < length l)%nat -> 0 <= v < 2 ^ 64 ->
  exists m', store64 (p + 8 * Z.of_nat i) v m = Some (tt, m') /\ under_way need C (<[j := (p, <[i := v]> l)]> B) m'.
Proof.
  intros (m0 & X & G & Hn) Hj Hi Hv. destruct (grown_put m0 B m j p l i v G Hj Hi Hv) as [E G']. eexists. split; [done|]. exists m0.
  split; [done|]. split; [done|]. pose proof (grown_room _ _ _ _ _ _ _ _ G Hj (length_insert l i v) G'). lia.
Qed.

Lemma under_way_field_alloc need C B m j arg F i k :
  under_way need C B m -> B !! j = Some (arg, F) -> (i < length F)%nat -> (0 < k)%nat -> cost (8 * Z.of_nat k) <= need ->
  exists p m', (forall kont, field_alloc arg (arg + 8 * Z.of_nat i) (8 * Z.of_nat k) kont m = kont p m') /\
    under_way (need - cost (8 * Z.of_nat k)) C ((p, repeat 0 k) :: <[j := (arg, <[i := p]> F)]> B) m'.
Proof.
  intros U Hj Hi Hk Hc. destruct (under_way_alloc _ _ _ _ k U Hk Hc) as (p & m1 & E1 & U1).
  destruct (under_way_words _ _ _ _ 0 p (repeat 0 k) U1 eq_refl) as (_ & Hp & _).
  destruct (under_way_put _ _ _ _ (S j) arg F i p U1 Hj Hi ltac:(lia)) as (m2 & E2 & U2).
  assert ((<[S j := (arg, <[i := p]> F)]> ((p, repeat 0 k) :: B)) !! S j = Some (arg, <[i := p]> F)) as Hj'.
  { apply list_lookup_insert_eq. cbn [length]. apply lookup_lt_Some in Hj. lia. }
  destruct (under_way_fill _ _ _ _ 0 p k U2 eq_refl) as (m3 & E3 & U3). exists p, m3. split; [|exact U3]. intros kont. unfold field_alloc.
  erewrite bind_some by exact E1. cbn [snd out_to_field]. erewrite bind_some by exact E2.
  erewrite bind_some by (by apply (under_way_load _ _ _ _ _ _ _ i p U2 Hj'), list_lookup_insert_eq). rewrite (proj2 (Z.eqb_neq p NULL)) by (unfold NULL; lia).
  replace (Z.to_nat (8 * Z.of_nat k)) with (8 * k)%nat by lia. by erewrite bind_some.
Qed.

(** Memory for code. *)
Lemma under_way_code_alloc need C B m size :
  under_way need C B m -> 0 < size -> cost (code_block size) <= need ->
  exists q m', ps4KernelMemoryAllocate OPtr size m = Some ((PS4_OK, Some q), m') /\ 0 < q < 2 ^ 64 /\
    under_way (need - cost (code_block size)) ((q, code_block size) :: C) B m' /\
    (forall p n, (p, n) ∈ C -> disjoint_ranges q (code_block size) p n).
Proof.
  intros U Hs Hc. pose proof (code_block_size size) as [_ Hn0]. assert (blocks_ok m) as Hb by (by destruct U as (m0 & _ & G & _); apply G).
  assert (need <= kroom m) as Hroom by (by destruct U as (m0 & _ & _ & ?)).
  destruct (allocate_code_run m pg size) as (q & E & Hq1 & Hq2 & Hfr & _ & Hb' & Hr); try done; [| | | | | lia |].
  { rewrite (under_way_var _ _ _ _ _ U). apply (pre_type Hpre). }
  { rewrite (under_way_var _ _ _ _ _ U). apply (pre_pg Hpre). }
  { apply (pre_pg Hpre). }
  { eapply under_way_read; [done | apply (pre_pg_word Hpre)]. }
  { by eapply under_way_pg. }
  remember (code_block size) as n eqn:En. assert (forall p k, (p, k) ∈ C -> p <> q /\ forall x, in_block p k x -> ~ in_block q n x) as Hne.
  { destruct U as (m0 & X & G & _). intros p k Hp. destruct (ext_code _ _ X p k Hp) as (_ & _ & Hk & _ & Hx).
    assert (forall x, in_block p k x -> ~ in_block q n x) as Hout by (intros x [[b Eb] _]%Hx; apply Hfr; exists b; by apply (grown_kept m0 B)).
    split; [|done]. intros ->. apply (Hout q); unfold in_block; lia. }
  assert (under_way (need - cost n) ((q, n) :: C) B (allocated m q n)) as U1.
  { destruct U as (m0 & X & G & Hn). exists (allocated m0 q n).
    assert (forall x, is_Some (mem m0 !! x) -> ~ in_block q n x) as Hfr0 by (intros x [b Hx]; apply Hfr; exists b; by apply (grown_kept m0 B)).
    split; [|split; [by apply grown_code | lia]]. split.
    - rewrite (ext_rest _ _ X) at 1. done.
    - intros a. apply (ext_held _ _ X).
    - apply (ext_cr0 _ _ X).
    - unfold allocated. cbn [allocs set_allocs]. by rewrite (ext_blocks _ _ X).
    - intros a k Ha. unfold allocated. cbn [allocs set_allocs]. pose proof (inv_blocks _ _ (symbols_inv _ _ _ (pre_symbols Hpre))) as Hbs. destruct (block_size _ Hbs _ _ Ha).
      rewrite lookup_insert_ne; [by apply (ext_allocs _ _ X)|]. intros <-. destruct (block_mapped _ Hbs q k q Ha) as [[b Eb] _]; [unfold in_block; lia|].
      apply (Hfr0 q); [exists b; by apply (ext_mem _ _ X) | unfold in_block; lia].
    - intros x b Hx. apply (ext_mem _ _ X) in Hx. rewrite lookup_allocated_out; [done | lia|]. apply Hfr0. by exists b.
    - intros x Hx Hout. rewrite lookup_allocated_out; [|lia | apply Hout; by left]. apply (ext_none _ _ X); [done|]. intros p k Hp. apply Hout. by right.
    - intros p k [[= -> ->]|Hp]%elem_of_cons.
      + split; [done|]. split; [done|]. split; [done|]. split; [apply lookup_insert_eq|]. intros x Hx. split; [by apply lookup_allocated_in|].
        destruct (mem start !! x) as [b|] eqn:Ex; [|done]. exfalso. apply (Hfr0 x); [exists b; by apply (ext_mem _ _ X) | done].
      + destruct (ext_code _ _ X p k Hp) as (Hp1 & Hp2 & Hk & Ha & Hx). split; [done|]. split; [done|]. split; [done|]. split.
        * unfold allocated. cbn [allocs set_allocs]. rewrite lookup_insert_ne; [done|]. by apply not_eq_sym, (Hne p k).
        * intros x Hin. destruct (Hx x Hin) as [Hm Hst]. split; [|done]. rewrite lookup_allocated_out; [done | lia|]. by apply Hfr0. }
  exists q, (allocated m q n). split; [done|]. split; [lia|]. split; [done|].
  intros p k Hp. pose proof (proj2 (Hne p k Hp)) as Ho. destruct U as (m0 & X & _). destruct (ext_code _ _ X p k Hp) as (_ & _ & Hk & _).
  unfold disjoint_ranges. destruct (decide (q < p)); [destruct (decide (q + n <= p)); [lia|]; exfalso; apply (Ho p); unfold in_block; lia|].
  destruct (decide (p + k <= q)); [lia|]. exfalso. apply (Ho q); unfold in_block; lia.
Qed.

Lemma under_way_field_code need C B m j arg F i size :
  under_way need C B m -> B !! j = Some (arg, F) -> (i < length F)%nat -> 0 < size -> cost (code_block size) <= need ->
  exists q m', (forall kont, field_alloc_code arg (arg + 8 * Z.of_nat i) size kont m = kont q m') /\
    under_way (need - cost (code_block size)) ((q, code_block size) :: C) (<[j := (arg, <[i := q]> F)]> B) m' /\
    (forall p n, (p, n) ∈ C -> disjoint_ranges q (code_block size) p n).
Proof.
  intros U Hj Hi Hs Hc. destruct (under_way_code_alloc _ _ _ _ size U Hs Hc) as (q & m1 & E & Hq & U1 & Hd).
  destruct (under_way_put _ _ _ _ j arg F i q U1 Hj Hi ltac:(lia)) as (m2 & E2 & U2). exists q, m2. split; [|done].
  intros kont. unfold field_alloc_code. erewrite bind_some by exact E. cbn [snd out_to_field]. erewrite bind_some by exact E2.
  erewrite bind_some; [|apply (under_way_load _ _ _ _ j arg (<[i := q]> F) i q U2); [apply list_lookup_insert_eq; by eapply lookup_lt_Some | by apply list_lookup_insert_eq]].
  by rewrite (proj2 (Z.eqb_neq q NULL)) by (unfold NULL; lia).
Qed.

(** Code that is written where code was allocated. *)
Lemma under_way_patch need C B m q n l :
  under_way need C B m -> (q, n) ∈ C -> Z.of_nat (length l) <= n -> under_way need C B (patched m q l).
Proof.
  intros (m0 & X & G & Hn) Hq Hl. destruct (ext_code _ _ X q n Hq) as (_ & _ & _ & _ & Hx).
  assert (mapped_range m0 q (length l)) as Hm by (intros i Hi; apply (Hx (q + Z.of_nat i)); unfold in_block; lia).
  assert (forall m1 x, ~ in_block q n x -> mem (patched m1 q l) !! x = mem m1 !! x) as Hout.
  { intros m1 x Ho. unfold patched. cbn [mem set_cr0 set_mem]. rewrite lookup_mem_write. case_match eqn:Q; [|done].
    apply andb_prop in Q as [Q1%Z.leb_le Q2%Z.ltb_lt]. unfold in_block in Ho. lia. }
  assert (forall m1 x, is_Some (mem m1 !! x) -> is_Some (mem (patched m1 q l) !! x)) as Hin.
  { intros m1 x Hm1. unfold patched. cbn [mem set_cr0 set_mem]. rewrite lookup_mem_write. case_match eqn:Q; [|done].
    apply andb_prop in Q as [Q1%Z.leb_le Q2%Z.ltb_lt]. apply lookup_lt_is_Some. lia. }
  exists (patched m0 q l). split; [|split; [by apply grown_patch|]].
  - destruct X as [X1 X2 X3 X4 X5 X6 X7 X8]. split; try done.
    + rewrite X1 at 1. done.
    + cbn [patched cr0 set_cr0]. by rewrite <- Z.lor_assoc, Z.lor_diag.
    + intros x b Hb. rewrite Hout; [by apply X6|]. intros Ho. by rewrite (proj2 (Hx x Ho)) in Hb.
    + intros x Hx0 Hno. rewrite Hout by (by apply Hno). by apply X7.
    + intros p k Hp. destruct (X8 p k Hp) as (? & ? & ? & ? & Hx8). split; [done|]. split; [done|]. split; [done|]. split; [done|].
      intros x Ho. destruct (Hx8 x Ho). split; [by apply Hin | done].
  - etransitivity; [exact Hn|]. apply kroom_same; [done|]. intros x. unfold patched. cbn [mem set_cr0 set_mem]. rewrite lookup_mem_write. case_match eqn:Q; [|done].
    intros _. apply andb_prop in Q as [Q1%Z.leb_le Q2%Z.ltb_lt]. destruct (Hm (Z.to_nat (x - q)) ltac:(lia)) as [b Hb].
    exists b. apply (grown_kept m0 B m _ _ G). by replace (q + Z.of_nat (Z.to_nat (x - q))) with x in Hb by lia.
Qed.

(** Room for a hook: five blocks of words, two of code. *)
Definition hook_room `{PayloadImage} : Z :=
  cost (8 * Z.of_nat 23) + cost (8 * Z.of_nat 6) + cost (8 * Z.of_nat 8) + cost (8 * Z.of_nat 8) +
  cost (code_block (Z.of_nat ps4PayloadTemplateFunctionHookPrologueSize)) + cost (code_block 1).

(** The fields of a new hook. *)
Definition new_fields (clone handler destroy function f g mt prologue bridge copied A T H Ty : Z) : list Z :=
  [clone; handler; 0; 0; 0; prologue; destroy; 0; A; T; function; bridge; copied; H; Ty; 0; 0; 8; 0; 0; f; g; mt; 0].

Context `{PI : PayloadImage} `{HI : HookImage}.
Context (function f g mt : Z).
Hypothesis Hfun : 2 ^ 63 <= function /\ function + 43 <= 2 ^ 64.
Hypothesis Hcode : mapped_bytes start function (Z.of_nat ps4PayloadTemplateJump64Size + 30).
Hypothesis Hmalloc : view start c !! name_key "malloc" = Some f /\ 0 <= f < 2 ^ 64.
Hypothesis Hfree : view start c !! name_key "free" = Some g /\ 0 <= g < 2 ^ 64.
Hypothesis Htype : view start c !! name_key "M_TEMP" = Some mt /\ 0 <= mt < 2 ^ 64.
Notation handler := (var ps4KernelFunctionHookHandler start).
Notation clone := (var ps4FunctionHookArgumentClone start).
Notation destroy := (var ps4FunctionHookArgumentDestroy start).
Hypothesis Hstatic : 0 <= handler < 2 ^ 64 /\ 0 <= clone < 2 ^ 64 /\ 0 <= destroy < 2 ^ 64.

Lemma jump_size_kernel a : 2 ^ 63 <= a < 2 ^ 64 -> default 0 (snd (ps4PayloadJumpDeterminePatchSize a OPtr)) = Z.of_nat ps4PayloadTemplateJump64Size.
Proof.
  intros Ha. cbn [ps4PayloadJumpDeterminePatchSize snd default]. destruct (jump_is_32 a) eqn:E; [|done]. apply jump_is_32_iff in E. rewrite wrap_small in E by lia. lia.
Qed.

Lemma prologue_size_eq : Z.of_nat ps4PayloadTemplateFunctionHookPrologueSize = 10 + Z.of_nat (length function_hook_prologue_rest).
Proof. unfold ps4PayloadTemplateFunctionHookPrologueSize, FunctionHookPrologue_code. rewrite !length_app. cbn. lia. Qed.

(** The blocks, up to the prologue's. *)
Definition hook_blocks (arg : Z) (k : Z -> K (outcome * Z)) : K (outcome * Z) :=
  field_alloc arg (arg + o_arguments) sizeof_Ps4RegisterParameters (fun _ =>
  field_alloc arg (arg + o_returns) sizeof_Ps4RegisterReturns (fun _ =>
  do! store64 (arg + o_hookSize) 8 in
  field_alloc arg (arg + o_hook) (8 * 8) (fun _ =>
  field_alloc arg (arg + o_hookType) (8 * 8) (fun _ =>
  field_alloc_code arg (arg + o_prologue) (Z.of_nat ps4PayloadTemplateFunctionHookPrologueSize) k)))).

Lemma hook_blocks_run m arg :
  under_way hook_room [] [(arg, repeat 0 24)] m ->
  exists prologue A T H Ty m', (forall k, hook_blocks arg k m = k prologue m') /\ 2 ^ 63 <= prologue < 2 ^ 64 /\
    under_way (cost (code_block 1)) [(prologue, code_block (Z.of_nat ps4PayloadTemplateFunctionHookPrologueSize))]
      [(Ty, repeat 0 8); (H, repeat 0 8); (T, repeat 0 6); (A, repeat 0 23);
       (arg, [0; 0; 0; 0; 0; prologue; 0; 0; A; T; 0; 0; 0; H; Ty; 0; 0; 8; 0; 0; 0; 0; 0; 0])] m'.
Proof.
  intros U. unfold hook_room in U. set (np := Z.of_nat ps4PayloadTemplateFunctionHookPrologueSize) in *.
  pose proof (proj2 (code_block_size np)) as Hn1. pose proof (proj2 (code_block_size 1)) as Hn2.
  destruct (under_way_field_alloc _ _ _ _ 0 arg _ 8 23 U eq_refl ltac:(lt) ltac:(lia) ltac:(unfold cost; lia)) as (A & m1 & E1 & U1).
  destruct (under_way_field_alloc _ _ _ _ 1 arg _ 9 6 U1 eq_refl ltac:(lt) ltac:(lia) ltac:(unfold cost; lia)) as (T & m2 & E2 & U2).
  destruct (under_way_put _ _ _ _ 2 arg _ 17 8 U2 eq_refl ltac:(lt) ltac:(lia)) as (m3 & E3 & U3).
  destruct (under_way_field_alloc _ _ _ _ 2 arg _ 13 8 U3 eq_refl ltac:(lt) ltac:(lia) ltac:(unfold cost; lia)) as (H & m4 & E4 & U4).
  destruct (under_way_field_alloc _ _ _ _ 3 arg _ 14 8 U4 eq_refl ltac:(lt) ltac:(lia) ltac:(unfold cost; lia)) as (Ty & m5 & E5 & U5).
  destruct (under_way_field_code _ _ _ _ 4 arg _ 5 np U5 eq_refl ltac:(lt) ltac:(unfold np; rewrite prologue_size_eq; lia) ltac:(unfold cost; lia)) as (prologue & m6 & E6 & U6 & _).
  exists prologue, A, T, H, Ty, m6. split; [|split; [|by eapply under_way_less; [exact U6 | unfold cost; lia]]].
  - intros k. unfold hook_blocks. etransitivity; [exact (E1 _)|]. etransitivity; [exact (E2 _)|]. erewrite bind_some by exact E3. etransitivity; [exact (E4 _)|].
    etransitivity; [exact (E5 _)|]. exact (E6 _).
  - destruct U6 as (m0 & X & _). destruct (ext_code _ _ X prologue (code_block np) ltac:(by left)) as (? & ? & ? & _). lia.
Qed.

(** The fields that name the function, the routines and the kernel's allocator. *)
Definition hook_names (arg : Z) (k : K (outcome * Z)) : K (outcome * Z) :=
  do! store64 (arg + o_function) function in
  do! store64 (arg + o_hookCount) 0 in
  let! h := get_var ps4KernelFunctionHookHandler in
  do! store64 (arg + o_handler) h in
  let! h := get_var ps4FunctionHookArgumentClone in
  do! store64 (arg + o_clone) h in
  let! h := get_var ps4FunctionHookArgumentDestroy in
  do! store64 (arg + o_epilogue) h in
  let! r := ps4KernelSymbolLookUp (Some "malloc"%string) OPtr in
  do! out_to_field (arg + o_allocate) (snd r) in
  let! r := ps4KernelSymbolLookUp (Some "free"%string) OPtr in
  do! out_to_field (arg + o_free) (snd r) in
  let! r := ps4KernelSymbolLookUp (Some "M_TEMP"%string) OPtr in
  do! out_to_field (arg + o_mt) (snd r) in
  k.

Lemma hook_names_run need C B4 arg F m :
  under_way need C (B4 ++ [(arg, F)]) m -> length B4 = 4%nat -> length F = 24%nat ->
  exists m', (forall k, hook_names arg k m = k m') /\
    under_way need C (B4 ++ [(arg, <[22%nat := mt]> (<[21%nat := g]> (<[20%nat := f]> (<[6%nat := destroy]> (<[0%nat := clone]> (<[1%nat := handler]>
      (<[16%nat := 0]> (<[10%nat := function]> F))))))))]) m'.
Proof.
  intros U HB HF. assert (forall m1 F1 (i : nat) v, under_way need C (B4 ++ [(arg, F1)]) m1 -> length F1 = 24%nat -> (i < 24)%nat -> 0 <= v < 2 ^ 64 ->
    exists m2, store64 (arg + 8 * Z.of_nat i) v m1 = Some (tt, m2) /\ under_way need C (B4 ++ [(arg, <[i := v]> F1)]) m2) as Hput.
  { intros m1 F1 i v U1 HF1 Hi Hv. destruct (under_way_put _ _ _ _ 4 arg F1 i v U1) as (m2 & E & U2); [by rewrite lookup_app_r, HB by lia | lia | done|].
    exists m2. split; [done|]. rewrite insert_app_r_alt, HB in U2 by lia. exact U2. }
  destruct (Hput _ _ 10%nat function U ltac:(len) ltac:(lia) ltac:(lia)) as (m9 & E10 & U9).
  destruct (Hput _ _ 16%nat 0 U9 ltac:(len) ltac:(lia) ltac:(lia)) as (m10 & E11 & U10).
  destruct (Hput _ _ 1%nat handler U10 ltac:(len) ltac:(lia) ltac:(lia)) as (m11 & E12 & U11).
  destruct (Hput _ _ 0%nat clone U11 ltac:(len) ltac:(lia) ltac:(lia)) as (m12 & E13 & U12).
  destruct (Hput _ _ 6%nat destroy U12 ltac:(len) ltac:(lia) ltac:(lia)) as (m13 & E14 & U13).
  destruct (under_way_symbol _ _ _ _ _ _ U13 (proj1 Hmalloc)) as (m14 & E15 & U14).
  destruct (Hput _ _ 20%nat f U14 ltac:(len) ltac:(lia) (proj2 Hmalloc)) as (m15 & E16 & U15).
  destruct (under_way_symbol _ _ _ _ _ _ U15 (proj1 Hfree)) as (m16 & E17 & U16).
  destruct (Hput _ _ 21%nat g U16 ltac:(len) ltac:(lia) (proj2 Hfree)) as (m17 & E18 & U17).
  destruct (under_way_symbol _ _ _ _ _ _ U17 (proj1 Htype)) as (m18 & E19 & U18).
  destruct (Hput _ _ 22%nat mt U18 ltac:(len) ltac:(lia) (proj2 Htype)) as (m19 & E20 & U19).
  exists m19. split; [|exact U19]. intros k. unfold hook_names. erewrite bind_some by exact E10. erewrite bind_some by exact E11.
  erewrite bind_some by reflexivity. rewrite (under_way_var _ _ _ _ _ U10). erewrite bind_some by exact E12.
  erewrite bind_some by reflexivity. rewrite (under_way_var _ _ _ _ _ U11). erewrite bind_some by exact E13.
  erewrite bind_some by reflexivity. rewrite (under_way_var _ _ _ _ _ U12). erewrite bind_some by exact E14.
  erewrite bind_some by exact E15. cbn [snd out_to_field]. erewrite bind_some by exact E16.
  erewrite bind_some by exact E17. cbn [snd out_to_field]. erewrite bind_some by exact E18.
  erewrite bind_some by exact E19. cbn [snd out_to_field]. by erewrite bind_some by exact E20.
Qed.

Lemma hook_build_run m arg :
  under_way hook_room [] [(arg, repeat 0 24)] m ->
  exists prologue bridge A T H Ty l u' m1 m',
    disassembles (kernel_env m1) (instruction_object function UD_SYN_INTEL) l u' /\ (forall x b, mem start !! x = Some b -> mem m1 !! x = Some b) /\
    Z.of_nat ps4PayloadTemplateJump64Size <= sum l < Z.of_nat ps4PayloadTemplateJump64Size + 30 /\
    hook_build arg function m = hook_patches arg function prologue bridge (sum l) m' /\
    under_way 0 [(bridge, code_block 1); (prologue, code_block (Z.of_nat ps4PayloadTemplateFunctionHookPrologueSize))]
      [(Ty, repeat 0 8); (H, repeat 0 8); (T, repeat 0 6); (A, repeat 0 23); (arg, new_fields clone handler destroy function f g mt prologue bridge (sum l) A T H Ty)] m' /\
    disjoint_ranges bridge (code_block 1) prologue (code_block (Z.of_nat ps4PayloadTemplateFunctionHookPrologueSize)).
Proof.
  intros U. destruct (hook_blocks_run m arg U) as (prologue & A & T & H & Ty & m6 & E6 & Hpro & U6).
  destruct (seek_run m6 function (Z.of_nat ps4PayloadTemplateJump64Size)) as (l & u' & Hd & _ & E7 & Hl & _).
  { unfold NULL. lia. }
  { cbn. lia. }
  { intros i Hi. destruct (Hcode i Hi) as (b & Hb & Hb8). exists b. split; [by eapply under_way_mem | done]. }
  set (k := sum l) in *. assert (13 <= k < 43) as Hk by (revert Hl; change (Z.of_nat ps4PayloadTemplateJump64Size) with 13; lia).
  destruct (under_way_put _ _ _ _ 4 arg _ 12 k U6 eq_refl ltac:(lt) ltac:(lia)) as (m7 & E8 & U7).
  assert (code_block (k + Z.of_nat ps4PayloadTemplateJump64Size) = code_block 1) as Ecb.
  { unfold code_block. change (Z.of_nat ps4PayloadTemplateJump64Size) with 13. destruct (Z.leb_spec (k + 13) 0x4000); [done | lia]. }
  destruct (under_way_field_code _ _ _ _ 4 arg _ 11 (k + Z.of_nat ps4PayloadTemplateJump64Size) U7 eq_refl ltac:(lt) ltac:(lia) ltac:(rewrite Ecb; lia))
    as (bridge & m8 & E9 & U8 & Hap). rewrite Ecb in U8, Hap.
  destruct (hook_names_run _ _ [_; _; _; _] _ _ _ U8 eq_refl eq_refl) as (m9 & E10 & U9).
  exists prologue, bridge, A, T, H, Ty, l, u', m6, m9. split; [done|]. split; [intros x b; by eapply under_way_mem|]. split; [done|].
  split; [|split; [eapply under_way_less; [exact U9 | lia] | apply Hap; by left]].
  etransitivity; [exact (E6 _)|]. cbv zeta beta. rewrite (jump_size_kernel prologue) by done.
  erewrite bind_some by exact E7. cbn [snd]. replace (function + k - function) with k by lia. erewrite bind_some by exact E8.
  rewrite (jump_size_kernel function) by lia. erewrite bind_some by (exact (under_way_load _ _ _ _ 4 arg _ 12 k U7 eq_refl eq_refl)).
  etransitivity; [exact (E9 _)|]. exact (E10 _).
Qed.

(** The code that was allocated is mapped, and apart from what was there. *)
Lemma under_way_code need C B m q n :
  under_way need C B m -> (q, n) ∈ C ->
  (forall k, Z.of_nat k <= n -> mapped_range m q k) /\ (forall a k l, mem_read (mem start) a k = Some l -> (0 < k)%nat -> disjoint_ranges q n a (Z.of_nat k)).
Proof.
  intros (m0 & X & G & _) Hq. destruct (ext_code _ _ X q n Hq) as (_ & _ & Hn & _ & Hx). split.
  - intros k Hk i Hi. destruct (Hx (q + Z.of_nat i)) as [[b Hb] _]; [unfold in_block; lia|]. exists b. by apply (grown_kept m0 B).
  - intros a k l Hr Hk. apply (block_mapped_disjoint start); [| | lia | lia].
    + intros x Hin. unfold in_block in Hin. destruct (mapped_range_read start a k l Hr (Z.to_nat (x - a)) ltac:(lia)) as [b Hb]. exists b.
      by replace (a + Z.of_nat (Z.to_nat (x - a))) with x in Hb by lia.
    + intros x [b Hb] Hin. by rewrite (proj2 (Hx x Hin)) in Hb.
Qed.

Hypothesis Htemplates : templates_loaded start.
Hypothesis Hclear : templates_clear function ps4PayloadTemplateJump64Size.

Lemma under_way_templates need C B m q n k :
  under_way need C B m -> (q, n) ∈ C -> Z.of_nat k <= n -> templates_clear q k.
Proof.
  intros U Hq Hk. destruct (under_way_code _ _ _ _ q n U Hq) as [_ Ha]. unfold templates_clear, templates_loaded in *. rewrite Forall_forall in Htemplates |- *.
  intros [a l] Ht. destruct (Htemplates _ Ht) as [_ Hr]. cbn [fst snd] in *. assert (0 < length l)%nat as Hl.
  { unfold hook_templates in Ht. rewrite !elem_of_cons, elem_of_nil in Ht. destruct Ht as [[= -> ->]|[[= -> ->]|[[= -> ->]|[]]]]; cbn; lia. }
  specialize (Ha a (length l) l Hr Hl). unfold clear_of, disjoint_ranges in *. lia.
Qed.

Lemma under_way_sites B m prologue bridge code (np := code_block (Z.of_nat ps4PayloadTemplateFunctionHookPrologueSize)) :
  under_way 0 [(bridge, code_block 1); (prologue, np)] B m -> disjoint_ranges bridge (code_block 1) prologue np ->
  mem_read (mem start) function (length code) = Some code -> (ps4PayloadTemplateJump64Size <= length code < ps4PayloadTemplateJump64Size + 30)%nat ->
  patch_sites m function prologue bridge code.
Proof.
  intros U Hd Hr Hl. change ps4PayloadTemplateJump64Size with 13%nat in *.
  pose proof (proj1 (code_block_size (Z.of_nat ps4PayloadTemplateFunctionHookPrologueSize))) as Hn. fold np in Hn.
  assert (56 <= code_block 1) as Hn1 by (by apply Z.leb_le).
  assert ((bridge, code_block 1) ∈ [(bridge, code_block 1); (prologue, np)]) as Ib by (by left).
  assert ((prologue, np) ∈ [(bridge, code_block 1); (prologue, np)]) as Ip by (by right; left).
  destruct (under_way_code _ _ _ _ _ _ U Ib) as [Mb Ab], (under_way_code _ _ _ _ _ _ U Ip) as [Mp Ap].
  specialize (Ab function (length code) code Hr ltac:(lia)). specialize (Ap function (length code) code Hr ltac:(lia)).
  pose proof U as (m0 & X & _). destruct (ext_code _ _ X _ _ Ib) as (B1 & B2 & _). destruct (ext_code _ _ X _ _ Ip) as (P1 & P2 & P3 & _).
  split; try done; change ps4PayloadTemplateJump64Size with 13%nat.
  - by eapply under_way_read.
  - lia.
  - apply Mp. lia.
  - apply Mb. lia.
  - unfold templates_loaded in *. apply (Forall_impl _ _ _ Htemplates). intros t [Ht1 Ht2]. split; [done | by eapply under_way_read].
  - split; [done|]. split; eapply under_way_templates; [exact U | exact Ip | lia | exact U | exact Ib | lia].
  - unfold disjoint_ranges in *. lia.
  - unfold np in *. lia.
Qed.
End Walk.

(** ** The structure that was made *)

Lemma new_hook_object m0 m arg A T H Ty F :
  grown m0 [(Ty, repeat 0 8); (H, repeat 0 8); (T, repeat 0 6); (A, repeat 0 23); (arg, F)] m ->
  length F = 24%nat -> F !! 13%nat = Some H -> F !! 14%nat = Some Ty -> F !! 16%nat = Some 0 -> F !! 17%nat = Some 8 -> hook_object m arg F [].
Proof.
  intros G HF F13 F14 F16 F17. set (B := [_; _; _; _; _]) in G. assert ((arg, F) ∈ B) as Ia by (by do 4 right; left).
  assert ((H, repeat 0 8) ∈ B) as IH by (by right; left). assert ((Ty, repeat 0 8) ∈ B) as IT by (by left).
  pose proof (grown_nodup _ _ _ G) as Hn. cbn [B fmap list_fmap fst] in Hn. rewrite !NoDup_cons, !not_elem_of_cons in Hn.
  assert (forall p l, (p, l) ∈ B -> allocs m !! p = Some (8 * Z.of_nat (length l))) as Hal.
  { intros p l Hp. rewrite (grown_allocs _ _ _ G). by apply new_allocs_lookup; [apply G|]. }
  assert (arg <> H /\ arg <> Ty /\ H <> Ty) as (N1 & N2 & N3) by (repeat split; apply not_eq_sym; tauto).
  split; [apply G | done | by rewrite (Hal _ _ Ia), HF | apply (grown_words _ _ _ G arg F Ia) | done | by intros p ?%elem_of_nil|].
  exists H, Ty, (repeat 0 8), (repeat 0 8). split; try done; [| by apply (Hal _ _ IH) | by apply (Hal _ _ IT) | by exists (repeat 0 7) | by exists (repeat 0 8)].
  split; try (by apply (grown_words _ _ _ G)); by apply (grown_apart _ _ _ _ _ _ _ G).
Qed.

(** A function that does not begin with a jump is not hooked. *)
Definition no_jump (head : list Z) : Prop := nz_diff Jump32_code (take ps4PayloadTemplateJump32Size head) <> 0 /\ nz_diff Jump64_code head <> 0.

Lemma unhooked_run `{PayloadImage} m function head :
  templates_loaded m -> function <> NULL -> mem_read (mem m) function ps4PayloadTemplateJump64Size = Some head -> no_jump head ->
  ps4KernelFunctionIsHooked function m = Some (PS4_NOT_OK, m).
Proof.
  intros Ht Hf Hr [N1 N2]. pose proof (Forall_lookup_1 _ _ 0%nat _ Ht eq_refl) as [H32 R32]. pose proof (Forall_lookup_1 _ _ 1%nat _ Ht eq_refl) as [H64 R64].
  cbn [fst snd] in *. unfold ps4KernelFunctionIsHooked, ps4PayloadJumpExtractTarget. rewrite (proj2 (Z.eqb_neq function NULL) Hf).
  pose proof (mem_read_sub _ _ _ _ 0 ps4PayloadTemplateJump32Size Hr ltac:(cbn; lia)) as Hr32. rewrite Z.add_0_r, drop_0 in Hr32.
  unfold bind at 1. erewrite bind_some by (by apply compare_run). rewrite (proj2 (Z.eqb_neq _ PS4_OK) N1).
  erewrite bind_some by (by apply compare_run). rewrite (proj2 (Z.eqb_neq _ PS4_OK) N2). done.
Qed.

(** ** Creating a hook *)

Section Create.
Context `{D : KernelDlSym} `{Sy : !KernelSymbols D} `{HA : KernelAllocator} `{HL : !KernelAllocatorLaws HA} `{HR : !KernelRoom HA} `{HS : KernelSysctl}.
Context `{PI : PayloadImage} `{HI : HookImage}.

(** A kernel function that can be hooked: its first instructions are mapped and
    do not begin with a jump, the templates are apart from them, the symbols
    the structure names are known, and there is room. *)
Record hook_site (R : roles) (c pg : Z) (m : machine) (function f g mt : Z) : Prop := HookSite {
  site_prepared : prepared R c pg m;
  site_mutex : var ps4KernelFunctionHookMutex m <> NULL;
  site_function : 2 ^ 63 <= function /\ function + 43 <= 2 ^ 64;
  site_mapped : mapped_bytes m function (Z.of_nat ps4PayloadTemplateJump64Size + 30);
  site_unhooked : exists head, mem_read (mem m) function ps4PayloadTemplateJump64Size = Some head /\ no_jump head;
  site_templates : templates_loaded m;
  site_clear : templates_clear function ps4PayloadTemplateJump64Size;
  site_malloc : view m c !! name_key "malloc" = Some f /\ 0 <= f < 2 ^ 64;
  site_free : view m c !! name_key "free" = Some g /\ 0 <= g < 2 ^ 64;
  site_type : view m c !! name_key "M_TEMP" = Some mt /\ 0 <= mt < 2 ^ 64;
  site_static : 0 <= var ps4KernelFunctionHookHandler m < 2 ^ 64 /\ 0 <= var ps4FunctionHookArgumentClone m < 2 ^ 64 /\
    0 <= var ps4FunctionHookArgumentDestroy m < 2 ^ 64;
  site_room : cost (8 * Z.of_nat 24) + hook_room <= kroom m
}.

(** The machine with the hook's mutex held. *)
Lemma prepared_locked R c pg m mx : prepared R c pg m -> prepared R c pg (locked mx m).
Proof. intros [[H1 H2 H3 H4 H5] ? ? ? ?]. split; try done. split; try done. by apply cache_inv_held. Qed.

(** [m1] with that mutex held as often as in [m]. *)
Definition unlocked (m m1 : machine) : machine := released (var ps4KernelFunctionHookMutex m) m m1.

Lemma hook_create_run R c pg m function f g mt (mx := var ps4KernelFunctionHookMutex m) :
  hook_site R c pg m function f g mt ->
  exists arg prologue bridge A T H Ty l u' m1 m2 code,
    ps4KernelFunctionHookCreate OPtr function m = Some ((PS4_OK, Some arg), unlocked m (hooked_machine m2 arg function prologue bridge code)) /\
    disassembles (kernel_env m1) (instruction_object function UD_SYN_INTEL) l u' /\ (forall x b, mem m !! x = Some b -> mem m1 !! x = Some b) /\
    Z.of_nat (length code) = sum l /\ (length code < ps4PayloadTemplateJump64Size + 30)%nat /\ mem_read (mem m) function (length code) = Some code /\
    under_way (locked mx m) 0 [(bridge, code_block 1); (prologue, code_block (Z.of_nat ps4PayloadTemplateFunctionHookPrologueSize))]
      [(Ty, repeat 0 8); (H, repeat 0 8); (T, repeat 0 6); (A, repeat 0 23);
       (arg, new_fields (var ps4FunctionHookArgumentClone m) (var ps4KernelFunctionHookHandler m) (var ps4FunctionHookArgumentDestroy m) function f g mt prologue bridge (sum l) A T H Ty)] m2 /\
    patch_sites m2 function prologue bridge code.
Proof.
  intros [Hpre Hmx Hfun Hmap (head & Hhead & Hno) Ht Hc Hf Hg Hmt Hst Hroom]. set (start := locked mx m). assert (prepared R c pg start) as Hps by (by apply prepared_locked).
  assert (under_way start (cost (8 * Z.of_nat 24) + hook_room) [] [] start) as U0.
  { apply (under_way_start R c pg); [done | by destruct m | done|]. etransitivity; [exact Hroom|]. by apply kroom_same. }
  assert (0 <= hook_room) as Hr0.
  { unfold hook_room, cost. pose proof (proj2 (code_block_size 1)). pose proof (proj2 (code_block_size (Z.of_nat ps4PayloadTemplateFunctionHookPrologueSize))). lia. }
  destruct (under_way_alloc R c pg start Hps _ _ _ _ 24 U0 ltac:(lia) ltac:(lia)) as (arg & n1 & E1 & U1).
  destruct (under_way_words _ _ _ _ _ 0%nat _ _ U1 eq_refl) as (_ & Harg & _).
  destruct (under_way_fill _ _ _ _ _ 0 arg 24 U1 eq_refl) as (n2 & E2 & U2). apply (under_way_less _ _ hook_room) in U2; [|lia].
  destruct (hook_build_run R c pg start Hps function f g mt Hfun Hmap Hf Hg Hmt Hst n2 arg U2) as (prologue & bridge & A & T & H & Ty & l & u' & m1 & m2 & Hd & Hm1 & Hl & E3 & U3 & Hdis).
  assert (mapped_range m function (Z.to_nat (sum l))) as Hcm.
  { intros i Hi. destruct (Hmap (Z.of_nat i) ltac:(lia)) as (b & Hb & _). by exists b. }
  destruct (mapped_range_bytes _ _ _ Hcm) as [code Hcode]. pose proof (proj1 (mem_read_Some _ _ _ _) Hcode) as [Hlen _].
  assert (Z.of_nat (length code) = sum l) as El by lia. rewrite <- Hlen in Hcode.
  assert (patch_sites m2 function prologue bridge code) as Hs by (apply (under_way_sites start function Hfun Ht Hc _ m2 prologue bridge code U3 Hdis Hcode); lia).
  exists arg, prologue, bridge, A, T, H, Ty, l, u', m1, m2, code. split; [|split; [done|]; split; [done|]; split; [done|]; split; [lia | done]].
  unfold ps4KernelFunctionHookCreate, Ps4ExceptionTryCatchFinally, hook_initialized.
  assert (mx =? NULL = false) as Emx by (by apply Z.eqb_neq).
  set (body := (let! mx0 := get_var ps4KernelFunctionHookMutex in if mx0 =? NULL then _ else _) : K (outcome * Z)).
  assert (body m = Some ((Finish PS4_OK, arg), hooked_machine m2 arg function prologue bridge code)) as Eb.
  { unfold body. erewrite bind_some by reflexivity. fold mx. rewrite Emx, (proj2 (Z.eqb_neq function NULL)) by (unfold NULL; lia).
    erewrite bind_some by reflexivity. fold mx. erewrite bind_some by (unfold mtx_lock; by rewrite Emx). fold (locked mx m). fold start.
    erewrite bind_some by (by apply (unhooked_run start function head); [exact Ht | unfold NULL; lia | exact Hhead|]). change (PS4_NOT_OK =? PS4_OK) with false. cbv iota.
        erewrite bind_some by exact E1. cbv zeta. cbn [snd]. change (default 0 (Some arg)) with arg. rewrite (proj2 (Z.eqb_neq arg NULL)) by (unfold NULL; lia).
    erewrite bind_some by exact E2. rewrite E3, <- El. by apply hook_patches_run. }
  set (hm := hooked_machine m2 arg function prologue bridge code) in *.
  assert (ps4KernelFunctionHookExceptionHandlerFinally arg hm = mtx_unlock mx hm) as Ef.
  { unfold ps4KernelFunctionHookExceptionHandlerFinally. erewrite bind_some by reflexivity. change (var ps4KernelFunctionHookMutex hm) with (var ps4KernelFunctionHookMutex m2).
    rewrite (under_way_var _ _ _ _ _ _ U3). change (var ps4KernelFunctionHookMutex start) with mx. by rewrite Emx. }
  unfold bind. rewrite Eb. cbn [fst snd]. rewrite Ef. unfold mtx_unlock. rewrite Emx. change (hold_count mx hm) with (hold_count mx m2).
  rewrite (under_way_held _ _ _ _ _ mx U3). unfold start. by rewrite hold_count_locked, decide_True.
Qed.

Lemma released_held mx m n : (forall a, hold_count a n = hold_count a (locked mx m)) -> forall a, hold_count a (released mx m n) = hold_count a m.
Proof.
  intros Hn a. unfold released, hold_count. cbn [held set_held]. destruct (decide (a = mx)) as [->|Hne]; [by rewrite lookup_insert_eq|].
  rewrite lookup_insert_ne by done. specialize (Hn a). rewrite hold_count_locked, decide_False in Hn by done. exact Hn.
Qed.

(** The words are still there after the patches, and so is the rest. *)
Lemma hooked_under_way start B m arg function prologue bridge code (np := code_block (Z.of_nat ps4PayloadTemplateFunctionHookPrologueSize))
    (hm := hooked_machine m arg function prologue bridge code) :
  under_way start 0 [(bridge, code_block 1); (prologue, np)] B m -> patch_sites m function prologue bridge code ->
  mem_read (mem start) function (length code) = Some code -> (length code < ps4PayloadTemplateJump64Size + 30)%nat ->
  (exists m0, grown m0 B hm) /\ (forall a, hold_count a hm = hold_count a start) /\
  forall x b, mem start !! x = Some b -> ~ function <= x < function + Z.of_nat ps4PayloadTemplateJump64Size -> mem hm !! x = Some b.
Proof.
  intros U Hs Hr Hl. pose proof (proj1 (code_block_size (Z.of_nat ps4PayloadTemplateFunctionHookPrologueSize))) as Hnp. fold np in Hnp.
  assert (56 <= code_block 1) as Hn1 by (by apply Z.leb_le). pose proof (length_prologue_code arg) as Lp. pose proof (sites_kernel _ _ _ _ _ Hs) as (K1 & K2 & K3 & _).
  pose proof (jump_code_kernel prologue ltac:(lia)) as Lp'. pose proof (jump_code_kernel (function + Z.of_nat (length code)) ltac:(lia)) as Lj.
  pose proof (sites_long _ _ _ _ _ Hs) as Hlong. change ps4PayloadTemplateJump64Size with 13%nat in *.
  split; [|split].
  - destruct U as (m0 & X & G & _). assert (forall q n k, (q, n) ∈ [(bridge, code_block 1); (prologue, np)] -> Z.of_nat k <= n -> mapped_range m0 q k) as Hmq.
    { intros q n k Hq Hk j Hj. destruct (ext_code _ _ _ X q n Hq) as (_ & _ & _ & _ & Hx). apply (Hx (q + Z.of_nat j)). unfold in_block. lia. }
    eexists. unfold hm, hooked_machine. apply grown_patch; [apply grown_patch; [apply grown_patch; [exact G|]|]|].
    + apply (Hmq _ np); [by right; left | lia].
    + apply mapped_range_patched, (Hmq _ (code_block 1)); [by left | rewrite length_app; lia].
    + apply mapped_range_patched, mapped_range_patched. intros j Hj. destruct (mapped_range_read start _ _ _ Hr j ltac:(lia)) as [b Hb]. exists b. by apply (ext_mem _ _ _ X).
  - intros a. exact (under_way_held _ _ _ _ _ a U).
  - intros x b Hb Hx. pose proof (under_way_mem _ _ _ _ _ _ _ U Hb) as Hm. unfold hm. rewrite hooked_elsewhere; try done; destruct U as (m0 & X & _); intros Hin.
    + destruct (ext_code _ _ _ X prologue np ltac:(by right; left)) as (_ & _ & _ & _ & Hc). rewrite (proj2 (Hc x ltac:(unfold in_block in *; lia))) in Hb. done.
    + change ps4PayloadTemplateJump64Size with 13%nat in Hin. destruct (ext_code _ _ _ X bridge (code_block 1) ltac:(by left)) as (_ & _ & _ & _ & Hc). rewrite (proj2 (Hc x ltac:(unfold in_block in *; lia))) in Hb. done.
Qed.

(** C8. Creating a hook on a kernel function. What comes back is the address of
    a structure that stands for no hooks and holds the function, the bridge, the
    three routines and the kernel's allocator. A thread that enters the function
    continues in the prologue, whose argument leads back to the structure, so
    that asking for the function's hook gives it. The bridge has the whole
    instructions the jump displaced, unchanged, and then continues after them in
    the function. Nothing else that was mapped changes, and no mutex stays
    locked. *)
Theorem hook_create_installs R c pg m function f g mt :
  hook_site R c pg m function f g mt ->
  exists arg prologue bridge A T H Ty l u' m1 code m',
    ps4KernelFunctionHookCreate OPtr function m = Some ((PS4_OK, Some arg), m') /\
    hook_object m' arg (new_fields (var ps4FunctionHookArgumentClone m) (var ps4KernelFunctionHookHandler m) (var ps4FunctionHookArgumentDestroy m)
      function f g mt prologue bridge (Z.of_nat (length code)) A T H Ty) [] /\
    (exists m'', ps4KernelFunctionGetHook function OPtr m' = Some ((PS4_OK, Some arg), m'')) /\
    (forall k, Template.pc k = function -> cpu_step2 (mem m') k = Some (Cpu prologue (sp k) (rax k) prologue)) /\
    disassembles (kernel_env m1) (instruction_object function UD_SYN_INTEL) l u' /\ (forall x b, mem m !! x = Some b -> mem m1 !! x = Some b) /\
    Z.of_nat (length code) = sum l /\ mem_read (mem m) function (length code) = Some code /\ mem_read (mem m') bridge (length code) = Some code /\
    (forall k, Template.pc k = bridge + sum l -> cpu_step2 (mem m') k = Some (Cpu (function + sum l) (sp k) (rax k) (function + sum l))) /\
    (forall x b, mem m !! x = Some b -> ~ function <= x < function + Z.of_nat ps4PayloadTemplateJump64Size -> mem m' !! x = Some b) /\
    forall a, hold_count a m' = hold_count a m.
Proof.
  intros Hsite. set (mx := var ps4KernelFunctionHookMutex m).
  destruct (hook_create_run R c pg m function f g mt Hsite) as (arg & prologue & bridge & A & T & H & Ty & l & u' & m1 & m2 & code & E & Hd & Hm1 & El & Hlen & Hcode & U & Hs).
  pose proof (sites_kernel _ _ _ _ _ Hs) as (K1 & K2 & K3 & K4 & K5). fold mx in E, U. pose proof (sites_long _ _ _ _ _ Hs) as Hlong.
  set (hm := hooked_machine m2 arg function prologue bridge code) in *. destruct (hooked_under_way _ _ _ arg _ _ _ code U Hs Hcode) as ((m0 & G) & Hheld & Hkeep); [done|].
  destruct (hooked_reads m2 arg function prologue bridge code Hs) as (Rp & Rb & Rf & Rt). fold hm in G, Hheld, Hkeep, Rp, Rb, Rf, Rt.
  set (m' := unlocked m hm). assert (grown (set_held (held m') m0) _ m') as G' by (by apply grown_held).
  exists arg, prologue, bridge, A, T, H, Ty, l, u', m1, code, m'. rewrite El. split; [exact E|].
  split; [by eapply new_hook_object; [exact G'|..]|]. split.
  { destruct (grown_words _ _ _ G arg _ ltac:(by do 4 right; left)) as (_ & ? & _). apply (get_hook_run m' arg function prologue); try done; [|lia].
    change (var ps4KernelFunctionHookMutex m') with (var ps4KernelFunctionHookMutex m2). rewrite (under_way_var _ _ _ _ _ _ U). apply (site_mutex _ _ _ _ _ _ _ _ Hsite). }
  split; [intros k Hk; rewrite (jump_runs _ function prologue) by (done || by rewrite (jump_code_kernel prologue K3)); by rewrite wrap_small by lia|].
  split; [done|]. split; [done|]. split; [done|]. split; [done|]. split; [|split; [|split; [done|]]].
  - pose proof (mem_read_sub _ _ _ _ 0 (length code) Rb ltac:(lia)) as Hb. rewrite Z.add_0_r, drop_0, take_app_length in Hb. exact Hb.
  - intros k Hk. pose proof (mem_read_sub _ _ _ _ (length code) ps4PayloadTemplateJump64Size Rb ltac:(lia)) as Hb. rewrite drop_app_length in Hb.
    pose proof (jump_code_kernel (function + Z.of_nat (length code)) ltac:(lia)) as Lj. rewrite <- Lj, firstn_all in Hb.
    rewrite <- El in *. rewrite (jump_runs _ (bridge + Z.of_nat (length code)) (function + Z.of_nat (length code))) by (done || exact Hb). by rewrite wrap_small by lia.
  - by apply released_held.
Qed.
End Create.

(** ** Witness *)

Section BuildWitness.
#[local] Existing Instance bump_allocator.
#[local] Existing Instance bump_allocator_laws.
#[local] Existing Instance bump_room_laws.
#[local] Existing Instance sysctl_there.
#[local] Existing Instance example_image.
#[local] Instance build_code : HookImage := {|
  ps4PayloadFunctionHookHandler := 0x7000; ps4PayloadFunctionHookHandlerSize := 64;
  FunctionHook.ps4PayloadFunctionHookArgumentClone := 0x7100; FunctionHook.ps4PayloadFunctionHookArgumentDestroy := 0x7200 |}.

(** The symbols the cache knows: the name's block and the entry's. *)
Definition kernel_symbols : list (list Z * Z) :=
  [(name_key "malloc", 0xffffffff82001000); (name_key "free", 0xffffffff82002000); (name_key "M_TEMP", 0xffffffff82003000);
   (name_key "sysent", 2 ^ 63 + 0x20000)].
#[local] Instance build_symbols : KernelDlSym := key_dlsym kernel_symbols.
#[local] Instance build_symbols_settled : KernelSymbols build_symbols := key_symbols _.

Definition base : Z := 2 ^ 63.
Definition build_entries : list (Z * Z * (list Z * Z)) :=
  zip (zip [base + 0x300; base + 0x400; base + 0x500; base + 0x900] [base + 0x600; base + 0x700; base + 0x800; base + 0xa00]) kernel_symbols.

Definition build_roles : roles :=
  list_to_map ([(base, RCache); (base + 0x100, RTable base); (base + 0x200, RBuckets base)] ++
    ((fun p => (p.1.1, REntry base)) <$> build_entries) ++ ((fun p => (p.1.2, RName p.1.1)) <$> build_entries)).

(** One bucket with all the entries. *)
Definition build_table : UT_hash_table :=
  Table (base + 0x100) (base + 0x200) [Bucket (build_entries.*1).*1 4 0] 1 0 4 0 0 0 0 (build_entries.*1).*1.

(** The function at 2^63 + 0x10000: push %rbp; mov %rsp,%rbp; then no operations.
    The system call table is at 2^63 + 0x20000; only the entry of call 20 is used. *)
Definition build_function : Z := base + 0x10000.
Definition build_machine : machine :=
  set_caches {[ base := Some build_table ]}
  (set_entries (list_to_map ((fun p => (p.1.1, CacheEntry p.1.2 p.2.2 (Handle p.1.2 (Z.of_nat (length p.2.1)) (HASH_JEN p.2.1)))) <$> build_entries))
  (set_allocs (list_to_map ([(base, 8); (base + 0x100, 64); (base + 0x200, 16)] ++ ((fun p => (p.1.1, 72)) <$> build_entries) ++ ((fun p => (p.1.2, 8)) <$> build_entries)))
  (booted ([(base, repeat 0 8); (base + 0x100, repeat 0 64); (base + 0x200, repeat 0 16)] ++ ((fun p => (p.1.1, repeat 0 72)) <$> build_entries) ++
      ((fun p => (p.1.2, p.2.1 ++ repeat 0 (8 - length p.2.1))) <$> build_entries) ++
      [(0x130, Jump64_code); (0x140, Jump32_code); (0x150, Lock_code); (0x160, FunctionHookPrologue_code); (0x170, SystemCallHookPrologue_code); (0x5000, le_bytes 8 (2 ^ 63));
       (base + 0x20000 + 48 * 20 + 8, le_bytes 8 0xffffffff82004000); (build_function, [0x55; 0x48; 0x89; 0xe5] ++ repeat 0x90 39)])
    (Z.add build_function ∘ Z.of_nat <$> seq 0 43)
    [(ps4KernelMemoryType, 1); (symbol_cache, base); (ps4KernelSymbolLookUpMutex, 0x6000); (pg_nx, 0x5000); (ps4KernelFunctionHookMutex, 0x6100);
     (ps4KernelFunctionHookHandler, 0xffffffff84000000); (ps4FunctionHookArgumentClone, 0xffffffff84010000); (ps4FunctionHookArgumentDestroy, 0xffffffff84020000);
     (ps4KernelSystemCallHookMutex, 0x6200); (ps4KernelSystemCallHookArgumentClone, 0xffffffff84030000); (ps4KernelSystemCallHookHandler, 0xffffffff84040000)]))).

Lemma build_item e p k v : ((e, p), (k, v)) ∈ build_entries -> item_ok build_roles build_machine e k v.
Proof.
  intros He. exists p, 8. revert He. unfold build_entries. cbn [zip zip_with kernel_symbols]. rewrite !elem_of_cons, elem_of_nil.
  intros [[= -> -> -> ->]|[[= -> -> -> ->]|[[= -> -> -> ->]|[[= -> -> -> ->]|[]]]]]; (split; [|split; [|split; [|split]]]; vm_compute; (done || discriminate)).
Qed.

Lemma build_items e : e ∈ items build_table -> exists p k v, ((e, p), (k, v)) ∈ build_entries /\ item build_machine e = Some (k, v).
Proof.
  intros Hin. assert (exists p k v, ((e, p), (k, v)) ∈ build_entries) as (p & k & v & He).
  { cbn [items build_table] in Hin. apply list_elem_of_fmap in Hin as ([e' p] & -> & Hin). apply list_elem_of_fmap in Hin as ([[e0 p0] [k v]] & [= -> ->] & Hin). by exists p0, k, v. }
  exists p, k, v. split; [done|]. by eapply item_ok_item, build_item.
Qed.

Lemma build_machine_table : table_ok build_roles build_machine base build_table.
Proof.
  split.
  - split; [done | done | done|]. intros [|i] b; [|done]. intros [= <-]. split; [vm_decide|]. split; [done|]. intros e. cbn [chain]. split; [|by intros [? _]].
    intros He. split; [exact He|]. unfold bucket_of, HASH_TO_BKT. cbn [num_buckets build_table].
    change (u32 (1 - 1)) with 0. by rewrite Z.land_0_r.
  - vm_decide.
  - done.
  - by vm_compute.
  - by vm_compute.
  - intros e (p & k & v & He & _)%build_items. split; [|exists k, v; by eapply build_item].
    revert He. unfold build_entries. cbn [zip zip_with kernel_symbols]. rewrite !elem_of_cons, elem_of_nil.
    intros [[= -> -> -> ->]|[[= -> -> -> ->]|[[= -> -> -> ->]|[[= -> -> -> ->]|[]]]]]; by vm_compute.
  - intros e e' k v v' (p & k0 & v0 & He & Hi)%build_items (p' & k1 & v1 & He' & Hi')%build_items Hk%item_ok_item Hk'%item_ok_item.
    rewrite Hi in Hk. rewrite Hi' in Hk'. injection Hk as -> _. injection Hk' as -> _.
    assert (NoDup (build_entries.*2).*1) as Hn by vm_decide. apply list_elem_of_lookup in He as [i Ei], He' as [j Ej].
    assert (i = j) as -> by (by apply (NoDup_lookup _ i j k Hn); rewrite !list_lookup_fmap, ?Ei, ?Ej). rewrite Ei in Ej. by injection Ej.
Qed.

Lemma build_machine_inv : cache_inv build_roles build_machine.
Proof.
  split.
  - apply blocks_check_spec. by vm_compute.
  - intros a r Ha. assert (map_Forall (fun a _ => is_Some (allocs build_machine !! a)) build_roles) as Hf by vm_decide. by apply (Hf a r).
  - intros c h. change (caches build_machine) with ({[ base := Some build_table ]} : gmap Z (option UT_hash_table)). intros [<- <-]%lookup_singleton_Some. by vm_compute.
  - intros c t. change (caches build_machine) with ({[ base := Some build_table ]} : gmap Z (option UT_hash_table)). intros [<- [= <-]]%lookup_singleton_Some. apply build_machine_table.
  - intros c t. change (caches build_machine) with ({[ base := Some build_table ]} : gmap Z (option UT_hash_table)). intros [<- [= <-]]%lookup_singleton_Some. done.
Qed.

Lemma build_machine_view : view build_machine base = list_to_map kernel_symbols.
Proof. vm_equal. Qed.

Lemma build_code_mapped : mapped_bytes build_machine build_function 43.
Proof.
  intros i Hi. assert (forallb (fun j => match mem build_machine !! (build_function + Z.of_nat j) with Some b => (0 <=? b) && (b <? 256) | None => false end) (seq 0 43) = true) as Hc
    by (vm_compute; reflexivity).
  rewrite forallb_forall in Hc. specialize (Hc (Z.to_nat i)). rewrite in_seq, Z2Nat.id in Hc by lia. specialize (Hc ltac:(lia)).
  destruct (mem build_machine !! (build_function + i)) as [b|]; [|done]. exists b. split; [done|]. apply andb_prop in Hc as [H1%Z.leb_le H2%Z.ltb_lt]. done.
Qed.

Lemma build_machine_site : hook_site build_roles base 0x5000 build_machine build_function 0xffffffff82001000 0xffffffff82002000 0xffffffff82003000.
Proof.
  split.
  - split; [split; [apply build_machine_inv | done | by eexists | done |] | done | done | by vm_compute | ].
    + intros k v. rewrite build_machine_view. intros Hk. unfold symbol_at. cbn [key_symbols build_symbols_settled]. by rewrite Hk.
    + intros x Hx. change (text build_machine) with (list_to_set (C := gset Z) (Z.add build_function ∘ Z.of_nat <$> seq 0 43)).
      rewrite elem_of_list_to_set. intros (i & -> & _)%list_elem_of_fmap. unfold build_function, base in Hx. cbn [compose] in Hx. lia.
  - done.
  - done.
  - apply build_code_mapped.
  - eexists. split; [by vm_compute|]. split; vm_compute; discriminate.
  - unfold templates_loaded, hook_templates. rewrite !Forall_cons, Forall_nil. repeat split; by vm_compute.
  - unfold templates_clear, hook_templates. rewrite !Forall_cons, Forall_nil. repeat split; right; vm_compute; discriminate.
  - rewrite build_machine_view. split; [by vm_compute | lia].
  - rewrite build_machine_view. split; [by vm_compute | lia].
  - rewrite build_machine_view. split; [by vm_compute | lia].
  - split; [|split]; by vm_compute.
  - vm_compute. discriminate.
Qed.

Lemma hook_create_installs_witness :
  exists arg m', ps4KernelFunctionHookCreate OPtr build_function build_machine = Some ((PS4_OK, Some arg), m') /\
    exists m'', ps4KernelFunctionGetHook build_function OPtr m' = Some ((PS4_OK, Some arg), m'').
Proof.
  destruct (hook_create_installs _ _ _ _ _ _ _ _ build_machine_site) as (arg & ? & ? & ? & ? & ? & ? & ? & ? & ? & ? & m' & E & _ & G & _).
  exists arg, m'. split; [exact E | exact G].
Defined.
End BuildWitness.
