(* ===== verification/HookUndo.v ===== *)
(** * Undoing a hook (common/kernel/source/kernel/function.c)

    [ps4KernelFunctionHookDestroy] on a hook that was made and through which no
    call is under way: the function has its first instructions back, and what
    making the hook had allocated is free again. *)

From stdpp Require Import base gmap list strings.
From S2P Require Import Prelude Errors Uthash Machine Reference KernelBase KernelMemory Cache CacheMap CacheGlobal Symbol Words Template Atomic Ud Udis86 FunctionHook HookList SystemCall HookHandler HookChain HookClone HookBuild.

Lemma words_patched m a l x k : words m a l -> disjoint_ranges x (Z.of_nat (length k)) a (8 * Z.of_nat (length l)) -> words (patched m x k) a l.
Proof.
  intros Hw Hd. apply (words_ext m); [done | done|]. intros y b Hy Hb. unfold patched. cbn [mem set_cr0 set_mem]. rewrite lookup_mem_write. case_match eqn:Q; [|done].
  apply andb_prop in Q as [Q1%Z.leb_le Q2%Z.ltb_lt]. unfold disjoint_ranges in Hd. lia.
Qed.

(** ** Giving a function its code back *)

Section Restore.
Context `{PI : PayloadImage}.

(** Two bytes exchanged with write protection off, on a pinned thread. *)
Lemma swap_patched m function v l :
  function <> NULL -> mem_read (mem m) function 2 = Some l -> forall {A} (a : Z -> A),
  (do! sched_pin in do! ps4KernelProtectionWriteDisable in
   let! old := ps4AtomicSwap16 function v in
   do! ps4KernelProtectionWriteEnable in do! sched_unpin in ret (a old)) m = Some (a (le_val l), patched m function (le_bytes 2 v)).
Proof.
  intros Hf Hr A a. erewrite bind_some by reflexivity. set (m1 := set_pinned (pinned m + 1) m). erewrite bind_some by reflexivity. fold m1.
  set (m2 := set_cr0 (Z.ldiff (cr0 m1) CR0_WP) m1).
  erewrite bind_some; [|apply (atomic_swap_run 2 function (le_val l))]; cycle 1.
  { split; [done|]. split; [apply writable_range_wp_off; by eapply mapped_range_read | by exists l]. }
  erewrite bind_some by reflexivity. erewrite bind_some by reflexivity. unfold ret. do 2 f_equal. unfold with_word, patched. unfold m2, m1. destruct m. cbn.
  rewrite lor_ldiff, Z.add_simpl_r. done.
Qed.

Lemma function_lock_run m function :
  loaded m ps4PayloadLock Lock_code -> function <> NULL -> mapped_range m function 2 ->
  exists old, ps4KernelFunctionLock function OPtr m = Some ((PS4_OK, Some old), patched m function Lock_code).
Proof.
  intros [Hn Hl] Hf Hm. destruct (mapped_range_bytes _ _ _ Hm) as [l Hr]. exists (le_val l). unfold ps4KernelFunctionLock. rewrite (proj2 (Z.eqb_neq _ _) Hf).
  set (m1 := set_pinned (pinned m + 1) m). erewrite bind_some by reflexivity. fold m1.
  erewrite bind_some by (apply (copy_to_local_run m1 ps4PayloadLock 2 Lock_code); [done | exact Hl]). cbn [snd].
  pose proof (swap_patched (set_cr0 (Z.lor (cr0 m) CR0_WP) m) function (le_val Lock_code) l Hf Hr (fun old => (PS4_OK, Some old))) as E.
  erewrite bind_some in E by reflexivity. etransitivity; [exact E|]. do 2 f_equal. unfold patched. destruct m. cbn. by rewrite <- Z.lor_assoc, Z.lor_diag.
Qed.

Lemma function_unlock_run m function bits :
  function <> NULL -> mapped_range m function 2 -> ps4KernelFunctionUnlock function bits m = Some (PS4_OK, patched m function (le_bytes 2 bits)).
Proof.
  intros Hf Hm. destruct (mapped_range_bytes _ _ _ Hm) as [l Hr]. unfold ps4KernelFunctionUnlock. rewrite (proj2 (Z.eqb_neq _ _) Hf).
  exact (swap_patched m function bits l Hf Hr (fun _ => PS4_OK)).
Qed.

(** The first two bytes, the rest, the two bytes again. *)
Lemma patched_around m a p code :
  length p = 2%nat -> (2 <= length code)%nat ->
  patched (patched (patched m a p) (a + 2) (drop 2 code)) a (take 2 code) = patched m a code.
Proof.
  intros Hp Hc. unfold patched. cbn [mem cr0 set_cr0 set_mem]. rewrite <- !Z.lor_assoc, !Z.lor_diag.
  match goal with |- set_cr0 ?v (set_mem ?x _) = set_cr0 _ (set_mem ?y _) => assert (x = y) as ->; [|done] end.
  change (a + 2) with (a + Z.of_nat 2). rewrite <- Hp at 1. rewrite <- mem_write_app. pose proof (mem_write_inside (mem m) a (p ++ drop 2 code) 0 (take 2 code)) as E.
  rewrite length_app, length_drop, length_take in E. rewrite Nat.min_l in E by done. specialize (E ltac:(lia)). rewrite Z.add_0_r in E. rewrite E.
  cbn [take app]. rewrite drop_app_length' by (rewrite Hp; lia). by rewrite take_drop.
Qed.

(** The function as [ps4KernelFunctionHookDestroy] leaves it. *)
Lemma restore_text_run m function bridge code :
  loaded m ps4PayloadLock Lock_code -> 0 < function -> 0 < bridge -> mem_read (mem m) bridge (length code) = Some code -> Forall is_byte code -> (2 <= length code)%nat ->
  mapped_range m function (length code) -> disjoint_ranges bridge (Z.of_nat (length code)) function (Z.of_nat (length code)) ->
  exists old, ps4KernelFunctionLock function OPtr m = Some ((PS4_OK, Some old), patched m function Lock_code) /\
    let m1 := patched m function Lock_code in
    let m2 := patched m1 (function + 2) (drop 2 code) in
    ps4KernelMemoryCopy (bridge + 2) (function + 2) (Z.to_nat (Z.of_nat (length code) - 2)) m1 = Some (PS4_OK, m2) /\
    let m3 := set_cr0 (Z.lor (cr0 m2) CR0_WP) m2 in
    ps4KernelMemoryCopyToLocal bridge 2 m2 = Some ((PS4_OK, take 2 code), m3) /\
    ps4KernelFunctionUnlock function (le_val (take 2 code)) m3 = Some (PS4_OK, patched m function code).
Proof.
  intros Hlock Hf Hb Hr Hbytes Hl Hm Hd. unfold disjoint_ranges in Hd.
  destruct (function_lock_run m function Hlock) as [old E1]; [unfold NULL; lia | intros i Hi; apply Hm; lia|]. exists old. split; [done|]. intros m1 m2.
  assert (length (drop 2 code) = (length code - 2)%nat) as Ld by apply length_drop. assert (length (take 2 code) = 2%nat) as Lt by (rewrite length_take; lia).
  assert (mem_read (mem m1) bridge (length code) = Some code) as R1 by (unfold m1, patched; cbn [mem set_cr0 set_mem]; rewrite mem_read_write_other; [done | unfold disjoint_ranges; cbn; lia]).
  assert (mem_read (mem m2) bridge (length code) = Some code) as R2.
  { unfold m2, patched. cbn [mem set_cr0 set_mem]. rewrite mem_read_write_other; [exact R1 | unfold disjoint_ranges; rewrite Ld; lia]. }
  split; [|intros m3; split].
  - replace (Z.to_nat (Z.of_nat (length code) - 2)) with (length code - 2)%nat by lia. apply copy_run; [unfold NULL; lia | unfold NULL; lia | unfold disjoint_ranges; lia | |].
    + pose proof (mem_read_sub _ _ _ _ 2 (length code - 2) R1 ltac:(lia)) as R. rewrite <- Ld, firstn_all in R. rewrite <- Ld. exact R.
    + apply mapped_range_patched. change (function + 2) with (function + Z.of_nat 2). apply (mapped_range_sub _ _ _ _ _ Hm). lia.
  - pose proof (mem_read_sub _ _ _ _ 0 2 R2 ltac:(lia)) as R. rewrite Z.add_0_r, drop_0 in R. apply copy_to_local_run; [unfold NULL; lia | exact R].
  - rewrite function_unlock_run; [|unfold NULL; lia | intros i Hi; apply (mapped_range_patched m1 (function + 2) (drop 2 code) function (length code)); [by apply mapped_range_patched | lia]].
    rewrite <- Lt at 1. rewrite le_bytes_val by (by apply Forall_take). rewrite <- (patched_around m function Lock_code code eq_refl Hl). do 2 f_equal.
    unfold m3, m2, m1, patched. destruct m. cbn. by rewrite <- !Z.lor_assoc, !Z.lor_diag.
Qed.
End Restore.

(** ** Freeing *)

(** The blocks [L], freed one after the other. *)
Definition freed_all (L : list (Z * Z)) (m : machine) : machine := foldl (fun m p => freed m p.1 p.2) m L.

Lemma freed_all_rest L m : freed_all L m = set_allocs (allocs (freed_all L m)) (set_mem (mem (freed_all L m)) m).
Proof. revert m. induction L as [|[p n] L IH]; intros m; [by destruct m|]. cbn [freed_all foldl fst snd]. fold (freed_all L (freed m p n)). rewrite IH at 1. done. Qed.

Lemma freed_all_held L h m : freed_all L (set_held h m) = set_held h (freed_all L m).
Proof. revert m. induction L as [|p L IH]; intros m; [done|]. apply (IH (freed m p.1 p.2)). Qed.

Lemma freed_all_allocs L m a : allocs (freed_all L m) !! a = if decide (a ∈ L.*1) then None else allocs m !! a.
Proof.
  revert m. induction L as [|[p n] L IH]; intros m; [done|]. cbn [freed_all foldl fst snd]. fold (freed_all L (freed m p n)). rewrite IH. unfold freed. cbn [allocs set_allocs fmap list_fmap fst].
  destruct (decide (a ∈ L.*1)); destruct (decide (a ∈ p :: L.*1)) as [Ha|Ha]; try done.
  - exfalso. apply Ha. by right.
  - apply elem_of_cons in Ha as [->|]; [apply lookup_delete_eq | done].
  - apply not_elem_of_cons in Ha as [Hne _]. by rewrite lookup_delete_ne.
Qed.

Lemma freed_all_out L m x : (forall p n, (p, n) ∈ L -> 0 <= n /\ ~ in_block p n x) -> mem (freed_all L m) !! x = mem m !! x.
Proof.
  revert m. induction L as [|[p n] L IH]; intros m Hx; [done|]. cbn [freed_all foldl fst snd]. fold (freed_all L (freed m p n)). rewrite IH by (intros q k Hq; apply Hx; by right).
  apply lookup_freed; apply (Hx p n); by left.
Qed.

Lemma freed_all_in L m p n x : (p, n) ∈ L -> in_block p n x -> mem (freed_all L m) !! x = None.
Proof.
  revert m. assert (forall L m, mem m !! x = None -> mem (freed_all L m) !! x = None) as Hgone.
  { clear. induction L as [|[p n] L IH]; intros m Hm; [done|]. apply IH. unfold freed. cbn [mem set_allocs set_mem fst snd]. rewrite lookup_mem_free. by case_match. }
  induction L as [|[q k] L IH]; intros m; [by intros ?%elem_of_nil|]. intros [[= <- <-]|Hp]%elem_of_cons Hx; cbn [freed_all foldl fst snd].
  - apply Hgone. unfold freed. cbn [mem set_allocs set_mem]. rewrite lookup_mem_free. unfold in_block in Hx.
    destruct (Z.leb_spec p x), (Z.ltb_spec x (p + Z.of_nat (Z.to_nat n))); try lia. done.
  - by apply IH.
Qed.

Section Free.
Context `{D : KernelDlSym} `{HA : KernelAllocator}.

(** The fields at the indices [I], one after the other. *)
Fixpoint free_fields (arg : Z) (I : list nat) (k : K unit) : K unit :=
  match I with [] => k | i :: I' => do! free_field (arg + 8 * Z.of_nat i) in free_fields arg I' k end.

Lemma free_fields_run L : forall m arg F n k,
  blocks_ok m -> ready m -> words m arg F -> allocs m !! arg = Some n -> 8 * Z.of_nat (length F) <= n ->
  NoDup (L.*2).*1 -> arg ∉ (L.*2).*1 -> (forall i p s, (i, (p, s)) ∈ L -> F !! i = Some p /\ allocs m !! p = Some s) ->
  free_fields arg L.*1 k m = k (freed_all L.*2 m).
Proof.
  induction L as [|[i [p s]] L IH]; intros m arg F n k Hb Hrd Hw Ha Hn Hnd Harg HL; [done|]. cbn [fmap list_fmap fst snd] in *.
  apply NoDup_cons in Hnd as [Hp Hnd]. apply not_elem_of_cons in Harg as [Hne Harg]. destruct (HL i p s ltac:(by left)) as [Hi Hps]. destruct (block_size _ Hb _ _ Hps) as [Hs Hz].
  cbn [free_fields]. erewrite bind_some; cycle 1.
  { unfold free_field. erewrite bind_some by (by apply (words_load m arg F)). unfold ps4FunctionCallIfNotNull. rewrite (proj2 (Z.eqb_neq p 0) Hz).
    by erewrite bind_some by (apply (free_run m p s); done). }
  change (freed_all ((p, s) :: L.*2) m) with (freed_all L.*2 (freed m p s)). apply (IH _ _ F n); try done.
  - by apply blocks_ok_freed.
  - by apply (words_freed m p s arg F n).
  - unfold freed. cbn [allocs set_allocs]. by rewrite lookup_delete_ne by done.
  - intros j q u Hq. destruct (HL j q u ltac:(by right)) as [Hj Hqu]. split; [done|]. unfold freed. cbn [allocs set_allocs]. rewrite lookup_delete_ne; [done|].
    intros ->. apply Hp, list_elem_of_fmap. exists (q, u). split; [done|]. apply list_elem_of_fmap. by exists (j, (q, u)).
Qed.
End Free.

(** ** Waiting for nobody *)

(** A free lock in a field, taken and given back. *)
Lemma spin_cycle m arg F i fuel (a := arg + 8 * Z.of_nat i) :
  words m arg F -> F !! i = Some 0 -> 0 < arg ->
  ps4AtomicSpinLock64 (S fuel) a m = Some (PS4_OK, put64 a 1 m) /\ words (put64 a 1 m) arg (<[i := 1]> F) /\
  ps4AtomicSpinUnlock64 a (put64 a 1 m) = Some (PS4_OK, m).
Proof.
  intros Hw Hi Ha. apply lookup_lt_Some in Hi as Hl. destruct (words_store m arg F i 1 Hw Hl ltac:(lia)) as [_ W].
  assert (a =? NULL = false) as En by (apply Z.eqb_neq; unfold NULL, a; lia). split; [|split; [exact W|]].
  - unfold ps4AtomicSpinLock64, spin_lock. rewrite En. erewrite bind_some; [reflexivity|]. cbn [spin_loop].
    by erewrite bind_some by (apply (atomic_swap_run 8 _ 0); exact (lock_word_field m arg F i 0 Hw Hi Ha)).
  - unfold ps4AtomicSpinUnlock64, spin_unlock. rewrite En.
    erewrite bind_some by (apply (atomic_swap_run 8 _ 1); apply (lock_word_field _ arg _ i 1 W); [by rewrite list_lookup_insert_eq | done]).
    change (1 =? 1) with true. cbv iota. unfold ret. do 2 f_equal. etransitivity; [apply (with_word_twice 8)|]. unfold with_word.
    rewrite mem_write_id; [by destruct m|]. exact (words_read _ _ _ Hw i 0 Hi).
Qed.

(** ** Destroying a hook *)

Section Destroy.
Context `{D : KernelDlSym} `{HA : KernelAllocator} `{HS : KernelSysctl} `{PI : PayloadImage} `{HI : HookImage}.
Context (m : machine) (arg function bridge : Z) (code F : list Z) (L : list (nat * (Z * Z))).
Notation mx := (var ps4KernelFunctionHookMutex m).

(** A hook through which no call is under way: the fields, the blocks they name
    in the order they are freed, and the displaced code in the bridge. *)
Record idle_hook : Prop := IdleHook {
  idle_blocks : blocks_ok m;
  idle_ready : ready m;
  idle_mutex : mx <> NULL;
  idle_words : words m arg F;
  idle_length : length F = 24%nat;
  idle_arg : allocs m !! arg = Some sizeof_Ps4KernelFunctionHookArgument;
  idle_positive : 0 < arg;
  idle_function : F !! 10%nat = Some function /\ F !! 11%nat = Some bridge /\ F !! 12%nat = Some (Z.of_nat (length code));
  idle_entries : F !! 2%nat = Some 0 /\ F !! 23%nat = Some 0;
  idle_order : L.*1 = [5; 11; 13; 14; 8; 9]%nat;
  idle_fields i p n : (i, (p, n)) ∈ L -> F !! i = Some p /\ allocs m !! p = Some n;
  idle_apart : NoDup (L.*2).*1 /\ arg ∉ (L.*2).*1;
  idle_lock : loaded m ps4PayloadLock Lock_code;
  idle_code : mem_read (mem m) bridge (length code) = Some code /\ Forall is_byte code /\ (2 <= length code)%nat /\ Z.of_nat (length code) < 2 ^ 32;
  idle_target : 0 < function /\ 0 < bridge /\ mapped_range m function (length code) /\
    disjoint_ranges bridge (Z.of_nat (length code)) function (Z.of_nat (length code)) /\ disjoint_ranges function (Z.of_nat (length code)) arg 192
}.
Hypothesis Hidle : idle_hook.

(** What is left of it. *)
Definition hook_gone : machine := freed_all (L.*2 ++ [(arg, sizeof_Ps4KernelFunctionHookArgument)]) (patched m function code).

Lemma idle_catch n :
  n = patched (locked mx m) function code ->
  ps4KernelFunctionHookExceptionHandlerCatch arg n = Some (tt, freed_all (L.*2 ++ [(arg, sizeof_Ps4KernelFunctionHookArgument)]) n).
Proof.
  intros ->. set (n := patched _ _ _). destruct Hidle as [Hb Hrd _ Hw HF Ha Hpos _ _ HI' HL [Hnd Harg] _ _ (_ & _ & Hm & _ & Hd)].
  assert (words n arg F) as Wn by (apply words_patched; [by apply (words_ext m) | by rewrite HF]).
  assert (blocks_ok n) as Bn.
  { apply (blocks_ok_eq (set_mem (mem_write (mem m) function code) m)); try done. by apply blocks_ok_write. }
  unfold ps4KernelFunctionHookExceptionHandlerCatch. rewrite (proj2 (Z.eqb_neq arg NULL)) by (unfold NULL; lia).
  transitivity (free_fields arg L.*1 (ps4FunctionCallIfNotNull ps4KernelMemoryFree arg) n); [by rewrite HI'|].
  rewrite (free_fields_run L n arg F 192 _ Bn Hrd Wn Ha) by (done || rewrite HF; lia). unfold freed_all. rewrite foldl_app. cbn [foldl fst snd]. fold (freed_all L.*2 n).
  unfold ps4FunctionCallIfNotNull. rewrite (proj2 (Z.eqb_neq arg 0)) by lia. erewrite bind_some; [done|]. apply free_run; [|lia|].
  - unfold CacheMap.ready, var. rewrite freed_all_rest. exact Hrd.
  - rewrite freed_all_allocs, decide_False by done. exact Ha.
Qed.

Lemma hook_destroy_run fuel :
  exists m', ps4KernelFunctionHookDestroy (S fuel) arg m = Some (PS4_OK, m') /\ (forall a, hold_count a m' = hold_count a m) /\
    m' = set_held (held m') hook_gone.
Proof.
  destruct Hidle as [Hb Hrd Hmx Hw HF Ha Hpos (F10 & F11 & F12) (F2 & F23) HI' HL Hap Hlock (Hcode & Hbytes & Hl & Hlen) (Hf & Hbr & Hm & Hd & Hd2)].
  assert (mx =? NULL = false) as Emx by (by apply Z.eqb_neq). set (m1 := set_pinned (pinned m + 1) (locked mx m)).
  assert (words m1 arg F) as W1 by (by apply (words_ext m)).
  assert (words (patched m1 function Lock_code) arg F) as Wl by (apply words_patched; [done | rewrite HF; unfold disjoint_ranges in *; cbn; lia]).
  destruct (restore_text_run m1 function bridge code) as (old & E1 & E2 & E3 & E4); try done.
  set (m2 := patched (locked mx m) function code).
  assert (set_pinned (pinned (patched m1 function code) - 1) (patched m1 function code) = m2) as Em2.
  { unfold m2, m1, patched, locked. destruct m. cbn. by rewrite Z.add_simpl_r. }
  assert (words m2 arg F) as W2 by (apply words_patched; [by apply (words_ext m) | by rewrite HF]).
  destruct (spin_cycle m2 arg F 23 fuel W2 F23 Hpos) as (Elock & W3 & Eunlock).
  unfold ps4KernelFunctionHookDestroy, Ps4ExceptionTryCatchFinally, hook_initialized.
  set (body := (let! mx0 := get_var ps4KernelFunctionHookMutex in if mx0 =? NULL then _ else _) : K (outcome * Z)).
  assert (body m = Some ((Throw PS4_OK, arg), m2)) as Eb.
  { unfold body. erewrite bind_some by reflexivity. rewrite Emx, (proj2 (Z.eqb_neq arg NULL)) by (unfold NULL; lia).
    erewrite bind_some by reflexivity. erewrite bind_some by (unfold mtx_lock; by rewrite Emx). fold (locked mx m). erewrite bind_some by reflexivity. fold m1.
    erewrite bind_some by exact (words_load m1 arg F 10 _ W1 F10). erewrite bind_some by exact E1.
    erewrite bind_some by exact (words_load _ arg F 11 _ Wl F11). erewrite bind_some by exact (words_load _ arg F 10 _ Wl F10).
    erewrite bind_some by exact (field_load_i64 _ arg F 12 _ Wl F12 Hlen). erewrite bind_some by exact E2. erewrite bind_some by exact E3. cbv zeta. cbn [fst snd].
    change (PS4_OK =? PS4_OK) with true. cbv iota. erewrite bind_some by exact E4. erewrite bind_some by reflexivity. rewrite Em2.
    erewrite bind_some by exact Elock. erewrite bind_some; cycle 1.
    { cbn [drain_loop]. erewrite bind_some by (apply (field_load_i64 _ arg _ 2 0 W3); [by rewrite list_lookup_insert_ne | lia]). reflexivity. }
    by erewrite bind_some by exact Eunlock. }
  set (m3 := freed_all (L.*2 ++ [(arg, sizeof_Ps4KernelFunctionHookArgument)]) m2).
  set (m4 := set_held (<[mx := hold_count mx m]> (held m3)) m3).
  pose proof (freed_all_rest (L.*2 ++ [(arg, sizeof_Ps4KernelFunctionHookArgument)]) m2) as Er. fold m3 in Er.
  assert (forall a, hold_count a m3 = hold_count a (locked mx m)) as Hh by (intros a; unfold hold_count; by rewrite Er).
  assert (ps4KernelFunctionHookExceptionHandlerFinally arg m3 = Some (tt, m4)) as Ef.
  { unfold ps4KernelFunctionHookExceptionHandlerFinally. erewrite bind_some by reflexivity. assert (var ps4KernelFunctionHookMutex m3 = mx) as -> by (unfold var; by rewrite Er).
    rewrite Emx. unfold mtx_unlock. by rewrite Emx, Hh, hold_count_locked, decide_True. }
  exists m4. split; [|split].
  - unfold bind. rewrite Eb. cbn [fst snd]. rewrite (idle_catch m2 eq_refl). fold m3. by rewrite Ef.
  - intros a. unfold m4, hold_count. cbn [held set_held]. destruct (decide (a = mx)) as [->|Hne]; [by rewrite lookup_insert_eq|].
    rewrite lookup_insert_ne by done. specialize (Hh a). rewrite hold_count_locked, decide_False in Hh by done. exact Hh.
  - unfold m4. cbn [held set_held]. unfold m3. change m2 with (set_held (held m2) (patched m function code)). rewrite freed_all_held. done.
Qed.
End Destroy.

(** ** There and back *)

Section Trip.
Context `{D : KernelDlSym} `{Sy : !KernelSymbols D} `{HA : KernelAllocator} `{HL : !KernelAllocatorLaws HA} `{HR : !KernelRoom HA} `{HS : KernelSysctl}.
Context `{PI : PayloadImage} `{HI : HookImage}.

(** The blocks of a construction under way, and all the difference they make. *)
Definition way_blocks (C : list (Z * Z)) (B : list (Z * list Z)) : list (Z * Z) := C ++ ((fun p => (p.1, 8 * Z.of_nat (length p.2))) <$> B).

Lemma way_block_cases C B p n : (p, n) ∈ way_blocks C B -> (p, n) ∈ C \/ exists l, (p, l) ∈ B /\ n = 8 * Z.of_nat (length l).
Proof. intros [Hp|([q l] & [= -> ->] & Hq)%list_elem_of_fmap]%elem_of_app; [by left | right; by exists l]. Qed.

Lemma under_way_blocks start need C B m p n :
  under_way start need C B m -> (p, n) ∈ way_blocks C B ->
  0 < n /\ allocs m !! p = Some n /\ forall x, in_block p n x -> mem start !! x = None.
Proof.
  intros (m0 & X & G & _) [Hp|(l & Hp & ->)]%way_block_cases.
  - destruct (ext_code _ _ _ X p n Hp) as (_ & _ & Hn & Ha & Hx). split; [done|]. split; [|intros x Hin; by apply Hx].
    apply (grown_allocs_old m0 B); [done | apply Hx; unfold in_block; lia | done].
  - destruct (grown_words _ _ _ G p l Hp) as (_ & _ & Hl). split; [lia|]. split; [rewrite (grown_allocs _ _ _ G); by apply new_allocs_lookup; [apply G|]|].
    intros x Hx. destruct (mem start !! x) as [b|] eqn:E; [|done]. apply (ext_mem _ _ _ X) in E. by rewrite (grown_new _ _ _ G p l x Hp Hx) in E.
Qed.

Lemma under_way_outside start need C B m x :
  under_way start need C B m -> (forall p n, (p, n) ∈ way_blocks C B -> ~ in_block p n x) -> mem m !! x = mem start !! x.
Proof.
  intros (m0 & X & G & _) Hx. rewrite (grown_old _ _ _ G).
  - destruct (mem start !! x) as [b|] eqn:E; [by apply (ext_mem _ _ _ X)|]. apply (ext_none _ _ _ X); [done|]. intros q n Hq. apply Hx, elem_of_app. by left.
  - intros p l Hp. apply Hx, elem_of_app. right. apply list_elem_of_fmap. by exists (p, l).
Qed.

Lemma under_way_allocs start need C B m a :
  under_way start need C B m -> blocks_ok start -> allocs start !! a = if decide (a ∈ (way_blocks C B).*1) then None else allocs m !! a.
Proof.
  intros U Hb. case_decide as Hin.
  - apply list_elem_of_fmap in Hin as ([p n] & -> & Hp). destruct (under_way_blocks _ _ _ _ _ _ _ U Hp) as (Hn & _ & Hx). destruct (allocs start !! p) as [k|] eqn:E; [|done].
    destruct (block_size _ Hb _ _ E), (block_mapped _ Hb p k p E) as [[b Eb] _]; [unfold in_block; lia|]. cbn [fst] in *. rewrite Hx in Eb; [done | unfold in_block; lia].
  - destruct U as (m0 & X & G & _). rewrite (grown_allocs _ _ _ G), (ext_blocks _ _ _ X). unfold way_blocks in Hin. rewrite fmap_app, not_elem_of_app in Hin. destruct Hin as [H1 H2].
    assert (forall A, new_allocs B A !! a = A !! a) as ->.
    { intros A. clear -H2. induction B as [|[p l] B IH]; [done|]. cbn [fmap list_fmap fst] in H2. apply not_elem_of_cons in H2 as [Hne H2].
      cbn [new_allocs foldr fst snd]. rewrite lookup_insert_ne by done. by apply IH. }
    clear -H1. induction C as [|[p n] C IH]; [done|]. cbn [fmap list_fmap fst] in H1. apply not_elem_of_cons in H1 as [Hne H1].
    cbn [code_allocs foldr fst snd]. rewrite lookup_insert_ne by done. by apply IH.
Qed.

Lemma under_way_nodup start need C B m : under_way start need C B m -> NoDup C.*1 -> NoDup (way_blocks C B).*1.
Proof.
  intros (m0 & X & G & _) HC. unfold way_blocks. rewrite fmap_app, <- list_fmap_compose. apply NoDup_app. split; [done|]. split; [|apply (grown_nodup _ _ _ G)].
  intros a ([p n] & -> & Hp)%list_elem_of_fmap ([q l] & E & Hq)%list_elem_of_fmap. cbn in E. subst q.
  destruct (ext_code _ _ _ X p n Hp) as (_ & _ & Hn & _ & Hx), (grown_words _ _ _ G p l Hq) as (_ & _ & Hl). destruct (Hx p) as [[b Hb] _]; [unfold in_block; lia|].
  rewrite (grown_new _ _ _ G p l p Hq) in Hb; [done | unfold in_block; lia].
Qed.

Lemma under_way_apart start need C B m p n q k :
  under_way start need C B m -> (p, n) ∈ way_blocks C B -> (q, k) ∈ way_blocks C B -> p <> q -> disjoint_ranges p n q k.
Proof.
  intros U Hp Hq Hne. apply (blocks_apart m); [by destruct U as (m0 & _ & G & _); apply G | by apply (under_way_blocks _ _ _ _ _ _ _ U) | by apply (under_way_blocks _ _ _ _ _ _ _ U) | done].
Qed.

(** A hook that was just made is idle. *)
Lemma created_idle R c pg m function f g mt arg prologue bridge A T H Ty code m2
    (np := code_block (Z.of_nat ps4PayloadTemplateFunctionHookPrologueSize)) (hm := hooked_machine m2 arg function prologue bridge code)
    (F := new_fields (var ps4FunctionHookArgumentClone m) (var ps4KernelFunctionHookHandler m) (var ps4FunctionHookArgumentDestroy m)
      function f g mt prologue bridge (Z.of_nat (length code)) A T H Ty)
    (L := [(5%nat, (prologue, np)); (11%nat, (bridge, code_block 1)); (13%nat, (H, 64)); (14%nat, (Ty, 64)); (8%nat, (A, 184)); (9%nat, (T, 48))]) :
  hook_site R c pg m function f g mt -> loaded m ps4PayloadLock Lock_code -> clear_of function ps4PayloadTemplateJump64Size ps4PayloadLock Lock_code ->
  under_way (locked (var ps4KernelFunctionHookMutex m) m) 0 [(bridge, code_block 1); (prologue, np)]
    [(Ty, repeat 0 8); (H, repeat 0 8); (T, repeat 0 6); (A, repeat 0 23); (arg, F)] m2 ->
  patch_sites m2 function prologue bridge code -> mem_read (mem m) function (length code) = Some code -> (length code < ps4PayloadTemplateJump64Size + 30)%nat ->
  idle_hook (unlocked m hm) arg function bridge code F L.
Proof.
  intros Hsite Hlock Hclear U Hs Hcode Hlen. destruct (hooked_under_way _ _ _ arg _ _ _ code U Hs Hcode Hlen) as ((m0 & G) & Hheld & Hkeep).
  destruct (hooked_reads m2 arg function prologue bridge code Hs) as (_ & Rb & _ & _). fold hm in G, Hheld, Hkeep, Rb.
  pose proof (grown_held _ _ _ (held (unlocked m hm)) G) as G'. change (set_held (held (unlocked m hm)) hm) with (unlocked m hm) in G'.
  pose proof (sites_kernel _ _ _ _ _ Hs) as (K1 & K2 & K3 & K4 & K5). pose proof (sites_long _ _ _ _ _ Hs) as Hlong.
  assert (forall v, var v (unlocked m hm) = var v m) as Hvar by (intros v; change (var v (unlocked m hm)) with (var v m2); by rewrite (under_way_var _ _ _ _ _ _ U)).
  set (B := [_; _; _; _; _]) in U. set (C := [_; _]) in U.
  assert (way_blocks C B = [(bridge, code_block 1); (prologue, np); (Ty, 64); (H, 64); (T, 48); (A, 184); (arg, 192)]) as EW by reflexivity.
  assert (NoDup (way_blocks C B).*1) as Hnd.
  { apply (under_way_nodup _ _ _ _ _ U). cbn [C fmap list_fmap fst]. apply NoDup_cons. split; [|apply NoDup_singleton]. rewrite list_elem_of_singleton. intros ->.
    destruct (sites_apart _ _ _ _ _ Hs) as (_ & _ & Hd). unfold disjoint_ranges in Hd. rewrite prologue_size_eq in Hd. change ps4PayloadTemplateJump64Size with 13%nat in Hd. lia. }
  rewrite EW in Hnd. cbn [fmap list_fmap fst] in Hnd.
  assert (forall p n, (p, n) ∈ way_blocks C B -> allocs (unlocked m hm) !! p = Some n) as Hal by (intros p n Hp; apply (under_way_blocks _ _ _ _ _ _ _ U Hp)).
  destruct (grown_words _ _ _ G' arg F ltac:(by do 4 right; left)) as (W & Harg & _).
  split.
  - apply G'.
  - unfold CacheMap.ready. rewrite Hvar. apply (pre_type _ _ _ _ (site_prepared _ _ _ _ _ _ _ _ Hsite)).
  - rewrite Hvar. apply (site_mutex _ _ _ _ _ _ _ _ Hsite).
  - exact W.
  - done.
  - apply (Hal arg). by do 6 right; left.
  - lia.
  - done.
  - done.
  - done.
  - intros i p n Hi. unfold L in Hi. rewrite !elem_of_cons, elem_of_nil in Hi. split; [by destruct Hi as [[= -> -> ->]|[[= -> -> ->]|[[= -> -> ->]|[[= -> -> ->]|[[= -> -> ->]|[[= -> -> ->]|[]]]]]]]|].
    apply Hal. rewrite EW. destruct Hi as [[= -> -> ->]|[[= -> -> ->]|[[= -> -> ->]|[[= -> -> ->]|[[= -> -> ->]|[[= -> -> ->]|[]]]]]]]; repeat first [by left | right].
  - cbn [L fmap list_fmap fst snd]. revert Hnd. rewrite !NoDup_cons, !not_elem_of_cons. clear. intuition congruence.
  - split; [apply Hlock|]. apply (mem_read_keeps _ _ _ _ _ (proj2 Hlock)). intros x b Hx Hb. apply (Hkeep x b Hb). unfold clear_of, disjoint_ranges in Hclear. lia.
  - split; [|split; [|change ps4PayloadTemplateJump64Size with 13%nat in *; lia]].
    + pose proof (mem_read_sub _ _ _ _ 0 (length code) Rb ltac:(lia)) as Rc. rewrite Z.add_0_r, drop_0, take_app_length in Rc. exact Rc.
    + apply Forall_lookup. intros i b Hi. apply lookup_lt_Some in Hi as Hlt. apply mem_read_Some in Hcode as [_ Hc]. 
      destruct (site_mapped _ _ _ _ _ _ _ _ Hsite (Z.of_nat i) ltac:(lia)) as (b' & Hb' & Hby). rewrite (Hc i Hlt), Hi in Hb'. by injection Hb' as ->.
  - destruct (sites_apart _ _ _ _ _ Hs) as (_ & Hd & _). split; [lia|]. split; [lia|]. split; [|split].
    + apply (mapped_range_patched _ function (jump_code prologue)), mapped_range_patched, mapped_range_patched. eapply mapped_range_read, (sites_code _ _ _ _ _ Hs).
    + unfold disjoint_ranges in *. lia.
    + assert (disjoint_ranges arg 192 function (Z.of_nat (length code))) as Hd2; [|unfold disjoint_ranges in *; lia].
      apply (block_mapped_disjoint m); [| | change ps4PayloadTemplateJump64Size with 13%nat in *; lia | lia].
      * intros x Hx. unfold in_block in Hx. destruct (mapped_range_read m _ _ _ Hcode (Z.to_nat (x - function)) ltac:(lia)) as [b Hb]. exists b.
        by replace (function + Z.of_nat (Z.to_nat (x - function))) with x in Hb by lia.
      * intros x [b Hb] Hin. destruct (under_way_blocks _ _ _ _ _ arg 192 U) as (_ & _ & Hno); [rewrite EW; repeat first [by left | right]|].
        specialize (Hno x Hin). change (mem (locked (var ps4KernelFunctionHookMutex m) m)) with (mem m) in Hno. by rewrite Hno in Hb.
Qed.

(** Without its blocks the machine is what it was, if the rest is. *)
Lemma freed_back start need C B m m' W :
  under_way start need C B m -> blocks_ok start -> allocs m' = allocs m ->
  (forall x, (forall p n, (p, n) ∈ way_blocks C B -> ~ in_block p n x) -> mem m' !! x = mem start !! x) -> (forall q, q ∈ W <-> q ∈ way_blocks C B) ->
  mem (freed_all W m') = mem start /\ allocs (freed_all W m') = allocs start.
Proof.
  intros U Hb Ea Hm HW. split; apply map_eq.
  - intros x. destruct (decide (Exists (fun q => q.1 <= x < q.1 + q.2) W)) as [([p k] & Hq & Hx)%Exists_exists|Hout].
    + rewrite (freed_all_in W _ p k x Hq Hx). symmetry. by apply (under_way_blocks _ _ _ _ _ _ _ U (proj1 (HW _) Hq)).
    + assert (forall p k, (p, k) ∈ way_blocks C B -> ~ in_block p k x) as Hx by (intros p k Hq Hin; apply Hout, Exists_exists; exists (p, k); split; [by apply HW | exact Hin]).
      rewrite freed_all_out; [by apply Hm|]. intros p k Hq%HW. split; [|by apply Hx]. destruct (under_way_blocks _ _ _ _ _ _ _ U Hq). lia.
  - intros a. rewrite freed_all_allocs, Ea, (under_way_allocs _ _ _ _ _ a U Hb).
    assert (a ∈ W.*1 <-> a ∈ (way_blocks C B).*1) as Hw by (rewrite !list_elem_of_fmap; split; intros (q & -> & Hq); exists q; split; try done; by apply HW).
    destruct (decide (a ∈ W.*1)), (decide (a ∈ (way_blocks C B).*1)); tauto.
Qed.

(** What is left of the machine when the hook is gone. *)
Lemma gone_memory m n arg function prologue bridge code C B L h m2 (hm := set_held h (hooked_machine m2 arg function prologue bridge code)) :
  under_way n 0 C B m2 -> mem n = mem m -> allocs n = allocs m -> blocks_ok n -> patch_sites m2 function prologue bridge code -> mem_read (mem m) function (length code) = Some code ->
  (forall q, q ∈ L.*2 ++ [(arg, sizeof_Ps4KernelFunctionHookArgument)] <-> q ∈ way_blocks C B) ->
  (exists k, (prologue, k) ∈ C /\ Z.of_nat ps4PayloadTemplateFunctionHookPrologueSize <= k) -> (exists k, (bridge, k) ∈ C /\ Z.of_nat (length code + ps4PayloadTemplateJump64Size) <= k) ->
  mem (hook_gone hm arg function code L) = mem m /\ allocs (hook_gone hm arg function code L) = allocs m.
Proof.
  intros U En Ea Hb Hs Hcode HW (kp & Hp & Hkp) (kb & Hbr & Hkb). rewrite <- En, <- Ea. apply (freed_back n 0 C B m2); [done | done | done | | done]. intros x Hx.
  unfold patched at 1. cbn [mem set_cr0 set_mem]. rewrite lookup_mem_write. apply mem_read_Some in Hcode as [_ Hc]. rewrite <- En in Hc. case_match eqn:Q.
  - apply andb_prop in Q as [Q1%Z.leb_le Q2%Z.ltb_lt]. rewrite <- (Hc (Z.to_nat (x - function)) ltac:(lia)). f_equal. lia.
  - pose proof (sites_long _ _ _ _ _ Hs). apply andb_false_iff in Q. rewrite Z.leb_gt, Z.ltb_ge in Q. unfold hm. cbn [mem set_held]. rewrite hooked_elsewhere; [|done | lia | |].
    + apply (under_way_outside _ _ _ _ _ x U Hx).
    + intros Hin. apply (Hx prologue kp); [apply elem_of_app; by left | unfold in_block in *; lia].
    + intros Hin. apply (Hx bridge kb); [apply elem_of_app; by left | unfold in_block in *; lia].
Qed.

Lemma under_way_cr0 start need C B m : under_way start need C B m -> Z.lor (cr0 m) CR0_WP = Z.lor (cr0 start) CR0_WP.
Proof. intros (m0 & X & G & _). rewrite (grown_rest _ _ _ G). apply (ext_cr0 _ _ _ X). Qed.

Lemma gone_rest start C B m arg function prologue bridge code L h (gone := hook_gone (set_held h (hooked_machine m arg function prologue bridge code)) arg function code L) :
  under_way start 0 C B m -> gone = set_cr0 (Z.lor (cr0 start) CR0_WP) (set_held h (set_allocs (allocs gone) (set_mem (mem gone) start))).
Proof.
  intros U. unfold gone at 1, hook_gone. rewrite freed_all_rest. fold gone. change (freed_all _ (patched (set_held h _) function code)) with gone.
  rewrite <- (under_way_cr0 _ _ _ _ _ U). unfold hooked_machine, patched. cbn [cr0 set_cr0 set_mem set_held mem]. rewrite <- !Z.lor_assoc, !Z.lor_diag.
  generalize (allocs gone) (mem gone) (Z.lor (cr0 m) CR0_WP). clear gone. intros a x v. pose proof (under_way_rest _ _ _ _ _ U) as Em. destruct m, start. cbn in *. injection Em. intros. by subst.
Qed.

(** The blocks in the order they are freed. *)
Lemma created_blocks arg prologue bridge A T H Ty np nb F :
  length F = 24%nat -> forall q, q ∈ [(prologue, np); (bridge, nb); (H, 64); (Ty, 64); (A, 184); (T, 48)] ++ [(arg, sizeof_Ps4KernelFunctionHookArgument)] <->
    q ∈ way_blocks [(bridge, nb); (prologue, np)] [(Ty, repeat 0 8); (H, repeat 0 8); (T, repeat 0 6); (A, repeat 0 23); (arg, F)].
Proof.
  intros HF q. assert (way_blocks [(bridge, nb); (prologue, np)] [(Ty, repeat 0 8); (H, repeat 0 8); (T, repeat 0 6); (A, repeat 0 23); (arg, F)] =
    [(bridge, nb); (prologue, np); (Ty, 64); (H, 64); (T, 48); (A, 184); (arg, 192)]) as -> by (cbn; by rewrite HF).
  cbn [app]. unfold sizeof_Ps4KernelFunctionHookArgument. rewrite !elem_of_cons. tauto.
Qed.

Lemma page_block : 56 <= code_block 1.
Proof. by apply Z.leb_le. Qed.

(** C9. Making a hook and destroying it leaves no trace: the function has its
    instructions back, every block is free again, every mutex is held as
    before, and the machine is the one before both but for the write protection
    bit, which is on. *)
Theorem hook_create_destroy R c pg m function f g mt fuel :
  hook_site R c pg m function f g mt -> loaded m ps4PayloadLock Lock_code -> clear_of function ps4PayloadTemplateJump64Size ps4PayloadLock Lock_code ->
  exists arg m1 m2, ps4KernelFunctionHookCreate OPtr function m = Some ((PS4_OK, Some arg), m1) /\
    ps4KernelFunctionHookDestroy (S fuel) arg m1 = Some (PS4_OK, m2) /\
    m2 = set_cr0 (Z.lor (cr0 m) CR0_WP) (set_held (held m2) m) /\ forall a, hold_count a m2 = hold_count a m.
Proof.
  intros Hsite Hlock Hclear. set (mx := var ps4KernelFunctionHookMutex m).
  destruct (hook_create_run R c pg m function f g mt Hsite) as (arg & prologue & bridge & A & T & H & Ty & l & u' & n1 & n2 & code & E & _ & _ & El & Hlen & Hcode & U & Hs).
  rewrite <- El in U. pose proof (created_idle _ _ _ _ _ _ _ _ _ _ _ _ _ _ _ _ _ Hsite Hlock Hclear U Hs Hcode Hlen) as Hidle.
  destruct (hook_destroy_run _ _ _ _ _ _ _ Hidle fuel) as (m2 & E2 & Hh & Em). eexists arg, _, m2. split; [exact E|]. split; [exact E2|]. clear E E2 Hidle.
  split; [|intros a; rewrite Hh; apply released_held; intros b; exact (under_way_held _ _ _ _ _ b U)].
  set (L := [_; _; _; _; _; _]) in Em. set (C := [_; _]) in U. set (B := [_; _; _; _; _]) in U.
  assert (forall q, q ∈ L.*2 ++ [(arg, sizeof_Ps4KernelFunctionHookArgument)] <-> q ∈ way_blocks C B) as HW by (by apply created_blocks).
  assert (exists k, (prologue, k) ∈ C /\ Z.of_nat ps4PayloadTemplateFunctionHookPrologueSize <= k) as Hp by (eexists; split; [by right; left | apply code_block_size]).
  assert (exists k, (bridge, k) ∈ C /\ Z.of_nat (length code + ps4PayloadTemplateJump64Size) <= k) as Hb.
  { eexists. split; [by left|]. etransitivity; [|exact page_block]. change ps4PayloadTemplateJump64Size with 13%nat in *. lia. }
  clearbody L C B. rewrite Em at 1. unfold unlocked, released. set (h := <[_ := _]> _). clearbody h.
  destruct (gone_memory m (locked mx m) arg function prologue bridge code C B L h n2 U eq_refl eq_refl) as [Gm Ga]; [|done..|].
  { apply (blocks_ok_eq m); try done. apply (pre_symbols _ _ _ _ (site_prepared _ _ _ _ _ _ _ _ Hsite)). }
  rewrite (gone_rest _ _ _ _ arg function prologue bridge code L h U), Gm, Ga. by destruct m.
Qed.
End Trip.

(** ** Witness *)

Section TripWitness.
#[local] Existing Instance bump_allocator.
#[local] Existing Instance bump_allocator_laws.
#[local] Existing Instance bump_room_laws.
#[local] Existing Instance sysctl_there.
#[local] Existing Instance example_image.
#[local] Existing Instance build_code.
#[local] Existing Instance build_symbols.
#[local] Existing Instance build_symbols_settled.

Lemma hook_create_destroy_witness :
  exists arg m1 m2, ps4KernelFunctionHookCreate OPtr build_function build_machine = Some ((PS4_OK, Some arg), m1) /\
    ps4KernelFunctionHookDestroy 1 arg m1 = Some (PS4_OK, m2) /\ m2 = set_cr0 0x80010033 (set_held (held m2) build_machine).
Proof.
  destruct (hook_create_destroy _ _ _ _ _ _ _ _ 0 build_machine_site) as (arg & m1 & m2 & E1 & E2 & Em & _).
  - split; [done | by vm_compute].
  - right. vm_compute. discriminate.
  - exists arg, m1, m2. split; [exact E1|]. split; [exact E2 | exact Em].
Defined.
End TripWitness.
