(* ===== verification/CallBuild.v ===== *)
(** * Making and undoing a system call hook (common/kernel/source/kernel/system_call.c)

    [ps4KernelSystemCallHookCreate] allocates the structure, its arrays and the
    prologue, and puts the prologue into the system call's entry of the
    kernel's table; [ps4KernelSystemCallHookDestroy] puts the original call
    back and frees all of it. *)

From stdpp Require Import base gmap list strings.
From S2P Require Import Prelude Errors Uthash Machine Reference KernelBase KernelMemory Cache CacheMap CacheGlobal Symbol Words Template Atomic FunctionHook HookList SystemCall HookHandler HookChain HookClone HookBuild HookUndo.

Local Ltac lt := apply Nat.ltb_lt; reflexivity.

Lemma store64_is_put a v m m' : store64 a v m = Some (tt, m') -> m' = put64 a v m.
Proof. unfold store64, store_bytes. case_match; [|done]. by intros [= <-]. Qed.

Section CallBuild.
Context `{D : KernelDlSym} `{Sy : !KernelSymbols D} `{HA : KernelAllocator} `{HL : !KernelAllocatorLaws HA} `{HR : !KernelRoom HA} `{HS : KernelSysctl}.
Context `{PI : PayloadImage} `{SI : SystemCallImage}.
Context (R : roles) (c pg : Z) (start : machine) (number sy f g mt original : Z).

(** The entry of the system call. *)
Definition call_entry : Z := sy + sizeof_sysent * number + sy_call.

(** The fields of a new hook. *)
Definition new_call_fields (prologue H Ty : Z) : list Z :=
  [var ps4KernelSystemCallHookArgumentClone start; var ps4KernelSystemCallHookHandler start; 0; 0; 0; 0; prologue; 0; 0; 0; 0; original; sy; number; H; Ty; 0; 8; 0; 0; f; g; mt].

Definition call_room : Z := cost (8 * Z.of_nat 8) + cost (8 * Z.of_nat 8) + cost (code_block (Z.of_nat ps4PayloadTemplateSystemCallHookPrologueSize)).
Definition call_prologue_code (arg : Z) : list Z := [0x49; 0xbb] ++ le_bytes 8 arg ++ system_call_hook_prologue_rest.

Hypothesis Hpre : prepared R c pg start.
Hypothesis Hmalloc : view start c !! name_key "malloc" = Some f /\ 0 <= f < 2 ^ 64.
Hypothesis Hfree : view start c !! name_key "free" = Some g /\ 0 <= g < 2 ^ 64.
Hypothesis Htype : view start c !! name_key "M_TEMP" = Some mt /\ 0 <= mt < 2 ^ 64.
Hypothesis Hstatic : 0 <= var ps4KernelSystemCallHookArgumentClone start < 2 ^ 64 /\ 0 <= var ps4KernelSystemCallHookHandler start < 2 ^ 64.
Hypothesis Hnumber : 0 <= number <= SYS_MAXSYSCALL /\ 0 <= sy < 2 ^ 64.
Hypothesis Htemplate : loaded start ps4PayloadTemplateSystemCallHookPrologue SystemCallHookPrologue_code.
Hypothesis Hentry : mem_read (mem start) call_entry 8 = Some (le_bytes 8 original) /\ 0 <= original < 2 ^ 64 /\ forall x, call_entry <= x < call_entry + 8 -> x ∉ text start.

Lemma call_prologue_size : Z.of_nat ps4PayloadTemplateSystemCallHookPrologueSize = 10 + Z.of_nat (length system_call_hook_prologue_rest).
Proof. unfold ps4PayloadTemplateSystemCallHookPrologueSize, SystemCallHookPrologue_code. rewrite !length_app. cbn. lia. Qed.

(** Everything before the prologue. *)
Definition call_hook_fields (arg : Z) (k : K unit) : K unit :=
  do! store64 (arg + s_systemCalls) sy in
  do! store64 (arg + s_number) number in
  do! store64 (arg + s_hookSize) 8 in
  do! store64 (arg + s_hookCount) 0 in
  let! r := ps4KernelMemoryAllocateData OPtr (8 * 8) in
  do! out_to_field (arg + s_hook) (snd r) in
  let! r := ps4KernelMemoryAllocateData OPtr (8 * 8) in
  do! out_to_field (arg + s_hookType) (snd r) in
  let! r := ps4KernelSymbolLookUp (Some "malloc"%string) OPtr in
  do! out_to_field (arg + s_allocate) (snd r) in
  let! r := ps4KernelSymbolLookUp (Some "free"%string) OPtr in
  do! out_to_field (arg + s_free) (snd r) in
  let! r := ps4KernelSymbolLookUp (Some "M_TEMP"%string) OPtr in
  do! out_to_field (arg + s_mt) (snd r) in
  let! v := get_var ps4KernelSystemCallHookArgumentClone in
  do! store64 (arg + s_clone) v in
  let! v := get_var ps4KernelSystemCallHookHandler in
  do! store64 (arg + s_handler) v in
  k.

Lemma call_hook_fields_run m arg :
  under_way start call_room [] [(arg, repeat 0 23)] m ->
  exists H Ty m', (forall k, call_hook_fields arg k m = k m') /\
    under_way start (cost (code_block (Z.of_nat ps4PayloadTemplateSystemCallHookPrologueSize))) []
      [(Ty, repeat 0 8); (H, repeat 0 8); (arg, <[11%nat := 0]> (new_call_fields 0 H Ty))] m'.
Proof.
  intros U. unfold call_room in U. set (np := Z.of_nat ps4PayloadTemplateSystemCallHookPrologueSize) in *.
  pose proof (code_block_size np) as [Hn0 Hn1]. pose proof call_prologue_size as Hsize. fold np in Hsize.
  destruct (under_way_put start _ _ _ _ 0 arg _ 12 sy U eq_refl ltac:(lt) ltac:(lia)) as (m1 & E1 & U1).
  destruct (under_way_put start _ _ _ _ 0 arg _ 13 number U1 eq_refl ltac:(lt) ltac:(unfold SYS_MAXSYSCALL in *; lia)) as (m2 & E2 & U2).
  destruct (under_way_put start _ _ _ _ 0 arg _ 17 8 U2 eq_refl ltac:(lt) ltac:(lia)) as (m3 & E3 & U3).
  destruct (under_way_put start _ _ _ _ 0 arg _ 16 0 U3 eq_refl ltac:(lt) ltac:(lia)) as (m4 & E4 & U4).
  destruct (under_way_alloc R c pg start Hpre _ _ _ _ 8 U4 ltac:(lia) ltac:(unfold cost; lia)) as (H & m5 & E5 & U5).
  destruct (under_way_words _ _ _ _ _ 0%nat _ _ U5 eq_refl) as (_ & HH & _).
  destruct (under_way_put start _ _ _ _ 1 arg _ 14 H U5 eq_refl ltac:(lt) ltac:(lia)) as (m6 & E6 & U6).
  destruct (under_way_alloc R c pg start Hpre _ _ _ _ 8 U6 ltac:(lia) ltac:(unfold cost; lia)) as (Ty & m7 & E7 & U7).
  destruct (under_way_words _ _ _ _ _ 0%nat _ _ U7 eq_refl) as (_ & HT & _).
  destruct (under_way_put start _ _ _ _ 2 arg _ 15 Ty U7 eq_refl ltac:(lt) ltac:(lia)) as (m8 & E8 & U8).
  destruct (under_way_symbol R c pg start Hpre _ _ _ _ _ _ U8 (proj1 Hmalloc)) as (m9 & E9 & U9).
  destruct (under_way_put start _ _ _ _ 2 arg _ 20 f U9 eq_refl ltac:(lt) (proj2 Hmalloc)) as (m10 & E10 & U10).
  destruct (under_way_symbol R c pg start Hpre _ _ _ _ _ _ U10 (proj1 Hfree)) as (m11 & E11 & U11).
  destruct (under_way_put start _ _ _ _ 2 arg _ 21 g U11 eq_refl ltac:(lt) (proj2 Hfree)) as (m12 & E12 & U12).
  destruct (under_way_symbol R c pg start Hpre _ _ _ _ _ _ U12 (proj1 Htype)) as (m13 & E13 & U13).
  destruct (under_way_put start _ _ _ _ 2 arg _ 22 mt U13 eq_refl ltac:(lt) (proj2 Htype)) as (m14 & E14 & U14).
  destruct (under_way_put start _ _ _ _ 2 arg _ 0 _ U14 eq_refl ltac:(lt) (proj1 Hstatic)) as (m15 & E15 & U15).
  destruct (under_way_put start _ _ _ _ 2 arg _ 1 _ U15 eq_refl ltac:(lt) (proj2 Hstatic)) as (m16 & E16 & U16).
  exists H, Ty, m16. split; [|eapply under_way_less; [exact U16 | unfold cost; lia]]. intros k. unfold call_hook_fields.
  erewrite bind_some by exact E1. erewrite bind_some by exact E2. erewrite bind_some by exact E3. erewrite bind_some by exact E4.
  erewrite bind_some by exact E5. cbn [snd out_to_field]. erewrite bind_some by exact E6. erewrite bind_some by exact E7. cbn [snd out_to_field]. erewrite bind_some by exact E8.
  erewrite bind_some by exact E9. cbn [snd out_to_field]. erewrite bind_some by exact E10. erewrite bind_some by exact E11. cbn [snd out_to_field]. erewrite bind_some by exact E12.
  erewrite bind_some by exact E13. cbn [snd out_to_field]. erewrite bind_some by exact E14.
  erewrite bind_some by reflexivity. rewrite (under_way_var _ _ _ _ _ _ U14). erewrite bind_some by exact E15.
  erewrite bind_some by reflexivity. rewrite (under_way_var _ _ _ _ _ _ U15). by erewrite bind_some by exact E16.
Qed.

Lemma length_call_prologue arg : length (call_prologue_code arg) = ps4PayloadTemplateSystemCallHookPrologueSize.
Proof. unfold call_prologue_code, ps4PayloadTemplateSystemCallHookPrologueSize, SystemCallHookPrologue_code. rewrite !length_app, length_le_bytes. done. Qed.

Lemma call_entry_writable need C B m : under_way start need C B m -> writable_range m call_entry 8.
Proof.
  intros U. apply writable_range_iff. intros i Hi. destruct Hentry as (Hr & _ & Hd). split.
  - exact (mapped_range_read _ _ _ _ (under_way_read _ _ _ _ _ _ _ _ U Hr) i Hi).
  - rewrite (under_way_text _ _ _ _ _ U). intros []%Hd. lia.
Qed.

(** Up to the exchange of the entry. *)
Lemma call_hook_build_run m arg :
  under_way start call_room [] [(arg, repeat 0 23)] m ->
  exists prologue H Ty m', call_hook_build arg sy number m = Some (tt, put64 call_entry prologue m') /\ 0 < prologue < 2 ^ 64 /\
    under_way start 0 [(prologue, code_block (Z.of_nat ps4PayloadTemplateSystemCallHookPrologueSize))]
      [(Ty, repeat 0 8); (H, repeat 0 8); (arg, new_call_fields prologue H Ty)] m' /\
    mem_read (mem m') prologue ps4PayloadTemplateSystemCallHookPrologueSize = Some (call_prologue_code arg) /\ cr0 m' = Z.lor (cr0 start) CR0_WP.
Proof.
  intros U. destruct (call_hook_fields_run m arg U) as (H & Ty & m1 & E1 & U1). set (np := Z.of_nat ps4PayloadTemplateSystemCallHookPrologueSize) in *.
  pose proof (code_block_size np) as [Hn0 Hn1]. pose proof call_prologue_size as Hsize. fold np in Hsize.
  destruct (under_way_code_alloc R c pg start Hpre _ _ _ _ np U1 ltac:(lia) ltac:(lia)) as (prologue & m2 & E2 & Hpro & U2 & _).
  destruct (under_way_put start _ _ _ _ 2 arg _ 6 prologue U2 eq_refl ltac:(lt) ltac:(lia)) as (m3 & E3 & U3).
  pose proof (length_call_prologue arg) as Lp. destruct (under_way_code start _ _ _ _ prologue (code_block np) U3 ltac:(by left)) as [Mp Ap].
  assert (E4 : ps4PayloadSystemCallHookProloguePatch prologue arg m3 = Some (PS4_OK, patched m3 prologue (call_prologue_code arg))).
  { apply (prologue_patch_run m3 _ system_call_hook_prologue_rest).
    - split; [apply Htemplate | eapply under_way_read; [exact U3 | apply Htemplate]].
    - split; [unfold NULL; lia|]. split; [lia|]. apply Mp. exact Hn0.
    - specialize (Ap _ _ _ (proj2 Htemplate) ltac:(cbn; lia)). unfold clear_of, disjoint_ranges in *. change (length ([73; 187] ++ zeros 8 ++ system_call_hook_prologue_rest)) with (length SystemCallHookPrologue_code).
      change (Z.of_nat (length SystemCallHookPrologue_code)) with np in *. lia. }
  pose proof (under_way_patch start _ _ _ _ prologue (code_block np) (call_prologue_code arg) U3 ltac:(by left) ltac:(rewrite Lp; exact Hn0)) as U4.
  set (m4 := patched m3 prologue (call_prologue_code arg)) in *.
  destruct (under_way_put start _ _ _ _ 2 arg _ 11 original U4 eq_refl ltac:(lt) (proj1 (proj2 Hentry))) as (m5 & E5 & U5).
  exists prologue, H, Ty, m5. split; [|split; [done|split; [eapply under_way_less; [exact U5 | lia]|]]].
  - etransitivity; [exact (E1 _)|]. erewrite bind_some by exact E2. cbn [snd out_to_field]. erewrite bind_some by exact E3.
    erewrite bind_some by exact (under_way_load start _ _ _ _ 2 arg _ 6 prologue U3 eq_refl eq_refl). erewrite bind_some by exact E4. fold m4.
    erewrite bind_some by (apply load64_run; eapply under_way_read; [exact U4 | apply Hentry]). rewrite le_val_word by apply Hentry. erewrite bind_some by exact E5.
    erewrite bind_some by exact (under_way_load start _ _ _ _ 2 arg _ 6 prologue U5 eq_refl eq_refl). apply store64_run. by eapply call_entry_writable.
  - apply store64_is_put in E5. subst m5. split; [|exact (under_way_cr0 _ _ _ _ _ U3)]. pose proof (under_way_nodup start _ _ _ _ U5 (NoDup_singleton _)) as Hnd.
    assert (prologue <> arg) as Hne by (intros ->; apply NoDup_cons in Hnd as [Hnd _]; apply Hnd; by do 2 right; left).
    pose proof (under_way_apart start _ _ _ _ prologue (code_block np) arg (8 * Z.of_nat 23) U5 ltac:(by left) ltac:(by do 3 right; left) Hne) as Hd.
    unfold put64. cbn [mem set_mem]. rewrite mem_read_write_other; [rewrite <- Lp; apply patched_bytes|]. rewrite length_le_bytes. unfold disjoint_ranges in *. lia.
Qed.
End CallBuild.

(** ** The whole operations *)

Section CallTrip.
Context `{D : KernelDlSym} `{Sy : !KernelSymbols D} `{HA : KernelAllocator} `{HL : !KernelAllocatorLaws HA} `{HR : !KernelRoom HA} `{HS : KernelSysctl}.
Context `{PI : PayloadImage} `{SI : SystemCallImage}.
Context (R : roles) (c pg : Z) (m : machine) (number sy f g mt original : Z).
Notation mx := (var ps4KernelSystemCallHookMutex m).
Notation np := (code_block (Z.of_nat ps4PayloadTemplateSystemCallHookPrologueSize)).
Notation entry := (call_entry number sy).

(** A system call that can be hooked. *)
Record call_site : Prop := CallSite {
  call_prepared : prepared R c pg m;
  call_mutex : mx <> NULL;
  call_sysent : view m c !! name_key "sysent" = Some sy;
  call_malloc : view m c !! name_key "malloc" = Some f /\ 0 <= f < 2 ^ 64;
  call_free : view m c !! name_key "free" = Some g /\ 0 <= g < 2 ^ 64;
  call_type : view m c !! name_key "M_TEMP" = Some mt /\ 0 <= mt < 2 ^ 64;
  call_static : 0 <= var ps4KernelSystemCallHookArgumentClone m < 2 ^ 64 /\ 0 <= var ps4KernelSystemCallHookHandler m < 2 ^ 64;
  call_number : 0 <= number <= SYS_MAXSYSCALL /\ 0 <= sy < 2 ^ 64;
  call_template : loaded m ps4PayloadTemplateSystemCallHookPrologue SystemCallHookPrologue_code;
  call_original : mem_read (mem m) entry 8 = Some (le_bytes 8 original) /\ 0 <= original < 2 ^ 64 /\ forall x, entry <= x < entry + 8 -> x ∉ text m;
  call_apart x : entry <= x < entry + 8 -> ~ CacheMap.owned R m x;
  call_enough : cost (8 * Z.of_nat 23) + call_room <= kroom m
}.
Hypothesis Hsite : call_site.

Notation fields := (new_call_fields m number sy f g mt original).

Lemma call_create_run :
  exists arg prologue H Ty m2, ps4KernelSystemCallHookCreate OPtr number m = Some ((PS4_OK, Some arg), released mx m (put64 entry prologue m2)) /\
    under_way (locked mx m) 0 [(prologue, np)] [(Ty, repeat 0 8); (H, repeat 0 8); (arg, fields prologue H Ty)] m2 /\ 0 < prologue < 2 ^ 64 /\
    mem_read (mem m2) prologue ps4PayloadTemplateSystemCallHookPrologueSize = Some (call_prologue_code arg) /\ cr0 m2 = Z.lor (cr0 m) CR0_WP.
Proof.
  destruct Hsite as [Hpre Hmx Hsy Hf Hg Ht Hst Hn Htm Ho Hap Hroom]. set (start := locked mx m). assert (prepared R c pg start) as Hps by (by apply prepared_locked).
  assert (mx =? NULL = false) as Emx by (by apply Z.eqb_neq).
  destruct (symbol_hit_run R m c "sysent" sy (pre_symbols _ _ _ _ Hpre) Hsy) as (h & E0 & Hh). set (m0 := locked mx (set_held h m)).
  assert (under_way start (cost (8 * Z.of_nat 23) + call_room) [] [] m0) as U0.
  { apply (under_way_start R c pg); [done | by destruct m | |].
    - intros a. unfold m0, start. rewrite !hold_count_locked. by rewrite !Hh.
    - etransitivity; [exact Hroom|]. by apply kroom_same. }
  assert (0 <= call_room) as Hr0 by (unfold call_room, cost; pose proof (proj2 (code_block_size (Z.of_nat ps4PayloadTemplateSystemCallHookPrologueSize))); lia).
  destruct (under_way_alloc R c pg start Hps _ _ _ _ 23 U0 ltac:(lia) ltac:(lia)) as (arg & n1 & E1 & U1).
  destruct (under_way_words _ _ _ _ _ 0%nat _ _ U1 eq_refl) as (_ & Harg & _).
  destruct (under_way_fill _ _ _ _ _ 0 arg 23 U1 eq_refl) as (n2 & E2 & U2). apply (under_way_less _ _ call_room) in U2; [|lia].
  destruct (call_hook_build_run R c pg start number sy f g mt original Hps Hf Hg Ht Hst Hn Htm Ho n2 arg U2) as (prologue & H & Ty & m2 & E3 & Hpro & U3 & Hcode).
  exists arg, prologue, H, Ty, m2. split; [|done]. unfold ps4KernelSystemCallHookCreate, lookUpOrReturnOut. erewrite bind_some by exact E0. cbn [fst snd].
  change (PS4_OK =? 0) with true. cbv iota. change (default 0 (Some sy)) with sy. rewrite (proj2 (Z.ltb_ge _ _)) by lia.
  unfold call_hook_initialized. erewrite bind_some by reflexivity. change (var ps4KernelSystemCallHookMutex (set_held h m)) with mx. rewrite Emx.
  erewrite bind_some by reflexivity. change (var ps4KernelSystemCallHookMutex (set_held h m)) with mx. erewrite bind_some by (unfold mtx_lock; by rewrite Emx).
  fold (locked mx (set_held h m)). fold m0. erewrite bind_some by exact E1. cbv zeta. cbn [snd]. change (default 0 (Some arg)) with arg.
  rewrite (proj2 (Z.eqb_neq arg NULL)) by (unfold NULL; lia). erewrite bind_some by exact E2. erewrite bind_some by exact E3.
  erewrite bind_some by reflexivity. change (var ps4KernelSystemCallHookMutex (put64 entry prologue m2)) with (var ps4KernelSystemCallHookMutex m2).
  rewrite (under_way_var _ _ _ _ _ _ U3). change (var ps4KernelSystemCallHookMutex start) with mx. unfold mtx_unlock at 1.
  erewrite bind_some; [reflexivity|]. rewrite Emx. change (hold_count mx (put64 entry prologue m2)) with (hold_count mx m2).
  rewrite (under_way_held _ _ _ _ _ mx U3). unfold start. by rewrite hold_count_locked, decide_True.
Qed.

Section Destroy.
Context (arg prologue H Ty : Z) (m2 : machine).
Notation start := (locked mx m).
Notation made := (released mx m (put64 entry prologue m2)).
Notation C := [(prologue, np)].
Notation B := [(Ty, repeat 0 8); (H, repeat 0 8); (arg, fields prologue H Ty)].
Hypothesis U : under_way start 0 C B m2.

(** The blocks in the order they are freed. *)
Definition call_blocks : list (Z * Z) := [(H, 64); (Ty, 64); (prologue, np); (arg, sizeof_Ps4KernelSystemCallHookArgument)].

Lemma call_way_blocks q : q ∈ call_blocks <-> q ∈ way_blocks C B.
Proof.
  assert (way_blocks C B = [(prologue, np); (Ty, 64); (H, 64); (arg, 184)]) as -> by reflexivity.
  unfold call_blocks, sizeof_Ps4KernelSystemCallHookArgument. rewrite !elem_of_cons. tauto.
Qed.

Lemma call_nodup : NoDup [H; Ty; prologue] /\ arg ∉ [H; Ty; prologue].
Proof.
  pose proof (under_way_nodup _ _ _ _ _ U (NoDup_singleton _)) as Hnd. change ((way_blocks C B).*1) with [prologue; Ty; H; arg] in Hnd.
  revert Hnd. rewrite !NoDup_cons, !not_elem_of_cons. clear. intuition congruence.
Qed.

(** The entry is in none of the blocks. *)
Lemma call_block_kept p n x : (p, n) ∈ way_blocks C B -> in_block p n x -> mem (put64 entry prologue m2) !! x = mem m2 !! x.
Proof.
  intros Hp Hx. apply lookup_put64. intros He. destruct (under_way_blocks _ _ _ _ _ p n U Hp) as (_ & _ & Hno).
  destruct (mapped_range_read m _ _ _ (proj1 (call_original Hsite)) (Z.to_nat (x - entry)) ltac:(lia)) as [b Hb].
  replace (entry + Z.of_nat (Z.to_nat (x - entry))) with x in Hb by lia. specialize (Hno x Hx). change (mem start) with (mem m) in Hno. by rewrite Hno in Hb.
Qed.

Lemma call_block_words m' i p l :
  B !! i = Some (p, l) -> mem m' = mem m2 \/ mem m' = mem (put64 entry prologue m2) -> text m' = text m2 -> words m' p l.
Proof.
  intros Hi Hm Ht. destruct (under_way_words _ _ _ _ _ i _ _ U Hi) as (W & _). apply (words_ext m2); [done | done|]. intros x b Hx Hb. destruct Hm as [->| ->]; [done|].
  rewrite (call_block_kept p (8 * Z.of_nat (length l))); [done | | exact Hx]. apply elem_of_app. right. apply list_elem_of_fmap. exists (p, l). split; [done|].
  by eapply list_elem_of_lookup_2.
Qed.

Lemma call_words_made m' : mem m' = mem m2 \/ mem m' = mem (put64 entry prologue m2) -> text m' = text m2 -> words m' arg (fields prologue H Ty).
Proof. by apply (call_block_words m' 2). Qed.

(** The entry has the original again. *)
Lemma call_entry_back h : put64 entry original (set_held h (put64 entry prologue m2)) = set_held h m2.
Proof.
  transitivity (set_held h (put64 entry original (put64 entry prologue m2))); [done|]. f_equal. etransitivity; [apply (with_word_twice 8)|].
  unfold with_word. rewrite mem_write_id; [by destruct m2|]. rewrite length_le_bytes. eapply under_way_read; [exact U | apply (call_original Hsite)].
Qed.

Lemma call_start_blocks : blocks_ok start.
Proof. apply (blocks_ok_eq m); try done. apply (pre_symbols _ _ _ _ (call_prepared Hsite)). Qed.

Lemma call_entry_made_writable n : mem n = mem (put64 entry prologue m2) -> text n = text m2 -> writable_range n entry 8.
Proof.
  intros Em Et. apply writable_range_iff. destruct (call_original Hsite) as (Hr & _ & Hd). intros i Hi. split.
  - unfold mapped. rewrite Em. apply (mapped_range_patched m2 entry (le_bytes 8 prologue) entry 8); [|done].
    eapply mapped_range_read, under_way_read; [exact U | exact Hr].
  - rewrite Et, (under_way_text _ _ _ _ _ U). intros []%Hd. lia.
Qed.

(** The symbols are where they were. *)
Lemma call_symbols_made : symbols_ready R made c /\ view made c = view m c.
Proof.
  destruct (under_way_symbols R c pg start (prepared_locked _ _ _ _ _ (call_prepared Hsite)) _ _ _ _ U) as [Hs Hv].
  destruct (symbols_same R m2 made c Hs) as [Hs' Hv']; try done.
  - apply (blocks_ok_eq (put64 entry prologue m2)); try done. apply blocks_ok_write. by destruct U as (m0 & _ & G & _); apply G.
  - intros x b (a & r & n & Ha & Hn & Hx) Hb. cbn [mem released set_held]. rewrite lookup_put64; [done|]. intros He. apply (call_apart Hsite x He). exists a, r. 
    destruct (inv_roles _ _ (symbols_inv _ _ _ (pre_symbols _ _ _ _ (call_prepared Hsite))) a r Ha) as [k Hk]. exists k. split; [done|]. split; [done|].
    pose proof (under_way_allocs _ _ _ _ _ a U call_start_blocks) as Ea. change (allocs start) with (allocs m) in Ea. rewrite Hk, Hn in Ea. case_decide; [done|].
    injection Ea as ->. exact Hx.
  - by rewrite Hv', Hv.
Qed.

Lemma call_catch n :
  n = set_held (held n) m2 -> ps4KernelSystemCallHookExceptionHandlerCatch arg n = Some (tt, freed_all call_blocks n).
Proof.
  intros En. assert (words n arg (fields prologue H Ty)) as Wn by (apply call_words_made; [left|]; by rewrite En).
  assert (blocks_ok n) as Bn by (apply (blocks_ok_eq m2); [by rewrite En..|]; by destruct U as (m0 & _ & G & _); apply G).
  assert (ready n) as Rn by (unfold CacheMap.ready, var; rewrite En; change (var ps4KernelMemoryType m2 <> NULL); rewrite (under_way_var _ _ _ _ _ _ U); apply (pre_type _ _ _ _ (call_prepared Hsite))).
  assert (forall p k, (p, k) ∈ way_blocks C B -> allocs n !! p = Some k) as Hal by (intros p k Hp; rewrite En; apply (under_way_blocks _ _ _ _ _ _ _ U Hp)).
  destruct (under_way_words _ _ _ _ _ 2%nat _ _ U eq_refl) as (_ & Harg & _). destruct call_nodup as [Hnd Hna].
  unfold ps4KernelSystemCallHookExceptionHandlerCatch. rewrite (proj2 (Z.eqb_neq arg NULL)) by (unfold NULL; lia).
  set (L := [(14%nat, (H, 64)); (15%nat, (Ty, 64)); (6%nat, (prologue, np))]).
  transitivity (free_fields arg L.*1 (ps4FunctionCallIfNotNull ps4KernelMemoryFree arg) n); [done|].
  rewrite (free_fields_run L n arg (fields prologue H Ty) 184 _ Bn Rn Wn); [| | done | done | done |].
  - change (freed_all call_blocks n) with (freed (freed_all L.*2 n) arg sizeof_Ps4KernelSystemCallHookArgument). unfold ps4FunctionCallIfNotNull.
    rewrite (proj2 (Z.eqb_neq arg 0)) by lia. erewrite bind_some; [done|]. apply free_run; [|lia|].
    + unfold CacheMap.ready, var. rewrite freed_all_rest. exact Rn.
    + rewrite freed_all_allocs, decide_False by done. apply Hal. by do 3 right; left.
  - apply Hal. by do 3 right; left.
  - intros i p k Hi. unfold L in Hi. rewrite !elem_of_cons, elem_of_nil in Hi.
    destruct Hi as [[= -> -> ->]|[[= -> -> ->]|[[= -> -> ->]|[]]]]; (split; [done|]); apply Hal; repeat first [by left | right].
Qed.

Lemma call_destroy_run fuel :
  exists m', ps4KernelSystemCallHookDestroy (S fuel) arg made = Some (PS4_OK, m') /\ m' = set_held (held m') (freed_all call_blocks m2) /\
    forall a, hold_count a m' = hold_count a m.
Proof.
  assert (mx =? NULL = false) as Emx by (apply Z.eqb_neq, (call_mutex Hsite)). destruct call_symbols_made as [Hs Hv].
  assert (forall v, var v made = var v m) as Hvar by (intros v; change (var v made) with (var v m2); by rewrite (under_way_var _ _ _ _ _ _ U)).
  destruct (symbol_hit_run R made c "sysent" sy Hs) as (h & E0 & Hh); [rewrite Hv; apply (call_sysent Hsite)|].
  destruct (under_way_words _ _ _ _ _ 2%nat _ _ U eq_refl) as (_ & Harg & _). destruct (call_number Hsite) as [Hnum _].
  assert (forall a, hold_count a made = hold_count a m) as Hmade by (apply released_held; intros a; exact (under_way_held _ _ _ _ _ a U)).
  set (h1 := <[mx := S (hold_count mx (set_held h made))]> h). set (m3 := set_held h1 (put64 entry prologue m2)).
  set (m4 := set_held h1 m2).
  assert (words m3 arg (fields prologue H Ty)) as W3 by (apply call_words_made; [by right | done]).
  assert (words m4 arg (fields prologue H Ty)) as W4 by (apply call_words_made; [by left | done]).
  destruct (spin_cycle m4 arg _ 5 fuel W4 eq_refl (proj1 Harg)) as (Elock & W5 & Eunlock).
  unfold ps4KernelSystemCallHookDestroy, Ps4ExceptionTryCatchFinally, call_hook_initialized_in.
  set (body := (let! mx0 := get_var ps4KernelSystemCallHookMutex in if mx0 =? NULL then _ else _) : K (outcome * Z)).
  assert (body made = Some ((Throw PS4_OK, arg), m4)) as Eb.
  { unfold body. erewrite bind_some by reflexivity. rewrite Hvar, Emx, (proj2 (Z.eqb_neq arg NULL)) by (unfold NULL; lia).
    erewrite bind_some by exact E0. cbn [fst snd]. change (negb (PS4_OK =? 0)) with false. cbv iota zeta. change (default 0 (Some sy)) with sy.
    erewrite bind_some by reflexivity. change (var ps4KernelSystemCallHookMutex (set_held h made)) with (var ps4KernelSystemCallHookMutex made). rewrite Hvar.
    erewrite bind_some by (unfold mtx_lock; by rewrite Emx). change (set_held _ (set_held h made)) with m3.
    erewrite bind_some by (apply (field_load_i64 m3 arg _ 13 (Z.to_nat number) W3); [by cbn; rewrite Z2Nat.id by lia | unfold SYS_MAXSYSCALL in *; lia]).
    rewrite Z2Nat.id by lia. erewrite bind_some by exact (words_load m3 arg _ 11 original W3 eq_refl).
    erewrite bind_some; [|apply store64_run, (call_entry_made_writable m3); done]. change (set_mem _ m3) with (put64 entry original (set_held h1 (put64 entry prologue m2))).
    rewrite call_entry_back. fold m4. erewrite bind_some by exact Elock. erewrite bind_some; cycle 1.
    { cbn [call_drain_loop]. erewrite bind_some by (by apply (field_load_i64 _ arg _ 3 0 W5)). reflexivity. }
    by erewrite bind_some by exact Eunlock. }
  set (m5 := freed_all call_blocks m4). pose proof (freed_all_rest call_blocks m4) as Er. fold m5 in Er.
  assert (forall a, hold_count a m5 = hold_count a start) as Hc.
  { intros a. transitivity (hold_count a (locked mx (set_held h made))); [unfold hold_count; by rewrite Er|].
    rewrite !hold_count_locked, !Hh, !Hmade. done. }
  assert (ps4KernelSystemCallHookExceptionHandlerFinally arg m5 = Some (tt, released mx m m5)) as Ef.
  { unfold ps4KernelSystemCallHookExceptionHandlerFinally. erewrite bind_some by reflexivity.
    assert (var ps4KernelSystemCallHookMutex m5 = mx) as -> by (unfold var; rewrite Er; apply Hvar).
    rewrite Emx. unfold mtx_unlock. by rewrite Emx, Hc, hold_count_locked, decide_True. }
  exists (released mx m m5). split; [|split].
  - unfold bind. rewrite Eb. cbn [fst snd]. rewrite (call_catch m4 eq_refl). fold m5. by rewrite Ef.
  - unfold released. cbn [held set_held]. unfold m5, m4. generalize call_blocks. intros W. rewrite freed_all_held. reflexivity.
  - by apply released_held.
Qed.
End Destroy.

(** Outside the entry nothing that was there changes. *)
Lemma call_made_elsewhere arg prologue H Ty m2 x b :
  under_way (locked mx m) 0 [(prologue, np)] [(Ty, repeat 0 8); (H, repeat 0 8); (arg, fields prologue H Ty)] m2 ->
  mem m !! x = Some b -> ~ entry <= x < entry + 8 -> mem (released mx m (put64 entry prologue m2)) !! x = Some b.
Proof. intros U Hb Hx. cbn [mem released set_held]. rewrite lookup_put64 by done. eapply under_way_mem; [exact U | exact Hb]. Qed.

(** C10. Hooking a system call and taking the hook away again. In between, the
    call's entry of the table is the prologue, which loads the address of the
    structure; the structure has the original call, the number, the two
    routines and the kernel's allocator, and no hooks; and nothing else that
    was there has changed. Afterwards the machine is the one before but for the
    write protection bit, which is on: the entry is the original, every block
    is free, every mutex is held as before. *)
Theorem call_hook_create_destroy fuel :
  exists arg prologue H Ty m1 m2, ps4KernelSystemCallHookCreate OPtr number m = Some ((PS4_OK, Some arg), m1) /\
    words m1 arg (fields prologue H Ty) /\ words m1 H (repeat 0 8) /\ load64 entry m1 = Some (prologue, m1) /\
    mem_read (mem m1) prologue ps4PayloadTemplateSystemCallHookPrologueSize = Some (call_prologue_code arg) /\
    (forall x b, mem m !! x = Some b -> ~ entry <= x < entry + 8 -> mem m1 !! x = Some b) /\ (forall a, hold_count a m1 = hold_count a m) /\
    ps4KernelSystemCallHookDestroy (S fuel) arg m1 = Some (PS4_OK, m2) /\
    m2 = set_cr0 (Z.lor (cr0 m) CR0_WP) (set_held (held m2) m) /\ forall a, hold_count a m2 = hold_count a m.
Proof.
  destruct call_create_run as (arg & prologue & H & Ty & m2 & E & U & Hpro & Hcode & Hcr). destruct (call_destroy_run arg prologue H Ty m2 U fuel) as (m3 & E3 & Em & Hh).
  exists arg, prologue, H, Ty, (released mx m (put64 entry prologue m2)), m3. split; [exact E|].
  split; [apply (call_words_made arg prologue H Ty m2 U); [by right | done]|].
  split; [apply (call_block_words arg prologue H Ty m2 U _ 1); [done | by right | done]|].
  split; [erewrite load64_run by apply mem_read_write_le; by rewrite le_val_word by lia|]. split.
  { apply (mem_read_keeps _ _ _ _ _ Hcode). intros x b Hx Hb. cbn [mem released set_held]. rewrite (call_block_kept arg prologue H Ty m2 U prologue np); [done | by left|].
    pose proof (code_block_size (Z.of_nat ps4PayloadTemplateSystemCallHookPrologueSize)). unfold in_block. lia. }
  split; [intros x b; exact (call_made_elsewhere arg prologue H Ty m2 x b U)|]. split; [apply released_held; intros a; exact (under_way_held _ _ _ _ _ a U)|].
  split; [exact E3|]. split; [|exact Hh].
  destruct (freed_back _ _ _ _ m2 m2 (call_blocks arg prologue H Ty) U call_start_blocks eq_refl) as [Gm Ga];
    [intros x Hx; exact (under_way_outside _ _ _ _ _ x U Hx) | intros q; apply call_way_blocks|].
  rewrite Em at 1. rewrite freed_all_rest, Gm, Ga. rewrite (under_way_rest _ _ _ _ _ U), Hcr. by destruct m.
Qed.
End CallTrip.

(** ** Witness *)

Section CallWitness.
#[local] Existing Instance bump_allocator.
#[local] Existing Instance bump_allocator_laws.
#[local] Existing Instance bump_room_laws.
#[local] Existing Instance sysctl_there.
#[local] Existing Instance example_image.
#[local] Existing Instance build_symbols.
#[local] Existing Instance build_symbols_settled.
#[local] Instance build_call_code : SystemCallImage := {| at_ps4PayloadSystemCallHookHandler := 0x7300; at_ps4PayloadSystemCallHookArgumentClone := 0x7400 |}.

Lemma build_machine_call : call_site build_roles base 0x5000 build_machine 20 (base + 0x20000) 0xffffffff82001000 0xffffffff82002000 0xffffffff82003000 0xffffffff82004000.
Proof.
  split.
  - apply (site_prepared _ _ _ _ _ _ _ _ build_machine_site).
  - by vm_compute.
  - rewrite build_machine_view. by vm_compute.
  - rewrite build_machine_view. split; [by vm_compute | lia].
  - rewrite build_machine_view. split; [by vm_compute | lia].
  - rewrite build_machine_view. split; [by vm_compute | lia].
  - split; by vm_compute.
  - unfold SYS_MAXSYSCALL, base. lia.
  - split; [done | by vm_compute].
  - split; [by vm_compute|]. split; [lia|]. intros x Hx. change (text build_machine) with (list_to_set (C := gset Z) (Z.add build_function ∘ Z.of_nat <$> seq 0 43)).
    rewrite elem_of_list_to_set. intros (i & -> & [_ Hi]%elem_of_seq)%list_elem_of_fmap. unfold call_entry, sizeof_sysent, sy_call, build_function, base in Hx. cbn [compose] in Hx. lia.
  - intros x Hx (a & r & n & _ & Ha & Hin). assert (map_Forall (fun a n => a + n <= base + 0x10000) (allocs build_machine)) as Hf by vm_decide. specialize (Hf a n Ha).
    unfold call_entry, sizeof_sysent, sy_call, in_block, base in *. lia.
  - vm_compute. discriminate.
Qed.

Lemma call_hook_create_destroy_witness :
  exists arg m1 m2, ps4KernelSystemCallHookCreate OPtr 20 build_machine = Some ((PS4_OK, Some arg), m1) /\
    ps4KernelSystemCallHookDestroy 1 arg m1 = Some (PS4_OK, m2) /\ m2 = set_cr0 0x80010033 (set_held (held m2) build_machine).
Proof.
  destruct (call_hook_create_destroy _ _ _ _ _ _ _ _ _ _ build_machine_call 0) as (arg & ? & ? & ? & m1 & m2 & E1 & _ & _ & _ & _ & _ & _ & E2 & Em & _).
  exists arg, m1, m2. split; [exact E1|]. split; [exact E2 | exact Em].
Defined.
End CallWitness.
