(* ===== verification/Assembly.v ===== *)
(** * The assembly the payload is written in

    The instructions and addressing modes that function_hook_prologue.s and
    function_hook_handler.s (common/kernel/source/payload) use, in the order
    of operands of the sources, and what they do to a processor. Code called by
    address is a parameter that follows the calling convention: it gets the
    parameter registers and the stack pointer, gives back the return registers,
    keeps [r12] and [rsp], and may leave anything in the others. Addresses are
    integers, as everywhere in the machine: structures and stacks do not lie
    across the end of the address space. *)

From stdpp Require Import base gmap list strings.
From S2P Require Import Prelude Errors Uthash Machine KernelBase KernelMemory.

(** ** Registers *)

Inductive reg := RAX | RDI | RSI | RDX | RCX | R8 | R9 | R11 | R12 | RSP.

#[export] Instance reg_eq_dec : EqDecision reg.
Proof. solve_decision. Defined.

(** [Ps4RegisterParameters] and [Ps4RegisterReturns] (ps4/register.h). *)
Record parameters := Parameters { p_gpr : list Z; p_xmm : list Z }.
Record returns := Returns { r_rax : Z; r_rdx : Z; r_xmm0 : Z; r_xmm1 : Z }.

(** [flag]: how the operands of the last comparison relate, when the last
    instruction that sets flags was one. *)
Record processor := Processor {
  regs : reg -> Z;
  xmms : nat -> Z;
  flag : option comparison;
  mach : machine
}.

Definition set_reg (r : reg) (v : Z) (s : processor) : processor :=
  Processor (fun x => if decide (x = r) then v else regs s x) (xmms s) (flag s) (mach s).
Definition set_xmm (n : nat) (v : Z) (s : processor) : processor :=
  Processor (regs s) (fun x => if decide (x = n) then v else xmms s x) (flag s) (mach s).
Definition set_flag (f : option comparison) (s : processor) : processor := Processor (regs s) (xmms s) f (mach s).
Definition set_mach (m : machine) (s : processor) : processor := Processor (regs s) (xmms s) (flag s) m.

Definition on_mach {A} (c : K A) : ST processor A :=
  fun s => match c (mach s) with Some (r, m) => Some (r, set_mach m s) | None => None end.

Definition load128 (a : Z) : K Z := let! l := load_bytes a 16 in ret (le_val l).
Definition store128 (a v : Z) : K unit := store_bytes a (le_bytes 16 v).

(** ** Instructions *)

Section Instructions.
Context {label : Type}.

(** An address is an offset and a base register; [Indexed b i] is
    [(b, i, 8)]. *)
Inductive instr :=
  | Push (r : reg) | PushM (o : Z) (b : reg)
  | Pop (r : reg) | PopM (o : Z) (b : reg)
  | MovI (i : Z) (r : reg) | Mov (r r' : reg)
  | Load (o : Z) (b r : reg) | LoadIndexed (b i r : reg)
  | Store (r : reg) (o : Z) (b : reg) | StoreI (i o : Z) (b : reg)
  | LockInc (o : Z) (b : reg) | LockDec (o : Z) (b : reg) | Inc (o : Z) (b : reg)
  | XchgM (r : reg) (o : Z) (b : reg) | Xchg (r r' : reg)
  | MovdquLoad (o : Z) (b : reg) (x : nat) | MovdquStore (x : nat) (o : Z) (b : reg)
  | Test (r : reg) | Cmp (i : Z) (r : reg)
  | Je (l : label) | Jne (l : label) | Jg (l : label) | Jl (l : label) | Jmp (l : label) | JmpM (o : Z) (b : reg)
  | LoadGs (r : reg)
  | Call (r : reg) | CallM (o : Z) (b : reg)
  | SubI (i : Z) (r : reg) | AddI (i : Z) (r : reg)
  | Ret.

(** Where a run of instructions ends: at a label of the program, or at an
    address outside of it. *)
Inductive exit := Goto (l : label) | Leave (a : Z).

(** ** Called code *)

Class AbiCode := {
  abi_call : Z -> Z -> parameters -> K returns;
  abi_scratch : Z -> processor -> reg -> Z;
  abi_scratch_xmm : Z -> processor -> nat -> Z;
  return_address : nat -> Z
}.
Context `{AbiCode}.

Definition parameter_registers (s : processor) : parameters :=
  Parameters [regs s RAX; regs s RDI; regs s RSI; regs s RDX; regs s RCX; regs s R8; regs s R9] (xmms s <$> seq 0 8).

(** A call pushes the address behind it; [n] instructions follow there. *)
Definition call_at (n : nat) (f : Z) : ST processor unit := fun s =>
  let sp := regs s RSP - 8 in
  match (do! store64 sp (return_address n) in abi_call f sp (parameter_registers s)) (mach s) with
  | None => None
  | Some (r, m) =>
      Some (tt, Processor
        (fun x => match x with RAX => r_rax r | RDX => r_rdx r | R12 => regs s R12 | RSP => regs s RSP | _ => abi_scratch f s x end)
        (fun x => match x with 0%nat => r_xmm0 r | 1%nat => r_xmm1 r | _ => abi_scratch_xmm f s x end)
        None m)
  end.

(** ** Execution *)

Definition reg_get (r : reg) : ST processor Z := gets (fun s => regs s r).
Definition reg_set (r : reg) (v : Z) : ST processor unit := modify (set_reg r v).
Definition next : ST processor (option exit) := ret None.

(** [lock incq], [lock decq], [incq]: add to a word in memory. *)
Definition add_to_word (d o : Z) (b : reg) : ST processor (option exit) :=
  let! a := reg_get b in
  let! v := on_mach (load64 (a + o)) in
  do! on_mach (store64 (a + o) (wrap 64 (v + d))) in
  do! modify (set_flag None) in next.

Definition push_value (v : Z) : ST processor (option exit) :=
  let! sp := reg_get RSP in
  do! on_mach (store64 (sp - 8) v) in
  do! reg_set RSP (sp - 8) in next.

Definition pop_value : ST processor Z :=
  let! sp := reg_get RSP in
  let! v := on_mach (load64 sp) in
  do! reg_set RSP (sp + 8) in ret v.

(** A jump that is taken for these outcomes of a comparison. *)
Definition jump_if (taken : comparison -> bool) (l : label) : ST processor (option exit) :=
  let! f := gets flag in
  match f with
  | None => fault
  | Some c => if taken c then ret (Some (Goto l)) else next
  end.

Definition exec (n : nat) (i : instr) : ST processor (option exit) :=
  match i with
  | Push r => let! v := reg_get r in push_value v
  | PushM o b => let! a := reg_get b in let! v := on_mach (load64 (a + o)) in push_value v
  | Pop r => let! v := pop_value in do! reg_set r v in next
  | PopM o b => let! v := pop_value in let! a := reg_get b in do! on_mach (store64 (a + o) v) in next
  | MovI i r => do! reg_set r (wrap 64 i) in next
  | Mov r r' => let! v := reg_get r in do! reg_set r' v in next
  | Load o b r => let! a := reg_get b in let! v := on_mach (load64 (a + o)) in do! reg_set r v in next
  | LoadIndexed b i r =>
      let! a := reg_get b in let! x := reg_get i in let! v := on_mach (load64 (a + 8 * x)) in do! reg_set r v in next
  | Store r o b => let! v := reg_get r in let! a := reg_get b in do! on_mach (store64 (a + o) v) in next
  | StoreI i o b => let! a := reg_get b in do! on_mach (store64 (a + o) (wrap 64 i)) in next
  | LockInc o b | Inc o b => add_to_word 1 o b
  | LockDec o b => add_to_word (-1) o b
  | XchgM r o b =>
      let! a := reg_get b in let! v := reg_get r in
      let! w := on_mach (load64 (a + o)) in do! on_mach (store64 (a + o) v) in do! reg_set r w in next
  | Xchg r r' => let! v := reg_get r in let! w := reg_get r' in do! reg_set r w in do! reg_set r' v in next
  | MovdquLoad o b x => let! a := reg_get b in let! v := on_mach (load128 (a + o)) in do! modify (set_xmm x v) in next
  | MovdquStore x o b => let! v := gets (fun s => xmms s x) in let! a := reg_get b in do! on_mach (store128 (a + o) v) in next
  | Test r => let! v := reg_get r in do! modify (set_flag (Some (signed 64 v ?= 0))) in next
  | Cmp i r => let! v := reg_get r in do! modify (set_flag (Some (signed 64 v ?= i))) in next
  | Je l => jump_if (fun c => match c with Eq => true | _ => false end) l
  | Jne l => jump_if (fun c => match c with Eq => false | _ => true end) l
  | Jg l => jump_if (fun c => match c with Gt => true | _ => false end) l
  | Jl l => jump_if (fun c => match c with Lt => true | _ => false end) l
  | Jmp l => ret (Some (Goto l))
  | JmpM o b => let! a := reg_get b in let! v := on_mach (load64 (a + o)) in ret (Some (Leave v))
  | LoadGs r => let! v := on_mach (gets curthread) in do! reg_set r v in next
  | Call r => let! f := reg_get r in do! call_at n f in next
  | CallM o b => let! a := reg_get b in let! f := on_mach (load64 (a + o)) in do! call_at n f in next
  | SubI i r => let! v := reg_get r in do! reg_set r (v - i) in do! modify (set_flag None) in next
  | AddI i r => let! v := reg_get r in do! reg_set r (v + i) in do! modify (set_flag None) in next
  | Ret => let! v := pop_value in ret (Some (Leave v))
  end.

(** Instructions in sequence, up to the first jump that is taken. *)
Fixpoint exec_list (l : list instr) : ST processor exit :=
  match l with
  | [] => fault
  | i :: l' =>
      let! e := exec (length l') i in
      match e with None => exec_list l' | Some x => ret x end
  end.

(** A program: its labels with the instructions behind each, up to the next
    label. [code_from l]: all that stands at [l] and behind it. *)
Context `{EqDecision label}.

Fixpoint code_from (l : label) (p : list (label * list instr)) : list instr :=
  match p with
  | [] => []
  | (l', block) :: p' => if decide (l = l') then block ++ concat (snd <$> p') else code_from l p'
  end.

(** From a label until the program is left; fuel counts the jumps. *)
Fixpoint run (p : list (label * list instr)) (fuel : nat) (l : label) : ST processor Z :=
  match fuel with
  | O => fault
  | S fuel' =>
      let! e := exec_list (code_from l p) in
      match e with Goto l' => run p fuel' l' | Leave a => ret a end
  end.

(** ** Reaching a label *)

Definition reaches (p : list (label * list instr)) (l : label) (s : processor) (l' : label) (s' : processor) : Prop :=
  exists n, forall k, run p (n + k) l s = run p k l' s'.

Lemma reaches_refl p l s : reaches p l s l s.
Proof. by exists O. Qed.

Lemma reaches_trans p l1 s1 l2 s2 l3 s3 : reaches p l1 s1 l2 s2 -> reaches p l2 s2 l3 s3 -> reaches p l1 s1 l3 s3.
Proof. intros [n Hn] [k Hk]. exists (n + k)%nat. intros j. by rewrite <- Nat.add_assoc, Hn, Hk. Qed.

Lemma reaches_jump p l s l' s' : exec_list (code_from l p) s = Some (Goto l', s') -> reaches p l s l' s'.
Proof. intros E. exists 1%nat. intros k. cbn [Nat.add run]. by erewrite bind_some by exact E. Qed.

Lemma reaches_fall p l s l' s' : exec_list (code_from l p) s = exec_list (code_from l' p) s' -> reaches p l s l' s'.
Proof. intros E. exists O. intros [|k]; cbn [Nat.add run]; [done|]. unfold bind. by rewrite E. Qed.

Lemma run_leaves p l s l' s' a s2 :
  reaches p l s l' s' -> exec_list (code_from l' p) s' = Some (Leave a, s2) -> exists fuel, run p fuel l s = Some (a, s2).
Proof. intros [n Hn] E. exists (n + 1)%nat. rewrite Hn. cbn [run]. by erewrite bind_some by exact E. Qed.
End Instructions.

Arguments instr : clear implicits.
Arguments exit : clear implicits.

(** ** Symbolic execution *)

Section Symbolic.
Context {label : Type} `{AbiCode}.
Implicit Types (l : list (instr label)) (s : processor).

Lemma regs_set_same r v s : regs (set_reg r v s) r = v.
Proof. cbn. by rewrite decide_True. Qed.
Lemma regs_set_other r r' v s : r' <> r -> regs (set_reg r v s) r' = regs s r'.
Proof. intros Hr. cbn. by rewrite decide_False. Qed.

Lemma mach_set_reg r v s : mach (set_reg r v s) = mach s. Proof. done. Qed.
Lemma mach_set_xmm n v s : mach (set_xmm n v s) = mach s. Proof. done. Qed.
Lemma mach_set_flag f s : mach (set_flag f s) = mach s. Proof. done. Qed.
Lemma mach_set_mach m s : mach (set_mach m s) = m. Proof. done. Qed.
Lemma regs_set_xmm n v s r : regs (set_xmm n v s) r = regs s r. Proof. done. Qed.
Lemma regs_set_flag f s r : regs (set_flag f s) r = regs s r. Proof. done. Qed.
Lemma regs_set_mach m s r : regs (set_mach m s) r = regs s r. Proof. done. Qed.
Lemma xmms_set_reg r v s n : xmms (set_reg r v s) n = xmms s n. Proof. done. Qed.
Lemma xmms_set_flag f s n : xmms (set_flag f s) n = xmms s n. Proof. done. Qed.
Lemma xmms_set_mach m s n : xmms (set_mach m s) n = xmms s n. Proof. done. Qed.
Lemma xmms_set_same n v s : xmms (set_xmm n v s) n = v.
Proof. cbn. by rewrite decide_True. Qed.
Lemma xmms_set_other n n' v s : n' <> n -> xmms (set_xmm n v s) n' = xmms s n'.
Proof. intros Hn. cbn. by rewrite decide_False. Qed.

Lemma flag_set_reg r v s : flag (set_reg r v s) = flag s. Proof. done. Qed.
Lemma flag_set_flag f s : flag (set_flag f s) = f. Proof. done. Qed.

Lemma on_mach_some {A} (c : K A) s r m : c (mach s) = Some (r, m) -> on_mach c s = Some (r, set_mach m s).
Proof. unfold on_mach. by intros ->. Qed.

Lemma set_mach_mach m m' s : set_mach m (set_mach m' s) = set_mach m s.
Proof. done. Qed.

Lemma set_mach_same s : set_mach (mach s) s = s.
Proof. by destruct s. Qed.

Lemma on_mach_read {A} (c : K A) s r : c (mach s) = Some (r, mach s) -> on_mach c s = Some (r, s).
Proof. intros E. by rewrite (on_mach_some c s r (mach s) E), set_mach_same. Qed.

Lemma exec_next i l s s' : exec (length l) i s = Some (None, s') -> exec_list (i :: l) s = exec_list l s'.
Proof. intros E. cbn [exec_list]. by erewrite bind_some by exact E. Qed.

Lemma exec_jump i l s x s' : exec (length l) i s = Some (Some x, s') -> exec_list (i :: l) s = Some (x, s').
Proof. intros E. cbn [exec_list]. by erewrite bind_some by exact E. Qed.

Lemma exec_Load o b r l s v : load64 (regs s b + o) (mach s) = Some (v, mach s) -> exec_list (Load o b r :: l) s = exec_list l (set_reg r v s).
Proof. intros E. apply exec_next. cbn [exec]. erewrite bind_some by reflexivity. by erewrite bind_some by (by apply on_mach_read). Qed.

Lemma exec_LoadIndexed b i r l s v :
  load64 (regs s b + 8 * regs s i) (mach s) = Some (v, mach s) -> exec_list (LoadIndexed b i r :: l) s = exec_list l (set_reg r v s).
Proof. intros E. apply exec_next. cbn [exec]. do 2 erewrite bind_some by reflexivity. by erewrite bind_some by (by apply on_mach_read). Qed.

Lemma exec_Store r o b l s m : store64 (regs s b + o) (regs s r) (mach s) = Some (tt, m) -> exec_list (Store r o b :: l) s = exec_list l (set_mach m s).
Proof. intros E. apply exec_next. cbn [exec]. do 2 erewrite bind_some by reflexivity. by erewrite bind_some by (by apply on_mach_some). Qed.

Lemma exec_StoreI i o b l s m : store64 (regs s b + o) (wrap 64 i) (mach s) = Some (tt, m) -> exec_list (StoreI i o b :: l) s = exec_list l (set_mach m s).
Proof. intros E. apply exec_next. cbn [exec]. erewrite bind_some by reflexivity. by erewrite bind_some by (by apply on_mach_some). Qed.

Lemma exec_MovdquStore x o b l s m :
  store128 (regs s b + o) (xmms s x) (mach s) = Some (tt, m) -> exec_list (MovdquStore x o b :: l) s = exec_list l (set_mach m s).
Proof. intros E. apply exec_next. cbn [exec]. do 2 erewrite bind_some by reflexivity. by erewrite bind_some by (by apply on_mach_some). Qed.

Lemma exec_MovdquLoad o b x l s v :
  load128 (regs s b + o) (mach s) = Some (v, mach s) -> exec_list (MovdquLoad o b x :: l) s = exec_list l (set_xmm x v s).
Proof. intros E. apply exec_next. cbn [exec]. erewrite bind_some by reflexivity. by erewrite bind_some by (by apply on_mach_read). Qed.

Lemma exec_add i d o b l s v m :
  i ∈ [LockInc o b; Inc o b] /\ d = 1 \/ i = LockDec o b /\ d = -1 ->
  load64 (regs s b + o) (mach s) = Some (v, mach s) -> store64 (regs s b + o) (wrap 64 (v + d)) (mach s) = Some (tt, m) ->
  exec_list (i :: l) s = exec_list l (set_flag None (set_mach m s)).
Proof.
  intros Hi E1 E2. apply exec_next. assert (exec (length l) i = add_to_word d o b) as ->.
  { destruct Hi as [[Hi ->]|[-> ->]]; [|done]. rewrite !elem_of_cons, elem_of_nil in Hi. by destruct Hi as [->|[->|[]]]. }
  unfold add_to_word. erewrite bind_some by reflexivity. erewrite bind_some by (by apply on_mach_read).
  by erewrite bind_some by (by apply on_mach_some).
Qed.

Lemma exec_XchgM r o b l s w m :
  load64 (regs s b + o) (mach s) = Some (w, mach s) -> store64 (regs s b + o) (regs s r) (mach s) = Some (tt, m) ->
  exec_list (XchgM r o b :: l) s = exec_list l (set_reg r w (set_mach m s)).
Proof.
  intros E1 E2. apply exec_next. cbn [exec]. do 2 erewrite bind_some by reflexivity. erewrite bind_some by (by apply on_mach_read).
  by erewrite bind_some by (by apply on_mach_some).
Qed.

Lemma exec_Push r l s m :
  store64 (regs s RSP - 8) (regs s r) (mach s) = Some (tt, m) -> exec_list (Push r :: l) s = exec_list l (set_reg RSP (regs s RSP - 8) (set_mach m s)).
Proof.
  intros E. apply exec_next. cbn [exec]. unfold push_value. do 2 erewrite bind_some by reflexivity. by erewrite bind_some by (by apply on_mach_some).
Qed.

Lemma exec_PushM o b l s v m :
  load64 (regs s b + o) (mach s) = Some (v, mach s) -> store64 (regs s RSP - 8) v (mach s) = Some (tt, m) ->
  exec_list (PushM o b :: l) s = exec_list l (set_reg RSP (regs s RSP - 8) (set_mach m s)).
Proof.
  intros E1 E2. apply exec_next. cbn [exec]. unfold push_value. erewrite bind_some by reflexivity. erewrite bind_some by (by apply on_mach_read).
  erewrite bind_some by reflexivity. by erewrite bind_some by (by apply on_mach_some).
Qed.

Lemma exec_Pop r l s v :
  load64 (regs s RSP) (mach s) = Some (v, mach s) -> exec_list (Pop r :: l) s = exec_list l (set_reg r v (set_reg RSP (regs s RSP + 8) s)).
Proof.
  intros E. apply exec_next. cbn [exec]. unfold pop_value. rewrite (bind_some _ _ s v (set_reg RSP (regs s RSP + 8) s)); [done|].
  erewrite bind_some by reflexivity. by erewrite bind_some by (by apply on_mach_read).
Qed.

Lemma exec_PopM o b l s v m :
  b <> RSP -> load64 (regs s RSP) (mach s) = Some (v, mach s) -> store64 (regs s b + o) v (mach s) = Some (tt, m) ->
  exec_list (PopM o b :: l) s = exec_list l (set_mach m (set_reg RSP (regs s RSP + 8) s)).
Proof.
  intros Hb E1 E2. apply exec_next. cbn [exec]. unfold pop_value. rewrite (bind_some _ _ s v (set_reg RSP (regs s RSP + 8) s)).
  - erewrite bind_some by reflexivity. rewrite regs_set_other by done. by erewrite bind_some by (by apply on_mach_some).
  - erewrite bind_some by reflexivity. by erewrite bind_some by (by apply on_mach_read).
Qed.

Lemma exec_JmpM o b l s v : load64 (regs s b + o) (mach s) = Some (v, mach s) -> exec_list (JmpM o b :: l) s = Some (Leave v, s).
Proof. intros E. apply exec_jump. cbn [exec]. erewrite bind_some by reflexivity. by erewrite bind_some by (by apply on_mach_read). Qed.

Lemma exec_Ret l s v :
  load64 (regs s RSP) (mach s) = Some (v, mach s) -> exec_list (Ret :: l) s = Some (Leave v, set_reg RSP (regs s RSP + 8) s).
Proof.
  intros E. apply exec_jump. cbn [exec]. unfold pop_value. rewrite (bind_some _ _ s v (set_reg RSP (regs s RSP + 8) s)); [done|].
  erewrite bind_some by reflexivity. by erewrite bind_some by (by apply on_mach_read).
Qed.

Lemma exec_MovI i r l s : exec_list (MovI i r :: l) s = exec_list l (set_reg r (wrap 64 i) s).
Proof. by apply exec_next. Qed.
Lemma exec_Mov r r' l s : exec_list (Mov r r' :: l) s = exec_list l (set_reg r' (regs s r) s).
Proof. by apply exec_next. Qed.
Lemma exec_LoadGs r l s : exec_list (LoadGs r :: l) s = exec_list l (set_reg r (curthread (mach s)) s).
Proof. apply exec_next. cbn [exec]. by erewrite bind_some by (by apply on_mach_read). Qed.
Lemma exec_Test r l s : exec_list (Test r :: l) s = exec_list l (set_flag (Some (signed 64 (regs s r) ?= 0)) s).
Proof. by apply exec_next. Qed.
Lemma exec_Cmp i r l s : exec_list (Cmp i r :: l) s = exec_list l (set_flag (Some (signed 64 (regs s r) ?= i)) s).
Proof. by apply exec_next. Qed.
Lemma exec_SubI i r l s : exec_list (SubI i r :: l) s = exec_list l (set_flag None (set_reg r (regs s r - i) s)).
Proof. by apply exec_next. Qed.
Lemma exec_AddI i r l s : exec_list (AddI i r :: l) s = exec_list l (set_flag None (set_reg r (regs s r + i) s)).
Proof. by apply exec_next. Qed.
Lemma exec_Xchg r r' l s : exec_list (Xchg r r' :: l) s = exec_list l (set_reg r' (regs s r) (set_reg r (regs s r') s)).
Proof. by apply exec_next. Qed.
Lemma exec_Jmp x l s : exec_list (Jmp x :: l) s = Some (Goto x, s).
Proof. by apply exec_jump. Qed.

Lemma exec_Je x l s c : flag s = Some c -> exec_list (Je x :: l) s = match c with Eq => Some (Goto x, s) | _ => exec_list l s end.
Proof. intros Hf. destruct c; [apply exec_jump | apply exec_next..]; cbn [exec]; unfold jump_if; (erewrite bind_some by reflexivity); by rewrite Hf. Qed.
Lemma exec_Jne x l s c : flag s = Some c -> exec_list (Jne x :: l) s = match c with Eq => exec_list l s | _ => Some (Goto x, s) end.
Proof. intros Hf. destruct c; [apply exec_next | apply exec_jump..]; cbn [exec]; unfold jump_if; (erewrite bind_some by reflexivity); by rewrite Hf. Qed.
Lemma exec_Jg x l s c : flag s = Some c -> exec_list (Jg x :: l) s = match c with Gt => Some (Goto x, s) | _ => exec_list l s end.
Proof. intros Hf. destruct c; [apply exec_next | apply exec_next | apply exec_jump]; cbn [exec]; unfold jump_if; (erewrite bind_some by reflexivity); by rewrite Hf. Qed.
Lemma exec_Jl x l s c : flag s = Some c -> exec_list (Jl x :: l) s = match c with Lt => Some (Goto x, s) | _ => exec_list l s end.
Proof. intros Hf. destruct c; [apply exec_next | apply exec_jump | apply exec_next]; cbn [exec]; unfold jump_if; (erewrite bind_some by reflexivity); by rewrite Hf. Qed.

(** A comparison and a jump on its outcome. *)
Lemma exec_CmpJe v r x l s :
  exists f, exec_list (Cmp v r :: Je x :: l) s = if signed 64 (regs s r) =? v then Some (Goto x, set_flag f s) else exec_list l (set_flag f s).
Proof.
  exists (Some (signed 64 (regs s r) ?= v)). rewrite exec_Cmp, (exec_Je _ _ _ _ (flag_set_flag _ _)).
  rewrite Z.eqb_compare. by destruct (_ ?= _).
Qed.

Lemma exec_TestJe r x l s :
  exists f, exec_list (Test r :: Je x :: l) s = if signed 64 (regs s r) =? 0 then Some (Goto x, set_flag f s) else exec_list l (set_flag f s).
Proof. apply exec_CmpJe. Qed.

Lemma exec_CmpJne v r x l s :
  exists f, exec_list (Cmp v r :: Jne x :: l) s = if signed 64 (regs s r) =? v then exec_list l (set_flag f s) else Some (Goto x, set_flag f s).
Proof.
  exists (Some (signed 64 (regs s r) ?= v)). rewrite exec_Cmp, (exec_Jne _ _ _ _ (flag_set_flag _ _)).
  rewrite Z.eqb_compare. by destruct (_ ?= _).
Qed.

Lemma exec_TestJne r x l s :
  exists f, exec_list (Test r :: Jne x :: l) s = if signed 64 (regs s r) =? 0 then exec_list l (set_flag f s) else Some (Goto x, set_flag f s).
Proof. apply exec_CmpJne. Qed.

(** What holds after a call: the return registers, the stack pointer and [r12]. *)
Lemma call_at_run n f s r m :
  (do! store64 (regs s RSP - 8) (return_address n) in abi_call f (regs s RSP - 8) (parameter_registers s)) (mach s) = Some (r, m) ->
  exists s', call_at n f s = Some (tt, s') /\ mach s' = m /\ regs s' R12 = regs s R12 /\ regs s' RSP = regs s RSP /\
    regs s' RAX = r_rax r /\ regs s' RDX = r_rdx r /\ xmms s' 0%nat = r_xmm0 r /\ xmms s' 1%nat = r_xmm1 r.
Proof. intros E. unfold call_at. rewrite E. by eexists. Qed.

Lemma exec_Call f l s r m :
  (do! store64 (regs s RSP - 8) (return_address (length l)) in abi_call (regs s f) (regs s RSP - 8) (parameter_registers s)) (mach s) = Some (r, m) ->
  exists s', exec_list (Call f :: l) s = exec_list l s' /\ mach s' = m /\ regs s' R12 = regs s R12 /\ regs s' RSP = regs s RSP /\
    regs s' RAX = r_rax r /\ regs s' RDX = r_rdx r /\ xmms s' 0%nat = r_xmm0 r /\ xmms s' 1%nat = r_xmm1 r.
Proof.
  intros E. destruct (call_at_run _ _ _ _ _ E) as (s' & E' & Hs). exists s'. split; [|done]. apply exec_next. cbn [exec].
  erewrite bind_some by reflexivity. by erewrite bind_some by exact E'.
Qed.

Lemma exec_CallM o b l s f r m :
  load64 (regs s b + o) (mach s) = Some (f, mach s) ->
  (do! store64 (regs s RSP - 8) (return_address (length l)) in abi_call f (regs s RSP - 8) (parameter_registers s)) (mach s) = Some (r, m) ->
  exists s', exec_list (CallM o b :: l) s = exec_list l s' /\ mach s' = m /\ regs s' R12 = regs s R12 /\ regs s' RSP = regs s RSP /\
    regs s' RAX = r_rax r /\ regs s' RDX = r_rdx r /\ xmms s' 0%nat = r_xmm0 r /\ xmms s' 1%nat = r_xmm1 r.
Proof.
  intros E1 E2. destruct (call_at_run _ _ _ _ _ E2) as (s' & E' & Hs). exists s'. split; [|done]. apply exec_next. cbn [exec].
  erewrite bind_some by reflexivity. erewrite bind_some by (by apply on_mach_read). by erewrite bind_some by exact E'.
Qed.
End Symbolic.

#[export] Hint Rewrite @mach_set_reg @mach_set_xmm @mach_set_flag @mach_set_mach @regs_set_xmm @regs_set_flag @regs_set_mach
  @xmms_set_reg @xmms_set_flag @xmms_set_mach @regs_set_same @xmms_set_same
  @flag_set_reg @flag_set_flag : asm.
#[export] Hint Rewrite @regs_set_other @xmms_set_other using discriminate : asm.

#[global] Opaque set_reg set_xmm set_flag set_mach.

(** Reads registers and memory of a state built by updates. *)
Ltac asm_simpl := autorewrite with asm.
Tactic Notation "asm_simpl" "in" hyp(H) := autorewrite with asm in H.

(** Executes a comparison and the jump behind it; [f]: the flags. *)
Ltac branch f :=
  match goal with
  | |- context [exec_list (Test ?r :: Je ?x :: ?l) ?s] => destruct (exec_TestJe r x l s) as [f ->]
  | |- context [exec_list (Cmp ?v ?r :: Je ?x :: ?l) ?s] => destruct (exec_CmpJe v r x l s) as [f ->]
  | |- context [exec_list (Test ?r :: Jne ?x :: ?l) ?s] => destruct (exec_TestJne r x l s) as [f ->]
  | |- context [exec_list (Cmp ?v ?r :: Jne ?x :: ?l) ?s] => destruct (exec_CmpJne v r x l s) as [f ->]
  end.
