(* ===== verification/Ranges.v ===== *)
(** * Loads, stores and ranges of memory

    What the proofs about the payload's assembly share: what a store leaves to
    be read, memories that agree on a range or differ in one, and computations
    that end. *)

From stdpp Require Import base gmap list strings.
From S2P Require Import Prelude Errors Uthash Machine Cache CacheMap Reference KernelBase KernelMemory Symbol Words Template FunctionHook SystemCall HookHandler HookChain HookClone Assembly.

(** ** Loads and stores *)

Lemma load64_same a m v m' : load64 a m = Some (v, m') -> m' = m.
Proof. intros (l & s & E1 & E2)%bind_inv. injection E2 as <- <-. unfold load_bytes in E1. destruct (mem_read _ _ _); [|done]. by injection E1. Qed.

Lemma load128_same a m v m' : load128 a m = Some (v, m') -> m' = m.
Proof. intros (l & s & E1 & E2)%bind_inv. injection E2 as <- <-. unfold load_bytes in E1. destruct (mem_read _ _ _); [|done]. by injection E1. Qed.

Lemma store_bytes_inv y l m r m' : store_bytes y l m = Some (r, m') -> r = tt /\ m' = set_mem (mem_write (mem m) y l) m.
Proof. unfold store_bytes. case_decide; [|done]. by intros [= <- <-]. Qed.

Lemma store64_word y v m r m' : store64 y v m = Some (r, m') -> mem_read (mem m') y 8 = Some (le_bytes 8 v).
Proof. intros [_ ->]%store_bytes_inv. apply mem_read_write_le. Qed.

Lemma store64_other y v m r m' x l : store64 y v m = Some (r, m') -> disjoint_ranges y 8 x 8 -> mem_read (mem m) x 8 = Some l -> mem_read (mem m') x 8 = Some l.
Proof. intros [_ ->]%store_bytes_inv Hd Hl. cbn [mem set_mem]. rewrite mem_read_write_other; [done | by rewrite length_le_bytes]. Qed.

Lemma load128_run m a l : mem_read (mem m) a 16 = Some l -> load128 a m = Some (le_val l, m).
Proof. intros Hr. unfold load128. by erewrite bind_some by (by apply load_bytes_run). Qed.

Lemma load64_word a m v m' : load64 a m = Some (v, m') -> exists l, mem_read (mem m) a 8 = Some l /\ v = le_val l.
Proof.
  intros (l & s & E1 & E2)%bind_inv. injection E2 as <- <-. unfold load_bytes in E1. destruct (mem_read _ _ _) as [l'|]; [|done].
  injection E1 as -> _. by exists l.
Qed.

Lemma store64_load64 y v m r m' : store64 y v m = Some (r, m') -> load64 y m' = Some (wrap 64 v, m').
Proof. intros E. rewrite (load64_run _ _ _ (store64_word _ _ _ _ _ E)). by rewrite le_val_bytes_wrap. Qed.

(** What a store leaves to be read. *)
Lemma store_reads n y v m r m' :
  store_bytes y (le_bytes n v) m = Some (r, m') ->
  mem_read (mem m') y n = Some (le_bytes n v) /\
  forall a k l, disjoint_ranges y (Z.of_nat n) a (Z.of_nat k) -> mem_read (mem m) a k = Some l -> mem_read (mem m') a k = Some l.
Proof.
  intros [_ ->]%store_bytes_inv. cbn [mem set_mem]. split; [apply mem_read_write_le|]. intros a k l Hd Hl.
  by rewrite mem_read_write_other by (by rewrite length_le_bytes).
Qed.

(** Looks for the store of a word behind those to other places. *)
Ltac stored :=
  repeat match goal with
  | F : store_bytes ?y (le_bytes ?n ?v) ?m = Some (_, ?m') |- mem_read (mem ?m') ?a ?k = Some _ =>
      first
        [ replace a with y by lia; exact (proj1 (store_reads n y v m _ m' F))
        | apply (proj2 (store_reads n y v m _ m' F)); [unfold disjoint_ranges; lia|] ]
  end.

(** ** Memories that agree on a range *)

(** A memory that has what [m] has in a range. *)
Definition same_range (m m' : machine) (a b : Z) : Prop := forall x, a <= x < b -> mem m' !! x = mem m !! x.

Lemma same_range_read m m' a b x n l :
  same_range m m' a b -> a <= x -> x + Z.of_nat n <= b -> mem_read (mem m) x n = Some l -> mem_read (mem m') x n = Some l.
Proof. intros Hs Ha Hb Hr. apply (mem_read_keeps _ _ _ _ _ Hr). intros y v Hy Hv. rewrite Hs by lia. done. Qed.

Lemma same_range_store m m' y l r a b : store_bytes y l m = Some (r, m') -> disjoint_ranges y (Z.of_nat (length l)) a (b - a) -> same_range m m' a b.
Proof.
  intros [_ ->]%store_bytes_inv Hd x Hx. cbn [mem set_mem]. rewrite lookup_mem_write. case_match eqn:Q; [|done].
  apply andb_prop in Q as [Q1 Q2]. apply Z.leb_le in Q1. apply Z.ltb_lt in Q2. unfold disjoint_ranges in Hd. lia.
Qed.

Lemma same_range_trans m1 m2 m3 a b : same_range m1 m2 a b -> same_range m2 m3 a b -> same_range m1 m3 a b.
Proof. intros H1 H2 x Hx. rewrite H2, H1 by done. done. Qed.

Lemma same_range_store64 m m' y v r a b : store64 y v m = Some (r, m') -> disjoint_ranges y 8 a (b - a) -> same_range m m' a b.
Proof. intros E Hd. apply (same_range_store _ _ _ _ _ _ _ E). by rewrite length_le_bytes. Qed.

Lemma same_range_sub m m' a b a' b' : same_range m m' a b -> a <= a' -> b' <= b -> same_range m m' a' b'.
Proof. intros Hs H1 H2 x Hx. apply Hs. lia. Qed.

Lemma same_range_load64 m m' a b x v m1 : same_range m m' a b -> a <= x -> x + 8 <= b -> load64 x m = Some (v, m1) -> load64 x m' = Some (v, m').
Proof. intros Hs H1 H2 (l & Hl & ->)%load64_word. apply load64_run, (same_range_read _ _ _ _ _ _ _ Hs); [done | lia | done]. Qed.

(** ** Memories that differ in a range *)

(** [m'] is [m] but for the contents of a range. *)
Record wrote (a n : Z) (m m' : machine) : Prop := Wrote {
  wrote_rest : m' = set_mem (mem m') m;
  wrote_other x : ~ in_block a n x -> mem m' !! x = mem m !! x;
  wrote_mapped x : is_Some (mem m' !! x) <-> is_Some (mem m !! x)
}.

Lemma wrote_refl a n m : wrote a n m m.
Proof. split; [by rewrite set_mem_mem | done | done]. Qed.

Lemma wrote_trans a n m1 m2 m3 : wrote a n m1 m2 -> wrote a n m2 m3 -> wrote a n m1 m3.
Proof.
  intros [R1 O1 M1] [R2 O2 M2]. split.
  - rewrite R2 at 1. rewrite R1 at 1. done.
  - intros x Hx. by rewrite O2, O1.
  - intros x. by rewrite M2, M1.
Qed.

Lemma wrote_writable a n m m' x k : wrote a n m m' -> writable_range m x k -> writable_range m' x k.
Proof.
  intros [R O M]. rewrite !writable_range_iff. intros Hw i Hi. destruct (Hw i Hi) as [Hm Ht]. split; [by apply M|].
  rewrite R. exact Ht.
Qed.

(** Storing inside a writable range. *)
Lemma wrote_store a n m x l :
  writable_range m a n -> a <= x -> x + Z.of_nat (length l) <= a + Z.of_nat n ->
  exists m', store_bytes x l m = Some (tt, m') /\ wrote a (Z.of_nat n) m m'.
Proof.
  intros Hw H1 H2. eexists. pose proof (writable_range_sub m a n x (length l) Hw H1 H2) as Hx. split; [by apply store_bytes_run|].
  rewrite writable_range_iff in Hx. split; [done | |]; intros y; cbn [mem set_mem]; rewrite lookup_mem_write; case_match eqn:Q; try done;
    apply andb_prop in Q as [Q1 Q2]; apply Z.leb_le in Q1; apply Z.ltb_lt in Q2.
  - intros Hy. unfold in_block in Hy. lia.
  - split; intros _.
    + destruct (Hx (Z.to_nat (y - x)) ltac:(lia)) as [Hm _]. by replace (x + Z.of_nat (Z.to_nat (y - x))) with y in Hm by lia.
    + apply lookup_lt_is_Some. lia.
Qed.

Lemma wrote_store64 a n m x v :
  writable_range m a n -> a <= x -> x + 8 <= a + Z.of_nat n -> exists m', store64 x v m = Some (tt, m') /\ wrote a (Z.of_nat n) m m'.
Proof. intros Hw H1 H2. apply wrote_store; [done | done | by rewrite length_le_bytes]. Qed.

(** The same memory is mapped, and nothing else has changed. *)
Definition same_shape (m m' : machine) : Prop := m' = set_mem (mem m') m /\ forall x, is_Some (mem m' !! x) <-> is_Some (mem m !! x).

Lemma wrote_shape a n m m' : wrote a n m m' -> same_shape m m'.
Proof. intros [R _ M]. by split. Qed.

Lemma same_shape_trans m1 m2 m3 : same_shape m1 m2 -> same_shape m2 m3 -> same_shape m1 m3.
Proof. intros [R1 M1] [R2 M2]. split; [rewrite R2 at 1; rewrite R1 at 1; done | intros x; by rewrite M2, M1]. Qed.

Lemma same_shape_room `{HA : KernelAllocator} `{HR : !KernelRoom HA} m m' : same_shape m m' -> kroom m <= kroom m'.
Proof. intros [R M]. apply kroom_same; [by rewrite R | intros x; apply M]. Qed.

Lemma wrote_range a n m m' x y : wrote a n m m' -> disjoint_ranges a n x (y - x) -> same_range m m' x y.
Proof. intros W Hd z Hz. apply (wrote_other _ _ _ _ W). unfold in_block, disjoint_ranges in *. lia. Qed.

Lemma same_shape_writable n n' y k : same_shape n n' -> writable_range n y k -> writable_range n' y k.
Proof.
  intros [R M]. rewrite !writable_range_iff. intros Hw i Hi. destruct (Hw i Hi) as [Hm Ht]. split; [by apply M | rewrite R; exact Ht].
Qed.

(** ** Computations that end *)

(** [k] succeeds, with a result and a machine as [P] says. *)
Definition ends {A} (P : A -> machine -> Prop) (k : K A) (m : machine) : Prop := exists v m', k m = Some (v, m') /\ P v m'.

Lemma ends_bind {A B} (P : A -> machine -> Prop) (Q : B -> machine -> Prop) k (f : A -> K B) m :
  ends P k m -> (forall v m', P v m' -> ends Q (f v) m') -> ends Q (bind k f) m.
Proof. intros (v & m' & E & Hp) Hf. destruct (Hf v m' Hp) as (w & m2 & E2 & Hq). exists w, m2. by erewrite bind_some by exact E. Qed.

Lemma ends_ret {A} (P : A -> machine -> Prop) (v : A) m : P v m -> ends P (ret v) m.
Proof. intros Hp. by exists v, m. Qed.

Lemma ends_bind_some {A B} (Q : B -> machine -> Prop) (k : K A) (f : A -> K B) m v m' : k m = Some (v, m') -> ends Q (bind k f) m <-> ends Q (f v) m'.
Proof. intros E. unfold ends. by rewrite (bind_some _ _ _ _ _ E). Qed.
