(* ===== verification/HookDestroy.v ===== *)
(** * The end of a hook's copy

    [ps4PayloadFunctionHookArgumentDestroy], the epilogue of a hook
    ([common/kernel/source/payload/function_hook.c]), run behind whatever the
    hooks did: it frees the five blocks of the copy and nothing else. *)

From stdpp Require Import base gmap list strings.
From S2P Require Import Prelude Errors Uthash Machine Cache CacheMap Reference KernelBase KernelMemory Symbol Words Template FunctionHook HookList SystemCall HookHandler HookChain HookClone Assembly Ranges.

Section Destroy.
Context `{HC : KernelCode} `{HA : KernelAllocator}.
Context (c h t a r g mt nh nt : Z).
Hypothesis Hfree : forall p n, code_call g [p; mt] n = (do! free p in ret 0) n.
Hypothesis (Hg : 0 <= g < 2 ^ 64) (Hmt : 0 <= mt < 2 ^ 64).

(** The blocks of a copy, in the order they are freed. *)
Definition copy_blocks : list (Z * Z) := [(r, 48); (a, 184); (t, nt); (h, nh); (c, 192)].

(** They are allocated, and the copy still knows the kernel's [free]. *)
Record owned (m : machine) : Prop := Owned {
  owned_blocks : blocks_ok m;
  owned_allocs p n : (p, n) ∈ copy_blocks -> allocs m !! p = Some n;
  owned_free : mem_read (mem m) (c + 168) 8 = Some (le_bytes 8 g);
  owned_type : mem_read (mem m) (c + 176) 8 = Some (le_bytes 8 mt)
}.

(** Behind the first steps of the destroyer: the blocks [D] are gone, [B] is
    still there. *)
Record still (D B : list (Z * Z)) (m0 m : machine) : Prop := Still {
  still_blocks : blocks_ok m;
  still_allocs p n : (p, n) ∈ B -> allocs m !! p = Some n;
  still_gone p : p ∈ D.*1 -> allocs m !! p = None;
  still_other p : p ∉ D.*1 -> allocs m !! p = allocs m0 !! p;
  still_same x y : (forall p n, (p, n) ∈ D -> disjoint_ranges p n x (y - x)) -> same_range m0 m x y
}.

Lemma still_start m : owned m -> still [] copy_blocks m m.
Proof. intros [Hb Ha _ _]. split; [done | done | by intros p ?%elem_of_nil | done | done]. Qed.

Lemma still_step p n D B m0 m :
  owned m0 -> (forall q k, (q, k) ∈ D -> disjoint_ranges q k c 192) -> p ∉ B.*1 -> still D ((p, n) :: B) m0 m ->
  exists m', clone_free c o_free o_mt p m = Some (tt, m') /\ still ((p, n) :: D) B m0 m'.
Proof.
  intros Ho Hd Hp [Hb Hall Hgone Hoth Hsame]. assert (allocs m !! p = Some n) as Ha by (apply Hall; by left). destruct (block_size _ Hb _ _ Ha) as [Hn Hz].
  assert (same_range m0 m c (c + 192)) as Hc by (apply Hsame; intros q k Hq; specialize (Hd q k Hq); unfold disjoint_ranges in *; lia).
  assert (forall o v, 0 <= v < 2 ^ 64 -> 0 <= o -> o + 8 <= 192 -> mem_read (mem m0) (c + o) 8 = Some (le_bytes 8 v) -> load64 (c + o) m = Some (v, m)) as Hload.
  { intros o v Hv H1 H2 Hr. erewrite load64_run by (eapply (same_range_read _ _ c (c + 192)); [exact Hc | lia | lia | exact Hr]). by rewrite le_val_word. }
  exists (freed m p n). split.
  - unfold clone_free, o_free, o_mt. erewrite bind_some by (apply Hload; [exact Hg | lia | lia | apply Ho]).
    erewrite bind_some by (apply Hload; [exact Hmt | lia | lia | apply Ho]). unfold bind at 1. rewrite Hfree. unfold bind, free.
    rewrite (proj2 (Z.eqb_neq p 0)) by lia. by rewrite Ha.
  - assert (allocs (freed m p n) = delete p (allocs m)) as Ea by done. split; rewrite ?Ea.
    + by apply blocks_ok_freed.
    + intros q k Hq. rewrite lookup_delete_ne; [apply Hall; by right|]. intros ->. apply Hp, list_elem_of_fmap. by exists (q, k).
    + intros q [->|Hq]%elem_of_cons; [apply lookup_delete_eq|]. apply lookup_delete_None. right. by apply Hgone.
    + intros q [Hne Hq]%not_elem_of_cons. rewrite lookup_delete_ne by done. by apply Hoth.
    + intros x y Hx. eapply same_range_trans; [apply Hsame; intros q k Hq; apply Hx; by right|]. intros z Hz'. apply lookup_freed; [lia|].
      specialize (Hx p n ltac:(by left)). unfold in_block, disjoint_ranges in *. lia.
Qed.

(** The destroyer frees the five blocks and nothing else. *)
Lemma destroy_run m :
  owned m -> NoDup copy_blocks.*1 -> load64 (c + 64) m = Some (a, m) -> load64 (c + 72) m = Some (r, m) -> load64 (c + 104) m = Some (h, m) -> load64 (c + 112) m = Some (t, m) ->
  exists m', ps4PayloadFunctionHookArgumentDestroy c m = Some (tt, m') /\ still (reverse copy_blocks) [] m m'.
Proof.
  intros Ho Hnd Fa Fr Fh Ft. pose proof (still_start m Ho) as S0. unfold copy_blocks in Hnd. cbn [fmap list_fmap fst] in Hnd.
  assert (forall p n, (p, n) ∈ [(r, 48); (a, 184); (t, nt); (h, nh)] -> disjoint_ranges p n c 192) as Hap.
  { intros p n Hp. apply (blocks_apart m); [apply Ho | | |]; [apply (owned_allocs _ Ho)..|]; [unfold copy_blocks; revert Hp; clear; set_solver | clear; unfold copy_blocks; set_solver|].
    rewrite !NoDup_cons, !not_elem_of_cons in Hnd. revert Hp Hnd. clear. set_solver. }
  assert (forall D B m1 o v, still D B m m1 -> D ⊆ [(r, 48); (a, 184); (t, nt); (h, nh)] -> 0 <= o -> o + 8 <= 192 -> load64 (c + o) m = Some (v, m) -> load64 (c + o) m1 = Some (v, m1)) as Hload.
  { intros D B m1 o v S HD H1 H2 E. eapply (same_range_load64 m _ c (c + 192)); [|lia | lia | exact E]. apply (still_same _ _ _ _ S). intros p n Hp.
    replace (c + 192 - c) with 192 by lia. by apply Hap, HD. }
  rewrite !NoDup_cons in Hnd. destruct Hnd as (N1 & N2 & N3 & N4 & N5 & _). unfold ps4PayloadFunctionHookArgumentDestroy, o_returns, o_arguments, o_hookType, o_hook.
  destruct (still_step r 48 [] [(a, 184); (t, nt); (h, nh); (c, 192)] m m) as (m1 & E1 & S1); [done | by intros ? ? ?%elem_of_nil | done | done|].
  destruct (still_step a 184 [(r, 48)] [(t, nt); (h, nh); (c, 192)] m m1) as (m2 & E2 & S2); [done | intros q k Hq; apply Hap; revert Hq; clear; set_solver | done | done|].
  destruct (still_step t nt [(a, 184); (r, 48)] [(h, nh); (c, 192)] m m2) as (m3 & E3 & S3); [done | intros q k Hq; apply Hap; revert Hq; clear; set_solver | done | done|].
  destruct (still_step h nh [(t, nt); (a, 184); (r, 48)] [(c, 192)] m m3) as (m4 & E4 & S4); [done | intros q k Hq; apply Hap; revert Hq; clear; set_solver | done | done|].
  destruct (still_step c 192 [(h, nh); (t, nt); (a, 184); (r, 48)] [] m m4) as (m5 & E5 & S5); [done | intros q k Hq; apply Hap; revert Hq; clear; set_solver | done | done|].
  exists m5. split; [|exact S5]. erewrite bind_some by exact Fr. erewrite bind_some by exact E1.
  erewrite bind_some by (eapply Hload; [exact S1 | clear; set_solver | lia | lia | exact Fa]). erewrite bind_some by exact E2.
  erewrite bind_some by (eapply Hload; [exact S2 | clear; set_solver | lia | lia | exact Ft]). erewrite bind_some by exact E3.
  erewrite bind_some by (eapply Hload; [exact S3 | clear; set_solver | lia | lia | exact Fh]). erewrite bind_some by exact E4. exact E5.
Qed.
End Destroy.
