(* ===== verification/FunctionHandler.v ===== *)
(** * What a hooked function runs

    [common/kernel/source/payload/function_hook_handler.s], instruction by
    instruction; the run of hooks it stands for; and the proof that it performs
    that run and returns its values to the caller. *)

From stdpp Require Import base gmap list strings.
From S2P Require Import Prelude Errors Uthash Machine Cache CacheMap Reference KernelBase KernelMemory Symbol Words Template FunctionHook SystemCall HookHandler HookChain Assembly Ranges.

(** ** The handler *)

(** The labels, without their prefix [.Lps4PayloadFunctionHook]. *)
Inductive handler_label :=
  | Handler | HandlerPostRun | HandlerLoop | HandlerLoopPostCheck | HandlerLoopPostCheckEnd | HandlerLoopSpecific
  | HandlerLoopGeneric | HandlerLoopCall | HandlerLoopDone | HandlerCallDone.

#[export] Instance handler_label_eq_dec : EqDecision handler_label.
Proof. solve_decision. Defined.

(** The parameter registers to [Ps4RegisterParameters] at [b], and back. *)
Definition save_registers {label} (b : reg) : list (instr label) :=
  [MovdquStore 7 168 b; MovdquStore 6 152 b; MovdquStore 5 136 b; MovdquStore 4 120 b;
   MovdquStore 3 104 b; MovdquStore 2 88 b; MovdquStore 1 72 b; MovdquStore 0 56 b;
   Store R9 48 b; Store R8 40 b; Store RCX 32 b; Store RDX 24 b; Store RSI 16 b; Store RDI 8 b; Store RAX 0 b].
Definition restore_registers {label} (b : reg) : list (instr label) :=
  [Load 0 b RAX; Load 8 b RDI; Load 16 b RSI; Load 24 b RDX; Load 32 b RCX; Load 40 b R8; Load 48 b R9;
   MovdquLoad 56 b 0; MovdquLoad 72 b 1; MovdquLoad 88 b 2; MovdquLoad 104 b 3;
   MovdquLoad 120 b 4; MovdquLoad 136 b 5; MovdquLoad 152 b 6; MovdquLoad 168 b 7].

Definition ps4PayloadFunctionHookHandler : list (handler_label * list (instr handler_label)) :=
  [(Handler,
     [Push R12; LockDec 16 R11; MovI 0 R12; XchgM R12 184 R11; Pop R12; Load 64 R12 R11] ++ save_registers R11 ++ [StoreI 0 144 R12]);
   (HandlerPostRun, [StoreI (-1) 120 R12]);
   (HandlerLoop,
     [Inc 120 R12; Load 144 R12 RDI; Load 112 R12 R11; Load 120 R12 R8; LoadIndexed R11 R8 R11; Test R11; Je HandlerLoopDone;
      Cmp 0 RDI; Jne HandlerLoopPostCheck; Cmp 0 R11; Je HandlerLoop; Cmp 2 R11; Je HandlerLoop; Jmp HandlerLoopPostCheckEnd]);
   (HandlerLoopPostCheck, [Cmp 0 R11; Je HandlerLoop; Cmp (-1) R11; Je HandlerLoop; Cmp 1 R11; Je HandlerLoop]);
   (HandlerLoopPostCheckEnd, [Cmp 0 R11; Jg HandlerLoopGeneric; Jl HandlerLoopSpecific; Jmp HandlerLoop]);
   (HandlerLoopSpecific, [LoadGs RDI; Store R12 0x388 RDI; Load 64 R12 R11] ++ restore_registers R11 ++ [Jmp HandlerLoopCall]);
   (HandlerLoopGeneric, [LoadGs RDI; Mov R12 RSI]);
   (HandlerLoopCall,
     [Load 104 R12 R11; Load 120 R12 R8; LoadIndexed R11 R8 R11; Test R11; Je HandlerLoopDone; Call R11;
      Cmp 0 RAX; Je HandlerLoop; Jg HandlerLoopDone; Jmp HandlerCallDone]);
   (HandlerLoopDone,
     [Load 64 R12 R11] ++ restore_registers R11 ++
     [MovI 1 R11; XchgM R11 144 R12; Test R11; Jne HandlerCallDone; CallM 88 R12;
      Load 72 R12 R11; Store RAX 0 R11; Store RDX 8 R11; MovdquStore 0 16 R11; MovdquStore 1 32 R11; Jmp HandlerPostRun]);
   (HandlerCallDone,
     [Load 72 R12 R11; Load 0 R11 RAX; Load 8 R11 RDX; MovdquLoad 16 R11 0; MovdquLoad 32 R11 1;
      PushM 24 R12; Load 32 R12 R11; Xchg R11 R12; SubI 48 RSP; MovdquStore 1 32 RSP; MovdquStore 0 16 RSP;
      Store RDX 8 RSP; Store RAX 0 RSP; Mov R11 RDI; CallM 48 R11; Load 0 RSP RAX; Load 8 RSP RDX;
      MovdquLoad 16 RSP 0; MovdquLoad 32 RSP 1; AddI 48 RSP; Ret])].

(** ** What it stands for *)

Section Specification.
Context `{AbiCode}.

Definition gpr (x : parameters) (i : nat) : Z := default 0 (p_gpr x !! i).
Definition xmm (x : parameters) (i : nat) : Z := default 0 (p_xmm x !! i).

Definition parameters_save (p : Z) (x : parameters) : K unit :=
  do! store128 (p + 168) (xmm x 7) in do! store128 (p + 152) (xmm x 6) in
  do! store128 (p + 136) (xmm x 5) in do! store128 (p + 120) (xmm x 4) in
  do! store128 (p + 104) (xmm x 3) in do! store128 (p + 88) (xmm x 2) in
  do! store128 (p + 72) (xmm x 1) in do! store128 (p + 56) (xmm x 0) in
  do! store64 (p + 48) (gpr x 6) in do! store64 (p + 40) (gpr x 5) in do! store64 (p + 32) (gpr x 4) in
  do! store64 (p + 24) (gpr x 3) in do! store64 (p + 16) (gpr x 2) in do! store64 (p + 8) (gpr x 1) in
  store64 (p + 0) (gpr x 0).

Definition parameters_load (p : Z) : K parameters :=
  let! rax := load64 (p + 0) in let! rdi := load64 (p + 8) in let! rsi := load64 (p + 16) in
  let! rdx := load64 (p + 24) in let! rcx := load64 (p + 32) in let! r8 := load64 (p + 40) in let! r9 := load64 (p + 48) in
  let! x0 := load128 (p + 56) in let! x1 := load128 (p + 72) in let! x2 := load128 (p + 88) in let! x3 := load128 (p + 104) in
  let! x4 := load128 (p + 120) in let! x5 := load128 (p + 136) in let! x6 := load128 (p + 152) in let! x7 := load128 (p + 168) in
  ret (Parameters [rax; rdi; rsi; rdx; rcx; r8; r9] [x0; x1; x2; x3; x4; x5; x6; x7]).

Definition returns_save (q : Z) (r : returns) : K unit :=
  do! store64 (q + 0) (r_rax r) in do! store64 (q + 8) (r_rdx r) in
  do! store128 (q + 16) (r_xmm0 r) in store128 (q + 32) (r_xmm1 r).

Definition returns_load (q : Z) : K returns :=
  let! rax := load64 (q + 0) in let! rdx := load64 (q + 8) in
  let! x0 := load128 (q + 16) in let! x1 := load128 (q + 32) in
  ret (Returns rax rdx x0 x1).

(** A function that takes the arguments [a] and [b] and no others. *)
Definition two_parameters (a b : Z) : parameters := Parameters [0; a; b; 0; 0; 0; 0] (repeat 0 8).

(** A call from the place [n] instructions before the end of the code. *)
Definition invoke (n : nat) (f sp : Z) (x : parameters) : K returns :=
  do! store64 (sp - 8) (return_address n) in abi_call f (sp - 8) x.

(** [orig]: the hook's structure, [c]: this call's copy of it; [sp]: the stack
    pointer; [td]: the thread. *)
Context (orig c sp td : Z).

(** In the first run ([ph] 0) post hooks are skipped, in the second pre hooks. *)
Definition skipped (ph ty : Z) : bool := if ph =? 0 then ty =? 2 else (ty =? -1) || (ty =? 1).

(** [r8], the fifth argument, is overwritten before a hook is called. *)
Definition with_r8 (v : Z) (x : parameters) : parameters := Parameters (<[5%nat := v]> (p_gpr x)) (p_xmm x).

(** A hook of a negative type gets the arguments of the function, as they are
    now but for [r8], which holds the hook's index [i], and finds the structure
    in the thread; the others get the thread and the structure. *)
Definition call_hook (i h ty : Z) : K returns :=
  if ty <? 0 then
    do! store64 (td + 0x388) c in
    let! p := load64 (c + 64) in
    let! x := parameters_load p in
    invoke 52 h sp (with_r8 i x)
  else invoke 52 h sp (two_parameters td c).

(** The hooks from index [i] on, up to the first that does not return zero. *)
Fixpoint run_hooks (ph i : Z) (L : list (Z * Z)) : K Z :=
  match L with
  | [] => do! store64 (c + 120) i in ret 0
  | (h, ty) :: L' =>
      do! store64 (c + 120) i in
      if skipped ph ty then run_hooks ph (i + 1) L'
      else
        let! v := call_hook i h ty in
        let r := signed 64 (r_rax v) in
        if r =? 0 then run_hooks ph (i + 1) L' else ret r
  end.

(** Behind the first run: the original function through the bridge, with the
    arguments as they are now, and the second run. *)
Definition hooked_call (L : list (Z * Z)) : K unit :=
  let! p := load64 (c + 64) in
  let! x := parameters_load p in
  do! store64 (c + 144) 1 in
  let! b := load64 (c + 88) in
  let! v := invoke 27 b sp x in
  let! q := load64 (c + 72) in
  do! returns_save q v in
  do! store64 (c + 120) (2 ^ 64 - 1) in
  let! r := run_hooks 1 0 L in
  if r <? 0 then ret tt
  else
    let! p := load64 (c + 64) in
    do! parameters_load p in
    store64 (c + 144) 1.

(** The first run, and all that unless it ended below zero. *)
Definition hooked_body (L : list (Z * Z)) : K unit :=
  do! store64 (c + 144) 0 in
  do! store64 (c + 120) (2 ^ 64 - 1) in
  let! r := run_hooks 0 0 L in
  if r <? 0 then ret tt else hooked_call L.

(** The structure's values to return, the caller's address and [r12]; the
    epilogue gets rid of the structure. *)
Definition hooked_return : K (Z * Z * returns) :=
  let! q := load64 (c + 72) in
  let! v := returns_load q in
  let! to := load64 (c + 24) in
  do! store64 (sp - 8) to in
  let! saved := load64 (c + 32) in
  let t := sp - 8 - 48 in
  do! store128 (t + 32) (r_xmm1 v) in do! store128 (t + 16) (r_xmm0 v) in
  do! store64 (t + 8) (r_rdx v) in do! store64 (t + 0) (r_rax v) in
  let! e := load64 (c + 48) in
  do! invoke 6 e t (two_parameters c 0) in
  let! w := returns_load t in
  let! to := load64 (sp - 8) in
  ret (to, saved, w).

Definition hooked_enter (x : parameters) : K unit :=
  do! store64 (sp - 8) c in
  let! n := load64 (orig + 16) in
  do! store64 (orig + 16) (wrap 64 (n - 1)) in
  do! load64 (orig + 184) in
  do! store64 (orig + 184) 0 in
  let! p := load64 (c + 64) in
  parameters_save p x.

Definition hooked (L : list (Z * Z)) (x : parameters) : K (Z * Z * returns) :=
  do! hooked_enter x in do! hooked_body L in hooked_return.
End Specification.

(** ** Blocks of moves *)

(** Takes the first operation of a computation that succeeded. *)
Ltac take_op H :=
  let v := fresh "v" in let m := fresh "m" in let E := fresh "E" in
  apply bind_inv in H as (v & m & E & H);
  lazymatch type of E with
  | load64 _ _ = _ => pose proof (load64_same _ _ _ _ E); subst m
  | load128 _ _ = _ => pose proof (load128_same _ _ _ _ E); subst m
  | _ => try destruct v
  end.

(** The same for a load, with names. *)
Ltac take_load H v E :=
  let n := fresh "n" in apply bind_inv in H as (v & n & E & H); pose proof (load64_same _ _ _ _ E); subst n.

(** The hypothesis about this very operation. *)
Ltac known := match goal with E : ?c = Some _ |- ?d = Some _ => constr_eq c d; exact E end.

#[local] Opaque load64 load128 store64 store128.

Section Blocks.
Context `{AbiCode} {label : Type}.
Implicit Types (rest : list (instr label)).

(** The blocks are used with [r11] and with the stack pointer. *)
Lemma save_run (b : reg) rest s p m' :
  regs s b = p -> parameters_save p (parameter_registers s) (mach s) = Some (tt, m') ->
  exec_list (save_registers b ++ rest) s = exec_list rest (set_mach m' s).
Proof.
  intros Hp E. unfold parameters_save, parameter_registers, xmm, gpr in E. cbn [p_gpr p_xmm seq fmap list_fmap lookup list_lookup default from_option id] in E.
  unfold save_registers. cbn [app]. rewrite <- Hp in E. do 14 take_op E.
  do 8 (erewrite exec_MovdquStore by (asm_simpl; known)). do 7 (erewrite exec_Store by (asm_simpl; known)). by rewrite !set_mach_mach.
Qed.

Lemma restore_run (b : reg) rest s p x m' :
  b = R11 \/ b = RSP -> regs s b = p -> parameters_load p (mach s) = Some (x, m') -> m' = mach s /\
  exists s', exec_list (restore_registers b ++ rest) s = exec_list rest s' /\ mach s' = mach s /\ parameter_registers s' = x /\
    regs s' R12 = regs s R12 /\ regs s' RSP = regs s RSP /\ regs s' R11 = regs s R11.
Proof.
  intros Hb Hp E. unfold parameters_load in E. rewrite <- Hp in E. do 15 take_op E. injection E as <- <-. split; [done|].
  unfold restore_registers. cbn [app]. destruct Hb as [->| ->]; (eexists; split;
    [do 7 (erewrite exec_Load by (asm_simpl; known)); do 8 (erewrite exec_MovdquLoad by (asm_simpl; known)); reflexivity|];
    split; [by asm_simpl|]; split; [unfold parameter_registers; cbn [seq fmap list_fmap]; by asm_simpl | by asm_simpl]).
Qed.
End Blocks.

#[local] Transparent load64 load128 store64 store128.

(** ** The structure while the handler runs *)

Definition apart_from (A : list (Z * Z)) (y n : Z) : Prop := forall x v, (x, v) ∈ A -> disjoint_ranges y n x 8.

Lemma holds_stored A y l m r m' :
  store_bytes y l m = Some (r, m') -> apart_from A y (Z.of_nat (length l)) -> holds A [] m -> holds A [] m'.
Proof.
  intros [_ ->]%store_bytes_inv Ha Hh. split; [|by intros ? ? ?%elem_of_nil]. intros x v Hx. cbn [mem set_mem].
  rewrite mem_read_write_other; [by apply Hh | by eapply Ha].
Qed.

Section Simulation.
Context `{HA : AbiCode} (orig c sp td H T p0 q0 br ep to0 r120 : Z) (L : list (Z * Z)).

(** What the epilogue relies on, besides, and what it achieves. *)
Context (I Q : machine -> Prop).

(** What stays: where to return to, the caller's [r12], the epilogue and the bridge, the pointers to the arguments and the
    values to return, and the arrays of hooks and types, with a zero behind the last type. *)
Definition handler_words : list (Z * Z) :=
  [(c + 24, to0); (c + 32, r120); (c + 48, ep); (c + 64, p0); (c + 72, q0); (c + 88, br); (c + 104, H); (c + 112, T)] ++ imap (fun i p => (H + 8 * Z.of_nat i, fst p)) L ++
  imap (fun i p => (T + 8 * Z.of_nat i, wrap 64 (snd p))) L ++ [(T + 8 * Z.of_nat (length L), 0)].

(** What the loop counts with: the index of the current hook and the run. *)
Definition current (i ph : Z) : list (Z * Z) := [(c + 120, i); (c + 144, ph)].

Definition handler_state (i ph : Z) (m : machine) : Prop := holds (handler_words ++ current i ph) [] m /\ curthread m = td.

(** What the handler stores to, apart from all that. *)
Definition handler_places : list (Z * Z) :=
  [(orig + 16, 8); (orig + 184, 8); (sp - 64, 64); (p0, 184); (q0, 48); (td + 0x388, 8)].

Record handler_layout : Prop := HandlerLayout {
  hl_words y n : (y, n) ∈ handler_places -> apart_from (handler_words ++ current 0 0) y n;
  hl_index : apart_from handler_words (c + 120) 8;
  hl_run : apart_from handler_words (c + 144) 8;
  hl_stack : disjoint_ranges (orig + 16) 8 (sp - 8) 8 /\ disjoint_ranges (orig + 184) 8 (sp - 8) 8;
  hl_copy : 0 <= c < 2 ^ 64;
  hl_caller : 0 <= to0 < 2 ^ 64 /\ 0 <= r120 < 2 ^ 64;
  hl_values : 0 <= ep < 2 ^ 64 /\ 0 <= br < 2 ^ 64 /\ 0 <= p0 < 2 ^ 64 /\ 0 <= q0 < 2 ^ 64 /\ 0 <= H < 2 ^ 64 /\ 0 <= T < 2 ^ 64;
  hl_hooks : Forall (fun p => 0 < fst p < 2 ^ 64 /\ - 2 ^ 63 <= snd p < 2 ^ 63 /\ snd p <> 0) L;
  hl_count : Z.of_nat (length L) < 2 ^ 63
}.
Hypothesis Hlay : handler_layout.

(** Everything the handler stores to is there. *)
Definition handler_stores : list (Z * Z) := handler_places ++ [(c + 120, 8); (c + 144, 8)].
Definition handler_room (m : machine) : Prop := forall y n, (y, n) ∈ handler_stores -> writable_range m y (Z.to_nat n).
Definition ready (i ph : Z) (m : machine) : Prop := handler_state i ph m /\ handler_room m /\ I m.

(** The code the loop calls: the original function, through the bridge, and the
    hooks. *)
Definition handler_code : list Z := br :: L.*1.
(** A function that looks at its first two arguments only. *)
Definition takes_two (f : Z) : Prop := forall s x y, gpr x 1 = gpr y 1 -> gpr x 2 = gpr y 2 -> abi_call f s x = abi_call f s y.

(** A function that looks at its first argument only. *)
Definition takes_one (f : Z) : Prop := forall s x y, gpr x 1 = gpr y 1 -> abi_call f s x = abi_call f s y.

(** The hooks and the function return. They leave the structure and the thread
    alone, and the memory the handler stores to where it is. *)
Record loop_calls : Prop := LoopCalls {
  lc_code f s x i ph m r m' : f ∈ handler_code -> handler_state i ph m -> abi_call f s x m = Some (r, m') -> handler_state i ph m';
  lc_runs f s x i ph m : f ∈ handler_code -> ready i ph m -> ends (fun _ n => handler_room n /\ I n) (abi_call f s x) m;
  lc_hooks : Forall (fun p => 0 < snd p -> takes_two (fst p)) L
}.

(** The epilogue gets the structure and returns, and leaves what the handler
    keeps on its stack. *)
Record handler_calls : Prop := HandlerCalls {
  hc_loop : loop_calls;
  hc_stores y n x l m m' : (y, n) ∈ handler_stores -> y <= x -> x + Z.of_nat (length l) <= y + n -> I m -> store_bytes x l m = Some (tt, m') -> I m';
  hc_epilogue : takes_one ep;
  hc_last x i ph m : gpr x 1 = c -> ready i ph m -> ends (fun _ n => same_range m n (sp - 56) sp /\ Q n) (abi_call ep (sp - 64) x) m
}.
Hypothesis Hcalls : handler_calls.


Lemma handler_load i ph m x v : handler_state i ph m -> (x, v) ∈ handler_words ++ current i ph -> 0 <= v < 2 ^ 64 -> load64 x m = Some (v, m).
Proof. intros [Hh _] Hx Hv. by apply (holds_reads _ _ x v Hx Hv m Hh). Qed.

(** A store to one of the places. *)
Lemma handler_store_bytes i ph m y l a n r m' :
  handler_state i ph m -> (a, n) ∈ handler_places -> a <= y -> y + Z.of_nat (length l) <= a + n ->
  store_bytes y l m = Some (r, m') -> handler_state i ph m'.
Proof.
  intros [Hh Ht] Ha H1 H2 E. split; [|by apply store_bytes_inv in E as [_ ->]]. eapply holds_stored; [exact E | | done].
  intros x v Hx. assert (exists v', (x, v') ∈ handler_words ++ current 0 0) as [v' Hx'].
  { rewrite elem_of_app in Hx. destruct Hx as [Hx|Hx]; [exists v; rewrite elem_of_app; by left|]. exists 0. rewrite elem_of_app. right.
    unfold current in *. rewrite !elem_of_cons, elem_of_nil in *. destruct Hx as [[= -> _]|[[= -> _]|[]]]; auto. }
  pose proof (hl_words Hlay a n Ha x v' Hx') as Hd. unfold disjoint_ranges in *. lia.
Qed.

Lemma handler_store i ph m y v a n r m' :
  handler_state i ph m -> (a, n) ∈ handler_places -> a <= y -> y + 8 <= a + n -> store64 y v m = Some (r, m') -> handler_state i ph m'.
Proof. intros Hs Ha H1 H2. apply (handler_store_bytes i ph m y _ a n); [done | done | done | by rewrite length_le_bytes]. Qed.

Lemma handler_store128 i ph m y v a n r m' :
  handler_state i ph m -> (a, n) ∈ handler_places -> a <= y -> y + 16 <= a + n -> store128 y v m = Some (r, m') -> handler_state i ph m'.
Proof. intros Hs Ha H1 H2. apply (handler_store_bytes i ph m y _ a n); [done | done | done | by rewrite length_le_bytes]. Qed.

(** Stores to the counters. *)
Lemma handler_set_index i j ph m r m' : handler_state i ph m -> store64 (c + 120) j m = Some (r, m') -> handler_state j ph m'.
Proof.
  intros [Hh Ht] E. apply store_bytes_inv in E as [_ ->]. split; [|done]. split; [|by intros ? ? ?%elem_of_nil].
  intros x v. rewrite elem_of_app. cbn [mem set_mem]. intros [Hx|Hx].
  - rewrite mem_read_write_other; [apply Hh; rewrite elem_of_app; by left|]. rewrite length_le_bytes. by eapply (hl_index Hlay).
  - unfold current in Hx. rewrite !elem_of_cons, elem_of_nil in Hx. destruct Hx as [[= -> ->]|[[= -> ->]|[]]]; [apply mem_read_write_le|].
    rewrite mem_read_write_other; [apply Hh; unfold current; set_solver|]. rewrite length_le_bytes. unfold disjoint_ranges. lia.
Qed.

Lemma handler_set_run i ph ph' m r m' : handler_state i ph m -> store64 (c + 144) ph' m = Some (r, m') -> handler_state i ph' m'.
Proof.
  intros [Hh Ht] E. apply store_bytes_inv in E as [_ ->]. split; [|done]. split; [|by intros ? ? ?%elem_of_nil].
  intros x v. rewrite elem_of_app. cbn [mem set_mem]. intros [Hx|Hx].
  - rewrite mem_read_write_other; [apply Hh; rewrite elem_of_app; by left|]. rewrite length_le_bytes. by eapply (hl_run Hlay).
  - unfold current in Hx. rewrite !elem_of_cons, elem_of_nil in Hx. destruct Hx as [[= -> ->]|[[= -> ->]|[]]]; [|apply mem_read_write_le].
    rewrite mem_read_write_other; [apply Hh; unfold current; set_solver|]. rewrite length_le_bytes. unfold disjoint_ranges. lia.
Qed.

(** Reading the structure. *)
Lemma handler_fields i ph m : handler_state i ph m ->
  load64 (c + 64) m = Some (p0, m) /\ load64 (c + 72) m = Some (q0, m) /\ load64 (c + 104) m = Some (H, m) /\ load64 (c + 112) m = Some (T, m) /\
  (0 <= i < 2 ^ 64 -> load64 (c + 120) m = Some (i, m)) /\ (0 <= ph < 2 ^ 64 -> load64 (c + 144) m = Some (ph, m)).
Proof.
  intros Hs. destruct (hl_values Hlay) as (V0 & Vb & V1 & V2 & V3 & V4).
  repeat split; try intros V5; (eapply handler_load; [exact Hs | | done]); clear; unfold handler_words, current; set_solver.
Qed.

Lemma handler_entry i ph m k h ty : handler_state i ph m -> L !! k = Some (h, ty) ->
  load64 (H + 8 * Z.of_nat k) m = Some (h, m) /\ load64 (T + 8 * Z.of_nat k) m = Some (wrap 64 ty, m).
Proof.
  intros Hs Hk. destruct (Forall_lookup_1 _ _ _ _ (hl_hooks Hlay) Hk) as (Hh & _ & _). cbn [fst] in Hh. split; eapply handler_load; try done; [|lia| |by apply wrap_bound];
    unfold handler_words; rewrite !elem_of_app; left; [right; left | right; right; left]; apply elem_of_lookup_imap; by exists k, (h, ty).
Qed.

Lemma handler_end i ph m : handler_state i ph m -> load64 (T + 8 * Z.of_nat (length L)) m = Some (0, m).
Proof. intros Hs. eapply handler_load; [done | | lia]. unfold handler_words. rewrite !elem_of_app. left. right. right. right. by left. Qed.

(** ** The loop *)

#[local] Opaque load64 load128 store64 store128.

Notation code l := (code_from l ps4PayloadFunctionHookHandler).
Notation reach := (reaches ps4PayloadFunctionHookHandler).

(** The processor inside the handler. *)
Definition inside_handler (s : processor) (m : machine) : Prop := regs s R12 = c /\ regs s RSP = sp /\ mach s = m.

(** The instructions that fetch the type of the next hook. *)
Definition loop_checks : list (instr handler_label) :=
  [Test R11; Je HandlerLoopDone; Cmp 0 RDI; Jne HandlerLoopPostCheck; Cmp 0 R11; Je HandlerLoop; Cmp 2 R11; Je HandlerLoop; Jmp HandlerLoopPostCheckEnd] ++
  code HandlerLoopPostCheck.

Lemma loop_fetch s m (k : nat) ph m1 w :
  inside_handler s m -> handler_state (wrap 64 (Z.of_nat k - 1)) ph m -> 0 <= ph < 2 ^ 64 -> (k <= length L)%nat ->
  store64 (c + 120) (Z.of_nat k) m = Some (tt, m1) -> (forall i, handler_state i ph m1 -> load64 (T + 8 * Z.of_nat k) m1 = Some (w, m1)) ->
  exists s', exec_list (code HandlerLoop) s = exec_list loop_checks s' /\ inside_handler s' m1 /\ regs s' R11 = w /\ regs s' RDI = ph.
Proof.
  intros (HR & HS & <-) Hs Hph Hk E Hw. pose proof (hl_count Hlay) as Hc. pose proof (handler_set_index _ _ _ _ _ _ Hs E) as Hs1.
  destruct (handler_fields _ _ _ Hs) as (_ & _ & _ & _ & F120 & _). specialize (F120 ltac:(by apply wrap_bound)).
  destruct (handler_fields _ _ _ Hs1) as (_ & _ & _ & F112 & G120 & F144). specialize (G120 ltac:(lia)). specialize (F144 Hph).
  change (code HandlerLoop) with (Inc 120 R12 :: Load 144 R12 RDI :: Load 112 R12 R11 :: Load 120 R12 R8 :: LoadIndexed R11 R8 R11 :: loop_checks).
  assert (wrap 64 (wrap 64 (Z.of_nat k - 1) + 1) = Z.of_nat k) as Ek.
  { unfold wrap. rewrite Zplus_mod_idemp_l. replace (Z.of_nat k - 1 + 1) with (Z.of_nat k) by lia. apply Z.mod_small. lia. }
  erewrite (exec_add _ 1 120 R12); [|left; split; [clear; set_solver | done] | rewrite HR; exact F120 | rewrite HR, Ek; exact E].
  erewrite exec_Load by (asm_simpl; rewrite HR; known). erewrite exec_Load by (asm_simpl; rewrite HR; known).
  erewrite exec_Load by (asm_simpl; rewrite HR; known). erewrite exec_LoadIndexed by (asm_simpl; by eapply Hw).
  eexists. split; [reflexivity|]. unfold inside_handler. asm_simpl. done.
Qed.

Lemma inside_flag s m f : inside_handler s m -> inside_handler (set_flag f s) m.
Proof. unfold inside_handler. by asm_simpl. Qed.

(** The checks: a type of zero ends the loop, a skipped one goes on with the
    next hook, any other leads to the call. *)
Lemma checks_end s m : inside_handler s m -> regs s R11 = 0 -> exists s', exec_list loop_checks s = Some (Goto HandlerLoopDone, s') /\ inside_handler s' m.
Proof.
  intros Hi Hr. unfold loop_checks. cbn [app]. branch f. rewrite Hr.
  change (signed 64 0 =? 0) with true. eexists. split; [reflexivity | by apply inside_flag].
Qed.

(** The checks of the second run. *)
Lemma post_check_run s ty :
  signed 64 (regs s R11) = ty -> ty <> 0 ->
  exists s', (forall m, inside_handler s m -> inside_handler s' m) /\ regs s' R11 = regs s R11 /\
    exec_list (code HandlerLoopPostCheck) s =
    if (ty =? -1) || (ty =? 1) then Some (Goto HandlerLoop, s') else exec_list (code HandlerLoopPostCheckEnd) s'.
Proof.
  intros Ht Hz. change (code HandlerLoopPostCheck) with
    (Cmp 0 R11 :: Je HandlerLoop :: Cmp (-1) R11 :: Je HandlerLoop :: Cmp 1 R11 :: Je HandlerLoop :: code HandlerLoopPostCheckEnd).
  branch f1. rewrite Ht, (proj2 (Z.eqb_neq ty 0) Hz). branch f2. asm_simpl. rewrite Ht. destruct (ty =? -1); cbn [orb].
  - eexists. split; [|split; [|reflexivity]]; [intros m Hi; by repeat apply inside_flag | by asm_simpl].
  - branch f3. asm_simpl. rewrite Ht. destruct (ty =? 1); eexists; (split; [|split; [|reflexivity]]); (intros m Hi; by repeat apply inside_flag) || by asm_simpl.
Qed.

Lemma checks_run s m ph ty :
  inside_handler s m -> regs s R11 = wrap 64 ty -> regs s RDI = ph -> ph = 0 \/ ph = 1 -> - 2 ^ 63 <= ty < 2 ^ 63 -> ty <> 0 ->
  exists s' l, exec_list loop_checks s = Some (Goto l, s') /\
    exists s2, reach l s' (if skipped ph ty then HandlerLoop else HandlerLoopPostCheckEnd) s2 /\ inside_handler s2 m /\ regs s2 R11 = wrap 64 ty.
Proof.
  intros Hi Hr Hd Hph Hty Hz. assert (signed 64 (wrap 64 ty) = ty) as Et by (rewrite signed_wrap, signed_small; lia).
  assert (forall s0 f, inside_handler s0 m -> regs s0 R11 = wrap 64 ty -> inside_handler (set_flag f s0) m /\ regs (set_flag f s0) R11 = wrap 64 ty) as Hf
    by (intros s0 f0 H1 H2; split; [by apply inside_flag | by asm_simpl]).
  unfold loop_checks. cbn [app]. branch f1. rewrite Hr, Et, (proj2 (Z.eqb_neq ty 0) Hz).
  destruct (Hf s f1 Hi Hr) as [Hi1 Hr1]. branch f2. asm_simpl. rewrite Hd.
  destruct (Hf _ f2 Hi1 Hr1) as [Hi2 Hr2]. destruct Hph as [->| ->].
  - change (signed 64 0 =? 0) with true. cbv iota. branch f3. rewrite Hr2, Et, (proj2 (Z.eqb_neq ty 0) Hz).
    destruct (Hf _ f3 Hi2 Hr2) as [Hi3 Hr3]. branch f4. rewrite Hr3, Et. destruct (Hf _ f4 Hi3 Hr3) as [Hi4 Hr4].
    change (skipped 0 ty) with (ty =? 2). destruct (ty =? 2).
    + eexists _, _. split; [reflexivity|]. eexists. split; [apply reaches_refl | done].
    + rewrite exec_Jmp. eexists _, _. split; [reflexivity|]. eexists. split; [apply reaches_refl | done].
  - change (signed 64 1 =? 0) with false. cbv iota. eexists _, _. split; [reflexivity|]. change (skipped 1 ty) with ((ty =? -1) || (ty =? 1)).
    destruct (post_check_run _ ty (eq_trans (f_equal (signed 64) Hr2) Et) Hz) as (s3 & Hi3 & Hr3 & E3).
    destruct (_ || _); eexists; (split; [|split; [by apply Hi3 | by rewrite Hr3]]); [apply reaches_jump; exact E3 | apply reaches_fall; exact E3].
Qed.

(** From the checks to the call. *)
Lemma check_end_run s m ty :
  inside_handler s m -> signed 64 (regs s R11) = ty -> ty <> 0 ->
  exists s', exec_list (code HandlerLoopPostCheckEnd) s = Some (Goto (if ty <? 0 then HandlerLoopSpecific else HandlerLoopGeneric), s') /\ inside_handler s' m.
Proof.
  intros Hi Ht Hz. change (code HandlerLoopPostCheckEnd) with
    (Cmp 0 R11 :: Jg HandlerLoopGeneric :: Jl HandlerLoopSpecific :: Jmp HandlerLoop :: code HandlerLoopSpecific).
  rewrite exec_Cmp, Ht. exists (set_flag (Some (ty ?= 0)) s). split; [|by apply inside_flag]. erewrite exec_Jg by (by asm_simpl).
  destruct (Z.compare_spec ty 0) as [|Hl|Hg]; [done | |by rewrite (proj2 (Z.ltb_ge ty 0)) by lia].
  erewrite exec_Jl by (by asm_simpl). by rewrite (proj2 (Z.ltb_lt ty 0) Hl).
Qed.

Lemma specific_run s m m1 x m2 :
  inside_handler s m -> curthread m = td -> store64 (td + 0x388) c m = Some (tt, m1) -> load64 (c + 64) m1 = Some (p0, m1) ->
  parameters_load p0 m1 = Some (x, m2) ->
  m2 = m1 /\ exists s', reach HandlerLoopSpecific s HandlerLoopCall s' /\ inside_handler s' m1 /\ parameter_registers s' = x.
Proof.
  intros (HR & HS & <-) Htd E1 E2 E3. set (s2 := set_reg R11 p0 (set_mach m1 (set_reg RDI td s))).
  assert (exec_list (code HandlerLoopSpecific) s = exec_list (restore_registers R11 ++ Jmp HandlerLoopCall :: code HandlerLoopGeneric) s2) as Es.
  { change (code HandlerLoopSpecific) with (LoadGs RDI :: Store R12 0x388 RDI :: Load 64 R12 R11 :: restore_registers R11 ++ Jmp HandlerLoopCall :: code HandlerLoopGeneric).
    rewrite exec_LoadGs, Htd. erewrite exec_Store by (asm_simpl; rewrite HR; known). erewrite exec_Load by (asm_simpl; rewrite HR; known). done. }
  destruct (restore_run R11 (Jmp HandlerLoopCall :: code HandlerLoopGeneric) s2 p0 x m2) as (-> & s' & Er & Hm & Hp & H12 & Hsp & _); [by left | by unfold s2; asm_simpl | done|].
  split; [by unfold s2; asm_simpl|]. exists s'. split; [apply reaches_jump; rewrite Es, Er; apply exec_Jmp|]. split; [|done].
  unfold inside_handler. rewrite H12, Hsp, Hm. unfold s2. by asm_simpl.
Qed.

Lemma generic_run s m :
  inside_handler s m -> curthread m = td ->
  exists s', reach HandlerLoopGeneric s HandlerLoopCall s' /\ inside_handler s' m /\ gpr (parameter_registers s') 1 = td /\ gpr (parameter_registers s') 2 = c.
Proof.
  intros (HR & HS & <-) Htd. eexists. split; [apply reaches_fall|].
  - change (code HandlerLoopGeneric) with (LoadGs RDI :: Mov R12 RSI :: code HandlerLoopCall). rewrite exec_LoadGs, exec_Mov. reflexivity.
  - unfold inside_handler, gpr, parameter_registers. cbn [p_gpr lookup list_lookup default from_option]. asm_simpl. by rewrite Htd.
Qed.

Lemma signed_nonzero v : 0 < v < 2 ^ 64 -> (signed 64 v =? 0) = false.
Proof.
  intros Hv. apply Z.eqb_neq. unfold signed. rewrite (wrap_small 64 v) by lia. destruct (Z.ltb_spec v (2 ^ (64 - 1))); lia.
Qed.

(** The call of hook [k], and where its result leads. *)
Definition after_hook (r : Z) : handler_label := if r =? 0 then HandlerLoop else if r <? 0 then HandlerCallDone else HandlerLoopDone.

Lemma loop_call_run s m (k : nat) ph h ty v m' :
  inside_handler s m -> handler_state (Z.of_nat k) ph m -> L !! k = Some (h, ty) ->
  invoke 52 h sp (with_r8 (Z.of_nat k) (parameter_registers s)) m = Some (v, m') ->
  exists s', reach HandlerLoopCall s (after_hook (signed 64 (r_rax v))) s' /\ inside_handler s' m'.
Proof.
  intros (HR & HS & <-) Hs Hk Ev. destruct (handler_fields _ _ _ Hs) as (_ & _ & F104 & _ & F120 & _).
  destruct (handler_entry _ _ _ _ _ _ Hs Hk) as [Fh _]. destruct (Forall_lookup_1 _ _ _ _ (hl_hooks Hlay) Hk) as (Hh & _). cbn [fst] in Hh.
  apply lookup_lt_Some in Hk. pose proof (hl_count Hlay). specialize (F120 ltac:(lia)).
  set (rest := Cmp 0 RAX :: Je HandlerLoop :: Jg HandlerLoopDone :: Jmp HandlerCallDone :: code HandlerLoopDone).
  set (s1 := set_reg R11 h (set_reg R8 (Z.of_nat k) (set_reg R11 H s))).
  assert (exists f, exec_list (code HandlerLoopCall) s = exec_list (Call R11 :: rest) (set_flag f s1)) as [f Ec].
  { change (code HandlerLoopCall) with (Load 104 R12 R11 :: Load 120 R12 R8 :: LoadIndexed R11 R8 R11 :: Test R11 :: Je HandlerLoopDone :: Call R11 :: rest).
    erewrite exec_Load by (rewrite HR; known). erewrite exec_Load by (asm_simpl; rewrite HR; known). erewrite exec_LoadIndexed by (asm_simpl; known).
    fold s1. branch f. unfold s1 at 1. asm_simpl. rewrite signed_nonzero by done. by exists f. }
  destruct (exec_Call R11 rest (set_flag f s1) v m') as (s2 & E2 & Hm & H12 & Hsp & Hax & _).
  { unfold s1. asm_simpl. rewrite HS. replace (parameter_registers _) with (with_r8 (Z.of_nat k) (parameter_registers s)); [exact Ev|].
    unfold parameter_registers, with_r8. cbn [seq fmap list_fmap p_gpr p_xmm insert list_insert]. by asm_simpl. }
  assert (inside_handler s2 m') as Hi by (unfold inside_handler; rewrite H12, Hsp; unfold s1; by asm_simpl).
  set (r := signed 64 (r_rax v)) in *. exists (set_flag (Some (r ?= 0)) s2). split; [|by apply inside_flag]. apply reaches_jump.
  rewrite Ec, E2. unfold rest. rewrite exec_Cmp, Hax. fold r. unfold after_hook. erewrite exec_Je by (by asm_simpl).
  destruct (Z.compare_spec r 0) as [->|Hl|Hg]; [done | |]; rewrite (proj2 (Z.eqb_neq r 0)) by lia; erewrite exec_Jg by (by asm_simpl); [|by rewrite (proj2 (Z.ltb_ge r 0)) by lia].
  by rewrite exec_Jmp, (proj2 (Z.ltb_lt r 0) Hl).
Qed.

Lemma invoke_keeps i ph n f x m v m' : f ∈ handler_code -> handler_state i ph m -> invoke n f sp x m = Some (v, m') -> handler_state i ph m'.
Proof.
  intros Hf Hs ([] & m1 & E1 & E2)%bind_inv. apply (lc_code (hc_loop Hcalls) _ _ _ _ _ _ _ _ Hf (handler_store _ _ _ (sp - 8) _ (sp - 64) 64 _ _ Hs ltac:(clear; unfold handler_places; set_solver) ltac:(lia) ltac:(lia) E1) E2).
Qed.

Lemma hook_code k h ty : L !! k = Some (h, ty) -> h ∈ handler_code.
Proof. intros Hk. right. apply (list_elem_of_lookup_2 _ k). by rewrite list_lookup_fmap, Hk. Qed.

Lemma bridge_load i ph m : handler_state i ph m -> load64 (c + 88) m = Some (br, m).
Proof. intros Hs. eapply handler_load; [exact Hs | clear; unfold handler_words; set_solver | apply (hl_values Hlay)]. Qed.

(** A hook that is called, from the checks on. *)
Lemma hook_call_sim s m (k : nat) ph h ty v m' :
  inside_handler s m -> handler_state (Z.of_nat k) ph m -> L !! k = Some (h, ty) -> regs s R11 = wrap 64 ty ->
  call_hook c sp td (Z.of_nat k) h ty m = Some (v, m') ->
  handler_state (Z.of_nat k) ph m' /\
  exists s', reach HandlerLoopPostCheckEnd s (after_hook (signed 64 (r_rax v))) s' /\ inside_handler s' m'.
Proof.
  intros Hi Hs Hk Hr Ec. destruct (Forall_lookup_1 _ _ _ _ (hl_hooks Hlay) Hk) as (Hh & Hty & Hz). cbn [fst snd] in *.
  pose proof (hook_code _ _ _ Hk) as Hin.
  destruct (check_end_run s m ty Hi) as (s1 & E1 & Hi1); [by rewrite Hr, signed_wrap, signed_small by lia | done|].
  apply reaches_jump in E1. unfold call_hook in Ec. destruct (Z.ltb_spec ty 0) as [Hneg|Hpos].
  - apply bind_inv in Ec as ([] & m1 & Es & Ec).
    pose proof (handler_store _ _ _ (td + 0x388) c (td + 0x388) 8 _ _ Hs ltac:(clear; unfold handler_places; set_solver) ltac:(lia) ltac:(lia) Es) as Hs1.
    destruct (handler_fields _ _ _ Hs1) as (F64 & _). erewrite bind_some in Ec by exact F64. apply bind_inv in Ec as (x & m2 & Ex & Ec).
    destruct (specific_run s1 m m1 x m2 Hi1 (proj2 Hs) Es F64 Ex) as (-> & s2 & R2 & Hi2 & Hx). rewrite <- Hx in Ec.
    split; [by apply (invoke_keeps _ _ _ _ _ _ _ _ Hin Hs1 Ec)|].
    destruct (loop_call_run s2 m1 k ph h ty v m' Hi2 Hs1 Hk Ec) as (s3 & R3 & Hi3). exists s3. split; [|done].
    eapply reaches_trans; [exact E1|]. eapply reaches_trans; [exact R2 | exact R3].
  - split; [by apply (invoke_keeps _ _ _ _ _ _ _ _ Hin Hs Ec)|].
    destruct (generic_run s1 m Hi1 (proj2 Hs)) as (s2 & R2 & Hi2 & Hx1 & Hx2).
    assert (invoke 52 h sp (with_r8 (Z.of_nat k) (parameter_registers s2)) m = Some (v, m')) as Ev.
    { pose proof (Forall_lookup_1 _ _ _ _ (lc_hooks (hc_loop Hcalls)) Hk ltac:(cbn [snd]; lia)) as Ht. rewrite <- Ec. unfold invoke.
      rewrite (Ht (sp - 8) _ (two_parameters td c)); [done | by rewrite <- Hx1 | by rewrite <- Hx2]. }
    destruct (loop_call_run s2 m k ph h ty v m' Hi2 Hs Hk Ev) as (s3 & R3 & Hi3). exists s3. split; [|done].
    eapply reaches_trans; [exact E1|]. eapply reaches_trans; [exact R2 | exact R3].
Qed.

(** The loop performs the run of the hooks it has before it. *)
Lemma loop_sim ph L2 : ph = 0 \/ ph = 1 -> forall k s m r m',
  drop k L = L2 -> (k <= length L)%nat -> inside_handler s m -> handler_state (wrap 64 (Z.of_nat k - 1)) ph m ->
  run_hooks c sp td ph (Z.of_nat k) L2 m = Some (r, m') ->
  exists s' i, reach HandlerLoop s (if r <? 0 then HandlerCallDone else HandlerLoopDone) s' /\ inside_handler s' m' /\ handler_state i ph m'.
Proof.
  intros Hph. induction L2 as [|[h ty] L2 IH]; intros k s m r m' Hd Hk Hi Hs E; cbn [run_hooks] in E; apply bind_inv in E as ([] & m1 & Es & E);
    pose proof (handler_set_index _ _ _ _ _ _ Hs Es) as Hs1.
  - injection E as <- <-. assert (k = length L) as -> by (apply (f_equal length) in Hd; rewrite length_drop in Hd; cbn [length] in Hd; lia).
    destruct (loop_fetch s m _ ph m1 0 Hi Hs ltac:(lia) Hk Es (fun i Hi => handler_end i ph m1 Hi)) as (s1 & E1 & Hi1 & Hr1 & _).
    destruct (checks_end s1 m1 Hi1 Hr1) as (s2 & E2 & Hi2). exists s2, (Z.of_nat (length L)). split; [|done].
    apply reaches_jump. by rewrite E1.
  - destruct (drop_cons L k (h, ty) L2 Hd) as [Hl Hd']. apply lookup_lt_Some in Hl as Hlt.
    destruct (Forall_lookup_1 _ _ _ _ (hl_hooks Hlay) Hl) as (_ & Hty & Hz). cbn [fst snd] in *.
    destruct (loop_fetch s m k ph m1 (wrap 64 ty) Hi Hs ltac:(lia) Hk Es (fun i Hi => proj2 (handler_entry i ph m1 k h ty Hi Hl))) as (s1 & E1 & Hi1 & Hr1 & Hp1).
    destruct (checks_run s1 m1 ph ty Hi1 Hr1 Hp1 Hph Hty Hz) as (s2 & l & E2 & s3 & R3 & Hi3 & Hr3).
    assert (reach HandlerLoop s l s2) as R2 by (apply reaches_jump; by rewrite E1).
    assert (forall n, handler_state (Z.of_nat k) ph n -> handler_state (wrap 64 (Z.of_nat (S k) - 1)) ph n) as Hnext.
    { intros n Hn. replace (Z.of_nat (S k) - 1) with (Z.of_nat k) by lia. pose proof (hl_count Hlay). by rewrite wrap_small by lia. }
    replace (Z.of_nat k + 1) with (Z.of_nat (S k)) in E by lia. destruct (skipped ph ty).
    + destruct (IH (S k) s3 m1 r m' Hd' ltac:(lia) Hi3 (Hnext _ Hs1) E) as (s' & i & R & Hx). exists s', i. split; [|done].
      eapply reaches_trans; [exact R2|]. eapply reaches_trans; [exact R3 | exact R].
    + apply bind_inv in E as (v & m2 & Ec & E). destruct (hook_call_sim s3 m1 k ph h ty v m2 Hi3 Hs1 Hl Hr3 Ec) as (Hs2 & s4 & R4 & Hi4).
      unfold after_hook in R4. destruct (signed 64 (r_rax v) =? 0) eqn:Ez.
      * destruct (IH (S k) s4 m2 r m' Hd' ltac:(lia) Hi4 (Hnext _ Hs2) E) as (s' & i & R & Hx). exists s', i. split; [|done].
        eapply reaches_trans; [exact R2|]. eapply reaches_trans; [exact R3|]. eapply reaches_trans; [exact R4 | exact R].
      * injection E as <- <-. exists s4, (Z.of_nat k). split; [|done]. eapply reaches_trans; [exact R2|]. eapply reaches_trans; [exact R3 | exact R4].
Qed.

(** ** Around the loop *)

(** The end of a run: the arguments go back to the registers, and the run's
    number tells whether the function was called already. *)
Definition done_tail : list (instr handler_label) :=
  [CallM 88 R12; Load 72 R12 R11; Store RAX 0 R11; Store RDX 8 R11; MovdquStore 0 16 R11; MovdquStore 1 32 R11; Jmp HandlerPostRun] ++ code HandlerCallDone.

Lemma loop_done_run s m i ph x m0 m1 :
  inside_handler s m -> handler_state i ph m -> ph = 0 \/ ph = 1 -> parameters_load p0 m = Some (x, m0) -> store64 (c + 144) 1 m = Some (tt, m1) ->
  exists s', exec_list (code HandlerLoopDone) s = (if ph =? 0 then exec_list done_tail s' else Some (Goto HandlerCallDone, s')) /\
    inside_handler s' m1 /\ parameter_registers s' = x.
Proof.
  intros Hi Hs Hph Ex Es. pose proof Hi as (HR & HS & Hm). destruct (handler_fields _ _ _ Hs) as (F64 & _ & _ & _ & _ & F144).
  specialize (F144 ltac:(lia)). set (tl := MovI 1 R11 :: XchgM R11 144 R12 :: Test R11 :: Jne HandlerCallDone :: done_tail).
  assert (exec_list (code HandlerLoopDone) s = exec_list (restore_registers R11 ++ tl) (set_reg R11 p0 s)) as E1.
  { change (code HandlerLoopDone) with (Load 64 R12 R11 :: restore_registers R11 ++ tl). erewrite exec_Load by (rewrite HR, Hm; exact F64). done. }
  pose proof (restore_run R11 tl (set_reg R11 p0 s) p0 x m0 (or_introl eq_refl)) as X. rewrite regs_set_same, mach_set_reg, Hm, !regs_set_other in X by done.
  destruct (X eq_refl Ex) as (_ & s1 & E2 & Hm1 & Hx1 & H12 & Hsp & _). clear X. rewrite HR in H12. rewrite HS in Hsp.
  rewrite E2 in E1. unfold tl in E1. rewrite exec_MovI in E1.
  erewrite exec_XchgM in E1; [|asm_simpl; rewrite H12, Hm1; exact F144 | asm_simpl; rewrite H12, Hm1; exact Es].
  destruct (exec_TestJne R11 HandlerCallDone done_tail (set_reg R11 ph (set_mach m1 (set_reg R11 (wrap 64 1) s1)))) as [f Ef].
  rewrite Ef in E1. asm_simpl in E1. exists (set_flag f (set_reg R11 ph (set_mach m1 (set_reg R11 (wrap 64 1) s1)))). split; [|split].
  - rewrite E1. by destruct Hph as [->| ->].
  - apply inside_flag. unfold inside_handler. asm_simpl. by rewrite H12, Hsp.
  - rewrite <- Hx1. unfold parameter_registers. cbn [seq fmap list_fmap]. by asm_simpl.
Qed.

Lemma bridge_run s m i ph b v m1 m2 :
  inside_handler s m -> load64 (c + 88) m = Some (b, m) -> invoke 27 b sp (parameter_registers s) m = Some (v, m1) ->
  handler_state i ph m1 -> returns_save q0 v m1 = Some (tt, m2) ->
  exists s', exec_list done_tail s = Some (Goto HandlerPostRun, s') /\ inside_handler s' m2.
Proof.
  intros (HR & HS & <-) Eb Ev Hs Er. destruct (handler_fields _ _ _ Hs) as (_ & F72 & _).
  set (tl := [Load 72 R12 R11; Store RAX 0 R11; Store RDX 8 R11; MovdquStore 0 16 R11; MovdquStore 1 32 R11; Jmp HandlerPostRun] ++ code HandlerCallDone).
  destruct (exec_CallM 88 R12 tl s b v m1) as (s1 & E1 & Hm & H12 & Hsp & Hax & Hdx & Hx0 & Hx1); [rewrite HR; exact Eb | rewrite HS; exact Ev|].
  change done_tail with (CallM 88 R12 :: tl).
  unfold returns_save in Er. rewrite <- Hax, <- Hdx, <- Hx0, <- Hx1, <- Hm in Er. do 3 take_op Er.
  eexists. split; [etransitivity; [exact E1|]|].
  - unfold tl. cbn [app]. erewrite exec_Load by (rewrite H12, HR, Hm; exact F72). erewrite exec_Store by (asm_simpl; known). erewrite exec_Store by (asm_simpl; known).
    erewrite exec_MovdquStore by (asm_simpl; known). erewrite exec_MovdquStore by (asm_simpl; known). apply exec_Jmp.
  - unfold inside_handler. asm_simpl. by rewrite H12, Hsp.
Qed.

(** The first of the stores that [E] consists of, to the place [Hp]. *)
Ltac keep_store E Hs Hp lemma :=
  let n := fresh "n" in let E1 := fresh "E1" in let H1 := fresh "Hs" in
  apply bind_inv in E as ([] & n & E1 & E);
  match type of Hs with handler_state ?i ?ph _ => assert (handler_state i ph n) as H1 by (eapply lemma; [exact Hs | exact Hp | | |exact E1]; lia) end;
  clear Hs E1; rename H1 into Hs.

(** Saving and loading keep the structure. *)
Lemma returns_save_keeps i ph v m m' : handler_state i ph m -> returns_save q0 v m = Some (tt, m') -> handler_state i ph m'.
Proof.
  intros Hs E. unfold returns_save in E. assert ((q0, 48) ∈ handler_places) as Hq by (clear; unfold handler_places; set_solver).
  do 2 keep_store E Hs Hq handler_store. keep_store E Hs Hq handler_store128.
  eapply handler_store128; [exact Hs | exact Hq | | |exact E]; lia.
Qed.

Lemma parameters_load_same p m x m' : parameters_load p m = Some (x, m') -> m' = m.
Proof. intros E. unfold parameters_load in E. do 15 take_op E. by injection E. Qed.

(** A run from its start: the index is set before the first hook. *)
Lemma run_start s m i ph m1 :
  inside_handler s m -> handler_state i ph m -> store64 (c + 120) (2 ^ 64 - 1) m = Some (tt, m1) ->
  exists s', exec_list (code HandlerPostRun) s = exec_list (code HandlerLoop) s' /\ inside_handler s' m1 /\ handler_state (wrap 64 (Z.of_nat 0 - 1)) ph m1.
Proof.
  intros (HR & HS & <-) Hs E. exists (set_mach m1 s). split; [|split].
  - change (code HandlerPostRun) with (StoreI (-1) 120 R12 :: code HandlerLoop). erewrite exec_StoreI by (rewrite HR; exact E). done.
  - unfold inside_handler. by asm_simpl.
  - exact (handler_set_index _ _ _ _ _ _ Hs E).
Qed.

(** Behind the first run: the call and the second run. *)
Lemma second_sim s m i m' :
  inside_handler s m -> handler_state i 0 m ->
  hooked_call c sp td L m = Some (tt, m') ->
  exists s' i ph, reach HandlerLoopDone s HandlerCallDone s' /\ inside_handler s' m' /\ handler_state i ph m'.
Proof.
  intros Hi Hs E. unfold hooked_call in E. destruct (handler_fields _ _ _ Hs) as (F64 & _). erewrite bind_some in E by exact F64.
  apply bind_inv in E as (x & m0 & Ex & E). pose proof (parameters_load_same _ _ _ _ Ex). subst m0.
  apply bind_inv in E as ([] & m1 & Es & E). destruct (loop_done_run s m i 0 x m m1 Hi Hs ltac:(by left) Ex Es) as (s1 & E1 & Hi1 & Hx).
  pose proof (handler_set_run _ _ _ _ _ _ Hs Es) as Hs1. pose proof (bridge_load _ _ _ Hs1) as E0. erewrite bind_some in E by exact E0. apply bind_inv in E as (v & m2 & Ev & E).
  rewrite <- Hx in Ev. pose proof (invoke_keeps _ _ _ _ _ _ _ _ ltac:(by left) Hs1 Ev) as Hs2. destruct (handler_fields _ _ _ Hs2) as (_ & F72 & _).
  erewrite bind_some in E by exact F72. apply bind_inv in E as ([] & m3 & Er & E). destruct (bridge_run s1 m1 i 1 br v m2 m3 Hi1 E0 Ev Hs2 Er) as (s2 & E2 & Hi2).
  pose proof (returns_save_keeps _ _ _ _ _ Hs2 Er) as Hs3. apply bind_inv in E as ([] & m4 & E4 & E).
  destruct (run_start s2 m3 i 1 m4 Hi2 Hs3 E4) as (s4 & R4 & Hi4 & Hs4). apply bind_inv in E as (r & m5 & E5 & E).
  destruct (loop_sim 1 L ltac:(by right) 0 s4 m4 r m5 eq_refl ltac:(lia) Hi4 Hs4 E5) as (s5 & j & R5 & Hi5 & Hs5).
  assert (reach HandlerLoopDone s (if r <? 0 then HandlerCallDone else HandlerLoopDone) s5) as R.
  { eapply reaches_trans; [apply reaches_jump; etransitivity; [exact E1 | exact E2]|]. eapply reaches_trans; [apply reaches_fall; exact R4 | exact R5]. }
  destruct (r <? 0); [injection E as <-; by exists s5, j, 1|]. destruct (handler_fields _ _ _ Hs5) as (F64' & _). erewrite bind_some in E by exact F64'.
  apply bind_inv in E as (y & m6 & Ey & E). pose proof (parameters_load_same _ _ _ _ Ey). subst m6.
  destruct (loop_done_run s5 m5 j 1 y m5 m' Hi5 Hs5 ltac:(by right) Ey E) as (s6 & E6 & Hi6 & _). exists s6, j, 1. split; [|split; [done|]].
  - eapply reaches_trans; [exact R | by apply reaches_jump].
  - exact (handler_set_run _ _ _ _ _ _ Hs5 E).
Qed.

(** The two runs and the call between them. *)
Lemma body_sim s m i0 ph0 m' :
  inside_handler s m -> handler_state i0 ph0 m -> hooked_body c sp td L m = Some (tt, m') ->
  exists s1 s' i ph, exec_list (StoreI 0 144 R12 :: code HandlerPostRun) s = exec_list (code HandlerLoop) s1 /\
    reach HandlerLoop s1 HandlerCallDone s' /\ inside_handler s' m' /\ handler_state i ph m'.
Proof.
  intros (HR & HS & <-) Hs E. unfold hooked_body in E. apply bind_inv in E as ([] & m1 & Es & E). pose proof (handler_set_run _ _ _ _ _ _ Hs Es) as Hs1.
  assert (inside_handler (set_mach m1 s) m1) as Hi1 by (unfold inside_handler; by asm_simpl).
  apply bind_inv in E as ([] & m2 & E2 & E). destruct (run_start _ m1 i0 0 m2 Hi1 Hs1 E2) as (s2 & R2 & Hi2 & Hs2).
  apply bind_inv in E as (r & m3 & E3 & E). destruct (loop_sim 0 L ltac:(by left) 0 s2 m2 r m3 eq_refl ltac:(lia) Hi2 Hs2 E3) as (s3 & j & R3 & Hi3 & Hs3).
  assert (exec_list (StoreI 0 144 R12 :: code HandlerPostRun) s = exec_list (code HandlerLoop) s2) as E1
    by (erewrite exec_StoreI by (rewrite HR; exact Es); exact R2).
  exists s2. destruct (r <? 0); [injection E as <-; by exists s3, j, 0|].
  destruct (second_sim s3 m3 j m' Hi3 Hs3 E) as (s4 & j' & ph & R4 & Hx). exists s4, j', ph. split; [done|]. split; [|done].
  eapply reaches_trans; [exact R3 | exact R4].
Qed.

(** ** The beginning and the end *)

Lemma returns_load_same q m v m' : returns_load q m = Some (v, m') -> m' = m.
Proof. intros E. unfold returns_load in E. do 4 take_op E. by injection E. Qed.

(** The values to return, from where [b] points. *)
Lemma returns_run (b : reg) l s q v m' :
  regs s b = q -> b <> RAX -> b <> RDX -> returns_load q (mach s) = Some (v, m') ->
  exists s', exec_list (Load 0 b RAX :: Load 8 b RDX :: MovdquLoad 16 b 0 :: MovdquLoad 32 b 1 :: l) s = exec_list (l : list (instr handler_label)) s' /\
    mach s' = mach s /\ regs s' RAX = r_rax v /\ regs s' RDX = r_rdx v /\ xmms s' 0%nat = r_xmm0 v /\ xmms s' 1%nat = r_xmm1 v /\
    forall r, r <> RAX -> r <> RDX -> regs s' r = regs s r.
Proof.
  intros Hq Ha Hd E. unfold returns_load in E. rewrite <- Hq in E. do 4 take_op E. injection E as <- _. eexists. split; [|split; [|split; [|split; [|split; [|split]]]]].
  - erewrite exec_Load by known. erewrite exec_Load by (rewrite regs_set_other by done; asm_simpl; known).
    erewrite exec_MovdquLoad by (rewrite !regs_set_other by done; asm_simpl; known).
    erewrite exec_MovdquLoad by (asm_simpl; rewrite !regs_set_other by done; known). reflexivity.
  - by asm_simpl.
  - by asm_simpl.
  - by asm_simpl.
  - by asm_simpl.
  - by asm_simpl.
  - intros r H1 H2. asm_simpl. by rewrite !regs_set_other by done.
Qed.

Lemma parameters_save_keeps i ph x m m' : handler_state i ph m -> parameters_save p0 x m = Some (tt, m') -> handler_state i ph m'.
Proof.
  intros Hs E. unfold parameters_save in E. assert ((p0, 184) ∈ handler_places) as Hp by (clear; unfold handler_places; set_solver).
  do 8 keep_store E Hs Hp handler_store128. do 6 keep_store E Hs Hp handler_store.
  eapply handler_store; [exact Hs | exact Hp | | |exact E]; lia.
Qed.

Lemma enter_run s m i ph m' :
  regs s R11 = orig -> inside_handler s m -> handler_state i ph m -> hooked_enter orig c sp (parameter_registers s) m = Some (tt, m') ->
  exists s', exec_list (code Handler) s = exec_list (StoreI 0 144 R12 :: code HandlerPostRun) s' /\ inside_handler s' m' /\ handler_state i ph m'.
Proof.
  intros HO (HR & HS & <-) Hs E. unfold hooked_enter in E. take_op E. rename m into m1. take_op E. take_op E. rename m into m2. take_op E. take_op E. rename m into m3.
  assert (handler_state i ph m3) as Hs3.
  { eapply (handler_store _ _ _ (orig + 184) _ (orig + 184) 8); [|clear; unfold handler_places; set_solver | lia | lia | exact E4].
    eapply (handler_store _ _ _ (orig + 16) _ (orig + 16) 8); [|clear; unfold handler_places; set_solver | lia | lia | exact E2].
    eapply (handler_store _ _ _ (sp - 8) _ (sp - 64) 64); [exact Hs | clear; unfold handler_places; set_solver | lia | lia | exact E0]. }
  destruct (handler_fields _ _ _ Hs3) as (F64 & _). erewrite bind_some in E by exact F64. destruct (hl_stack Hlay) as [D1 D2].
  assert (load64 (sp - 8) m3 = Some (c, m3)) as Ep.
  { pose proof (store64_other _ _ _ _ _ (sp - 8) _ E4 D2 (store64_other _ _ _ _ _ (sp - 8) _ E2 D1 (store64_word _ _ _ _ _ E0))) as Hr.
    rewrite (load64_run _ _ _ Hr), le_val_word by apply (hl_copy Hlay). done. }
  eexists. split; [|split].
  - change (code Handler) with (Push R12 :: LockDec 16 R11 :: MovI 0 R12 :: XchgM R12 184 R11 :: Pop R12 :: Load 64 R12 R11 ::
      save_registers R11 ++ StoreI 0 144 R12 :: code HandlerPostRun).
    erewrite exec_Push by (rewrite HS, HR; exact E0). erewrite (exec_add _ (-1) 16 R11); [|by right | asm_simpl; rewrite HO; exact E1 | asm_simpl; rewrite HO; exact E2].
    rewrite exec_MovI. erewrite exec_XchgM; [|asm_simpl; rewrite HO; exact E3 | asm_simpl; rewrite HO; exact E4].
    erewrite exec_Pop by (asm_simpl; rewrite HS; exact Ep). erewrite exec_Load by (asm_simpl; exact F64).
    erewrite save_run; [reflexivity | by asm_simpl |]. asm_simpl.
    match goal with |- parameters_save _ ?x _ = _ => replace x with (parameter_registers s); [exact E|] end.
    unfold parameter_registers. cbn [seq fmap list_fmap]. by asm_simpl.
  - unfold inside_handler. asm_simpl. rewrite HS. split; [done|]. split; [lia | done].
  - by apply (parameters_save_keeps i ph _ m3 m' Hs3 E).
Qed.

Lemma return_run s m i ph to saved w m' :
  inside_handler s m -> handler_state i ph m -> hooked_return c sp m = Some ((to, saved, w), m') ->
  saved = r120 /\ exists s', exec_list (code HandlerCallDone) s = Some (Leave to, s') /\ mach s' = m' /\ regs s' RSP = sp /\ regs s' R12 = saved /\
    regs s' RAX = r_rax w /\ regs s' RDX = r_rdx w /\ xmms s' 0%nat = r_xmm0 w /\ xmms s' 1%nat = r_xmm1 w.
Proof.
  intros (HR & HS & <-) Hs E. unfold hooked_return in E. destruct (handler_fields _ _ _ Hs) as (_ & F72 & _). erewrite bind_some in E by exact F72.
  apply bind_inv in E as (v & n & Ev & E). pose proof (returns_load_same _ _ _ _ Ev). subst n.
  take_load E a0 Eto. apply bind_inv in E as ([] & m1 & Epush & E). take_load E r12 E12. cbv zeta in E. assert ((sp - 64, 64) ∈ handler_places) as Hp by (clear; unfold handler_places; set_solver).
  assert (handler_state i ph m1) as Hs1 by (eapply handler_store; [exact Hs | exact Hp | | |exact Epush]; lia).
  apply bind_inv in E as ([] & m2 & S1 & E). apply bind_inv in E as ([] & m3 & S2 & E). apply bind_inv in E as ([] & m4 & S3 & E). apply bind_inv in E as ([] & m5 & S4 & E).
  assert (handler_state i ph m5) as Hs5.
  { eapply handler_store; [|exact Hp | | |exact S4]; [|lia..]. eapply handler_store; [|exact Hp | | |exact S3]; [|lia..].
    eapply handler_store128; [|exact Hp | | |exact S2]; [|lia..]. eapply handler_store128; [exact Hs1 | exact Hp | | |exact S1]; lia. }
  assert (r12 = r120) as ->.
  { rewrite (handler_load _ _ _ (c + 32) r120 Hs1) in E12; [by injection E12 | clear; unfold handler_words; set_solver | apply (hl_caller Hlay)]. }
  assert (load64 (c + 48) m5 = Some (ep, m5)) as Fe.
  { eapply handler_load; [exact Hs5 | clear; unfold handler_words; set_solver | apply (hl_values Hlay)]. }
  erewrite bind_some in E by exact Fe. apply bind_inv in E as (v6 & m6 & E6 & E). apply bind_inv in E as (w' & n & Ew & E).
  pose proof (returns_load_same _ _ _ _ Ew). subst n. take_load E to1 Et. injection E as <- <- <- <-.
  split; [done|]. set (tl := [Load 0 RSP RAX; Load 8 RSP RDX; MovdquLoad 16 RSP 0; MovdquLoad 32 RSP 1; AddI 48 RSP; Ret] : list (instr handler_label)).
  set (mid := [PushM 24 R12; Load 32 R12 R11; Xchg R11 R12; SubI 48 RSP; MovdquStore 1 32 RSP; MovdquStore 0 16 RSP; Store RDX 8 RSP; Store RAX 0 RSP; Mov R11 RDI] ++ CallM 48 R11 :: tl).
  destruct (returns_run R11 mid (set_reg R11 q0 s) q0 v (mach s)) as (s1 & E1 & Hm1 & Hax & Hdx & Hx0 & Hx1 & Hr1); [by asm_simpl | done | done | asm_simpl; exact Ev|].
  assert (exec_list (code HandlerCallDone) s = exec_list mid s1) as Ea.
  { change (code HandlerCallDone) with (Load 72 R12 R11 :: Load 0 R11 RAX :: Load 8 R11 RDX :: MovdquLoad 16 R11 0 :: MovdquLoad 32 R11 1 :: mid).
    erewrite exec_Load by (rewrite HR; exact F72). exact E1. }
  pose proof (Hr1 R12 ltac:(done) ltac:(done)) as H12. pose proof (Hr1 RSP ltac:(done) ltac:(done)) as Hsp. asm_simpl in H12. asm_simpl in Hsp. asm_simpl in Hm1.
  rewrite HR in H12. rewrite HS in Hsp.
  assert (exists s2, exec_list mid s1 = exec_list (CallM 48 R11 :: tl) s2 /\ mach s2 = m5 /\ regs s2 R11 = c /\ regs s2 R12 = r120 /\ regs s2 RSP = sp - 8 - 48 /\ regs s2 RDI = c)
    as (s2 & Eb & Hm2 & H11 & H12' & Hsp' & Hdi).
  { eexists. split; [|].
    - unfold mid. cbn [app]. erewrite exec_PushM; [|rewrite H12, Hm1; exact Eto | rewrite Hsp, Hm1; exact Epush].
      erewrite exec_Load by (asm_simpl; rewrite H12; exact E12). rewrite exec_Xchg, exec_SubI.
      erewrite exec_MovdquStore by (asm_simpl; rewrite Hsp, Hx1; exact S1). erewrite exec_MovdquStore by (asm_simpl; rewrite Hsp, Hx0; exact S2).
      erewrite exec_Store by (asm_simpl; rewrite Hsp, Hdx; exact S3). erewrite exec_Store by (asm_simpl; rewrite Hsp, Hax; exact S4).
      rewrite exec_Mov. reflexivity.
    - asm_simpl. by rewrite Hsp, H12. }
  destruct (exec_CallM 48 R11 tl s2 ep v6 m6) as (s3 & Ec & Hm3 & H12'' & Hsp'' & _).
  { rewrite H11, Hm2. exact Fe. }
  { rewrite Hsp', Hm2. rewrite <- E6. unfold invoke. by rewrite (hc_epilogue Hcalls _ (parameter_registers s2) (two_parameters c 0)) by (unfold gpr, parameter_registers; cbn; exact Hdi). }
  destruct (returns_run RSP [AddI 48 RSP; Ret] s3 (sp - 8 - 48) w' m6) as (s4 & Ed & Hm4 & Hax4 & Hdx4 & Hx04 & Hx14 & Hr4); [by rewrite Hsp'' | done | done | rewrite Hm3; exact Ew|].
  pose proof (Hr4 RSP ltac:(done) ltac:(done)) as Hsp4. pose proof (Hr4 R12 ltac:(done) ltac:(done)) as H124. rewrite Hsp'', Hsp' in Hsp4. rewrite H12'', H12' in H124.
  eexists. split; [rewrite Ea, Eb, Ec; etransitivity; [exact Ed|]; rewrite exec_AddI; apply exec_Ret; asm_simpl; rewrite Hsp4, Hm4, Hm3; replace (sp - 8 - 48 + 48) with (sp - 8) by lia; exact Et|].
  asm_simpl. rewrite Hsp4, H124, Hm4. repeat split; try done. lia.
Qed.

Lemma handler_sim s m i ph to saved w m' :
  regs s R11 = orig -> inside_handler s m -> handler_state i ph m -> hooked orig c sp td L (parameter_registers s) m = Some ((to, saved, w), m') ->
  exists fuel s', run ps4PayloadFunctionHookHandler fuel Handler s = Some (to, s') /\ mach s' = m' /\ regs s' RSP = sp /\ regs s' R12 = r120 /\
    regs s' RAX = r_rax w /\ regs s' RDX = r_rdx w /\ xmms s' 0%nat = r_xmm0 w /\ xmms s' 1%nat = r_xmm1 w.
Proof.
  intros HO Hi Hs E. apply bind_inv in E as ([] & m1 & E1 & E). apply bind_inv in E as ([] & m2 & E2 & E3).
  destruct (enter_run s m i ph m1 HO Hi Hs E1) as (s1 & R1 & Hi1 & Hs1). destruct (body_sim s1 m1 i ph m2 Hi1 Hs1 E2) as (s2 & s3 & j & ph' & R2 & R3 & Hi3 & Hs3).
  destruct (return_run s3 m2 j ph' to saved w m' Hi3 Hs3 E3) as (-> & s4 & R4 & Hx).
  destruct (run_leaves ps4PayloadFunctionHookHandler Handler s HandlerCallDone s3 to s4) as [fuel Ef]; [|exact R4|].
  - eapply reaches_trans; [apply reaches_fall; etransitivity; [exact R1 | exact R2] | exact R3].
  - by exists fuel, s4.
Qed.

(** ** The run is defined *)

#[local] Transparent load64 load128 store64 store128.

Lemma room_store y n m x l :
  handler_room m -> I m -> (y, n) ∈ handler_stores -> y <= x -> x + Z.of_nat (length l) <= y + n -> 0 <= n ->
  exists m', store_bytes x l m = Some (tt, m') /\ handler_room m' /\ I m'.
Proof.
  intros Hr HI Hy H1 H2 Hn. assert (store_bytes x l m = Some (tt, set_mem (mem_write (mem m) x l) m)) as E
    by (apply store_bytes_run, (writable_range_sub m y (Z.to_nat n)); [by apply Hr | done | lia]).
  eexists. split; [exact E|]. split; [intros z k Hz; by apply writable_range_written, Hr | by eapply (hc_stores Hcalls)].
Qed.

Lemma room_load y n m x k :
  handler_room m -> (y, n) ∈ handler_stores -> y <= x -> x + Z.of_nat k <= y + n -> 0 <= n -> exists l, load_bytes x k m = Some (l, m).
Proof.
  intros Hr Hy H1 H2 Hn. destruct (mapped_range_bytes m x k) as [l Hl]; [|exists l; by apply load_bytes_run].
  intros i Hi. pose proof (writable_range_sub m y (Z.to_nat n) x k (Hr _ _ Hy) H1 ltac:(lia)) as Hw. rewrite writable_range_iff in Hw. by apply Hw.
Qed.

(** The stores and loads of the handler. *)
Lemma ends_store y n i ph m x v (w : nat) :
  ready i ph m -> (y, n) ∈ handler_places -> y <= x -> x + Z.of_nat w <= y + n -> 0 <= n -> ends (fun _ => ready i ph) (store_bytes x (le_bytes w v)) m.
Proof.
  intros (Hs & Hr & HI) Hy H1 H2 Hn. destruct (room_store y n m x (le_bytes w v) Hr HI) as (m' & E & Hr'); [by apply elem_of_app; left | done | by rewrite length_le_bytes | done|].
  exists tt, m'. split; [done|]. split; [|done]. eapply handler_store_bytes; [exact Hs | exact Hy | done | | exact E]. by rewrite length_le_bytes.
Qed.

Lemma ends_load y n i ph m x (w : nat) :
  ready i ph m -> (y, n) ∈ handler_stores -> y <= x -> x + Z.of_nat w <= y + n -> 0 <= n ->
  ends (fun _ => ready i ph) (let! l := load_bytes x w in ret (le_val l)) m.
Proof.
  intros (Hs & Hr & HI) Hy H1 H2 Hn. destruct (room_load y n m x w Hr Hy H1 H2 Hn) as [l El]. exists (le_val l), m. by erewrite bind_some by exact El.
Qed.

Lemma ends_index i j ph m : ready i ph m -> ends (fun _ => ready j ph) (store64 (c + 120) j) m.
Proof.
  intros (Hs & Hr & HI). destruct (room_store (c + 120) 8 m (c + 120) (le_bytes 8 j) Hr HI) as (m' & E & Hr'); [clear; unfold handler_stores; set_solver | lia | rewrite length_le_bytes; lia | lia|].
  exists tt, m'. split; [done|]. split; [by eapply handler_set_index | done].
Qed.

Lemma ends_run i ph ph' m : ready i ph m -> ends (fun _ => ready i ph') (store64 (c + 144) ph') m.
Proof.
  intros (Hs & Hr & HI). destruct (room_store (c + 144) 8 m (c + 144) (le_bytes 8 ph') Hr HI) as (m' & E & Hr'); [clear; unfold handler_stores; set_solver | lia | rewrite length_le_bytes; lia | lia|].
  exists tt, m'. split; [done|]. split; [by eapply handler_set_run | done].
Qed.

Lemma ends_known {A} (k : K A) v i ph m : ready i ph m -> k m = Some (v, m) -> ends (fun w n => w = v /\ ready i ph n) k m.
Proof. intros Hr E. by exists v, m. Qed.

(** The first operation of a computation ends by [t]; behind it the machine is
    ready again. *)
Ltac ends_by t :=
  eapply ends_bind; [t|];
  match goal with Hr : ready _ _ ?m |- _ =>
    clear m Hr; cbv beta; let v := fresh "v" in intros v m Hr; try (destruct Hr as [-> Hr])
  end.

(** It is a load of a word the machine holds, by the lemma [l]. *)
Ltac ends_word l := match goal with Hr : ready _ _ _ |- _ => ends_by ltac:(eapply ends_known; [exact Hr | apply (l _ _ _ (proj1 Hr))]) end.

(** It is a load or store inside the place of [n] bytes at [y]. *)
Ltac in_places := clear; unfold handler_stores, handler_places; set_solver.
Ltac ends_at y n := ends_by ltac:(first [eapply (ends_store y n); [eassumption | in_places | lia..] | eapply (ends_load y n); [eassumption | in_places | lia..]]).

Lemma ends_parameters_load i ph m : ready i ph m -> ends (fun _ => ready i ph) (parameters_load p0) m.
Proof.
  intros Hr. unfold parameters_load, load64, load128. do 15 ends_at p0 184. by apply ends_ret.
Qed.

Lemma ends_parameters_save i ph m x : ready i ph m -> ends (fun _ => ready i ph) (parameters_save p0 x) m.
Proof.
  intros Hr. unfold parameters_save, store64, store128. do 14 ends_at p0 184. eapply (ends_store p0 184); [exact Hr | in_places | lia..].
Qed.

Lemma ends_returns_save i ph m v : ready i ph m -> ends (fun _ => ready i ph) (returns_save q0 v) m.
Proof.
  intros Hr. unfold returns_save, store64, store128. do 3 ends_at q0 48. eapply (ends_store q0 48); [exact Hr | in_places | lia..].
Qed.

Lemma ends_returns_load i ph m : ready i ph m -> ends (fun _ => ready i ph) (returns_load q0) m.
Proof. intros Hr. unfold returns_load, load64, load128. do 4 ends_at q0 48. by apply ends_ret. Qed.

Lemma ends_invoke n f x i ph m : f ∈ handler_code -> ready i ph m -> ends (fun _ => ready i ph) (invoke n f sp x) m.
Proof.
  intros Hf Hr. unfold invoke. ends_at (sp - 64) 64. destruct (lc_runs (hc_loop Hcalls) f (sp - 8) x i ph m Hf Hr) as (w & m' & E & Hr'). exists w, m'. split; [done|].
  split; [|done]. eapply (lc_code (hc_loop Hcalls)); [exact Hf | apply Hr | exact E].
Qed.

Lemma ends_call_hook k h ty i ph m : h ∈ handler_code -> ready i ph m -> ends (fun _ => ready i ph) (call_hook c sp td k h ty) m.
Proof.
  intros Hh Hr. unfold call_hook. case_match; [|by apply ends_invoke]. ends_at (td + 0x388) 8. ends_word handler_fields.
  ends_by ltac:(by apply ends_parameters_load). by apply ends_invoke.
Qed.

Lemma ends_run_hooks ph L2 : Forall (fun p => p.1 ∈ handler_code) L2 ->
  forall k i m, ready i ph m -> ends (fun _ n => exists j, ready j ph n) (run_hooks c sp td ph k L2) m.
Proof.
  induction 1 as [|[h ty] L2 Hh HL IH]; intros k i m Hr; cbn [run_hooks]; ends_by ltac:(by eapply (ends_index _ k)).
  - apply ends_ret. by exists k.
  - case_match; [by eapply IH|]. ends_by ltac:(by apply ends_call_hook). cbv zeta. case_match; [by eapply IH|]. apply ends_ret. by exists k.
Qed.

Lemma hooks_code : Forall (fun p => p.1 ∈ handler_code) L.
Proof. apply Forall_lookup. intros k [h ty] Hk. by eapply hook_code. Qed.

Lemma ends_hooked_call i m : ready i 0 m -> ends (fun _ n => exists j ph, ready j ph n) (hooked_call c sp td L) m.
Proof.
  intros Hr. unfold hooked_call. ends_word handler_fields. ends_by ltac:(by apply ends_parameters_load). ends_by ltac:(by eapply (ends_run _ _ 1)).
  ends_word bridge_load. ends_by ltac:(by apply ends_invoke; [left|]). ends_word handler_fields. ends_by ltac:(by apply ends_returns_save).
  ends_by ltac:(by eapply (ends_index _ (2 ^ 64 - 1))). eapply ends_bind; [by eapply (ends_run_hooks 1 L hooks_code)|].
  clear m Hr. intros r m [j Hr]. case_match; [apply ends_ret; by exists j, 1|]. ends_word handler_fields. ends_by ltac:(by apply ends_parameters_load).
  destruct (ends_run _ _ 1 _ Hr) as (u & n & E & Hn). exists u, n. split; [done|]. by exists j, 1.
Qed.

Lemma ends_hooked_body i ph m : ready i ph m -> ends (fun _ n => exists j ph', ready j ph' n) (hooked_body c sp td L) m.
Proof.
  intros Hr. unfold hooked_body. ends_by ltac:(by eapply (ends_run _ _ 0)). ends_by ltac:(by eapply (ends_index _ (2 ^ 64 - 1))).
  eapply ends_bind; [by eapply (ends_run_hooks 0 L hooks_code)|]. clear m Hr. intros r m [j Hr].
  case_match; [apply ends_ret; by exists j, 0 | by eapply ends_hooked_call].
Qed.

Lemma ends_hooked_enter x i ph m : ready i ph m -> ends (fun _ => ready i ph) (hooked_enter orig c sp x) m.
Proof.
  intros Hr. unfold hooked_enter, load64, store64. ends_at (sp - 64) 64. do 2 ends_at (orig + 16) 8. do 2 ends_at (orig + 184) 8.
  ends_word handler_fields. by apply ends_parameters_save.
Qed.

(** The words of the structure that are read at the end. *)
Lemma handler_ends i ph m : handler_state i ph m ->
  load64 (c + 24) m = Some (to0, m) /\ load64 (c + 32) m = Some (r120, m) /\ load64 (c + 48) m = Some (ep, m).
Proof.
  intros Hs. pose proof (hl_caller Hlay) as [H1 H2]. pose proof (hl_values Hlay) as [H3 _].
  repeat split; (eapply handler_load; [exact Hs | clear; unfold handler_words; set_solver | done]).
Qed.

(** Values as the return registers hold them. *)
Definition returns_held (v : returns) : returns :=
  Returns (wrap 64 (r_rax v)) (wrap 64 (r_rdx v)) (wrap 128 (r_xmm0 v)) (wrap 128 (r_xmm1 v)).

(** The next store of the end, kept with what it wrote. *)
Ltac ends_stack E :=
  match goal with Hr : ready ?i ?ph ?m |- ends _ (bind (store_bytes ?x (le_bytes ?w ?v)) _) ?m =>
    let n := fresh "m" in let Hn := fresh "Hr" in
    destruct (ends_store (sp - 64) 64 i ph m x v w Hr ltac:(in_places) ltac:(lia) ltac:(lia) ltac:(lia)) as ([] & n & E & Hn); clear Hr; rename Hn into Hr;
    rewrite (ends_bind_some _ _ _ _ _ _ E)
  end.

(** The next load, of a word that is known. *)
Ltac ends_load_by E := erewrite ends_bind_some by exact E.

(** The return address and the values survive the epilogue on the stack. *)
Lemma ends_hooked_return i ph m v :
  ready i ph m -> returns_load q0 m = Some (v, m) -> ends (fun r n => r = (to0, r120, returns_held v) /\ Q n) (hooked_return c sp) m.
Proof.
  intros Hr Ev. unfold hooked_return. destruct (handler_fields _ _ _ (proj1 Hr)) as (_ & F72 & _). ends_load_by F72. ends_load_by Ev.
  destruct (handler_ends _ _ _ (proj1 Hr)) as (F24 & _). ends_load_by F24. unfold store64, store128. ends_stack S0.
  destruct (handler_ends _ _ _ (proj1 Hr)) as (_ & F32 & _). ends_load_by F32. cbv zeta. set (t := sp - 8 - 48). ends_stack S1. ends_stack S2. ends_stack S3. ends_stack S4.
  destruct (handler_ends _ _ _ (proj1 Hr)) as (_ & _ & F48). ends_load_by F48. unfold invoke.
  destruct (ends_store (sp - 64) 64 i ph _ (t - 8) (return_address 6) 8 Hr ltac:(in_places) ltac:(lia) ltac:(lia) ltac:(lia)) as ([] & m6 & S6 & Hr6).
  destruct (hc_last Hcalls (two_parameters c 0) _ _ _ eq_refl Hr6) as (u & n & Eu & Hn & HQ).
  erewrite ends_bind_some; [|erewrite bind_some by exact S6; replace (t - 8) with (sp - 64) by lia; exact Eu].
  assert (forall a k l, t <= a -> a + Z.of_nat k <= sp -> mem_read (mem m6) a k = Some l -> mem_read (mem n) a k = Some l) as Hk
    by (intros a k l Ha Hl; by apply (same_range_read _ _ (sp - 56) sp); [|lia|]).
  assert (mem_read (mem n) (sp - 8) 8 = Some (le_bytes 8 to0)) as R0 by (apply Hk; [lia | lia | stored]).
  assert (mem_read (mem n) (t + 32) 16 = Some (le_bytes 16 (r_xmm1 v))) as R1 by (apply Hk; [lia | lia | stored]).
  assert (mem_read (mem n) (t + 16) 16 = Some (le_bytes 16 (r_xmm0 v))) as R2 by (apply Hk; [lia | lia | stored]).
  assert (mem_read (mem n) (t + 8) 8 = Some (le_bytes 8 (r_rdx v))) as R3 by (apply Hk; [lia | lia | stored]).
  assert (mem_read (mem n) (t + 0) 8 = Some (le_bytes 8 (r_rax v))) as R4 by (apply Hk; [lia | lia | stored]).
  erewrite ends_bind_some; [|unfold returns_load; erewrite (bind_some _ _ _ _ _ (load64_run _ _ _ R4)), (bind_some _ _ _ _ _ (load64_run _ _ _ R3)),
    (bind_some _ _ _ _ _ (load128_run _ _ _ R2)), (bind_some _ _ _ _ _ (load128_run _ _ _ R1)); reflexivity].
  ends_load_by (load64_run _ _ _ R0). apply ends_ret. split; [|done]. unfold returns_held. rewrite (le_val_word to0) by apply (hl_caller Hlay). by rewrite !le_val_bytes_wrap.
Qed.

Lemma handler_total s m i ph :
  regs s R11 = orig -> inside_handler s m -> ready i ph m ->
  exists m1 v fuel s', (do! hooked_enter orig c sp (parameter_registers s) in hooked_body c sp td L) m = Some (tt, m1) /\
    load64 (c + 72) m1 = Some (q0, m1) /\ returns_load q0 m1 = Some (v, m1) /\
    hooked_return c sp m1 = Some ((to0, r120, returns_held v), mach s') /\ run ps4PayloadFunctionHookHandler fuel Handler s = Some (to0, s') /\
    regs s' RSP = sp /\ regs s' R12 = r120 /\ Returns (regs s' RAX) (regs s' RDX) (xmms s' 0%nat) (xmms s' 1%nat) = returns_held v /\ Q (mach s').
Proof.
  intros HO Hi Hr. destruct (ends_hooked_enter (parameter_registers s) i ph m Hr) as ([] & m0 & E0 & Hr0). destruct (ends_hooked_body _ _ _ Hr0) as ([] & m1 & E1 & j & ph' & Hr1).
  destruct (ends_returns_load _ _ _ Hr1) as (v & n & Ev & _). pose proof (returns_load_same _ _ _ _ Ev). subst n.
  destruct (ends_hooked_return _ _ _ v Hr1 Ev) as (r & m2 & E2 & -> & HQ).
  destruct (handler_sim s m i ph to0 r120 (returns_held v) m2 HO Hi (proj1 Hr)) as (fuel & s' & R & <- & HS & H12 & Ha & Hd & Hx0 & Hx1).
  { unfold hooked. erewrite bind_some by exact E0. erewrite bind_some by exact E1. exact E2. }
  exists m1, v, fuel, s'. rewrite Ha, Hd, Hx0, Hx1. split; [by erewrite bind_some by exact E0|]. split; [apply (handler_fields _ _ _ (proj1 Hr1)) | done].
Qed.

(** C5. The handler of a hooked function, as it is assembled, ends, and does what
    the list of hooks says: it gives the lock of the hook's structure back,
    runs the hooks up to the first type of zero, the original function with
    the arguments the hooks left, unless a hook's result was negative, and the
    hooks for the way back; then it gets rid of the structure and returns to
    the caller with the values that were in it, the caller's stack and the
    caller's [r12]. A hook that gets the arguments of the function gets its
    own index in place of the fifth. *)
Theorem handler_runs_hooks s m i ph :
  regs s R11 = orig -> inside_handler s m -> ready i ph m ->
  exists m1 v fuel s', (do! hooked_enter orig c sp (parameter_registers s) in hooked_body c sp td L) m = Some (tt, m1) /\
    load64 (c + 72) m1 = Some (q0, m1) /\ returns_load q0 m1 = Some (v, m1) /\
    hooked_return c sp m1 = Some ((to0, r120, returns_held v), mach s') /\ run ps4PayloadFunctionHookHandler fuel Handler s = Some (to0, s') /\
    regs s' RSP = sp /\ regs s' R12 = r120 /\ Returns (regs s' RAX) (regs s' RDX) (xmms s' 0%nat) (xmms s' 1%nat) = returns_held v /\ Q (mach s').
Proof. apply handler_total. Qed.
End Simulation.

(** ** What a hook's result means *)

(** The result of a hook is compared in all 64 bits. A hook that returns the
    [int] -1, to keep the original function from being called, only does so
    when its upper 32 bits happen to be set too; with a zero-extended result
    the function is called. *)
Theorem hook_result_is_64_bits `{AbiCode} c sp td h ty L v m m1 :
  skipped 0 ty = false ->
  (do! store64 (c + 144) 0 in do! store64 (c + 120) (2 ^ 64 - 1) in do! store64 (c + 120) 0 in call_hook c sp td 0 h ty) m = Some (v, m1) ->
  (r_rax v = wrap 32 (-1) -> hooked_body c sp td ((h, ty) :: L) m = hooked_call c sp td ((h, ty) :: L) m1) /\
  (r_rax v = wrap 64 (-1) -> hooked_body c sp td ((h, ty) :: L) m = Some (tt, m1)).
Proof.
  intros Hsk E. apply bind_inv in E as ([] & m2 & E1 & E). apply bind_inv in E as ([] & m3 & E2 & E). apply bind_inv in E as ([] & m4 & E3 & E).
  assert (forall r, signed 64 (r_rax v) = r -> r <> 0 ->
    hooked_body c sp td ((h, ty) :: L) m = (if r <? 0 then ret tt else hooked_call c sp td ((h, ty) :: L)) m1) as Hr.
  { intros r Er Hz. unfold hooked_body. erewrite bind_some by exact E1. erewrite bind_some by exact E2. erewrite bind_some; [reflexivity|].
    cbn [run_hooks]. erewrite bind_some by exact E3. rewrite Hsk. erewrite bind_some by exact E. cbv zeta. rewrite Er. by rewrite (proj2 (Z.eqb_neq r 0) Hz). }
  split; intros Ev.
  - by rewrite (Hr (2 ^ 32 - 1)) by (rewrite ?Ev; done).
  - by rewrite (Hr (-1)) by (rewrite ?Ev; done).
Qed.

(** ** A hooked function on a machine *)

Lemma apart_from_intro A y n : Forall (fun p => disjoint_ranges y n p.1 8) A -> apart_from A y n.
Proof. rewrite Forall_forall. intros HA x v Hx. apply (HA _ Hx). Qed.

Lemma places_intro A (W : list (Z * Z)) :
  Forall (fun q => Forall (fun p => disjoint_ranges q.1 q.2 p.1 8) A) W -> forall y n, (y, n) ∈ W -> apart_from A y n.
Proof. rewrite Forall_forall. intros HW y n Hy. apply apart_from_intro, (HW _ Hy). Qed.

Section HandlerWitnesses.

(** Code that only returns: 0x100 the copy, 0x300 the sum of its arguments,
    0x220 the [int] -1, all else zero. *)
Definition pure_abi : AbiCode := {|
  abi_call f _ x := ret (Returns (if f =? 0x100 then 0x2000 else if f =? 0x300 then wrap 64 (gpr x 1 + gpr x 2) else if f =? 0x220 then wrap 32 (-1) else 0) 0 0 0);
  abi_scratch _ _ _ := 0xdead;
  abi_scratch_xmm _ _ _ := 0xbeef;
  return_address n := 0x8000 - Z.of_nat n |}.
#[local] Existing Instance pure_abi.

Definition hooked_hooks : list (Z * Z) := [(0x200, -1); (0x210, 2)].

(** The hook's structure at 0x1000, the copy at 0x2000. *)
Definition hooked_machine : machine :=
  booted [(0x1000, [0x100; 0x180; 1; 0; 0; 0; 0; 0; 0; 0; 0; 0; 0; 0; 0; 0; 0; 0; 0; 0; 0; 0; 0; 0] ≫= le_bytes 8);
          (0x2000, [0; 0; 0; 0x9000; 0x77; 0; 0x400; 0; 0x3000; 0x4000; 0; 0x300; 0; 0x6000; 0x6100; 0; 0; 0; 0] ≫= le_bytes 8);
          (0x3000, repeat 0 184); (0x4000, repeat 0 48); (0xffffff8000001388, repeat 0 8);
          (0x6000, [0x200; 0x210] ≫= le_bytes 8); (0x6100, [-1; 2; 0] ≫= le_bytes 8);
          (0x6f00, repeat 0 256); (0x7000, le_bytes 8 0x9000)] [] [].

Definition hooked_regs (r : reg) : Z :=
  match r with RDI => 5 | RSI => 7 | R11 => 0x1000 | R12 => 0x2000 | RSP => 0x7008 | _ => 0 end.
Definition hooked_processor : processor := Processor hooked_regs (fun _ => 0) None hooked_machine.

Lemma hooked_machine_layout : handler_layout 0x1000 0x2000 0x7008 0xffffff8000001000 0x6000 0x6100 0x3000 0x4000 0x300 0x400 0x9000 0x77 hooked_hooks.
Proof.
  split; [apply places_intro; vm_decide | apply apart_from_intro; vm_decide | apply apart_from_intro; vm_decide | | | | | |];
    unfold disjoint_ranges; try lia; vm_decide.
Qed.

Lemma hooked_machine_state : handler_state 0x2000 0xffffff8000001000 0x6000 0x6100 0x3000 0x4000 0x300 0x400 0x9000 0x77 hooked_hooks 0 0 hooked_machine.
Proof. split; [apply holds_intro; vm_decide | done]. Qed.

Lemma pure_abi_pure f s x m r m' : abi_call f s x m = Some (r, m') -> m' = m.
Proof. by intros [= _ <-]. Qed.

Lemma pure_abi_takes f s x y : gpr x 1 = gpr y 1 -> gpr x 2 = gpr y 2 -> abi_call f s x = abi_call f s y.
Proof. cbn. by intros -> ->. Qed.

Lemma hooked_machine_room : handler_room 0x1000 0x2000 0x7008 0xffffff8000001000 0x3000 0x4000 hooked_machine.
Proof.
  assert (Forall (fun q => writable_range hooked_machine q.1 (Z.to_nat q.2)) (handler_stores 0x1000 0x2000 0x7008 0xffffff8000001000 0x3000 0x4000)) as HF by vm_decide.
  rewrite Forall_forall in HF. intros y n Hy. apply (HF _ Hy).
Qed.

Lemma pure_abi_calls orig c sp td H T p0 q0 br ep to0 r120 L : ep <> 0x300 -> handler_calls orig c sp td H T p0 q0 br ep to0 r120 L (fun _ => True) (fun _ => True).
Proof.
  intros Hep. split.
  - split; [by intros f s x i ph m r m' _ Hs ->%pure_abi_pure | | apply Forall_true; intros p _ s x y; apply pure_abi_takes].
    intros f s x i ph m _ (_ & Hr & _). eexists _, m. by split.
  - done.
  - intros s x y _. cbn. by rewrite (proj2 (Z.eqb_neq ep 0x300) Hep).
  - intros x i ph m _ _. eexists _, m. split; [done | by split].
Qed.

(** The first hook gets (5, 7), the function returns their sum, and the second
    hook leaves that as it is. *)
Lemma handler_runs_hooks_witness :
  exists fuel s', run ps4PayloadFunctionHookHandler fuel Handler hooked_processor = Some (0x9000, s') /\ regs s' RSP = 0x7008 /\ regs s' R12 = 0x77.
Proof.
  destruct (handler_runs_hooks 0x1000 0x2000 0x7008 0xffffff8000001000 0x6000 0x6100 0x3000 0x4000 0x300 0x400 0x9000 0x77 hooked_hooks (fun _ => True) (fun _ => True)
    hooked_machine_layout) with (s := hooked_processor) (m := hooked_machine) (i := 0) (ph := 0) as (m1 & v & fuel & s' & _ & _ & _ & _ & R & HS & HR & _).
  - by apply pure_abi_calls.
  - done.
  - done.
  - split; [apply hooked_machine_state|]. split; [apply hooked_machine_room | done].
  - exists fuel, s'. exact (conj R (conj HS HR)).
Defined.
End HandlerWitnesses.
