(* ===== verification/HookCall.v ===== *)
(** * A call of a hooked function

    [common/kernel/source/payload/template/function_hook_prologue.s],
    instruction by instruction: a hooked function jumps there, a copy of the
    hook's structure is made under its lock, and the handler goes on with the
    caller's registers. Together with the handler of [FunctionHandler]: the
    call returns to the caller of the hooked function (HookEntry). *)

From stdpp Require Import base gmap list strings.
From S2P Require Import Prelude Errors Uthash Machine Cache CacheMap Reference KernelBase KernelMemory Symbol Words Template FunctionHook SystemCall HookHandler HookChain Assembly Ranges FunctionHandler.

(** ** The prologue *)

Inductive prologue_label := Prologue | PrologueLoop.

#[export] Instance prologue_label_eq_dec : EqDecision prologue_label.
Proof. solve_decision. Defined.

(** [arg]: what was patched into the first instruction. *)
Definition FunctionHookPrologue (arg : Z) : list (prologue_label * list (instr prologue_label)) :=
  [(Prologue, [MovI arg R11; LockInc 16 R11; Push R12]);
   (PrologueLoop,
     [MovI 1 R12; XchgM R12 184 R11; Test R12; Jne PrologueLoop; Pop R12; SubI 184 RSP] ++ save_registers RSP ++
     [Mov R11 RDI; Push R11; CallM 0 R11; Pop R11; LockInc 56 R11; Store R12 32 RAX; Mov RAX R12] ++ restore_registers RSP ++
     [AddI 184 RSP; PopM 24 R12; JmpM 8 R11])].

(** ** What it does when the lock is free *)

Section Specification.
Context `{AbiCode} (orig sp r12 : Z) (x : parameters).

Definition with_rdi (v : Z) : parameters := Parameters (<[1%nat := v]> (p_gpr x)) (p_xmm x).

(** The lock is taken and the registers are saved. *)
Definition prologue_enter : K unit :=
  let! n := load64 (orig + 16) in
  do! store64 (orig + 16) (wrap 64 (n + 1)) in
  do! store64 (sp - 8) r12 in
  let! l := load64 (orig + 184) in
  do! store64 (orig + 184) 1 in
  if l =? 0 then parameters_save (sp - 184) x else fault.

(** The copy is made, and takes the caller's [r12] and return address; the
    copy, the structure as the stack has it, the registers as they were
    restored, and the handler. *)
Definition prologue_copy : K (Z * Z * parameters * Z) :=
  do! store64 (sp - 184 - 8) orig in
  let! f := load64 (orig + 0) in
  let! v := invoke 22 f (sp - 184 - 8) (with_rdi orig) in
  let! o := load64 (sp - 184 - 8) in
  let! n := load64 (o + 56) in
  do! store64 (o + 56) (wrap 64 (n + 1)) in
  let c := r_rax v in
  do! store64 (c + 32) r12 in
  let! y := parameters_load (sp - 184) in
  let! to := load64 sp in
  do! store64 (c + 24) to in
  let! h := load64 (o + 8) in
  ret (c, o, y, h).
End Specification.

Section Run.
Context `{HA : AbiCode} (orig sp r12 : Z).
Hypothesis (Horig : 0 <= orig < 2 ^ 64) (Hr12 : 0 <= r12 < 2 ^ 64).
Hypothesis Hslot : disjoint_ranges (orig + 184) 8 (sp - 8) 8.

Notation pcode l := (code_from l (FunctionHookPrologue orig)).

#[local] Opaque load64 load128 store64 store128.

(** Behind the lock. *)
Definition prologue_tail : list (instr prologue_label) :=
  [Mov R11 RDI; Push R11; CallM 0 R11; Pop R11; LockInc 56 R11; Store R12 32 RAX; Mov RAX R12] ++ restore_registers RSP ++
  [AddI 184 RSP; PopM 24 R12; JmpM 8 R11].

Lemma prologue_enter_run s m x m1 :
  regs s RSP = sp -> regs s R12 = r12 -> mach s = m -> parameter_registers s = x -> prologue_enter orig sp r12 x m = Some (tt, m1) ->
  exists s', exec_list (pcode Prologue) s = exec_list prologue_tail s' /\ mach s' = m1 /\ regs s' R11 = orig /\ regs s' R12 = r12 /\
    regs s' RSP = sp - 184 /\ parameter_registers s' = x.
Proof.
  intros HS HR <- Hx E. unfold prologue_enter in E. take_load E n E1. apply bind_inv in E as ([] & m2 & E2 & E). apply bind_inv in E as ([] & m3 & E3 & E).
  take_load E l E4. apply bind_inv in E as ([] & m4 & E5 & E). destruct (Z.eqb_spec l 0) as [->|]; [|done].
  assert (load64 (sp - 8) m4 = Some (r12, m4)) as Ep.
  { rewrite (load64_run _ _ _ (store64_other _ _ _ _ _ (sp - 8) _ E5 Hslot (store64_word _ _ _ _ _ E3))), le_val_word by done. done. }
  eexists. split; [|split; [|split; [|split; [|split]]]].
  - change (pcode Prologue) with (MovI orig R11 :: LockInc 16 R11 :: Push R12 :: MovI 1 R12 :: XchgM R12 184 R11 :: Test R12 :: Jne PrologueLoop :: Pop R12 ::
      SubI 184 RSP :: save_registers RSP ++ prologue_tail).
    rewrite exec_MovI, (wrap_small 64 orig) by lia. erewrite (exec_add _ 1 16 R11); [|left; split; [clear; set_solver | done] | asm_simpl; exact E1 | asm_simpl; exact E2].
    erewrite exec_Push by (asm_simpl; rewrite HS, HR; exact E3). rewrite exec_MovI. erewrite exec_XchgM; [|asm_simpl; exact E4 | asm_simpl; exact E5].
    rewrite exec_Test. asm_simpl. erewrite exec_Jne by (by asm_simpl). change (signed 64 0 ?= 0) with Eq. cbv iota.
    erewrite exec_Pop by (asm_simpl; rewrite HS; exact Ep). rewrite exec_SubI.
    erewrite save_run; [reflexivity | reflexivity|]. asm_simpl. rewrite HS. replace (sp - 8 + 8 - 184) with (sp - 184) by lia.
    match goal with |- parameters_save _ ?y _ = _ => assert (y = x) as -> end; [|exact E].
    rewrite <- Hx. unfold parameter_registers. cbn [seq fmap list_fmap]. by asm_simpl.
  - by asm_simpl.
  - by asm_simpl.
  - by asm_simpl.
  - asm_simpl. rewrite HS. lia.
  - rewrite <- Hx. unfold parameter_registers. cbn [seq fmap list_fmap]. by asm_simpl.
Qed.

Lemma prologue_copy_run s m x c o y h m1 :
  regs s RSP = sp - 184 -> regs s R12 = r12 -> regs s R11 = orig -> mach s = m -> parameter_registers s = x ->
  prologue_copy orig sp r12 x m = Some ((c, o, y, h), m1) ->
  exists s', exec_list prologue_tail s = Some (Leave h, s') /\ mach s' = m1 /\ regs s' R11 = o /\ regs s' R12 = c /\ regs s' RSP = sp + 8 /\
    parameter_registers s' = y.
Proof.
  intros HS HR HO <- Hx E. unfold prologue_copy in E. apply bind_inv in E as ([] & m2 & E1 & E). take_load E f Ef. apply bind_inv in E as (v & m3 & Ev & E).
  take_load E o' Eo. take_load E n En. apply bind_inv in E as ([] & m4 & E4 & E). cbv zeta in E. apply bind_inv in E as ([] & m5 & E5 & E).
  apply bind_inv in E as (y' & m6 & Ey & E). pose proof (parameters_load_same _ _ _ _ Ey). subst m6. take_load E to Et. apply bind_inv in E as ([] & m6 & E6 & E).
  take_load E h' Eh. injection E as <- <- <- <- <-.
  set (fin := [AddI 184 RSP; PopM 24 R12; JmpM 8 R11] : list (instr prologue_label)).
  set (aft := [Pop R11; LockInc 56 R11; Store R12 32 RAX; Mov RAX R12] ++ restore_registers RSP ++ fin).
  set (s1 := set_reg RSP (sp - 184 - 8) (set_mach m2 (set_reg RDI orig s))).
  destruct (exec_CallM 0 R11 aft s1 f v m3) as (s2 & Ec & Hm2 & H12 & Hsp & Hax & _).
  { unfold s1. asm_simpl. rewrite HO. exact Ef. }
  { unfold s1. asm_simpl. match goal with |- context [abi_call _ _ ?y] => assert (y = with_rdi x orig) as -> end; [|exact Ev].
    rewrite <- Hx. unfold parameter_registers, with_rdi. cbn [seq fmap list_fmap p_gpr p_xmm insert list_insert]. by asm_simpl. }
  unfold s1 in H12, Hsp. asm_simpl in H12. asm_simpl in Hsp. rewrite HR in H12.
  set (s3 := set_reg R12 (r_rax v) (set_mach m5 (set_flag None (set_mach m4 (set_reg R11 o' (set_reg RSP (sp - 184 - 8 + 8) s2)))))).
  assert (exec_list prologue_tail s = exec_list (restore_registers RSP ++ fin) s3) as Ea.
  { change prologue_tail with (Mov R11 RDI :: Push R11 :: CallM 0 R11 :: aft). rewrite exec_Mov, HO.
    erewrite exec_Push by (asm_simpl; rewrite HS, HO; exact E1). asm_simpl. rewrite HS. fold s1. rewrite Ec. unfold aft. cbn [app].
    erewrite exec_Pop by (rewrite Hsp, Hm2; exact Eo). erewrite (exec_add _ 1 56 R11); [|left; split; [clear; set_solver | done] | asm_simpl; rewrite Hm2; exact En | asm_simpl; rewrite Hm2; exact E4].
    erewrite exec_Store by (asm_simpl; rewrite Hax, H12; exact E5). rewrite exec_Mov. asm_simpl. rewrite Hax, Hsp. reflexivity. }
  destruct (restore_run RSP fin s3 (sp - 184) y' m5) as (_ & s4 & Er & Hm4 & Hy & H124 & Hsp4 & H114); [by right | unfold s3; asm_simpl; lia | unfold s3; asm_simpl; exact Ey|].
  unfold s3 in Hm4, H124, Hsp4, H114. asm_simpl in Hm4. asm_simpl in H124. asm_simpl in Hsp4. asm_simpl in H114.
  eexists. split; [rewrite Ea, Er; unfold fin; rewrite exec_AddI|].
  - erewrite exec_PopM; [|done | asm_simpl; rewrite Hsp4, Hm4; replace (sp - 184 - 8 + 8 + 184) with sp by lia; exact Et | asm_simpl; rewrite H124, Hm4; exact E6].
    apply exec_JmpM. asm_simpl. rewrite H114. exact Eh.
  - asm_simpl. rewrite H124, H114, Hsp4. split; [done|]. split; [done|]. split; [done|]. split; [lia|]. rewrite <- Hy. unfold parameter_registers. cbn [seq fmap list_fmap]. by asm_simpl.
Qed.

(** The prologue, as it is assembled, with the lock free. *)
Lemma prologue_sim s m x c o y h m1 m2 :
  regs s RSP = sp -> regs s R12 = r12 -> mach s = m -> parameter_registers s = x -> prologue_enter orig sp r12 x m = Some (tt, m1) ->
  prologue_copy orig sp r12 x m1 = Some ((c, o, y, h), m2) ->
  exists s', run (FunctionHookPrologue orig) 1 Prologue s = Some (h, s') /\ mach s' = m2 /\ regs s' R11 = o /\ regs s' R12 = c /\ regs s' RSP = sp + 8 /\
    parameter_registers s' = y.
Proof.
  intros HS HR Hm Hx E1 E2. destruct (prologue_enter_run s m x m1 HS HR Hm Hx E1) as (s1 & R1 & Hm1 & HO1 & HR1 & HS1 & Hx1).
  destruct (prologue_copy_run s1 m1 x c o y h m2 HS1 HR1 HO1 Hm1 Hx1 E2) as (s2 & R2 & Hx2). exists s2. split; [|done].
  cbn [run]. erewrite bind_some by (rewrite R1; exact R2). done.
Qed.
End Run.

(** ** Registers through memory *)

(** Registers hold 64 and 128 bits. *)
Definition parameters_ok (x : parameters) : Prop :=
  length (p_gpr x) = 7%nat /\ length (p_xmm x) = 8%nat /\ Forall (fun v => 0 <= v < 2 ^ 64) (p_gpr x) /\ Forall (fun v => 0 <= v < 2 ^ 128) (p_xmm x).

Lemma parameters_save_reads p x m m1 :
  parameters_save p x m = Some (tt, m1) ->
  (forall i : nat, (i < 7)%nat -> mem_read (mem m1) (p + 8 * Z.of_nat i) 8 = Some (le_bytes 8 (gpr x i))) /\
  (forall i : nat, (i < 8)%nat -> mem_read (mem m1) (p + (56 + 16 * Z.of_nat i)) 16 = Some (le_bytes 16 (xmm x i))).
Proof.
  unfold parameters_save, store128, store64. intros E.
  do 14 (let n := fresh "m" in let F := fresh "F" in apply bind_inv in E as ([] & n & F & E)).
  split; intros i Hi; (do 7 (destruct i as [|i]; [stored|])); [lia|]. destruct i as [|i]; [stored | lia].
Qed.

Lemma gpr_word x i : parameters_ok x -> le_val (le_bytes 8 (gpr x i)) = gpr x i.
Proof.
  intros (_ & _ & Hg & _). apply le_val_word. unfold gpr. destruct (p_gpr x !! i) as [v|] eqn:Ev; cbn; [|lia]. by apply (Forall_lookup_1 _ _ _ _ Hg Ev).
Qed.

Lemma xmm_word x i : parameters_ok x -> le_val (le_bytes 16 (xmm x i)) = xmm x i.
Proof.
  intros (_ & _ & _ & Hx). rewrite le_val_bytes. apply Z.mod_small. unfold xmm. destruct (p_xmm x !! i) as [v|] eqn:Ev; cbn; [|lia].
  by apply (Forall_lookup_1 _ _ _ _ Hx Ev).
Qed.

Lemma parameters_words x : parameters_ok x ->
  x = Parameters [gpr x 0; gpr x 1; gpr x 2; gpr x 3; gpr x 4; gpr x 5; gpr x 6] [xmm x 0; xmm x 1; xmm x 2; xmm x 3; xmm x 4; xmm x 5; xmm x 6; xmm x 7].
Proof.
  destruct x as [g z]. intros (Hg & Hz & _). cbn [p_gpr p_xmm] in *.
  do 7 (destruct g as [|? g]; [done|]). destruct g; [|done]. do 8 (destruct z as [|? z]; [done|]). by destruct z.
Qed.

(** The bytes of the parameter registers, as [Ps4RegisterParameters] lays them out. *)
Definition parameters_at (p : Z) (x : parameters) (m : machine) : Prop :=
  (forall i : nat, (i < 7)%nat -> mem_read (mem m) (p + 8 * Z.of_nat i) 8 = Some (le_bytes 8 (gpr x i))) /\
  (forall i : nat, (i < 8)%nat -> mem_read (mem m) (p + (56 + 16 * Z.of_nat i)) 16 = Some (le_bytes 16 (xmm x i))).

Lemma parameters_at_load p x m : parameters_ok x -> parameters_at p x m -> parameters_load p m = Some (x, m).
Proof.
  intros Hok [Hg Hx].
  assert (forall i : nat, (i < 7)%nat -> load64 (p + 8 * Z.of_nat i) m = Some (gpr x i, m)) as Lg.
  { intros i Hi. erewrite load64_run by (by apply Hg). by rewrite gpr_word. }
  assert (forall i : nat, (i < 8)%nat -> load128 (p + (56 + 16 * Z.of_nat i)) m = Some (xmm x i, m)) as Lx.
  { intros i Hi. erewrite load128_run by (by apply Hx). by rewrite xmm_word. }
  unfold parameters_load. let rec go L n k := lazymatch k with O => idtac | S ?k' => rewrite (bind_some _ _ _ _ _ (L n ltac:(lia))); go L (S n) k' end in
    go Lg 0%nat 7%nat; go Lx 0%nat 8%nat.
  unfold ret. do 2 f_equal. by rewrite <- (parameters_words x Hok).
Qed.

Lemma parameters_at_same p x m m' : parameters_at p x m -> same_range m m' p (p + 184) -> parameters_at p x m'.
Proof. intros [Hg Hx] Hs. split; intros i Hi; (eapply same_range_read; [exact Hs | lia | lia |]); auto. Qed.

(** Saved parameter registers are read back as they were, from any memory
    that still has the bytes. *)
Lemma parameters_reload p x m m1 m2 :
  parameters_ok x -> parameters_save p x m = Some (tt, m1) -> same_range m1 m2 p (p + 184) -> parameters_load p m2 = Some (x, m2).
Proof. intros Hok E Hs. apply parameters_at_load; [done|]. eapply parameters_at_same; [exact (parameters_save_reads _ _ _ _ E) | exact Hs]. Qed.

Lemma parameters_save_other p x m m1 a b :
  parameters_save p x m = Some (tt, m1) -> disjoint_ranges p 184 a (b - a) -> same_range m m1 a b.
Proof.
  unfold parameters_save, store128, store64. intros E Hd.
  do 14 (let n := fresh "m" in let F := fresh "F" in apply bind_inv in E as ([] & n & F & E);
    apply (same_range_store _ _ _ _ _ a b) in F; [|rewrite length_le_bytes; unfold disjoint_ranges in *; lia]).
  apply (same_range_store _ _ _ _ _ a b) in E; [|rewrite length_le_bytes; unfold disjoint_ranges in *; lia].
  do 14 (eapply same_range_trans; [eassumption|]). exact E.
Qed.

(** ** A caller *)

Definition caller_regs (r : reg) : Z := match r with RDI => 5 | RSI => 7 | R12 => 0x77 | RSP => 0x7000 | _ => 0 end.
Definition caller_parameters : parameters := Parameters [0; 5; 7; 0; 0; 0; 0] (repeat 0 8).
