(* ===== verification/HookEntry.v ===== *)
(** * From a hook's structure to its handler

    A function whose structure stands for a list of hooks, as
    [ps4KernelFunctionHookAdd] makes it (HookList), is called: the prologue
    runs, [ps4PayloadFunctionHookArgumentClone] (HookClone) makes the copy, and
    the handler starts in a state where it performs that list
    (FunctionHandler). *)

From stdpp Require Import base gmap list strings.
From S2P Require Import Prelude Errors Uthash Machine Cache CacheMap Reference KernelBase KernelMemory Symbol Words Template FunctionHook HookList SystemCall HookHandler HookChain HookClone Assembly Ranges HookDestroy FunctionHandler HookCall.

(** The next store of a sequence: [W] says what was written so far, [Hw] that
    the range is writable. *)
Ltac store_step W Hw :=
  match goal with
  | |- exists m', bind (store_bytes ?x ?l) ?k ?m = Some _ /\ _ =>
      let m1 := fresh "m" in let E := fresh "E" in let W1 := fresh "W" in
      destruct (wrote_store _ _ m x l (wrote_writable _ _ _ _ _ _ W Hw)) as (m1 & E & W1); [lia | rewrite length_le_bytes; lia|];
      rewrite (bind_some _ _ _ _ _ E); apply (wrote_trans _ _ _ _ _ W) in W1; clear E W; rename W1 into W
  end.

Lemma parameters_save_runs p x m : writable_range m p 184 -> exists m', parameters_save p x m = Some (tt, m') /\ wrote p 184 m m'.
Proof.
  intros Hw. unfold parameters_save, store64, store128. pose proof (wrote_refl p 184 m) as W. do 14 store_step W Hw.
  match goal with |- exists m', store_bytes ?x ?l ?n = _ /\ _ => destruct (wrote_store p 184 n x l (wrote_writable _ _ _ _ _ _ W Hw)) as (m' & E & W') end;
    [lia | rewrite length_le_bytes; lia|]. exists m'. split; [exact E | exact (wrote_trans _ _ _ _ _ W W')].
Qed.

(** ** The structure while the prologue runs *)

Section Object.
Context (arg sp H T : Z) (L : list (Z * Z)) (hs ts : list Z).

(** The structure stands for its list, and a stack of 26 words, apart from it,
    is there: 25 below [sp], and the return address. *)
Record stands (F : list Z) (m : machine) : Prop := Stands {
  stands_object : hook_object m arg F L;
  stands_arrays : arrays m arg F L H T hs ts;
  stands_stack : writable_range m (sp - 200) 208;
  stands_apart x : in_block (sp - 200) 208 x -> ~ object_owns m arg F x
}.

Lemma stands_words F m : stands F m -> words m arg F.
Proof. intros S. apply (stands_arrays _ _ S). Qed.

Lemma stands_disjoint F m : stands F m -> disjoint_ranges arg 192 (sp - 200) 208.
Proof.
  intros S. pose proof (object_block _ _ _ _ (stands_object _ _ S)) as Hb. unfold disjoint_ranges.
  destruct (Z.le_gt_cases (arg + 192) (sp - 200)), (Z.le_gt_cases (sp - 200 + 208) arg); try lia. exfalso.
  apply (stands_apart _ _ S (Z.max arg (sp - 200))); [unfold in_block; lia|]. exists arg, 192. split; [by left|]. split; [done | unfold in_block; lia].
Qed.

Lemma owns_same m m' F F' x :
  allocs m' = allocs m -> F' !! 13%nat = F !! 13%nat -> F' !! 14%nat = F !! 14%nat -> object_owns m' arg F' x -> object_owns m arg F x.
Proof. intros Ea E1 E2 (a & n & Ha & Hn & Hx). exists a, n. rewrite Ea, E1, E2 in *. done. Qed.

Lemma stands_wrote F m m' : stands F m -> wrote (sp - 200) 208 m m' -> stands F m'.
Proof.
  intros S W. pose proof (wrote_rest _ _ _ _ W) as R. pose proof S as [Ho Ha Hw Hx].
  assert (allocs m' = allocs m /\ text m' = text m) as [Ea Et] by (rewrite R; done).
  assert (blocks_ok m') as Hb by (rewrite R; apply blocks_ok_mapped; [apply Ho | intros x; apply (wrote_mapped _ _ _ _ W)]).
  assert (forall x b, object_owns m arg F x -> mem m !! x = Some b -> mem m' !! x = Some b) as Hk.
  { intros x b Hown Hm. rewrite (wrote_other _ _ _ _ W); [done|]. intros Hin. by apply (Hx x). }
  split; [apply (hook_object_kept m); done || by rewrite Ea | apply (arrays_kept m); done || by rewrite Ea | by eapply wrote_writable|].
  intros x Hin Hown. apply (Hx x Hin). by eapply owns_same.
Qed.

Lemma stands_put F m i v :
  stands F m -> (i < 24)%nat -> i <> 13%nat -> i <> 14%nat -> i <> 16%nat -> i <> 17%nat -> 0 <= v < 2 ^ 64 ->
  exists m', store64 (arg + 8 * Z.of_nat i) v m = Some (tt, m') /\ stands (<[i := v]> F) m' /\ wrote arg 192 m m'.
Proof.
  intros S Hi N1 N2 N3 N4 Hv. pose proof S as [Ho Ha Hw Hx]. pose proof Ho as [Hb Hlen Hblk Hpos Hcnt Hnz _]. pose proof Ha as [Htr FH FT FS Els Hsz AH AT Hap Eh Et].
  destruct (trio_store_field m arg F H hs T ts i v Htr ltac:(lia) Hv) as [E Htr'].
  destruct (wrote_store64 arg 192 m (arg + 8 * Z.of_nat i) v) as (m' & E' & W); [apply (words_writable m arg F); [apply Htr | lia | rewrite Hlen; lia] | lia | lia|].
  rewrite E in E'. injection E' as <-. eexists. split; [exact E|]. split; [|done]. split; [| |by eapply wrote_writable|].
  - split; try done; [by apply blocks_put | by rewrite length_insert | by rewrite list_lookup_insert_ne|].
    exists H, T, hs, ts. split; try done; by rewrite list_lookup_insert_ne.
  - split; try done; by rewrite list_lookup_insert_ne.
  - intros x Hin Hown. apply (Hx x Hin). eapply owns_same; [| | |exact Hown]; [done | by rewrite list_lookup_insert_ne..].
Qed.

Lemma stands_stack64 F m x v :
  stands F m -> sp - 200 <= x -> x + 8 <= sp + 8 -> exists m', store64 x v m = Some (tt, m') /\ stands F m' /\ wrote (sp - 200) 208 m m'.
Proof.
  intros S H1 H2. destruct (wrote_store64 (sp - 200) 208 m x v (stands_stack _ _ S) H1 ltac:(lia)) as (m' & E & W).
  exists m'. split; [done|]. split; [by eapply stands_wrote | done].
Qed.

Lemma stands_field F m i v : stands F m -> F !! i = Some v -> load64 (arg + 8 * Z.of_nat i) m = Some (v, m).
Proof. intros S. apply words_load. by apply stands_words. Qed.
End Object.

Section Entry.
Context `{HB : AbiCode} `{HC : KernelCode} `{HA : KernelAllocator} `{HL : !KernelAllocatorLaws HA} `{HR : !KernelRoom HA}.
Context (arg sp H T : Z) (L : list (Z * Z)) (hs ts : list Z).
Context (m : machine) (F : list Z) (x : parameters) (to r12 fc hd br ep f mt : Z).
Notation standing := (stands arg sp H T L hs ts).

Hypothesis Hstands : standing F m.
Hypothesis Hto : load64 sp m = Some (to, m).
Hypothesis (Hx : parameters_ok x) (Hr12 : 0 <= r12 < 2 ^ 64) (Hret : 0 <= to < 2 ^ 64) (Harg : arg < 2 ^ 64).
(** The lock is free; the clone, the handler, the epilogue, the bridge and the
    allocator. *)
Hypothesis (Hlock : F !! 23%nat = Some 0) (Hfc : F !! 0%nat = Some fc) (Hhd : F !! 1%nat = Some hd) (Hep : F !! 6%nat = Some ep) (Hbr : F !! 11%nat = Some br).
Hypothesis (Hf : F !! 20%nat = Some f) (Hmt : F !! 22%nat = Some mt).

Lemma entry_field i : (i < 24)%nat -> exists v, F !! i = Some v.
Proof. intros Hi. apply lookup_lt_is_Some_2. by rewrite (object_length _ _ _ _ (stands_object _ _ _ _ _ _ _ _ _ Hstands)). Qed.

(** The structure behind the lock: one more entry, and the lock taken. *)
Definition locked_fields (e : Z) : list Z := <[23%nat := 1]> (<[2%nat := wrap 64 (e + 1)]> F).

Lemma entry_locks :
  exists e m0 m1, prologue_enter arg sp r12 x m = Some (tt, m1) /\ standing (locked_fields e) m1 /\ same_shape m m1 /\
    parameters_save (sp - 184) x m0 = Some (tt, m1) /\ load64 sp m1 = Some (to, m1).
Proof.
  pose proof (stands_disjoint _ _ _ _ _ _ _ _ _ Hstands) as Hd. destruct (entry_field 2 ltac:(lia)) as [e He].
  destruct (stands_put _ _ _ _ _ _ _ F m 2 (wrap 64 (e + 1)) Hstands) as (mA & E1 & SA & WA); [lia | done | done | done | done | by apply wrap_bound|].
  destruct (stands_stack64 _ _ _ _ _ _ _ _ mA (sp - 8) r12 SA) as (mB & E2 & SB & WB); [lia | lia|].
  destruct (stands_put _ _ _ _ _ _ _ _ mB 23 1 SB) as (mC & E3 & SC & WC); [lia | done | done | done | done | lia|].
  destruct (parameters_save_runs (sp - 184) x mC) as (m1 & E4 & W1); [apply (writable_range_sub mC (sp - 200) 208); [apply SC | lia | lia]|].
  assert (wrote (sp - 200) 208 mC m1) as W1'.
  { split; [apply W1 | intros y Hy; apply (wrote_other _ _ _ _ W1); unfold in_block in *; lia | apply W1]. }
  exists e, mC, m1. split; [|split; [by eapply stands_wrote | split; [|split; [done|]]]].
  - unfold prologue_enter. erewrite bind_some by exact (stands_field _ _ _ _ _ _ _ _ _ 2 e Hstands He). erewrite bind_some by exact E1.
    erewrite bind_some by exact E2. erewrite bind_some; [|eapply (stands_field _ _ _ _ _ _ _ _ _ 23 0 SB); by rewrite list_lookup_insert_ne].
    erewrite bind_some by exact E3. exact E4.
  - eapply same_shape_trans; [by eapply wrote_shape|]. eapply same_shape_trans; [by eapply wrote_shape|].
    eapply same_shape_trans; [by eapply wrote_shape | by eapply wrote_shape].
  - eapply (same_range_load64 m _ sp (sp + 8)); [|lia | lia | exact Hto]. unfold disjoint_ranges in Hd.
    eapply same_range_trans; [eapply wrote_range; [exact WA | unfold disjoint_ranges; lia]|].
    eapply same_range_trans; [eapply same_range_store64; [exact E2 | unfold disjoint_ranges; lia]|].
    eapply same_range_trans; [eapply wrote_range; [exact WC | unfold disjoint_ranges; lia]|].
    eapply wrote_range; [exact W1 | unfold disjoint_ranges; lia].
Qed.

(** The code at [fc] is the clone, and the allocator is the kernel's. *)
Hypothesis Hclone : forall s z n c n', gpr z 1 = arg -> ps4PayloadFunctionHookArgumentClone arg n = Some (c, n') ->
  exists v, abi_call fc s z n = Some (v, n') /\ r_rax v = c.
Hypothesis Hmalloc : forall n n0, code_call f [n; mt; Z.lor M_ZERO M_WAITOK] n0 = malloc n n0.
Hypothesis Hroom : clone_room (length hs) <= kroom m.

(** The copy while the handler gets it: the caller's address and its [r12]. *)
Definition handed_fields (e h t a r : Z) : list Z := <[3%nat := to]> (<[4%nat := r12]> (clone_fields (locked_fields e) h t a r)).

Lemma locked_other e i : i <> 2%nat -> i <> 23%nat -> locked_fields e !! i = F !! i.
Proof. intros. unfold locked_fields. by rewrite !list_lookup_insert_ne. Qed.

(** What is mapped before the call is apart from the copy. *)
Lemma grown_disjoint n B n' p l y (k : nat) : grown n B n' -> (p, l) ∈ B -> writable_range n y k -> (0 < k)%nat -> disjoint_ranges p (8 * Z.of_nat (length l)) y (Z.of_nat k).
Proof.
  intros G Hp Hw Hk. destruct (grown_words _ _ _ G p l Hp) as (_ & _ & Hl). rewrite writable_range_iff in Hw.
  apply (block_mapped_disjoint n); [| |lia|lia].
  - intros z Hz. unfold in_block in Hz. destruct (Hw (Z.to_nat (z - y)) ltac:(lia)) as [Hm _]. by replace (y + Z.of_nat (Z.to_nat (z - y))) with z in Hm by lia.
  - intros z [b Hb] Hz. by rewrite (grown_new _ _ _ G p l z Hp Hz) in Hb.
Qed.

Lemma clone_keys n F0 c h t a r n' : grown n (clone_blocks F0 c h t a r hs ts) n' -> NoDup [r; a; t; h; c].
Proof. intros G. exact (grown_nodup _ _ _ G). Qed.

(** Mapped memory stays when the copy is made. *)
Lemma grown_range n B n' y z : grown n B n' -> (forall w, y <= w < z -> is_Some (mem n !! w)) -> same_range n n' y z.
Proof. intros G Hm w Hw. destruct (Hm w Hw) as [b Hb]. rewrite Hb. by apply (grown_kept n B). Qed.

(** Mapped stack stays as well. *)
Lemma stands_mapped F0 n w : standing F0 n -> sp - 200 <= w < sp + 8 -> is_Some (mem n !! w).
Proof.
  intros S Hw. pose proof (stands_stack _ _ _ _ _ _ _ _ _ S) as Hs. rewrite writable_range_iff in Hs.
  destruct (Hs (Z.to_nat (w - (sp - 200))) ltac:(lia)) as [Hm _]. by replace (sp - 200 + Z.of_nat (Z.to_nat (w - (sp - 200)))) with w in Hm by lia.
Qed.

(** Where the blocks of the copy lie: apart from each other, from the structure
    and from the stack. *)
Record copy_apart (c h t a r : Z) : Prop := CopyApart {
  apart_copy_hooks : disjoint_ranges c 192 h (8 * Z.of_nat (length hs));
  apart_copy_types : disjoint_ranges c 192 t (8 * Z.of_nat (length ts));
  apart_old p n : (p, n) ∈ [(c, 192); (h, 8 * Z.of_nat (length hs)); (t, 8 * Z.of_nat (length ts))] ->
    disjoint_ranges p n arg 192 /\ disjoint_ranges p n (sp - 200) 208 /\ disjoint_ranges p n a 184 /\ disjoint_ranges p n r 48;
  apart_bounds : 0 < c < 2 ^ 64 /\ 0 < h < 2 ^ 64 /\ 0 < t < 2 ^ 64 /\ 0 < a < 2 ^ 64 /\ 0 < r < 2 ^ 64
}.

Lemma copy_in F0 c h t a r p n :
  length F0 = 24%nat -> (p, n) ∈ [(c, 192); (h, 8 * Z.of_nat (length hs)); (t, 8 * Z.of_nat (length ts))] ->
  exists l, (p, l) ∈ clone_blocks F0 c h t a r hs ts /\ n = 8 * Z.of_nat (length l) /\ (p = c \/ p = h \/ p = t).
Proof.
  intros Hl. rewrite !elem_of_cons, elem_of_nil. intros [[= -> ->]|[[= -> ->]|[[= -> ->]|[]]]].
  - exists (clone_fields F0 h t a r). split; [clear; unfold clone_blocks; set_solver|]. split; [unfold clone_fields; by rewrite !length_insert, Hl | by left].
  - exists hs. split; [clear; unfold clone_blocks; set_solver|]. split; [done | right; by left].
  - exists ts. split; [clear; unfold clone_blocks; set_solver|]. split; [done | right; by right].
Qed.

Lemma grown_copy_apart F0 n c h t a r n' : standing F0 n -> grown n (clone_blocks F0 c h t a r hs ts) n' -> copy_apart c h t a r.
Proof.
  intros S G. pose proof (stands_words _ _ _ _ _ _ _ _ _ S) as W. assert (length F0 = 24%nat) as Hl by apply (stands_object _ _ _ _ _ _ _ _ _ S).
  pose proof (clone_keys _ _ _ _ _ _ _ _ G) as Hn. rewrite !NoDup_cons, !not_elem_of_cons in Hn.
  destruct Hn as ((Rra & Rrt & Rrh & Rrc & _) & (Rat & Rah & Rac & _) & (Rth & Rtc & _) & (Rhc & _) & _).
  assert ((a, repeat 0 23) ∈ clone_blocks F0 c h t a r hs ts /\ (r, repeat 0 6) ∈ clone_blocks F0 c h t a r hs ts) as [Ba Br] by (clear; unfold clone_blocks; set_solver).
  destruct (copy_in F0 c h t a r c 192 Hl) as (FF & Bc & Ec & _); [clear; set_solver|].
  destruct (copy_in F0 c h t a r h (8 * Z.of_nat (length hs)) Hl) as (l1 & Bh & Eh & _); [clear; set_solver|]. destruct (copy_in F0 c h t a r t (8 * Z.of_nat (length ts)) Hl) as (l2 & Bt & Et & _); [clear; set_solver|].
  split.
  - rewrite Ec, Eh. by apply (grown_apart _ _ _ _ _ _ _ G Bc Bh), not_eq_sym.
  - rewrite Ec, Et. by apply (grown_apart _ _ _ _ _ _ _ G Bc Bt), not_eq_sym.
  - intros p k Hp. destruct (copy_in F0 c h t a r p k Hl Hp) as (l & Bp & -> & Hpc).
    pose proof (grown_old_apart _ _ _ _ _ _ _ G Bp W ltac:(lia)) as D1. rewrite Hl in D1.
    assert (p <> a /\ p <> r) as [Na Nr] by (destruct Hpc as [->|[->| ->]]; split; done || by apply not_eq_sym).
    split; [exact D1|]. split; [apply (grown_disjoint _ _ _ _ _ (sp - 200) 208 G Bp); [apply S | lia]|].
    split; [exact (grown_apart _ _ _ _ _ _ _ G Bp Ba Na) | exact (grown_apart _ _ _ _ _ _ _ G Bp Br Nr)].
  - repeat split; by apply (grown_words _ _ _ G _ _ Bc) || apply (grown_words _ _ _ G _ _ Bh) || apply (grown_words _ _ _ G _ _ Bt) ||
      apply (grown_words _ _ _ G _ _ Ba) || apply (grown_words _ _ _ G _ _ Br).
Qed.

(** The call of the clone. *)
Lemma entry_cloned e m1 :
  standing (locked_fields e) m1 -> same_shape m m1 ->
  exists c h t a r v m3 m4,
    (do! store64 (sp - 184 - 8) arg in let! f0 := load64 (arg + 0) in invoke 22 f0 (sp - 184 - 8) (with_rdi x arg)) m1 = Some (v, m4) /\ r_rax v = c /\
    same_shape m m3 /\ standing (locked_fields e) m3 /\ grown m3 (clone_blocks (locked_fields e) c h t a r hs ts) m4 /\
    same_range m1 m4 (sp - 184) (sp + 8) /\ load64 (sp - 184 - 8) m4 = Some (arg, m4).
Proof.
  intros S1 M1. assert (0 < arg) as Hpos by apply (stands_object _ _ _ _ _ _ _ _ _ S1).
  destruct (stands_stack64 _ _ _ _ _ _ _ _ m1 (sp - 184 - 8) arg S1) as (mA & EA & SA & WA); [lia | lia|].
  destruct (stands_stack64 _ _ _ _ _ _ _ _ mA (sp - 184 - 8 - 8) (return_address 22) SA) as (m3 & E3 & S3 & W3); [lia | lia|].
  assert (same_shape m m3) as M3 by (eapply same_shape_trans; [exact M1 | eapply same_shape_trans; by eapply wrote_shape]).
  pose proof (same_shape_room m m3 M3) as Hr3.
  destruct (clone_run m3 arg f mt (locked_fields e)) with (L := L) (H := H) (T := T) (hs := hs) (ts := ts) as (c & h & t & a & r & m4 & E4 & G & _);
    [by apply stands_words in S3 | by rewrite locked_other | by rewrite locked_other | done | apply S3 | apply S3 | lia |].
  destruct (Hclone (sp - 184 - 8 - 8) (with_rdi x arg) m3 c m4) as (v & Ev & Hv); [|done|].
  { unfold gpr, with_rdi. cbn [p_gpr]. by rewrite list_lookup_insert_eq by (rewrite (proj1 Hx); lia). }
  assert (forall y, sp - 200 <= y -> same_range m3 m4 y (sp + 8)) as R4 by (intros y Hy; eapply grown_range; [exact G | intros w Hw; apply (stands_mapped _ _ _ S3); lia]).
  exists c, h, t, a, r, v, m3, m4. split; [|split; [done | split; [done | split; [done | split; [done | split]]]]].
  - erewrite bind_some by exact EA. erewrite bind_some; [|apply (stands_field _ _ _ _ _ _ _ _ _ 0 fc SA); by rewrite locked_other].
    unfold invoke. erewrite bind_some by exact E3. exact Ev.
  - eapply same_range_trans; [eapply same_range_store64; [exact EA | unfold disjoint_ranges; lia]|].
    eapply same_range_trans; [eapply same_range_store64; [exact E3 | unfold disjoint_ranges; lia]|]. apply R4. lia.
  - pose proof (store64_load64 _ _ _ _ _ EA) as LA. rewrite wrap_small in LA by lia. eapply (same_range_load64 mA _ (sp - 184 - 8) (sp + 8)); [|lia | lia | exact LA].
    eapply same_range_trans; [eapply same_range_store64; [exact E3 | unfold disjoint_ranges; lia]|]. apply R4. lia.
Qed.

(** The stores behind it: the call counted, the caller's [r12] and address in
    the copy. *)
Lemma entry_handed e c h t a r m3 m4 :
  standing (locked_fields e) m3 -> grown m3 (clone_blocks (locked_fields e) c h t a r hs ts) m4 -> copy_apart c h t a r ->
  exists k m5 m6 m7, load64 (arg + 56) m4 = Some (k, m4) /\ store64 (arg + 56) (wrap 64 (k + 1)) m4 = Some (tt, m5) /\
    store64 (c + 32) r12 m5 = Some (tt, m6) /\ store64 (c + 24) to m6 = Some (tt, m7) /\ load64 (arg + 8) m7 = Some (hd, m7) /\
    same_range m4 m6 (sp - 184) (sp + 8) /\ words m7 c (handed_fields e h t a r) /\ words m7 h hs /\ words m7 t ts /\ curthread m7 = curthread m4 /\
    (forall y n, writable_range m4 y n -> writable_range m7 y n) /\ blocks_ok m7 /\ allocs m7 = allocs m4.
Proof.
  intros S3 G [Dh Dt Dold _]. set (F1 := locked_fields e) in *. set (FF := clone_fields F1 h t a r).
  assert (length F1 = 24%nat) as Hlen by apply (stands_object _ _ _ _ _ _ _ _ _ S3). assert (length FF = 24%nat) as HFF by (unfold FF, clone_fields; by rewrite !length_insert).
  destruct (Dold c 192) as (Dc & Ds & _); [clear; set_solver|]. destruct (Dold h (8 * Z.of_nat (length hs))) as (Dah & _); [clear; set_solver|].
  destruct (Dold t (8 * Z.of_nat (length ts))) as (Dat & _); [clear; set_solver|]. pose proof (stands_disjoint _ _ _ _ _ _ _ _ _ S3) as Hd.
  assert (words m4 c FF /\ words m4 h hs /\ words m4 t ts) as (Wc & Wh & Wt) by (split; [|split]; apply (grown_words _ _ _ G); unfold FF, clone_blocks; clear; set_solver).
  pose proof (grown_old_words _ _ _ _ _ G (stands_words _ _ _ _ _ _ _ _ _ S3)) as W4F.
  unfold disjoint_ranges in Hd, Dh, Dt, Dc, Dah, Dat, Ds. destruct (lookup_lt_is_Some_2 F1 7 ltac:(lia)) as [k Hk].
  destruct (words_store m4 arg F1 7 (wrap 64 (k + 1)) W4F ltac:(lia) ltac:(by apply wrap_bound)) as [E5 W5F].
  set (m5 := put64 (arg + 8 * Z.of_nat 7) (wrap 64 (k + 1)) m4) in *.
  assert (forall q u, words m4 q u -> disjoint_ranges (arg + 56) 8 q (8 * Z.of_nat (length u)) -> words m5 q u) as K5 by (intros q u Wq Dq; by apply words_other).
  destruct (words_store m5 c FF 4 r12 ltac:(apply K5; [done | unfold disjoint_ranges; lia]) ltac:(lia) Hr12) as [E6 W6c].
  set (m6 := put64 (c + 8 * Z.of_nat 4) r12 m5) in *.
  destruct (words_store m6 c (<[4%nat := r12]> FF) 3 to W6c ltac:(rewrite length_insert; lia) Hret) as [E7 W7c].
  set (m7 := put64 (c + 8 * Z.of_nat 3) to m6) in *.
  assert (forall q u, words m5 q u -> disjoint_ranges (c + 24) 16 q (8 * Z.of_nat (length u)) -> words m7 q u) as K7.
  { intros q u Wq Dq. unfold disjoint_ranges in Dq. apply words_other; [apply words_other; [done|]|]; unfold disjoint_ranges; lia. }
  exists k, m5, m6, m7. split; [exact (words_load m4 arg F1 7 k W4F Hk)|]. split; [exact E5|]. split; [exact E6|]. split; [exact E7|]. split; [|split; [|split; [exact W7c | split; [|split; [|split; [done | split]]]]]].
  - apply (words_load m7 arg (<[7%nat := wrap 64 (k + 1)]> F1) 1 hd); [apply K7; [done|]; rewrite length_insert, Hlen; unfold disjoint_ranges; lia|].
    rewrite list_lookup_insert_ne by done. unfold F1. by rewrite locked_other.
  - eapply same_range_trans; [eapply same_range_store64; [exact E5 | unfold disjoint_ranges; lia]|]. eapply same_range_store64; [exact E6 | unfold disjoint_ranges; lia].
  - apply K7; [apply K5; [done|]|]; unfold disjoint_ranges; lia.
  - apply K7; [apply K5; [done|]|]; unfold disjoint_ranges; lia.
  - intros y n Hy. by repeat apply writable_range_written.
  - split; [|done]. do 3 apply blocks_put. apply G.
Qed.

Lemma entry_copies e m0 m1 :
  standing (locked_fields e) m1 -> same_shape m m1 -> parameters_save (sp - 184) x m0 = Some (tt, m1) -> load64 sp m1 = Some (to, m1) ->
  exists c h t a r m3 m4 m2, prologue_copy arg sp r12 x m1 = Some ((c, arg, x, hd), m2) /\
    same_shape m m3 /\ standing (locked_fields e) m3 /\ grown m3 (clone_blocks (locked_fields e) c h t a r hs ts) m4 /\
    words m2 c (handed_fields e h t a r) /\ words m2 h hs /\ words m2 t ts /\ curthread m2 = curthread m /\
    (forall y n, writable_range m4 y n -> writable_range m2 y n) /\ blocks_ok m2 /\ allocs m2 = allocs m4.
Proof.
  intros S1 M1 Hsave Hto1. destruct (entry_cloned e m1 S1 M1) as (c & h & t & a & r & v & m3 & m4 & Ev & Hv & M3 & S3 & G & R4 & LA).
  destruct (entry_handed e c h t a r m3 m4 S3 G (grown_copy_apart _ _ _ _ _ _ _ _ S3 G)) as (k & m5 & m6 & m7 & Lk & E5 & E6 & E7 & Lh & R6 & Wc & Wh & Wt & Hc & Hw & Hb).
  pose proof (same_range_trans _ _ _ _ _ R4 R6) as R. exists c, h, t, a, r, m3, m4, m7. split; [|repeat (split; [done|]); split; [|done]].
  - apply bind_inv in Ev as ([] & n1 & E1 & Ev). apply bind_inv in Ev as (f0 & n2 & E2 & Ev). unfold prologue_copy.
    erewrite bind_some by exact E1. erewrite bind_some by exact E2. erewrite bind_some by exact Ev. erewrite bind_some by exact LA.
    erewrite bind_some by exact Lk. erewrite bind_some by exact E5. cbv zeta. rewrite Hv. erewrite bind_some by exact E6.
    erewrite bind_some; [|eapply parameters_reload; [done | exact Hsave | eapply same_range_sub; [exact R | lia | lia]]].
    erewrite bind_some; [|eapply same_range_load64; [exact R | | |exact Hto1]; lia]. erewrite bind_some by exact E7. by erewrite bind_some by exact Lh.
  - rewrite Hc, (grown_rest _ _ _ G), (proj1 M3). done.
Qed.

(** ** What the handler finds *)

(** The types are stored in 64 bits and compared as signed numbers. *)
Definition signed_types : list (Z * Z) := (fun p => (p.1, signed 64 p.2)) <$> L.

(** No type is zero, the first word behind them is. *)
Hypothesis Htypes : Forall (fun p => p.2 <> 0) L.
Hypothesis Hend : ts !! length L = Some 0.

Lemma handed_lookup e h t a r :
  let FF := handed_fields e h t a r in
  FF !! 3%nat = Some to /\ FF !! 4%nat = Some r12 /\ FF !! 6%nat = Some ep /\ FF !! 8%nat = Some a /\ FF !! 9%nat = Some r /\ FF !! 11%nat = Some br /\
  FF !! 13%nat = Some h /\ FF !! 14%nat = Some t /\ FF !! 15%nat = F !! 15%nat /\ FF !! 18%nat = F !! 18%nat.
Proof.
  pose proof (object_length _ _ _ _ (stands_object _ _ _ _ _ _ _ _ _ Hstands)) as Hlen. cbv zeta. unfold handed_fields, clone_fields, locked_fields.
  repeat split; repeat (rewrite list_lookup_insert_ne by done); try done; apply list_lookup_insert_eq; rewrite !length_insert; lia.
Qed.

Lemma hook_entry i h ty : L !! i = Some (h, ty) -> hs !! i = Some h /\ ts !! i = Some ty.
Proof.
  intros Hi. pose proof (stands_arrays _ _ _ _ _ _ _ _ _ Hstands) as [_ _ _ _ _ _ _ _ _ [r1 ->] [r2 ->]].
  split; (rewrite lookup_app_l by (rewrite length_fmap; by eapply lookup_lt_Some)); by rewrite list_lookup_fmap, Hi.
Qed.

(** Where the handler's words are: eight fields, and the arrays. *)
Lemma handler_words_in c h t a r y v :
  (y, v) ∈ handler_words c h t a r br ep to r12 signed_types ->
  (exists j : nat, j ∈ [3; 4; 6; 8; 9; 11; 13; 14]%nat /\ y = c + 8 * Z.of_nat j /\ forall e, handed_fields e h t a r !! j = Some v) \/
  (exists j : nat, hs !! j = Some v /\ y = h + 8 * Z.of_nat j) \/ (exists (j : nat) w, ts !! j = Some w /\ y = t + 8 * Z.of_nat j /\ v = wrap 64 w).
Proof.
  unfold handler_words. rewrite !elem_of_app. intros [Hc|[Hh|[Ht|Hz]]].
  - left. rewrite !elem_of_cons, elem_of_nil in Hc. pose proof (fun e => handed_lookup e h t a r) as Hl. cbv zeta in Hl.
    destruct Hc as [[= -> ->]|[[= -> ->]|[[= -> ->]|[[= -> ->]|[[= -> ->]|[[= -> ->]|[[= -> ->]|[[= -> ->]|[]]]]]]]]];
      [exists 3%nat | exists 4%nat | exists 6%nat | exists 8%nat | exists 9%nat | exists 11%nat | exists 13%nat | exists 14%nat];
      (split; [clear; set_solver|]; split; [done|]; intros e; apply (Hl e)).
  - right. left. apply elem_of_lookup_imap in Hh as (j & [h' ty] & [= -> ->] & Hj). unfold signed_types in Hj. rewrite list_lookup_fmap in Hj.
    destruct (L !! j) as [[h0 ty0]|] eqn:E; [|done]. injection Hj as <- <-. exists j. split; [by apply (hook_entry j h0 ty0) | done].
  - right. right. apply elem_of_lookup_imap in Ht as (j & [h' ty] & [= -> ->] & Hj). unfold signed_types in Hj. rewrite list_lookup_fmap in Hj.
    destruct (L !! j) as [[h0 ty0]|] eqn:E; [|done]. injection Hj as <- <-. exists j, ty0. split; [by apply (hook_entry j h0 ty0)|]. split; [done|]. by apply wrap_signed.
  - right. right. rewrite elem_of_cons, elem_of_nil in Hz. destruct Hz as [[= -> ->]|[]]. exists (length L), 0. unfold signed_types. by rewrite length_fmap.
Qed.

Lemma entry_state e c h t a r m2 :
  words m2 c (handed_fields e h t a r) -> words m2 h hs -> words m2 t ts -> curthread m2 = curthread m ->
  exists i ph, handler_state c (curthread m) h t a r br ep to r12 signed_types i ph m2.
Proof.
  intros Wc Wh Wt Htd. destruct (entry_field 15 ltac:(lia)) as [i Hi]. destruct (entry_field 18 ltac:(lia)) as [ph Hph]. exists i, ph. split; [|done].
  split; [|by intros ? ? ?%elem_of_nil]. intros y v. rewrite elem_of_app. intros [[(j & _ & -> & Hj)|[(j & Hj & ->)|(j & w & Hj & -> & ->)]]%handler_words_in|Hc].
  - by apply (words_read _ _ _ Wc).
  - by apply (words_read _ _ _ Wh).
  - rewrite le_bytes_wrap. by apply (words_read _ _ _ Wt).
  - destruct (handed_lookup e h t a r) as (_ & _ & _ & _ & _ & _ & _ & _ & E15 & E18). unfold current in Hc. rewrite !elem_of_cons, elem_of_nil in Hc.
    destruct Hc as [[= -> ->]|[[= -> ->]|[]]]; [apply (words_read _ _ _ Wc 15); by rewrite E15 | apply (words_read _ _ _ Wc 18); by rewrite E18].
Qed.

(** The thread's word for the structure. *)
Hypothesis Htd : writable_range m (curthread m + 0x388) 8.

(** A place apart from the three blocks is apart from the handler's words. *)
Lemma apart_blocks c h t a r i ph y n :
  disjoint_ranges y n c 192 -> disjoint_ranges y n h (8 * Z.of_nat (length hs)) -> disjoint_ranges y n t (8 * Z.of_nat (length ts)) ->
  apart_from (handler_words c h t a r br ep to r12 signed_types ++ current c i ph) y n.
Proof.
  intros Dc Dh Dt z v. unfold disjoint_ranges in *. rewrite elem_of_app. intros [[(j & Hj & -> & _)|[(j & Hj%lookup_lt_Some & ->)|(j & w & Hj%lookup_lt_Some & -> & _)]]%handler_words_in|Hc]; [|lia|lia|].
  - assert (j < 24)%nat by (rewrite !elem_of_cons, elem_of_nil in Hj; lia). lia.
  - unfold current in Hc. rewrite !elem_of_cons, elem_of_nil in Hc. destruct Hc as [[= -> _]|[[= -> _]|[]]]; lia.
Qed.

(** A field of the copy that is none of the eight is apart from them. *)
Lemma apart_field c h t a r j :
  (j < 24)%nat -> j ∉ [3; 4; 6; 8; 9; 11; 13; 14]%nat -> disjoint_ranges c 192 h (8 * Z.of_nat (length hs)) -> disjoint_ranges c 192 t (8 * Z.of_nat (length ts)) ->
  apart_from (handler_words c h t a r br ep to r12 signed_types) (c + 8 * Z.of_nat j) 8.
Proof.
  intros Hj Hn Dh Dt z v. unfold disjoint_ranges in *. intros [(k & Hk & -> & _)|[(k & Hk%lookup_lt_Some & ->)|(k & w & Hk%lookup_lt_Some & -> & _)]]%handler_words_in; [|lia|lia].
  assert (j <> k) by (intros ->; done). lia.
Qed.

Lemma signed_hooks : Forall (fun p => 0 < fst p < 2 ^ 64 /\ - 2 ^ 63 <= snd p < 2 ^ 63 /\ snd p <> 0) signed_types.
Proof.
  pose proof (stands_arrays _ _ _ _ _ _ _ _ _ Hstands) as [[_ WH WT _ _ _] _ _ _ _ _ _ _ _ _ _].
  apply Forall_fmap, Forall_lookup. intros i [h ty] Hi. cbn [compose fst snd]. destruct (hook_entry i h ty Hi) as [Eh Et].
  pose proof (words_range _ _ _ WH i h Eh). pose proof (words_range _ _ _ WT i ty Et).
  pose proof (object_hooks _ _ _ _ (stands_object _ _ _ _ _ _ _ _ _ Hstands) (h, ty) (list_elem_of_lookup_2 _ _ _ Hi)) as Hnz. cbn [fst] in Hnz. unfold NULL in Hnz.
  pose proof (Forall_lookup_1 _ _ _ _ Htypes Hi) as Hty. cbn [snd] in Hty. split; [lia|]. unfold signed. rewrite wrap_small by done. change (64 - 1) with 63.
  destruct (Z.ltb_spec ty (2 ^ 63)); lia.
Qed.

(** The handler's places lie apart from the blocks it reads. *)
Lemma copy_places_apart e c h t a r m3 m4 y n p k :
  same_shape m m3 -> standing (locked_fields e) m3 -> grown m3 (clone_blocks (locked_fields e) c h t a r hs ts) m4 ->
  (y, n) ∈ handler_places arg (sp + 8) (curthread m) a r -> (p, k) ∈ [(c, 192); (h, 8 * Z.of_nat (length hs)); (t, 8 * Z.of_nat (length ts))] -> disjoint_ranges y n p k.
Proof.
  intros M3 S3 G Hy Hp. pose proof (grown_copy_apart _ _ _ _ _ _ _ _ S3 G) as [_ _ Dold _].
  assert (length (locked_fields e) = 24%nat) as Hlen by apply (stands_object _ _ _ _ _ _ _ _ _ S3).
  destruct (Dold p k Hp) as (D1 & D2 & D3 & D4). destruct (copy_in _ c h t a r p k Hlen Hp) as (l & Bp & -> & _).
  pose proof (grown_disjoint _ _ _ _ _ _ _ G Bp (same_shape_writable _ _ _ _ M3 Htd) ltac:(lia)) as D5.
  unfold disjoint_ranges in *. unfold handler_places in Hy. rewrite !elem_of_cons, elem_of_nil in Hy.
  destruct Hy as [[= -> ->]|[[= -> ->]|[[= -> ->]|[[= -> ->]|[[= -> ->]|[[= -> ->]|[]]]]]]]; lia.
Qed.

Lemma entry_layout e c h t a r m3 m4 :
  same_shape m m3 -> standing (locked_fields e) m3 -> grown m3 (clone_blocks (locked_fields e) c h t a r hs ts) m4 ->
  handler_layout arg c (sp + 8) (curthread m) h t a r br ep to r12 signed_types.
Proof.
  intros M3 S3 G. pose proof (grown_copy_apart _ _ _ _ _ _ _ _ S3 G) as [Dh Dt Dold (Pc & Ph & Pt & Pa & Pr)].
  assert (length (locked_fields e) = 24%nat) as Hlen by apply (stands_object _ _ _ _ _ _ _ _ _ S3).
  pose proof (stands_disjoint _ _ _ _ _ _ _ _ _ S3) as Hd. unfold disjoint_ranges in Hd. split.
  - intros y n Hy. assert (forall p k, (p, k) ∈ [(c, 192); (h, 8 * Z.of_nat (length hs)); (t, 8 * Z.of_nat (length ts))] -> disjoint_ranges y n p k) as Hall
      by (intros p k; by apply (copy_places_apart e c h t a r m3 m4)).
    apply apart_blocks; apply Hall; clear; set_solver.
  - apply (apart_field c h t a r 15); [lia | vm_decide | done | done].
  - apply (apart_field c h t a r 18); [lia | vm_decide | done | done].
  - unfold disjoint_ranges. lia.
  - lia.
  - done.
  - pose proof (words_range _ _ _ (stands_words _ _ _ _ _ _ _ _ _ Hstands) 6 ep Hep). pose proof (words_range _ _ _ (stands_words _ _ _ _ _ _ _ _ _ Hstands) 11 br Hbr). lia.
  - apply signed_hooks.
  - unfold signed_types. rewrite length_fmap. pose proof (arrays_max _ _ _ _ _ _ _ _ (stands_arrays _ _ _ _ _ _ _ _ _ Hstands)) as Hmax.
    pose proof (arrays_length _ _ _ _ _ _ _ _ (stands_arrays _ _ _ _ _ _ _ _ _ Hstands)) as Hl. apply lookup_lt_Some in Hend. lia.
Qed.

(** Everything the handler stores to is there. *)
Lemma entry_room e c h t a r m3 m4 m2 :
  same_shape m m3 -> standing (locked_fields e) m3 -> grown m3 (clone_blocks (locked_fields e) c h t a r hs ts) m4 ->
  (forall y n, writable_range m4 y n -> writable_range m2 y n) -> handler_room arg c (sp + 8) (curthread m) a r m2.
Proof.
  intros M3 S3 G Hw y n Hy. apply Hw. assert (length (locked_fields e) = 24%nat) as Hlen by apply (stands_object _ _ _ _ _ _ _ _ _ S3).
  assert (forall p l, (p, l) ∈ clone_blocks (locked_fields e) c h t a r hs ts -> writable_range m4 p (8 * length l)) as Hb.
  { intros p l Hp. destruct (grown_words _ _ _ G p l Hp) as (W & _ & Hl). apply (words_writable m4 p l); [done | lia | lia]. }
  assert (writable_range m4 arg 192) as Ha by (apply (words_writable m4 arg (locked_fields e)); [eapply grown_old_words; [exact G | by apply stands_words in S3] | lia | lia]).
  assert (writable_range m4 c 192) as Hc by (specialize (Hb c (clone_fields (locked_fields e) h t a r) ltac:(clear; unfold clone_blocks; set_solver)); unfold clone_fields in Hb; by rewrite !length_insert, Hlen in Hb).
  unfold handler_stores, handler_places in Hy. cbn [app] in Hy. rewrite !elem_of_cons, elem_of_nil in Hy.
  destruct Hy as [[= -> ->]|[[= -> ->]|[[= -> ->]|[[= -> ->]|[[= -> ->]|[[= -> ->]|[[= -> ->]|[[= -> ->]|[]]]]]]]]].
  - apply (writable_range_sub _ arg 192); [done | lia | lia].
  - apply (writable_range_sub _ arg 192); [done | lia | lia].
  - apply (writable_range_sub _ (sp - 200) 208); [eapply grown_writable; [exact G | apply S3] | lia | lia].
  - apply (Hb a (repeat 0 23)). clear. unfold clone_blocks. set_solver.
  - apply (Hb r (repeat 0 6)). clear. unfold clone_blocks. set_solver.
  - eapply grown_writable; [exact G | by eapply same_shape_writable].
  - apply (writable_range_sub _ c 192); [done | lia | lia].
  - apply (writable_range_sub _ c 192); [done | lia | lia].
Qed.

(** The prologue with everything the handler and the epilogue find. *)
Lemma entry_run s :
  regs s RSP = sp -> regs s R12 = r12 -> mach s = m -> parameter_registers s = x ->
  exists e c h t a r m3 m4 s1, run (FunctionHookPrologue arg) 1 Prologue s = Some (hd, s1) /\
    regs s1 R11 = arg /\ regs s1 R12 = c /\ regs s1 RSP = sp + 8 /\ parameter_registers s1 = x /\
    same_shape m m3 /\ standing (locked_fields e) m3 /\ grown m3 (clone_blocks (locked_fields e) c h t a r hs ts) m4 /\
    words (mach s1) c (handed_fields e h t a r) /\ words (mach s1) h hs /\ words (mach s1) t ts /\ curthread (mach s1) = curthread m /\
    (forall y n, writable_range m4 y n -> writable_range (mach s1) y n) /\ blocks_ok (mach s1) /\ allocs (mach s1) = allocs m4.
Proof.
  intros HS H12 Hm Hp. destruct entry_locks as (e & m0 & m1 & E1 & S1 & M1 & Hsave & Hto1).
  destruct (entry_copies e m0 m1 S1 M1 Hsave Hto1) as (c & h & t & a & r & m3 & m4 & m2 & E2 & M3 & S3 & G & Wc & Wh & Wt & Hc & Hw & Hrest).
  pose proof (stands_disjoint _ _ _ _ _ _ _ _ _ Hstands) as Hd. pose proof (object_positive _ _ _ _ (stands_object _ _ _ _ _ _ _ _ _ Hstands)) as Hpos.
  destruct (prologue_sim arg sp r12 ltac:(lia) Hr12 ltac:(unfold disjoint_ranges in *; lia) s m x c arg x hd m1 m2 HS H12 Hm Hp E1 E2) as (s1 & R & Hm1 & H11 & Hc12 & Hsp & Hy).
  exists e, c, h, t, a, r, m3, m4, s1. rewrite Hm1. done.
Qed.

(** C6. A call of a hooked function, whose structure stands for a list of hooks,
    gets from its first instruction to the handler: the prologue takes the
    free lock, the clone makes the copy, and the handler starts with the
    caller's arguments and stack, in a state in which its structure holds that
    very list, the caller's address and the caller's [r12], in memory apart
    from everything the handler stores to, and all of that is writable. *)
Theorem prologue_prepares_handler s :
  regs s RSP = sp -> regs s R12 = r12 -> mach s = m -> parameter_registers s = x ->
  exists c h t a r i ph s1, run (FunctionHookPrologue arg) 1 Prologue s = Some (hd, s1) /\
    regs s1 R11 = arg /\ regs s1 R12 = c /\ regs s1 RSP = sp + 8 /\ parameter_registers s1 = x /\
    handler_layout arg c (sp + 8) (curthread m) h t a r br ep to r12 signed_types /\
    handler_state c (curthread m) h t a r br ep to r12 signed_types i ph (mach s1) /\
    handler_room arg c (sp + 8) (curthread m) a r (mach s1).
Proof.
  intros HS H12 Hm Hp. destruct (entry_run s HS H12 Hm Hp) as (e & c & h & t & a & r & m3 & m4 & s1 & R & H11 & Hc12 & Hsp & Hy & M3 & S3 & G & Wc & Wh & Wt & Hc & Hw & _).
  destruct (entry_state e c h t a r _ Wc Wh Wt Hc) as (i & ph & Hst). exists c, h, t, a, r, i, ph, s1. repeat (split; [done|]).
  split; [by eapply entry_layout|]. split; [done | by eapply entry_room].
Qed.

(** ** From the call to the return *)

(** The code at [ep] is the destroyer, the kernel's [free] is at [g]. *)
Context (g : Z).
Hypothesis (Hfr : F !! 21%nat = Some g) (Hfree : forall p n, code_call g [p; mt] n = (do! free p in ret 0) n).
Hypothesis Hdestroy : forall s z n n', ps4PayloadFunctionHookArgumentDestroy (gpr z 1) n = Some (tt, n') -> exists v, abi_call ep s z n = Some (v, n').
Hypothesis Hone : takes_one ep.

Notation copy c h t a r := (owned c h t a r g mt (8 * Z.of_nat (length hs)) (8 * Z.of_nat (length ts))).
Notation gone c h t a r := (fun n => forall p, p ∈ [r; a; t; h; c] -> allocs n !! p = None).

(** The hooks and the function, whatever blocks the copy gets. *)
Hypothesis Hloop : forall c h t a r, handler_layout arg c (sp + 8) (curthread m) h t a r br ep to r12 signed_types ->
  loop_calls arg c (sp + 8) (curthread m) h t a r br ep to r12 signed_types (copy c h t a r).

(** Every block of the copy is one of the clone's. *)
Lemma copy_block e c h t a r p n :
  length (locked_fields e) = 24%nat -> (p, n) ∈ copy_blocks c h t a r (8 * Z.of_nat (length hs)) (8 * Z.of_nat (length ts)) ->
  exists l, (p, l) ∈ clone_blocks (locked_fields e) c h t a r hs ts /\ n = 8 * Z.of_nat (length l).
Proof.
  intros Hlen Hp. unfold copy_blocks, clone_blocks in *. rewrite !elem_of_cons, elem_of_nil in Hp.
  destruct Hp as [[= -> ->]|[[= -> ->]|[[= -> ->]|[[= -> ->]|[[= -> ->]|[]]]]]];
    [exists (repeat 0 6) | exists (repeat 0 23) | exists ts | exists hs | exists (clone_fields (locked_fields e) h t a r)]; (split; [clear; set_solver|]); try done.
  unfold clone_fields. by rewrite !length_insert, Hlen.
Qed.

Lemma entry_owned e c h t a r m3 m4 m2 :
  standing (locked_fields e) m3 -> grown m3 (clone_blocks (locked_fields e) c h t a r hs ts) m4 -> words m2 c (handed_fields e h t a r) ->
  blocks_ok m2 -> allocs m2 = allocs m4 -> copy c h t a r m2.
Proof.
  intros S3 G Wc Hb Ha. assert (length (locked_fields e) = 24%nat) as Hlen by apply (stands_object _ _ _ _ _ _ _ _ _ S3). split; [done | | |].
  - intros p n Hp. destruct (copy_block e _ _ _ _ _ _ _ Hlen Hp) as (l & Hl & ->).
    rewrite Ha, (grown_allocs _ _ _ G). apply new_allocs_lookup; [apply G | done].
  - apply (words_read _ _ _ Wc 21). unfold handed_fields, clone_fields, locked_fields. by rewrite !list_lookup_insert_ne.
  - apply (words_read _ _ _ Wc 22). unfold handed_fields, clone_fields, locked_fields. by rewrite !list_lookup_insert_ne.
Qed.

(** What the handler asks of the code it calls. *)
Lemma entry_calls e c h t a r m3 m4 :
  same_shape m m3 -> standing (locked_fields e) m3 -> grown m3 (clone_blocks (locked_fields e) c h t a r hs ts) m4 ->
  handler_layout arg c (sp + 8) (curthread m) h t a r br ep to r12 signed_types ->
  handler_calls arg c (sp + 8) (curthread m) h t a r br ep to r12 signed_types (copy c h t a r) (gone c h t a r).
Proof.
  intros M3 S3 G Hlay. assert (length (locked_fields e) = 24%nat) as Hlen by apply (stands_object _ _ _ _ _ _ _ _ _ S3). split.
  - by apply Hloop.
  - intros y n z l n1 n2 Hy H1 H2 [Hb Ha Hfn Hty] E. assert (disjoint_ranges y n (c + 168) 16) as Hd.
    { unfold handler_stores in Hy. rewrite elem_of_app, !elem_of_cons, elem_of_nil in Hy.
      destruct Hy as [Hy|[[= -> ->]|[[= -> ->]|[]]]]; [|unfold disjoint_ranges; lia..].
      pose proof (copy_places_apart e c h t a r m3 m4 y n c 192 M3 S3 G Hy ltac:(clear; set_solver)). unfold disjoint_ranges in *. lia. }
    apply store_bytes_inv in E as [_ ->]. unfold disjoint_ranges in Hd.
    split; [by apply blocks_ok_write | done | |]; cbn [mem set_mem]; (rewrite mem_read_write_other; [done | unfold disjoint_ranges; lia]).
  - exact Hone.
  - intros z i ph n Hz (Hs & _ & Ho). destruct (handler_fields _ _ _ _ _ _ _ _ _ _ _ _ _ Hlay _ _ _ Hs) as (F64 & F72 & F104 & F112 & _).
    pose proof (stands_words _ _ _ _ _ _ _ _ _ Hstands) as W.
    destruct (destroy_run c h t a r g mt _ _ Hfree (words_range _ _ _ W 21 g Hfr) (words_range _ _ _ W 22 mt Hmt) n Ho (clone_keys _ _ _ _ _ _ _ _ G) F64 F72 F104 F112) as (n' & E & S).
    rewrite <- Hz in E. destruct (Hdestroy (sp + 8 - 64) z n n' E) as (v & Ev). exists v, n'. split; [done|]. split; [|intros p Hp; apply (still_gone _ _ _ _ S); revert Hp; clear; set_solver]. apply (still_same _ _ _ _ S).
    intros p k Hp. rewrite elem_of_reverse in Hp. destruct (copy_block e _ _ _ _ _ _ _ Hlen Hp) as (l & Bp & ->).
    pose proof (grown_disjoint _ _ _ _ _ _ _ G Bp (stands_stack _ _ _ _ _ _ _ _ _ S3) ltac:(lia)). unfold disjoint_ranges in *. lia.
Qed.

(** C7. A call of a hooked function comes back to its caller: from its first
    instruction through the prologue, the clone, the handler with the hooks
    and the function, and the destroyer. The caller finds its own stack
    pointer, behind the return address, its own [r12], and in the return
    registers what the hooks and the function, run on the caller's arguments,
    left in the copy of the structure; the five blocks of the copy are freed. *)
Theorem hooked_function_returns s :
  regs s RSP = sp -> regs s R12 = r12 -> mach s = m -> parameter_registers s = x ->
  exists c h t a r s1 m1 v fuel s', run (FunctionHookPrologue arg) 1 Prologue s = Some (hd, s1) /\
    (do! hooked_enter arg c (sp + 8) x in hooked_body c (sp + 8) (curthread m) signed_types) (mach s1) = Some (tt, m1) /\
    load64 (c + 72) m1 = Some (r, m1) /\ returns_load r m1 = Some (v, m1) /\ NoDup [r; a; t; h; c] /\
    run ps4PayloadFunctionHookHandler fuel Handler s1 = Some (to, s') /\ regs s' RSP = sp + 8 /\ regs s' R12 = r12 /\
    Returns (regs s' RAX) (regs s' RDX) (xmms s' 0%nat) (xmms s' 1%nat) = returns_held v /\
    forall p, p ∈ [r; a; t; h; c] -> allocs (mach s') !! p = None /\ is_Some (allocs (mach s1) !! p).
Proof.
  intros HS H12 Hm Hp. destruct (entry_run s HS H12 Hm Hp) as (e & c & h & t & a & r & m3 & m4 & s1 & R1 & H11 & Hc12 & Hsp & Hy & M3 & S3 & G & Wc & Wh & Wt & Hc & Hw & Hb & Ha).
  destruct (entry_state e c h t a r _ Wc Wh Wt Hc) as (i & ph & Hst). pose proof (entry_layout e c h t a r m3 m4 M3 S3 G) as Hlay.
  destruct (handler_total _ _ _ _ _ _ _ _ _ _ _ _ _ _ _ Hlay (entry_calls _ _ _ _ _ _ _ _ M3 S3 G Hlay) s1 (mach s1) i ph H11 ltac:(done)) as (m1 & v & fuel & s' & E & Eq & Ev & _ & R & HS' & H12' & Hv & Hgone).
  { split; [done|]. split; [by eapply entry_room | by eapply entry_owned]. }
  rewrite Hy in E. exists c, h, t, a, r, s1, m1, v, fuel, s'. repeat (split; [done || by eapply clone_keys|]). intros p Hp'. split; [by apply Hgone|].
  destruct (entry_owned e c h t a r m3 m4 _ S3 G Wc Hb Ha) as [_ Hall _ _]. apply (list_elem_of_fmap fst (copy_blocks c h t a r (8 * Z.of_nat (length hs)) (8 * Z.of_nat (length ts)))) in Hp' as ([q n] & -> & Hq).
  exists n. by apply Hall.
Qed.
End Entry.

Section EntryWitness.
#[local] Existing Instance bump_allocator.
#[local] Existing Instance bump_allocator_laws.
#[local] Existing Instance bump_room_laws.
#[local] Existing Instance allocator_code.

(** The clone at 0x100, the destroyer at 0x400, the function at 0x300 adds; other
    code returns zero. *)
Definition clone_abi : AbiCode := {|
  abi_call f _ z :=
    if f =? 0x100 then let! c := ps4PayloadFunctionHookArgumentClone (gpr z 1) in ret (Returns c 0 0 0)
    else if f =? 0x400 then do! ps4PayloadFunctionHookArgumentDestroy (gpr z 1) in ret (Returns 0 0 0 0)
    else ret (Returns (if f =? 0x300 then wrap 64 (gpr z 1 + gpr z 2) else 0) 0 0 0);
  abi_scratch _ _ _ := 0xdead;
  abi_scratch_xmm _ _ _ := 0xbeef;
  return_address n := 0x8000 - Z.of_nat n |}.
#[local] Existing Instance clone_abi.

Definition entry_processor : processor := Processor caller_regs (fun _ => 0) None copied_machine.

Lemma copied_machine_stands :
  stands (2 ^ 63) 0x7000 (2 ^ 63 + 0x1000) (2 ^ 63 + 0x2000) copied_hooks copied_arrays.1 copied_arrays.2 copied_fields copied_machine.
Proof.
  split; [apply copied_machine_object | apply copied_machine_arrays | vm_decide|].
  intros x Hx (a & n & Ha & _ & Hin). unfold in_block in *. assert (2 ^ 63 <= a) by (destruct Ha as [->|[[= <-]|[= <-]]]; lia). lia.
Qed.

Lemma clone_abi_clones s z n c n' :
  gpr z 1 = 2 ^ 63 -> ps4PayloadFunctionHookArgumentClone (2 ^ 63) n = Some (c, n') -> exists v, abi_call 0x100 s z n = Some (v, n') /\ r_rax v = c.
Proof.
  intros Hz E. exists (Returns c 0 0 0). split; [|done].
  change (abi_call 0x100 s z n) with ((let! c := ps4PayloadFunctionHookArgumentClone (gpr z 1) in ret (Returns c 0 0 0)) n). rewrite Hz. by erewrite bind_some by exact E.
Qed.

Lemma clone_abi_destroys s z n n' : ps4PayloadFunctionHookArgumentDestroy (gpr z 1) n = Some (tt, n') -> exists v, abi_call 0x400 s z n = Some (v, n').
Proof.
  intros E. exists (Returns 0 0 0 0). change (abi_call 0x400 s z n) with ((do! ps4PayloadFunctionHookArgumentDestroy (gpr z 1) in ret (Returns 0 0 0 0)) n).
  by erewrite bind_some by exact E.
Qed.

(** The function and the hooks only return. *)
Lemma clone_abi_code f s z n : f ∈ handler_code 0x300 (signed_types copied_hooks) -> exists v, abi_call f s z n = Some (v, n).
Proof.
  unfold handler_code, signed_types, copied_hooks. cbn [fmap list_fmap fst snd]. rewrite !elem_of_cons, elem_of_nil.
  intros [->|[->|[->|[]]]]; eexists; reflexivity.
Qed.

Lemma clone_abi_loop c h t a r : loop_calls (2 ^ 63) c (0x7000 + 8) (curthread copied_machine) h t a r 0x300 0x400 0x9000 0x77 (signed_types copied_hooks)
  (owned c h t a r 0x600 1 (8 * Z.of_nat (length copied_arrays.1)) (8 * Z.of_nat (length copied_arrays.2))).
Proof.
  split.
  - intros f s x i ph n v n' Hf Hs E. destruct (clone_abi_code f s x n Hf) as [w E']. rewrite E in E'. by injection E' as _ ->.
  - intros f s x i ph n Hf (_ & Hr & Ho). destruct (clone_abi_code f s x n Hf) as [w E]. by exists w, n.
  - by repeat constructor.
Qed.

(** The prologue of the hooked function leads to the handler at 0x180. *)
Lemma prologue_prepares_handler_witness :
  exists c h t a r i ph s1, run (FunctionHookPrologue (2 ^ 63)) 1 Prologue entry_processor = Some (0x180, s1) /\ regs s1 R12 = c /\
    handler_state c (curthread copied_machine) h t a r 0x300 0x400 0x9000 0x77 [(0x200, -1); (0x210, 2)] i ph (mach s1).
Proof.
  destruct (prologue_prepares_handler (2 ^ 63) 0x7000 (2 ^ 63 + 0x1000) (2 ^ 63 + 0x2000) copied_hooks copied_arrays.1 copied_arrays.2 copied_machine copied_fields
    caller_parameters 0x9000 0x77 0x100 0x180 0x300 0x400 0x500 1) with (s := entry_processor) as (c & h & t & a & r & i & ph & s1 & R & _ & H12 & _ & _ & _ & Hs & _).
  - apply copied_machine_stands.
  - vm_equal.
  - split; [done|]. split; [done|]. vm_decide.
  - done.
  - done.
  - done.
  - done.
  - done.
  - done.
  - done.
  - done.
  - done.
  - done.
  - apply clone_abi_clones.
  - done.
  - vm_compute. discriminate.
  - vm_decide.
  - done.
  - vm_decide.
  - done.
  - done.
  - done.
  - done.
  - exists c, h, t, a, r, i, ph, s1. exact (conj R (conj H12 Hs)).
Defined.

(** The caller of the hooked function gets its stack pointer and [r12] back. *)
Lemma hooked_function_returns_witness :
  exists fuel s1 s', run (FunctionHookPrologue (2 ^ 63)) 1 Prologue entry_processor = Some (0x180, s1) /\
    run ps4PayloadFunctionHookHandler fuel Handler s1 = Some (0x9000, s') /\ regs s' RSP = 0x7000 + 8 /\ regs s' R12 = 0x77.
Proof.
  destruct (hooked_function_returns (2 ^ 63) 0x7000 (2 ^ 63 + 0x1000) (2 ^ 63 + 0x2000) copied_hooks copied_arrays.1 copied_arrays.2 copied_machine copied_fields
    caller_parameters 0x9000 0x77 0x100 0x180 0x300 0x400 0x500 1) with (g := 0x600) (s := entry_processor)
    as (c & h & t & a & r & s1 & m1 & v & fuel & s' & R1 & _ & _ & _ & _ & R & HS & H12 & _).
  - apply copied_machine_stands.
  - vm_equal.
  - split; [done|]. split; [done|]. vm_decide.
  - done.
  - done.
  - done.
  - done.
  - done.
  - done.
  - done.
  - done.
  - done.
  - done.
  - apply clone_abi_clones.
  - done.
  - vm_compute. discriminate.
  - vm_decide.
  - done.
  - vm_decide.
  - done.
  - done.
  - apply clone_abi_destroys.
  - intros s x y Hx. cbn. by rewrite Hx.
  - intros. apply clone_abi_loop.
  - done.
  - done.
  - done.
  - done.
  - exists fuel, s1, s'. exact (conj R1 (conj R (conj HS H12))).
Defined.
End EntryWitness.
