(* ===== verification/CallEntry.v ===== *)
(** * From a system call's structure to its handler

    [payload/template/system_call_hook_prologue.s], instruction by instruction,
    with the copy of [system_call_hook_handler.c]: a hooked system call reaches
    its handler in a state where the handler is the chain of its hooks
    (HookChain), and the hook's structure is as it was but for the count of
    calls. *)

From stdpp Require Import base gmap list strings.
From S2P Require Import Prelude Errors Uthash Machine Cache CacheMap Reference KernelBase KernelMemory Symbol Words Template FunctionHook HookList SystemCall HookHandler HookChain HookClone Assembly Ranges FunctionHandler HookCall HookEntry.

Inductive call_prologue_label := CallPrologue | CallPrologueLoop.

#[export] Instance call_prologue_label_eq_dec : EqDecision call_prologue_label.
Proof. solve_decision. Defined.

(** [arg]: what was patched into the first instruction. *)
Definition SystemCallHookPrologue (arg : Z) : list (call_prologue_label * list (instr call_prologue_label)) :=
  [(CallPrologue, [MovI arg R11; LockInc 24 R11; Push R12]);
   (CallPrologueLoop,
     [MovI 1 R12; XchgM R12 40 R11; Test R12; Jne CallPrologueLoop; Pop R12; Mov RSI RDX; Mov R11 RSI; Push R11; CallM 0 R11; Pop R11;
      Load 16 RAX RDI; Mov RAX RSI; LockInc 32 R11; Push R12; LockDec 24 R11; MovI 0 R12; XchgM R12 40 R11; Pop R12; JmpM 8 RAX])].

(** ** Regions and new blocks *)

Lemma grown_laid m0 R B m : grown m0 B m -> laid R m0 -> (forall a l, (a, l) ∈ R -> (0 < length l)%nat) -> laid (R ++ B) m.
Proof.
  intros G [Hw Ha] Hl. assert (forall j k a l b l', R !! j = Some (a, l) -> B !! k = Some (b, l') -> disjoint_ranges b (8 * Z.of_nat (length l')) a (8 * Z.of_nat (length l))) as Hd.
  { intros j k a l b l' Hj Hk. apply (grown_old_apart m0 B m); [done | by eapply list_elem_of_lookup_2 | by eapply Hw | eapply Hl; by eapply list_elem_of_lookup_2]. }
  split.
  - intros k a l [Hk|[_ Hk]]%lookup_app_Some; [apply (grown_old_words m0 B); [done | by eapply Hw]|].
    apply (grown_words _ _ _ G). by eapply list_elem_of_lookup_2.
  - intros j k a l b l' Hne Hj Hk. rewrite lookup_app_Some in Hj, Hk. destruct Hj as [Hj|[Hj' Hj]], Hk as [Hk|[Hk' Hk]].
    + by eapply (Ha j k).
    + pose proof (Hd j _ a l b l' Hj Hk) as D. unfold disjoint_ranges in *. lia.
    + exact (Hd k _ b l' a l Hk Hj).
    + apply (grown_apart m0 B m); [done | by eapply list_elem_of_lookup_2 | by eapply list_elem_of_lookup_2|].
      intros ->. pose proof (keys_unique B _ _ _ _ _ (grown_nodup _ _ _ G) Hj Hk). lia.
Qed.

(** A store inside a region. *)
Lemma laid_put R m k a l i v x :
  laid R m -> R !! k = Some (a, l) -> (i < length l)%nat -> 0 <= v < 2 ^ 64 -> x = a + 8 * Z.of_nat i ->
  exists m', store64 x v m = Some (tt, m') /\ laid (<[k := (a, <[i := v]> l)]> R) m' /\ same_shape m m'.
Proof.
  intros Hl Hk Hi Hv ->. destruct (laid_store R m k a l i v _ Hl Hk Hi Hv eq_refl) as (E & Hl' & _).
  destruct (wrote_store64 a (8 * length l) m (a + 8 * Z.of_nat i) v) as (m' & E' & W); [apply (words_writable m a l); [by eapply Hl | lia | lia] | lia | lia|].
  rewrite E in E'. injection E' as <-. eexists. split; [done|]. split; [done | by eapply wrote_shape].
Qed.

(** ** The copy *)

Section Clone.
Context `{HC : KernelCode} `{HA : KernelAllocator} `{HL : !KernelAllocatorLaws HA} `{HR : !KernelRoom HA}.
Context (arg H T f mt td u : Z) (F hs ts : list Z).
Hypothesis (Hlen : length F = 23%nat) (FH : F !! 14%nat = Some H) (FT : F !! 15%nat = Some T) (FS : F !! 17%nat = Some (Z.of_nat (length hs))).
Hypothesis (Hts : length ts = length hs) (Hk : (0 < length hs)%nat) (Hmax : Z.of_nat (length hs) < 2 ^ 32).
Hypothesis (Hf : F !! 20%nat = Some f) (Hmt : F !! 22%nat = Some mt) (Htd : 0 <= td < 2 ^ 64) (Hu : 0 <= u < 2 ^ 64).
Hypothesis Hmalloc : forall n n0, code_call f [n; mt; Z.lor M_ZERO M_WAITOK] n0 = malloc n n0.

Definition call_clone_fields (h t : Z) : list Z := <[7%nat := u]> (<[2%nat := td]> (<[15%nat := t]> (<[14%nat := h]> F))).
Definition call_clone_blocks (c h t : Z) : list (Z * list Z) := [(t, ts); (h, hs); (c, call_clone_fields h t)].
Definition call_clone_room : Z := cost (8 * Z.of_nat 23) + cost (8 * Z.of_nat (length hs)) + cost (8 * Z.of_nat (length hs)).

Lemma call_clone_run m :
  blocks_ok m -> words m arg F -> words m H hs -> words m T ts -> call_clone_room <= kroom m ->
  exists c h t m', ps4PayloadSystemCallHookArgumentClone td arg u m = Some (c, m') /\ grown m (call_clone_blocks c h t) m'.
Proof.
  intros Hb WF WH WT Hroom. set (k := length hs) in *. assert (forall n, 0 < cost (8 * Z.of_nat n)) as Hc by (unfold cost; lia).
  assert (wrap 64 (Z.of_nat k * 8) = 8 * Z.of_nat k) as Hw by (rewrite wrap_small; lia).
  assert (roomy m [] call_clone_room m) as G by (split; [by apply grown_start | done]). unfold call_clone_room in G. fold k in G.
  pose proof (Hc 23%nat) as C1. pose proof (Hc k) as C2.
  destruct (roomy_allocate m arg f mt F WF Hf Hmt Hmalloc _ _ m 23 184 G) as (c & m1 & E1 & G1 & Pc); [lia | done | lia|].
  destruct (roomy_copy _ _ _ m1 0 c (repeat 0 23) arg F 184 G1) as (m2 & E2 & G2); [done | done | by rewrite Hlen | by rewrite Hlen|]. cbn [insert list_insert] in G2.
  destruct (roomy_allocate m arg f mt F WF Hf Hmt Hmalloc _ _ m2 k (8 * Z.of_nat k) G2) as (h & m3 & E3 & G3 & Ph); [done | done | lia|].
  destruct (roomy_put _ _ _ m3 1 c F 14 h G3) as (m4 & E4 & G4); [done | lia | lia|]. cbn [insert list_insert] in G4.
  destruct (roomy_copy _ _ _ m4 0 h (repeat 0 k) H hs (8 * Z.of_nat k) G4) as (m5 & E5 & G5); [done | done | by rewrite repeat_length | done|]. cbn [insert list_insert] in G5.
  destruct (roomy_allocate m arg f mt F WF Hf Hmt Hmalloc _ _ m5 k (8 * Z.of_nat k) G5) as (t & m6 & E6 & G6 & Pt); [done | done | lia|].
  destruct (roomy_put _ _ _ m6 2 c (<[14%nat := h]> F) 15 t G6) as (m7 & E7 & G7); [done | rewrite length_insert; lia | lia|]. cbn [insert list_insert] in G7.
  destruct (roomy_copy _ _ _ m7 0 t (repeat 0 k) T ts (8 * Z.of_nat k) G7) as (m8 & E8 & G8); [done | done | by rewrite repeat_length, Hts | by rewrite Hts|]. cbn [insert list_insert] in G8.
  destruct (roomy_put _ _ _ m8 2 c (<[15%nat := t]> (<[14%nat := h]> F)) 2 td G8) as (m9 & E9 & G9); [done | rewrite !length_insert; lia | done|]. cbn [insert list_insert] in G9.
  destruct (roomy_put _ _ _ m9 2 c (<[2%nat := td]> (<[15%nat := t]> (<[14%nat := h]> F))) 7 u G9) as (m10 & E10 & [G10 _]); [done | rewrite !length_insert; lia | done|].
  cbn [insert list_insert] in G10. exists c, h, t, m10. split; [|exact G10].
  assert (forall B n m1 i v, roomy m B n m1 -> F !! i = Some v -> load64 (arg + 8 * Z.of_nat i) m1 = Some (v, m1)) as Lf by (intros; by eapply roomy_field).
  assert (load64 (c + 8 * Z.of_nat 14) m4 = Some (h, m4)) as L4 by (eapply (roomy_load _ _ _ m4 1); [exact G4 | done | apply list_lookup_insert_eq; lia]).
  assert (load64 (c + 8 * Z.of_nat 15) m7 = Some (t, m7)) as L7 by (eapply (roomy_load _ _ _ m7 2); [exact G7 | done | apply list_lookup_insert_eq; rewrite length_insert; lia]).
  unfold ps4PayloadSystemCallHookArgumentClone, ps4PayloadSystemCallHookMemoryCopy.
  erewrite bind_some by exact E1. erewrite bind_some by exact E2. erewrite bind_some by exact (Lf _ _ _ 17%nat _ G2 FS). rewrite Hw.
  erewrite bind_some by exact E3. erewrite bind_some by exact E4. erewrite bind_some by exact (Lf _ _ _ 14%nat _ G4 FH). erewrite bind_some by exact L4.
  erewrite bind_some by exact (Lf _ _ _ 17%nat _ G4 FS). rewrite Hw. erewrite bind_some by exact E5.
  erewrite bind_some by exact (Lf _ _ _ 17%nat _ G5 FS). rewrite Hw. erewrite bind_some by exact E6. erewrite bind_some by exact E7.
  erewrite bind_some by exact (Lf _ _ _ 15%nat _ G7 FT). erewrite bind_some by exact L7. erewrite bind_some by exact (Lf _ _ _ 17%nat _ G7 FS). rewrite Hw.
  erewrite bind_some by exact E8. erewrite bind_some by exact E9. by erewrite bind_some by exact E10.
Qed.
End Clone.

(** ** The prologue *)

Section Prologue.
Context `{HB : AbiCode} `{HC : KernelCode} `{HA : KernelAllocator} `{HL : !KernelAllocatorLaws HA} `{HR : !KernelRoom HA}.
Context (arg H T f mt td u sp r12 to fc hd : Z) (F hs ts Td : list Z).
Hypothesis (Hlen : length F = 23%nat) (FH : F !! 14%nat = Some H) (FT : F !! 15%nat = Some T) (FS : F !! 17%nat = Some (Z.of_nat (length hs))).
Hypothesis (Hts : length ts = length hs) (Hk : (0 < length hs)%nat) (Hmax : Z.of_nat (length hs) < 2 ^ 32).
Hypothesis (Hf : F !! 20%nat = Some f) (Hmt : F !! 22%nat = Some mt) (Htd : 0 <= td < 2 ^ 64) (Hu : 0 <= u < 2 ^ 64).
Hypothesis Hmalloc : forall n n0, code_call f [n; mt; Z.lor M_ZERO M_WAITOK] n0 = malloc n n0.
(** The lock is free; the clone and the handler. *)
Hypothesis (Hlock : F !! 5%nat = Some 0) (Hfc : F !! 0%nat = Some fc) (Hhd : F !! 1%nat = Some hd).
Hypothesis (Harg : 0 < arg < 2 ^ 64) (Hr12 : 0 <= r12 < 2 ^ 64).
Hypothesis Hclone : forall s z n c n', gpr z 1 = td -> gpr z 2 = arg -> gpr z 3 = u -> ps4PayloadSystemCallHookArgumentClone td arg u n = Some (c, n') ->
  exists v, abi_call fc s z n = Some (v, n') /\ r_rax v = c.

(** The structure, its arrays, three words of the stack and two of the thread. *)
Definition call_memory (F0 S : list Z) : list (Z * list Z) := [(arg, F0); (H, hs); (T, ts); (sp - 16, S); (td + 0x380, Td)].

Lemma entered_words m s0 s1 e :
  F !! 3%nat = Some e -> laid (call_memory F [s0; s1; to]) m ->
  exists m1 m2 m3 m4 m5, store64 (arg + 24) (wrap 64 (e + 1)) m = Some (tt, m1) /\ store64 (sp - 8) r12 m1 = Some (tt, m2) /\
    load64 (arg + 40) m2 = Some (0, m2) /\ store64 (arg + 40) 1 m2 = Some (tt, m3) /\ load64 (sp - 8) m3 = Some (r12, m3) /\
    store64 (sp - 8) arg m3 = Some (tt, m4) /\ store64 (sp - 16) (return_address 10) m4 = Some (tt, m5) /\ load64 (arg + 0) m4 = Some (fc, m4) /\
    laid (call_memory (<[5%nat := 1]> (<[3%nat := wrap 64 (e + 1)]> F)) [wrap 64 (return_address 10); arg; to]) m5 /\ same_shape m m5.
Proof.
  intros He L0. pose proof (wrap_bound 64 (e + 1) ltac:(lia)) as B1. pose proof (wrap_bound 64 (return_address 10) ltac:(lia)) as B2.
  destruct (laid_put _ m 0 arg F 3 (wrap 64 (e + 1)) (arg + 24) L0) as (m1 & E1 & L1 & M1); [done | lia | done | lia|]. cbn [insert list_insert call_memory] in L1.
  destruct (laid_put _ m1 3 (sp - 16) [s0; s1; to] 1 r12 (sp - 8) L1) as (m2 & E2 & L2 & M2); [done | cbn; lia | done | lia|]. cbn [insert list_insert] in L2.
  destruct (laid_put _ m2 0 arg (<[3%nat := wrap 64 (e + 1)]> F) 5 1 (arg + 40) L2) as (m3 & E3 & L3 & M3); [done | rewrite length_insert; lia | lia | lia|]. cbn [insert list_insert] in L3.
  destruct (laid_put _ m3 3 (sp - 16) [s0; r12; to] 1 arg (sp - 8) L3) as (m4 & E4 & L4 & M4); [done | cbn; lia | lia | lia|]. cbn [insert list_insert] in L4.
  destruct (laid_put _ m4 3 (sp - 16) [s0; arg; to] 0 (wrap 64 (return_address 10)) (sp - 16) L4) as (m5 & E5 & L5 & M5); [done | cbn; lia | done | lia|]. cbn [insert list_insert] in L5.
  exists m1, m2, m3, m4, m5. rewrite (store64_wrap (sp - 16) (return_address 10)). split; [done|]. split; [done|]. split; [|split; [done | split; [|split; [done | split; [done | split; [|split]]]]]].
  - eapply (laid_load _ m2 0 arg _ 5); [exact L2 | done | by rewrite list_lookup_insert_ne | lia].
  - eapply (laid_load _ m3 3 (sp - 16) _ 1); [exact L3 | done | done | lia].
  - eapply (laid_load _ m4 0 arg _ 0); [exact L4 | done | by rewrite !list_lookup_insert_ne | lia].
  - exact L5.
  - eapply same_shape_trans; [exact M1|]. eapply same_shape_trans; [exact M2|]. eapply same_shape_trans; [exact M3|]. by eapply same_shape_trans.
Qed.

(** The structure while the lock is held, and the fields of the copy made then. *)
Definition call_locked (e : Z) : list Z := <[5%nat := 1]> (<[3%nat := wrap 64 (e + 1)]> F).
Definition call_copy_fields (e h t : Z) : list Z := call_clone_fields td u (call_locked e) h t.

Lemma unlocked_fields e k : F !! 3%nat = Some e -> <[5%nat := 0]> (<[3%nat := e]> (<[4%nat := k]> (call_locked e))) = <[4%nat := k]> F.
Proof.
  intros He. unfold call_locked. apply list_eq. intros i. destruct (decide (i = 5%nat)) as [->|N5].
  { rewrite list_lookup_insert_eq, list_lookup_insert_ne by (done || rewrite !length_insert; lia). by rewrite Hlock. }
  rewrite list_lookup_insert_ne by done. destruct (decide (i = 3%nat)) as [->|N3].
  { rewrite list_lookup_insert_eq, list_lookup_insert_ne by (done || rewrite !length_insert; lia). by rewrite He. }
  rewrite list_lookup_insert_ne by done. destruct (decide (i = 4%nat)) as [->|N4].
  { by rewrite !list_lookup_insert_eq by (rewrite ?length_insert; lia). }
  by rewrite !list_lookup_insert_ne.
Qed.

Lemma call_copy_lookup e h t :
  let FF := call_copy_fields e h t in
  FF !! 1%nat = Some hd /\ FF !! 2%nat = Some td /\ FF !! 7%nat = Some u /\ FF !! 11%nat = F !! 11%nat /\ FF !! 14%nat = Some h /\ FF !! 15%nat = Some t /\ FF !! 16%nat = F !! 16%nat /\ length FF = 23%nat.
Proof.
  cbv zeta. unfold call_copy_fields, call_clone_fields, call_locked.
  repeat split; rewrite ?length_insert; repeat (rewrite list_lookup_insert_ne by done); try done; apply list_lookup_insert_eq; rewrite !length_insert; lia.
Qed.

Lemma left_words m e c h t s0 :
  F !! 3%nat = Some e -> 0 <= e < 2 ^ 64 -> laid (call_memory (call_locked e) [s0; arg; to] ++ call_clone_blocks td u (call_locked e) hs ts c h t) m ->
  exists k m1 m2 m3 m4, F !! 4%nat = Some k /\ load64 (sp - 8) m = Some (arg, m) /\ load64 (c + 16) m = Some (td, m) /\ load64 (arg + 32) m = Some (k, m) /\
    store64 (arg + 32) (wrap 64 (k + 1)) m = Some (tt, m1) /\ store64 (sp - 8) r12 m1 = Some (tt, m2) /\
    load64 (arg + 24) m2 = Some (wrap 64 (e + 1), m2) /\ store64 (arg + 24) (wrap 64 (wrap 64 (e + 1) + -1)) m2 = Some (tt, m3) /\
    load64 (arg + 40) m3 = Some (1, m3) /\ store64 (arg + 40) 0 m3 = Some (tt, m4) /\ load64 (sp - 8) m4 = Some (r12, m4) /\ load64 (c + 8) m4 = Some (hd, m4) /\
    laid (call_memory (<[4%nat := wrap 64 (k + 1)]> F) [s0; r12; to] ++ call_clone_blocks td u (call_locked e) hs ts c h t) m4 /\ same_shape m m4.
Proof.
  intros He Hb L0. set (F1 := call_locked e) in *. assert (length F1 = 23%nat) as Hl1 by (unfold F1, call_locked; by rewrite !length_insert).
  destruct (lookup_lt_is_Some_2 F1 4 ltac:(lia)) as [k E4k]. pose proof (wrap_bound 64 (k + 1) ltac:(lia)) as B1.
  destruct (call_copy_lookup e h t) as (C1 & C2 & _). unfold call_copy_fields in C1, C2. fold F1 in C1, C2.
  assert (wrap 64 (wrap 64 (e + 1) + -1) = e) as Ee.
  { unfold wrap. rewrite Zplus_mod_idemp_l. replace (e + 1 + -1) with e by lia. by apply Z.mod_small. }
  destruct (laid_put _ m 0 arg F1 4 (wrap 64 (k + 1)) (arg + 32) L0) as (m1 & E1 & L1 & M1); [done | lia | done | lia|]. cbn [insert list_insert call_memory app] in L1.
  destruct (laid_put _ m1 3 (sp - 16) [s0; arg; to] 1 r12 (sp - 8) L1) as (m2 & E2 & L2 & M2); [done | cbn; lia | done | lia|]. cbn [insert list_insert] in L2.
  destruct (laid_put _ m2 0 arg (<[4%nat := wrap 64 (k + 1)]> F1) 3 e (arg + 24) L2) as (m3 & E3 & L3 & M3); [done | rewrite length_insert; lia | done | lia|]. cbn [insert list_insert] in L3.
  destruct (laid_put _ m3 0 arg (<[3%nat := e]> (<[4%nat := wrap 64 (k + 1)]> F1)) 5 0 (arg + 40) L3) as (m4 & E4 & L4 & M4); [done | rewrite !length_insert; lia | lia | lia|].
  cbn [insert list_insert] in L4. unfold F1 in L4 at 1. rewrite (unlocked_fields e _ He) in L4. exists k, m1, m2, m3, m4. rewrite Ee.
  split; [rewrite <- E4k; unfold F1, call_locked; by rewrite !list_lookup_insert_ne|].
  split; [eapply (laid_load _ m 3 (sp - 16) _ 1); [exact L0 | done | done | lia]|]. split; [eapply (laid_load _ m 7 c _ 2); [exact L0 | done | exact C2 | lia]|].
  split; [eapply (laid_load _ m 0 arg F1 4); [exact L0 | done | done | lia]|]. split; [done|]. split; [done|].
  split; [eapply (laid_load _ m2 0 arg _ 3); [exact L2 | done | | lia]; rewrite list_lookup_insert_ne by done; unfold F1, call_locked; rewrite list_lookup_insert_ne by done; apply list_lookup_insert_eq; lia|].
  split; [done|]. split; [eapply (laid_load _ m3 0 arg _ 5); [exact L3 | done | | lia]; rewrite !list_lookup_insert_ne by done; unfold F1, call_locked; apply list_lookup_insert_eq; rewrite length_insert; lia|].
  split; [done|]. split; [eapply (laid_load _ m4 3 (sp - 16) _ 1); [exact L4 | done | done | lia]|]. split; [eapply (laid_load _ m4 7 c _ 1); [exact L4 | done | exact C1 | lia]|].
  split; [exact L4|]. eapply same_shape_trans; [exact M1|]. eapply same_shape_trans; [exact M2|]. by eapply same_shape_trans.
Qed.

(** ** What the handler finds *)

Context (fn : Z) (L : list (Z * Z)).
Hypothesis Hfn : F !! 11%nat = Some fn.
Hypothesis (Hcount : F !! 16%nat = Some (Z.of_nat (length L))) (Hhooks : exists rest, hs = L.*1 ++ rest) (Htypes : exists rest, ts = L.*2 ++ rest).
Hypothesis HTd : length Td = 2%nat.

(** Where the words of the chain are: five fields of the copy, and its arrays. *)
Lemma call_words_in e c h t y v :
  (y, v) ∈ call_words c u h t fn (signed_types L) ->
  (exists j : nat, j ∈ [7; 11; 14; 15; 16]%nat /\ y = c + 8 * Z.of_nat j /\ call_copy_fields e h t !! j = Some v) \/
  (exists j : nat, hs !! j = Some v /\ y = h + 8 * Z.of_nat j) \/ (exists (j : nat) w, ts !! j = Some w /\ y = t + 8 * Z.of_nat j /\ v = wrap 64 w).
Proof.
  destruct (call_copy_lookup e h t) as (_ & _ & C7 & C11 & C14 & C15 & C16 & _). rewrite Hfn in C11. rewrite Hcount in C16.
  assert (forall j h0 ty0, L !! j = Some (h0, ty0) -> hs !! j = Some h0 /\ ts !! j = Some ty0) as Hin.
  { intros j h0 ty0 Hj. destruct Hhooks as [r1 ->], Htypes as [r2 ->].
    split; (rewrite lookup_app_l by (rewrite length_fmap; by eapply lookup_lt_Some)); by rewrite list_lookup_fmap, Hj. }
  unfold call_words. rewrite !elem_of_app. intros [Hc|[Hh|Ht]].
  - left. unfold signed_types in Hc. rewrite length_fmap, !elem_of_cons, elem_of_nil in Hc. destruct Hc as [[= -> ->]|[[= -> ->]|[[= -> ->]|[[= -> ->]|[[= -> ->]|[]]]]]];
      [exists 7%nat | exists 11%nat | exists 14%nat | exists 15%nat | exists 16%nat]; (split; [clear; set_solver|]; by split).
  - right. left. apply elem_of_lookup_imap in Hh as (j & [h' ty] & [= -> ->] & Hj). unfold signed_types in Hj. rewrite list_lookup_fmap in Hj.
    destruct (L !! j) as [[h0 ty0]|] eqn:E; [|done]. injection Hj as <- <-. exists j. split; [by apply (Hin j h0 ty0) | done].
  - right. right. apply elem_of_lookup_imap in Ht as (j & [h' ty] & [= -> ->] & Hj). unfold signed_types in Hj. rewrite list_lookup_fmap in Hj.
    destruct (L !! j) as [[h0 ty0]|] eqn:E; [|done]. injection Hj as <- <-. exists j, ty0. split; [by apply (Hin j h0 ty0)|]. split; [done|]. by apply wrap_signed.
Qed.

Lemma call_entry_state e c h t F0 S m :
  laid (call_memory F0 S ++ call_clone_blocks td u (call_locked e) hs ts c h t) m -> call_state td c u h t fn (signed_types L) m.
Proof.
  intros [Hw _]. assert (words m c (call_copy_fields e h t)) as Wc by (by apply (Hw 7%nat)). assert (words m h hs) as Wh by (by apply (Hw 6%nat)).
  assert (words m t ts) as Wt by (by apply (Hw 5%nat)). assert (words m (td + 0x380) Td) as Wd by (by apply (Hw 4%nat)).
  destruct (call_copy_lookup e h t) as (_ & _ & _ & _ & _ & _ & _ & HlF). split.
  - intros y v [(j & _ & -> & Hj)|[(j & Hj & ->)|(j & w & Hj & -> & ->)]]%(call_words_in e); [by apply (words_read _ _ _ Wc) | by apply (words_read _ _ _ Wh)|].
    rewrite le_bytes_wrap. by apply (words_read _ _ _ Wt).
  - intros y n Hy. unfold call_places in Hy. rewrite !elem_of_cons, elem_of_nil in Hy. unfold s_sysret, s_returns, s_hookTypeCurrent in Hy.
    destruct Hy as [[= -> ->]|[[= -> ->]|[[= -> ->]|[[= -> ->]|[[= -> ->]|[[= -> ->]|[]]]]]]];
      [apply (words_writable m c (call_copy_fields e h t)) .. | apply (words_writable m (td + 0x380) Td) | apply (words_writable m (td + 0x380) Td)]; done || lia.
Qed.

Lemma call_entry_layout e c h t F0 S m :
  laid (call_memory F0 S ++ call_clone_blocks td u (call_locked e) hs ts c h t) m -> 0 < h < 2 ^ 64 -> 0 < t < 2 ^ 64 -> call_layout td c u h t fn (signed_types L).
Proof.
  intros [Hw Ha] Ph Pt. assert (words m c (call_copy_fields e h t)) as Wc by (by apply (Hw 7%nat)). assert (words m h hs) as Wh by (by apply (Hw 6%nat)). assert (words m t ts) as Wt by (by apply (Hw 5%nat)).
  destruct (call_copy_lookup e h t) as (_ & _ & _ & C11 & _ & _ & _ & HlF).
  assert (disjoint_ranges c 184 h (8 * Z.of_nat (length hs)) /\ disjoint_ranges c 184 t (8 * Z.of_nat (length ts)) /\ disjoint_ranges c 184 (td + 0x380) 16 /\
    disjoint_ranges h (8 * Z.of_nat (length hs)) (td + 0x380) 16 /\ disjoint_ranges t (8 * Z.of_nat (length ts)) (td + 0x380) 16) as (D1 & D2 & D3 & D4 & D5).
  { change 184 with (8 * Z.of_nat 23). rewrite <- HlF. change 16 with (8 * Z.of_nat 2). rewrite <- HTd.
    split; [by apply (Ha 7%nat 6%nat)|]. split; [by apply (Ha 7%nat 5%nat)|]. split; [by apply (Ha 7%nat 4%nat)|]. split; [by apply (Ha 6%nat 4%nat) | by apply (Ha 5%nat 4%nat)]. }
  unfold disjoint_ranges in *. split; [|split; [done | split; [|split; [lia | split; [lia | split]]]]].
  - intros x v y n Hx Hy. unfold call_places, s_sysret, s_returns, s_hookTypeCurrent in Hy. rewrite !elem_of_cons, elem_of_nil in Hy. unfold disjoint_ranges.
    apply (call_words_in e) in Hx as [(j & Hj & -> & _)|[(j & Hj%lookup_lt_Some & ->)|(j & w & Hj%lookup_lt_Some & -> & _)]];
      [rewrite !elem_of_cons, elem_of_nil in Hj|..]; destruct Hy as [[= -> ->]|[[= -> ->]|[[= -> ->]|[[= -> ->]|[[= -> ->]|[[= -> ->]|[]]]]]]]; lia.
  - apply (words_range _ _ _ Wc 11). by rewrite C11.
  - unfold signed_types. rewrite length_fmap. destruct Hhooks as [r1 E]. rewrite E, length_app, length_fmap in Hmax. lia.
  - apply Forall_fmap, Forall_lookup. intros i [h0 ty0] Hi. cbn [compose fst snd]. destruct Hhooks as [r1 E1], Htypes as [r2 E2]. split.
    + apply (words_range _ _ _ Wh i). rewrite E1, lookup_app_l by (rewrite length_fmap; by eapply lookup_lt_Some). by rewrite list_lookup_fmap, Hi.
    + pose proof (wrap_bound 64 ty0 ltac:(lia)). unfold signed. change (64 - 1) with 63. destruct (Z.ltb_spec (wrap 64 ty0) (2 ^ 63)); lia.
Qed.

(** ** The run *)

#[local] Opaque load64 load128 store64 store128.

(** Behind the call of the clone. *)
Definition call_prologue_tail : list (instr call_prologue_label) :=
  [Pop R11; Load 16 RAX RDI; Mov RAX RSI; LockInc 32 R11; Push R12; LockDec 24 R11; MovI 0 R12; XchgM R12 40 R11; Pop R12; JmpM 8 RAX].

Lemma call_head_run s m e m1 m2 m3 m4 :
  regs s RSP = sp -> regs s R12 = r12 -> regs s RDI = td -> regs s RSI = u -> mach s = m -> load64 (arg + 24) m = Some (e, m) ->
  store64 (arg + 24) (wrap 64 (e + 1)) m = Some (tt, m1) -> store64 (sp - 8) r12 m1 = Some (tt, m2) -> load64 (arg + 40) m2 = Some (0, m2) ->
  store64 (arg + 40) 1 m2 = Some (tt, m3) -> load64 (sp - 8) m3 = Some (r12, m3) -> store64 (sp - 8) arg m3 = Some (tt, m4) ->
  exists s', exec_list (code_from CallPrologue (SystemCallHookPrologue arg)) s = exec_list (CallM 0 R11 :: call_prologue_tail) s' /\ mach s' = m4 /\
    regs s' RSP = sp - 8 /\ regs s' R12 = r12 /\ regs s' R11 = arg /\ regs s' RDI = td /\ regs s' RSI = arg /\ regs s' RDX = u.
Proof.
  intros HS H12 HD HSI <- Q1 E1 E2 Q2 E3 Q3 E4. eexists. split.
  - change (code_from CallPrologue (SystemCallHookPrologue arg)) with (MovI arg R11 :: LockInc 24 R11 :: Push R12 :: MovI 1 R12 :: XchgM R12 40 R11 :: Test R12 ::
      Jne CallPrologueLoop :: Pop R12 :: Mov RSI RDX :: Mov R11 RSI :: Push R11 :: CallM 0 R11 :: call_prologue_tail).
    rewrite exec_MovI, (wrap_small 64 arg) by lia. erewrite (exec_add _ 1 24 R11); [|left; split; [clear; set_solver | done] | asm_simpl; exact Q1 | asm_simpl; exact E1].
    erewrite exec_Push by (asm_simpl; rewrite HS, H12; exact E2). rewrite exec_MovI. erewrite exec_XchgM; [|asm_simpl; exact Q2 | asm_simpl; exact E3].
    rewrite exec_Test. asm_simpl. erewrite exec_Jne by (by asm_simpl). change (signed 64 0 ?= 0) with Eq. cbv iota.
    erewrite exec_Pop by (asm_simpl; rewrite HS; exact Q3). rewrite !exec_Mov.
    erewrite exec_Push; [reflexivity|]. asm_simpl. rewrite HS. replace (sp - 8 + 8 - 8) with (sp - 8) by lia. exact E4.
  - asm_simpl. rewrite HS, HD, HSI. repeat (split; [done || lia|]). done.
Qed.

Lemma call_tail_run s m c k e m1 m2 m3 m4 :
  regs s RSP = sp - 8 -> regs s R12 = r12 -> regs s RAX = c -> mach s = m -> load64 (sp - 8) m = Some (arg, m) -> load64 (c + 16) m = Some (td, m) ->
  load64 (arg + 32) m = Some (k, m) -> store64 (arg + 32) (wrap 64 (k + 1)) m = Some (tt, m1) -> store64 (sp - 8) r12 m1 = Some (tt, m2) ->
  load64 (arg + 24) m2 = Some (e, m2) -> store64 (arg + 24) (wrap 64 (e + -1)) m2 = Some (tt, m3) -> load64 (arg + 40) m3 = Some (1, m3) ->
  store64 (arg + 40) 0 m3 = Some (tt, m4) -> load64 (sp - 8) m4 = Some (r12, m4) -> load64 (c + 8) m4 = Some (hd, m4) ->
  exists s', exec_list call_prologue_tail s = Some (Leave hd, s') /\ mach s' = m4 /\ regs s' RDI = td /\ regs s' RSI = c /\ regs s' RSP = sp /\ regs s' R12 = r12.
Proof.
  intros HS H12 HA' <- Q0 Q1 Q2 E1 E2 Q3 E3 Q4 E4 Q5 Q6. eexists. split.
  - unfold call_prologue_tail. erewrite exec_Pop by (rewrite HS; exact Q0). erewrite exec_Load by (asm_simpl; rewrite HA'; exact Q1). rewrite exec_Mov.
    erewrite (exec_add _ 1 32 R11); [|left; split; [clear; set_solver | done] | asm_simpl; exact Q2 | asm_simpl; exact E1].
    erewrite exec_Push; [|asm_simpl; rewrite HS, H12; replace (sp - 8 + 8 - 8) with (sp - 8) by lia; exact E2].
    erewrite (exec_add _ (-1) 24 R11); [|by right | asm_simpl; exact Q3 | asm_simpl; exact E3].
    rewrite exec_MovI. erewrite exec_XchgM; [|asm_simpl; exact Q4 | asm_simpl; exact E4].
    erewrite exec_Pop; [|asm_simpl; rewrite HS; replace (sp - 8 + 8 - 8) with (sp - 8) by lia; exact Q5].
    apply exec_JmpM. asm_simpl. rewrite HA'. exact Q6.
  - asm_simpl. rewrite HS, HA'. repeat (split; [done || lia|]). done.
Qed.

(** C12. A hooked system call gets from its first instruction to its handler: the
    prologue takes the free lock, has the structure copied with the thread and
    the arguments of the call, counts the call and gives the lock back. The
    handler starts with the thread and the copy as its arguments, on the
    caller's stack, in a state in which it is the chain of the structure's
    hooks; the structure itself is as before but for the counted call. *)
Theorem call_prologue_prepares_handler s m s0 s1 :
  regs s RSP = sp -> regs s R12 = r12 -> regs s RDI = td -> regs s RSI = u -> mach s = m -> blocks_ok m ->
  laid (call_memory F [s0; s1; to]) m -> call_clone_room hs <= kroom m ->
  exists c h t k s', run (SystemCallHookPrologue arg) 1 CallPrologue s = Some (hd, s') /\
    regs s' RDI = td /\ regs s' RSI = c /\ regs s' RSP = sp /\ regs s' R12 = r12 /\ load64 sp (mach s') = Some (to, mach s') /\
    words (mach s') arg (<[4%nat := wrap 64 (k + 1)]> F) /\ F !! 4%nat = Some k /\
    call_layout td c u h t fn (signed_types L) /\ call_state td c u h t fn (signed_types L) (mach s').
Proof.
  intros HS H12 HD HSI Hm Hb L0 Hroom. destruct (lookup_lt_is_Some_2 F 3 ltac:(lia)) as [e He].
  assert (0 <= e < 2 ^ 64) as Be by (eapply (words_range m arg F); [by apply (laid_words _ _ L0 0) | exact He]).
  destruct (entered_words m s0 s1 e He L0) as (m1 & m2 & m3 & m4 & m5 & E1 & E2 & Q2 & E3 & Q3 & E4 & E5 & Q4 & L5 & M5).
  fold (call_locked e) in L5. set (F1 := call_locked e) in *.
  assert (forall i, i <> 3%nat -> i <> 5%nat -> F1 !! i = F !! i) as HF1 by (intros i N3 N5; unfold F1, call_locked; by rewrite !list_lookup_insert_ne).
  assert (words m5 arg F1 /\ words m5 H hs /\ words m5 T ts) as (W1 & W2 & W3) by (split; [by apply (laid_words _ _ L5 0) | split; [by apply (laid_words _ _ L5 1) | by apply (laid_words _ _ L5 2)]]).
  assert (blocks_ok m5) as Hb5 by (destruct M5 as [-> M5]; by apply blocks_ok_mapped; [|intros x; apply M5]).
  pose proof (same_shape_room m m5 M5) as Hr5. assert (call_clone_room hs <= kroom m5) as Hroom5 by lia.
  destruct (call_clone_run arg H T f mt td u F1 hs ts) with (m := m5) as (c & h & t & m6 & E6 & G); try done; try (by rewrite HF1).
  { unfold F1, call_locked. by rewrite !length_insert. }
  pose proof (grown_laid _ _ _ _ G L5) as L6. destruct (left_words m6 e c h t (wrap 64 (return_address 10)) He Be) as
    (k & n1 & n2 & n3 & n4 & HF4 & Q0 & Q1 & Qk & N1 & N2 & Q5 & N3 & Q6 & N4 & Q7 & Q8 & L7 & _).
  { apply L6. intros a l. unfold call_memory. rewrite !elem_of_cons, elem_of_nil.
    intros [[= -> ->]|[[= -> ->]|[[= -> ->]|[[= -> ->]|[[= -> ->]|[]]]]]]; [unfold F1, call_locked; rewrite !length_insert; lia | lia | lia | cbn; lia | lia]. }
  destruct (call_head_run s m e m1 m2 m3 m4 HS H12 HD HSI Hm) as (s2 & R2 & Hm2 & HS2 & H122 & H112 & HD2 & HSI2 & HDX2); try done.
  { eapply (laid_load _ m 0 arg F 3); [exact L0 | done | done | lia]. }
  destruct (Hclone (sp - 16) (parameter_registers s2) m5 c m6) as (v & Ev & Hv); [exact HD2 | exact HSI2 | exact HDX2 | exact E6|].
  destruct (exec_CallM 0 R11 call_prologue_tail s2 fc v m6) as (s3 & R3 & Hm3 & H123 & HS3 & HA3 & _).
  { rewrite H112, Hm2. exact Q4. }
  { rewrite HS2, Hm2. replace (sp - 8 - 8) with (sp - 16) by lia. erewrite bind_some by exact E5. exact Ev. }
  destruct (call_tail_run s3 m6 c k (wrap 64 (e + 1)) n1 n2 n3 n4) as (s4 & R4 & Hm4 & Hf4); try done; [lia | congruence | congruence |].
  exists c, h, t, k, s4. rewrite Hm4. split; [cbn [run]; erewrite bind_some by (rewrite R2, R3; exact R4); done|]. destruct Hf4 as (? & ? & ? & ?). do 4 (split; [done|]).
  split; [eapply (laid_load _ n4 3 (sp - 16) _ 2); [exact L7 | done | done | lia]|]. split; [by apply (laid_words _ _ L7 0)|].
  split; [done|]. split; [|by eapply call_entry_state]. destruct (grown_words _ _ _ G h hs) as (_ & Ph & _); [clear; unfold call_clone_blocks; set_solver|].
  destruct (grown_words _ _ _ G t ts) as (_ & Pt & _); [clear; unfold call_clone_blocks; set_solver|]. by eapply call_entry_layout.
Qed.
End Prologue.

Section CallWitness.
#[local] Existing Instance bump_allocator.
#[local] Existing Instance bump_allocator_laws.
#[local] Existing Instance bump_room_laws.
#[local] Existing Instance allocator_code.

(** The clone at 0x100, other code returns. *)
Definition call_clone_abi : AbiCode := {|
  abi_call f _ z :=
    if f =? 0x100 then let! c := ps4PayloadSystemCallHookArgumentClone (gpr z 1) (gpr z 2) (gpr z 3) in ret (Returns c 0 0 0) else ret (Returns 0 0 0 0);
  abi_scratch _ _ _ := 0xdead;
  abi_scratch_xmm _ _ _ := 0xbeef;
  return_address n := 0x8000 - Z.of_nat n |}.
#[local] Existing Instance call_clone_abi.

Definition hooked_call_fields : list Z :=
  [0x100; 0x180; 0; 0; 0; 0; 0; 0; 0; 0; 0; 0x300; 0; 0; 2 ^ 63 + 0x1000; 2 ^ 63 + 0x2000; 2; 8; 0; 0; 0x500; 0x600; 1].
Definition hooked_call_machine : machine :=
  set_allocs {[ 2 ^ 63 := 184; 2 ^ 63 + 0x1000 := 64; 2 ^ 63 + 0x2000 := 64 ]}
    (booted [(2 ^ 63, hooked_call_fields ≫= le_bytes 8); (2 ^ 63 + 0x1000, copied_arrays.1 ≫= le_bytes 8); (2 ^ 63 + 0x2000, copied_arrays.2 ≫= le_bytes 8);
             (0x6ff0, [0; 0; 0x9000] ≫= le_bytes 8); (0x5380, repeat 0 16)] [] []).
Definition system_caller_regs (r : reg) : Z := match r with RDI => 0x5000 | RSI => 0x7100 | R12 => 0x77 | RSP => 0x7000 | _ => 0 end.
Definition system_caller : processor := Processor system_caller_regs (fun _ => 0) None hooked_call_machine.

Lemma hooked_call_laid :
  laid (call_memory (2 ^ 63) (2 ^ 63 + 0x1000) (2 ^ 63 + 0x2000) 0x5000 0x7000 copied_arrays.1 copied_arrays.2 [0; 0] hooked_call_fields [0; 0; 0x9000]) hooked_call_machine.
Proof.
  split.
  - intros k a l Hk. apply words_check_spec. do 5 (destruct k as [|k]; [injection Hk as <- <-; by vm_compute|]). done.
  - intros j k a l b l' Hne Hj Hk.
    do 5 (destruct j as [|j]; [injection Hj as <- <-; do 5 (destruct k as [|k]; [first [done | injection Hk as <- <-; vm_decide]|]); done|]). done.
Qed.

(** The prologue of the hooked system call leads to the handler at 0x180. *)
Lemma call_prologue_prepares_handler_witness :
  exists c h t s', run (SystemCallHookPrologue (2 ^ 63)) 1 CallPrologue system_caller = Some (0x180, s') /\ regs s' RDI = 0x5000 /\ regs s' RSI = c /\
    call_state 0x5000 c 0x7100 h t 0x300 [(0x200, -1); (0x210, 2)] (mach s').
Proof.
  destruct (call_prologue_prepares_handler (2 ^ 63) (2 ^ 63 + 0x1000) (2 ^ 63 + 0x2000) 0x500 1 0x5000 0x7100 0x7000 0x77 0x9000 0x100 0x180 hooked_call_fields
    copied_arrays.1 copied_arrays.2 [0; 0]) with (fn := 0x300) (L := copied_hooks) (s := system_caller) (m := hooked_call_machine) (s0 := 0) (s1 := 0)
    as (c & h & t & k & s' & R & HD & HS & _ & _ & _ & _ & _ & _ & Hst).
  - done.
  - done.
  - done.
  - done.
  - done.
  - unfold copied_arrays. cbn. lia.
  - done.
  - done.
  - done.
  - done.
  - done.
  - done.
  - done.
  - done.
  - done.
  - done.
  - done.
  - intros s z n c n' H1 H2 H3 E. exists (Returns c 0 0 0). split; [|done].
    change (abi_call 0x100 s z n) with ((let! c := ps4PayloadSystemCallHookArgumentClone (gpr z 1) (gpr z 2) (gpr z 3) in ret (Returns c 0 0 0)) n).
    rewrite H1, H2, H3. by erewrite bind_some by exact E.
  - done.
  - done.
  - by exists [0; 0; 0; 0; 0; 0].
  - by exists [0; 0; 0; 0; 0; 0].
  - done.
  - done.
  - done.
  - done.
  - done.
  - done.
  - apply blocks_check_spec. by vm_compute.
  - apply hooked_call_laid.
  - vm_compute. discriminate.
  - exists c, h, t, s'. exact (conj R (conj HD (conj HS Hst))).
Defined.
End CallWitness.
