(* ===== verification/RegisterStack.v ===== *)
(** * Parameter registers on the stack

    [base/assembler_register_parameter/standard/source/register.s]: a function
    that leaves a [Ps4RegisterParameters] on its caller's stack, and one that
    takes it off again. *)

From stdpp Require Import base gmap list strings.
From S2P Require Import Prelude Errors Uthash Machine Cache CacheMap Reference KernelBase KernelMemory Symbol Words Template FunctionHook SystemCall HookHandler HookChain Assembly Ranges FunctionHandler HookCall HookEntry.

Definition ps4AssemblerRegisterParameterPush : list (unit * list (instr unit)) :=
  [(tt, [SubI 192 RSP; Store RAX 8 RSP; Load 192 RSP RAX; MovdquStore 7 176 RSP; MovdquStore 6 160 RSP; MovdquStore 5 144 RSP;
         MovdquStore 4 128 RSP; MovdquStore 3 112 RSP; MovdquStore 2 96 RSP; MovdquStore 1 80 RSP; MovdquStore 0 64 RSP;
         Store R9 56 RSP; Store R8 48 RSP; Store RCX 40 RSP; Store RDX 32 RSP; Store RSI 24 RSP; Store RDI 16 RSP; Store RAX 0 RSP; Ret])].

Definition ps4AssemblerRegisterParameterPop : list (unit * list (instr unit)) :=
  [(tt, [Load 0 RSP RAX; Load 16 RSP RDI; Load 24 RSP RSI; Load 32 RSP RDX; Load 40 RSP RCX; Load 48 RSP R8; Load 56 RSP R9;
         MovdquLoad 64 RSP 0; MovdquLoad 80 RSP 1; MovdquLoad 96 RSP 2; MovdquLoad 112 RSP 3;
         MovdquLoad 128 RSP 4; MovdquLoad 144 RSP 5; MovdquLoad 160 RSP 6; MovdquLoad 176 RSP 7;
         Store RAX 192 RSP; Load 8 RSP RAX; AddI 192 RSP; Ret])].

(** The stores of the first, with the stack pointer [b] and the return address. *)
Definition push_stores (b to : Z) (x : parameters) : K unit :=
  do! store64 (b + 8) (gpr x 0) in
  do! store128 (b + 176) (xmm x 7) in do! store128 (b + 160) (xmm x 6) in do! store128 (b + 144) (xmm x 5) in do! store128 (b + 128) (xmm x 4) in
  do! store128 (b + 112) (xmm x 3) in do! store128 (b + 96) (xmm x 2) in do! store128 (b + 80) (xmm x 1) in do! store128 (b + 64) (xmm x 0) in
  do! store64 (b + 56) (gpr x 6) in do! store64 (b + 48) (gpr x 5) in do! store64 (b + 40) (gpr x 4) in
  do! store64 (b + 32) (gpr x 3) in do! store64 (b + 24) (gpr x 2) in do! store64 (b + 16) (gpr x 1) in
  store64 (b + 0) to.

Lemma push_stores_run b to x m : writable_range m b 192 -> exists m', push_stores b to x m = Some (tt, m') /\ wrote b 192 m m'.
Proof.
  intros Hw. unfold push_stores, store64, store128. pose proof (wrote_refl b 192 m) as W. do 15 store_step W Hw.
  match goal with |- exists m', store_bytes ?y ?l ?n = _ /\ _ => destruct (wrote_store b 192 n y l (wrote_writable _ _ _ _ _ _ W Hw)) as (m' & E & W') end;
    [lia | rewrite length_le_bytes; lia|]. exists m'. split; [exact E | exact (wrote_trans _ _ _ _ _ W W')].
Qed.

Lemma push_stores_reads b to x m m' :
  push_stores b to x m = Some (tt, m') -> parameters_at (b + 8) x m' /\ mem_read (mem m') (b + 0) 8 = Some (le_bytes 8 to).
Proof.
  unfold push_stores, store128, store64. intros E. do 15 (let n := fresh "m" in let F := fresh "F" in apply bind_inv in E as ([] & n & F & E)).
  split; [|stored]. split; intros i Hi; (do 7 (destruct i as [|i]; [stored|])); [lia|]. destruct i as [|i]; [stored | lia].
Qed.

#[local] Opaque load64 load128 store64 store128.

Section Run.
Context `{AbiCode}.

(** A function without labels. *)
Lemma run_straight (l : list (instr unit)) s a s' : exec_list l s = Some (Leave a, s') -> run [(tt, l)] 1 tt s = Some (a, s').
Proof.
  intros E. assert (code_from tt [(tt, l)] = l) as Hc by (cbn; by rewrite app_nil_r). cbn [run]. rewrite Hc. by erewrite bind_some by exact E.
Qed.

Lemma push_run s R to x m' :
  regs s RSP = R -> parameter_registers s = x -> 0 <= to < 2 ^ 64 -> load64 R (mach s) = Some (to, mach s) -> push_stores (R - 192) to x (mach s) = Some (tt, m') ->
  exists s', run ps4AssemblerRegisterParameterPush 1 tt s = Some (to, s') /\ mach s' = m' /\ regs s' RSP = R - 184.
Proof.
  intros HS Hx Hto Ht E. destruct (push_stores_reads _ _ _ _ _ E) as [_ Hret]. unfold push_stores in E. take_op E. rename m into m0.
  assert (load64 (R - 192 + 192) m0 = Some (to, m0)) as Ht0.
  { replace (R - 192 + 192) with R by lia. eapply (same_range_load64 (mach s) _ R (R + 8)); [|lia | lia | exact Ht].
    eapply same_range_store64; [exact E0 | unfold disjoint_ranges; lia]. }
  rewrite <- Hx in *. unfold parameter_registers, xmm, gpr in *. cbn [p_gpr p_xmm seq fmap list_fmap lookup list_lookup default from_option id] in *. do 14 take_op E.
  eexists. split; [|split].
  - apply run_straight. rewrite exec_SubI.
    erewrite exec_Store by (asm_simpl; rewrite HS; known). erewrite exec_Load by (asm_simpl; rewrite HS; known).
    do 8 (erewrite exec_MovdquStore by (asm_simpl; rewrite HS; known)). do 7 (erewrite exec_Store by (asm_simpl; rewrite HS; known)).
    erewrite exec_Ret; [reflexivity|]. asm_simpl. rewrite HS. rewrite Z.add_0_r in Hret. rewrite (load64_run _ _ _ Hret), le_val_word by done. done.
  - by asm_simpl.
  - asm_simpl. rewrite HS. lia.
Qed.

Lemma pop_run s b to x m' :
  regs s RSP = b -> parameters_ok x -> parameters_at (b + 8) x (mach s) -> 0 <= to < 2 ^ 64 -> load64 b (mach s) = Some (to, mach s) ->
  store64 (b + 192) to (mach s) = Some (tt, m') ->
  exists s', run ps4AssemblerRegisterParameterPop 1 tt s = Some (to, s') /\ mach s' = m' /\ regs s' RSP = b + 200 /\ parameter_registers s' = x.
Proof.
  intros HS Hok [Hg Hx] Hto Ht E. set (m := mach s) in *.
  assert (forall i : nat, (i < 7)%nat -> load64 (b + (8 + 8 * Z.of_nat i)) m = Some (gpr x i, m)) as Lg.
  { intros i Hi. replace (b + (8 + 8 * Z.of_nat i)) with (b + 8 + 8 * Z.of_nat i) by lia. rewrite (load64_run _ _ _ (Hg i Hi)). by rewrite gpr_word. }
  assert (forall i : nat, (i < 8)%nat -> load128 (b + (64 + 16 * Z.of_nat i)) m = Some (xmm x i, m)) as Lx.
  { intros i Hi. replace (b + (64 + 16 * Z.of_nat i)) with (b + 8 + (56 + 16 * Z.of_nat i)) by lia. rewrite (load128_run _ _ _ (Hx i Hi)). by rewrite xmm_word. }
  assert (load64 (b + 8) m' = Some (gpr x 0, m')) as L0.
  { eapply (same_range_load64 m _ (b + 8) (b + 16)); [|lia | lia | exact (Lg 0%nat ltac:(lia))]. eapply same_range_store64; [exact E | unfold disjoint_ranges; lia]. }
  assert (load64 (b + 192) m' = Some (to, m')) as Lr by (rewrite (store64_load64 _ _ _ _ _ E); by rewrite wrap_small).
  eexists. split; [|split; [|split]].
  - apply run_straight. erewrite exec_Load by (rewrite HS, Z.add_0_r; exact Ht).
    let rec go i k := lazymatch k with O => idtac | S ?k' => erewrite exec_Load by (asm_simpl; rewrite HS; exact (Lg i ltac:(lia))); go (S i) k' end in go 1%nat 6%nat.
    let rec go i k := lazymatch k with O => idtac | S ?k' => erewrite exec_MovdquLoad by (asm_simpl; rewrite HS; exact (Lx i ltac:(lia))); go (S i) k' end in go 0%nat 8%nat.
    erewrite exec_Store by (asm_simpl; rewrite HS; exact E). erewrite exec_Load by (asm_simpl; rewrite HS; exact L0). rewrite exec_AddI.
    apply exec_Ret. asm_simpl. rewrite HS. exact Lr.
  - by asm_simpl.
  - asm_simpl. rewrite HS. lia.
  - unfold parameter_registers. cbn [seq fmap list_fmap]. asm_simpl. symmetry. by apply parameters_words.
Qed.

(** C23. The two functions are each other's inverse: the first leaves all parameter
    registers as a [Ps4RegisterParameters] on top of its caller's stack; the
    second, whatever the caller did with its registers in between, gives every
    register back, and the stack pointer is the one from before the first. *)
Theorem register_parameter_roundtrip s R to x :
  regs s RSP = R -> parameter_registers s = x -> parameters_ok x -> 0 <= to < 2 ^ 64 -> load64 R (mach s) = Some (to, mach s) -> writable_range (mach s) (R - 192) 200 ->
  exists s1, run ps4AssemblerRegisterParameterPush 1 tt s = Some (to, s1) /\ regs s1 RSP = R - 184 /\ parameters_load (R - 184) (mach s1) = Some (x, mach s1) /\
    forall s2 to2, 0 <= to2 < 2 ^ 64 -> regs s2 RSP = R - 192 -> store64 (R - 192) to2 (mach s1) = Some (tt, mach s2) ->
    exists s3, run ps4AssemblerRegisterParameterPop 1 tt s2 = Some (to2, s3) /\ regs s3 RSP = R + 8 /\ parameter_registers s3 = x.
Proof.
  intros HS Hx Hok Hto Ht Hw. destruct (push_stores_run (R - 192) to x (mach s)) as (m1 & E1 & W1); [apply (writable_range_sub _ (R - 192) 200); [done | lia | lia]|].
  destruct (push_run s R to x m1 HS Hx Hto Ht E1) as (s1 & R1 & Hm1 & HS1). destruct (push_stores_reads _ _ _ _ _ E1) as [Hat _].
  replace (R - 192 + 8) with (R - 184) in Hat by lia. exists s1. rewrite Hm1. split; [done|]. split; [done|]. split; [by apply parameters_at_load|].
  intros s2 to2 Hto2 HS2 E2. assert (parameters_at (R - 184) x (mach s2)) as Hat2.
  { eapply parameters_at_same; [exact Hat|]. eapply same_range_store64; [exact E2 | unfold disjoint_ranges; lia]. }
  destruct (wrote_store64 (R - 192) 200 (mach s2) (R - 192 + 192) to2) as (m3 & E3 & _); [|lia | lia|].
  { destruct (wrote_store64 (R - 192) 200 m1 (R - 192) to2) as (n & En & Wn); [by eapply wrote_writable | lia | lia|].
    rewrite E2 in En. injection En as En. rewrite <- En in Wn. eapply wrote_writable; [exact Wn | by eapply wrote_writable]. }
  destruct (pop_run s2 (R - 192) to2 x m3 HS2 Hok) as (s3 & R3 & _ & HS3 & Hx3);
    [by replace (R - 192 + 8) with (R - 184) by lia | done | rewrite (store64_load64 _ _ _ _ _ E2); by rewrite wrap_small | done|].
  exists s3. split; [done|]. split; [lia | done].
Qed.
End Run.

Section StackWitness.
#[local] Existing Instance pure_abi.

Lemma register_parameter_roundtrip_witness :
  exists s1, run ps4AssemblerRegisterParameterPush 1 tt entry_processor = Some (0x9000, s1) /\ regs s1 RSP = 0x7000 - 184.
Proof.
  destruct (register_parameter_roundtrip entry_processor 0x7000 0x9000 caller_parameters) as (s1 & R & HS & _).
  - done.
  - done.
  - split; [done|]. split; [done|]. vm_decide.
  - done.
  - vm_equal.
  - vm_decide.
  - exists s1. exact (conj R HS).
Defined.
End StackWitness.
