(* ===== verification/Socket.v ===== *)
(** * Kernel sockets and descriptors

    [common/kernel/source/kernel/socket.c] and [descriptor.c]: TCP sockets in
    the kernel, formatted printing and scanning on them, and writing to a
    descriptor. The kernel's network functions and [vsscanf] are parameters. *)

From stdpp Require Import base gmap list strings.
From S2P Require Import Prelude Errors Uthash Machine Reference KernelBase KernelMemory Cache CacheMap CacheGlobal Symbol HexDump.

(** ** Constants and structures *)

Definition PF_INET : Z := 2.
Definition AF_INET : Z := 2.
Definition SOCK_STREAM : Z := 1.
Definition IPPROTO_TCP : Z := 6.
Definition SOL_SOCKET : Z := 0xffff.
Definition SO_ACCEPTCONN : Z := 0x0002.
Definition SO_REUSEADDR : Z := 0x0004.
Definition SO_REUSEPORT : Z := 0x0200.
Definition SS_ISCONNECTED : Z := 0x0002.
Definition SS_NBIO : Z := 0x0100.
Definition SS_ISCONFIRMING : Z := 0x0400.
Definition SBS_CANTRCVMORE : Z := 0x0020.
Definition SQ_COMP : Z := 0x1000.
Definition MSG_WAITALL : Z := 0x40.
Definition EINVAL : Z := 22.
Definition EWOULDBLOCK : Z := 35.
Definition ECONNABORTED : Z := 53.
Definition ENOTCONN : Z := 57.

(** [struct socket] (sys/socketvar.h) up to its receive buffer. *)
Definition so_count : Z := 0.
Definition so_options : Z := 8.
Definition so_state : Z := 16.
Definition so_qstate : Z := 20.
Definition so_head : Z := 48.
Definition so_comp : Z := 72.
Definition so_list : Z := 88.
Definition so_qlen : Z := 104.
Definition so_timeo : Z := 110.
Definition so_error : Z := 112.
Definition so_sigio : Z := 120.

(** [struct sockaddr_in] for any local address and [htons(port)]. *)
Definition any_address (port : Z) : list Z :=
  [16; AF_INET; wrap 16 port / 256; wrap 16 port mod 256; 0; 0; 0; 0] ++ repeat 0 8.

(** What the kernel provides: the socket layer, sleeping on a mutex, writing to
    a descriptor, scanning. [soreceive] also gives how much of the buffer is
    left, [so_rcv_sb_mtx] and [so_rcv_sb_state] are where a socket keeps the
    mutex and the state of its receive buffer. *)
Class KernelSockets := {
  so_rcv_sb_mtx : Z;
  so_rcv_sb_state : Z;
  socreate : Z -> Z -> Z -> Z -> Z -> K (Z * option Z);
  soclose : Z -> K Z;
  sobind : Z -> list Z -> Z -> K Z;
  solisten : Z -> Z -> Z -> K Z;
  sosetopt : Z -> Z -> Z -> list Z -> K Z;
  pru_peeraddr : Z -> K Z;
  sa_len : Z -> K Z;
  msleep : Z -> Z -> K Z;
  KNOTE_UNLOCKED : Z -> K unit;
  fgetown : Z -> K Z;
  fsetown : Z -> Z -> K unit;
  soaccept : Z -> K (Z * Z);
  sosend : Z -> Z -> Z -> Z -> K Z;
  soreceive : Z -> Z -> Z -> Z -> Z -> K (Z * Z);
  kern_writev : Z -> Z -> Z -> Z -> K Z;
  vsscanf : Z -> list Z -> K Z
}.

Section Socket.
Context `{KernelDlSym} `{KernelAllocator} `{KernelSysctl} `{KernelStructs} `{KernelSockets}.

(** ** Creating and closing *)

(** The socket stored in [*sock] is the second component. *)
Definition ps4KernelSocketCreate (td : Z) (sock : out) (domain type protocol : Z) : K (Z * option Z) :=
  if td =? NULL then ret (PS4_ERROR_ARGUMENT_THREAD_MISSING, None)
  else match sock with
  | ONull => ret (PS4_ERROR_ARGUMENT_PRIMARY_MISSING, None)
  | OPtr =>
      let! p := load64 (td + td_proc) in
      let! cred := load64 (p + p_ucred) in
      socreate domain type protocol cred td
  end.

Definition ps4KernelSocketTCPCreate (td : Z) (sock : out) : K (Z * option Z) :=
  ps4KernelSocketCreate td sock PF_INET SOCK_STREAM IPPROTO_TCP.

Definition ps4KernelSocketDestroy (sock : Z) : K Z :=
  if sock =? NULL then ret PS4_ERROR_ARGUMENT_PRIMARY_MISSING else soclose sock.

Definition ps4KernelSocketClose (sock : Z) : K Z := ps4KernelSocketDestroy sock.

Definition ps4KernelSocketBind (td sock : Z) (address : list Z) : K Z :=
  if td =? NULL then ret PS4_ERROR_ARGUMENT_THREAD_MISSING
  else if sock =? NULL then ret PS4_ERROR_ARGUMENT_PRIMARY_MISSING
  else sobind sock address td.

Definition ps4KernelSocketListen (td sock backlog : Z) : K Z :=
  if td =? NULL then ret PS4_ERROR_ARGUMENT_THREAD_MISSING
  else if sock =? NULL then ret PS4_ERROR_ARGUMENT_PRIMARY_MISSING
  else solisten sock backlog td.

(** [value] are the bytes of the option. *)
Definition ps4KernelSocketOptionSet (sock level name : Z) (value : list Z) : K Z :=
  if sock =? NULL then ret PS4_ERROR_ARGUMENT_MISSING else sosetopt sock level name value.

(** The address and its length are the second component. *)
Definition ps4KernelSocketAddressGet (sock : Z) (address address_len : out) : K (Z * option (Z * option Z)) :=
  if sock =? NULL then ret (PS4_ERROR_ARGUMENT_PRIMARY_MISSING, None)
  else match address, address_len with
  | ONull, _ | _, ONull => ret (PS4_ERROR_ARGUMENT_MISSING, None)
  | OPtr, OPtr =>
      let! state := load32 (sock + so_state) in
      if Z.land state (Z.lor SS_ISCONNECTED SS_ISCONFIRMING) =? 0 then ret (ENOTCONN, None)
      else
        let! a := pru_peeraddr sock in
        if a =? NULL then ret (PS4_OK, Some (a, None))
        else let! n := sa_len a in ret (PS4_OK, Some (a, Some n))
  end.

(** [ps4KernelMemoryFill] of a local variable: only the protection bit shows. *)
Definition fill_local : K unit :=
  do! ps4KernelProtectionWriteDisable in ps4KernelProtectionWriteEnable.

Definition ps4KernelSocketTCPServerCreate (td : Z) (oserver : out) (port backlog : Z) : K (Z * option Z) :=
  if td =? NULL then ret (PS4_ERROR_ARGUMENT_THREAD_MISSING, None)
  else match oserver with
  | ONull => ret (PS4_ERROR_ARGUMENT_PRIMARY_MISSING, None)
  | OPtr =>
      do! fill_local in
      let! s := ps4KernelSocketTCPCreate td OPtr in
      if negb (fst s =? PS4_OK) then ret (fst s, None)
      else
        let server := default 0 (snd s) in
        do! ps4KernelSocketOptionSet server SOL_SOCKET SO_REUSEADDR (le_bytes 4 1) in
        do! ps4KernelSocketOptionSet server SOL_SOCKET SO_REUSEPORT (le_bytes 4 1) in
        let! r := ps4KernelSocketBind td server (any_address port) in
        if negb (r =? PS4_OK) then do! ps4KernelSocketDestroy server in ret (r, None)
        else
          let! r := ps4KernelSocketListen td server backlog in
          if negb (r =? PS4_OK) then do! ps4KernelSocketDestroy server in ret (r, None)
          else ret (PS4_OK, Some server)
  end.

(** ** Accepting *)

(** [while(TAILQ_EMPTY(&head->so_comp) && head->so_error == 0)]: the code it
    returns with, if it does, the mutex released. *)
Fixpoint accept_wait (fuel : nat) (head accept_mtx : Z) : K (option Z) :=
  match fuel with
  | O => fault
  | S fuel' =>
      let! first := load64 (head + so_comp) in
      let! error := load16 (head + so_error) in
      if (first =? NULL) && (error =? 0) then
        let! sb_state := load16 (head + so_rcv_sb_state) in
        if negb (Z.land sb_state SBS_CANTRCVMORE =? 0) then
          do! mtx_unlock accept_mtx in ret (Some ECONNABORTED)
        else
          let! r := msleep (head + so_timeo) accept_mtx in
          if negb (r =? 0) then do! mtx_unlock accept_mtx in ret (Some r)
          else accept_wait fuel' head accept_mtx
      else ret None
  end.

(** [TAILQ_REMOVE(&head->so_comp, so, so_list)] *)
Definition queue_remove (head so : Z) : K unit :=
  let! next := load64 (so + so_list) in
  let! prev := load64 (so + so_list + 8) in
  do! (if next =? NULL then store64 (head + so_comp + 8) prev else store64 (next + so_list + 8) prev) in
  store64 prev next.

(** The first connection, off the queue and detached from the listening socket. *)
Definition accept_take (head : Z) : K Z :=
  let! so := load64 (head + so_comp) in
  do! mtx_lock (so + so_rcv_sb_mtx) in
  let! count := load32 (so + so_count) in
  do! store32 (so + so_count) (count + 1) in
  do! queue_remove head so in
  let! qlen := load16 (head + so_qlen) in
  do! store16 (head + so_qlen) (qlen - 1) in
  let! state := load32 (so + so_state) in
  let! hstate := load32 (head + so_state) in
  do! store32 (so + so_state) (Z.lor state (Z.land hstate SS_NBIO)) in
  let! qstate := load32 (so + so_qstate) in
  do! store32 (so + so_qstate) (Z.ldiff qstate SQ_COMP) in
  do! store64 (so + so_head) NULL in
  do! mtx_unlock (so + so_rcv_sb_mtx) in
  ret so.

(** Behind the queue: signals, the peer's address, which is freed, and the
    client. *)
Definition accept_finish (head so : Z) : K (Z * option Z) :=
  do! KNOTE_UNLOCKED head in
  let! pgid := fgetown (head + so_sigio) in
  do! (if pgid =? 0 then ret tt else fsetown pgid (so + so_sigio)) in
  let! a := soaccept so in
  if snd a =? NULL then ret (fst a, Some so)
  else
    let! m := ps4KernelSymbolLookUp (Some "M_SONAME"%string) OPtr in
    if fst m =? 0 then do! free (snd a) in ret (fst a, Some so)
    else let! m := ps4KernelSymbolLookUp (Some "M_SONAME"%string) OPtr in ret (fst m, None).

(** From [mtx_lock(accept_mtx)] to its release: the code the function returns
    with, or the connection. *)
Definition accept_locked (fuel : nat) (head accept_mtx : Z) : K (Z + Z) :=
  do! mtx_lock accept_mtx in
  let! state := load32 (head + so_state) in
  let! first := load64 (head + so_comp) in
  if negb (Z.land state SS_NBIO =? 0) && (first =? NULL) then
    do! mtx_unlock accept_mtx in ret (inl EWOULDBLOCK)
  else
    let! w := accept_wait fuel head accept_mtx in
    match w with
    | Some r => ret (inl r)
    | None =>
        let! so := accept_take head in
        do! mtx_unlock accept_mtx in
        ret (inr so)
    end.

Definition ps4KernelSocketAccept (fuel : nat) (head : Z) (client : out) : K (Z * option Z) :=
  if head =? NULL then ret (PS4_ERROR_ARGUMENT_PRIMARY_MISSING, None)
  else match client with
  | ONull => ret (PS4_ERROR_ARGUMENT_MISSING, None)
  | OPtr =>
      let! options := load32 (head + so_options) in
      do! store32 (head + so_options) (Z.lor options SO_ACCEPTCONN) in
      let! options := load32 (head + so_options) in
      if Z.land options SO_ACCEPTCONN =? 0 then ret (EINVAL, None)
      else
        let! l := ps4KernelSymbolLookUp (Some "accept_mtx"%string) OPtr in
        if negb (fst l =? 0) then
          let! l := ps4KernelSymbolLookUp (Some "accept_mtx"%string) OPtr in ret (fst l, None)
        else
          let! a := accept_locked fuel head (default 0 (snd l)) in
          match a with
          | inl r => ret (r, None)
          | inr so => accept_finish head so
          end
  end.

Definition ps4KernelSocketTCPServerCreateAcceptThenDestroy (fuel : nat) (td : Z) (client : out) (port : Z)
    : K (Z * option Z) :=
  if td =? NULL then ret (PS4_ERROR_ARGUMENT_THREAD_MISSING, None)
  else match client with
  | ONull => ret (PS4_ERROR_ARGUMENT_PRIMARY_MISSING, None)
  | OPtr =>
      let! s := ps4KernelSocketTCPServerCreate td OPtr port 1 in
      if negb (fst s =? PS4_OK) then ret (fst s, None)
      else
        let server := default 0 (snd s) in
        let! r := ps4KernelSocketAccept fuel server client in
        do! ps4KernelSocketDestroy server in
        ret r
  end.

(** ** Sending *)

Definition ps4KernelSocketSend (td sock data size : Z) : K Z :=
  if td =? NULL then ret PS4_ERROR_ARGUMENT_THREAD_MISSING
  else if sock =? NULL then ret PS4_ERROR_ARGUMENT_PRIMARY_MISSING
  else if size =? 0 then ret PS4_ERROR_ARGUMENT_SIZE_NULL
  else sosend sock data size td.

(** [txt] is the text the format and its arguments give. *)
Definition ps4KernelSocketPrintSizedWithArgumentList (td sock sz : Z) (format : out) (txt : list Z) : K Z :=
  if td =? NULL then ret PS4_ERROR_ARGUMENT_THREAD_MISSING
  else match format with
  | ONull => ret PS4_ERROR_ARGUMENT_MISSING
  | OPtr =>
      let! r := ps4KernelMemoryAllocateStringWithArgumentList OPtr OPtr sz format txt in
      if negb (fst r =? PS4_OK) then ret (fst r)
      else
        let (msg, size) := default (0, 0) (snd r) in
        let! r := ps4KernelSocketSend td sock msg size in
        do! ps4KernelMemoryFree msg in
        ret r
  end.

Definition ps4KernelSocketPrintWithArgumentList (td sock : Z) (format : out) (txt : list Z) : K Z :=
  ps4KernelSocketPrintSizedWithArgumentList td sock 0 format txt.

Definition ps4KernelSocketPrint (td sock : Z) (format : out) (txt : list Z) : K Z :=
  ps4KernelSocketPrintWithArgumentList td sock format txt.

(** [junk]: what the row buffer holds before. *)
Definition ps4KernelSocketPrintHexDump (junk : list Z) (td sock data : Z) (size : nat) : K Z :=
  if td =? NULL then ret PS4_ERROR_ARGUMENT_THREAD_MISSING
  else if sock =? NULL then ret PS4_ERROR_ARGUMENT_PRIMARY_MISSING
  else if data =? NULL then ret PS4_ERROR_ARGUMENT_MISSING
  else
    do! hex_dump (fun t => do! ps4KernelSocketPrint td sock OPtr t in ret tt) load8 junk data size in
    ret PS4_OK.

(** ** Receiving *)

(** [*size] is the second component. *)
Definition ps4KernelSocketReceive (td sock data sizeMax flags : Z) : K (Z * option Z) :=
  if td =? NULL then ret (PS4_ERROR_ARGUMENT_THREAD_MISSING, None)
  else if sock =? NULL then ret (PS4_ERROR_ARGUMENT_PRIMARY_MISSING, None)
  else if data =? NULL then ret (PS4_ERROR_ARGUMENT_OUT_MISSING, None)
  else if sizeMax =? 0 then ret (PS4_ERROR_ARGUMENT_SIZE_NULL, None)
  else
    let! r := soreceive sock data sizeMax flags td in
    ret (fst r, Some (wrap 64 (sizeMax - snd r))).

(** [while(1)]: [None] when receiving failed, else the buffer and the offset of
    the newline. [_size] is the size of the buffer less one. *)
Fixpoint receive_loop (fuel : nat) (td sock _data _size offset : Z) : K (option (Z * Z)) :=
  match fuel with
  | O => fault
  | S fuel' =>
      let! r := ps4KernelSocketReceive td sock (_data + offset) 1 MSG_WAITALL in
      if negb (fst r =? PS4_OK) then ret None
      else
        let! c := load8 (_data + offset) in
        if c =? NEWLINE then ret (Some (_data, offset))
        else if offset =? _size then
          let _size := wrap 64 (_size * 2) in
          let! m := ps4KernelMemoryReallocateData OPtr _data (wrap 64 (_size + 1)) in
          receive_loop fuel' td sock (default _data (snd m)) _size (wrap 64 (offset + 1))
        else receive_loop fuel' td sock _data _size (wrap 64 (offset + 1))
  end.

(** [data] is the address of the caller's pointer, which the error path frees
    in place of the buffer. [*size] is the second component. *)
Definition ps4KernelSocketReceiveString (fuel : nat) (td sock data sizeMax : Z) : K (Z * option Z) :=
  let sizeMax := if sizeMax =? 0 then 2 ^ 64 - 1 else sizeMax in
  let _size := if sizeMax - 1 <? 1024 then sizeMax - 1 else 1024 in
  let! a := ps4KernelMemoryAllocateData OPtr (_size + 1) in
  let! l := receive_loop fuel td sock (default 0 (snd a)) _size 0 in
  match l with
  | None => do! ps4KernelMemoryFree data in ret (PS4_ERROR_BAD_REQUEST, None)
  | Some (_data, offset) =>
      do! store8 (_data + offset + 1) 0 in
      do! store64 data _data in
      ret (PS4_OK, Some (wrap 64 (offset + 2)))
  end.

(** [slot] is where the local pointer [data] is; [format] the characters of the
    format. [*match] is the second component. *)
Definition ps4KernelSocketScanSizedWithArgumentList (fuel : nat) (slot td sock size : Z) (match_ : out) (format : option (list Z))
    : K (Z * option Z) :=
  match match_, format with
  | ONull, _ | _, None => ret (PS4_ERROR_ARGUMENT_MISSING, None)
  | OPtr, Some format =>
      let! r := ps4KernelSocketReceiveString fuel td sock slot size in
      if fst r =? PS4_OK then
        let! data := load64 slot in
        let! n := vsscanf data format in
        do! ps4KernelMemoryFree data in
        ret (fst r, Some n)
      else ret (fst r, None)
  end.

Definition ps4KernelSocketScanWithArgumentList (fuel : nat) (slot td sock : Z) (match_ : out) (format : option (list Z)) : K (Z * option Z) :=
  ps4KernelSocketScanSizedWithArgumentList fuel slot td sock 0 match_ format.

Definition ps4KernelSocketScan (fuel : nat) (slot td sock : Z) (match_ : out) (format : option (list Z)) : K (Z * option Z) :=
  ps4KernelSocketScanWithArgumentList fuel slot td sock match_ format.

(** ** Descriptors *)

Definition ps4KernelDescriptorWrite (td fd data size : Z) : K Z :=
  if size =? 0 then ret PS4_ERROR_ARGUMENT_SIZE_NULL else kern_writev td fd data size.

Definition ps4KernelDescriptorPrint (td fd : Z) (format : out) (txt : list Z) : K Z :=
  if td =? NULL then ret PS4_ERROR_ARGUMENT_MISSING
  else match format with
  | ONull => ret PS4_ERROR_ARGUMENT_MISSING
  | OPtr =>
      let! r := ps4KernelMemoryAllocateStringWithArgumentList OPtr OPtr 0 format txt in
      if negb (fst r =? PS4_OK) then ret (fst r)
      else
        let (msg, size) := default (0, 0) (snd r) in
        let! r := ps4KernelDescriptorWrite td fd msg size in
        do! ps4KernelMemoryFree msg in
        ret r
  end.
End Socket.

(** ** Counting format arguments *)

Definition PERCENT : Z := 37.

(** [for(size_t i = 0; format[i] != 0; ++i)] over the characters before the
    terminator; [None] is the return from inside. *)
Fixpoint estimate_loop (l : list Z) (c : Z) : option Z :=
  match l with
  | [] => Some c
  | x :: l' =>
      if x =? PERCENT then
        match l' with
        | [] => None
        | y :: l'' => if y =? PERCENT then estimate_loop l'' (wrap 64 (c + 1)) else estimate_loop l' (wrap 64 (c + 1))
        end
      else estimate_loop l' c
  end.

(** [*count] is the second component. *)
Definition ps4StringEstimateFormatArguments (format : option (list Z)) (count : out) : Z * option Z :=
  match format, count with
  | None, _ => (PS4_ERROR_ARGUMENT_PRIMARY_MISSING, None)
  | Some _, ONull => (PS4_ERROR_ARGUMENT_OUT_MISSING, None)
  | Some l, OPtr =>
      match estimate_loop l 0 with
      | Some c => (PS4_OK, Some c)
      | None => (PS4_ERROR_ARGUMENT_MALFORMED, None)
      end
  end.

(** ** Locks *)

(** Every mutex held as often after as before. *)
Definition neutral {A} (c : K A) : Prop := forall m r m' a, c m = Some (r, m') -> hold_count a m' = hold_count a m.

(** [mx] held once less. *)
Definition releases {A} (mx : Z) (c : K A) : Prop :=
  forall m r m' a, c m = Some (r, m') -> hold_count a m = ((if decide (a = mx) then 1 else 0) + hold_count a m')%nat.

Lemma neutral_ret {A} (x : A) : neutral (ret x).
Proof. by intros m r m' a [= _ <-]. Qed.

Lemma neutral_bind {A B} (c : K A) (k : A -> K B) : neutral c -> (forall r, neutral (k r)) -> neutral (bind c k).
Proof. intros Hc Hk m r m' a (x & s & E1 & E2)%bind_inv. rewrite (Hk _ _ _ _ a E2). by apply (Hc _ _ _ a E1). Qed.

Lemma releases_bind {A B} mx (c : K A) (k : A -> K B) : neutral c -> (forall r, releases mx (k r)) -> releases mx (bind c k).
Proof. intros Hc Hk m r m' a (x & s & E1 & E2)%bind_inv. rewrite <- (Hc _ _ _ a E1). by apply (Hk _ _ _ _ a E2). Qed.

Lemma neutral_load_bytes x n : neutral (load_bytes x n).
Proof. intros m r m' a E. unfold load_bytes in E. destruct (mem_read _ _ _); [|done]. by injection E as _ <-. Qed.

Lemma neutral_store_bytes x l : neutral (store_bytes x l).
Proof. intros m r m' a E. unfold store_bytes in E. case_decide; [|done]. by injection E as _ <-. Qed.

Lemma releases_unlock {A} mx (v : A) : releases mx (do! mtx_unlock mx in ret v).
Proof.
  intros m r m' a ([] & s & E1 & E2)%bind_inv. injection E2 as _ <-. unfold mtx_unlock in E1.
  destruct (mx =? NULL); [done|]. destruct (hold_count mx m) as [|n] eqn:Eh; [done|]. injection E1 as <-.
  unfold hold_count at 2. cbn [held set_held]. case_decide as Ha; [subst mx; by rewrite lookup_insert_eq | by rewrite lookup_insert_ne].
Qed.

Lemma neutral_bracket {A} mx (c : K A) : releases mx c -> neutral (do! mtx_lock mx in c).
Proof.
  intros Hc m r m' a ([] & s & E1 & E2)%bind_inv. unfold mtx_lock in E1. destruct (mx =? NULL); [done|]. injection E1 as <-.
  specialize (Hc _ _ _ a E2). revert Hc. unfold hold_count at 1. cbn [held set_held].
  case_decide as Ha; [subst mx; rewrite lookup_insert_eq | rewrite lookup_insert_ne by done];
    intros Hc; [injection Hc | unfold hold_count at 2; rewrite Hc]; lia.
Qed.

(** Steps that leave the mutexes alone. *)
Ltac neutral :=
  repeat match goal with
  | |- neutral (ret _) => apply neutral_ret
  | |- neutral (load_bytes _ _) => apply neutral_load_bytes
  | |- neutral (store_bytes _ _) => apply neutral_store_bytes
  | |- neutral (load64 _) => apply neutral_bind; [apply neutral_load_bytes | intros ?]
  | |- neutral (load32 _) => apply neutral_bind; [apply neutral_load_bytes | intros ?]
  | |- neutral (load16 _) => apply neutral_bind; [apply neutral_load_bytes | intros ?]
  | |- neutral (store64 _ _) => apply neutral_store_bytes
  | |- neutral (store32 _ _) => apply neutral_store_bytes
  | |- neutral (store16 _ _) => apply neutral_store_bytes
  | |- neutral (bind _ _) => apply neutral_bind; [|intros ?]
  | |- neutral (if ?b then _ else _) => destruct b
  end.

Section Accept.
Context `{KernelSockets}.

(** [msleep] gives the mutex back before it returns. *)
Hypothesis msleep_neutral : forall channel mx, neutral (msleep channel mx).

(** Waiting ends with the mutex still held, or released and a code. *)
Lemma accept_wait_holds fuel head mx : forall m w m' a,
  accept_wait fuel head mx m = Some (w, m') ->
  hold_count a m = ((if w then if decide (a = mx) then 1 else 0 else 0) + hold_count a m')%nat.
Proof.
  induction fuel as [|fuel IH]; intros m w m' a E; [done|]. cbn [accept_wait] in E.
  apply bind_inv in E as (first & m1 & E1 & E). apply bind_inv in E as (error & m2 & E2 & E).
  rewrite <- (neutral_bind _ _ (neutral_load_bytes _ _) (fun _ => neutral_ret _) _ _ _ a E1).
  rewrite <- (neutral_bind _ _ (neutral_load_bytes _ _) (fun _ => neutral_ret _) _ _ _ a E2). clear E1 E2.
  destruct (_ && _); [|by injection E as <- <-]. apply bind_inv in E as (sb & m3 & E3 & E).
  rewrite <- (neutral_bind _ _ (neutral_load_bytes _ _) (fun _ => neutral_ret _) _ _ _ a E3). clear E3.
  destruct (negb _).
  - assert (w = Some ECONNABORTED) as -> by (apply bind_inv in E as (? & ? & _ & [= <- _]); done). by apply (releases_unlock _ _ _ _ _ a E).
  - apply bind_inv in E as (r & m4 & E4 & E). rewrite <- (msleep_neutral _ _ _ _ _ a E4). destruct (negb _); [|by apply IH].
    assert (w = Some r) as -> by (apply bind_inv in E as (? & ? & _ & [= <- _]); done). by apply (releases_unlock _ _ _ _ _ a E).
Qed.

Lemma accept_take_neutral head : neutral (accept_take head).
Proof.
  unfold accept_take. apply neutral_bind; [neutral | intros so]. apply neutral_bracket.
  do 11 (apply releases_bind; [unfold queue_remove; neutral | intros ?]). apply releases_unlock.
Qed.

(** However the critical section of an accept ends (no connection on a
    non-blocking socket, an aborted or interrupted wait, or a connection taken
    off the queue), the accept mutex and the connection's own are held as often
    as before. *)
Theorem accept_releases_mutexes fuel head accept_mtx m r m' a :
  accept_locked fuel head accept_mtx m = Some (r, m') -> hold_count a m' = hold_count a m.
Proof.
  revert m r m' a. apply neutral_bracket. apply releases_bind; [neutral | intros state]. apply releases_bind; [neutral | intros first].
  destruct (_ && _); [apply releases_unlock|]. intros m r m' a (w & m1 & E1 & E2)%bind_inv.
  rewrite (accept_wait_holds _ _ _ _ _ _ a E1). destruct w as [code|]; [by injection E2 as _ <-|].
  apply bind_inv in E2 as (so & m2 & E2 & E3). rewrite <- (accept_take_neutral head _ _ _ a E2). by apply (releases_unlock _ _ _ _ _ a E3).
Qed.
End Accept.

(** ** Receiving a line *)

Section Receive.
Context `{KernelDlSym} `{HA : KernelAllocator} `{HL : !KernelAllocatorLaws HA} `{KernelSockets}.

(** What soreceive(9) does for a blocking stream socket. [unread] is what the
    peer sends that was not received yet, [own] the memory the kernel keeps the
    socket and its buffers in, which alone says what is unread. Receiving with
    MSG_WAITALL waits for as many bytes as were asked for, takes them off the
    stream and stores them; besides them only the socket's own memory changes. *)
Record stream_socket (td sock : Z) (own : Z -> Prop) (unread : machine -> list Z) : Prop := StreamSocket {
  stream_own m m' : (forall x, own x -> mem m' !! x = mem m !! x) -> unread m' = unread m;
  stream_receive m a l rest :
    unread m = l ++ rest -> l <> [] -> writable_range m a (length l) ->
    (forall x, own x -> is_Some (mem m !! x) /\ ~ a <= x < a + Z.of_nat (length l)) ->
    exists mm, soreceive sock a (Z.of_nat (length l)) MSG_WAITALL td m = Some ((0, 0), set_mem mm m) /\
      unread (set_mem mm m) = rest /\ mem_read mm a (length l) = Some l /\ (forall x, own x -> is_Some (mm !! x)) /\
      forall x, ~ own x -> ~ a <= x < a + Z.of_nat (length l) -> mm !! x = mem m !! x
}.

Section Stream.
Context (td sock : Z) (own : Z -> Prop) (unread : machine -> list Z) (Hstream : stream_socket td sock own unread).
Context (d : Z) (size : nat) (Hown : forall x, own x -> ~ d <= x < d + Z.of_nat size).
Hypothesis (Htd : td <> NULL) (Hsock : sock <> NULL).

(** The loop's state: the buffer can be stored to and holds what came so far,
    [rest] is still to come, and but for the socket's own memory the machine
    is as it was. *)
Record receiving (m0 : machine) (l rest : list Z) (n : machine) : Prop := Receiving {
  receiving_buffer : writable_range n d size;
  receiving_bytes : mem_read (mem n) d (length l) = Some l;
  receiving_unread : unread n = rest;
  receiving_own x : own x -> is_Some (mem n !! x);
  receiving_rest x : ~ own x -> ~ d <= x < d + Z.of_nat size -> mem n !! x = mem m0 !! x;
  receiving_frame : exists mm, n = set_mem mm m0
}.

(** One byte received behind those that are there. *)
Lemma receiving_byte m0 l c rest n :
  0 < d -> receiving m0 l (c :: rest) n -> (length l < size)%nat ->
  exists n', ps4KernelSocketReceive td sock (d + Z.of_nat (length l)) 1 MSG_WAITALL n = Some ((PS4_OK, Some 1), n') /\
    mem n' !! (d + Z.of_nat (length l)) = Some c /\ receiving m0 (l ++ [c]) rest n'.
Proof.
  intros Hd [Hw Hr Hu Hp Ho [mm0 ->]] Hl. rewrite writable_range_iff in Hw.
  destruct (stream_receive _ _ _ _ Hstream (set_mem mm0 m0) (d + Z.of_nat (length l)) [c] rest) as (mm & E & Eu & Er & Hp' & Ho'); [done | done | | |].
  { apply writable_range_iff. cbn [length]. intros i Hi. replace (d + Z.of_nat (length l) + Z.of_nat i) with (d + Z.of_nat (length l)) by lia. by apply Hw. }
  { intros x Hx. split; [by apply Hp|]. cbn [length]. specialize (Hown x Hx). lia. }
  cbn [length] in E, Er, Ho'. cbn [mem_read] in Er. destruct (mm !! (d + Z.of_nat (length l))) as [b|] eqn:Eb; [|done]. injection Er as ->.
  exists (set_mem mm (set_mem mm0 m0)). split; [|split; [done|split]].
  - unfold ps4KernelSocketReceive. rewrite (proj2 (Z.eqb_neq td NULL) Htd), (proj2 (Z.eqb_neq sock NULL) Hsock).
    rewrite (proj2 (Z.eqb_neq (d + Z.of_nat (length l)) NULL)) by (unfold NULL; lia). change (1 =? 0) with false. cbv iota.
    change 1 with (Z.of_nat 1) at 1. by erewrite bind_some by exact E.
  - apply (writable_range_set_mem (set_mem mm0 m0)); [by apply writable_range_iff|]. intros k Hk.
    destruct (decide (k = length l)) as [->|Hne]; [by rewrite Eb|].
    rewrite Ho' by (try lia; intros Hx; specialize (Hown _ Hx); lia). by apply Hw.
  - rewrite length_app. cbn [length mem set_mem]. apply mem_read_app; [|cbn [mem_read]; by rewrite Eb].
    rewrite <- Hr. apply mem_read_agree. intros k Hk. apply Ho'; [intros Hx; specialize (Hown _ Hx); lia | lia].
  - done.
  - done.
  - intros x Hx Hx'. cbn [mem set_mem]. rewrite Ho' by (done || lia). by apply Ho.
  - by eexists.
Qed.

(** A byte of the buffer stored by the function itself. *)
Lemma receiving_store m0 l c rest n :
  receiving m0 l rest n -> (length l < size)%nat ->
  exists n', store8 (d + Z.of_nat (length l)) c n = Some (tt, n') /\ receiving m0 (l ++ [c]) rest n'.
Proof.
  intros [Hw Hr Hu Hp Ho [mm ->]] Hl. rewrite writable_range_iff in Hw. set (x := d + Z.of_nat (length l)) in *.
  assert (forall y, own y -> y <> x) as Hx by (intros y Hy; specialize (Hown y Hy); lia).
  eexists. split; [apply store8_run, Hw; lia|]. cbn [mem set_mem] in *. split; cbn [mem set_mem].
  - apply (writable_range_set_mem (set_mem mm m0)); [by apply writable_range_iff|]. intros i Hi. rewrite lookup_insert. case_decide; [done|]. by apply Hw.
  - rewrite length_app. cbn [length]. apply mem_read_app; [by rewrite mem_read_insert_other by lia|]. fold x. cbn [mem_read]. by rewrite lookup_insert_eq.
  - rewrite <- Hu. apply (stream_own _ _ _ _ Hstream). intros y Hy. cbn [mem set_mem]. rewrite lookup_insert_ne; [done|]. specialize (Hx y Hy). congruence.
  - intros y Hy. rewrite lookup_insert. case_decide; [done|]. by apply Hp.
  - intros y Hy Hy'. rewrite lookup_insert_ne by lia. by apply Ho.
  - by eexists.
Qed.
End Stream.

Lemma receive_loop_run td sock own unread d line rest l2 : forall l1 m0 n fuel,
  stream_socket td sock own unread -> (forall x, own x -> ~ d <= x < d + Z.of_nat 1025) ->
  td <> NULL -> sock <> NULL -> 0 < d -> (length line <= 1024)%nat ->
  line = l1 ++ l2 -> Forall (fun c => c <> NEWLINE) l2 -> receiving own unread d 1025 m0 l1 (l2 ++ NEWLINE :: rest) n -> (length l2 < fuel)%nat ->
  exists n', receive_loop fuel td sock d 1024 (Z.of_nat (length l1)) n = Some (Some (d, Z.of_nat (length line)), n') /\
    receiving own unread d 1025 m0 (line ++ [NEWLINE]) rest n'.
Proof.
  induction l2 as [|c l2 IH]; intros l1 m0 n [|fuel] Hst Hown Htd Hs Hd Hlen El Hnl Hrec Hf; cbn [length] in Hf; try lia; cbn [receive_loop].
  - rewrite app_nil_r in El. subst l1.
    destruct (receiving_byte td sock own unread Hst d 1025 Hown Htd Hs m0 line NEWLINE rest n) as (n1 & E & Ec & Hrec'); [done | done | lia|].
    exists n1. split; [|done]. erewrite bind_some by exact E. cbn [fst]. change (negb (PS4_OK =? PS4_OK)) with false. cbv iota.
    erewrite bind_some by (by apply load8_run). by rewrite Z.eqb_refl.
  - apply Forall_cons in Hnl as [Hc Hnl]. assert (length l1 < length line)%nat as Hl1 by (rewrite El, length_app; cbn [length]; lia).
    destruct (receiving_byte td sock own unread Hst d 1025 Hown Htd Hs m0 l1 c (l2 ++ NEWLINE :: rest) n) as (n1 & E & Ec & Hrec'); [done | done | lia|].
    destruct (IH (l1 ++ [c]) m0 n1 fuel) as (n' & E' & Hn'); try done; [by rewrite <- app_assoc | lia|].
    exists n'. split; [|done]. rewrite length_app in E'. cbn [length] in E'.
    erewrite bind_some by exact E. cbn [fst]. change (negb (PS4_OK =? PS4_OK)) with false. cbv iota.
    erewrite bind_some by (by apply load8_run). rewrite (proj2 (Z.eqb_neq c NEWLINE) Hc), (proj2 (Z.eqb_neq _ 1024)) by lia.
    rewrite wrap_small by lia. by replace (Z.of_nat (length l1) + 1) with (Z.of_nat (length l1 + 1)) by lia.
Qed.

(** The function up to its last three stores, for a line that fits the first
    buffer or fills it to the last byte. *)
Lemma receive_string_run own unread m td sock data line rest fuel :
  let d := kmalloc m 1025 in
  stream_socket td sock own unread -> (forall x, own x -> is_Some (mem m !! x)) ->
  ready m -> d <> 0 -> td <> NULL -> sock <> NULL -> unread m = line ++ NEWLINE :: rest -> Forall (fun c => c <> NEWLINE) line ->
  (length line <= 1024)%nat -> (length line < fuel)%nat ->
  exists n, receiving own unread d 1025 (allocated m d 1025) (line ++ [NEWLINE]) rest n /\ (forall x, own x -> ~ d <= x < d + Z.of_nat 1025) /\
    ps4KernelSocketReceiveString fuel td sock data 0 m =
    (do! store8 (d + Z.of_nat (length line) + 1) 0 in do! store64 data d in ret (PS4_OK, Some (Z.of_nat (length line) + 2))) n.
Proof.
  intros d Hst Hown Hrd Hd Htd Hs Hu Hnl Hlen Hf. pose proof (kmalloc_range m 1025 Hd) as Hr. fold d in Hr.
  assert (forall x, own x -> ~ d <= x < d + Z.of_nat 1025) as Hout by (intros x Hx; apply (kmalloc_fresh_at m 1025); [done | by apply Hown]).
  destruct (receive_loop_run td sock own unread d line rest line [] (allocated m d 1025) (allocated m d 1025) fuel) as (n & E & Hn); try done; [lia| |].
  { assert (forall x, own x -> mem (allocated m d 1025) !! x = mem m !! x) as Hsame.
    { intros x Hx. destruct (Hown x Hx) as [b Hb]. rewrite Hb. by apply lookup_allocated. }
    split; [| done | | | done | by exists (mem (allocated m d 1025))].
    - apply writable_range_iff. intros i Hi. apply allocated_writable; [done | lia].
    - rewrite <- Hu. by apply (stream_own _ _ _ _ Hst).
    - intros x Hx. rewrite Hsame by done. by apply Hown. }
  exists n. split; [done|]. split; [done|]. unfold ps4KernelSocketReceiveString. change (0 =? 0) with true. cbv iota zeta.
  change (2 ^ 64 - 1 - 1 <? 1024) with false. cbv iota. change (1024 + 1) with 1025.
  erewrite bind_some by (by apply allocate_data_run). change (default 0 (snd (PS4_OK, Some (kmalloc m 1025)))) with d.
  erewrite bind_some by exact E. cbv beta iota. by rewrite (wrap_small 64 (Z.of_nat (length line) + 2)) by lia.
Qed.

(** C26. A line of fewer than 1024 characters is received as it was sent: the
    caller's pointer is the new buffer, which holds the line, its newline and
    a terminator, and the size counts them all. What was received is taken off
    the stream and nothing behind it; but for the pointer, the buffer and the
    socket's own memory, nothing changes. *)
Theorem receive_string_short own unread m td sock data line rest fuel :
  let d := kmalloc m 1025 in
  stream_socket td sock own unread -> (forall x, own x -> is_Some (mem m !! x) /\ ~ data <= x < data + 8) ->
  ready m -> d <> 0 -> td <> NULL -> sock <> NULL -> unread m = line ++ NEWLINE :: rest -> Forall (fun c => c <> NEWLINE) line ->
  (length line < 1024)%nat -> (length line < fuel)%nat -> writable_range m data 8 ->
  exists m', ps4KernelSocketReceiveString fuel td sock data 0 m = Some ((PS4_OK, Some (Z.of_nat (length line) + 2)), m') /\
    load64 data m' = Some (d, m') /\ mem_read (mem m') d (length line + 2) = Some (line ++ [NEWLINE; 0]) /\ unread m' = rest /\
    allocs m' = <[d := 1025]> (allocs m) /\
    forall x, is_Some (mem m !! x) -> ~ own x -> ~ data <= x < data + 8 -> mem m' !! x = mem m !! x.
Proof.
  intros d Hst Hown Hrd Hd Htd Hs Hu Hnl Hlen Hf Hw.
  destruct (receive_string_run own unread m td sock data line rest fuel Hst (fun x Hx => proj1 (Hown x Hx)) Hrd Hd Htd Hs Hu Hnl ltac:(lia) Hf)
    as (n & Hn & Hout & E). fold d in Hn, E, Hout.
  destruct (receiving_store td sock own unread Hst d 1025 Hout _ _ 0 _ _ Hn) as (n2 & Es & Hn2); [rewrite length_app; cbn [length]; lia|].
  rewrite length_app in Es. cbn [length] in Es. replace (d + Z.of_nat (length line + 1)) with (d + Z.of_nat (length line) + 1) in Es by lia.
  destruct Hn2 as [_ Hr2 Hu2 Hp2 Ho2 [mm En2]]. rewrite <- app_assoc in Hr2. cbn [app] in Hr2.
  assert (forall x, is_Some (mem m !! x) -> ~ own x -> mem n2 !! x = mem m !! x) as Hkeep.
  { intros x [b Hb] Hx. rewrite Ho2 by (done || (apply (kmalloc_fresh_at m 1025); [done | by eexists])). rewrite Hb. by apply lookup_allocated. }
  rewrite writable_range_iff in Hw. assert (forall i : nat, (i < 8)%nat -> ~ own (data + Z.of_nat i)) as Hdo by (intros i Hi Hx; destruct (Hown _ Hx); lia).
  assert (writable_range n2 data 8) as Hw2.
  { apply writable_range_iff. intros i Hi. destruct (Hw i Hi) as [Hm Ht]. split; [unfold mapped; by rewrite Hkeep by (done || by apply Hdo) | by rewrite En2]. }
  assert (disjoint_ranges data 8 d 1025) as Hdis.
  { unfold disjoint_ranges. pose proof (kmalloc_fresh_at m 1025) as Hfr. fold d in Hfr.
    destruct (Z.le_gt_cases (data + 8) d), (Z.le_gt_cases (d + 1025) data); auto. exfalso.
    apply (Hfr (Z.max data d) Hd); [|lia]. replace (Z.max data d) with (data + Z.of_nat (Z.to_nat (Z.max data d - data))) by lia. apply Hw. lia. }
  exists (set_mem (mem_write (mem n2) data (le_bytes 8 d)) n2). split; [|split; [|split; [|split; [|split]]]].
  - rewrite E. erewrite bind_some by exact Es. by erewrite bind_some by (by apply store64_run).
  - rewrite (load64_run _ _ (le_bytes 8 d)) by apply mem_read_write_le. pose proof (kmalloc_range m 1025 Hd) as Hrg. fold d in Hrg.
    rewrite le_val_bytes_wrap. by rewrite wrap_small by (change (8 * Z.of_nat 8) with 64; lia).
  - cbn [mem set_mem]. rewrite mem_read_write_other by (rewrite length_le_bytes; unfold disjoint_ranges in *; lia).
    rewrite length_app in Hr2. exact Hr2.
  - rewrite <- Hu2. apply (stream_own _ _ _ _ Hst). intros x Hx. cbn [mem set_mem]. rewrite lookup_mem_write, length_le_bytes.
    case_match eqn:Q; [|done]. apply andb_prop in Q as [? ?]. exfalso. destruct (Hown x Hx). zbool; lia || done.
  - by rewrite En2.
  - intros x Hx Hxo Hout'. cbn [mem set_mem]. rewrite lookup_mem_write, length_le_bytes. case_match eqn:Q; [|by apply Hkeep].
    apply andb_prop in Q as [? ?]. exfalso. zbool; lia || done.
Qed.

(** C40. A line of 1024 characters overruns the buffer: it and its newline are
    received into all 1025 bytes that were allocated, and the terminator is
    stored behind them. *)
Theorem receive_string_overruns own unread m td sock data line rest fuel :
  let d := kmalloc m 1025 in
  stream_socket td sock own unread -> (forall x, own x -> is_Some (mem m !! x)) ->
  ready m -> d <> 0 -> td <> NULL -> sock <> NULL -> unread m = line ++ NEWLINE :: rest -> Forall (fun c => c <> NEWLINE) line ->
  length line = 1024%nat -> (1024 < fuel)%nat ->
  exists n, allocs n = <[d := 1025]> (allocs m) /\ mem_read (mem n) d 1025 = Some (line ++ [NEWLINE]) /\ unread n = rest /\
    (forall x, ~ own x -> ~ d <= x < d + 1025 -> mem n !! x = mem m !! x) /\
    ps4KernelSocketReceiveString fuel td sock data 0 m =
    (do! store8 (d + 1025) 0 in do! store64 data d in ret (PS4_OK, Some 1026)) n.
Proof.
  intros d Hst Hown Hrd Hd Htd Hs Hu Hnl Hlen Hf.
  destruct (receive_string_run own unread m td sock data line rest fuel Hst Hown Hrd Hd Htd Hs Hu Hnl ltac:(lia) ltac:(lia))
    as (n & [_ Hr Hun _ Ho [mm ->]] & _ & E). fold d in Hr, Hun, Ho, E.
  exists (set_mem mm (allocated m d 1025)). split; [done|]. split; [by rewrite length_app, Hlen in Hr|]. split; [done|]. split.
  - intros x Hxo Hx. rewrite Ho by (done || lia). unfold allocated. cbn [mem set_allocs set_mem]. rewrite lookup_mem_write, repeat_length.
    case_match eqn:Q; [exfalso; apply andb_prop in Q as [? ?]; zbool; lia || done | done].
  - rewrite E, Hlen. by replace (d + Z.of_nat 1024 + 1) with (d + 1025) by lia.
Qed.

(** When receiving fails, the function frees the caller's pointer variable in
    place of its buffer: the kernel panics, unless that variable happens to be
    a heap block itself. *)
Theorem receive_string_error_panics m td sock data fuel r left mm :
  let d := kmalloc m 1025 in
  ready m -> d <> 0 -> td <> NULL -> sock <> NULL -> data <> NULL -> allocs m !! data = None -> data <> d ->
  r <> 0 -> soreceive sock d 1 MSG_WAITALL td (allocated m d 1025) = Some ((r, left), set_mem mm (allocated m d 1025)) ->
  ps4KernelSocketReceiveString (S fuel) td sock data 0 m = None.
Proof.
  intros d Hrd Hd Htd Hs Hdata Hblk Hne Hr Hrec. pose proof (kmalloc_range m 1025 Hd) as Hrg. fold d in Hrg.
  unfold ps4KernelSocketReceiveString. change (0 =? 0) with true. cbv iota zeta. change (2 ^ 64 - 1 - 1 <? 1024) with false. cbv iota.
  change (1024 + 1) with 1025. erewrite bind_some by (by apply allocate_data_run). change (default 0 (snd (PS4_OK, Some (kmalloc m 1025)))) with d.
  erewrite bind_some.
  2:{ cbn [receive_loop]. rewrite Z.add_0_r. erewrite bind_some.
      2:{ unfold ps4KernelSocketReceive. rewrite (proj2 (Z.eqb_neq td NULL) Htd), (proj2 (Z.eqb_neq sock NULL) Hs), (proj2 (Z.eqb_neq d NULL) Hd).
          change (1 =? 0) with false. cbv iota. by erewrite bind_some by exact Hrec. }
      cbn [fst]. unfold PS4_OK. by rewrite (proj2 (Z.eqb_neq r 0) Hr). }
  cbv beta iota. apply bind_none. unfold ps4KernelMemoryFree. rewrite (proj2 (Z.eqb_neq data NULL) Hdata).
  erewrite bind_some by (by apply memory_type_ready_run). apply bind_none. unfold free.
  rewrite (proj2 (Z.eqb_neq data 0) Hdata). unfold allocated. cbn [allocs set_allocs set_mem]. by rewrite lookup_insert_ne, Hblk by done.
Qed.
End Receive.

(** ** Formats *)

(** What a format is made of: plain characters, conversions with the character
    behind the percent sign, and doubled percent signs. *)
Inductive format_item :=
| Plain (c : Z)
| Conversion (c : Z)
| Literal.

Definition format_chars (i : format_item) : list Z :=
  match i with Plain c => [c] | Conversion c => [PERCENT; c] | Literal => [PERCENT; PERCENT] end.

Definition item_ok (i : format_item) : Prop :=
  match i with Plain c => c <> PERCENT | Conversion c => c <> PERCENT | Literal => True end.

#[global] Instance item_ok_dec i : Decision (item_ok i).
Proof. destruct i; cbn [item_ok]; apply _. Defined.

Definition counted (i : format_item) : Z := match i with Plain _ => 0 | _ => 1 end.

Definition estimate (items : list format_item) : Z := foldr (fun i n => counted i + n) 0 items.

Lemma estimate_nonneg items : 0 <= estimate items.
Proof.
  induction items as [|i items IH]; [done|]. cbn [estimate foldr]. fold (estimate items). destruct i; cbn [counted]; lia.
Qed.

Lemma estimate_loop_run items : forall tail c,
  Forall item_ok items -> 0 <= c -> c + estimate items < 2 ^ 64 ->
  estimate_loop ((items ≫= format_chars) ++ tail) c = estimate_loop tail (c + estimate items).
Proof.
  induction items as [|i items IH]; intros tail c Hok Hc Hb; [cbn; by rewrite Z.add_0_r|].
  apply Forall_cons in Hok as [Hi Hok]. pose proof (estimate_nonneg items). cbn [estimate foldr] in Hb |- *. fold (estimate items) in *.
  destruct i as [x|x|]; cbn [item_ok counted] in *; cbn [mbind list_bind format_chars app estimate_loop].
  - rewrite (proj2 (Z.eqb_neq x PERCENT) Hi). rewrite IH by (done || lia). by rewrite Z.add_0_l.
  - rewrite Z.eqb_refl, (proj2 (Z.eqb_neq x PERCENT) Hi). rewrite wrap_small by lia. rewrite IH by (done || lia). by rewrite ?Z.add_assoc, ?Z.add_0_r.
  - rewrite !Z.eqb_refl. rewrite wrap_small by lia. rewrite IH by (done || lia). by rewrite ?Z.add_assoc, ?Z.add_0_r.
Qed.

(** The estimate of a format's arguments counts the conversions, but also
    every doubled percent sign, which takes no argument; a format that ends in
    the middle of a conversion is malformed. *)
Theorem format_arguments_estimate items :
  Forall item_ok items -> estimate items < 2 ^ 64 - 1 ->
  ps4StringEstimateFormatArguments (Some (items ≫= format_chars)) OPtr = (PS4_OK, Some (estimate items)) /\
  ps4StringEstimateFormatArguments (Some ((items ≫= format_chars) ++ [PERCENT])) OPtr = (PS4_ERROR_ARGUMENT_MALFORMED, None).
Proof.
  intros Hok Hb. unfold ps4StringEstimateFormatArguments. split.
  - rewrite <- (app_nil_r (items ≫= format_chars)). by rewrite estimate_loop_run by (done || lia).
  - by rewrite estimate_loop_run by (done || lia).
Qed.

(** ** Witnesses *)

Lemma format_arguments_estimate_witness :
  ps4StringEstimateFormatArguments (Some [37; 100; 32; 37; 37]) OPtr = (PS4_OK, Some 2).
Proof. apply (format_arguments_estimate [Conversion 100; Plain 32; Literal]); [vm_decide | done]. Defined.

(** A socket whose receive queue is in memory: at [q] how much of it was
    received, behind that the [n] bytes the peer sends. *)
Definition queue_read (q : Z) (m : machine) : nat := Z.to_nat (wrap 64 (le_val (default [] (mem_read (mem m) q 8)))).
Definition queue_unread (q : Z) (n : nat) (m : machine) : list Z := drop (queue_read q m) (default [] (mem_read (mem m) (q + 8) n)).
Definition queue_own (q : Z) (n : nat) (x : Z) : Prop := q <= x < q + 8 + Z.of_nat n.

Definition queue_sockets (q : Z) (n : nat) : KernelSockets := {|
  so_rcv_sb_mtx := 0x200; so_rcv_sb_state := 0x240;
  socreate _ _ _ _ _ := ret (0, Some 0x4000); soclose _ := ret 0; sobind _ _ _ := ret 0; solisten _ _ _ := ret 0;
  sosetopt _ _ _ _ := ret 0; pru_peeraddr _ := ret 0; sa_len _ := ret 16; msleep _ _ := ret 4; KNOTE_UNLOCKED _ := ret tt;
  fgetown _ := ret 0; fsetown _ _ := ret tt; soaccept _ := ret (0, 0); sosend _ _ _ _ := ret 0;
  soreceive _ a k _ _ := fun m =>
    let l := queue_unread q n m in
    if Z.of_nat (length l) <? k then Some ((54, k), m)
    else Some ((0, 0), set_mem (mem_write (mem_write (mem m) a (take (Z.to_nat k) l)) q (le_bytes 8 (Z.of_nat (queue_read q m) + k))) m);
  kern_writev _ _ _ _ := ret 0; vsscanf _ _ := ret 0 |}.

Lemma queue_stream td sock q n : Z.of_nat n < 2 ^ 63 -> @stream_socket (queue_sockets q n) td sock (queue_own q n) (queue_unread q n).
Proof.
  intros Hn. split.
  - intros m m' H. unfold queue_unread, queue_read.
    rewrite !(mem_read_agree (mem m) (mem m')); [done|..]; intros i Hi; apply H; unfold queue_own; lia.
  - intros m a l rest Hu Hl Hw Hown. cbn [soreceive queue_sockets]. rewrite Hu, length_app, Nat2Z.id, take_app_length.
    rewrite (proj2 (Z.ltb_ge _ _)) by lia. eexists. split; [reflexivity|].
    assert (disjoint_ranges a (Z.of_nat (length l)) q (8 + Z.of_nat n)) as Hd.
    { unfold disjoint_ranges. destruct (Z.le_gt_cases (a + Z.of_nat (length l)) q), (Z.le_gt_cases (q + (8 + Z.of_nat n)) a); auto. exfalso.
      destruct l; [done|]. cbn [length] in *. destruct (Hown (Z.max a q)); unfold queue_own; lia. }
    unfold queue_unread in Hu |- *. destruct (mem_read (mem m) (q + 8) n) as [L|] eqn:EL; [|exfalso; change (drop (queue_read q m) [] = l ++ rest) in Hu; rewrite drop_nil in Hu; by destruct l].
    change (drop (queue_read q m) L = l ++ rest) in Hu. apply mem_read_length in EL as Ln. apply (f_equal length) in Hu as Hlen. rewrite length_drop, length_app in Hlen.
    assert (queue_read q m + length l <= n)%nat as Hb by (destruct l; [done | cbn [length] in *; lia]).
    unfold disjoint_ranges in Hd. split; [|split; [|split]].
    + cbn [mem set_mem]. rewrite mem_read_write_other by (rewrite length_le_bytes; unfold disjoint_ranges; lia).
      rewrite mem_read_write_other by (unfold disjoint_ranges; lia). rewrite EL. cbn [default]. unfold queue_read at 1. cbn [mem set_mem].
      rewrite mem_read_write_le.
      change (default [] (Some ?x)) with x. rewrite le_val_bytes_wrap. rewrite !wrap_small by (rewrite ?wrap_small; lia).
      replace (Z.to_nat _) with (queue_read q m + length l)%nat by lia. change (id L) with L. by rewrite <- drop_drop, Hu, drop_app_length.
    + rewrite mem_read_write_other by (rewrite length_le_bytes; unfold disjoint_ranges; lia). apply mem_read_write_same.
    + intros x Hx. destruct (Hown x Hx) as [Hm _]. rewrite !lookup_mem_write. case_match eqn:Q; [|case_match eqn:Q2; [|done]];
        apply lookup_lt_is_Some; [apply andb_prop in Q as [? ?] | apply andb_prop in Q2 as [? ?]]; zbool; lia || done.
    + intros x Hx Hxa. unfold queue_own in Hx. rewrite !lookup_mem_write, length_le_bytes.
      case_match eqn:Q; [exfalso; apply andb_prop in Q as [? ?]; zbool; lia|].
      case_match eqn:Q2; [exfalso; apply andb_prop in Q2 as [? ?]; zbool; lia | done].
Qed.

Section SocketWitnesses.
#[local] Existing Instance bump_allocator.
#[local] Existing Instance bump_allocator_laws.
#[local] Instance no_symbols_here : KernelDlSym := table_dlsym [].

(** The queue of the socket at 0x9000 with [line], a newline and "x". *)
Definition socket_machine (line : list Z) : machine :=
  booted [(0x7000, repeat 0 8); (0x9000, repeat 0 8 ++ line ++ [NEWLINE; 120])] [] [(ps4KernelMemoryType, 1)].

Definition short_line : list Z := [72; 105].
Definition long_line : list Z := repeat 65 1024.

Definition receive_buffer (line : list Z) : Z := bump_malloc (socket_machine line) 1025.

Lemma socket_machine_queue line n x :
  n = (length line + 2)%nat -> forallb (fun i => bool_decide (is_Some (mem (socket_machine line) !! (0x9000 + Z.of_nat i)))) (seq 0 (8 + n)) = true ->
  queue_own 0x9000 n x -> is_Some (mem (socket_machine line) !! x) /\ ~ 0x7000 <= x < 0x7000 + 8.
Proof.
  intros -> H Hx. unfold queue_own in Hx. split; [|lia]. rewrite forallb_forall in H.
  specialize (H (Z.to_nat (x - 0x9000)) ltac:(apply in_seq; lia)). apply bool_decide_eq_true in H.
  by replace (0x9000 + Z.of_nat (Z.to_nat (x - 0x9000))) with x in H by lia.
Qed.

(** "Hi" is received, the byte behind its newline stays on the stream. *)
Lemma receive_string_short_witness :
  exists m', @ps4KernelSocketReceiveString _ _ (queue_sockets 0x9000 4) 3 1 2 0x7000 0 (socket_machine short_line) = Some ((PS4_OK, Some 4), m') /\
    mem_read (mem m') (receive_buffer short_line) 4 = Some [72; 105; 10; 0] /\ queue_unread 0x9000 4 m' = [120].
Proof.
  destruct (@receive_string_short _ _ _ (queue_sockets 0x9000 4) (queue_own 0x9000 4) (queue_unread 0x9000 4)
    (socket_machine short_line) 1 2 0x7000 short_line [120] 3) as (m' & E & _ & Er & Eu & _).
  - by apply queue_stream.
  - intros x Hx. apply (socket_machine_queue short_line 4 x); [done | vm_compute; reflexivity | done].
  - done.
  - vm_compute. discriminate.
  - done.
  - done.
  - vm_compute. reflexivity.
  - vm_decide.
  - cbn; lia.
  - cbn; lia.
  - vm_decide.
  - exists m'. split; [exact E|]. split; [exact Er | exact Eu].
Defined.

Lemma receive_string_overruns_witness :
  exists n, @ps4KernelSocketReceiveString _ _ (queue_sockets 0x9000 1026) 1025 1 2 0x7000 0 (socket_machine long_line) =
    (do! store8 (kmalloc (socket_machine long_line) 1025 + 1025) 0 in do! store64 0x7000 (kmalloc (socket_machine long_line) 1025) in ret (PS4_OK, Some 1026)) n.
Proof.
  destruct (@receive_string_overruns _ _ _ (queue_sockets 0x9000 1026) (queue_own 0x9000 1026) (queue_unread 0x9000 1026)
    (socket_machine long_line) 1 2 0x7000 long_line [120] 1025) as (n & _ & _ & _ & _ & E).
  - by apply queue_stream.
  - intros x Hx. apply (socket_machine_queue long_line 1026 x); [unfold long_line; by rewrite repeat_length | vm_compute; reflexivity | done].
  - done.
  - vm_compute. discriminate.
  - done.
  - done.
  - vm_compute. reflexivity.
  - apply Forall_forall. intros c Hc. apply list_elem_of_In, repeat_spec in Hc. by subst c.
  - apply repeat_length.
  - lia.
  - exists n. exact E.
Defined.

Lemma receive_string_error_panics_witness :
  @ps4KernelSocketReceiveString _ _ (queue_sockets 0x9000 0) 1 1 2 0x7000 0 (socket_machine short_line) = None.
Proof.
  apply (@receive_string_error_panics _ _ _ (queue_sockets 0x9000 0) (socket_machine short_line) 1 2 0x7000 0 54 1
    (mem (allocated (socket_machine short_line) (receive_buffer short_line) 1025))).
  - done.
  - vm_compute. discriminate.
  - done.
  - done.
  - done.
  - done.
  - vm_compute. discriminate.
  - done.
  - reflexivity.
Defined.

Lemma accept_releases_mutexes_witness :
  hold_count 0x8000 (default (socket_machine []) (snd <$> @accept_locked (queue_sockets 0 0) 1 0x4000 0x8000
    (booted [(0x4000, repeat 0 0x300)] [] []))) = 0%nat.
Proof.
  destruct (@accept_locked (queue_sockets 0 0) 1 0x4000 0x8000 (booted [(0x4000, repeat 0 0x300)] [] [])) as [[r m']|] eqn:E;
    [|vm_compute in E; discriminate].
  change (hold_count 0x8000 m' = 0%nat).
  rewrite (@accept_releases_mutexes (queue_sockets 0 0) (fun _ _ => neutral_ret 4) 1 0x4000 0x8000 _ r m' 0x8000 E). reflexivity.
Defined.
End SocketWitnesses.
