(* ===== verification/KernelExecute.v ===== *)
(** * Calling kernel code from anywhere

    [extension/kernel_call/standard/source/kernel_call.c]: a call of a kernel
    function that works in the kernel and in a user process alike;
    [extension/kernel_execute/.../kernel_execute.c], in both variants: running
    a function in the kernel through an installed system call; and the stub
    resolvers [base/stub_resolve/minimal/source/user.c] and [adaptive.c]. The
    instruction that enters the kernel, code called by address and the function
    that installs the system call are parameters. *)

From stdpp Require Import base gmap list strings.
From S2P Require Import Prelude Errors Uthash Machine Reference KernelBase KernelMemory Symbol Words Template FunctionHook SystemCall HookHandler HookChain Elf.

(** [trap_call rax args]: the instruction [syscall] with the registers it
    passes, and what it leaves in [rax]. *)
Class SystemTrap := { trap_call : Z -> list Z -> K Z }.

(** Where the linker put the functions and constants whose address is taken,
    and [ps4ExploitExecute] (exploit.c). *)
Class ExecuteImage := {
  at_generic_call : Z;
  at_generic_execute : Z;
  at_copy_in_and_patch : Z;
  at_libkernel : Z;
  at_load_start_name : Z;
  at_load_start_module : Z;
  text_at : Z -> string;
  exploit_execute : Z -> Z -> K Z
}.

Definition SYS_ps4_callback : Z := 172.

Section Execute.
Context `{KernelCode} `{SystemTrap} `{ExecuteImage}.

(** ** kernel_execute.c (dynlib_prepare_dlclose) *)

(** [int syscall(int number, ...)] *)
Definition syscall (args : list Z) : K Z := let! r := trap_call 0 args in ret (signed 32 r).

(** [u = {0}] and the fields that are set. *)
Definition patch_argument (u : Z) : K unit :=
  do! memset u 0 64 in
  do! store64 (u + g_function) at_copy_in_and_patch in
  do! store64 (u + g_argument 0) SYS_ps4_callback in
  do! store64 (u + g_argument 1) at_generic_execute in
  do! store64 (u + g_argument 2) 128 in
  store64 (u + g_argument 3) 4.

(** [p] is null, or gets the thread's return value. *)
Definition return_to (get : Z -> out -> K (Z * option Z)) (td p : Z) : K unit :=
  if p =? NULL then ret tt
  else
    let! r := get td OPtr in
    match snd r with Some v => store64 p v | None => ret tt end.

(** [u]: the local variable. *)
Definition ps4KernelExecute (u fn uap ret0 ret1 : Z) : K Z :=
  let! inside := ps4KernelIsInKernel in
  if inside =? PS4_OK then
    let! t := ps4KernelThreadGetCurrent OPtr in
    let td := default 0 (snd t) in
    let! r := code_call fn [td; uap] in
    do! return_to ps4KernelThreadGetReturn td ret0 in
    do! return_to ps4KernelThreadGetSecondaryReturn td ret1 in
    ret (int_result r)
  else
    let! c := syscall [SYS_ps4_callback; NULL] in
    let! c := (if c =? -1 then
                 do! patch_argument u in
                 do! exploit_execute at_generic_call u in
                 syscall [SYS_ps4_callback; NULL]
               else ret c) in
    if c =? -1 then ret (-1)
    else syscall [SYS_ps4_callback; fn; uap; ret0; ret1].

(** ** kernel_call.c *)

(** [u], [q]: the local variables [uap] and [ret]; [v]: the one [ps4KernelExecute]
    has. *)
Definition ps4KernelCallPrivate (u q v call rdi rsi rdx rcx r8 r9 : Z) : K Z :=
  let! inside := ps4KernelIsInKernel in
  if inside =? PS4_OK then
    let! r := code_call call [rdi; rsi; rdx; rcx; r8; r9] in ret (signed 64 r)
  else
    do! store64 (u + g_function) call in
    do! store64 (u + g_argument 0) rdi in
    do! store64 (u + g_argument 1) rsi in
    do! store64 (u + g_argument 2) rdx in
    do! store64 (u + g_argument 3) rcx in
    do! store64 (u + g_argument 4) r8 in
    do! store64 (u + g_argument 5) r9 in
    do! store64 (u + g_returns) 0 in
    do! ps4KernelExecute v at_generic_call u q NULL in
    let! r := load64 q in
    ret (signed 64 r).

(** ** user.c *)

(** [movq $0, %rax; jmp ps4AssemblerSystemCall] *)
Definition ps4StubResolveSystemCall (args : list Z) : K Z := let! r := trap_call 0 args in ret (int_result r).

(** The loader's function, looked up once; [k]: the local variable. *)
Definition load_start_module (k : Z) : K bool :=
  let! f := load64 at_load_start_module in
  if f =? NULL then
    do! store32 k 0 in
    do! ps4StubResolveSystemCall [594; at_libkernel; 0; k; 0] in
    let! h := load32 k in
    if signed 32 h <=? 0 then ret false
    else
      let! r := ps4StubResolveSystemCall [591; signed 32 h; at_load_start_name; at_load_start_module] in
      ret (r =? 0)
  else ret true.

Definition ps4StubResolve (k stub moduleName functionName moduleHandle userAddress : Z) : K Z :=
  if (stub =? NULL) || (moduleName =? NULL) || (functionName =? NULL) || (moduleHandle =? NULL) || (userAddress =? NULL) then ret (-1)
  else
    let! h := load32 moduleHandle in
    let! ok := (if signed 32 h <=? 0 then
                  let! found := load_start_module k in
                  if found then
                    let! f := load64 at_load_start_module in
                    let! r := code_call f [moduleName; 0; NULL; 0; NULL; NULL] in
                    do! store32 moduleHandle r in
                    let! h := load32 moduleHandle in
                    ret (0 <? signed 32 h)
                  else ret false
                else ret true) in
    if ok then
      let! h := load32 moduleHandle in
      let! r := ps4StubResolveSystemCall [591; signed 32 h; functionName; userAddress] in
      if r =? 0 then ret 0 else ret (-1)
    else ret (-1).

(** ** adaptive.c *)

Definition ps4AdaptiveStubResolveIsInKernel : K bool := gets (fun m => 0 <? Z.shiftr (rsp m) 48).

Definition ps4AdaptiveStubResolve `{KernelDlSym} (k stub moduleName functionName moduleHandle userAddress kernelAddress : Z) : K Z :=
  let! inside := ps4AdaptiveStubResolveIsInKernel in
  if inside : bool then
    let! r := ps4KernelStubResolve stub (if functionName =? NULL then None else Some (text_at functionName))
                (if kernelAddress =? NULL then ONull else OPtr) in
    do! (match snd r with Some a => store64 kernelAddress a | None => ret tt end) in
    ret (fst r)
  else ps4StubResolve k stub moduleName functionName moduleHandle userAddress.
End Execute.

(** ** kernel_execute.c (in_kernel_only) *)

Module InKernelOnly.
Definition ps4KernelExecuteIsInKernel : K Z := gets (fun m => if 0 <? Z.shiftr (rsp m) 48 then 1 else 0).
Definition ps4KernelExecuteCurrentThread : K Z := gets curthread.
Definition ps4KernelExecuteThreadGetReturn0 (td : Z) : K Z := load64 (td + 0x380).
Definition ps4KernelExecuteThreadGetReturn1 (td : Z) : K Z := load64 (td + 0x388).

Definition ps4KernelExecute `{KernelCode} (fn uap ret0 ret1 : Z) : K Z :=
  let! inside := ps4KernelExecuteIsInKernel in
  if inside =? PS4_OK then
    let! td := ps4KernelExecuteCurrentThread in
    let! r := code_call fn [td; uap] in
    do! (if ret0 =? NULL then ret tt else let! v := ps4KernelExecuteThreadGetReturn0 td in store64 ret0 v) in
    do! (if ret1 =? NULL then ret tt else let! v := ps4KernelExecuteThreadGetReturn1 td in store64 ret1 v) in
    ret (int_result r)
  else ret PS4_ERROR_NOT_IMPLEMENTED.

(** The test is the wrong way round: in the kernel nothing is ever executed. *)
Lemma in_kernel_refuses `{KernelCode} fn uap ret0 ret1 m :
  2 ^ 48 <= rsp m -> ps4KernelExecute fn uap ret0 ret1 m = Some (PS4_ERROR_NOT_IMPLEMENTED, m).
Proof.
  intros Hsp. unfold ps4KernelExecute. erewrite bind_some by reflexivity.
  rewrite (proj2 (Z.ltb_lt 0 _)); [done|]. rewrite Z.shiftr_div_pow2 by lia. apply Z.div_str_pos. lia.
Qed.
End InKernelOnly.

(** ** A call from a user process *)

Definition set_rsp (x : Z) (m : machine) : machine :=
  Machine (mem m) (text m) (allocs m) (cr0 m) (cr2 m) (cr3 m) (cr4 m) (msr m)
    (curthread m) x (vars m) (held m) (pinned m) (caches m) (entries m).

Section FromUser.
Context `{HC : KernelCode} `{HT : SystemTrap} `{HI : ExecuteImage}.

(** How the kernel runs the installed system call: the four arguments are
    copied to [frame] (the registers no argument was given for hold [spare]),
    the thread's return value is cleared, the function runs on the kernel's
    stack; its result is an error, or else the thread's return value is the
    call's. *)
Definition callback_trap (frame kstack : Z) (spare args : list Z) : K Z :=
  let! td := gets curthread in
  let! sp := gets rsp in
  do! modify (set_rsp kstack) in
  let a := args ++ spare in
  do! store64 frame (default 0 (a !! 0%nat)) in
  do! store64 (frame + 8) (default 0 (a !! 1%nat)) in
  do! store64 (frame + 16) (default 0 (a !! 2%nat)) in
  do! store64 (frame + 24) (default 0 (a !! 3%nat)) in
  do! store64 (td + 0x380) 0 in
  let! e := ps4SystemCallGenericExecute td frame in
  let! r := load64 (td + 0x380) in
  do! modify (set_rsp sp) in
  ret (if e =? 0 then r else 2 ^ 64 - 1).

(** The state [n] is [m] on the stack [sp], but for what the regions hold. *)
Definition runs (m : machine) (sp : Z) (R : list (Z * list Z)) (n : machine) : Prop :=
  laid R n /\ exists mm, n = set_mem mm (set_rsp sp m) /\ forall x, ~ inside R x -> mm !! x = mem m !! x.

Lemma inside_insert R k a l i v x : R !! k = Some (a, l) -> inside (<[k := (a, <[i := v]> l)]> R) x <-> inside R x.
Proof.
  intros Hk. split; intros (j & b & l' & Hj & Hx).
  - rewrite list_lookup_insert_Some in Hj. destruct Hj as [(<- & [= <- <-] & _)|[_ Hj]]; [|by exists j, b, l'].
    exists k, a, l. by rewrite length_insert in Hx.
  - destruct (decide (k = j)) as [<-|Hne]; [|exists j, b, l'; by rewrite list_lookup_insert_ne].
    rewrite Hk in Hj. injection Hj as <- <-. exists k, a, (<[i := v]> l). rewrite length_insert. split; [|done].
    apply list_lookup_insert_eq. by eapply lookup_lt_Some.
Qed.

Lemma runs_store {A} m sp R n k a l i v x (c : unit -> K A) :
  runs m sp R n -> R !! k = Some (a, l) -> (i < length l)%nat -> 0 <= v < 2 ^ 64 -> x = a + 8 * Z.of_nat i ->
  exists n', bind (store64 x v) c n = c tt n' /\ runs m sp (<[k := (a, <[i := v]> l)]> R) n'.
Proof.
  intros [Hl (mm & -> & Hm)] Hk Hi Hv Hx. destruct (laid_store R _ k a l i v x Hl Hk Hi Hv Hx) as (E & Hl' & Ho). eexists. split; [by apply bind_some|].
  split; [done|]. eexists. split; [reflexivity|]. intros y Hy. rewrite (inside_insert R k a l i v y Hk) in Hy. specialize (Ho y Hy).
  unfold put64 in Ho. cbn [mem set_mem] in Ho |- *. rewrite Ho. by apply Hm.
Qed.

Lemma runs_load {A} m sp R n k a l i v x (c : Z -> K A) :
  runs m sp R n -> R !! k = Some (a, l) -> l !! i = Some v -> x = a + 8 * Z.of_nat i -> bind (load64 x) c n = c v n.
Proof. intros [Hl _] Hk Hi Hx. apply bind_some. by apply (laid_load R n k a l i v). Qed.

Lemma runs_stack m sp sp' R n : runs m sp R n -> runs m sp' R (set_rsp sp' n).
Proof.
  intros [[Hw Ha] (mm & -> & Hm)]. split; [|by exists mm]. split; [|done]. intros k a l Hk. destruct (Hw k a l Hk) as [H1 H2 H3]. by split.
Qed.

End FromUser.

(** Storing and loading word [i] of region [k]. *)
Ltac store_word H k i :=
  cbv beta; rewrite ?bind_assoc;
  match type of H with runs _ _ ?R ?n =>
    match eval cbn in (R !! k) with Some (?a, ?l) =>
      match goal with |- context [bind (store64 ?x ?v) ?c n] =>
        let n' := fresh "n" in let E := fresh "E" in let H' := fresh "Hr" in
        destruct (runs_store _ _ R n k a l i v x c H eq_refl) as (n' & E & H'); [cbn [length]; lia | | |
          rewrite E; clear E; cbn [insert list_insert] in H'; clear H; rename H' into H]
      end
    end
  end.
Ltac load_word H k i :=
  cbv beta; rewrite ?bind_assoc;
  match type of H with runs _ _ ?R ?n =>
    match eval cbn in (R !! k) with Some (?a, ?l) =>
      match eval cbn in (l !! i) with Some ?v =>
        match goal with |- context [bind (load64 ?x) ?c n] => rewrite (runs_load _ _ R n k a l i v x c H eq_refl eq_refl) end
      end
    end
  end.

Section UserCall.
Context `{HC : KernelCode} `{HT : SystemTrap} `{HI : ExecuteImage}.
Variables (m : machine) (sp frame kstack u q td : Z) (s1 s2 s3 : Z).
Hypothesis (Hframe : frame <> NULL) (Hu : 0 < u < 2 ^ 64) (Hq : 0 < q < 2 ^ 64) (Htd : curthread m = td).
Hypothesis (H1 : 0 <= s1 < 2 ^ 64) (H2 : 0 <= s2 < 2 ^ 64) (H3 : 0 <= s3 < 2 ^ 64).

(** The system call's frame, the argument structure, the result and the
    thread's return value. *)
Definition call_regions (F U : list Z) (Q T : Z) : list (Z * list Z) := [(frame, F); (u, U); (q, [Q]); (td + 0x380, [T])].

Lemma runs_curthread R n k : runs m k R n -> curthread n = td.
Proof. intros [_ (mm & -> & _)]. done. Qed.
Lemma runs_rsp R n k : runs m k R n -> rsp n = k.
Proof. by intros [_ (mm & -> & _)]. Qed.

(** Calling the installed system call with a null function does nothing. *)
Lemma callback_ping n f0 f1 f2 f3 U Q T :
  runs m sp (call_regions [f0; f1; f2; f3] U Q T) n ->
  exists n', callback_trap frame kstack [s1; s2; s3] [NULL] n = Some (0, n') /\ runs m sp (call_regions [0; s1; s2; s3] U Q 0) n'.
Proof.
  intros Hr. pose proof (runs_curthread _ _ _ Hr) as Hc. pose proof (runs_rsp _ _ _ Hr) as Hs. apply (runs_stack _ _ kstack) in Hr.
  unfold callback_trap, call_regions in *. erewrite bind_some by reflexivity. erewrite bind_some by reflexivity. erewrite bind_some by reflexivity.
  rewrite Hc, Hs. cbv zeta. cbn [app lookup list_lookup default from_option id].
  store_word Hr 0%nat 0%nat; [done | lia|]. store_word Hr 0%nat 1%nat; [done | lia|]. store_word Hr 0%nat 2%nat; [done | lia|].
  store_word Hr 0%nat 3%nat; [done | lia|]. store_word Hr 3%nat 0%nat; [done | lia|].
  unfold ps4SystemCallGenericExecute. rewrite (proj2 (Z.eqb_neq frame NULL) Hframe).
  load_word Hr 0%nat 0%nat; [|unfold e_function; lia]. change (NULL =? NULL) with true. cbv iota. erewrite bind_some by reflexivity.
  load_word Hr 3%nat 0%nat; [|lia]. erewrite bind_some by reflexivity. eexists. split; [reflexivity|]. by apply (runs_stack _ kstack).
Qed.

Lemma runs_self R n : laid R n -> runs n (rsp n) R n.
Proof. intros Hl. split; [done|]. exists (mem n). by destruct n. Qed.

Variables (call rdi rsi rdx rcx r8 r9 v : Z).
Hypothesis (Hcall : 0 < call < 2 ^ 64) (Hgen : 0 < at_generic_call < 2 ^ 64) (Hv : 0 <= v < 2 ^ 64).

(** What the regions hold when the function is called. *)
Definition called_with (Q : Z) : list (Z * list Z) :=
  call_regions [at_generic_call; u; q; NULL] [call; rdi; rsi; rdx; rcx; r8; r9; 0] Q 0.

Hypothesis Hrun : forall Q n, runs m kstack (called_with Q) n ->
  exists n', code_call call [rdi; rsi; rdx; rcx; r8; r9] n = Some (v, n') /\ text n' = text n /\ rsp n' = rsp n /\
    forall x, inside (called_with Q) x -> mem n' !! x = mem n !! x.
Hypothesis Hcode : forall Q n, runs m kstack (called_with Q) n -> code_call at_generic_call [td; u] n = ps4SystemCallGenericCall td u n.

(** The generic call passes the arguments on and publishes the result. *)
Lemma generic_call_run n Q :
  runs m kstack (called_with Q) n ->
  exists b n', ps4SystemCallGenericCall td u n = Some (PS4_OK, n') /\
    runs b kstack (call_regions [at_generic_call; u; q; NULL] [call; rdi; rsi; rdx; rcx; r8; r9; v] Q v) n'.
Proof.
  intros Hr. pose proof (Hrun _ _ Hr) as (n' & E & Ht & Hs & Hm). pose proof (runs_rsp _ _ _ Hr) as Hk. unfold ps4SystemCallGenericCall.
  rewrite (proj2 (Z.eqb_neq u NULL)) by (unfold NULL; lia). unfold called_with, call_regions, g_function, g_argument, g_returns in *.
  load_word Hr 1%nat 0%nat; [|lia]. rewrite (proj2 (Z.eqb_neq call NULL)) by (unfold NULL; lia).
  load_word Hr 1%nat 1%nat; [|lia]. load_word Hr 1%nat 2%nat; [|lia]. load_word Hr 1%nat 3%nat; [|lia]. load_word Hr 1%nat 4%nat; [|lia].
  load_word Hr 1%nat 5%nat; [|lia]. load_word Hr 1%nat 6%nat; [|lia]. erewrite bind_some by exact E.
  destruct Hr as [Hl _]. pose proof (runs_self _ _ (laid_keeps _ _ _ Hl Ht Hm)) as Hr. rewrite Hs, Hk in Hr.
  store_word Hr 1%nat 7%nat; [done | lia|]. load_word Hr 1%nat 7%nat; [|lia].
  unfold ps4SystemCallGenericThreadSetReturn0. store_word Hr 3%nat 0%nat; [done | lia|]. by eexists _, _.
Qed.

(** The installed system call runs it and stores the result where it was asked to. *)
Lemma callback_run n f0 f1 f2 f3 Q T :
  runs m sp (call_regions [f0; f1; f2; f3] [call; rdi; rsi; rdx; rcx; r8; r9; 0] Q T) n ->
  exists b n', callback_trap frame kstack [s1; s2; s3] [at_generic_call; u; q; NULL] n = Some (v, n') /\
    runs b sp (call_regions [at_generic_call; u; q; NULL] [call; rdi; rsi; rdx; rcx; r8; r9; v] v v) n'.
Proof.
  intros Hr. pose proof (runs_curthread _ _ _ Hr) as Hc. pose proof (runs_rsp _ _ _ Hr) as Hs. apply (runs_stack _ _ kstack) in Hr.
  unfold callback_trap, call_regions in *. erewrite bind_some by reflexivity. erewrite bind_some by reflexivity. erewrite bind_some by reflexivity.
  rewrite Hc, Hs. cbv zeta. cbn [app lookup list_lookup default from_option id].
  store_word Hr 0%nat 0%nat; [lia | lia|]. store_word Hr 0%nat 1%nat; [lia | lia|]. store_word Hr 0%nat 2%nat; [lia | lia|].
  store_word Hr 0%nat 3%nat; [done | lia|]. store_word Hr 3%nat 0%nat; [done | lia|].
  destruct (generic_call_run _ _ Hr) as (b & n' & E & Hb). unfold call_regions in Hb.
  unfold ps4SystemCallGenericExecute. rewrite (proj2 (Z.eqb_neq frame NULL) Hframe). unfold e_function, e_uap, e_returns.
  load_word Hr 0%nat 0%nat; [|lia]. rewrite (proj2 (Z.eqb_neq at_generic_call NULL)) by (unfold NULL; lia).
  load_word Hr 0%nat 1%nat; [|lia]. cbv beta. rewrite ?bind_assoc. erewrite bind_some by (rewrite (Hcode _ _ Hr); exact E).
  change (int_result PS4_OK) with 0. change (0 =? PS4_OK) with true. cbv iota zeta.
  load_word Hb 0%nat 2%nat; [|lia]. rewrite (proj2 (Z.eqb_neq q NULL)) by (unfold NULL; lia).
  unfold ps4SystemCallGenericThreadGetReturn0. load_word Hb 3%nat 0%nat; [|lia].
  store_word Hb 2%nat 0%nat; [done | lia|]. load_word Hb 0%nat 3%nat; [|lia]. change (NULL =? NULL) with true. cbv iota.
  erewrite bind_some by reflexivity. erewrite bind_some by reflexivity. load_word Hb 3%nat 0%nat; [|lia]. erewrite bind_some by reflexivity.
  eexists b, _. split; [reflexivity|]. by apply (runs_stack _ kstack).
Qed.

Hypothesis Htrap : forall args n, trap_call 0 (SYS_ps4_callback :: args) n = callback_trap frame kstack [s1; s2; s3] args n.
Hypothesis Hargs : Forall (fun x => 0 <= x < 2 ^ 64) [rdi; rsi; rdx; rcx; r8; r9].

(** Executing it from a user's stack. *)
Lemma execute_run w n f0 f1 f2 f3 Q T :
  ps4KernelIsKernelAddress sp <> PS4_OK ->
  runs m sp (call_regions [f0; f1; f2; f3] [call; rdi; rsi; rdx; rcx; r8; r9; 0] Q T) n ->
  exists r b n', ps4KernelExecute w at_generic_call u q NULL n = Some (r, n') /\
    runs b sp (call_regions [at_generic_call; u; q; NULL] [call; rdi; rsi; rdx; rcx; r8; r9; v] v v) n'.
Proof.
  intros Hsp Hr. unfold ps4KernelExecute, ps4KernelIsInKernel. erewrite bind_some by reflexivity. rewrite (runs_rsp _ _ _ Hr).
  rewrite (proj2 (Z.eqb_neq _ _) Hsp). destruct (callback_ping n f0 f1 f2 f3 _ Q T Hr) as (n1 & E1 & Hr1).
  erewrite bind_some by (unfold syscall; erewrite bind_some by (rewrite Htrap; exact E1); reflexivity).
  change (signed 32 0 =? -1) with false. cbv iota. erewrite bind_some by reflexivity. change (signed 32 0 =? -1) with false. cbv iota.
  destruct (callback_run n1 _ _ _ _ _ _ Hr1) as (b & n2 & E2 & Hr2). eexists _, b, n2. split; [|exact Hr2].
  unfold syscall. by erewrite bind_some by (rewrite Htrap; exact E2).
Qed.

(** C20. A kernel function called from a user process, through the installed
    system call, the generic executor and the generic call, gets the six
    arguments it was given, and the caller gets the whole 64-bit result, as if
    it had called the function in the kernel. *)
Theorem kernel_call_from_user w F U Q T :
  sp = rsp m -> ps4KernelIsKernelAddress sp <> PS4_OK -> laid (call_regions F U Q T) m -> length F = 4%nat -> length U = 8%nat ->
  exists m', ps4KernelCallPrivate u q w call rdi rsi rdx rcx r8 r9 m = Some (signed 64 v, m').
Proof.
  intros Hsp Hk Hl HF HU. pose proof (runs_self _ _ Hl) as Hr. rewrite <- Hsp in Hr.
  destruct F as [|f0 [|f1 [|f2 [|f3 [|]]]]]; try done. destruct U as [|u0 [|u1 [|u2 [|u3 [|u4 [|u5 [|u6 [|u7 [|]]]]]]]]]; try done.
  rewrite !Forall_cons in Hargs. destruct Hargs as (A0 & A1 & A2 & A3 & A4 & A5 & _).
  unfold ps4KernelCallPrivate, ps4KernelIsInKernel. erewrite bind_some by reflexivity. rewrite <- Hsp, (proj2 (Z.eqb_neq _ _) Hk).
  unfold call_regions, g_function, g_argument, g_returns in *.
  store_word Hr 1%nat 0%nat; [lia | lia|]. store_word Hr 1%nat 1%nat; [done | lia|]. store_word Hr 1%nat 2%nat; [done | lia|].
  store_word Hr 1%nat 3%nat; [done | lia|]. store_word Hr 1%nat 4%nat; [done | lia|]. store_word Hr 1%nat 5%nat; [done | lia|].
  store_word Hr 1%nat 6%nat; [done | lia|]. store_word Hr 1%nat 7%nat; [done | lia|].
  destruct (execute_run w _ _ _ _ _ _ _ Hk Hr) as (r & b & n' & E & Hb). cbv beta. erewrite bind_some by exact E.
  unfold call_regions in Hb. load_word Hb 2%nat 0%nat; [|lia]. by exists n'.
Qed.
End UserCall.

(** ** Witnesses *)

(** A kernel function at 0x500 that adds its arguments, and the generic call. *)
Definition adder : KernelCode :=
  {| code_call f args := if f =? 0x500 then ret (foldr Z.add 0 args) else fault |}.
#[local] Instance adder_and_generic : KernelCode :=
  {| code_call f args :=
       if f =? 0x600 then match args with [td; uap] => ps4SystemCallGenericCall (H := adder) td uap | _ => fault end
       else code_call (KernelCode := adder) f args |}.
#[local] Instance example_trap : SystemTrap :=
  {| trap_call rax args := match args with 172 :: rest => callback_trap 0xffffff8000200000 0xffffff8000100000 [0; 0; 0] rest | _ => ret (2 ^ 64 - 1) end |}.
#[local] Instance example_execute : ExecuteImage :=
  {| at_generic_call := 0x600; at_generic_execute := 0x700; at_copy_in_and_patch := 0x800; at_libkernel := 0x900; at_load_start_name := 0xa00;
     at_load_start_module := 0xb00; text_at a := ""%string; exploit_execute f uap := fault |}.

(** The kernel's frame and thread, and two variables on a user's stack. *)
Definition user_example : machine :=
  set_rsp 0x7fff0000 (booted [(0xffffff8000200000, repeat 0 32); (0x7fff1000, repeat 0 64); (0x7fff2000, repeat 0 8); (0xffffff8000001380, repeat 0 8)] [] []).

Lemma user_example_laid :
  laid (call_regions 0xffffff8000200000 0x7fff1000 0x7fff2000 0xffffff8000001000 (repeat 0 4) (repeat 0 8) 0 0) user_example.
Proof.
  split.
  - intros k a l Hk. apply words_check_spec. do 4 (destruct k as [|k]; [injection Hk as <- <-; vm_compute; reflexivity|]). done.
  - intros j k a l b l' Hne Hj Hk. unfold disjoint_ranges.
    do 4 (destruct j as [|j]; [injection Hj as <- <-; do 4 (destruct k as [|k]; [injection Hk as <- <-; first [done | cbn [length repeat]; lia]|]); done|]). done.
Qed.

Lemma kernel_call_from_user_witness :
  exists m', ps4KernelCallPrivate 0x7fff1000 0x7fff2000 0 0x500 1 2 3 4 5 6 user_example = Some (21, m').
Proof.
  apply (kernel_call_from_user user_example (rsp user_example) 0xffffff8000200000 0xffffff8000100000 0x7fff1000 0x7fff2000 0xffffff8000001000 0 0 0)
    with (v := 21) (F := repeat 0 4) (U := repeat 0 8) (Q := 0) (T := 0); try done.
  - intros Q n Hr. exists n. by vm_compute.
  - intros Q n Hr. unfold code_call at 1. cbn [adder_and_generic]. unfold ps4SystemCallGenericCall, call_regions, called_with in *.
    change (at_generic_call =? 1536) with true. cbv iota. change (2147422208 =? NULL) with false. cbv iota.
    do 2 (load_word Hr 1%nat 0%nat; [|done]). reflexivity.
  - by repeat constructor.
  - apply user_example_laid.
Defined.
