(* ===== verification/UserProcess.v ===== *)
(** * A user process

    The state the user library's functions work on (memory with heap blocks,
    descriptors, mappings, shared memory objects, standard output) and the
    system calls and C library functions they use. What the operating system
    is free to choose (addresses, handles, whether a request fails) is a
    parameter. *)

From stdpp Require Import base gmap list strings.
From S2P Require Import Prelude Errors Uthash Machine Reference KernelBase KernelMemory.

(** ** State *)

(** [proc] holds the memory and its heap blocks; [fds] maps a descriptor to the
    open file it stands for; [maps] the mappings with their sizes; [shms] the
    shared memory objects with their sizes; [files] the files by path;
    [pending] what successive reads of an open file give, [None] an error. *)
Record process := Process {
  proc : machine;
  fds : gmap Z Z;
  maps : gmap Z Z;
  shms : gmap (list Z) Z;
  files : gmap (list Z) (list Z);
  pending : gmap Z (list (option (list Z)));
  output : list Z
}.

Definition set_proc (x : machine) (s : process) : process :=
  Process x (fds s) (maps s) (shms s) (files s) (pending s) (output s).
Definition set_fds (x : gmap Z Z) (s : process) : process :=
  Process (proc s) x (maps s) (shms s) (files s) (pending s) (output s).
Definition set_maps (x : gmap Z Z) (s : process) : process :=
  Process (proc s) (fds s) x (shms s) (files s) (pending s) (output s).
Definition set_shms (x : gmap (list Z) Z) (s : process) : process :=
  Process (proc s) (fds s) (maps s) x (files s) (pending s) (output s).
Definition set_pending (x : gmap Z (list (option (list Z)))) (s : process) : process :=
  Process (proc s) (fds s) (maps s) (shms s) (files s) x (output s).
Definition set_output (x : list Z) (s : process) : process :=
  Process (proc s) (fds s) (maps s) (shms s) (files s) (pending s) x.

Abbreviation U := (ST process).

(** A step of the memory alone. *)
Definition on_memory {A} (c : K A) : U A :=
  fun s => match c (proc s) with Some (r, m) => Some (r, set_proc m s) | None => None end.

(** ** What the system chooses *)

Class UserSystem := {
  user_malloc : process -> Z -> Z;
  user_realloc : process -> Z -> Z -> Z;
  user_junk : process -> Z -> Z -> Z;
  page_size : Z;
  mmap_at : process -> Z -> Z -> Z;
  jit_create : process -> Z -> option Z;
  jit_alias : process -> Z -> option Z;
  new_file : process -> option Z;
  shm_file : process -> list Z -> option Z;
  bind_result : process -> Z -> list Z -> Z;
  listen_result : process -> Z -> Z -> Z;
  truncate_result : process -> Z -> Z -> Z;
  may_open : process -> list Z -> bool;
  fdopen_stream : process -> Z -> Z;
  open_max : Z
}.

Section Calls.
Context `{UserSystem}.

(** ** Heap *)

(** The bytes a block holds when nothing was stored to it. *)
Definition junk_bytes (s : process) (p : Z) (n : nat) : list Z :=
  (fun i => wrap 8 (user_junk s p (Z.of_nat i))) <$> seq 0 n.

Definition libc_malloc (n : Z) : U Z := fun s =>
  let p := user_malloc s n in
  if p =? 0 then Some (0, s)
  else Some (p, set_proc (set_allocs (<[p := n]> (allocs (proc s)))
    (set_mem (mem_write (mem (proc s)) p (junk_bytes s p (Z.to_nat n))) (proc s))) s).

Definition libc_free (p : Z) : U unit := on_memory (free p).

(** A block of [n] bytes that begins with what the old block held; NULL leaves
    the old block as it is. *)
Definition libc_realloc (old n : Z) : U Z := fun s =>
  match allocs (proc s) !! old with
  | None => None
  | Some k =>
      match mem_read (mem (proc s)) old (Z.to_nat k) with
      | None => None
      | Some l =>
          let p := user_realloc s old n in
          if p =? 0 then Some (0, s)
          else
            let l' := take (Z.to_nat n) l ++ drop (Z.to_nat k) (junk_bytes s p (Z.to_nat n)) in
            Some (p, set_proc (set_allocs (<[p := n]> (delete old (allocs (proc s))))
              (set_mem (mem_write (mem_free (mem (proc s)) old (Z.to_nat k)) p l') (proc s))) s)
      end
  end.

(** ** Descriptors *)

(** The lowest descriptor that is not open, from [i] on. *)
Fixpoint lowest_free (t : gmap Z Z) (i : Z) (n : nat) : Z :=
  match n with
  | O => i
  | S n' => match t !! i with Some _ => lowest_free t (i + 1) n' | None => i end
  end.

(** A new descriptor for an open file, or -1 when the table is full. *)
Definition install (o : Z) : U Z := fun s =>
  let fd := lowest_free (fds s) 0 (size (fds s)) in
  if fd <? open_max then Some (fd, set_fds (<[fd := o]> (fds s)) s) else Some (-1, s).

Definition dup (fd : Z) : U Z := fun s =>
  match fds s !! fd with Some o => install o s | None => Some (-1, s) end.

Definition close (fd : Z) : U Z := fun s =>
  match fds s !! fd with Some _ => Some (0, set_fds (delete fd (fds s)) s) | None => Some (-1, s) end.

(** [open] of a device, [socket] and [accept] all give a new open file. *)
Definition open_file : U Z := fun s =>
  match new_file s with Some o => install o s | None => Some (-1, s) end.

(** [read(fd, a, n)]: the bytes go to [a]; 0 at the end, -1 for an error or
    when [a] is not memory the process may write. *)
Definition read (fd a n : Z) : U Z := fun s =>
  match fds s !! fd with
  | None => Some (-1, s)
  | Some o =>
      match default [] (pending s !! o) with
      | [] => Some (0, s)
      | None :: rest => Some (-1, set_pending (<[o := rest]> (pending s)) s)
      | Some c :: rest =>
          let l := take (Z.to_nat n) c in
          let left := drop (Z.to_nat n) c in
          match store_bytes a l (proc s) with
          | None => Some (-1, s)
          | Some (_, m) =>
              Some (Z.of_nat (length l),
                    set_pending (<[o := match left with [] => rest | _ => Some left :: rest end]> (pending s)) (set_proc m s))
          end
      end
  end.

(** ** Mappings *)

Definition MAP_FAILED : Z := 2 ^ 64 - 1.

Definition mmap (n fd : Z) : U Z := fun s =>
  let a := mmap_at s n fd in
  if a =? MAP_FAILED then Some (MAP_FAILED, s) else Some (a, set_maps (<[a := n]> (maps s)) s).

(** A mapping is only taken away as a whole. *)
Definition munmap (a n : Z) : U Z := fun s =>
  match maps s !! a with
  | Some k => if k =? n then Some (0, set_maps (delete a (maps s)) s) else None
  | None => None
  end.

(** A just-in-time shared memory handle, or an alias of one. The result is what
    the caller's variable holds behind the call: the new handle, or [h0], what
    it held before, when the call fails. The error code is not used. *)
Definition sceKernelJitCreateSharedMemory (n h0 : Z) : U Z := fun s =>
  match jit_create s n with Some h => Some (h, set_fds (<[h := h]> (fds s)) s) | None => Some (h0, s) end.
Definition sceKernelJitCreateAliasOfSharedMemory (e h0 : Z) : U Z := fun s =>
  match jit_alias s e with Some h => Some (h, set_fds (<[h := h]> (fds s)) s) | None => Some (h0, s) end.

(** [shm_open(path, O_CREAT | O_RDWR, 0755)]: the object is made, empty, when
    it is not there. *)
Definition shm_open (path : list Z) : U Z := fun s =>
  match shm_file s path with
  | None => Some (-1, s)
  | Some o =>
      install o (match shms s !! path with Some _ => s | None => set_shms (<[path := 0]> (shms s)) s end)
  end.

(** [ftruncate] of the object [path] that [fd] stands for. *)
Definition ftruncate (path : list Z) (fd n : Z) : U Z := fun s =>
  let r := truncate_result s fd n in
  if r <? 0 then Some (r, s) else Some (r, set_shms (<[path := n]> (shms s)) s).

Definition shm_unlink (path : list Z) : U Z := fun s =>
  match shms s !! path with Some _ => Some (0, set_shms (delete path (shms s)) s) | None => Some (-1, s) end.

(** ** Output *)

Definition printf (t : list Z) : U unit := fun s => Some (tt, set_output (output s ++ t) s).
End Calls.

(** ** A reference system

    Blocks lie above everything mapped, mappings and handles above those there
    are; nothing fails while there is room. *)

Definition above {A} (t : gmap Z A) : Z := top_address (elements (dom t)) + 1.

Lemma above_fresh {A} (t : gmap Z A) : t !! above t = None.
Proof.
  apply not_elem_of_dom. intros Hd. pose proof (top_address_ge (elements (dom t)) (above t) ltac:(by apply elem_of_elements)). unfold above in *. lia.
Qed.

Definition reference_user_malloc (s : process) (n : Z) : Z :=
  let p := bump_malloc (proc s) n in
  match allocs (proc s) !! p with Some _ => 0 | None => p end.

Definition reference_mmap (s : process) (n fd : Z) : Z :=
  let a := Z.max 0x10000 (above (maps s)) in
  if a <? 2 ^ 63 then a else MAP_FAILED.

Definition reference_system : UserSystem :=
  {| user_malloc := reference_user_malloc;
     user_realloc s old n := Z.max (2 ^ 63) (top_address (addresses (proc s)) + 1);
     user_junk s p i := 0xcc;
     page_size := 0x4000;
     mmap_at := reference_mmap;
     jit_create s n := Some (Z.max 0 (above (fds s)));
     jit_alias s e := Some (Z.max 0 (above (fds s)));
     new_file s := Some 100;
     shm_file s path := Some 200;
     bind_result s fd a := 0;
     listen_result s fd n := 0;
     truncate_result s fd n := 0;
     may_open s path := true;
     fdopen_stream s fd := 0;
     open_max := 64 |}.
