(* ===== verification/UserMemory.v ===== *)
(** * Memory of a user process

    [common/user/source/memory/memory.c], [protected.c] and [shared.c]: heap
    memory, memory read from files, memory that is writable at one address and
    executable at another, and memory shared between processes. *)

From stdpp Require Import base gmap list strings.
From S2P Require Import Prelude Errors Uthash Machine Reference KernelBase KernelMemory UserProcess.

Section UserMemory.
Context `{UserSystem}.

(** ** memory.c *)

Definition sizeof_Ps4Memory : Z := 16.

Definition ps4MemoryAllocate (memory : out) (size : Z) : U (Z * option Z) :=
  match memory with
  | ONull => ret (PS4_ERROR_ARGUMENT_PRIMARY_MISSING, None)
  | OPtr =>
      if size =? 0 then ret (PS4_ERROR_ARGUMENT_SIZE_NULL, None)
      else let! p := libc_malloc size in ret (PS4_OK, Some p)
  end.

Definition ps4MemoryMalloc (size : Z) : U Z :=
  let! r := ps4MemoryAllocate OPtr size in
  if negb (fst r =? PS4_OK) then ret NULL else ret (default 0 (snd r)).

Definition ps4MemoryFree (memory : Z) : U Z :=
  if memory =? NULL then ret PS4_ERROR_ARGUMENT_PRIMARY_MISSING
  else do! libc_free memory in ret PS4_OK.

(** [size] is the first field, [address] the second. *)
Definition ps4MemoryCreate (memory : out) (size : Z) : U (Z * option Z) :=
  match memory with
  | ONull => ret (PS4_ERROR_ARGUMENT_PRIMARY_MISSING, None)
  | OPtr =>
      if size =? 0 then ret (PS4_ERROR_ARGUMENT_SIZE_NULL, None)
      else
        let! p := libc_malloc sizeof_Ps4Memory in
        do! on_memory (store64 p size) in
        let! a := ps4MemoryMalloc size in
        do! on_memory (store64 (p + 8) a) in
        ret (PS4_OK, Some p)
  end.

Definition ps4MemoryDestroy (memory : Z) : U Z :=
  if memory =? NULL then ret PS4_ERROR_ARGUMENT_PRIMARY_MISSING
  else
    let! a := on_memory (load64 (memory + 8)) in
    do! (if a =? NULL then ret tt else do! ps4MemoryFree a in ret tt) in
    do! libc_free memory in
    ret PS4_OK.

(** A getter of one field of a structure. *)
Definition field_get (memory offset : Z) (value : out) : U (Z * option Z) :=
  if memory =? NULL then ret (PS4_ERROR_ARGUMENT_PRIMARY_MISSING, None)
  else match value with
  | ONull => ret (PS4_ERROR_ARGUMENT_OUT_MISSING, None)
  | OPtr => let! v := on_memory (load64 (memory + offset)) in ret (PS4_OK, Some v)
  end.

Definition ps4MemoryGetAddress (memory : Z) (address : out) : U (Z * option Z) := field_get memory 8 address.
Definition ps4MemoryGetSize (memory : Z) (size : out) : U (Z * option Z) := field_get memory 0 size.

(** [while((length = read(fd, data + s, full - s)) > 0)]: the buffer and its
    fill, or [None] when it could not grow. [full] is an [int], which must not
    overflow. *)
Fixpoint file_loop (fuel : nat) (fd data full s : Z) : U (option (Z * Z)) :=
  match fuel with
  | O => fault
  | S fuel' =>
      let! length := read fd (data + s) (full - s) in
      if 0 <? signed 32 length then
        let s := s + signed 32 length in
        if s =? full then
          if 2 ^ 31 <=? full * 2 then fault
          else
            let full := full * 2 in
            let! t := libc_realloc data full in
            if t =? NULL then do! libc_free data in ret None
            else file_loop fuel' fd t full s
        else file_loop fuel' fd data full s
      else ret (Some (data, s))
  end.

(** [*memory] and [*size] are the second component. *)
Definition ps4MemoryAllocateFromFileWithoutSize (fuel : nat) (memory size : out) (fd : Z) : U (Z * option (Z * option Z)) :=
  let! data := libc_malloc 4096 in
  match memory with
  | ONull => ret (PS4_ERROR_ARGUMENT_PRIMARY_MISSING, None)
  | OPtr =>
      let! r := file_loop fuel fd data 4096 0 in
      match r with
      | None => ret (-1, None)
      | Some (data, s) => ret (PS4_OK, Some (data, match size with OPtr => Some s | ONull => None end))
      end
  end.

(** [for(i = s.st_size; i < sz; ++i)]: element [i] of 32-bit words is zeroed. *)
Fixpoint zero_loop (b i : Z) (n : nat) : U unit :=
  match n with
  | O => ret tt
  | S n' => do! on_memory (store32 (b + 4 * i) 0) in zero_loop b (i + 1) n'
  end.

(** [fread(b, st_size, 1, f)] of the file's contents. *)
Definition ps4MemoryAllocateFileFromPathAligned (memory size : out) (file : list Z) (alignment : Z) : U (Z * option (Z * option Z)) :=
  match memory with
  | ONull => ret (PS4_ERROR_ARGUMENT_PRIMARY_MISSING, None)
  | OPtr =>
      let! found := gets (fun s => files s !! file) in
      match found with
      | None => ret (PS4_ERROR_NOT_FOUND, None)
      | Some content =>
          if alignment =? 0 then ret (PS4_ERROR_ARGUMENT_EXPECTATION_FAILED, None)
          else
            let st_size := Z.of_nat (length content) in
            let sz := wrap 64 (st_size * alignment) / alignment in
            let! b := libc_malloc sz in
            if b =? NULL then ret (PS4_ERROR_OUT_OF_MEMORY, None)
            else
              let! allowed := gets (fun s => may_open s file) in
              if negb allowed then do! libc_free b in ret (PS4_ERROR_FORBIDDEN, None)
              else
                do! on_memory (store_bytes b content) in
                do! zero_loop b st_size (Z.to_nat (sz - st_size)) in
                ret (PS4_OK, Some (b, match size with OPtr => Some sz | ONull => None end))
      end
  end.

(** ** protected.c *)

Definition sizeof_Ps4MemoryProtected : Z := 24.
Definition o_writable : Z := 0.
Definition o_executable : Z := 8.
Definition o_protected_size : Z := 16.

(** The error labels: what each of them releases before the structure goes. *)
Definition protected_fail (m : Z) (release : U unit) : U (Z * option Z) :=
  do! release in do! libc_free m in ret (PS4_ERROR_OUT_OF_MEMORY, None).

(** [e0] and [w0] are what the locals [executableHandle] and [writableHandle]
    hold on entry: the function does not initialise them and does not look at
    the results of the calls that are to set them. *)
Definition ps4MemoryProtectedCreate (e0 w0 : Z) (memory : out) (size : Z) : U (Z * option Z) :=
  match memory with
  | ONull => ret (PS4_ERROR_ARGUMENT_PRIMARY_MISSING, None)
  | OPtr =>
      if size =? 0 then ret (PS4_ERROR_ARGUMENT_SIZE_NULL, None)
      else
        let! m := libc_malloc sizeof_Ps4MemoryProtected in
        if m =? NULL then ret (PS4_ERROR_OUT_OF_MEMORY, None)
        else
          do! on_memory (store64 (m + o_protected_size) ((size / page_size + 1) * page_size)) in
          let! n := on_memory (load64 (m + o_protected_size)) in
          let! executableHandle := sceKernelJitCreateSharedMemory n e0 in
          if executableHandle =? 0 then protected_fail m (ret tt)
          else
            let! writableHandle := sceKernelJitCreateAliasOfSharedMemory executableHandle w0 in
            let e2 := do! close executableHandle in ret tt in
            if writableHandle =? 0 then protected_fail m e2
            else
              let e3 := do! close writableHandle in e2 in
              let! x := mmap n executableHandle in
              do! on_memory (store64 (m + o_executable) x) in
              if x =? MAP_FAILED then protected_fail m e3
              else
                let! w := mmap n writableHandle in
                do! on_memory (store64 (m + o_writable) w) in
                if w =? MAP_FAILED then
                  protected_fail m (do! munmap x n in e3)
                else
                  do! close executableHandle in
                  do! close writableHandle in
                  ret (PS4_OK, Some m)
  end.

Definition ps4MemoryProtectedDestroy (memory : Z) : U Z :=
  if memory =? NULL then ret (-1)
  else
    let! w := on_memory (load64 (memory + o_writable)) in
    let! n := on_memory (load64 (memory + o_protected_size)) in
    let! r := munmap w n in
    let! x := on_memory (load64 (memory + o_executable)) in
    let! r' := munmap x n in
    do! libc_free memory in
    ret (Z.lor r r').

Definition ps4MemoryProtectedGetWritableAddress (memory : Z) (address : out) : U (Z * option Z) := field_get memory o_writable address.
Definition ps4MemoryProtectedGetExecutableAddress (memory : Z) (address : out) : U (Z * option Z) := field_get memory o_executable address.
Definition ps4MemoryProtectedGetSize (memory : Z) (size : out) : U (Z * option Z) := field_get memory o_protected_size size.

(** ** shared.c *)

Definition sizeof_Ps4MemoryShared : Z := 24.
Definition o_address : Z := 0.
Definition o_shared_size : Z := 8.
Definition o_path : Z := 16.

(** The size of the mapping: what was asked for, or else the object's size, or
    else a page, rounded up to pages. *)
Definition shared_size (size fileSize : Z) : Z :=
  if (size =? 0) && (0 <? fileSize) then wrap 64 (((fileSize - 1) / page_size + 1) * page_size)
  else if size =? 0 then page_size
  else wrap 64 (((size - 1) / page_size + 1) * page_size).

(** [path] are the characters before the terminator; the structure keeps at
    most 255 of them. *)
Definition ps4MemorySharedOpen (memory : out) (size : Z) (path : list Z) : U (Z * option Z) :=
  let kept := take 255 path in
  match memory with
  | ONull => ret (PS4_ERROR_ARGUMENT_PRIMARY_MISSING, None)
  | OPtr =>
      let! m := libc_malloc sizeof_Ps4MemoryShared in
      if m =? NULL then ret (PS4_ERROR_OUT_OF_MEMORY, None)
      else
        let! p := libc_malloc (Z.of_nat (length kept) + 1) in
        do! on_memory (store64 (m + o_path) p) in
        let e1 := do! libc_free m in ret (PS4_ERROR_OUT_OF_MEMORY, None) in
        if p =? NULL then e1
        else
          do! on_memory (store_bytes p (kept ++ [0])) in
          let! handle := shm_open path in
          let e2 := do! libc_free p in e1 in
          if handle <? 0 then e2
          else
            let e3 := do! close handle in do! shm_unlink kept in e2 in
            let! fileSize := gets (fun s => default 0 (shms s !! path)) in
            do! on_memory (store64 (m + o_shared_size) (shared_size size fileSize)) in
            let! n := on_memory (load64 (m + o_shared_size)) in
            let! t := (if fileSize <? n then ftruncate path handle n else ret 0) in
            if t <? 0 then e3
            else
              let! a := mmap n handle in
              do! on_memory (store64 (m + o_address) a) in
              if a =? MAP_FAILED then e3
              else do! close handle in ret (PS4_OK, Some m)
  end.

Definition ps4MemorySharedClose (m : Z) : U Z :=
  if m =? NULL then ret (-1)
  else
    let! a := on_memory (load64 (m + o_address)) in
    let! n := on_memory (load64 (m + o_shared_size)) in
    let! r := munmap a n in
    let! p := on_memory (load64 (m + o_path)) in
    do! libc_free p in
    do! libc_free m in
    ret r.

(** The path the structure keeps, up to its terminator. *)
Fixpoint load_string (a : Z) (n : nat) : U (list Z) :=
  match n with
  | O => fault
  | S n' =>
      let! b := on_memory (load8 a) in
      if b =? 0 then ret [] else let! l := load_string (a + 1) n' in ret (b :: l)
  end.

Definition ps4MemorySharedUnlink (m : Z) : U Z :=
  if m =? NULL then ret (-1)
  else
    let! p := on_memory (load64 (m + o_path)) in
    let! path := load_string p 256 in
    let! r := shm_unlink path in
    let! r' := ps4MemorySharedClose m in
    ret (Z.lor r r').

Definition ps4MemorySharedGetAddress (memory : Z) (address : out) : U (Z * option Z) := field_get memory o_address address.
Definition ps4MemorySharedGetSize (memory : Z) (size : out) : U (Z * option Z) := field_get memory o_shared_size size.
End UserMemory.

(** ** What the system promises *)

(** Memory, mappings and handles that are new were not in use. *)
Class UserSystemLaws (S : UserSystem) : Prop := {
  user_malloc_fresh s n i : user_malloc s n <> 0 -> 0 <= i < n -> mem (proc s) !! (user_malloc s n + i) = None;
  user_malloc_data s n i : user_malloc s n <> 0 -> 0 <= i < n -> (user_malloc s n + i) ∉ text (proc s);
  user_malloc_new s n : user_malloc s n <> 0 -> allocs (proc s) !! user_malloc s n = None;
  user_malloc_range s n : user_malloc s n <> 0 -> 0 < user_malloc s n /\ user_malloc s n + n <= 2 ^ 64;
  mmap_fresh s n fd : mmap_at s n fd <> MAP_FAILED -> maps s !! mmap_at s n fd = None;
  mmap_range s n fd : 0 <= mmap_at s n fd < 2 ^ 64;
  jit_create_fresh s n h : jit_create s n = Some h -> fds s !! h = None;
  jit_alias_fresh s e h : jit_alias s e = Some h -> fds s !! h = None;
  page_size_positive : 0 < page_size < 2 ^ 32
}.

(** Bytes just written to where there is no code can be written again. *)
Lemma writable_written m M A p l k :
  length l = k -> (forall i, 0 <= i < Z.of_nat k -> (p + i) ∉ text m) ->
  writable_range (set_allocs A (set_mem (mem_write M p l) m)) p k.
Proof.
  intros Hl Ht. apply writable_range_iff. intros i Hi. split.
  - unfold mapped. cbn [mem set_allocs set_mem]. rewrite lookup_mem_write, Hl.
    replace (_ && _) with true by (symmetry; apply andb_true_iff; rewrite Z.leb_le, Z.ltb_lt; lia). apply lookup_lt_is_Some. lia.
  - intros Hx. exfalso. by apply (Ht (Z.of_nat i) ltac:(lia)).
Qed.

(** ** A structure of three words on the heap *)

Section Three.
Context `{HS : UserSystem} `{HW : !UserSystemLaws HS}.

(** The memory of [s] with a block of 24 bytes at [p] that holds the words
    [a], [b] and [c]. *)
Definition held3 (s : process) (p : Z) (a b c : list Z) : machine :=
  set_allocs (<[p := 24]> (allocs (proc s))) (set_mem (mem_write (mem (proc s)) p (a ++ b ++ c)) (proc s)).

Lemma malloc3 s :
  user_malloc s 24 <> 0 -> exists a b c, length a = 8%nat /\ length b = 8%nat /\ length c = 8%nat /\
    libc_malloc 24 s = Some (user_malloc s 24, set_proc (held3 s (user_malloc s 24) a b c) s).
Proof.
  intros Hp. set (l := junk_bytes s (user_malloc s 24) 24). assert (length l = 24%nat) as Hl by (unfold l, junk_bytes; by rewrite length_fmap, length_seq).
  exists (take 8 l), (take 8 (drop 8 l)), (drop 16 l). split; [|split; [|split]].
  1-3: rewrite ?length_take, ?length_drop; lia.
  assert (take 8 l ++ take 8 (drop 8 l) ++ drop 16 l = l) as El
    by (replace (drop 16 l) with (drop 8 (drop 8 l)) by (by rewrite drop_drop); by rewrite !take_drop).
  unfold libc_malloc. rewrite (proj2 (Z.eqb_neq _ 0) Hp). unfold held3. rewrite El. done.
Qed.

Lemma held3_writable s a b c :
  let p := user_malloc s 24 in p <> 0 -> length a = 8%nat -> length b = 8%nat -> length c = 8%nat -> writable_range (held3 s p a b c) p 24.
Proof.
  intros p Hp La Lb Lc. apply writable_written; [by rewrite !length_app, La, Lb, Lc|]. intros i Hi. by apply user_malloc_data.
Qed.

(** Storing one of the words. *)
Lemma held3_store s a b c (i : nat) v :
  let p := user_malloc s 24 in p <> 0 -> length a = 8%nat -> length b = 8%nat -> length c = 8%nat -> (i < 3)%nat ->
  let put k x := if decide (k = i) then le_bytes 8 v else x in
  store64 (p + 8 * Z.of_nat i) v (held3 s p a b c) = Some (tt, held3 s p (put 0%nat a) (put 1%nat b) (put 2%nat c)).
Proof.
  intros p Hp La Lb Lc Hi put. rewrite store64_run by (apply (writable_range_sub _ p 24); [by apply held3_writable | lia | lia]).
  replace (p + 8 * Z.of_nat i) with (p + Z.of_nat (8 * i)) by lia. change (mem (held3 s p a b c)) with (mem_write (mem (proc s)) p (a ++ b ++ c)).
  rewrite mem_write_inside by (rewrite !length_app, length_le_bytes; lia). rewrite length_le_bytes.
  assert (take (8 * i) (a ++ b ++ c) ++ le_bytes 8 v ++ drop (8 * i + 8) (a ++ b ++ c) = put 0%nat a ++ put 1%nat b ++ put 2%nat c) as ->; [|done].
  unfold put. destruct i as [|[|[|i]]]; [| | |lia]; repeat case_decide; try done.
  - change (8 * 0)%nat with 0%nat. rewrite take_0. cbn [app]. by rewrite drop_app_length' by lia.
  - rewrite take_app_length' by lia. rewrite (app_assoc a b c), drop_app_length' by (rewrite length_app; lia). done.
  - rewrite (app_assoc a b c), take_app_length' by (rewrite length_app; lia). rewrite drop_ge by (rewrite !length_app; lia). by rewrite app_nil_r, <- app_assoc.
Qed.

Lemma held3_load s a b c (i : nat) v :
  let p := user_malloc s 24 in length a = 8%nat -> length b = 8%nat -> length c = 8%nat ->
  [a; b; c] !! i = Some (le_bytes 8 v) -> 0 <= v < 2 ^ 64 ->
  load64 (p + 8 * Z.of_nat i) (held3 s p a b c) = Some (v, held3 s p a b c).
Proof.
  intros p La Lb Lc Hi Hv. rewrite (load64_run _ _ (le_bytes 8 v)); [by rewrite le_val_bytes_wrap, wrap_small|].
  replace (p + 8 * Z.of_nat i) with (p + Z.of_nat (8 * i)) by lia.
  assert (take 8 (drop (8 * i) (a ++ b ++ c)) = le_bytes 8 v) as <-.
  { destruct i as [|[|[|i]]]; cbn [lookup list_lookup] in Hi; try done; injection Hi as ->; cbn [Nat.mul Nat.add].
    - rewrite drop_0. by rewrite take_app_length' by (by rewrite ?length_le_bytes).
    - rewrite drop_app_length' by lia. by rewrite take_app_length' by (by rewrite ?length_le_bytes).
    - rewrite app_assoc, drop_app_length' by (rewrite length_app; lia). by rewrite take_ge by (by rewrite ?length_le_bytes). }
  apply (mem_read_sub _ p 24); [|apply lookup_lt_Some in Hi; cbn [length] in Hi; lia].
  unfold held3. cbn [mem set_allocs set_mem]. pose proof (mem_read_write_same (mem (proc s)) p (a ++ b ++ c)) as Hr.
  rewrite !length_app, La, Lb, Lc in Hr. exact Hr.
Qed.

(** Freeing the structure leaves the memory as it was. *)
Lemma held3_free s a b c :
  let p := user_malloc s 24 in p <> 0 -> length a = 8%nat -> length b = 8%nat -> length c = 8%nat ->
  free p (held3 s p a b c) = Some (tt, proc s).
Proof.
  intros p Hp La Lb Lc. unfold free. rewrite (proj2 (Z.eqb_neq p 0) Hp). unfold held3 at 1. cbn [allocs set_allocs]. rewrite lookup_insert_eq.
  do 2 f_equal. unfold held3. destruct (proc s) as [mm tx al c0 c2 c3 c4 ms ct rs vs hd pn ca en] eqn:Es. unfold set_allocs, set_mem. cbn. f_equal.
  - apply map_eq. intros x. rewrite lookup_mem_free, lookup_mem_write, !length_app. change (Z.of_nat (Z.to_nat 24)) with 24.
    replace (Z.of_nat (length a + (length b + length c))) with 24 by lia.
    destruct (Z.leb_spec p x), (Z.ltb_spec x (p + 24)); cbn [andb]; try done.
    pose proof (user_malloc_fresh s 24 (x - p) Hp ltac:(lia)) as Hf. fold p in Hf. rewrite Es in Hf. cbn [mem] in Hf. by replace (p + (x - p)) with x in Hf by lia.
  - rewrite delete_insert_eq. apply delete_id. pose proof (user_malloc_new s 24 Hp) as Hn. fold p in Hn. by rewrite Es in Hn.
Qed.
End Three.

(** ** Protected memory *)

Section Protected.
Context `{HS : UserSystem} `{HW : !UserSystemLaws HS}.

(** [s] with other memory, descriptors and mappings. *)
Definition st (s : process) (m : machine) (F M : gmap Z Z) : process :=
  Process m F M (shms s) (files s) (pending s) (output s).

Lemma st_id s : st s (proc s) (fds s) (maps s) = s.
Proof. by destruct s. Qed.

Lemma on_memory_st {A} (c : K A) s m F M r m' : c m = Some (r, m') -> on_memory c (st s m F M) = Some (r, st s m' F M).
Proof. intros E. unfold on_memory. cbn [proc st]. by rewrite E. Qed.

Lemma close_st s m F M h o : F !! h = None -> close h (st s m (<[h := o]> F) M) = Some (0, st s m F M).
Proof.
  intros Hh. unfold close. cbn [fds st]. rewrite lookup_insert_eq. unfold set_fds, st. cbn. by rewrite delete_insert_id.
Qed.

Lemma munmap_st s m F M a n : M !! a = None -> munmap a n (st s m F (<[a := n]> M)) = Some (0, st s m F M).
Proof.
  intros Ha. unfold munmap. cbn [maps st]. rewrite lookup_insert_eq, Z.eqb_refl. unfold set_maps, st. cbn. by rewrite delete_insert_id.
Qed.

Lemma free_st s a b c F M :
  let p := user_malloc s 24 in p <> 0 -> length a = 8%nat -> length b = 8%nat -> length c = 8%nat ->
  libc_free p (st s (held3 s p a b c) F M) = Some (tt, st s (proc s) F M).
Proof. intros p Hp La Lb Lc. by apply on_memory_st, held3_free. Qed.

(** An error label: what it releases, then the structure. *)
Lemma fail_st s a b c F M release :
  let p := user_malloc s 24 in p <> 0 -> length a = 8%nat -> length b = 8%nat -> length c = 8%nat ->
  release (st s (held3 s p a b c) F M) = Some (tt, st s (held3 s p a b c) (fds s) (maps s)) ->
  protected_fail p release (st s (held3 s p a b c) F M) = Some ((PS4_ERROR_OUT_OF_MEMORY, None), s).
Proof.
  intros p Hp La Lb Lc E. unfold protected_fail. erewrite bind_some by exact E. erewrite bind_some by (by apply free_st). by rewrite st_id.
Qed.

(** The size of the mappings. *)
Definition protected_size (size : Z) : Z := (size / page_size + 1) * page_size.

Lemma protected_size_bounds size : 0 <= size -> size < protected_size size <= size + page_size /\ (page_size | protected_size size).
Proof.
  intros Hs. pose proof (page_size_positive (S := HS)) as Hp. unfold protected_size. split; [|by apply Z.divide_factor_r].
  set (P := page_size) in *. assert (P <> 0) as Hp0 by lia. pose proof (Z.div_mod size P Hp0). pose proof (Z.mod_pos_bound size P (proj1 Hp)). nia.
Qed.

(** The structure of memory that was made. *)
Definition protected_made (s : process) (p n w x : Z) (s' : process) : Prop :=
  s' = st s (held3 s p (le_bytes 8 w) (le_bytes 8 x) (le_bytes 8 n)) (fds s) (<[w := n]> (<[x := n]> (maps s))).

Lemma protected_maps s p n : 
  let m c := held3 s p c in
  forall a b e w, length a = 8%nat -> length b = 8%nat -> p = user_malloc s 24 -> p <> 0 -> 0 <= n < 2 ^ 64 ->
  fds s !! e = None -> <[e := e]> (fds s) !! w = None ->
  exists r s', (let! x := mmap n e in
    do! on_memory (store64 (p + o_executable) x) in
    let e3 := do! close w in do! close e in ret tt in
    if x =? MAP_FAILED then protected_fail p e3
    else
      let! y := mmap n w in
      do! on_memory (store64 (p + o_writable) y) in
      if y =? MAP_FAILED then protected_fail p (do! munmap x n in e3)
      else do! close e in do! close w in ret (PS4_OK, Some p))
    (st s (held3 s p a b (le_bytes 8 n)) (<[w := w]> (<[e := e]> (fds s))) (maps s)) = Some (r, s') /\
    (r = (PS4_ERROR_OUT_OF_MEMORY, None) /\ s' = s \/
     exists y x, r = (PS4_OK, Some p) /\ protected_made s p n y x s' /\ maps s !! x = None /\ <[x := n]> (maps s) !! y = None /\
       0 <= x < 2 ^ 64 /\ 0 <= y < 2 ^ 64).
Proof.
  intros m a b e w La Lb -> Hp Hn He Hw. set (p := user_malloc s 24) in *. set (c := le_bytes 8 n).
  assert (length c = 8%nat) as Lc by apply length_le_bytes.
  assert (forall a b M, (do! close w in do! close e in ret tt) (st s (held3 s p a b c) (<[w := w]> (<[e := e]> (fds s))) M) =
    Some (tt, st s (held3 s p a b c) (fds s) M)) as E3.
  { intros a' b' M. erewrite bind_some by (by apply close_st). by erewrite bind_some by (by apply close_st). }
  set (S1 := st s _ _ _). set (x := mmap_at S1 n e). unfold mmap at 1. unfold bind at 1. fold x.
  assert (forall M x y b', length b' = 8%nat -> on_memory (store64 (p + o_executable) x) (st s (held3 s p y b' c) (<[w := w]> (<[e := e]> (fds s))) M) =
    Some (tt, st s (held3 s p y (le_bytes 8 x) c) (<[w := w]> (<[e := e]> (fds s))) M) \/ length y <> 8%nat) as Ex.
  { intros M x' y b' Hb'. destruct (decide (length y = 8%nat)) as [Hy|]; [left|by right]. apply on_memory_st. apply (held3_store s y b' c 1 x'); done || lia. }
  destruct (Z.eqb_spec x MAP_FAILED) as [Ef|Hf].
  - erewrite bind_some by (destruct (Ex (maps s) MAP_FAILED a b Lb) as [E|]; [exact E | done]). cbv zeta. change (MAP_FAILED =? MAP_FAILED) with true. cbv iota.
    eexists _, s. split; [|by left]. apply fail_st; [done | done | apply length_le_bytes | done | apply E3].
  - pose proof (mmap_fresh S1 n e Hf) as Hx. fold x in Hx. change (maps S1) with (maps s) in Hx. pose proof (mmap_range S1 n e) as Rx. fold x in Rx.
    change (set_maps (<[x := n]> (maps S1)) S1) with (st s (held3 s p a b c) (<[w := w]> (<[e := e]> (fds s))) (<[x := n]> (maps s))).
    erewrite bind_some by (destruct (Ex (<[x := n]> (maps s)) x a b Lb) as [E|]; [exact E | done]). cbv zeta. rewrite (proj2 (Z.eqb_neq x MAP_FAILED) Hf).
    set (S2 := st s _ _ _). set (y := mmap_at S2 n w). unfold mmap. unfold bind at 1. fold y. destruct (Z.eqb_spec y MAP_FAILED) as [Eg|Hg].
    + erewrite bind_some by (apply on_memory_st; apply (held3_store s a (le_bytes 8 x) c 0 MAP_FAILED); [done | done | apply length_le_bytes | done | lia]).
      change (MAP_FAILED =? MAP_FAILED) with true. cbv iota. eexists _, s. split; [|by left].
      apply fail_st; [done | apply length_le_bytes | apply length_le_bytes | done|]. erewrite bind_some by (by apply munmap_st). apply E3.
    + pose proof (mmap_fresh S2 n w Hg) as Hy. fold y in Hy. change (maps S2) with (<[x := n]> (maps s)) in Hy. pose proof (mmap_range S2 n w) as Ry. fold y in Ry.
      change (set_maps (<[y := n]> (maps S2)) S2) with (st s (held3 s p a (le_bytes 8 x) c) (<[w := w]> (<[e := e]> (fds s))) (<[y := n]> (<[x := n]> (maps s)))).
      erewrite bind_some by (apply on_memory_st; apply (held3_store s a (le_bytes 8 x) c 0 y); [done | done | apply length_le_bytes | done | lia]).
      rewrite (proj2 (Z.eqb_neq y MAP_FAILED) Hg).
      apply lookup_insert_None in Hw as [Hw Hew]. rewrite insert_insert_ne by done.
      erewrite bind_some by (apply close_st; by rewrite lookup_insert_ne). erewrite bind_some by (by apply close_st).
      eexists _, _. split; [reflexivity|]. right. exists y, x. split; [done|]. split; [reflexivity|]. done.
Qed.

(** Taking away what was made leaves the process as it was. *)
Lemma protected_destroy_run s n w x s' :
  let p := user_malloc s 24 in p <> 0 -> 0 <= n < 2 ^ 64 -> 0 <= x < 2 ^ 64 -> 0 <= w < 2 ^ 64 ->
  maps s !! x = None -> <[x := n]> (maps s) !! w = None -> protected_made s p n w x s' ->
  ps4MemoryProtectedDestroy p s' = Some (0, s).
Proof.
  intros p Hp Hn Hx Hw Fx Fw ->. set (a := le_bytes 8 w). set (b := le_bytes 8 x). set (c := le_bytes 8 n).
  assert (length a = 8%nat /\ length b = 8%nat /\ length c = 8%nat) as (La & Lb & Lc) by (repeat split; apply length_le_bytes).
  assert (forall F M i v, [a; b; c] !! i = Some (le_bytes 8 v) -> 0 <= v < 2 ^ 64 ->
    on_memory (load64 (p + 8 * Z.of_nat i)) (st s (held3 s p a b c) F M) = Some (v, st s (held3 s p a b c) F M)) as El
    by (intros; apply on_memory_st; by apply held3_load).
  unfold ps4MemoryProtectedDestroy. rewrite (proj2 (Z.eqb_neq p NULL) Hp).
  erewrite bind_some by (by apply (El _ _ 0%nat w)). erewrite bind_some by (by apply (El _ _ 2%nat n)).
  erewrite bind_some by (by apply munmap_st). erewrite bind_some by (by apply (El _ _ 1%nat x)).
  erewrite bind_some by (by apply munmap_st). erewrite bind_some by (by apply free_st). by rewrite st_id.
Qed.

(** The function up to the first of the two calls. *)
Lemma protected_create_start s size e0 w0 :
  let p := user_malloc s 24 in let n := protected_size size in
  0 < size -> size + page_size < 2 ^ 64 -> p <> 0 ->
  exists a b, length a = 8%nat /\ length b = 8%nat /\ ps4MemoryProtectedCreate e0 w0 OPtr size s =
    (let! executableHandle := sceKernelJitCreateSharedMemory n e0 in
     if executableHandle =? 0 then protected_fail p (ret tt)
     else
       let! writableHandle := sceKernelJitCreateAliasOfSharedMemory executableHandle w0 in
       let e2 := do! close executableHandle in ret tt in
       if writableHandle =? 0 then protected_fail p e2
       else
         let e3 := do! close writableHandle in e2 in
         let! x := mmap n executableHandle in
         do! on_memory (store64 (p + o_executable) x) in
         if x =? MAP_FAILED then protected_fail p e3
         else
           let! w := mmap n writableHandle in
           do! on_memory (store64 (p + o_writable) w) in
           if w =? MAP_FAILED then protected_fail p (do! munmap x n in e3)
           else
             do! close executableHandle in
             do! close writableHandle in
             ret (PS4_OK, Some p)) (st s (held3 s p a b (le_bytes 8 n)) (fds s) (maps s)).
Proof.
  intros p n Hs Hov Hp. pose proof (page_size_positive (S := HS)) as Hpg. destruct (protected_size_bounds size ltac:(lia)) as [Hn Hd].
  fold n in Hn, Hd. destruct (malloc3 s Hp) as (a & b & c & La & Lb & Lc & Em). exists a, b. split; [done|]. split; [done|].
  unfold ps4MemoryProtectedCreate. rewrite (proj2 (Z.eqb_neq size 0)) by lia. unfold sizeof_Ps4MemoryProtected.
  erewrite bind_some by exact Em. fold p. rewrite (proj2 (Z.eqb_neq p NULL) Hp).
  change (set_proc (held3 s (user_malloc s 24) a b c) s) with (st s (held3 s p a b c) (fds s) (maps s)).
  erewrite bind_some by (apply on_memory_st; apply (held3_store s a b c 2 n); done || lia). cbn [decide]. simpl (decide _).
  by erewrite bind_some by (apply on_memory_st; apply (held3_load s a b _ 2 n); done || apply length_le_bytes || lia).
Qed.

(** When no handle can be had and the uninitialised [executableHandle] holds
    the number of a descriptor of the process, that descriptor is closed: the
    failure leaves the process with one descriptor less. *)
Theorem protected_create_closes_stranger s size e0 o :
  0 < size -> size + page_size < 2 ^ 64 -> user_malloc s 24 <> 0 -> e0 <> 0 -> fds s !! e0 = Some o ->
  (forall s' n, jit_create s' n = None) -> (forall s' e, jit_alias s' e = None) ->
  ps4MemoryProtectedCreate e0 0 OPtr size s = Some ((PS4_ERROR_OUT_OF_MEMORY, None), set_fds (delete e0 (fds s)) s).
Proof.
  intros Hs Hov Hp He0 Ho Hc Ha. destruct (protected_create_start s size e0 0 Hs Hov Hp) as (a & b & La & Lb & ->).
  unfold sceKernelJitCreateSharedMemory at 1, bind at 1. rewrite Hc, (proj2 (Z.eqb_neq e0 0) He0).
  unfold sceKernelJitCreateAliasOfSharedMemory at 1, bind at 1. rewrite Ha. change (0 =? 0) with true. cbv iota zeta. unfold protected_fail.
  erewrite bind_some by (erewrite bind_some by (unfold close; cbn [fds st]; rewrite Ho; reflexivity); reflexivity).
  change (set_fds (delete e0 (fds s)) (st s ?m (fds s) (maps s))) with (st s m (delete e0 (fds s)) (maps s)).
  by erewrite bind_some by (apply free_st; done || apply length_le_bytes).
Qed.

(** C21. Where the call that is to set a handle succeeds, or the uninitialised
    local happens to hold zero, and descriptor 0 is taken, so that no handle is
    zero: making protected memory either fails and leaves the process exactly
    as it was, no descriptor, mapping or heap block more, or gives two mappings
    of the same size, a multiple of the page size larger than what was asked
    for by at most a page, with every handle closed again; destroying it then
    leaves the process as it was before. *)
Theorem protected_create_destroy s size e0 w0 :
  0 < size -> size + page_size < 2 ^ 64 -> is_Some (fds s !! 0) ->
  (e0 = 0 \/ forall s' n, is_Some (jit_create s' n)) -> (w0 = 0 \/ forall s' e, is_Some (jit_alias s' e)) ->
  exists r s', ps4MemoryProtectedCreate e0 w0 OPtr size s = Some (r, s') /\
    (r = (PS4_ERROR_OUT_OF_MEMORY, None) /\ s' = s \/
     exists m n w x, r = (PS4_OK, Some m) /\ size < n <= size + page_size /\ (page_size | n) /\
       fds s' = fds s /\ maps s' = <[w := n]> (<[x := n]> (maps s)) /\ maps s !! x = None /\ maps s !! w = None /\ w <> x /\
       ps4MemoryProtectedGetWritableAddress m OPtr s' = Some ((PS4_OK, Some w), s') /\
       ps4MemoryProtectedGetExecutableAddress m OPtr s' = Some ((PS4_OK, Some x), s') /\
       ps4MemoryProtectedDestroy m s' = Some (0, s)).
Proof.
  intros Hs Hov [o Ho] He0 Hw0. pose proof (page_size_positive (S := HS)) as Hpg. destruct (protected_size_bounds size ltac:(lia)) as [Hn Hd].
  set (n := protected_size size) in *. assert (0 <= n < 2 ^ 64) as Rn by lia. set (p := user_malloc s 24).
  destruct (Z.eqb_spec p 0) as [Ep|Hp].
  { eexists _, s. split; [|by left]. unfold ps4MemoryProtectedCreate. rewrite (proj2 (Z.eqb_neq size 0)) by lia.
    erewrite bind_some by (unfold libc_malloc, sizeof_Ps4MemoryProtected; fold p; rewrite Ep; reflexivity). done. }
  destruct (protected_create_start s size e0 w0 Hs Hov Hp) as (a & b & La & Lb & ->). fold n p.
  assert (length (le_bytes 8 n) = 8%nat) as Ln by apply length_le_bytes.
  set (S0 := st s _ _ _). unfold sceKernelJitCreateSharedMemory at 1, bind at 1. destruct (jit_create S0 n) as [e|] eqn:Ee.
  2: { assert (e0 = 0) as -> by (destruct He0 as [|Hall]; [done | by destruct (Hall S0 n); congruence]).
       change (0 =? 0) with true. cbv iota. eexists _, s. split; [by apply fail_st | by left]. }
  pose proof (jit_create_fresh S0 n e Ee) as Fe. change (fds S0) with (fds s) in Fe |- *. assert (e <> 0) as He by congruence.
  rewrite (proj2 (Z.eqb_neq e 0) He). change (set_fds (<[e := e]> (fds s)) S0) with (st s (held3 s p a b (le_bytes 8 n)) (<[e := e]> (fds s)) (maps s)).
  set (S1 := st s _ _ _). unfold sceKernelJitCreateAliasOfSharedMemory at 1, bind at 1. destruct (jit_alias S1 e) as [w|] eqn:Ew.
  2: { assert (w0 = 0) as -> by (destruct Hw0 as [|Hall]; [done | by destruct (Hall S1 e); congruence]).
       eexists _, s. split; [|by left]. change (0 =? 0) with true. cbv iota zeta. apply fail_st; try done. by erewrite bind_some by (by apply close_st). }
  pose proof (jit_alias_fresh S1 e w Ew) as Fw. change (fds S1) with (<[e := e]> (fds s)) in Fw |- *.
  assert (w <> 0) as Hw by (intros ->; rewrite lookup_insert_ne in Fw; congruence). rewrite (proj2 (Z.eqb_neq w 0) Hw).
  change (set_fds (<[w := w]> (<[e := e]> (fds s))) S1) with (st s (held3 s p a b (le_bytes 8 n)) (<[w := w]> (<[e := e]> (fds s))) (maps s)).
  destruct (protected_maps s p n a b e w La Lb eq_refl Hp Rn Fe Fw) as (r & s' & E & Hr). exists r, s'. split; [exact E|].
  destruct Hr as [Hr|(y & x & -> & Hm & Fx & Fy & Rx & Ry)]; [by left|]. right. exists p, n, y, x.
  pose proof (protected_destroy_run s n y x s' Hp Rn Rx Ry Fx Fy Hm) as Ed. apply lookup_insert_None in Fy as Fy'. destruct Fy' as [Fy' Hxy]. rewrite Hm.
  split; [done|]. split; [done|]. split; [done|]. split; [done|]. split; [done|]. split; [done|]. split; [done|]. split; [done|].
  split; [|split; [|rewrite <- Hm; exact Ed]]; unfold ps4MemoryProtectedGetWritableAddress, ps4MemoryProtectedGetExecutableAddress, field_get;
    rewrite (proj2 (Z.eqb_neq p NULL) Hp); erewrite bind_some; try reflexivity; apply on_memory_st.
  - apply (held3_load s _ _ _ 0 y); done || apply length_le_bytes.
  - apply (held3_load s _ _ _ 1 x); done || apply length_le_bytes.
Qed.
End Protected.

(** ** Sizes of shared memory *)

Section SharedSize.
Context `{HS : UserSystem} `{HW : !UserSystemLaws HS}.

Lemma round_up n : 0 < n -> n + page_size < 2 ^ 64 ->
  let r := wrap 64 (((n - 1) / page_size + 1) * page_size) in n <= r < n + page_size /\ (page_size | r).
Proof.
  intros Hn Hov r. pose proof (page_size_positive (S := HS)) as Hp. set (P := page_size) in *. assert (P <> 0) as Hp0 by lia.
  pose proof (Z.div_mod (n - 1) P Hp0). pose proof (Z.mod_pos_bound (n - 1) P (proj1 Hp)).
  assert (n <= ((n - 1) / P + 1) * P < n + P) as Hb by nia. assert (r = ((n - 1) / P + 1) * P) as Er by (unfold r; apply wrap_small; lia).
  rewrite Er. split; [done | apply Z.divide_factor_r].
Qed.

(** The size of a shared mapping is a positive multiple of the page size. It
    holds what was asked for, or all of the object when no size was given, and
    is less than a page larger. *)
Theorem shared_size_rounds size fileSize :
  0 <= size -> 0 <= fileSize -> size + page_size < 2 ^ 64 -> fileSize + page_size < 2 ^ 64 ->
  let n := shared_size size fileSize in let want := if size =? 0 then fileSize else size in
  (page_size | n) /\ 0 < n /\ want <= n /\ (n < want + page_size \/ want = 0 /\ n = page_size).
Proof.
  intros Hs Hf Os Of n want. pose proof (page_size_positive (S := HS)) as Hp. unfold n, want, shared_size.
  destruct (Z.eqb_spec size 0) as [->|Hs0]; cbn [andb].
  - destruct (Z.ltb_spec 0 fileSize) as [Hf0|Hf0].
    + destruct (round_up fileSize Hf0 Of) as [Hb Hd]. split; [done|]. lia.
    + split; [apply Z.divide_refl | lia].
  - destruct (round_up size ltac:(lia) Os) as [Hb Hd]. split; [done|]. lia.
Qed.
End SharedSize.

(** ** Files *)

(** Reading a file "aligned" never pads it: the size is multiplied by the
    alignment and divided by it again, so whatever the alignment, the block and
    the size reported are the file's, as long as the product does not wrap. *)
Theorem aligned_file_is_not_aligned `{HS : UserSystem} `{HW : !UserSystemLaws HS} s file content alignment :
  files s !! file = Some content -> 0 < alignment -> Z.of_nat (length content) * alignment < 2 ^ 64 ->
  user_malloc s (Z.of_nat (length content)) <> 0 -> (forall s', may_open s' file = true) ->
  exists b s', ps4MemoryAllocateFileFromPathAligned OPtr OPtr file alignment s =
      Some ((PS4_OK, Some (b, Some (Z.of_nat (length content)))), s') /\
    mem_read (mem (proc s')) b (length content) = Some content /\ allocs (proc s') !! b = Some (Z.of_nat (length content)).
Proof.
  intros Hf Ha Hov Hm Hop. set (n := Z.of_nat (length content)) in *. set (b := user_malloc s n) in *.
  unfold ps4MemoryAllocateFileFromPathAligned. erewrite bind_some by reflexivity. rewrite Hf, (proj2 (Z.eqb_neq alignment 0)) by lia. fold n. cbv zeta.
  rewrite wrap_small, Z.div_mul by lia. unfold libc_malloc. unfold bind at 1. fold b. rewrite (proj2 (Z.eqb_neq b 0) Hm). set (s1 := set_proc _ s).
  rewrite (proj2 (Z.eqb_neq b NULL) Hm). erewrite bind_some by reflexivity. rewrite Hop. cbn [negb].
  assert (length (junk_bytes s b (Z.to_nat n)) = length content) as Lj by (unfold junk_bytes; rewrite length_fmap, length_seq; unfold n; lia).
  assert (writable_range (proc s1) b (length content)) as Hw.
  { apply writable_written; [done|]. intros i Hi. by apply user_malloc_data. }
  set (m2 := set_mem (mem_write (mem (proc s1)) b content) (proc s1)).
  exists b, (set_proc m2 s1). split; [|split].
  - erewrite bind_some by (unfold on_memory; rewrite store_bytes_run by done; reflexivity). by replace (Z.to_nat (n - n)) with O by lia.
  - apply mem_read_write_same.
  - apply lookup_insert_eq.
Qed.

Section FileLoop.
Context `{HS : UserSystem}.

(** A grown block holds the old contents and lies where nothing else is. *)
Class UserReallocLaws : Prop := {
  user_realloc_range s old n : user_realloc s old n <> 0 -> 0 < user_realloc s old n;
  user_realloc_data s old n i : user_realloc s old n <> 0 -> 0 <= i < n -> (user_realloc s old n + i) ∉ text (proc s)
}.
Context `{HG : !UserReallocLaws}.

(** The buffer of [full] bytes at [data] begins with [l]. *)
Record filled (s : process) (data : Z) (full : nat) (l : list Z) : Prop := Filled {
  filled_block : allocs (proc s) !! data = Some (Z.of_nat full);
  filled_writable : writable_range (proc s) data full;
  filled_bytes : mem_read (mem (proc s)) data (length l) = Some l;
  filled_data : data <> 0
}.

(** The bytes still to come, and whether a failing read ends them. *)
Definition stream (chunks : list (list Z)) (e : list (option (list Z))) : list (option (list Z)) := (Some <$> chunks) ++ e.
Definition ends (e : list (option (list Z))) : Prop := e = [] \/ exists rest, e = None :: rest.

(** A read into the free part of the buffer. *)
Lemma read_run s fd o data full l c chunks e :
  fds s !! fd = Some o -> pending s !! o = Some (stream (c :: chunks) e) -> filled s data full l -> (length l <= full)%nat ->
  let k := (full - length l)%nat in
  exists s', read fd (data + Z.of_nat (length l)) (Z.of_nat full - Z.of_nat (length l)) s = Some (Z.of_nat (length (take k c)), s') /\
    filled s' data full (l ++ take k c) /\ fds s' = fds s /\
    pending s' !! o = Some (match drop k c with [] => stream chunks e | r => stream (r :: chunks) e end).
Proof.
  intros Hfd Hp [Hb Hw Hr Hd] Hl k. unfold read. rewrite Hfd, Hp. change (default [] (Some (stream (c :: chunks) e))) with (Some c :: stream chunks e). cbv iota zeta.
  replace (Z.to_nat (Z.of_nat full - Z.of_nat (length l))) with k by lia.
  assert (writable_range (proc s) (data + Z.of_nat (length l)) (length (take k c))) as Hw'
    by (apply (writable_range_sub _ data full); [done | lia | rewrite length_take; lia]).
  rewrite store_bytes_run by done. eexists. split; [reflexivity|]. split; [|split; [done|]].
  - split; [done | by apply writable_range_written | | done]. cbn [proc set_proc set_pending mem set_mem]. rewrite length_app.
    apply mem_read_app; [|apply mem_read_write_same]. rewrite mem_read_write_other; [done|]. unfold disjoint_ranges. lia.
  - cbn [pending set_pending]. rewrite lookup_insert_eq. by destruct (drop k c).
Qed.

(** Growing a full buffer. *)
Lemma realloc_run s data full l :
  filled s data full l -> length l = full -> user_realloc s data (Z.of_nat (2 * full)) <> 0 ->
  let t := user_realloc s data (Z.of_nat (2 * full)) in
  exists s', libc_realloc data (Z.of_nat full * 2) s = Some (t, s') /\ filled s' t (2 * full) l /\ fds s' = fds s /\ pending s' = pending s.
Proof.
  intros [Hb Hw Hr Hd] Hl Ht t. unfold libc_realloc. replace (Z.of_nat full * 2) with (Z.of_nat (2 * full)) by lia.
  rewrite Hl in Hr. rewrite Hb, Nat2Z.id, Hr. fold t. rewrite (proj2 (Z.eqb_neq t 0) Ht), Nat2Z.id, take_ge by lia. eexists. split; [reflexivity|].
  set (j := drop full (junk_bytes s t (2 * full))).
  assert (length j = full) as Lj by (unfold j, junk_bytes; rewrite length_drop, length_fmap, length_seq; lia).
  split; [|done]. split; [apply lookup_insert_eq | | | done].
  - apply writable_written; [rewrite length_app; lia|]. intros i Hi. apply user_realloc_data; [done | lia].
  - cbn [proc set_proc mem set_allocs set_mem]. pose proof (mem_read_write_same (mem_free (mem (proc s)) data full) t (l ++ j)) as Hrd.
    pose proof (mem_read_sub _ _ _ _ 0 (length l) Hrd ltac:(rewrite length_app; lia)) as Hs. rewrite Z.add_0_r, drop_0, take_app_length in Hs. exact Hs.
Qed.

(** The loop reads to the end of the file. *)
Lemma file_loop_run fuel : forall s fd o data full l chunks e,
  fds s !! fd = Some o -> pending s !! o = Some (stream chunks e) -> ends e -> filled s data full l -> (length l < full)%nat ->
  Forall (fun c => c <> []) chunks -> Z.of_nat (length l + length (concat chunks)) < 2 ^ 30 ->
  (forall s' old n, user_realloc s' old n <> 0) -> (length (concat chunks) < fuel)%nat -> Z.of_nat full < 2 ^ 31 ->
  exists s' data' full', file_loop fuel fd data (Z.of_nat full) (Z.of_nat (length l)) s =
      Some (Some (data', Z.of_nat (length (l ++ concat chunks))), s') /\ filled s' data' full' (l ++ concat chunks).
Proof.
  induction fuel as [|fuel IH]; intros s fd o data full l chunks e Hfd Hp He Hfl Hl Hne Htot Hre Hf Hmax; [lia|]. cbn [file_loop].
  destruct chunks as [|c chunks].
  { cbn [concat]. rewrite app_nil_r. unfold bind, read. rewrite Hfd, Hp.
    destruct He as [->|[rest ->]]; eexists _, data, full; (split; [reflexivity | by destruct Hfl]). }
  destruct (read_run s fd o data full l c chunks e Hfd Hp Hfl ltac:(lia)) as (s1 & E & Hfl1 & Hfd1 & Hp1).
  set (k := (full - length l)%nat) in *. cbn [concat] in *. rewrite length_app in Htot, Hf.
  apply Forall_cons in Hne as [Hc Hne]. assert (0 < length c)%nat as Lc by (destruct c; [done | cbn [length]; lia]).
  assert (take k c ++ concat (match drop k c with [] => chunks | r => r :: chunks end) = c ++ concat chunks) as Ec.
  { rewrite <- (take_drop k c) at 3. destruct (drop k c) eqn:Ed; [by rewrite app_nil_r|]. cbn [concat]. by rewrite <- app_assoc. }
  set (rest := match drop k c with [] => chunks | r => r :: chunks end) in *.
  assert (pending s1 !! o = Some (stream rest e)) as Hp1' by (rewrite Hp1; unfold rest; by destruct (drop k c)).
  assert (Forall (fun c => c <> []) rest) as Hne1 by (unfold rest; destruct (drop k c) eqn:Ed; [done | by constructor]).
  assert (length (take k c) + length (concat rest) = length c + length (concat chunks))%nat as Lr by (rewrite <- !length_app; by rewrite Ec).
  assert (0 < length (take k c) <= k)%nat as Lt by (rewrite length_take; lia).
  erewrite bind_some by exact E. rewrite signed_small by (change (32 - 1) with 31; lia). rewrite (proj2 (Z.ltb_lt 0 _)) by lia.
  replace (Z.of_nat (length l) + Z.of_nat (length (take k c))) with (Z.of_nat (length (l ++ take k c))) by (rewrite length_app; lia).
  rewrite <- Ec, app_assoc. destruct (Z.eqb_spec (Z.of_nat (length (l ++ take k c))) (Z.of_nat full)) as [Es|Es].
  - rewrite length_app in Es. rewrite (proj2 (Z.leb_gt (2 ^ 31) _)) by lia.
    destruct (realloc_run s1 data full (l ++ take k c) Hfl1 ltac:(rewrite length_app; lia) (Hre _ _ _)) as (s2 & E2 & Hfl2 & Hfd2 & Hp2).
    erewrite bind_some by exact E2. rewrite (proj2 (Z.eqb_neq _ NULL)) by apply Hre.
    replace (Z.of_nat full * 2) with (Z.of_nat (2 * full)) by lia.
    destruct (IH s2 fd o (user_realloc s1 data (Z.of_nat (2 * full))) (2 * full)%nat (l ++ take k c) rest e) as (s' & d' & f' & E' & Hf');
      rewrite ?Hfd2, ?Hfd1, ?Hp2; try done; try (rewrite length_app; lia); [lia..|]. by exists s', d', f'.
  - rewrite length_app in Es.
    destruct (IH s1 fd o data full (l ++ take k c) rest e) as (s' & d' & f' & E' & Hf'); rewrite ?Hfd1; try done; try (rewrite length_app; lia); [lia..|].
    by exists s', d', f'.
Qed.

Lemma malloc_filled `{HW : !UserSystemLaws HS} s n :
  0 <= n -> user_malloc s n <> 0 -> exists s', libc_malloc n s = Some (user_malloc s n, s') /\ filled s' (user_malloc s n) (Z.to_nat n) [] /\
    fds s' = fds s /\ pending s' = pending s.
Proof.
  intros Hn Hp. unfold libc_malloc. rewrite (proj2 (Z.eqb_neq _ 0) Hp). eexists. split; [reflexivity|]. split; [|done].
  set (j := junk_bytes s (user_malloc s n) (Z.to_nat n)). assert (length j = Z.to_nat n) as Lj by (unfold j, junk_bytes; by rewrite length_fmap, length_seq).
  split; [| |done|done].
  - cbn [proc set_proc allocs set_allocs]. rewrite lookup_insert_eq, Z2Nat.id by lia. done.
  - apply writable_written; [done|]. intros i Hi. apply user_malloc_data; [done | lia].
Qed.

(** C27. Reading an open file of unknown size gives all of its bytes, up to its
    end or to the first read that fails, which is reported as success too. *)
Theorem file_read_whole `{HW : !UserSystemLaws HS} s fd o chunks e fuel :
  fds s !! fd = Some o -> pending s !! o = Some (stream chunks e) -> ends e -> Forall (fun c => c <> []) chunks ->
  Z.of_nat (length (concat chunks)) < 2 ^ 30 -> (length (concat chunks) < fuel)%nat ->
  user_malloc s 4096 <> 0 -> (forall s' old n, user_realloc s' old n <> 0) ->
  exists data s', ps4MemoryAllocateFromFileWithoutSize fuel OPtr OPtr fd s =
      Some ((PS4_OK, Some (data, Some (Z.of_nat (length (concat chunks))))), s') /\
    mem_read (mem (proc s')) data (length (concat chunks)) = Some (concat chunks).
Proof.
  intros Hfd Hp He Hne Hsz Hf Hm Hre. destruct (malloc_filled s 4096 ltac:(lia) Hm) as (s1 & E1 & Hfl & Hfd1 & Hp1).
  unfold ps4MemoryAllocateFromFileWithoutSize. erewrite bind_some by exact E1.
  destruct (file_loop_run fuel s1 fd o (user_malloc s 4096) (Z.to_nat 4096) [] chunks e) as (s2 & d & full & E2 & Hfl2);
    rewrite ?Hfd1, ?Hp1; try done; [cbn [length]; lia..|].
  exists d, s2. split; [|by destruct Hfl2].
  erewrite bind_some by exact E2. done.
Qed.
End FileLoop.

(** ** Witnesses *)

#[local] Existing Instance reference_system.

Lemma reference_jit_fresh (t : gmap Z Z) : t !! Z.max 0 (above t) = None.
Proof.
  apply not_elem_of_dom. intros Hd. pose proof (top_address_ge (elements (dom t)) (Z.max 0 (above t)) ltac:(by apply elem_of_elements)).
  unfold above in *. lia.
Qed.

Lemma reference_malloc_bump s n : reference_user_malloc s n <> 0 ->
  reference_user_malloc s n = bump_malloc (proc s) n /\ allocs (proc s) !! bump_malloc (proc s) n = None.
Proof. unfold reference_user_malloc. by destruct (allocs (proc s) !! _) eqn:E. Qed.

#[local] Instance reference_system_laws : UserSystemLaws reference_system.
Proof.
  pose proof bump_allocator_laws as B. destruct B as [B1 B2 B3]. cbn [kmalloc bump_allocator] in *.
  split; cbn [user_malloc mmap_at jit_create jit_alias page_size reference_system].
  - intros s n i Hp Hi. destruct (reference_malloc_bump s n Hp) as [E _]. rewrite E in *. by apply (B1 _ n).
  - intros s n i Hp Hi. destruct (reference_malloc_bump s n Hp) as [E _]. rewrite E in *. by apply (B2 _ n).
  - intros s n Hp. destruct (reference_malloc_bump s n Hp) as [E En]. by rewrite E.
  - intros s n Hp. destruct (reference_malloc_bump s n Hp) as [E _]. rewrite E in *. pose proof (B3 (proc s) n Hp). lia.
  - intros s n fd. unfold reference_mmap. destruct (_ <? _); [|done]. intros _. apply not_elem_of_dom. intros Hd.
    pose proof (top_address_ge (elements (dom (maps s))) (Z.max 0x10000 (above (maps s))) ltac:(by apply elem_of_elements)). unfold above in *. lia.
  - intros s n fd. unfold reference_mmap, MAP_FAILED. destruct (Z.ltb_spec (Z.max 0x10000 (above (maps s))) (2 ^ 63)); lia.
  - intros s n h [= <-]. apply reference_jit_fresh.
  - intros s e h [= <-]. apply reference_jit_fresh.
  - lia.
Qed.

#[local] Instance reference_realloc_laws : UserReallocLaws (HS := reference_system).
Proof.
  split; cbn [user_realloc reference_system].
  - intros s old n _. lia.
  - intros s old n i _ Hi Ht. pose proof (top_address_ge (addresses (proc s)) _ (proj2 (elem_of_addresses (proc s) _) (or_intror Ht))). lia.
Qed.

(** A process with nothing mapped, the file "a" of five bytes, open as 3, that
    is read in two pieces and then gives an error. *)
Definition process_example : process :=
  Process (booted [] [] []) (<[0 := 7]> (<[1 := 8]> (<[2 := 9]> (<[3 := 10]> ∅)))) ∅ ∅ (<[[97] := [1; 2; 3; 4; 5]]> ∅)
    (<[10 := [Some [1; 2]; Some [3; 4; 5]; None]]> ∅) [].

Lemma protected_create_destroy_witness :
  exists m s', ps4MemoryProtectedCreate 0x7fff 0x1234 OPtr 100 process_example = Some ((PS4_OK, Some m), s') /\
    ps4MemoryProtectedDestroy m s' = Some (0, process_example).
Proof.
  destruct (protected_create_destroy process_example 100 0x7fff 0x1234 ltac:(done) ltac:(done) ltac:(by eexists)
    ltac:(right; intros; by eexists) ltac:(right; intros; by eexists)) as (r & s' & E & [[-> ->]|(m & n & w & x & -> & H)]).
  - vm_compute in E. discriminate E.
  - exists m, s'. split; [exact E | apply H].
Defined.

(** Descriptor 3 of the process is closed when [executableHandle] happens to be 3. *)
Lemma protected_create_closes_stranger_witness :
  let S := Build_UserSystem reference_user_malloc (fun s _ _ => user_malloc s 1) (fun _ _ _ => 0xcc) 0x4000 reference_mmap (fun _ _ => None)
    (fun _ _ => None) (fun _ => None) (fun _ _ => None) (fun _ _ _ => 0) (fun _ _ _ => 0) (fun _ _ _ => 0) (fun _ _ => true) (fun _ _ => 0) 64 in
  @ps4MemoryProtectedCreate S 3 0 OPtr 100 process_example = Some ((PS4_ERROR_OUT_OF_MEMORY, None), set_fds (delete 3 (fds process_example)) process_example).
Proof.
  intros S. assert (UserSystemLaws S) as HW by (pose proof reference_system_laws as [H1 H2 H3 H4 H5 H6 _ _ H9]; split; done).
  apply (@protected_create_closes_stranger S HW process_example 100 3 10); done.
Defined.

Lemma shared_size_rounds_witness : (page_size | shared_size 0x4001 0) /\ shared_size 0x4001 0 = 0x8000.
Proof.
  split; [|reflexivity]. apply (shared_size_rounds 0x4001 0); done.
Defined.

Lemma aligned_file_is_not_aligned_witness :
  exists b s', ps4MemoryAllocateFileFromPathAligned OPtr OPtr [97] 16 process_example = Some ((PS4_OK, Some (b, Some 5)), s').
Proof.
  destruct (aligned_file_is_not_aligned process_example [97] [1; 2; 3; 4; 5] 16) as (b & s' & E & _); [done | lia | cbn; lia | | done |].
  - vm_compute. discriminate.
  - by exists b, s'.
Defined.

Lemma file_read_whole_witness :
  exists data s', ps4MemoryAllocateFromFileWithoutSize 6 OPtr OPtr 3 process_example = Some ((PS4_OK, Some (data, Some 5)), s') /\
    mem_read (mem (proc s')) data 5 = Some [1; 2; 3; 4; 5].
Proof.
  apply (file_read_whole process_example 3 10 [[1; 2]; [3; 4; 5]] [None] 6); [done | done | right; by eexists | by repeat constructor | cbn; lia | cbn; lia | | ].
  - vm_compute. discriminate.
  - intros s' old n. cbn [user_realloc reference_system]. lia.
Defined.
