(* ===== verification/UserIo.v ===== *)
(** * Standard I/O, streams and sockets of a user process

    [common/user/source/standard_io.c], [stream.c] and [socket.c]. *)

From stdpp Require Import base gmap list strings.
From S2P Require Import Prelude Errors Uthash Machine Reference KernelBase KernelMemory HexDump Socket UserProcess.

Section UserIo.
Context `{UserSystem}.

(** ** standard_io.c *)

(** One pass of [for(i = 0; i < 3; ++i)]. *)
Definition redirect_one (to i : Z) : U unit :=
  if i =? to then ret tt
  else
    do! close i in
    do! (if 0 <? to then dup to else open_file) in
    ret tt.

Definition ps4StandardIoRedirect (to : Z) : U unit :=
  do! redirect_one to 0 in
  do! redirect_one to 1 in
  redirect_one to 2.

(** [junk]: what the row buffer holds before. *)
Definition ps4StandardIoPrintHexDump (junk : list Z) (data : Z) (size : nat) : U Z :=
  if data =? NULL then ret PS4_ERROR_ARGUMENT_PRIMARY_MISSING
  else do! hex_dump printf (fun a => on_memory (load8 a)) junk data size in ret PS4_OK.

(** ** stream.c *)

(** [*file] is the second component; NULL when no stream was made. *)
Definition ps4StreamOpenFileDuplicate (file : out) (fd : Z) (mode : out) : U (Z * option Z) :=
  match file, mode with
  | ONull, _ => ret (PS4_ERROR_ARGUMENT_PRIMARY_MISSING, None)
  | OPtr, ONull => ret (PS4_ERROR_ARGUMENT_MISSING, None)
  | OPtr, OPtr =>
      let! t := dup fd in
      if t <? 0 then ret (PS4_ERROR_INTERNAL_ERROR, None)
      else
        let! r := gets (fun s => fdopen_stream s t) in
        do! (if r =? NULL then do! close t in ret tt else ret tt) in
        ret (PS4_OK, Some r)
  end.

(** ** socket.c *)

(** The options are set without a look at the result. *)
Definition ps4SocketTCPServerCreate (oserver : out) (port backlog : Z) : U (Z * option Z) :=
  match oserver with
  | ONull => ret (PS4_ERROR_ARGUMENT_PRIMARY_MISSING, None)
  | OPtr =>
      let! server := open_file in
      if server <? 0 then ret (-1, None)
      else
        let! r := gets (fun s => bind_result s server (any_address port)) in
        if r <? 0 then do! close server in ret (-2, None)
        else
          let! r := gets (fun s => listen_result s server backlog) in
          if r <? 0 then do! close server in ret (-3, None)
          else ret (PS4_OK, Some server)
  end.

Definition ps4SocketTCPServerCreateAcceptThenDestroy (oclient : out) (port : Z) : U (Z * option Z) :=
  match oclient with
  | ONull => ret (PS4_ERROR_ARGUMENT_PRIMARY_MISSING, None)
  | OPtr =>
      let! s := ps4SocketTCPServerCreate OPtr port 1 in
      if negb (fst s =? PS4_OK) then ret (fst s, None)
      else
        let server := default 0 (snd s) in
        let! client := open_file in
        do! close server in
        if client <? 0 then ret (client, Some client) else ret (PS4_OK, Some client)
  end.
End UserIo.

(** ** Redirection *)

Section Redirect.
Context `{HS : UserSystem}.

Lemma set_fds_same s : set_fds (fds s) s = s.
Proof. by destruct s. Qed.

Lemma lowest_free_at (t : gmap Z Z) i n : t !! i = None -> lowest_free t i n = i.
Proof. intros Hi. destruct n; cbn [lowest_free]; by rewrite ?Hi. Qed.

Lemma lowest_free_step (t : gmap Z Z) i n : is_Some (t !! i) -> lowest_free t i (S n) = lowest_free t (i + 1) n.
Proof. intros [o Ho]. cbn [lowest_free]. by rewrite Ho. Qed.

(** With the descriptors below [k] open, there are at least [k] of them. *)
Lemma open_below (t : gmap Z Z) (k : nat) : (forall j, 0 <= j < Z.of_nat k -> is_Some (t !! j)) -> (k <= size t)%nat.
Proof.
  intros Hj. rewrite <- size_dom.
  assert (list_to_set (Z.of_nat <$> seq 0 k) ⊆ dom t) as Hs.
  { intros x Hx. apply elem_of_list_to_set, list_elem_of_fmap in Hx as (y & -> & Hy%elem_of_seq). apply elem_of_dom, Hj. lia. }
  apply subseteq_size in Hs. rewrite size_list_to_set in Hs by (apply NoDup_fmap; [apply Nat2Z.inj' | apply NoDup_seq]).
  by rewrite length_fmap, length_seq in Hs.
Qed.

Lemma lowest_free_hole (t : gmap Z Z) (k : nat) n :
  (forall j, 0 <= j < Z.of_nat k -> is_Some (t !! j)) -> t !! Z.of_nat k = None -> (k <= n)%nat -> lowest_free t 0 n = Z.of_nat k.
Proof.
  intros Hj Hk Hn. assert (forall m, (m <= k)%nat -> lowest_free t (Z.of_nat (k - m)) (n - (k - m)) = Z.of_nat k) as Hm.
  - induction m as [|m IH]; intros Hmk; [rewrite Nat.sub_0_r; by apply lowest_free_at|].
    replace (n - (k - S m))%nat with (S (n - (k - m))) by lia. rewrite lowest_free_step by (apply Hj; lia).
    replace (Z.of_nat (k - S m) + 1) with (Z.of_nat (k - m)) by lia. apply IH. lia.
  - specialize (Hm k ltac:(lia)). by rewrite Nat.sub_diag, Nat.sub_0_r in Hm.
Qed.

(** What is given out is not open. *)
Lemma lowest_free_fresh (t : gmap Z Z) n : forall k : nat,
  (forall j, 0 <= j < Z.of_nat k -> is_Some (t !! j)) -> (size t <= k + n)%nat -> 0 <= lowest_free t (Z.of_nat k) n /\ t !! lowest_free t (Z.of_nat k) n = None.
Proof.
  induction n as [|n IH]; intros k Hj Hs; cbn [lowest_free]; destruct (t !! Z.of_nat k) as [o|] eqn:Ek; try (split; [lia | done]).
  - exfalso. assert (S k <= size t)%nat; [|lia]. apply open_below. intros j Hjk. destruct (decide (j = Z.of_nat k)) as [->|]; [done | apply Hj; lia].
  - replace (Z.of_nat k + 1) with (Z.of_nat (S k)) by lia. apply IH; [|lia].
    intros j Hjk. destruct (decide (j = Z.of_nat k)) as [->|]; [done | apply Hj; lia].
Qed.

(** Closing [i] and duplicating [to] puts [to]'s file at [i]. *)
Lemma redirect_one_run s to (i : nat) o :
  0 < to -> fds s !! to = Some o -> Z.of_nat i < open_max -> (forall j, 0 <= j <= Z.of_nat i -> is_Some (fds s !! j)) ->
  redirect_one to (Z.of_nat i) s = Some (tt, set_fds (<[Z.of_nat i := o]> (fds s)) s).
Proof.
  intros Ht Ho Hm Hj. unfold redirect_one. destruct (Z.eqb_spec (Z.of_nat i) to) as [E|Hne].
  { by rewrite E, insert_id, set_fds_same. }
  destruct (Hj (Z.of_nat i) ltac:(lia)) as [oi Hoi]. rewrite (proj2 (Z.ltb_lt 0 to) Ht).
  erewrite bind_some by (unfold close; rewrite Hoi; reflexivity).
  set (t := delete (Z.of_nat i) (fds s)). assert (t !! to = Some o) as Ho' by (unfold t; by rewrite lookup_delete_ne).
  assert (lowest_free t 0 (size t) = Z.of_nat i) as El.
  { assert (forall j, 0 <= j < Z.of_nat i -> is_Some (t !! j)) as Hb by (intros j Hji; unfold t; rewrite lookup_delete_ne by lia; apply Hj; lia).
    apply lowest_free_hole; [done | apply lookup_delete_eq | by apply open_below]. }
  erewrite bind_some; [reflexivity|]. unfold dup, install. cbn [fds set_fds]. fold t. rewrite Ho', El, (proj2 (Z.ltb_lt _ open_max) Hm).
  unfold t. rewrite insert_delete_eq. reflexivity.
Qed.

(** C29. Redirecting the standard streams to an open descriptor makes standard
    input, output and error that file and leaves every other descriptor, and
    the rest of the process, as it was. *)
Theorem redirect_standard_streams s to o :
  0 < to -> fds s !! to = Some o -> 2 < open_max -> is_Some (fds s !! 0) -> is_Some (fds s !! 1) -> is_Some (fds s !! 2) ->
  exists t, ps4StandardIoRedirect to s = Some (tt, set_fds t s) /\
    (forall i, 0 <= i <= 2 -> t !! i = Some o) /\ forall i, 2 < i \/ i < 0 -> t !! i = fds s !! i.
Proof.
  intros Ht Ho Hm H0 H1 H2. unfold ps4StandardIoRedirect.
  set (t0 := <[0 := o]> (fds s)). set (t1 := <[1 := o]> t0). set (t2 := <[2 := o]> t1).
  assert (forall t : gmap Z Z, forall i, t !! to = Some o -> <[i := o]> t !! to = Some o) as Hto
    by (intros t i Hx; destruct (decide (i = to)) as [->|]; [apply lookup_insert_eq | by rewrite lookup_insert_ne]).
  assert (forall i, 0 <= i <= 2 -> is_Some (fds s !! i)) as Hs
    by (intros i Hi; destruct (decide (i = 0)) as [->|]; [done|]; destruct (decide (i = 1)) as [->|]; [done|]; by replace i with 2 by lia).
  assert (forall (t : gmap Z Z) i j, is_Some (t !! j) -> is_Some (<[i := o]> t !! j)) as Hk
    by (intros t i j Hx; rewrite lookup_insert; by case_decide).
  exists t2. split; [|split].
  - erewrite bind_some by (apply (redirect_one_run s to 0 o); [done | done | lia | intros j Hj; apply Hs; lia]).
    change (Z.of_nat 0) with 0. fold t0.
    erewrite bind_some by (apply (redirect_one_run (set_fds t0 s) to 1 o); [done | by apply Hto | lia | intros j Hj; apply Hk, Hs; lia]).
    apply (redirect_one_run (set_fds t1 s) to 2 o); [done | by apply Hto, Hto | lia | intros j Hj; apply Hk, Hk, Hs; lia].
  - intros i Hi. unfold t2, t1, t0. rewrite !lookup_insert. repeat case_decide; [done..|lia].
  - intros i Hi. unfold t2, t1, t0. by rewrite !lookup_insert_ne by lia.
Qed.

(** When no stream can be made of the duplicate, the duplicate is closed
    again, the process is as it was, and the caller is told PS4_OK with a null
    stream. *)
Theorem stream_failure_is_ok s fd o :
  fds s !! fd = Some o -> lowest_free (fds s) 0 (size (fds s)) < open_max ->
  (forall s' t, fdopen_stream s' t = NULL) ->
  ps4StreamOpenFileDuplicate OPtr fd OPtr s = Some ((PS4_OK, Some NULL), s).
Proof.
  intros Ho Hm Hs. destruct (lowest_free_fresh (fds s) (size (fds s)) 0 ltac:(lia) ltac:(lia)) as [H0 Hf]. change (Z.of_nat 0) with 0 in *. unfold ps4StreamOpenFileDuplicate. set (t := lowest_free _ _ _) in *.
  erewrite bind_some by (unfold dup, install; rewrite Ho; fold t; rewrite (proj2 (Z.ltb_lt t open_max) Hm); reflexivity).
  rewrite (proj2 (Z.ltb_ge t 0) H0). erewrite bind_some by reflexivity. rewrite Hs. change (NULL =? NULL) with true. cbv iota.
  erewrite bind_some by (erewrite bind_some by (unfold close; cbn [fds set_fds]; rewrite lookup_insert_eq; reflexivity); reflexivity).
  cbn [fds set_fds]. rewrite delete_insert_id by done. by destruct s.
Qed.
End Redirect.

(** ** Hex dumps *)

(** C28. The hex dump of mapped memory prints a table and changes nothing else:
    for each sixteen bytes a row of its address, the bytes in hexadecimal with
    a gap in the middle and blanks where the last row ends early, and the bytes
    as characters, a dot for each that is not printable or missing. What the
    row buffer held before does not show. *)
Theorem print_hex_dump_table s junk data l :
  data <> NULL -> l <> [] -> length junk = 16%nat -> mem_read (mem (proc s)) data (length l) = Some l ->
  ps4StandardIoPrintHexDump junk data (length l) s = Some (PS4_OK, set_output (output s ++ rows (length l) data l) s).
Proof.
  intros Hd Hl Hj Hm. unfold ps4StandardIoPrintHexDump. rewrite (proj2 (Z.eqb_neq data NULL) Hd).
  destruct (hex_dump_simulates printf (fun a => on_memory (load8 a)) output (fun s' => s' = set_output (output s') s) data l) with (junk := junk) (s := s)
    as (s' & E & Hs' & Ho); try done.
  - intros t s0 r o' Hs0 [= <- <-]. eexists. split; [reflexivity|]. by rewrite Hs0.
  - intros i Hi s0 r o' Hs0 Ef. unfold fetch in Ef. replace (data + i - data) with i in Ef by lia. destruct (l !! Z.to_nat i) as [d|] eqn:El; [|done]. injection Ef as <- <-.
    exists s0. split; [|done]. apply mem_read_Some in Hm as [_ Hm]. pose proof (Hm _ (lookup_lt_Some _ _ _ El)) as Ha. rewrite El, Z2Nat.id in Ha by done.
    unfold on_memory. rewrite Hs0. cbn [proc set_output]. rewrite (load8_run _ _ _ Ha). done.
  - by destruct s.
  - erewrite bind_some by exact E. by rewrite Hs', Ho.
Qed.

(** ** Witnesses *)

#[local] Existing Instance reference_system.

(** Standard input, output and error and one more open file; four bytes at
    0x1000. *)
Definition io_example : process :=
  Process (booted [(0x1000, [1; 72; 105; 255])] [] []) (<[0 := 7]> (<[1 := 8]> (<[2 := 9]> (<[5 := 10]> ∅)))) ∅ ∅ ∅ ∅ [].

Lemma redirect_standard_streams_witness :
  exists t, ps4StandardIoRedirect 5 io_example = Some (tt, set_fds t io_example) /\ t !! 2 = Some 10.
Proof.
  destruct (redirect_standard_streams io_example 5 10) as (t & E & H & _); [done | done | done | by eexists | by eexists | by eexists |].
  exists t. split; [done | by apply H].
Defined.

Lemma stream_failure_is_ok_witness : ps4StreamOpenFileDuplicate OPtr 5 OPtr io_example = Some ((PS4_OK, Some NULL), io_example).
Proof. by apply (stream_failure_is_ok io_example 5 10). Defined.

Lemma print_hex_dump_table_witness :
  ps4StandardIoPrintHexDump (repeat 0 16) 0x1000 4 io_example =
  Some (PS4_OK, set_output (row 0x1000 [1; 72; 105; 255]) io_example).
Proof.
  etransitivity; [apply (print_hex_dump_table io_example (repeat 0 16) 0x1000 [1; 72; 105; 255]); [done | done | done | vm_compute; reflexivity]|].
  vm_compute. reflexivity.
Defined.
